(* ===== verification/_CoqProject ===== *)
-Q . S2P
Prelude.v
GoFloat.v
FloatRound.v
FloatOrder.v
Price.v
FloatExact.v
GoStrings.v
GoTime.v
Orders.v
OrderRepo.v
OCOTypes.v
Broker.v
OCOHandlers.v
OCOManager.v
OCOInvariants.v
OCOProperties.v
OCOReload.v
Trailing.v
RuleModels.v
ConfigStore.v
ConfigSync.v
Matcher.v
RuleEngine.v
RuleHandler.v
OrderQueries.v
Indira.v
Signals.v
Executor.v
PriceMonitor.v
PriceWatch.v
PriceTrigger.v
SignalProcessor.v
SquareOff.v
StrategyEvents.v
MLTypes.v
MLManager.v
MLPosition.v
MLInvariant.v
MLProperties.v
UCModels.v
UCRepo.v
UCWorker.v
UCService.v
UCTx.v
UCInvariant.v
UCEffects.v
UCEngine.v
UCEndToEnd.v
UCSamples.v
UCProperties.v
UCChain.v
UCPoison.v
UCRaces.v
UCServiceProps.v
UCEod.v
PaperPrices.v
PaperMonitor.v
PaperTrail.v
PaperExits.v
PaperML.v
TableFacts.v
LiveExit.v
LiveOCO.v
OrderServer.v
GatewayHttp.v
Gateway.v
GoParse.v
StatusService.v
StatusProps.v
Risk.v
Positions.v
Credentials.v
Recovery.v
BrokerSocket.v
MarketFeed.v
WSHub.v
Views.v
NewsEvent.v
Ingestion.v
SignalConsumer.v
