(* ===== verification/Prelude.v ===== *)
(** * Verification of the Algo-Treading trading system: root and prelude

    The repository is a set of Go services that trade on news.  This library models
    their logic as Rocq functions and step relations, file by file, and proves what the
    parts promise, alone and together.  This comment is the guide; the rest of the file
    is the prelude every other file requires.


    ** The program

    News is inserted into a MongoDB collection.  [services/data-ingestion] filters and
    enriches it and publishes it to Kafka.  [services/rules-engine] matches every event
    against the active strategies of all users and publishes trade signals.
    [services/trade-execution] turns a signal into an order, on paper or at the broker,
    protects the position with stop-losses and targets, follows what the broker reports,
    and closes positions at the end of the day or on demand.  [services/user-config]
    stores the strategies and tells the others about them through an outbox and Kafka.
    [services/risk-management] checks orders against limits kept in Redis.
    [api/gateway] authenticates clients and forwards their requests.  [pkg] holds what
    the services share: the broker's SDK, encryption, clients of databases and queues.


    ** The files

    Go itself.  [GoFloat]: float64 as [SpecFloat] computes it; [FloatRound],
    [FloatOrder], [FloatExact]: what rounding, comparison and division guarantee;
    [Price]: [roundNSE] and the tick grid; [GoStrings], [GoTime], [GoParse]: the parts
    of [strings], [strconv], [fmt] and [time] the services use.

    News to signal.  [Ingestion]: the filter, company data, deduplication and goroutines
    of [data-ingestion/internal]; [NewsEvent]: the message as
    [rules-engine/internal/models/mongodb_event.go] reads it; [RuleModels]: the engine's
    data; [ConfigStore]: snapshots and the single writer ([configstore]); [ConfigSync]:
    events, mapping, consumers, bulk load ([configsync], [startup], [kafka]);
    [Matcher]: [matcher]; [RuleEngine]: deduplication and the pool ([engine]);
    [RuleHandler]: [consumer/handler.go] with market hours, market data and the daily
    limits of [repository/trade_signal_repository.go].

    Orders.  [Orders], [OrderRepo], [OrderQueries], [TableFacts]: [models/order.go] and
    [repository/order_repository.go] on one table; [Signals]: [models/execution.go];
    [SignalConsumer]: [consumer/kafka_consumer.go] and [workerpool]; [SignalProcessor],
    [Executor]: [executor/*.go]; [Indira]: [indira/client.go] and [pkg/indira/utils.go];
    [Broker]: the interfaces of broker and credentials; [OrderServer]:
    [server/grpc_server.go].

    Protection.  [OCOTypes], [OCOHandlers], [OCOManager], [OCOReload], [Trailing]:
    [oco/types.go], [manager.go], [trailing.go], with [OCOInvariants] and
    [OCOProperties]; [MLTypes], [MLManager], [MLPosition], [MLInvariant],
    [MLProperties]: [multilevel/*.go]; [PriceMonitor], [PriceWatch], [PriceTrigger]:
    [scheduler/price_monitor.go]; [SquareOff]: [scheduler/auto_square_off.go] and
    [position_check.go]; [StrategyEvents]: [consumer/strategy_events_consumer.go].

    Paper.  [PaperPrices], [PaperMonitor], [PaperTrail], [PaperExits], [PaperML]:
    [paper/market_client.go], [redis_price_client.go], [monitor.go].

    Broker and frontend.  [BrokerSocket]: [pkg/indira/websocket.go]; [StatusService],
    [StatusProps]: [statusservice/service.go]; [MarketFeed]: [marketws/client.go];
    [Recovery]: what [cmd/main.go] restores at the start; [LiveExit], [LiveOCO],
    [Positions], [WSHub], [Views]: the handlers, streams and connections of
    [paper/ws_server.go]; [Credentials]: [pkg/crypto], both credentials repositories and
    the cache.

    Strategies.  [UCModels], [UCRepo], [UCWorker], [UCService]: models, repository,
    outbox and service of [user-config/internal]; [UCTx], [UCInvariant], [UCEffects],
    [UCEngine], [UCEndToEnd], [UCProperties], [UCChain], [UCRaces], [UCPoison],
    [UCServiceProps], [UCEod]: their theorems, from one transaction to the agreement
    with the rules engine; [UCSamples]: concrete instances.

    Limits and gateway.  [Risk]: [risk-management/internal]; [GatewayHttp], [Gateway]:
    middleware, router, handlers and proxies of [api/gateway/internal].

    A component has its own names for the source's functions.  State is a record, a
    pointer that the source shares is a key into a heap, [f x = None] is a panic or a
    step that is not possible, an error is the text the source returns or a constructor
    per kind.  A nondeterminism of the program (what a broker, a database, a clock or a
    scheduler answers) is an argument or an interface with laws, and every interface
    has an instance.


    ** What the theorems show

    - Protection of positions: at most three placements of one order for each leg and
      none after the one that is acknowledged, legs on the right side of the fill,
      trailing stops that only move one way while evaluations do not overlap, exits of
      a multi-level position that always add up to what was filled, and validated
      levels ([OCOInvariants.one_leg_run_per_role], [OCOProperties.trailing_ratchet],
      [PaperTrail.paper_trail_ratchets], [MLProperties.paper_position_conserved],
      [UCServiceProps.multi_level_config_exact]).
    - Nothing twice, nothing lost: one execution for a watch, one acceptance for an
      order, the first exit wins, one publication of a document in an hour, every
      fetched signal in one place; and where something is lost, under which schedule
      ([PriceTrigger.triggered_at_most_once], [Executor.live_execution_accepts_once],
      [OrderQueries.first_exit_wins], [Ingestion.published_once_an_hour],
      [SignalConsumer.failed_signal_is_lost]).
    - Refinement of simple specifications: the sharded index is a map, the configuration
      store a map with versions, the feed's reference counts a multiset, and the whole
      chain from a strategy row to the rules engine a synchronous write
      ([PriceWatch.index_refines_map], [ConfigStore.config_store_refines],
      [MarketFeed.feed_refines_bag], [UCChain.active_rows_reach_engine]).
    - Composition of services: news reaches the engine as a valid event, credentials of
      an activation are those of the next order, a restart takes over what the broker
      lists and loads the strategies the service lists, a deactivation is final
      ([Ingestion.news_reaches_engine], [Credentials.activation_reaches_orders],
      [Recovery.reconcile_agrees], [ConfigSync.startup_load_exact],
      [StrategyEvents.deactivation_is_final]).
    - Evaluation and accounting: every test made once, daily limits kept but for signals
      that could not be saved, messages in any order give the same filled quantity,
      attributed positions add up.
    - A theorem states the conditions it needs; where the program does not keep one of
      them, an example or a theorem of the same file shows what happens then.
    - Errors: what a failure leaves behind, among them the retry that suspends the
      broker's socket and limits that never fire
      ([BrokerSocket.failed_dial_suspends], [Risk.losses_and_holdings_never_count]).


    ** The grain of the steps

    OCO manager: a section under a group's mutex is atomic; the unlocked write that ends
    [cancelLeg] is a step of its own; the retries of one leg are one step.  The lock of
    the registry and logging are left out.  Rules engine: the pool is a step relation;
    JSON is given decoded, a match reads the clock once, the order of map iterations and
    of workers is an argument.  Executor: background writes are log entries.  Price
    monitor: evaluations and triggers are tasks in any order, an execution is one step,
    [CancelWatch] finds and removes in one step, [UnwatchByStrategy] is atomic, and
    notifications to Kafka are left out.  Signal processor: the exit managers are
    interfaces.  Square-off: a tick is one step for other writers, with its own clock
    readings and fresh ids.  Strategy events: one clock reading for each event, in the
    order of the lists.  Multi-level exits: goroutines are tasks in any order, a pending
    evaluation claims its group, the shards are one map; failed level statements are
    ignored as in the code; ties of [ORDER BY] are resolved by a stable sort.

    User configuration: a transaction works on a copy, [Io] says which statements fail,
    a round of the outbox is one step, [NUMERIC(20,4)] and the text of ids are
    parameters, and the engine starts empty and reads the whole topic.  Status service:
    the messages of one id are handled one after the other.  Risk: Redis is a typed map;
    printing of floats, patterns and [INCRBYFLOAT] are parameters.  Paper monitor: an
    exit is one step, other goroutines are tasks.  Live exits: cancellations run in the
    order of the rows.  Positions: the orders in which Go ranges over its maps and the
    JSON of stored messages are arguments.  Credentials: AES-GCM is a pair of functions
    with the law that opening inverts sealing; nonces are a list; a cache miss is a load
    and a later store.  Recovery: reading a row and updating it is one step.  Broker
    socket: a branch of the [select] is one step, with what others do during its network
    calls.  Feed and connections: sections under a lock and operations of a [sync.Map]
    are steps.  Ingestion: extended JSON is an interface with laws; a goroutine is one
    step.  Signal consumer: channel operations and processed messages are steps, on one
    partition.  A time is a number of nanoseconds; a reading of the clock for a log is
    left out.


    ** Bounds and fuel

    Prices are positive and at most 10^9, ticks below 2^34, filled quantities below 2^30
    (2^29 for multi-level positions), sums of percentages at most 512 with at most five
    whole percentages from 1 to 100 on a side; the product of price and quantity behind
    an average stays below 2^53; position splits take quantities below 2^52.  These are
    hypotheses of the theorems that need exact floats, far above what the exchange
    allows.  Columns of type DECIMAL are read and written as the float they hold, without
    the rounding of the database to two or four places.  Integers of 32 and 64 bits wrap with [int32] and [int64].  Versions of
    strategies stay below 2^31.  Loops of the source that are bounded are recursions on
    their bound ([maxRetries], [maxLegPlacementRetries], the batch of 50 of the outbox);
    the paging of the bulk load has fuel, and a theorem says how much is enough.


    ** What is not modelled

    Construction and shutdown of the processes, configuration from the environment,
    logging and metrics, the HTTP client of the broker and the network connections, the
    headers and the audit log of the gateway and its relay of Redis messages, the copy
    of ticks for analysis, and the order schema of version 2, which no service uses.
    They decide nothing the theorems depend on; where a component relies on what they
    answer, that answer is an argument.  Documents, scripts and database migrations are
    read only where a statement refers to them. *)

From stdpp Require Import base gmap strings list fin_maps.
From Stdlib Require Import ZArith Lia.

(** ** Functional update of record fields

    A Go struct is a [Record]; an assignment [g.State = v] is
    [set State (fun _ => v) g], written [g <| State := v |>].  The updater of a
    field is computed from the eta-expansion of the record, so that a record is
    listed once. *)

Class Eta (R : Type) := eta : R -> R.

Class Updater {R T : Type} (field : R -> T) := set : (T -> T) -> R -> R.

Arguments set {R T} field {_} _ _ /.

Ltac build_updater :=
  lazymatch goal with
  | |- @Updater ?R ?T ?field =>
      let i := constr:(_ : Eta R) in
      let e := eval hnf in i in
      let p := eval pattern field in e in
      lazymatch p with
      | ?abs field =>
          let body := eval cbv beta in
            (fun (upd : T -> T) (r : R) => abs (fun x => upd (field x)) r) in
          exact body
      end
  end.

#[export] Hint Extern 1 (Updater _) => build_updater : typeclass_instances.

Declare Scope go_scope.
Delimit Scope go_scope with go.

Notation "r <| f := v |>" := (set f (fun _ => v) r)
  (at level 12, f at next level, v at level 200, left associativity,
   format "r  <| f  :=  v |>") : go_scope.

(** ** Go's machine integers

    An [int32] or [int64] is the [Z] it denotes; arithmetic wraps modulo a
    power of two into the signed range, and [/] truncates towards zero. *)

Definition wrap_signed (w z : Z) : Z :=
  ((z + 2 ^ (w - 1)) mod 2 ^ w - 2 ^ (w - 1))%Z.

Definition int32 (z : Z) : Z := wrap_signed 32 z.

Definition int64 (z : Z) : Z := wrap_signed 64 z.

Definition in_int32 (z : Z) : Prop := (- 2 ^ 31 <= z < 2 ^ 31)%Z.

Definition in_int64 (z : Z) : Prop := (- 2 ^ 63 <= z < 2 ^ 63)%Z.

(** [uuid.UUID]: 128 bits; [uuid.Nil], the zero value, is 0. *)
Abbreviation uuid := N.

(** ** Effectful code

    A Go function that reads and writes the state [W] and may panic; [None] is
    the panic, which ends the process.  The notations are stdpp's. *)
Definition Go (W A : Type) : Type := W -> option (A * W).

#[export] Instance go_ret W : MRet (Go W) := fun A a w => Some (a, w).

#[export] Instance go_bind W : MBind (Go W) := fun A B k m w =>
  match m w with
  | Some (a, w') => k a w'
  | None => None
  end.

Definition panic {W A : Type} : Go W A := fun _ => None.

Definition gets {W A : Type} (f : W -> A) : Go W A := fun w => Some (f w, w).

Definition modify {W : Type} (f : W -> W) : Go W unit := fun w => Some (tt, f w).

Definition forM {W A : Type} (l : list A) (f : A -> Go W unit) : Go W unit :=
  foldr (fun a k => f a ;; k) (mret tt) l.

(** ** Lemmas shared by the components *)

Lemma wrap_signed_id w z :
  (0 < w)%Z -> (- 2 ^ (w - 1) <= z < 2 ^ (w - 1))%Z -> wrap_signed w z = z.
Proof.
  intros Hw Hz. unfold wrap_signed.
  assert (H2 : (2 ^ w = 2 * 2 ^ (w - 1))%Z).
  { rewrite <- Z.pow_succ_r by lia. f_equal. lia. }
  rewrite Z.mod_small by lia. lia.
Qed.

Lemma int32_id z : in_int32 z -> int32 z = z.
Proof. intros H. apply wrap_signed_id; unfold in_int32 in H; lia. Qed.

Lemma int64_id z : in_int64 z -> int64 z = z.
Proof. intros H. apply wrap_signed_id; unfold in_int64 in H; lia. Qed.

Lemma wrap_signed_range w z :
  (0 < w)%Z -> (- 2 ^ (w - 1) <= wrap_signed w z < 2 ^ (w - 1))%Z.
Proof.
  intros Hw. unfold wrap_signed.
  assert (H2 : (2 ^ w = 2 * 2 ^ (w - 1))%Z).
  { rewrite <- Z.pow_succ_r by lia. f_equal. lia. }
  assert (0 < 2 ^ (w - 1))%Z by (apply Z.pow_pos_nonneg; lia).
  pose proof (Z.mod_pos_bound (z + 2 ^ (w - 1)) (2 ^ w) ltac:(lia)). lia.
Qed.

Lemma int32_range z : in_int32 (int32 z).
Proof. pose proof (wrap_signed_range 32 z ltac:(lia)) as H. exact H. Qed.

Lemma int64_range z : in_int64 (int64 z).
Proof. pose proof (wrap_signed_range 64 z ltac:(lia)) as H. exact H. Qed.

(** ** Automation *)

(** The development's hint database: frame and bound lemmas of the components. *)
Create HintDb go discriminated.

#[export] Hint Resolve int32_range int64_range : go.

(** Split every [if], [match] and boolean conjunction of the context or goal
    and drop the impossible cases. *)
Ltac bool_to_prop :=
  repeat match goal with
  | H : (_ && _) = true |- _ => apply andb_prop in H; destruct H
  | H : (_ || _) = false |- _ => apply orb_false_elim in H; destruct H
  | H : negb _ = true |- _ => apply negb_true_iff in H
  | H : negb _ = false |- _ => apply negb_false_iff in H
  | H : Is_true _ |- _ => apply Is_true_true in H
  | H : bool_decide _ = true |- _ => apply bool_decide_eq_true in H
  | H : bool_decide _ = false |- _ => apply bool_decide_eq_false in H
  | H : String.eqb _ _ = true |- _ => apply String.eqb_eq in H
  | H : String.eqb _ _ = false |- _ => apply String.eqb_neq in H
  end.

Ltac split_matches :=
  bool_to_prop; simplify_eq/=; try done;
  repeat (case_match; bool_to_prop; simplify_eq/=; try done).

(** ** Rules of the effectful code

    [go_inv m P]: every run of [m] that does not panic relates the states before
    and after by [P] and gives a result with it. *)

Definition go_post {W A : Type} (m : Go W A) (P : W -> A -> W -> Prop) : Prop :=
  forall w a w', m w = Some (a, w') -> P w a w'.

Lemma go_post_ret {W A} (a : A) (P : W -> A -> W -> Prop) :
  (forall w, P w a w) -> go_post (mret a) P.
Proof. intros H w b w' [= <- <-]. apply H. Qed.

Lemma go_post_panic {W A} (P : W -> A -> W -> Prop) : go_post panic P.
Proof. by intros w a w'. Qed.

Lemma go_post_gets {W A} (f : W -> A) (P : W -> A -> W -> Prop) :
  (forall w, P w (f w) w) -> go_post (gets f) P.
Proof. intros H w b w' [= <- <-]. apply H. Qed.

Lemma go_post_modify {W} (f : W -> W) (P : W -> unit -> W -> Prop) :
  (forall w, P w tt (f w)) -> go_post (modify f) P.
Proof. intros H w b w' [= <- <-]. apply H. Qed.

Lemma go_post_weaken {W A} (m : Go W A) (P Q : W -> A -> W -> Prop) :
  go_post m P -> (forall w a w', P w a w' -> Q w a w') -> go_post m Q.
Proof. intros H HPQ w a w' E. eauto. Qed.

Lemma go_bind_inv {W A B} (m : Go W A) (k : A -> Go W B) w b w' :
  (m ≫= k) w = Some (b, w') -> exists a w1, m w = Some (a, w1) /\ k a w1 = Some (b, w').
Proof. unfold mbind, go_bind. intros H. destruct (m w) as [[a w1]|]; [eauto|done]. Qed.

(** A relation that is reflexive and transitive goes through the monad. *)
Lemma go_post_bind {W A B} (R : relation W) `{!PreOrder R} (m : Go W A) (k : A -> Go W B) :
  go_post m (fun w _ w' => R w w') ->
  (forall a, go_post (k a) (fun w _ w' => R w w')) ->
  go_post (m ≫= k) (fun w _ w' => R w w').
Proof.
  intros Hm Hk w b w' E. apply go_bind_inv in E as (a & w1 & E1 & E2).
  etrans; [by eapply Hm|by eapply Hk].
Qed.

Lemma go_post_forM {W A} (R : relation W) `{!PreOrder R} (l : list A) (f : A -> Go W unit) :
  (forall a, go_post (f a) (fun w _ w' => R w w')) ->
  go_post (forM l f) (fun w _ w' => R w w').
Proof.
  intros Hf. induction l as [|a l IH]; cbn.
  - apply go_post_ret. reflexivity.
  - apply (go_post_bind R); [apply Hf|auto].
Qed.
