(* ===== verification/GoFloat.v ===== *)
(** * Go's float64 and float32

    [float64] is IEEE 754 binary64.  The operations are those of the Standard
    Library's [SpecFloat] (round to nearest, ties to even) at precision 53 and
    maximal exponent 1024, which is what Go's [+ - * /] compute on amd64 (no
    fused multiply-add there).  Decimal literals and constant expressions are
    exact in Go and rounded once, which is [dec].  [f64_to_int64] is Go's
    conversion on amd64: truncation, and the minimal int64 when the value is not
    a number or does not fit. *)

From stdpp Require Import base.
From Stdlib Require Import ZArith Lia SpecFloat.
From S2P Require Import Prelude.

Open Scope Z_scope.

Abbreviation f64 := spec_float.

Abbreviation prec := 53%Z.
Abbreviation emax := 1024%Z.

Definition fadd (x y : f64) : f64 := SFadd prec emax x y.
Definition fsub (x y : f64) : f64 := SFsub prec emax x y.
Definition fmul (x y : f64) : f64 := SFmul prec emax x y.
Definition fdiv (x y : f64) : f64 := SFdiv prec emax x y.
Definition fneg (x : f64) : f64 := SFopp x.
Definition fabs (x : f64) : f64 := SFabs x.
Definition flt (x y : f64) : bool := SFltb x y.
Definition fle (x y : f64) : bool := SFleb x y.
Definition feq (x y : f64) : bool := SFeqb x y.

Definition fzero : f64 := S754_zero false.

(** [float64(z)] for an integer [z]. *)
Definition of_Z (z : Z) : f64 := binary_normalize prec emax z 0 false.

(** The constant [m / 10^k], for [m < 2^53] and [k <= 22]: both operands are
    exact, so the quotient is the correctly rounded literal. *)
Definition dec (m k : Z) : f64 := fdiv (of_Z m) (of_Z (10 ^ k)).

(** The integer part of a finite value, rounded towards zero. *)
Definition trunc (x : f64) : option Z :=
  match x with
  | S754_zero _ => Some 0
  | S754_finite s m e =>
      let a := if 0 <=? e then Z.pos m * 2 ^ e else Z.pos m / 2 ^ (- e) in
      Some (if s then - a else a)
  | _ => None
  end.

(** [int64(x)]. *)
Definition f64_to_int64 (x : f64) : Z :=
  match trunc x with
  | Some z => if (- 2 ^ 63 <=? z) && (z <? 2 ^ 63) then z else - 2 ^ 63
  | None => - 2 ^ 63
  end.

(** [int32(x)]: likewise at 32 bits. *)
Definition f64_to_int32 (x : f64) : Z :=
  match trunc x with
  | Some z => if (- 2 ^ 31 <=? z) && (z <? 2 ^ 31) then z else - 2 ^ 31
  | None => - 2 ^ 31
  end.

(** [math.Round]: to the nearest integer, halves away from zero. *)
Definition math_Round (x : f64) : f64 :=
  match x with
  | S754_finite s m e =>
    if 0 <=? e then x
    else
      let n := (2 * Z.pos m + 2 ^ (- e)) / 2 ^ (1 - e) in
      if n =? 0 then S754_zero s else of_Z (if s then - n else n)
  | _ => x
  end.

(** [math.Floor]. *)
Definition math_Floor (x : f64) : f64 :=
  match x with
  | S754_finite s m e =>
    if 0 <=? e then x
    else
      let a := Z.pos m / 2 ^ (- e) in
      let n := if s then (if Z.pos m mod 2 ^ (- e) =? 0 then - a else - a - 1) else a in
      if n =? 0 then S754_zero s else of_Z n
  | _ => x
  end.

(** [float64(math.Float32frombits(bits))]: every binary32 value is a binary64
    value, so the widening is exact. *)
Definition f32_bits_to_f64 (bits : Z) : f64 :=
  let s := Z.testbit bits 31 in
  let ex := Z.land (Z.shiftr bits 23) 255 in
  let mant := Z.land bits (2 ^ 23 - 1) in
  if ex =? 255 then
    (if mant =? 0 then S754_infinity s else S754_nan)
  else if ex =? 0 then
    match mant with
    | Zpos m => binary_round prec emax s m (- 149)
    | _ => S754_zero s
    end
  else
    match mant + 2 ^ 23 with
    | Zpos m => binary_round prec emax s m (ex - 150)
    | _ => S754_zero s
    end.

Declare Scope f64_scope.
Delimit Scope f64_scope with f64.
Infix "+" := fadd : f64_scope.
Infix "-" := fsub : f64_scope.
Infix "*" := fmul : f64_scope.
Infix "/" := fdiv : f64_scope.
Notation "x <? y" := (flt x y) : f64_scope.
Notation "x <=? y" := (fle x y) : f64_scope.
Notation "x >? y" := (flt y x) (at level 70, only parsing) : f64_scope.
Notation "x >=? y" := (fle y x) (at level 70, only parsing) : f64_scope.
Notation "x =? y" := (feq x y) : f64_scope.
