(* ===== verification/FloatRound.v ===== *)
(** * Rounding of binary64: correctness and monotonicity

    [SpecFloat] computes; it proves nothing.  This file gives the rounding of
    [SpecFloat] its meaning, a rational number rounded to the nearest integer at
    the exponent of its magnitude, and derives that every operation the price
    arithmetic uses is monotone. *)

From stdpp Require Import base tactics numbers.
From Stdlib Require Import ZArith Lia SpecFloat.
From S2P Require Import Prelude GoFloat.

Open Scope Z_scope.

(** Rounding of [n / d] to the nearest integer, ties to even. *)
Definition rne (n d : Z) : Z :=
  let q := n / d in
  let r := n mod d in
  match 2 * r ?= d with
  | Lt => q
  | Gt => q + 1
  | Eq => if Z.even q then q else q + 1
  end.

(** A shift record stands for the rational [n / d]: its integer part, whether
    the fraction reaches one half, and whether anything is left beyond that. *)
Definition represents (rec : shr_record) (n d : Z) : Prop :=
  shr_m rec = n / d /\
  shr_r rec = (d <=? 2 * (n mod d)) /\
  shr_s rec = negb ((2 * (n mod d)) mod d =? 0).

(** The result of rounding mantissa [q] at exponent [e], carry included. *)
Definition finish (s : bool) (q e : Z) : f64 :=
  match q with
  | Zpos m =>
      if (q =? 2 ^ 53) then
        (if e + 1 <=? emax - prec then S754_finite s (2 ^ 52)%positive (e + 1)
         else S754_infinity s)
      else if e <=? emax - prec then S754_finite s m e else S754_infinity s
  | _ => S754_zero s
  end.

(** The digit count of the integer part and the target exponent. *)
Definition target_exp (m e : Z) : Z := fexp prec emax (Zdigits2 m + e).

Lemma fexp_eq k : fexp prec emax k = Z.max (k - 53) (- 1074).
Proof. reflexivity. Qed.

Lemma digits2_pos_bounds p :
  2 ^ (Z.pos (digits2_pos p) - 1) <= Z.pos p < 2 ^ Z.pos (digits2_pos p).
Proof.
  induction p as [p IH | p IH | ]; simpl digits2_pos; [ | | vm_compute; split; congruence ];
    rewrite Pos2Z.inj_succ, Z.pow_succ_r by lia;
    replace (Z.succ (Z.pos (digits2_pos p)) - 1) with (Z.succ (Z.pos (digits2_pos p) - 1)) by lia;
    rewrite Z.pow_succ_r by lia; lia.
Qed.

Lemma Zdigits2_bounds m :
  0 < m -> 2 ^ (Zdigits2 m - 1) <= m < 2 ^ Zdigits2 m /\ 1 <= Zdigits2 m.
Proof.
  destruct m as [|p|p]; try lia. intros _. simpl Zdigits2.
  pose proof (digits2_pos_bounds p). split; [exact H | lia].
Qed.

Lemma Zdigits2_unique m k :
  0 < m -> 2 ^ (k - 1) <= m < 2 ^ k -> 0 < k -> Zdigits2 m = k.
Proof.
  intros Hm Hk Hk0. destruct (Zdigits2_bounds m Hm) as [Hb Hd].
  destruct (Z.lt_trichotomy (Zdigits2 m) k) as [H | [H | H]]; [ | exact H | ]; exfalso.
  - assert (2 ^ Zdigits2 m <= 2 ^ (k - 1)) by (apply Z.pow_le_mono_r; lia). lia.
  - assert (2 ^ k <= 2 ^ (Zdigits2 m - 1)) by (apply Z.pow_le_mono_r; lia). lia.
Qed.

Lemma Zdigits2_nonneg m : 0 <= Zdigits2 m \/ m < 0.
Proof. destruct m; simpl; lia. Qed.

Lemma Zdigits2_mono m1 m2 : 0 <= m1 <= m2 -> Zdigits2 m1 <= Zdigits2 m2.
Proof.
  intros H. destruct (Z.eq_dec m1 0) as [->|Hn]; [simpl; destruct (Zdigits2_nonneg m2); lia|].
  destruct (Zdigits2_bounds m1 ltac:(lia)), (Zdigits2_bounds m2 ltac:(lia)).
  destruct (Z_le_gt_dec (Zdigits2 m1) (Zdigits2 m2)) as [|Hgt]; [assumption|].
  assert (2 ^ Zdigits2 m2 <= 2 ^ (Zdigits2 m1 - 1)) by (apply Z.pow_le_mono_r; lia). lia.
Qed.

(** ** Shifting keeps the represented rational *)

Lemma represents_exact n : 0 <= n -> represents (shr_record_of_loc n loc_Exact) n 1.
Proof.
  intros H. unfold represents; cbn -[Z.mul Z.modulo Z.div].
  rewrite Z.div_1_r, !Z.mod_1_r. done.
Qed.

Lemma represents_shr_1 rec n d :
  0 <= n -> 0 < d -> represents rec n d -> represents (shr_1 rec) n (2 * d).
Proof.
  intros Hn Hd (Hm & Hr & Hs).
  pose proof (Z.div_pos n d Hn Hd) as Hq.
  pose proof (Z.mod_pos_bound n d Hd) as Hb.
  pose proof (Z.div_mod n d ltac:(lia)) as Hdm.
  set (q := n / d) in *. set (r := n mod d) in *.
  assert (Hq2 : n / (2 * d) = q / 2).
  { rewrite Z.mul_comm, <- Z.div_div by lia. done. }
  assert (Hr2 : n mod (2 * d) = (q mod 2) * d + r).
  { rewrite Z.mod_eq by lia. rewrite Hq2. pose proof (Z.div_mod q 2 ltac:(lia)). nia. }
  assert (Hs2 : forall b, shr_r rec || shr_s rec = b -> b = negb (r =? 0)).
  { intros b <-. rewrite Hr, Hs.
    destruct (Z.leb_spec d (2 * r)) as [Hle|Hlt]; cbn [orb].
    - symmetry. apply negb_true_iff, Z.eqb_neq. lia.
    - rewrite Z.mod_small by lia. f_equal.
      apply Bool.eq_iff_eq_true. rewrite !Z.eqb_eq. lia. }
  assert (Hodd : (2 * ((q mod 2) * d + r)) mod (2 * d) = 2 * r).
  { replace (2 * (q mod 2 * d + r)) with (2 * r + (q mod 2) * (2 * d)) by ring.
    rewrite Z_mod_plus_full, Z.mod_small by lia. done. }
  destruct rec as [m rr ss]; cbn in Hm, Hr, Hs, Hs2 |- *.
  unfold represents. rewrite Hq2, Hr2, Hodd.
  assert (Hz : negb (2 * r =? 0) = negb (r =? 0)).
  { f_equal. apply Bool.eq_iff_eq_true. rewrite !Z.eqb_eq. lia. }
  rewrite Hz. specialize (Hs2 _ eq_refl). rewrite <- Hs2, Hm.
  destruct q as [|[p|p|]|p]; cbn -[Z.mul Z.modulo Z.div]; try lia.
  - rewrite Z.div_0_l, Z.mod_0_l by lia. repeat split. symmetry; apply Z.leb_gt. lia.
  - replace (Z.pos p~1) with (1 + Z.pos p * 2) by lia.
    rewrite Z.div_add, Z_mod_plus_full by lia.
    repeat split; try reflexivity. symmetry; apply Z.leb_le.
    change (1 mod 2) with 1. lia.
  - replace (Z.pos p~0) with (0 + Z.pos p * 2) by lia.
    rewrite Z.div_add, Z_mod_plus_full by lia.
    repeat split; try reflexivity. symmetry; apply Z.leb_gt.
    change (0 mod 2) with 0. lia.
  - repeat split; try reflexivity. symmetry; apply Z.leb_le. change (1 mod 2) with 1. lia.
Qed.

Lemma represents_iter p rec n d :
  0 <= n -> 0 < d -> represents rec n d ->
  represents (iter_pos shr_1 p rec) n (d * 2 ^ Z.pos p).
Proof.
  revert rec d. induction p as [p IH|p IH|]; intros rec d Hn Hd Hrep; cbn [iter_pos].
  - assert (0 < 2 ^ Z.pos p) by (apply Z.pow_pos_nonneg; lia).
    replace (d * 2 ^ Z.pos p~1) with (2 * d * 2 ^ Z.pos p * 2 ^ Z.pos p).
    + apply IH; [lia|nia|]. apply IH; [lia|lia|]. by apply represents_shr_1.
    + replace (Z.pos p~1) with (1 + (Z.pos p + Z.pos p)) by lia.
      rewrite !Z.pow_add_r by lia. change (2 ^ 1) with 2. ring.
  - assert (0 < 2 ^ Z.pos p) by (apply Z.pow_pos_nonneg; lia).
    replace (d * 2 ^ Z.pos p~0) with (d * 2 ^ Z.pos p * 2 ^ Z.pos p).
    + apply IH; [lia|nia|]. by apply IH.
    + replace (Z.pos p~0) with (Z.pos p + Z.pos p) by lia.
      rewrite !Z.pow_add_r by lia. ring.
  - change (2 ^ 1) with 2. rewrite Z.mul_comm. by apply represents_shr_1.
Qed.

Lemma represents_round rec n d :
  0 < d -> represents rec n d ->
  round_nearest_even (shr_m rec) (loc_of_shr_record rec) = rne n d.
Proof.
  intros Hd (Hm & Hr & Hs). unfold rne.
  pose proof (Z.mod_pos_bound n d Hd) as Hb. set (r := n mod d) in *.
  destruct rec as [m rr ss]; cbn [shr_m shr_r shr_s] in *. rewrite Hm.
  destruct (Z.compare_spec (2 * r) d) as [E|E|E].
  - assert (rr = true) as -> by (rewrite Hr; apply Z.leb_le; lia).
    assert (ss = false) as ->
      by (rewrite Hs, E, Z.mod_same by lia; reflexivity).
    cbn. destruct (Z.even (n / d)); lia.
  - assert (rr = false) as -> by (rewrite Hr; apply Z.leb_gt; lia).
    rewrite Hs. rewrite Z.mod_small by lia.
    destruct (2 * r =? 0); reflexivity.
  - assert (rr = true) as -> by (rewrite Hr; apply Z.leb_le; lia).
    assert (ss = true) as ->; [|reflexivity].
    rewrite Hs. apply negb_true_iff, Z.eqb_neq.
    replace (2 * r) with ((2 * r - d) + 1 * d) by ring.
    rewrite Z_mod_plus_full, Z.mod_small by lia. lia.
Qed.

(** ** Rounding to the nearest integer *)

Lemma rne_bounds n d :
  0 < d -> 2 * n - d <= 2 * d * rne n d <= 2 * n + d.
Proof.
  intros Hd. unfold rne.
  pose proof (Z.mod_pos_bound n d Hd). pose proof (Z.div_mod n d ltac:(lia)).
  destruct (Z.compare_spec (2 * (n mod d)) d); [destruct (Z.even (n / d))| |]; nia.
Qed.

(** A tie is broken towards the even neighbour. *)
Lemma rne_tie n d k :
  0 < d -> 2 * n = d * (2 * k + 1) -> rne n d = if Z.even k then k else k + 1.
Proof.
  intros Hd Ht. unfold rne.
  assert (Hr : n mod d = n - d * k).
  { symmetry. apply Z.mod_unique_pos with k; lia. }
  assert (Hq : n / d = k).
  { symmetry. apply Z.div_unique_pos with (n - d * k); lia. }
  rewrite Hr, Hq. destruct (Z.compare_spec (2 * (n - d * k)) d); lia || done.
Qed.

Lemma rne_mono n1 d1 n2 d2 :
  0 < d1 -> 0 < d2 -> n1 * d2 <= n2 * d1 -> rne n1 d1 <= rne n2 d2.
Proof.
  intros H1 H2 Hle.
  destruct (Z_le_gt_dec (rne n1 d1) (rne n2 d2)) as [|Hgt]; [assumption|exfalso].
  destruct (rne_bounds n1 d1 H1) as [_ B1].
  destruct (rne_bounds n2 d2 H2) as [B2 _].
  set (r1 := rne n1 d1) in *. set (r2 := rne n2 d2) in *.
  assert (C1 : d2 * (2 * d1 * r1 - d1) <= d2 * (2 * n1)) by (apply Z.mul_le_mono_nonneg_l; lia).
  assert (C2 : d1 * (2 * n2) <= d1 * (2 * d2 * r2 + d2)) by (apply Z.mul_le_mono_nonneg_l; lia).
  assert (Hr : r1 = r2 + 1).
  { assert (d1 * d2 * (r1 - r2) <= d1 * d2 * 1) by lia.
    assert (r1 - r2 <= 1) by (apply Z.mul_le_mono_pos_l with (d1 * d2); lia). lia. }
  assert (T1 : 2 * n1 = d1 * (2 * r2 + 1)).
  { apply Z.mul_reg_l with d2; [lia|]. rewrite Hr in C1. lia. }
  assert (T2 : 2 * n2 = d2 * (2 * r2 + 1)).
  { apply Z.mul_reg_l with d1; [lia|]. rewrite Hr in C1. lia. }
  pose proof (rne_tie _ _ _ H1 T1) as E1. pose proof (rne_tie _ _ _ H2 T2) as E2.
  fold r1 in E1. fold r2 in E2. destruct (Z.even r2); lia.
Qed.

Lemma rne_int k d : 0 < d -> rne (k * d) d = k.
Proof.
  intros Hd. unfold rne. rewrite Z.div_mul, Z.mod_mul by lia.
  cbn. by destruct d.
Qed.

Lemma rne_nonneg n d : 0 <= n -> 0 < d -> 0 <= rne n d.
Proof.
  intros Hn Hd. rewrite <- (rne_int 0 d) by assumption.
  apply rne_mono; lia.
Qed.

(** ** The specification of [binary_round_aux] *)

Lemma target_exp_ge m e : - 1074 <= target_exp m e.
Proof. unfold target_exp. rewrite fexp_eq. lia. Qed.

Lemma round_le_carry n d m e :
  0 <= n -> 0 < d -> m = n / d -> e <= target_exp m e ->
  rne n (d * 2 ^ (target_exp m e - e)) <= 2 ^ 53.
Proof.
  intros Hn Hd -> He. set (m := n / d) in *. set (E := target_exp m e) in *.
  assert (Hm : 0 <= m) by (apply Z.div_pos; lia).
  assert (Hk : n < d * 2 ^ Zdigits2 m /\ 0 <= Zdigits2 m).
  { destruct (Z.eq_dec m 0) as [E0|E0].
    - rewrite E0. cbn. unfold m in E0. apply Z.div_small_iff in E0; lia.
    - destruct (Zdigits2_bounds m ltac:(lia)) as [[_ Hlt] Hge]. split; [|lia].
      pose proof (Z.mul_succ_div_gt n d Hd) as Hs. fold m in Hs.
      assert (Z.succ m <= 2 ^ Zdigits2 m) by lia. nia. }
  assert (HE : Zdigits2 m + e - 53 <= E) by (unfold E, target_exp; rewrite fexp_eq; lia).
  assert (Hp : 0 < 2 ^ (E - e)) by (apply Z.pow_pos_nonneg; lia).
  rewrite <- (rne_int (2 ^ 53) (d * 2 ^ (E - e))) by nia.
  apply rne_mono; [nia|nia|].
  assert (2 ^ Zdigits2 m <= 2 ^ 53 * 2 ^ (E - e)).
  { rewrite <- Z.pow_add_r by lia. apply Z.pow_le_mono_r; lia. }
  apply Z.mul_le_mono_nonneg_r; [nia|].
  apply Z.le_trans with (d * 2 ^ Zdigits2 m); [lia|].
  replace (2 ^ 53 * (d * 2 ^ (E - e))) with (d * (2 ^ 53 * 2 ^ (E - e))) by ring.
  apply Z.mul_le_mono_nonneg_l; lia.
Qed.

Lemma shr_fexp_spec m e l n d :
  0 <= n -> 0 < d -> represents (shr_record_of_loc m l) n d -> m = n / d ->
  e <= target_exp m e ->
  exists rec, shr_fexp prec emax m e l = (rec, target_exp m e) /\
              represents rec n (d * 2 ^ (target_exp m e - e)).
Proof.
  intros Hn Hd Hrep Hm He. unfold shr_fexp, shr. fold (target_exp m e).
  destruct (target_exp m e - e) as [|p|p] eqn:Hs; [| |lia].
  - eexists. split; [f_equal; lia|]. by rewrite Z.mul_1_r.
  - eexists. split; [f_equal; lia|]. by apply represents_iter.
Qed.

Lemma shr_fexp_carry q E :
  0 <= q <= 2 ^ 53 -> - 1074 <= E ->
  shr_fexp prec emax q E loc_Exact =
  if q =? 2 ^ 53 then (Build_shr_record (2 ^ 52) false false, E + 1)
  else (Build_shr_record q false false, E).
Proof.
  intros Hq HE. destruct (Z.eqb_spec q (2 ^ 53)) as [->|Hne].
  - unfold shr_fexp. replace (Zdigits2 (2 ^ 53)) with 54 by reflexivity.
    rewrite fexp_eq. replace (Z.max (54 + E - 53) (-1074) - E) with 1 by lia. reflexivity.
  - unfold shr_fexp. rewrite fexp_eq.
    assert (Hk : Zdigits2 q <= 53).
    { apply Z.le_trans with (Zdigits2 (2 ^ 53 - 1)); [|reflexivity].
      apply Zdigits2_mono. lia. }
    unfold shr. destruct (Z.max (Zdigits2 q + E - 53) (-1074) - E) eqn:Hd; try done. lia.
Qed.

Lemma binary_round_aux_spec s m e l n d :
  0 <= n -> 0 < d -> represents (shr_record_of_loc m l) n d -> m = n / d ->
  e <= target_exp m e ->
  binary_round_aux prec emax s m e l =
  finish s (rne n (d * 2 ^ (target_exp m e - e))) (target_exp m e).
Proof.
  intros Hn Hd Hrep Hm He. unfold binary_round_aux.
  destruct (shr_fexp_spec m e l n d Hn Hd Hrep Hm He) as (rec & -> & Hrec).
  assert (Hp : 0 < 2 ^ (target_exp m e - e)) by (apply Z.pow_pos_nonneg; lia).
  rewrite (represents_round rec n (d * 2 ^ (target_exp m e - e))) by (assumption || nia).
  pose proof (round_le_carry n d m e Hn Hd Hm He) as Hc.
  pose proof (rne_nonneg n (d * 2 ^ (target_exp m e - e)) Hn ltac:(nia)) as H0.
  set (q := rne n _) in *. rewrite shr_fexp_carry by (auto using target_exp_ge).
  unfold finish. destruct (Z.eqb_spec q (2 ^ 53)) as [->|Hne]; cbn [shr_m].
  - reflexivity.
  - destruct q as [|p|p]; try reflexivity. lia.
Qed.

(** ** Comparing rationals scaled by powers of two *)

(** [n1/d1 * 2^e1 <= n2/d2 * 2^e2], for a common lower bound of the exponents. *)
Definition vle (n1 d1 e1 n2 d2 e2 : Z) : Prop :=
  exists B, B <= e1 /\ B <= e2 /\ n1 * 2 ^ (e1 - B) * d2 <= n2 * 2 ^ (e2 - B) * d1.

Lemma vle_at B n1 d1 e1 n2 d2 e2 :
  B <= e1 -> B <= e2 -> vle n1 d1 e1 n2 d2 e2 ->
  n1 * 2 ^ (e1 - B) * d2 <= n2 * 2 ^ (e2 - B) * d1.
Proof.
  intros H1 H2 (B' & H1' & H2' & H).
  assert (P1 : 0 < 2 ^ (B - Z.min B B')) by (apply Z.pow_pos_nonneg; lia).
  assert (P2 : 0 < 2 ^ (B' - Z.min B B')) by (apply Z.pow_pos_nonneg; lia).
  assert (R : forall e X, X <= e -> 2 ^ (e - X) * 2 ^ (X - Z.min B B') = 2 ^ (e - Z.min B B') \/ X < Z.min B B').
  { intros e X HX. destruct (Z_lt_ge_dec X (Z.min B B')); [by right|left].
    rewrite <- Z.pow_add_r by lia. f_equal. lia. }
  apply Z.mul_le_mono_pos_r with (2 ^ (B - Z.min B B')); [assumption|].
  apply (Z.mul_le_mono_pos_r _ _ (2 ^ (B' - Z.min B B'))) in H; [|assumption].
  destruct (R e1 B H1) as [E1|]; [|lia]. destruct (R e2 B H2) as [E2|]; [|lia].
  destruct (R e1 B' H1') as [E1'|]; [|lia]. destruct (R e2 B' H2') as [E2'|]; [|lia].
  replace (n1 * 2 ^ (e1 - B) * d2 * 2 ^ (B - Z.min B B'))
    with (n1 * (2 ^ (e1 - B) * 2 ^ (B - Z.min B B')) * d2) by ring.
  replace (n2 * 2 ^ (e2 - B) * d1 * 2 ^ (B - Z.min B B'))
    with (n2 * (2 ^ (e2 - B) * 2 ^ (B - Z.min B B')) * d1) by ring.
  rewrite E1, E2, <- E1', <- E2'. lia.
Qed.

Lemma div_digits n d :
  0 <= n -> 0 < d ->
  0 <= Zdigits2 (n / d) /\ n < d * 2 ^ Zdigits2 (n / d) /\
  (0 < n / d -> 1 <= Zdigits2 (n / d) /\ d * 2 ^ (Zdigits2 (n / d) - 1) <= n).
Proof.
  intros Hn Hd. set (m := n / d).
  assert (Hm : 0 <= m) by (apply Z.div_pos; lia).
  destruct (Z.eq_dec m 0) as [E0|E0].
  - rewrite E0. cbn. apply Z.div_small_iff in E0; [|lia]. lia.
  - destruct (Zdigits2_bounds m ltac:(lia)) as [[Hl Hu] Hge].
    pose proof (Z.mul_succ_div_gt n d Hd) as Hs. fold m in Hs.
    pose proof (Z.mul_div_le n d Hd) as Hs'. fold m in Hs'. repeat split; nia.
Qed.

Lemma target_exp_zero e : e <= target_exp 0 e -> target_exp 0 e = - 1074.
Proof. unfold target_exp. rewrite fexp_eq. cbn. lia. Qed.

Lemma target_exp_mono n1 d1 e1 n2 d2 e2 :
  0 <= n1 -> 0 < d1 -> 0 <= n2 -> 0 < d2 ->
  e1 <= target_exp (n1 / d1) e1 -> vle n1 d1 e1 n2 d2 e2 ->
  target_exp (n1 / d1) e1 <= target_exp (n2 / d2) e2.
Proof.
  intros Hn1 Hd1 Hn2 Hd2 He1 Hv.
  destruct (div_digits n1 d1 Hn1 Hd1) as (K1 & _ & L1).
  destruct (div_digits n2 d2 Hn2 Hd2) as (K2 & U2 & _).
  pose proof (target_exp_ge (n2 / d2) e2) as G2.
  destruct (Z.eq_dec (n1 / d1) 0) as [E0|E0].
  { rewrite E0 in *. rewrite (target_exp_zero e1) by assumption. lia. }
  destruct L1 as [K1' L1]; [pose proof (Z.div_pos n1 d1); lia|].
  unfold target_exp in *. rewrite !fexp_eq in *.
  set (k1 := Zdigits2 (n1 / d1)) in *. set (k2 := Zdigits2 (n2 / d2)) in *.
  destruct (Z_lt_ge_dec (k2 + e2) (k1 + e1)) as [Hlt|Hge]; [exfalso|].
  2: { clear - Hge He1 G2. lia. }
  assert (HB : exists B, B <= e1 /\ B <= e2) by (exists (Z.min e1 e2); lia).
  destruct HB as (B & HB1 & HB2).
  pose proof (vle_at B _ _ _ _ _ _ HB1 HB2 Hv) as H.
  assert (P1 : 0 < 2 ^ (e1 - B)) by (apply Z.pow_pos_nonneg; lia).
  assert (P2 : 0 < 2 ^ (e2 - B)) by (apply Z.pow_pos_nonneg; lia).
  assert (Q : 2 ^ k2 * 2 ^ (e2 - B) <= 2 ^ (k1 - 1) * 2 ^ (e1 - B)).
  { rewrite <- !Z.pow_add_r by lia. apply Z.pow_le_mono_r; lia. }
  assert (A1 : d1 * 2 ^ (k1 - 1) * (2 ^ (e1 - B) * d2) <= n1 * (2 ^ (e1 - B) * d2))
    by (apply Z.mul_le_mono_nonneg_r; [apply Z.mul_nonneg_nonneg; lia|exact L1]).
  assert (A2 : n2 * (2 ^ (e2 - B) * d1) < d2 * 2 ^ k2 * (2 ^ (e2 - B) * d1))
    by (apply Z.mul_lt_mono_pos_r; [apply Z.mul_pos_pos; lia|exact U2]).
  assert (A3 : (2 ^ k2 * 2 ^ (e2 - B)) * (d1 * d2) <= (2 ^ (k1 - 1) * 2 ^ (e1 - B)) * (d1 * d2))
    by (apply Z.mul_le_mono_nonneg_r; [apply Z.mul_nonneg_nonneg; lia|exact Q]).
  lia.
Qed.

(** ** Canonical results are ordered like the rationals they round *)

Lemma fle_finite s m1 e1 m2 e2 :
  e1 < e2 \/ (e1 = e2 /\ (m1 <= m2)%positive) ->
  fle (S754_finite false m1 e1) (S754_finite false m2 e2) = true /\
  (s = true -> fle (S754_finite true m2 e2) (S754_finite true m1 e1) = true).
Proof.
  intros H. unfold fle, SFleb. cbn -[Pos.compare_cont].
  change (Pos.compare_cont Eq m1 m2) with (Pos.compare m1 m2).
  change (Pos.compare_cont Eq m2 m1) with (Pos.compare m2 m1).
  destruct (Z.compare_spec e1 e2), (Z.compare_spec e2 e1); try lia; try done.
  destruct (Pos.compare_spec m1 m2), (Pos.compare_spec m2 m1); try lia; done.
Qed.

Lemma finish_le q1 E1 q2 E2 :
  0 <= q1 <= 2 ^ 53 -> 0 <= q2 <= 2 ^ 53 ->
  (E1 = E2 /\ q1 <= q2) \/ (E1 < E2 /\ 2 ^ 52 <= q2) ->
  fle (finish false q1 E1) (finish false q2 E2) = true /\
  fle (finish true q2 E2) (finish true q1 E1) = true.
Proof.
  intros H1 H2 H.
  destruct q1 as [|p1|p1]; [ | | lia].
  { destruct q2 as [|p2|p2]; cbn [finish]; [done| |lia].
    repeat case_match; done. }
  destruct q2 as [|p2|p2]; [lia| |lia].
  cbn [finish].
  destruct (Z.eqb_spec (Z.pos p1) (2 ^ 53)), (Z.eqb_spec (Z.pos p2) (2 ^ 53));
    repeat match goal with |- context [?a <=? ?b] => destruct (Z.leb_spec a b) end;
    try lia; try done;
    match goal with
    | |- fle (S754_finite false ?a ?b) (S754_finite false ?c ?d) = true /\ _ =>
        destruct (fle_finite true a b c d) as [F1 F2]; [lia|split; auto]
    end.
Qed.

Lemma rne_min_normal n d m e :
  0 <= n -> 0 < d -> m = n / d -> e <= target_exp m e -> - 1074 < target_exp m e ->
  2 ^ 52 <= rne n (d * 2 ^ (target_exp m e - e)).
Proof.
  intros Hn Hd -> He Hbig.
  destruct (div_digits n d Hn Hd) as (_ & _ & L).
  destruct (Z.eq_dec (n / d) 0) as [E0|E0].
  { rewrite E0 in *. rewrite target_exp_zero in Hbig by assumption. lia. }
  destruct L as [K L]; [pose proof (Z.div_pos n d); lia|].
  unfold target_exp in *. rewrite fexp_eq in *.
  set (k := Zdigits2 (n / d)) in *.
  replace (Z.max (k + e - 53) (-1074) - e) with (k - 53) in * by lia.
  assert (P : 0 < 2 ^ (k - 53)) by (apply Z.pow_pos_nonneg; lia).
  rewrite <- (rne_int (2 ^ 52) (d * 2 ^ (k - 53))) by nia.
  apply rne_mono; [nia|nia|]. apply Z.mul_le_mono_nonneg_r; [nia|].
  replace (2 ^ 52 * (d * 2 ^ (k - 53))) with (d * (2 ^ 52 * 2 ^ (k - 53))) by ring.
  rewrite <- Z.pow_add_r by lia. replace (52 + (k - 53)) with (k - 1) by lia. assumption.
Qed.

(** Rounding is monotone. *)
Lemma round_mono n1 d1 e1 l1 n2 d2 e2 l2 :
  0 <= n1 -> 0 < d1 -> 0 <= n2 -> 0 < d2 ->
  represents (shr_record_of_loc (n1 / d1) l1) n1 d1 ->
  represents (shr_record_of_loc (n2 / d2) l2) n2 d2 ->
  e1 <= target_exp (n1 / d1) e1 -> e2 <= target_exp (n2 / d2) e2 ->
  vle n1 d1 e1 n2 d2 e2 ->
  fle (binary_round_aux prec emax false (n1 / d1) e1 l1)
      (binary_round_aux prec emax false (n2 / d2) e2 l2) = true /\
  fle (binary_round_aux prec emax true (n2 / d2) e2 l2)
      (binary_round_aux prec emax true (n1 / d1) e1 l1) = true.
Proof.
  intros Hn1 Hd1 Hn2 Hd2 R1 R2 T1 T2 Hv.
  rewrite (binary_round_aux_spec false (n1 / d1) _ _ n1 d1), (binary_round_aux_spec true (n1 / d1) _ _ n1 d1),
    (binary_round_aux_spec false (n2 / d2) _ _ n2 d2), (binary_round_aux_spec true (n2 / d2) _ _ n2 d2) by auto.
  pose proof (target_exp_mono _ _ _ _ _ _ Hn1 Hd1 Hn2 Hd2 T1 Hv) as HE.
  pose proof (round_le_carry n1 d1 _ e1 Hn1 Hd1 eq_refl T1) as C1.
  pose proof (round_le_carry n2 d2 _ e2 Hn2 Hd2 eq_refl T2) as C2.
  pose proof (rne_min_normal n2 d2 _ e2 Hn2 Hd2 eq_refl T2) as M2.
  pose proof (target_exp_ge (n1 / d1) e1) as G1.
  set (E1 := target_exp (n1 / d1) e1) in *. set (E2 := target_exp (n2 / d2) e2) in *.
  assert (P1 : 0 < 2 ^ (E1 - e1)) by (apply Z.pow_pos_nonneg; lia).
  assert (P2 : 0 < 2 ^ (E2 - e2)) by (apply Z.pow_pos_nonneg; lia).
  apply finish_le; [split; [apply rne_nonneg; nia|assumption]
                   |split; [apply rne_nonneg; nia|assumption]|].
  destruct (Z.eq_dec E1 E2) as [HEq|HNe]; [left|right; split; lia].
  split; [assumption|]. apply rne_mono; [nia|nia|].
  assert (HB : exists B, B <= e1 /\ B <= e2) by (exists (Z.min e1 e2); lia).
  destruct HB as (B & HB1 & HB2).
  pose proof (vle_at B _ _ _ _ _ _ HB1 HB2 Hv) as H.
  assert (Q1 : 2 ^ (E1 - e1) * 2 ^ (e1 - B) = 2 ^ (E1 - B))
    by (rewrite <- Z.pow_add_r by lia; f_equal; lia).
  assert (Q2 : 2 ^ (E2 - e2) * 2 ^ (e2 - B) = 2 ^ (E1 - B))
    by (rewrite <- Z.pow_add_r by lia; f_equal; lia).
  assert (B1 : 0 < 2 ^ (e1 - B)) by (apply Z.pow_pos_nonneg; lia).
  assert (B2 : 0 < 2 ^ (e2 - B)) by (apply Z.pow_pos_nonneg; lia).
  assert (PB : 0 < 2 ^ (E1 - B)) by (apply Z.pow_pos_nonneg; lia).
  apply Z.mul_le_mono_pos_r with (2 ^ (e1 - B) * 2 ^ (e2 - B)); [nia|].
  replace (n1 * (d2 * 2 ^ (E2 - e2)) * (2 ^ (e1 - B) * 2 ^ (e2 - B)))
    with (n1 * 2 ^ (e1 - B) * d2 * (2 ^ (E2 - e2) * 2 ^ (e2 - B))) by ring.
  replace (n2 * (d1 * 2 ^ (E1 - e1)) * (2 ^ (e1 - B) * 2 ^ (e2 - B)))
    with (n2 * 2 ^ (e2 - B) * d1 * (2 ^ (E1 - e1) * 2 ^ (e1 - B))) by ring.
  rewrite Q1, Q2. apply Z.mul_le_mono_nonneg_r; lia.
Qed.

(** ** The operations *)

Lemma shl_align_spec m e t mz ez :
  shl_align m e t = (mz, ez) ->
  ez = Z.min e t /\ Z.pos mz = Z.pos m * 2 ^ (e - ez).
Proof.
  unfold shl_align. destruct (t - e) as [|p|p] eqn:Hd; intros [= <- <-].
  - rewrite Z.sub_diag, Z.mul_1_r. lia.
  - rewrite Z.sub_diag, Z.mul_1_r. lia.
  - split; [lia|]. replace (e - t) with (Z.pos p) by lia.
    clear.
    induction p using Pos.peano_ind; [cbn; lia|].
    rewrite Pos.iter_succ, Pos2Z.inj_succ, Z.pow_succ_r by lia. lia.
Qed.

(** A positive mantissa at exponent [e], brought below its target exponent. *)
Lemma binary_round_aligned m e :
  exists m' e', e' <= e /\ Z.pos m' = Z.pos m * 2 ^ (e - e') /\
    e' <= target_exp (Z.pos m') e' /\
    forall s, binary_round prec emax s m e = binary_round_aux prec emax s (Z.pos m') e' loc_Exact.
Proof.
  unfold binary_round.
  destruct (shl_align m e (fexp prec emax (Z.pos (digits2_pos m) + e))) as [mz ez] eqn:Ha.
  apply shl_align_spec in Ha as [He Hm].
  exists mz, ez. split; [lia|]. split; [exact Hm|]. split; [|done].
  unfold target_exp. rewrite fexp_eq in *.
  change (Z.pos (digits2_pos m)) with (Zdigits2 (Z.pos m)) in He.
  destruct (Zdigits2_bounds (Z.pos m) ltac:(lia)) as [Hb Hk].
  assert (Hd : Zdigits2 (Z.pos mz) = Zdigits2 (Z.pos m) + (e - ez)).
  { apply Zdigits2_unique; [lia| |lia]. rewrite Hm.
    replace (Zdigits2 (Z.pos m) + (e - ez) - 1)
      with ((Zdigits2 (Z.pos m) - 1) + (e - ez)) by lia.
    rewrite !Z.pow_add_r by lia.
    assert (0 < 2 ^ (e - ez)) by (apply Z.pow_pos_nonneg; lia). nia. }
  rewrite Hd. lia.
Qed.

Lemma represents_pos p : represents (shr_record_of_loc (Z.pos p) loc_Exact) (Z.pos p) 1.
Proof. apply represents_exact. lia. Qed.

Lemma round_pos_mono p1 e1 p2 e2 :
  e1 <= target_exp (Z.pos p1) e1 -> e2 <= target_exp (Z.pos p2) e2 ->
  vle (Z.pos p1) 1 e1 (Z.pos p2) 1 e2 ->
  fle (binary_round_aux prec emax false (Z.pos p1) e1 loc_Exact)
      (binary_round_aux prec emax false (Z.pos p2) e2 loc_Exact) = true.
Proof.
  intros H1 H2 Hv.
  pose proof (round_mono (Z.pos p1) 1 e1 loc_Exact (Z.pos p2) 1 e2 loc_Exact) as R.
  rewrite !Z.div_1_r in R.
  apply R; auto using represents_pos; lia.
Qed.

Lemma vle_scale m1 e1 m1' e1' m2 e2 m2' e2' :
  e1' <= e1 -> e2' <= e2 -> m1' = m1 * 2 ^ (e1 - e1') -> m2' = m2 * 2 ^ (e2 - e2') ->
  vle m1 1 e1 m2 1 e2 -> vle m1' 1 e1' m2' 1 e2'.
Proof.
  intros H1 H2 -> -> Hv.
  assert (HB : exists B, B <= e1' /\ B <= e2') by (exists (Z.min e1' e2'); lia).
  destruct HB as (B & HB1 & HB2). exists B. split; [assumption|split; [assumption|]].
  pose proof (vle_at B _ _ _ _ _ _ (Z.le_trans _ _ _ HB1 H1) (Z.le_trans _ _ _ HB2 H2) Hv) as H.
  rewrite !Z.mul_1_r in *. rewrite <- !Z.mul_assoc, <- !Z.pow_add_r by lia.
  replace (e1 - e1' + (e1' - B)) with (e1 - B) by lia.
  replace (e2 - e2' + (e2' - B)) with (e2 - B) by lia. lia.
Qed.

Lemma binary_round_mono m1 e1 m2 e2 :
  vle (Z.pos m1) 1 e1 (Z.pos m2) 1 e2 ->
  fle (binary_round prec emax false m1 e1) (binary_round prec emax false m2 e2) = true.
Proof.
  intros Hv.
  destruct (binary_round_aligned m1 e1) as (m1' & e1' & L1 & E1 & T1 & ->).
  destruct (binary_round_aligned m2 e2) as (m2' & e2' & L2 & E2 & T2 & ->).
  apply round_pos_mono; auto.
  by apply (vle_scale (Z.pos m1) e1 _ e1' (Z.pos m2) e2 _ e2').
Qed.

Lemma binary_round_valid s m e :
  bounded prec emax m e = true -> binary_round prec emax s m e = S754_finite s m e.
Proof.
  intros Hb. unfold bounded, canonical_mantissa in Hb.
  apply andb_prop in Hb as [Hc He]. apply Z.eqb_eq in Hc. apply Z.leb_le in He.
  unfold binary_round. rewrite Hc. unfold shl_align. rewrite Z.sub_diag.
  assert (Ht : target_exp (Z.pos m) e = e) by exact Hc.
  rewrite (binary_round_aux_spec s _ _ _ (Z.pos m) 1);
    rewrite ?Ht, ?Z.div_1_r; auto using represents_pos; try lia.
  rewrite Z.sub_diag. change (1 * 2 ^ 0) with 1.
  pose proof (rne_int (Z.pos m) 1 ltac:(lia)) as Hr. rewrite Z.mul_1_r in Hr. rewrite Hr.
  unfold finish. destruct (Z.eqb_spec (Z.pos m) (2 ^ 53)) as [E|_].
  - rewrite E in Ht. unfold target_exp in Ht. rewrite fexp_eq in Ht.
    change (Zdigits2 (2 ^ 53)) with 54 in Ht. lia.
  - destruct (Z.leb_spec e (emax - prec)); [done|lia].
Qed.

(** ** Non-negative floats *)

(** A non-negative canonical value: a zero, a positive finite number or +Inf. *)
Definition fnonneg (x : f64) : bool :=
  match x with
  | S754_zero _ => true
  | S754_finite false m e => bounded prec emax m e
  | S754_infinity false => true
  | _ => false
  end.

(** A positive canonical finite value. *)
Definition fpos (x : f64) : bool :=
  match x with
  | S754_finite false m e => bounded prec emax m e
  | _ => false
  end.

Lemma fpos_nonneg x : fpos x = true -> fnonneg x = true.
Proof. by destruct x as [| | |[] ? ?]. Qed.

Lemma bounded_facts m e :
  bounded prec emax m e = true ->
  Z.pos m < 2 ^ 53 /\ - 1074 <= e <= 971 /\ (- 1074 < e -> 2 ^ 52 <= Z.pos m).
Proof.
  unfold bounded, canonical_mantissa. intros [Hc He]%andb_prop.
  apply Z.eqb_eq in Hc. apply Z.leb_le in He. rewrite fexp_eq in Hc.
  destruct (digits2_pos_bounds m) as [Hl Hu].
  assert (2 ^ Z.pos (digits2_pos m) <= 2 ^ 53) by (apply Z.pow_le_mono_r; lia).
  repeat split; try lia. intros Hn.
  assert (2 ^ 52 <= 2 ^ (Z.pos (digits2_pos m) - 1)) by (apply Z.pow_le_mono_r; lia). lia.
Qed.

Lemma fle_vle m1 e1 m2 e2 :
  bounded prec emax m1 e1 = true -> bounded prec emax m2 e2 = true ->
  fle (S754_finite false m1 e1) (S754_finite false m2 e2) = true ->
  vle (Z.pos m1) 1 e1 (Z.pos m2) 1 e2.
Proof.
  intros B1 B2. destruct (bounded_facts _ _ B1) as (U1 & R1 & _).
  destruct (bounded_facts _ _ B2) as (U2 & R2 & N2).
  unfold fle, SFleb. cbn -[Pos.compare_cont].
  change (Pos.compare_cont Eq m1 m2) with (Pos.compare m1 m2).
  destruct (Z.compare_spec e1 e2) as [->|Hlt|]; intros Hc; try done.
  - exists e2. rewrite Z.sub_diag. destruct (Pos.compare_spec m1 m2); try done; lia.
  - exists e1. rewrite Z.sub_diag. specialize (N2 ltac:(lia)).
    assert (2 <= 2 ^ (e2 - e1)).
    { change 2 with (2 ^ 1) at 1. apply Z.pow_le_mono_r; lia. }
    repeat split; nia.
Qed.

(** ** Monotonicity of the price operations *)

Lemma finish_nonneg q e :
  0 <= q <= 2 ^ 53 -> - 1074 <= e -> (- 1074 < e -> 2 ^ 52 <= q) ->
  fnonneg (finish false q e) = true.
Proof.
  intros Hq He Hn. destruct q as [|m|m]; [done| |lia]. cbn [finish].
  assert (Hb : forall p k, Z.pos p < 2 ^ 53 -> - 1074 <= k -> (- 1074 < k -> 2 ^ 52 <= Z.pos p) ->
    k <= emax - prec -> bounded prec emax p k = true).
  { intros p k Hp Hk Hkn Hk'. unfold bounded, canonical_mantissa.
    apply andb_true_intro. split; [|apply Z.leb_le; lia].
    apply Z.eqb_eq. rewrite fexp_eq.
    destruct (digits2_pos_bounds p) as [Hl Hu].
    assert (Z.pos (digits2_pos p) <= 53).
    { destruct (Z_le_gt_dec (Z.pos (digits2_pos p)) 53); [assumption|].
      assert (2 ^ 53 <= 2 ^ (Z.pos (digits2_pos p) - 1)) by (apply Z.pow_le_mono_r; lia). lia. }
    destruct (Z.eq_dec k (- 1074)); [lia|].
    specialize (Hkn ltac:(lia)).
    destruct (Z_le_gt_dec 53 (Z.pos (digits2_pos p))); [lia|].
    assert (2 ^ Z.pos (digits2_pos p) <= 2 ^ 52) by (apply Z.pow_le_mono_r; lia). lia. }
  destruct (Z.eqb_spec (Z.pos m) (2 ^ 53)) as [E|E];
    match goal with |- context [?a <=? ?b] => destruct (Z.leb_spec a b) end;
    first [done | apply Hb; lia].
Qed.

Lemma round_nonneg n d e l :
  0 <= n -> 0 < d -> represents (shr_record_of_loc (n / d) l) n d ->
  e <= target_exp (n / d) e ->
  fnonneg (binary_round_aux prec emax false (n / d) e l) = true.
Proof.
  intros Hn Hd Hr He. rewrite (binary_round_aux_spec _ _ _ _ n d) by auto.
  apply finish_nonneg.
  - split; [apply rne_nonneg; [lia|]|by apply round_le_carry].
    apply Z.mul_pos_pos; [lia|]. apply Z.pow_pos_nonneg; lia.
  - apply target_exp_ge.
  - intros H. by apply rne_min_normal.
Qed.

Lemma binary_round_nonneg m e : fnonneg (binary_round prec emax false m e) = true.
Proof.
  destruct (binary_round_aligned m e) as (m' & e' & L & E & T & ->).
  pose proof (round_nonneg (Z.pos m') 1 e' loc_Exact) as R. rewrite Z.div_1_r in R.
  apply R; auto using represents_pos; lia.
Qed.

Lemma fle_zero_nonneg s x : fnonneg x = true -> fle (S754_zero s) x = true.
Proof. by destruct x as [| [] | |[] ? ?]. Qed.

Lemma fle_nonneg_infinity x : fnonneg x = true -> fle x (S754_infinity false) = true.
Proof. by destruct x as [| [] | |[] ? ?]. Qed.

Lemma fle_nonneg_zero x s :
  fnonneg x = true -> fle x (S754_zero s) = true -> exists s', x = S754_zero s'.
Proof. destruct x as [s'| [] | |[] ? ?]; try done. by exists s'. Qed.

(** Exact products of canonical mantissas are at or below their target exponent. *)
Lemma mul_aligned m1 e1 m2 e2 :
  bounded prec emax m1 e1 = true -> bounded prec emax m2 e2 = true ->
  e1 + e2 <= target_exp (Z.pos (m1 * m2)) (e1 + e2).
Proof.
  intros B1 B2. destruct (bounded_facts _ _ B1) as (_ & R1 & N1).
  destruct (bounded_facts _ _ B2) as (_ & R2 & N2).
  unfold target_exp. rewrite fexp_eq.
  destruct (Z_le_gt_dec (e1 + e2) (- 1074)); [lia|].
  assert (H52 : 2 ^ 52 <= Z.pos (m1 * m2)).
  { rewrite Pos2Z.inj_mul.
    destruct (Z.eq_dec e1 (- 1074)) as [->|]; [specialize (N2 ltac:(lia)); nia|].
    specialize (N1 ltac:(lia)). nia. }
  assert (53 <= Zdigits2 (Z.pos (m1 * m2))).
  { apply Z.le_trans with (Zdigits2 (2 ^ 52)); [reflexivity|]. apply Zdigits2_mono. lia. }
  lia.
Qed.

Lemma vle_mul m1 e1 m2 e2 c k :
  0 <= c -> vle m1 1 e1 m2 1 e2 -> vle (m1 * c) 1 (e1 + k) (m2 * c) 1 (e2 + k).
Proof.
  intros Hc (B & H1 & H2 & H). exists (B + k).
  replace (e1 + k - (B + k)) with (e1 - B) by lia.
  replace (e2 + k - (B + k)) with (e2 - B) by lia. repeat split; nia.
Qed.

Lemma fmul_nonneg x c : fnonneg x = true -> fpos c = true -> fnonneg (fmul x c) = true.
Proof.
  destruct c as [| | |[] mc ec]; try done. intros Hx Hc.
  destruct x as [|[]| |[] m e]; try done. cbn -[binary_round_aux].
  pose proof (round_nonneg (Z.pos (m * mc)) 1 (e + ec) loc_Exact) as R.
  rewrite Z.div_1_r in R. apply R; auto using represents_pos, mul_aligned; lia.
Qed.

Lemma fmul_mono x y c :
  fnonneg x = true -> fnonneg y = true -> fpos c = true ->
  fle x y = true -> fle (fmul x c) (fmul y c) = true.
Proof.
  intros Hx Hy Hc Hle. pose proof (fmul_nonneg y c Hy Hc) as Hyc.
  pose proof (fmul_nonneg x c Hx Hc) as Hxc.
  destruct c as [| | |[] mc ec]; try done.
  destruct x as [|[]| |[] m1 e1]; try done; destruct y as [|[]| |[] m2 e2]; try done;
    [by apply fle_zero_nonneg | by apply fle_nonneg_infinity | ].
  cbn -[binary_round_aux] in *.
  apply round_pos_mono; auto using mul_aligned.
  rewrite !Pos2Z.inj_mul. apply vle_mul; [lia|]. by apply fle_vle.
Qed.

Lemma fmul_mono_l c x y :
  fnonneg x = true -> fnonneg y = true -> fpos c = true ->
  fle x y = true -> fle (fmul c x) (fmul c y) = true.
Proof.
  assert (C : forall a b, fmul a b = fmul b a).
  { intros [s1| s1| |s1 m1 e1] [s2| s2| |s2 m2 e2]; cbn -[binary_round_aux]; try reflexivity;
      rewrite (Bool.xorb_comm s1 s2); try reflexivity.
    by rewrite (Pos.mul_comm m1 m2), (Z.add_comm e1 e2). }
  rewrite !(C c). apply fmul_mono.
Qed.

(** *** Addition *)

Lemma fadd_pos_spec m1 e1 m2 e2 :
  exists p e, e <= e1 /\ e <= e2 /\
    Z.pos p = Z.pos m1 * 2 ^ (e1 - e) + Z.pos m2 * 2 ^ (e2 - e) /\
    fadd (S754_finite false m1 e1) (S754_finite false m2 e2) = binary_round prec emax false p e.
Proof.
  set (e := Z.min e1 e2).
  destruct (shl_align m1 e1 e) as [a ea] eqn:Ha. destruct (shl_align m2 e2 e) as [b eb] eqn:Hb.
  exists (a + b)%positive, e. cbn -[binary_round shl_align].
  fold e. rewrite Ha, Hb. cbn -[binary_round].
  apply shl_align_spec in Ha as [-> Ha], Hb as [-> Hb].
  replace (Z.min e1 e) with e in Ha by lia. replace (Z.min e2 e) with e in Hb by lia.
  repeat split; unfold e in *; lia.
Qed.

Lemma fadd_nonneg x c : fnonneg x = true -> fpos c = true -> fnonneg (fadd x c) = true.
Proof.
  destruct c as [| | |[] mc ec]; try done. intros Hx Hc.
  destruct x as [|[]| |[] m e]; try done.
  destruct (fadd_pos_spec m e mc ec) as (p & k & _ & _ & _ & ->). apply binary_round_nonneg.
Qed.

Lemma vle_add_r m1 e1 m2 e2 c ec p1 k1 p2 k2 :
  k1 <= e1 -> k1 <= ec -> k2 <= e2 -> k2 <= ec ->
  p1 = m1 * 2 ^ (e1 - k1) + c * 2 ^ (ec - k1) ->
  p2 = m2 * 2 ^ (e2 - k2) + c * 2 ^ (ec - k2) ->
  vle m1 1 e1 m2 1 e2 -> vle p1 1 k1 p2 1 k2.
Proof.
  intros H1 H1c H2 H2c -> -> Hv.
  assert (HB : exists B, B <= k1 /\ B <= k2) by (exists (Z.min k1 k2); lia).
  destruct HB as (B & HB1 & HB2). exists B. split; [assumption|split; [assumption|]].
  pose proof (vle_at B _ _ _ _ _ _ (Z.le_trans _ _ _ HB1 H1) (Z.le_trans _ _ _ HB2 H2) Hv) as H.
  rewrite !Z.mul_1_r in *. rewrite !Z.mul_add_distr_r, <- !Z.mul_assoc, <- !Z.pow_add_r by lia.
  replace (e1 - k1 + (k1 - B)) with (e1 - B) by lia.
  replace (e2 - k2 + (k2 - B)) with (e2 - B) by lia.
  replace (ec - k1 + (k1 - B)) with (ec - B) by lia.
  replace (ec - k2 + (k2 - B)) with (ec - B) by lia. lia.
Qed.

Lemma fadd_mono x y c :
  fnonneg x = true -> fnonneg y = true -> fpos c = true ->
  fle x y = true -> fle (fadd x c) (fadd y c) = true.
Proof.
  intros Hx Hy Hc Hle. pose proof (fadd_nonneg x c Hx Hc) as Hxc.
  destruct c as [| | |[] mc ec]; try done.
  destruct y as [sy|[]| |[] m2 e2]; try done.
  - destruct (fle_nonneg_zero _ _ Hx Hle) as [s' ->]. cbn -[bounded] in Hc |- *.
    by apply (fle_finite false); right.
  - by apply fle_nonneg_infinity.
  - destruct (fadd_pos_spec m2 e2 mc ec) as (p2 & k2 & L2 & L2c & E2 & ->).
    destruct x as [sx|[]| |[] m1 e1]; try done.
    + cbn -[binary_round bounded] in Hc |- *.
      rewrite <- (binary_round_valid false mc ec Hc). apply binary_round_mono.
      exists k2. rewrite Z.sub_diag. split; [lia|split; [lia|]].
      assert (0 <= 2 ^ (e2 - k2)) by (apply Z.pow_nonneg; lia). rewrite E2. lia.
    + destruct (fadd_pos_spec m1 e1 mc ec) as (p1 & k1 & L1 & L1c & E1 & ->).
      apply binary_round_mono.
      apply (vle_add_r (Z.pos m1) e1 (Z.pos m2) e2 (Z.pos mc) ec); auto using fle_vle.
Qed.

(** *** Division *)

Lemma new_location_cases d r :
  0 < d -> 0 <= r < d ->
  new_location d r =
  if r =? 0 then loc_Exact else loc_Inexact (2 * r ?= d).
Proof.
  intros Hd Hr. unfold new_location, new_location_even, new_location_odd.
  destruct (Z.even d) eqn:Hev; [done|]. destruct (r =? 0); [done|]. f_equal.
  assert (2 * r <> d) by (intros <-; rewrite Z.even_mul in Hev; done).
  destruct (Z.compare_spec (2 * r + 1) d), (Z.compare_spec (2 * r) d); lia || done.
Qed.

Lemma new_location_represents n d :
  0 <= n -> 0 < d ->
  represents (shr_record_of_loc (n / d) (new_location d (n mod d))) n d.
Proof.
  intros Hn Hd. pose proof (Z.mod_pos_bound n d Hd) as Hb.
  rewrite new_location_cases by assumption. unfold represents. set (r := n mod d) in *.
  destruct (Z.eqb_spec r 0) as [E|E].
  { rewrite E. cbn -[Z.mul Z.modulo Z.div]. rewrite Z.mul_0_r, Z.mod_0_l by lia.
    repeat split. symmetry; apply Z.leb_gt; lia. }
  destruct (Z.compare_spec (2 * r) d) as [C|C|C]; cbn -[Z.mul Z.modulo Z.div].
  - rewrite C, Z.mod_same by lia. repeat split. symmetry. apply Z.leb_le. lia.
  - rewrite Z.mod_small by lia. repeat split; symmetry;
      [apply Z.leb_gt; lia|apply negb_true_iff, Z.eqb_neq; lia].
  - repeat split; symmetry; [apply Z.leb_le; lia|apply negb_true_iff, Z.eqb_neq].
    replace (2 * r) with ((2 * r - d) + 1 * d) by ring.
    rewrite Z_mod_plus_full, Z.mod_small by lia. lia.
Qed.

Lemma fdiv_pos_spec m1 e1 m2 e2 :
  exists n e, 0 <= n /\ e <= e1 - e2 /\ n = Z.pos m1 * 2 ^ (e1 - e2 - e) /\
    e <= target_exp (n / Z.pos m2) e /\
    fdiv (S754_finite false m1 e1) (S754_finite false m2 e2) =
    binary_round_aux prec emax false (n / Z.pos m2) e (new_location (Z.pos m2) (n mod Z.pos m2)).
Proof.
  unfold fdiv, SFdiv, SFdiv_core_binary.
  change (Zdigits2 (Z.pos m1)) with (Z.pos (digits2_pos m1)).
  change (Zdigits2 (Z.pos m2)) with (Z.pos (digits2_pos m2)).
  set (d1 := Z.pos (digits2_pos m1)). set (d2 := Z.pos (digits2_pos m2)).
  set (e := Z.min (fexp prec emax (d1 + e1 - (d2 + e2))) (e1 - e2)).
  assert (He : e <= e1 - e2 /\ e <= fexp prec emax (d1 + e1 - (d2 + e2))) by (unfold e; lia).
  destruct He as [He He']. clearbody e.
  set (n := Z.pos m1 * 2 ^ (e1 - e2 - e)).
  assert (Hn : 0 <= n) by (apply Z.mul_nonneg_nonneg; [lia|apply Z.pow_nonneg; lia]).
  exists n, e. repeat split; auto.
  - unfold target_exp. rewrite fexp_eq in *.
    assert (Hq : d1 + (e1 - e2 - e) - d2 <= Zdigits2 (n / Z.pos m2)); [|lia].
    destruct (Z_lt_ge_dec (d1 + (e1 - e2 - e) - d2 - 1) 0) as [Hneg|Hpos].
    { destruct (div_digits n (Z.pos m2) Hn ltac:(lia)). lia. }
    destruct (digits2_pos_bounds m1) as [L1 _]. destruct (digits2_pos_bounds m2) as [_ U2].
    fold d1 in L1. fold d2 in U2.
    apply Z.le_trans with (Zdigits2 (2 ^ (d1 + (e1 - e2 - e) - d2 - 1))).
    { erewrite (Zdigits2_unique _ (d1 + (e1 - e2 - e) - d2)); [lia| | |lia].
      - apply Z.pow_pos_nonneg; lia.
      - split; [reflexivity|]. apply Z.pow_lt_mono_r; lia. }
    apply Zdigits2_mono. split; [apply Z.pow_nonneg; lia|].
    apply Z.div_le_lower_bound; [lia|].
    apply Z.le_trans with (2 ^ d2 * 2 ^ (d1 + (e1 - e2 - e) - d2 - 1)).
    + apply Z.mul_le_mono_nonneg_r; [apply Z.pow_nonneg; lia|lia].
    + rewrite <- Z.pow_add_r by lia.
      replace (d2 + (d1 + (e1 - e2 - e) - d2 - 1)) with ((d1 - 1) + (e1 - e2 - e)) by lia.
      rewrite Z.pow_add_r by lia. unfold n. apply Z.mul_le_mono_nonneg_r; [apply Z.pow_nonneg; lia|lia].
  - assert (Hm : match e1 - e2 - e with
                 | 0 => Z.pos m1 | Z.pos _ => Z.shiftl (Z.pos m1) (e1 - e2 - e) | Z.neg _ => 0 end = n).
    { unfold n. destruct (e1 - e2 - e) as [|p|p] eqn:E; [lia| |lia].
      by rewrite Z.shiftl_mul_pow2 by lia. }
    rewrite Hm. cbn [xorb]. unfold Z.div, Z.modulo.
    by destruct (Z.div_eucl n (Z.pos m2)).
Qed.

Lemma fdiv_nonneg x c : fnonneg x = true -> fpos c = true -> fnonneg (fdiv x c) = true.
Proof.
  destruct c as [| | |[] mc ec]; try done. intros Hx Hc.
  destruct x as [|[]| |[] m e]; try done.
  destruct (fdiv_pos_spec m e mc ec) as (n & k & Hn & _ & _ & T & ->).
  apply round_nonneg; auto using new_location_represents; lia || by apply new_location_represents.
Qed.

Lemma fdiv_mono x y c :
  fnonneg x = true -> fnonneg y = true -> fpos c = true ->
  fle x y = true -> fle (fdiv x c) (fdiv y c) = true.
Proof.
  intros Hx Hy Hc Hle. pose proof (fdiv_nonneg x c Hx Hc) as Hxc.
  pose proof (fdiv_nonneg y c Hy Hc) as Hyc.
  destruct c as [| | |[] mc ec]; try done.
  destruct y as [sy|[]| |[] m2 e2]; try done.
  - destruct (fle_nonneg_zero _ _ Hx Hle) as [s' ->]. done.
  - by apply fle_nonneg_infinity.
  - destruct x as [sx|[]| |[] m1 e1]; try done; [by apply fle_zero_nonneg|].
    destruct (fdiv_pos_spec m1 e1 mc ec) as (n1 & k1 & Hn1 & L1 & E1 & T1 & ->).
    destruct (fdiv_pos_spec m2 e2 mc ec) as (n2 & k2 & Hn2 & L2 & E2 & T2 & ->).
    apply round_mono; auto; try lia; try (apply new_location_represents; lia).
    assert (HB : exists B, B <= k1 /\ B <= k2) by (exists (Z.min k1 k2); lia).
    destruct HB as (B & HB1 & HB2). exists B. split; [assumption|split; [assumption|]].
    pose proof (fle_vle _ _ _ _ Hx Hy Hle) as Hv.
    apply (vle_at (B + ec)) in Hv; [|lia..].
    rewrite !Z.mul_1_r in Hv. rewrite E1, E2, <- !Z.mul_assoc.
    apply Z.mul_le_mono_nonneg_r with (p := Z.pos mc) in Hv; [|lia].
    replace (e1 - (B + ec)) with ((e1 - ec - k1) + (k1 - B)) in Hv by lia.
    replace (e2 - (B + ec)) with ((e2 - ec - k2) + (k2 - B)) in Hv by lia.
    rewrite !Z.pow_add_r in Hv by lia. rewrite <- !Z.mul_assoc in Hv. exact Hv.
Qed.

(** *** Integers to floats and back *)

Lemma of_Z_nonneg z : 0 <= z -> fnonneg (of_Z z) = true.
Proof. intros H. destruct z as [|p|p]; [done| |lia]. apply binary_round_nonneg. Qed.

Lemma of_Z_mono a b : 0 <= a <= b -> fle (of_Z a) (of_Z b) = true.
Proof.
  intros H. destruct a as [|a|a]; [|destruct b as [|b|b]; [lia| |lia]|lia].
  - apply fle_zero_nonneg, of_Z_nonneg. lia.
  - apply binary_round_mono. exists 0. cbn. lia.
Qed.

Lemma trunc_floor s m e B :
  B <= e -> B <= 0 ->
  trunc (S754_finite s m e) =
  Some (let a := (Z.pos m * 2 ^ (e - B)) / 2 ^ (- B) in if s then - a else a).
Proof.
  intros He HB. cbn. f_equal.
  replace (if 0 <=? e then Z.pos m * 2 ^ e else Z.pos m / 2 ^ (- e))
    with ((Z.pos m * 2 ^ (e - B)) / 2 ^ (- B)); [done|].
  destruct (Z.leb_spec 0 e).
  - replace (e - B) with (e + - B) by lia. rewrite Z.pow_add_r, Z.mul_assoc by lia.
    apply Z.div_mul. apply Z.pow_nonzero; lia.
  - replace (- B) with ((e - B) + - e) by lia. rewrite Z.pow_add_r by lia.
    rewrite (Z.mul_comm (2 ^ (e - B))), Z.div_mul_cancel_r; [done| |].
    + apply Z.pow_nonzero; lia.
    + apply Z.pow_nonzero; lia.
Qed.

Lemma trunc_mono x y :
  fnonneg x = true -> fnonneg y = true -> fle x y = true ->
  forall b, trunc y = Some b -> exists a, trunc x = Some a /\ 0 <= a <= b.
Proof.
  intros Hx Hy Hle b Hb.
  assert (Hpos : forall m e k, trunc (S754_finite false m e) = Some k -> 0 <= k).
  { intros m e k [= <-]. destruct (Z.leb_spec 0 e).
    - apply Z.mul_nonneg_nonneg; [lia|apply Z.pow_nonneg; lia].
    - apply Z.div_pos; [lia|apply Z.pow_pos_nonneg; lia]. }
  destruct y as [sy|[]| |[] m2 e2]; try done.
  - destruct (fle_nonneg_zero _ _ Hx Hle) as [s' ->]. injection Hb as <-. exists 0. split; [done|lia].
  - destruct x as [sx|[]| |[] m1 e1]; try done.
    + exists 0. split; [done|]. split; [lia|by eapply Hpos].
    + pose proof (fle_vle _ _ _ _ Hx Hy Hle) as Hv.
      assert (HB : exists B, B <= e1 /\ B <= e2 /\ B <= 0) by (exists (Z.min (Z.min e1 e2) 0); lia).
      destruct HB as (B & L1 & L2 & L0).
      apply (vle_at B) in Hv; [|assumption..]. rewrite !Z.mul_1_r in Hv.
      rewrite (trunc_floor false m2 e2 B) in Hb by assumption. injection Hb as <-.
      exists (Z.pos m1 * 2 ^ (e1 - B) / 2 ^ (- B)).
      rewrite (trunc_floor false m1 e1 B) by assumption. split; [done|].
      assert (0 < 2 ^ (- B)) by (apply Z.pow_pos_nonneg; lia).
      split; [apply Z.div_pos; [apply Z.mul_nonneg_nonneg; [lia|apply Z.pow_nonneg; lia]|assumption]|].
      apply Z.div_le_mono; assumption.
Qed.

Lemma f64_to_int64_mono x y b :
  fnonneg x = true -> fnonneg y = true -> fle x y = true ->
  trunc y = Some b -> b < 2 ^ 63 ->
  0 <= f64_to_int64 x <= f64_to_int64 y /\ f64_to_int64 y = b.
Proof.
  intros Hx Hy Hle Hb Hlt.
  destruct (trunc_mono x y Hx Hy Hle b Hb) as (a & Ha & Hab).
  unfold f64_to_int64. rewrite Ha, Hb.
  rewrite !(proj2 (Z.leb_le _ _)), !(proj2 (Z.ltb_lt _ _)) by lia. cbn. lia.
Qed.

(** *** Multiplication by one and by a factor at most one *)

Lemma fmul_1_r x : fnonneg x = true -> fmul x (of_Z 1) = x.
Proof.
  change (of_Z 1) with (S754_finite false 4503599627370496 (- 52)).
  destruct x as [[]|[]| |[] m e]; try done. intros Hb.
  destruct (bounded_facts _ _ Hb) as (U & R & N).
  cbn -[binary_round_aux Pos.mul] in *.
  pose proof (mul_aligned m e 4503599627370496 (- 52) Hb eq_refl) as T.
  unfold bounded, canonical_mantissa in Hb. apply andb_prop in Hb as [Hc He].
  apply Z.eqb_eq in Hc. rewrite fexp_eq in Hc.
  assert (Hd : Zdigits2 (Z.pos (m * 4503599627370496)) = Z.pos (digits2_pos m) + 52).
  { destruct (digits2_pos_bounds m) as [L1 U1]. apply Zdigits2_unique; [lia| |lia].
    rewrite Pos2Z.inj_mul. change (Z.pos 4503599627370496) with (2 ^ 52).
    replace (Z.pos (digits2_pos m) + 52 - 1) with (Z.pos (digits2_pos m) - 1 + 52) by lia.
    rewrite !Z.pow_add_r by lia. lia. }
  assert (Ht : target_exp (Z.pos (m * 4503599627370496)) (e - 52) = e).
  { unfold target_exp. rewrite Hd, fexp_eq. lia. }
  rewrite (binary_round_aux_spec _ _ _ _ (Z.pos (m * 4503599627370496)) 1);
    rewrite ?Z.div_1_r; auto using represents_pos; try lia.
  replace (e + -52) with (e - 52) by lia. rewrite Ht.
  replace (e - (e - 52)) with 52 by lia. rewrite Z.mul_1_l, Pos2Z.inj_mul.
  change (Z.pos 4503599627370496) with (2 ^ 52). rewrite rne_int by lia.
  unfold finish. destruct (Z.eqb_spec (Z.pos m) (2 ^ 53)); [lia|].
  destruct (Z.leb_spec e (emax - prec)); [done|lia].
Qed.

(** Scaling by a factor at most one does not increase a value. *)
Lemma fmul_le_self x c :
  fpos x = true -> fnonneg c = true -> fle c (of_Z 1) = true -> fle (fmul x c) x = true.
Proof.
  intros Hx Hc Hle. rewrite <- (fmul_1_r x) at 2 by (by apply fpos_nonneg).
  apply fmul_mono_l; auto.
Qed.

(** Scaling by a factor at least one does not decrease a value. *)
Lemma fmul_ge_self x c :
  fpos x = true -> fnonneg c = true -> fle (of_Z 1) c = true -> fle x (fmul x c) = true.
Proof.
  intros Hx Hc Hle. rewrite <- (fmul_1_r x) at 1 by (by apply fpos_nonneg).
  apply fmul_mono_l; auto.
Qed.

(** A positive value divided by itself is exactly one. *)
Lemma fdiv_self x : fpos x = true -> fdiv x x = of_Z 1.
Proof.
  destruct x as [| | |[] m e]; try done. intros _.
  unfold fdiv, SFdiv, SFdiv_core_binary. rewrite Z.sub_diag.
  replace (fexp prec emax _) with (- 53) by (rewrite Z.sub_diag; reflexivity).
  change (Z.min (- 53) 0) with (- 53). change (0 - - 53) with 53. cbn [xorb].
  rewrite Z.shiftl_mul_pow2 by lia.
  pose proof (Z.div_mul (2 ^ 53) (Z.pos m) ltac:(lia)) as Hq.
  pose proof (Z.mod_mul (2 ^ 53) (Z.pos m) ltac:(lia)) as Hr.
  rewrite Z.mul_comm in Hq, Hr. unfold Z.div, Z.modulo in Hq, Hr.
  destruct (Z.div_eucl _ _) as [q r]. subst q r.
  assert (Hl : new_location (Z.pos m) 0 = loc_Exact) by (rewrite new_location_cases; [done|lia..]).
  rewrite Hl. reflexivity.
Qed.
