(* ===== verification/FloatOrder.v ===== *)
(** * The order of float64 comparisons

    [<] and [<=] on floats, NaN included: what a guard of the code gives, and
    what its failure gives. *)

From stdpp Require Import base tactics numbers.
From Stdlib Require Import ZArith Lia SpecFloat.
From S2P Require Import Prelude GoFloat.

Open Scope Z_scope.

(** [x] is not NaN. *)
Definition ordered (x : f64) : bool :=
  match x with S754_nan => false | _ => true end.

(** A strict total preorder of the values that are not NaN: sign, magnitude. *)
Definition key (x : f64) : Z * Z * Z :=
  match x with
  | S754_zero _ => (0, 0, 0)
  | S754_infinity s => (if s then -2 else 2, 0, 0)
  | S754_nan => (0, 0, 0)
  | S754_finite false m e => (1, e, Z.pos m)
  | S754_finite true m e => (-1, - e, - Z.pos m)
  end.

Definition key_compare (a b : Z * Z * Z) : comparison :=
  match a.1.1 ?= b.1.1 with
  | Eq => match a.1.2 ?= b.1.2 with Eq => a.2 ?= b.2 | c => c end
  | c => c
  end.

Lemma SFcompare_key x y :
  ordered x = true -> ordered y = true -> SFcompare x y = Some (key_compare (key x) (key y)).
Proof.
  destruct x as [sx|[]| |[] mx ex], y as [sy|[]| |[] my ey]; try done; intros _ _;
    unfold key_compare; cbn -[Pos.compare_cont Z.compare Z.opp];
    change (Pos.compare_cont Eq mx my) with (Pos.compare mx my); f_equal.
  destruct (Z.compare_spec ex ey), (Z.compare_spec (- ex) (- ey)); try lia; try done.
Qed.

Lemma key_compare_spec a b :
  CompareSpec (a = b)
    (a.1.1 < b.1.1 \/ a.1.1 = b.1.1 /\ (a.1.2 < b.1.2 \/ a.1.2 = b.1.2 /\ a.2 < b.2))
    (b.1.1 < a.1.1 \/ b.1.1 = a.1.1 /\ (b.1.2 < a.1.2 \/ b.1.2 = a.1.2 /\ b.2 < a.2))
    (key_compare a b).
Proof.
  destruct a as [[a1 a2] a3], b as [[b1 b2] b3]. unfold key_compare. cbn.
  destruct (Z.compare_spec a1 b1); [|constructor; lia..].
  destruct (Z.compare_spec a2 b2); [|constructor; lia..].
  destruct (Z.compare_spec a3 b3); constructor; subst; auto; lia.
Qed.

Lemma fle_ordered x y : fle x y = true -> ordered x = true /\ ordered y = true.
Proof. destruct x as [|[]| |[] ? ?], y as [|[]| |[] ? ?]; try done. Qed.

Lemma flt_ordered x y : flt x y = true -> ordered x = true /\ ordered y = true.
Proof. destruct x as [|[]| |[] ? ?], y as [|[]| |[] ? ?]; try done. Qed.

Lemma fle_key x y :
  ordered x = true -> ordered y = true ->
  fle x y = match key_compare (key x) (key y) with Gt => false | _ => true end.
Proof. intros. unfold fle, SFleb. rewrite SFcompare_key by assumption. by destruct key_compare. Qed.

Lemma flt_key x y :
  ordered x = true -> ordered y = true ->
  flt x y = match key_compare (key x) (key y) with Lt => true | _ => false end.
Proof. intros. unfold flt, SFltb. rewrite SFcompare_key by assumption. by destruct key_compare. Qed.

(** Split on the comparisons of keys. *)
Ltac key_cases :=
  repeat match goal with
  | H : context [key_compare ?a ?b] |- _ => destruct (key_compare_spec a b)
  | |- context [key_compare ?a ?b] => destruct (key_compare_spec a b)
  end.

Lemma fle_refl x : ordered x = true -> fle x x = true.
Proof. intros. rewrite fle_key by assumption. key_cases; done || lia. Qed.

Lemma fle_trans x y z : fle x y = true -> fle y z = true -> fle x z = true.
Proof.
  intros H1 H2. destruct (fle_ordered _ _ H1), (fle_ordered _ _ H2).
  rewrite fle_key in * by assumption. revert H1 H2.
  destruct (key_compare_spec (key x) (key y)) as [->| |]; [done| |done].
  destruct (key_compare_spec (key y) (key z)) as [<-| |]; [|  |done].
  - by destruct (key_compare_spec (key x) (key y)); [| |lia].
  - by destruct (key_compare_spec (key x) (key z)); [| |lia].
Qed.

Lemma flt_fle x y : flt x y = true -> fle x y = true.
Proof.
  intros H. destruct (flt_ordered _ _ H). rewrite flt_key in H by assumption.
  rewrite fle_key by assumption. by destruct key_compare.
Qed.

Lemma flt_not_fle x y : flt x y = true -> fle y x = false.
Proof.
  intros H. destruct (flt_ordered _ _ H). rewrite flt_key in H by assumption.
  rewrite fle_key by assumption.
  destruct (key_compare_spec (key x) (key y)); try done.
  destruct (key_compare_spec (key y) (key x)) as [E| |]; [rewrite E in *; lia|lia|done].
Qed.

(** A comparison [y <= x] that fails on ordered values means [x < y]. *)
Lemma not_fle_flt x y :
  ordered x = true -> ordered y = true -> fle y x = false -> flt x y = true.
Proof.
  intros Hx Hy. rewrite fle_key, flt_key by assumption.
  destruct (key_compare_spec (key y) (key x)), (key_compare_spec (key x) (key y)) as [E| |];
    try done; intros _; [rewrite E in *; lia|lia].
Qed.

Lemma flt_irrefl x : flt x x = false.
Proof.
  destruct (flt x x) eqn:H; [|done]. pose proof (flt_not_fle _ _ H) as H'.
  destruct (flt_ordered _ _ H). by rewrite fle_refl in H'.
Qed.

Lemma flt_fle_trans x y z : flt x y = true -> fle y z = true -> flt x z = true.
Proof.
  intros H1 H2. destruct (flt_ordered _ _ H1), (fle_ordered _ _ H2).
  rewrite flt_key, fle_key in * by assumption. revert H1 H2.
  destruct (key_compare_spec (key x) (key y)) as [| |]; try done.
  destruct (key_compare_spec (key y) (key z)) as [| |]; try done;
    destruct (key_compare_spec (key x) (key z)) as [E| |]; try done;
    repeat match goal with K : key _ = key _ |- _ => rewrite K in * end; lia.
Qed.

Lemma fle_flt_trans x y z : fle x y = true -> flt y z = true -> flt x z = true.
Proof.
  intros H1 H2. destruct (fle_ordered _ _ H1), (flt_ordered _ _ H2).
  rewrite flt_key, fle_key in * by assumption. revert H1 H2.
  destruct (key_compare_spec (key x) (key y)) as [->| |]; [done| |done].
  destruct (key_compare_spec (key y) (key z)) as [| |]; try done.
  destruct (key_compare_spec (key x) (key z)) as [E| |]; try done; try lia; rewrite E in *; lia.
Qed.

Lemma flt_trans x y z : flt x y = true -> flt y z = true -> flt x z = true.
Proof. intros H1 H2. eapply flt_fle_trans; [exact H1|]. by apply flt_fle. Qed.

(** Equal values are ordered both ways. *)
Lemma feq_fle x y : feq x y = true -> fle x y = true /\ fle y x = true.
Proof.
  intros H. assert (Hxy : fle x y = true).
  { revert H. unfold feq, SFeqb, fle, SFleb. by destruct (SFcompare x y) as [[]|]. }
  split; [done|]. destruct (fle_ordered _ _ Hxy) as [Hx Hy].
  rewrite fle_key by done. unfold feq, SFeqb in H. rewrite SFcompare_key in H by done.
  destruct (key_compare_spec (key x) (key y)) as [E| |]; try done. rewrite E.
  destruct (key_compare_spec (key y) (key y)); try done; lia.
Qed.

#[export] Hint Resolve fle_refl fle_trans flt_fle flt_trans flt_fle_trans fle_flt_trans : go.
