(* ===== verification/Price.v ===== *)
(** * Prices on the NSE tick grid

    [roundNSE] of [oco/types.go] (and its copy in [multilevel/types.go]) and the
    facts the order components need: it is monotone, it leaves tick prices
    alone, and it never moves a price across a tick price. *)

From stdpp Require Import base tactics numbers.
From Stdlib Require Import ZArith Lia SpecFloat.
From S2P Require Import Prelude GoFloat FloatRound FloatOrder.

Open Scope Z_scope.

Abbreviation hundred := (S754_finite false 7036874417766400 (- 46)).
Abbreviation half := (S754_finite false 4503599627370496 (- 53)).

(** The integer part: paise, half-up, to the nearest multiple of five. *)
Definition roundPaise (price : f64) : Z :=
  let paise := f64_to_int64 (price * of_Z 100 + dec 5 1)%f64 in
  int64 (Z.quot (int64 (paise + 2)) 5 * 5).

(** [roundNSE] rounds a price to NSE tick size (0.05). *)
Definition roundNSE (price : f64) : f64 :=
  (of_Z (roundPaise price) / of_Z 100)%f64.

(** The price of [k] ticks of five paise. *)
Definition tick (k : Z) : f64 := (of_Z (5 * k) / of_Z 100)%f64.

(** The largest price the arithmetic is proved for: 10^9. *)
Definition max_price : f64 := of_Z (10 ^ 9).

(** A price in the range the arithmetic is proved for. *)
Definition price_ok (p : f64) : bool := fpos p && fle p max_price.

Lemma hundred_eq : of_Z 100 = hundred. Proof. reflexivity. Qed.
Lemma half_eq : dec 5 1 = half. Proof. reflexivity. Qed.

(** ** Exact dyadic values *)

Lemma binary_round_exact m e :
  Z.pos m < 2 ^ 53 -> - 1074 <= e <= 900 ->
  exists m' e', e' <= e /\ Z.pos m' = Z.pos m * 2 ^ (e - e') /\
    bounded prec emax m' e' = true /\
    binary_round prec emax false m e = S754_finite false m' e'.
Proof.
  intros Hm He. unfold binary_round.
  destruct (shl_align m e (fexp prec emax (Z.pos (digits2_pos m) + e))) as [mz ez] eqn:Ha.
  apply shl_align_spec in Ha as [Hez Hmz]. rewrite fexp_eq in Hez.
  destruct (digits2_pos_bounds m) as [Hl Hu]. set (d := Z.pos (digits2_pos m)) in *.
  assert (Hd : d <= 53).
  { destruct (Z_le_gt_dec d 53); [assumption|].
    assert (2 ^ 53 <= 2 ^ (d - 1)) by (apply Z.pow_le_mono_r; lia). lia. }
  assert (Hdz : Z.pos (digits2_pos mz) = d + (e - ez)).
  { change (Z.pos (digits2_pos mz)) with (Zdigits2 (Z.pos mz)).
    apply Zdigits2_unique; [lia| |lia]. rewrite Hmz.
    replace (d + (e - ez) - 1) with ((d - 1) + (e - ez)) by lia.
    rewrite !Z.pow_add_r by lia.
    assert (0 < 2 ^ (e - ez)) by (apply Z.pow_pos_nonneg; lia). nia. }
  assert (Hb : bounded prec emax mz ez = true).
  { unfold bounded, canonical_mantissa. apply andb_true_intro. split; [|apply Z.leb_le; lia].
    apply Z.eqb_eq. rewrite Hdz, fexp_eq. lia. }
  exists mz, ez. split; [lia|]. split; [exact Hmz|]. split; [exact Hb|].
  pose proof (binary_round_valid false mz ez Hb) as Hv.
  unfold binary_round, shl_align in Hv. unfold bounded, canonical_mantissa in Hb.
  apply andb_prop in Hb as [Hc _]. apply Z.eqb_eq in Hc. rewrite Hc, Z.sub_diag in Hv. exact Hv.
Qed.

Lemma trunc_quarters k r :
  0 < k < 2 ^ 50 -> 0 <= r < 4 ->
  trunc (binary_round prec emax false (Z.to_pos (4 * k + r)) (- 2)) = Some k.
Proof.
  intros Hk Hr.
  destruct (binary_round_exact (Z.to_pos (4 * k + r)) (- 2)) as (m & e & He & Hm & _ & ->); [lia..|].
  rewrite (trunc_floor false m e e) by lia. cbn -[Z.pow Z.div]. f_equal.
  rewrite Z.sub_diag, Z.mul_1_r, Hm, Z2Pos.id by lia.
  replace (- e) with ((- 2 - e) + 2) by lia. rewrite Z.pow_add_r by lia.
  rewrite (Z.mul_comm (4 * k + r)), Z.div_mul_cancel_l; [|lia|apply Z.pow_nonzero; lia].
  change (2 ^ 2) with 4. symmetry. apply Z.div_unique_pos with r; lia.
Qed.

(** ** A whole number of paise survives the trip through rupees *)

Lemma pow2_pos k : 0 <= k -> 0 < 2 ^ k.
Proof. intros. apply Z.pow_pos_nonneg; lia. Qed.

Lemma finish_value q E :
  2 ^ 52 <= q <= 2 ^ 53 -> E + 1 <= 971 ->
  exists m ex, finish false q E = S754_finite false m ex /\ E <= ex /\
    Z.pos m * 2 ^ (ex - E) = q.
Proof.
  intros Hq HE. unfold finish. destruct q as [|qp|qp]; try lia.
  destruct (Z.eqb_spec (Z.pos qp) (2 ^ 53)) as [Eq|Ne];
    match goal with |- context [?a <=? ?b] => destruct (Z.leb_spec a b); [|lia] end.
  - eexists _, _. split; [reflexivity|]. split; [lia|]. rewrite Eq.
    replace (E + 1 - E) with 1 by lia. reflexivity.
  - eexists _, _. split; [reflexivity|]. rewrite Z.sub_diag. lia.
Qed.

(** The magnitude of a hundredth of [p]: between 2^-6 and 2^51. *)
Lemma hundredth_magnitude p n e :
  0 < p < 2 ^ 50 -> e <= 46 -> n = p * 2 ^ (46 - e) ->
  e <= target_exp (n / (100 * 2 ^ 46)) e ->
  0 < n / (100 * 2 ^ 46) /\ - 6 <= Zdigits2 (n / (100 * 2 ^ 46)) + e <= 51.
Proof.
  intros Hp He En Ht. pose proof (pow2_pos (46 - e) ltac:(lia)) as Py.
  assert (Hn : 0 <= n) by nia.
  destruct (div_digits n (100 * 2 ^ 46) Hn ltac:(lia)) as (Hk & Hu & Hl).
  pose proof (Z.div_pos n (100 * 2 ^ 46) Hn ltac:(lia)) as Hq0.
  set (k := Zdigits2 (n / (100 * 2 ^ 46))) in *.
  assert (Hke : - 6 <= k + e).
  { destruct (Z_le_gt_dec (- 6) (k + e)); [assumption|exfalso].
    assert (H : 2 ^ (46 + k + 7) <= 2 ^ (46 - e)) by (apply Z.pow_le_mono_r; lia).
    rewrite !Z.pow_add_r in H by lia. nia. }
  assert (Hpos : 0 < n / (100 * 2 ^ 46)).
  { destruct (Z.eq_dec (n / (100 * 2 ^ 46)) 0) as [E0|]; [exfalso|lia].
    unfold k in Hke. rewrite E0 in *. pose proof (target_exp_zero e Ht) as Hz. rewrite Hz in Ht.
    change (Zdigits2 0) with 0 in Hke. lia. }
  split; [assumption|]. split; [assumption|]. destruct (Hl Hpos) as [Hk1 Hl'].
  destruct (Z_le_gt_dec (k + e) 51); [assumption|exfalso].
  assert (H : 2 ^ (50 + (46 - e)) <= 2 ^ (46 + (k - 1))) by (apply Z.pow_le_mono_r; lia).
  rewrite !Z.pow_add_r in H by lia. nia.
Qed.

(** The error of one rounding, scaled to a common exponent. *)
Lemma hundredth_error p q E e B :
  0 < p < 2 ^ 50 -> B <= - 2 -> B <= e -> e <= E -> e <= 46 ->
  let n := p * 2 ^ (46 - e) in
  let D := 100 * 2 ^ 46 * 2 ^ (E - e) in
  2 ^ 52 * D <= n -> 2 * n - D <= 2 * D * q <= 2 * n + D ->
  (4 * p - 1) * 2 ^ (- 2 - B) <= q * 2 ^ (E - B) * 100 <= (4 * p + 1) * 2 ^ (- 2 - B).
Proof.
  intros Hp HB2 HBe HeE He46 n D Hnorm Herr.
  pose proof (pow2_pos (e - B) ltac:(lia)) as P1.
  pose proof (pow2_pos (- 2 - B) ltac:(lia)) as P2.
  assert (HD : D * 2 ^ (e - B) = 100 * 2 ^ 46 * 2 ^ (E - B)).
  { unfold D. rewrite <- Z.mul_assoc, <- Z.pow_add_r by lia. f_equal. f_equal. lia. }
  assert (Hn : n * 2 ^ (e - B) = p * (2 ^ 46 * (4 * 2 ^ (- 2 - B)))).
  { unfold n. change 4 with (2 ^ 2). rewrite <- Z.mul_assoc, <- !Z.pow_add_r by lia.
    f_equal. f_equal. lia. }
  destruct Herr as [Lo Hi].
  apply (Z.mul_le_mono_nonneg_r _ _ (2 ^ (e - B))) in Lo, Hi, Hnorm; [|lia..].
  set (T := 2 ^ (E - B)) in *. set (W := 2 ^ (- 2 - B)) in *.
  set (S := 2 ^ (e - B)) in *.
  assert (HpW : p * W <= 2 ^ 50 * W) by (apply Z.mul_le_mono_nonneg_r; lia).
  replace (2 * D * q * S) with (2 * q * (D * S)) in * by ring.
  replace ((2 * n - D) * S) with (2 * (n * S) - D * S) in Lo by ring.
  replace ((2 * n + D) * S) with (2 * (n * S) + D * S) in Hi by ring.
  replace (2 ^ 52 * D * S) with (2 ^ 52 * (D * S)) in Hnorm by ring.
  rewrite HD, Hn in *. lia.
Qed.

(** What division by a hundred computes: a mantissa whose value, times a
    hundred, is within a quarter of a paisa of the amount. *)
Lemma fdiv_hundred p :
  0 < p < 2 ^ 50 ->
  exists m e, fdiv (of_Z p) hundred = S754_finite false m e /\
    vle (4 * p - 1) 1 (- 2) (Z.pos m * 100) 1 e /\
    vle (Z.pos m * 100) 1 e (4 * p + 1) 1 (- 2).
Proof.
  intros Hp. destruct p as [|p|p]; try lia.
  destruct (binary_round_exact p 0) as (m1 & e1 & He1 & Hm1 & _ & E1); [lia..|].
  change (of_Z (Z.pos p)) with (binary_round prec emax false p 0). rewrite E1.
  destruct (fdiv_pos_spec m1 e1 7036874417766400 (- 46)) as (n & e & Hn & He & En & Ht & ->).
  change (Z.pos 7036874417766400) with (100 * 2 ^ 46) in *.
  rewrite (binary_round_aux_spec _ _ _ _ n (100 * 2 ^ 46));
    auto; [|lia|apply new_location_represents; lia].
  assert (En' : n = Z.pos p * 2 ^ (46 - e)).
  { rewrite En, Hm1, <- Z.mul_assoc, <- Z.pow_add_r by lia. f_equal. f_equal. lia. }
  destruct (hundredth_magnitude (Z.pos p) n e) as (Hpos & Hlo & Hhi); auto; [lia|].
  destruct (div_digits n (100 * 2 ^ 46) Hn ltac:(lia)) as (Hk & Hu & Hl).
  destruct (Hl Hpos) as [Hk1 Hl']. clear Hl Hu.
  assert (HE : target_exp (n / (100 * 2 ^ 46)) e = Zdigits2 (n / (100 * 2 ^ 46)) + e - 53)
    by (unfold target_exp; rewrite fexp_eq; lia).
  pose proof (round_le_carry n (100 * 2 ^ 46) _ e Hn ltac:(lia) eq_refl Ht) as Hcarry.
  pose proof (rne_min_normal n (100 * 2 ^ 46) _ e Hn ltac:(lia) eq_refl Ht ltac:(lia)) as Hmin.
  set (k := Zdigits2 (n / (100 * 2 ^ 46))) in *.
  set (E := target_exp (n / (100 * 2 ^ 46)) e) in *.
  pose proof (pow2_pos (E - e) ltac:(lia)) as PE.
  pose proof (rne_bounds n (100 * 2 ^ 46 * 2 ^ (E - e)) ltac:(lia)) as Herr.
  assert (Hnorm : 2 ^ 52 * (100 * 2 ^ 46 * 2 ^ (E - e)) <= n).
  { replace (2 ^ 52 * (100 * 2 ^ 46 * 2 ^ (E - e))) with (100 * 2 ^ 46 * (2 ^ 52 * 2 ^ (E - e))) by ring.
    rewrite <- Z.pow_add_r by lia. replace (52 + (E - e)) with (k - 1) by lia. exact Hl'. }
  set (q := rne n _) in *.
  destruct (finish_value q E) as (m & ex & Ef & Hex & Hmq); [lia..|].
  exists m, ex. split; [exact Ef|].
  assert (HB : exists B, B <= e /\ B <= - 2) by (exists (Z.min e (- 2)); lia).
  destruct HB as (B & HB1 & HB2).
  pose proof (hundredth_error (Z.pos p) q E e B Hp HB2 HB1 Ht ltac:(lia)) as Hfinal.
  cbv zeta in Hfinal. rewrite <- En' in Hfinal. specialize (Hfinal Hnorm Herr).
  assert (Hmx : Z.pos m * 2 ^ (ex - B) = q * 2 ^ (E - B)).
  { rewrite <- Hmq, <- Z.mul_assoc, <- Z.pow_add_r by lia. f_equal. f_equal. lia. }
  split; exists B; (split; [lia|split; [lia|]]); rewrite !Z.mul_1_r; lia.
Qed.

Lemma binary_round_le_aux m1 e1 m2 e2 :
  e2 <= target_exp (Z.pos m2) e2 -> vle (Z.pos m1) 1 e1 (Z.pos m2) 1 e2 ->
  fle (binary_round prec emax false m1 e1)
      (binary_round_aux prec emax false (Z.pos m2) e2 loc_Exact) = true.
Proof.
  intros Ht Hv. destruct (binary_round_aligned m1 e1) as (m & e & L & E & T & ->).
  apply round_pos_mono; auto. apply (vle_scale (Z.pos m1) e1 _ e (Z.pos m2) e2 _ e2); auto; [lia|].
  rewrite Z.sub_diag. lia.
Qed.

Lemma aux_le_binary_round m1 e1 m2 e2 :
  e1 <= target_exp (Z.pos m1) e1 -> vle (Z.pos m1) 1 e1 (Z.pos m2) 1 e2 ->
  fle (binary_round_aux prec emax false (Z.pos m1) e1 loc_Exact)
      (binary_round prec emax false m2 e2) = true.
Proof.
  intros Ht Hv. destruct (binary_round_aligned m2 e2) as (m & e & L & E & T & ->).
  apply round_pos_mono; auto. apply (vle_scale (Z.pos m1) e1 _ e1 (Z.pos m2) e2 _ e); auto; [lia|].
  rewrite Z.sub_diag. lia.
Qed.

(** Quarters of a paisa, exactly representable. *)
Definition quarters (k : Z) : f64 := binary_round prec emax false (Z.to_pos k) (- 2).

Lemma quarters_nonneg k : fnonneg (quarters k) = true.
Proof. apply binary_round_nonneg. Qed.

Lemma quarters_add_half k :
  0 < k < 2 ^ 52 ->
  fle (quarters (k + 2)) (fadd (quarters k) half) = true /\
  fle (fadd (quarters k) half) (quarters (k + 2)) = true.
Proof.
  intros Hk. unfold quarters.
  destruct (binary_round_exact (Z.to_pos k) (- 2)) as (m & e & He & Hm & _ & ->); [lia..|].
  destruct (fadd_pos_spec m e 4503599627370496 (- 53)) as (p & ez & L1 & L2 & Ep & ->).
  assert (Hv : Z.pos (Z.to_pos (k + 2)) * 2 ^ (- 2 - ez) = Z.pos p).
  { rewrite Ep, Hm, !Z2Pos.id by lia. rewrite <- Z.mul_assoc, <- Z.pow_add_r by lia.
    replace (- 2 - e + (e - ez)) with (- 2 - ez) by lia.
    change (Z.pos 4503599627370496) with (2 ^ 52). rewrite <- Z.pow_add_r by lia.
    replace (52 + (- 53 - ez)) with (1 + (- 2 - ez)) by lia.
    rewrite Z.pow_add_r by lia. lia. }
  split; apply binary_round_mono; exists ez; rewrite Z.sub_diag; lia.
Qed.

(** Rupees times a hundred, half added and truncated, is the amount again. *)
Lemma paise_back p :
  0 < p < 2 ^ 49 ->
  f64_to_int64 (fadd (fmul (fdiv (of_Z p) hundred) hundred) half) = p.
Proof.
  intros Hp. destruct (fdiv_hundred p) as (m & e & Ex & Vlo & Vhi); [lia|].
  pose proof (fdiv_nonneg (of_Z p) hundred (of_Z_nonneg p ltac:(lia)) eq_refl) as Hb.
  rewrite Ex in *. set (x := S754_finite false m e) in *.
  pose proof (mul_aligned m e 7036874417766400 (- 46) Hb eq_refl) as Ht.
  assert (Hscale : Z.pos (m * 7036874417766400) = Z.pos m * 100 * 2 ^ (e - (e + - 46))).
  { replace (e - (e + - 46)) with 46 by lia. rewrite Pos2Z.inj_mul. lia. }
  assert (Lo : fle (quarters (4 * p - 1)) (fmul x hundred) = true).
  { apply binary_round_le_aux; [exact Ht|].
    apply (vle_scale (4 * p - 1) (- 2) _ (- 2) (Z.pos m * 100) e _ (e + - 46)); auto; lia. }
  assert (Hi : fle (fmul x hundred) (quarters (4 * p + 1)) = true).
  { apply aux_le_binary_round; [exact Ht|].
    apply (vle_scale (Z.pos m * 100) e _ (e + - 46) (4 * p + 1) (- 2) _ (- 2)); auto; lia. }
  pose proof (fmul_nonneg x hundred Hb eq_refl) as Hy.
  set (y := fmul x hundred) in *.
  pose proof (fadd_mono _ _ half (quarters_nonneg _) Hy eq_refl Lo) as Lo'.
  pose proof (fadd_mono _ _ half Hy (quarters_nonneg _) eq_refl Hi) as Hi'.
  destruct (quarters_add_half (4 * p - 1)) as [Q1 _]; [lia|].
  destruct (quarters_add_half (4 * p + 1)) as [_ Q2]; [lia|].
  replace (4 * p - 1 + 2) with (4 * p + 1) in Q1 by lia.
  replace (4 * p + 1 + 2) with (4 * p + 3) in Q2 by lia.
  pose proof (fle_trans _ _ _ Q1 Lo') as L. pose proof (fle_trans _ _ _ Hi' Q2) as U.
  assert (T1 : trunc (quarters (4 * p + 1)) = Some p) by (apply trunc_quarters; lia).
  assert (T3 : trunc (quarters (4 * p + 3)) = Some p) by (apply trunc_quarters; lia).
  pose proof (fadd_nonneg y half Hy eq_refl) as Hz.
  destruct (f64_to_int64_mono _ _ p Hz (quarters_nonneg _) U T3) as [B1 E1]; [lia|].
  destruct (trunc_mono _ _ Hz (quarters_nonneg _) U p T3) as (t & Et & _).
  destruct (trunc_mono _ _ (quarters_nonneg _) Hz L t Et) as (a & Ea & _ & Ha).
  rewrite T1 in Ea. injection Ea as <-. rewrite E1 in B1. unfold f64_to_int64 in *. rewrite Et in *.
  destruct ((- 2 ^ 63 <=? t) && (t <? 2 ^ 63)); lia.
Qed.

(** ** [roundNSE] *)

(** The nearest multiple of five, in paise. *)
Lemma round_ticks_spec p :
  0 <= p < 2 ^ 60 ->
  let r := int64 (Z.quot (int64 (p + 2)) 5 * 5) in
  r mod 5 = 0 /\ p - 2 <= r <= p + 2 /\ 0 <= r.
Proof.
  intros Hp. cbv zeta. rewrite (int64_id (p + 2)) by (unfold in_int64; lia).
  rewrite Z.quot_div_nonneg by lia.
  pose proof (Z.mul_div_le (p + 2) 5 ltac:(lia)).
  pose proof (Z.mod_pos_bound (p + 2) 5 ltac:(lia)).
  pose proof (Z.div_mod (p + 2) 5 ltac:(lia)).
  pose proof (Z.div_pos (p + 2) 5 ltac:(lia) ltac:(lia)).
  rewrite int64_id by (unfold in_int64; lia).
  rewrite Z.mod_mul by lia. lia.
Qed.

Lemma round_ticks_mono p q :
  0 <= p <= q -> q < 2 ^ 60 ->
  int64 (Z.quot (int64 (p + 2)) 5 * 5) <= int64 (Z.quot (int64 (q + 2)) 5 * 5).
Proof.
  intros Hp Hq. rewrite (int64_id (p + 2)), (int64_id (q + 2)) by (unfold in_int64; lia).
  rewrite !Z.quot_div_nonneg by lia.
  pose proof (Z.mul_div_le (p + 2) 5 ltac:(lia)). pose proof (Z.mul_div_le (q + 2) 5 ltac:(lia)).
  pose proof (Z.div_pos (p + 2) 5 ltac:(lia) ltac:(lia)).
  pose proof (Z.div_pos (q + 2) 5 ltac:(lia) ltac:(lia)).
  pose proof (Z.div_le_mono (p + 2) (q + 2) 5 ltac:(lia) ltac:(lia)).
  rewrite !int64_id by (unfold in_int64; lia). lia.
Qed.

Lemma paise_mono x y :
  fnonneg x = true -> fnonneg y = true -> fle x y = true -> fle y max_price = true ->
  0 <= f64_to_int64 (x * of_Z 100 + dec 5 1)%f64 <= f64_to_int64 (y * of_Z 100 + dec 5 1)%f64
  /\ f64_to_int64 (y * of_Z 100 + dec 5 1)%f64 <= 10 ^ 11.
Proof.
  intros Hx Hy Hle Hmax. rewrite hundred_eq, half_eq.
  pose proof (fmul_nonneg x hundred Hx eq_refl) as Hx1.
  pose proof (fmul_nonneg y hundred Hy eq_refl) as Hy1.
  pose proof (fadd_nonneg _ half Hx1 eq_refl) as Hx2.
  pose proof (fadd_nonneg _ half Hy1 eq_refl) as Hy2.
  pose proof (fadd_mono _ _ half Hx1 Hy1 eq_refl (fmul_mono x y hundred Hx Hy eq_refl Hle)) as M1.
  assert (Hm : fnonneg max_price = true) by reflexivity.
  assert (Hm1 : fnonneg (fmul max_price hundred) = true) by reflexivity.
  assert (Hm2 : fnonneg (fadd (fmul max_price hundred) half) = true) by reflexivity.
  pose proof (fadd_mono _ _ half Hy1 Hm1 eq_refl (fmul_mono y max_price hundred Hy Hm eq_refl Hmax)) as M2.
  assert (T : trunc (fadd (fmul max_price hundred) half) = Some (10 ^ 11)) by reflexivity.
  destruct (trunc_mono _ _ Hy2 Hm2 M2 _ T) as (b & Hb & Hb1).
  destruct (f64_to_int64_mono _ _ b Hx2 Hy2 M1 Hb) as [B E]; lia.
Qed.

(** [roundNSE] is monotone on prices up to [max_price]. *)
Lemma roundNSE_mono x y :
  fnonneg x = true -> fnonneg y = true -> fle x y = true -> fle y max_price = true ->
  fle (roundNSE x) (roundNSE y) = true.
Proof.
  intros Hx Hy Hle Hmax. destruct (paise_mono x y Hx Hy Hle Hmax) as [B1 B2].
  unfold roundNSE, roundPaise. rewrite hundred_eq.
  set (p := f64_to_int64 (x * _ + _)%f64) in *. set (q := f64_to_int64 (y * _ + _)%f64) in *.
  pose proof (round_ticks_mono p q ltac:(lia) ltac:(lia)) as M.
  destruct (round_ticks_spec p ltac:(lia)) as (_ & _ & P).
  destruct (round_ticks_spec q ltac:(lia)) as (_ & _ & Q).
  apply fdiv_mono; auto using of_Z_nonneg, of_Z_mono.
Qed.

Lemma roundNSE_nonneg x : 0 <= roundPaise x -> fnonneg (roundNSE x) = true.
Proof. intros H. unfold roundNSE. rewrite hundred_eq. apply fdiv_nonneg; [by apply of_Z_nonneg|done]. Qed.

(** [roundNSE] leaves a price of whole ticks unchanged. *)
Lemma roundNSE_tick k : 0 < k < 2 ^ 46 -> roundNSE (tick k) = tick k.
Proof.
  intros Hk. unfold roundNSE, roundPaise, tick. rewrite hundred_eq, half_eq.
  rewrite paise_back by lia. f_equal. f_equal.
  rewrite (int64_id (5 * k + 2)) by (unfold in_int64; lia).
  rewrite Z.quot_div_nonneg by lia.
  replace (5 * k + 2) with (2 + k * 5) by lia. rewrite Z.div_add by lia.
  change (2 / 5) with 0. rewrite int64_id by (unfold in_int64; lia). lia.
Qed.

(** Rounding cannot carry a price across a tick. *)
Lemma roundNSE_le_tick x k :
  fnonneg x = true -> 0 < k < 2 ^ 34 -> fle x (tick k) = true -> fle (tick k) max_price = true ->
  fle (roundNSE x) (tick k) = true.
Proof.
  intros Hx Hk Hle Hmax. rewrite <- (roundNSE_tick k) by lia.
  apply roundNSE_mono; auto. unfold tick. rewrite hundred_eq.
  apply fdiv_nonneg; [apply of_Z_nonneg; lia|done].
Qed.

Lemma roundNSE_ge_tick x k :
  fnonneg x = true -> 0 < k < 2 ^ 34 -> fle (tick k) x = true -> fle x max_price = true ->
  fle (tick k) (roundNSE x) = true.
Proof.
  intros Hx Hk Hle Hmax. rewrite <- (roundNSE_tick k) by lia.
  apply roundNSE_mono; auto. unfold tick. rewrite hundred_eq.
  apply fdiv_nonneg; [apply of_Z_nonneg; lia|done].
Qed.
