(* ===== verification/FloatExact.v ===== *)
(** * Quotients of integers

    A correctly rounded quotient of two integers against the exact one: its
    integer part, and on which side of the half its fraction lies, are those of
    the exact quotient when the divisor is small. *)

From stdpp Require Import base tactics.
From Stdlib Require Import ZArith Lia Bool SpecFloat.
From S2P Require Import Prelude GoFloat FloatRound FloatOrder Price.

Open Scope Z_scope.

(** [n / 2^j], correctly rounded. *)
Definition dyadic (n j : Z) : f64 := binary_round prec emax false (Z.to_pos n) (- j).

Lemma of_Z_exact a :
  0 < a < 2 ^ 53 ->
  exists m e, e <= 0 /\ Z.pos m = a * 2 ^ (- e) /\ bounded prec emax m e = true /\
    of_Z a = S754_finite false m e.
Proof.
  intros Ha. destruct a as [|p|p]; [lia| |lia].
  destruct (binary_round_exact p 0) as (m & e & He & Hm & Hb & Hr); [lia..|].
  exists m, e. rewrite Z.sub_0_l in Hm. split_and!; auto.
Qed.

Lemma of_Z_fpos a : (0 < a < 2 ^ 53)%Z -> fpos (of_Z a) = true.
Proof. intros H. by destruct (of_Z_exact a H) as (m & e & _ & _ & Hb & ->). Qed.

Lemma pow2_split a b : 0 <= a -> 0 <= b -> 2 ^ (a + b) = 2 ^ a * 2 ^ b.
Proof. intros. by rewrite Z.pow_add_r by lia. Qed.

Section Quotient.

Context (a T : Z) (Ha : 0 < a < 2 ^ 53) (HT : 0 < T < 2 ^ 53).

(** The two sides of the comparison of a dyadic number with the quotient. *)
Lemma quotient_data n j :
  0 < n -> 0 <= j ->
  exists m1 e1 n2 d2 e2 l2,
    dyadic n j = binary_round_aux prec emax false (Z.pos m1) e1 loc_Exact /\
    fdiv (of_Z a) (of_Z T) = binary_round_aux prec emax false (n2 / d2) e2 l2 /\
    e1 <= target_exp (Z.pos m1) e1 /\ e2 <= target_exp (n2 / d2) e2 /\ 0 <= n2 /\ 0 < d2 /\
    represents (shr_record_of_loc (n2 / d2) l2) n2 d2 /\
    (n * T <= a * 2 ^ j -> vle (Z.pos m1) 1 e1 n2 d2 e2) /\
    (a * 2 ^ j <= n * T -> vle n2 d2 e2 (Z.pos m1) 1 e1).
Proof.
  intros Hn Hj. unfold dyadic.
  destruct (binary_round_aligned (Z.to_pos n) (- j)) as (m1 & e1 & L1 & E1 & T1 & ->).
  rewrite Z2Pos.id in E1 by lia.
  destruct (of_Z_exact a Ha) as (ma & ea & La & Ea & _ & ->).
  destruct (of_Z_exact T HT) as (mt & et & Lt & Et & _ & ->).
  destruct (fdiv_pos_spec ma ea mt et) as (n2 & e2 & Hn2 & L2 & E2 & T2 & ->).
  exists m1, e1, n2, (Z.pos mt), e2, (new_location (Z.pos mt) (n2 mod Z.pos mt)).
  assert (Hv : exists B, B <= e1 /\ B <= e2 /\ exists c, 0 < c /\
            Z.pos m1 * 2 ^ (e1 - B) * Z.pos mt = n * T * c /\
            n2 * 2 ^ (e2 - B) * 1 = a * 2 ^ j * c).
  { exists (Z.min e1 e2). split; [lia|]. split; [lia|]. set (B := Z.min e1 e2).
    assert (HB : B <= e1 /\ B <= e2) by (unfold B; lia).
    exists (2 ^ (- j - B) * 2 ^ (- et)).
    split; [apply Z.mul_pos_pos; apply Z.pow_pos_nonneg; lia|]. split.
    - rewrite E1, Et. replace (- j - B) with ((- j - e1) + (e1 - B)) by lia.
      rewrite (pow2_split (- j - e1)) by lia. ring.
    - rewrite E2, Ea. replace (2 ^ j) with (2 ^ j) by done.
      replace (a * 2 ^ (- ea) * 2 ^ (ea - et - e2) * 2 ^ (e2 - B) * 1)
        with (a * (2 ^ (- ea) * 2 ^ (ea - et - e2) * 2 ^ (e2 - B))) by ring.
      replace (a * 2 ^ j * (2 ^ (- j - B) * 2 ^ (- et)))
        with (a * (2 ^ j * 2 ^ (- j - B) * 2 ^ (- et))) by ring.
      f_equal. rewrite <- !Z.pow_add_r by lia. f_equal. lia. }
  destruct Hv as (B & HB1 & HB2 & c & Hc & V1 & V2).
  split_and!; auto; try lia; [apply new_location_represents; lia|intros H; exists B..];
    (split; [done|split; [done|]]); rewrite ?V1, ?V2; apply Z.mul_le_mono_nonneg_r; lia.
Qed.

Lemma dyadic_le_quotient n j :
  0 < n -> 0 <= j -> n * T <= a * 2 ^ j -> fle (dyadic n j) (fdiv (of_Z a) (of_Z T)) = true.
Proof.
  intros Hn Hj Hle.
  destruct (quotient_data n j Hn Hj) as (m1 & e1 & n2 & d2 & e2 & l2 & -> & -> & T1 & T2 & N2 & D2 & R2 & V & _).
  pose proof (round_mono (Z.pos m1) 1 e1 loc_Exact n2 d2 e2 l2) as R. rewrite Z.div_1_r in R.
  apply R; auto using represents_pos; lia.
Qed.

Lemma quotient_le_dyadic n j :
  0 < n -> 0 <= j -> a * 2 ^ j <= n * T -> fle (fdiv (of_Z a) (of_Z T)) (dyadic n j) = true.
Proof.
  intros Hn Hj Hle.
  destruct (quotient_data n j Hn Hj) as (m1 & e1 & n2 & d2 & e2 & l2 & -> & -> & T1 & T2 & N2 & D2 & R2 & _ & V).
  pose proof (round_mono n2 d2 e2 l2 (Z.pos m1) 1 e1 loc_Exact) as R. rewrite Z.div_1_r in R.
  apply R; auto using represents_pos; lia.
Qed.

Lemma quotient_pos : exists m e, fdiv (of_Z a) (of_Z T) = S754_finite false m e /\ bounded prec emax m e = true.
Proof.
  assert (Hn : fnonneg (fdiv (of_Z a) (of_Z T)) = true).
  { apply fdiv_nonneg; [apply of_Z_nonneg; lia|].
    destruct (of_Z_exact T HT) as (m & e & _ & _ & Hb & ->). exact Hb. }
  pose proof (quotient_le_dyadic a 0 ltac:(lia) ltac:(lia) ltac:(nia)) as Hu.
  pose proof (dyadic_le_quotient 1 60 ltac:(lia) ltac:(lia) ltac:(nia)) as Hl.
  destruct (of_Z_exact a Ha) as (m & e & _ & _ & _ & He).
  assert (Hd : dyadic a 0 = of_Z a) by (destruct a as [|p|p]; [lia|done|lia]). rewrite Hd in Hu.
  destruct (fdiv (of_Z a) (of_Z T)) as [s| s | | [] mm ee].
  - vm_compute in Hl. discriminate Hl.
  - destruct s; [discriminate Hn|rewrite He in Hu; discriminate Hu].
  - discriminate Hn.
  - discriminate Hn.
  - by exists mm, ee.
Qed.

End Quotient.

(** ** Integer part *)

Lemma trunc_dyadic k r j :
  0 <= j <= 64 -> 0 <= r < 2 ^ j -> 0 < k * 2 ^ j + r < 2 ^ 53 ->
  trunc (dyadic (k * 2 ^ j + r) j) = Some k.
Proof.
  intros Hj Hr Hk. unfold dyadic.
  destruct (binary_round_exact (Z.to_pos (k * 2 ^ j + r)) (- j)) as (m & e & He & Hm & _ & ->); [lia..|].
  rewrite (trunc_floor false m e e) by lia. cbn -[Z.pow Z.div]. f_equal.
  rewrite Z.sub_diag, Z.mul_1_r, Hm, Z2Pos.id by lia.
  replace (- e) with ((- j - e) + j) by lia. rewrite Z.pow_add_r by lia.
  rewrite (Z.mul_comm (k * 2 ^ j + r)), Z.div_mul_cancel_l; [|apply Z.pow_nonzero; lia|apply Z.pow_nonzero; lia].
  symmetry. apply Z.div_unique_pos with r; lia.
Qed.

Lemma dyadic_nonneg n j : fnonneg (dyadic n j) = true.
Proof. apply binary_round_nonneg. Qed.

(** The largest divisor the comparisons below allow. *)
Definition small_divisor (T : Z) : Prop := 0 < T <= 512.

Lemma quotient_trunc a T :
  0 < a < 2 ^ 43 -> small_divisor T -> trunc (fdiv (of_Z a) (of_Z T)) = Some (a / T).
Proof.
  intros Ha HT. unfold small_divisor in HT. pose proof (Z.div_mod a T ltac:(lia)) as Hdm.
  pose proof (Z.mod_pos_bound a T ltac:(lia)) as Hr. set (k := a / T) in *. set (r := a mod T) in *.
  assert (Hk : 0 <= k) by (apply Z.div_pos; lia).
  assert (Hn : fnonneg (fdiv (of_Z a) (of_Z T)) = true).
  { destruct (quotient_pos a T ltac:(lia) ltac:(lia)) as (m & e & -> & Hb). exact Hb. }
  assert (Hu : trunc (dyadic (k * 2 ^ 9 + 511) 9) = Some k) by (apply trunc_dyadic; nia).
  pose proof (quotient_le_dyadic a T ltac:(lia) ltac:(lia) (k * 2 ^ 9 + 511) 9 ltac:(lia) ltac:(lia)
                ltac:(nia)) as Hle.
  destruct (trunc_mono _ _ Hn (dyadic_nonneg _ _) Hle _ Hu) as (b & Hb & Hbk). rewrite Hb. f_equal.
  destruct (Z.eq_dec k 0) as [E|E]; [lia|].
  pose proof (dyadic_le_quotient a T ltac:(lia) ltac:(lia) k 0 ltac:(lia) ltac:(lia) ltac:(nia)) as Hlo.
  destruct (trunc_mono _ _ (dyadic_nonneg _ _) Hn Hlo _ Hb) as (c & Hc & Hcb).
  pose proof (trunc_dyadic k 0 0 ltac:(lia) ltac:(lia) ltac:(nia)) as Hk0.
  replace (k * 2 ^ 0 + 0) with k in Hk0 by lia. rewrite Hk0 in Hc. injection Hc as <-. lia.
Qed.

Lemma trunc_of_Z k : 0 <= k < 2 ^ 53 -> trunc (of_Z k) = Some k.
Proof.
  intros Hk. destruct (Z.eq_dec k 0) as [-> | H]; [done|].
  pose proof (trunc_dyadic k 0 0 ltac:(lia) ltac:(lia) ltac:(nia)) as Hk0.
  replace (k * 2 ^ 0 + 0) with k in Hk0 by lia. destruct k as [|p|p]; [lia| |lia]. exact Hk0.
Qed.

(** The floor of a positive number and what is left of it. *)
Lemma floor_cases m e k :
  bounded prec emax m e = true -> trunc (S754_finite false m e) = Some k -> 0 <= k < 2 ^ 52 ->
  math_Floor (S754_finite false m e) = (if k =? 0 then S754_zero false else of_Z k) \/
  0 <= e /\ math_Floor (S754_finite false m e) = S754_finite false m e.
Proof.
  intros Hb Ht Hk. cbn -[Z.pow Z.div] in *. destruct (Z.leb_spec 0 e); [by right|left].
  injection Ht as ->. by destruct (k =? 0).
Qed.

Lemma floor_trunc x k :
  fpos x = true -> trunc x = Some k -> 0 <= k < 2 ^ 52 -> trunc (math_Floor x) = Some k.
Proof.
  destruct x as [| | |[] m e]; try done. intros Hb Ht Hk.
  destruct (floor_cases m e k Hb Ht Hk) as [-> | [_ ->]]; [|done].
  destruct (Z.eqb_spec k 0) as [-> | _]; [done|]. apply trunc_of_Z. lia.
Qed.

(** ** Fraction *)

(** Comparing a dyadic number with a value [m * 2^e], at a common exponent. *)
Lemma dyadic_le_iff n j m e B :
  0 < n < 2 ^ 53 -> 0 <= j <= 1000 -> bounded prec emax m e = true -> B <= - j -> B <= e ->
  fle (dyadic n j) (S754_finite false m e) = true <-> n * 2 ^ (- j - B) <= Z.pos m * 2 ^ (e - B).
Proof.
  intros Hn Hj Hb HB1 HB2. unfold dyadic. split.
  - destruct (binary_round_exact (Z.to_pos n) (- j)) as (m1 & e1 & L1 & E1 & B1 & ->); [lia..|].
    intros Hv%fle_vle; [|done|done]. rewrite Z2Pos.id in E1 by lia.
    apply (vle_at (Z.min B e1)) in Hv; [|lia..]. rewrite !Z.mul_1_r in Hv. set (C := Z.min B e1) in *.
    apply Z.mul_le_mono_pos_r with (2 ^ (B - C)); [apply Z.pow_pos_nonneg; unfold C; lia|].
    rewrite <- !Z.mul_assoc, <- !Z.pow_add_r by (unfold C; lia).
    replace (- j - B + (B - C)) with (- j - C) by lia. replace (e - B + (B - C)) with (e - C) by lia.
    rewrite E1, <- Z.mul_assoc, <- Z.pow_add_r in Hv by (unfold C; lia).
    replace (- j - e1 + (e1 - C)) with (- j - C) in Hv by lia. exact Hv.
  - intros H. rewrite <- (binary_round_valid false m e) by done. apply binary_round_mono.
    exists B. rewrite Z2Pos.id, !Z.mul_1_r by lia. auto.
Qed.

Lemma fsub_pos_spec m1 e1 m2 e2 :
  exists ez, ez = Z.min e1 e2 /\
    fsub (S754_finite false m1 e1) (S754_finite false m2 e2) =
    binary_normalize prec emax (Z.pos m1 * 2 ^ (e1 - ez) - Z.pos m2 * 2 ^ (e2 - ez)) ez false.
Proof.
  exists (Z.min e1 e2). split; [done|]. unfold fsub, SFsub. cbv zeta.
  destruct (shl_align m1 e1 (Z.min e1 e2)) as [a ea] eqn:Ha.
  destruct (shl_align m2 e2 (Z.min e1 e2)) as [b eb] eqn:Hb'.
  apply shl_align_spec in Ha as [-> Ha], Hb' as [-> Hb'].
  replace (Z.min e1 (Z.min e1 e2)) with (Z.min e1 e2) in Ha by lia.
  replace (Z.min e2 (Z.min e1 e2)) with (Z.min e1 e2) in Hb' by lia.
  cbn [fst cond_Zopp]. by rewrite Ha, Hb'.
Qed.

Lemma half_dyadic : half = dyadic 1 1. Proof. reflexivity. Qed.

(** Whether the fraction, as computed, is at least a half. *)
Lemma fraction_half x k :
  fpos x = true -> trunc x = Some k -> 0 <= k < 2 ^ 51 ->
  fle half (fsub x (math_Floor x)) = fle (dyadic (2 * k + 1) 1) x.
Proof.
  destruct x as [| | |[] m e]; try done. cbn [fpos]. intros Hb Ht Hk.
  destruct (bounded_facts _ _ Hb) as (U & R & _).
  destruct (floor_cases m e k Hb Ht ltac:(lia)) as [-> | [He ->]].
  - destruct (Z.eqb_spec k 0) as [-> | Hk0]; [done|].
    destruct (of_Z_exact k ltac:(lia)) as (m2 & e2 & L2 & E2 & B2 & ->).
    destruct (bounded_facts _ _ B2) as (U2 & R2 & _).
    destruct (fsub_pos_spec m e m2 e2) as (ez & Ez & ->).
    assert (Hez : ez <= e /\ ez <= e2) by lia.
    assert (Htr : k * 2 ^ (- ez) <= Z.pos m * 2 ^ (e - ez) < (k + 1) * 2 ^ (- ez)).
    { rewrite (trunc_floor false m e ez) in Ht by lia. injection Ht as Ht.
      pose proof (Z.div_mod (Z.pos m * 2 ^ (e - ez)) (2 ^ (- ez)) ltac:(apply Z.pow_nonzero; lia)) as Hd.
      rewrite Ht in Hd. pose proof (Z.mod_pos_bound (Z.pos m * 2 ^ (e - ez)) (2 ^ (- ez))
        ltac:(apply Z.pow_pos_nonneg; lia)). lia. }
    assert (Hm2 : Z.pos m2 * 2 ^ (e2 - ez) = k * 2 ^ (- ez)).
    { rewrite E2, <- Z.mul_assoc, <- Z.pow_add_r by lia. f_equal. f_equal. lia. }
    assert (Hlow : - 53 <= ez).
    { assert (H2 : 2 ^ (- e2) < 2 ^ 53) by nia. apply Z.pow_lt_mono_r_iff in H2; [|lia..].
      destruct (Z_le_gt_dec 0 e); [lia|].
      assert (H1 : 2 ^ (- e) < 2 ^ 53).
      { assert (Hle : 2 ^ (- e) <= Z.pos m); [|lia].
        apply Z.mul_le_mono_pos_r with (2 ^ (e - ez)); [apply Z.pow_pos_nonneg; lia|].
        rewrite <- Z.pow_add_r by lia. replace (- e + (e - ez)) with (- ez) by lia. nia. }
      apply Z.pow_lt_mono_r_iff in H1; lia. }
    set (D := Z.pos m * 2 ^ (e - ez) - Z.pos m2 * 2 ^ (e2 - ez)).
    assert (HD : D = Z.pos m * 2 ^ (e - ez) - k * 2 ^ (- ez)) by (unfold D; rewrite Hm2; done).
    assert (Hlow2 : 2 ^ (- ez) <= 2 ^ 53) by (apply Z.pow_le_mono_r; lia).
    apply eq_true_iff_eq. rewrite (dyadic_le_iff (2 * k + 1) 1 m e (ez - 1)) by (lia || done).
    replace (- (1) - (ez - 1)) with (- ez) by lia. replace (e - (ez - 1)) with (e - ez + 1) by lia.
    rewrite (Z.pow_add_r 2 (e - ez) 1) by lia. clearbody D.
    destruct D as [|D|D].
    + cbn. split; [done|]. intros H. exfalso.
      assert (0 < 2 ^ (- ez)) by (apply Z.pow_pos_nonneg; lia). nia.
    + cbn [binary_normalize].
      destruct (binary_round_exact D ez) as (m' & e' & L' & E' & B' & ->); [lia..|].
      rewrite half_dyadic, (dyadic_le_iff 1 1 m' e' (e' - 1)) by (lia || done).
      replace (- (1) - (e' - 1)) with (- e') by lia. replace (e' - (e' - 1)) with 1 by lia.
      rewrite E'. replace (- e') with ((ez - e') + - ez) by lia. rewrite (Z.pow_add_r 2 (ez - e')) by lia.
      assert (0 < 2 ^ (ez - e')) by (apply Z.pow_pos_nonneg; lia). split; intros H'; nia.
    + lia.
  - cbn -[Z.pow Z.div] in Ht. destruct (Z.leb_spec 0 e); [|lia]. injection Ht as Ht.
    destruct (fsub_pos_spec m e m e) as (ez & Ez & ->). rewrite Z.sub_diag.
    replace (Z.min e e) with e in Ez by lia. cbn [binary_normalize]. symmetry. apply not_true_is_false.
    rewrite (dyadic_le_iff (2 * k + 1) 1 m e (- (1))) by (lia || done).
    rewrite Z.sub_diag. replace (e - - (1)) with (e + 1) by lia. rewrite Z.pow_add_r by lia.
    change (2 ^ 0) with 1. change (2 ^ 1) with 2. lia.
Qed.

(** A quotient is at least a half above its integer part when the exact one is. *)
Lemma quotient_half a T :
  0 < a < 2 ^ 43 -> small_divisor T ->
  fle half (fsub (fdiv (of_Z a) (of_Z T)) (math_Floor (fdiv (of_Z a) (of_Z T)))) =
  (T <=? 2 * (a mod T)).
Proof.
  intros Ha HT. pose proof (quotient_trunc a T Ha HT) as Ht. unfold small_divisor in HT.
  pose proof (Z.div_mod a T ltac:(lia)) as Hdm. pose proof (Z.mod_pos_bound a T ltac:(lia)) as Hr.
  assert (Hk : 0 <= a / T) by (apply Z.div_pos; lia).
  destruct (quotient_pos a T ltac:(lia) ltac:(lia)) as (m & e & Hq & Hb).
  rewrite (fraction_half _ (a / T)); [|by rewrite Hq|done|nia]. set (k := a / T) in *.
  destruct (Z.leb_spec T (2 * (a mod T))).
  - apply dyadic_le_quotient; lia || nia.
  - apply not_true_is_false. intros Hle.
    pose proof (quotient_le_dyadic a T ltac:(lia) ltac:(lia) (k * 2 ^ 10 + 511) 10 ltac:(lia) ltac:(lia)
      ltac:(nia)) as Hu.
    pose proof (fle_trans _ _ _ Hle Hu) as Hc. unfold dyadic at 2 in Hc.
    destruct (binary_round_exact (Z.to_pos (k * 2 ^ 10 + 511)) (- (10))) as (m1 & e1 & L1 & E1 & B1 & X);
      [nia..|]. rewrite X in Hc. apply (dyadic_le_iff _ _ _ _ (Z.min e1 (- (10)))) in Hc; [|nia..|done|lia|lia].
    rewrite E1, Z2Pos.id in Hc by nia. set (B := Z.min e1 (- (10))) in *.
    rewrite <- Z.mul_assoc, <- Z.pow_add_r in Hc by lia.
    replace (- (10) - e1 + (e1 - B)) with (- (10) - B) in Hc by lia.
    replace (- (1) - B) with (9 + (- (10) - B)) in Hc by lia. rewrite (Z.pow_add_r 2 9) in Hc by lia.
    assert (0 < 2 ^ (- (10) - B)) by (apply Z.pow_pos_nonneg; lia). nia.
Qed.

(** ** Exact sums and products of integers *)

Lemma fle_antisym_finite m1 e1 m2 e2 :
  fle (S754_finite false m1 e1) (S754_finite false m2 e2) = true ->
  fle (S754_finite false m2 e2) (S754_finite false m1 e1) = true ->
  S754_finite false m1 e1 = S754_finite false m2 e2.
Proof.
  rewrite !fle_key by done. cbn [key].
  destruct (key_compare_spec (1, e1, Z.pos m1) (1, e2, Z.pos m2)) as [E|H|H]; cbn [fst snd] in *;
    destruct (key_compare_spec (1, e2, Z.pos m2) (1, e1, Z.pos m1)) as [E'|H'|H']; cbn [fst snd] in *;
    intros G1 G2; try discriminate G1; try discriminate G2; try (injection E as -> ->; done);
    try (injection E' as -> ->; done); lia.
Qed.

(** Rounding a value that is exact depends on the value only. *)
Lemma of_Z_value m e a :
  0 < a < 2 ^ 53 -> e <= 0 -> Z.pos m = a * 2 ^ (- e) -> binary_round prec emax false m e = of_Z a.
Proof.
  intros Ha He Hm. destruct a as [|p|p]; [lia| |lia].
  change (of_Z (Z.pos p)) with (binary_round prec emax false p 0).
  assert (H1 : fle (binary_round prec emax false m e) (binary_round prec emax false p 0) = true)
    by (apply binary_round_mono; exists e; rewrite Z.sub_diag, Z.sub_0_l; lia).
  assert (H2 : fle (binary_round prec emax false p 0) (binary_round prec emax false m e) = true)
    by (apply binary_round_mono; exists e; rewrite Z.sub_diag, Z.sub_0_l; lia).
  pose proof (binary_round_nonneg m e) as Hn.
  destruct (binary_round_exact p 0) as (m' & e' & _ & _ & _ & Hp); [lia..|]. rewrite Hp in *.
  destruct (binary_round prec emax false m e) as [s| s | | [] m1 e1].
  - discriminate H2.
  - destruct s; [discriminate Hn|discriminate H1].
  - discriminate H1.
  - discriminate Hn.
  - by apply fle_antisym_finite.
Qed.

Lemma of_Z_add a b : 0 <= a -> 0 < b -> a + b < 2 ^ 53 -> fadd (of_Z a) (of_Z b) = of_Z (a + b).
Proof.
  intros Ha Hb Hab. destruct (Z.eq_dec a 0) as [-> | Hne].
  { destruct (of_Z_exact b ltac:(lia)) as (m & e & _ & _ & _ & E). cbn [Z.add]. by rewrite E. }
  destruct (of_Z_exact a ltac:(lia)) as (m1 & e1 & L1 & E1 & _ & ->).
  destruct (of_Z_exact b ltac:(lia)) as (m2 & e2 & L2 & E2 & _ & ->).
  destruct (fadd_pos_spec m1 e1 m2 e2) as (p & e & H1 & H2 & Hp & ->).
  apply of_Z_value; [lia|lia|]. rewrite Hp, E1, E2, <- !Z.mul_assoc, <- !Z.pow_add_r by lia.
  replace (- e1 + (e1 - e)) with (- e) by lia. replace (- e2 + (e2 - e)) with (- e) by lia. ring.
Qed.

Lemma of_Z_mul a b : 0 < a -> 0 < b -> a * b < 2 ^ 53 -> fmul (of_Z a) (of_Z b) = of_Z (a * b).
Proof.
  intros Ha Hb Hab. assert (a <= a * b /\ b <= a * b /\ 0 < a * b) by nia.
  destruct (of_Z_exact a ltac:(lia)) as (m1 & e1 & L1 & E1 & B1 & ->).
  destruct (of_Z_exact b ltac:(lia)) as (m2 & e2 & L2 & E2 & B2 & ->).
  cbn -[binary_round_aux Pos.mul].
  assert (Hv : Z.pos (m1 * m2) = a * b * 2 ^ (- (e1 + e2))).
  { rewrite Pos2Z.inj_mul, E1, E2. replace (- (e1 + e2)) with (- e1 + - e2) by lia.
    rewrite Z.pow_add_r by lia. ring. }
  pose proof (mul_aligned m1 e1 m2 e2 B1 B2) as Ht.
  destruct (of_Z_exact (a * b) ltac:(lia)) as (m & e & L & E & Hb' & Hab').
  assert (Hv' : forall B, B <= e1 + e2 -> B <= e -> Z.pos (m1 * m2) * 2 ^ (e1 + e2 - B) = Z.pos m * 2 ^ (e - B)).
  { intros B HB1 HB2. rewrite Hv, E, <- !Z.mul_assoc, <- !Z.pow_add_r by lia. do 3 f_equal. lia. }
  assert (Hte : e <= target_exp (Z.pos m) e).
  { unfold bounded, canonical_mantissa in Hb'. apply andb_prop in Hb' as [Hc _]. apply Z.eqb_eq in Hc.
    unfold target_exp. change (Zdigits2 (Z.pos m)) with (Z.pos (digits2_pos m)). lia. }
  assert (Hm : binary_round_aux prec emax false (Z.pos m) e loc_Exact = S754_finite false m e).
  { rewrite <- (binary_round_valid false m e Hb'). unfold binary_round.
    unfold bounded, canonical_mantissa in Hb'. apply andb_prop in Hb' as [Hc _]. apply Z.eqb_eq in Hc.
    rewrite Hc. unfold shl_align. by rewrite Z.sub_diag. }
  rewrite Hab'.
  assert (HB : exists B, B <= e1 + e2 /\ B <= e) by (exists (Z.min (e1 + e2) e); lia).
  destruct HB as (B & HB1 & HB2).
  assert (H1 : fle (binary_round_aux prec emax false (Z.pos (m1 * m2)) (e1 + e2) loc_Exact)
                 (S754_finite false m e) = true).
  { rewrite <- Hm. apply round_pos_mono; auto. exists B. rewrite Hv' by done. lia. }
  assert (H2 : fle (S754_finite false m e)
                 (binary_round_aux prec emax false (Z.pos (m1 * m2)) (e1 + e2) loc_Exact) = true).
  { rewrite <- Hm. apply round_pos_mono; auto. exists B. rewrite Hv' by done. lia. }
  pose proof (round_nonneg (Z.pos (m1 * m2)) 1 (e1 + e2) loc_Exact) as Hn. rewrite Z.div_1_r in Hn.
  specialize (Hn ltac:(lia) ltac:(lia) (represents_pos _) Ht).
  destruct (binary_round_aux prec emax false (Z.pos (m1 * m2)) (e1 + e2) loc_Exact) as [s| s | | [] m3 e3].
  - discriminate H2.
  - destruct s; [discriminate Hn|discriminate H1].
  - discriminate H1.
  - discriminate Hn.
  - by apply fle_antisym_finite.
Qed.
