(* ===== verification/GoStrings.v ===== *)
(** * Go's strings package

    A Go string is its bytes, a Rocq [string].  The functions are those of the
    [strings] package on ASCII text, which is what brokers, tickers and statuses
    are; a byte of 128 or more is left alone by the case mappings. *)

From stdpp Require Import base strings list sorting.
From Stdlib Require Import Ascii String NArith ZArith Lia DecimalString DecimalZ DecimalFacts.
From S2P Require Import Prelude.

Open Scope string_scope.

Infix "=?s" := String.eqb (at level 70) : go_scope.

Definition upper_ascii (c : ascii) : ascii :=
  let n := N_of_ascii c in
  if (97 <=? n)%N && (n <=? 122)%N then ascii_of_N (n - 32) else c.

Definition lower_ascii (c : ascii) : ascii :=
  let n := N_of_ascii c in
  if (65 <=? n)%N && (n <=? 90)%N then ascii_of_N (n + 32) else c.

Fixpoint map_string (f : ascii -> ascii) (s : string) : string :=
  match s with
  | "" => ""
  | String c s => String (f c) (map_string f s)
  end.

Definition ToUpper (s : string) : string := map_string upper_ascii s.

Definition ToLower (s : string) : string := map_string lower_ascii s.

(** ASCII white space: tab, newline, vertical tab, form feed, return, space. *)
Definition is_space (c : ascii) : bool :=
  let n := N_of_ascii c in ((9 <=? n)%N && (n <=? 13)%N) || (n =? 32)%N.

Fixpoint trim_left (s : string) : string :=
  match s with
  | "" => ""
  | String c s' => if is_space c then trim_left s' else s
  end.

Fixpoint trim_right (s : string) : string :=
  match s with
  | "" => ""
  | String c s' =>
      let t := trim_right s' in
      if is_space c && String.eqb t "" then "" else String c t
  end.

Definition TrimSpace (s : string) : string := trim_right (trim_left s).

Fixpoint has_prefix (p s : string) : bool :=
  match p, s with
  | "", _ => true
  | String a p', String b s' => Ascii.eqb a b && has_prefix p' s'
  | _, _ => false
  end.

(** [strings.Contains(s, sub)]. *)
Fixpoint Contains (s sub : string) : bool :=
  has_prefix sub s ||
  match s with
  | "" => false
  | String _ s' => Contains s' sub
  end.

Definition EqualFold (s t : string) : bool := String.eqb (ToLower s) (ToLower t).

(** [strings.TrimPrefix]. *)
Definition TrimPrefix (s prefix : string) : string :=
  if has_prefix prefix s then String.substring (String.length prefix) (String.length s) s else s.

(** [strings.Split(s, sep)] for a separator of one byte, and its inverse. *)
Fixpoint Split (sep : ascii) (s : string) : list string :=
  match s with
  | "" => [""]
  | String c s' =>
      if Ascii.eqb c sep then "" :: Split sep s'
      else match Split sep s' with
           | [] => [String c ""]
           | w :: ws => String c w :: ws
           end
  end.

Fixpoint Join (sep : ascii) (l : list string) : string :=
  match l with
  | [] => ""
  | [w] => w
  | w :: ws => (w ++ String sep (Join sep ws))%string
  end.

Fixpoint free_of (sep : ascii) (s : string) : bool :=
  match s with
  | "" => true
  | String c s' => negb (Ascii.eqb c sep) && free_of sep s'
  end.

Lemma Split_free sep w : free_of sep w = true -> Split sep w = [w].
Proof.
  induction w as [|c w IH]; cbn; [done|]. intros [Hc Hw]%andb_prop.
  apply negb_true_iff in Hc. rewrite Hc. by rewrite IH.
Qed.

Lemma Split_append sep w s :
  free_of sep w = true -> Split sep (w ++ String sep s)%string = w :: Split sep s.
Proof.
  induction w as [|c w IH]; intros Hf.
  - change ("" ++ String sep s)%string with (String sep s). cbn. by rewrite Ascii.eqb_refl.
  - change (String c w ++ String sep s)%string with (String c (w ++ String sep s)%string).
    cbn in *. apply andb_prop in Hf as [Hc Hw]. apply negb_true_iff in Hc. rewrite Hc. by rewrite IH.
Qed.

(** What was joined is split again, when no part holds the separator. *)
Lemma Split_Join sep l :
  l <> [] -> Forall (fun w => free_of sep w = true) l -> Split sep (Join sep l) = l.
Proof.
  intros Hl Hf. destruct l as [|w l]; [done|]. clear Hl. revert w Hf.
  induction l as [|v l IH]; intros w Hf; inversion_clear Hf as [|? ? Hw Hrest].
  - by apply Split_free.
  - cbn [Join]. rewrite Split_append by done. f_equal. by apply IH.
Qed.

(** Membership in the string list of a [switch] case. *)
Definition one_of (s : string) (l : list string) : bool := existsb (String.eqb s) l.

Lemma one_of_In s l : one_of s l = true <-> In s l.
Proof.
  unfold one_of. rewrite existsb_exists. split.
  - intros (x & Hx & ->%String.eqb_eq). exact Hx.
  - intros H. exists s. by rewrite String.eqb_refl.
Qed.

(** A string is in at most one of two lists without a common member. *)
Lemma one_of_disjoint s l1 l2 :
  one_of s l1 = true -> existsb (fun x => one_of x l2) l1 = false -> one_of s l2 = false.
Proof.
  intros H1 Hd. destruct (one_of s l2) eqn:H2; [|done].
  rewrite <- Hd. symmetry. apply existsb_exists. exists s. split; [by apply one_of_In|done].
Qed.

Lemma upper_ascii_idemp c : upper_ascii (upper_ascii c) = upper_ascii c.
Proof. by destruct c as [[] [] [] [] [] [] [] []]. Qed.

Lemma lower_ascii_idemp c : lower_ascii (lower_ascii c) = lower_ascii c.
Proof. by destruct c as [[] [] [] [] [] [] [] []]. Qed.

Lemma ToUpper_idemp s : ToUpper (ToUpper s) = ToUpper s.
Proof. induction s as [|c s IH]; cbn; [done|]. unfold ToUpper in IH. by rewrite IH, upper_ascii_idemp. Qed.

Lemma ToLower_idemp s : ToLower (ToLower s) = ToLower s.
Proof. induction s as [|c s IH]; cbn; [done|]. unfold ToLower in IH. by rewrite IH, lower_ascii_idemp. Qed.

Lemma EqualFold_refl s : EqualFold s s = true.
Proof. apply String.eqb_refl. Qed.

Lemma EqualFold_sym s t : EqualFold s t = EqualFold t s.
Proof. unfold EqualFold. apply String.eqb_sym. Qed.

(** ** [sort.Strings]

    Go compares strings byte by byte, which is the Standard Library's order. *)

Definition string_le (s t : string) : Prop := String.leb s t = true.

#[export] Instance string_le_dec s t : Decision (string_le s t).
Proof. unfold string_le. apply _. Defined.

Lemma ascii_compare_trans a b c :
  Ascii.compare a b = Lt -> Ascii.compare b c = Lt -> Ascii.compare a c = Lt.
Proof. unfold Ascii.compare. rewrite !N.compare_lt_iff. lia. Qed.

Lemma ascii_compare_refl a : Ascii.compare a a = Eq.
Proof. unfold Ascii.compare. apply N.compare_refl. Qed.

Lemma ascii_compare_eq a b : Ascii.compare a b = Eq -> a = b.
Proof.
  unfold Ascii.compare. intros H. apply N.compare_eq in H.
  rewrite <- (ascii_N_embedding a), <- (ascii_N_embedding b). by rewrite H.
Qed.

Lemma string_compare_trans s : forall t u,
  String.compare s t = Lt -> String.compare t u = Lt -> String.compare s u = Lt.
Proof.
  induction s as [|a s IH]; intros [|b t] [|c u]; cbn; try done.
  destruct (Ascii.compare a b) eqn:E1; destruct (Ascii.compare b c) eqn:E2; try done.
  - apply ascii_compare_eq in E1 as ->. apply ascii_compare_eq in E2 as ->.
    rewrite ascii_compare_refl. eauto.
  - apply ascii_compare_eq in E1 as ->. by rewrite E2.
  - apply ascii_compare_eq in E2 as ->. by rewrite E1.
  - by rewrite (ascii_compare_trans _ _ _ E1 E2).
Qed.

Definition string_lt (s t : string) : Prop := String.compare s t = Lt.

Lemma string_compare_refl s : String.compare s s = Eq.
Proof. induction s as [|a s IH]; cbn; [done|]. by rewrite ascii_compare_refl. Qed.

Lemma string_le_lt s t : string_le s t <-> string_lt s t \/ s = t.
Proof.
  unfold string_le, string_lt, String.leb. split.
  - destruct (String.compare s t) eqn:E; try done; [|by left].
    intros _. right. by apply String.compare_eq_iff.
  - intros [H | ->]; [by rewrite H|]. by rewrite string_compare_refl.
Qed.

#[export] Instance string_lt_trans : Transitive string_lt.
Proof. intros s t u. apply string_compare_trans. Qed.

#[export] Instance string_le_trans : Transitive string_le.
Proof.
  intros s t u. rewrite !string_le_lt. intros [H1 | ->] [H2 | ->]; auto.
  left. by trans t.
Qed.

#[export] Instance string_le_total : Total string_le.
Proof. intros s t. apply String.leb_total. Qed.

(** A strictly smaller string is another one. *)
Lemma string_lt_irrefl s : ~ string_lt s s.
Proof.
  unfold string_lt. by rewrite string_compare_refl.
Qed.

Definition sort_strings (l : list string) : list string := merge_sort string_le l.

Lemma sort_strings_perm l : sort_strings l ≡ₚ l.
Proof. apply merge_sort_Permutation. Qed.

Lemma sort_strings_sorted l : StronglySorted string_le (sort_strings l).
Proof. apply (StronglySorted_merge_sort string_le). Qed.

(** Sorting distinct strings gives them in strictly increasing order. *)
Lemma sort_strings_strict l : NoDup l -> StronglySorted string_lt (sort_strings l).
Proof.
  intros Hnd. pose proof (sort_strings_sorted l) as Hs.
  assert (NoDup (sort_strings l)) as Hnd' by (by rewrite sort_strings_perm).
  induction Hs as [|s k Hk IH Hall]; [constructor|].
  apply NoDup_cons in Hnd' as [Hs Hnd']. constructor; [auto|].
  apply Forall_forall. intros t Ht. rewrite Forall_forall in Hall.
  pose proof (Hall t Ht) as Hle. apply string_le_lt in Hle as [? | <-]; done.
Qed.

(** ** [strconv.Itoa] and [strconv.Atoi]

    [Atoi] takes an optional sign and decimal digits, and fails on anything else
    and on values outside int64. *)

Definition Itoa (z : Z) : string := NilZero.string_of_int (Z.to_int z).

Definition parse_int (s : string) : option Z :=
  match s with
  | String "+" s' => Z.of_uint <$> NilZero.uint_of_string s'
  | _ => Z.of_int <$> NilZero.int_of_string s
  end.

Definition Atoi (s : string) : option Z :=
  match parse_int s with
  | Some z => if (- 2 ^ 63 <=? z)%Z && (z <? 2 ^ 63)%Z then Some z else None
  | None => None
  end.

Lemma Atoi_Itoa z : in_int64 z -> Atoi (Itoa z) = Some z.
Proof.
  intros Hz. unfold in_int64 in Hz. unfold Atoi, Itoa.
  assert (Hp : parse_int (NilZero.string_of_int (Z.to_int z)) = Some z).
  { pose proof (NilZero.isi (Z.to_int z)) as H.
    assert (Hn : Z.to_int z <> Decimal.Pos Decimal.Nil /\ Z.to_int z <> Decimal.Neg Decimal.Nil).
    { split; intros Hn; pose proof (DecimalZ.of_to z) as Hz'; rewrite Hn in Hz'; cbn in Hz';
        subst z; discriminate Hn. }
    specialize (H (proj1 Hn) (proj2 Hn)).
    assert (Hplus : forall d, match NilZero.string_of_int d with String "+" _ => false | _ => true end = true).
    { intros [u|u]; [|done]. destruct u; done. }
    specialize (Hplus (Z.to_int z)). revert H Hplus.
    generalize (NilZero.string_of_int (Z.to_int z)). intros str H Hplus.
    assert (Hgen : parse_int str = Z.of_int <$> NilZero.int_of_string str).
    { unfold parse_int. destruct str as [|[[] [] [] [] [] [] [] []] str']; done. }
    rewrite Hgen, H. cbn. by rewrite DecimalZ.of_to. }
  rewrite Hp. destruct (Z.leb_spec (- 2 ^ 63) z); [|lia]. by destruct (Z.ltb_spec z (2 ^ 63)); [|lia].
Qed.
