(* ===== verification/GoTime.v ===== *)
(** * Instants and Indian time

    A [time.Time] is its instant in nanoseconds; a zone is its offset from UTC
    in seconds.  India has no daylight saving time. *)

From Stdlib Require Import ZArith Lia Ascii.
From stdpp Require Import base strings.
From S2P Require Import Prelude GoStrings.

Open Scope string_scope.
Open Scope Z_scope.

Definition second : Z := 10 ^ 9.

(** Offset of India, in seconds. *)
Definition ist_offset : Z := 5 * 60 * 60 + 30 * 60.

(** The minute of the day, the day number and the weekday (Sunday is 0) of an
    instant in a zone. *)
Definition local_seconds (offset t : Z) : Z := t / second + offset.
Definition minute_of_day (offset t : Z) : Z := (local_seconds offset t mod 86400) / 60.
Definition day_number (offset t : Z) : Z := local_seconds offset t / 86400.
Definition weekday (offset t : Z) : Z := (day_number offset t + 4) mod 7.

(** The calendar day of an instant in India. *)
Definition today (now : Z) : Z := day_number ist_offset now.

(** [fmt.Sscanf(s, "%d:%d", ...)]: two integers around a colon; what follows the
    second is not looked at. *)
Fixpoint scan_digits (s : string) : string * string :=
  match s with
  | String c s' =>
    let n := N_of_ascii c in
    if (48 <=? n)%N && (n <=? 57)%N then let '(d, rest) := scan_digits s' in (String c d, rest)
    else ("", s)
  | "" => ("", "")
  end.

Definition scan_int (s : string) : option (Z * string) :=
  let '(sign, s) := match s with
                    | String "-" s' => ("-", s') | String "+" s' => ("", s') | _ => ("", s) end in
  let '(digits, rest) := scan_digits s in
  match Atoi (String.append sign digits) with
  | Some z => Some (z, rest)
  | None => None
  end.

Definition parseHHMM (s : string) : option (Z * Z) :=
  match scan_int s with
  | Some (h, String ":" rest) =>
    match scan_int rest with Some (m, _) => Some (h, m) | None => None end
  | _ => None
  end.

(** [fmt.Sprintf("%02d:%02d", t.Hour(), t.Minute())] in India. *)
Definition two_digits (n : Z) : string :=
  if (n <? 10)%Z then String.append "0" (Itoa n) else Itoa n.

Definition clock_minute (now : Z) : Z := minute_of_day ist_offset now.

Definition hhmm (now : Z) : string :=
  String.append (two_digits (clock_minute now / 60))
    (String.append ":" (two_digits (clock_minute now mod 60))).

(** Saturday and Sunday in India. *)
Definition weekend (now : Z) : bool :=
  (weekday ist_offset now =? 6)%Z || (weekday ist_offset now =? 0)%Z.

(** [t.Add(n * time.Second)]. *)
Definition after_seconds (t n : Z) : Z := t + n * second.

Lemma div_add_seconds t d : (t + d * second) / second = t / second + d.
Proof. unfold second. rewrite Z.div_add by discriminate. reflexivity. Qed.
