(* ===== verification/Orders.v ===== *)
(** * Orders and order statuses

    [trade-execution/internal/models/order.go].  A Go pointer to a value is an
    [option], a time is its instant in nanoseconds. *)

From stdpp Require Import base strings list.
From Stdlib Require Import ZArith.
From S2P Require Import Prelude GoFloat GoStrings.

Open Scope string_scope.

(** [OrderStatus]: broker statuses are stored next to the internal ones, so
    the type is the string it is in the code. *)
Definition StatusReceived := "RECEIVED".
Definition StatusValidated := "VALIDATED".
Definition StatusPending := "PENDING".
Definition StatusSubmitted := "SUBMITTED".
Definition StatusPartiallyFilled := "PARTIALLY_FILLED".
Definition StatusFilled := "FILLED".
Definition StatusRejected := "REJECTED".
Definition StatusCancelled := "CANCELLED".
Definition StatusFailed := "FAILED".

Definition IsFilledStatus (s : string) : bool :=
  one_of (ToUpper s) ["FILLED"; "EXECUTED"; "TRADED"].

Definition IsPartiallyFilledStatus (s : string) : bool :=
  one_of (ToUpper s) ["PARTIALLY_FILLED"; "PARTIALLY TRADED"; "PARTIALLY EXECUTED"].

Definition IsTerminalStatus (s : string) : bool :=
  one_of (ToUpper s)
    ["FILLED"; "EXECUTED"; "TRADED"; "CANCELLED"; "REJECTED"; "A.REJECTED"; "FAILED"; "EXPIRED"].

Definition OrderTypeMarket := "MARKET".
Definition OrderTypeLimit := "LIMIT".
Definition OrderTypeStopLoss := "STOP_LOSS".
Definition OrderTypeStopLossMarket := "SL-M".

Module Order.

Record t : Type := mk {
  OrderID : uuid;
  UserID : string;
  StrategyID : string;
  StrategyName : string;
  EventID : uuid;
  StockCode : Z;
  Exchange : string;
  Symbol : string;
  OrderType : string;
  OrderSide : string;
  Quantity : Z;
  Price : option f64;
  StopLoss : option f64;
  TakeProfit : option f64;
  Validity : string;
  ProductType : string;
  TargetPrice : option f64;
  Status : string;
  IndiraOrderID : option string;
  IndiraResponse : option string;
  OdinOrderID : option string;
  OdinResponse : option string;
  BrokerStatus : option string;
  BrokerWSData : option string;
  ExchangeOrderNumber : option string;
  BearerToken : option string;
  AppId : option string;
  Source : option string;
  StopLossType : option string;
  TrailingSLPct : option f64;
  HighestPrice : option f64;
  IsSquareOffOrder : bool;
  AutoSquareOffTime : option string;
  IsPaperTrade : bool;
  TradingMode : string;
  PaperExitPrice : option f64;
  PaperPnL : option f64;
  PaperExitTime : option Z;
  LiveExitPrice : option f64;
  LivePnL : option f64;
  LiveExitTime : option Z;
  CurrentPctChange : f64;
  MaxMonitorPrice : option f64;
  OCOGroupID : option uuid;
  OCORole : option string;
  ParentOrderID : option uuid;
  SignalID : option uuid;
  FilledQuantity : Z;
  FilledPrice : option f64;
  Commission : option f64;
  TotalCost : option f64;
  RiskApproved : bool;
  RiskScore : option f64;
  CreatedAt : Z;
  UpdatedAt : Z;
  SubmittedAt : option Z;
  ExecutedAt : option Z;
  ErrorMessage : option string;
  RejectionReason : option string;
  RetryCount : Z
}.

#[global] Instance eta_order : Eta t := fun o =>
  mk o.(OrderID) o.(UserID) o.(StrategyID) o.(StrategyName) o.(EventID)
     o.(StockCode) o.(Exchange) o.(Symbol) o.(OrderType) o.(OrderSide) o.(Quantity)
     o.(Price) o.(StopLoss) o.(TakeProfit) o.(Validity) o.(ProductType) o.(TargetPrice)
     o.(Status) o.(IndiraOrderID) o.(IndiraResponse) o.(OdinOrderID) o.(OdinResponse)
     o.(BrokerStatus) o.(BrokerWSData) o.(ExchangeOrderNumber)
     o.(BearerToken) o.(AppId) o.(Source) o.(StopLossType) o.(TrailingSLPct)
     o.(HighestPrice) o.(IsSquareOffOrder) o.(AutoSquareOffTime) o.(IsPaperTrade)
     o.(TradingMode) o.(PaperExitPrice) o.(PaperPnL) o.(PaperExitTime)
     o.(LiveExitPrice) o.(LivePnL) o.(LiveExitTime) o.(CurrentPctChange)
     o.(MaxMonitorPrice) o.(OCOGroupID) o.(OCORole) o.(ParentOrderID) o.(SignalID)
     o.(FilledQuantity) o.(FilledPrice) o.(Commission) o.(TotalCost)
     o.(RiskApproved) o.(RiskScore) o.(CreatedAt) o.(UpdatedAt) o.(SubmittedAt)
     o.(ExecutedAt) o.(ErrorMessage) o.(RejectionReason) o.(RetryCount).

(** The zero value of the struct. *)
Definition zero : t :=
  mk 0%N "" "" "" 0%N 0 "" "" "" "" 0 None None None "" "" None "" None None None None
     None None None None None None None None None false None false "" None None None
     None None None fzero None None None None None 0 None None None false None 0 0
     None None None None 0.

End Order.

Lemma filled_not_partial s : IsFilledStatus s = true -> IsPartiallyFilledStatus s = false.
Proof. intros H. by eapply one_of_disjoint. Qed.

Lemma filled_terminal s : IsFilledStatus s = true -> IsTerminalStatus s = true.
Proof.
  unfold IsFilledStatus, IsTerminalStatus. rewrite !one_of_In. cbn. tauto.
Qed.

Lemma partial_not_terminal s : IsPartiallyFilledStatus s = true -> IsTerminalStatus s = false.
Proof. intros H. by eapply one_of_disjoint. Qed.
