(* ===== verification/OrderRepo.v ===== *)
(** * The order repository

    [trade-execution/internal/repository/order_repository.go]: the part of the
    [OrderRepository] interface the OCO manager uses, as a type class, and its
    PostgreSQL implementation as a table keyed by the primary key [order_id].
    What an [UPDATE] does not list keeps its value; what an [INSERT] does not
    list takes its default.  A driver error is an entry of [faults]: [true]
    makes the next call fail without effect. *)

From stdpp Require Import base gmap strings list fin_maps sorting.
From Stdlib Require Import ZArith Lia.
From S2P Require Import Prelude GoFloat GoStrings Orders.

Open Scope string_scope.
Open Scope go_scope.

(** The operations; [None] is the nil error. *)
Class OrderRepository (D : Type) := {
  Create : Order.t -> D -> D * option string;
  Update : Z -> Order.t -> D -> D * option string;
  UpdateOCOTag : Z -> uuid -> uuid -> string -> D -> D * option string;
  GetActiveOCOOrders : D -> D * (string + list Order.t)
}.

(** ** The PostgreSQL table *)

Record OrdersTable : Type := mkTable {
  rows : gmap uuid Order.t;
  faults : list bool
}.

(** Whether the next driver call fails, and the table after asking. *)
Definition driver (t : OrdersTable) : bool * OrdersTable :=
  match t.(faults) with
  | [] => (false, t)
  | b :: bs => (b, mkTable t.(rows) bs)
  end.

(** The columns of the [INSERT]; the others take their defaults.  The columns of
    prices, percentages and profits are DECIMAL(15,2) and DECIMAL(10,4) in the
    schema; here they hold the number they are given.  That is what comes back for
    a number that is the nearest to a decimal of that many places, as every price
    on the tick grid is; other numbers the database rounds to the last place, which
    is not modelled. *)
Definition inserted_row (o : Order.t) : Order.t :=
  Order.zero
    <| Order.OrderID := o.(Order.OrderID) |> <| Order.UserID := o.(Order.UserID) |>
    <| Order.StrategyID := o.(Order.StrategyID) |> <| Order.StrategyName := o.(Order.StrategyName) |>
    <| Order.EventID := o.(Order.EventID) |> <| Order.StockCode := o.(Order.StockCode) |>
    <| Order.Exchange := o.(Order.Exchange) |> <| Order.Symbol := o.(Order.Symbol) |>
    <| Order.OrderType := o.(Order.OrderType) |> <| Order.OrderSide := o.(Order.OrderSide) |>
    <| Order.Quantity := o.(Order.Quantity) |> <| Order.Price := o.(Order.Price) |>
    <| Order.StopLoss := o.(Order.StopLoss) |> <| Order.TakeProfit := o.(Order.TakeProfit) |>
    <| Order.StopLossType := o.(Order.StopLossType) |>
    <| Order.TrailingSLPct := o.(Order.TrailingSLPct) |>
    <| Order.Validity := o.(Order.Validity) |> <| Order.ProductType := o.(Order.ProductType) |>
    <| Order.Status := o.(Order.Status) |> <| Order.RiskApproved := o.(Order.RiskApproved) |>
    <| Order.RiskScore := o.(Order.RiskScore) |> <| Order.IsPaperTrade := o.(Order.IsPaperTrade) |>
    <| Order.TradingMode := o.(Order.TradingMode) |>
    <| Order.IsSquareOffOrder := o.(Order.IsSquareOffOrder) |>
    <| Order.RetryCount := o.(Order.RetryCount) |> <| Order.CreatedAt := o.(Order.CreatedAt) |>
    <| Order.UpdatedAt := o.(Order.UpdatedAt) |> <| Order.OCOGroupID := o.(Order.OCOGroupID) |>
    <| Order.OCORole := o.(Order.OCORole) |> <| Order.ParentOrderID := o.(Order.ParentOrderID) |>
    <| Order.BearerToken := o.(Order.BearerToken) |> <| Order.AppId := o.(Order.AppId) |>
    <| Order.Source := o.(Order.Source) |>.

Definition sqlCreate (o : Order.t) (t : OrdersTable) : OrdersTable * option string :=
  let '(fails, t) := driver t in
  if fails then (t, Some "failed to create order")
  else match t.(rows) !! o.(Order.OrderID) with
       | Some _ => (t, Some "duplicate order")
       | None => (mkTable (<[o.(Order.OrderID) := inserted_row o]> t.(rows)) t.(faults), None)
       end.

(** The columns of the [UPDATE ... SET], taken from [o]; the rest of [row]. *)
Definition updated_row (now : Z) (o row : Order.t) : Order.t :=
  row
    <| Order.Status := o.(Order.Status) |> <| Order.IndiraOrderID := o.(Order.IndiraOrderID) |>
    <| Order.IndiraResponse := o.(Order.IndiraResponse) |>
    <| Order.FilledQuantity := o.(Order.FilledQuantity) |>
    <| Order.FilledPrice := o.(Order.FilledPrice) |> <| Order.Commission := o.(Order.Commission) |>
    <| Order.TotalCost := o.(Order.TotalCost) |> <| Order.SubmittedAt := o.(Order.SubmittedAt) |>
    <| Order.ExecutedAt := o.(Order.ExecutedAt) |> <| Order.ErrorMessage := o.(Order.ErrorMessage) |>
    <| Order.RejectionReason := o.(Order.RejectionReason) |>
    <| Order.RetryCount := o.(Order.RetryCount) |> <| Order.IsPaperTrade := o.(Order.IsPaperTrade) |>
    <| Order.TradingMode := o.(Order.TradingMode) |> <| Order.BrokerStatus := o.(Order.BrokerStatus) |>
    <| Order.BrokerWSData := o.(Order.BrokerWSData) |>
    <| Order.ExchangeOrderNumber := o.(Order.ExchangeOrderNumber) |>
    <| Order.UpdatedAt := now |>.

(** [UPDATE orders SET ... WHERE order_id = id], by a function of the row. *)
Definition sqlUpdateRow (failure : string) (id : uuid) (f : Order.t -> Order.t) (t : OrdersTable)
  : OrdersTable * option string :=
  let '(fails, t) := driver t in
  if fails then (t, Some failure)
  else match t.(rows) !! id with
       | None => (t, Some "order not found")
       | Some row => (mkTable (<[id := f row]> t.(rows)) t.(faults), None)
       end.

Definition sqlUpdate (now : Z) (o : Order.t) (t : OrdersTable) : OrdersTable * option string :=
  sqlUpdateRow "failed to update order" o.(Order.OrderID) (updated_row now o) t.

Definition sqlUpdateOCOTag (now : Z) (orderID groupID : uuid) (role : string) (t : OrdersTable)
  : OrdersTable * option string :=
  sqlUpdateRow "failed to tag order with OCO group" orderID
    (fun row => row <| Order.OCOGroupID := Some groupID |> <| Order.OCORole := Some role |>
                    <| Order.UpdatedAt := now |>) t.

(** The [WHERE] clause of [GetActiveOCOOrders]. *)
Definition active_oco_row (row : Order.t) : bool :=
  match row.(Order.OCOGroupID) with Some _ => true | None => false end &&
  negb (one_of row.(Order.Status) ["CANCELLED"; "REJECTED"; "A.REJECTED"; "FAILED"]) &&
  negb row.(Order.IsPaperTrade).

Definition created_before (a b : Order.t) : Prop := (a.(Order.CreatedAt) <= b.(Order.CreatedAt))%Z.

#[export] Instance created_before_dec : RelDecision created_before.
Proof. intros a b. unfold created_before. apply _. Defined.

Definition sqlGetActiveOCOOrders (t : OrdersTable) : OrdersTable * (string + list Order.t) :=
  let '(fails, t) := driver t in
  if fails then (t, inl "failed to get active OCO orders")
  else (t, inr (merge_sort created_before
                 (List.filter active_oco_row (map_to_list t.(rows)).*2))).

#[export] Instance sql_repository : OrderRepository OrdersTable := {
  Create := sqlCreate;
  Update := sqlUpdate;
  UpdateOCOTag := sqlUpdateOCOTag;
  GetActiveOCOOrders := sqlGetActiveOCOOrders
}.

(** ** What the statements do to the table *)

Lemma sqlUpdateRow_spec failure id f t t' :
  sqlUpdateRow failure id f t = (t', None) ->
  exists row, t.(rows) !! id = Some row /\ t'.(rows) = <[id := f row]> t.(rows).
Proof.
  unfold sqlUpdateRow, driver. destruct t as [r [|[] bs]]; cbn; intros H; split_matches; eauto.
Qed.

Lemma sqlCreate_spec o t t' :
  sqlCreate o t = (t', None) ->
  t.(rows) !! o.(Order.OrderID) = None /\
  t'.(rows) = <[o.(Order.OrderID) := inserted_row o]> t.(rows).
Proof.
  unfold sqlCreate, driver. destruct t as [r [|[] bs]]; cbn -[inserted_row];
    intros H; split_matches; eauto.
Qed.

Lemma sqlGetActive_elem t t' l o :
  sqlGetActiveOCOOrders t = (t', inr l) ->
  o ∈ l <-> active_oco_row o = true /\ exists id, t.(rows) !! id = Some o.
Proof.
  unfold sqlGetActiveOCOOrders. destruct (driver t) as [[] t1] eqn:Hd; [done|].
  intros [= <- <-]. rewrite (merge_sort_Permutation created_before).
  rewrite list_elem_of_In, filter_In, <- list_elem_of_In, list_elem_of_fmap.
  assert (Hr : t1.(rows) = t.(rows)).
  { unfold driver in Hd. by destruct t as [r [|b bs]]; simplify_eq/=. }
  rewrite Hr. split.
  - intros [([id row] & -> & Hin) Ha]. apply elem_of_map_to_list in Hin. cbn in *. eauto.
  - intros [Ha [id Hid]]. split; [|done]. exists (id, o). by rewrite elem_of_map_to_list.
Qed.

(** Nothing but the listed columns changes in an [UPDATE]. *)
Lemma updated_row_keeps now o row :
  (updated_row now o row).(Order.StopLoss) = row.(Order.StopLoss) /\
  (updated_row now o row).(Order.Price) = row.(Order.Price) /\
  (updated_row now o row).(Order.Quantity) = row.(Order.Quantity) /\
  (updated_row now o row).(Order.OCORole) = row.(Order.OCORole) /\
  (updated_row now o row).(Order.OCOGroupID) = row.(Order.OCOGroupID).
Proof. done. Qed.
