(* ===== verification/OCOTypes.v ===== *)
(** * OCO groups

    [trade-execution/internal/oco/types.go]: the state of one
    One-Cancels-the-Other trade (an entry order, a stop-loss leg and a
    take-profit leg) and the prices of its legs. *)

From stdpp Require Import base strings list numbers.
From Stdlib Require Import ZArith Lia SpecFloat.
From S2P Require Import Prelude GoFloat FloatRound FloatOrder Price GoStrings Orders.

Open Scope string_scope.
Open Scope go_scope.

(** [OCOState]: the lifecycle of a group. *)
Inductive OCOState : Type :=
  | StatePendingEntry
  | StatePlacingLegs
  | StateLegsSubmitted
  | StateActive
  | StateSLTriggered
  | StateTPTriggered
  | StateCompleted
  | StateFailed
  | StateCancelled.

#[export] Instance OCOState_eq_dec : EqDecision OCOState.
Proof. solve_decision. Defined.

Definition IsTerminal (s : OCOState) : bool :=
  match s with
  | StateCompleted | StateFailed | StateCancelled => true
  | _ => false
  end.

Inductive OCORole : Type := RoleEntry | RoleSLLeg | RoleTPLeg.

Definition role_string (r : OCORole) : string :=
  match r with
  | RoleEntry => "ENTRY"
  | RoleSLLeg => "SL_LEG"
  | RoleTPLeg => "TP_LEG"
  end.

(** [indira.AuthContext] ([pkg/indira/user.go]). *)
Record AuthContext : Type := mkAuth {
  UserId : string;
  AppId : string;
  Source : string;
  BearerToken : string
}.

Module Group.

Record t : Type := mk {
  GroupID : uuid;
  UserID : string;
  EntryOrderID : uuid;
  EntryBrokerID : string;
  EntryFillPrice : f64;
  SLOrderID : uuid;
  SLBrokerID : string;
  SLTriggerPrice : f64;
  SLLimitPrice : f64;
  TPOrderID : uuid;
  TPBrokerID : string;
  TPLimitPrice : f64;
  SLPercent : f64;
  TPPercent : f64;
  TrailingSL : bool;
  TrailingSLPct : f64;
  State : OCOState;
  HighestPrice : f64;
  PnL : f64;
  SLLegConfirmed : bool;
  TPLegConfirmed : bool;
  Symbol : string;
  Exchange : string;
  StockCode : Z;
  Quantity : Z;
  OrderSide : string;
  Auth : option AuthContext;
  ProductType : string;
  Validity : string;
  StrategyID : string;
  StrategyName : string;
  EventID : uuid;
  FilledQty : Z;
  PartialFillActive : bool;
  PartialFillCancelFunc : option nat;
  PartialFillTimerStarted : bool;
  CreatedAt : Z;
  UpdatedAt : Z
}.

#[global] Instance eta_group : Eta t := fun g =>
  mk g.(GroupID) g.(UserID) g.(EntryOrderID) g.(EntryBrokerID) g.(EntryFillPrice)
     g.(SLOrderID) g.(SLBrokerID) g.(SLTriggerPrice) g.(SLLimitPrice)
     g.(TPOrderID) g.(TPBrokerID) g.(TPLimitPrice) g.(SLPercent) g.(TPPercent)
     g.(TrailingSL) g.(TrailingSLPct) g.(State) g.(HighestPrice) g.(PnL)
     g.(SLLegConfirmed) g.(TPLegConfirmed) g.(Symbol) g.(Exchange) g.(StockCode)
     g.(Quantity) g.(OrderSide) g.(Auth) g.(ProductType) g.(Validity) g.(StrategyID)
     g.(StrategyName) g.(EventID) g.(FilledQty) g.(PartialFillActive)
     g.(PartialFillCancelFunc) g.(PartialFillTimerStarted) g.(CreatedAt) g.(UpdatedAt).

(** The zero value of the struct, its state aside: the constants of
    [OCOState] have no empty string, and every constructor of a group in the
    code sets the state. *)
Definition zero : t :=
  mk 0%N "" 0%N "" fzero 0%N "" fzero fzero 0%N "" fzero fzero fzero false fzero
     StatePendingEntry fzero fzero false false "" "" 0 0 "" None "" "" "" "" 0%N
     0 false None false 0 0.

End Group.

(** The side of the legs: entry BUY, legs SELL. *)
Definition ExitSide (g : Group.t) : string :=
  if g.(Group.OrderSide) =?s "BUY" then "SELL" else "BUY".

(** The constants of the price formulas, rounded once as Go does. *)
Definition one : f64 := of_Z 1.
Definition below_half_pct : f64 := dec 995 3.  (* 1 - 0.005 *)
Definition above_half_pct : f64 := dec 1005 3. (* 1 + 0.005 *)

Definition CalculateSLFromFill (g : Group.t) (fillPrice : f64) : f64 * f64 :=
  let '(trigger, limit) :=
    if g.(Group.OrderSide) =?s "BUY" then
      let trigger := (fillPrice * (one - g.(Group.SLPercent) / of_Z 100))%f64 in
      (trigger, (trigger * below_half_pct)%f64)
    else
      let trigger := (fillPrice * (one + g.(Group.SLPercent) / of_Z 100))%f64 in
      (trigger, (trigger * above_half_pct)%f64) in
  (roundNSE trigger, roundNSE limit).

Definition CalculateTPFromFill (g : Group.t) (fillPrice : f64) : f64 :=
  if g.(Group.OrderSide) =?s "BUY" then
    roundNSE (fillPrice * (one + g.(Group.TPPercent) / of_Z 100))%f64
  else
    roundNSE (fillPrice * (one - g.(Group.TPPercent) / of_Z 100))%f64.

(** The minimal relative move, in percent, worth a broker call. *)
Definition min_trail_pct (g : Group.t) : f64 :=
  let minPct := g.(Group.TrailingSLPct) in
  if fle minPct fzero || flt (dec 5 1) minPct then dec 1 1 else minPct.

(** [CalculateTrailingSL]: [None] is [shouldUpdate = false]. *)
Definition CalculateTrailingSL (g : Group.t) (currentLTP : f64) : option (f64 * f64) :=
  if negb g.(Group.TrailingSL) || negb (bool_decide (g.(Group.State) = StateActive)) then None
  else if fle g.(Group.HighestPrice) fzero || fle g.(Group.SLTriggerPrice) fzero then None
  else
    let trigger := (g.(Group.SLTriggerPrice) * (currentLTP / g.(Group.HighestPrice)))%f64 in
    let side :=
      if g.(Group.OrderSide) =?s "BUY" then
        if fle currentLTP g.(Group.HighestPrice) then None
        else if fle trigger g.(Group.SLTriggerPrice) then None
        else Some (trigger * below_half_pct)%f64
      else
        if fle g.(Group.HighestPrice) currentLTP then None
        else if fle g.(Group.SLTriggerPrice) trigger then None
        else Some (trigger * above_half_pct)%f64 in
    match side with
    | None => None
    | Some limit =>
        let changePct :=
          ((trigger - g.(Group.SLTriggerPrice)) / g.(Group.SLTriggerPrice) * of_Z 100)%f64 in
        let changePct := if flt changePct fzero then fneg changePct else changePct in
        if flt changePct (min_trail_pct g) then None
        else Some (roundNSE trigger, roundNSE limit)
    end.

(** ** The prices of the legs *)

Lemma IsTerminal_spec s :
  IsTerminal s = true <-> s = StateCompleted \/ s = StateFailed \/ s = StateCancelled.
Proof. destruct s; cbn; intuition congruence. Qed.

Lemma trailing_requires_active g ltp r :
  CalculateTrailingSL g ltp = Some r ->
  g.(Group.TrailingSL) = true /\ g.(Group.State) = StateActive.
Proof.
  unfold CalculateTrailingSL. intros H.
  destruct (negb _ || negb _) eqn:E; [done|]. bool_to_prop. done.
Qed.

(** What a trailing update of a BUY position returns: the rounding of a
    trigger strictly above the current one. *)
Lemma trailing_buy_raises g ltp t l :
  g.(Group.OrderSide) = "BUY" ->
  CalculateTrailingSL g ltp = Some (t, l) ->
  exists raw, t = roundNSE raw /\ fle raw g.(Group.SLTriggerPrice) = false /\
    fle ltp g.(Group.HighestPrice) = false /\ l = roundNSE (raw * below_half_pct)%f64 /\
    raw = (g.(Group.SLTriggerPrice) * (ltp / g.(Group.HighestPrice)))%f64.
Proof.
  intros Hs. unfold CalculateTrailingSL. rewrite Hs.
  set (raw := (Group.SLTriggerPrice g * (ltp / Group.HighestPrice g))%f64).
  change ("BUY" =?s "BUY") with true. cbn iota.
  intros H. exists raw. split_matches; eauto.
Qed.

Lemma price_ok_pos p : price_ok p = true -> fpos p = true /\ fle p max_price = true.
Proof. intros H. by apply andb_prop in H. Qed.

Lemma price_ok_nonneg p : price_ok p = true -> fnonneg p = true.
Proof. intros [H _]%price_ok_pos. by apply fpos_nonneg. Qed.

#[export] Hint Resolve price_ok_nonneg : go.

(** Rounding a price of the proved range gives a nonnegative number. *)
Lemma roundNSE_price_nonneg p : price_ok p = true -> fnonneg (roundNSE p) = true.
Proof.
  intros Hp. pose proof (price_ok_pos p Hp) as [Hpos Hmax].
  pose proof (price_ok_nonneg p Hp) as Hn. apply roundNSE_nonneg.
  assert (Ho : ordered p = true) by (by destruct p as [|[]| |[] ? ?]).
  destruct (paise_mono p p Hn Hn (fle_refl p Ho) Hmax) as [[H0 _] H1].
  unfold roundPaise. apply round_ticks_spec. lia.
Qed.

Lemma fnonneg_ordered x : fnonneg x = true -> ordered x = true.
Proof. by destruct x as [|[]| |[] ? ?]. Qed.

(** The stop-loss limit of a long position is at or below its trigger. *)
Lemma sl_limit_below g fill t l :
  g.(Group.OrderSide) = "BUY" ->
  price_ok (fill * (one - g.(Group.SLPercent) / of_Z 100))%f64 = true ->
  CalculateSLFromFill g fill = (t, l) ->
  ordered t = true /\ fle l t = true.
Proof.
  intros Hs. unfold CalculateSLFromFill. rewrite Hs. change ("BUY" =?s "BUY") with true. cbn iota.
  set (raw := (fill * _)%f64). intros Hok [= <- <-].
  pose proof (price_ok_pos _ Hok) as [Hp Hm]. pose proof (price_ok_nonneg _ Hok) as Hn.
  split; [by apply fnonneg_ordered, roundNSE_price_nonneg|].
  apply roundNSE_mono; [by apply fmul_nonneg|done| |done].
  by apply fmul_le_self.
Qed.

(** That of a short position is at or above its trigger. *)
Lemma sl_limit_above g fill t l :
  g.(Group.OrderSide) = "SELL" ->
  price_ok (fill * (one + g.(Group.SLPercent) / of_Z 100))%f64 = true ->
  fle (fill * (one + g.(Group.SLPercent) / of_Z 100) * above_half_pct)%f64 max_price = true ->
  CalculateSLFromFill g fill = (t, l) ->
  ordered t = true /\ fle t l = true.
Proof.
  intros Hs. unfold CalculateSLFromFill. rewrite Hs. change ("SELL" =?s "BUY") with false. cbn iota.
  set (raw := (fill * _)%f64). intros Hok Hm' [= <- <-].
  pose proof (price_ok_pos _ Hok) as [Hp Hm]. pose proof (price_ok_nonneg _ Hok) as Hn.
  split; [by apply fnonneg_ordered, roundNSE_price_nonneg|].
  apply roundNSE_mono; [done|by apply fmul_nonneg| |done].
  by apply fmul_ge_self.
Qed.
