(* ===== verification/Broker.v ===== *)
(** * The broker and the credentials as the managers see them

    The broker client and the credentials cache are interfaces of the managers:
    type classes over an abstract state.  [None] is the nil error, [inl] an
    error with its message. *)

From stdpp Require Import base strings list.
From Stdlib Require Import ZArith.
From S2P Require Import Prelude GoFloat GoStrings Orders OCOTypes.

Open Scope string_scope.
Open Scope go_scope.

(** A placement result: the error or the broker's order id. *)
Abbreviation placement := (string + string)%type.

(** [ExecutionClient]: the three calls, made with a non-nil auth context (each
    dereferences it first). *)
Class BrokerClient (B : Type) := {
  PlaceOrder : Order.t -> AuthContext -> B -> B * placement;
  CancelOrder : string -> string -> string -> AuthContext -> B -> B * option string;
  ModifyOrder : Order.t -> AuthContext -> B -> B * option string
}.

(** What the client promises: a successful placement carries an order id. *)
Class BrokerLaws (B : Type) `{BrokerClient B} : Prop := {
  placed_nonempty o a b b' id : PlaceOrder o a b = (b', inr id) -> id <> ""
}.

(** [CredentialsRefresher]. *)
Class CredentialsRefresher (C : Type) := {
  Invalidate : string -> C -> C;
  Get : string -> C -> C * (string + AuthContext)
}.

(** [isSessionExpiredError] and [isSessionNotReadyError], on a non-nil error. *)
Definition isSessionExpiredError (msg : string) : bool :=
  Contains msg "HTTP error 401" || Contains msg "Session expired".

Definition isSessionNotReadyError (msg : string) : bool :=
  Contains msg "AU004" || Contains msg "Session data not received".

(** The errors of a cancellation that mean there is nothing left to cancel. *)
Definition already_done (msg : string) : bool :=
  let m := ToLower msg in
  Contains m "already" || Contains m "traded" || Contains m "executed".

(** ** A broker that answers from a script

    Each call takes the next answer; an empty script accepts everything.  It
    serves the concrete runs of the development. *)

Record Script : Type := mkScript {
  replies : list placement;
  refusals : list (option string);
  nextId : string
}.

Definition script_place (o : Order.t) (a : AuthContext) (b : Script) : Script * placement :=
  match b.(replies) with
  | [] => (mkScript [] b.(refusals) (b.(nextId) ++ "'"), inr ("B" ++ b.(nextId)))
  | inr "" :: rs => (mkScript rs b.(refusals) b.(nextId), inl "no order ID")
  | r :: rs => (mkScript rs b.(refusals) b.(nextId), r)
  end.

Definition script_call (b : Script) : Script * option string :=
  match b.(refusals) with
  | [] => (b, None)
  | r :: rs => (mkScript b.(replies) rs b.(nextId), r)
  end.

#[export] Instance script_broker : BrokerClient Script := {
  PlaceOrder := script_place;
  CancelOrder := fun _ _ _ _ => script_call;
  ModifyOrder := fun _ _ => script_call
}.

#[export] Instance script_laws : BrokerLaws Script.
Proof.
  constructor. intros o a [[|[e|[|c s]] rs] fs n] b' id; cbn; intros H; by simplify_eq.
Qed.

(** A credentials store with one token per call of [Get]. *)
#[export] Instance token_list : CredentialsRefresher (list AuthContext) := {
  Invalidate := fun _ c => c;
  Get := fun _ c => match c with [] => ([], inl "no credentials") | a :: c' => (c', inr a) end
}.
