(* ===== verification/OCOHandlers.v ===== *)
(** * What broker events do to one OCO group

    The per-group handlers of [oco/manager.go], which run under the group's
    mutex: each maps the group and the event to the new group and the list of
    effects it starts (goroutines, timers, index entries, broadcasts).  [now] is
    the handler's reading of the clock. *)

From stdpp Require Import base strings list numbers.
From Stdlib Require Import ZArith Lia.
From S2P Require Import Prelude GoFloat FloatOrder Price GoStrings Orders OCOTypes Broker.

Open Scope string_scope.
Open Scope list_scope.
Open Scope go_scope.

(** What a handler starts besides writing the group. *)
Inductive Effect : Type :=
  | EPlaceLegs (partial : bool)
  | EModifyLegsQty (qty : Z)
  | ECancelLeg (brokerID legName reason : string)
  | ECancelTimer (timer : nat)
  | EStoreIndex (brokerID : string)
  | EScheduleCleanup
  | EBroadcast (eventType : string) (order : option Order.t).

(** The case labels of the status switches. *)
Definition filled_statuses := ["EXECUTED"; "TRADED"].
Definition partial_statuses := ["PARTIALLY TRADED"; "PARTIALLY EXECUTED"; "PARTIALLY_FILLED"].
Definition live_statuses :=
  ["PENDING"; "OPEN"; "TRIGGER PENDING"; "TRIGGER_PENDING"; "AFTER MARKET ORDER REQ RECEIVED"].
Definition rejected_statuses := ["REJECTED"; "A.REJECTED"].

Definition is_state (g : Group.t) (s : OCOState) : bool := bool_decide (g.(Group.State) = s).

(** [group.State == StateActive || group.State == StateLegsSubmitted]. *)
Definition legs_live (g : Group.t) : bool :=
  is_state g StateActive || is_state g StateLegsSubmitted.

(** The fill price of the entry: the traded price, else the order's price. *)
Definition entry_fill_price (order : Order.t) : f64 :=
  match order.(Order.FilledPrice) with
  | Some p => if flt fzero p then p else
      match order.(Order.Price) with
      | Some q => if flt fzero q then q else fzero
      | None => fzero
      end
  | None =>
      match order.(Order.Price) with
      | Some q => if flt fzero q then q else fzero
      | None => fzero
      end
  end.

(** Cancel the running partial-fill timer, when there is one. *)
Definition cancel_timer (g : Group.t) : list Effect :=
  match g.(Group.PartialFillCancelFunc) with
  | Some id => [ECancelTimer id]
  | None => []
  end.

(** The end of the partial-fill wait: no timer, no waiting. *)
Definition clear_partial (now : Z) (g : Group.t) : Group.t :=
  g <| Group.PartialFillCancelFunc := None |> <| Group.PartialFillActive := false |>
    <| Group.PartialFillTimerStarted := false |> <| Group.UpdatedAt := now |>.

(** The entry is filled at [fillPrice] for [qty]: on to the legs. *)
Definition start_legs (now : Z) (fillPrice : f64) (qty : Z) (g : Group.t) : Group.t :=
  g <| Group.FilledQty := qty |> <| Group.EntryFillPrice := fillPrice |>
    <| Group.HighestPrice := fillPrice |> <| Group.State := StatePlacingLegs |>
    <| Group.UpdatedAt := now |>.

Definition handleEntryUpdate (now : Z) (group : Group.t) (order : Order.t) (status : string)
  : Group.t * list Effect :=
  if one_of status filled_statuses then
    if group.(Group.PartialFillActive) then
      (clear_partial now group <| Group.FilledQty := group.(Group.Quantity) |>,
       cancel_timer group ++ [EModifyLegsQty group.(Group.Quantity)])
    else if negb (is_state group StatePendingEntry) then (group, [])
    else
      let fillPrice := entry_fill_price order in
      if fle fillPrice fzero then (group <| Group.State := StateFailed |>, [])
      else (start_legs now fillPrice group.(Group.Quantity) group, [EPlaceLegs false])
  else if one_of status partial_statuses then
    let filledQty := order.(Order.FilledQuantity) in
    if (filledQty <=? 0)%Z then (group, [])
    else if is_state group StatePendingEntry && negb group.(Group.PartialFillActive) then
      let fillPrice := entry_fill_price order in
      if fle fillPrice fzero then (group, [])
      else (start_legs now fillPrice filledQty (group <| Group.PartialFillActive := true |>),
            [EPlaceLegs true])
    else if group.(Group.PartialFillActive) then
      (group <| Group.FilledQty := filledQty |> <| Group.UpdatedAt := now |>,
       [EModifyLegsQty filledQty])
    else (group, [])
  else if one_of status (rejected_statuses ++ ["CANCELLED"]) then
    if group.(Group.PartialFillActive) then (clear_partial now group, cancel_timer group)
    else
      (group <| Group.State := StateFailed |> <| Group.UpdatedAt := now |>,
       [EScheduleCleanup; EBroadcast "oco_entry_rejected" (Some order)])
  else (group, []).

(** [LEGS_SUBMITTED] becomes [ACTIVE] when every leg that was placed is
    confirmed on the exchange. *)
Definition checkLegsConfirmed (now : Z) (group : Group.t) : Group.t * list Effect :=
  if negb (is_state group StateLegsSubmitted) then (group, [])
  else
    let slOK := group.(Group.SLLegConfirmed) || (group.(Group.SLBrokerID) =?s "") in
    let tpOK := group.(Group.TPLegConfirmed) || (group.(Group.TPBrokerID) =?s "") in
    if slOK && tpOK then
      (group <| Group.State := StateActive |> <| Group.UpdatedAt := now |>,
       [EBroadcast "oco_legs_confirmed" None])
    else (group, []).

(** The quantity the position holds: [FilledQty], [Quantity] when it is unset. *)
Definition position_qty (g : Group.t) : Z :=
  if (0 <? g.(Group.FilledQty))%Z then g.(Group.FilledQty) else g.(Group.Quantity).

(** Realised profit of an exit at the order's traded price. *)
Definition exit_pnl (g : Group.t) (order : Order.t) : f64 :=
  match order.(Order.FilledPrice) with
  | None => g.(Group.PnL)
  | Some p =>
      if g.(Group.OrderSide) =?s "BUY" then
        ((p - g.(Group.EntryFillPrice)) * of_Z (position_qty g))%f64
      else ((g.(Group.EntryFillPrice) - p) * of_Z (position_qty g))%f64
  end.

Definition handleSLLegUpdate (now : Z) (group : Group.t) (order : Order.t) (status : string)
  : Group.t * list Effect :=
  if one_of status live_statuses then
    if group.(Group.SLLegConfirmed) then (group, [])
    else checkLegsConfirmed now
           (group <| Group.SLLegConfirmed := true |> <| Group.UpdatedAt := now |>)
  else if one_of status filled_statuses then
    if negb (legs_live group) then (group, [])
    else
      let group := group <| Group.State := StateSLTriggered |> <| Group.UpdatedAt := now |> in
      let group := group <| Group.PnL := exit_pnl group order |> in
      if negb (group.(Group.TPBrokerID) =?s "") then
        (group, [ECancelLeg group.(Group.TPBrokerID) "TP" "SL leg executed (OCO)"])
      else
        (group <| Group.State := StateCompleted |> <| Group.UpdatedAt := now |>,
         [EBroadcast "oco_completed" None])
  else if one_of status rejected_statuses then
    (group <| Group.State := StateFailed |> <| Group.UpdatedAt := now |>,
     [ECancelLeg group.(Group.TPBrokerID) "TP" "SL leg rejected (OCO cleanup)"; EScheduleCleanup])
  else if one_of status partial_statuses then
    if negb (legs_live group) then (group, [])
    else
      (group <| Group.State := StateSLTriggered |> <| Group.UpdatedAt := now |>,
       [ECancelLeg group.(Group.TPBrokerID) "TP" "SL leg partially filled (OCO)"])
  else if status =?s "CANCELLED" then
    if legs_live group then
      (group <| Group.State := StateCancelled |> <| Group.UpdatedAt := now |>,
       [ECancelLeg group.(Group.TPBrokerID) "TP" "SL leg cancelled externally (OCO)";
        EScheduleCleanup])
    else (group, [])
  else (group, []).

Definition handleTPLegUpdate (now : Z) (group : Group.t) (order : Order.t) (status : string)
  : Group.t * list Effect :=
  if one_of status live_statuses then
    if group.(Group.TPLegConfirmed) then (group, [])
    else checkLegsConfirmed now
           (group <| Group.TPLegConfirmed := true |> <| Group.UpdatedAt := now |>)
  else if one_of status filled_statuses then
    if negb (legs_live group) then (group, [])
    else
      let group := group <| Group.State := StateTPTriggered |> <| Group.UpdatedAt := now |> in
      let group := group <| Group.PnL := exit_pnl group order |> in
      if negb (group.(Group.SLBrokerID) =?s "") then
        (group, [ECancelLeg group.(Group.SLBrokerID) "SL" "TP leg executed (OCO)"])
      else
        (group <| Group.State := StateCompleted |> <| Group.UpdatedAt := now |>,
         [EBroadcast "oco_completed" None])
  else if one_of status rejected_statuses then
    (group, [EBroadcast "oco_tp_rejected" (Some order)])
  else if one_of status partial_statuses then
    if negb (legs_live group) then (group, [])
    else
      (group <| Group.State := StateTPTriggered |> <| Group.UpdatedAt := now |>,
       [ECancelLeg group.(Group.SLBrokerID) "SL" "TP leg partially filled (OCO)"])
  else if status =?s "CANCELLED" then
    if legs_live group then
      (group <| Group.State := StateCancelled |> <| Group.UpdatedAt := now |>,
       [ECancelLeg group.(Group.SLBrokerID) "SL" "TP leg cancelled externally (OCO)";
        EScheduleCleanup])
    else (group, [])
  else (group, []).

(** ** Placing the legs *)

(** [buildLegOrder]; [None] when [group.Auth] is nil, which the code
    dereferences. *)
Definition buildLegOrder (now : Z) (group : Group.t) (orderID : uuid) (side orderType : string)
    (price triggerPrice : option f64) (role : OCORole) : option Order.t :=
  match group.(Group.Auth) with
  | None => None
  | Some auth =>
      Some (Order.zero
        <| Order.OrderID := orderID |> <| Order.UserID := group.(Group.UserID) |>
        <| Order.StrategyID := group.(Group.StrategyID) |>
        <| Order.StrategyName := group.(Group.StrategyName) |>
        <| Order.EventID := group.(Group.EventID) |>
        <| Order.StockCode := group.(Group.StockCode) |>
        <| Order.Exchange := group.(Group.Exchange) |> <| Order.Symbol := group.(Group.Symbol) |>
        <| Order.OrderType := orderType |> <| Order.OrderSide := side |>
        <| Order.Quantity := position_qty group |> <| Order.Price := price |>
        <| Order.StopLoss := triggerPrice |> <| Order.Validity := group.(Group.Validity) |>
        <| Order.ProductType := group.(Group.ProductType) |>
        <| Order.Status := StatusReceived |> <| Order.RiskApproved := true |>
        <| Order.IsPaperTrade := false |> <| Order.TradingMode := "LIVE" |>
        <| Order.CreatedAt := now |> <| Order.UpdatedAt := now |>
        <| Order.BearerToken := Some auth.(BearerToken) |> <| Order.AppId := Some auth.(AppId) |>
        <| Order.Source := Some auth.(Source) |>
        <| Order.OCOGroupID := Some group.(Group.GroupID) |>
        <| Order.OCORole := Some (role_string role) |>
        <| Order.ParentOrderID := Some group.(Group.EntryOrderID) |>)
  end.

(** The checks of the computed prices against the fill: [true] aborts. *)
Definition sl_price_bad (g : Group.t) (slTrigger fillPrice : f64) : bool :=
  ((g.(Group.OrderSide) =?s "BUY") && fle fillPrice slTrigger) ||
  ((g.(Group.OrderSide) =?s "SELL") && fle slTrigger fillPrice).

Definition tp_price_bad (g : Group.t) (tpLimit fillPrice : f64) : bool :=
  ((g.(Group.OrderSide) =?s "BUY") && fle tpLimit fillPrice) ||
  ((g.(Group.OrderSide) =?s "SELL") && fle fillPrice tpLimit).

(** How the first part of [placeOCOLegs] ends. *)
Inductive Prepared : Type :=
  | PAbort (g : Group.t)
  | PCrash
  | PLegs (g : Group.t) (slOrder tpOrder : option Order.t).

Definition fail_group (now : Z) (g : Group.t) : Group.t :=
  g <| Group.State := StateFailed |> <| Group.UpdatedAt := now |>.

(** The leg orders of enabled legs; a disabled leg counts as confirmed. *)
Definition prepare_sl (now : Z) (slOrderID : uuid) (slTrigger slLimit : f64) (g : Group.t)
  : option (Group.t * option Order.t) :=
  if flt fzero g.(Group.SLPercent) then
    let g := g <| Group.SLOrderID := slOrderID |> <| Group.SLTriggerPrice := slTrigger |>
               <| Group.SLLimitPrice := slLimit |> in
    match buildLegOrder now g slOrderID (ExitSide g) OrderTypeStopLoss
            (Some slLimit) (Some slTrigger) RoleSLLeg with
    | Some o => Some (g, Some o)
    | None => None
    end
  else Some (g <| Group.SLLegConfirmed := true |>, None).

Definition prepare_tp (now : Z) (tpOrderID : uuid) (tpLimit : f64) (g : Group.t)
  : option (Group.t * option Order.t) :=
  if flt fzero g.(Group.TPPercent) then
    let g := g <| Group.TPOrderID := tpOrderID |> <| Group.TPLimitPrice := tpLimit |> in
    match buildLegOrder now g tpOrderID (ExitSide g) OrderTypeLimit
            (Some tpLimit) None RoleTPLeg with
    | Some o => Some (g, Some o)
    | None => None
    end
  else Some (g <| Group.TPLegConfirmed := true |>, None).

(** [placeOCOLegs] up to the calls of the database and the broker. *)
Definition placeOCOLegs_prepare (now : Z) (slOrderID tpOrderID : uuid) (group : Group.t)
  : Prepared :=
  let fillPrice := group.(Group.EntryFillPrice) in
  let hasSL := flt fzero group.(Group.SLPercent) in
  let hasTP := flt fzero group.(Group.TPPercent) in
  if negb hasSL && negb hasTP then PAbort (fail_group now group)
  else
    let '(slTrigger, slLimit) := CalculateSLFromFill group fillPrice in
    let tpLimit := CalculateTPFromFill group fillPrice in
    if hasSL && sl_price_bad group slTrigger fillPrice then PAbort (fail_group now group)
    else if hasTP && tp_price_bad group tpLimit fillPrice then PAbort (fail_group now group)
    else
      match prepare_sl now slOrderID slTrigger slLimit group with
      | None => PCrash
      | Some (g1, slOrder) =>
          match prepare_tp now tpOrderID tpLimit g1 with
          | None => PCrash
          | Some (g2, tpOrder) => PLegs g2 slOrder tpOrder
          end
      end.

Definition failed (r : option placement) : bool :=
  match r with Some (inl _) => true | _ => false end.

(** The broker id a result carries; Go's zero string otherwise. *)
Definition placed_id (r : option placement) : string :=
  match r with Some (inr id) => id | _ => "" end.

Definition register_sl (id : string) (g : Group.t) : Group.t * list Effect :=
  if id =?s "" then (g, [])
  else (g <| Group.SLBrokerID := id |> <| Group.SLLegConfirmed := true |>, [EStoreIndex id]).

Definition register_tp (id : string) (g : Group.t) : Group.t * list Effect :=
  if id =?s "" then (g, [])
  else (g <| Group.TPBrokerID := id |> <| Group.TPLegConfirmed := true |>, [EStoreIndex id]).

(** [placeOCOLegs] from the placement results on, under the group's mutex. *)
Definition placeOCOLegs_finish (now : Z) (slOrder tpOrder : option Order.t)
    (slRes tpRes : option placement) (group : Group.t) : Group.t * list Effect :=
  if failed slRes && failed tpRes then
    (fail_group now group, [EScheduleCleanup; EBroadcast "oco_legs_failed" slOrder])
  else if failed slRes then
    let tpBrokerID := placed_id tpRes in
    let '(g, idx) :=
      if tpBrokerID =?s "" then (group, [])
      else (group <| Group.TPBrokerID := tpBrokerID |>, [EStoreIndex tpBrokerID]) in
    (fail_group now g,
     idx ++ [ECancelLeg tpBrokerID "TP" "SL leg failed (no protection)";
             EBroadcast "oco_legs_failed" slOrder])
  else if failed tpRes then
    let '(g, idx) := register_sl (placed_id slRes) group in
    let g := g <| Group.TPLegConfirmed := true |> <| Group.State := StateLegsSubmitted |>
               <| Group.UpdatedAt := now |> in
    let '(g, eff) := checkLegsConfirmed now g in
    (g, idx ++ eff ++ [EBroadcast "oco_tp_rejected" slOrder])
  else
    let '(g, idx1) := register_sl (placed_id slRes) group in
    let '(g, idx2) := register_tp (placed_id tpRes) g in
    let g := g <| Group.State := StateLegsSubmitted |> <| Group.UpdatedAt := now |> in
    let '(g, eff) := checkLegsConfirmed now g in
    (g, idx1 ++ idx2 ++ eff ++ [EBroadcast "oco_legs_submitted" slOrder]).

(** ** Routing *)

(** [HandleBrokerUpdate] from the group's mutex on: terminal groups ignore the
    event, known broker ids select the handler, and an unknown one is matched by
    the order's role, backfilling the leg's missing broker id. *)
Definition routeBrokerUpdate (now : Z) (brokerID : string) (group : Group.t) (order : Order.t)
    (status : string) : Group.t * list Effect :=
  if IsTerminal group.(Group.State) then (group, [])
  else if brokerID =?s group.(Group.EntryBrokerID) then handleEntryUpdate now group order status
  else if brokerID =?s group.(Group.SLBrokerID) then handleSLLegUpdate now group order status
  else if brokerID =?s group.(Group.TPBrokerID) then handleTPLegUpdate now group order status
  else
    match order.(Order.OCORole) with
    | None => (group, [])
    | Some role =>
        if role =?s role_string RoleSLLeg then
          let '(group, idx) :=
            if group.(Group.SLBrokerID) =?s "" then
              (group <| Group.SLBrokerID := brokerID |>, [EStoreIndex brokerID])
            else (group, []) in
          let '(group, eff) := handleSLLegUpdate now group order status in
          (group, idx ++ eff)
        else if role =?s role_string RoleTPLeg then
          let '(group, idx) :=
            if group.(Group.TPBrokerID) =?s "" then
              (group <| Group.TPBrokerID := brokerID |>, [EStoreIndex brokerID])
            else (group, []) in
          let '(group, eff) := handleTPLegUpdate now group order status in
          (group, idx ++ eff)
        else (group, [])
    end.

(** A sequence of broker events of one group, with all the effects they start. *)
Fixpoint routeAll (events : list (Z * string * Order.t * string)) (group : Group.t)
  : Group.t * list Effect :=
  match events with
  | [] => (group, [])
  | (now, brokerID, order, status) :: rest =>
      let '(group, eff) := routeBrokerUpdate now brokerID group order status in
      let '(group, eff') := routeAll rest group in
      (group, eff ++ eff')
  end.

Definition is_place (e : Effect) : bool :=
  match e with EPlaceLegs _ => true | _ => false end.

(** ** Lemmas of the handlers *)

Lemma buildLegOrder_spec now g id side ty price trig role o :
  buildLegOrder now g id side ty price trig role = Some o ->
  o.(Order.OrderID) = id /\ o.(Order.OrderSide) = side /\ o.(Order.OrderType) = ty /\
  o.(Order.Price) = price /\ o.(Order.StopLoss) = trig /\
  o.(Order.Quantity) = position_qty g /\ o.(Order.OCOGroupID) = Some g.(Group.GroupID) /\
  o.(Order.OCORole) = Some (role_string role) /\ o.(Order.Status) = StatusReceived.
Proof. unfold buildLegOrder. intros H. split_matches. Qed.

Lemma prepare_sl_spec now id t l g g' r :
  prepare_sl now id t l g = Some (g', r) ->
  match r with
  | Some o => flt fzero g.(Group.SLPercent) = true /\
      g' = (g <| Group.SLOrderID := id |> <| Group.SLTriggerPrice := t |>
              <| Group.SLLimitPrice := l |>) /\
      buildLegOrder now g' id (ExitSide g) OrderTypeStopLoss (Some l) (Some t) RoleSLLeg = Some o
  | None => flt fzero g.(Group.SLPercent) = false /\ g' = (g <| Group.SLLegConfirmed := true |>)
  end.
Proof.
  unfold prepare_sl. intros H. destruct (flt _ _) eqn:E; [|by simplify_eq].
  destruct (buildLegOrder _ _ _ _ _ _ _) eqn:B; [|done]. injection H as <- <-. eauto.
Qed.

Lemma prepare_tp_spec now id l g g' r :
  prepare_tp now id l g = Some (g', r) ->
  match r with
  | Some o => flt fzero g.(Group.TPPercent) = true /\
      g' = (g <| Group.TPOrderID := id |> <| Group.TPLimitPrice := l |>) /\
      buildLegOrder now g' id (ExitSide g) OrderTypeLimit (Some l) None RoleTPLeg = Some o
  | None => flt fzero g.(Group.TPPercent) = false /\ g' = (g <| Group.TPLegConfirmed := true |>)
  end.
Proof.
  unfold prepare_tp. intros H. destruct (flt _ _) eqn:E; [|by simplify_eq].
  destruct (buildLegOrder _ _ _ _ _ _ _) eqn:B; [|done]. injection H as <- <-. eauto.
Qed.

(** The three ways the first part of [placeOCOLegs] ends. *)
Lemma prepare_cases now a b g :
  let fill := g.(Group.EntryFillPrice) in
  let '(t, l) := CalculateSLFromFill g fill in
  let tp := CalculateTPFromFill g fill in
  let hasSL := flt fzero g.(Group.SLPercent) in
  let hasTP := flt fzero g.(Group.TPPercent) in
  let bad := (negb hasSL && negb hasTP) || (hasSL && sl_price_bad g t fill) ||
             (hasTP && tp_price_bad g tp fill) in
  match placeOCOLegs_prepare now a b g with
  | PAbort g' => bad = true /\ g' = fail_group now g
  | PCrash => bad = false /\ g.(Group.Auth) = None
  | PLegs g' sl tpo => bad = false /\
      exists g1, prepare_sl now a t l g = Some (g1, sl) /\ prepare_tp now b tp g1 = Some (g', tpo)
  end.
Proof.
  cbn zeta. unfold placeOCOLegs_prepare. destruct (CalculateSLFromFill _ _) as [t l].
  destruct (negb _ && negb _) eqn:E0; [by rewrite ?orb_true_r|].
  destruct (flt fzero (Group.SLPercent g) && _) eqn:E1; [by rewrite ?orb_true_r|].
  destruct (flt fzero (Group.TPPercent g) && _) eqn:E2; [by rewrite ?orb_true_r|].
  destruct (prepare_sl _ _ _ _ _) as [[g1 sl]|] eqn:Hs.
  - destruct (prepare_tp _ _ _ _) as [[g2 tpo]|] eqn:Ht; [by eauto|].
    split; [done|]. apply prepare_sl_spec in Hs. unfold prepare_tp, buildLegOrder in Ht.
    destruct sl as [o|]; [destruct Hs as (_ & -> & _)|destruct Hs as (_ & ->)];
      cbn in *; by destruct (flt fzero (Group.TPPercent g)), (Group.Auth g).
  - split; [done|]. unfold prepare_sl, buildLegOrder in Hs. cbn in Hs.
    by destruct (flt fzero (Group.SLPercent g)), (Group.Auth g).
Qed.

Lemma legs_live_spec g :
  legs_live g = true <-> g.(Group.State) = StateActive \/ g.(Group.State) = StateLegsSubmitted.
Proof. unfold legs_live, is_state. rewrite orb_true_iff, !bool_decide_eq_true. done. Qed.

(** The statuses of the switch are pairwise disjoint. *)
Lemma live_not_exec s : one_of s live_statuses = true -> one_of s filled_statuses = false.
Proof. intros. by eapply one_of_disjoint. Qed.

(** A leg order that [placeOCOLegs] is about to send, with its role and prices. *)
Definition leg_order (g : Group.t) (o : Order.t) (role : OCORole) (price trig : option f64) : Prop :=
  o.(Order.OrderSide) = ExitSide g /\ o.(Order.Quantity) = position_qty g /\
  o.(Order.Price) = price /\ o.(Order.StopLoss) = trig /\
  o.(Order.OCORole) = Some (role_string role) /\
  o.(Order.OCOGroupID) = Some g.(Group.GroupID).

Lemma prepared_sl_leg now a b g g' sl tpo :
  placeOCOLegs_prepare now a b g = PLegs g' (Some sl) tpo ->
  let '(t, l) := CalculateSLFromFill g g.(Group.EntryFillPrice) in
  sl_price_bad g t g.(Group.EntryFillPrice) = false /\
  leg_order g sl RoleSLLeg (Some l) (Some t) /\
  g'.(Group.SLTriggerPrice) = t /\ g'.(Group.SLLimitPrice) = l.
Proof.
  pose proof (prepare_cases now a b g) as H. cbn zeta in H. intros E. rewrite E in H.
  destruct (CalculateSLFromFill _ _) as [t l]. destruct H as (Hbad & g1 & H1 & H2).
  apply prepare_sl_spec in H1 as (Hsl & -> & Ho). apply buildLegOrder_spec in Ho.
  rewrite Hsl in Hbad. bool_to_prop. split; [done|]. split.
  - unfold leg_order. cbn in *. intuition.
  - apply prepare_tp_spec in H2. destruct tpo; [destruct H2 as (_ & -> & _)|destruct H2 as (_ & ->)];
      done.
Qed.

Lemma prepared_tp_leg now a b g g' slo tp :
  placeOCOLegs_prepare now a b g = PLegs g' slo (Some tp) ->
  let l := CalculateTPFromFill g g.(Group.EntryFillPrice) in
  tp_price_bad g l g.(Group.EntryFillPrice) = false /\
  leg_order g tp RoleTPLeg (Some l) None /\ g'.(Group.TPLimitPrice) = l.
Proof.
  pose proof (prepare_cases now a b g) as H. cbn zeta in H. intros E. rewrite E in H.
  destruct (CalculateSLFromFill _ _) as [t l]. destruct H as (Hbad & g1 & H1 & H2).
  apply prepare_tp_spec in H2 as (Htp & -> & Ho). apply buildLegOrder_spec in Ho.
  apply prepare_sl_spec in H1.
  assert (Hg : g1.(Group.TPPercent) = g.(Group.TPPercent) /\ ExitSide g1 = ExitSide g /\
    position_qty g1 = position_qty g /\ g1.(Group.GroupID) = g.(Group.GroupID)).
  { destruct slo; [destruct H1 as (_ & -> & _)|destruct H1 as (_ & ->)]; done. }
  destruct Hg as (Hg1 & Hg2 & Hg3 & Hg4). rewrite Hg1 in Htp. rewrite Htp in Hbad. cbn in Hbad.
  bool_to_prop. split; [done|]. split; [|done].
  unfold leg_order, position_qty in *. cbn in *. intuition congruence.
Qed.

(** Case analysis of one handler's switch. *)
Ltac handler_cases :=
  repeat (first [progress cbn in * | progress simplify_eq | case_match]).

(** What every handler preserves: the identity and the percentages of the group,
    whose price computations are fixed at creation. *)
Definition same_identity (g g' : Group.t) : Prop :=
  g'.(Group.GroupID) = g.(Group.GroupID) /\ g'.(Group.UserID) = g.(Group.UserID) /\
  g'.(Group.EntryOrderID) = g.(Group.EntryOrderID) /\
  g'.(Group.EntryBrokerID) = g.(Group.EntryBrokerID) /\
  g'.(Group.OrderSide) = g.(Group.OrderSide) /\ g'.(Group.Quantity) = g.(Group.Quantity) /\
  g'.(Group.Symbol) = g.(Group.Symbol) /\ g'.(Group.StockCode) = g.(Group.StockCode) /\
  g'.(Group.StrategyID) = g.(Group.StrategyID) /\
  g'.(Group.SLPercent) = g.(Group.SLPercent) /\ g'.(Group.TPPercent) = g.(Group.TPPercent) /\
  g'.(Group.TrailingSL) = g.(Group.TrailingSL).

#[export] Instance same_identity_preorder : PreOrder same_identity.
Proof.
  split; [by intros g|]. intros g1 g2 g3 H1 H2. unfold same_identity in *. intuition congruence.
Qed.

(** The moves of the lifecycle a broker event of one of the orders can make. *)
Definition broker_move (s s' : OCOState) : bool :=
  bool_decide (s = s') ||
  match s, s' with
  | StatePendingEntry, StatePlacingLegs => true
  | StateLegsSubmitted, StateActive => true
  | (StateLegsSubmitted | StateActive), (StateSLTriggered | StateTPTriggered) => true
  | (StateLegsSubmitted | StateActive), (StateCompleted | StateCancelled) => true
  | (StatePendingEntry | StatePlacingLegs | StateLegsSubmitted | StateActive
     | StateSLTriggered | StateTPTriggered), StateFailed => true
  | _, _ => false
  end.

Lemma broker_move_refl s : broker_move s s = true.
Proof. unfold broker_move. by rewrite bool_decide_true. Qed.

#[export] Hint Resolve broker_move_refl : go.

(** One handler call: the frame, the move and at most one placement, which
    leaves the pending state for good. *)
Definition handler_ok (g : Group.t) (r : Group.t * list Effect) : Prop :=
  same_identity g r.1 /\
  (IsTerminal g.(Group.State) = false -> broker_move g.(Group.State) r.1.(Group.State) = true) /\
  (existsb is_place r.2 = true ->
   g.(Group.State) = StatePendingEntry /\ r.1.(Group.State) = StatePlacingLegs /\
   length r.2 = 1%nat) /\
  (r.1.(Group.State) = StatePendingEntry -> g.(Group.State) = StatePendingEntry).

Ltac solve_handler :=
  repeat split; intros; cbn in *; unfold legs_live, is_state in *; bool_to_prop; simplify_eq/=;
  auto with go; try done; try congruence;
  try match goal with
  | H : IsTerminal (Group.State ?g) = false |- _ => by destruct (Group.State g)
  end.

Lemma handleEntryUpdate_ok now g o s : handler_ok g (handleEntryUpdate now g o s).
Proof.
  unfold handler_ok, handleEntryUpdate, cancel_timer.
  repeat case_match; solve_handler.
Qed.

Lemma checkLegsConfirmed_ok now g : handler_ok g (checkLegsConfirmed now g).
Proof.
  unfold handler_ok, checkLegsConfirmed.
  repeat case_match; solve_handler.
Qed.

Lemma handler_ok_after g g1 r :
  same_identity g g1 -> g1.(Group.State) = g.(Group.State) -> handler_ok g1 r -> handler_ok g r.
Proof.
  intros Hi Hs (H1 & H2 & H3 & H4). rewrite Hs in *. split; [by etrans|done].
Qed.

Lemma handleSLLegUpdate_ok now g o s : handler_ok g (handleSLLegUpdate now g o s).
Proof.
  unfold handleSLLegUpdate. case_match.
  { case_match; [unfold handler_ok; solve_handler|].
    eapply handler_ok_after, checkLegsConfirmed_ok; done. }
  unfold handler_ok. repeat case_match; solve_handler.
Qed.

Lemma handleTPLegUpdate_ok now g o s : handler_ok g (handleTPLegUpdate now g o s).
Proof.
  unfold handleTPLegUpdate. case_match.
  { case_match; [unfold handler_ok; solve_handler|].
    eapply handler_ok_after, checkLegsConfirmed_ok; done. }
  unfold handler_ok. repeat case_match; solve_handler.
Qed.

Lemma handler_ok_noop g : handler_ok g (g, []).
Proof. unfold handler_ok. solve_handler. Qed.

Lemma handler_ok_index g r id : handler_ok g r -> handler_ok g (r.1, [EStoreIndex id] ++ r.2) \/
  existsb is_place r.2 = true.
Proof.
  intros (H1 & H2 & H3 & H4). destruct (existsb is_place r.2) eqn:E; [by right|left].
  split; [done|]. split; [done|]. split; [cbn; by rewrite E|done].
Qed.

Lemma leg_updates_place_nothing now g o s :
  existsb is_place (handleSLLegUpdate now g o s).2 = false /\
  existsb is_place (handleTPLegUpdate now g o s).2 = false.
Proof.
  unfold handleSLLegUpdate, handleTPLegUpdate, checkLegsConfirmed.
  split; repeat case_match; done.
Qed.

Lemma routeBrokerUpdate_ok now id g o s : handler_ok g (routeBrokerUpdate now id g o s).
Proof.
  unfold routeBrokerUpdate. case_match; [apply handler_ok_noop|].
  case_match; [apply handleEntryUpdate_ok|]. case_match; [apply handleSLLegUpdate_ok|].
  case_match; [apply handleTPLegUpdate_ok|]. case_match; [|apply handler_ok_noop].
  case_match; [|case_match; [|apply handler_ok_noop]].
  - destruct (Group.SLBrokerID g =?s "");
      destruct (handleSLLegUpdate _ _ _ _) as [g' eff] eqn:E.
    + pose proof (handleSLLegUpdate_ok now (g <| Group.SLBrokerID := id |>) o s) as Hk.
      pose proof (leg_updates_place_nothing now (g <| Group.SLBrokerID := id |>) o s) as [Hp _].
      rewrite E in Hk, Hp. apply handler_ok_after with (g1 := g <| Group.SLBrokerID := id |>);
        [done|done|]. apply (handler_ok_index _ _ id) in Hk as [Hk|Hk]; [exact Hk|].
      cbn in *; congruence.
    + pose proof (handleSLLegUpdate_ok now g o s) as Hk. rewrite E in Hk. exact Hk.
  - destruct (Group.TPBrokerID g =?s "");
      destruct (handleTPLegUpdate _ _ _ _) as [g' eff] eqn:E.
    + pose proof (handleTPLegUpdate_ok now (g <| Group.TPBrokerID := id |>) o s) as Hk.
      pose proof (leg_updates_place_nothing now (g <| Group.TPBrokerID := id |>) o s) as [_ Hp].
      rewrite E in Hk, Hp. apply handler_ok_after with (g1 := g <| Group.TPBrokerID := id |>);
        [done|done|]. apply (handler_ok_index _ _ id) in Hk as [Hk|Hk]; [exact Hk|].
      cbn in *; congruence.
    + pose proof (handleTPLegUpdate_ok now g o s) as Hk. rewrite E in Hk. exact Hk.
Qed.

(** Placements of a sequence of events: none once the group has left the
    pending state, at most one from there. *)
Lemma routeAll_places events g :
  (g.(Group.State) <> StatePendingEntry ->
   List.filter is_place (routeAll events g).2 = []) /\
  (length (List.filter is_place (routeAll events g).2) <= 1)%nat /\
  same_identity g (routeAll events g).1.
Proof.
  revert g. induction events as [|[[[now id] o] s] rest IH]; intros g; [cbn; repeat split; lia|].
  cbn. pose proof (routeBrokerUpdate_ok now id g o s) as (Hi & _ & Hp & Hs).
  destruct (routeBrokerUpdate now id g o s) as [g1 eff]. cbn in Hi, Hp, Hs.
  destruct (IH g1) as (I1 & I2 & I3). destruct (routeAll rest g1) as [g2 eff']. cbn in *.
  rewrite List.filter_app, length_app.
  assert (Hno : existsb is_place eff = false -> List.filter is_place eff = []).
  { clear. induction eff as [|e eff IH]; cbn; [done|]. destruct (is_place e); [done|auto]. }
  split; [|split; [|by etrans]].
  - intros Hn. rewrite I1 by tauto. destruct (existsb is_place eff); [tauto|]. by rewrite Hno.
  - destruct (existsb is_place eff) eqn:E; [|rewrite Hno by done; cbn; lia].
    destruct (Hp eq_refl) as (_ & H1 & H2). rewrite I1 by congruence.
    pose proof (List.filter_length_le is_place eff). cbn. lia.
Qed.

(** A report of a leg: the stop-loss or the take-profit, and its status. *)
Definition LegReport : Type := bool * Z * Order.t * string.

Definition leg_update (r : LegReport) (g : Group.t) : Group.t * list Effect :=
  let '(sl, now, o, s) := r in
  if sl then handleSLLegUpdate now g o s else handleTPLegUpdate now g o s.

Fixpoint leg_reports (rs : list LegReport) (g : Group.t) : Group.t * list Effect :=
  match rs with
  | [] => (g, [])
  | r :: rs =>
      let '(g, eff) := leg_update r g in
      let '(g, eff') := leg_reports rs g in
      (g, eff ++ eff')
  end.

Definition rejects_sl (r : LegReport) : bool :=
  let '(sl, _, _, s) := r in sl && one_of s rejected_statuses.

Definition triggered (g : Group.t) : Prop :=
  g.(Group.State) = StateSLTriggered \/ g.(Group.State) = StateTPTriggered.

(** The fill of a live leg, on either side. *)
Lemma leg_fill_runs (sl : bool) now g o s g1 eff :
  legs_live g = true -> one_of s filled_statuses = true ->
  g.(Group.SLBrokerID) <> "" -> g.(Group.TPBrokerID) <> "" ->
  leg_update (sl, now, o, s) g = (g1, eff) ->
  eff = [if sl then ECancelLeg g.(Group.TPBrokerID) "TP" "SL leg executed (OCO)"
         else ECancelLeg g.(Group.SLBrokerID) "SL" "TP leg executed (OCO)"] /\
  g1.(Group.State) = (if sl then StateSLTriggered else StateTPTriggered) /\
  g1.(Group.PnL) = exit_pnl g o /\ same_identity g g1 /\ g1.(Group.TPBrokerID) = g.(Group.TPBrokerID).
Proof.
  intros Hl Hs Hsl Htp. assert (Hx : one_of s live_statuses = false) by (by eapply one_of_disjoint).
  apply String.eqb_neq in Hsl, Htp. destruct sl; cbn [leg_update];
    [unfold handleSLLegUpdate|unfold handleTPLegUpdate]; rewrite Hx, Hs, Hl; cbn; rewrite ?Hsl, ?Htp;
    intros [= <- <-]; done.
Qed.

(** A report to a triggered group changes at most the confirmation of a leg. *)
Lemma triggered_report r g g' eff :
  triggered g -> rejects_sl r = false -> leg_update r g = (g', eff) ->
  g'.(Group.State) = g.(Group.State) /\ g'.(Group.PnL) = g.(Group.PnL) /\ same_identity g g' /\
  g'.(Group.TPBrokerID) = g.(Group.TPBrokerID) /\
  Forall (fun e => exists order, e = EBroadcast "oco_tp_rejected" (Some order)) eff.
Proof.
  destruct r as [[[sl now] o] s]. intros Ht Hr.
  assert (Hl : legs_live g = false) by (unfold legs_live, is_state; by destruct Ht as [-> | ->]).
  assert (Hc : forall g0, g0.(Group.State) = g.(Group.State) -> checkLegsConfirmed now g0 = (g0, [])).
  { intros g0 H0. unfold checkLegsConfirmed, is_state. rewrite H0. by destruct Ht as [-> | ->]. }
  unfold rejects_sl in Hr. destruct sl; cbn [andb] in Hr; cbn [leg_update];
    [unfold handleSLLegUpdate; rewrite Hr|unfold handleTPLegUpdate; clear Hr];
    rewrite ?Hl; cbn [negb]; repeat case_match; rewrite ?Hc by done; intros [= <- <-];
    repeat split; try done; (constructor; [by eexists|constructor]).
Qed.

Lemma triggered_stays rs g g' eff :
  triggered g -> existsb rejects_sl rs = false -> leg_reports rs g = (g', eff) ->
  g'.(Group.State) = g.(Group.State) /\ g'.(Group.PnL) = g.(Group.PnL) /\ same_identity g g' /\
  g'.(Group.TPBrokerID) = g.(Group.TPBrokerID) /\
  Forall (fun e => exists order, e = EBroadcast "oco_tp_rejected" (Some order)) eff.
Proof.
  revert g g' eff. induction rs as [|r rs IH]; intros g g' eff Ht Hr; cbn [leg_reports existsb] in *.
  { intros [= <- <-]. done. }
  apply orb_false_elim in Hr as [Hr Hrs]. destruct (leg_update r g) as [g1 e1] eqn:E1.
  destruct (leg_reports rs g1) as [g2 e2] eqn:E2. intros [= <- <-].
  destruct (triggered_report _ _ _ _ Ht Hr E1) as (A1 & A2 & A3 & A4 & A5).
  assert (Ht1 : triggered g1) by (unfold triggered; by rewrite A1).
  destruct (IH _ _ _ Ht1 Hrs E2) as (B1 & B2 & B3 & B4 & B5).
  split; [congruence|]. split; [congruence|]. split; [by etrans|]. split; [congruence|].
  by apply Forall_app_2.
Qed.

(** A long position of ten shares filled at 100, stop-loss 2%, take-profit 4%. *)
Definition sample_auth : AuthContext := mkAuth "U1" "app" "WEB" "token".

Definition sample_long : Group.t :=
  Group.zero <| Group.GroupID := 7%N |> <| Group.UserID := "U1" |>
    <| Group.EntryOrderID := 8%N |> <| Group.EntryBrokerID := "E1" |>
    <| Group.EntryFillPrice := of_Z 100 |> <| Group.HighestPrice := of_Z 100 |>
    <| Group.SLPercent := of_Z 2 |> <| Group.TPPercent := of_Z 4 |>
    <| Group.TrailingSL := true |> <| Group.State := StatePlacingLegs |>
    <| Group.Symbol := "TCS" |> <| Group.Exchange := "NSE" |> <| Group.StockCode := 11536%Z |>
    <| Group.Quantity := 10%Z |> <| Group.OrderSide := "BUY" |>
    <| Group.Auth := Some sample_auth |> <| Group.ProductType := "INTRADAY" |>
    <| Group.Validity := "DAY" |>.

Definition sample_prepared : Group.t * Order.t * Order.t :=
  match placeOCOLegs_prepare 0 1 2 sample_long with
  | PLegs g (Some sl) (Some tp) => (g, sl, tp)
  | _ => (sample_long, Order.zero, Order.zero)
  end.

(** The same group with both legs on the exchange. *)
Definition sample_active : Group.t :=
  sample_prepared.1.1 <| Group.State := StateActive |> <| Group.SLBrokerID := "S1" |>
    <| Group.TPBrokerID := "T1" |> <| Group.SLLegConfirmed := true |>
    <| Group.TPLegConfirmed := true |> <| Group.FilledQty := 10%Z |>.

(** ** Properties *)

(** C2: the legs of a long position bracket the fill: when [placeOCOLegs] goes on to
    place a stop-loss and a take-profit leg, both sell the whole position, the
    stop-loss triggers strictly below the fill price with its limit at or below
    its trigger, and the take-profit limit lies strictly above the fill. *)
Theorem long_legs_bracket_fill now a b g g' sl tp :
  placeOCOLegs_prepare now a b g = PLegs g' (Some sl) (Some tp) ->
  g.(Group.OrderSide) = "BUY" ->
  flt fzero g.(Group.EntryFillPrice) = true ->
  price_ok (g.(Group.EntryFillPrice) * (one - g.(Group.SLPercent) / of_Z 100))%f64 = true ->
  price_ok (g.(Group.EntryFillPrice) * (one + g.(Group.TPPercent) / of_Z 100))%f64 = true ->
  exists trigger limit target,
    leg_order g sl RoleSLLeg (Some limit) (Some trigger) /\
    leg_order g tp RoleTPLeg (Some target) None /\ ExitSide g = "SELL" /\
    fle limit trigger = true /\ flt trigger g.(Group.EntryFillPrice) = true /\
    flt g.(Group.EntryFillPrice) target = true.
Proof.
  intros E Hs Hf Hok Hok'. apply flt_ordered in Hf as [_ Hf].
  pose proof (prepared_sl_leg _ _ _ _ _ _ _ E) as H1. apply prepared_tp_leg in E as (B2 & L2 & _).
  destruct (CalculateSLFromFill _ _) as [t l] eqn:C. destruct H1 as (B1 & L1 & _).
  destruct (sl_limit_below _ _ _ _ Hs Hok C) as [Ht Hl].
  exists t, l, (CalculateTPFromFill g g.(Group.EntryFillPrice)).
  unfold sl_price_bad, tp_price_bad in *. rewrite Hs in B1, B2. cbn in B1, B2.
  rewrite orb_false_r in B1, B2. unfold ExitSide. rewrite Hs.
  repeat split; try apply L1; try apply L2; try done; apply not_fle_flt; try done.
  unfold CalculateTPFromFill. rewrite Hs. cbn. by apply fnonneg_ordered, roundNSE_price_nonneg.
Qed.

Lemma long_legs_bracket_fill_witness :
  exists trigger limit target,
    leg_order sample_long sample_prepared.1.2 RoleSLLeg (Some limit) (Some trigger) /\
    leg_order sample_long sample_prepared.2 RoleTPLeg (Some target) None /\
    ExitSide sample_long = "SELL" /\
    fle limit trigger = true /\ flt trigger (of_Z 100) = true /\ flt (of_Z 100) target = true.
Proof.
  apply (long_legs_bracket_fill 0 1 2 sample_long sample_prepared.1.1); vm_compute; reflexivity.
Defined.

(** C3: a fill of one leg of a live group cancels the other leg and keeps the
    realised profit of the filled quantity; after it no sequence of reports of
    either leg (fills, partial fills, cancellations, confirmations, rejections of
    the take-profit) moves the group again or cancels anything, so the other leg is
    cancelled exactly once, unless the stop-loss is reported rejected: that report
    is handled in every state, fails the group and cancels the take-profit again. *)
Theorem leg_fill_cancels_other (sl_filled : bool) now g o s later :
  legs_live g = true -> one_of s filled_statuses = true ->
  g.(Group.SLBrokerID) <> "" -> g.(Group.TPBrokerID) <> "" ->
  existsb rejects_sl later = false ->
  let '(g1, eff) := leg_update (sl_filled, now, o, s) g in
  let '(g2, eff2) := leg_reports later g1 in
  eff = [if sl_filled then ECancelLeg g.(Group.TPBrokerID) "TP" "SL leg executed (OCO)"
         else ECancelLeg g.(Group.SLBrokerID) "SL" "TP leg executed (OCO)"] /\
  g1.(Group.State) = (if sl_filled then StateSLTriggered else StateTPTriggered) /\
  g1.(Group.PnL) = exit_pnl g o /\
  g2.(Group.State) = g1.(Group.State) /\ g2.(Group.PnL) = g1.(Group.PnL) /\ same_identity g1 g2 /\
  Forall (fun e => exists order, e = EBroadcast "oco_tp_rejected" (Some order)) eff2 /\
  forall now' o' s', one_of s' rejected_statuses = true ->
    handleSLLegUpdate now' g2 o' s' =
      (g2 <| Group.State := StateFailed |> <| Group.UpdatedAt := now' |>,
       [ECancelLeg g.(Group.TPBrokerID) "TP" "SL leg rejected (OCO cleanup)"; EScheduleCleanup]).
Proof.
  intros Hl Hs Hsl Htp Hrej. destruct (leg_update _ g) as [g1 eff] eqn:E1.
  destruct (leg_fill_runs sl_filled now g o s g1 eff Hl Hs Hsl Htp E1) as (He & Hst & Hp & Hi & Ht).
  destruct (leg_reports later g1) as [g2 eff2] eqn:E2.
  destruct (triggered_stays later g1 g2 eff2) as (S1 & S2 & S3 & S4 & S5); [|done|exact E2|].
  { unfold triggered. rewrite Hst. by destruct sl_filled; [left|right]. }
  do 7 (split; [first [done|by rewrite S1]|]). intros now' o' s' Hs'. unfold handleSLLegUpdate.
  rewrite (one_of_disjoint s' rejected_statuses live_statuses) by done.
  rewrite (one_of_disjoint s' rejected_statuses filled_statuses) by done.
  by rewrite Hs', S4, Ht.
Qed.

Lemma leg_fill_cancels_other_witness :
  let r := handleSLLegUpdate 5 sample_active
             (Order.zero <| Order.FilledPrice := Some (of_Z 98) |>) "EXECUTED" in
  let later := [(false, 6%Z, Order.zero, "TRADED"); (false, 7%Z, Order.zero, "CANCELLED")] in
  r.2 = [ECancelLeg "T1" "TP" "SL leg executed (OCO)"] /\ r.1.(Group.PnL) = of_Z (-20) /\
  (leg_reports later r.1).1.(Group.State) = StateSLTriggered.
Proof.
  cbn zeta. pose proof (leg_fill_cancels_other true 5 sample_active
    (Order.zero <| Order.FilledPrice := Some (of_Z 98) |>) "EXECUTED"
    [(false, 6%Z, Order.zero, "TRADED"); (false, 7%Z, Order.zero, "CANCELLED")]
    eq_refl eq_refl ltac:(done) ltac:(done) eq_refl) as H.
  unfold leg_update at 1 in H. destruct (handleSLLegUpdate _ _ _ _) as [g1 eff]. cbn [fst snd].
  destruct (leg_reports _ g1) as [g2 eff2]. destruct H as (H1 & H2 & H3 & H4 & _).
  split; [exact H1|]. split; [rewrite H3; vm_compute; reflexivity|]. cbn [fst]. by rewrite H4.
Defined.

(** A late rejection report of the stop-loss undoes a finished exit: the group
    whose take-profit was filled becomes failed, and the filled take-profit is
    cancelled. *)
Example late_rejection_fails_filled_group :
  let '(g1, _) := handleTPLegUpdate 5 sample_active
                    (Order.zero <| Order.FilledPrice := Some (of_Z 104) |>) "EXECUTED" in
  let '(g2, eff) := handleSLLegUpdate 6 g1 Order.zero "REJECTED" in
  g1.(Group.State) = StateTPTriggered /\ g2.(Group.State) = StateFailed /\
  eff = [ECancelLeg "T1" "TP" "SL leg rejected (OCO cleanup)"; EScheduleCleanup].
Proof. vm_compute. repeat split. Qed.

(** Whatever broker events arrive, and in whatever order, they place the legs of
    a group at most once, and not at all once the entry has left the pending
    state; the group's identity, side, quantity and percentages never change. *)
Theorem legs_placed_at_most_once events g :
  let '(g', eff) := routeAll events g in
  (length (List.filter is_place eff) <= 1)%nat /\
  (g.(Group.State) = StatePendingEntry \/ List.filter is_place eff = []) /\
  same_identity g g'.
Proof.
  pose proof (routeAll_places events g) as (H1 & H2 & H3).
  destruct (routeAll events g) as [g' eff]. cbn in *.
  split; [done|]. split; [|done].
  destruct (decide (Group.State g = StatePendingEntry)); [by left|right; auto].
Qed.

(** Every broker event moves a group along the lifecycle: terminal groups are
    left untouched, and the others make one of the moves of [broker_move]. *)
Theorem broker_event_follows_lifecycle now id g o s :
  let '(g', eff) := routeBrokerUpdate now id g o s in
  if IsTerminal g.(Group.State) then g' = g /\ eff = []
  else broker_move g.(Group.State) g'.(Group.State) = true.
Proof.
  pose proof (routeBrokerUpdate_ok now id g o s) as (_ & Hm & _).
  destruct (routeBrokerUpdate now id g o s) as [g' eff] eqn:E. cbn in Hm.
  destruct (IsTerminal _) eqn:T; [|auto].
  unfold routeBrokerUpdate in E. rewrite T in E. by injection E as <- <-.
Qed.

(** A full fill of a pending entry records the fill and starts the placement
    of both legs; its price is the traded price, else the order's, and without
    a positive price the group fails and nothing is placed. *)
Theorem entry_fill_starts_legs now g o s :
  one_of s filled_statuses = true -> g.(Group.State) = StatePendingEntry ->
  g.(Group.PartialFillActive) = false ->
  let '(g', eff) := handleEntryUpdate now g o s in
  if fle (entry_fill_price o) fzero then g'.(Group.State) = StateFailed /\ eff = []
  else g'.(Group.State) = StatePlacingLegs /\ eff = [EPlaceLegs false] /\
    g'.(Group.FilledQty) = g.(Group.Quantity) /\
    g'.(Group.EntryFillPrice) = entry_fill_price o /\
    g'.(Group.HighestPrice) = entry_fill_price o /\
    flt fzero (entry_fill_price o) = true.
Proof.
  intros Hs Hp Ha. unfold handleEntryUpdate, is_state. rewrite Hs, Ha, Hp. cbn.
  destruct (fle _ _) eqn:E; [done|]. repeat split; cbn.
  revert E. unfold entry_fill_price. repeat case_match; done.
Qed.

Lemma entry_fill_starts_legs_witness :
  let g := sample_long <| Group.State := StatePendingEntry |> in
  let o := Order.zero <| Order.FilledPrice := Some (of_Z 101) |> in
  let '(g', eff) := handleEntryUpdate 3 g o "TRADED" in
  g'.(Group.State) = StatePlacingLegs /\ eff = [EPlaceLegs false] /\
  g'.(Group.EntryFillPrice) = of_Z 101.
Proof.
  cbn zeta.
  pose proof (entry_fill_starts_legs 3 (sample_long <| Group.State := StatePendingEntry |>)
    (Order.zero <| Order.FilledPrice := Some (of_Z 101) |>) "TRADED" eq_refl eq_refl eq_refl) as H.
  destruct (handleEntryUpdate _ _ _ _) as [g' eff].
  destruct H as (H1 & H2 & _ & H3 & _). repeat split; assumption.
Defined.
