(* ===== verification/OCOManager.v ===== *)
(** * The OCO manager

    [oco/manager.go]: the registry of groups, the index from broker order ids,
    and the operations and goroutines that work on them, over an arbitrary
    broker, credentials cache and order repository.

    A group's pointer is its id in [heap]; [groups] and [brokerIndex] are the two
    [sync.Map]s.  A goroutine or timer that the code starts is a [Task]: it runs
    as the steps [runTask] splits it into, which are the sections the code puts
    under the group's mutex and the calls it makes outside of it.  [requests] is
    the log of what the broker received and answered. *)

From stdpp Require Import base gmap strings list fin_maps fin_sets.
From Stdlib Require Import ZArith Lia.
From S2P Require Import Prelude GoFloat FloatOrder Price GoStrings Orders OrderRepo OCOTypes Broker.
From S2P Require Import OCOHandlers.

Open Scope string_scope.
Open Scope list_scope.
Open Scope go_scope.

(** A request to the broker and its answer. *)
Inductive Request : Type :=
  | RPlace (order : Order.t) (auth : AuthContext) (answer : placement)
  | RCancel (exchange brokerID symbol : string) (auth : AuthContext) (answer : option string)
  | RModify (order : Order.t) (auth : AuthContext) (answer : option string).

(** The goroutines and timers, by where they stand. *)
Inductive Task : Type :=
  | TPlaceLegs (gid : uuid) (partial : bool)
  | TFinishLegs (gid : uuid) (slOrder tpOrder : option Order.t) (slRes tpRes : option placement)
      (partial : bool)
  | TAfterLegs (gid : uuid)
  | TStartTimer (gid : uuid)
  | TTimer (gid : uuid) (timer : nat)
  | TCancelEntryRemaining (gid : uuid)
  | TModifyLegsQty (gid : uuid) (qty : Z)
  | TModifyDone (gid : uuid) (qty : Z)
  | TCancelLeg (gid : uuid) (brokerID legName reason : string)
  | TCancelDone (gid : uuid)
  | TCleanup (gid : uuid)
  | TDbUpdate (order : Order.t)
  | TTagOrder (orderID gid : uuid) (role : string)
  | TModifySL (gid : uuid) (trigger limit highest : f64).

Record World (B C D : Type) : Type := mkWorld {
  heap : gmap uuid Group.t;
  groups : gset uuid;
  brokerIndex : gmap string uuid;
  broker : B;
  credsCache : option C;
  repo : D;
  requests : list Request;
  tasks : list Task;
  cancelledTimers : gset nat;
  nextTimer : nat;
  wsBroadcaster : bool;
  broadcasts : list (string * string * option Order.t)
}.

Arguments mkWorld {B C D}.
Arguments heap {B C D}.
Arguments groups {B C D}.
Arguments brokerIndex {B C D}.
Arguments broker {B C D}.
Arguments credsCache {B C D}.
Arguments repo {B C D}.
Arguments requests {B C D}.
Arguments tasks {B C D}.
Arguments cancelledTimers {B C D}.
Arguments nextTimer {B C D}.
Arguments wsBroadcaster {B C D}.
Arguments broadcasts {B C D}.

#[export] Instance eta_world {B C D} : Eta (World B C D) := fun w =>
  mkWorld w.(heap) w.(groups) w.(brokerIndex) w.(broker) w.(credsCache) w.(repo)
    w.(requests) w.(tasks) w.(cancelledTimers) w.(nextTimer) w.(wsBroadcaster) w.(broadcasts).

Definition maxEntryRetries : nat := 2.
Definition maxLegPlacementRetries : nat := 3.
Definition dbRetryAttempts : nat := 3.
Definition maxCancelAttempts : nat := 3.

Section Manager.

Context {B C D : Type} `{BrokerClient B} `{CredentialsRefresher C} `{OrderRepository D}.

Abbreviation World := (World B C D).
Abbreviation M := (Go World).

(** ** Primitive effects *)

Definition getGroup (gid : uuid) : M Group.t := fun w =>
  match w.(heap) !! gid with
  | Some g => Some (g, w)
  | None => None
  end.

Definition setGroup (gid : uuid) (g : Group.t) : M unit :=
  modify (fun w => w <| heap := <[gid := g]> w.(heap) |>).

Definition spawn (t : Task) : M unit := modify (fun w => w <| tasks := w.(tasks) ++ [t] |>).

Definition storeIndex (id : string) (gid : uuid) : M unit :=
  modify (fun w => w <| brokerIndex := <[id := gid]> w.(brokerIndex) |>).

Definition broadcast (userID eventType : string) (order : option Order.t) : M unit :=
  modify (fun w =>
    if w.(wsBroadcaster) then
      w <| broadcasts := w.(broadcasts) ++ [(userID, eventType, order)] |>
    else w).

Definition placeOrder (o : Order.t) (a : AuthContext) : M placement := fun w =>
  let '(b, r) := PlaceOrder o a w.(broker) in
  Some (r, w <| broker := b |> <| requests := w.(requests) ++ [RPlace o a r] |>).

(** The client dereferences the auth context of a cancel or modify call. *)
Definition cancelOrder (exchange id symbol : string) (auth : option AuthContext)
  : M (option string) := fun w =>
  match auth with
  | None => None
  | Some a =>
      let '(b, r) := CancelOrder exchange id symbol a w.(broker) in
      Some (r, w <| broker := b |>
                 <| requests := w.(requests) ++ [RCancel exchange id symbol a r] |>)
  end.

Definition modifyOrder (o : Order.t) (auth : option AuthContext) : M (option string) := fun w =>
  match auth with
  | None => None
  | Some a =>
      let '(b, r) := ModifyOrder o a w.(broker) in
      Some (r, w <| broker := b |> <| requests := w.(requests) ++ [RModify o a r] |>)
  end.

Definition repoCall {A} (f : D -> D * A) : M A := fun w =>
  let '(d, r) := f w.(repo) in Some (r, w <| repo := d |>).

Definition repoCreate (o : Order.t) : M (option string) := repoCall (Create o).
Definition repoUpdate (now : Z) (o : Order.t) : M (option string) := repoCall (Update now o).

(** What a handler asked for. *)
Definition applyEffect (gid : uuid) (e : Effect) : M unit :=
  match e with
  | EPlaceLegs partial => spawn (TPlaceLegs gid partial)
  | EModifyLegsQty qty => spawn (TModifyLegsQty gid qty)
  | ECancelLeg id name reason => spawn (TCancelLeg gid id name reason)
  | ECancelTimer id => modify (fun w => w <| cancelledTimers := {[id]} ∪ w.(cancelledTimers) |>)
  | EStoreIndex id => storeIndex id gid
  | EScheduleCleanup => spawn (TCleanup gid)
  | EBroadcast ev o => g ← getGroup gid; broadcast g.(Group.UserID) ev o
  end.

Definition applyEffects (gid : uuid) (es : list Effect) : M unit := forM es (applyEffect gid).

(** ** Credentials and retries *)

Definition refreshAuth (userID : string) (current : option AuthContext)
  : M (option AuthContext) := fun w =>
  match w.(credsCache) with
  | None => Some (None, w)
  | Some c =>
      let '(c, r) := Get userID (Invalidate userID c) in
      let w := w <| credsCache := Some c |> in
      match r, current with
      | inl _, _ => Some (None, w)
      | inr _, None => None
      | inr a, Some cur =>
          if a.(BearerToken) =?s cur.(BearerToken) then Some (None, w) else Some (Some a, w)
      end
  end.

(** The order carries the credentials of its next attempt. *)
Definition with_auth (o : Order.t) (a : AuthContext) : Order.t :=
  o <| Order.BearerToken := Some a.(BearerToken) |> <| Order.AppId := Some a.(AppId) |>
    <| Order.Source := Some a.(Source) |>.

Definition submitted (now : Z) (id : string) (o : Order.t) : Order.t :=
  o <| Order.IndiraOrderID := Some id |> <| Order.Status := StatusSubmitted |>
    <| Order.SubmittedAt := Some now |>.

Definition failed_order (msg : string) (o : Order.t) : Order.t :=
  o <| Order.Status := StatusFailed |> <| Order.ErrorMessage := Some msg |>.

(** One more try after the error [e] of the last one: fresh credentials when
    the session had expired and they can be had. *)
Definition leg_credentials (o : Order.t) (auth : AuthContext) (prev : option string)
  : M (Order.t * AuthContext) :=
  match prev with
  | Some e =>
      if isSessionExpiredError e then
        newAuth ← refreshAuth o.(Order.UserID) (Some auth);
        match newAuth with
        | Some a => mret (with_auth o a, a)
        | None => mret (o, auth)
        end
      else mret (o, auth)
  | None => mret (o, auth)
  end.

(** The attempts of [placeLegWithRetry] that are left; [prev] is the error of
    the last one. *)
Fixpoint placeLegAttempts (n : nat) (now : Z) (legName : string) (prev : option string)
    (o : Order.t) (auth : AuthContext) : M (placement * Order.t) :=
  match n with
  | O =>
      let msg := (legName ++ " leg placement failed after 3 attempts: " ++
                  default "<nil>" prev)%string in
      let o := failed_order msg o in
      _ ← repoUpdate now o; mret (inl msg, o)
  | S n' =>
      '(o, auth) ← leg_credentials o auth prev;
      r ← placeOrder o auth;
      match r with
      | inl e => placeLegAttempts n' now legName (Some e) o auth
      | inr id =>
          let o := submitted now id o in
          _ ← repoUpdate now o; mret (inr id, o)
      end
  end.

Definition placeLegWithRetry (now : Z) (o : Order.t) (auth : AuthContext) (legName : string)
  : M (placement * Order.t) :=
  placeLegAttempts maxLegPlacementRetries now legName None o auth.

Fixpoint dbUpdateAttempts (n : nat) (now : Z) (o : Order.t) : M unit :=
  match n with
  | O => mret tt
  | S n' =>
      e ← repoUpdate now o;
      match e with
      | Some _ => dbUpdateAttempts n' now o
      | None => mret tt
      end
  end.

Definition dbUpdateAsync (o : Order.t) : M unit := spawn (TDbUpdate o).

Fixpoint cancelAttempts (n : nat) (g : Group.t) (brokerID : string) : M unit :=
  match n with
  | O => mret tt
  | S n' =>
      e ← cancelOrder g.(Group.Exchange) brokerID g.(Group.Symbol) g.(Group.Auth);
      match e with
      | Some msg => if already_done msg then mret tt else cancelAttempts n' g brokerID
      | None => mret tt
      end
  end.

(** ** Operations on one group *)

(** The order that modifies a leg: what the modify request is built from. *)
Definition leg_modify (g : Group.t) (orderID : uuid) (brokerID orderType : string)
    (qty : Z) (price : f64) (trigger : option f64) : Order.t :=
  Order.zero <| Order.OrderID := orderID |> <| Order.IndiraOrderID := Some brokerID |>
    <| Order.StockCode := g.(Group.StockCode) |> <| Order.Exchange := g.(Group.Exchange) |>
    <| Order.Symbol := g.(Group.Symbol) |> <| Order.OrderType := orderType |>
    <| Order.OrderSide := ExitSide g |> <| Order.Quantity := qty |>
    <| Order.Price := Some price |> <| Order.StopLoss := trigger |>
    <| Order.Validity := g.(Group.Validity) |> <| Order.ProductType := g.(Group.ProductType) |>.

Definition ModifySLLeg (now : Z) (gid : uuid) (newTrigger newLimit newHighestPrice : f64)
  : M (option string) :=
  group ← getGroup gid;
  if negb (is_state group StateActive) || (group.(Group.SLBrokerID) =?s "") then
    mret (Some "group not in ACTIVE state or SL broker ID missing")
  else
    let slOrder := leg_modify group group.(Group.SLOrderID) group.(Group.SLBrokerID)
      OrderTypeStopLoss (position_qty group) newLimit (Some newTrigger) in
    err ← modifyOrder slOrder group.(Group.Auth);
    '(group, err) ←
      match err with
      | Some e =>
          if isSessionExpiredError e then
            newAuth ← refreshAuth group.(Group.UserID) group.(Group.Auth);
            match newAuth with
            | Some a =>
                let group := group <| Group.Auth := Some a |> in
                _ ← setGroup gid group;
                err ← modifyOrder slOrder (Some a);
                mret (group, err)
            | None => mret (group, err)
            end
          else mret (group, err)
      | None => mret (group, err)
      end;
    match err with
    | Some e => mret (Some ("modify SL leg failed: " ++ e)%string)
    | None =>
        let group := group <| Group.SLTriggerPrice := newTrigger |>
          <| Group.SLLimitPrice := newLimit |>
          <| Group.HighestPrice := if flt fzero newHighestPrice then newHighestPrice
                                   else group.(Group.HighestPrice) |>
          <| Group.UpdatedAt := now |> in
        _ ← setGroup gid group;
        _ ← repoUpdate now slOrder;
        mret None
    end.

Definition startPartialFillTimer (gid : uuid) : M unit :=
  group ← getGroup gid;
  id ← gets nextTimer;
  _ ← modify (fun w : World => w <| nextTimer := S id |>);
  _ ← setGroup gid (group <| Group.PartialFillCancelFunc := Some id |>);
  spawn (TTimer gid id).

(** The timer's wait ended: [expired], or its context was cancelled. *)
Definition timerFired (gid : uuid) (expired : bool) : M unit :=
  if negb expired then mret tt
  else
    group ← getGroup gid;
    if negb group.(Group.PartialFillActive) then mret tt
    else
      _ ← setGroup gid (group <| Group.PartialFillActive := false |>
             <| Group.PartialFillTimerStarted := false |>
             <| Group.PartialFillCancelFunc := None |>);
      spawn (TCancelEntryRemaining gid).

Definition cancelEntryRemaining (gid : uuid) : M unit :=
  group ← getGroup gid;
  if group.(Group.EntryBrokerID) =?s "" then mret tt
  else cancelAttempts maxCancelAttempts group group.(Group.EntryBrokerID).

Definition modifyLeg (g : Group.t) (brokerID : string) (o : Order.t) : M unit :=
  if brokerID =?s "" then mret tt
  else
    err ← modifyOrder o g.(Group.Auth);
    match err with
    | Some _ => mret tt
    | None => dbUpdateAsync o
    end.

Definition modifyLegsQty (gid : uuid) (newQty : Z) : M unit :=
  g ← getGroup gid;
  _ ← modifyLeg g g.(Group.SLBrokerID)
        (leg_modify g g.(Group.SLOrderID) g.(Group.SLBrokerID) OrderTypeStopLoss newQty
           g.(Group.SLLimitPrice) (Some g.(Group.SLTriggerPrice)));
  _ ← modifyLeg g g.(Group.TPBrokerID)
        (leg_modify g g.(Group.TPOrderID) g.(Group.TPBrokerID) OrderTypeLimit newQty
           g.(Group.TPLimitPrice) None);
  spawn (TModifyDone gid newQty).

(** [cancelLeg]: the calls, then the completion of the group, which takes no
    lock. *)
Definition cancelLeg (gid : uuid) (brokerID : string) : M unit :=
  if brokerID =?s "" then mret tt
  else
    g ← getGroup gid;
    _ ← cancelAttempts maxCancelAttempts g brokerID;
    spawn (TCancelDone gid).

Definition cancelLegDone (now : Z) (gid : uuid) : M unit :=
  g ← getGroup gid;
  _ ← setGroup gid (g <| Group.State := StateCompleted |> <| Group.UpdatedAt := now |>);
  broadcast g.(Group.UserID) "oco_completed" None.

(** What [scheduleCleanup]'s timer does. *)
Definition cleanup (gid : uuid) : M unit :=
  g ← getGroup gid;
  modify (fun w : World =>
    let drop (id : string) (ix : gmap string uuid) :=
      if id =?s "" then ix else delete id ix in
    w <| groups := w.(groups) ∖ {[gid]} |>
      <| brokerIndex := drop g.(Group.TPBrokerID) (drop g.(Group.SLBrokerID)
                          (drop g.(Group.EntryBrokerID) w.(brokerIndex))) |>).

(** The first part of [placeOCOLegs]'s goroutine: the rows of the leg orders, then
    the placements; [slFirst] is the order in which the two goroutines run. *)
Definition createLegs (slFirst : bool) (slOrder tpOrder : option Order.t) : M unit :=
  let create o := match o with Some o => _ ← repoCreate o; mret tt | None => mret tt end in
  if slFirst then create slOrder ;; create tpOrder else create tpOrder ;; create slOrder.

Definition placeLeg (now : Z) (g : Group.t) (o : option Order.t) (legName : string)
  : M (option placement * option Order.t) :=
  match o, g.(Group.Auth) with
  | None, _ => mret (None, None)
  | Some _, None => panic
  | Some o, Some auth =>
      '(r, o) ← placeLegWithRetry now o auth legName; mret (Some r, Some o)
  end.

Definition placeOCOLegs (now : Z) (slID tpID : uuid) (slFirst : bool) (gid : uuid)
    (partial : bool) : M unit :=
  group ← getGroup gid;
  match placeOCOLegs_prepare now slID tpID group with
  | PAbort g =>
      _ ← setGroup gid g;
      if partial then spawn (TAfterLegs gid) else mret tt
  | PCrash => panic
  | PLegs g slOrder tpOrder =>
      _ ← setGroup gid g;
      _ ← createLegs slFirst slOrder tpOrder;
      if slFirst then
        '(slRes, slOrder) ← placeLeg now g slOrder "SL";
        '(tpRes, tpOrder) ← placeLeg now g tpOrder "TP";
        spawn (TFinishLegs gid slOrder tpOrder slRes tpRes partial)
      else
        '(tpRes, tpOrder) ← placeLeg now g tpOrder "TP";
        '(slRes, slOrder) ← placeLeg now g slOrder "SL";
        spawn (TFinishLegs gid slOrder tpOrder slRes tpRes partial)
  end.

Definition finishLegs (now : Z) (gid : uuid) (slOrder tpOrder : option Order.t)
    (slRes tpRes : option placement) (partial : bool) : M unit :=
  group ← getGroup gid;
  let '(g, eff) := placeOCOLegs_finish now slOrder tpOrder slRes tpRes group in
  _ ← setGroup gid g;
  _ ← applyEffects gid eff;
  if partial then spawn (TAfterLegs gid) else mret tt.

Definition afterLegs (gid : uuid) : M unit :=
  g ← getGroup gid;
  if negb (is_state g StateFailed) && g.(Group.PartialFillActive) &&
     negb g.(Group.PartialFillTimerStarted) then
    _ ← setGroup gid (g <| Group.PartialFillTimerStarted := true |>);
    spawn (TStartTimer gid)
  else mret tt.

(** ** The exported operations *)

(** [HandleBrokerUpdate]. *)
Definition HandleBrokerUpdate (now : Z) (order : option Order.t) (brokerStatus : string) : M unit :=
  match order with
  | None => mret tt
  | Some order =>
      match order.(Order.IndiraOrderID) with
      | None => mret tt
      | Some brokerID =>
          let status := ToUpper (TrimSpace brokerStatus) in
          ix ← gets brokerIndex;
          let groupID := match ix !! brokerID with
                         | Some gid => Some gid
                         | None => order.(Order.OCOGroupID)
                         end in
          match groupID with
          | None => mret tt
          | Some gid =>
              known ← gets groups;
              if bool_decide (gid ∈ known) then
                group ← getGroup gid;
                let '(group, eff) := routeBrokerUpdate now brokerID group order status in
                _ ← setGroup gid group;
                applyEffects gid eff
              else mret tt
          end
      end
  end.

(** The arguments of [CreateOCOEntry]. *)
Record EntryRequest : Type := mkEntry {
  reqUserID : string; reqStrategyID : string; reqEventID : uuid; reqStockCode : Z;
  reqExchange : string; reqSymbol : string; reqOrderSide : string; reqQuantity : Z;
  reqTriggerPrice : f64; reqSLPercent : f64; reqTPPercent : f64;
  reqTrailingSL : bool; reqTrailingSLPct : f64; reqAuth : option AuthContext
}.

(** The limit price of the entry: the trigger with a buffer of half a percent. *)
Definition entry_limit (side : string) (trigger : f64) : f64 :=
  if side =?s "BUY" then roundNSE (trigger * above_half_pct)%f64
  else roundNSE (trigger * below_half_pct)%f64.

Definition entry_group (now : Z) (groupID entryOrderID : uuid) (r : EntryRequest) : Group.t :=
  Group.zero
    <| Group.GroupID := groupID |> <| Group.UserID := r.(reqUserID) |>
    <| Group.EntryOrderID := entryOrderID |> <| Group.SLPercent := r.(reqSLPercent) |>
    <| Group.TPPercent := r.(reqTPPercent) |> <| Group.TrailingSL := r.(reqTrailingSL) |>
    <| Group.TrailingSLPct := r.(reqTrailingSLPct) |> <| Group.State := StatePendingEntry |>
    <| Group.Symbol := r.(reqSymbol) |> <| Group.Exchange := r.(reqExchange) |>
    <| Group.StockCode := r.(reqStockCode) |> <| Group.Quantity := r.(reqQuantity) |>
    <| Group.OrderSide := r.(reqOrderSide) |> <| Group.Auth := r.(reqAuth) |>
    <| Group.ProductType := "INTRADAY" |> <| Group.Validity := "DAY" |>
    <| Group.StrategyID := r.(reqStrategyID) |> <| Group.EventID := r.(reqEventID) |>
    <| Group.CreatedAt := now |> <| Group.UpdatedAt := now |>.

Definition entry_order (now : Z) (groupID entryOrderID : uuid) (auth : AuthContext)
    (r : EntryRequest) : Order.t :=
  with_auth (Order.zero
    <| Order.OrderID := entryOrderID |> <| Order.UserID := r.(reqUserID) |>
    <| Order.StrategyID := r.(reqStrategyID) |> <| Order.EventID := r.(reqEventID) |>
    <| Order.StockCode := r.(reqStockCode) |> <| Order.Exchange := r.(reqExchange) |>
    <| Order.Symbol := r.(reqSymbol) |> <| Order.OrderType := OrderTypeLimit |>
    <| Order.OrderSide := r.(reqOrderSide) |> <| Order.Quantity := r.(reqQuantity) |>
    <| Order.Price := Some (entry_limit r.(reqOrderSide) r.(reqTriggerPrice)) |>
    <| Order.Validity := "DAY" |> <| Order.ProductType := "INTRADAY" |>
    <| Order.Status := StatusReceived |> <| Order.RiskApproved := true |>
    <| Order.IsPaperTrade := false |> <| Order.TradingMode := "LIVE" |>
    <| Order.CreatedAt := now |> <| Order.UpdatedAt := now |>
    <| Order.OCOGroupID := Some groupID |> <| Order.OCORole := Some (role_string RoleEntry) |>
    <| Order.StopLossType := if r.(reqTrailingSL) then Some "TRAILING" else None |>
    <| Order.TrailingSLPct := if flt fzero r.(reqTrailingSLPct) then Some r.(reqTrailingSLPct)
                              else None |>) auth.

(** The credentials of the next try of the entry; [None] stops the retries. *)
Definition entry_credentials (userID : string) (o : Order.t) (auth : AuthContext)
    (prev : option string) : M (option (Order.t * AuthContext)) :=
  match prev with
  | Some e =>
      if isSessionExpiredError e then
        newAuth ← refreshAuth userID (Some auth);
        match newAuth with
        | Some a => mret (Some (with_auth o a, a))
        | None => mret None
        end
      else mret (Some (o, auth))
  | None => mret (Some (o, auth))
  end.

(** The placement loop of [CreateOCOEntry], with [n] tries left; [prev] is the
    error of the last one. *)
Fixpoint placeEntry (n : nat) (userID : string) (prev : option string) (o : Order.t)
    (auth : AuthContext) : M (placement * Order.t * AuthContext) :=
  match n with
  | O => mret (inl (default "" prev), o, auth)
  | S n' =>
      c ← entry_credentials userID o auth prev;
      match c with
      | None => mret (inl (default "" prev), o, auth)
      | Some (o, auth) =>
          r ← placeOrder o auth;
          match r with
          | inr id => mret (inr id, o, auth)
          | inl e =>
              if isSessionExpiredError e || isSessionNotReadyError e then
                placeEntry n' userID (Some e) o auth
              else mret (inl e, o, auth)
          end
      end
  end.

Definition CreateOCOEntry (now : Z) (groupID entryOrderID : uuid) (r : EntryRequest)
  : M (string + uuid) :=
  match r.(reqAuth) with
  | None => panic
  | Some auth =>
      let group := entry_group now groupID entryOrderID r in
      let entryOrder := entry_order now groupID entryOrderID auth r in
      err ← repoCreate entryOrder;
      match err with
      | Some e => mret (inl ("failed to persist OCO entry order: " ++ e)%string)
      | None =>
          '(placed, entryOrder, auth) ←
            placeEntry (S maxEntryRetries) r.(reqUserID) None entryOrder auth;
          match placed with
          | inl e =>
              _ ← repoUpdate now (failed_order e entryOrder);
              mret (inl ("failed to place OCO entry order: " ++ e)%string)
          | inr brokerID =>
              let entryOrder := submitted now brokerID entryOrder in
              let group := group <| Group.Auth := Some auth |>
                             <| Group.EntryBrokerID := brokerID |> in
              _ ← setGroup groupID group;
              _ ← modify (fun w : World => w <| groups := {[groupID]} ∪ w.(groups) |>);
              _ ← storeIndex brokerID groupID;
              _ ← repoUpdate now entryOrder;
              _ ← broadcast r.(reqUserID) "oco_entry_placed" (Some entryOrder);
              mret (inr groupID)
          end
      end
  end.

(** [AdoptOrder]; the order it tags is returned. *)
Definition AdoptOrder (now : Z) (groupID : uuid) (order : Order.t) (slPercent tpPercent : f64)
    (trailingSL : bool) (trailingSLPct : f64) (auth : option AuthContext) : M Order.t :=
  let brokerID := default "" order.(Order.IndiraOrderID) in
  if brokerID =?s "" then mret order
  else
    let group := Group.zero
      <| Group.GroupID := groupID |> <| Group.UserID := order.(Order.UserID) |>
      <| Group.EntryOrderID := order.(Order.OrderID) |> <| Group.EntryBrokerID := brokerID |>
      <| Group.SLPercent := slPercent |> <| Group.TPPercent := tpPercent |>
      <| Group.TrailingSL := trailingSL |> <| Group.TrailingSLPct := trailingSLPct |>
      <| Group.State := StatePendingEntry |> <| Group.Symbol := order.(Order.Symbol) |>
      <| Group.Exchange := order.(Order.Exchange) |>
      <| Group.StockCode := order.(Order.StockCode) |>
      <| Group.Quantity := order.(Order.Quantity) |>
      <| Group.OrderSide := order.(Order.OrderSide) |> <| Group.Auth := auth |>
      <| Group.ProductType := "INTRADAY" |> <| Group.Validity := "DAY" |>
      <| Group.StrategyID := order.(Order.StrategyID) |>
      <| Group.EventID := order.(Order.EventID) |>
      <| Group.CreatedAt := now |> <| Group.UpdatedAt := now |> in
    let order := order <| Order.OCOGroupID := Some groupID |>
      <| Order.OCORole := Some (role_string RoleEntry) |>
      <| Order.StopLossType := Some (if trailingSL then "TRAILING" else "FIXED") |>
      <| Order.TrailingSLPct := if flt fzero trailingSLPct then Some trailingSLPct
                                else order.(Order.TrailingSLPct) |> in
    _ ← spawn (TTagOrder order.(Order.OrderID) groupID (role_string RoleEntry));
    _ ← setGroup groupID group;
    _ ← modify (fun w : World => w <| groups := {[groupID]} ∪ w.(groups) |>);
    _ ← storeIndex brokerID groupID;
    mret order.

(** The cancellations a user's cancel of the group starts. *)
Definition cancel_effects (g : Group.t) : list Effect :=
  (if is_state g StatePendingEntry && negb (g.(Group.EntryBrokerID) =?s "") then
     [ECancelLeg g.(Group.EntryBrokerID) "ENTRY" "User cancelled OCO"] else []) ++
  (if legs_live g then
     (if negb (g.(Group.SLBrokerID) =?s "") then
        [ECancelLeg g.(Group.SLBrokerID) "SL" "User cancelled OCO"] else []) ++
     (if negb (g.(Group.TPBrokerID) =?s "") then
        [ECancelLeg g.(Group.TPBrokerID) "TP" "User cancelled OCO"] else [])
   else []).

Definition CancelGroup (now : Z) (gid : uuid) : M (option string) :=
  known ← gets groups;
  if negb (bool_decide (gid ∈ known)) then mret (Some "OCO group not found")
  else
    group ← getGroup gid;
    if IsTerminal group.(Group.State) then mret (Some "OCO group already in terminal state")
    else
      _ ← setGroup gid (group <| Group.State := StateCancelled |> <| Group.UpdatedAt := now |>);
      _ ← applyEffects gid (cancel_effects group ++ [EScheduleCleanup]);
      mret None.

(** The registered, non-terminal groups a predicate selects, in the order of
    the registry. *)
Definition selectGroups (p : Group.t -> bool) (w : World) : list uuid :=
  List.filter (fun gid => match w.(heap) !! gid with
                          | Some g => p g && negb (IsTerminal g.(Group.State))
                          | None => false
                          end) (elements w.(groups)).

Definition cancelSelected (now : Z) (p : Group.t -> bool) : M unit :=
  ids ← gets (selectGroups p);
  forM ids (fun gid => _ ← CancelGroup now gid; mret tt).

Definition CancelAllGroupsByUser (now : Z) (userID : string) : M unit :=
  cancelSelected now (fun g => g.(Group.UserID) =?s userID).

Definition CancelGroupsByStrategy (now : Z) (userID strategyID : string) : M unit :=
  cancelSelected now (fun g => (g.(Group.UserID) =?s userID) && (g.(Group.StrategyID) =?s strategyID)).

Definition CancelGroupsBySymbol (now : Z) (userID symbol : string) : M unit :=
  cancelSelected now (fun g => (g.(Group.UserID) =?s userID) && (g.(Group.Symbol) =?s symbol)).

Definition IsKnownBrokerID (brokerID : string) (w : World) : bool :=
  bool_decide (is_Some (w.(brokerIndex) !! brokerID)).

Definition GetActiveGroups (w : World) : list uuid :=
  List.filter (fun gid => match w.(heap) !! gid with
                          | Some g => is_state g StateActive
                          | None => false
                          end) (elements w.(groups)).

Definition GetGroupsByUser (userID : string) (w : World) : list uuid :=
  selectGroups (fun g => g.(Group.UserID) =?s userID) w.

Definition GetGroup (groupID : uuid) (w : World) : option Group.t :=
  if bool_decide (groupID ∈ w.(groups)) then w.(heap) !! groupID else None.

Definition ActiveCount (w : World) : nat := length (selectGroups (fun _ => true) w).

(** [evaluateTrailing] of the trailing monitor up to its call of [ModifySLLeg],
    which another evaluation may overtake. *)
Definition evaluateTrailing (gid : uuid) (ltp : f64) : M unit :=
  group ← getGroup gid;
  match CalculateTrailingSL group ltp with
  | None => mret tt
  | Some (trigger, limit) => spawn (TModifySL gid trigger limit ltp)
  end.

(** ** Steps of the system *)

(** A choice of the scheduler: the clock, the uuids drawn, which of two parallel
    goroutines runs first, and which case of a [select] is taken. *)
Record Choice : Type := mkChoice { now : Z; id1 : uuid; id2 : uuid; flag : bool }.

Definition runTask (c : Choice) (t : Task) : M unit :=
  match t with
  | TPlaceLegs gid partial => placeOCOLegs c.(now) c.(id1) c.(id2) c.(flag) gid partial
  | TFinishLegs gid slO tpO slR tpR partial => finishLegs c.(now) gid slO tpO slR tpR partial
  | TAfterLegs gid => afterLegs gid
  | TStartTimer gid => startPartialFillTimer gid
  | TTimer gid _ => timerFired gid c.(flag)
  | TCancelEntryRemaining gid =>
      _ ← cancelEntryRemaining gid;
      g ← getGroup gid;
      broadcast g.(Group.UserID) "oco_partial_fill_timeout" None
  | TModifyLegsQty gid qty => modifyLegsQty gid qty
  | TModifyDone gid qty =>
      g ← getGroup gid;
      setGroup gid (g <| Group.FilledQty := qty |> <| Group.UpdatedAt := c.(now) |>)
  | TCancelLeg gid id _ _ => cancelLeg gid id
  | TCancelDone gid => cancelLegDone c.(now) gid
  | TCleanup gid => cleanup gid
  | TDbUpdate o => dbUpdateAttempts dbRetryAttempts c.(now) o
  | TTagOrder oid gid role => _ ← repoCall (UpdateOCOTag c.(now) oid gid role); mret tt
  | TModifySL gid trigger limit highest => _ ← ModifySLLeg c.(now) gid trigger limit highest; mret tt
  end.

(** A timer whose context is not cancelled can only expire. *)
Definition runnable (w : World) (c : Choice) (t : Task) : bool :=
  match t with
  | TTimer _ id => c.(flag) || bool_decide (id ∈ w.(cancelledTimers))
  | _ => true
  end.

(** What reaches the manager from outside. *)
Inductive Event : Type :=
  | EvBroker (order : option Order.t) (brokerStatus : string)
  | EvCreate (r : EntryRequest)
  | EvAdopt (order : Order.t) (slPercent tpPercent : f64) (trailingSL : bool)
      (trailingSLPct : f64) (auth : option AuthContext)
  | EvCancel (gid : uuid)
  | EvCancelUser (userID : string)
  | EvCancelStrategy (userID strategyID : string)
  | EvCancelSymbol (userID symbol : string)
  | EvTrail (gid : uuid) (ltp : f64).

Definition runEvent (c : Choice) (ev : Event) : M unit :=
  match ev with
  | EvBroker o s => HandleBrokerUpdate c.(now) o s
  | EvCreate r => _ ← CreateOCOEntry c.(now) c.(id1) c.(id2) r; mret tt
  | EvAdopt o slp tpp tr trp auth =>
      _ ← AdoptOrder c.(now) c.(id1) o slp tpp tr trp auth; mret tt
  | EvCancel gid => _ ← CancelGroup c.(now) gid; mret tt
  | EvCancelUser u => CancelAllGroupsByUser c.(now) u
  | EvCancelStrategy u s => CancelGroupsByStrategy c.(now) u s
  | EvCancelSymbol u s => CancelGroupsBySymbol c.(now) u s
  | EvTrail gid ltp => evaluateTrailing gid ltp
  end.

(** One step: an event arrives, or a task runs.  A fresh uuid is one no group
    has.  A step that panics ends the process: there is no world after it. *)
Inductive step (w : World) : World -> Prop :=
  | step_event c ev w' :
      w.(heap) !! c.(id1) = None -> runEvent c ev w = Some (tt, w') -> step w w'
  | step_task c t ts1 ts2 w' :
      w.(tasks) = ts1 ++ t :: ts2 -> runnable w c t = true ->
      runTask c t (w <| tasks := ts1 ++ ts2 |>) = Some (tt, w') -> step w w'.

Definition startWorld (b : B) (c : option C) (d : D) : World :=
  mkWorld ∅ ∅ ∅ b c d [] [] ∅ 0 true [].

Definition reachable (b : B) (c : option C) (d : D) (w : World) : Prop :=
  rtc step (startWorld b c d) w.

End Manager.
