(* ===== verification/OCOInvariants.v ===== *)
(** * Invariants of the OCO manager

    What every step of the manager preserves, whatever the broker answers and
    however events and goroutines interleave. *)

From stdpp Require Import base gmap strings list fin_maps fin_sets pretty.
From Stdlib Require Import ZArith Lia.
From S2P Require Import Prelude GoFloat FloatOrder Price GoStrings Orders OrderRepo OCOTypes Broker.
From S2P Require Import OCOHandlers OCOManager.

Open Scope string_scope.
Open Scope list_scope.
Open Scope go_scope.

(** A placement of the group's leg of that role, whatever the broker answers: one
    that timed out may have been taken all the same. *)
Definition places_leg (gid : uuid) (role : string) (r : Request) : bool :=
  match r with
  | RPlace o _ _ =>
      bool_decide (o.(Order.OCOGroupID) = Some gid) && bool_decide (o.(Order.OCORole) = Some role)
  | _ => false
  end.

(** What tells the orders of a placement apart: the group, the role and the
    order id, which the credentials and the broker id do not change. *)
Definition order_key (o : Order.t) : option uuid * option string * uuid :=
  (o.(Order.OCOGroupID), o.(Order.OCORole), o.(Order.OrderID)).

(** A placement the broker answered with an order id. *)
Definition accepted (r : Request) : bool :=
  match r with RPlace _ _ (inr _) => true | _ => false end.

Definition places_order (k : option uuid * option string * uuid) (r : Request) : Prop :=
  exists o a p, r = RPlace o a p /\ order_key o = k.

(** No request follows an answer with an id. *)
Definition accepted_last (rs : list Request) : Prop :=
  forall rs1 r rs2, rs = rs1 ++ r :: rs2 -> accepted r = true -> rs2 = [].

(** The requests of one placement of one leg of one group. *)
Record leg_run (gid : uuid) (role : string) (rs : list Request) : Prop := {
  leg_run_length : (length rs <= 3)%nat;
  leg_run_last : accepted_last rs;
  leg_run_same : exists id, Forall (places_order (Some gid, Some role, id)) rs
}.

Definition is_leg_place (gid : uuid) (t : Task) : bool :=
  match t with TPlaceLegs gid' _ => bool_decide (gid' = gid) | _ => false end.

Definition count {A} (p : A -> bool) (l : list A) : nat := length (List.filter p l).

Arguments count : simpl never.

Section Invariants.

Context {B C D : Type} {HB : BrokerClient B} {HC : CredentialsRefresher C}
  {HD : OrderRepository D}.

Abbreviation World := (World B C D).
Abbreviation M := (Go World).

(** No leg of the group can have been placed yet: it is unknown or its entry is
    pending. *)
Definition unplaced (gid : uuid) (w : World) : bool :=
  match w.(heap) !! gid with
  | None => true
  | Some g => is_state g StatePendingEntry
  end.

(** The placements of the leg sent so far, and the rights to place the legs of the
    group: the goroutines about to do it and the right to start one. *)
Definition legs_sent (gid : uuid) (role : string) (w : World) : list Request :=
  List.filter (places_leg gid role) w.(requests).

Definition leg_rights (gid : uuid) (w : World) : nat :=
  count (is_leg_place gid) w.(tasks) + (if unplaced gid w then 1 else 0).

(** How the groups evolve: none disappears, their identity is fixed, the pending
    state is not entered again, and every placement of a leg uses up a right to. *)
Record evolves (w w' : World) : Prop := {
  evolves_group gid g : w.(heap) !! gid = Some g ->
    exists g', w'.(heap) !! gid = Some g' /\ same_identity g g';
  evolves_new_id gid g : w.(heap) !! gid = None -> w'.(heap) !! gid = Some g ->
    g.(Group.GroupID) = gid;
  evolves_unplaced gid : unplaced gid w' = true -> unplaced gid w = true;
  evolves_legs gid role : role <> role_string RoleEntry ->
    exists runs, legs_sent gid role w' = legs_sent gid role w ++ concat runs /\
      Forall (leg_run gid role) runs /\ (leg_rights gid w' + length runs <= leg_rights gid w)%nat
}.

#[export] Instance evolves_preorder : PreOrder evolves.
Proof.
  split.
  - intros w. split; [|congruence|done|].
    + intros gid g Hg. exists g. split; [done|reflexivity].
    + intros gid role _. exists []. cbn. rewrite app_nil_r. split; [done|]. split; [constructor|lia].
  - intros w1 w2 w3 [A1 N1 B1 C1] [A2 N2 B2 C2]. split; [| |auto|].
    + intros gid g Hg. destruct (A1 gid g Hg) as (g2 & Hg2 & I1).
      destruct (A2 gid g2 Hg2) as (g3 & Hg3 & I2). exists g3. split; [done|by etrans].
    + intros gid g Hn Hg. destruct (w2.(heap) !! gid) as [g2|] eqn:E; [|by eapply N2].
      destruct (A2 gid g2 E) as (g3 & Hg3 & I2 & _). simplify_eq. rewrite I2. by eapply N1.
    + intros gid role Hr. destruct (C1 gid role Hr) as (r1 & E1 & F1 & L1).
      destruct (C2 gid role Hr) as (r2 & E2 & F2 & L2). exists (r1 ++ r2).
      rewrite E2, E1, concat_app, app_assoc, length_app. split; [done|]. split; [by apply Forall_app|lia].
Qed.

(** A state change that keeps groups, index and goroutines: only the broker, the
    database, the credentials and the logs move; [P] describes the requests. *)
Record quiet (P : Request -> Prop) (w w' : World) : Prop := {
  quiet_heap : w'.(heap) = w.(heap);
  quiet_groups : w'.(groups) = w.(groups);
  quiet_index : w'.(brokerIndex) = w.(brokerIndex);
  quiet_tasks : w'.(tasks) = w.(tasks);
  quiet_timers : w'.(cancelledTimers) = w.(cancelledTimers);
  quiet_requests : exists rs, w'.(requests) = w.(requests) ++ rs /\ Forall P rs
}.

#[export] Instance quiet_preorder P : PreOrder (quiet P).
Proof.
  split.
  - intros w. split; try done. exists []. by rewrite app_nil_r.
  - intros w1 w2 w3 [H1 H2 H3 H4 H5 (rs & R & F)] [G1 G2 G3 G4 G5 (rs' & R' & F')].
    split; try congruence. exists (rs ++ rs'). split; [by rewrite R', R, app_assoc|by apply Forall_app].
Qed.

Lemma quiet_weaken (P Q : Request -> Prop) w w' :
  (forall r, P r -> Q r) -> quiet P w w' -> quiet Q w w'.
Proof.
  intros HPQ [H1 H2 H3 H4 H5 (rs & R & F)]. split; try done.
  exists rs. split; [done|]. by eapply Forall_impl.
Qed.

Lemma quiet_none P w w' :
  quiet (fun _ => False) w w' -> quiet P w w' /\ w'.(requests) = w.(requests).
Proof.
  intros Q. split; [eapply quiet_weaken; [|exact Q]; done|]. destruct Q as [_ _ _ _ _ (rs & R & F)].
  destruct rs as [|r rs]; [by rewrite R, app_nil_r|by inversion F].
Qed.

(** ** What the primitive effects do *)

Lemma getGroup_inv gid (w w' : World) g :
  getGroup gid w = Some (g, w') -> w' = w /\ w.(heap) !! gid = Some g.
Proof. unfold getGroup. intros E. by destruct (_ !! _); simplify_eq. Qed.

Lemma quiet_repoCall {A} P (f : D -> D * A) : go_post (repoCall f) (fun w _ w' => quiet P w w').
Proof.
  intros w a w'. unfold repoCall. destruct (f _) as [d r]. intros [= <- <-].
  split; try done. exists []. by rewrite app_nil_r.
Qed.

Lemma quiet_broadcast P u e o : go_post (broadcast u e o) (fun (w : World) _ w' => quiet P w w').
Proof.
  intros w a w' [= <- <-]. destruct (wsBroadcaster w); [|reflexivity].
  split; try done. exists []. by rewrite app_nil_r.
Qed.

Lemma placeOrder_inv o a (w w' : World) r :
  placeOrder o a w = Some (r, w') ->
  w'.(requests) = w.(requests) ++ [RPlace o a r] /\ quiet (fun q => exists r, q = RPlace o a r) w w'.
Proof.
  unfold placeOrder. destruct (PlaceOrder _ _ _) as [b r']. intros [= <- <-].
  split; [done|]. split; try done. cbn. eexists. split; [done|]. constructor; eauto.
Qed.

Lemma cancelOrder_inv e i s a (w w' : World) r :
  cancelOrder e i s a w = Some (r, w') ->
  exists au, a = Some au /\ w'.(requests) = w.(requests) ++ [RCancel e i s au r] /\
  quiet (fun q => exists r, q = RCancel e i s au r) w w'.
Proof.
  unfold cancelOrder. destruct a as [au|]; [|done]. destruct (CancelOrder _ _ _ _ _) as [b r'].
  intros [= <- <-]. exists au. split; [done|]. split; [done|].
  split; try done. cbn. eexists. split; [done|]. constructor; eauto.
Qed.

Lemma modifyOrder_inv o a (w w' : World) r :
  modifyOrder o a w = Some (r, w') ->
  exists au, a = Some au /\ w'.(requests) = w.(requests) ++ [RModify o au r] /\
  quiet (fun q => exists r, q = RModify o au r) w w'.
Proof.
  unfold modifyOrder. destruct a as [au|]; [|done]. destruct (ModifyOrder _ _ _) as [b r'].
  intros [= <- <-]. exists au. split; [done|]. split; [done|].
  split; try done. cbn. eexists. split; [done|]. constructor; eauto.
Qed.

Lemma quiet_refreshAuth P u a : go_post (refreshAuth u a) (fun (w : World) _ w' => quiet P w w').
Proof.
  intros w x w'. unfold refreshAuth.
  assert (Hq : forall c, quiet P w (w <| credsCache := c |>)).
  { intros c. split; try done. exists []. by rewrite app_nil_r. }
  destruct (credsCache w) as [c|]; [|intros [= <- <-]; reflexivity].
  destruct (Get _ _) as [c' [e|a']]; [intros [= <- <-]; apply Hq|].
  destruct a as [cur|]; [|done]. case_match; intros [= <- <-]; apply Hq.
Qed.

End Invariants.

Ltac go_inj H := injection H; clear H; intros; subst.

(** Take a run of effectful code apart into its primitive effects. *)
Ltac go_inv :=
  repeat match goal with
  | H : mbind _ _ _ = Some _ |- _ => apply go_bind_inv in H as (? & ? & ? & ?)
  | H : mret _ _ = Some _ |- _ => unfold mret, go_ret in H; go_inj H
  | H : gets _ _ = Some _ |- _ => unfold gets in H; go_inj H
  | H : modify _ _ = Some _ |- _ => unfold modify in H; go_inj H
  | H : setGroup _ _ _ = Some _ |- _ => unfold setGroup, modify in H; go_inj H
  | H : spawn _ _ = Some _ |- _ => unfold spawn, modify in H; go_inj H
  | H : storeIndex _ _ _ = Some _ |- _ => unfold storeIndex, modify in H; go_inj H
  | H : panic _ = Some _ |- _ => discriminate H
  | H : getGroup _ _ = Some _ |- _ => apply getGroup_inv in H as [-> ?]
  | H : (let '(_, _) := ?x in _) _ = Some _ |- _ => is_var x; destruct x
  end.

Section Loops.

Context {B C D : Type} {HB : BrokerClient B} {HC : CredentialsRefresher C}
  {HD : OrderRepository D}.

Abbreviation World := (World B C D).

Lemma leg_credentials_inv o auth prev (w w' : World) o' auth' :
  leg_credentials o auth prev w = Some ((o', auth'), w') ->
  order_key o' = order_key o /\ quiet (fun _ => False) w w'.
Proof.
  unfold leg_credentials. destruct prev as [e|]; [case_match|]; intros E; go_inv;
    try (split; [done|reflexivity]); simplify_eq; try (split; [done|reflexivity]).
  match goal with E : refreshAuth _ _ _ = _ |- _ =>
    pose proof (quiet_refreshAuth (fun _ => False) _ _ _ _ _ E) as Q end.
  case_match; go_inv; by simplify_eq.
Qed.

(** The retry loop of a leg: between one and [n] requests, all for this order,
    none accepted but the last, which is accepted when the loop succeeds. *)
Lemma placeLegAttempts_inv n now name prev o auth (w w' : World) r o' :
  placeLegAttempts n now name prev o auth w = Some ((r, o'), w') ->
  quiet (places_order (order_key o)) w w' /\ order_key o' = order_key o /\
  exists rs, w'.(requests) = w.(requests) ++ rs /\ (length rs <= n)%nat /\
    (n <> 0 -> rs <> [])%nat /\
    match r with
    | inl _ => count accepted rs = 0%nat
    | inr id => exists rs' o'' a, rs = rs' ++ [RPlace o'' a (inr id)] /\ count accepted rs' = 0%nat
    end.
Proof.
  revert prev o auth w. induction n as [|n IH]; intros prev o auth w E; cbn in E; go_inv.
  - match goal with E : repoUpdate _ _ _ = _ |- _ =>
      apply (quiet_repoCall (fun _ => False)), (quiet_none (places_order (order_key o))) in E
        as [Q R] end.
    simplify_eq. split; [done|]. split; [done|]. exists []. rewrite app_nil_r. repeat split; try done; lia.
  - match goal with E : leg_credentials _ _ _ _ = Some (?p, ?q, _) |- _ =>
      rename p into o1, q into a1;
      apply leg_credentials_inv in E as [K Q1] end.
    apply (quiet_none (places_order (order_key o))) in Q1 as [Q1 R1]. go_inv.
    match goal with E : placeOrder _ _ _ = Some (?p, _) |- _ =>
      rename p into ans; apply placeOrder_inv in E as [R Q2] end.
    apply (quiet_weaken _ (places_order (order_key o))) in Q2;
      [|intros ? [p ->]; exists o1, a1, p; by split].
    destruct ans as [e|id].
    + match goal with E : placeLegAttempts _ _ _ _ _ _ _ = _ |- _ =>
        apply IH in E as (Q3 & K3 & rs & R3 & L & N & A) end.
      rewrite K in Q3, K3. split; [by repeat (etrans; [eassumption|])|]. split; [done|].
      exists (RPlace o1 a1 (inl e) :: rs). rewrite R3, R, R1, <- app_assoc. cbn.
      repeat split; [lia|done|]. destruct r; [done|].
      destruct A as (rs' & o'' & a & -> & A). exists (RPlace o1 a1 (inl e) :: rs'), o'', a. done.
    + go_inv. match goal with E : repoUpdate _ _ _ = _ |- _ =>
        apply (quiet_repoCall (fun _ => False)), (quiet_none (places_order (order_key o))) in E
          as [Q3 R3] end.
      simplify_eq. split; [by repeat (etrans; [eassumption|])|]. split; [unfold order_key; cbn; congruence|].
      exists [RPlace o1 a1 (inr id)]. rewrite R3, R, R1. repeat split; [cbn; lia|done|].
      exists [], o1, a1. done.
Qed.

Lemma quiet_dbUpdateAttempts P n now o :
  go_post (dbUpdateAttempts n now o) (fun (w : World) _ w' => quiet P w w').
Proof.
  induction n as [|n IH]; cbn; [apply go_post_ret; reflexivity|].
  apply (go_post_bind (quiet P)); [apply quiet_repoCall|].
  intros [e|]; [apply IH|apply go_post_ret; reflexivity].
Qed.

Definition cancels (e i s : string) (r : Request) : Prop :=
  exists a res, r = RCancel e i s a res.

(** The retry loop of a cancellation: between one and [n] cancel requests, all
    for this order; it stops at the first success or at an error that says the
    order is gone. *)
Lemma cancelAttempts_inv n g id (w w' : World) :
  cancelAttempts n g id w = Some (tt, w') ->
  quiet (cancels g.(Group.Exchange) id g.(Group.Symbol)) w w' /\
  exists rs, w'.(requests) = w.(requests) ++ rs /\ (length rs <= n)%nat /\ (n <> 0 -> rs <> [])%nat /\
    forall rs1 e i s a res rs2, rs = rs1 ++ RCancel e i s a res :: rs2 -> rs2 <> [] ->
      exists msg, res = Some msg /\ already_done msg = false.
Proof.
  revert w. induction n as [|n IH]; intros w E; cbn in E; go_inv.
  - split; [reflexivity|]. exists []. rewrite app_nil_r. repeat split; [cbn; lia|done|].
    intros [|? ?] *; done.
  - match goal with E : cancelOrder _ _ _ _ _ = Some (?p, _) |- _ =>
      rename p into ans; apply cancelOrder_inv in E as (au & _ & R & Q) end.
    apply (quiet_weaken _ (cancels (Group.Exchange g) id (Group.Symbol g))) in Q;
      [|intros ? [p ->]; by exists au, p].
    set (r0 := RCancel _ _ _ _ _) in *.
    assert (Hstop : forall w1, w1 = x0 -> quiet (cancels (Group.Exchange g) id (Group.Symbol g)) w w1 /\
      exists rs, requests w1 = requests w ++ rs /\ (length rs <= S n)%nat /\ (S n <> 0 -> rs <> [])%nat /\
      forall rs1 e i s a res rs2, rs = rs1 ++ RCancel e i s a res :: rs2 -> rs2 <> [] ->
        exists msg, res = Some msg /\ already_done msg = false).
    { intros w1 ->. split; [done|]. exists [r0]. repeat split; [done|cbn; lia|done|].
      intros [|? [|? ?]] * [=]; simplify_eq; done. }
    destruct ans as [msg|]; [|go_inv; auto].
    destruct (already_done msg) eqn:Ed; [go_inv; auto|].
    match goal with E : cancelAttempts _ _ _ _ = _ |- _ =>
      apply IH in E as (Q3 & rs & R3 & L & N & A) end.
    split; [by etrans|]. exists (r0 :: rs). rewrite R3, R, <- app_assoc. cbn.
    repeat split; [lia|done|]. intros [|r1 rs1] e i s a res rs2 [=] Hne; [|by eapply A].
    subst res. eauto.
Qed.

Lemma quiet_entry_credentials P u o a prev :
  go_post (entry_credentials u o a prev) (fun (w : World) r w' => quiet P w w' /\
    match r with Some (o', _) => order_key o' = order_key o | None => True end).
Proof.
  intros w r w' E. unfold entry_credentials in E. destruct prev as [e|]; [case_match|]; go_inv;
    try (split; [reflexivity|done]).
  match goal with E : refreshAuth _ _ _ = _ |- _ => apply (quiet_refreshAuth P) in E end.
  case_match; go_inv; done.
Qed.

(** The placement loop of the entry, likewise; it goes on only after an expired
    session or one that is not ready. *)
Lemma placeEntry_inv n u prev o auth (w w' : World) r o' auth' :
  placeEntry n u prev o auth w = Some ((r, o', auth'), w') ->
  quiet (places_order (order_key o)) w w' /\ order_key o' = order_key o /\
  (exists rs, w'.(requests) = w.(requests) ++ rs /\ (length rs <= n)%nat).
Proof.
  revert prev o auth w. induction n as [|n IH]; intros prev o auth w E; cbn in E; go_inv.
  { split; [reflexivity|]. split; [done|]. exists []. rewrite app_nil_r. split; [done|cbn; lia]. }
  match goal with E : entry_credentials _ _ _ _ _ = Some (?c, _) |- _ => rename c into cred;
    pose proof (quiet_entry_credentials (fun _ => False) _ _ _ _ _ _ _ E) as [Q1 K]; clear E end.
  apply (quiet_none (places_order (order_key o))) in Q1 as [Q1 R1].
  destruct cred as [[o1 a1]|]; go_inv.
  2:{ split; [done|]. split; [done|]. exists []. rewrite app_nil_r. split; [done|cbn; lia]. }
  match goal with E : placeOrder _ _ _ = Some (?p, _) |- _ =>
    rename p into ans; apply placeOrder_inv in E as [R Q2] end.
  apply (quiet_weaken _ (places_order (order_key o))) in Q2;
    [|intros ? [p ->]; exists o1, a1, p; by split].
  destruct ans as [e|id]; [case_match|]; go_inv.
  - match goal with E : placeEntry _ _ _ _ _ _ = _ |- _ => apply IH in E as (Q3 & K3 & rs & R3 & L) end.
    rewrite K in Q3, K3. split; [by repeat (etrans; [eassumption|])|]. split; [done|].
    exists (RPlace o1 a1 (inl e) :: rs). rewrite R3, R, R1, <- app_assoc. split; [done|cbn; lia].
  - split; [by etrans|]. split; [exact K|].
    eexists. rewrite R, R1. split; [done|cbn; lia].
  - split; [by etrans|]. split; [exact K|].
    eexists. rewrite R, R1. split; [done|cbn; lia].
Qed.

(** A successful placement of the entry carries an order id. *)
Lemma placeEntry_nonempty `{!BrokerLaws B} n u prev o auth (w w' : World) r o' auth' :
  placeEntry n u prev o auth w = Some ((r, o', auth'), w') ->
  forall id, r = inr id -> id <> "".
Proof.
  revert prev o auth w. induction n as [|n IH]; intros prev o auth w E id ->; cbn in E; [by go_inv|].
  apply go_bind_inv in E as (cred & w1 & _ & E). destruct cred as [[o1 a1]|]; [|by go_inv].
  apply go_bind_inv in E as (ans & w2 & E1 & E). unfold placeOrder in E1.
  destruct (PlaceOrder o1 a1 (broker w1)) as [b ans'] eqn:Ep. injection E1 as -> <-.
  destruct ans as [e|id']; [case_match; [by eapply IH|by go_inv]|].
  go_inv. by eapply placed_nonempty.
Qed.

End Loops.

(** ** Every step evolves the groups *)

Section Evolution.

Context {B C D : Type} {HB : BrokerClient B} {HC : CredentialsRefresher C}
  {HD : OrderRepository D}.

Abbreviation World := (World B C D).

Lemma count_app {A} (p : A -> bool) l1 l2 : count p (l1 ++ l2) = (count p l1 + count p l2)%nat.
Proof. unfold count. by rewrite List.filter_app, length_app. Qed.

Lemma count_none {A} (p : A -> bool) l : Forall (fun x => p x = false) l -> count p l = 0%nat.
Proof. unfold count. induction 1 as [|x l Hx _ IH]; cbn; [done|by rewrite Hx]. Qed.

Lemma legs_filter_none {A} (p : A -> bool) l : Forall (fun x => p x = false) l -> List.filter p l = [].
Proof. induction 1 as [|x l Hx _ IH]; cbn; [done|by rewrite Hx]. Qed.

Lemma legs_filter_all {A} (p : A -> bool) l : Forall (fun x => p x = true) l -> List.filter p l = l.
Proof. induction 1 as [|x l Hx _ IH]; cbn; [done|by rewrite Hx, IH]. Qed.

(** A step that sends no placement of the leg and gives no right to. *)
Lemma legs_unsent gid role (w w' : World) :
  legs_sent gid role w' = legs_sent gid role w -> (leg_rights gid w' <= leg_rights gid w)%nat ->
  exists runs, legs_sent gid role w' = legs_sent gid role w ++ concat runs /\
    Forall (leg_run gid role) runs /\ (leg_rights gid w' + length runs <= leg_rights gid w)%nat.
Proof.
  intros E L. exists []. cbn. rewrite app_nil_r. split; [done|]. split; [constructor|lia].
Qed.

(** Evolution sees the heap, the requests and the goroutines. *)
Lemma evolves_frame (w w' : World) rs ts :
  w'.(heap) = w.(heap) -> w'.(requests) = w.(requests) ++ rs -> w'.(tasks) = w.(tasks) ++ ts ->
  (forall gid role, role <> role_string RoleEntry -> Forall (fun r => places_leg gid role r = false) rs) ->
  (forall gid, Forall (fun t => is_leg_place gid t = false) ts) ->
  evolves w w'.
Proof.
  intros Hh Hr Ht Fr Ft. assert (Hu : forall gid, unplaced gid w' = unplaced gid w).
  { intros gid. unfold unplaced. by rewrite Hh. }
  split.
  - intros gid g Hg. exists g. rewrite Hh. split; [done|reflexivity].
  - rewrite Hh. congruence.
  - intros gid. by rewrite Hu.
  - intros gid role Hrole. apply legs_unsent.
    + unfold legs_sent. rewrite Hr, List.filter_app, (legs_filter_none _ rs) by auto. by rewrite app_nil_r.
    + unfold leg_rights. rewrite Hu, Ht, count_app, (count_none _ ts) by auto. lia.
Qed.

Lemma quiet_evolves P (w w' : World) :
  (forall r gid role, role <> role_string RoleEntry -> P r -> places_leg gid role r = false) ->
  quiet P w w' -> evolves w w'.
Proof.
  intros HP [Hh _ _ Ht _ (rs & Hr & F)]. apply (evolves_frame _ _ rs []); try done.
  { by rewrite app_nil_r. }
  intros gid role Hrole. eapply Forall_impl; [exact F|]. cbn. eauto.
Qed.

Lemma cancels_evolves e i s (w w' : World) : quiet (cancels e i s) w w' -> evolves w w'.
Proof. apply quiet_evolves. by intros r gid role _ (a & res & ->). Qed.

Lemma entry_evolves gid0 id (w w' : World) :
  quiet (places_order (Some gid0, Some (role_string RoleEntry), id)) w w' -> evolves w w'.
Proof.
  apply quiet_evolves. intros r gid role Hr (o & a & p & -> & [= _ K _]). cbn.
  rewrite K. rewrite (bool_decide_false (Some _ = Some role)); [by rewrite andb_false_r|].
  intros [= E]. by apply Hr.
Qed.

Lemma nothing_evolves (w w' : World) : quiet (fun _ => False) w w' -> evolves w w'.
Proof. by apply quiet_evolves. Qed.

Lemma evolves_spawn (w : World) t :
  (forall gid, is_leg_place gid t = false) -> evolves w (w <| tasks := w.(tasks) ++ [t] |>).
Proof.
  intros Ht. apply (evolves_frame _ _ [] [t]); try done; [cbn; by rewrite app_nil_r|].
  intros gid. by constructor.
Qed.

(** A write to an existing group. *)
Lemma unplaced_set (w : World) gid g g' gid' :
  w.(heap) !! gid = Some g ->
  (g'.(Group.State) = StatePendingEntry -> g.(Group.State) = StatePendingEntry) ->
  unplaced gid' (w <| heap := <[gid := g']> w.(heap) |>) = true -> unplaced gid' w = true.
Proof.
  intros Hg Hs. unfold unplaced. cbn. destruct (decide (gid = gid')) as [<-|Hne].
  - rewrite lookup_insert, Hg. rewrite decide_True by done. unfold is_state.
    rewrite !bool_decide_eq_true. done.
  - by rewrite lookup_insert_ne.
Qed.

Lemma evolves_set (w : World) gid g g' :
  w.(heap) !! gid = Some g -> same_identity g g' ->
  (g'.(Group.State) = StatePendingEntry -> g.(Group.State) = StatePendingEntry) ->
  evolves w (w <| heap := <[gid := g']> w.(heap) |>).
Proof.
  intros Hg Hi Hs. split.
  - intros gid' h Hh. cbn. destruct (decide (gid = gid')) as [<-|Hne].
    + rewrite lookup_insert_eq. exists g'. split; [done|]. by simplify_eq.
    + rewrite lookup_insert_ne by done. exists h. split; [done|reflexivity].
  - intros gid' h. cbn. rewrite lookup_insert. case_decide; congruence.
  - intros gid'. by eapply unplaced_set.
  - intros gid' role _. apply legs_unsent; [done|]. unfold leg_rights. cbn.
    match goal with |- (_ + (if ?b then _ else _) <= _)%nat => destruct b eqn:E end;
      [|destruct (unplaced gid' w); lia].
    apply (unplaced_set w gid g g') in E; [|done..]. rewrite E. lia.
Qed.

(** A new group. *)
Lemma evolves_new (w : World) gid g :
  w.(heap) !! gid = None -> g.(Group.GroupID) = gid ->
  evolves w (w <| heap := <[gid := g]> w.(heap) |>).
Proof.
  intros Hg Hid. assert (Hu : forall gid', unplaced gid' (w <| heap := <[gid := g]> w.(heap) |>) = true ->
    unplaced gid' w = true).
  { intros gid'. unfold unplaced. cbn. destruct (decide (gid = gid')) as [<-|Hne].
    - by rewrite Hg.
    - by rewrite lookup_insert_ne. }
  split; [| |done|].
  - intros gid' h Hh. cbn. rewrite lookup_insert_ne by congruence. exists h. split; [done|reflexivity].
  - intros gid' h. cbn. rewrite lookup_insert. case_decide; congruence.
  - intros gid' role _. apply legs_unsent; [done|]. unfold leg_rights. cbn.
    match goal with |- (_ + (if ?b then _ else _) <= _)%nat => destruct b eqn:E end;
      [|destruct (unplaced gid' w); lia].
    rewrite Hu by done. lia.
Qed.

Lemma evolves_register (w w' : World) gid g ts :
  w.(heap) !! gid = None -> g.(Group.GroupID) = gid -> w'.(heap) = <[gid := g]> w.(heap) ->
  w'.(requests) = w.(requests) -> w'.(tasks) = w.(tasks) ++ ts ->
  Forall (fun t => forall gid', is_leg_place gid' t = false) ts -> evolves w w'.
Proof.
  intros Hn Hid Hh Hr Ht F. etrans; [by apply (evolves_new w gid g)|].
  apply (evolves_frame _ _ [] ts); cbn; rewrite ?app_nil_r; try done.
  intros gid'. by eapply Forall_impl; [exact F|].
Qed.

Lemma evolves_same (w w' : World) :
  w'.(heap) = w.(heap) -> w'.(requests) = w.(requests) -> w'.(tasks) = w.(tasks) -> evolves w w'.
Proof.
  intros Hh Hr Ht. apply (evolves_frame _ _ [] []); rewrite ?app_nil_r; try done; by constructor.
Qed.

Lemma modifyOrder_evolves o a (w w' : World) r :
  modifyOrder o a w = Some (r, w') -> evolves w w' /\ w'.(heap) = w.(heap).
Proof.
  intros (au & _ & _ & Q)%modifyOrder_inv. split; [|by destruct Q].
  eapply quiet_evolves; [|exact Q]. by intros ? ? ? _ [? ->].
Qed.

Lemma repoCall_evolves {A} (f : D -> D * A) (w w' : World) r :
  repoCall f w = Some (r, w') -> evolves w w' /\ w'.(heap) = w.(heap).
Proof.
  intros E. apply (quiet_repoCall (fun _ => False)) in E. split; [by apply nothing_evolves|by destruct E].
Qed.

Lemma refreshAuth_evolves u a (w w' : World) r :
  refreshAuth u a w = Some (r, w') -> evolves w w' /\ w'.(heap) = w.(heap).
Proof.
  intros E. apply (quiet_refreshAuth (fun _ => False)) in E.
  split; [by apply nothing_evolves|by destruct E].
Qed.

(** [trip gid g m Q]: from any world where [gid] is the group [g], a run of [m]
    evolves the groups and ends with a result and a group that satisfy [Q]. *)
Definition trip {A} (gid : uuid) (g : Group.t) (m : Go World A) (Q : A -> Group.t -> Prop) : Prop :=
  forall w a w', w.(heap) !! gid = Some g -> m w = Some (a, w') ->
  evolves w w' /\ exists g2, w'.(heap) !! gid = Some g2 /\ Q a g2.

Lemma trip_bind {A A'} gid g (m : Go World A) (k : A -> Go World A') P Q :
  trip gid g m P -> (forall a g2, P a g2 -> trip gid g2 (k a) Q) -> trip gid g (m ≫= k) Q.
Proof.
  intros Hm Hk w b w' Hg E. apply go_bind_inv in E as (a & w1 & E1 & E2).
  destruct (Hm _ _ _ Hg E1) as (V1 & g1 & Hg1 & HP).
  destruct (Hk _ _ HP _ _ _ Hg1 E2) as (V2 & H2). split; [by etrans|done].
Qed.

Lemma trip_ret {A} gid g (a : A) (Q : A -> Group.t -> Prop) : Q a g -> trip gid g (mret a) Q.
Proof. intros HQ w b w' Hg E. go_inv. split; [reflexivity|eauto]. Qed.

Lemma trip_panic {A} gid g (Q : A -> Group.t -> Prop) : trip gid g panic Q.
Proof. by intros w b w'. Qed.

Lemma trip_weaken {A} gid g (m : Go World A) (P Q : A -> Group.t -> Prop) :
  trip gid g m P -> (forall a g2, P a g2 -> Q a g2) -> trip gid g m Q.
Proof.
  intros Hm HPQ w a w' Hg E. destruct (Hm _ _ _ Hg E) as (V & g2 & Hg2 & HP). eauto 6.
Qed.

Lemma trip_getGroup gid g : trip gid g (getGroup gid) (fun a g2 => a = g /\ g2 = g).
Proof. intros w a w' Hg E. go_inv. simplify_eq. split; [reflexivity|eauto]. Qed.

Lemma trip_set gid g g' :
  same_identity g g' ->
  (g'.(Group.State) = StatePendingEntry -> g.(Group.State) = StatePendingEntry) ->
  trip gid g (setGroup gid g') (fun _ g2 => g2 = g').
Proof.
  intros Hi Hs w a w' Hg E. go_inv. split; [by eapply evolves_set|].
  exists g'. cbn. by rewrite lookup_insert_eq.
Qed.

(** A command that leaves the heap alone. *)
Definition steady {A} (m : Go World A) : Prop :=
  forall w a w', m w = Some (a, w') -> evolves w w' /\ w'.(heap) = w.(heap).

Lemma trip_steady {A} gid g (m : Go World A) : steady m -> trip gid g m (fun _ g2 => g2 = g).
Proof. intros Hm w a w' Hg E. destruct (Hm _ _ _ E) as [V ->]. eauto. Qed.

Lemma steady_quiet {A} P (m : Go World A) :
  go_post m (fun w _ w' => quiet P w w') ->
  (forall r gid role, role <> role_string RoleEntry -> P r -> places_leg gid role r = false) ->
  steady m.
Proof.
  intros Hm HP w a w' E. apply Hm in E. split; [by eapply quiet_evolves|by destruct E].
Qed.

Lemma steady_modifyOrder o a : steady (modifyOrder o a).
Proof. intros w r w'. apply modifyOrder_evolves. Qed.

Lemma steady_repoCall {A} (f : D -> D * A) : steady (repoCall f).
Proof. intros w r w'. apply repoCall_evolves. Qed.

Lemma steady_refreshAuth u a : steady (refreshAuth u a).
Proof. intros w r w'. apply refreshAuth_evolves. Qed.

Lemma steady_broadcast u e o : steady (broadcast u e o).
Proof. apply (steady_quiet (fun _ => False)); [apply quiet_broadcast|done]. Qed.

Lemma steady_spawn t : (forall gid, is_leg_place gid t = false) -> steady (spawn t).
Proof. intros Ht w r w' E. go_inv. split; [by apply evolves_spawn|done]. Qed.

Lemma steady_modify (f : World -> World) :
  (forall w, (f w).(heap) = w.(heap) /\ (f w).(requests) = w.(requests) /\ (f w).(tasks) = w.(tasks)) ->
  steady (modify f).
Proof. intros Hf w r w' E. go_inv. destruct (Hf w) as (? & ? & ?). split; [by apply evolves_same|done]. Qed.

Lemma steady_ret {A} (a : A) : steady (mret a).
Proof. intros w r w' E. go_inv. split; [reflexivity|done]. Qed.

Lemma steady_gets {A} (f : World -> A) : steady (gets f).
Proof. intros w r w' E. go_inv. split; [reflexivity|done]. Qed.

Lemma steady_panic {A} : steady (A:=A) panic.
Proof. by intros w r w'. Qed.

Lemma steady_getGroup gid : steady (getGroup gid).
Proof. intros w r w' E. go_inv. split; [reflexivity|done]. Qed.

Lemma steady_bind {A A'} (m : Go World A) (k : A -> Go World A') :
  steady m -> (forall a, steady (k a)) -> steady (m ≫= k).
Proof.
  intros Hm Hk w b w' HE. apply go_bind_inv in HE as (a & w1 & E1 & E2).
  destruct (Hm _ _ _ E1) as [V1 H1], (Hk _ _ _ _ E2) as [V2 H2]. split; [by etrans|congruence].
Qed.

Lemma steady_cancelAttempts n g id : steady (cancelAttempts n g id).
Proof.
  intros w [] w' E. apply cancelAttempts_inv in E as [Q _].
  split; [by eapply cancels_evolves|by destruct Q].
Qed.

Lemma steady_dbUpdateAttempts n now o : steady (dbUpdateAttempts n now o).
Proof. apply (steady_quiet (fun _ => False)); [apply quiet_dbUpdateAttempts|done]. Qed.

Lemma steady_storeIndex id gid : steady (storeIndex id gid).
Proof. by apply steady_modify. Qed.

Lemma steady_applyEffect gid e : is_place e = false -> steady (applyEffect gid e).
Proof.
  intros He. destruct e; cbn in *; try done.
  - by apply steady_spawn.
  - by apply steady_spawn.
  - by apply steady_modify.
  - apply steady_storeIndex.
  - by apply steady_spawn.
  - apply steady_bind; [apply steady_getGroup|]. intros g. apply steady_broadcast.
Qed.

Lemma steady_applyEffects gid es : existsb is_place es = false -> steady (applyEffects gid es).
Proof.
  unfold applyEffects. induction es as [|e es IH]; cbn; intros He; [apply steady_ret|].
  bool_to_prop. apply steady_bind; [by apply steady_applyEffect|auto].
Qed.

Lemma trip_evolves {A} gid g (m : Go World A) Q (w w' : World) a :
  trip gid g m Q -> w.(heap) !! gid = Some g -> m w = Some (a, w') -> evolves w w'.
Proof. intros Hm Hg E. by destruct (Hm _ _ _ Hg E). Qed.

End Evolution.

#[export] Hint Resolve steady_modifyOrder steady_repoCall steady_refreshAuth steady_broadcast
  steady_ret steady_gets steady_panic steady_getGroup steady_cancelAttempts
  steady_dbUpdateAttempts steady_storeIndex : steady.
#[export] Hint Extern 1 (steady (spawn _)) => (apply steady_spawn; done) : steady.
#[export] Hint Extern 1 (steady (modify _)) => (apply steady_modify; done) : steady.
#[export] Hint Extern 1 (steady (repoUpdate _ _)) => apply steady_repoCall : steady.
#[export] Hint Extern 1 (steady (repoCreate _)) => apply steady_repoCall : steady.
#[export] Hint Extern 1 (steady (dbUpdateAsync _)) => (apply steady_spawn; done) : steady.

(** Prove [steady] and [trip] goals by the shape of the command. *)
Ltac steady_go :=
  repeat first
    [ solve [auto with steady]
    | apply steady_bind; [|intros ?]
    | case_match ].

Ltac trip_go :=
  repeat first
    [ apply trip_ret; solve [done | auto]
    | apply trip_panic
    | eapply trip_bind; [apply trip_getGroup|intros ? ? [-> ->]]
    | eapply trip_bind; [apply trip_set; [done|done]|intros ? ? ->]
    | eapply trip_weaken; [apply trip_set; [done|done]|done]
    | eapply trip_weaken; [apply trip_steady; solve [steady_go]|done]
    | eapply trip_bind; [apply trip_steady; solve [steady_go]|intros ? ? ->]
    | case_match ].

Section Operations.

Context {B C D : Type} {HB : BrokerClient B} {HC : CredentialsRefresher C}
  {HD : OrderRepository D}.

Abbreviation World := (World B C D).
Abbreviation any := (fun _ _ => True).

Lemma ModifySLLeg_trip now gid t l h g : trip gid g (ModifySLLeg (B:=B) (C:=C) (D:=D) now gid t l h) any.
Proof.
  unfold ModifySLLeg. eapply trip_bind; [apply trip_getGroup|intros ? ? [-> ->]].
  case_match eqn:Ec; [trip_go|]. eapply trip_bind; [apply trip_steady; steady_go|intros err ? ->].
  eapply (trip_bind _ _ _ _ (fun p g2 => p.1 = g2 /\ g2.(Group.State) = g.(Group.State) /\ same_identity g g2)).
  - trip_go; split; done.
  - intros [g1 err'] g2 [<- [Hs Hi]]. cbn in Hs, Hi. destruct err'; [trip_go|].
    eapply trip_bind; [apply trip_set; [done|done]|]. intros ? ? ->. trip_go.
Qed.

Lemma startPartialFillTimer_trip gid g : trip gid g (startPartialFillTimer (B:=B) (C:=C) (D:=D) gid) any.
Proof. unfold startPartialFillTimer. trip_go. Qed.

Lemma timerFired_trip gid e g : trip gid g (timerFired (B:=B) (C:=C) (D:=D) gid e) any.
Proof. unfold timerFired. trip_go. Qed.

Lemma steady_cancelEntryRemaining gid : steady (cancelEntryRemaining (B:=B) (C:=C) (D:=D) gid).
Proof. unfold cancelEntryRemaining. steady_go. Qed.

Lemma steady_modifyLegsQty gid q : steady (modifyLegsQty (B:=B) (C:=C) (D:=D) gid q).
Proof. unfold modifyLegsQty, modifyLeg. steady_go. Qed.

Lemma steady_cancelLeg gid id : steady (cancelLeg (B:=B) (C:=C) (D:=D) gid id).
Proof. unfold cancelLeg. steady_go. Qed.

Lemma cancelLegDone_trip now gid g : trip gid g (cancelLegDone (B:=B) (C:=C) (D:=D) now gid) any.
Proof. unfold cancelLegDone. trip_go. Qed.

Lemma steady_cleanup gid : steady (cleanup (B:=B) (C:=C) (D:=D) gid).
Proof. unfold cleanup. steady_go. Qed.

Lemma afterLegs_trip gid g : trip gid g (afterLegs (B:=B) (C:=C) (D:=D) gid) any.
Proof. unfold afterLegs. trip_go. Qed.

Lemma evaluateTrailing_trip gid ltp g : trip gid g (evaluateTrailing (B:=B) (C:=C) (D:=D) gid ltp) any.
Proof. unfold evaluateTrailing. trip_go. Qed.

Lemma finish_ok now slO tpO slR tpR g :
  let r := placeOCOLegs_finish now slO tpO slR tpR g in
  same_identity g r.1 /\ r.1.(Group.State) <> StatePendingEntry /\ existsb is_place r.2 = false.
Proof.
  cbn zeta. unfold placeOCOLegs_finish, register_sl, register_tp, checkLegsConfirmed.
  repeat (case_match; simplify_eq/=); done.
Qed.

Lemma finishLegs_trip now gid slO tpO slR tpR partial g :
  trip gid g (finishLegs (B:=B) (C:=C) (D:=D) now gid slO tpO slR tpR partial) any.
Proof.
  unfold finishLegs. eapply trip_bind; [apply trip_getGroup|intros ? ? [-> ->]].
  pose proof (finish_ok now slO tpO slR tpR g) as Hf. cbn zeta in Hf.
  destruct (placeOCOLegs_finish _ _ _ _ _ _) as [g' eff]. destruct Hf as (Hi & Hs & He).
  eapply trip_bind; [by apply trip_set|intros ? ? ->].
  eapply trip_bind; [by apply trip_steady, steady_applyEffects|intros ? ? ->]. trip_go.
Qed.

Lemma CancelGroup_evolves now gid (w w' : World) r :
  CancelGroup now gid w = Some (r, w') -> evolves w w'.
Proof.
  intros E. unfold CancelGroup in E. go_inv. case_match; go_inv; [reflexivity|].
  match goal with E : (if _ then _ else _) ?x = Some _, Hg : heap ?x !! _ = Some ?g |- _ =>
    eapply (trip_evolves gid g _ any); [|exact Hg|exact E] end.
  case_match; [trip_go|]. eapply trip_bind; [by apply trip_set|intros ? ? ->].
  eapply trip_bind; [apply trip_steady, steady_applyEffects|intros ? ? ->; trip_go].
  unfold cancel_effects. rewrite existsb_app. repeat case_match; done.
Qed.

(** A placement in the effects is a leg placement of this group, and costs the
    pending state. *)
Lemma route_evolves now id gid o s g (w w' : World) :
  w.(heap) !! gid = Some g ->
  (_ ← setGroup gid (routeBrokerUpdate now id g o s).1;
   applyEffects gid (routeBrokerUpdate now id g o s).2) w = Some (tt, w') ->
  evolves w w'.
Proof.
  intros Hg. pose proof (routeBrokerUpdate_ok now id g o s) as (Hi & _ & Hp & Hs).
  destruct (routeBrokerUpdate now id g o s) as [g' eff]. cbn in *.
  destruct (existsb is_place eff) eqn:He.
  2:{ apply (trip_evolves gid g _ any); [|done]. eapply trip_bind; [by apply trip_set|intros ? ? ->].
      eapply trip_weaken; [by apply trip_steady, steady_applyEffects|done]. }
  destruct (Hp eq_refl) as (Hpend & Hpl & Hlen). destruct eff as [|e [|]]; try done.
  cbn in He. rewrite orb_false_r in He. destruct e; try done. unfold applyEffects. cbn. intros E. go_inv. cbn in *.
  split.
  - intros gid' h Hh. cbn. destruct (decide (gid = gid')) as [<-|Hne].
    + rewrite lookup_insert_eq. exists g'. split; [done|]. by simplify_eq.
    + rewrite lookup_insert_ne by done. exists h. split; [done|reflexivity].
  - intros gid' h. cbn. rewrite lookup_insert. case_decide; congruence.
  - intros gid' Hu. eapply (unplaced_set w gid g g'); [done|congruence|exact Hu].
  - intros gid' role _. apply legs_unsent; [done|]. unfold leg_rights, unplaced. cbn. rewrite count_app.
    destruct (decide (gid = gid')) as [<-|Hne].
    + rewrite lookup_insert_eq, Hg. unfold count at 2. cbn. unfold is_state. rewrite Hpl, Hpend.
      repeat case_bool_decide; cbn; try lia; congruence.
    + rewrite lookup_insert_ne by done. unfold count at 2. cbn.
      rewrite bool_decide_false by done. cbn. lia.
Qed.

Lemma HandleBrokerUpdate_evolves now o s (w w' : World) :
  HandleBrokerUpdate now o s w = Some (tt, w') -> evolves w w'.
Proof.
  unfold HandleBrokerUpdate. intros E. destruct o as [o|]; [|go_inv; reflexivity].
  destruct (Order.IndiraOrderID o) as [id|]; [|go_inv; reflexivity].
  go_inv. case_match; go_inv; [|reflexivity]. case_match; go_inv; [|reflexivity].
  destruct (routeBrokerUpdate _ _ _ _ _) as [g' eff] eqn:Er.
  eapply route_evolves; [eassumption|]. by rewrite Er.
Qed.

Lemma cancelSelected_evolves now p (w w' : World) :
  cancelSelected now p w = Some (tt, w') -> evolves w w'.
Proof.
  unfold cancelSelected. intros E. go_inv.
  match goal with E : forM _ _ _ = _ |- _ => revert E end. apply (go_post_forM evolves). intros gid.
  apply (go_post_bind evolves); [|intros ?; by apply go_post_ret].
  intros w1 r w2. apply CancelGroup_evolves.
Qed.

Lemma CreateOCOEntry_evolves now gid eid r (w w' : World) res :
  w.(heap) !! gid = None -> CreateOCOEntry now gid eid r w = Some (res, w') -> evolves w w'.
Proof.
  unfold CreateOCOEntry. intros Hn E. destruct (reqAuth r) as [auth|]; [|done]. go_inv.
  match goal with E : repoCreate _ _ = Some (?e, _) |- _ =>
    rename e into err; apply steady_repoCall in E as [V1 H1] end.
  destruct err; go_inv; [done|].
  match goal with E : placeEntry _ _ _ _ _ _ = Some (?x, ?y, ?z, _) |- _ =>
    rename x into res0, y into eo; apply placeEntry_inv in E as (Q & K & _) end.
  pose proof (quiet_heap _ _ _ Q) as H2. apply entry_evolves in Q.
  destruct res0 as [e|bid]; go_inv.
  - match goal with E : repoUpdate _ _ _ = _ |- _ => apply steady_repoCall in E as [V3 _] end.
    by do 2 (etrans; [eassumption|]).
  - match goal with E : repoUpdate _ _ ?x = _ |- _ =>
      apply steady_repoCall in E as [V3 _] end.
    match goal with E : broadcast _ _ _ _ = _ |- _ => apply steady_broadcast in E as [V4 _] end.
    etrans; [exact V1|]. etrans; [exact Q|].
    etrans; [|etrans; [exact V3|exact V4]].
    eapply (evolves_register _ _ gid _ []); [by rewrite H2, H1| |reflexivity|reflexivity| |];
      [done|by rewrite app_nil_r|by constructor].
Qed.

Lemma AdoptOrder_evolves now gid o slp tpp tr trp auth (w w' : World) res :
  w.(heap) !! gid = None -> AdoptOrder now gid o slp tpp tr trp auth w = Some (res, w') ->
  evolves w w'.
Proof.
  unfold AdoptOrder. intros Hn E. case_match; go_inv; [reflexivity|].
  eapply (evolves_register w _ gid); [exact Hn| |reflexivity|reflexivity|reflexivity|]; [done|].
  by repeat constructor.
Qed.

(** A run of one leg sends placements of this leg, and of no other. *)
Lemma leg_run_sent gid role rs gid' role' :
  leg_run gid role rs ->
  List.filter (places_leg gid' role') rs = if bool_decide (gid = gid' /\ role = role') then rs else [].
Proof.
  intros [_ _ [id F]]. case_bool_decide as Heq.
  - destruct Heq as [<- <-]. apply legs_filter_all. eapply Forall_impl; [exact F|]. cbn.
    intros r (o & a & p & -> & [= K1 K2 _]). cbn. rewrite K1, K2, !bool_decide_true by done. done.
  - apply legs_filter_none. eapply Forall_impl; [exact F|]. cbn.
    intros r (o & a & p & -> & [= K1 K2 _]). cbn. rewrite K1, K2. apply andb_false_iff.
    destruct (decide (gid = gid')) as [->|]; [right|left]; apply bool_decide_eq_false; naive_solver.
Qed.

Lemma leg_run_nil gid role : leg_run gid role [].
Proof. split; [cbn; lia|by intros [|? ?] *|by exists 0%N]. Qed.

Lemma count_zero_none {A} (p : A -> bool) l1 x l2 :
  count p (l1 ++ x :: l2) = 0%nat -> p x = false.
Proof. rewrite count_app. unfold count. cbn. destruct (p x); cbn; [lia|done]. Qed.

Lemma accepted_last_count rs : accepted_last rs -> (count accepted rs <= 1)%nat.
Proof.
  induction rs as [|r rs IH]; intros HA; [unfold count; cbn; lia|].
  unfold count in *. cbn. destruct (accepted r) eqn:E; cbn.
  - by rewrite (HA [] r rs eq_refl E).
  - apply IH. intros rs1 q rs2 -> Hq. by apply (HA (r :: rs1) q rs2).
Qed.

(** What the retry loop says of its answers, as a fact on the requests. *)
Lemma attempts_accepted_last (r : string + string) rs :
  match r with
  | inl _ => count accepted rs = 0%nat
  | inr id => exists rs' o'' a, rs = rs' ++ [RPlace o'' a (inr id)] /\ count accepted rs' = 0%nat
  end -> accepted_last rs.
Proof.
  intros A rs1 q rs2 -> Hq. destruct r as [e|id]; [apply count_zero_none in A; congruence|].
  destruct A as (rs' & o & a & E & A).
  destruct rs2 as [|y rs3 _] using rev_ind; [done|].
  rewrite app_comm_cons, app_assoc in E. apply app_inj_tail in E as [<- _].
  apply count_zero_none in A. congruence.
Qed.

Lemma placeLeg_inv now g o name (w w' : World) r o' gid role :
  placeLeg now g o name w = Some ((r, o'), w') ->
  (forall x, o = Some x -> x.(Order.OCOGroupID) = Some gid /\ x.(Order.OCORole) = Some role) ->
  w'.(heap) = w.(heap) /\ w'.(tasks) = w.(tasks) /\
  exists rs, w'.(requests) = w.(requests) ++ rs /\ leg_run gid role rs.
Proof.
  unfold placeLeg. intros E Hk. destruct o as [x|].
  2:{ go_inv. do 2 (split; [done|]). exists []. split; [by rewrite app_nil_r|apply leg_run_nil]. }
  destruct (Group.Auth g); go_inv. destruct (Hk x eq_refl) as [K1 K2].
  match goal with E : placeLegWithRetry _ _ _ _ _ = _ |- _ =>
    apply placeLegAttempts_inv in E as (Q & _ & rs & R & L & _ & A) end.
  destruct Q as [Qh _ _ Qt _ (rs' & R' & F)]. split; [done|]. split; [done|].
  rewrite R in R'. apply (inj (app _)) in R' as <-. exists rs. split; [done|].
  split; [exact L|by eapply attempts_accepted_last|].
  exists (Order.OrderID x). unfold order_key in F. by rewrite K1, K2 in F.
Qed.

Lemma steady_createLegs b slO tpO : steady (createLegs (B:=B) (C:=C) (D:=D) b slO tpO).
Proof. unfold createLegs. steady_go. Qed.

Lemma two_legs_inv now g gid o1 n1 p1 role1 o2 n2 p2 role2 (w w1 w2 : World) :
  placeLeg now g o1 n1 w = Some (p1, w1) -> placeLeg now g o2 n2 w1 = Some (p2, w2) ->
  (forall x, o1 = Some x -> x.(Order.OCOGroupID) = Some gid /\ x.(Order.OCORole) = Some role1) ->
  (forall x, o2 = Some x -> x.(Order.OCOGroupID) = Some gid /\ x.(Order.OCORole) = Some role2) ->
  w2.(heap) = w.(heap) /\ w2.(tasks) = w.(tasks) /\
  exists rs1 rs2, w2.(requests) = w.(requests) ++ rs1 ++ rs2 /\
    leg_run gid role1 rs1 /\ leg_run gid role2 rs2.
Proof.
  destruct p1 as [r1 o1'], p2 as [r2 o2']. intros E1 E2 K1 K2.
  destruct (placeLeg_inv _ _ _ _ _ _ _ _ _ _ E1 K1) as (H1 & T1 & rs1 & R1 & L1).
  destruct (placeLeg_inv _ _ _ _ _ _ _ _ _ _ E2 K2) as (H2 & T2 & rs2 & R2 & L2).
  split; [congruence|]. split; [congruence|]. exists rs1, rs2.
  by rewrite R2, R1, <- app_assoc.
Qed.

(** The two runs of a placement, one per role, take one right of their group. *)
Lemma place_legs (w w' : World) gid ts rs1 rs2 role1 role2 :
  w'.(heap) = w.(heap) -> w'.(requests) = w.(requests) ++ rs1 ++ rs2 ->
  w'.(tasks) = w.(tasks) ++ ts -> (forall g, Forall (fun t => is_leg_place g t = false) ts) ->
  leg_run gid role1 rs1 -> leg_run gid role2 rs2 -> role1 <> role2 ->
  (forall gid' g, w.(heap) !! gid' = Some g ->
     exists g', w'.(heap) !! gid' = Some g' /\ same_identity g g') /\
  (forall gid', unplaced gid' w' = unplaced gid' w) /\
  forall gid' role, leg_rights gid' w' = leg_rights gid' w /\
    exists runs, legs_sent gid' role w' = legs_sent gid' role w ++ concat runs /\
      Forall (leg_run gid' role) runs /\ (length runs <= if bool_decide (gid = gid') then 1 else 0)%nat.
Proof.
  intros Hh Hr Ht Ft L1 L2 Hne. split; [|split; [|intros gid' role; split]].
  - intros gid' g Hg. exists g. rewrite Hh. split; [done|reflexivity].
  - intros gid'. unfold unplaced. by rewrite Hh.
  - unfold leg_rights, unplaced. rewrite Hh, Ht, count_app, (count_none _ ts) by apply Ft. lia.
  - unfold legs_sent. rewrite Hr, !List.filter_app.
    rewrite (leg_run_sent _ _ _ gid' role L1), (leg_run_sent _ _ _ gid' role L2).
    destruct (decide (gid = gid')) as [<-|Hg].
    + rewrite (bool_decide_true (gid = gid)) by done.
      destruct (decide (role1 = role)) as [<-|H1]; [|destruct (decide (role2 = role)) as [<-|H2]].
      * exists [rs1]. rewrite bool_decide_true, bool_decide_false by naive_solver. cbn.
        split; [done|]. split; [by apply Forall_singleton|lia].
      * exists [rs2]. rewrite bool_decide_false, bool_decide_true by naive_solver. cbn.
        rewrite app_nil_r. split; [done|]. split; [by apply Forall_singleton|lia].
      * exists []. rewrite !bool_decide_false by naive_solver. cbn. repeat constructor.
    + exists []. rewrite !bool_decide_false by naive_solver. cbn. repeat constructor.
Qed.

Lemma prepare_keeps now a b g :
  match placeOCOLegs_prepare now a b g with
  | PAbort g' => same_identity g g' /\ g'.(Group.State) = StateFailed
  | PCrash => True
  | PLegs g' sl tp => same_identity g g' /\ g'.(Group.State) = g.(Group.State) /\
      (forall o, sl = Some o -> o.(Order.OCOGroupID) = Some g.(Group.GroupID) /\
                                o.(Order.OCORole) = Some (role_string RoleSLLeg)) /\
      (forall o, tp = Some o -> o.(Order.OCOGroupID) = Some g.(Group.GroupID) /\
                                o.(Order.OCORole) = Some (role_string RoleTPLeg))
  end.
Proof.
  pose proof (prepare_cases now a b g) as H. cbn zeta in H.
  destruct (CalculateSLFromFill _ _) as [t l].
  destruct (placeOCOLegs_prepare now a b g) as [g'| |g' sl tp] eqn:E; [|done|].
  - destruct H as [_ ->]. done.
  - pose proof E as E2. pose proof (prepared_sl_leg now a b g g') as Hs.
    pose proof (prepared_tp_leg now a b g g') as Ht. destruct H as (_ & g1 & H1 & H2).
    apply prepare_sl_spec in H1. apply prepare_tp_spec in H2.
    assert (Hk : same_identity g g' /\ Group.State g' = Group.State g).
    { destruct sl; [destruct H1 as (_ & -> & _)|destruct H1 as (_ & ->)];
        (destruct tp; [destruct H2 as (_ & -> & _)|destruct H2 as (_ & ->)]); done. }
    split; [apply Hk|]. split; [apply Hk|]. split; intros o ->.
    + specialize (Hs o tp E). destruct (CalculateSLFromFill _ _) as [t' l'].
      destruct Hs as (_ & Hl & _). unfold leg_order in Hl. tauto.
    + destruct (Ht sl o E) as (_ & Hl & _). unfold leg_order in Hl. tauto.
Qed.

(** The goroutine that places the legs, taken off the list of tasks. *)
Lemma placeOCOLegs_evolves now a b first gid partial (w w' : World) g ts1 ts2 :
  w.(tasks) = ts1 ++ TPlaceLegs gid partial :: ts2 ->
  w.(heap) !! gid = Some g -> g.(Group.GroupID) = gid ->
  placeOCOLegs now a b first gid partial (w <| tasks := ts1 ++ ts2 |>) = Some (tt, w') ->
  evolves w w'.
Proof.
  intros Ht Hg Hid E. set (w0 := w <| tasks := ts1 ++ ts2 |>) in *.
  assert (Hb : forall gid', leg_rights gid' w =
    (leg_rights gid' w0 + if bool_decide (gid = gid') then 1 else 0)%nat).
  { intros gid'. unfold leg_rights, unplaced. subst w0. cbn. rewrite Ht, !count_app.
    unfold count at 2. cbn. case_bool_decide; cbn; unfold count; lia. }
  assert (Hdrop : evolves w0 w' -> evolves w w').
  { intros [E1 E2 E3 E4]. split; [exact E1|exact E2|exact E3|]. intros gid' role Hr.
    destruct (E4 gid' role Hr) as (runs & ? & ? & N). exists runs. rewrite Hb.
    do 2 (split; [done|]). etrans; [exact N|apply Nat.le_add_r]. }
  unfold placeOCOLegs in E. apply go_bind_inv in E as (x & w1 & E1 & E).
  apply getGroup_inv in E1 as [-> Hx]. assert (x = g) by (cbn in *; congruence). subst x.
  pose proof (prepare_keeps now a b g) as Hp.
  destruct (placeOCOLegs_prepare now a b g) as [g'| |g' sl tp]; [|done|].
  { apply Hdrop. destruct Hp as [Hi Hs]. eapply (trip_evolves gid g _ any); [|done|exact E].
    eapply trip_bind; [apply trip_set; [done|congruence]|intros ? ? ->]. trip_go. }
  destruct Hp as (Hi & Hs & Hsl & Htp). rewrite Hid in Hsl, Htp.
  apply go_bind_inv in E as ([] & wA & EA & E). apply go_bind_inv in E as ([] & wB & EB & E).
  assert (VA : evolves w0 wB).
  { eapply (trip_evolves gid g (setGroup gid g' ;; createLegs first sl tp) any); [|done|].
    - eapply trip_bind; [apply trip_set; [done|congruence]|intros ? ? ->].
      eapply trip_weaken; [apply trip_steady, steady_createLegs|done].
    - unfold mbind, go_bind. by rewrite EA. }
  assert (Hend : exists rs1 rs2 ts, w'.(heap) = wB.(heap) /\
    w'.(requests) = wB.(requests) ++ rs1 ++ rs2 /\ w'.(tasks) = wB.(tasks) ++ ts /\
    (forall g, Forall (fun t => is_leg_place g t = false) ts) /\
    exists r1 r2, leg_run gid r1 rs1 /\ leg_run gid r2 rs2 /\ r1 <> r2).
  { destruct first; apply go_bind_inv in E as ([r1 o1] & w1 & E1 & E);
      apply go_bind_inv in E as ([r2 o2] & w2 & E2 & E);
      unfold spawn, modify in E; injection E as <-; cbn.
    - destruct (two_legs_inv _ _ gid _ _ _ (role_string RoleSLLeg) _ _ _ (role_string RoleTPLeg)
        _ _ _ E1 E2 Hsl Htp) as (? & HT & rs1 & rs2 & ? & ? & ?).
      exists rs1, rs2, [TFinishLegs gid o1 o2 r1 r2 partial]. rewrite HT.
      repeat (split; [done || (intros; by repeat constructor)|]). eauto.
    - destruct (two_legs_inv _ _ gid _ _ _ (role_string RoleTPLeg) _ _ _ (role_string RoleSLLeg)
        _ _ _ E1 E2 Htp Hsl) as (? & HT & rs1 & rs2 & ? & ? & ?).
      exists rs1, rs2, [TFinishLegs gid o2 o1 r2 r1 partial]. rewrite HT.
      repeat (split; [done || (intros; by repeat constructor)|]). eauto. }
  destruct Hend as (rs1 & rs2 & ts & Hh & Hr & Htt & F & r1 & r2 & L1 & L2 & Hne).
  destruct (place_legs wB w' gid ts rs1 rs2 r1 r2) as (P1 & P2 & P3); try done.
  destruct VA as [V1 VN V2 V3]. split.
  - intros gid' h Hh'. destruct (V1 gid' h Hh') as (h1 & Hh1 & I1).
    destruct (P1 gid' h1 Hh1) as (h2 & Hh2 & I2). exists h2. split; [done|by etrans].
  - rewrite Hh. exact VN.
  - intros gid' Hu. rewrite P2 in Hu. by apply V2 in Hu.
  - intros gid' role Hrole. destruct (V3 gid' role Hrole) as (runs1 & E1 & F1 & N1).
    destruct (P3 gid' role) as (N2 & runs2 & E2 & F2 & N3). exists (runs1 ++ runs2).
    rewrite E2, E1, concat_app, app_assoc, length_app, Hb, N2. split; [done|].
    split; [by apply Forall_app|]. lia.
Qed.

(** Dropping a task that places nothing. *)
Lemma drop_evolves (w : World) ts1 t ts2 :
  w.(tasks) = ts1 ++ t :: ts2 -> (forall gid, is_leg_place gid t = false) ->
  evolves w (w <| tasks := ts1 ++ ts2 |>).
Proof.
  intros Ht Hn. split; [|cbn; congruence|done|].
  - intros gid g Hg. exists g. split; [done|reflexivity].
  - intros gid role _. apply legs_unsent; [done|]. unfold leg_rights. cbn. rewrite Ht, !count_app.
    assert (Hc : count (is_leg_place gid) (t :: ts2) = count (is_leg_place gid) ts2).
    { unfold count. cbn. by rewrite Hn. }
    rewrite Hc. unfold unplaced. cbn. lia.
Qed.

Definition ids_ok (w : World) : Prop :=
  forall gid g, w.(heap) !! gid = Some g -> g.(Group.GroupID) = gid.

Lemma runTask_evolves c t (w w' : World) ts1 ts2 :
  ids_ok w -> w.(tasks) = ts1 ++ t :: ts2 ->
  runTask c t (w <| tasks := ts1 ++ ts2 |>) = Some (tt, w') -> evolves w w'.
Proof.
  intros Hids Ht E. assert (Hdec : (exists gid partial, t = TPlaceLegs gid partial) \/
    (forall gid, is_leg_place gid t = false)).
  { destruct t; try (by right). left. eauto. }
  destruct Hdec as [(gid & p & ->)|Hd].
  { cbn in E. destruct (heap w !! gid) as [g|] eqn:Hg.
    - eapply placeOCOLegs_evolves; eauto.
    - unfold placeOCOLegs in E. apply go_bind_inv in E as (g & w1 & [_ Hg']%getGroup_inv & _).
      cbn in Hg'. congruence. }
  etrans; [by eapply drop_evolves|]. generalize dependent (w <| tasks := ts1 ++ ts2 |>).
  clear Ht Hids. intros w0 E. assert (Hget : forall gid (m : Go World unit),
    (forall g, trip gid g m any) -> (exists k, m = (getGroup gid ≫= k)) -> m w0 = Some (tt, w') ->
    evolves w0 w').
  { intros gid m Hm [k ->] Em. pose proof Em as Em'.
    apply go_bind_inv in Em' as (g & w1 & [-> Hg]%getGroup_inv & _).
    by eapply (trip_evolves gid g _ any). }
  assert (Hst : forall m : Go World unit, steady m -> m w0 = Some (tt, w') -> evolves w0 w').
  { intros m Hm Em. by apply Hm in Em as [? _]. }
  destruct t; cbn in E; try (specialize (Hd gid); cbn in Hd; by rewrite bool_decide_true in Hd).
  - eapply (Hget gid); [intros g; apply finishLegs_trip|by eexists|exact E].
  - eapply (Hget gid); [intros g; apply afterLegs_trip|by eexists|exact E].
  - eapply (Hget gid); [intros g; apply startPartialFillTimer_trip|by eexists|exact E].
  - unfold timerFired in E. destruct (flag c); cbn in E; [|go_inv; reflexivity].
    eapply (Hget gid); [intros g; apply (timerFired_trip gid true)|by eexists|exact E].
  - eapply Hst; [|exact E]. apply steady_bind; [apply steady_cancelEntryRemaining|intros ?; steady_go].
  - eapply Hst; [|exact E]. apply steady_modifyLegsQty.
  - eapply (Hget gid); [| |exact E]; [intros g; trip_go|by eexists].
  - eapply Hst; [|exact E]. apply steady_cancelLeg.
  - eapply (Hget gid); [intros g; apply cancelLegDone_trip|by eexists|exact E].
  - eapply Hst; [|exact E]. apply steady_cleanup.
  - eapply (Hst (dbUpdateAttempts dbRetryAttempts c.(now) order)); [|exact E].
    apply steady_dbUpdateAttempts.
  - eapply Hst; [|exact E]. steady_go.
  - go_inv. match goal with E : ModifySLLeg _ _ _ _ _ _ = _ |- _ => pose proof E as E' end.
    apply go_bind_inv in E' as (g & w1 & [-> Hg]%getGroup_inv & _).
    eapply (trip_evolves gid g _ any); [apply ModifySLLeg_trip|exact Hg|eassumption].
Qed.

Lemma runEvent_evolves c ev (w w' : World) :
  w.(heap) !! c.(id1) = None -> runEvent c ev w = Some (tt, w') -> evolves w w'.
Proof.
  intros Hf E. destruct ev; cbn in E.
  - by eapply HandleBrokerUpdate_evolves.
  - go_inv. by eapply CreateOCOEntry_evolves.
  - go_inv. by eapply AdoptOrder_evolves.
  - go_inv. by eapply CancelGroup_evolves.
  - by eapply cancelSelected_evolves.
  - by eapply cancelSelected_evolves.
  - by eapply cancelSelected_evolves.
  - pose proof E as E'. apply go_bind_inv in E' as (g & w1 & [-> Hg]%getGroup_inv & _).
    eapply (trip_evolves gid g _ any); [apply evaluateTrailing_trip|exact Hg|eassumption].
Qed.

Lemma step_evolves (w w' : World) : ids_ok w -> step w w' -> evolves w w'.
Proof.
  intros Hids Hst. destruct Hst as [c ev w' Hf E|c t ts1 ts2 w' Ht _ E];
    [by eapply runEvent_evolves|by eapply runTask_evolves].
Qed.

Lemma evolves_ids (w w' : World) : ids_ok w -> evolves w w' -> ids_ok w'.
Proof.
  intros Hids [V1 VN _ _] gid g' Hg'. destruct (heap w !! gid) as [g|] eqn:E; [|by eapply VN].
  destruct (V1 gid g E) as (g2 & Hg2 & I & _). simplify_eq. rewrite I. by apply Hids.
Qed.

(** From a world with consistent ids, any number of steps evolves it. *)
Lemma steps_evolve (w w' : World) : ids_ok w -> rtc step w w' -> ids_ok w' /\ evolves w w'.
Proof.
  intros Hids Hr. revert Hids. induction Hr as [w|w w1 w2 Hst _ IH]; intros Hids; [split; [done|reflexivity]|].
  pose proof (step_evolves _ _ Hids Hst) as V. destruct (IH (evolves_ids _ _ Hids V)) as [H1 H2].
  split; [done|by etrans].
Qed.

Lemma start_rights gid b c d : leg_rights (B:=B) (C:=C) (D:=D) gid (startWorld b c d) = 1%nat.
Proof. unfold leg_rights, unplaced, count. cbn. by rewrite lookup_empty. Qed.

Lemma start_ids_ok b c d : ids_ok (startWorld (B:=B) (C:=C) (D:=D) b c d).
Proof. intros gid g Hg. cbn in Hg. by rewrite lookup_empty in Hg. Qed.

End Operations.

(** ** A concrete run: an entry, its fill, both legs placed, the stop-loss fills *)

Abbreviation DemoWorld := (World Script (list AuthContext) OrdersTable).

Definition after {W} (m : Go W unit) (w : W) : W :=
  match m w with Some (_, w') => w' | None => w end.

Definition demo_start : DemoWorld :=
  startWorld (mkScript [inr "E1"; inl "HTTP error 401"; inr "S1"; inr "T1"] [] "9")
    (Some [mkAuth "U1" "app" "WEB" "token2"]) (mkTable ∅ []).

Definition demo_request : EntryRequest :=
  mkEntry "U1" "strat" 5%N 11536 "NSE" "TCS" "BUY" 10 (of_Z 100) (of_Z 2) (of_Z 4) true fzero
    (Some sample_auth).

Definition demo_fill (id : string) (price : Z) : Order.t :=
  Order.zero <| Order.IndiraOrderID := Some id |> <| Order.FilledPrice := Some (of_Z price) |>.

Definition demo_choice (t : Z) (a b : uuid) : Choice := mkChoice t a b true.

Definition demo_created : DemoWorld := after (runEvent (demo_choice 1 7 8) (EvCreate demo_request)) demo_start.

Definition demo_filled : DemoWorld :=
  after (runEvent (demo_choice 2 100 0) (EvBroker (Some (demo_fill "E1" 100)) "executed ")) demo_created.

Definition demo_placed : DemoWorld :=
  after (runTask (demo_choice 3 9 10) (TPlaceLegs 7 false)) (demo_filled <| tasks := [] |>).

Definition demo_finish : Task :=
  match demo_placed.(tasks) with t :: _ => t | [] => TCleanup 0 end.

Definition demo_active : DemoWorld :=
  after (runTask (demo_choice 4 0 0) demo_finish) (demo_placed <| tasks := [] |>).

Lemma demo_placed_reachable : rtc step demo_start demo_placed.
Proof.
  eapply rtc_l with demo_created.
  { apply step_event with (demo_choice 1 7 8) (EvCreate demo_request); vm_compute; reflexivity. }
  eapply rtc_l with demo_filled.
  { apply step_event with (demo_choice 2 100 0) (EvBroker (Some (demo_fill "E1" 100)) "executed ");
      vm_compute; reflexivity. }
  apply rtc_once.
  apply step_task with (demo_choice 3 9 10) (TPlaceLegs 7 false) [] []; vm_compute; reflexivity.
Qed.

Lemma demo_last_step : rtc step demo_placed demo_active.
Proof. apply rtc_once, step_task with (demo_choice 4 0 0) demo_finish [] []; vm_compute; reflexivity. Qed.

Lemma demo_reachable :
  reachable demo_start.(broker) demo_start.(credsCache) demo_start.(repo) demo_active.
Proof. change (rtc step demo_start demo_active). etrans; [exact demo_placed_reachable|exact demo_last_step]. Qed.

(** ** Properties *)

(** C1: in every reachable state of the manager, whatever the broker answers,
    whatever events arrive and however the goroutines interleave, it has sent at
    most three placements of a group's stop-loss leg and at most three of its
    take-profit leg, all of the same order, and none after the one the broker
    answered with an order id: so at most one is acknowledged. A placement that
    timed out is sent again though the broker may have taken it
    ([timed_out_leg_is_placed_twice]). *)
Theorem one_leg_run_per_role {B C D} `{BrokerClient B} `{CredentialsRefresher C}
    `{OrderRepository D} (b : B) (c : option C) (d : D) w gid role :
  reachable b c d w -> role <> RoleEntry ->
  let sent := List.filter (places_leg gid (role_string role)) w.(requests) in
  (length sent <= 3)%nat /\
  (exists id, Forall (places_order (Some gid, Some (role_string role), id)) sent) /\
  (forall rs1 r rs2, sent = rs1 ++ r :: rs2 -> accepted r = true -> rs2 = []) /\
  (count accepted sent <= 1)%nat.
Proof.
  intros Hr Hrole sent. destruct (steps_evolve _ _ (start_ids_ok b c d) Hr) as [_ [_ _ _ V]].
  assert (Hne : role_string role <> role_string RoleEntry) by (by destruct role).
  destruct (V gid _ Hne) as (runs & E & F & L). rewrite start_rights in L. cbn in E.
  assert (Hrun : leg_run gid (role_string role) sent).
  { unfold sent. unfold legs_sent in E. rewrite E. destruct runs as [|rs [|? ?]]; cbn in *;
      [apply leg_run_nil|rewrite app_nil_r; by destruct (Forall_cons_1 _ _ _ F)|lia]. }
  destruct Hrun as [R1 R2 R3]. split; [done|]. split; [done|]. split; [exact R2|].
  by apply accepted_last_count.
Qed.

Lemma one_leg_run_per_role_witness :
  count accepted (List.filter (places_leg 7 "SL_LEG") demo_active.(requests)) = 1%nat /\
  (length (List.filter (places_leg 7 "SL_LEG") demo_active.(requests)) <= 3)%nat.
Proof.
  split; [vm_compute; reflexivity|].
  by apply (one_leg_run_per_role demo_start.(broker) demo_start.(credsCache)
    demo_start.(repo) demo_active 7 RoleSLLeg demo_reachable).
Defined.

(** A broker with an order book: it takes every order; [slow] says of each
    placement whether the answer is lost to a timeout. *)
Record BookBroker : Type := mkBook { book : list Order.t; slow : list bool }.

#[export] Instance book_broker : BrokerClient BookBroker := {
  PlaceOrder := fun o _ b =>
    match b.(slow) with
    | true :: l => (mkBook (b.(book) ++ [o]) l, inl "context deadline exceeded")
    | _ => (mkBook (b.(book) ++ [o]) (tail b.(slow)), inr (pretty (S (length b.(book)))))
    end;
  CancelOrder := fun _ _ _ _ b => (b, None);
  ModifyOrder := fun _ _ b => (b, None)
}.

(** The retry of a leg does not look at the order book: when the answer to the
    stop-loss placement times out, the order is placed again, and the broker holds
    two stop-loss orders of the group for the whole quantity. *)
Example timed_out_leg_is_placed_twice :
  let w0 := startWorld (mkBook [] [false; true]) (Some [mkAuth "U1" "app" "WEB" "token2"]) (mkTable ∅ []) in
  let w1 := after (runEvent (demo_choice 1 7 8) (EvCreate demo_request)) w0 in
  let w2 := after (runEvent (demo_choice 2 100 0) (EvBroker (Some (demo_fill "1" 100)) "executed ")) w1 in
  let w3 := after (runTask (demo_choice 3 9 10) (TPlaceLegs 7 false)) (w2 <| tasks := [] |>) in
  map (fun o => (o.(Order.OCORole), o.(Order.Quantity))) w3.(broker).(book) =
    [(Some "ENTRY", 10); (Some "SL_LEG", 10); (Some "SL_LEG", 10); (Some "TP_LEG", 10)].
Proof. vm_compute. reflexivity. Qed.

(** Along any run no group disappears from memory, its identity, entry, side,
    quantity and percentages are fixed at creation, and a group that has left the
    pending state never returns to it. *)
Theorem group_identity_fixed {B C D} `{BrokerClient B} `{CredentialsRefresher C}
    `{OrderRepository D} (w w' : World B C D) gid g :
  ids_ok w -> rtc step w w' -> w.(heap) !! gid = Some g ->
  exists g', w'.(heap) !! gid = Some g' /\ same_identity g g' /\
    (g'.(Group.State) = StatePendingEntry -> g.(Group.State) = StatePendingEntry).
Proof.
  intros Hids Hr Hg. destruct (steps_evolve _ _ Hids Hr) as [_ [V1 _ V2 _]].
  destruct (V1 gid g Hg) as (g' & Hg' & Hi). exists g'. split; [done|]. split; [done|].
  specialize (V2 gid). unfold unplaced, is_state in V2. rewrite Hg, Hg' in V2. intros Hs.
  rewrite Hs in V2. rewrite bool_decide_true in V2 by done. by apply bool_decide_eq_true in V2.
Qed.

Lemma group_identity_fixed_witness :
  exists g', demo_active.(heap) !! 7%N = Some g' /\ g'.(Group.EntryBrokerID) = "E1".
Proof.
  destruct (group_identity_fixed demo_placed demo_active 7
    match demo_placed.(heap) !! 7%N with Some g => g | None => Group.zero end)
    as (g' & Hg' & Hi & _).
  - exact (proj1 (steps_evolve _ _ (start_ids_ok _ _ _) demo_placed_reachable)).
  - exact demo_last_step.
  - vm_compute. reflexivity.
  - exists g'. split; [exact Hg'|]. destruct Hi as (_ & _ & _ & E & _). rewrite E.
    vm_compute. reflexivity.
Defined.

(** C5: placing a leg asks the broker one to three times, always with the same
    order, stops at the first acceptance, whose order id it returns, and reports
    an error only when every attempt was refused. *)
Theorem leg_retry_bounded {B C D} `{BrokerClient B} `{CredentialsRefresher C}
    `{OrderRepository D} now o auth name (w w' : World B C D) r o' :
  placeLegWithRetry now o auth name w = Some ((r, o'), w') ->
  exists rs, w'.(requests) = w.(requests) ++ rs /\ (1 <= length rs <= 3)%nat /\
    Forall (places_order (order_key o)) rs /\ w'.(heap) = w.(heap) /\
    match r with
    | inl _ => count accepted rs = 0%nat
    | inr id => exists rs' o'' a, rs = rs' ++ [RPlace o'' a (inr id)] /\ count accepted rs' = 0%nat
    end.
Proof.
  intros (Q & _ & rs & R & L & N & A)%placeLegAttempts_inv. exists rs. split; [done|].
  destruct Q as [Qh _ _ _ _ (rs' & R' & F)]. rewrite R in R'. apply (inj (app _)) in R' as <-.
  split; [|done]. destruct rs; [by destruct N|unfold maxLegPlacementRetries in L; cbn in *; lia].
Qed.

Lemma leg_retry_bounded_witness :
  exists rs, length rs = 2%nat /\ count accepted rs = 1%nat.
Proof.
  pose (m := placeLegWithRetry 3 (sample_prepared.1.2) sample_auth "SL"
    (demo_start <| broker := mkScript [inl "HTTP error 401"; inr "S1"] [] "9" |>)).
  destruct (leg_retry_bounded 3 (sample_prepared.1.2) sample_auth "SL"
    (demo_start <| broker := mkScript [inl "HTTP error 401"; inr "S1"] [] "9" |>)
    (match m with Some (_, w) => w | None => demo_start end)
    (match m with Some (r, _, _) => r | None => inr "" end)
    (match m with Some (_, o, _) => o | None => Order.zero end)) as (rs & R & _).
  { vm_compute. reflexivity. }
  exists rs. cbn in R. vm_compute in R. subst rs. split; reflexivity.
Defined.
