(* ===== verification/OCOProperties.v ===== *)
(** * What the operations of the OCO manager do

    The functional behaviour of the exported operations, on success and on
    failure, and the behaviours of the code that its comments do not mention. *)

From stdpp Require Import base gmap strings list fin_maps fin_sets.
From Stdlib Require Import ZArith Lia.
From S2P Require Import Prelude GoFloat FloatRound FloatOrder Price GoStrings Orders OrderRepo.
From S2P Require Import OCOTypes Broker OCOHandlers OCOManager OCOInvariants.

Open Scope string_scope.
Open Scope list_scope.
Open Scope go_scope.

Section Operations.

Context {B C D : Type} {HB : BrokerClient B} {HC : CredentialsRefresher C}
  {HD : OrderRepository D}.

Abbreviation World := (World B C D).

(** The broker accepted a modification of the order to this trigger. *)
Definition accepted_modify (id : string) (trigger limit : f64) (r : Request) : Prop :=
  exists o a, r = RModify o a None /\ o.(Order.IndiraOrderID) = Some id /\
    o.(Order.StopLoss) = Some trigger /\ o.(Order.Price) = Some limit.

Lemma modifyOrder_run o a (w w' : World) e :
  modifyOrder o a w = Some (e, w') ->
  w'.(heap) = w.(heap) /\
  (e = None -> exists au, w'.(requests) = w.(requests) ++ [RModify o au None]).
Proof.
  intros (au & -> & R & Q)%modifyOrder_inv. split; [by destruct Q|]. intros ->. eauto.
Qed.

(** The retry of [ModifySLLeg] after an expired session, as one command. *)
Lemma modify_retry_run gid g o e (w w' : World) g1 e1 :
  w.(heap) !! gid = Some g ->
  (if isSessionExpiredError e then
     newAuth ← refreshAuth g.(Group.UserID) g.(Group.Auth);
     match newAuth with
     | Some a =>
         let group := g <| Group.Auth := Some a |> in
         _ ← setGroup gid group; err ← modifyOrder o (Some a); mret (group, err)
     | None => mret (g, Some e)
     end
   else mret (g, Some e)) w = Some ((g1, e1), w') ->
  w'.(heap) = <[gid := g1]> w.(heap) /\ g1 = (g <| Group.Auth := g1.(Group.Auth) |>) /\
  (e1 = None -> exists au rs, w'.(requests) = rs ++ [RModify o au None]).
Proof.
  intros Hg E. case_match; go_inv.
  2:{ rewrite insert_id by done. split; [done|].
      split; [match goal with |- ?x = _ => by destruct x end|done]. }
  match goal with E : refreshAuth _ _ _ = Some (?a, _) |- _ =>
    rename a into na; pose proof (steady_refreshAuth _ _ _ _ _ E) as [_ Qh] end.
  destruct na as [a|]; cbv zeta in *; go_inv.
  - match goal with E : modifyOrder _ _ _ = _ |- _ => apply modifyOrder_run in E as [Hh Hr] end.
    cbn in Hh. rewrite Hh, Qh. split; [done|]. split; [done|].
    intros He. destruct (Hr He) as [au ->]. eauto.
  - rewrite Qh, insert_id by done. split; [done|].
    split; [match goal with |- ?x = _ => by destruct x end|done].
Qed.

(** What [ModifySLLeg] does to the group, in both outcomes. *)
Lemma ModifySLLeg_run now gid t l h (w w' : World) r g :
  w.(heap) !! gid = Some g ->
  ModifySLLeg now gid t l h w = Some (r, w') ->
  exists g', w'.(heap) = <[gid := g']> w.(heap) /\
    match r with
    | Some _ => g' = (g <| Group.Auth := g'.(Group.Auth) |>)
    | None => g.(Group.State) = StateActive /\ g.(Group.SLBrokerID) <> "" /\
        Exists (accepted_modify g.(Group.SLBrokerID) t l) w'.(requests) /\
        g' = (g <| Group.Auth := g'.(Group.Auth) |> <| Group.SLTriggerPrice := t |>
                <| Group.SLLimitPrice := l |>
                <| Group.HighestPrice := if flt fzero h then h else g.(Group.HighestPrice) |>
                <| Group.UpdatedAt := now |>)
    end.
Proof.
  intros Hg E. unfold ModifySLLeg in E. apply go_bind_inv in E as (g0 & w0 & E0 & E).
  apply getGroup_inv in E0 as [-> Hg0]. assert (g0 = g) by congruence. subst g0.
  destruct (negb _ || _) eqn:Ec; [go_inv; exists g; rewrite insert_id by done; by destruct g|].
  bool_to_prop. unfold is_state in *. bool_to_prop.
  apply go_bind_inv in E as (err & w1 & E1 & E). set (o := leg_modify _ _ _ _ _ _ _) in E1, E.
  pose proof (modifyOrder_run _ _ _ _ _ E1) as [Hh1 Hr1].
  apply go_bind_inv in E as ([g1 e1] & w2 & E2 & E).
  assert (H2 : w2.(heap) = <[gid := g1]> w.(heap) /\ g1 = (g <| Group.Auth := g1.(Group.Auth) |>) /\
    (e1 = None -> exists au rs, w2.(requests) = rs ++ [RModify o au None])).
  { destruct err as [e|].
    - destruct (modify_retry_run gid g o e w1 w2 g1 e1) as (A1 & A2 & A3); [by rewrite Hh1|exact E2|].
      by rewrite A1, Hh1.
    - go_inv. rewrite Hh1, insert_id by done. split; [done|]. split; [by destruct g1|].
      intros _. destruct (Hr1 eq_refl) as [au ->]. eauto. }
  destruct H2 as (Hh2 & Ha & Hr2). destruct e1 as [msg|]; [go_inv; eauto|].
  destruct (Hr2 eq_refl) as (au & rs & Hr). cbv zeta in E. go_inv.
  match goal with E : repoUpdate _ _ _ = _ |- _ =>
    apply (quiet_repoCall (fun _ => False)), (quiet_none (fun _ => False)) in E as [Qh%quiet_heap R] end.
  cbn in Qh, R. rewrite Qh, R, Hh2, Hr, insert_insert_eq. eexists. split; [reflexivity|].
  split; [done|]. split; [done|]. split.
  - apply Exists_app. right. constructor. exists o, au. done.
  - rewrite Ha. done.
Qed.

(** The run of [CreateOCOEntry], in both outcomes. *)
Lemma create_entry_run `{!BrokerLaws B} now gid eid r (w w' : World) res :
  CreateOCOEntry now gid eid r w = Some (res, w') ->
  w'.(tasks) = w.(tasks) /\
  (exists rs, w'.(requests) = w.(requests) ++ rs /\ (length rs <= 3)%nat) /\
  match res with
  | inl _ => w'.(heap) = w.(heap) /\ w'.(groups) = w.(groups) /\ w'.(brokerIndex) = w.(brokerIndex)
  | inr id => id = gid /\ exists a bid, bid <> "" /\
      w'.(heap) = <[gid := entry_group now gid eid r <| Group.Auth := Some a |>
                             <| Group.EntryBrokerID := bid |>]> w.(heap) /\
      w'.(groups) = {[gid]} ∪ w.(groups) /\ w'.(brokerIndex) = <[bid := gid]> w.(brokerIndex)
  end.
Proof.
  unfold CreateOCOEntry. intros E. destruct (reqAuth r) as [auth|]; [|done].
  apply go_bind_inv in E as (err & w1 & E1 & E).
  apply (quiet_repoCall (fun _ => False)), (quiet_none (fun _ => True)) in E1 as [Q1 R1].
  destruct err as [e|].
  { go_inv. destruct Q1 as [? ? ? ? ? _]. split; [done|]. split; [|done].
    exists []. rewrite app_nil_r. split; [done|cbn; lia]. }
  apply go_bind_inv in E as ([[placed eo] auth'] & w2 & E2 & E).
  pose proof (placeEntry_nonempty _ _ _ _ _ _ _ _ _ _ E2) as Hne.
  apply placeEntry_inv in E2 as (Q2 & _ & rs & R2 & L).
  apply (quiet_weaken _ (fun _ => True)) in Q2; [|done].
  assert (Hrs : exists rs, w2.(requests) = w.(requests) ++ rs /\ (length rs <= 3)%nat).
  { exists rs. by rewrite R2, R1. }
  destruct placed as [e|bid]; cbv zeta in E; go_inv.
  - match goal with E : repoUpdate _ _ _ = _ |- _ =>
      apply (quiet_repoCall (fun _ => False)), (quiet_none (fun _ => True)) in E as [Q3 R3] end.
    destruct Q1, Q2, Q3. rewrite R3. split; [congruence|]. split; [done|]. repeat split; congruence.
  - match goal with E : repoUpdate _ _ _ = _ |- _ =>
      apply (quiet_repoCall (fun _ => False)), (quiet_none (fun _ => True)) in E as [Q3 R3] end.
    match goal with E : broadcast _ _ _ _ = _ |- _ =>
      apply (quiet_broadcast (fun _ => False)), (quiet_none (fun _ => True)) in E as [Q4 R4] end.
    destruct Q1, Q2, Q3, Q4. cbn in *. rewrite R4, R3. split; [congruence|]. split; [done|].
    split; [done|]. exists auth', bid. split; [by apply Hne|]. repeat split; congruence.
Qed.

Lemma drop_lookup id k (ix : gmap string uuid) :
  (if id =?s "" then ix else delete id ix) !! k = if decide (id = k /\ k <> "") then None else ix !! k.
Proof.
  destruct (String.eqb_spec id ""); case_decide as Hd.
  - destruct Hd. congruence.
  - done.
  - destruct Hd as [-> _]. apply lookup_delete_eq.
  - apply lookup_delete_ne. naive_solver.
Qed.

(** The run of a cleanup. *)
Lemma cleanup_run gid g (w w' : World) :
  cleanup gid w = Some (tt, w') -> w.(heap) !! gid = Some g ->
  let ids := [g.(Group.EntryBrokerID); g.(Group.SLBrokerID); g.(Group.TPBrokerID)] in
  w'.(groups) = w.(groups) ∖ {[gid]} /\
  (forall id, id ∈ ids -> id <> "" -> w'.(brokerIndex) !! id = None) /\
  (forall id, id ∉ ids -> w'.(brokerIndex) !! id = w.(brokerIndex) !! id) /\
  w'.(heap) = w.(heap).
Proof.
  unfold cleanup. intros E Hg. apply go_bind_inv in E as (g0 & w0 & [-> Hg0]%getGroup_inv & E).
  assert (g0 = g) by congruence. subst g0. unfold modify in E. injection E as <-. cbn.
  split; [done|]. split; [|split; [|done]].
  - intros id Hin Hne. rewrite !list_elem_of_In in Hin. cbn in Hin. rewrite !drop_lookup.
    repeat case_decide; first [tauto|congruence].
  - intros id Hin. rewrite !not_elem_of_cons in Hin. rewrite !drop_lookup.
    repeat case_decide; first [tauto|naive_solver].
Qed.

End Operations.

(** ** Concrete worlds *)

(** The demo group once active: trigger 98, highest price 100. *)
Definition trail_world (refusals : list (option string)) : DemoWorld :=
  demo_active <| broker := mkScript [] refusals "9" |> <| tasks := [] |>.

Definition trail_group : Group.t := default Group.zero (demo_active.(heap) !! 7%N).

Definition group_of (gid : uuid) (w : DemoWorld) : Group.t := default Group.zero (w.(heap) !! gid).

Definition run_task (c : Choice) (t : Task) (w : DemoWorld) : DemoWorld :=
  after (runTask c t) w.

Definition c0 : Choice := mkChoice 10 200 201 true.

(** ** Properties *)

(** [ModifySLLeg] is atomic: when it reports an error the group keeps its
    trigger, limit and highest price (only its credentials may be newer), and when
    it succeeds the group was active, the broker accepted a modification of its
    stop-loss order to exactly the new trigger and limit, and the trigger, limit
    and highest price changed together. *)
Theorem modify_sl_atomic {B C D} `{BrokerClient B} `{CredentialsRefresher C} `{OrderRepository D}
    now gid t l h (w w' : World B C D) r g :
  w.(heap) !! gid = Some g -> ModifySLLeg now gid t l h w = Some (r, w') ->
  exists g', w'.(heap) = <[gid := g']> w.(heap) /\
    match r with
    | Some _ => g' = (g <| Group.Auth := g'.(Group.Auth) |>)
    | None => g.(Group.State) = StateActive /\
        Exists (accepted_modify g.(Group.SLBrokerID) t l) w'.(requests) /\
        g'.(Group.SLTriggerPrice) = t /\ g'.(Group.SLLimitPrice) = l /\
        g'.(Group.HighestPrice) = (if flt fzero h then h else g.(Group.HighestPrice)) /\
        g'.(Group.State) = StateActive /\ same_identity g g'
    end.
Proof.
  intros Hg E. destruct (ModifySLLeg_run _ _ _ _ _ _ _ _ _ Hg E) as (g' & Hh & Hr).
  exists g'. split; [done|]. destruct r; [done|]. destruct Hr as (Hs & _ & Hx & ->). done.
Qed.

Lemma modify_sl_atomic_witness :
  let w := trail_world [Some "HTTP error 401"; Some "HTTP error 500"] in
  match ModifySLLeg 5 7 (of_Z 99) (of_Z 98) (of_Z 101) w with
  | Some (Some _, w') => (group_of 7 w').(Group.SLTriggerPrice) = of_Z 98
  | _ => False
  end.
Proof.
  cbn zeta. destruct (ModifySLLeg 5 7 (of_Z 99) (of_Z 98) (of_Z 101)
    (trail_world [Some "HTTP error 401"; Some "HTTP error 500"])) as [[[e|] w']|] eqn:E;
    [|vm_compute in E; discriminate E..].
  destruct (modify_sl_atomic 5 7 (of_Z 99) (of_Z 98) (of_Z 101)
    (trail_world [Some "HTTP error 401"; Some "HTTP error 500"]) w' (Some e) trail_group
    ltac:(vm_compute; reflexivity) E) as (g' & Hh & Hg').
  unfold group_of. rewrite Hh, lookup_insert_eq. cbn. rewrite Hg'. vm_compute. reflexivity.
Defined.

(** C4: the trailing stop of a long position is a ratchet as long as evaluations do
    not overlap: when a price tick makes the monitor modify the stop-loss, and
    whatever else happens between the evaluation and the modification the group's
    trigger is still the one the evaluation saw, the trigger does not decrease,
    whether the broker accepts or refuses. (The trigger is on the tick grid, as
    [roundNSE] leaves it, and the prices are within the bounds of exact rounding.)
    Without the proviso it can fall: [overlapping_trailing_lowers_trigger]. *)
Theorem trailing_ratchet {B C D} `{BrokerClient B} `{CredentialsRefresher C} `{OrderRepository D}
    now gid ltp t l h k (w w1 w1' w2 : World B C D) r g g1 :
  w.(heap) !! gid = Some g -> g.(Group.OrderSide) = "BUY" ->
  g.(Group.SLTriggerPrice) = tick k -> (0 < k < 2 ^ 34)%Z ->
  price_ok (g.(Group.SLTriggerPrice) * (ltp / g.(Group.HighestPrice)))%f64 = true ->
  evaluateTrailing gid ltp w = Some (tt, w1) ->
  w1.(tasks) = w.(tasks) ++ [TModifySL gid t l h] ->
  w1'.(heap) !! gid = Some g1 -> g1.(Group.SLTriggerPrice) = g.(Group.SLTriggerPrice) ->
  ModifySLLeg now gid t l h w1' = Some (r, w2) ->
  exists g2, w2.(heap) !! gid = Some g2 /\ h = ltp /\
    fle g1.(Group.SLTriggerPrice) g2.(Group.SLTriggerPrice) = true.
Proof.
  intros Hg Hs Ht Hk Hok E1 E2 Hg1 Hsame E3. unfold evaluateTrailing in E1.
  apply go_bind_inv in E1 as (g0 & w0 & [-> Hg0]%getGroup_inv & E1).
  assert (g0 = g) by congruence. subst g0.
  destruct (CalculateTrailingSL g ltp) as [[t' l']|] eqn:Et; go_inv.
  2:{ exfalso. apply (f_equal length) in E2. rewrite length_app in E2. cbn in E2. lia. }
  cbn in E2. simplify_eq. destruct (trailing_buy_raises _ _ _ _ Hs Et) as (raw & -> & Hraw & _ & _ & ->).
  rewrite Hsame. rewrite Ht in *.
  assert (Hle : fle (tick k) (roundNSE (tick k * (h / Group.HighestPrice g))%f64) = true).
  { pose proof (price_ok_pos _ Hok) as [Hp Hm]. pose proof (price_ok_nonneg _ Hok) as Hn.
    apply roundNSE_ge_tick; try done. apply flt_fle, not_fle_flt; [|by apply fnonneg_ordered|done].
    apply fnonneg_ordered, fdiv_nonneg; [apply of_Z_nonneg; lia|done]. }
  destruct (ModifySLLeg_run _ _ _ _ _ _ _ _ _ Hg1 E3) as (g2 & Hh & Hr).
  exists g2. rewrite Hh, lookup_insert_eq. split; [done|]. split; [done|]. destruct r.
  - rewrite Hr. cbn. rewrite Hsame. apply fle_refl.
    apply fnonneg_ordered, fdiv_nonneg; [apply of_Z_nonneg; lia|done].
  - destruct Hr as (_ & _ & _ & ->). exact Hle.
Qed.

Lemma trailing_ratchet_witness :
  let w := trail_world [] in
  exists (w1 w2 : DemoWorld) g2, evaluateTrailing 7 (of_Z 103) w = Some (tt, w1) /\
    w2.(heap) !! 7%N = Some g2 /\ g2.(Group.SLTriggerPrice) = tick 2019 /\
    fle (tick 1960) g2.(Group.SLTriggerPrice) = true.
Proof.
  cbn zeta. pose (w1 := after (evaluateTrailing 7 (of_Z 103)) (trail_world [])).
  pose (m := ModifySLLeg 11 7 (tick 2019) (roundNSE (of_Z 98 * (of_Z 103 / of_Z 100) * below_half_pct)%f64)
               (of_Z 103) w1).
  destruct (trailing_ratchet 11 7 (of_Z 103) (tick 2019)
    (roundNSE (of_Z 98 * (of_Z 103 / of_Z 100) * below_half_pct)%f64) (of_Z 103) 1960
    (trail_world []) w1 w1 (match m with Some (_, w) => w | None => w1 end)
    (match m with Some (r, _) => r | None => None end) trail_group trail_group) as (g2 & Hg2 & _ & Hle);
    [first [lia|vm_compute; reflexivity]..|].
  exists w1, (match m with Some (_, w) => w | None => w1 end), g2.
  split; [vm_compute; reflexivity|]. split; [exact Hg2|]. split; [|exact Hle].
  vm_compute in Hg2. injection Hg2 as <-. vm_compute. reflexivity.
Defined.

(** Creating an entry is all or nothing in memory: when [CreateOCOEntry] reports
    an error the registry, the index and the goroutines are as before; when it
    succeeds exactly this group is added, pending, and found under the non-empty
    order id the broker gave; either way the broker was asked at most three times. *)
Theorem create_entry_atomic {B C D} `{BrokerClient B} `{!BrokerLaws B} `{CredentialsRefresher C}
    `{OrderRepository D} now gid eid r (w w' : World B C D) res :
  CreateOCOEntry now gid eid r w = Some (res, w') ->
  w'.(tasks) = w.(tasks) /\
  (exists rs, w'.(requests) = w.(requests) ++ rs /\ (length rs <= 3)%nat) /\
  match res with
  | inl _ => w'.(heap) = w.(heap) /\ w'.(groups) = w.(groups) /\ w'.(brokerIndex) = w.(brokerIndex)
  | inr id => id = gid /\ exists g, g.(Group.State) = StatePendingEntry /\
      g.(Group.GroupID) = gid /\ g.(Group.EntryBrokerID) <> "" /\
      w'.(heap) = <[gid := g]> w.(heap) /\ w'.(groups) = {[gid]} ∪ w.(groups) /\
      w'.(brokerIndex) = <[g.(Group.EntryBrokerID) := gid]> w.(brokerIndex)
  end.
Proof.
  intros E. apply create_entry_run in E as (Ht & Hr & Hres). split; [done|]. split; [done|].
  destruct res as [e|id]; [done|]. destruct Hres as (-> & a & bid & Hb & Hh & Hg & Hi).
  split; [done|].
  exists (entry_group now gid eid r <| Group.Auth := Some a |> <| Group.EntryBrokerID := bid |>).
  repeat split; try done.
Qed.

Lemma create_entry_atomic_witness :
  match CreateOCOEntry 1 7 8 demo_request demo_start with
  | Some (inr _, w') => w'.(groups) = {[7%N]} ∪ ∅
  | _ => False
  end.
Proof.
  destruct (CreateOCOEntry 1 7 8 demo_request demo_start) as [[[e|id] w']|] eqn:E;
    [vm_compute in E; discriminate E| |vm_compute in E; discriminate E].
  destruct (create_entry_atomic 1 7 8 demo_request demo_start w' (inr id) E)
    as (_ & _ & _ & g & _ & _ & _ & _ & Hg & _). exact Hg.
Defined.

(** The cleanup of a group forgets it: neither the registry nor the index under
    any of its broker ids knows it any more, other entries are kept, and a later
    broker event for one of its orders changes nothing. *)
Theorem cleanup_forgets {B C D} `{BrokerClient B} `{CredentialsRefresher C} `{OrderRepository D}
    gid g (w w' : World B C D) :
  w.(heap) !! gid = Some g -> cleanup gid w = Some (tt, w') ->
  gid ∉ w'.(groups) /\
  (forall id, id ∈ [g.(Group.EntryBrokerID); g.(Group.SLBrokerID); g.(Group.TPBrokerID)] ->
     id <> "" -> IsKnownBrokerID id w' = false /\
     forall now o status, o.(Order.IndiraOrderID) = Some id ->
       o.(Order.OCOGroupID) = None \/ o.(Order.OCOGroupID) = Some gid ->
       HandleBrokerUpdate now (Some o) status w' = Some (tt, w')) /\
  (forall id, id ∉ [g.(Group.EntryBrokerID); g.(Group.SLBrokerID); g.(Group.TPBrokerID)] ->
     w'.(brokerIndex) !! id = w.(brokerIndex) !! id) /\
  (forall gid', gid' <> gid -> gid' ∈ w'.(groups) <-> gid' ∈ w.(groups)).
Proof.
  intros Hg E. destruct (cleanup_run _ _ _ _ E Hg) as (Hgs & Hix & Hkeep & _).
  assert (Hout : gid ∉ groups w') by (rewrite Hgs; set_solver).
  split; [done|]. split; [|split; [exact Hkeep|intros gid' Hne; rewrite Hgs; set_solver]].
  intros id Hin Hne. pose proof (Hix id Hin Hne) as Hnone. split.
  - unfold IsKnownBrokerID. rewrite Hnone. apply bool_decide_eq_false. by intros [? ?].
  - intros now o status Ho Hoc. unfold HandleBrokerUpdate. rewrite Ho. unfold mbind, go_bind, gets.
    rewrite Hnone. destruct Hoc as [-> | ->]; [done|]. by rewrite bool_decide_false.
Qed.

Lemma cleanup_forgets_witness :
  let w := run_task c0 (TCleanup 7) (trail_world []) in
  7%N ∉ w.(groups) /\ IsKnownBrokerID "S1" w = false.
Proof.
  cbn zeta. destruct (cleanup_forgets 7 trail_group (trail_world [])
    (run_task c0 (TCleanup 7) (trail_world []))) as (H1 & H2 & _); [vm_compute; reflexivity..|].
  split; [exact H1|]. apply (H2 "S1"); [|discriminate]. vm_compute. right. left.
Defined.

(** A cancellation during the placement of the legs is undone by their placement:
    [CancelGroup] on a group that is placing its legs marks it cancelled, starts no
    cancellation and only schedules the cleanup, and when both placements have
    been accepted the group becomes active, with live legs the cleanup forgets. *)
Theorem cancel_while_placing_is_undone now slO tpO slID tpID g :
  g.(Group.State) = StatePlacingLegs -> slID <> "" -> tpID <> "" ->
  cancel_effects g = [] /\
  let cancelled := g <| Group.State := StateCancelled |> <| Group.UpdatedAt := now |> in
  let '(g', eff) := placeOCOLegs_finish now slO tpO (Some (inr slID)) (Some (inr tpID)) cancelled in
  g'.(Group.State) = StateActive /\ g'.(Group.SLBrokerID) = slID /\ g'.(Group.TPBrokerID) = tpID.
Proof.
  intros Hs H1 H2. apply String.eqb_neq in H1, H2. split.
  - unfold cancel_effects, legs_live, is_state. by rewrite Hs.
  - unfold placeOCOLegs_finish, register_sl, register_tp, checkLegsConfirmed, placed_id, is_state.
    cbn. rewrite H1. cbn. rewrite H2. done.
Qed.

Lemma cancel_while_placing_is_undone_witness :
  (placeOCOLegs_finish 9 None None (Some (inr "S1")) (Some (inr "T1"))
     (sample_long <| Group.State := StateCancelled |> <| Group.UpdatedAt := 9%Z |>)).1.(Group.State)
  = StateActive.
Proof.
  destruct (cancel_while_placing_is_undone 9 None None "S1" "T1" sample_long) as [_ H];
    [reflexivity|discriminate..|]. cbn zeta in H.
  destruct (placeOCOLegs_finish _ _ _ _ _ _) as [g' eff]. apply H.
Defined.

(** When the partial-fill wait of an active group expires, the report that its
    remaining entry quantity was cancelled fails the group although its legs are
    live: no leg is cancelled, the group is scheduled for cleanup, and a later fill
    of either leg no longer cancels the other one. *)
Theorem timeout_cancel_fails_live_group {B C D} `{BrokerClient B} `{CredentialsRefresher C}
    `{OrderRepository D} now gid g (w w' : World B C D) o o' status :
  w.(heap) !! gid = Some g -> g.(Group.State) = StateActive ->
  g.(Group.PartialFillActive) = true ->
  timerFired gid true w = Some (tt, w') ->
  exists g1, w'.(heap) !! gid = Some g1 /\ g1.(Group.State) = StateActive /\
    w'.(tasks) = w.(tasks) ++ [TCancelEntryRemaining gid] /\
    let '(g2, eff) := handleEntryUpdate now g1 o "CANCELLED" in
    g2.(Group.State) = StateFailed /\ eff = [EScheduleCleanup; EBroadcast "oco_entry_rejected" (Some o)] /\
    forall now' id, routeBrokerUpdate now' id g2 o' status = (g2, []).
Proof.
  intros Hg Hs Hp E. unfold timerFired in E. cbn in E.
  apply go_bind_inv in E as (g0 & w0 & [-> Hg0]%getGroup_inv & E).
  assert (g0 = g) by congruence. subst g0. rewrite Hp in E. cbn in E. go_inv. cbn.
  rewrite lookup_insert_eq. eexists. split; [reflexivity|]. split; [done|]. split; [done|].
  unfold handleEntryUpdate. cbn. done.
Qed.

Lemma timeout_cancel_fails_live_group_witness :
  let w := trail_world [] in
  let g := trail_group <| Group.PartialFillActive := true |> in
  let w' := after (timerFired 7 true) (w <| heap := <[7%N := g]> w.(heap) |>) in
  (handleEntryUpdate 12 (group_of 7 w') Order.zero "CANCELLED").1.(Group.State) = StateFailed.
Proof.
  cbn zeta. destruct (timeout_cancel_fails_live_group 12 7
    (trail_group <| Group.PartialFillActive := true |>)
    (trail_world [] <| heap := <[7%N := trail_group <| Group.PartialFillActive := true |>]>
                                 (trail_world []).(heap) |>)
    (after (timerFired 7 true) (trail_world []
       <| heap := <[7%N := trail_group <| Group.PartialFillActive := true |>]>
                    (trail_world []).(heap) |>))
    Order.zero Order.zero "EXECUTED") as (g1 & Hg1 & _ & _ & H); [vm_compute; reflexivity..|].
  unfold group_of. rewrite Hg1. change (default Group.zero (Some g1)) with g1.
  destruct (handleEntryUpdate 12 g1 Order.zero "CANCELLED") as [g2 eff]. apply H.
Defined.

(** A partial fill of the only leg of a group strands it: with no other leg to
    cancel the group stays triggered, and no later report of that leg except a
    rejection moves it, the completion of the fill included. *)
Theorem partial_fill_without_other_leg_stuck now g o status :
  legs_live g = true -> one_of status partial_statuses = true ->
  g.(Group.TPBrokerID) = "" ->
  exists g', handleSLLegUpdate now g o status =
    (g', [ECancelLeg "" "TP" "SL leg partially filled (OCO)"]) /\
    g'.(Group.State) = StateSLTriggered /\
    (forall B C D (HB : BrokerClient B) (HC : CredentialsRefresher C) (HD : OrderRepository D)
       gid (w : World B C D), cancelLeg gid "" w = Some (tt, w)) /\
    forall now' o' status', one_of status' rejected_statuses = false ->
      (handleSLLegUpdate now' g' o' status').1.(Group.State) = StateSLTriggered.
Proof.
  intros Hl Hs Htp.
  assert (Hx : one_of status live_statuses = false) by (by eapply one_of_disjoint).
  assert (Hf : one_of status filled_statuses = false) by (by eapply one_of_disjoint).
  assert (Hr : one_of status rejected_statuses = false) by (by eapply one_of_disjoint).
  unfold handleSLLegUpdate at 1. rewrite Hx, Hf, Hr, Hs, Hl, Htp. cbn [negb].
  eexists. split; [reflexivity|]. split; [done|]. split; [done|].
  intros now' o' status' Hr'. unfold handleSLLegUpdate, checkLegsConfirmed, legs_live, is_state.
  rewrite Hr'. by repeat (case_match; cbn in *; simplify_eq).
Qed.

Lemma partial_fill_without_other_leg_stuck_witness :
  exists g', (handleSLLegUpdate 5 (sample_active <| Group.TPBrokerID := "" |>) Order.zero
                "PARTIALLY TRADED").1 = g' /\
    (handleSLLegUpdate 6 g' Order.zero "EXECUTED").1.(Group.State) = StateSLTriggered.
Proof.
  destruct (partial_fill_without_other_leg_stuck 5 (sample_active <| Group.TPBrokerID := "" |>)
    Order.zero "PARTIALLY TRADED") as (g' & E & _ & _ & H); [vm_compute; reflexivity..|].
  exists g'. rewrite E. split; [reflexivity|]. apply H. reflexivity.
Defined.

(** Completing a cancellation overwrites every state: a group that failed because
    its stop-loss was rejected ends up completed once its take-profit has been
    cancelled, whatever the broker answered to the cancellation. *)
Theorem rejected_sl_ends_completed {B C D} `{BrokerClient B} `{CredentialsRefresher C}
    `{OrderRepository D} now now' gid g o (w w1 w2 : World B C D) :
  g.(Group.TPBrokerID) <> "" ->
  let '(failed, eff) := handleSLLegUpdate now g o "REJECTED" in
  failed.(Group.State) = StateFailed /\
  eff = [ECancelLeg g.(Group.TPBrokerID) "TP" "SL leg rejected (OCO cleanup)"; EScheduleCleanup] /\
  (w.(heap) !! gid = Some failed -> cancelLeg gid g.(Group.TPBrokerID) w = Some (tt, w1) ->
   w1.(tasks) = w.(tasks) ++ [TCancelDone gid] /\
   (cancelLegDone now' gid w1 = Some (tt, w2) ->
    exists g2, w2.(heap) !! gid = Some g2 /\ g2.(Group.State) = StateCompleted)).
Proof.
  intros Hne. apply String.eqb_neq in Hne. cbn. split; [done|]. split; [done|]. intros Hg E.
  unfold cancelLeg in E. rewrite Hne in E.
  apply go_bind_inv in E as (g0 & w0 & [-> Hg0]%getGroup_inv & E).
  apply go_bind_inv in E as ([] & wa & [[Qh _ _ Qt _ _] _]%cancelAttempts_inv & E).
  unfold spawn, modify in E. injection E as <-. cbn. rewrite Qt. split; [done|]. intros E.
  apply go_bind_inv in E as (g1 & w1' & [-> Hg1]%getGroup_inv & E).
  apply go_bind_inv in E as ([] & wb & Es & E).
  apply (quiet_broadcast (fun _ => False)), quiet_heap in E. rewrite E.
  unfold setGroup, modify in Es. injection Es as <-. cbn. rewrite lookup_insert_eq. eauto.
Qed.

Definition rejected_world : DemoWorld :=
  trail_world [Some "e"; Some "e"; Some "e"]
    <| heap := {[7%N := (handleSLLegUpdate 5 trail_group Order.zero "REJECTED").1]} |>.

Lemma rejected_sl_ends_completed_witness :
  exists g2, (after (cancelLegDone 6 7) (after (cancelLeg 7 "T1") rejected_world)).(heap) !! 7%N
             = Some g2 /\ g2.(Group.State) = StateCompleted.
Proof.
  pose proof (rejected_sl_ends_completed 5 6 7 trail_group Order.zero rejected_world
    (after (cancelLeg 7 "T1") rejected_world)
    (after (cancelLegDone 6 7) (after (cancelLeg 7 "T1") rejected_world))
    ltac:(vm_compute; discriminate)) as H.
  destruct H as (_ & _ & H).
  destruct (H ltac:(vm_compute; reflexivity) ltac:(vm_compute; reflexivity)) as [_ H4].
  apply H4. vm_compute. reflexivity.
Defined.

(** The ratchet of the trailing stop does not survive interleaving: from a state
    the manager reaches, two evaluations of one long group that overlap (a tick of
    the feed at 104 and an older price of the poll at 103) lead, by four steps the
    broker accepts, to a lower trigger than the one in between. *)
Theorem overlapping_trailing_lowers_trigger :
  exists w0 w1 w2 w3 w4 : DemoWorld,
    reachable demo_start.(broker) demo_start.(credsCache) demo_start.(repo) w0 /\
    step w0 w1 /\ step w1 w2 /\ step w2 w3 /\ step w3 w4 /\
    (group_of 7 w0).(Group.OrderSide) = "BUY" /\
    (group_of 7 w3).(Group.SLTriggerPrice) = tick 2038 /\
    (group_of 7 w4).(Group.SLTriggerPrice) = tick 2019 /\
    flt (group_of 7 w4).(Group.SLTriggerPrice) (group_of 7 w3).(Group.SLTriggerPrice) = true.
Proof.
  pose (w1 := after (evaluateTrailing 7 (of_Z 104)) demo_active).
  pose (w2 := after (evaluateTrailing 7 (of_Z 103)) w1).
  pose (t1 := hd (TCleanup 0) w2.(tasks)). pose (t2 := List.nth 1 w2.(tasks) (TCleanup 0)).
  pose (w3 := run_task c0 t1 (w2 <| tasks := [t2] |>)).
  exists demo_active, w1, w2, w3, (run_task c0 t2 (w3 <| tasks := [] |>)).
  split; [exact demo_reachable|].
  split; [apply step_event with c0 (EvTrail 7 (of_Z 104)); vm_compute; reflexivity|].
  split; [apply step_event with c0 (EvTrail 7 (of_Z 103)); vm_compute; reflexivity|].
  split; [apply step_task with c0 t1 [] [t2]; vm_compute; reflexivity|].
  split; [apply step_task with c0 t2 [] []; vm_compute; reflexivity|].
  vm_compute. repeat split.
Qed.
