(* ===== verification/OCOReload.v ===== *)
(** * Restart recovery

    [oco/manager.go]: [Reload], [reconstructGroup] and [inferState] rebuild the
    manager's groups from the order rows of the database. *)

From stdpp Require Import base gmap strings list fin_maps fin_sets.
From Stdlib Require Import ZArith Lia.
From S2P Require Import Prelude GoFloat FloatRound FloatOrder Price GoStrings Orders OrderRepo.
From S2P Require Import OCOTypes Broker OCOHandlers OCOManager OCOInvariants.

Open Scope string_scope.
Open Scope list_scope.
Open Scope go_scope.

(** [safeString], [stringPtr] and the zero value of an absent role. *)
Definition safeString (s : option string) : string := default "" s.

Definition stringPtr (s : string) : option string := if s =?s "" then None else Some s.

Definition isConfirmedOnExchange (s : string) : bool :=
  one_of (ToUpper s)
    ["PENDING"; "OPEN"; "TRIGGER PENDING"; "TRIGGER_PENDING"; "AFTER MARKET ORDER REQ RECEIVED";
     "PARTIALLY_FILLED"; "PARTIALLY TRADED"].

(** [roleStatus[role]]: the status of the last order with that role. *)
Definition roleStatus (orders : list Order.t) (role : string) : string :=
  fold_left (fun s o => if bool_decide (o.(Order.OCORole) = Some role) then o.(Order.Status) else s)
    orders "".

Definition inferState (orders : list Order.t) : OCOState :=
  let entryStatus := roleStatus orders (role_string RoleEntry) in
  let slStatus := roleStatus orders (role_string RoleSLLeg) in
  let tpStatus := roleStatus orders (role_string RoleTPLeg) in
  if negb (IsFilledStatus entryStatus) && negb (IsTerminalStatus entryStatus) &&
     negb (IsPartiallyFilledStatus entryStatus) then StatePendingEntry
  else if IsTerminalStatus entryStatus && negb (IsFilledStatus entryStatus) &&
          negb (IsPartiallyFilledStatus entryStatus) then StateFailed
  else if (slStatus =?s "") && (tpStatus =?s "") then StatePlacingLegs
  else if IsFilledStatus slStatus then StateCompleted
  else if IsFilledStatus tpStatus then StateCompleted
  else if isConfirmedOnExchange slStatus && (isConfirmedOnExchange tpStatus || (tpStatus =?s ""))
       then StateActive
  else StateLegsSubmitted.

(** The price an entry row gives: the order's price, else the traded price. *)
Definition row_price (o : Order.t) (old : f64) : f64 :=
  match o.(Order.Price), o.(Order.FilledPrice) with
  | Some p, f => if flt fzero p then p else default old f
  | None, f => default old f
  end.

(** What a row of each role contributes. *)
Definition from_entry (o : Order.t) (g : Group.t) : Group.t :=
  g <| Group.UserID := o.(Order.UserID) |> <| Group.EntryOrderID := o.(Order.OrderID) |>
    <| Group.Symbol := o.(Order.Symbol) |> <| Group.Exchange := o.(Order.Exchange) |>
    <| Group.StockCode := o.(Order.StockCode) |> <| Group.Quantity := o.(Order.Quantity) |>
    <| Group.OrderSide := o.(Order.OrderSide) |>
    <| Group.FilledQty := if (0 <? o.(Order.FilledQuantity))%Z then o.(Order.FilledQuantity)
                          else g.(Group.FilledQty) |>
    <| Group.ProductType := o.(Order.ProductType) |> <| Group.Validity := o.(Order.Validity) |>
    <| Group.StrategyID := o.(Order.StrategyID) |>
    <| Group.StrategyName := o.(Order.StrategyName) |> <| Group.EventID := o.(Order.EventID) |>
    <| Group.CreatedAt := o.(Order.CreatedAt) |>
    <| Group.EntryBrokerID := default g.(Group.EntryBrokerID) o.(Order.IndiraOrderID) |>
    <| Group.EntryFillPrice := row_price o g.(Group.EntryFillPrice) |>
    <| Group.SLPercent := default g.(Group.SLPercent) o.(Order.StopLoss) |>
    <| Group.TPPercent := default g.(Group.TPPercent) o.(Order.TakeProfit) |>
    <| Group.TrailingSL := bool_decide (o.(Order.StopLossType) = Some "TRAILING") ||
                           g.(Group.TrailingSL) |>
    <| Group.TrailingSLPct := default g.(Group.TrailingSLPct) o.(Order.TrailingSLPct) |>
    <| Group.HighestPrice := default (row_price o g.(Group.HighestPrice)) o.(Order.HighestPrice) |>
    <| Group.Auth := match o.(Order.BearerToken), o.(Order.AppId), o.(Order.Source) with
                     | Some t, Some a, Some s => Some (mkAuth o.(Order.UserID) a s t)
                     | _, _, _ => g.(Group.Auth)
                     end |>.

Definition from_sl (o : Order.t) (g : Group.t) : Group.t :=
  g <| Group.SLOrderID := o.(Order.OrderID) |>
    <| Group.SLBrokerID := default g.(Group.SLBrokerID) o.(Order.IndiraOrderID) |>
    <| Group.SLTriggerPrice := default g.(Group.SLTriggerPrice) o.(Order.StopLoss) |>
    <| Group.SLLimitPrice := default g.(Group.SLLimitPrice) o.(Order.Price) |>.

Definition from_tp (o : Order.t) (g : Group.t) : Group.t :=
  g <| Group.TPOrderID := o.(Order.OrderID) |>
    <| Group.TPBrokerID := default g.(Group.TPBrokerID) o.(Order.IndiraOrderID) |>
    <| Group.TPLimitPrice := default g.(Group.TPLimitPrice) o.(Order.Price) |>.

Definition from_row (g : Group.t) (o : Order.t) : Group.t :=
  let role := safeString o.(Order.OCORole) in
  if role =?s role_string RoleEntry then from_entry o g
  else if role =?s role_string RoleSLLeg then from_sl o g
  else if role =?s role_string RoleTPLeg then from_tp o g
  else g.

(** The end of [reconstructGroup]: terminal groups are not loaded, and an entry
    that is partly filled with legs placed waits for the rest again. *)
Definition restore (now : Z) (state : OCOState) (g : Group.t) : option Group.t :=
  if IsTerminal state then None
  else
    let partial := (0 <? g.(Group.FilledQty))%Z && (g.(Group.FilledQty) <? g.(Group.Quantity))%Z &&
                   negb (g.(Group.SLBrokerID) =?s "") in
    Some (g <| Group.State := state |>
            <| Group.PartialFillActive := partial || g.(Group.PartialFillActive) |>
            <| Group.UpdatedAt := now |>).

Definition reconstructGroup (now : Z) (groupID : uuid) (orders : list Order.t) : option Group.t :=
  restore now (inferState orders)
    (fold_left from_row orders (Group.zero <| Group.GroupID := groupID |>)).



Section Reload.

Context {B C D : Type} `{BrokerClient B} `{CredentialsRefresher C} `{OrderRepository D}.

Abbreviation World := (World B C D).
Abbreviation M := (Go World).

(** How Go ranges over a map: its entries in an order of the runtime's choice. *)
Variable range : gmap uuid (list Order.t) -> list (uuid * list Order.t).




End Reload.


(** ** Lemmas *)

Lemma from_row_id g o : (from_row g o).(Group.GroupID) = g.(Group.GroupID).
Proof. unfold from_row. by repeat case_match. Qed.

Lemma fold_rows_id orders g : (fold_left from_row orders g).(Group.GroupID) = g.(Group.GroupID).
Proof. revert g. induction orders as [|o l IH]; intros g; cbn; [done|]. by rewrite IH, from_row_id. Qed.

(** A reconstructed group has its id, the inferred state, and is not terminal. *)
Lemma reconstruct_spec now gid orders g :
  reconstructGroup now gid orders = Some g ->
  g.(Group.GroupID) = gid /\ g.(Group.State) = inferState orders /\
  IsTerminal g.(Group.State) = false.
Proof.
  intros H. assert (Hr : forall st g0, restore now st g0 = Some g ->
    g.(Group.GroupID) = g0.(Group.GroupID) /\ g.(Group.State) = st /\ IsTerminal st = false).
  { intros st g0. unfold restore. destruct (IsTerminal st); [done|]. intros [= <-]. done. }
  apply Hr in H as (H1 & H2 & H3). rewrite fold_rows_id in H1. by rewrite H2.
Qed.

(** The states a restart can bring back. *)
Lemma inferState_reload orders :
  IsTerminal (inferState orders) = false ->
  inferState orders = StatePendingEntry \/ inferState orders = StatePlacingLegs \/
  inferState orders = StateLegsSubmitted \/ inferState orders = StateActive.
Proof. unfold inferState. repeat case_match; intros; cbn in *; try done; eauto. Qed.

Lemma roleStatus_app l o role :
  roleStatus (l ++ [o]) role =
  if bool_decide (o.(Order.OCORole) = Some role) then o.(Order.Status) else roleStatus l role.
Proof. unfold roleStatus. by rewrite fold_left_app. Qed.

(** One submitted entry row alone. *)
Lemma reconstruct_pending now gid o :
  o.(Order.OCORole) = Some (role_string RoleEntry) -> o.(Order.Status) = StatusSubmitted ->
  reconstructGroup now gid [o] =
  restore now StatePendingEntry (from_entry o (Group.zero <| Group.GroupID := gid |>)).
Proof.
  intros Hr Hs. assert (Hi : inferState [o] = StatePendingEntry).
  { unfold inferState, roleStatus. cbn [fold_left]. rewrite Hr, Hs. reflexivity. }
  assert (Hrow : forall g, from_row g o = from_entry o g) by (intros g; unfold from_row; by rewrite Hr).
  unfold reconstructGroup. rewrite Hi. cbn [fold_left]. by rewrite Hrow.
Qed.

Lemma prepare_no_legs now a b g :
  g.(Group.SLPercent) = fzero -> g.(Group.TPPercent) = fzero ->
  placeOCOLegs_prepare now a b g = PAbort (fail_group now g).
Proof. intros H1 H2. unfold placeOCOLegs_prepare. by rewrite H1, H2. Qed.

Section ReloadLemmas.

Context {B C D : Type} {HB : BrokerClient B} {HC : CredentialsRefresher C}
  {HD : OrderRepository D}.

Abbreviation World := (World B C D).











End ReloadLemmas.

(** ** Concrete rows *)

(** The row of an entry the manager placed, as the database has it after the
    insertion and the update that stores the broker's order id. *)
Definition entry_row (now : Z) (gid eid : uuid) (auth : AuthContext) (bid : string)
    (r : EntryRequest) : Order.t :=
  let o := entry_order now gid eid auth r in
  updated_row now (submitted now bid o) (inserted_row o).

Definition sl_row (status : string) : Order.t :=
  sample_prepared.1.2 <| Order.IndiraOrderID := Some "S1" |> <| Order.Status := status |>.

Lemma entry_row_fields now gid eid auth bid r :
  let o := entry_row now gid eid auth bid r in
  o.(Order.OCORole) = Some (role_string RoleEntry) /\ o.(Order.Status) = StatusSubmitted /\
  o.(Order.FilledQuantity) = 0%Z /\ o.(Order.IndiraOrderID) = Some bid /\
  o.(Order.StopLoss) = None /\ o.(Order.TakeProfit) = None.
Proof. cbn zeta. unfold entry_row, updated_row. cbv zeta. split; [vm_compute; reflexivity|]. split; [vm_compute; reflexivity|]. split; [vm_compute; reflexivity|]. split; [vm_compute; reflexivity|]. split; vm_compute; reflexivity. Qed.

(** The statuses of a complete group of rows. *)
Lemma roleStatus3 entry sl tp :
  entry.(Order.OCORole) = Some "ENTRY" -> sl.(Order.OCORole) = Some "SL_LEG" ->
  tp.(Order.OCORole) = Some "TP_LEG" ->
  roleStatus [entry; sl; tp] (role_string RoleEntry) = entry.(Order.Status) /\
  roleStatus [entry; sl; tp] (role_string RoleSLLeg) = sl.(Order.Status) /\
  roleStatus [entry; sl; tp] (role_string RoleTPLeg) = tp.(Order.Status).
Proof. intros H1 H2 H3. unfold roleStatus. cbn [fold_left]. by rewrite H1, H2, H3. Qed.

(** ** Properties *)





(** A pending entry loses its stop-loss and take-profit across a restart: the
    row the manager writes for it reconstructs to a pending group with both
    percentages zero, so that its fill places no leg and fails the group. *)
Theorem restart_loses_percentages now now' now'' gid eid auth bid r price qty a b :
  exists g, reconstructGroup now' gid [entry_row now gid eid auth bid r] = Some g /\
    g.(Group.State) = StatePendingEntry /\ g.(Group.EntryBrokerID) = bid /\
    g.(Group.SLPercent) = fzero /\ g.(Group.TPPercent) = fzero /\
    placeOCOLegs_prepare now'' a b (start_legs now'' price qty g) =
      PAbort (fail_group now'' (start_legs now'' price qty g)).
Proof.
  destruct (entry_row_fields now gid eid auth bid r) as (H1 & H2 & H3 & H4 & H5 & H6).
  revert H1 H2 H3 H4 H5 H6. generalize (entry_row now gid eid auth bid r). intros o H1 H2 H3 H4 H5 H6.
  rewrite (reconstruct_pending now' gid) by assumption. eexists. split; [reflexivity|].
  split; [reflexivity|]. unfold from_entry. cbn -[row_price]. rewrite H4, H5, H6.
  split; [reflexivity|]. split; [reflexivity|]. split; [reflexivity|]. by apply prepare_no_legs.
Qed.

(** A group that was placing its legs when the service stopped never gets them:
    it is restored in that state, and no sequence of broker events places a leg. *)
Theorem restart_while_placing_is_unprotected now gid orders g events :
  reconstructGroup now gid orders = Some g ->
  IsFilledStatus (roleStatus orders (role_string RoleEntry)) = true ->
  roleStatus orders (role_string RoleSLLeg) = "" ->
  roleStatus orders (role_string RoleTPLeg) = "" ->
  g.(Group.State) = StatePlacingLegs /\ List.filter is_place (routeAll events g).2 = [].
Proof.
  intros Hg Hf Hs Ht. apply reconstruct_spec in Hg as (_ & Hst & _).
  assert (Hp : g.(Group.State) = StatePlacingLegs).
  { rewrite Hst. unfold inferState. rewrite Hf, Hs, Ht. cbn. by rewrite andb_false_r. }
  split; [done|]. apply routeAll_places. by rewrite Hp.
Qed.

Lemma restart_while_placing_is_unprotected_witness :
  let rows := [entry_row 1 7 8 sample_auth "E1" demo_request <| Order.Status := "EXECUTED" |>] in
  match reconstructGroup 9 7 rows with
  | Some g => List.filter is_place
      (routeAll [(10%Z, "E1", demo_fill "E1" 100, "EXECUTED")] g).2 = []
  | None => False
  end.
Proof.
  cbn zeta. destruct (reconstructGroup 9 7
    [entry_row 1 7 8 sample_auth "E1" demo_request <| Order.Status := "EXECUTED" |>]) as [g|] eqn:E.
  - apply (restart_while_placing_is_unprotected 9 7 _ g
      [(10%Z, "E1", demo_fill "E1" 100, "EXECUTED")] E); reflexivity.
  - vm_compute in E. discriminate E.
Defined.

(** A trailing modification is not what the database remembers: the row of the
    stop-loss keeps the trigger it had and loses its status, so that a restart
    brings back the old trigger and a group that waits for its legs to be confirmed. *)
Theorem trailing_update_not_persisted now now' g trigger limit t t' row :
  t.(rows) !! g.(Group.SLOrderID) = Some row ->
  sqlUpdate now (leg_modify g g.(Group.SLOrderID) g.(Group.SLBrokerID) OrderTypeStopLoss
                   (position_qty g) limit (Some trigger)) t = (t', None) ->
  exists row', t'.(rows) !! g.(Group.SLOrderID) = Some row' /\ row'.(Order.Status) = "" /\
    row'.(Order.StopLoss) = row.(Order.StopLoss) /\
    forall entry tp g', entry.(Order.OCORole) = Some "ENTRY" -> IsFilledStatus entry.(Order.Status) = true ->
      row.(Order.OCORole) = Some "SL_LEG" -> tp.(Order.OCORole) = Some "TP_LEG" ->
      isConfirmedOnExchange tp.(Order.Status) = true ->
      reconstructGroup now' g.(Group.GroupID) [entry; row'; tp] = Some g' ->
      g'.(Group.State) = StateLegsSubmitted.
Proof.
  intros Hrow E. unfold sqlUpdate in E. apply sqlUpdateRow_spec in E as (row0 & Hr & Hrows).
  cbn in Hr, Hrows. assert (row0 = row) by congruence. subst row0.
  rewrite Hrows, lookup_insert_eq. eexists. split; [reflexivity|]. split; [done|]. split; [done|].
  intros entry tp g' He Hf Hsl Htp Hc Hg. apply reconstruct_spec in Hg as (_ & -> & Ht).
  revert Ht. unfold inferState. destruct (roleStatus3 entry (updated_row now (leg_modify g g.(Group.SLOrderID) g.(Group.SLBrokerID)
    OrderTypeStopLoss (position_qty g) limit (Some trigger)) row) tp He Hsl Htp) as (-> & -> & ->).
  rewrite Hf. change (Order.Status (updated_row _ _ _)) with "".
  change (negb true) with false. rewrite andb_false_r. cbn [andb].
  change (IsFilledStatus "") with false. change (isConfirmedOnExchange "") with false.
  destruct (Order.Status tp =?s "") eqn:Es.
  - apply String.eqb_eq in Es. by rewrite Es in Hc.
  - by destruct (IsFilledStatus (Order.Status tp)).
Qed.

Lemma trailing_update_not_persisted_witness :
  let t := mkTable {[1%N := sl_row "PENDING"]} [] in
  exists row', (sqlUpdate 5 (leg_modify sample_active 1 "S1" OrderTypeStopLoss 10 (of_Z 99)
      (Some (of_Z 100))) t).1.(rows) !! 1%N = Some row' /\
    row'.(Order.Status) = "" /\ row'.(Order.StopLoss) = Some (of_Z 98).
Proof.
  cbn zeta. pose (t := mkTable {[1%N := sl_row "PENDING"]} []).
  destruct (trailing_update_not_persisted 5 9 sample_active (of_Z 100) (of_Z 99) t
    (sqlUpdate 5 (leg_modify sample_active 1 "S1" OrderTypeStopLoss 10 (of_Z 99)
      (Some (of_Z 100))) t).1 (sl_row "PENDING")) as (row' & H1 & H2 & H3 & _);
    [vm_compute; reflexivity..|].
  exists row'. split; [exact H1|]. split; [exact H2|]. rewrite H3. vm_compute. reflexivity.
Defined.
