(* ===== verification/Trailing.v ===== *)
(** * The market feed and the trailing stop monitor

    [oco/trailing.go]: the decoder of the binary feed, the price cache of the
    market client, and the monitor that turns prices into stop-loss
    modifications.  A byte is an [ascii] character, so that Go's conversion from
    bytes to a string keeps them. *)

From stdpp Require Import base gmap strings list fin_maps fin_sets pretty.
From Stdlib Require Import ZArith NArith Ascii Lia.
From S2P Require Import Prelude GoFloat FloatOrder Price GoStrings Orders OrderRepo OCOTypes Broker.
From S2P Require Import OCOHandlers OCOManager OCOInvariants.

Open Scope string_scope.
Open Scope list_scope.
Open Scope go_scope.

Abbreviation bytes := (list ascii).

Definition byte_val (a : ascii) : Z := Z.of_N (N_of_ascii a).

Definition go_string (b : bytes) : string := String.string_of_list_ascii b.

(** [data[i]] and [data[i:j]]: [None] is the index or slice panic. *)
Definition index (data : bytes) (i : nat) : option ascii := data !! i.

Definition slice (data : bytes) (i j : nat) : option bytes :=
  if bool_decide (i <= j /\ j <= length data)%nat then Some (take (j - i) (drop i data)) else None.

Definition wsMsgMarketData : ascii := ascii_of_N 1.
Definition wsMsgWelcome : ascii := ascii_of_N 2.

(** The frames the client only reads past. *)
Definition control_frames : list ascii :=
  [ascii_of_N 5; ascii_of_N 10; ascii_of_N 3; ascii_of_N 6; ascii_of_N 4; ascii_of_N 8].

(** [binary.LittleEndian.Uint32]. *)
Definition le_uint32 (b : bytes) : option Z :=
  match b with
  | [b0; b1; b2; b3] =>
      Some (byte_val b0 + 256 * (byte_val b1 + 256 * (byte_val b2 + 256 * byte_val b3)))%Z
  | _ => None
  end.

(** A length-prefixed field at [offset]: its text and the offset after it; the
    inner [None] is the early return. *)
Definition read_field (data : bytes) (offset : nat) : option (option (string * nat)) :=
  if bool_decide (length data <= offset)%nat then Some None
  else
    n ← index data offset;
    let n := N.to_nat (N_of_ascii n) in
    let offset := S offset in
    if bool_decide (length data < offset + n)%nat then Some None
    else
      text ← slice data offset (offset + n);
      Some (Some (go_string text, (offset + n)%nat)).

(** [decodeBinaryTick]: [Some None] is [ok = false]. *)
Definition decodeBinaryTick (data : bytes) : option (option (string * string * f64)) :=
  if bool_decide (length data < 10)%nat then Some None
  else
    tag ← index data 0;
    if negb (Ascii.eqb tag wsMsgMarketData) then Some None
    else
      t ← read_field data 9;
      match t with
      | None => Some None
      | Some (token, offset) =>
          s ← read_field data offset;
          match s with
          | None => Some None
          | Some (symbol, offset) =>
              let offset := S offset in
              if bool_decide (length data < offset + 4)%nat then Some None
              else
                raw ← slice data offset (offset + 4);
                bits ← le_uint32 raw;
                let ltp := f32_bits_to_f64 bits in
                Some (if flt fzero ltp then Some (token, symbol, ltp) else None)
          end
      end.

(** What the feed sends: the layout in the comment of [decodeBinaryTick]. *)
Definition put_field (s : string) : bytes :=
  ascii_of_N (N.of_nat (String.length s)) :: String.list_ascii_of_string s.

Definition put_uint32 (z : Z) : bytes :=
  map (fun k => ascii_of_N (Z.to_N (Z.land (Z.shiftr z (8 * k)) 255))) [0; 1; 2; 3]%Z.

Definition encodeTick (timestamp : bytes) (token symbol : string) (exchange : ascii) (bits : Z)
  : bytes :=
  wsMsgMarketData :: timestamp ++ put_field token ++ put_field symbol ++ exchange :: put_uint32 bits.

(** ** The market client *)

Record MarketClient : Type := mkClient {
  subscribed : gset string;
  ltpCache : gmap string f64;
  connected : bool;
  healthy : bool;
  sent : list (list string)
}.

#[export] Instance eta_client : Eta MarketClient := fun c =>
  mkClient c.(subscribed) c.(ltpCache) c.(connected) c.(healthy) c.(sent).

(** The decoded JSON values the fallback looks at. *)
Inductive json : Type :=
  | JString (s : string)
  | JNumber (x : f64)
  | JObject (fields : list (string * json))
  | JOther.

Definition field (k : string) (fields : list (string * json)) : json :=
  match List.find (fun p => p.1 =?s k) fields with
  | Some (_, v) => v
  | None => JOther
  end.

Fixpoint extractString (fields : list (string * json)) (keys : list string) : string :=
  match keys with
  | [] => ""
  | k :: ks =>
      match field k fields with
      | JString v => if v =?s "" then extractString fields ks else v
      | _ => extractString fields ks
      end
  end.

Fixpoint extractFloat (fields : list (string * json)) (keys : list string) : f64 :=
  match keys with
  | [] => fzero
  | k :: ks => match field k fields with JNumber v => v | _ => extractFloat fields ks end
  end.

Definition store_ltp (key : string) (ltp : f64) (c : MarketClient) : MarketClient :=
  c <| ltpCache := <[key := ltp]> c.(ltpCache) |>.

(** The market data of a JSON message. *)
Definition json_tick (envelope : list (string * json)) : option (string * f64) :=
  match field "type" envelope with
  | JString ty =>
      if ty =?s "market_data" then
        let symbol := extractString envelope ["symbol"] in
        let ltp := match field "data" envelope with
                   | JObject nested => extractFloat nested ["ltp"; "last_traded_price"]
                   | _ => fzero
                   end in
        if negb (symbol =?s "") && flt fzero ltp then Some (symbol, ltp) else None
      else None
  | _ => None
  end.

(** The keys of a tick: the symbol, and the token when it is another one. *)
Definition tick_keys (token symbol : string) : list string :=
  (if symbol =?s "" then [] else [symbol]) ++
  (if negb (token =?s "") && negb (token =?s symbol) then [token] else []).

(** [processMessage]: the client after it, and the callbacks it makes in order.
    [unmarshal] is the JSON decoder on objects; [None] is a panic. *)
Definition processMessage (unmarshal : bytes -> option (list (string * json))) (msg : bytes)
    (c : MarketClient) : option (MarketClient * list (string * f64)) :=
  match msg with
  | [] => Some (c, [])
  | tag :: _ =>
      if Ascii.eqb tag wsMsgMarketData then
        r ← decodeBinaryTick msg;
        match r with
        | None => Some (c, [])
        | Some (token, symbol, ltp) =>
            let keys := tick_keys token symbol in
            Some (fold_left (fun c k => store_ltp k ltp c) keys c, map (fun k => (k, ltp)) keys)
        end
      else if Ascii.eqb tag wsMsgWelcome || existsb (Ascii.eqb tag) control_frames then Some (c, [])
      else
        match unmarshal msg with
        | None => Some (c, [])
        | Some envelope =>
            match json_tick envelope with
            | Some (symbol, ltp) => Some (store_ltp symbol ltp c, [(symbol, ltp)])
            | None => Some (c, [])
            end
        end
  end.

Definition GetLTP (symbol : string) (c : MarketClient) : f64 * bool :=
  match c.(ltpCache) !! symbol with
  | Some ltp => (ltp, flt fzero ltp)
  | None => (fzero, false)
  end.

(** The loop of [Subscribe]: the tokens that are new, in order. *)
Fixpoint new_tokens (tokens : list string) (known : gset string) : list string * gset string :=
  match tokens with
  | [] => ([], known)
  | t :: ts =>
      if negb (t =?s "") && negb (bool_decide (t ∈ known)) then
        let '(new, known) := new_tokens ts ({[t]} ∪ known) in (t :: new, known)
      else new_tokens ts known
  end.

Definition Subscribe (tokens : list string) (c : MarketClient) : MarketClient :=
  let '(new, known) := new_tokens tokens c.(subscribed) in
  let c := c <| subscribed := known |> in
  match new with
  | [] => c
  | _ => if c.(connected) then c <| sent := c.(sent) ++ [new] |> else c
  end.

Definition Unsubscribe (tokens : list string) (c : MarketClient) : MarketClient :=
  c <| subscribed := c.(subscribed) ∖ list_to_set tokens |>.

(** ** The monitor *)

Section Monitor.

Context {B C D : Type} `{BrokerClient B} `{CredentialsRefresher C} `{OrderRepository D}.

Abbreviation World := (World B C D).
Abbreviation M := (Go World).

(** The numeric token of a group, as [fmt.Sprintf] prints it. *)
Definition token_of (g : Group.t) : string := pretty g.(Group.StockCode).

(** The keys under which the monitor watches a group. *)
Definition watch_keys (g : Group.t) : list string :=
  g.(Group.Symbol) :: (if token_of g =?s g.(Group.Symbol) then [] else [token_of g]).

Definition watch (gid : uuid) (m : gmap string (list uuid)) (key : string)
  : gmap string (list uuid) :=
  <[key := default [] (m !! key) ++ [gid]]> m.

(** One pass of the loop of [refreshGroups]. *)
Definition watch_group (w : World) (m : gmap string (list uuid)) (gid : uuid)
  : gmap string (list uuid) :=
  match w.(heap) !! gid with
  | Some g => if g.(Group.TrailingSL) then fold_left (watch gid) (watch_keys g) m else m
  | None => m
  end.

(** [refreshGroups]: the new map, and the market client subscribed to the tokens
    of the watched groups. *)
Definition refreshGroups (w : World) (client : option MarketClient)
  : gmap string (list uuid) * option MarketClient :=
  let active := GetActiveGroups w in
  (fold_left (watch_group w) active ∅,
   fold_left (fun c gid =>
     match w.(heap) !! gid, c with
     | Some g, Some c => Some (if g.(Group.TrailingSL) then Subscribe [token_of g] c else c)
     | _, _ => c
     end) active client).

(** One evaluation run to its end: the computation and its modification. *)
Definition evaluateNow (now : Z) (gid : uuid) (ltp : f64) : M unit :=
  group ← getGroup gid;
  match CalculateTrailingSL group ltp with
  | None => mret tt
  | Some (trigger, limit) => _ ← ModifySLLeg now gid trigger limit ltp; mret tt
  end.

Definition evaluateActive (now : Z) (ltp : f64) (gid : uuid) : M unit :=
  group ← getGroup gid;
  if negb (is_state group StateActive) || negb group.(Group.TrailingSL) then mret tt
  else evaluateNow now gid ltp.

(** [OnPriceUpdate]. *)
Definition OnPriceUpdate (now : Z) (symbolGroups : gmap string (list uuid)) (symbol : string)
    (ltp : f64) : M unit :=
  forM (default [] (symbolGroups !! symbol)) (evaluateActive now ltp).

(** One group of [pollRedisForMissingSymbols]; [redis] answers by exchange and
    token. *)
Definition pollGroup (now : Z) (client : option MarketClient)
    (redis : string -> Z -> option f64) (gid : uuid) : M unit :=
  group ← getGroup gid;
  if negb (is_state group StateActive) || negb group.(Group.TrailingSL) then mret tt
  else
    let has_tick :=
      match client with
      | Some c => c.(healthy) && (GetLTP group.(Group.Symbol) c).2
      | None => false
      end in
    if has_tick then mret tt
    else
      match redis (ToLower group.(Group.Exchange)) group.(Group.StockCode) with
      | None => mret tt
      | Some ltp => evaluateNow now gid ltp
      end.

(** [pollRedisForMissingSymbols]: over the snapshot of the map, in the order in
    which it is ranged over. *)
Definition pollRedisForMissingSymbols (now : Z) (client : option MarketClient)
    (redis : option (string -> Z -> option f64)) (groups : list (list uuid)) : M unit :=
  match redis with
  | None => mret tt
  | Some redis => forM groups (fun gids => forM gids (pollGroup now client redis))
  end.

End Monitor.

(** ** Lemmas of the decoder *)

Lemma slice_some data i j :
  (i <= j <= length data)%nat -> slice data i j = Some (take (j - i) (drop i data)).
Proof. intros H. unfold slice. by rewrite bool_decide_true. Qed.

Lemma index_some (data : bytes) i : (i < length data)%nat -> exists a, index data i = Some a.
Proof. intros H. by apply lookup_lt_is_Some in H as [a Ha]; exists a. Qed.

Lemma le_uint32_some b : length b = 4%nat -> exists z, le_uint32 b = Some z.
Proof.
  intros H. destruct b as [|b0 [|b1 [|b2 [|b3 [|b4 b]]]]]; try discriminate H. eexists. reflexivity.
Qed.

(** Reading a field never leaves the data, and ends within it. *)
Lemma read_field_safe data offset :
  exists r, read_field data offset = Some r /\
    match r with Some (_, o) => (offset < o <= length data)%nat | None => True end.
Proof.
  unfold read_field. case_bool_decide as H1; [by exists None|].
  destruct (index_some data offset) as [a Ha]; [lia|]. rewrite Ha. cbn -[N.to_nat].
  case_bool_decide as H2; [by exists None|].
  rewrite slice_some by lia. cbn -[N.to_nat]. eexists. split; [reflexivity|]. cbn. lia.
Qed.

Lemma byte_val_ascii z : (0 <= z < 256)%Z -> byte_val (ascii_of_N (Z.to_N z)) = z.
Proof. intros H. unfold byte_val. rewrite N_ascii_embedding by lia. lia. Qed.

Lemma put_uint32_length z : length (put_uint32 z) = 4%nat.
Proof. reflexivity. Qed.

(** The four bytes of a 32-bit number give it back. *)
Lemma le_uint32_put z : (0 <= z < 2 ^ 32)%Z -> le_uint32 (put_uint32 z) = Some z.
Proof.
  intros H. unfold put_uint32, le_uint32. cbn [map].
  assert (Hb : forall k, (0 <= k)%Z -> byte_val (ascii_of_N (Z.to_N (Z.land (Z.shiftr z (8 * k)) 255)))
    = (z / 2 ^ (8 * k) mod 256)%Z).
  { intros k Hk. change 255%Z with (Z.ones 8). rewrite Z.land_ones, Z.shiftr_div_pow2 by lia.
    rewrite byte_val_ascii; [done|]. apply Z.mod_pos_bound. lia. }
  rewrite !Hb by lia. f_equal.
  change (8 * 0)%Z with 0%Z. change (8 * 1)%Z with 8%Z. change (8 * 2)%Z with 16%Z.
  change (8 * 3)%Z with 24%Z. rewrite Z.pow_0_r, Z.div_1_r.
  pose proof (Z.div_mod z 256 ltac:(lia)) as D0.
  pose proof (Z.div_mod (z / 256) 256 ltac:(lia)) as D1.
  pose proof (Z.div_mod (z / 256 / 256) 256 ltac:(lia)) as D2.
  rewrite !Z.div_div in D1, D2 by lia. rewrite Z.div_div in D2 by lia.
  change (256 * 256)%Z with (2 ^ 16)%Z in *. change (2 ^ 16 * 256)%Z with (2 ^ 24)%Z in *.
  change (2 ^ 8)%Z with 256%Z.
  rewrite (Z.mod_small (z / 2 ^ 24)); [lia|].
  split; [apply Z.div_pos; lia|]. apply Z.div_lt_upper_bound; lia.
Qed.

Lemma go_string_ascii s : go_string (String.list_ascii_of_string s) = s.
Proof. apply String.string_of_list_ascii_of_string. Qed.

Lemma put_field_length s : length (put_field s) = S (String.length s).
Proof. unfold put_field. cbn. f_equal. induction s; cbn; [done|by f_equal]. Qed.

Lemma ascii_list_length s : length (String.list_ascii_of_string s) = String.length s.
Proof. induction s; cbn; [done|by f_equal]. Qed.

(** A field that is whole is read back; the rest of the data does not matter. *)
Lemma read_field_put pre s rest :
  (String.length s < 256)%nat ->
  read_field (pre ++ put_field s ++ rest) (length pre) =
    Some (Some (s, (length pre + S (String.length s))%nat)).
Proof.
  intros Hs. pose proof (put_field_length s) as Hl. pose proof (ascii_list_length s) as Ha.
  unfold read_field. rewrite bool_decide_false by (rewrite !length_app, Hl; lia).
  unfold index. rewrite lookup_app_r, Nat.sub_diag by lia. unfold put_field. cbn -[N.to_nat].
  rewrite N_ascii_embedding by lia. rewrite Nat2N.id.
  rewrite bool_decide_false by (rewrite length_app; cbn; rewrite length_app; lia).
  rewrite slice_some by (rewrite length_app; cbn; rewrite length_app; lia).
  cbn. f_equal. f_equal. f_equal; [|lia].
  replace (S (length pre)) with (length (pre ++ [ascii_of_N (N.of_nat (String.length s))]))
    by (rewrite length_app; cbn; lia).
  rewrite (cons_middle _ pre (_ ++ rest)), (app_assoc pre [_]), drop_app_length.
  rewrite <- Ha. replace (length pre + _ - length pre)%nat
    with (length (String.list_ascii_of_string s)) by lia. rewrite take_app_length.
  apply go_string_ascii.
Qed.

(** A field that is cut off is not read. *)
Lemma read_field_cut pre s rest n :
  (String.length s < 256)%nat -> (length pre <= n < length pre + S (String.length s))%nat ->
  read_field (take n (pre ++ put_field s ++ rest)) (length pre) = Some None.
Proof.
  intros Hs Hn. pose proof (put_field_length s) as Hl.
  assert (Hlen : length (take n (pre ++ put_field s ++ rest)) = n).
  { rewrite length_take, !length_app, Hl. lia. }
  unfold read_field. rewrite Hlen. case_bool_decide as H1; [done|].
  unfold index. rewrite lookup_take_lt, lookup_app_r, Nat.sub_diag by lia. cbn -[N.to_nat].
  rewrite N_ascii_embedding by lia. rewrite Nat2N.id. by rewrite bool_decide_true by lia.
Qed.

(** A field that is whole in what is left of the data is read back. *)
Lemma read_field_take pre s rest n :
  (String.length s < 256)%nat -> (length pre + S (String.length s) <= n)%nat ->
  read_field (take n (pre ++ put_field s ++ rest)) (length pre) =
    Some (Some (s, (length pre + S (String.length s))%nat)).
Proof.
  intros Hs Hn. rewrite take_app_ge by lia. rewrite take_app_ge by (rewrite put_field_length; lia).
  by apply read_field_put.
Qed.

(** The frame cut at the places the decoder reads. *)
Lemma encode_split ts token symbol ex bits :
  length ts = 8%nat ->
  let pre1 := wsMsgMarketData :: ts in
  let pre2 := pre1 ++ put_field token in
  encodeTick ts token symbol ex bits = pre1 ++ put_field token ++ (put_field symbol ++ ex :: put_uint32 bits) /\
  encodeTick ts token symbol ex bits = pre2 ++ put_field symbol ++ (ex :: put_uint32 bits) /\
  length pre1 = 9%nat /\ length pre2 = (9 + S (String.length token))%nat /\
  length (encodeTick ts token symbol ex bits) =
    (9 + S (String.length token) + S (String.length symbol) + 5)%nat.
Proof.
  intros Hts. cbn zeta. unfold encodeTick. cbn [app]. rewrite <- !app_assoc.
  repeat split; try (cbn [length]; rewrite ?length_app, ?put_field_length, ?Hts; lia).
  cbn [length]. rewrite !length_app, !put_field_length, Hts. cbn. lia.
Qed.

(** The two fields of a whole frame, read one after the other. *)
Lemma read_frame ts token symbol ex bits :
  length ts = 8%nat -> (String.length token < 256)%nat -> (String.length symbol < 256)%nat ->
  let d := encodeTick ts token symbol ex bits in
  let o1 := (9 + S (String.length token))%nat in
  read_field d 9 = Some (Some (token, o1)) /\
  read_field d o1 = Some (Some (symbol, (o1 + S (String.length symbol))%nat)).
Proof.
  intros Hts H1 H2. cbn zeta. destruct (encode_split ts token symbol ex bits Hts) as (E1 & E2 & L1 & L2 & _).
  split.
  - rewrite E1, <- L1. by apply read_field_put.
  - rewrite E2, <- L2. by apply read_field_put.
Qed.

(** ** Lemmas of the subscriptions *)

Lemma new_tokens_spec tokens known :
  let r := new_tokens tokens known in
  (forall t, t ∈ r.2 <-> t ∈ known \/ (t ∈ tokens /\ t <> "")) /\ NoDup r.1 /\
  (forall t, t ∈ r.1 <-> t ∈ tokens /\ t <> "" /\ t ∉ known).
Proof.
  cbn zeta. revert known. induction tokens as [|t ts IH]; intros known; cbn.
  { split; [set_solver|]. split; [constructor|set_solver]. }
  destruct (String.eqb_spec t "") as [->|Hne]; cbn [negb andb].
  { destruct (IH known) as (I1 & I2 & I3). split; [set_solver|]. split; [done|set_solver]. }
  case_bool_decide as Hin; cbn [negb].
  { destruct (IH known) as (I1 & I2 & I3). split; [set_solver|]. split; [done|set_solver]. }
  destruct (IH ({[t]} ∪ known)) as (I1 & I2 & I3).
  destruct (new_tokens ts ({[t]} ∪ known)) as [new known']. cbn in *.
  split; [set_solver|]. split; [constructor; [|done]; rewrite I3; set_solver|].
  intros x. rewrite !elem_of_cons, I3, not_elem_of_union, elem_of_singleton.
  destruct (decide (x = t)) as [->|]; tauto.
Qed.

Lemma new_tokens_known tokens known :
  (forall t, t ∈ tokens -> t <> "" -> t ∈ known) -> new_tokens tokens known = ([], known).
Proof.
  induction tokens as [|t ts IH]; intros Hk; cbn; [done|].
  destruct (String.eqb_spec t "") as [->|Hne]; cbn [negb andb]; [apply IH; set_solver|].
  rewrite bool_decide_true by set_solver. apply IH. set_solver.
Qed.

(** ** Lemmas of the monitor *)

Lemma default_watch gid m key key' :
  default [] (watch gid m key !! key') =
  default [] (m !! key') ++ (if decide (key = key') then [gid] else []).
Proof.
  unfold watch. rewrite lookup_insert. case_decide; [by subst|]. by rewrite app_nil_r.
Qed.

Section MonitorLemmas.

Context {B C D : Type} {HB : BrokerClient B} {HC : CredentialsRefresher C}
  {HD : OrderRepository D}.

Abbreviation World := (World B C D).

(** The keys of a group are distinct, so a group is watched once per key. *)
Lemma default_watch_keys gid g m key :
  default [] (fold_left (watch gid) (watch_keys g) m !! key) =
  default [] (m !! key) ++ (if decide (key ∈ watch_keys g) then [gid] else []).
Proof.
  unfold watch_keys. destruct (String.eqb_spec (token_of g) (Group.Symbol g)) as [E|E]; cbn;
    rewrite !default_watch, <- ?app_assoc; f_equal; repeat case_decide; subst; set_solver.
Qed.

Definition watched (w : World) (key : string) (gid : uuid) : bool :=
  match w.(heap) !! gid with
  | Some g => g.(Group.TrailingSL) && bool_decide (key ∈ watch_keys g)
  | None => false
  end.

Lemma watch_group_lookup (w : World) m gid key :
  default [] (watch_group w m gid !! key) =
  default [] (m !! key) ++ (if watched w key gid then [gid] else []).
Proof.
  unfold watch_group, watched. destruct (heap w !! gid) as [g|]; [|by rewrite app_nil_r].
  destruct (Group.TrailingSL g); cbn [andb]; [|by rewrite app_nil_r].
  rewrite default_watch_keys. f_equal. by repeat case_decide || case_bool_decide.
Qed.

Lemma watch_groups_lookup (w : World) gids m key :
  default [] (fold_left (watch_group w) gids m !! key) =
  default [] (m !! key) ++ List.filter (watched w key) gids.
Proof.
  revert m. induction gids as [|gid gids IH]; intros m; cbn; [by rewrite app_nil_r|].
  rewrite IH, watch_group_lookup, <- app_assoc. by destruct (watched w key gid).
Qed.

End MonitorLemmas.

(** ** Properties *)

(** The decoder reads within its data: no frame the network delivers makes it
    panic, whatever its bytes and its length. *)
Theorem decode_never_out_of_bounds data : exists r, decodeBinaryTick data = Some r.
Proof.
  unfold decodeBinaryTick. case_bool_decide as Hlen; [by eexists|].
  destruct (index_some data 0) as [tag Ht]; [lia|]. rewrite Ht. cbn [mbind option_bind].
  case_match; [by eexists|].
  destruct (read_field_safe data 9) as (r1 & E1 & B1). rewrite E1. cbn [mbind option_bind].
  destruct r1 as [[token o1]|]; [|by eexists].
  destruct (read_field_safe data o1) as (r2 & E2 & B2). rewrite E2. cbn [mbind option_bind].
  destruct r2 as [[symbol o2]|]; [|by eexists].
  case_bool_decide as Hb; [by eexists|]. rewrite slice_some by lia. cbn [mbind option_bind].
  destruct (le_uint32_some (take (S o2 + 4 - S o2) (drop (S o2) data))) as [z Hz].
  { rewrite length_take, length_drop. lia. }
  rewrite Hz. cbn [mbind option_bind]. by eexists.
Qed.

(** A frame in the documented layout decodes to the token, the symbol and the
    price it was built from; a price that is not positive is reported as no tick. *)
Theorem decode_encode ts token symbol ex bits :
  length ts = 8%nat -> (String.length token < 256)%nat -> (String.length symbol < 256)%nat ->
  (0 <= bits < 2 ^ 32)%Z ->
  decodeBinaryTick (encodeTick ts token symbol ex bits) =
  Some (if flt fzero (f32_bits_to_f64 bits) then Some (token, symbol, f32_bits_to_f64 bits)
        else None).
Proof.
  intros Hts H1 H2 Hb. destruct (encode_split ts token symbol ex bits Hts) as (_ & E2 & _ & L2 & L).
  destruct (read_frame ts token symbol ex bits Hts H1 H2) as [R1 R2].
  unfold decodeBinaryTick. rewrite bool_decide_false by (rewrite L; lia).
  change (index (encodeTick ts token symbol ex bits) 0) with (Some wsMsgMarketData).
  cbn [mbind option_bind]. rewrite Ascii.eqb_refl. cbn [negb]. rewrite R1. cbn [mbind option_bind].
  rewrite R2. cbn [mbind option_bind]. rewrite bool_decide_false by (rewrite L; lia).
  rewrite slice_some by (rewrite L; lia). cbn [mbind option_bind].
  replace (take _ (drop _ _)) with (put_uint32 bits); [by rewrite le_uint32_put|].
  rewrite E2. set (pre2 := (_ :: ts) ++ _) in *.
  replace (pre2 ++ put_field symbol ++ ex :: put_uint32 bits)
    with ((pre2 ++ put_field symbol ++ [ex]) ++ put_uint32 bits) by (by rewrite <- !app_assoc).
  rewrite drop_app_length' by (rewrite !length_app, L2, put_field_length; cbn; lia).
  rewrite firstn_all2; [done|]. rewrite put_uint32_length. lia.
Qed.

(** A frame that was cut off is no tick: every strict prefix of a frame is
    rejected, so that a partial message is never read as a price. *)
Theorem truncated_frame_rejected ts token symbol ex bits n :
  length ts = 8%nat -> (String.length token < 256)%nat -> (String.length symbol < 256)%nat ->
  (n < length (encodeTick ts token symbol ex bits))%nat ->
  decodeBinaryTick (take n (encodeTick ts token symbol ex bits)) = Some None.
Proof.
  intros Hts H1 H2 Hn. destruct (encode_split ts token symbol ex bits Hts) as (E1 & E2 & L1 & L2 & L).
  assert (Hl : length (take n (encodeTick ts token symbol ex bits)) = n) by (rewrite length_take; lia).
  unfold decodeBinaryTick. rewrite Hl. case_bool_decide as Hn10; [done|].
  unfold index. rewrite lookup_take_lt by lia. cbn [lookup list_lookup encodeTick mbind option_bind].
  rewrite Ascii.eqb_refl. cbn [negb].
  destruct (decide (n < 9 + S (String.length token))%nat) as [Ht|Ht].
  { rewrite E1, <- L1, read_field_cut by lia. done. }
  assert (R1 : read_field (take n (encodeTick ts token symbol ex bits)) 9 =
    Some (Some (token, (9 + S (String.length token))%nat))).
  { rewrite E1, <- L1. apply read_field_take; lia. }
  rewrite R1. cbn [mbind option_bind].
  destruct (decide (n < 9 + S (String.length token) + S (String.length symbol))%nat) as [Hs|Hs].
  { rewrite E2, <- L2, read_field_cut by lia. done. }
  assert (R2 : read_field (take n (encodeTick ts token symbol ex bits)) (9 + S (String.length token)) =
    Some (Some (symbol, (9 + S (String.length token) + S (String.length symbol))%nat))).
  { rewrite E2, <- L2. apply read_field_take; lia. }
  rewrite R2. cbn [mbind option_bind]. by rewrite bool_decide_true by lia.
Qed.

Lemma decode_encode_witness :
  decodeBinaryTick (encodeTick (replicate 8 (ascii_of_N 7)) "11536" "TCS" (ascii_of_N 1) 1120403456) =
  Some (Some ("11536", "TCS", of_Z 100)).
Proof.
  rewrite (decode_encode (replicate 8 (ascii_of_N 7)) "11536" "TCS" (ascii_of_N 1) 1120403456);
    [vm_compute; reflexivity|reflexivity|cbn; lia|cbn; lia|lia].
Defined.

Lemma truncated_frame_rejected_witness :
  decodeBinaryTick (take 21 (encodeTick (replicate 8 (ascii_of_N 7)) "11536" "TCS" (ascii_of_N 1)
    1120403456)) = Some None.
Proof.
  apply (truncated_frame_rejected (replicate 8 (ascii_of_N 7)) "11536" "TCS" (ascii_of_N 1)
    1120403456 21); [reflexivity|cbn; lia..].
Defined.

(** After a refresh the monitor watches exactly the registered active groups with
    a trailing stop, each under its symbol and its numeric token, and once per key. *)
Theorem refresh_watches_active {B C D} `{BrokerClient B} `{CredentialsRefresher C}
    `{OrderRepository D} (w : World B C D) client key gid :
  let watching := default [] ((refreshGroups w client).1 !! key) in
  NoDup watching /\
  (gid ∈ watching <-> gid ∈ w.(groups) /\ exists g, w.(heap) !! gid = Some g /\
     g.(Group.State) = StateActive /\ g.(Group.TrailingSL) = true /\
     (key = g.(Group.Symbol) \/ key = token_of g)).
Proof.
  cbn zeta. unfold refreshGroups. cbn [fst]. rewrite watch_groups_lookup, lookup_empty. cbn [default app].
  unfold GetActiveGroups. split.
  - apply NoDup_ListNoDup, List.NoDup_filter, List.NoDup_filter, NoDup_ListNoDup, NoDup_elements.
  - rewrite list_elem_of_In, !filter_In, <- list_elem_of_In, elem_of_elements. unfold watched, is_state.
    destruct (heap w !! gid) as [g|]; [|naive_solver].
    rewrite andb_true_iff, !bool_decide_eq_true.
    assert (Hk : key ∈ watch_keys g <-> key = Group.Symbol g \/ key = token_of g).
    { unfold watch_keys. destruct (String.eqb_spec (token_of g) (Group.Symbol g)); set_solver. }
    rewrite Hk. naive_solver.
Qed.

(** A subscription is sent once: [Subscribe] sends exactly the tokens that were
    not subscribed, each of them once and none empty, and repeating it sends
    nothing. *)
Theorem subscribe_once tokens c :
  let c' := Subscribe tokens c in
  (forall t, t ∈ c'.(subscribed) <-> t ∈ c.(subscribed) \/ (t ∈ tokens /\ t <> "")) /\
  (exists new, NoDup new /\ (forall t, t ∈ new <-> t ∈ tokens /\ t <> "" /\ t ∉ c.(subscribed)) /\
     c'.(sent) = c.(sent) ++ (if c.(connected) && negb (bool_decide (new = [])) then [new] else [])) /\
  Subscribe tokens c' = c'.
Proof.
  cbn zeta. destruct (new_tokens_spec tokens c.(subscribed)) as (Hk & Hnd & Hnew).
  unfold Subscribe at 1 2. destruct (new_tokens tokens c.(subscribed)) as [new known] eqn:E.
  cbn [fst snd] in Hk, Hnd, Hnew. split; [|split].
  - intros t. rewrite <- Hk. destruct new; cbn; [done|]. by destruct (connected c).
  - exists new. split; [done|]. split; [done|]. destruct new as [|t0 new]; cbn; [by rewrite andb_false_r, app_nil_r|].
    destruct (connected c); cbn; by rewrite ?app_nil_r.
  - unfold Subscribe. rewrite E.
    assert (Hn : new_tokens tokens known = ([], known)).
    { apply new_tokens_known. intros t Ht Hne. apply Hk. by right. }
    destruct new as [|t0 new]; cbn; [by rewrite Hn|].
    destruct (connected c) eqn:Ec; cbn; by rewrite Hn.
Qed.
