(* ===== verification/RuleModels.v ===== *)
(** * The rules engine's data

    [rules-engine/internal/models]: strategies ([strategy.go]), market events
    ([event.go]), matches and order requests ([order.go]), with their
    validation.  A nil and an empty Go slice behave alike in this code and are
    the empty list; a [time.Time] is its instant in nanoseconds. *)

From stdpp Require Import base tactics strings list.
From Stdlib Require Import ZArith Lia.
From S2P Require Import Prelude GoFloat GoStrings.

Open Scope string_scope.
Open Scope list_scope.
Open Scope Z_scope.

(** The errors of [models/errors.go] the code below returns. *)
Inductive ModelError :=
  | ErrInvalidEventID | ErrInvalidStockCode | ErrInvalidExchange | ErrInvalidImpactScore
  | ErrInvalidStrategyID | ErrInvalidUserID | ErrInvalidQuantity | ErrInvalidOrderType
  | ErrInvalidOrderID | ErrInvalidPrice.

#[export] Instance ModelError_eq_dec : EqDecision ModelError.
Proof. solve_decision. Defined.

Record MultiLevelExitLevel := MkLevel { LevelNum : Z; PricePct : f64; QtyPct : f64 }.

Module Conditions.
Record t := mk {
  MatchAllNews : bool;
  ImpactScoreMin : Z;
  ImpactScoreMax : Z;
  Sentiments : list string;
  Categories : list string;
  MinPrice : f64;
  MaxPrice : f64;
  MinPctChange : f64;
  MaxPctChange : f64;
  Exchanges : list string;
  MarketCapTypes : list string;
  MinMcap : f64;
  MaxMcap : f64
}.
#[global] Instance eta_conditions : Eta t := fun c =>
  mk c.(MatchAllNews) c.(ImpactScoreMin) c.(ImpactScoreMax) c.(Sentiments) c.(Categories)
     c.(MinPrice) c.(MaxPrice) c.(MinPctChange) c.(MaxPctChange) c.(Exchanges)
     c.(MarketCapTypes) c.(MinMcap) c.(MaxMcap).
End Conditions.

Module TradeConfig.
Record t := mk {
  OrderType : string;
  Quantity : Z;
  MaxPositionSize : f64;
  StopLossPct : f64;
  TakeProfitPct : f64;
  Exchange : string;
  OrderSide : string;
  Validity : string;
  LimitPrice : f64;
  StopLossType : string;
  TakeProfitType : string;
  TrailingSLPct : f64;
  ProductType : string;
  MultiLevelSL : list MultiLevelExitLevel;
  MultiLevelTP : list MultiLevelExitLevel;
  TradeWindowStart : string;
  TradeWindowEnd : string
}.
#[global] Instance eta_trade_config : Eta t := fun c =>
  mk c.(OrderType) c.(Quantity) c.(MaxPositionSize) c.(StopLossPct) c.(TakeProfitPct)
     c.(Exchange) c.(OrderSide) c.(Validity) c.(LimitPrice) c.(StopLossType)
     c.(TakeProfitType) c.(TrailingSLPct) c.(ProductType) c.(MultiLevelSL) c.(MultiLevelTP)
     c.(TradeWindowStart) c.(TradeWindowEnd).
End TradeConfig.

Module RiskLimits.
Record t := mk {
  MaxDailyTrades : Z;
  MaxLossPerDay : f64;
  MaxPositionSize : f64;
  MaxPerTradeRisk : f64;
  PositionSizing : string;
  EnableAutoSquareOff : bool;
  AutoSquareOffTime : string;
  MaxAmountPerStock : f64;
  MaxTradesPerStrategy : Z
}.
#[global] Instance eta_risk_limits : Eta t := fun c =>
  mk c.(MaxDailyTrades) c.(MaxLossPerDay) c.(MaxPositionSize) c.(MaxPerTradeRisk)
     c.(PositionSizing) c.(EnableAutoSquareOff) c.(AutoSquareOffTime)
     c.(MaxAmountPerStock) c.(MaxTradesPerStrategy).
End RiskLimits.

Module Strategy.
Record t := mk {
  StrategyID : string;
  UserID : string;
  StrategyName : string;
  Version : Z;
  Active : bool;
  TradingMode : string;
  Conditions : Conditions.t;
  TradeConfig : TradeConfig.t;
  RiskLimits : RiskLimits.t;
  CreatedAt : Z;
  UpdatedAt : Z;
  BearerToken : string;
  AppId : string;
  Source : string
}.
#[global] Instance eta_strategy : Eta t := fun s =>
  mk s.(StrategyID) s.(UserID) s.(StrategyName) s.(Version) s.(Active) s.(TradingMode)
     s.(Conditions) s.(TradeConfig) s.(RiskLimits) s.(CreatedAt) s.(UpdatedAt)
     s.(BearerToken) s.(AppId) s.(Source).
End Strategy.

(** [Strategy.Validate]; [None] is the nil error. *)
Definition validateStrategy (s : Strategy.t) : option ModelError :=
  let c := s.(Strategy.Conditions) in
  let tc := s.(Strategy.TradeConfig) in
  if String.eqb s.(Strategy.StrategyID) "" then Some ErrInvalidStrategyID
  else if String.eqb s.(Strategy.UserID) "" then Some ErrInvalidUserID
  else if (c.(Conditions.ImpactScoreMin) <? 0) || (c.(Conditions.ImpactScoreMin) >? 10) then
    Some ErrInvalidImpactScore
  else if (c.(Conditions.ImpactScoreMax) <? 0) || (c.(Conditions.ImpactScoreMax) >? 10) then
    Some ErrInvalidImpactScore
  else if feq s.(Strategy.RiskLimits).(RiskLimits.MaxAmountPerStock) fzero
          && (tc.(TradeConfig.Quantity) <=? 0) then Some ErrInvalidQuantity
  else if negb (one_of tc.(TradeConfig.OrderType) ["MARKET"; "LIMIT"; "BRACKET"; "STOP_LOSS"]) then
    Some ErrInvalidOrderType
  else None.

Module StockData.
Record t := mk {
  StockCode : Z;
  NSECode : Z;
  BSECode : Z;
  Exchange : string;
  Symbol : string;
  ISIN : string;
  CompanyName : string;
  MCap : f64;
  MCapType : string
}.
End StockData.

Module NewsData.
Record t := mk {
  NewsID : string;
  NewsLink : string;
  Category : string;
  ShortSummary : string;
  DocumentDate : Z
}.
End NewsData.

Module Analysis.
Record t := mk { Sentiment : string; Impact : string; ImpactScore : Z }.
End Analysis.

Module MarketData.
Record t := mk {
  LastTradedPrice : f64;
  PctChange : f64;
  NewsFirstPrice : f64;
  NewsPctChange : f64;
  Open : f64;
  High : f64;
  Low : f64;
  Volume : Z;
  PrevClose : f64
}.
End MarketData.

Module MarketEvent.
Record t := mk {
  EventID : string;
  EventType : string;
  Timestamp : Z;
  StockData : StockData.t;
  NewsData : NewsData.t;
  Analysis : Analysis.t;
  MarketData : MarketData.t
}.
#[global] Instance eta_market_event : Eta t := fun e =>
  mk e.(EventID) e.(EventType) e.(Timestamp) e.(StockData) e.(NewsData) e.(Analysis)
     e.(MarketData).
End MarketEvent.

(** [MarketEvent.Validate]: the event it leaves (it fills in the type) and the
    error. *)
Definition validateEvent (e : MarketEvent.t) : MarketEvent.t * option ModelError :=
  if String.eqb e.(MarketEvent.EventID) "" then (e, Some ErrInvalidEventID)
  else
    let e := if String.eqb e.(MarketEvent.EventType) ""
             then (e <| MarketEvent.EventType := "news" |>)%go else e in
    let score := e.(MarketEvent.Analysis).(Analysis.ImpactScore) in
    (e,
     if e.(MarketEvent.StockData).(StockData.StockCode) <=? 0 then Some ErrInvalidStockCode
     else if String.eqb e.(MarketEvent.StockData).(StockData.Exchange) "" then
       Some ErrInvalidExchange
     else if (score <? 0) || (score >? 10) then Some ErrInvalidImpactScore
     else None).

(** [Analysis.GetSentimentValue]. *)
Definition GetSentimentValue (a : Analysis.t) : string :=
  let s := a.(Analysis.Sentiment) in
  if one_of s ["Positive"; "positive"; "POSITIVE"] then "positive"
  else if one_of s ["Negative"; "negative"; "NEGATIVE"] then "negative"
  else if one_of s ["Neutral"; "neutral"; "NEUTRAL"] then "neutral"
  else "neutral".

Module RuleMatch.
Record t := mk {
  UserID : string;
  StrategyID : string;
  StrategyName : string;
  Strategy : option Strategy.t;
  MatchScore : f64;
  MatchedConditions : list string;
  FailedConditions : list string;
  ApprovedByRisk : bool;
  OrderRequestID : string;
  Timestamp : Z;
  EventID : string;
  PctChangeStatus : string
}.
End RuleMatch.

Module OrderRequest.
Record t := mk {
  OrderID : string;
  UserID : string;
  StrategyID : string;
  StrategyName : string;
  EventID : string;
  StockCode : Z;
  Token : Z;
  Symbol : string;
  Exchange : string;
  OrderType : string;
  Quantity : Z;
  Price : f64;
  StopLoss : f64;
  TakeProfit : f64;
  Timestamp : Z;
  MatchScore : f64;
  ImpactScore : Z;
  Sentiment : string;
  NewsCategory : string;
  RiskApproved : bool;
  RiskScore : f64;
  RetryCount : Z;
  OrderSide : string;
  Validity : string;
  BearerToken : string;
  AppId : string;
  Source : string;
  StopLossType : string;
  TakeProfitType : string;
  StopLossPct : f64;
  TakeProfitPct : f64;
  TrailingSLPct : f64;
  MultiLevelSL : list MultiLevelExitLevel;
  MultiLevelTP : list MultiLevelExitLevel;
  ProductType : string;
  TradingMode : string;
  PctChangeStatus : string;
  CurrentPctChange : f64;
  MaxMonitorPrice : f64;
  AutoSquareOffTime : string
}.
#[global] Instance eta_order_request : Eta t := fun o =>
  mk o.(OrderID) o.(UserID) o.(StrategyID) o.(StrategyName) o.(EventID) o.(StockCode)
     o.(Token) o.(Symbol) o.(Exchange) o.(OrderType) o.(Quantity) o.(Price) o.(StopLoss)
     o.(TakeProfit) o.(Timestamp) o.(MatchScore) o.(ImpactScore) o.(Sentiment)
     o.(NewsCategory) o.(RiskApproved) o.(RiskScore) o.(RetryCount) o.(OrderSide)
     o.(Validity) o.(BearerToken) o.(AppId) o.(Source) o.(StopLossType) o.(TakeProfitType)
     o.(StopLossPct) o.(TakeProfitPct) o.(TrailingSLPct) o.(MultiLevelSL) o.(MultiLevelTP)
     o.(ProductType) o.(TradingMode) o.(PctChangeStatus) o.(CurrentPctChange)
     o.(MaxMonitorPrice) o.(AutoSquareOffTime).
End OrderRequest.

(** The product type [NewOrderRequest] resolves. *)
Definition resolve_product (tc : TradeConfig.t) : string :=
  if String.eqb tc.(TradeConfig.OrderType) "BRACKET" then
    if String.eqb tc.(TradeConfig.StopLossType) "TRAILING" then "INTRADAY" else "BRACKET"
  else if String.eqb tc.(TradeConfig.ProductType) "" then "INTRADAY"
  else tc.(TradeConfig.ProductType).

(** [NewOrderRequest]; [orderID] is the fresh uuid, [now] the clock. *)
Definition NewOrderRequest (orderID : string) (now : Z) (m : RuleMatch.t)
    (e : MarketEvent.t) (s : Strategy.t) : OrderRequest.t :=
  let tc := s.(Strategy.TradeConfig) in
  let stock := e.(MarketEvent.StockData) in
  OrderRequest.mk orderID s.(Strategy.UserID) s.(Strategy.StrategyID) s.(Strategy.StrategyName)
    e.(MarketEvent.EventID) stock.(StockData.StockCode) stock.(StockData.StockCode)
    stock.(StockData.Symbol) stock.(StockData.Exchange) tc.(TradeConfig.OrderType)
    tc.(TradeConfig.Quantity) fzero fzero fzero now m.(RuleMatch.MatchScore)
    e.(MarketEvent.Analysis).(Analysis.ImpactScore) e.(MarketEvent.Analysis).(Analysis.Sentiment)
    e.(MarketEvent.NewsData).(NewsData.Category) false fzero 0 "BUY" "DAY"
    s.(Strategy.BearerToken) s.(Strategy.AppId) s.(Strategy.Source)
    (if String.eqb tc.(TradeConfig.StopLossType) "" then "FIXED" else tc.(TradeConfig.StopLossType))
    tc.(TradeConfig.TakeProfitType) tc.(TradeConfig.StopLossPct) tc.(TradeConfig.TakeProfitPct)
    tc.(TradeConfig.TrailingSLPct) tc.(TradeConfig.MultiLevelSL) tc.(TradeConfig.MultiLevelTP)
    (resolve_product tc) s.(Strategy.TradingMode) "" fzero fzero
    (if s.(Strategy.RiskLimits).(RiskLimits.EnableAutoSquareOff)
     then s.(Strategy.RiskLimits).(RiskLimits.AutoSquareOffTime) else "").

(** [OrderRequest.Validate]. *)
Definition validateOrder (o : OrderRequest.t) : option ModelError :=
  if String.eqb o.(OrderRequest.OrderID) "" then Some ErrInvalidOrderID
  else if String.eqb o.(OrderRequest.UserID) "" then Some ErrInvalidUserID
  else if String.eqb o.(OrderRequest.StrategyID) "" then Some ErrInvalidStrategyID
  else if o.(OrderRequest.StockCode) <=? 0 then Some ErrInvalidStockCode
  else if String.eqb o.(OrderRequest.Exchange) "" then Some ErrInvalidExchange
  else if o.(OrderRequest.Quantity) <=? 0 then Some ErrInvalidQuantity
  else if fle o.(OrderRequest.Price) fzero then Some ErrInvalidPrice
  else if negb (one_of o.(OrderRequest.OrderType) ["MARKET"; "LIMIT"; "BRACKET"; "STOP_LOSS"]) then
    Some ErrInvalidOrderType
  else None.

(** What a validated order request satisfies. *)
Lemma validateOrder_ok o :
  validateOrder o = None ->
  o.(OrderRequest.OrderID) <> "" /\ o.(OrderRequest.UserID) <> "" /\
  o.(OrderRequest.StrategyID) <> "" /\ 0 < o.(OrderRequest.StockCode) /\
  o.(OrderRequest.Exchange) <> "" /\ 0 < o.(OrderRequest.Quantity) /\
  fle o.(OrderRequest.Price) fzero = false /\
  one_of o.(OrderRequest.OrderType) ["MARKET"; "LIMIT"; "BRACKET"; "STOP_LOSS"] = true.
Proof.
  unfold validateOrder. intros H.
  destruct (String.eqb_spec o.(OrderRequest.OrderID) ""); [done|].
  destruct (String.eqb_spec o.(OrderRequest.UserID) ""); [done|].
  destruct (String.eqb_spec o.(OrderRequest.StrategyID) ""); [done|].
  destruct (Z.leb_spec o.(OrderRequest.StockCode) 0); [done|].
  destruct (String.eqb_spec o.(OrderRequest.Exchange) ""); [done|].
  destruct (Z.leb_spec o.(OrderRequest.Quantity) 0); [done|].
  destruct (fle o.(OrderRequest.Price) fzero); [done|].
  by destruct (one_of _ _).
Qed.

(** A validated event passes the checks and is otherwise unchanged. *)
Lemma validateEvent_id e e' err :
  validateEvent e = (e', err) ->
  e'.(MarketEvent.EventID) = e.(MarketEvent.EventID) /\
  (err = None -> e.(MarketEvent.EventID) <> "" /\ validateEvent e' = (e', None)).
Proof.
  unfold validateEvent.
  destruct (String.eqb_spec e.(MarketEvent.EventID) "") as [Hid|Hid].
  { intros [= <- <-]. done. }
  destruct e as [id ty ts st nd an md]; cbn in *.
  destruct (String.eqb_spec ty "") as [->|Hty]; intros [= <- <-]; cbn.
  - split; [done|]. intros Herr. split; [done|].
    destruct (String.eqb_spec id ""); [done|]. cbn. by rewrite Herr.
  - split; [done|]. intros Herr. split; [done|].
    destruct (String.eqb_spec id ""); [done|]. destruct (String.eqb_spec ty ""); [done|].
    cbn. by rewrite Herr.
Qed.
