(* ===== verification/ConfigStore.v ===== *)
(** * The strategy store of the rules engine

    [rules-engine/internal/configstore]: the published snapshot, its single
    writer with versions and tombstones ([store.go]), and the facade the bulk
    load and the event consumer use ([config_store.go]).  A strategy pointer is
    the strategy: the code treats a published strategy as immutable.  [now] is
    the clock read when the snapshot is published. *)

From stdpp Require Import base tactics strings list gmap fin_maps sorting.
From Stdlib Require Import ZArith Lia Ascii.
From S2P Require Import Prelude GoFloat GoStrings RuleModels.

Open Scope string_scope.
Open Scope list_scope.
Open Scope Z_scope.

Inductive StoreError := ErrNilStrategy | ErrMissingIDs | ErrNilConfig.

Module UserView.
Record t := mk { Active : gmap string Strategy.t; Paused : gmap string Strategy.t }.
(** The zero value of a Go map lookup that misses: both maps nil. *)
Definition zero : t := mk ∅ ∅.
End UserView.

Module Snapshot.
Record t := mk {
  GeneratedAt : Z;
  ByUser : gmap string UserView.t;
  AllActive : list Strategy.t;
  TotalUsers : Z;
  TotalStrategies : Z;
  TotalActive : Z;
  TotalPaused : Z;
  TotalDeletedTombsto : Z
}.
#[global] Instance eta_snapshot : Eta t := fun s =>
  mk s.(GeneratedAt) s.(ByUser) s.(AllActive) s.(TotalUsers) s.(TotalStrategies)
     s.(TotalActive) s.(TotalPaused) s.(TotalDeletedTombsto).
End Snapshot.

Definition msize {A} (m : gmap string A) : Z := Z.of_nat (size m).

(** The keys of a map, sorted: the loop over a Go map collects them in any
    order and [sort.Strings] orders them. *)
Definition sorted_keys {A} (m : gmap string A) : list string :=
  sort_strings (map_to_list m).*1.

Definition newEmptySnapshot (now : Z) : Snapshot.t := Snapshot.mk now ∅ [] 0 0 0 0 0.

(** The strategies of one user in the flattened view. *)
Definition user_active (uv : UserView.t) : list Strategy.t :=
  omap (fun sid => uv.(UserView.Active) !! sid) (sorted_keys uv.(UserView.Active)).

Definition rebuildAllActive (s : Snapshot.t) : Snapshot.t :=
  let byUser := s.(Snapshot.ByUser) in
  let total f := map_fold (fun _ uv n => n + f uv) 0 byUser in
  let active uv := msize uv.(UserView.Active) in
  let paused uv := msize uv.(UserView.Paused) in
  (s <| Snapshot.AllActive :=
          flat_map (fun uid => default [] (user_active <$> byUser !! uid)) (sorted_keys byUser) |>
     <| Snapshot.TotalUsers := msize byUser |>
     <| Snapshot.TotalStrategies := total (fun uv => active uv + paused uv) |>
     <| Snapshot.TotalActive := total active |>
     <| Snapshot.TotalPaused := total paused |>)%go.

Definition Finalize (now : Z) (s : Snapshot.t) : Snapshot.t :=
  (rebuildAllActive s <| Snapshot.GeneratedAt := now |>)%go.

(** [cloneSnapshotShallow]: the derived fields are zero until [Finalize]. *)
Definition cloneSnapshotShallow (cur : Snapshot.t) : Snapshot.t :=
  Snapshot.mk cur.(Snapshot.GeneratedAt) cur.(Snapshot.ByUser) [] 0 0 0 0 0.

Definition cloneUserView (uv : UserView.t) : UserView.t :=
  UserView.mk uv.(UserView.Active) uv.(UserView.Paused).

(** The [Writer] with the [Store] it publishes to. *)
Module Writer.
Record t := mk {
  published : Snapshot.t;
  current : Snapshot.t;
  tombstones : gmap string Z;
  versions : gmap string Z
}.
#[global] Instance eta_writer : Eta t := fun w =>
  mk w.(published) w.(current) w.(tombstones) w.(versions).
End Writer.

(** [New], [NewStore], [NewWriter]. *)
Definition NewConfigStore (now : Z) : Writer.t :=
  Writer.mk (newEmptySnapshot now) (newEmptySnapshot now) ∅ ∅.

Definition ReplaceSnapshot (now : Z) (next : Snapshot.t) (w : Writer.t) : Writer.t :=
  (w <| Writer.published := (next <| Snapshot.GeneratedAt := now |>)%go |>)%go.

Definition Commit (now : Z) (next : Snapshot.t) (w : Writer.t) : Writer.t :=
  (ReplaceSnapshot now next w <| Writer.current := (next <| Snapshot.GeneratedAt := now |>)%go |>)%go.

Definition resetFromStore (w : Writer.t) : Writer.t :=
  (w <| Writer.current := w.(Writer.published) |>)%go.

Definition writer_key (userID strategyID : string) : string :=
  (userID ++ "|" ++ strategyID)%string.

(** A version not above the recorded one is stale. *)
Definition stale (m : gmap string Z) (k : string) (version : Z) : bool :=
  match m !! k with Some v => version <=? v | None => false end.

(** The common end of the updates: the user's new view is published. *)
Definition publish_view (now : Z) (userID : string) (nuv : UserView.t) (w : Writer.t) : Writer.t :=
  let next := cloneSnapshotShallow w.(Writer.current) in
  let next := (next <| Snapshot.ByUser := <[userID := nuv]> next.(Snapshot.ByUser) |>)%go in
  Commit now (Finalize now next) w.

Definition ApplyUpsert (now : Z) (strategy : option Strategy.t) (version : Z) (w : Writer.t)
    : Writer.t * (bool * option StoreError) :=
  match strategy with
  | None => (w, (false, Some ErrNilStrategy))
  | Some st =>
    let uid := st.(Strategy.UserID) in
    let sid := st.(Strategy.StrategyID) in
    let k := writer_key uid sid in
    if String.eqb uid "" || String.eqb sid "" then (w, (false, Some ErrMissingIDs))
    else if negb st.(Strategy.Active) then (w, (false, None))
    else if stale w.(Writer.tombstones) k version then (w, (false, None))
    else if stale w.(Writer.versions) k version then (w, (false, None))
    else
      let uv := cloneUserView
        (default UserView.zero (w.(Writer.current).(Snapshot.ByUser) !! uid)) in
      let nuv := UserView.mk
        (<[sid := (st <| Strategy.Version := version |>)%go]> uv.(UserView.Active))
        (delete sid uv.(UserView.Paused)) in
      let w := (w <| Writer.versions := <[k := version]> w.(Writer.versions) |>)%go in
      (publish_view now uid nuv w, (true, None))
  end.

Definition ApplyPause (now : Z) (userID strategyID : string) (version : Z) (w : Writer.t)
    : Writer.t * (bool * option StoreError) :=
  let k := writer_key userID strategyID in
  if String.eqb userID "" || String.eqb strategyID "" then (w, (false, Some ErrMissingIDs))
  else if stale w.(Writer.tombstones) k version then (w, (false, None))
  else if stale w.(Writer.versions) k version then (w, (false, None))
  else
    match w.(Writer.current).(Snapshot.ByUser) !! userID with
    | None => (w, (false, None))
    | Some uv =>
      match uv.(UserView.Active) !! strategyID with
      | None => (w, (false, None))
      | Some strat =>
        let uv := cloneUserView uv in
        let nuv := UserView.mk (delete strategyID uv.(UserView.Active))
                               (<[strategyID := strat]> uv.(UserView.Paused)) in
        let w := (w <| Writer.versions := <[k := version]> w.(Writer.versions) |>)%go in
        (publish_view now userID nuv w, (true, None))
      end
    end.

Definition ApplyResume (now : Z) (userID strategyID : string) (version : Z) (w : Writer.t)
    : Writer.t * (bool * option StoreError) :=
  let k := writer_key userID strategyID in
  if String.eqb userID "" || String.eqb strategyID "" then (w, (false, Some ErrMissingIDs))
  else if stale w.(Writer.tombstones) k version then (w, (false, None))
  else if stale w.(Writer.versions) k version then (w, (false, None))
  else
    match w.(Writer.current).(Snapshot.ByUser) !! userID with
    | None => (w, (false, None))
    | Some uv =>
      match uv.(UserView.Paused) !! strategyID with
      | None => (w, (false, None))
      | Some strat =>
        let uv := cloneUserView uv in
        let stratCopy :=
          (strat <| Strategy.Active := true |> <| Strategy.Version := version |>)%go in
        let nuv := UserView.mk (<[strategyID := stratCopy]> uv.(UserView.Active))
                               (delete strategyID uv.(UserView.Paused)) in
        let w := (w <| Writer.versions := <[k := version]> w.(Writer.versions) |>)%go in
        (publish_view now userID nuv w, (true, None))
      end
    end.

Definition ApplyDelete (now : Z) (userID strategyID : string) (version : Z) (w : Writer.t)
    : Writer.t * (bool * option StoreError) :=
  let k := writer_key userID strategyID in
  if String.eqb userID "" || String.eqb strategyID "" then (w, (false, Some ErrMissingIDs))
  else if stale w.(Writer.tombstones) k version then (w, (false, None))
  else
    let w := (w <| Writer.tombstones := <[k := version]> w.(Writer.tombstones) |>
                <| Writer.versions := <[k := version]> w.(Writer.versions) |>)%go in
    match w.(Writer.current).(Snapshot.ByUser) !! userID with
    | None => (w, (false, None))
    | Some uv =>
      let inA := bool_decide (is_Some (uv.(UserView.Active) !! strategyID)) in
      let inP := bool_decide (is_Some (uv.(UserView.Paused) !! strategyID)) in
      let uv := cloneUserView uv in
      let nuv := UserView.mk (delete strategyID uv.(UserView.Active))
                             (delete strategyID uv.(UserView.Paused)) in
      (publish_view now userID nuv w, (inA || inP, None))
    end.

(** ** The facade *)

(** One strategy of [BulkLoad]'s loop; nil and inactive ones are skipped. *)
Definition bulk_insert (m : gmap string UserView.t) (st : option Strategy.t)
    : gmap string UserView.t :=
  match st with
  | None => m
  | Some st =>
    if negb st.(Strategy.Active) then m
    else
      let uv := default UserView.zero (m !! st.(Strategy.UserID)) in
      <[st.(Strategy.UserID) :=
          UserView.mk (<[st.(Strategy.StrategyID) := st]> uv.(UserView.Active))
                      uv.(UserView.Paused)]> m
  end.

Definition BulkLoad (now : Z) (strategies : list (option Strategy.t)) (w : Writer.t) : Writer.t :=
  let byUser := foldl bulk_insert ∅ strategies in
  let snap := Finalize now (Snapshot.mk 0 byUser [] 0 0 0 0 0) in
  resetFromStore (ReplaceSnapshot now snap w).

Definition Upsert (now : Z) (cfg : option Strategy.t) (w : Writer.t)
    : Writer.t * option StoreError :=
  match cfg with
  | None => (w, Some ErrNilConfig)
  | Some st => let '(w, (_, err)) := ApplyUpsert now cfg st.(Strategy.Version) w in (w, err)
  end.

Definition Pause (now : Z) (userID strategyID : string) (version : Z) (w : Writer.t)
    : Writer.t * option StoreError :=
  let '(w, (_, err)) := ApplyPause now userID strategyID version w in (w, err).

Definition Resume (now : Z) (userID strategyID : string) (version : Z) (w : Writer.t)
    : Writer.t * option StoreError :=
  let '(w, (_, err)) := ApplyResume now userID strategyID version w in (w, err).

Definition Remove (now : Z) (userID strategyID : string) (version : Z) (w : Writer.t)
    : Writer.t * option StoreError :=
  let '(w, (_, err)) := ApplyDelete now userID strategyID version w in (w, err).

(** The strategy of a view, of a snapshot, and whether it is active. *)
Definition view_find (uv : UserView.t) (strategyID : string) : option (bool * Strategy.t) :=
  match uv.(UserView.Active) !! strategyID with
  | Some st => Some (true, st)
  | None => pair false <$> uv.(UserView.Paused) !! strategyID
  end.

Definition find_strategy (s : Snapshot.t) (userID strategyID : string) : option (bool * Strategy.t) :=
  match s.(Snapshot.ByUser) !! userID with
  | None => None
  | Some uv => view_find uv strategyID
  end.

Definition GetStrategy (w : Writer.t) (userID strategyID : string) : option Strategy.t :=
  snd <$> find_strategy w.(Writer.published) userID strategyID.

(** The calls of the facade that change the store. *)
Inductive ConfigOp :=
  | OpBulkLoad (strategies : list (option Strategy.t))
  | OpUpsert (cfg : option Strategy.t)
  | OpPause (userID strategyID : string) (version : Z)
  | OpResume (userID strategyID : string) (version : Z)
  | OpRemove (userID strategyID : string) (version : Z).

Definition runOp (now : Z) (op : ConfigOp) (w : Writer.t) : Writer.t :=
  match op with
  | OpBulkLoad l => BulkLoad now l w
  | OpUpsert cfg => (Upsert now cfg w).1
  | OpPause u s v => (Pause now u s v w).1
  | OpResume u s v => (Resume now u s v w).1
  | OpRemove u s v => (Remove now u s v w).1
  end.

Definition runOps (ops : list (Z * ConfigOp)) (w : Writer.t) : Writer.t :=
  foldl (fun w '(now, op) => runOp now op w) w ops.

(** ** The order of the flattened view *)

Definition strategy_before (a b : Strategy.t) : Prop :=
  string_lt a.(Strategy.UserID) b.(Strategy.UserID) \/
  (a.(Strategy.UserID) = b.(Strategy.UserID) /\
   string_lt a.(Strategy.StrategyID) b.(Strategy.StrategyID)).

Lemma sorted_omap {A B} (R : A -> A -> Prop) (Q : B -> B -> Prop) (f : A -> option B) l :
  StronglySorted R l ->
  (forall a1 a2 b1 b2, R a1 a2 -> f a1 = Some b1 -> f a2 = Some b2 -> Q b1 b2) ->
  StronglySorted Q (omap f l).
Proof.
  intros Hl HQ. induction Hl as [|a l Hl IH Ha]; [constructor|].
  cbn. destruct (f a) as [b|] eqn:Hb; [|done]. constructor; [done|].
  apply Forall_forall. intros b' (a' & Ha' & Hb')%list_elem_of_omap.
  rewrite Forall_forall in Ha. eauto.
Qed.

Lemma sorted_app {B} (Q : B -> B -> Prop) l1 l2 :
  StronglySorted Q l1 -> StronglySorted Q l2 ->
  (forall a b, a ∈ l1 -> b ∈ l2 -> Q a b) -> StronglySorted Q (l1 ++ l2).
Proof.
  intros H1 H2 HQ. induction H1 as [|a l1 H1 IH Ha]; [done|].
  cbn. constructor; [apply IH; set_solver|].
  apply Forall_app. split; [done|]. apply Forall_forall. intros b Hb. apply HQ; set_solver.
Qed.

Lemma sorted_flat_map {A B} (R : A -> A -> Prop) (Q : B -> B -> Prop) (f : A -> list B) l :
  StronglySorted R l -> (forall a, StronglySorted Q (f a)) ->
  (forall a1 a2 b1 b2, R a1 a2 -> b1 ∈ f a1 -> b2 ∈ f a2 -> Q b1 b2) ->
  StronglySorted Q (flat_map f l).
Proof.
  intros Hl Hf HQ. induction Hl as [|a l Hl IH Ha]; [constructor|].
  cbn. apply sorted_app; [done..|]. intros b1 b2 Hb1 Hb2.
  apply list_elem_of_In, in_flat_map in Hb2 as (a' & Ha' & Hb2).
  apply list_elem_of_In in Ha', Hb2. rewrite Forall_forall in Ha. eauto.
Qed.

Lemma elem_of_sorted_keys {A} (m : gmap string A) k : k ∈ sorted_keys m <-> is_Some (m !! k).
Proof.
  unfold sorted_keys. rewrite sort_strings_perm, list_elem_of_fmap. split.
  - intros ([k' v] & -> & H%elem_of_map_to_list). by exists v.
  - intros [v H]. exists (k, v). split; [done|]. by apply elem_of_map_to_list.
Qed.

Lemma sorted_keys_strict {A} (m : gmap string A) : StronglySorted string_lt (sorted_keys m).
Proof. apply sort_strings_strict, NoDup_fst_map_to_list. Qed.

Lemma length_sorted_keys {A} (m : gmap string A) : length (sorted_keys m) = size m.
Proof.
  unfold sorted_keys. rewrite sort_strings_perm, length_fmap. apply length_map_to_list.
Qed.

(** ** The invariant of the published snapshot *)

Definition view_ok (uid : string) (uv : UserView.t) : Prop :=
  (forall sid, uv.(UserView.Active) !! sid = None \/ uv.(UserView.Paused) !! sid = None) /\
  (forall sid st, uv.(UserView.Active) !! sid = Some st \/ uv.(UserView.Paused) !! sid = Some st ->
     st.(Strategy.UserID) = uid /\ st.(Strategy.StrategyID) = sid /\ st.(Strategy.Active) = true).

Definition users_ok (m : gmap string UserView.t) : Prop :=
  forall uid uv, m !! uid = Some uv -> view_ok uid uv.

Definition store_ok (w : Writer.t) : Prop :=
  w.(Writer.current) = w.(Writer.published) /\
  users_ok w.(Writer.published).(Snapshot.ByUser) /\
  rebuildAllActive w.(Writer.published) = w.(Writer.published).

Lemma rebuild_idemp s : rebuildAllActive (rebuildAllActive s) = rebuildAllActive s.
Proof. done. Qed.

Lemma view_ok_zero uid : view_ok uid UserView.zero.
Proof. split; [by left|]. intros sid st [H|H]; done. Qed.

Lemma view_ok_default uid (m : gmap string UserView.t) :
  users_ok m -> view_ok uid (default UserView.zero (m !! uid)).
Proof. intros Hm. destruct (m !! uid) eqn:E; [by apply Hm|apply view_ok_zero]. Qed.

Lemma view_ok_insert_active uid sid st uv :
  view_ok uid uv -> st.(Strategy.UserID) = uid -> st.(Strategy.StrategyID) = sid ->
  st.(Strategy.Active) = true ->
  view_ok uid (UserView.mk (<[sid := st]> uv.(UserView.Active)) (delete sid uv.(UserView.Paused))).
Proof.
  intros [Hd Hv] Hu Hs Ha. split; intros sid'; cbn.
  - destruct (decide (sid' = sid)) as [->|Hne].
    + right. by rewrite lookup_delete_eq.
    + rewrite lookup_insert_ne, lookup_delete_ne by done. apply Hd.
  - intros st'. destruct (decide (sid' = sid)) as [->|Hne].
    + rewrite lookup_insert_eq, lookup_delete_eq. intros [[= <-]|?]; [done|done].
    + rewrite lookup_insert_ne, lookup_delete_ne by done. apply Hv.
Qed.

Lemma view_ok_move_paused uid sid st uv :
  view_ok uid uv -> uv.(UserView.Active) !! sid = Some st ->
  view_ok uid (UserView.mk (delete sid uv.(UserView.Active)) (<[sid := st]> uv.(UserView.Paused))).
Proof.
  intros [Hd Hv] Hst. split; intros sid'; cbn.
  - destruct (decide (sid' = sid)) as [->|Hne].
    + left. by rewrite lookup_delete_eq.
    + rewrite lookup_insert_ne, lookup_delete_ne by done. apply Hd.
  - intros st'. destruct (decide (sid' = sid)) as [->|Hne].
    + rewrite lookup_insert_eq, lookup_delete_eq. intros [?|[= <-]]; [done|]. apply Hv. by left.
    + rewrite lookup_insert_ne, lookup_delete_ne by done. apply Hv.
Qed.

Lemma view_ok_delete uid sid uv :
  view_ok uid uv ->
  view_ok uid (UserView.mk (delete sid uv.(UserView.Active)) (delete sid uv.(UserView.Paused))).
Proof.
  intros [Hd Hv]. split; intros sid'; cbn; destruct (decide (sid' = sid)) as [->|Hne].
  - left. by rewrite lookup_delete_eq.
  - rewrite !lookup_delete_ne by done. apply Hd.
  - rewrite !lookup_delete_eq. intros st' [?|?]; done.
  - rewrite !lookup_delete_ne by done. apply Hv.
Qed.

Lemma users_ok_insert uid uv m : users_ok m -> view_ok uid uv -> users_ok (<[uid := uv]> m).
Proof.
  intros Hm Huv uid' uv'. destruct (decide (uid' = uid)) as [->|Hne].
  - rewrite lookup_insert_eq. by intros [= <-].
  - rewrite lookup_insert_ne by done. apply Hm.
Qed.

Lemma users_ok_bulk l m : users_ok m -> (forall u uv, m !! u = Some uv -> uv.(UserView.Paused) = ∅) ->
  let m' := foldl bulk_insert m l in
  users_ok m' /\ (forall u uv, m' !! u = Some uv -> uv.(UserView.Paused) = ∅).
Proof.
  revert m. induction l as [|st l IH]; intros m Hm Hp; [done|]. apply IH; clear IH.
  - destruct st as [st|]; cbn; [|done]. destruct (Strategy.Active st) eqn:Ha; cbn; [|done].
    apply users_ok_insert; [done|].
    assert (Hpe : (default UserView.zero (m !! st.(Strategy.UserID))).(UserView.Paused) = ∅).
    { destruct (m !! st.(Strategy.UserID)) eqn:E; cbn; eauto. }
    pose proof (view_ok_insert_active st.(Strategy.UserID) st.(Strategy.StrategyID) st _
      (view_ok_default _ m Hm) eq_refl eq_refl Ha) as Hok.
    rewrite Hpe, delete_empty in Hok. by rewrite Hpe.
  - destruct st as [st|]; cbn; [|done]. destruct (Strategy.Active st) eqn:Ha; cbn; [|done].
    intros u uv. destruct (decide (u = st.(Strategy.UserID))) as [->|Hne].
    + rewrite lookup_insert_eq. intros [= <-]. cbn.
      destruct (m !! st.(Strategy.UserID)) eqn:E; cbn; eauto.
    + rewrite lookup_insert_ne by done. apply Hp.
Qed.

Lemma publish_view_ok now uid nuv w :
  store_ok w -> view_ok uid nuv -> store_ok (publish_view now uid nuv w).
Proof.
  intros (Hc & Hu & _) Hv. split; [done|]. split; [|done].
  cbn. rewrite Hc. by apply users_ok_insert.
Qed.

Lemma versions_ok k v w :
  store_ok w -> store_ok (w <| Writer.versions := <[k := v]> w.(Writer.versions) |>)%go.
Proof. done. Qed.

(** What an operation of the writer does: nothing, or it publishes the view of
    one user after changing only versions and tombstones. *)
Lemma current_view_ok w uid uv :
  store_ok w -> w.(Writer.current).(Snapshot.ByUser) !! uid = Some uv -> view_ok uid uv.
Proof. intros (Hc & Hu & _) H. rewrite Hc in H. by apply Hu. Qed.

Lemma ApplyUpsert_ok now st v w : store_ok w -> store_ok (ApplyUpsert now st v w).1.
Proof.
  intros Hok. destruct st as [st|]; [|done]. unfold ApplyUpsert.
  destruct (_ || _); [done|]. destruct (Strategy.Active st) eqn:Ha; [|done].
  cbn [negb]. destruct (stale _ _ _); [done|]. destruct (stale _ _ _); [done|].
  apply publish_view_ok; [done|]. apply (view_ok_insert_active _ _ _ (cloneUserView _)); [|done..].
  destruct Hok as (Hc & Hu & _). rewrite Hc. destruct (default _ _) eqn:E.
  unfold cloneUserView. cbn. rewrite <- E. by apply view_ok_default.
Qed.

Lemma ApplyPause_ok now u s v w : store_ok w -> store_ok (ApplyPause now u s v w).1.
Proof.
  intros Hok. unfold ApplyPause.
  destruct (_ || _); [done|]. destruct (stale _ _ _); [done|]. destruct (stale _ _ _); [done|].
  destruct (_ !! u) as [uv|] eqn:Hu; [|done]. destruct (_ !! s) as [st|] eqn:Hs; [|done].
  apply publish_view_ok; [done|].
  exact (view_ok_move_paused u s st uv (current_view_ok _ _ _ Hok Hu) Hs).
Qed.

Lemma ApplyResume_ok now u s v w : store_ok w -> store_ok (ApplyResume now u s v w).1.
Proof.
  intros Hok. unfold ApplyResume.
  destruct (_ || _); [done|]. destruct (stale _ _ _); [done|]. destruct (stale _ _ _); [done|].
  destruct (_ !! u) as [uv|] eqn:Hu; [|done]. destruct (_ !! s) as [st|] eqn:Hs; [|done].
  pose proof (current_view_ok _ _ _ Hok Hu) as Hv.
  destruct (proj2 Hv s st (or_intror Hs)) as (Hu' & Hs' & _).
  apply publish_view_ok; [done|]. destruct uv.
  by apply (view_ok_insert_active _ _ _ (cloneUserView _)).
Qed.

Lemma ApplyDelete_ok now u s v w : store_ok w -> store_ok (ApplyDelete now u s v w).1.
Proof.
  intros Hok. unfold ApplyDelete.
  destruct (_ || _); [done|]. destruct (stale _ _ _); [done|].
  cbn. destruct (_ !! u) as [uv|] eqn:Hu; [|done].
  apply publish_view_ok; [done|].
  exact (view_ok_delete u s uv (current_view_ok _ _ _ Hok Hu)).
Qed.

Lemma BulkLoad_ok now l w : store_ok (BulkLoad now l w).
Proof.
  split; [done|]. split; [|done]. cbn. apply users_ok_bulk; intros ???; done.
Qed.

Lemma Upsert_fst now st w :
  (Upsert now (Some st) w).1 = (ApplyUpsert now (Some st) st.(Strategy.Version) w).1.
Proof. unfold Upsert. by destruct (ApplyUpsert _ _ _ _) as [? []]. Qed.

Lemma Pause_fst now u s v w : (Pause now u s v w).1 = (ApplyPause now u s v w).1.
Proof. unfold Pause. by destruct (ApplyPause _ _ _ _ _) as [? []]. Qed.

Lemma Resume_fst now u s v w : (Resume now u s v w).1 = (ApplyResume now u s v w).1.
Proof. unfold Resume. by destruct (ApplyResume _ _ _ _ _) as [? []]. Qed.

Lemma Remove_fst now u s v w : (Remove now u s v w).1 = (ApplyDelete now u s v w).1.
Proof. unfold Remove. by destruct (ApplyDelete _ _ _ _ _) as [? []]. Qed.

#[local] Hint Rewrite -> Upsert_fst Pause_fst Resume_fst Remove_fst : facade.

Lemma runOp_ok now op w : store_ok w -> store_ok (runOp now op w).
Proof.
  intros Hok. destruct op as [l|[st|]|u s v|u s v|u s v]; unfold runOp;
    autorewrite with facade; auto using BulkLoad_ok, ApplyUpsert_ok, ApplyPause_ok,
    ApplyResume_ok, ApplyDelete_ok.
Qed.

Lemma runOps_ok ops w : store_ok w -> store_ok (runOps ops w).
Proof.
  revert w. induction ops as [|[now op] ops IH]; intros w Hok; [done|]. apply IH. by apply runOp_ok.
Qed.

Lemma NewConfigStore_ok now : store_ok (NewConfigStore now).
Proof. split; [done|]. split; [intros ???; done|done]. Qed.

(** ** The flattened view is exact *)

Lemma elem_of_user_active uv st :
  st ∈ user_active uv <-> exists sid, uv.(UserView.Active) !! sid = Some st.
Proof.
  unfold user_active. rewrite list_elem_of_omap. split.
  - intros (sid & _ & H). eauto.
  - intros (sid & H). exists sid. rewrite elem_of_sorted_keys. eauto.
Qed.

Lemma elem_of_all_active s st :
  st ∈ (rebuildAllActive s).(Snapshot.AllActive) <->
  exists uid uv sid, s.(Snapshot.ByUser) !! uid = Some uv /\
                     uv.(UserView.Active) !! sid = Some st.
Proof.
  cbn. rewrite list_elem_of_In, in_flat_map. split.
  - intros (uid & Huid & Hst). apply list_elem_of_In in Huid, Hst.
    destruct (_ !! uid) as [uv|] eqn:E; cbn in Hst; [|by apply not_elem_of_nil in Hst].
    apply elem_of_user_active in Hst as [sid Hst]. eauto.
  - intros (uid & uv & sid & Hu & Hs). exists uid.
    rewrite <- !list_elem_of_In, elem_of_sorted_keys, Hu. split; [eauto|]. cbn.
    apply elem_of_user_active. eauto.
Qed.

Lemma user_active_sorted uid uv :
  view_ok uid uv -> StronglySorted strategy_before (user_active uv).
Proof.
  intros [_ Hv]. apply (sorted_omap string_lt); [apply sorted_keys_strict|].
  intros s1 s2 st1 st2 Hlt H1 H2. right.
  destruct (Hv s1 st1 (or_introl H1)) as (-> & -> & _).
  by destruct (Hv s2 st2 (or_introl H2)) as (-> & -> & _).
Qed.

Lemma all_active_sorted s :
  users_ok s.(Snapshot.ByUser) ->
  StronglySorted strategy_before (rebuildAllActive s).(Snapshot.AllActive).
Proof.
  intros Hu. cbn. apply (sorted_flat_map string_lt); [apply sorted_keys_strict|..].
  - intros uid. destruct (_ !! uid) as [uv|] eqn:E; cbn; [|constructor].
    by apply (user_active_sorted uid), Hu.
  - intros u1 u2 st1 st2 Hlt H1 H2. left.
    destruct (_ !! u1) as [uv1|] eqn:E1; cbn in H1; [|by apply not_elem_of_nil in H1].
    destruct (_ !! u2) as [uv2|] eqn:E2; cbn in H2; [|by apply not_elem_of_nil in H2].
    apply elem_of_user_active in H1 as [s1 H1], H2 as [s2 H2].
    destruct (proj2 (Hu _ _ E1) s1 st1 (or_introl H1)) as (-> & _).
    by destruct (proj2 (Hu _ _ E2) s2 st2 (or_introl H2)) as (-> & _).
Qed.

Lemma find_active s st :
  users_ok s.(Snapshot.ByUser) ->
  (exists uid uv sid, s.(Snapshot.ByUser) !! uid = Some uv /\
                      uv.(UserView.Active) !! sid = Some st) <->
  find_strategy s st.(Strategy.UserID) st.(Strategy.StrategyID) = Some (true, st).
Proof.
  intros Hu. unfold find_strategy, view_find. split.
  - intros (uid & uv & sid & Hv & Hs).
    destruct (proj2 (Hu _ _ Hv) sid st (or_introl Hs)) as (E1 & E2 & _).
    by rewrite E1, E2, Hv, Hs.
  - destruct (_ !! _) as [uv|] eqn:Hv; [|done].
    destruct (UserView.Active uv !! _) as [st'|] eqn:Hs.
    + intros Heq. injection Heq as ->. eauto.
    + destruct (UserView.Paused uv !! _); done.
Qed.

Lemma find_active_flag s u sid b st :
  users_ok s.(Snapshot.ByUser) -> find_strategy s u sid = Some (b, st) ->
  st.(Strategy.UserID) = u /\ st.(Strategy.StrategyID) = sid /\ st.(Strategy.Active) = true.
Proof.
  intros Hu. unfold find_strategy, view_find. destruct (_ !! _) as [uv|] eqn:Hv; [|done].
  destruct (UserView.Active uv !! _) as [st'|] eqn:Hs.
  - intros [= <- <-]. apply (Hu _ _ Hv). auto.
  - destruct (UserView.Paused uv !! _) eqn:Hp; [|done]. intros [= <- <-]. apply (Hu _ _ Hv). auto.
Qed.

(** ** The counters *)

Lemma length_user_active uv : Z.of_nat (length (user_active uv)) = msize uv.(UserView.Active).
Proof.
  unfold msize, user_active. f_equal. rewrite <- length_sorted_keys.
  assert (H : forall l, (forall k, k ∈ l -> is_Some (uv.(UserView.Active) !! k)) ->
    length (omap (fun sid => uv.(UserView.Active) !! sid) l) = length l).
  { induction l as [|k l IH]; intros Hl; [done|]. cbn.
    destruct (Hl k) as [st ->]; [set_solver|]. cbn. rewrite IH; [done|]. set_solver. }
  apply H. intros k. apply elem_of_sorted_keys.
Qed.

Lemma map_fold_sum {A} (f : A -> Z) (m : gmap string A) :
  map_fold (fun _ a n => n + f a) 0 m =
  foldr (fun k n => n + default 0 (f <$> m !! k)) 0 (sorted_keys m).
Proof.
  unfold sorted_keys.
  assert (Hp : forall l1 l2 : list string, l1 ≡ₚ l2 ->
    foldr (fun k n => n + default 0 (f <$> m !! k)) 0 l1 =
    foldr (fun k n => n + default 0 (f <$> m !! k)) 0 l2).
  { induction 1; cbn; lia. }
  rewrite (Hp _ _ (sort_strings_perm _)). rewrite map_fold_foldr.
  assert (H : forall l : list (string * A), (forall k a, (k, a) ∈ l -> m !! k = Some a) ->
    foldr (uncurry (fun _ a n => n + f a)) 0 l =
    foldr (fun k n => n + default 0 (f <$> m !! k)) 0 l.*1).
  { induction l as [|[k a] l IH]; intros Hl; [done|]. cbn.
    rewrite (Hl k a) by set_solver. cbn. rewrite IH; [done|]. set_solver. }
  apply H. intros k a. by rewrite elem_of_map_to_list.
Qed.

Lemma length_all_active s :
  Z.of_nat (length (rebuildAllActive s).(Snapshot.AllActive)) =
  (rebuildAllActive s).(Snapshot.TotalActive).
Proof.
  cbn. rewrite map_fold_sum. induction (sorted_keys s.(Snapshot.ByUser)) as [|u l IH]; [done|].
  cbn. rewrite length_app, Nat2Z.inj_add, IH.
  destruct (_ !! u) as [uv|]; cbn; [|lia]. rewrite length_user_active. lia.
Qed.

Lemma total_strategies s :
  (rebuildAllActive s).(Snapshot.TotalStrategies) =
  (rebuildAllActive s).(Snapshot.TotalActive) + (rebuildAllActive s).(Snapshot.TotalPaused).
Proof.
  cbn. rewrite !map_fold_sum. induction (sorted_keys s.(Snapshot.ByUser)) as [|u l IH]; [done|].
  cbn. rewrite IH. destruct (_ !! u) as [uv|]; cbn; lia.
Qed.

(** Whatever bulk loads, upserts, pauses, resumes and removals the store
    has gone through, what its readers see is consistent: the writer's copy is
    the published snapshot, the flattened list holds exactly the active
    strategies, all flagged active, in strictly increasing order of user and
    strategy id (so without duplicates), no strategy is both active and paused,
    and the counters count them. *)
Theorem snapshot_consistent (start : Z) (ops : list (Z * ConfigOp)) :
  let w := runOps ops (NewConfigStore start) in
  let s := w.(Writer.published) in
  w.(Writer.current) = s /\
  StronglySorted strategy_before s.(Snapshot.AllActive) /\
  (forall st, st ∈ s.(Snapshot.AllActive) <->
     find_strategy s st.(Strategy.UserID) st.(Strategy.StrategyID) = Some (true, st)) /\
  (forall u sid b st, find_strategy s u sid = Some (b, st) ->
     st.(Strategy.UserID) = u /\ st.(Strategy.StrategyID) = sid /\ st.(Strategy.Active) = true) /\
  (forall u uv sid, s.(Snapshot.ByUser) !! u = Some uv ->
     uv.(UserView.Active) !! sid = None \/ uv.(UserView.Paused) !! sid = None) /\
  s.(Snapshot.TotalActive) = Z.of_nat (length s.(Snapshot.AllActive)) /\
  s.(Snapshot.TotalStrategies) = s.(Snapshot.TotalActive) + s.(Snapshot.TotalPaused).
Proof.
  cbn. destruct (runOps_ok ops _ (NewConfigStore_ok start)) as (Hc & Hu & Hd).
  set (s := Writer.published _) in *. split; [exact Hc|]. rewrite <- Hd at 1.
  split; [by apply all_active_sorted|]. split.
  { intros st. rewrite <- (find_active s st Hu), <- Hd at 1. apply elem_of_all_active. }
  split; [intros u sid b st; by apply find_active_flag|].
  split; [intros u uv sid Hv; by apply (Hu u uv Hv)|].
  rewrite <- Hd. split; [symmetry; apply length_all_active|apply total_strategies].
Qed.

(** ** Each strategy is a state machine of its own

    The specification of one strategy [(u, s)]: its entry, its tombstone and its
    version, and what each call does to them. *)

Record KeyState := MkKey {
  entry : option (bool * Strategy.t);
  tomb : option Z;
  ver : option Z
}.

Definition at_most (v : Z) (o : option Z) : bool :=
  match o with Some x => v <=? x | None => false end.

(** Is the call with this version on this strategy neither malformed nor old? *)
Definition fresh (u s u' s' : string) (v : Z) (k : KeyState) : bool :=
  String.eqb u' u && String.eqb s' s && negb (String.eqb u "") && negb (String.eqb s "") &&
  negb (at_most v k.(tomb)).

Definition loaded (u s : string) (o : option Strategy.t) : option Strategy.t :=
  match o with
  | Some st => if String.eqb st.(Strategy.UserID) u && String.eqb st.(Strategy.StrategyID) s
                  && st.(Strategy.Active) then Some st else None
  | None => None
  end.

Definition spec_step (u s : string) (op : ConfigOp) (k : KeyState) : KeyState :=
  match op with
  | OpBulkLoad l => MkKey (pair true <$> last (omap (loaded u s) l)) k.(tomb) k.(ver)
  | OpUpsert None => k
  | OpUpsert (Some st) =>
      let v := st.(Strategy.Version) in
      if fresh u s st.(Strategy.UserID) st.(Strategy.StrategyID) v k
         && st.(Strategy.Active) && negb (at_most v k.(ver))
      then MkKey (Some (true, st)) k.(tomb) (Some v) else k
  | OpPause u' s' v =>
      match k.(entry) with
      | Some (true, st) =>
          if fresh u s u' s' v k && negb (at_most v k.(ver))
          then MkKey (Some (false, st)) k.(tomb) (Some v) else k
      | _ => k
      end
  | OpResume u' s' v =>
      match k.(entry) with
      | Some (false, st) =>
          if fresh u s u' s' v k && negb (at_most v k.(ver))
          then MkKey (Some (true, (st <| Strategy.Active := true |>
                                      <| Strategy.Version := v |>)%go)) k.(tomb) (Some v) else k
      | _ => k
      end
  | OpRemove u' s' v =>
      if fresh u s u' s' v k then MkKey None (Some v) (Some v) else k
  end.

(** No user id contains the separator of the map keys. *)
Fixpoint no_bar (s : string) : bool :=
  match s with
  | "" => true
  | String c s' => negb (Ascii.eqb c "|"%char) && no_bar s'
  end.

Definition op_user (op : ConfigOp) : string :=
  match op with
  | OpUpsert (Some st) => st.(Strategy.UserID)
  | OpPause u _ _ | OpResume u _ _ | OpRemove u _ _ => u
  | _ => ""
  end.

Lemma writer_key_inj u s u' s' :
  no_bar u = true -> no_bar u' = true ->
  writer_key u s = writer_key u' s' -> u = u' /\ s = s'.
Proof.
  change (writer_key u s) with (u ++ String "|" s)%string.
  change (writer_key u' s') with (u' ++ String "|" s')%string.
  revert u'. induction u as [|c u IH]; intros [|c' u'] Hu Hu' Heq; cbn in *.
  - by injection Heq as ->.
  - injection Heq as <- _. done.
  - injection Heq as -> _. done.
  - apply andb_prop in Hu as [_ Hu], Hu' as [_ Hu'].
    injection Heq as -> Heq. by destruct (IH u' Hu Hu' Heq) as [-> ->].
Qed.

Definition users_find (m : gmap string UserView.t) (u s : string) : option (bool * Strategy.t) :=
  match m !! u with None => None | Some uv => view_find uv s end.

Lemma users_find_insert m u nuv u' s' :
  users_find (<[u := nuv]> m) u' s' = if decide (u' = u) then view_find nuv s' else users_find m u' s'.
Proof.
  unfold users_find. destruct (decide (u' = u)) as [->|Hne].
  - by rewrite lookup_insert_eq.
  - by rewrite lookup_insert_ne.
Qed.

Lemma view_find_insert_active s st uv s' p :
  view_find (UserView.mk (<[s := st]> uv.(UserView.Active)) p) s' =
  if decide (s' = s) then Some (true, st) else view_find (UserView.mk uv.(UserView.Active) p) s'.
Proof.
  unfold view_find; cbn. destruct (decide (s' = s)) as [->|Hne].
  - by rewrite lookup_insert_eq.
  - by rewrite lookup_insert_ne.
Qed.

Lemma find_bulk l m u s :
  users_find (foldl bulk_insert m l) u s =
  match last (omap (loaded u s) l) with Some st => Some (true, st) | None => users_find m u s end.
Proof.
  revert m. induction l as [|o l IH] using rev_ind; intros m; [done|].
  rewrite foldl_app, omap_app; cbn. rewrite last_app.
  destruct o as [st|]; cbn; [|by rewrite IH].
  destruct (Strategy.Active st); cbn; [|by rewrite andb_false_r; cbn; rewrite IH].
  rewrite andb_true_r, users_find_insert.
  destruct (String.eqb_spec (Strategy.UserID st) u) as [->|Hu]; cbn.
  - rewrite decide_True, view_find_insert_active by done.
    destruct (String.eqb_spec (Strategy.StrategyID st) s) as [->|Hs]; cbn.
    + by rewrite decide_True.
    + rewrite decide_False by congruence. rewrite <- IH. unfold users_find, view_find; cbn.
      by destruct (_ !! u).
  - rewrite decide_False by congruence. apply IH.
Qed.

Definition sim (u s : string) (w : Writer.t) (k : KeyState) : Prop :=
  users_find w.(Writer.published).(Snapshot.ByUser) u s = k.(entry) /\
  w.(Writer.tombstones) !! writer_key u s = k.(tomb) /\
  w.(Writer.versions) !! writer_key u s = k.(ver).

Lemma view_find_agree uv nuv s :
  nuv.(UserView.Active) !! s = uv.(UserView.Active) !! s ->
  nuv.(UserView.Paused) !! s = uv.(UserView.Paused) !! s -> view_find nuv s = view_find uv s.
Proof. unfold view_find. by intros -> ->. Qed.

(** A published view changes the entry of the strategies of its user only, and
    there only of those whose place in the maps changed. *)
Lemma publish_find now uid nuv w u s :
  w.(Writer.current) = w.(Writer.published) ->
  users_find (publish_view now uid nuv w).(Writer.published).(Snapshot.ByUser) u s =
  if decide (u = uid) then view_find nuv s
  else users_find w.(Writer.published).(Snapshot.ByUser) u s.
Proof. intros Hc. cbn. rewrite Hc. apply users_find_insert. Qed.

Lemma users_find_default m u s :
  users_find m u s = view_find (default UserView.zero (m !! u)) s.
Proof. unfold users_find. by destruct (m !! u). Qed.

Lemma publish_other now uid sid uv nuv w u s :
  w.(Writer.current) = w.(Writer.published) ->
  default UserView.zero (w.(Writer.current).(Snapshot.ByUser) !! uid) = uv ->
  (forall s', s' <> sid -> nuv.(UserView.Active) !! s' = uv.(UserView.Active) !! s' /\
                           nuv.(UserView.Paused) !! s' = uv.(UserView.Paused) !! s') ->
  (u, s) <> (uid, sid) ->
  users_find (publish_view now uid nuv w).(Writer.published).(Snapshot.ByUser) u s =
  users_find w.(Writer.published).(Snapshot.ByUser) u s.
Proof.
  intros Hc <- Hsame Hne. rewrite publish_find by done.
  destruct (decide (u = uid)) as [->|?]; [|done].
  destruct (Hsame s) as [Ha Hp]; [congruence|].
  by rewrite (view_find_agree _ nuv s Ha Hp), users_find_default, Hc.
Qed.

Lemma insert_other sid uv (st : Strategy.t) s' :
  s' <> sid ->
  (UserView.mk (<[sid := st]> uv.(UserView.Active)) (delete sid uv.(UserView.Paused)))
    .(UserView.Active) !! s' = uv.(UserView.Active) !! s' /\
  (UserView.mk (<[sid := st]> uv.(UserView.Active)) (delete sid uv.(UserView.Paused)))
    .(UserView.Paused) !! s' = uv.(UserView.Paused) !! s'.
Proof. intros H. cbn. by rewrite lookup_insert_ne, lookup_delete_ne by done. Qed.

(** The version maps change at the key of the call only. *)
Lemma other_key u s uid sid (m : gmap string Z) v :
  no_bar u = true -> no_bar uid = true -> (u, s) <> (uid, sid) ->
  <[writer_key uid sid := v]> m !! writer_key u s = m !! writer_key u s.
Proof.
  intros Hu Hu' Hne. apply lookup_insert_ne. intros Heq. apply Hne.
  apply writer_key_inj in Heq as [-> ->]; done.
Qed.

Lemma fresh_same u s v k :
  fresh u s u s v k =
  negb (String.eqb u "" || String.eqb s "") && negb (at_most v k.(tomb)).
Proof. unfold fresh. rewrite !String.eqb_refl, negb_orb. cbn. by rewrite <- andb_assoc. Qed.

Lemma fresh_other u s u' s' v k : (u, s) <> (u', s') -> fresh u s u' s' v k = false.
Proof.
  intros Hne. unfold fresh. destruct (String.eqb_spec u' u) as [->|]; [|done].
  destruct (String.eqb_spec s' s) as [->|]; done.
Qed.

Lemma stale_eq m key v : stale m key v = at_most v (m !! key).
Proof. done. Qed.

Lemma upsert_sim now st w u s k :
  no_bar u = true -> no_bar st.(Strategy.UserID) = true -> store_ok w -> sim u s w k ->
  sim u s (ApplyUpsert now (Some st) st.(Strategy.Version) w).1 (spec_step u s (OpUpsert (Some st)) k).
Proof.
  intros Hu Hu' (Hc & _) (He & Ht & Hv). unfold ApplyUpsert, spec_step.
  destruct (decide ((u, s) = (st.(Strategy.UserID), st.(Strategy.StrategyID)))) as [Heq|Hne].
  - injection Heq as -> ->. rewrite fresh_same, !stale_eq, Ht, Hv. destruct (_ || _); cbn; [done|].
    destruct (Strategy.Active st) eqn:Ha; cbn; [|by rewrite !andb_false_r].
    rewrite andb_true_r. destruct (at_most _ k.(tomb)); [done|].
    destruct (at_most _ k.(ver)); [done|]. cbn [negb andb fst]. split; [|split].
    + rewrite publish_find by done. rewrite decide_True by done. unfold view_find; cbn.
      rewrite lookup_insert_eq. destruct st; cbn in *. by subst.
    + exact Ht.
    + apply lookup_insert_eq.
  - rewrite fresh_other by done. cbn [andb].
    destruct (_ || _); [done|]. destruct (negb _); [done|]. do 2 (destruct (stale _ _ _); [done|]).
    cbn [fst]. split; [|split; [done|by cbn; rewrite other_key]].
    rewrite <- He. etrans; [eapply publish_other; [exact Hc|reflexivity| |done]|done].
    intros s' Hs'. by apply (insert_other _ (default _ _)).
Qed.

Lemma pause_sim now u' s' v w u s k :
  no_bar u = true -> no_bar u' = true -> store_ok w -> sim u s w k ->
  sim u s (ApplyPause now u' s' v w).1 (spec_step u s (OpPause u' s' v) k).
Proof.
  intros Hu Hu' (Hc & _) (He & Ht & Hv). unfold ApplyPause, spec_step.
  destruct (decide ((u, s) = (u', s'))) as [Heq|Hne].
  - injection Heq as <- <-. rewrite fresh_same, !stale_eq, Ht, Hv, Hc.
    unfold users_find, view_find in He. destruct k as [e t vr]; cbn in *.
    destruct (_ || _); [by destruct e as [[[] ?]|]|].
    destruct (at_most v t); [by destruct e as [[[] ?]|]|].
    destruct (at_most v vr); [by destruct e as [[[] ?]|]|]. cbn [negb andb].
    destruct (_ !! u) as [uv|] eqn:Huv; [|by subst e; split; [unfold users_find; cbn; rewrite Huv|]].
    destruct (UserView.Active uv !! s) as [st|] eqn:Hst.
    + subst e. cbn [fst]. split; [|split; [exact Ht|apply lookup_insert_eq]].
      rewrite publish_find, decide_True by done. unfold view_find; cbn.
      by rewrite lookup_delete_eq, lookup_insert_eq.
    + assert (Hsim : sim u s w (MkKey e t vr)).
      { split; [|done]. unfold users_find, view_find. by rewrite Huv, Hst. }
      destruct (UserView.Paused uv !! s); cbn in He; by subst e.
  - assert (Hk : match k.(entry) with
      | Some (true, st) => if fresh u s u' s' v k && negb (at_most v k.(ver))
          then MkKey (Some (false, st)) k.(tomb) (Some v) else k | _ => k end = k).
    { rewrite fresh_other by done. by destruct k.(entry) as [[[] ?]|]. }
    rewrite Hk. destruct (_ || _); [done|]. do 2 (destruct (stale _ _ _); [done|]).
    destruct (_ !! u') as [uv|] eqn:Huv; [|done]. destruct (_ !! s') as [st|] eqn:Hst; [|done].
    split; [|split; [done|by cbn; rewrite other_key]].
    rewrite <- He. etrans; [eapply (publish_other now u' s' uv); [exact Hc| | |done]|done].
    + cbn. by rewrite Huv.
    + intros s0 Hs0. cbn. by rewrite lookup_insert_ne, lookup_delete_ne by done.
Qed.

Lemma resume_sim now u' s' v w u s k :
  no_bar u = true -> no_bar u' = true -> store_ok w -> sim u s w k ->
  sim u s (ApplyResume now u' s' v w).1 (spec_step u s (OpResume u' s' v) k).
Proof.
  intros Hu Hu' (Hc & Hok & _) (He & Ht & Hv). unfold ApplyResume, spec_step.
  destruct (decide ((u, s) = (u', s'))) as [Heq|Hne].
  - injection Heq as <- <-. rewrite fresh_same, !stale_eq, Ht, Hv, Hc.
    unfold users_find, view_find in He. destruct k as [e t vr]; cbn in *.
    destruct (_ || _); [by destruct e as [[[] ?]|]|].
    destruct (at_most v t); [by destruct e as [[[] ?]|]|].
    destruct (at_most v vr); [by destruct e as [[[] ?]|]|]. cbn [negb andb].
    destruct (_ !! u) as [uv|] eqn:Huv; [|by subst e; split; [unfold users_find; cbn; rewrite Huv|]].
    destruct (UserView.Paused uv !! s) as [st|] eqn:Hst.
    + destruct (proj1 (Hok u uv Huv) s) as [Ha|Hp]; [|by rewrite Hp in Hst].
      rewrite Ha in He. subst e. cbn [fst fmap option_fmap option_map].
      split; [|split; [exact Ht|apply lookup_insert_eq]].
      rewrite publish_find, decide_True by done. unfold view_find; cbn.
      by rewrite lookup_insert_eq.
    + assert (Hsim : sim u s w (MkKey e t vr)).
      { split; [|done]. unfold users_find, view_find. by rewrite Huv, Hst. }
      destruct (UserView.Active uv !! s); cbn in He; by subst e.
  - assert (Hk : forall k', match k.(entry) with
      | Some (false, st) => if fresh u s u' s' v k && negb (at_most v k.(ver))
          then k' st else k | _ => k end = k).
    { intros k'. rewrite fresh_other by done. by destruct k.(entry) as [[[] ?]|]. }
    rewrite Hk. destruct (_ || _); [done|]. do 2 (destruct (stale _ _ _); [done|]).
    destruct (_ !! u') as [uv|] eqn:Huv; [|done]. destruct (_ !! s') as [st|] eqn:Hst; [|done].
    split; [|split; [done|by cbn; rewrite other_key]].
    rewrite <- He. etrans; [eapply (publish_other now u' s' uv); [exact Hc| | |done]|done].
    + cbn. by rewrite Huv.
    + intros s0 Hs0. by apply (insert_other _ uv).
Qed.

Lemma delete_sim now u' s' v w u s k :
  no_bar u = true -> no_bar u' = true -> store_ok w -> sim u s w k ->
  sim u s (ApplyDelete now u' s' v w).1 (spec_step u s (OpRemove u' s' v) k).
Proof.
  intros Hu Hu' (Hc & _) (He & Ht & Hv). unfold ApplyDelete, spec_step.
  destruct (decide ((u, s) = (u', s'))) as [Heq|Hne].
  - injection Heq as <- <-. rewrite fresh_same, stale_eq, Ht.
    destruct (_ || _); [done|]. destruct (at_most v k.(tomb)); [done|]. cbn [negb andb].
    match goal with |- context [(w <| Writer.tombstones := ?t |>)%go] => idtac | _ => idtac end.
    cbn -[publish_view]. destruct (_ !! u) as [uv|] eqn:Huv.
    + split; [|split; apply lookup_insert_eq].
      cbn [fst]. rewrite publish_find, decide_True by done. unfold view_find; cbn.
      by rewrite !lookup_delete_eq.
    + split; [|split; apply lookup_insert_eq]. unfold users_find; cbn. by rewrite <- Hc, Huv.
  - rewrite fresh_other by done. destruct (_ || _); [done|].
    destruct (stale _ _ _); [done|]. cbn -[publish_view].
    destruct (_ !! u') as [uv|] eqn:Huv.
    + split; [|split; cbn; by rewrite other_key].
      rewrite <- He. etrans; [eapply (publish_other now u' s' uv); [exact Hc| | |done]|done].
      * cbn. by rewrite Huv.
      * intros s0 Hs0. cbn. by rewrite !lookup_delete_ne by done.
    + split; [exact He|split; cbn; by rewrite other_key].
Qed.

Lemma runOp_sim now op w u s k :
  no_bar u = true -> no_bar (op_user op) = true -> store_ok w -> sim u s w k ->
  sim u s (runOp now op w) (spec_step u s op k).
Proof.
  intros Hu Hu' Hok Hs. destruct op as [l|[st|]|u' s' v|u' s' v|u' s' v]; unfold runOp;
    autorewrite with facade.
  - destruct Hs as (He & Ht & Hv). split; [|done]. cbn. rewrite find_bulk.
    by destruct (last _).
  - by apply upsert_sim.
  - done.
  - by apply pause_sim.
  - by apply resume_sim.
  - by apply delete_sim.
Qed.

Lemma runOps_sim ops w u s k :
  no_bar u = true -> Forall (fun p => no_bar (op_user p.2) = true) ops -> store_ok w ->
  sim u s w k -> sim u s (runOps ops w) (foldl (fun k p => spec_step u s p.2 k) k ops).
Proof.
  intros Hu Hops. revert w k. induction Hops as [|[now op] ops Hop _ IH]; intros w k Hok Hs; [done|].
  cbn. apply IH; [by apply runOp_ok|by apply runOp_sim].
Qed.

(** C38: as long as no user id contains the key separator, the store refines
    one independent state machine per strategy: after any calls, looking up a
    strategy gives exactly what the machine of that strategy gives on those
    calls, whatever was done to the others. *)
Theorem config_store_refines (start : Z) (ops : list (Z * ConfigOp)) (u s : string)
    (Hu : no_bar u = true)
    (Hops : Forall (fun p => no_bar (op_user p.2) = true) ops) :
  find_strategy (runOps ops (NewConfigStore start)).(Writer.published) u s =
  (foldl (fun k p => spec_step u s p.2 k) (MkKey None None None) ops).(entry).
Proof.
  apply (runOps_sim ops (NewConfigStore start) u s (MkKey None None None) Hu Hops);
    [apply NewConfigStore_ok|done].
Qed.

(** ** Removed strategies stay removed *)

(** Nothing newer than [v] is upserted for [(u, s)], and nothing is bulk loaded. *)
Definition not_newer (u s : string) (v : Z) (op : ConfigOp) : bool :=
  match op with
  | OpBulkLoad _ => false
  | OpUpsert (Some st) =>
      negb (String.eqb st.(Strategy.UserID) u && String.eqb st.(Strategy.StrategyID) s)
      || (st.(Strategy.Version) <=? v)
  | _ => true
  end.

Definition buried (u s : string) (v : Z) (w : Writer.t) : Prop :=
  users_find w.(Writer.published).(Snapshot.ByUser) u s = None /\
  stale w.(Writer.tombstones) (writer_key u s) v = true.

(** A removal raises the tombstone of its key. *)
Lemma stale_insert m k k' v v' :
  stale m k v = true -> stale m k' v' = false -> stale (<[k' := v']> m) k v = true.
Proof.
  unfold stale. destruct (decide (k = k')) as [<-|Hne].
  - rewrite lookup_insert_eq. destruct (m !! k) as [t|]; [|done]. lia.
  - by rewrite lookup_insert_ne.
Qed.

Lemma buried_publish now u' s' uv nuv w u s v :
  w.(Writer.current) = w.(Writer.published) ->
  default UserView.zero (w.(Writer.current).(Snapshot.ByUser) !! u') = uv ->
  (forall s0, s0 <> s' -> nuv.(UserView.Active) !! s0 = uv.(UserView.Active) !! s0 /\
                          nuv.(UserView.Paused) !! s0 = uv.(UserView.Paused) !! s0) ->
  (u, s) <> (u', s') -> buried u s v w -> buried u s v (publish_view now u' nuv w).
Proof.
  intros Hc Huv Hsame Hne [Hf Ht]. split; [|exact Ht].
  rewrite <- Hf. by eapply publish_other.
Qed.

(** The strategy of a pause or a resume is present. *)
Lemma present_ne w u s u' s' uv :
  users_find w.(Writer.published).(Snapshot.ByUser) u s = None ->
  w.(Writer.published).(Snapshot.ByUser) !! u' = Some uv ->
  is_Some (uv.(UserView.Active) !! s') \/ is_Some (uv.(UserView.Paused) !! s') ->
  (u, s) <> (u', s').
Proof.
  intros Hf Hu Hs [= -> ->]. unfold users_find, view_find in Hf. rewrite Hu in Hf.
  destruct (UserView.Active uv !! s') eqn:E; [done|]. destruct Hs as [[? ?]|[? Hp]]; [done|].
  by rewrite Hp in Hf.
Qed.

Lemma buried_step now op w u s v :
  store_ok w -> not_newer u s v op = true -> buried u s v w -> buried u s v (runOp now op w).
Proof.
  intros (Hc & _) Hop Hb.
  destruct op as [l|[st|]|u' s' v'|u' s' v'|u' s' v']; unfold runOp; autorewrite with facade;
    [done| |done|..].
  - unfold ApplyUpsert. destruct (_ || _); [done|]. destruct (negb _); [done|].
    destruct (stale w.(Writer.tombstones) _ _) eqn:Hst; [done|].
    destruct (stale w.(Writer.versions) _ _); [done|].
    pose proof (proj2 Hb) as Ht. cbn [fst]. eapply (buried_publish _ _ st.(Strategy.StrategyID)); [exact Hc|reflexivity| |..|exact Hb].
    + intros s0 Hs0. by apply (insert_other _ (default _ _)).
    + intros [= -> ->]. cbn in Hop. rewrite !String.eqb_refl in Hop. cbn in Hop.
      unfold stale in Hst, Ht. destruct (_ !! writer_key _ _); [|done]. lia.
  - unfold ApplyPause. destruct (_ || _); [done|]. do 2 (destruct (stale _ _ _); [done|]).
    rewrite Hc. destruct (_ !! u') as [uv|] eqn:Hu; [|done].
    destruct (_ !! s') as [st|] eqn:Hs; [|done]. cbn [fst].
    eapply (buried_publish _ _ s' uv); [exact Hc|by cbn; rewrite Hc, Hu| |eapply present_ne; [apply Hb|eauto..]|exact Hb].
    intros s0 Hs0. cbn. by rewrite lookup_insert_ne, lookup_delete_ne by done.
  - unfold ApplyResume. destruct (_ || _); [done|]. do 2 (destruct (stale _ _ _); [done|]).
    rewrite Hc. destruct (_ !! u') as [uv|] eqn:Hu; [|done].
    destruct (_ !! s') as [st|] eqn:Hs; [|done]. cbn [fst].
    eapply (buried_publish _ _ s' uv); [exact Hc|by cbn; rewrite Hc, Hu| |eapply present_ne; [apply Hb|eauto..]|exact Hb].
    intros s0 Hs0. by apply (insert_other _ uv).
  - unfold ApplyDelete. destruct (_ || _); [done|].
    destruct (stale _ (writer_key u' s') _) eqn:Hst; [done|]. cbn -[publish_view].
    assert (Hb' : buried u s v (w <| Writer.tombstones := <[writer_key u' s' := v']> w.(Writer.tombstones) |>
                <| Writer.versions := <[writer_key u' s' := v']> w.(Writer.versions) |>)%go).
    { split; [apply Hb|apply stale_insert; [apply Hb|done]]. }
    destruct (_ !! u') as [uv|] eqn:Hu; [|exact Hb']. cbn [fst].
    destruct (decide ((u, s) = (u', s'))) as [[= -> ->]|Hne].
    + split; [|exact (proj2 Hb')]. rewrite publish_find, decide_True by done.
      unfold view_find; cbn. by rewrite !lookup_delete_eq.
    + eapply (buried_publish _ _ s' uv); [exact Hc|by cbn; rewrite Hu| |done|exact Hb'].
      intros s0 Hs0. cbn. by rewrite !lookup_delete_ne by done.
Qed.

(** Once a removal with version [v] has been accepted, the strategy is
    gone, and it stays gone whatever pauses, resumes, removals and upserts
    follow, in any order, until an upsert of it newer than [v]. *)
Theorem removed_stays_removed (start t : Z) (ops1 ops2 : list (Z * ConfigOp)) (u s : string) (v : Z)
    (Hu : u <> "") (Hs : s <> "")
    (Hfresh : stale (runOps ops1 (NewConfigStore start)).(Writer.tombstones)
                    (writer_key u s) v = false)
    (Hold : forallb (fun p => not_newer u s v p.2) ops2 = true) :
  find_strategy (runOps (ops1 ++ (t, OpRemove u s v) :: ops2) (NewConfigStore start))
    .(Writer.published) u s = None.
Proof.
  pose proof (runOps_ok ops1 _ (NewConfigStore_ok start)) as Hok.
  unfold runOps. rewrite foldl_app. fold (runOps ops1 (NewConfigStore start)).
  set (w := runOps ops1 (NewConfigStore start)) in *. cbn [foldl].
  assert (Hb : buried u s v (runOp t (OpRemove u s v) w)).
  { unfold runOp. autorewrite with facade. unfold ApplyDelete.
    destruct (String.eqb_spec u ""); [done|]. destruct (String.eqb_spec s ""); [done|].
    cbn [orb]. rewrite Hfresh. destruct Hok as (Hc & _). cbn -[publish_view].
    assert (Ht : forall m, stale (<[writer_key u s := v]> m) (writer_key u s) v = true).
    { intros m. unfold stale. rewrite lookup_insert_eq. lia. }
    destruct (_ !! u) as [uv|] eqn:Huv; split; try apply Ht.
    - cbn [fst]. rewrite publish_find, decide_True by done. unfold view_find; cbn.
      by rewrite !lookup_delete_eq.
    - unfold users_find; cbn. by rewrite <- Hc, Huv. }
  assert (Hok' := runOp_ok t (OpRemove u s v) w Hok). revert Hb Hok'.
  generalize (runOp t (OpRemove u s v) w). clear -Hold.
  induction ops2 as [|[now op] ops IH]; intros w Hb Hok; [apply Hb|].
  cbn in *. apply andb_prop in Hold as [Hop Hops]. apply IH; [done|by apply buried_step|by apply runOp_ok].
Qed.

(** A removal is compared with tombstones only, never with the version of
    the strategy it removes: a late removal [v] older than the present version
    still removes the strategy and takes its recorded version back to [v], so
    that an upsert older than what was removed is then accepted. *)
Theorem late_removal_rolls_back (start t1 t2 : Z) (ops : list (Z * ConfigOp))
    (u s : string) (v : Z) (st st' : Strategy.t)
    (Hu : u <> "") (Hs : s <> "") (Hbar : no_bar u = true)
    (Hpresent : GetStrategy (runOps ops (NewConfigStore start)) u s = Some st)
    (Hfresh : stale (runOps ops (NewConfigStore start)).(Writer.tombstones) (writer_key u s) v = false)
    (Hids : st'.(Strategy.UserID) = u /\ st'.(Strategy.StrategyID) = s)
    (Hactive : st'.(Strategy.Active) = true)
    (Hv : v < st'.(Strategy.Version) <= st.(Strategy.Version)) :
  GetStrategy (runOps (ops ++ [(t1, OpRemove u s v)]) (NewConfigStore start)) u s = None /\
  GetStrategy (runOps (ops ++ [(t1, OpRemove u s v); (t2, OpUpsert (Some st'))])
                 (NewConfigStore start)) u s = Some st'.
Proof.
  pose proof (runOps_ok ops _ (NewConfigStore_ok start)) as Hok.
  unfold runOps. rewrite !foldl_app. fold (runOps ops (NewConfigStore start)).
  set (w := runOps ops (NewConfigStore start)) in *. cbn [foldl].
  assert (Hsim : sim u s w (MkKey (users_find w.(Writer.published).(Snapshot.ByUser) u s)
    (w.(Writer.tombstones) !! writer_key u s) (w.(Writer.versions) !! writer_key u s))) by done.
  assert (H1 := runOp_sim t1 (OpRemove u s v) w u s _ Hbar Hbar Hok Hsim).
  destruct Hids as [Hid1 Hid2].
  destruct (String.eqb_spec u "") as [|Hu0]; [done|].
  destruct (String.eqb_spec s "") as [|Hs0]; [done|].
  apply String.eqb_neq in Hu0, Hs0.
  unfold spec_step in H1. rewrite fresh_same in H1. cbn [tomb ver entry] in H1.
  rewrite <- stale_eq, Hfresh, Hu0, Hs0 in H1. cbn [orb negb andb] in H1.
  assert (H2 := runOp_sim t2 (OpUpsert (Some st')) _ u s _ Hbar
    ltac:(cbn; by rewrite Hid1) (runOp_ok t1 _ _ Hok) H1).
  unfold spec_step in H2. rewrite Hid1, Hid2, fresh_same, Hactive, Hu0, Hs0 in H2.
  cbn [orb negb andb tomb ver at_most entry] in H2.
  rewrite (proj2 (Z.leb_gt (Strategy.Version st') v)) in H2 by lia.
  split; unfold GetStrategy; [by rewrite (proj1 H1 : find_strategy _ _ _ = _)
                             |by rewrite (proj1 H2 : find_strategy _ _ _ = _)].
Qed.

(** ** Concrete runs *)

Definition sample_conditions : Conditions.t :=
  Conditions.mk true 1 2 [] [] fzero fzero fzero fzero [] [] fzero fzero.

Definition sample_trade : TradeConfig.t :=
  TradeConfig.mk "MARKET" 1 fzero fzero fzero "NSE" "BUY" "DAY" fzero "FIXED" "FIXED" fzero
    "INTRADAY" [] [] "" "".

Definition sample_limits : RiskLimits.t :=
  RiskLimits.mk 1 fzero fzero fzero "FIXED" false "" fzero 0.

Definition sample_strategy (u s : string) (v : Z) (active : bool) : Strategy.t :=
  Strategy.mk s u "n" v active "PAPER" sample_conditions sample_trade sample_limits 0 0 "" "" "".

Definition sample_ops : list (Z * ConfigOp) :=
  [(1, OpBulkLoad [Some (sample_strategy "u1" "s1" 3 true); None;
                   Some (sample_strategy "u1" "s2" 3 false)]);
   (2, OpUpsert (Some (sample_strategy "u2" "s1" 10 true)));
   (3, OpPause "u1" "s1" 4); (4, OpResume "u1" "s1" 4); (5, OpResume "u1" "s1" 5);
   (6, OpRemove "u1" "s9" 1)].

Example sample_ops_state :
  let s := (runOps sample_ops (NewConfigStore 0)).(Writer.published) in
  map (fun st => (st.(Strategy.UserID), st.(Strategy.StrategyID), st.(Strategy.Version)))
    s.(Snapshot.AllActive) = [("u1", "s1", 5); ("u2", "s1", 10)] /\
  (s.(Snapshot.TotalUsers), s.(Snapshot.TotalActive), s.(Snapshot.TotalPaused)) = (2, 2, 0).
Proof. vm_compute. done. Qed.

Lemma config_store_refines_witness :
  find_strategy (runOps sample_ops (NewConfigStore 0)).(Writer.published) "u2" "s1" =
  Some (true, sample_strategy "u2" "s1" 10 true).
Proof.
  rewrite (config_store_refines 0 sample_ops "u2" "s1" eq_refl);
    [vm_compute; reflexivity|repeat constructor].
Defined.

Lemma removed_stays_removed_witness :
  find_strategy (runOps (sample_ops ++ (7, OpRemove "u2" "s1" 11) ::
      [(8, OpUpsert (Some (sample_strategy "u2" "s1" 10 true)));
       (9, OpUpsert (Some (sample_strategy "u1" "s7" 99 true)));
       (10, OpRemove "u2" "s1" 5)]) (NewConfigStore 0)).(Writer.published) "u2" "s1" = None.
Proof.
  apply (removed_stays_removed 0 7 sample_ops _ "u2" "s1" 11); vm_compute; done.
Defined.

Lemma late_removal_rolls_back_witness :
  GetStrategy (runOps (sample_ops ++ [(7, OpRemove "u2" "s1" 2)]) (NewConfigStore 0)) "u2" "s1"
    = None /\
  GetStrategy (runOps (sample_ops ++ [(7, OpRemove "u2" "s1" 2);
    (8, OpUpsert (Some (sample_strategy "u2" "s1" 9 true)))]) (NewConfigStore 0)) "u2" "s1"
    = Some (sample_strategy "u2" "s1" 9 true).
Proof.
  apply (late_removal_rolls_back 0 7 8 sample_ops "u2" "s1" 2 (sample_strategy "u2" "s1" 10 true));
    vm_compute; done.
Defined.
