(* ===== verification/ConfigSync.v ===== *)
(** * How strategies reach the rules engine

    The event contract and its mapping to strategies
    ([rules-engine/internal/configsync]), the Kafka consumer that applies events
    ([internal/kafka/config_consumer.go]) and the bulk load at startup
    ([internal/startup]), with what a startup loads.  A message is given as what JSON decoding made of it
    ([None] when decoding failed); an enumeration of the protocol buffer is
    given by its name, which is what the code's [String()] returns. *)

From stdpp Require Import base tactics strings list gmap sorting.
From Stdlib Require Import ZArith Lia.
From S2P Require Import Prelude GoFloat GoStrings RuleModels ConfigStore.

Open Scope string_scope.
Open Scope list_scope.
Open Scope Z_scope.

(** ** The event contract ([event.go]) *)

Definition ConfigCreated := "CONFIG_CREATED".
Definition ConfigUpdated := "CONFIG_UPDATED".
Definition ConfigDeleted := "CONFIG_DELETED".
Definition ConfigPaused := "CONFIG_PAUSED".
Definition ConfigResumed := "CONFIG_RESUMED".

Module ConditionsPayload.
Record t := mk {
  MatchAllNews : bool;
  ImpactScoreMin : Z;
  ImpactScoreMax : Z;
  Sentiments : list string;
  Categories : list string;
  MarketCapTypes : list string;
  MinMarketCap : f64;
  MaxMarketCap : f64;
  MinPriceChangePct : f64;
  MaxPriceChangePct : f64;
  Exchanges : list string;
  CreatedAt : Z
}.
End ConditionsPayload.

Record MultiLevelExitLevelPayload := MkLevelPayload {
  p_LevelNum : Z; p_PricePct : f64; p_QtyPct : f64
}.

Module TradeConfigPayload.
Record t := mk {
  OrderType : string;
  ProductType : string;
  Validity : string;
  Quantity : Z;
  Exchange : string;
  OrderSide : string;
  LimitPrice : f64;
  StopLossPct : f64;
  TakeProfitPct : f64;
  TrailingSLPct : f64;
  StopLossType : string;
  TakeProfitType : string;
  MultiLevelSL : list MultiLevelExitLevelPayload;
  MultiLevelTP : list MultiLevelExitLevelPayload;
  TradeWindowStart : string;
  TradeWindowEnd : string;
  CreatedAt : Z
}.
End TradeConfigPayload.

Module RiskLimitsPayload.
Record t := mk {
  MaxDailyTrades : Z;
  MaxPerTradeRisk : f64;
  MaxPortfolioExposurePct : f64;
  MaxLossPerDay : f64;
  EnableRiskChecks : bool;
  EnableAutoSquareOff : bool;
  AutoSquareOffTime : string;
  MaxAmountPerStock : f64;
  MaxTradesPerStrategy : Z;
  CreatedAt : Z
}.
End RiskLimitsPayload.

Module StrategyPayload.
Record t := mk {
  StrategyID : string;
  UserID : string;
  StrategyName : string;
  Active : bool;
  TradingMode : string;
  Conditions : ConditionsPayload.t;
  TradeConfig : TradeConfigPayload.t;
  RiskLimits : RiskLimitsPayload.t;
  Version : Z;
  CreatedAt : Z;
  UpdatedAt : Z
}.
End StrategyPayload.

Module ConfigEvent.
Record t := mk {
  Type_ : string;
  UserID : string;
  StrategyID : string;
  Version : Z;
  Timestamp : Z;
  Config : option StrategyPayload.t
}.
End ConfigEvent.

(** ** The mapping ([mapper.go]) *)

(** [time.Time{}]: the first of January of year 1, in nanoseconds. *)
Definition zero_time : Z := -62135596800 * 10 ^ 9.

Definition unixNanosToTime (n : Z) : Z := if n <=? 0 then zero_time else n.

Definition normalizeOrderType (v : string) : string :=
  if one_of v ["ORDER_TYPE_MARKET"; "MARKET"] then "MARKET"
  else if one_of v ["ORDER_TYPE_LIMIT"; "LIMIT"] then "LIMIT"
  else if one_of v ["ORDER_TYPE_BRACKET"; "BRACKET"] then "BRACKET"
  else "MARKET".

Definition normalizeExchange (v : string) : string :=
  if one_of v ["EXCHANGE_NSE"; "NSE"] then "NSE"
  else if one_of v ["EXCHANGE_BSE"; "BSE"] then "BSE"
  else v.

Definition normalizeExchanges (l : list string) : list string := map normalizeExchange l.

Definition normalizeOrderSide (v : string) : string :=
  if one_of v ["ORDER_SIDE_BUY"; "BUY"] then "BUY"
  else if one_of v ["ORDER_SIDE_SELL"; "SELL"] then "SELL"
  else "BUY".

Definition normalizeValidity (v : string) : string := if String.eqb v "" then "DAY" else v.

Definition normalizeStopLossType (v : string) : string :=
  if one_of v ["FIXED"; "STOP_LOSS_TYPE_FIXED"] then "FIXED"
  else if one_of v ["TRAILING"; "STOP_LOSS_TYPE_TRAILING"] then "TRAILING"
  else if one_of v ["MULTI_LEVEL"; "STOP_LOSS_TYPE_MULTI_LEVEL"] then "MULTI_LEVEL"
  else "FIXED".

Definition normalizeTakeProfitType (v : string) : string :=
  if one_of v ["MULTI_LEVEL"; "TAKE_PROFIT_TYPE_MULTI_LEVEL"] then "MULTI_LEVEL" else "FIXED".

Definition toModelMultiLevel (l : list MultiLevelExitLevelPayload) : list MultiLevelExitLevel :=
  map (fun x => MkLevel x.(p_LevelNum) x.(p_PricePct) x.(p_QtyPct)) l.

Definition normalizeProductType (v : string) : string := if String.eqb v "" then "INTRADAY" else v.

Definition toModelConditions (p : ConditionsPayload.t) : Conditions.t :=
  Conditions.mk p.(ConditionsPayload.MatchAllNews) p.(ConditionsPayload.ImpactScoreMin)
    p.(ConditionsPayload.ImpactScoreMax) p.(ConditionsPayload.Sentiments)
    p.(ConditionsPayload.Categories) fzero fzero p.(ConditionsPayload.MinPriceChangePct)
    p.(ConditionsPayload.MaxPriceChangePct) (normalizeExchanges p.(ConditionsPayload.Exchanges))
    p.(ConditionsPayload.MarketCapTypes) p.(ConditionsPayload.MinMarketCap)
    p.(ConditionsPayload.MaxMarketCap).

Definition toModelTradeConfig (p : TradeConfigPayload.t) : TradeConfig.t :=
  TradeConfig.mk (normalizeOrderType p.(TradeConfigPayload.OrderType))
    p.(TradeConfigPayload.Quantity) fzero p.(TradeConfigPayload.StopLossPct)
    p.(TradeConfigPayload.TakeProfitPct) (normalizeExchange p.(TradeConfigPayload.Exchange))
    (normalizeOrderSide p.(TradeConfigPayload.OrderSide))
    (normalizeValidity p.(TradeConfigPayload.Validity)) p.(TradeConfigPayload.LimitPrice)
    (normalizeStopLossType p.(TradeConfigPayload.StopLossType))
    (normalizeTakeProfitType p.(TradeConfigPayload.TakeProfitType))
    p.(TradeConfigPayload.TrailingSLPct) (normalizeProductType p.(TradeConfigPayload.ProductType))
    (toModelMultiLevel p.(TradeConfigPayload.MultiLevelSL))
    (toModelMultiLevel p.(TradeConfigPayload.MultiLevelTP))
    p.(TradeConfigPayload.TradeWindowStart) p.(TradeConfigPayload.TradeWindowEnd).

Definition toModelRiskLimits (p : RiskLimitsPayload.t) : RiskLimits.t :=
  RiskLimits.mk p.(RiskLimitsPayload.MaxDailyTrades) p.(RiskLimitsPayload.MaxLossPerDay) fzero
    p.(RiskLimitsPayload.MaxPerTradeRisk) "" p.(RiskLimitsPayload.EnableAutoSquareOff)
    p.(RiskLimitsPayload.AutoSquareOffTime) p.(RiskLimitsPayload.MaxAmountPerStock)
    p.(RiskLimitsPayload.MaxTradesPerStrategy).

(** [ToModelStrategy]; [None] is the error. *)
Definition ToModelStrategy (p : option StrategyPayload.t) : option Strategy.t :=
  match p with
  | None => None
  | Some p =>
    if String.eqb p.(StrategyPayload.UserID) "" || String.eqb p.(StrategyPayload.StrategyID) ""
    then None
    else Some (Strategy.mk p.(StrategyPayload.StrategyID) p.(StrategyPayload.UserID)
      p.(StrategyPayload.StrategyName) p.(StrategyPayload.Version) p.(StrategyPayload.Active)
      p.(StrategyPayload.TradingMode) (toModelConditions p.(StrategyPayload.Conditions))
      (toModelTradeConfig p.(StrategyPayload.TradeConfig))
      (toModelRiskLimits p.(StrategyPayload.RiskLimits))
      (unixNanosToTime p.(StrategyPayload.CreatedAt))
      (unixNanosToTime p.(StrategyPayload.UpdatedAt)) "" "" "")
  end.

(** ** The store-independent consumer ([consumer.go]) *)

Inductive SyncError := ErrUnmarshal | ErrStore (e : StoreError).

(** [Consumer.ProcessMessage]. *)
Definition ProcessMessage (now : Z) (value : option ConfigEvent.t) (w : Writer.t)
    : Writer.t * option SyncError :=
  match value with
  | None => (w, Some ErrUnmarshal)
  | Some ev =>
    let u := ev.(ConfigEvent.UserID) in
    let s := ev.(ConfigEvent.StrategyID) in
    let v := ev.(ConfigEvent.Version) in
    let stale_event :=
      match GetStrategy w u s with
      | Some cur => negb (v =? 0) && (v <=? cur.(Strategy.Version))
      | None => false
      end in
    let lift r : Writer.t * option SyncError := (r.1, ErrStore <$> r.2) in
    if String.eqb u "" || String.eqb s "" then (w, None)
    else if stale_event then (w, None)
    else if one_of ev.(ConfigEvent.Type_) [ConfigCreated; ConfigUpdated] then
      match ToModelStrategy ev.(ConfigEvent.Config) with
      | None => (w, None)
      | Some m => lift (Upsert now (Some (m <| Strategy.Version := v |>)%go) w)
      end
    else if String.eqb ev.(ConfigEvent.Type_) ConfigPaused then lift (Pause now u s v w)
    else if String.eqb ev.(ConfigEvent.Type_) ConfigResumed then lift (Resume now u s v w)
    else if String.eqb ev.(ConfigEvent.Type_) ConfigDeleted then lift (Remove now u s v w)
    else (w, None)
  end.

(** ** The Kafka consumer ([kafka/config_consumer.go]) *)

Module ConfigConsumer.
Record t := mk { configStore : Writer.t; processed : Z; errors : Z; committed : Z }.
#[global] Instance eta_config_consumer : Eta t := fun c =>
  mk c.(configStore) c.(processed) c.(errors) c.(committed).
End ConfigConsumer.

Definition commit (c : ConfigConsumer.t) : ConfigConsumer.t :=
  (c <| ConfigConsumer.committed := c.(ConfigConsumer.committed) + 1 |>)%go.

Definition count_error (c : ConfigConsumer.t) : ConfigConsumer.t :=
  (c <| ConfigConsumer.errors := int64 (c.(ConfigConsumer.errors) + 1) |>)%go.

Definition count_processed (c : ConfigConsumer.t) : ConfigConsumer.t :=
  (c <| ConfigConsumer.processed := int64 (c.(ConfigConsumer.processed) + 1) |>)%go.

(** A store call of the loop: its error is counted and otherwise ignored. *)
Definition apply_store (r : Writer.t * option StoreError) (c : ConfigConsumer.t) : ConfigConsumer.t :=
  let c := (c <| ConfigConsumer.configStore := r.1 |>)%go in
  match r.2 with Some _ => count_error c | None => c end.

(** One fetched message of [ConfigConsumer.Start]. *)
Definition consumeMessage (now : Z) (value : option ConfigEvent.t) (c : ConfigConsumer.t)
    : ConfigConsumer.t :=
  let w := c.(ConfigConsumer.configStore) in
  match value with
  | None => commit (count_error c)
  | Some ev =>
    let u := ev.(ConfigEvent.UserID) in
    let s := ev.(ConfigEvent.StrategyID) in
    let v := ev.(ConfigEvent.Version) in
    let finish c := commit (count_processed c) in
    let existing_stale :=
      match GetStrategy w u s with
      | Some existing => v <=? existing.(Strategy.Version)
      | None => false
      end in
    if one_of ev.(ConfigEvent.Type_) [ConfigCreated; ConfigUpdated] then
      match ev.(ConfigEvent.Config) with
      | None => commit c
      | Some p =>
        if existing_stale then commit c
        else
          match ToModelStrategy (Some p) with
          | None => commit (count_error c)
          | Some m =>
            let m := (m <| Strategy.Version := v |> <| Strategy.Active := true |>)%go in
            finish (apply_store (Upsert now (Some m) w) c)
          end
      end
    else if String.eqb ev.(ConfigEvent.Type_) ConfigPaused then
      finish (apply_store (Pause now u s v w) c)
    else if String.eqb ev.(ConfigEvent.Type_) ConfigResumed then
      finish (apply_store (Resume now u s v w) c)
    else if String.eqb ev.(ConfigEvent.Type_) ConfigDeleted then
      finish (apply_store (Remove now u s v w) c)
    else finish c
  end.

(** ** The bulk load at startup ([startup/userconfig_client.go], [bootstrap.go]) *)

Module ProtoConditions.
Record t := mk {
  MatchAllNews : bool;
  ImpactScoreMin : Z;
  ImpactScoreMax : Z;
  Sentiments : list string;
  Categories : list string;
  MarketCapRange : option (f64 * f64);
  MarketCapTypes : list string;
  PctChangeRange : option (f64 * f64);
  Exchanges : list string
}.
End ProtoConditions.

Module ProtoTradeConfig.
Record t := mk {
  OrderType : string;
  ProductType : string;
  Validity : string;
  Quantity : Z;
  Exchange : string;
  OrderSide : string;
  StopLossPct : f64;
  TakeProfitPct : f64;
  StopLossType : string;
  TrailingSlPct : f64;
  LimitPrice : f64;
  TakeProfitType : string;
  MultiLevelSl : list MultiLevelExitLevel;
  MultiLevelTp : list MultiLevelExitLevel;
  TradeWindowStart : string;
  TradeWindowEnd : string
}.
End ProtoTradeConfig.

Module ProtoRiskLimits.
Record t := mk {
  MaxDailyTrades : Z;
  MaxPerTradeRisk : f64;
  MaxPortfolioExposurePct : f64;
  MaxLossPerDay : f64;
  EnableRiskChecks : bool;
  EnableAutoSquareOff : bool;
  AutoSquareOffTime : string;
  PositionSizing : string;
  MaxAmountPerStock : f64;
  MaxTradesPerStrategy : Z
}.
End ProtoRiskLimits.

(** [proto.Strategy]; a time is its seconds and nanoseconds. *)
Module ProtoStrategy.
Record t := mk {
  StrategyId : string;
  UserId : string;
  StrategyName : string;
  Active : bool;
  TradingMode : string;
  Conditions : option ProtoConditions.t;
  TradeConfig : option ProtoTradeConfig.t;
  RiskLimits : option ProtoRiskLimits.t;
  Version : Z;
  CreatedAt : option (Z * Z);
  UpdatedAt : option (Z * Z)
}.
End ProtoStrategy.

Definition sentimentsToStrings (l : list string) : list string :=
  map (fun s => if String.eqb s "SENTIMENT_POSITIVE" then "positive"
                else if String.eqb s "SENTIMENT_NEGATIVE" then "negative" else "neutral") l.

Definition exchangesToStrings (l : list string) : list string :=
  map (fun e => if String.eqb e "EXCHANGE_NSE" then "NSE"
                else if String.eqb e "EXCHANGE_BSE" then "BSE" else e) l.

(** The package has its own copies of the normalisers. *)
Definition startup_normalizeOrderType (v : string) : string :=
  if one_of v ["ORDER_TYPE_MARKET"; "MARKET"] then "MARKET"
  else if one_of v ["ORDER_TYPE_LIMIT"; "LIMIT"] then "LIMIT" else "MARKET".

Definition startup_normalizeStopLossType (v : string) : string :=
  if one_of v ["STOP_LOSS_TYPE_FIXED"; "FIXED"] then "FIXED"
  else if one_of v ["STOP_LOSS_TYPE_TRAILING"; "TRAILING"] then "TRAILING" else "FIXED".

Definition normalizeTradingMode (v : string) : string :=
  if one_of v ["TRADING_MODE_LIVE"; "LIVE"] then "LIVE"
  else if one_of v ["TRADING_MODE_PAPER"; "PAPER"] then "PAPER" else "PAPER".

Definition proto_time (t : option (Z * Z)) : Z :=
  match t with Some (s, n) => s * 10 ^ 9 + n | None => zero_time end.

Definition zero_conditions : Conditions.t :=
  Conditions.mk false 0 0 [] [] fzero fzero fzero fzero [] [] fzero fzero.
Definition zero_trade_config : TradeConfig.t :=
  TradeConfig.mk "" 0 fzero fzero fzero "" "" "" fzero "" "" fzero "" [] [] "" "".
Definition zero_risk_limits : RiskLimits.t :=
  RiskLimits.mk 0 fzero fzero fzero "" false "" fzero 0.

Definition proto_conditions (c : ProtoConditions.t) : Conditions.t :=
  let pct := default (fzero, fzero) c.(ProtoConditions.PctChangeRange) in
  let mcap := default (fzero, fzero) c.(ProtoConditions.MarketCapRange) in
  Conditions.mk c.(ProtoConditions.MatchAllNews) c.(ProtoConditions.ImpactScoreMin)
    c.(ProtoConditions.ImpactScoreMax) (sentimentsToStrings c.(ProtoConditions.Sentiments))
    c.(ProtoConditions.Categories) fzero fzero pct.1 pct.2
    (exchangesToStrings c.(ProtoConditions.Exchanges)) c.(ProtoConditions.MarketCapTypes)
    mcap.1 mcap.2.

Definition proto_trade_config (c : ProtoTradeConfig.t) : TradeConfig.t :=
  (zero_trade_config
    <| TradeConfig.OrderType := startup_normalizeOrderType c.(ProtoTradeConfig.OrderType) |>
    <| TradeConfig.ProductType := c.(ProtoTradeConfig.ProductType) |>
    <| TradeConfig.Validity := c.(ProtoTradeConfig.Validity) |>
    <| TradeConfig.Quantity := c.(ProtoTradeConfig.Quantity) |>
    <| TradeConfig.Exchange := normalizeExchange c.(ProtoTradeConfig.Exchange) |>
    <| TradeConfig.OrderSide := normalizeOrderSide c.(ProtoTradeConfig.OrderSide) |>
    <| TradeConfig.LimitPrice := c.(ProtoTradeConfig.LimitPrice) |>
    <| TradeConfig.StopLossPct := c.(ProtoTradeConfig.StopLossPct) |>
    <| TradeConfig.TakeProfitPct := c.(ProtoTradeConfig.TakeProfitPct) |>
    <| TradeConfig.StopLossType := startup_normalizeStopLossType c.(ProtoTradeConfig.StopLossType) |>
    <| TradeConfig.TrailingSLPct := c.(ProtoTradeConfig.TrailingSlPct) |>)%go.

Definition proto_risk_limits (c : ProtoRiskLimits.t) : RiskLimits.t :=
  (zero_risk_limits
    <| RiskLimits.MaxDailyTrades := c.(ProtoRiskLimits.MaxDailyTrades) |>
    <| RiskLimits.MaxLossPerDay := c.(ProtoRiskLimits.MaxLossPerDay) |>
    <| RiskLimits.MaxPerTradeRisk := c.(ProtoRiskLimits.MaxPerTradeRisk) |>
    <| RiskLimits.PositionSizing := c.(ProtoRiskLimits.PositionSizing) |>
    <| RiskLimits.EnableAutoSquareOff := c.(ProtoRiskLimits.EnableAutoSquareOff) |>
    <| RiskLimits.AutoSquareOffTime := c.(ProtoRiskLimits.AutoSquareOffTime) |>)%go.

(** [protoToModel]; [None] is the error. *)
Definition protoToModel (ps : option ProtoStrategy.t) : option Strategy.t :=
  match ps with
  | None => None
  | Some ps =>
    if String.eqb ps.(ProtoStrategy.StrategyId) "" || String.eqb ps.(ProtoStrategy.UserId) ""
    then None
    else Some (Strategy.mk ps.(ProtoStrategy.StrategyId) ps.(ProtoStrategy.UserId)
      ps.(ProtoStrategy.StrategyName) (ps.(ProtoStrategy.Version) mod 2 ^ 64)
      ps.(ProtoStrategy.Active) (normalizeTradingMode ps.(ProtoStrategy.TradingMode))
      (from_option proto_conditions zero_conditions ps.(ProtoStrategy.Conditions))
      (from_option proto_trade_config zero_trade_config ps.(ProtoStrategy.TradeConfig))
      (from_option proto_risk_limits zero_risk_limits ps.(ProtoStrategy.RiskLimits))
      (proto_time ps.(ProtoStrategy.CreatedAt)) (proto_time ps.(ProtoStrategy.UpdatedAt)) "" "" "")
  end.

(** One response of the user configuration service. *)
Record Page := MkPage {
  Success : bool;
  Strategies : list (option ProtoStrategy.t);
  NextPageToken : string
}.

Inductive BootError := ErrPage | ErrUnsuccessful | ErrNoneLoaded.

Section Bootstrap.
(** The call of the service with a page size and a token; [None] is an error
    of the transport. *)
Context (service : Z -> string -> option Page).

(** [UserConfigClient.GetAllActiveStrategies]: the loop over the pages.  The
    code does not bound it; running out of [fuel] is [None]. *)
Fixpoint fetchPages (fuel : nat) (token : string) (all : list Strategy.t)
    : option (BootError + list Strategy.t) :=
  match fuel with
  | O => None
  | S fuel =>
    match service 500 token with
    | None => Some (inl ErrPage)
    | Some resp =>
      if negb resp.(Success) then Some (inl ErrUnsuccessful)
      else
        let all := all ++ omap protoToModel resp.(Strategies) in
        if String.eqb resp.(NextPageToken) "" then Some (inr all)
        else fetchPages fuel resp.(NextPageToken) all
    end
  end.

Definition GetAllActiveStrategies (fuel : nat) : option (BootError + list Strategy.t) :=
  fetchPages fuel "" [].
End Bootstrap.

(** [validateStrategyConfig]: the checks of the bulk load. *)
Definition bulk_valid (s : Strategy.t) : bool :=
  let c := s.(Strategy.Conditions) in
  negb (String.eqb s.(Strategy.StrategyID) "") && negb (String.eqb s.(Strategy.UserID) "") &&
  negb (c.(Conditions.ImpactScoreMin) >? c.(Conditions.ImpactScoreMax)) &&
  negb (flt fzero c.(Conditions.MinPctChange) && flt fzero c.(Conditions.MaxPctChange)
        && flt c.(Conditions.MaxPctChange) c.(Conditions.MinPctChange)) &&
  (0 <? s.(Strategy.TradeConfig).(TradeConfig.Quantity)) &&
  (0 <=? s.(Strategy.RiskLimits).(RiskLimits.MaxDailyTrades)).

(** [Bootstrapper.Run] with a configured client and store. *)
Definition Bootstrap (now : Z) (fetched : BootError + list Strategy.t) (w : Writer.t)
    : Writer.t * option BootError :=
  match fetched with
  | inl e => (w, Some e)
  | inr l =>
    let w := BulkLoad now (map Some (filter (fun s => bulk_valid s = true) l)) w in
    let total := w.(Writer.published).(Snapshot.TotalStrategies) in
    (w, if (total =? 0) && negb (bool_decide (l = [])) then Some ErrNoneLoaded else None)
  end.

(** ** The service's side of the paging ([user-config/internal/server/grpc_server.go]) *)

Section Server.
(** The active strategies in the order of the query, already converted to
    protocol buffers. *)
Context (rows : list (option ProtoStrategy.t)).

(** [StrategyRepository.ListAllActive]: a window of the rows. *)
Definition ListAllActive (limit offset : Z) : list (option ProtoStrategy.t) :=
  let limit := if limit <=? 0 then 500 else limit in
  let offset := if offset <? 0 then 0 else offset in
  take (Z.to_nat limit) (drop (Z.to_nat offset) rows).

(** [UserConfigServer.GetAllActiveStrategies]. *)
Definition serve_page (pageSize : Z) (token : string) : Page :=
  let pageSize := if pageSize <=? 0 then 500 else pageSize in
  let pageSize := if pageSize >? 2000 then 2000 else pageSize in
  let offset :=
    if String.eqb token "" then Some 0
    else match Atoi token with
         | Some o => if o <? 0 then None else Some o
         | None => None
         end in
  match offset with
  | None => MkPage false [] ""
  | Some offset =>
    let strategies := ListAllActive pageSize offset in
    MkPage true strategies
      (if Z.of_nat (length strategies) =? pageSize then Itoa (int64 (offset + pageSize)) else "")
  end.
End Server.

(** ** Paging loads every active strategy *)

Lemma serve_500 rows offset :
  0 <= offset -> offset + 500 < 2 ^ 63 ->
  serve_page rows 500 (if offset =? 0 then "" else Itoa offset) =
  MkPage true (take 500 (drop (Z.to_nat offset) rows))
    (if (500 <=? length (drop (Z.to_nat offset) rows))%nat then Itoa (offset + 500) else "").
Proof.
  intros H0 Hmax. unfold serve_page, ListAllActive.
  assert (Htok : (if String.eqb (if offset =? 0 then "" else Itoa offset) "" then Some 0
    else match Atoi (if offset =? 0 then "" else Itoa offset) with
         | Some o => if o <? 0 then None else Some o | None => None end) = Some offset).
  { destruct (Z.eqb_spec offset 0) as [->|Hne]; [done|].
    rewrite Atoi_Itoa by (unfold in_int64; lia).
    destruct (String.eqb_spec (Itoa offset) "") as [E|_].
    - pose proof (Atoi_Itoa offset ltac:(unfold in_int64; lia)) as Ha. by rewrite E in Ha.
    - by rewrite (proj2 (Z.ltb_ge offset 0)) by lia. }
  rewrite Htok. cbn -[take drop Z.add Itoa Nat.leb Z.to_nat]. rewrite (proj2 (Z.ltb_ge offset 0)) by lia.
  rewrite int64_id by (unfold in_int64; lia). f_equal.
  change (Z.to_nat 500) with 500%nat.
  rewrite length_take. set (n := length _).
  destruct (Nat.leb_spec 500 n).
  - by rewrite (proj2 (Z.eqb_eq _ _)) by lia.
  - by rewrite (proj2 (Z.eqb_neq _ _)) by lia.
Qed.

Lemma fetch_from rows fuel offset all :
  0 <= offset -> Z.of_nat (length rows) + 500 < 2 ^ 62 -> offset <= Z.of_nat (length rows) ->
  (length (drop (Z.to_nat offset) rows) / 500 < fuel)%nat ->
  fetchPages (fun n tok => Some (serve_page rows n tok)) fuel
    (if offset =? 0 then "" else Itoa offset) all =
  Some (inr (all ++ omap protoToModel (drop (Z.to_nat offset) rows))).
Proof.
  revert offset all. induction fuel as [|fuel IH]; intros offset all H0 Hlen Hle Hf; [lia|].
  cbn [fetchPages]. rewrite serve_500 by lia. cbn [Success negb Strategies NextPageToken].
  set (rest := drop (Z.to_nat offset) rows) in *.
  destruct (Nat.leb_spec 500 (length rest)) as [Hfull|Hlast].
  - assert (Hrest : (length rest = length rows - Z.to_nat offset)%nat) by apply length_drop.
    destruct (String.eqb_spec (Itoa (offset + 500)) "") as [E|_].
    { pose proof (Atoi_Itoa (offset + 500) ltac:(unfold in_int64; lia)) as Ha. by rewrite E in Ha. }
    pose proof (IH (offset + 500) (all ++ omap protoToModel (take 500 rest))) as Hn.
    rewrite (proj2 (Z.eqb_neq (offset + 500) 0)) in Hn by lia.
    assert (Hd : drop (Z.to_nat (offset + 500)) rows = drop 500 rest).
    { unfold rest. rewrite drop_drop. f_equal. lia. }
    rewrite Hd in Hn. rewrite Hn; [|lia..|].
    + by rewrite <- app_assoc, <- omap_app, take_drop.
    + rewrite length_drop.
      replace (length rest) with (1 * 500 + (length rest - 500))%nat in Hf by lia.
      rewrite Nat.div_add_l in Hf by lia. lia.
  - cbn [String.eqb]. by rewrite take_ge by lia.
Qed.

(** With as many rounds as the service has pages of 500, the loop ends and has
    read the whole list. *)
Lemma paging_loads_all rows fuel :
  Z.of_nat (length rows) + 500 < 2 ^ 62 -> (length rows / 500 < fuel)%nat ->
  GetAllActiveStrategies (fun n tok => Some (serve_page rows n tok)) fuel =
  Some (inr (omap protoToModel rows)).
Proof. intros Hlen Hfuel. by apply (fetch_from rows fuel 0 []); try lia. Qed.

(** ** What the startup loads *)

(** The strategies the bulk load takes, in terms of what the service sends. *)
Definition loadable (ps : ProtoStrategy.t) : Prop :=
  ps.(ProtoStrategy.StrategyId) <> "" /\ ps.(ProtoStrategy.UserId) <> "" /\
  ps.(ProtoStrategy.Active) = true /\
  (forall c, ps.(ProtoStrategy.Conditions) = Some c ->
     c.(ProtoConditions.ImpactScoreMin) <= c.(ProtoConditions.ImpactScoreMax) /\
     forall lo hi, c.(ProtoConditions.PctChangeRange) = Some (lo, hi) ->
       flt fzero lo = true -> flt fzero hi = true -> flt hi lo = false) /\
  (exists tc, ps.(ProtoStrategy.TradeConfig) = Some tc /\ 0 < tc.(ProtoTradeConfig.Quantity)) /\
  (forall r, ps.(ProtoStrategy.RiskLimits) = Some r -> 0 <= r.(ProtoRiskLimits.MaxDailyTrades)).

Definition row_key (ps : ProtoStrategy.t) : string * string :=
  (ps.(ProtoStrategy.UserId), ps.(ProtoStrategy.StrategyId)).

Lemma protoToModel_fields ps m :
  protoToModel (Some ps) = Some m ->
  m.(Strategy.UserID) = ps.(ProtoStrategy.UserId) /\
  m.(Strategy.StrategyID) = ps.(ProtoStrategy.StrategyId) /\
  m.(Strategy.Active) = ps.(ProtoStrategy.Active).
Proof. unfold protoToModel. destruct (_ || _); [done|]. by intros [= <-]. Qed.

(** What is taken is what converts, is active and passes the checks. *)
Lemma loadable_valid ps :
  loadable ps <->
  exists m, protoToModel (Some ps) = Some m /\ m.(Strategy.Active) = true /\ bulk_valid m = true.
Proof.
  unfold loadable, protoToModel.
  destruct (String.eqb_spec ps.(ProtoStrategy.StrategyId) "") as [Hs|Hs];
    [split; [by intros [? _]|by intros (m & ? & _)]|].
  destruct (String.eqb_spec ps.(ProtoStrategy.UserId) "") as [Hu|Hu];
    [split; [by intros (_ & ? & _)|by intros (m & ? & _)]|]. cbn [orb].
  apply String.eqb_neq in Hs as Hs', Hu as Hu'.
  assert (Hex : forall (x : Strategy.t) (P : Strategy.t -> Prop),
    (exists m, Some x = Some m /\ P m) <-> P x).
  { intros x P. split; [by intros (m & [= <-] & H)|eauto]. }
  rewrite Hex. unfold bulk_valid. cbn [Strategy.StrategyID Strategy.UserID Strategy.Active
    Strategy.Conditions Strategy.TradeConfig Strategy.RiskLimits]. rewrite Hs', Hu'. cbn [negb andb].
  rewrite !andb_true_iff, !negb_true_iff.
  assert (Hc : (forall c, ps.(ProtoStrategy.Conditions) = Some c ->
     c.(ProtoConditions.ImpactScoreMin) <= c.(ProtoConditions.ImpactScoreMax) /\
     forall lo hi, c.(ProtoConditions.PctChangeRange) = Some (lo, hi) ->
       flt fzero lo = true -> flt fzero hi = true -> flt hi lo = false) <->
    let c := from_option proto_conditions zero_conditions ps.(ProtoStrategy.Conditions) in
    (c.(Conditions.ImpactScoreMin) >? c.(Conditions.ImpactScoreMax)) = false /\
    flt fzero c.(Conditions.MinPctChange) && flt fzero c.(Conditions.MaxPctChange)
      && flt c.(Conditions.MaxPctChange) c.(Conditions.MinPctChange) = false).
  { destruct ps.(ProtoStrategy.Conditions) as [c|]; cbn; [|by split].
    rewrite Z.gtb_ltb, Z.ltb_ge, !andb_false_iff. split.
    - intros H. destruct (H c eq_refl) as [Hle Hp]. split; [done|].
      destruct c.(ProtoConditions.PctChangeRange) as [[lo hi]|]; cbn; [|by left; left].
      specialize (Hp lo hi eq_refl). destruct (flt fzero lo), (flt fzero hi); auto.
    - intros [Hle Hp] c' [= <-]. split; [done|]. intros lo hi Hr. rewrite Hr in Hp. cbn in Hp.
      intros H1 H2. rewrite H1, H2 in Hp. by destruct Hp as [[?|?]|?]. }
  assert (Ht : (exists tc, ps.(ProtoStrategy.TradeConfig) = Some tc /\
      0 < tc.(ProtoTradeConfig.Quantity)) <->
    (0 <? (from_option proto_trade_config zero_trade_config ps.(ProtoStrategy.TradeConfig))
            .(TradeConfig.Quantity)) = true).
  { rewrite Z.ltb_lt. destruct ps.(ProtoStrategy.TradeConfig) as [tc|]; cbn.
    - split; [by intros (? & [= <-] & ?)|eauto].
    - split; [by intros (? & ? & _)|lia]. }
  assert (Hr : (forall r, ps.(ProtoStrategy.RiskLimits) = Some r ->
      0 <= r.(ProtoRiskLimits.MaxDailyTrades)) <->
    (0 <=? (from_option proto_risk_limits zero_risk_limits ps.(ProtoStrategy.RiskLimits))
            .(RiskLimits.MaxDailyTrades)) = true).
  { rewrite Z.leb_le. destruct ps.(ProtoStrategy.RiskLimits) as [r|]; cbn; [|split; [lia|done]].
    split; [eauto|by intros ? ? [= <-]]. }
  cbn in Hc. rewrite Hc, Ht, Hr. tauto.
Qed.

Lemma NoDup_fmap_eq {A B} (f : A -> B) (l : list A) x y :
  NoDup (f <$> l) -> x ∈ l -> y ∈ l -> f x = f y -> x = y.
Proof.
  induction l as [|a l IH]; cbn; [by intros _ ?%not_elem_of_nil|].
  intros [Ha Hn]%NoDup_cons Hx Hy Hf.
  apply elem_of_cons in Hx as [->|Hx], Hy as [->|Hy]; [done|..|by apply IH].
  - destruct Ha. rewrite Hf. by apply list_elem_of_fmap_2.
  - destruct Ha. rewrite <- Hf. by apply list_elem_of_fmap_2.
Qed.

Section Loaded.
(** The rows the service lists, no two of them of one strategy. *)
Context (rows : list (option ProtoStrategy.t)).
Context (Hkeys : NoDup (row_key <$> omap id rows)).

Definition taken : list Strategy.t :=
  filter (fun s => bulk_valid s = true) (omap protoToModel rows).

Lemma elem_of_taken m :
  m ∈ taken <-> exists ps, Some ps ∈ rows /\ protoToModel (Some ps) = Some m /\ bulk_valid m = true.
Proof.
  unfold taken. rewrite list_elem_of_filter, list_elem_of_omap. split.
  - intros (Hv & [ps|] & Hin & Hm); [eauto|done].
  - intros (ps & Hin & Hm & Hv). eauto.
Qed.

Lemma taken_unique m1 m2 :
  m1 ∈ taken -> m2 ∈ taken -> m1.(Strategy.UserID) = m2.(Strategy.UserID) ->
  m1.(Strategy.StrategyID) = m2.(Strategy.StrategyID) -> m1 = m2.
Proof.
  intros (p1 & H1 & E1 & _)%elem_of_taken (p2 & H2 & E2 & _)%elem_of_taken Hu Hs.
  destruct (protoToModel_fields _ _ E1) as (U1 & S1 & _), (protoToModel_fields _ _ E2) as (U2 & S2 & _).
  assert (p1 = p2) as ->; [|congruence].
  apply (NoDup_fmap_eq row_key (omap id rows)); [done| | |unfold row_key; congruence];
    apply list_elem_of_omap; eauto.
Qed.

(** A key finds the active strategy taken for it. *)
Lemma find_taken u s b m :
  users_find (foldl bulk_insert ∅ (map Some taken)) u s = Some (b, m) <->
  b = true /\ m ∈ taken /\ m.(Strategy.Active) = true /\
  m.(Strategy.UserID) = u /\ m.(Strategy.StrategyID) = s.
Proof.
  rewrite find_bulk. set (l := omap (loaded u s) (map Some taken)).
  assert (Hl : forall x, x ∈ l <-> x ∈ taken /\ x.(Strategy.Active) = true /\
    x.(Strategy.UserID) = u /\ x.(Strategy.StrategyID) = s).
  { intros x. unfold l. rewrite list_elem_of_omap. split.
    - intros (o & (y & -> & Hy)%list_elem_of_fmap & Hx). cbn in Hx.
      destruct (String.eqb_spec (Strategy.UserID y) u), (String.eqb_spec (Strategy.StrategyID y) s),
        (Strategy.Active y) eqn:Ha; cbn in Hx; try done. by injection Hx as ->.
    - intros (Hx & Ha & <- & <-). exists (Some x). split; [by apply list_elem_of_fmap_2|].
      cbn. by rewrite !String.eqb_refl, Ha. }
  destruct (last l) as [m'|] eqn:E.
  - apply last_Some_elem_of, Hl in E as (Ht & Ha & Hu & Hs). split; [by intros [= <- <-]|].
    intros (-> & Ht' & _ & Hu' & Hs'). do 2 f_equal. apply taken_unique; congruence.
  - apply last_None in E. split; [by intros ?|]. intros (_ & Hx). apply Hl in Hx.
    rewrite E in Hx. by apply not_elem_of_nil in Hx.
Qed.

(** The active ones among them are the loadable rows. *)
Lemma taken_loadable m :
  m ∈ taken /\ m.(Strategy.Active) = true <->
  exists ps, Some ps ∈ rows /\ loadable ps /\ protoToModel (Some ps) = Some m.
Proof.
  rewrite elem_of_taken. split.
  - intros ((ps & Hin & Hm & Hv) & Ha). exists ps. rewrite loadable_valid. eauto 8.
  - intros (ps & Hin & (m' & Hm' & Ha & Hv)%loadable_valid & Hm).
    rewrite Hm in Hm'. injection Hm' as <-. eauto 8.
Qed.
End Loaded.

Lemma none_loadable rows l :
  (forall m, m ∈ l <-> m ∈ taken rows /\ m.(Strategy.Active) = true) ->
  l = [] <-> forall ps, Some ps ∈ rows -> ~ loadable ps.
Proof.
  intros Hl. split.
  - intros -> ps Hps Hlo. pose proof Hlo as (m & Hm & _)%loadable_valid.
    apply (not_elem_of_nil m). rewrite Hl, taken_loadable. eauto.
  - intros Hn. destruct l as [|m l]; [done|].
    assert (Hm : m ∈ m :: l) by left. apply Hl, taken_loadable in Hm as (ps & Hps & Hlo & _).
    by destruct (Hn ps Hps).
Qed.

(** After a bulk load nothing is paused, so the count of strategies is the
    count of active ones. *)
Lemma BulkLoad_none_paused now l w :
  (BulkLoad now l w).(Writer.published).(Snapshot.TotalPaused) = 0.
Proof.
  destruct (users_ok_bulk l ∅) as [_ Hp]; [by intros ???|by intros ???|].
  cbn. rewrite map_fold_sum. set (by_user := foldl bulk_insert ∅ l) in *.
  induction (sorted_keys by_user) as [|u us IH]; [done|]. cbn. rewrite IH.
  destruct (by_user !! u) as [uv|] eqn:E; [|done]. cbn. unfold msize. by rewrite (Hp u uv E), map_size_empty.
Qed.

Lemma BulkLoad_total now l w (s := (BulkLoad now l w).(Writer.published)) :
  s.(Snapshot.TotalStrategies) = Z.of_nat (length s.(Snapshot.AllActive)).
Proof.
  pose proof (BulkLoad_none_paused now l w) as Hp. fold s in Hp.
  destruct (BulkLoad_ok now l w) as (_ & _ & Hd). fold s in Hd.
  rewrite <- Hd at 2. rewrite length_all_active. rewrite <- Hd in Hp.
  rewrite <- Hd at 1. rewrite total_strategies, Hp. lia.
Qed.

(** C39: at startup the rules engine pages through the active strategies of the
    user configuration service.  Each page is answered from the same list,
    which has no strategy twice.  Then the loop over the pages ends, and the
    store holds, for each user and strategy id, the converted strategy when the
    service lists one that is [loadable], and nothing else; the list the engine
    evaluates holds the same strategies, in order of user and strategy id.  The
    startup fails exactly when strategies were read and none was taken. *)
Theorem startup_load_exact (rows : list (option ProtoStrategy.t)) (fuel : nat) (start now : Z)
    (Hlen : Z.of_nat (length rows) + 500 < 2 ^ 62) (Hfuel : (length rows / 500 < fuel)%nat)
    (Hkeys : NoDup (row_key <$> omap id rows)) :
  exists fetched w err,
    GetAllActiveStrategies (fun n tok => Some (serve_page rows n tok)) fuel = Some (inr fetched) /\
    Bootstrap now (inr fetched) (NewConfigStore start) = (w, err) /\
    fetched = omap protoToModel rows /\
    (forall u s b m, find_strategy w.(Writer.published) u s = Some (b, m) <->
       b = true /\ exists ps, Some ps ∈ rows /\ row_key ps = (u, s) /\ loadable ps /\
                             protoToModel (Some ps) = Some m) /\
    (forall m, m ∈ w.(Writer.published).(Snapshot.AllActive) <->
       exists ps, Some ps ∈ rows /\ loadable ps /\ protoToModel (Some ps) = Some m) /\
    StronglySorted strategy_before w.(Writer.published).(Snapshot.AllActive) /\
    (err <> None <-> fetched <> [] /\ forall ps, Some ps ∈ rows -> ~ loadable ps).
Proof.
  eexists _, _, _. split; [by apply paging_loads_all|]. split; [by apply surjective_pairing|].
  split; [done|]. unfold Bootstrap. fold (taken rows). cbn [fst snd].
  set (w := BulkLoad now (map Some (taken rows)) (NewConfigStore start)).
  pose proof (BulkLoad_ok now (map Some (taken rows)) (NewConfigStore start)) as (_ & Hu & Hd).
  fold w in Hu, Hd.
  assert (Hfind : forall u s b m, find_strategy w.(Writer.published) u s = Some (b, m) <->
    b = true /\ m ∈ taken rows /\ m.(Strategy.Active) = true /\
    m.(Strategy.UserID) = u /\ m.(Strategy.StrategyID) = s) by exact (find_taken rows Hkeys).
  assert (Hall : forall m, m ∈ w.(Writer.published).(Snapshot.AllActive) <->
    m ∈ taken rows /\ m.(Strategy.Active) = true).
  { intros m. rewrite <- Hd, elem_of_all_active, (find_active _ _ Hu), Hfind. tauto. }
  assert (Htot := BulkLoad_total now (map Some (taken rows)) (NewConfigStore start)).
  cbn zeta in Htot. fold w in Htot.
  split; [|split; [|split]].
  - intros u s b m. rewrite Hfind. split.
    + intros (-> & Hin & Ha & Hmu & Hms). split; [done|].
      destruct (proj1 (taken_loadable rows m) (conj Hin Ha)) as (ps & Hps & Hl & Hm).
      destruct (protoToModel_fields _ _ Hm) as (E1 & E2 & _).
      exists ps. unfold row_key. rewrite <- E1, <- E2, Hmu, Hms. done.
    + intros (-> & ps & Hps & [= <- <-] & Hl & Hm).
      destruct (proj2 (taken_loadable rows m) (ex_intro _ ps (conj Hps (conj Hl Hm)))).
      by destruct (protoToModel_fields _ _ Hm) as (-> & -> & _).
  - intros m. by rewrite Hall, taken_loadable.
  - rewrite <- Hd. by apply all_active_sorted.
  - cbn zeta. cbn [snd]. fold w. rewrite Htot.
    pose proof (none_loadable rows _ Hall) as Hnone. clear Hfind Hall Hd Hu Htot.
    clearbody w. rewrite <- Hnone.
    destruct (Z.eqb_spec (Z.of_nat (length w.(Writer.published).(Snapshot.AllActive))) 0) as [E|E].
    + cbn. assert (w.(Writer.published).(Snapshot.AllActive) = []) as ->
        by (apply length_zero_iff_nil; lia).
      case_bool_decide; cbn; split; try done; by intros [].
    + cbn. split; [done|]. intros [_ He]. by rewrite He in E.
Qed.

(** A strategy that reaches the engine through the bulk load has lost what
    the service sent with it: its budget per stock, its cap on trades, its trade
    window and its multi-level exits; it is never a bracket order, and its
    multi-level stop-loss has become a fixed one.  The same strategy arriving
    as an event keeps them. *)
Theorem bulk_load_drops_limits (ps : ProtoStrategy.t) (m : Strategy.t)
    (Hm : protoToModel (Some ps) = Some m) :
  m.(Strategy.RiskLimits).(RiskLimits.MaxAmountPerStock) = fzero /\
  m.(Strategy.RiskLimits).(RiskLimits.MaxTradesPerStrategy) = 0 /\
  m.(Strategy.TradeConfig).(TradeConfig.TradeWindowStart) = "" /\
  m.(Strategy.TradeConfig).(TradeConfig.TradeWindowEnd) = "" /\
  m.(Strategy.TradeConfig).(TradeConfig.MultiLevelSL) = [] /\
  m.(Strategy.TradeConfig).(TradeConfig.MultiLevelTP) = [] /\
  m.(Strategy.TradeConfig).(TradeConfig.OrderType) <> "BRACKET" /\
  m.(Strategy.TradeConfig).(TradeConfig.StopLossType) <> "MULTI_LEVEL".
Proof.
  unfold protoToModel in Hm. destruct (_ || _); [done|]. injection Hm as <-. cbn.
  destruct ps.(ProtoStrategy.TradeConfig) as [tc|], ps.(ProtoStrategy.RiskLimits) as [rl|]; cbn;
    unfold startup_normalizeOrderType, startup_normalizeStopLossType;
    repeat (split; [done|]); repeat case_match; done.
Qed.

(** ** A paused strategy that is edited trades again *)

Lemma consume_upsert now ev p m c :
  one_of ev.(ConfigEvent.Type_) [ConfigCreated; ConfigUpdated] = true ->
  ev.(ConfigEvent.Config) = Some p -> ToModelStrategy (Some p) = Some m ->
  match GetStrategy c.(ConfigConsumer.configStore) ev.(ConfigEvent.UserID) ev.(ConfigEvent.StrategyID)
  with Some st => st.(Strategy.Version) < ev.(ConfigEvent.Version) | None => True end ->
  (consumeMessage now (Some ev) c).(ConfigConsumer.configStore) =
  (Upsert now (Some (m <| Strategy.Version := ev.(ConfigEvent.Version) |>
                       <| Strategy.Active := true |>)%go) c.(ConfigConsumer.configStore)).1.
Proof.
  intros Hty Hcfg Hm Hv. unfold consumeMessage. rewrite Hty, Hcfg, Hm.
  assert (Hst : match GetStrategy c.(ConfigConsumer.configStore) ev.(ConfigEvent.UserID)
    ev.(ConfigEvent.StrategyID) with
    Some existing => ev.(ConfigEvent.Version) <=? existing.(Strategy.Version) | None => false end = false).
  { destruct (GetStrategy _ _ _); [lia|done]. }
  rewrite Hst. unfold apply_store. by destruct (Upsert _ _ _) as [w' []].
Qed.

(** A strategy is paused.  Its owner edits it while it stays inactive, so
    the event carries the new version and an inactive payload.  The Kafka
    consumer forces the payload active, and the edited strategy is active
    again; the consumer of [configsync], given the same event, leaves the
    store alone. *)
Theorem edit_reactivates_paused (start now : Z) (ops : list (Z * ConfigOp)) (proc errs com : Z)
    (ev : ConfigEvent.t) (p : StrategyPayload.t) (st : Strategy.t)
    (w := runOps ops (NewConfigStore start)) (u := ev.(ConfigEvent.UserID))
    (s := ev.(ConfigEvent.StrategyID)) (v := ev.(ConfigEvent.Version))
    (Hbar : no_bar u = true) (Hids : u <> "" /\ s <> "")
    (Hpaused : find_strategy w.(Writer.published) u s = Some (false, st))
    (Htype : one_of ev.(ConfigEvent.Type_) [ConfigCreated; ConfigUpdated] = true)
    (Hcfg : ev.(ConfigEvent.Config) = Some p)
    (Hpids : p.(StrategyPayload.UserID) = u /\ p.(StrategyPayload.StrategyID) = s)
    (Hinactive : p.(StrategyPayload.Active) = false)
    (Hnew : st.(Strategy.Version) < v)
    (Hfresh : stale w.(Writer.tombstones) (writer_key u s) v = false /\
              stale w.(Writer.versions) (writer_key u s) v = false) :
  (exists m, find_strategy (consumeMessage now (Some ev) (ConfigConsumer.mk w proc errs com))
               .(ConfigConsumer.configStore).(Writer.published) u s = Some (true, m) /\
             m.(Strategy.Version) = v /\
             m.(Strategy.TradeConfig) = toModelTradeConfig p.(StrategyPayload.TradeConfig)) /\
  (ProcessMessage now (Some ev) w).1 = w.
Proof.
  destruct Hids as [Hu Hs], Hpids as [Hpu Hps], Hfresh as [Hft Hfv].
  assert (Hget : GetStrategy w u s = Some st) by (unfold GetStrategy; by rewrite Hpaused).
  destruct (ToModelStrategy (Some p)) as [m|] eqn:Hm; cycle 1.
  { unfold ToModelStrategy in Hm. rewrite Hpu, Hps in Hm. apply String.eqb_neq in Hu, Hs.
    by rewrite Hu, Hs in Hm. }
  assert (Hmf : m.(Strategy.UserID) = u /\ m.(Strategy.StrategyID) = s /\
    m.(Strategy.Active) = false /\
    m.(Strategy.TradeConfig) = toModelTradeConfig p.(StrategyPayload.TradeConfig)).
  { unfold ToModelStrategy in Hm. destruct (_ || _); [done|]. injection Hm as <-. done. }
  destruct Hmf as (Hmu & Hms & Hma & Htc). split.
  - set (m' := (m <| Strategy.Version := v |> <| Strategy.Active := true |>)%go).
    rewrite (consume_upsert now ev p m) by (cbn; fold u s v; rewrite ?Hget; done).
    fold v m'. rewrite Upsert_fst. exists m'. split; [|done]. cbn [ConfigConsumer.configStore].
    assert (Hsim : sim u s w (MkKey (Some (false, st))
      (w.(Writer.tombstones) !! writer_key u s) (w.(Writer.versions) !! writer_key u s))) by done.
    pose proof (upsert_sim now m' w u s _ Hbar ltac:(cbn; by rewrite Hmu)
      (runOps_ok ops _ (NewConfigStore_ok start)) Hsim) as [He _].
    unfold spec_step in He. cbn [Strategy.UserID Strategy.StrategyID Strategy.Active
      Strategy.Version m' set] in He. rewrite Hmu, Hms, fresh_same in He.
    cbn [tomb ver entry] in He. rewrite <- !stale_eq, Hft, Hfv in He.
    apply String.eqb_neq in Hu, Hs. rewrite Hu, Hs in He. exact He.
  - unfold ProcessMessage. fold u s v. rewrite Hget, Htype, Hcfg, Hm.
    apply String.eqb_neq in Hu, Hs. rewrite Hu, Hs. cbn [orb].
    rewrite (proj2 (Z.leb_gt v _)) by done. rewrite andb_false_r. cbn [fst].
    rewrite Upsert_fst. unfold ApplyUpsert. destruct (_ || _); [done|]. cbn. by rewrite Hma.
Qed.

(** ** Concrete messages *)

Definition sample_payload (active : bool) : StrategyPayload.t :=
  StrategyPayload.mk "s1" "u1" "n" active "LIVE"
    (ConditionsPayload.mk false 5 10 ["positive"] [] [] fzero fzero fzero fzero ["EXCHANGE_NSE"] 0)
    (TradeConfigPayload.mk "ORDER_TYPE_BRACKET" "" "" 10 "EXCHANGE_NSE" "ORDER_SIDE_BUY" fzero
       (of_Z 1) (of_Z 2) fzero "FIXED" "FIXED" [] [] "09:30" "14:00" 0)
    (RiskLimitsPayload.mk 5 fzero fzero fzero true false "" (of_Z 10000) 2 0) 7 1 1.

Definition sample_event : ConfigEvent.t :=
  ConfigEvent.mk ConfigUpdated "u1" "s1" 7 0 (Some (sample_payload false)).

Definition paused_ops : list (Z * ConfigOp) :=
  [(1, OpUpsert (Some (sample_strategy "u1" "s1" 3 true))); (2, OpPause "u1" "s1" 4)].

Lemma edit_reactivates_paused_witness :
  let w := runOps paused_ops (NewConfigStore 0) in
  (exists m, find_strategy (consumeMessage 5 (Some sample_event) (ConfigConsumer.mk w 0 0 0))
               .(ConfigConsumer.configStore).(Writer.published) "u1" "s1" = Some (true, m) /\
             m.(Strategy.Version) = 7 /\
             m.(Strategy.TradeConfig) = toModelTradeConfig (sample_payload false).(StrategyPayload.TradeConfig)) /\
  (ProcessMessage 5 (Some sample_event) w).1 = w.
Proof.
  apply (edit_reactivates_paused 0 5 paused_ops 0 0 0 sample_event (sample_payload false)
    (sample_strategy "u1" "s1" 3 true)); vm_compute; repeat split; done.
Defined.

Definition sample_proto (id : string) : ProtoStrategy.t :=
  ProtoStrategy.mk id "u1" "n" true "TRADING_MODE_LIVE" None
    (Some (ProtoTradeConfig.mk "ORDER_TYPE_LIMIT" "PRODUCT_TYPE_INTRADAY" "DAY" 10 "EXCHANGE_NSE"
       "ORDER_SIDE_BUY" (of_Z 1) (of_Z 2) "MULTI_LEVEL" fzero fzero "TAKE_PROFIT_MULTI_LEVEL"
       [MkLevel 1 (of_Z 1) (of_Z 100)] [] "09:30" "14:00"))
    (Some (ProtoRiskLimits.mk 5 fzero fzero fzero true false "" "" (of_Z 10000) 2)) 3 None None.

Definition sample_rows : list (option ProtoStrategy.t) :=
  [Some (sample_proto "s1"); None; Some (sample_proto ""); Some (sample_proto "s2")].

Lemma startup_load_exact_witness :
  exists fetched w err,
    GetAllActiveStrategies (fun n tok => Some (serve_page sample_rows n tok)) 1 = Some (inr fetched) /\
    Bootstrap 5 (inr fetched) (NewConfigStore 0) = (w, err) /\
    (exists m, find_strategy w.(Writer.published) "u1" "s2" = Some (true, m)) /\
    find_strategy w.(Writer.published) "u1" "" = None.
Proof.
  destruct (startup_load_exact sample_rows 1 0 5) as (l & w & err & Hl & Hw & _ & Hfind & _);
    [vm_compute; done|vm_compute; lia|by apply (bool_decide_unpack _)|].
  exists l, w, err. split; [exact Hl|]. split; [exact Hw|]. split.
  - destruct (protoToModel (Some (sample_proto "s2"))) as [m|] eqn:E; [|vm_compute in E; done].
    exists m. apply Hfind. split; [done|]. exists (sample_proto "s2"). split; [by repeat constructor|].
    split; [done|]. split; [|done]. apply loadable_valid. exists m. split; [done|].
    vm_compute in E. injection E as <-. by vm_compute.
  - destruct (find_strategy w.(Writer.published) "u1" "") as [[b m]|] eqn:E; [|done].
    apply Hfind in E as (_ & ps & _ & Hk & (Hid & _) & _). injection Hk as _ Hk. done.
Defined.

(** A strategy with a budget per stock instead of a quantity, which the
    service accepts and the consumer of events takes, is not loadable: after a
    restart the engine does not have it. *)
Definition budget_proto : ProtoStrategy.t :=
  ProtoStrategy.mk "s1" "u1" "n" true "TRADING_MODE_LIVE" None
    (Some (ProtoTradeConfig.mk "ORDER_TYPE_MARKET" "PRODUCT_TYPE_INTRADAY" "DAY" 0 "EXCHANGE_NSE"
       "ORDER_SIDE_BUY" (of_Z 1) (of_Z 2) "FIXED" fzero fzero "FIXED" [] [] "" ""))
    (Some (ProtoRiskLimits.mk 5 fzero fzero fzero true false "" "" (of_Z 10000) 2)) 3 None None.

Example budget_strategy_lost_at_restart :
  let fetched := GetAllActiveStrategies
    (fun n tok => Some (serve_page [Some budget_proto; Some (sample_proto "s2")] n tok)) 1 in
  (exists l, fetched = Some (inr l) /\
     map Strategy.StrategyID
       (Bootstrap 5 (inr l) (NewConfigStore 0)).1.(Writer.published).(Snapshot.AllActive) = ["s2"]) /\
  (exists l, GetAllActiveStrategies (fun n tok => Some (serve_page [Some budget_proto] n tok)) 1 =
       Some (inr l) /\
     (Bootstrap 5 (inr l) (NewConfigStore 0)).2 = Some ErrNoneLoaded).
Proof. split; eexists; (split; [vm_compute; reflexivity|vm_compute; reflexivity]). Qed.

(** The pages are windows of a list that is read anew for each of them: when a
    strategy of the first page is deactivated before the second is read, the
    strategy that moves from the second page to the first is never read. *)
Definition many_rows : list (option ProtoStrategy.t) :=
  map (fun n => Some (sample_proto (Itoa (Z.of_nat n)))) (seq 1 501).

Example deactivation_during_load_skips_one :
  let service n tok := Some (serve_page (if String.eqb tok "" then many_rows else tail many_rows) n tok) in
  exists l, GetAllActiveStrategies service 2 = Some (inr l) /\
    existsb (fun m => String.eqb m.(Strategy.StrategyID) "501") l = false /\
    last (tail many_rows) = Some (Some (sample_proto "501")).
Proof.
  eexists. split; [vm_compute; reflexivity|]. split; vm_compute; reflexivity.
Qed.

Lemma bulk_load_drops_limits_witness :
  exists m, protoToModel (Some (sample_proto "s1")) = Some m /\
    m.(Strategy.RiskLimits).(RiskLimits.MaxAmountPerStock) = fzero /\
    m.(Strategy.TradeConfig).(TradeConfig.TradeWindowStart) = "".
Proof.
  destruct (protoToModel (Some (sample_proto "s1"))) as [m|] eqn:E; [|vm_compute in E; done].
  exists m. pose proof (bulk_load_drops_limits (sample_proto "s1") m E) as (? & _ & ? & _). done.
Defined.
