(* ===== verification/Matcher.v ===== *)
(** * Matching strategies against events

    [rules-engine/internal/matcher]: the evaluator's conditions
    ([evaluator.go]) and the score ([scorer.go]).  Logging is left out. *)

From stdpp Require Import base tactics strings list gmap.
From Stdlib Require Import ZArith Lia SpecFloat.
From S2P Require Import Prelude GoFloat FloatRound FloatOrder GoStrings RuleModels.

Open Scope string_scope.
Open Scope list_scope.
Open Scope Z_scope.

Definition PctChangeWithinRange := "within_range".
Definition PctChangeBelowMin := "below_min".
Definition PctChangeAboveMax := "above_max".

Module EvaluationResult.
Record t := mk {
  MatchedConditions : list string;
  FailedConditions : list string;
  ConditionScores : gmap string f64;
  PctChangeStatus : string
}.
#[global] Instance eta_evaluation_result : Eta t := fun r =>
  mk r.(MatchedConditions) r.(FailedConditions) r.(ConditionScores) r.(PctChangeStatus).
End EvaluationResult.

Definition empty_result : EvaluationResult.t := EvaluationResult.mk [] [] ∅ "".

(** [math.MaxFloat64]. *)
Definition MaxFloat64 : f64 := S754_finite false 9007199254740991 971.

(** [math.Min]. *)
Definition math_Min (x y : f64) : f64 :=
  match x, y with
  | S754_infinity true, _ | _, S754_infinity true => S754_infinity true
  | S754_nan, _ | _, S754_nan => S754_nan
  | S754_zero a, S754_zero b => S754_zero (a || b)
  | _, _ => if flt x y then x else y
  end.

Definition f100 : f64 := of_Z 100.

(** The two ends of every condition. *)
Definition pass (condition : string) (score : f64) (r : EvaluationResult.t) : EvaluationResult.t :=
  (r <| EvaluationResult.MatchedConditions := r.(EvaluationResult.MatchedConditions) ++ [condition] |>
     <| EvaluationResult.ConditionScores := <[condition := score]> r.(EvaluationResult.ConditionScores) |>)%go.

Definition reject (condition : string) (r : EvaluationResult.t) : EvaluationResult.t :=
  (r <| EvaluationResult.FailedConditions := r.(EvaluationResult.FailedConditions) ++ [condition] |>
     <| EvaluationResult.ConditionScores := <[condition := fzero]> r.(EvaluationResult.ConditionScores) |>)%go.

Definition evaluateImpactScore (e : MarketEvent.t) (s : Strategy.t) (r : EvaluationResult.t)
    : EvaluationResult.t :=
  let c := s.(Strategy.Conditions) in
  let min := c.(Conditions.ImpactScoreMin) in
  let max := if c.(Conditions.ImpactScoreMax) =? 0 then 10 else c.(Conditions.ImpactScoreMax) in
  let score := e.(MarketEvent.Analysis).(Analysis.ImpactScore) in
  if (min <=? score) && (score <=? max) then
    pass "impact_score" (of_Z score / of_Z 10 * f100)%f64 r
  else reject "impact_score" r.

(** The loops over the strategy's lists: an empty list accepts everything, and
    the first entry equal up to case matches. *)
Definition fold_match (condition : string) (l : list string) (value : string)
    (r : EvaluationResult.t) : EvaluationResult.t :=
  match l with
  | [] => pass condition f100 r
  | _ => if existsb (fun x => EqualFold x value) l then pass condition f100 r
         else reject condition r
  end.

Definition evaluateSentiment (e : MarketEvent.t) (s : Strategy.t) (r : EvaluationResult.t)
    : EvaluationResult.t :=
  fold_match "sentiment" s.(Strategy.Conditions).(Conditions.Sentiments)
    (GetSentimentValue e.(MarketEvent.Analysis)) r.

Definition evaluateCategory (e : MarketEvent.t) (s : Strategy.t) (r : EvaluationResult.t)
    : EvaluationResult.t :=
  fold_match "category" s.(Strategy.Conditions).(Conditions.Categories)
    e.(MarketEvent.NewsData).(NewsData.Category) r.

Definition evaluateMarketCap (e : MarketEvent.t) (s : Strategy.t) (r : EvaluationResult.t)
    : EvaluationResult.t :=
  fold_match "market_cap" s.(Strategy.Conditions).(Conditions.MarketCapTypes)
    e.(MarketEvent.StockData).(StockData.MCapType) r.

Definition evaluatePriceRange (e : MarketEvent.t) (s : Strategy.t) (r : EvaluationResult.t)
    : EvaluationResult.t :=
  let price := e.(MarketEvent.MarketData).(MarketData.LastTradedPrice) in
  let minPrice := s.(Strategy.Conditions).(Conditions.MinPrice) in
  let maxPrice := s.(Strategy.Conditions).(Conditions.MaxPrice) in
  if feq minPrice fzero && feq maxPrice fzero then pass "price_range" f100 r
  else if fle minPrice price && fle price maxPrice then pass "price_range" f100 r
  else reject "price_range" r.

Definition set_pct_status (v : string) (r : EvaluationResult.t) : EvaluationResult.t :=
  (r <| EvaluationResult.PctChangeStatus := v |>)%go.

(** The score of a change within the range. *)
Definition pct_score (absPctChange min effectiveMax : f64) : f64 :=
  if feq effectiveMax MaxFloat64 then
    let ratio := if flt fzero min then (absPctChange / min)%f64 else of_Z 1 in
    (math_Min ratio (of_Z 2) / of_Z 2 * f100)%f64
  else
    let span := (effectiveMax - min)%f64 in
    if fle span fzero then f100
    else
      let score := ((absPctChange - min) / span * f100)%f64 in
      let score := if flt score fzero then fzero else score in
      if flt f100 score then f100 else score.

Definition evaluatePctChange (e : MarketEvent.t) (s : Strategy.t) (r : EvaluationResult.t)
    : EvaluationResult.t :=
  let absPctChange := fabs e.(MarketEvent.MarketData).(MarketData.PctChange) in
  let min := s.(Strategy.Conditions).(Conditions.MinPctChange) in
  let max := s.(Strategy.Conditions).(Conditions.MaxPctChange) in
  if feq min fzero && feq max fzero then pass "pct_change" f100 r
  else
    let effectiveMax := if feq max fzero then MaxFloat64 else max in
    if fle effectiveMax absPctChange then
      reject "pct_change" (set_pct_status PctChangeAboveMax r)
    else if fle min absPctChange then
      pass "pct_change" (pct_score absPctChange min effectiveMax)
        (set_pct_status PctChangeWithinRange r)
    else pass "pct_change" (of_Z 50) (set_pct_status PctChangeBelowMin r).

Definition evaluateExchange (e : MarketEvent.t) (s : Strategy.t) (r : EvaluationResult.t)
    : EvaluationResult.t :=
  fold_match "exchange" s.(Strategy.Conditions).(Conditions.Exchanges)
    e.(MarketEvent.StockData).(StockData.Exchange) r.

(** [evaluateMatchAllStrategy]: after the impact score the names are appended
    in this order and every one of them scores 100. *)
Definition match_all_conditions : list string :=
  ["match_all_news"; "sentiment"; "category"; "market_cap"; "price_range"; "pct_change"; "exchange"].

Definition evaluateMatchAllStrategy (e : MarketEvent.t) (s : Strategy.t) (r : EvaluationResult.t)
    : EvaluationResult.t :=
  foldl (fun r c => pass c f100 r) (evaluateImpactScore e s r) match_all_conditions.

Definition Evaluate (e : MarketEvent.t) (s : Strategy.t) : EvaluationResult.t :=
  if s.(Strategy.Conditions).(Conditions.MatchAllNews) then
    evaluateMatchAllStrategy e s empty_result
  else
    evaluateExchange e s (evaluatePctChange e s (evaluatePriceRange e s (evaluateMarketCap e s
      (evaluateCategory e s (evaluateSentiment e s (evaluateImpactScore e s empty_result)))))).

Definition GetFailedConditionCount (r : EvaluationResult.t) : Z :=
  Z.of_nat (length r.(EvaluationResult.FailedConditions)).

Definition GetTotalConditionCount (r : EvaluationResult.t) : Z :=
  Z.of_nat (length r.(EvaluationResult.MatchedConditions)) +
  Z.of_nat (length r.(EvaluationResult.FailedConditions)).

Definition IsFullMatch (r : EvaluationResult.t) : bool :=
  bool_decide (r.(EvaluationResult.FailedConditions) = []).

(** ** The score ([scorer.go])

    The code ranges over a Go map, whose order is not specified, while it adds
    floating-point numbers: [order] is the order the run happened to use. *)

Definition NewScorer : gmap string f64 :=
  {[ "impact_score" := of_Z 25; "stock" := of_Z 20; "sentiment" := of_Z 15;
     "category" := of_Z 15; "price_range" := of_Z 10; "volume" := dec 75 1;
     "pct_change" := of_Z 5; "exchange" := dec 25 1 ]}.

(** [GetWeight]: the zero value for a name without a weight. *)
Definition GetWeight (weights : gmap string f64) (condition : string) : f64 :=
  default fzero (weights !! condition).

Definition SetWeight (condition : string) (weight : f64) (weights : gmap string f64)
    : gmap string f64 := <[condition := weight]> weights.

(** The helper [min] of [scorer.go]. *)
Definition scorer_min (a b : f64) : f64 := if flt a b then a else b.

(** The sums of the loop: the weighted scores and the weights. *)
Definition score_sums (weight : string -> f64) (order : list string) (r : EvaluationResult.t)
    : f64 * f64 :=
  foldl (fun '(totalScore, totalWeight) condition =>
    match r.(EvaluationResult.ConditionScores) !! condition with
    | Some conditionScore =>
      let w := weight condition in
      ((totalScore + conditionScore * (w / of_Z 100))%f64, (totalWeight + w)%f64)
    | None => (totalScore, totalWeight)
    end) (fzero, fzero) order.

Definition CalculateScore (weights : gmap string f64) (order : list string)
    (result : option EvaluationResult.t) : f64 :=
  match result with
  | None => fzero
  | Some r =>
    let weight c := let w := GetWeight weights c in if feq w fzero then of_Z 10 else w in
    let '(totalScore, totalWeight) := score_sums weight order r in
    if feq totalWeight fzero then fzero
    else
      let normalizedScore := (totalScore / totalWeight * of_Z 100)%f64 in
      let normalizedScore :=
        if IsFullMatch r then scorer_min (normalizedScore * dec 11 1)%f64 (of_Z 100)
        else normalizedScore in
      let failureRate :=
        (of_Z (GetFailedConditionCount r) / of_Z (GetTotalConditionCount r))%f64 in
      if flt (dec 5 1) failureRate then
        (normalizedScore * (of_Z 1 - failureRate * dec 2 1))%f64
      else normalizedScore
  end.

Definition CalculateWeightedScore (weights customWeights : gmap string f64) (order : list string)
    (result : option EvaluationResult.t) : f64 :=
  match result with
  | None => fzero
  | Some r =>
    let weight c :=
      let w := GetWeight customWeights c in
      if feq w fzero then
        let w := GetWeight weights c in if feq w fzero then of_Z 10 else w
      else w in
    let '(totalScore, totalWeight) := score_sums weight order r in
    if feq totalWeight fzero then fzero else (totalScore / totalWeight * of_Z 100)%f64
  end.

Inductive WeightError := ErrInvalidWeight | ErrWeightSumMismatch.

(** [ValidateWeights], over the weights in the order of the run. *)
Definition ValidateWeights (order : list (string * f64)) : option WeightError :=
  let fix go l (total : f64) :=
    match l with
    | [] => if flt total (of_Z 90) || flt (of_Z 110) total then Some ErrWeightSumMismatch else None
    | (_, w) :: l => if flt w fzero then Some ErrInvalidWeight else go l (total + w)%f64
    end in
  go order fzero.

(** ** The conditions as predicates

    What each condition asks of an event, stated apart from the code's
    bookkeeping. *)

Definition impact_ok (e : MarketEvent.t) (s : Strategy.t) : Prop :=
  let c := s.(Strategy.Conditions) in
  let score := e.(MarketEvent.Analysis).(Analysis.ImpactScore) in
  c.(Conditions.ImpactScoreMin) <= score /\
  (c.(Conditions.ImpactScoreMax) = 0 /\ score <= 10 \/
   c.(Conditions.ImpactScoreMax) <> 0 /\ score <= c.(Conditions.ImpactScoreMax)).

Definition listed (l : list string) (value : string) : Prop :=
  l = [] \/ exists x, x ∈ l /\ EqualFold x value = true.

Definition price_in_range (e : MarketEvent.t) (s : Strategy.t) : Prop :=
  let price := e.(MarketEvent.MarketData).(MarketData.LastTradedPrice) in
  let c := s.(Strategy.Conditions) in
  feq c.(Conditions.MinPrice) fzero = true /\ feq c.(Conditions.MaxPrice) fzero = true \/
  fle c.(Conditions.MinPrice) price = true /\ fle price c.(Conditions.MaxPrice) = true.

(** A change of a known size below the maximum; no maximum is no bound up to the
    largest float, and neither a minimum nor a maximum is no filter. *)
Definition pct_ok (e : MarketEvent.t) (s : Strategy.t) : Prop :=
  let a := fabs e.(MarketEvent.MarketData).(MarketData.PctChange) in
  let c := s.(Strategy.Conditions) in
  feq c.(Conditions.MinPctChange) fzero = true /\ feq c.(Conditions.MaxPctChange) fzero = true \/
  fle (if feq c.(Conditions.MaxPctChange) fzero then MaxFloat64 else c.(Conditions.MaxPctChange)) a
    = false.

Definition event_fits (e : MarketEvent.t) (s : Strategy.t) : Prop :=
  let c := s.(Strategy.Conditions) in
  impact_ok e s /\
  (c.(Conditions.MatchAllNews) = true \/
   listed c.(Conditions.Sentiments) (GetSentimentValue e.(MarketEvent.Analysis)) /\
   listed c.(Conditions.Categories) e.(MarketEvent.NewsData).(NewsData.Category) /\
   listed c.(Conditions.MarketCapTypes) e.(MarketEvent.StockData).(StockData.MCapType) /\
   price_in_range e s /\ pct_ok e s /\
   listed c.(Conditions.Exchanges) e.(MarketEvent.StockData).(StockData.Exchange)).

(** ** The evaluator decides them *)

(** [r'] is [r] after the condition [c] was judged: it is recorded as matched
    when [P] holds and as failed when it does not, with a score. *)
Definition judged (c : string) (P : Prop) (r r' : EvaluationResult.t) : Prop :=
  (P /\ r'.(EvaluationResult.MatchedConditions) = r.(EvaluationResult.MatchedConditions) ++ [c] /\
     r'.(EvaluationResult.FailedConditions) = r.(EvaluationResult.FailedConditions) \/
   ~ P /\ r'.(EvaluationResult.MatchedConditions) = r.(EvaluationResult.MatchedConditions) /\
     r'.(EvaluationResult.FailedConditions) = r.(EvaluationResult.FailedConditions) ++ [c]) /\
  dom r'.(EvaluationResult.ConditionScores) = {[c]} ∪ dom r.(EvaluationResult.ConditionScores).

Lemma judged_pass c (P : Prop) score r : P -> judged c P r (pass c score r).
Proof. intros HP. split; [by left|]. cbn. apply dom_insert_L. Qed.

Lemma judged_reject c (P : Prop) r : ~ P -> judged c P r (reject c r).
Proof. intros HP. split; [by right|]. cbn. apply dom_insert_L. Qed.

Lemma judged_impact e s r : judged "impact_score" (impact_ok e s) r (evaluateImpactScore e s r).
Proof.
  unfold evaluateImpactScore, impact_ok.
  set (score := Analysis.ImpactScore _). set (mn := Conditions.ImpactScoreMin _).
  set (mx := Conditions.ImpactScoreMax _).
  destruct (Z.leb_spec mn score); destruct (Z.eqb_spec mx 0); cbn [andb];
    try destruct (Z.leb_spec score 10); try destruct (Z.leb_spec score mx);
    first [apply judged_pass; lia | apply judged_reject; lia].
Qed.

Lemma judged_listed c l value r : judged c (listed l value) r (fold_match c l value r).
Proof.
  unfold fold_match. destruct l as [|x l]; [apply judged_pass; by left|].
  destruct (existsb _ _) eqn:E.
  - apply judged_pass. right. apply existsb_exists in E as (y & Hy & HE).
    exists y. split; [by apply list_elem_of_In|done].
  - apply judged_reject. intros [|(y & Hy & HE)]; [done|].
    assert (existsb (fun x => EqualFold x value) (x :: l) = true) as Ht; [|by rewrite E in Ht].
    apply existsb_exists. exists y. split; [by apply list_elem_of_In|done].
Qed.

Lemma judged_price e s r : judged "price_range" (price_in_range e s) r (evaluatePriceRange e s r).
Proof.
  unfold evaluatePriceRange, price_in_range.
  destruct (feq (Conditions.MinPrice _) _), (feq (Conditions.MaxPrice _) _); cbn [andb];
    try (apply judged_pass; by left);
    destruct (fle (Conditions.MinPrice _) _), (fle _ (Conditions.MaxPrice _)); cbn [andb];
    first [apply judged_pass; by right | apply judged_reject; intros [[]|[]]; done].
Qed.

Lemma judged_status c P v r r' : judged c P (set_pct_status v r) r' -> judged c P r r'.
Proof. done. Qed.

Lemma judged_pct e s r : judged "pct_change" (pct_ok e s) r (evaluatePctChange e s r).
Proof.
  unfold evaluatePctChange, pct_ok.
  destruct (feq (Conditions.MinPctChange _) _), (feq (Conditions.MaxPctChange _) _); cbn [andb];
    try (apply judged_pass; by left);
    destruct (fle _ (fabs _)) eqn:Ha;
    try (apply (judged_status _ _ PctChangeAboveMax), judged_reject; intros [[]|]; done);
    destruct (fle (Conditions.MinPctChange _) _);
    first [apply (judged_status _ _ PctChangeWithinRange), judged_pass; by right
          |apply (judged_status _ _ PctChangeBelowMin), judged_pass; by right].
Qed.

(** Seven judged conditions in a row. *)
Lemma judged_app c P (l : list string) r r' :
  judged c P r r' ->
  r.(EvaluationResult.MatchedConditions) ++ r.(EvaluationResult.FailedConditions) ≡ₚ l ->
  r'.(EvaluationResult.MatchedConditions) ++ r'.(EvaluationResult.FailedConditions) ≡ₚ l ++ [c].
Proof.
  intros [[(_ & -> & ->)|(_ & -> & ->)] _] Hl; rewrite <- Hl.
  - rewrite <- !app_assoc. f_equiv. apply Permutation_app_comm.
  - by rewrite app_assoc.
Qed.

Lemma judged_failed c P r r' :
  judged c P r r' ->
  (r'.(EvaluationResult.FailedConditions) = [] <-> r.(EvaluationResult.FailedConditions) = [] /\ P).
Proof.
  intros [[(HP & _ & ->)|(HP & _ & ->)] _]; [tauto|]. split; [|tauto].
  intros H. by apply app_eq_nil in H as [_ H].
Qed.

Definition seven_conditions : list string :=
  ["impact_score"; "sentiment"; "category"; "market_cap"; "price_range"; "pct_change"; "exchange"].


Lemma pass_all l r :
  let r' := foldl (fun r c => pass c f100 r) r l in
  r'.(EvaluationResult.MatchedConditions) = r.(EvaluationResult.MatchedConditions) ++ l /\
  r'.(EvaluationResult.FailedConditions) = r.(EvaluationResult.FailedConditions) /\
  dom r'.(EvaluationResult.ConditionScores) =
    list_to_set l ∪ dom r.(EvaluationResult.ConditionScores) /\
  r'.(EvaluationResult.PctChangeStatus) = r.(EvaluationResult.PctChangeStatus).
Proof.
  revert r. induction l as [|c l IH]; intros r; cbn [foldl].
  - cbn. rewrite app_nil_r, union_empty_l_L. done.
  - destruct (IH (pass c f100 r)) as (-> & -> & -> & ->). cbn.
    rewrite <- app_assoc, dom_insert_L. repeat split. set_solver.
Qed.

Lemma evaluate_conditions e s :
  let r := Evaluate e s in
  let names := if s.(Strategy.Conditions).(Conditions.MatchAllNews)
               then "impact_score" :: match_all_conditions else seven_conditions in
  r.(EvaluationResult.MatchedConditions) ++ r.(EvaluationResult.FailedConditions) ≡ₚ names /\
  dom r.(EvaluationResult.ConditionScores) = list_to_set names /\
  (r.(EvaluationResult.FailedConditions) = [] <-> event_fits e s).
Proof.
  cbn. unfold Evaluate, event_fits, evaluateMatchAllStrategy.
  pose proof (judged_impact e s empty_result) as H1.
  pose proof (judged_app _ _ [] _ _ H1 ltac:(done)) as P1.
  pose proof (judged_failed _ _ _ _ H1) as F1. pose proof (proj2 H1) as D1.
  set (r1 := evaluateImpactScore e s empty_result) in *.
  destruct (Conditions.MatchAllNews _).
  - destruct (pass_all match_all_conditions r1) as (-> & -> & -> & _). split; [|split].
    + rewrite <- app_assoc, (Permutation_app_comm match_all_conditions), app_assoc, P1. done.
    + rewrite D1. cbn [dom]. set_solver.
    + rewrite F1. cbn. tauto.
  - unfold evaluateExchange, evaluateMarketCap, evaluateCategory, evaluateSentiment.
    pose proof (judged_listed "sentiment" s.(Strategy.Conditions).(Conditions.Sentiments)
      (GetSentimentValue e.(MarketEvent.Analysis)) r1) as H2. set (r2 := fold_match _ _ _ r1) in *.
    pose proof (judged_listed "category" s.(Strategy.Conditions).(Conditions.Categories)
      e.(MarketEvent.NewsData).(NewsData.Category) r2) as H3. set (r3 := fold_match _ _ _ r2) in *.
    pose proof (judged_listed "market_cap" s.(Strategy.Conditions).(Conditions.MarketCapTypes)
      e.(MarketEvent.StockData).(StockData.MCapType) r3) as H4. set (r4 := fold_match _ _ _ r3) in *.
    pose proof (judged_price e s r4) as H5. set (r5 := evaluatePriceRange e s r4) in *.
    pose proof (judged_pct e s r5) as H6. set (r6 := evaluatePctChange e s r5) in *.
    pose proof (judged_listed "exchange" s.(Strategy.Conditions).(Conditions.Exchanges)
      e.(MarketEvent.StockData).(StockData.Exchange) r6) as H7. set (r7 := fold_match _ _ _ r6) in *.
    split; [|split].
    + eapply judged_app in P1; [|exact H2]. eapply judged_app in P1; [|exact H3].
      eapply judged_app in P1; [|exact H4]. eapply judged_app in P1; [|exact H5].
      eapply judged_app in P1; [|exact H6]. eapply judged_app in P1; [|exact H7]. exact P1.
    + rewrite (proj2 H7), (proj2 H6), (proj2 H5), (proj2 H4), (proj2 H3), (proj2 H2), D1.
      cbn [dom]. set_solver.
    + rewrite (judged_failed _ _ _ _ H7), (judged_failed _ _ _ _ H6), (judged_failed _ _ _ _ H5),
        (judged_failed _ _ _ _ H4), (judged_failed _ _ _ _ H3), (judged_failed _ _ _ _ H2), F1.
      cbn. intuition discriminate.
Qed.

(** The status of the change: none without a filter, and otherwise exactly one of
    the three. *)
Definition pct_status (e : MarketEvent.t) (s : Strategy.t) : string :=
  let a := fabs e.(MarketEvent.MarketData).(MarketData.PctChange) in
  let min := s.(Strategy.Conditions).(Conditions.MinPctChange) in
  let max := s.(Strategy.Conditions).(Conditions.MaxPctChange) in
  if s.(Strategy.Conditions).(Conditions.MatchAllNews) then ""
  else if feq min fzero && feq max fzero then ""
  else if fle (if feq max fzero then MaxFloat64 else max) a then "above_max"
  else if fle min a then "within_range" else "below_min".

Lemma fold_match_status c l v r :
  (fold_match c l v r).(EvaluationResult.PctChangeStatus) = r.(EvaluationResult.PctChangeStatus).
Proof. unfold fold_match. destruct l; [done|]. by destruct (existsb _ _). Qed.

Lemma evaluate_status e s : (Evaluate e s).(EvaluationResult.PctChangeStatus) = pct_status e s.
Proof.
  unfold Evaluate, pct_status, evaluateMatchAllStrategy.
  assert (H1 : (evaluateImpactScore e s empty_result).(EvaluationResult.PctChangeStatus) = "").
  { unfold evaluateImpactScore. by destruct (_ && _). }
  destruct (Conditions.MatchAllNews _).
  - by rewrite (proj2 (proj2 (proj2 (pass_all match_all_conditions _)))).
  - unfold evaluateExchange. rewrite fold_match_status. unfold evaluatePctChange.
    set (r := evaluatePriceRange _ _ _).
    assert (Hr : r.(EvaluationResult.PctChangeStatus) = "").
    { unfold r, evaluatePriceRange. repeat case_match; cbn;
        unfold evaluateMarketCap, evaluateCategory, evaluateSentiment;
        by rewrite !fold_match_status. }
    repeat case_match; done.
Qed.

(** C37: evaluating a strategy against an event makes exactly the tests the
    evaluator has, records each of them once and scores it: seven of them (or
    the impact score and the seven automatic ones of a strategy that matches all
    news).  It is a full match exactly when the event fits: the impact score lies
    in the range (up to 10 without a maximum), also for a strategy that matches
    all news, and otherwise every list accepts its value up to case or is empty,
    the price lies in the range or neither bound is set, and the size of the
    change, whatever its sign, is below the maximum or no bound is set.  A change
    equal to the maximum fails, a change below the minimum is a match.  The
    status of the change is the one of the three cases that holds.  The market
    capitalisation range, the stock and the traded volume are not tested. *)
Theorem evaluate_exact (e : MarketEvent.t) (s : Strategy.t) :
  let r := Evaluate e s in
  let names := if s.(Strategy.Conditions).(Conditions.MatchAllNews)
               then "impact_score" :: match_all_conditions else seven_conditions in
  (IsFullMatch r = true <-> event_fits e s) /\
  r.(EvaluationResult.MatchedConditions) ++ r.(EvaluationResult.FailedConditions) ≡ₚ names /\
  dom r.(EvaluationResult.ConditionScores) = list_to_set names /\
  r.(EvaluationResult.PctChangeStatus) = pct_status e s.
Proof.
  cbn. destruct (evaluate_conditions e s) as (Hp & Hd & Hf).
  split; [|split; [exact Hp|split; [exact Hd|apply evaluate_status]]].
  unfold IsFullMatch. by rewrite bool_decide_eq_true.
Qed.

(** ** What the documents list and the evaluator does not test *)

(** The range of market capitalisation of a strategy decides nothing. *)
Lemma market_cap_range_ignored (e : MarketEvent.t) (s : Strategy.t) (lo hi : f64) :
  Evaluate e (s <| Strategy.Conditions := (s.(Strategy.Conditions)
                     <| Conditions.MinMcap := lo |> <| Conditions.MaxMcap := hi |>)%go |>)%go =
  Evaluate e s.
Proof. reflexivity. Qed.

(** Nor does the stock, beyond its exchange and its kind of capitalisation. *)
Lemma stock_ignored (e : MarketEvent.t) (s : Strategy.t) (st : StockData.t) :
  st.(StockData.Exchange) = e.(MarketEvent.StockData).(StockData.Exchange) ->
  st.(StockData.MCapType) = e.(MarketEvent.StockData).(StockData.MCapType) ->
  Evaluate (e <| MarketEvent.StockData := st |>)%go s = Evaluate e s.
Proof.
  intros He Hm. unfold Evaluate, evaluateExchange, evaluateMarketCap. cbn.
  by rewrite He, Hm.
Qed.
