(* ===== verification/RuleEngine.v ===== *)
(** * Deduplication, worker pool and evaluation of an event

    [rules-engine/internal/engine]: the time-window deduplicator
    ([deduper.go]), the worker pool as a step relation over its channel, its
    wait group and its callers ([worker_pool.go]), and the engine that fans an
    event out to the pool ([engine.go]). *)

From stdpp Require Import base tactics strings list gmap fin_maps relations.
From Stdlib Require Import ZArith Lia.
From S2P Require Import Prelude GoFloat GoStrings RuleModels ConfigStore Matcher.

Open Scope string_scope.
Open Scope list_scope.
Open Scope Z_scope.

(** ** The deduplicator *)

Module Deduper.
Record t := mk { window : Z; maxEntries : Z; items : gmap string Z }.
#[global] Instance eta_deduper : Eta t := fun d => mk d.(window) d.(maxEntries) d.(items).
End Deduper.

(** [NewDeduper]; a minute is 60 seconds in nanoseconds. *)
Definition NewDeduper (window maxEntries : Z) : Deduper.t :=
  Deduper.mk (if window <=? 0 then 2 * 60 * 10 ^ 9 else window)
             (if maxEntries <=? 0 then 100000 else maxEntries) ∅.

(** The second purge: the keys come in the order [range] yields them. *)
Fixpoint purge_loop (maxEntries : Z) (keys : list string) (items : gmap string Z)
    : gmap string Z :=
  match keys with
  | [] => items
  | k :: keys =>
    let items := delete k items in
    if msize items <=? maxEntries then items else purge_loop maxEntries keys items
  end.

Definition evict (cut : Z) (order : list string) (d : Deduper.t) : gmap string Z :=
  if msize d.(Deduper.items) >? d.(Deduper.maxEntries) then
    let live := filter (fun '(_, t) => ~ t < cut) d.(Deduper.items) in
    purge_loop d.(Deduper.maxEntries) order live
  else d.(Deduper.items).

(** [Allow]; [now] is the clock and [order] the iteration order of the second
    purge, should it run. *)
Definition Allow (now : Z) (order : list string) (id : string) (d : Deduper.t)
    : bool * Deduper.t :=
  if String.eqb id "" then (true, d)
  else
    let cut := now - d.(Deduper.window) in
    let items := evict cut order d in
    let seen := match items !! id with Some t => cut <? t | None => false end in
    if seen then (false, (d <| Deduper.items := items |>)%go)
    else (true, (d <| Deduper.items := <[id := now]> items |>)%go).

(** ** The worker pool

    A job is named by the call of [Submit] that brings it.  The steps are those
    of the code: the callers of [Submit] check the flag, count the job and send
    it; the send blocks while the buffer is full and panics when the channel is
    closed; a worker takes a job and finishes it; [Shutdown] sets the flag and
    closes the channel, and returns when the wait group is at zero. *)

Inductive SubmitPc :=
  | PcChecked               (** the flag was read as open *)
  | PcAdded                 (** the wait group counts the job *)
  | PcSent                  (** returned nil, the job was sent *)
  | PcClosed                (** returned [ErrWorkerPoolClosed] *)
  | PcRecovered.            (** the send panicked: the job was uncounted, nil returned *)

#[export] Instance SubmitPc_eq_dec : EqDecision SubmitPc.
Proof. solve_decision. Defined.

Module Pool.
Record t := mk {
  workers : nat;
  buffer : nat;
  callers : gmap nat SubmitPc;
  queue : list nat;
  running : list nat;
  finished : list nat;
  wg : Z;
  closed : bool;
  jobs_closed : bool
}.
#[global] Instance eta_pool : Eta t := fun p =>
  mk p.(workers) p.(buffer) p.(callers) p.(queue) p.(running) p.(finished) p.(wg) p.(closed)
     p.(jobs_closed).
End Pool.

(** [NewWorkerPool]. *)
Definition NewWorkerPool (workers buffer : Z) : Pool.t :=
  let workers := if workers <=? 0 then 1 else workers in
  let buffer := if buffer <=? 0 then workers * 4 else buffer in
  Pool.mk (Z.to_nat workers) (Z.to_nat buffer) ∅ [] [] [] 0 false false.

Definition set_caller (j : nat) (pc : SubmitPc) (p : Pool.t) : Pool.t :=
  (p <| Pool.callers := <[j := pc]> p.(Pool.callers) |>)%go.

Inductive pool_step : Pool.t -> Pool.t -> Prop :=
  | submit_refused p j :
      p.(Pool.callers) !! j = None -> p.(Pool.closed) = true ->
      pool_step p (set_caller j PcClosed p)
  | submit_check p j :
      p.(Pool.callers) !! j = None -> p.(Pool.closed) = false ->
      pool_step p (set_caller j PcChecked p)
  | submit_add p j :
      p.(Pool.callers) !! j = Some PcChecked ->
      pool_step p (set_caller j PcAdded p <| Pool.wg := p.(Pool.wg) + 1 |>)%go
  | submit_send p j :
      p.(Pool.callers) !! j = Some PcAdded -> p.(Pool.jobs_closed) = false ->
      (length p.(Pool.queue) < p.(Pool.buffer))%nat ->
      pool_step p (set_caller j PcSent p <| Pool.queue := p.(Pool.queue) ++ [j] |>)%go
  | submit_panic p j :
      p.(Pool.callers) !! j = Some PcAdded -> p.(Pool.jobs_closed) = true ->
      pool_step p (set_caller j PcRecovered p <| Pool.wg := p.(Pool.wg) - 1 |>)%go
  | worker_take p j q :
      p.(Pool.queue) = j :: q -> (length p.(Pool.running) < p.(Pool.workers))%nat ->
      pool_step p (p <| Pool.queue := q |> <| Pool.running := p.(Pool.running) ++ [j] |>)%go
  | worker_done p j l1 l2 :
      p.(Pool.running) = l1 ++ j :: l2 ->
      pool_step p (p <| Pool.running := l1 ++ l2 |>
                     <| Pool.finished := p.(Pool.finished) ++ [j] |>
                     <| Pool.wg := p.(Pool.wg) - 1 |>)%go
  | shutdown_flag p :
      p.(Pool.closed) = false -> pool_step p (p <| Pool.closed := true |>)%go
  | shutdown_close p :
      p.(Pool.closed) = true -> p.(Pool.jobs_closed) = false ->
      pool_step p (p <| Pool.jobs_closed := true |>)%go.

(** [Shutdown] has returned: the channel is closed and the wait group is at zero. *)
Definition drained (p : Pool.t) : Prop := p.(Pool.jobs_closed) = true /\ p.(Pool.wg) = 0.

(** ** The engine *)

Inductive EngineError := ErrInvalidEvent (e : ModelError) | ErrContext | ErrEngineClosed | ErrPoolClosed.

(** [evaluateOne]; [order] is the iteration order of the score's map. *)
Definition evaluateOne (order : list string) (now : Z) (e : MarketEvent.t)
    (strategy : Strategy.t) : option RuleMatch.t :=
  if negb strategy.(Strategy.Active) then None
  else if bool_decide (validateStrategy strategy <> None) then None
  else
    let res := Evaluate e strategy in
    if negb (IsFullMatch res) then None
    else Some (RuleMatch.mk strategy.(Strategy.UserID) strategy.(Strategy.StrategyID)
      strategy.(Strategy.StrategyName) (Some strategy) (CalculateScore NewScorer order (Some res))
      res.(EvaluationResult.MatchedConditions) res.(EvaluationResult.FailedConditions) false ""
      now e.(MarketEvent.EventID) res.(EvaluationResult.PctChangeStatus)).

(** What the run of an event takes from outside: clock and map order of each
    job, the order in which the workers finish the jobs, and whether the loop
    over the strategies is interrupted at some index. *)
Record EventRun := MkRun {
  job_now : nat -> Z;
  job_order : nat -> list string;
  schedule : list nat;
  interrupt : nat -> option EngineError
}.

(** A finished job writes its own slot. *)
Definition run_job (run : EventRun) (e : MarketEvent.t) (strategies : list Strategy.t)
    (slots : list (option RuleMatch.t)) (i : nat) : list (option RuleMatch.t) :=
  match strategies !! i with
  | Some s => <[i := evaluateOne (run.(job_order) i) (run.(job_now) i) e s]> slots
  | None => slots
  end.

Fixpoint first_interrupt (interrupt : nat -> option EngineError) (i n : nat) : option EngineError :=
  match n with
  | O => None
  | S n => match interrupt i with Some err => Some err | None => first_interrupt interrupt (S i) n end
  end.

(** The fan-out of [EvaluateEvent] over the strategies of the snapshot. *)
Definition fan_out (run : EventRun) (e : MarketEvent.t) (strategies : list Strategy.t)
    : EngineError + list RuleMatch.t :=
  match first_interrupt run.(interrupt) 0 (length strategies) with
  | Some err => inl err
  | None =>
    let slots := foldl (run_job run e strategies) (replicate (length strategies) None)
                       run.(schedule) in
    inr (omap id slots)
  end.

(** [EvaluateEvent]: the event as validation leaves it, the deduplicator and the
    result. *)
Definition EvaluateEvent (run : EventRun) (now : Z) (order : list string) (e : MarketEvent.t)
    (snap : Snapshot.t) (d : Deduper.t)
    : MarketEvent.t * Deduper.t * (EngineError + list RuleMatch.t) :=
  match validateEvent e with
  | (e, Some err) => (e, d, inl (ErrInvalidEvent err))
  | (e, None) =>
    let '(fresh, d) := Allow now order e.(MarketEvent.EventID) d in
    if negb fresh then (e, d, inr [])
    else (e, d, fan_out run e snap.(Snapshot.AllActive))
  end.

(** ** The result of an event does not depend on the workers *)

Lemma run_jobs_length run e strategies l slots :
  length (foldl (run_job run e strategies) slots l) = length slots.
Proof.
  revert slots. induction l as [|i l IH]; intros slots; [done|]. cbn. rewrite IH.
  unfold run_job. destruct (strategies !! i); [apply length_insert|done].
Qed.

Lemma run_jobs_lookup run e strategies l slots i :
  length slots = length strategies ->
  foldl (run_job run e strategies) slots l !! i =
  if decide (i ∈ l) then
    (fun s => evaluateOne (run.(job_order) i) (run.(job_now) i) e s) <$> strategies !! i
  else slots !! i.
Proof.
  revert slots. induction l as [|k l IH]; intros slots Hlen; [done|]. cbn [foldl].
  rewrite IH by (unfold run_job; destruct (strategies !! k); [by rewrite length_insert|done]).
  destruct (decide (i ∈ l)) as [Hin|Hin].
  { by rewrite decide_True by (by right). }
  destruct (decide (i = k)) as [->|Hne].
  - rewrite decide_True by left. unfold run_job.
    destruct (strategies !! k) as [s|] eqn:Hs; cbn.
    + apply list_lookup_insert_eq. rewrite Hlen. by eapply lookup_lt_Some.
    + apply lookup_ge_None_2. rewrite Hlen. by apply lookup_ge_None_1.
  - rewrite decide_False by (rewrite elem_of_cons; tauto).
    unfold run_job. destruct (strategies !! k); [by rewrite list_lookup_insert_ne|done].
Qed.

Lemma run_jobs_all run e strategies :
  run.(schedule) ≡ₚ seq 0 (length strategies) ->
  foldl (run_job run e strategies) (replicate (length strategies) None) run.(schedule) =
  imap (fun i s => evaluateOne (run.(job_order) i) (run.(job_now) i) e s) strategies.
Proof.
  intros Hp. apply list_eq. intros i. rewrite run_jobs_lookup by apply length_replicate.
  rewrite list_lookup_imap. destruct (decide (i ∈ schedule run)) as [Hin|Hout]; [done|].
  rewrite Hp, elem_of_seq in Hout.
  rewrite (lookup_ge_None_2 strategies) by lia. cbn.
  apply lookup_ge_None_2. rewrite length_replicate. lia.
Qed.

#[export] Instance event_fits_dec e s : Decision (event_fits e s).
Proof.
  refine (match IsFullMatch (Evaluate e s) as b return IsFullMatch (Evaluate e s) = b -> _ with
          | true => fun H => left _ | false => fun H => right _ end eq_refl);
    destruct (evaluate_exact e s) as [Hiff _]; rewrite <- Hiff, H; done.
Defined.

(** A strategy the engine answers an event with. *)
Definition answers (e : MarketEvent.t) (s : Strategy.t) : Prop :=
  s.(Strategy.Active) = true /\ validateStrategy s = None /\ event_fits e s.

#[export] Instance answers_dec e s : Decision (answers e s).
Proof. unfold answers. apply _. Defined.

Lemma evaluateOne_answers order now e s :
  match evaluateOne order now e s with
  | Some m => answers e s /\ m.(RuleMatch.Strategy) = Some s /\
      m.(RuleMatch.UserID) = s.(Strategy.UserID) /\ m.(RuleMatch.EventID) = e.(MarketEvent.EventID) /\
      m.(RuleMatch.FailedConditions) = [] /\ m.(RuleMatch.PctChangeStatus) = pct_status e s
  | None => ~ answers e s
  end.
Proof.
  unfold evaluateOne, answers. destruct (evaluate_exact e s) as (Hiff & _ & _ & Hst).
  destruct (Strategy.Active s); cbn [negb]; [|by intros []].
  case_bool_decide as Hv; [by intros (_ & ? & _)|].
  destruct (IsFullMatch (Evaluate e s)) eqn:Hm; cbn [negb].
  - assert (validateStrategy s = None) as Hv' by (by destruct (validateStrategy s)).
    unfold IsFullMatch in Hm. apply bool_decide_eq_true in Hm. cbn. by rewrite <- Hiff, Hm.
  - intros (_ & _ & Hf). apply Hiff in Hf. done.
Qed.

Lemma omap_answers e l : forall (os : nat -> list string) (ts : nat -> Z),
  let out := omap id (imap (fun i s => evaluateOne (os i) (ts i) e s) l) in
  map RuleMatch.Strategy out = map Some (filter (answers e) l) /\
  Forall (fun m => m.(RuleMatch.EventID) = e.(MarketEvent.EventID)) out.
Proof.
  induction l as [|s l IH]; intros os ts; [done|]. cbn [imap omap list_omap id].
  destruct (IH (fun i => os (S i)) (fun i => ts (S i))) as [IH1 IH2].
  pose proof (evaluateOne_answers (os 0%nat) (ts 0%nat) e s) as H.
  destruct (evaluateOne _ _ e s) as [m|].
  - destruct H as (Ha & Hs & _ & He & _). rewrite filter_cons_True by done.
    split; [cbn [map]; by rewrite Hs, <- IH1|by constructor].
  - rewrite filter_cons_False by done. done.
Qed.

(** C36: whichever order the workers finish in, and whatever clocks and map
    orders their jobs see, an uninterrupted evaluation of a valid, fresh event
    returns one match for each active, valid strategy of the snapshot the event
    fits, in the snapshot's order, and for no other. *)
Theorem event_answered_exactly (run : EventRun) (now : Z) (order : list string)
    (e e' : MarketEvent.t) (snap : Snapshot.t) (d : Deduper.t)
    (Hvalid : validateEvent e = (e', None))
    (Hfresh : (Allow now order e'.(MarketEvent.EventID) d).1 = true)
    (Hrun : run.(schedule) ≡ₚ seq 0 (length snap.(Snapshot.AllActive)))
    (Hint : forall i, run.(interrupt) i = None) :
  exists out,
    (EvaluateEvent run now order e snap d).2 = inr out /\
    map RuleMatch.Strategy out = map Some (filter (answers e') snap.(Snapshot.AllActive)) /\
    Forall (fun m => m.(RuleMatch.EventID) = e.(MarketEvent.EventID)) out.
Proof.
  unfold EvaluateEvent. rewrite Hvalid. destruct (Allow _ _ _ _) as [fresh d'] eqn:Ha.
  cbn in Hfresh. subst fresh. cbn [negb snd]. unfold fan_out.
  assert (Hi : forall n i, first_interrupt run.(interrupt) i n = None).
  { induction n as [|n IH]; intros i; cbn; [done|]. by rewrite Hint. }
  rewrite Hi, run_jobs_all by done. eexists. split; [done|].
  rewrite <- (proj1 (validateEvent_id _ _ _ Hvalid)). apply omap_answers.
Qed.

(** ** Deduplication *)

Definition allow_all (calls : list (Z * list string * string)) (d : Deduper.t) : Deduper.t :=
  foldl (fun d '(now, order, id) => (Allow now order id d).2) d calls.

Lemma Allow_small now order d :
  msize d.(Deduper.items) <= d.(Deduper.maxEntries) ->
  evict (now - d.(Deduper.window)) order d = d.(Deduper.items).
Proof. intros H. unfold evict. destruct (Z.gtb_spec (msize (Deduper.items d)) (Deduper.maxEntries d)); [lia|done]. Qed.

Lemma msize_insert_le {A} k (v : A) m : msize (<[k := v]> m) <= msize m + 1.
Proof.
  unfold msize. rewrite map_size_insert. destruct (m !! k); cbn; lia.
Qed.

(** One call keeps the entry of [id] at least as recent as it was. *)
Lemma Allow_keeps now order id' d id t0 :
  msize d.(Deduper.items) <= d.(Deduper.maxEntries) -> t0 <= now ->
  (exists t, d.(Deduper.items) !! id = Some t /\ t0 <= t) ->
  let d' := (Allow now order id' d).2 in
  d'.(Deduper.maxEntries) = d.(Deduper.maxEntries) /\
  d'.(Deduper.window) = d.(Deduper.window) /\
  msize d'.(Deduper.items) <= msize d.(Deduper.items) + 1 /\
  (exists t, d'.(Deduper.items) !! id = Some t /\ t0 <= t).
Proof.
  intros Hsz Hnow (t & Ht & Hle). unfold Allow. rewrite Allow_small by done.
  destruct (String.eqb id' ""); cbn; [split; [done|split; [done|split; [lia|eauto]]]|].
  destruct (match _ !! id' with Some t' => _ | None => _ end); cbn;
    (split; [done|]; split; [done|]).
  - split; [lia|eauto].
  - split; [apply msize_insert_le|]. destruct (decide (id = id')) as [->|Hne].
    + rewrite lookup_insert_eq. eauto.
    + rewrite lookup_insert_ne by done. eauto.
Qed.

(** An id let through at [t1] is turned away at [t2] when the window has
    not passed, whatever other ids are asked for in between, as long as the
    table stays within its limit. *)
Theorem repeat_within_window_blocked (d : Deduper.t) (t1 t2 : Z) (o1 o2 : list string)
    (id : string) (calls : list (Z * list string * string))
    (Hid : id <> "") (Hfirst : (Allow t1 o1 id d).1 = true)
    (Hroom : msize d.(Deduper.items) + 1 + Z.of_nat (length calls) <= d.(Deduper.maxEntries))
    (Hclock : Forall (fun c => t1 <= c.1.1) calls)
    (Hwindow : t2 < t1 + d.(Deduper.window)) :
  (Allow t2 o2 id (allow_all calls (Allow t1 o1 id d).2)).1 = false.
Proof.
  set (d1 := (Allow t1 o1 id d).2).
  assert (H1 : d1.(Deduper.maxEntries) = d.(Deduper.maxEntries) /\
    d1.(Deduper.window) = d.(Deduper.window) /\
    msize d1.(Deduper.items) <= msize d.(Deduper.items) + 1 /\
    exists t, d1.(Deduper.items) !! id = Some t /\ t1 <= t).
  { subst d1. unfold Allow in *. rewrite (proj2 (String.eqb_neq _ _) Hid) in *.
    rewrite Allow_small in * by lia.
    destruct (match _ !! id with Some t => _ | None => _ end); [done|]. cbn.
    split; [done|]. split; [done|]. split; [apply msize_insert_le|].
    exists t1. split; [apply lookup_insert_eq|lia]. }
  clearbody d1. destruct H1 as (Hm & Hw & Hs & He). rewrite <- Hw in Hwindow.
  rewrite <- Hm in Hroom. clear Hm Hw Hfirst.
  assert (Hroom' : msize d1.(Deduper.items) + Z.of_nat (length calls) <= d1.(Deduper.maxEntries)) by lia.
  clear Hroom Hs d. revert d1 Hwindow He Hroom'.
  induction Hclock as [|[[now o] id'] calls Hc _ IH]; intros d Hw He Hroom; cbn [allow_all foldl].
  - unfold Allow. rewrite (proj2 (String.eqb_neq _ _) Hid). rewrite Allow_small by (cbn in Hroom; lia).
    destruct He as (t & -> & Ht). destruct (Z.ltb_spec (t2 - Deduper.window d) t); [done|lia].
  - cbn in Hc, Hroom.
    destruct (Allow_keeps now o id' d id t1) as (Hm & Hw' & Hs & He'); [lia|done|done|].
    apply IH; [by rewrite Hw'|done|rewrite Hm; lia].
Qed.

(** When the table is over its limit by one and nothing in it has expired, a
    call still deletes the first entry of the iteration order, which is then
    let through again although its window has not passed. *)
Lemma full_deduper_forgets_fresh (d : Deduper.t) (now : Z) (k id : string) (order o2 : list string)
    (Hid : id <> "") (Hk : k <> "") (Hne : k <> id)
    (Hfull : msize d.(Deduper.items) = d.(Deduper.maxEntries) + 1)
    (Hkin : is_Some (d.(Deduper.items) !! k)) (Hmax : 1 <= d.(Deduper.maxEntries))
    (Hfresh : map_Forall (fun _ t => now - d.(Deduper.window) < t) d.(Deduper.items)) :
  (Allow now o2 k (Allow now (k :: order) id d).2).1 = true.
Proof.
  assert (Hev : evict (now - d.(Deduper.window)) (k :: order) d = delete k d.(Deduper.items)).
  { unfold evict. destruct (Z.gtb_spec (msize (Deduper.items d)) (Deduper.maxEntries d)); [|lia].
    rewrite (map_filter_id (fun '(_, t) => ~ t < now - d.(Deduper.window))).
    - cbn [purge_loop].
      assert (Hd : msize (delete k d.(Deduper.items)) = d.(Deduper.maxEntries)).
      { unfold msize in *. rewrite map_size_delete. destruct Hkin as [t ->].
        assert (size (Deduper.items d) <> O) by lia. lia. }
      rewrite Hd. by rewrite Z.leb_refl.
    - intros k' t Ht. specialize (Hfresh k' t Ht). cbn in Hfresh. lia. }
  set (d1 := (Allow now (k :: order) id d).2).
  assert (Hd1 : d1.(Deduper.items) !! k = None /\ d1.(Deduper.window) = d.(Deduper.window)).
  { subst d1. unfold Allow. rewrite (proj2 (String.eqb_neq _ _) Hid), Hev.
    destruct (match _ !! id with Some t => _ | None => _ end); cbn.
    - by rewrite lookup_delete_eq.
    - by rewrite lookup_insert_ne, lookup_delete_eq by done. }
  destruct Hd1 as [Hd1 _]. clearbody d1. unfold Allow.
  rewrite (proj2 (String.eqb_neq _ _) Hk).
  assert (Hgone : forall cut, evict cut o2 d1 !! k = None).
  { intros cut. unfold evict. destruct (_ >? _); [|done].
    assert (Hl : filter (fun '(_, t) => ~ t < cut) (Deduper.items d1) !! k = None).
    { apply map_lookup_filter_None_2. by left. }
    revert Hl. generalize (filter (fun '(_, t) => ~ t < cut) (Deduper.items d1)).
    induction o2 as [|x o IH]; intros m Hm; cbn [purge_loop]; [done|].
    assert (delete x m !! k = None) by (apply lookup_delete_None; by right).
    destruct (_ <=? _); auto. }
  by rewrite Hgone.
Qed.

(** ** The pool keeps the jobs it was sent *)

(** The calls of [Submit] between counting a job and sending it. *)
Definition added (m : gmap nat SubmitPc) : nat := size (filter (fun kv => kv.2 = PcAdded) m).

Definition is_added (pc : SubmitPc) : nat := match pc with PcAdded => 1 | _ => 0 end%nat.

Lemma added_fresh m j pc : m !! j = None -> added (<[j := pc]> m) = (added m + is_added pc)%nat.
Proof.
  intros Hj. unfold added. destruct (decide (pc = PcAdded)) as [->|Hne].
  - rewrite map_filter_insert_True by done. rewrite map_size_insert_None; [cbn; lia|].
    apply map_lookup_filter_None_2. by left.
  - rewrite map_filter_insert_False by done. rewrite delete_id by done. destruct pc; cbn; done || lia.
Qed.

Lemma added_insert m j pc pc0 :
  m !! j = Some pc0 -> (added (<[j := pc]> m) + is_added pc0 = added m + is_added pc)%nat.
Proof.
  intros Hj. rewrite <- (insert_delete_id m j pc0 Hj) at 2.
  rewrite <- (insert_delete_eq m j pc), !added_fresh by apply lookup_delete_eq. lia.
Qed.

Definition in_pool (p : Pool.t) : list nat :=
  p.(Pool.queue) ++ p.(Pool.running) ++ p.(Pool.finished).

Definition pool_inv (p : Pool.t) : Prop :=
  p.(Pool.wg) = Z.of_nat (length p.(Pool.queue) + length p.(Pool.running) + added p.(Pool.callers)) /\
  NoDup (in_pool p) /\
  (forall j, p.(Pool.callers) !! j = Some PcSent <-> j ∈ in_pool p) /\
  (length p.(Pool.queue) <= p.(Pool.buffer))%nat /\
  (length p.(Pool.running) <= p.(Pool.workers))%nat /\
  (p.(Pool.jobs_closed) = true -> p.(Pool.closed) = true).

(** A caller that moves without touching the jobs. *)
Lemma sent_same (p : Pool.t) j pc :
  p.(Pool.callers) !! j <> Some PcSent -> pc <> PcSent ->
  (forall i, p.(Pool.callers) !! i = Some PcSent <-> i ∈ in_pool p) ->
  forall i, <[j := pc]> p.(Pool.callers) !! i = Some PcSent <-> i ∈ in_pool p.
Proof.
  intros Hj Hpc Hs i. destruct (decide (i = j)) as [->|Hne].
  - rewrite lookup_insert_eq, <- Hs. split; [by intros [= ->]|done].
  - by rewrite lookup_insert_ne.
Qed.

Lemma pool_step_inv p p' : pool_step p p' -> pool_inv p -> pool_inv p'.
Proof.
  intros Hstep (Hwg & Hnd & Hsent & Hbuf & Hrun & Hcl).
  destruct Hstep as [p j Hj Hc|p j Hj Hc|p j Hj|p j Hj Hjc Hlen|p j Hj Hjc|p j q Hq Hlen
                    |p j l1 l2 Hr|p Hc|p Hc Hjc]; unfold pool_inv, in_pool in *; cbn in *.
  - rewrite added_fresh by done. cbn. rewrite Nat.add_0_r.
    repeat split; try done; try apply sent_same; rewrite ?Hj; try done; apply Hsent.
  - rewrite added_fresh by done. cbn. rewrite Nat.add_0_r.
    repeat split; try done; try apply sent_same; rewrite ?Hj; try done; apply Hsent.
  - pose proof (added_insert _ _ PcAdded _ Hj) as Ha. cbn in Ha.
    split; [lia|]. split; [done|]. split; [apply sent_same; rewrite ?Hj; done|done].
  - pose proof (added_insert _ _ PcSent _ Hj) as Ha. cbn in Ha.
    assert (Hfresh : ~ j ∈ p.(Pool.queue) ++ p.(Pool.running) ++ p.(Pool.finished)).
    { rewrite <- Hsent, Hj. done. }
    rewrite length_app; cbn. split; [lia|]. split.
    + rewrite <- app_assoc. cbn. rewrite <- Permutation_middle. by constructor.
    + split; [|split; [lia|done]]. intros i. rewrite <- app_assoc. cbn.
      rewrite <- Permutation_middle. rewrite elem_of_cons. destruct (decide (i = j)) as [->|Hne].
      * rewrite lookup_insert_eq. tauto.
      * rewrite lookup_insert_ne by done. rewrite Hsent. tauto.
  - pose proof (added_insert _ _ PcRecovered _ Hj) as Ha. cbn in Ha.
    split; [lia|]. split; [done|]. split; [apply sent_same; rewrite ?Hj; done|done].
  - rewrite Hq in *. cbn in *. rewrite length_app; cbn. split; [lia|].
    assert (Hperm : q ++ (p.(Pool.running) ++ [j]) ++ p.(Pool.finished) ≡ₚ
                    j :: q ++ p.(Pool.running) ++ p.(Pool.finished)).
    { rewrite <- app_assoc. cbn. rewrite <- !Permutation_middle. done. }
    split; [by rewrite Hperm|]. split; [intros i; by rewrite Hperm|]. split; [lia|]. split; [lia|done].
  - rewrite Hr in *. rewrite !length_app in *; cbn in *. split; [lia|].
    assert (Hperm : p.(Pool.queue) ++ (l1 ++ l2) ++ p.(Pool.finished) ++ [j] ≡ₚ
                    p.(Pool.queue) ++ (l1 ++ j :: l2) ++ p.(Pool.finished)).
    { rewrite <- !app_assoc. cbn. rewrite <- (Permutation_middle l1), <- !(Permutation_middle (Pool.queue p)).
      rewrite (Permutation_app_comm (Pool.finished p) [j]). cbn.
      rewrite <- !Permutation_middle. done. }
    split; [by rewrite Hperm|]. split; [intros i; by rewrite Hperm|]. split; [lia|]. split; [lia|done].
  - done.
  - done.
Qed.

Lemma NewWorkerPool_inv workers buffer : pool_inv (NewWorkerPool workers buffer).
Proof.
  split; [done|]. split; [apply NoDup_nil_2|]. split; [|split; [cbn; lia|split; [cbn; lia|done]]].
  intros j. cbn. rewrite lookup_empty, elem_of_nil. done.
Qed.

Lemma pool_reachable_inv workers buffer p :
  rtc pool_step (NewWorkerPool workers buffer) p -> pool_inv p.
Proof.
  intros H. assert (Hinv := NewWorkerPool_inv workers buffer).
  induction H as [p|p1 p2 p3 Hstep _ IH]; [done|]. apply IH. by eapply pool_step_inv.
Qed.

(** In every reachable state of the pool the wait group counts the queued
    jobs, the running jobs and the calls about to send one, so it never goes
    negative; the buffer and the number of workers are respected; and a job
    whose send succeeded is in exactly one of queue, workers and finished
    jobs.  When [Shutdown] has returned nothing is queued or running: every
    job that was sent has been finished. *)
Theorem pool_finishes_sent_jobs (workers buffer : Z) (p : Pool.t)
    (Hreach : rtc pool_step (NewWorkerPool workers buffer) p) :
  0 <= p.(Pool.wg) /\
  (length p.(Pool.queue) <= p.(Pool.buffer))%nat /\
  (length p.(Pool.running) <= p.(Pool.workers))%nat /\
  NoDup (in_pool p) /\
  (forall j, p.(Pool.callers) !! j = Some PcSent <-> j ∈ in_pool p) /\
  (drained p -> forall j, p.(Pool.callers) !! j = Some PcSent -> j ∈ p.(Pool.finished)).
Proof.
  destruct (pool_reachable_inv _ _ _ Hreach) as (Hwg & Hnd & Hsent & Hbuf & Hrun & _).
  repeat split; try done; try apply Hsent; [lia|]. intros [_ Hz] j Hj.
  apply Hsent in Hj. unfold in_pool in Hj. rewrite Hz in Hwg.
  destruct (Pool.queue p); [|cbn in Hwg; lia]. destruct (Pool.running p); [|cbn in Hwg; lia]. done.
Qed.

(** A call that recovered from the panic stays so, and its job is nowhere. *)
Lemma recovered_step p p' j :
  pool_step p p' -> p.(Pool.callers) !! j = Some PcRecovered ->
  p'.(Pool.callers) !! j = Some PcRecovered.
Proof.
  intros Hstep Hj. destruct Hstep as [p i Hi _|p i Hi _|p i Hi|p i Hi _ _|p i Hi _| | | | ]; cbn; try done;
    (destruct (decide (i = j)) as [->|Hne]; [congruence|by rewrite lookup_insert_ne]).
Qed.

(** A call of [Submit] that races with [Shutdown] returns nil although its
    job was dropped: there is a run of a pool with one worker after which
    [Shutdown] has returned, the call has returned nil, and in no continuation
    is its job ever finished.  The engine waits for every submitted job, so the
    evaluation of that event never returns. *)
Theorem submit_reports_success_for_dropped_job :
  exists p, rtc pool_step (NewWorkerPool 1 1) p /\ drained p /\
    p.(Pool.callers) !! 0%nat = Some PcRecovered /\
    forall p', rtc pool_step p p' -> ~ (0%nat ∈ p'.(Pool.finished)).
Proof.
  set (p0 := NewWorkerPool 1 1). set (p1 := set_caller 0 PcChecked p0).
  set (p2 := (p1 <| Pool.closed := true |>)%go).
  set (p3 := (p2 <| Pool.jobs_closed := true |>)%go).
  set (p4 := (set_caller 0 PcAdded p3 <| Pool.wg := p3.(Pool.wg) + 1 |>)%go).
  set (p5 := (set_caller 0 PcRecovered p4 <| Pool.wg := p4.(Pool.wg) - 1 |>)%go).
  assert (H : rtc pool_step p0 p5).
  { apply (rtc_l _ _ p1); [by apply submit_check|]. apply (rtc_l _ _ p2); [by apply shutdown_flag|].
    apply (rtc_l _ _ p3); [by apply shutdown_close|]. apply (rtc_l _ _ p4); [by apply submit_add|].
    apply rtc_once. by apply submit_panic. }
  exists p5. split; [exact H|]. split; [done|]. split; [done|]. intros p' Hp' Hin.
  assert (Hrec : p'.(Pool.callers) !! 0%nat = Some PcRecovered).
  { assert (H0 : p5.(Pool.callers) !! 0%nat = Some PcRecovered) by done.
    clear H Hin. clearbody p5. induction Hp' as [|x y z Hxy _ IH]; [done|].
    apply IH. by eapply recovered_step. }
  destruct (pool_reachable_inv 1 1 p') as (_ & _ & Hsent & _); [by etrans|].
  assert (Hs : p'.(Pool.callers) !! 0%nat = Some PcSent).
  { apply Hsent. unfold in_pool. rewrite !elem_of_app. by right; right. }
  congruence.
Qed.

(** ** Concrete runs *)

Definition sample_market_event : MarketEvent.t :=
  MarketEvent.mk "n1" "" 0 (StockData.mk 2885 2885 500325 "NSE" "RELIANCE" "" "" fzero "Large")
    (NewsData.mk "n1" "" "Results" "" 0) (Analysis.mk "Positive" "" 2)
    (MarketData.mk (of_Z 100) (of_Z 1) fzero fzero fzero fzero fzero 0 (of_Z 99)).

Definition sample_run : EventRun :=
  MkRun (fun i => Z.of_nat i) (fun _ => seven_conditions) [1%nat; 0%nat] (fun _ => None).

Definition sample_snapshot : Snapshot.t := (runOps sample_ops (NewConfigStore 0)).(Writer.published).

Definition sample_deduper : Deduper.t := NewDeduper 0 3.

Lemma event_answered_exactly_witness :
  exists out,
    (EvaluateEvent sample_run 1 [] sample_market_event sample_snapshot sample_deduper).2 = inr out /\
    map RuleMatch.Strategy out =
      map Some [(sample_strategy "u1" "s1" 5 true); sample_strategy "u2" "s1" 10 true] /\
    Forall (fun m => m.(RuleMatch.EventID) = "n1") out.
Proof.
  destruct (event_answered_exactly sample_run 1 [] sample_market_event
    (validateEvent sample_market_event).1 sample_snapshot sample_deduper) as (out & H1 & H2 & H3).
  - vm_compute. reflexivity.
  - vm_compute. reflexivity.
  - assert (Hlen : length (Snapshot.AllActive sample_snapshot) = 2%nat) by (vm_compute; reflexivity).
    rewrite Hlen. apply Permutation_swap.
  - reflexivity.
  - exists out. split; [exact H1|]. split; [|exact H3]. rewrite H2. vm_compute. reflexivity.
Defined.

Lemma repeat_within_window_blocked_witness :
  (Allow 5 [] "a" (allow_all [(3, [], "b")] (Allow 2 [] "a" sample_deduper).2)).1 = false.
Proof.
  apply (repeat_within_window_blocked sample_deduper 2 5 [] [] "a" [(3, [], "b")]);
    [done|vm_compute; done..| |vm_compute; done].
  constructor; [cbn; lia|constructor].
Defined.

Definition pool_one_checked : Pool.t := set_caller 0 PcChecked (NewWorkerPool 1 0).
Definition pool_one_added : Pool.t :=
  (set_caller 0 PcAdded pool_one_checked <| Pool.wg := pool_one_checked.(Pool.wg) + 1 |>)%go.
Definition pool_one_sent : Pool.t :=
  (set_caller 0 PcSent pool_one_added <| Pool.queue := pool_one_added.(Pool.queue) ++ [0%nat] |>)%go.
Definition pool_one_taken : Pool.t :=
  (pool_one_sent <| Pool.queue := [] |>
     <| Pool.running := pool_one_sent.(Pool.running) ++ [0%nat] |>)%go.
Definition pool_one_done : Pool.t :=
  (pool_one_taken <| Pool.running := [] ++ [] |>
     <| Pool.finished := pool_one_taken.(Pool.finished) ++ [0%nat] |>
     <| Pool.wg := pool_one_taken.(Pool.wg) - 1 |>)%go.
Definition pool_one_shut : Pool.t :=
  (pool_one_done <| Pool.closed := true |> <| Pool.jobs_closed := true |>)%go.

Lemma pool_one_reachable : rtc pool_step (NewWorkerPool 1 0) pool_one_shut.
Proof.
  apply (rtc_l _ _ pool_one_checked); [by apply (submit_check (NewWorkerPool 1 0) 0)|].
  apply (rtc_l _ _ pool_one_added); [by apply (submit_add pool_one_checked 0)|].
  apply (rtc_l _ _ pool_one_sent); [apply (submit_send pool_one_added 0); [done|done|cbn; lia]|].
  apply (rtc_l _ _ pool_one_taken); [apply (worker_take pool_one_sent 0 []); [done|cbn; lia]|].
  apply (rtc_l _ _ pool_one_done); [by apply (worker_done pool_one_taken 0 [] [])|].
  eapply rtc_l; [by apply (shutdown_flag pool_one_done)|]. apply rtc_once. by apply shutdown_close.
Qed.

Lemma pool_finishes_sent_jobs_witness : 0%nat ∈ pool_one_shut.(Pool.finished).
Proof. apply (pool_finishes_sent_jobs 1 0 _ pool_one_reachable); [split|]; done. Defined.
