(* ===== verification/RuleHandler.v ===== *)
(** * From a matched event to a trade signal

    [rules-engine/internal/consumer] and what it calls: market hours
    ([utils/market_hours.go]), market data and tick sizes
    ([consumer/market_data.go]), the table of trade signals
    ([repository/trade_signal_repository.go]), the order built for a match
    ([consumer/handler.go]) and the retrying consumer of news
    ([kafka/news_consumer.go]).  An instant is in nanoseconds.  The state is
    what the handler keeps; everything it reads from outside (clock, uuid,
    Redis, failures of the database) is the argument [env]. *)

From stdpp Require Import base tactics strings list gmap.
From Stdlib Require Import ZArith Lia SpecFloat Ascii.
From S2P Require Import Prelude GoFloat FloatRound FloatOrder GoStrings RuleModels ConfigStore.
From S2P Require Import Matcher RuleEngine GoTime.

Open Scope string_scope.
Open Scope list_scope.
Open Scope Z_scope.

(** ** Market hours *)

Record MarketHours := MkHours {
  OpenHour : Z; OpenMinute : Z; CloseHour : Z; CloseMinute : Z; Timezone : Z
}.

Definition DefaultMarketHours : MarketHours := MkHours 9 15 15 30 ist_offset.

(** [IsMarketOpenAt]. *)
Definition IsMarketOpenAt (mh : MarketHours) (t : Z) : bool :=
  let wd := weekday mh.(Timezone) t in
  if (wd =? 6) || (wd =? 0) then false
  else
    let currentMinutes := minute_of_day mh.(Timezone) t in
    let openMinutes := mh.(OpenHour) * 60 + mh.(OpenMinute) in
    let closeMinutes := mh.(CloseHour) * 60 + mh.(CloseMinute) in
    (openMinutes <=? currentMinutes) && (currentMinutes <=? closeMinutes).

(** [isWithinTradeWindow]. *)
Definition isWithinTradeWindow (now : Z) (windowStart windowEnd : string) : bool :=
  if String.eqb windowStart "" || String.eqb windowEnd "" then true
  else
    match parseHHMM windowStart, parseHHMM windowEnd with
    | Some (sh, sm), Some (eh, em) =>
      let nowMins := minute_of_day ist_offset now in
      (sh * 60 + sm <=? nowMins) && (nowMins <=? eh * 60 + em)
    | _, _ => true
    end.

(** ** Market data *)

Module MarketDataResult.
Record t := mk {
  LTP : f64;
  PrevClose : f64;
  TickSize : f64;
  PercentChange : f64;
  Exchange : string;
  Token : Z
}.
End MarketDataResult.

(** The fields decoded from the stored JSON. *)
Record RawMarketData := MkRaw {
  raw_ltp : f64; raw_prev_close : f64; raw_tick_size : f64; raw_percent_change : f64
}.

(** What [GET] gives: an error (a missing key included), or a value that decoded
    or did not. *)
Inductive RedisReply := RedisErr | RedisValue (raw : option RawMarketData).

(** [strings.TrimSuffix]. *)
Definition TrimSuffix (s suffix : string) : string :=
  let n := String.length s in
  let k := String.length suffix in
  if (k <=? n)%nat && String.eqb (String.substring (n - k) k s) suffix then String.substring 0 (n - k) s else s.

Definition market_key (exch : string) (token : Z) : string :=
  ("market:" ++ exch ++ ":" ++ Itoa token)%string.

(** One exchange of the loop of [getMarketDataFromRedis]. *)
Definition fetch_exchange (redis : string -> RedisReply) (stock : StockData.t) (exch : string)
    : option MarketDataResult.t :=
  let token := if String.eqb exch "nse" then stock.(StockData.NSECode)
               else stock.(StockData.BSECode) in
  if token <=? 0 then None
  else
    match redis (market_key exch token) with
    | RedisValue (Some raw) =>
      if fle raw.(raw_ltp) fzero then None
      else if fle raw.(raw_tick_size) fzero then None
      else Some (MarketDataResult.mk raw.(raw_ltp) raw.(raw_prev_close) raw.(raw_tick_size)
                   raw.(raw_percent_change) exch token)
    | _ => None
    end.

(** [getMarketDataFromRedis]; [None] is the error. *)
Definition getMarketDataFromRedis (redis : string -> RedisReply) (stock : StockData.t)
    : option MarketDataResult.t :=
  let exchangeLower := TrimSuffix (ToLower stock.(StockData.Exchange)) "_eq" in
  let exchanges := if String.eqb exchangeLower "bse" then ["bse"; "nse"] else ["nse"; "bse"] in
  head (omap (fetch_exchange redis stock) exchanges).

Definition tick_scale : f64 := of_Z (10 ^ 8).

(** [roundToTickSize]. *)
Definition roundToTickSize (price tickSize : f64) : f64 :=
  if fle tickSize fzero then price
  else
    let priceSc := f64_to_int64 (math_Round (price * tick_scale)%f64) in
    let tickSc := f64_to_int64 (math_Round (tickSize * tick_scale)%f64) in
    if tickSc <=? 0 then price
    else
      let rounded := int64 (Z.quot (int64 (priceSc + Z.quot tickSc 2)) tickSc * tickSc) in
      (of_Z rounded / tick_scale)%f64.

(** ** The table of trade signals

    [created_at] is a TIMESTAMP without a zone: PostgreSQL keeps the wall clock
    of the process that wrote it.  [AT TIME ZONE] turns such a wall clock,
    taken as Indian, into an instant, and the date of an instant is taken in
    the zone of the session; of [NOW()], an instant, it gives the Indian wall
    clock. *)

Record SignalRow := MkSignal {
  row_order : OrderRequest.t;
  row_status : string;
  row_created : Z            (** wall clock, in nanoseconds *)
}.

Record Zones := MkZones { process_offset : Z; session_offset : Z }.

Definition wall (z : Zones) (t : Z) : Z := t + z.(process_offset) * second.

(** [(created_at AT TIME ZONE 'Asia/Kolkata')::date]. *)
Definition created_date (z : Zones) (created : Z) : Z :=
  day_number z.(session_offset) (created - ist_offset * second).

(** The WHERE clause the two queries share. *)
Definition counted (z : Zones) (strategyID : string) (since now : Z) (r : SignalRow) : bool :=
  String.eqb r.(row_order).(OrderRequest.StrategyID) strategyID &&
  (created_date z r.(row_created) =? today now) &&
  (wall z since <=? r.(row_created)) &&
  negb (one_of r.(row_status) ["FAILED"; "CANCELLED"]).

(** [HasSignalToday]. *)
Definition HasSignalToday (z : Zones) (strategyID : string) (stockCode since now : Z)
    (rows : list SignalRow) : bool :=
  existsb (fun r => counted z strategyID since now r
                    && (r.(row_order).(OrderRequest.StockCode) =? stockCode)) rows.

(** [GetStrategyTradesToday]. *)
Definition GetStrategyTradesToday (z : Zones) (strategyID : string) (since now : Z)
    (rows : list SignalRow) : Z :=
  Z.of_nat (length (filter (fun r => counted z strategyID since now r = true) rows)).

(** [SaveTradeSignal]; [order_id] is UNIQUE. *)
Definition SaveTradeSignal (z : Zones) (o : OrderRequest.t) (rows : list SignalRow)
    : option (list SignalRow) :=
  if existsb (fun r => String.eqb r.(row_order).(OrderRequest.OrderID) o.(OrderRequest.OrderID)) rows
  then None
  else Some (rows ++ [MkSignal o "PENDING" (wall z o.(OrderRequest.Timestamp))]).

(** ** The order of a match *)

Inductive HandlerError :=
  | ErrStrategyNil | ErrQuantity | ErrTickSize | ErrNoMarketData | ErrNoPrice | ErrLimitPrice
  | ErrInvalidOrder (e : ModelError) | ErrMatchEvent (e : EngineError).

(** What a match takes from outside: the clock, the fresh uuid, and which of the
    database calls and the publication fail. *)
Record MatchEnv := MkEnv {
  env_now : Z;
  env_uuid : string;
  has_fails : bool;
  count_fails : bool;
  save_fails : bool;
  publish_fails : bool
}.

(** The checks before any price is looked at: the trade window, one signal per
    stock and day, and the strategy's daily cap.  A failing query blocks. *)
Definition match_allowed (z : Zones) (env : MatchEnv) (s : Strategy.t) (stockCode : Z)
    (rows : list SignalRow) : bool :=
  let tc := s.(Strategy.TradeConfig) in
  let limit := s.(Strategy.RiskLimits).(RiskLimits.MaxTradesPerStrategy) in
  let since := s.(Strategy.UpdatedAt) in
  if negb (isWithinTradeWindow env.(env_now) tc.(TradeConfig.TradeWindowStart)
             tc.(TradeConfig.TradeWindowEnd)) then false
  else if env.(has_fails) then false
  else if HasSignalToday z s.(Strategy.StrategyID) stockCode since env.(env_now) rows then false
  else if 0 <? limit then
    if env.(count_fails) then false
    else negb (limit <=? int32 (GetStrategyTradesToday z s.(Strategy.StrategyID) since
                                  env.(env_now) rows))
  else true.

(** [tickCache.Get] behind the tick size of the fetched data. *)
Definition resolve_tick (md : option MarketDataResult.t) (cache : gmap Z f64) (stockCode : Z) : f64 :=
  let tickSize := from_option MarketDataResult.TickSize fzero md in
  if fle tickSize fzero then
    match cache !! stockCode with
    | Some cached => if flt fzero cached then cached else tickSize
    | None => tickSize
    end
  else tickSize.

(** The limit price: half a percent above the base, on the tick grid. *)
Definition buffered (base tickSize : f64) : f64 := roundToTickSize (base * dec 1005 3)%f64 tickSize.

(** The absolute stop-loss and take-profit at a percentage of the base. *)
Definition sl_price (base pct tickSize : f64) : f64 :=
  roundToTickSize (base * (of_Z 1 - pct / of_Z 100))%f64 tickSize.
Definition tp_price (base pct tickSize : f64) : f64 :=
  roundToTickSize (base * (of_Z 1 + pct / of_Z 100))%f64 tickSize.

(** The two exits of a single-level order: a multi-level leg or a percentage
    that is not positive leaves the field at zero. *)
Definition set_exits (tc : TradeConfig.t) (base tickSize : f64) (o : OrderRequest.t)
    : OrderRequest.t :=
  let slPct := tc.(TradeConfig.StopLossPct) in
  let tpPct := tc.(TradeConfig.TakeProfitPct) in
  let isMultiLevelSL := String.eqb tc.(TradeConfig.StopLossType) "MULTI_LEVEL" in
  let isMultiLevelTP := String.eqb tc.(TradeConfig.TakeProfitType) "MULTI_LEVEL" in
  let o := if negb isMultiLevelSL && flt fzero slPct
           then (o <| OrderRequest.StopLoss := sl_price base slPct tickSize |>)%go else o in
  if negb isMultiLevelTP && flt fzero tpPct
  then (o <| OrderRequest.TakeProfit := tp_price base tpPct tickSize |>)%go else o.

(** The switch over the status of the change: the order and the price it is
    sized at. *)
Definition price_order (status : string) (s : Strategy.t) (ltp prevClose tickSize : f64)
    (o : OrderRequest.t) : HandlerError + (OrderRequest.t * f64) :=
  let tc := s.(Strategy.TradeConfig) in
  let isTrailingSL := String.eqb tc.(TradeConfig.StopLossType) "TRAILING" in
  let isMultiLevelSL := String.eqb tc.(TradeConfig.StopLossType) "MULTI_LEVEL" in
  let isMultiLevelTP := String.eqb tc.(TradeConfig.TakeProfitType) "MULTI_LEVEL" in
  if String.eqb status PctChangeWithinRange then
    let limitPrice := buffered ltp tickSize in
    let o := (o <| OrderRequest.OrderType := "LIMIT" |>
                <| OrderRequest.Price := limitPrice |>
                <| OrderRequest.ProductType :=
                     if isTrailingSL then "INTRADAY"
                     else if isMultiLevelSL || isMultiLevelTP then "INTRADAY" else "BRACKET" |>)%go in
    inr (set_exits tc ltp tickSize o, limitPrice)
  else if String.eqb status PctChangeBelowMin then
    let minPct := s.(Strategy.Conditions).(Conditions.MinPctChange) in
    let maxPct := s.(Strategy.Conditions).(Conditions.MaxPctChange) in
    let referencePrice := if fle prevClose fzero then ltp else prevClose in
    let targetMonitorPrice := (referencePrice * (of_Z 1 + minPct / of_Z 100))%f64 in
    let limitPrice := buffered targetMonitorPrice tickSize in
    if fle limitPrice fzero then inl ErrLimitPrice
    else
      let o := (o <| OrderRequest.OrderType := "STOP_LOSS" |>
                  <| OrderRequest.Price := targetMonitorPrice |>
                  <| OrderRequest.ProductType := "BRACKET" |>)%go in
      let o := set_exits tc targetMonitorPrice tickSize o in
      let o := if flt fzero maxPct
               then (o <| OrderRequest.MaxMonitorPrice :=
                            (referencePrice * (of_Z 1 + maxPct / of_Z 100))%f64 |>)%go
               else o in
      inr (o, limitPrice)
  else inr (set_exits tc ltp tickSize o, o.(OrderRequest.Price)).

(** Amount-based sizing; [None] means the match is skipped. *)
Definition size_order (s : Strategy.t) (sizingPrice : f64) (o : OrderRequest.t)
    : option OrderRequest.t :=
  let maxAmt := s.(Strategy.RiskLimits).(RiskLimits.MaxAmountPerStock) in
  if flt fzero maxAmt then
    if fle sizingPrice fzero then None
    else
      let effectiveBudget := (maxAmt * dec 98 2)%f64 in
      let computedQty := f64_to_int32 (math_Floor (effectiveBudget / sizingPrice)%f64) in
      if computedQty <? 1 then None
      else Some (o <| OrderRequest.Quantity := computedQty |>)%go
  else Some o.

(** Everything of [processMatch] between the gates and the publication: an
    error, a skip ([inr None]) or the order. *)
Definition build_order (env : MatchEnv) (m : RuleMatch.t) (e : MarketEvent.t) (s : Strategy.t)
    (md : option MarketDataResult.t) (cache : gmap Z f64)
    : HandlerError + option OrderRequest.t :=
  let stockCode := e.(MarketEvent.StockData).(StockData.StockCode) in
  let maxPct := s.(Strategy.Conditions).(Conditions.MaxPctChange) in
  let tickSize := resolve_tick md cache stockCode in
  if feq s.(Strategy.RiskLimits).(RiskLimits.MaxAmountPerStock) fzero
     && (s.(Strategy.TradeConfig).(TradeConfig.Quantity) <=? 0) then inl ErrQuantity
  else if fle tickSize fzero then inl ErrTickSize
  else
    match md with
    | None => inl ErrNoMarketData
    | Some md =>
      let ltp := md.(MarketDataResult.LTP) in
      if fle ltp fzero then inl ErrNoPrice
      else if flt fzero maxPct && fle maxPct (fabs md.(MarketDataResult.PercentChange)) then inr None
      else
        let prevClose := e.(MarketEvent.MarketData).(MarketData.PrevClose) in
        let prevClose := if fle prevClose fzero then md.(MarketDataResult.PrevClose) else prevClose in
        let o := (NewOrderRequest env.(env_uuid) env.(env_now) m e s
                    <| OrderRequest.Price := ltp |>
                    <| OrderRequest.PctChangeStatus := m.(RuleMatch.PctChangeStatus) |>
                    <| OrderRequest.CurrentPctChange := md.(MarketDataResult.PercentChange) |>)%go in
        match price_order m.(RuleMatch.PctChangeStatus) s ltp prevClose tickSize o with
        | inl err => inl err
        | inr (o, sizingPrice) =>
          match size_order s sizingPrice o with
          | None => inr None
          | Some o =>
            match validateOrder o with
            | Some err => inl (ErrInvalidOrder err)
            | None => inr (Some (o <| OrderRequest.RiskApproved := true |>
                                   <| OrderRequest.RiskScore := fzero |>)%go)
            end
          end
        end
    end.

(** ** The handler *)

(** [MatchingStats], as far as the handler writes it. *)
Record MatchingStats := MkStats {
  TotalEventsProcessed : Z;
  TotalMatchesFound : Z;
  TotalOrdersGenerated : Z;
  EvaluationErrors : Z;
  TopStrategies : gmap string (string * Z);
  TopStocks : gmap Z (string * Z)
}.
#[export] Instance eta_stats : Eta MatchingStats := fun s =>
  MkStats s.(TotalEventsProcessed) s.(TotalMatchesFound) s.(TotalOrdersGenerated)
    s.(EvaluationErrors) s.(TopStrategies) s.(TopStocks).

Module Handler.
Record t := mk {
  stats : MatchingStats;
  tickCache : gmap Z f64;
  dedup : Deduper.t;
  signals : list SignalRow;
  published : list OrderRequest.t
}.
#[global] Instance eta_handler : Eta t := fun h =>
  mk h.(stats) h.(tickCache) h.(dedup) h.(signals) h.(published).
End Handler.

Definition on_stats (f : MatchingStats -> MatchingStats) (h : Handler.t) : Handler.t :=
  (h <| Handler.stats := f h.(Handler.stats) |>)%go.

Definition IncrementEventsProcessed (s : MatchingStats) : MatchingStats :=
  (s <| TotalEventsProcessed := int64 (s.(TotalEventsProcessed) + 1) |>)%go.
Definition IncrementMatchesFound (s : MatchingStats) : MatchingStats :=
  (s <| TotalMatchesFound := int64 (s.(TotalMatchesFound) + 1) |>)%go.
Definition IncrementOrdersGenerated (s : MatchingStats) : MatchingStats :=
  (s <| TotalOrdersGenerated := int64 (s.(TotalOrdersGenerated) + 1) |>)%go.
Definition IncrementEvaluationErrors (s : MatchingStats) : MatchingStats :=
  (s <| EvaluationErrors := int64 (s.(EvaluationErrors) + 1) |>)%go.

Definition bump (label : string) (o : option (string * Z)) : string * Z :=
  match o with Some (n, c) => (n, int64 (c + 1)) | None => (label, 1) end.

Definition RecordStrategyMatch (strategyID strategyName : string) (s : MatchingStats) : MatchingStats :=
  (s <| TopStrategies := <[strategyID := bump strategyName (s.(TopStrategies) !! strategyID)]>
                           s.(TopStrategies) |>)%go.
Definition RecordStockMatch (stockCode : Z) (symbol : string) (s : MatchingStats) : MatchingStats :=
  (s <| TopStocks := <[stockCode := bump symbol (s.(TopStocks) !! stockCode)]> s.(TopStocks) |>)%go.

(** The save and the publication run side by side; a failure of either is logged
    and nothing else. *)
Definition emit_signal (z : Zones) (env : MatchEnv) (o : OrderRequest.t) (h : Handler.t) : Handler.t :=
  let h := if env.(save_fails) then h
           else match SaveTradeSignal z o h.(Handler.signals) with
                | Some rows => (h <| Handler.signals := rows |>)%go
                | None => h
                end in
  let h := if env.(publish_fails) then h
           else (h <| Handler.published := h.(Handler.published) ++ [o] |>)%go in
  on_stats IncrementOrdersGenerated h.

(** [processMatch], under the mutex of the strategy. *)
Definition processMatch (z : Zones) (env : MatchEnv) (m : RuleMatch.t) (e : MarketEvent.t)
    (md : option MarketDataResult.t) (h : Handler.t) : Handler.t * option HandlerError :=
  match m.(RuleMatch.Strategy) with
  | None => (h, Some ErrStrategyNil)
  | Some s =>
    if negb (match_allowed z env s e.(MarketEvent.StockData).(StockData.StockCode)
               h.(Handler.signals)) then (h, None)
    else
      match build_order env m e s md h.(Handler.tickCache) with
      | inl err => (h, Some err)
      | inr None => (h, None)
      | inr (Some o) => (emit_signal z env o h, None)
      end
  end.

(** What an event takes from outside, one attempt. *)
Record EventEnv := MkEventEnv {
  ev_now : Z;
  ev_holiday : bool;                       (** the holiday checker's answer *)
  ev_run : EventRun;
  ev_purge : list string;
  ev_redis : string -> RedisReply;
  ev_match : nat -> MatchEnv               (** of each match, by index *)
}.

(** The configuration of the handler. *)
Record HandlerConfig := MkHandlerConfig {
  enforceHours : bool;
  marketHours : MarketHours;
  zones : Zones
}.

(** The loop over the matches: an error is logged and the loop goes on. *)
Fixpoint process_matches (z : Zones) (envs : nat -> MatchEnv) (i : nat) (ms : list RuleMatch.t)
    (e : MarketEvent.t) (md : option MarketDataResult.t) (h : Handler.t) : Handler.t :=
  match ms with
  | [] => h
  | m :: ms => process_matches z envs (S i) ms e md (processMatch z (envs i) m e md h).1
  end.

Definition record_matches (ms : list RuleMatch.t) (e : MarketEvent.t) (h : Handler.t) : Handler.t :=
  let stock := e.(MarketEvent.StockData) in
  foldl (fun h m => on_stats (fun s => RecordStockMatch stock.(StockData.StockCode)
    stock.(StockData.Symbol)
    (RecordStrategyMatch m.(RuleMatch.StrategyID) m.(RuleMatch.StrategyName) s)) h)
    (on_stats IncrementMatchesFound h) ms.

(** [HandleEvent]: the state, the event as validation leaves it, the error. *)
Definition HandleEvent (cfg : HandlerConfig) (env : EventEnv) (snap : Snapshot.t)
    (e : MarketEvent.t) (h : Handler.t) : Handler.t * MarketEvent.t * option HandlerError :=
  let h := on_stats IncrementEventsProcessed h in
  if env.(ev_holiday) then (h, e, None)
  else if cfg.(enforceHours) && negb (IsMarketOpenAt cfg.(marketHours) env.(ev_now)) then (h, e, None)
  else
    let '(e, dedup, evalRes) :=
      EvaluateEvent env.(ev_run) env.(ev_now) env.(ev_purge) e snap h.(Handler.dedup) in
    let h := (h <| Handler.dedup := dedup |>)%go in
    let stock := e.(MarketEvent.StockData) in
    let md := getMarketDataFromRedis env.(ev_redis) stock in
    let h := match md with
             | Some md => (h <| Handler.tickCache :=
                 <[stock.(StockData.StockCode) := md.(MarketDataResult.TickSize)]>
                   h.(Handler.tickCache) |>)%go
             | None => h
             end in
    match evalRes with
    | inl err => (on_stats IncrementEvaluationErrors h, e, Some (ErrMatchEvent err))
    | inr [] => (h, e, None)
    | inr matches =>
      if bool_decide (md = None)
         && fle e.(MarketEvent.MarketData).(MarketData.LastTradedPrice) fzero then
        (h, e, Some ErrNoMarketData)
      else
        let h := record_matches matches e h in
        (process_matches cfg.(zones) env.(ev_match) 0 matches e md h, e, None)
    end.

(** ** The news consumer *)

Definition maxHandlerRetries : nat := 3.

(** The attempts at one event; [env] gives each attempt its outside. *)
Fixpoint attempts (cfg : HandlerConfig) (env : nat -> EventEnv) (snap : Snapshot.t)
    (attempt remaining : nat) (e : MarketEvent.t) (h : Handler.t) : Handler.t * option HandlerError :=
  match remaining with
  | O => (h, None)
  | S remaining =>
    match HandleEvent cfg (env attempt) snap e h with
    | (h, _, None) => (h, None)
    | (h, e, Some err) =>
      match remaining with
      | O => (h, Some err)
      | _ => attempts cfg env snap (S attempt) remaining e h
      end
    end
  end.

(** One fetched message of [NewsConsumer.Start], from the converted event on:
    an invalid event is dropped, and the message is committed in every case. *)
Definition consumeNews (cfg : HandlerConfig) (env : nat -> EventEnv) (snap : Snapshot.t)
    (e : MarketEvent.t) (h : Handler.t) : Handler.t * option HandlerError :=
  match validateEvent e with
  | (_, Some _) => (h, None)
  | (e, None) => attempts cfg env snap 1 maxHandlerRetries e h
  end.

(** ** The clock of the daily limits *)

Lemma created_date_wall z t :
  created_date z (wall z t) =
  (t / second + z.(process_offset) - ist_offset + z.(session_offset)) / 86400.
Proof.
  unfold created_date, wall, day_number, local_seconds.
  replace (t + process_offset z * second - ist_offset * second)
    with (t + (process_offset z - ist_offset) * second) by lia.
  rewrite div_add_seconds. f_equal. lia.
Qed.



(** When the process and the database session run on UTC, a signal created
    before 11:00 Indian time does not count as a signal of its day: neither the
    one-per-stock lock nor the daily cap sees it on that day. *)
Theorem utc_morning_signal_not_counted (created now since : Z) (o : OrderRequest.t)
    (status strategyID : string)
    (Hday : today created = today now)
    (Hmorning : minute_of_day ist_offset created < 11 * 60) :
  counted (MkZones 0 0) strategyID since now
    (MkSignal o status (wall (MkZones 0 0) created)) = false.
Proof.
  unfold counted. cbn [row_order row_created row_status]. rewrite created_date_wall. cbn.
  rewrite <- Hday. unfold minute_of_day, today, day_number, local_seconds in *.
  set (s := created / second) in *.
  assert (Hne : (s + 0 - ist_offset + 0) / 86400 <> (s + ist_offset) / 86400).
  { assert (Hm : (s + ist_offset) mod 86400 < 39600).
    { pose proof (Z.mod_pos_bound (s + ist_offset) 86400 ltac:(lia)).
      pose proof (Z.div_mod ((s + ist_offset) mod 86400) 60 ltac:(lia)).
      pose proof (Z.mod_pos_bound ((s + ist_offset) mod 86400) 60 ltac:(lia)). lia. }
    pose proof (Z.div_mod (s + ist_offset) 86400 ltac:(lia)) as Hd.
    intros Heq. pose proof (Z.mul_div_le (s + 0 - ist_offset + 0) 86400 ltac:(lia)) as Hle.
    rewrite Heq in Hle. unfold ist_offset in *. lia. }
  apply Z.eqb_neq in Hne. rewrite Hne. by rewrite andb_false_r.
Qed.

(** ** The daily limits hold *)






(** An order of the strategy on a day of India, after its activation. *)
Definition dated (strategyID : string) (since day : Z) (o : OrderRequest.t) : Prop :=
  o.(OrderRequest.StrategyID) = strategyID /\ today o.(OrderRequest.Timestamp) = day /\
  since <= o.(OrderRequest.Timestamp).

#[export] Instance dated_dec strategyID since day o : Decision (dated strategyID since day o).
Proof. unfold dated. apply _. Defined.







(** One call of [processMatch]. *)
Record MatchCall := MkCall {
  call_env : MatchEnv;
  call_match : RuleMatch.t;
  call_event : MarketEvent.t;
  call_md : option MarketDataResult.t
}.

Definition run_calls (z : Zones) (calls : list MatchCall) (h : Handler.t) : Handler.t :=
  foldl (fun h c => (processMatch z c.(call_env) c.(call_match) c.(call_event) c.(call_md) h).1)
    h calls.



















(** ** A failed event is not retried *)

(** An attempt that fails for want of market data has let the event's id
    through and touched neither the table nor the publications. *)
Lemma no_market_data_inv cfg env snap e h h1 e1 :
  HandleEvent cfg env snap e h = (h1, e1, Some ErrNoMarketData) ->
  validateEvent e = (e1, None) /\
  (Allow env.(ev_now) env.(ev_purge) e1.(MarketEvent.EventID) h.(Handler.dedup)).1 = true /\
  h1.(Handler.dedup) =
    (Allow env.(ev_now) env.(ev_purge) e1.(MarketEvent.EventID) h.(Handler.dedup)).2 /\
  h1.(Handler.signals) = h.(Handler.signals) /\ h1.(Handler.published) = h.(Handler.published).
Proof.
  unfold HandleEvent. destruct (ev_holiday env); [done|]. destruct (_ && _); [done|].
  unfold EvaluateEvent. cbn [on_stats Handler.dedup set].
  destruct (validateEvent e) as [e' [err|]]; [by destruct (getMarketDataFromRedis _ _)|].
  destruct (Allow _ _ _ _) as [fresh d'] eqn:HA. destruct fresh; cbn [negb].
  - destruct (fan_out _ _ _) as [err|[|m ms]]; destruct (getMarketDataFromRedis _ _) as [md|];
      try done.
    destruct (_ && _); [|done]. intros [= <- <-]. cbn in HA. by rewrite HA.
  - by destruct (getMarketDataFromRedis _ _).
Qed.

(** An attempt whose event the deduplicator turns away does nothing and reports
    success. *)
Lemma duplicate_attempt cfg env snap e h :
  validateEvent e = (e, None) ->
  (Allow env.(ev_now) env.(ev_purge) e.(MarketEvent.EventID) h.(Handler.dedup)).1 = false ->
  exists h', HandleEvent cfg env snap e h = (h', e, None) /\
    h'.(Handler.signals) = h.(Handler.signals) /\ h'.(Handler.published) = h.(Handler.published).
Proof.
  intros Hv Ha. unfold HandleEvent. destruct (ev_holiday env); [by eexists|].
  destruct (_ && _); [by eexists|]. unfold EvaluateEvent. rewrite Hv.
  cbn [on_stats Handler.dedup set]. destruct (Allow _ _ _ _) as [fresh d']. cbn in Ha. subst fresh.
  cbn [negb]. by destruct (getMarketDataFromRedis _ _); eexists.
Qed.

(** The consumer retries an event whose handler failed, but the first
    attempt has already entered the event's id in the deduplicator: when the
    second attempt comes within the window it is taken for a duplicate and
    reports success, so the event is committed and no signal is ever made of
    it, although strategies matched. *)
Theorem failed_event_is_not_retried (cfg : HandlerConfig) (env : nat -> EventEnv)
    (snap : Snapshot.t) (e e1 : MarketEvent.t) (h h1 : Handler.t)
    (Hfirst : HandleEvent cfg (env 1%nat) snap e h = (h1, e1, Some ErrNoMarketData))
    (Hroom : msize h.(Handler.dedup).(Deduper.items) + 1 <= h.(Handler.dedup).(Deduper.maxEntries))
    (Hsoon : (env 2%nat).(ev_now) < (env 1%nat).(ev_now) + h.(Handler.dedup).(Deduper.window)) :
  exists h', consumeNews cfg env snap e h = (h', None) /\
    h'.(Handler.signals) = h.(Handler.signals) /\ h'.(Handler.published) = h.(Handler.published).
Proof.
  destruct (no_market_data_inv _ _ _ _ _ _ _ Hfirst) as (Hv & Ha & Hd & Hs & Hp).
  destruct (validateEvent_id _ _ _ Hv) as [Hid Hok]. destruct (Hok eq_refl) as [Hne Hv1].
  assert (Hblocked : (Allow (env 2%nat).(ev_now) (env 2%nat).(ev_purge) e1.(MarketEvent.EventID)
    h1.(Handler.dedup)).1 = false).
  { rewrite Hd. apply (repeat_within_window_blocked _ _ _ _ _ _ []); [by rewrite Hid|done| |done|done].
    cbn. lia. }
  destruct (duplicate_attempt cfg (env 2%nat) snap e1 h1 Hv1 Hblocked) as (h2 & H2 & Hs2 & Hp2).
  exists h2. split; [|by rewrite Hs2, Hp2].
  unfold consumeNews. rewrite Hv. cbn [maxHandlerRetries attempts].
  assert (Hfirst' : exists h1', HandleEvent cfg (env 1%nat) snap e1 h = (h1', e1, Some ErrNoMarketData) /\
    h1' = h1).
  { exists h1. split; [|done]. revert Hfirst. unfold HandleEvent, EvaluateEvent.
    destruct (ev_holiday _); [done|]. destruct (enforceHours _ && _); [done|]. by rewrite Hv, Hv1. }
  destruct Hfirst' as (h1' & Hf & ->). rewrite Hf, H2. done.
Qed.

(** ** Concrete runs *)

Definition india : Zones := MkZones ist_offset ist_offset.

(** Tuesday 2 January 2024, 09:30 in India, in nanoseconds. *)
Definition sample_now : Z := 1704168000 * second.

Definition sample_env (n : Z) (id : string) : MatchEnv :=
  MkEnv (sample_now + n) id false false false false.

Definition sample_capped : Strategy.t :=
  (sample_strategy "u1" "s1" 1 true
     <| Strategy.Conditions := Conditions.mk false 1 10 [] [] fzero fzero (of_Z 1) (of_Z 5) [] [] fzero fzero |>
     <| Strategy.TradeConfig := (sample_trade <| TradeConfig.StopLossPct := of_Z 1 |>
                                              <| TradeConfig.TakeProfitPct := of_Z 2 |>)%go |>
     <| Strategy.RiskLimits := (sample_limits <| RiskLimits.MaxTradesPerStrategy := 2 |>
                                  <| RiskLimits.MaxAmountPerStock := of_Z 10000 |>)%go |>)%go.

Definition sample_match : RuleMatch.t :=
  RuleMatch.mk "u1" "s1" "n" (Some sample_capped) fzero [] [] false "" 0 "n1" "within_range".

Definition sample_md : MarketDataResult.t :=
  MarketDataResult.mk (of_Z 100) (of_Z 99) (dec 5 2) (of_Z 1) "nse" 2885.

Definition sample_stock (code : Z) : MarketEvent.t :=
  (sample_market_event <| MarketEvent.StockData :=
     StockData.mk code code 0 "NSE" "X" "" "" fzero "Large" |>)%go.

Definition sample_calls : list MatchCall :=
  [MkCall (sample_env 0 "o1") sample_match (sample_stock 1) (Some sample_md);
   MkCall (sample_env 1 "o2") sample_match (sample_stock 1) (Some sample_md);
   MkCall (sample_env 2 "o3") sample_match (sample_stock 2) (Some sample_md);
   MkCall (sample_env 3 "o4") sample_match (sample_stock 3) (Some sample_md)].

Definition sample_handler : Handler.t :=
  Handler.mk (MkStats 0 0 0 0 ∅ ∅) ∅ sample_deduper [] [].

(** Two of the four matches become orders: the second repeats the stock, the
    fourth is above the cap. *)
Example sample_calls_published :
  map (fun o => (o.(OrderRequest.OrderID), o.(OrderRequest.Quantity), o.(OrderRequest.OrderType)))
    (run_calls india sample_calls sample_handler).(Handler.published) =
  [("o1", 97, "LIMIT"); ("o3", 97, "LIMIT")].
Proof. vm_compute. reflexivity. Qed.

(** The save of an order and its publication run side by side: while the saves
    fail, the same stock is published again and again, past the cap. *)
Definition unsaved_calls : list MatchCall :=
  map (fun c => MkCall (MkEnv c.(call_env).(env_now) c.(call_env).(env_uuid) false false true false)
                  sample_match (sample_stock 1) (Some sample_md)) (take 3 sample_calls).

Example unsaved_signals_repeat :
  map (fun o => (o.(OrderRequest.OrderID), o.(OrderRequest.StockCode)))
    (run_calls india unsaved_calls sample_handler).(Handler.published) =
  [("o1", 1); ("o2", 1); ("o3", 1)].
Proof. vm_compute. reflexivity. Qed.



Lemma utc_morning_signal_not_counted_witness :
  counted (MkZones 0 0) "s1" 0 (sample_now + 60 * second)
    (MkSignal (NewOrderRequest "o1" sample_now sample_match sample_market_event sample_capped)
       "PENDING" (wall (MkZones 0 0) sample_now)) = false.
Proof. apply utc_morning_signal_not_counted; vm_compute; reflexivity. Defined.

Definition no_redis (n : Z) (i : nat) : EventEnv :=
  MkEventEnv (sample_now + Z.of_nat i * n) false
    (MkRun (fun _ => 0) (fun _ => seven_conditions) [1%nat; 0%nat] (fun _ => None)) []
    (fun _ => RedisErr) (fun _ => sample_env 0 "o1").

Definition sample_config : HandlerConfig := MkHandlerConfig true DefaultMarketHours india.

Definition unpriced_event : MarketEvent.t :=
  (sample_market_event <| MarketEvent.MarketData :=
     MarketData.mk fzero (of_Z 1) fzero fzero fzero fzero fzero 0 fzero |>)%go.

Lemma failed_event_is_not_retried_witness :
  exists h', consumeNews sample_config (no_redis second) sample_snapshot unpriced_event sample_handler
    = (h', None) /\ h'.(Handler.signals) = [] /\ h'.(Handler.published) = [].
Proof.
  destruct (HandleEvent sample_config (no_redis second 1) sample_snapshot unpriced_event sample_handler)
    as [[h1 e1] r] eqn:E.
  assert (Hr : r = Some ErrNoMarketData).
  { change r with (h1, e1, r).2. rewrite <- E. vm_compute. reflexivity. }
  subst r. apply (failed_event_is_not_retried sample_config (no_redis second) sample_snapshot
    unpriced_event e1 sample_handler h1 E); vm_compute; done.
Defined.
