(* ===== verification/OrderQueries.v ===== *)
(** * The order repository: the other statements

    [trade-execution/internal/repository/order_repository.go] beyond what the OCO
    manager uses, on the same table of orders, together with the two tables
    next to it: the exit levels of multi-level orders and the users' square-off
    times.  A statement is a function of the state of the database; [faults] of
    [OrdersTable] decides which driver call fails.  [created_at] is a
    TIMESTAMPTZ, so its date in India is the Indian date of the instant.  Rows
    of equal [created_at], or of equal [updated_at] where a statement orders by
    it, come in an unspecified order, which [merge_sort] fixes. *)

From stdpp Require Import base gmap strings list fin_maps sorting.
From Stdlib Require Import ZArith Lia.
From S2P Require Import Prelude GoFloat GoStrings GoTime Orders OrderRepo.

Open Scope string_scope.
Open Scope go_scope.

(** ** Reading *)

Definition created_after (a b : Order.t) : Prop := (b.(Order.CreatedAt) <= a.(Order.CreatedAt))%Z.

#[export] Instance created_after_dec : RelDecision created_after.
Proof. intros a b. unfold created_after. apply _. Defined.

(** All rows, in no particular order. *)
Definition all_rows (t : OrdersTable) : list Order.t := (map_to_list t.(rows)).*2.

(** [SELECT * FROM orders WHERE p ORDER BY created_at]. *)
Definition select_asc (failure : string) (p : Order.t -> bool) (t : OrdersTable)
  : OrdersTable * (string + list Order.t) :=
  let '(fails, t) := driver t in
  if fails then (t, inl failure)
  else (t, inr (merge_sort created_before (List.filter p (all_rows t)))).

Definition select_desc (failure : string) (p : Order.t -> bool) (t : OrdersTable)
  : OrdersTable * (string + list Order.t) :=
  let '(fails, t) := driver t in
  if fails then (t, inl failure)
  else (t, inr (merge_sort created_after (List.filter p (all_rows t)))).

(** [ORDER BY updated_at DESC]. *)
Definition updated_after (a b : Order.t) : Prop := (b.(Order.UpdatedAt) <= a.(Order.UpdatedAt))%Z.

#[export] Instance updated_after_dec : RelDecision updated_after.
Proof. intros a b. unfold updated_after. apply _. Defined.

Definition select_recent (failure : string) (p : Order.t -> bool) (t : OrdersTable)
  : OrdersTable * (string + list Order.t) :=
  let '(fails, t) := driver t in
  if fails then (t, inl failure)
  else (t, inr (merge_sort updated_after (List.filter p (all_rows t)))).

Definition is_set {A} (o : option A) : bool := match o with Some _ => true | None => false end.

Definition filled_set : list string := ["FILLED"; "EXECUTED"; "TRADED"].
Definition partial_set : list string := ["PARTIALLY_FILLED"; "PARTIALLY TRADED"; "PARTIALLY EXECUTED"].
Definition in_flight_set : list string := ["RECEIVED"; "PENDING"; "SUBMITTED"] ++ partial_set.

(** [DATE(created_at AT TIME ZONE 'Asia/Kolkata') = DATE(NOW() AT TIME ZONE ...)]. *)
Definition placed_today (now : Z) (o : Order.t) : bool := (today o.(Order.CreatedAt) =? today now)%Z.

(** No row of that id is an error like any other. *)
Definition sqlGetByID (id : uuid) (t : OrdersTable) : OrdersTable * (string + Order.t) :=
  let '(fails, t) := driver t in
  if fails then (t, inl "failed to get order")
  else match t.(rows) !! id with
       | Some o => (t, inr o)
       | None => (t, inl "order not found")
       end.

Definition sqlExistsByID (id : uuid) (t : OrdersTable) : OrdersTable * (string + bool) :=
  let '(fails, t) := driver t in
  if fails then (t, inl "failed to check order existence") else (t, inr (is_set (t.(rows) !! id))).

Definition has_broker_id (id : string) (o : Order.t) : bool :=
  bool_decide (o.(Order.IndiraOrderID) = Some id) || bool_decide (o.(Order.OdinOrderID) = Some id)
  || bool_decide (o.(Order.ExchangeOrderNumber) = Some id).

Definition sqlGetByIndiraOrderID (id : string) (t : OrdersTable) : OrdersTable * (string + Order.t) :=
  let '(fails, t) := driver t in
  if fails then (t, inl "failed to get order by indira_order_id")
  else match List.find (has_broker_id id) (all_rows t) with
       | Some o => (t, inr o)
       | None => (t, inl "order not found with indira_order_id")
       end.

Definition sqlGetUserOrders (userID : string) (limit offset : nat) (t : OrdersTable)
  : OrdersTable * (string + list Order.t) :=
  let '(t, r) := select_desc "failed to get user orders" (fun o => o.(Order.UserID) =?s userID) t in
  (t, match r with inr l => inr (take limit (drop offset l)) | inl e => inl e end).

Definition sqlGetOrdersByStatus (status : string) (limit : nat) (t : OrdersTable)
  : OrdersTable * (string + list Order.t) :=
  let '(t, r) := select_asc "failed to get orders by status" (fun o => o.(Order.Status) =?s status) t in
  (t, match r with inr l => inr (take limit l) | inl e => inl e end).

(** The square-off orders of the day for the position of [o]. *)
Definition squared_off (now : Z) (l : list Order.t) (o : Order.t) : bool :=
  existsb (fun sq => (sq.(Order.UserID) =?s o.(Order.UserID)) && (sq.(Order.Symbol) =?s o.(Order.Symbol))
    && (sq.(Order.StrategyID) =?s o.(Order.StrategyID)) && sq.(Order.IsSquareOffOrder)
    && negb sq.(Order.IsPaperTrade) && placed_today now sq) l.

Definition open_row (now : Z) (l : list Order.t) (o : Order.t) : bool :=
  one_of o.(Order.Status) (filled_set ++ partial_set) && (o.(Order.ProductType) =?s "INTRADAY")
  && negb o.(Order.IsSquareOffOrder) && negb o.(Order.IsPaperTrade)
  && negb (o.(Order.StrategyID) =?s "") && negb (is_set o.(Order.LiveExitPrice))
  && placed_today now o && negb (squared_off now l o).

Definition sqlGetOpenOrders (now : Z) (t : OrdersTable) : OrdersTable * (string + list Order.t) :=
  select_asc "failed to get open orders" (open_row now (all_rows t)) t.

Definition sqlGetOpenOrdersByUser (now : Z) (userID : string) (t : OrdersTable)
  : OrdersTable * (string + list Order.t) :=
  select_asc "failed to get open orders for user"
    (fun o => (o.(Order.UserID) =?s userID) && open_row now (all_rows t) o) t.

Definition trailing_row (o : Order.t) : bool :=
  one_of o.(Order.Status) (filled_set ++ partial_set)
  && bool_decide (o.(Order.StopLossType) = Some "TRAILING")
  && match o.(Order.TrailingSLPct) with Some p => flt fzero p | None => false end
  && negb o.(Order.IsPaperTrade).

Definition sqlGetTrailingStopLossOrders : OrdersTable -> OrdersTable * (string + list Order.t) :=
  select_asc "failed to get trailing stop loss orders" trailing_row.

Definition active_paper_row (o : Order.t) : bool :=
  o.(Order.IsPaperTrade) && negb o.(Order.IsSquareOffOrder)
  && one_of o.(Order.Status) (filled_set ++ partial_set)
  && negb (is_set o.(Order.PaperExitPrice)) && (0 <? o.(Order.FilledQuantity))%Z.

Definition sqlGetAllActivePaperOrders : OrdersTable -> OrdersTable * (string + list Order.t) :=
  select_asc "failed to get active paper orders" active_paper_row.

Definition sqlGetFilledPaperOrdersBySymbol (symbol : string)
  : OrdersTable -> OrdersTable * (string + list Order.t) :=
  select_asc "failed to get paper orders by symbol"
    (fun o => o.(Order.IsPaperTrade) && one_of o.(Order.Status) filled_set
              && negb (is_set o.(Order.PaperExitPrice)) && (o.(Order.Symbol) =?s symbol)).

Definition sqlGetFilledPaperOrdersByUser (userID : string)
  : OrdersTable -> OrdersTable * (string + list Order.t) :=
  select_desc "failed to get user paper positions"
    (fun o => (o.(Order.UserID) =?s userID) && active_paper_row o && is_set o.(Order.FilledPrice)).

Definition sqlGetLiveOrdersByUser (now : Z) (userID : string)
  : OrdersTable -> OrdersTable * (string + list Order.t) :=
  select_desc "failed to get user live orders"
    (fun o => (o.(Order.UserID) =?s userID) && negb o.(Order.IsPaperTrade)
              && one_of o.(Order.Status) (filled_set ++ in_flight_set) && placed_today now o).

Definition sqlGetAllTodayLiveOrdersByUser (now : Z) (userID : string)
  : OrdersTable -> OrdersTable * (string + list Order.t) :=
  select_desc "failed to get all today's live orders"
    (fun o => (o.(Order.UserID) =?s userID) && negb o.(Order.IsPaperTrade) && placed_today now o).

(** Within seven Indian days before today, the first one included. *)
Definition placed_this_week (now : Z) (o : Order.t) : bool :=
  (today now - 7 <=? today o.(Order.CreatedAt))%Z.

Definition sqlGetOpenLivePositionAttributionOrders (now : Z) (userID : string)
  : OrdersTable -> OrdersTable * (string + list Order.t) :=
  select_desc "failed to get open live position attribution orders"
    (fun o => (o.(Order.UserID) =?s userID) && negb o.(Order.IsPaperTrade)
              && (placed_this_week now o || negb (is_set o.(Order.LiveExitPrice)))).

Definition sqlGetClosedLiveOrdersByUser (now : Z) (userID : string)
  : OrdersTable -> OrdersTable * (string + list Order.t) :=
  select_recent "failed to get closed live orders"
    (fun o => (o.(Order.UserID) =?s userID) && negb o.(Order.IsPaperTrade)
              && (is_set o.(Order.LiveExitPrice)
                  || one_of o.(Order.Status) ["CANCELLED"; "REJECTED"; "FAILED"])
              && placed_today now o).

Definition pending_monitor_row (o : Order.t) : bool :=
  one_of o.(Order.Status) ["RECEIVED"; "PENDING"] && (o.(Order.OrderType) =?s OrderTypeStopLoss)
  && one_of o.(Order.ProductType) ["BRACKET"; "BRACKET_ORDER"; "BO"]
  && negb o.(Order.IsPaperTrade) && negb (is_set o.(Order.IndiraOrderID)).

Definition sqlGetPendingMonitorOrders : OrdersTable -> OrdersTable * (string + list Order.t) :=
  select_asc "failed to get pending monitor orders" pending_monitor_row.

(** The rows of one strategy of one user. *)
Definition of_strategy (strategyID userID : string) (o : Order.t) : bool :=
  (o.(Order.StrategyID) =?s strategyID) && (o.(Order.UserID) =?s userID).

Definition not_dead (o : Order.t) : bool :=
  negb (one_of o.(Order.Status) ["CANCELLED"; "REJECTED"; "A.REJECTED"]).

Definition sqlGetActiveOrdersByStrategy (strategyID userID : string)
  : OrdersTable -> OrdersTable * (string + list Order.t) :=
  select_asc "failed to get active orders for strategy"
    (fun o => of_strategy strategyID userID o && not_dead o).

Definition sqlGetFilledLiveOrdersByStrategy (now : Z) (strategyID userID : string)
  : OrdersTable -> OrdersTable * (string + list Order.t) :=
  select_desc "failed to get filled live orders for strategy"
    (fun o => of_strategy strategyID userID o && negb o.(Order.IsPaperTrade)
              && one_of o.(Order.Status) filled_set && negb (is_set o.(Order.LiveExitPrice))
              && negb o.(Order.IsSquareOffOrder) && placed_today now o).

Definition sqlGetExitablePaperOrdersByStrategy (strategyID userID : string)
  : OrdersTable -> OrdersTable * (string + list Order.t) :=
  select_desc "failed to get exitable paper orders for strategy"
    (fun o => of_strategy strategyID userID o && o.(Order.IsPaperTrade) && is_set o.(Order.FilledPrice)
              && negb (is_set o.(Order.PaperExitPrice))).

Definition exitable_live_row (now : Z) (o : Order.t) : bool :=
  negb o.(Order.IsPaperTrade) && is_set o.(Order.FilledPrice) && negb (is_set o.(Order.LiveExitPrice))
  && negb o.(Order.IsSquareOffOrder) && placed_today now o.

Definition sqlGetExitableLiveOrdersByStrategy (now : Z) (strategyID userID : string)
  : OrdersTable -> OrdersTable * (string + list Order.t) :=
  select_desc "failed to get exitable live orders for strategy"
    (fun o => of_strategy strategyID userID o && exitable_live_row now o).

Definition sqlGetExitableLiveOrdersByUser (now : Z) (userID : string)
  : OrdersTable -> OrdersTable * (string + list Order.t) :=
  select_desc "failed to get exitable live orders for user"
    (fun o => (o.(Order.UserID) =?s userID) && exitable_live_row now o && (0 <? o.(Order.FilledQuantity))%Z).

Definition sqlGetOCOGroupOrders (groupID : uuid) : OrdersTable -> OrdersTable * (string + list Order.t) :=
  select_asc "failed to get OCO group orders" (fun o => bool_decide (o.(Order.OCOGroupID) = Some groupID)).

Definition reconcile_row (now maxAgeHours minAgeSeconds : Z) (o : Order.t) : bool :=
  let maxAgeHours := if (maxAgeHours <=? 0)%Z then 24%Z else maxAgeHours in
  let minAgeSeconds := if (minAgeSeconds <=? 0)%Z then 30%Z else minAgeSeconds in
  negb o.(Order.IsPaperTrade)
  && match o.(Order.IndiraOrderID) with Some id => negb (id =?s "") | None => false end
  && one_of o.(Order.Status) in_flight_set
  && (now - maxAgeHours * 3600 * second <=? o.(Order.CreatedAt))%Z
  && (o.(Order.UpdatedAt) <=? now - minAgeSeconds * second)%Z.

Definition sqlGetReconciliationCandidates (now maxAgeHours minAgeSeconds : Z)
  : OrdersTable -> OrdersTable * (string + list Order.t) :=
  select_desc "failed to get reconciliation candidates" (reconcile_row now maxAgeHours minAgeSeconds).

(** [SELECT DISTINCT user_id]. *)
Definition select_users (failure : string) (p : Order.t -> bool) (t : OrdersTable)
  : OrdersTable * (string + list string) :=
  let '(fails, t) := driver t in
  if fails then (t, inl failure)
  else (t, inr (remove_dups (map Order.UserID (List.filter p (all_rows t))))).

Definition sqlGetDistinctActiveUserIDs : OrdersTable -> OrdersTable * (string + list string) :=
  select_users "failed to get distinct active user IDs"
    (fun o => negb o.(Order.IsPaperTrade)
              && negb (one_of o.(Order.Status) ["CANCELLED"; "REJECTED"; "A.REJECTED"; "FAILED"])).

Definition live_exposure_row (now : Z) (o : Order.t) : bool :=
  negb o.(Order.IsPaperTrade) && placed_this_week now o
  && (one_of o.(Order.Status) in_flight_set
      || one_of o.(Order.Status) filled_set && negb (is_set o.(Order.LiveExitPrice))
         && negb o.(Order.IsSquareOffOrder)).

Definition sqlGetUsersWithLiveExposure (now : Z) : OrdersTable -> OrdersTable * (string + list string) :=
  select_users "failed to get users with live exposure" (live_exposure_row now).

(** ** Writing *)

(** [UPDATE orders SET f WHERE p]. *)
Definition update_where (p : Order.t -> bool) (f : Order.t -> Order.t) (t : OrdersTable) : OrdersTable :=
  mkTable ((fun o => if p o then f o else o) <$> t.(rows)) t.(faults).

Definition sqlUpdateWhere (failure : string) (p : Order.t -> bool) (f : Order.t -> Order.t)
    (t : OrdersTable) : OrdersTable * option string :=
  let '(fails, t) := driver t in
  if fails then (t, Some failure) else (update_where p f t, None).

Definition sqlUpdateStatus (now : Z) (id : uuid) (status : string)
  : OrdersTable -> OrdersTable * option string :=
  sqlUpdateRow "failed to update order status" id
    (fun o => o <| Order.Status := status |> <| Order.UpdatedAt := now |>).

(** A row that is exited already is left alone, which is no error. *)
Definition sqlUpdatePaperTradeExit (now : Z) (id : uuid) (exitPrice pnl : f64)
  : OrdersTable -> OrdersTable * option string :=
  sqlUpdateWhere "failed to update paper trade exit"
    (fun o => bool_decide (o.(Order.OrderID) = id) && negb (is_set o.(Order.PaperExitPrice)))
    (fun o => o <| Order.Status := StatusCancelled |> <| Order.PaperExitPrice := Some exitPrice |>
                <| Order.PaperPnL := Some pnl |> <| Order.PaperExitTime := Some now |>
                <| Order.UpdatedAt := now |>).

Definition sqlUpdatePaperExitPrice (now : Z) (id : uuid) (exitPrice pnl : f64)
  : OrdersTable -> OrdersTable * option string :=
  sqlUpdateWhere "failed to update paper exit price"
    (fun o => bool_decide (o.(Order.OrderID) = id) && o.(Order.IsPaperTrade)
              && negb (is_set o.(Order.PaperExitPrice)))
    (fun o => o <| Order.PaperExitPrice := Some exitPrice |> <| Order.PaperPnL := Some pnl |>
                <| Order.PaperExitTime := Some now |> <| Order.UpdatedAt := now |>).

Definition sqlUpdateLiveTradeExit (now : Z) (id : uuid) (exitPrice pnl : f64)
  : OrdersTable -> OrdersTable * option string :=
  sqlUpdateWhere "failed to update live trade exit"
    (fun o => bool_decide (o.(Order.OrderID) = id) && negb (is_set o.(Order.LiveExitPrice)))
    (fun o => o <| Order.Status := StatusCancelled |> <| Order.LiveExitPrice := Some exitPrice |>
                <| Order.LivePnL := Some pnl |> <| Order.LiveExitTime := Some now |>
                <| Order.RejectionReason := Some "Force exit by user" |> <| Order.UpdatedAt := now |>).

(** No such row is an error here. *)
Definition sqlUpdatePaperPositionFilledQty (now : Z) (id : uuid) (remainingQty : Z) (t : OrdersTable)
  : OrdersTable * option string :=
  let '(fails, t) := driver t in
  if fails then (t, Some "failed to update paper position filled_quantity")
  else match t.(rows) !! id with
       | Some o =>
           if o.(Order.IsPaperTrade) && negb o.(Order.IsSquareOffOrder) then
             (mkTable (<[id := o <| Order.FilledQuantity := remainingQty |>
                                 <| Order.UpdatedAt := now |>]> t.(rows)) t.(faults), None)
           else (t, Some "paper entry order not found")
       | None => (t, Some "paper entry order not found")
       end.

Definition sqlUpdateTrailingSL (now : Z) (id : uuid) (newSL : f64)
  : OrdersTable -> OrdersTable * option string :=
  sqlUpdateWhere "failed to update trailing SL" (fun o => bool_decide (o.(Order.OrderID) = id))
    (fun o => o <| Order.StopLoss := Some newSL |> <| Order.UpdatedAt := now |>).

Definition sqlCancelAllLiveOrdersByUser (now : Z) (userID : string)
  : OrdersTable -> OrdersTable * option string :=
  sqlUpdateWhere "failed to cancel live orders for user"
    (fun o => (o.(Order.UserID) =?s userID) && negb o.(Order.IsPaperTrade)
              && negb o.(Order.IsSquareOffOrder)
              && one_of o.(Order.Status) ["FILLED"; "PARTIALLY_FILLED"; "RECEIVED"; "PENDING"; "SUBMITTED"])
    (fun o => o <| Order.Status := StatusCancelled |>
                <| Order.RejectionReason := Some "Force exit by user" |> <| Order.UpdatedAt := now |>).

(** The first statement of [CancelAllOrdersByStrategy]; a filled paper order that
    has no exit yet is exited at its fill price with no profit. *)
Definition cancelled_with_strategy (now : Z) (o : Order.t) : Order.t :=
  let filled := o.(Order.IsPaperTrade) && is_set o.(Order.FilledPrice) in
  let keep {A} (old new : option A) := match old with
                                       | None => if filled then new else old
                                       | _ => old
                                       end in
  o <| Order.Status := StatusCancelled |>
    <| Order.RejectionReason := Some "Strategy deactivated or deleted" |>
    <| Order.PaperExitPrice := keep o.(Order.PaperExitPrice) o.(Order.FilledPrice) |>
    <| Order.PaperPnL := keep o.(Order.PaperPnL) (Some fzero) |>
    <| Order.PaperExitTime := keep o.(Order.PaperExitTime) (Some now) |>
    <| Order.UpdatedAt := now |>.

Definition sqlCancelOrdersOfStrategy (now : Z) (strategyID userID : string)
  : OrdersTable -> OrdersTable * option string :=
  sqlUpdateWhere "failed to cancel orders for strategy"
    (fun o => of_strategy strategyID userID o && not_dead o) (cancelled_with_strategy now).

(** [CreatePaperPartialExit] lists other columns than [Create]. *)
Definition partial_exit_row (o : Order.t) : Order.t :=
  Order.zero
    <| Order.OrderID := o.(Order.OrderID) |> <| Order.UserID := o.(Order.UserID) |>
    <| Order.StrategyID := o.(Order.StrategyID) |> <| Order.StrategyName := o.(Order.StrategyName) |>
    <| Order.EventID := o.(Order.EventID) |> <| Order.StockCode := o.(Order.StockCode) |>
    <| Order.Exchange := o.(Order.Exchange) |> <| Order.Symbol := o.(Order.Symbol) |>
    <| Order.OrderType := o.(Order.OrderType) |> <| Order.OrderSide := o.(Order.OrderSide) |>
    <| Order.Quantity := o.(Order.Quantity) |> <| Order.Price := o.(Order.Price) |>
    <| Order.Validity := o.(Order.Validity) |> <| Order.ProductType := o.(Order.ProductType) |>
    <| Order.Status := o.(Order.Status) |> <| Order.RiskApproved := o.(Order.RiskApproved) |>
    <| Order.IsPaperTrade := o.(Order.IsPaperTrade) |> <| Order.TradingMode := o.(Order.TradingMode) |>
    <| Order.FilledQuantity := o.(Order.FilledQuantity) |>
    <| Order.FilledPrice := o.(Order.FilledPrice) |>
    <| Order.PaperExitPrice := o.(Order.PaperExitPrice) |> <| Order.PaperPnL := o.(Order.PaperPnL) |>
    <| Order.IsSquareOffOrder := o.(Order.IsSquareOffOrder) |>
    <| Order.IndiraOrderID := o.(Order.IndiraOrderID) |> <| Order.SubmittedAt := o.(Order.SubmittedAt) |>
    <| Order.ExecutedAt := o.(Order.ExecutedAt) |> <| Order.CreatedAt := o.(Order.CreatedAt) |>
    <| Order.UpdatedAt := o.(Order.UpdatedAt) |>.

Definition sqlCreatePaperPartialExit (o : Order.t) (t : OrdersTable) : OrdersTable * option string :=
  let '(fails, t) := driver t in
  if fails then (t, Some "failed to create paper partial exit")
  else match t.(rows) !! o.(Order.OrderID) with
       | Some _ => (t, Some "failed to create paper partial exit")
       | None => (mkTable (<[o.(Order.OrderID) := partial_exit_row o]> t.(rows)) t.(faults), None)
       end.

(** ** The exit levels of multi-level orders *)

Module MLRow.
Record t : Type := mk {
  PricePct : f64;
  QtyPct : f64;
  TriggerPrice : option f64;
  ExitQty : option Z;
  OriginalExitQty : option Z;
  Status : string;
  ExitOrderID : option uuid;
  BrokerOrderID : option string;
  TriggeredAt : option Z;
  ExitPrice : option f64;
  RebalancedAt : option Z;
  RebalanceReason : option string
}.
#[global] Instance eta_mlrow : Eta t := fun r =>
  mk r.(PricePct) r.(QtyPct) r.(TriggerPrice) r.(ExitQty) r.(OriginalExitQty) r.(Status)
     r.(ExitOrderID) r.(BrokerOrderID) r.(TriggeredAt) r.(ExitPrice) r.(RebalancedAt)
     r.(RebalanceReason).
End MLRow.

Definition MLStatusPending := "PENDING".
Definition MLStatusActive := "ACTIVE".
Definition MLStatusTriggered := "TRIGGERED".
Definition MLStatusCancelled := "CANCELLED".
Definition MLExitTypeSL := "SL".
Definition MLExitTypeTP := "TP".

(** Entry order, exit type, level number: the unique key of the table. *)
Abbreviation LevelKey := (uuid * string * Z)%type.
Abbreviation LevelsTable := (gmap LevelKey MLRow.t).

Definition sqlUpsertLevel (k : LevelKey) (pricePct qtyPct : f64) (trigger : option f64) (qty : option Z)
    (status : string) (t : LevelsTable) : LevelsTable :=
  match t !! k with
  | None => <[k := MLRow.mk pricePct qtyPct trigger qty qty status None None None None None None]> t
  | Some r =>
      <[k := r <| MLRow.TriggerPrice := trigger |> <| MLRow.ExitQty := qty |>
               <| MLRow.OriginalExitQty :=
                    match r.(MLRow.OriginalExitQty) with None => qty | q => q end |>
               <| MLRow.Status := status |>]> t
  end.

Definition sqlUpdateLevelStatus (now : Z) (k : LevelKey) (status : string) (exitPrice : f64)
    (t : LevelsTable) : LevelsTable :=
  let triggered := status =?s MLStatusTriggered in
  alter (fun r => r <| MLRow.Status := status |>
                    <| MLRow.TriggeredAt := if triggered then Some now else None |>
                    <| MLRow.ExitPrice := if triggered then Some exitPrice else None |>) k t.

Definition sqlUpdateLevelBrokerID (k : LevelKey) (brokerOrderID : string) (exitOrderID : uuid)
    (t : LevelsTable) : LevelsTable :=
  alter (fun r => r <| MLRow.BrokerOrderID := Some brokerOrderID |>
                    <| MLRow.ExitOrderID := Some exitOrderID |>
                    <| MLRow.Status := MLStatusActive |>) k t.

Definition sqlUpdateLevelRebalancedQty (now : Z) (k : LevelKey) (originalQty newQty : Z)
    (reason : string) (t : LevelsTable) : LevelsTable :=
  alter (fun r => r <| MLRow.ExitQty := Some newQty |>
                    <| MLRow.OriginalExitQty :=
                         match r.(MLRow.OriginalExitQty) with None => Some originalQty | q => q end |>
                    <| MLRow.RebalancedAt := Some now |>
                    <| MLRow.RebalanceReason := Some reason |>) k t.

(** [ORDER BY exit_type, level_num]: stop-losses first. *)
Definition level_before (a b : LevelKey * MLRow.t) : Prop :=
  string_lt a.1.1.2 b.1.1.2 \/ a.1.1.2 = b.1.1.2 /\ (a.1.2 <= b.1.2)%Z.

#[export] Instance string_lt_dec s t : Decision (string_lt s t).
Proof. unfold string_lt. solve_decision. Defined.

#[export] Instance level_before_dec : RelDecision level_before.
Proof. intros a b. unfold level_before. apply _. Defined.

Definition sqlGetLevels (entryOrderID : uuid) (t : LevelsTable) : list (LevelKey * MLRow.t) :=
  merge_sort level_before
    (List.filter (fun kr => bool_decide (kr.1.1.1 = entryOrderID)) (map_to_list t)).

(** The second statement of [CancelAllOrdersByStrategy]. *)
Definition sqlCancelLevelsOfStrategy (strategyID userID : string) (orders : OrdersTable)
    (t : LevelsTable) : LevelsTable :=
  map_imap (fun k r =>
    match orders.(rows) !! k.1.1 with
    | Some o => if of_strategy strategyID userID o
                   && one_of r.(MLRow.Status) [MLStatusPending; MLStatusActive]
                then Some (r <| MLRow.Status := MLStatusCancelled |>) else Some r
    | None => Some r
    end) t.

Definition active_level (k : LevelKey) (r : MLRow.t) (id : uuid) : bool :=
  bool_decide (k.1.1 = id) && one_of r.(MLRow.Status) [MLStatusPending; MLStatusActive].

Definition sqlGetActiveMLEntries (levels : LevelsTable)
  : OrdersTable -> OrdersTable * (string + list Order.t) :=
  select_desc "failed to get active ML entries"
    (fun o => negb o.(Order.IsPaperTrade) && negb o.(Order.IsSquareOffOrder)
              && one_of o.(Order.Status) filled_set && negb (is_set o.(Order.LiveExitPrice))
              && existsb (fun kr => active_level kr.1 kr.2 o.(Order.OrderID)) (map_to_list levels)).

Definition sqlGetClosedPaperOrdersByUser (userID : string) (levels : LevelsTable)
  : OrdersTable -> OrdersTable * (string + list Order.t) :=
  select_recent "failed to get closed paper orders"
    (fun o => (o.(Order.UserID) =?s userID) && o.(Order.IsPaperTrade)
              && (is_set o.(Order.PaperExitPrice)
                  || negb o.(Order.IsSquareOffOrder)
                     && existsb (fun kr => bool_decide (kr.1.1.1 = o.(Order.OrderID))
                                           && (kr.2.(MLRow.Status) =?s MLStatusTriggered))
                          (map_to_list levels))).

(** ** Square-off times *)

(** [user_square_off_config]: the time "HH:MM" and whether it is enabled. *)
Abbreviation SquareOffTable := (gmap string (string * bool)).

Definition sqlUpsertUserSquareOffConfig (userID squareOffTime : string) (enabled : bool)
    (t : SquareOffTable) : SquareOffTable := <[userID := (squareOffTime, enabled)]> t.

Definition sqlGetUserSquareOffConfig (userID : string) (t : SquareOffTable) : string * bool :=
  default ("", false) (t !! userID).

Definition sqlUsersWithAutoSquareOffAtTime (timeStr : string) (t : SquareOffTable) : list string :=
  (List.filter (fun kv => (kv.2.1 =?s timeStr) && kv.2.2) (map_to_list t)).*1.

(** Strings are compared in byte order. *)
Definition sqlUsersWithExpiredAutoSquareOff (beforeTime : string) (t : SquareOffTable) : list string :=
  (List.filter (fun kv => kv.2.2 && bool_decide (string_le kv.2.1 beforeTime)) (map_to_list t)).*1.

(** The rows [BackfillTodaySquareOffConfig] reads, the newest of a user first. *)
Definition backfill_rows (now : Z) (orders : OrdersTable) : list Order.t :=
  merge_sort created_after (List.filter (fun o =>
    match o.(Order.AutoSquareOffTime) with
    | Some s => negb (s =?s "") && placed_today now o
    | None => false
    end) (all_rows orders)).

(** The new table and the number of users inserted. *)
Definition sqlBackfillTodaySquareOffConfig (now : Z) (orders : OrdersTable) (t : SquareOffTable)
  : SquareOffTable * nat :=
  let t' := foldl (fun t o => match t !! o.(Order.UserID), o.(Order.AutoSquareOffTime) with
                              | None, Some s => <[o.(Order.UserID) := (s, true)]> t
                              | _, _ => t
                              end) t (backfill_rows now orders) in
  (t', map_size t' - map_size t)%nat.

(** ** What the statements never write *)

(** The statements that write the table of orders. *)
Inductive Statement : Type :=
  | SCreate (o : Order.t)
  | SUpdate (o : Order.t)
  | SUpdateOCOTag (id gid : uuid) (role : string)
  | SUpdateStatus (id : uuid) (status : string)
  | SPaperTradeExit (id : uuid) (exitPrice pnl : f64)
  | SPaperExitPrice (id : uuid) (exitPrice pnl : f64)
  | SLiveTradeExit (id : uuid) (exitPrice pnl : f64)
  | SPaperFilledQty (id : uuid) (qty : Z)
  | STrailingSL (id : uuid) (newSL : f64)
  | SCancelLiveOfUser (userID : string)
  | SCancelOfStrategy (strategyID userID : string)
  | SPaperPartialExit (o : Order.t).

Definition runStatement (now : Z) (s : Statement) (t : OrdersTable) : OrdersTable * option string :=
  match s with
  | SCreate o => sqlCreate o t
  | SUpdate o => sqlUpdate now o t
  | SUpdateOCOTag id gid role => sqlUpdateOCOTag now id gid role t
  | SUpdateStatus id status => sqlUpdateStatus now id status t
  | SPaperTradeExit id p pnl => sqlUpdatePaperTradeExit now id p pnl t
  | SPaperExitPrice id p pnl => sqlUpdatePaperExitPrice now id p pnl t
  | SLiveTradeExit id p pnl => sqlUpdateLiveTradeExit now id p pnl t
  | SPaperFilledQty id qty => sqlUpdatePaperPositionFilledQty now id qty t
  | STrailingSL id sl => sqlUpdateTrailingSL now id sl t
  | SCancelLiveOfUser u => sqlCancelAllLiveOrdersByUser now u t
  | SCancelOfStrategy s u => sqlCancelOrdersOfStrategy now s u t
  | SPaperPartialExit o => sqlCreatePaperPartialExit o t
  end.

(** Statements with the instants they ran at. *)
Definition runStatements (l : list (Z * Statement)) (t : OrdersTable) : OrdersTable :=
  foldl (fun t s => (runStatement s.1 s.2 t).1) t l.

(** A statement rewrites some rows by a function or inserts a row. *)
Lemma sqlUpdateRow_rows failure id f t :
  (sqlUpdateRow failure id f t).1.(rows) = t.(rows) \/
  (sqlUpdateRow failure id f t).1.(rows) = alter f id t.(rows).
Proof.
  unfold sqlUpdateRow, driver. destruct t as [r [|[] bs]]; cbn; auto;
    destruct (r !! id) eqn:E; cbn; auto; right; apply map_eq; intros i;
    (destruct (decide (i = id)) as [-> | Hne];
     [by rewrite lookup_insert_eq, lookup_alter_eq, E
     |by rewrite lookup_insert_ne, lookup_alter_ne by done]).
Qed.

Lemma sqlUpdateWhere_rows failure p f t :
  (sqlUpdateWhere failure p f t).1.(rows) = t.(rows) \/
  (sqlUpdateWhere failure p f t).1.(rows) = (fun o => if p o then f o else o) <$> t.(rows).
Proof. unfold sqlUpdateWhere, driver. destruct t as [r [|[] bs]]; cbn; auto. Qed.

Lemma sqlCreate_rows o t :
  (sqlCreate o t).1.(rows) = t.(rows) \/
  t.(rows) !! o.(Order.OrderID) = None /\
  (sqlCreate o t).1.(rows) = <[o.(Order.OrderID) := inserted_row o]> t.(rows).
Proof.
  unfold sqlCreate, driver. destruct t as [r [|[] bs]]; cbn -[inserted_row]; auto;
    destruct (r !! o.(Order.OrderID)) eqn:E; auto.
Qed.

Lemma sqlCreatePaperPartialExit_rows o t :
  (sqlCreatePaperPartialExit o t).1.(rows) = t.(rows) \/
  t.(rows) !! o.(Order.OrderID) = None /\
  (sqlCreatePaperPartialExit o t).1.(rows) = <[o.(Order.OrderID) := partial_exit_row o]> t.(rows).
Proof.
  unfold sqlCreatePaperPartialExit, driver. destruct t as [r [|[] bs]]; cbn -[partial_exit_row]; auto;
    destruct (r !! o.(Order.OrderID)) eqn:E; auto.
Qed.

Lemma sqlUpdatePaperPositionFilledQty_rows now id qty t :
  (sqlUpdatePaperPositionFilledQty now id qty t).1.(rows) = t.(rows) \/
  exists o, t.(rows) !! id = Some o /\
    (sqlUpdatePaperPositionFilledQty now id qty t).1.(rows) =
      <[id := o <| Order.FilledQuantity := qty |> <| Order.UpdatedAt := now |>]> t.(rows).
Proof.
  unfold sqlUpdatePaperPositionFilledQty, driver. destruct t as [r [|[] bs]]; cbn; auto;
    destruct (r !! id) as [o|] eqn:E; auto; destruct (_ && _); auto; right; by exists o.
Qed.

(** A property of single rows that every inserted row has and every rewriting
    keeps holds of every row. *)
Section RowProperty.

Variable P : Order.t -> Prop.
Hypothesis P_insert : forall o, P (inserted_row o).
Hypothesis P_partial : forall o, P (partial_exit_row o).
Hypothesis P_update : forall now o row, P row -> P (updated_row now o row).
Hypothesis P_tag : forall now gid role row, P row ->
  P (row <| Order.OCOGroupID := Some gid |> <| Order.OCORole := Some role |> <| Order.UpdatedAt := now |>).
Hypothesis P_status : forall now s row, P row ->
  P (row <| Order.Status := s |> <| Order.UpdatedAt := now |>).
Hypothesis P_sl : forall now sl row, P row ->
  P (row <| Order.StopLoss := Some sl |> <| Order.UpdatedAt := now |>).
Hypothesis P_qty : forall now q row, P row ->
  P (row <| Order.FilledQuantity := q |> <| Order.UpdatedAt := now |>).
Hypothesis P_paper_exit : forall now p pnl row, P row -> is_set row.(Order.PaperExitPrice) = false ->
  P (row <| Order.Status := StatusCancelled |> <| Order.PaperExitPrice := Some p |>
         <| Order.PaperPnL := Some pnl |> <| Order.PaperExitTime := Some now |>
         <| Order.UpdatedAt := now |>).
Hypothesis P_paper_price : forall now p pnl row, P row -> is_set row.(Order.PaperExitPrice) = false ->
  P (row <| Order.PaperExitPrice := Some p |> <| Order.PaperPnL := Some pnl |>
         <| Order.PaperExitTime := Some now |> <| Order.UpdatedAt := now |>).
Hypothesis P_live_exit : forall now p pnl row, P row -> is_set row.(Order.LiveExitPrice) = false ->
  P (row <| Order.Status := StatusCancelled |> <| Order.LiveExitPrice := Some p |>
         <| Order.LivePnL := Some pnl |> <| Order.LiveExitTime := Some now |>
         <| Order.RejectionReason := Some "Force exit by user" |> <| Order.UpdatedAt := now |>).
Hypothesis P_cancel_live : forall now row, P row ->
  P (row <| Order.Status := StatusCancelled |>
         <| Order.RejectionReason := Some "Force exit by user" |> <| Order.UpdatedAt := now |>).
Hypothesis P_cancel : forall now row, P row -> P (cancelled_with_strategy now row).

Definition all_P (t : OrdersTable) : Prop := map_Forall (fun _ o => P o) t.(rows).

Lemma all_P_insert id o t : all_P t -> P o -> map_Forall (fun _ o => P o) (<[id := o]> t.(rows)).
Proof. intros Ht Ho. by apply map_Forall_insert_2. Qed.

Lemma all_P_row failure id f t :
  (forall row, P row -> P (f row)) -> all_P t -> all_P (sqlUpdateRow failure id f t).1.
Proof.
  intros Hf Ht. unfold all_P. destruct (sqlUpdateRow_rows failure id f t) as [-> | ->]; [done|].
  intros i o. rewrite lookup_alter_Some. intros [(-> & r & Hr & ->) | [_ Ho]]; [|by eapply Ht].
  apply Hf. by eapply Ht.
Qed.

Lemma all_P_where failure p f t :
  (forall row, P row -> p row = true -> P (f row)) -> all_P t -> all_P (sqlUpdateWhere failure p f t).1.
Proof.
  intros Hf Ht. unfold all_P. destruct (sqlUpdateWhere_rows failure p f t) as [-> | ->]; [done|].
  intros i o. rewrite lookup_fmap_Some. intros (r & <- & Hr).
  pose proof (Ht _ _ Hr). cbn in *. destruct (p r) eqn:E; auto.
Qed.

Lemma all_P_statement now s t : all_P t -> all_P (runStatement now s t).1.
Proof.
  intros Ht. destruct s; cbn [runStatement];
    try (apply all_P_row; [by auto|done]);
    try (apply all_P_where; [intros row Hrow Hp; bool_to_prop; by auto|done]).
  - unfold all_P. destruct (sqlCreate_rows o t) as [-> | [_ ->]]; [done|]. by apply all_P_insert.
  - unfold all_P. destruct (sqlUpdatePaperPositionFilledQty_rows now id qty t) as [-> | (o & Ho & ->)];
      [done|]. apply all_P_insert; [done|]. apply P_qty. by eapply Ht.
  - unfold all_P. destruct (sqlCreatePaperPartialExit_rows o t) as [-> | [_ ->]]; [done|].
    by apply all_P_insert.
Qed.

Lemma all_P_statements l t : all_P t -> all_P (runStatements l t).
Proof.
  revert t. induction l as [|[now s] l IH]; intros t Ht; [done|]. cbn. apply IH. by apply all_P_statement.
Qed.

End RowProperty.

(** The columns no statement lists. *)
Definition columns_unset (o : Order.t) : Prop :=
  o.(Order.AutoSquareOffTime) = None /\ o.(Order.MaxMonitorPrice) = None.

Lemma columns_unset_statements l t :
  map_Forall (fun _ o => columns_unset o) t.(rows) ->
  map_Forall (fun _ o => columns_unset o) (runStatements l t).(rows).
Proof. apply all_P_statements; by intros; unfold columns_unset in *. Qed.

(** ** An exit is recorded once *)

(** A rewriting keeps what a row records about a finished paper trade. *)
Definition keeps_exit (p : Order.t -> bool) (f : Order.t -> Order.t) : Prop :=
  forall o, is_set o.(Order.PaperExitPrice) = true -> p o = true ->
    (f o).(Order.PaperExitPrice) = o.(Order.PaperExitPrice) /\
    (o.(Order.PaperPnL) <> None -> (f o).(Order.PaperPnL) = o.(Order.PaperPnL)).

Lemma row_keeps_exit failure id f (t : OrdersTable) i o :
  keeps_exit (fun _ => true) f -> t.(rows) !! i = Some o -> is_set o.(Order.PaperExitPrice) = true ->
  exists o', (sqlUpdateRow failure id f t).1.(rows) !! i = Some o' /\
    o'.(Order.PaperExitPrice) = o.(Order.PaperExitPrice) /\
    (o.(Order.PaperPnL) <> None -> o'.(Order.PaperPnL) = o.(Order.PaperPnL)).
Proof.
  intros Hf Hi Ho. destruct (sqlUpdateRow_rows failure id f t) as [-> | ->]; [eauto|].
  destruct (decide (i = id)) as [-> | Hne].
  - rewrite lookup_alter_eq, Hi. cbn. eexists. split; [done|]. by apply Hf.
  - rewrite lookup_alter_ne by done. eauto.
Qed.

Lemma where_keeps_exit failure p f (t : OrdersTable) i o :
  keeps_exit p f -> t.(rows) !! i = Some o -> is_set o.(Order.PaperExitPrice) = true ->
  exists o', (sqlUpdateWhere failure p f t).1.(rows) !! i = Some o' /\
    o'.(Order.PaperExitPrice) = o.(Order.PaperExitPrice) /\
    (o.(Order.PaperPnL) <> None -> o'.(Order.PaperPnL) = o.(Order.PaperPnL)).
Proof.
  intros Hf Hi Ho. destruct (sqlUpdateWhere_rows failure p f t) as [-> | ->]; [eauto|].
  rewrite lookup_fmap, Hi. cbn. eexists. split; [done|]. destruct (p o) eqn:E; [|done]. by apply Hf.
Qed.

Lemma cancelled_keeps_exit now s u :
  keeps_exit (fun o => of_strategy s u o && not_dead o) (cancelled_with_strategy now).
Proof.
  intros o Ho _. unfold cancelled_with_strategy. cbn.
  destruct (Order.PaperExitPrice o); [|done]. split; [done|]. by destruct (Order.PaperPnL o).
Qed.

Lemma statement_keeps_exit now s (t : OrdersTable) i o :
  t.(rows) !! i = Some o -> is_set o.(Order.PaperExitPrice) = true ->
  exists o', (runStatement now s t).1.(rows) !! i = Some o' /\
    o'.(Order.PaperExitPrice) = o.(Order.PaperExitPrice) /\
    (o.(Order.PaperPnL) <> None -> o'.(Order.PaperPnL) = o.(Order.PaperPnL)).
Proof.
  intros Hi Ho. destruct s as [x|x|x g r|x st|x p pnl|x p pnl|x p pnl|x qty|x sl|u|s u|x];
    cbn [runStatement];
    try (apply row_keeps_exit; [by intros ?|done|done]);
    try (apply where_keeps_exit; [intros y Hy Hp; cbn in Hp; bool_to_prop; congruence || done|done|done]).
  - destruct (sqlCreate_rows x t) as [-> | [Hn ->]]; [eauto|].
    rewrite lookup_insert_ne by congruence. eauto.
  - destruct (sqlUpdatePaperPositionFilledQty_rows now x qty t) as [-> | (y & Hy & ->)]; [eauto|].
    destruct (decide (i = x)) as [-> | Hne].
    + rewrite lookup_insert_eq. simplify_eq. eauto.
    + rewrite lookup_insert_ne by done. eauto.
  - apply where_keeps_exit; [apply cancelled_keeps_exit|done|done].
  - destruct (sqlCreatePaperPartialExit_rows x t) as [-> | [Hn ->]]; [eauto|].
    rewrite lookup_insert_ne by congruence. eauto.
Qed.

(** C10: Once a paper position is exited, no later statement changes its exit
    price or the profit recorded with it: the first exit wins, whatever a stop
    loss, a take profit, a forced exit, the square-off and the end of the
    strategy do afterwards. *)
Theorem first_exit_wins (l : list (Z * Statement)) (t : OrdersTable) (id : uuid) (o : Order.t)
    (exitPrice pnl : f64)
    (Hrow : t.(rows) !! id = Some o)
    (Hexit : o.(Order.PaperExitPrice) = Some exitPrice) (Hpnl : o.(Order.PaperPnL) = Some pnl) :
  exists o', (runStatements l t).(rows) !! id = Some o' /\
    o'.(Order.PaperExitPrice) = Some exitPrice /\ o'.(Order.PaperPnL) = Some pnl.
Proof.
  revert t o Hrow Hexit Hpnl. induction l as [|[now s] l IH]; intros t o Hrow Hexit Hpnl; [eauto|].
  cbn. destruct (statement_keeps_exit now s t id o Hrow) as (o' & Ho' & He & Hp).
  { by rewrite Hexit. }
  apply (IH _ o'); [done|by rewrite He|rewrite Hp; [done|by rewrite Hpnl]].
Qed.

Lemma filter_none {A} (p : A -> bool) l : (forall x, x ∈ l -> p x = false) -> List.filter p l = [].
Proof.
  induction l as [|a l IH]; intros H; cbn; [done|]. rewrite (H a) by left. apply IH.
  intros x Hx. apply H. by right.
Qed.

Lemma elem_all_rows t o : o ∈ all_rows t <-> exists id, t.(rows) !! id = Some o.
Proof.
  unfold all_rows. rewrite list_elem_of_fmap. split.
  - intros ([id row] & -> & Hin). apply elem_of_map_to_list in Hin. eauto.
  - intros [id Hid]. exists (id, o). by rewrite elem_of_map_to_list.
Qed.

(** Since no statement that writes orders lists the column
    [auto_square_off_time], the backfill at startup never inserts anything. *)
Theorem square_off_backfill_is_empty (l : list (Z * Statement)) (faults : list bool) (now : Z)
    (t : SquareOffTable) :
  sqlBackfillTodaySquareOffConfig now (runStatements l (mkTable ∅ faults)) t = (t, 0%nat).
Proof.
  unfold sqlBackfillTodaySquareOffConfig.
  assert (Hnil : backfill_rows now (runStatements l (mkTable ∅ faults)) = []).
  { unfold backfill_rows. rewrite filter_none; [done|]. intros o [id Ho]%elem_all_rows.
    assert (Hu : columns_unset o).
    { eapply (columns_unset_statements l (mkTable ∅ faults)); [apply map_Forall_empty|exact Ho]. }
    by rewrite (proj1 Hu). }
  rewrite Hnil. cbn. by rewrite Nat.sub_diag.
Qed.

(** A position disappears from the square-off at the end of the day as soon
    as any square-off order of the day exists for its user, symbol and strategy,
    whatever that order's status and quantity: one that was rejected, or that
    closed a part of the position, leaves the rest open. *)
Theorem any_square_off_hides_position (now : Z) (t : OrdersTable) (o sq : Order.t) (l : list Order.t)
    (Hsq : exists id, t.(rows) !! id = Some sq)
    (Hpair : sq.(Order.UserID) = o.(Order.UserID) /\ sq.(Order.Symbol) = o.(Order.Symbol) /\
             sq.(Order.StrategyID) = o.(Order.StrategyID))
    (Hkind : sq.(Order.IsSquareOffOrder) = true /\ sq.(Order.IsPaperTrade) = false)
    (Htoday : placed_today now sq = true)
    (Hopen : (sqlGetOpenOrders now t).2 = inr l) :
  o ∉ l.
Proof.
  intros Hin. unfold sqlGetOpenOrders, select_asc in Hopen.
  destruct (driver t) as [[] t1] eqn:Hd; [done|]. injection Hopen as <-.
  rewrite (merge_sort_Permutation created_before) in Hin.
  apply list_elem_of_In, filter_In in Hin as [_ Hp]. unfold open_row in Hp. bool_to_prop.
  match goal with H : squared_off _ _ _ = false |- _ => rename H into Hno end.
  assert (Hyes : squared_off now (all_rows t) o = true).
  { unfold squared_off. apply existsb_exists. exists sq. split.
    - apply list_elem_of_In, elem_all_rows, Hsq.
    - destruct Hpair as (Eu & Ey & Es). destruct Hkind as (Eo & Ep).
      rewrite Eu, Ey, Es, Eo, Ep, Htoday, !String.eqb_refl. done. }
  congruence.
Qed.

(** A position of ten shares and its rejected square-off, on one day. *)
Definition sample_position : Order.t :=
  Order.zero <| Order.OrderID := 1%N |> <| Order.UserID := "U1" |> <| Order.StrategyID := "S1" |>
    <| Order.Symbol := "TCS" |> <| Order.Status := StatusFilled |> <| Order.ProductType := "INTRADAY" |>
    <| Order.FilledQuantity := 10%Z |> <| Order.FilledPrice := Some (of_Z 100) |>.

Definition sample_rejected_exit : Order.t :=
  sample_position <| Order.OrderID := 2%N |> <| Order.IsSquareOffOrder := true |>
    <| Order.Status := StatusRejected |>.

Definition sample_table : OrdersTable :=
  mkTable (<[1%N := sample_position]> (<[2%N := sample_rejected_exit]> ∅)) [].

Lemma any_square_off_hides_position_witness :
  (sqlGetOpenOrders 0 (mkTable (<[1%N := sample_position]> ∅) [])).2 = inr [sample_position] /\
  sample_position ∉ ([] : list Order.t).
Proof.
  split; [vm_compute; reflexivity|].
  apply (any_square_off_hides_position 0 sample_table sample_position sample_rejected_exit []);
    [exists 2%N|split_and!|split|..]; vm_compute; reflexivity.
Defined.

Definition sample_exited : Order.t :=
  sample_position <| Order.IsPaperTrade := true |> <| Order.PaperExitPrice := Some (of_Z 110) |>
    <| Order.PaperPnL := Some (of_Z 100) |>.

Lemma first_exit_wins_witness :
  exists o', (runStatements [(5%Z, SPaperTradeExit 1 (of_Z 90) (fneg (of_Z 100)));
                             (6%Z, SCancelOfStrategy "S1" "U1")]
                (mkTable (<[1%N := sample_exited]> ∅) [])).(rows) !! 1%N = Some o' /\
    o'.(Order.PaperExitPrice) = Some (of_Z 110) /\ o'.(Order.PaperPnL) = Some (of_Z 100).
Proof. apply (first_exit_wins _ _ 1%N sample_exited); vm_compute; reflexivity. Defined.
