(* ===== verification/Indira.v ===== *)
(** * The broker client's requests

    [pkg/indira/utils.go] and [trade-execution/internal/indira/client.go]: how
    an order becomes the request the broker receives.  A price is a float64;
    [Price2DP] only changes how it is printed.  Redis is three lookups which may
    be unset ([None]) and may fail ([None] for one instrument).  The transport
    and the JSON of [pkg/indira/orders.go] are not modelled: the answer of the
    broker's API is an argument. *)

From stdpp Require Import base strings list.
From Stdlib Require Import ZArith Lia SpecFloat Ascii.
From S2P Require Import Prelude GoFloat FloatRound FloatOrder GoStrings Orders OCOTypes Broker.
From S2P Require Import OCOHandlers.

Open Scope string_scope.
Open Scope list_scope.
Open Scope go_scope.

(** ** Symbols *)

Record SymbolBuilder : Type := mkSymbol {
  sbInstrument : string;
  sbSymbol : string;
  sbSeries : string;
  sbExchange : string;
  sbToken : string
}.

Definition BuildSymbol (sb : SymbolBuilder) : string :=
  Join "_" [sb.(sbInstrument); sb.(sbSymbol); sb.(sbSeries); sb.(sbExchange); sb.(sbToken)].

(** [None] is the error: not five parts. *)
Definition ParseSymbol (indiraSymbol : string) : option SymbolBuilder :=
  match Split "_" indiraSymbol with
  | [i; s; se; e; t] => Some (mkSymbol i s se e t)
  | _ => None
  end.

Definition CleanExchangeName (exchange : string) : string := TrimPrefix exchange "EXCHANGE_".

(** ** The broker's vocabulary *)

Definition MapOrderType (orderType : string) : string :=
  let t := ToUpper orderType in
  if one_of t ["MARKET"; "MKT"; "RL-MKT"] then "Market"
  else if one_of t ["LIMIT"; "LMT"; "RL"] then "Limit"
  else if one_of t ["STOPLOSS"; "SL"; "STOP_LOSS"] then "SL"
  else if one_of t ["SL-MKT"; "SL-M"; "STOPLOSSMARKET"] then "SL-M"
  else "Market".

Definition MapProductType (productType : string) : string :=
  let t := ToUpper productType in
  if one_of t ["INTRADAY"; "MIS"; "I"] then "INTRADAY"
  else if one_of t ["DELIVERY"; "CNC"; "D"] then "DELIVERY"
  else if one_of t ["CASH"; "C"] then "CASH"
  else if one_of t ["MTF"; "M"] then "MTF"
  else if one_of t ["BRACKET"; "BRACKET_ORDER"; "BO"] then "BRACKET_ORDER"
  else "INTRADAY".

Definition MapOrderSide (side : string) : string :=
  let s := ToUpper side in
  if one_of s ["BUY"; "B"] then "BUY" else if one_of s ["SELL"; "S"] then "SELL" else "BUY".

Definition MapValidity (validity : string) : string :=
  let v := ToUpper validity in
  if one_of v ["DAY"; "D"] then "DAY" else if one_of v ["IOC"; "I"] then "IOC" else "DAY".

Definition DetermineInstrument (exchange symbol : string) : string :=
  let exchange := ToUpper exchange in
  if Contains symbol "NIFTY" || Contains symbol "SENSEX" || Contains symbol "BANKEX"
     || (symbol =?s "NIFTY") || (symbol =?s "BANKNIFTY") then "IDX"
  else if Contains exchange "FO" || Contains exchange "NFO" then
    if Contains symbol "FUT" then "FUT"
    else if Contains symbol "OPT" || Contains symbol "CE" || Contains symbol "PE" then "OPT"
    else "STK"
  else "STK".

Definition DetermineSeries (exchange instrument : string) : string :=
  if one_of instrument ["OPT"; "FUT"] then "FO" else "EQ".

(** ** Prices *)

Definition hundred : f64 := of_Z 100.

(** The last step of both roundings: two decimals. *)
Definition two_decimals (x : f64) : f64 := (math_Round (x * hundred) / hundred)%f64.

Definition RoundToTick (price : f64) : f64 :=
  if fle price fzero then price
  else
    let tick := if flt price (of_Z 1) then dec 1 2 else dec 5 2 in
    two_decimals (math_Round (price / tick) * tick)%f64.

Definition RoundToTickSize (price tickSize : f64) : f64 :=
  if fle price fzero then price
  else if fle tickSize fzero then RoundToTick price
  else two_decimals (math_Round (price / tickSize) * tickSize)%f64.

Definition clampDPR (price lower upper : f64) : f64 :=
  if fle lower fzero && fle upper fzero then price
  else if flt fzero lower && flt price lower then lower
  else if flt fzero upper && flt upper price then upper
  else price.

(** The buffer a marketable limit price gets: half a percent. *)
Definition buffer : f64 := dec 1005 3.

(** The lookups of the client. *)
Record Lookups : Type := mkLookups {
  tickSizeLookup : option (string -> Z -> option f64);
  dprLookup : option (string -> Z -> option (f64 * f64));
  ltpLookup : option (string -> Z -> option f64)
}.

Definition resolveTickSize (lk : Lookups) (exchange : string) (stockCode : Z) : f64 :=
  match lk.(tickSizeLookup) with
  | None => fzero
  | Some look => default fzero (look exchange stockCode)
  end.

Definition resolveDPR (lk : Lookups) (exchange : string) (stockCode : Z) : f64 * f64 :=
  match lk.(dprLookup) with
  | None => (fzero, fzero)
  | Some look => default (fzero, fzero) (look exchange stockCode)
  end.

Definition resolveLTP (lk : Lookups) (exchange : string) (stockCode : Z) : option f64 :=
  match lk.(ltpLookup) with
  | None => None
  | Some look => look exchange stockCode
  end.

(** ** Requests *)

Module PlaceRequest.
Record t : Type := mk {
  Symbol : string;
  ExcToken : string;
  Exc : string;
  OrdAction : string;
  OrdValidity : string;
  OrdType : string;
  PrdType : string;
  LimitPrice : f64;
  TriggerPrice : f64;
  Qty : Z;
  DisQty : Z;
  LotSize : Z;
  Instrument : string;
  Amo : bool;
  BoStpLoss : option f64;
  BoTgtPrice : option f64
}.
#[global] Instance eta_place : Eta t := fun r =>
  mk r.(Symbol) r.(ExcToken) r.(Exc) r.(OrdAction) r.(OrdValidity) r.(OrdType) r.(PrdType)
     r.(LimitPrice) r.(TriggerPrice) r.(Qty) r.(DisQty) r.(LotSize) r.(Instrument) r.(Amo)
     r.(BoStpLoss) r.(BoTgtPrice).
End PlaceRequest.

Module ModifyRequest.
Record t : Type := mk {
  OrdId : string;
  Symbol : string;
  OrdAction : string;
  OrdValidity : string;
  ExchangeToken : string;
  Exc : string;
  Qty : Z;
  TradedQty : Z;
  LimitPrice : f64;
  TriggerPrice : f64;
  OrdType : string;
  PrdType : string;
  Instrument : string;
  LotSize : Z;
  DisQty : Z;
  OffMktFlag : bool
}.
End ModifyRequest.

(** The symbol of an order, as both conversions build it. *)
Definition symbol_of (o : Order.t) : SymbolBuilder :=
  let exchange := CleanExchangeName o.(Order.Exchange) in
  let instrument := DetermineInstrument exchange o.(Order.Symbol) in
  mkSymbol instrument o.(Order.Symbol) (DetermineSeries exchange instrument) exchange
    (Itoa o.(Order.StockCode)).

(** [roundClamp]: round to the instrument's tick, then into its price range. *)
Definition roundClamp (lk : Lookups) (exchange : string) (stockCode : Z) (price : f64) : f64 :=
  let '(lower, upper) := resolveDPR lk exchange stockCode in
  clampDPR (RoundToTickSize price (resolveTickSize lk exchange stockCode)) lower upper.

Definition isBracket (productType : string) : bool :=
  one_of productType ["BRACKET"; "BRACKET_ORDER"; "BO"].

(** A pointer price that is set and positive. *)
Definition positive (p : option f64) : option f64 :=
  match p with Some x => if flt fzero x then Some x else None | None => None end.

Definition bracket_prices (rc : f64 -> f64) (o : Order.t) (req : PlaceRequest.t) : PlaceRequest.t :=
  let req :=
    if o.(Order.OrderType) =?s OrderTypeMarket then req <| PlaceRequest.LimitPrice := fzero |>
    else match o.(Order.Price) with
         | Some p => req <| PlaceRequest.LimitPrice := rc p |>
         | None => req
         end in
  let req := req <| PlaceRequest.BoStpLoss := Some fzero |> in
  let req := match o.(Order.StopLoss) with
             | Some sl => req <| PlaceRequest.TriggerPrice := rc sl |>
             | None => req
             end in
  match o.(Order.TakeProfit) with
  | Some tp => req <| PlaceRequest.BoTgtPrice := Some (rc tp) |>
  | None => req <| PlaceRequest.BoTgtPrice := Some fzero |>
  end.

Definition plain_prices (rc : f64 -> f64) (ltp : option f64) (o : Order.t) (req : PlaceRequest.t)
  : PlaceRequest.t :=
  let trigger := positive o.(Order.StopLoss) in
  let req :=
    match trigger with
    | Some sl =>
        let req := req <| PlaceRequest.TriggerPrice := rc sl |> in
        if req.(PlaceRequest.OrdType) =?s "SL-M" then req
        else req <| PlaceRequest.OrdType := "SL" |>
    | None => req
    end in
  let with_price req := match positive o.(Order.Price) with
                        | Some p => req <| PlaceRequest.LimitPrice := rc p |>
                        | None => req
                        end in
  if o.(Order.OrderSide) =?s "BUY" then
    match positive ltp, trigger with
    | Some l, Some _ => req <| PlaceRequest.LimitPrice := rc (l * buffer)%f64 |>
    | Some l, None => req <| PlaceRequest.LimitPrice := rc (l * buffer)%f64 |>
                          <| PlaceRequest.OrdType := "Limit" |>
    | None, Some sl => req <| PlaceRequest.LimitPrice := rc (sl * buffer)%f64 |>
    | None, None => with_price req
    end
  else with_price req.

(** [convertToIndiraRequest]; it never fails. *)
Definition convertToIndiraRequest (lk : Lookups) (o : Order.t) : PlaceRequest.t :=
  let sb := symbol_of o in
  let rc := roundClamp lk sb.(sbExchange) o.(Order.StockCode) in
  let req := PlaceRequest.mk (BuildSymbol sb) sb.(sbToken) sb.(sbExchange)
    (MapOrderSide o.(Order.OrderSide)) (MapValidity o.(Order.Validity))
    (MapOrderType o.(Order.OrderType)) (MapProductType o.(Order.ProductType))
    fzero fzero o.(Order.Quantity) 0 1 sb.(sbInstrument) false None None in
  if isBracket o.(Order.ProductType) then bracket_prices rc o req
  else plain_prices rc (resolveLTP lk sb.(sbExchange) o.(Order.StockCode)) o req.

(** [convertToIndiraModifyRequest]; [None] when the order has no broker id. *)
Definition convertToIndiraModifyRequest (lk : Lookups) (o : Order.t) : option ModifyRequest.t :=
  let sb := symbol_of o in
  let rc := roundClamp lk sb.(sbExchange) o.(Order.StockCode) in
  match o.(Order.IndiraOrderID) with
  | None => None
  | Some orderID =>
      let limit := from_option rc fzero o.(Order.Price) in
      let trigger :=
        if one_of o.(Order.OrderType) [OrderTypeStopLoss; OrderTypeStopLossMarket]
        then from_option rc fzero o.(Order.StopLoss) else fzero in
      Some (ModifyRequest.mk orderID (BuildSymbol sb) (MapOrderSide o.(Order.OrderSide))
        (MapValidity o.(Order.Validity)) sb.(sbToken) sb.(sbExchange) o.(Order.Quantity) 0
        limit trigger (MapOrderType o.(Order.OrderType)) (MapProductType o.(Order.ProductType))
        sb.(sbInstrument) 1 0 false)
  end.

(** ** Answers *)

(** What [Client.PlaceOrder] answers with. *)
Record PlaceResponse : Type := mkResponse { OrderId : string; OrdId : string; Message : string }.

(** [ExecutionClient.PlaceOrder], from the answer of the API. *)
Definition place_result (r : string + PlaceResponse) : placement :=
  match r with
  | inl e => inl ("failed to place order: " ++ e)%string
  | inr resp =>
      let orderID := if resp.(OrderId) =?s "" then resp.(OrdId) else resp.(OrderId) in
      if orderID =?s ""
      then inl ("broker accepted request but returned no order ID (message: "
                ++ resp.(Message) ++ ")")%string
      else inr orderID
  end.

(** The fields of an order-book entry the search reads. *)
Record BookEntry : Type := mkBook {
  bookOrdId : string;
  bookSymbol : string;
  bookAction : string;
  bookQty : Z
}.

Definition book_match (symbol side : string) (qty : Z) (e : BookEntry) : bool :=
  EqualFold e.(bookAction) (ToUpper side) && (e.(bookQty) =? qty)%Z &&
  ((ToUpper e.(bookSymbol) =?s ToUpper symbol)
   || Contains (ToUpper e.(bookSymbol)) (ToUpper symbol)).

(** [FindRecentOrder]; the book is [None] when it cannot be fetched. *)
Definition FindRecentOrder (symbol side : string) (qty : Z) (book : option (list BookEntry))
  : option string :=
  match book with
  | None => None
  | Some l => bookOrdId <$> List.find (book_match symbol side qty) l
  end.

(** ** The requests are well-formed *)

(** A part of a symbol holds no separator. *)
Definition symbol_parts (sb : SymbolBuilder) : list string :=
  [sb.(sbInstrument); sb.(sbSymbol); sb.(sbSeries); sb.(sbExchange); sb.(sbToken)].

(** A symbol whose parts hold no underscore is read back from its text. *)
Theorem ParseSymbol_BuildSymbol (sb : SymbolBuilder)
    (Hparts : Forall (fun w => free_of "_" w = true) (symbol_parts sb)) :
  ParseSymbol (BuildSymbol sb) = Some sb.
Proof.
  unfold ParseSymbol, BuildSymbol. fold (symbol_parts sb). rewrite Split_Join by done.
  by destruct sb.
Qed.

Lemma ParseSymbol_BuildSymbol_witness :
  ParseSymbol (BuildSymbol (mkSymbol "STK" "TCS" "EQ" "NSE" "11536")) =
  Some (mkSymbol "STK" "TCS" "EQ" "NSE" "11536").
Proof. apply (ParseSymbol_BuildSymbol (mkSymbol "STK" "TCS" "EQ" "NSE" "11536")). by repeat constructor. Defined.

(** *** Prices stay in the day's range *)

(** A price the request may carry for an instrument with the range
    [lower .. upper]: none, or one in the range. *)
Definition allowed (lower upper p : f64) : Prop :=
  p = fzero \/ (ordered p = true -> fle lower p = true /\ fle p upper = true).

Lemma clampDPR_allowed price lower upper :
  flt fzero lower = true -> fle lower upper = true -> allowed lower upper (clampDPR price lower upper).
Proof.
  intros Hl Hlu. right. destruct (fle_ordered _ _ Hlu) as [Ho1 Ho2].
  pose proof (flt_fle_trans _ _ _ Hl Hlu) as Hu.
  unfold clampDPR. rewrite (flt_not_fle _ _ Hl), Hl, Hu. cbn [andb].
  destruct (flt price lower) eqn:H1; [auto with go|].
  destruct (flt upper price) eqn:H2; [auto with go|]. intros Ho. split.
  - destruct (fle lower price) eqn:E; [done|].
    rewrite (not_fle_flt price lower) in H1 by done. done.
  - destruct (fle price upper) eqn:E; [done|].
    rewrite (not_fle_flt upper price) in H2 by done. done.
Qed.

Lemma allowed_zero lower upper : allowed lower upper fzero.
Proof. by left. Qed.

(** No request asks for a price outside the instrument's daily range. *)
Theorem request_within_circuit (lk : Lookups) (o : Order.t) (lower upper : f64)
    (Hdpr : resolveDPR lk (CleanExchangeName o.(Order.Exchange)) o.(Order.StockCode) = (lower, upper))
    (Hlower : flt fzero lower = true) (Hrange : fle lower upper = true) :
  let req := convertToIndiraRequest lk o in
  allowed lower upper req.(PlaceRequest.LimitPrice) /\
  allowed lower upper req.(PlaceRequest.TriggerPrice) /\
  (forall p, req.(PlaceRequest.BoTgtPrice) = Some p -> allowed lower upper p).
Proof.
  assert (Hrc : forall p, allowed lower upper
    (roundClamp lk (CleanExchangeName o.(Order.Exchange)) o.(Order.StockCode) p)).
  { intros p. unfold roundClamp. rewrite Hdpr. by apply clampDPR_allowed. }
  cbn zeta. unfold convertToIndiraRequest, symbol_of. cbn [sbExchange sbToken].
  generalize (roundClamp lk (CleanExchangeName o.(Order.Exchange)) o.(Order.StockCode)) Hrc.
  clear Hrc Hdpr. intros rc Hrc. pose proof (allowed_zero lower upper) as H0.
  destruct (isBracket _).
  - unfold bracket_prices. destruct (_ =?s OrderTypeMarket); destruct (Order.Price o);
      destruct (Order.StopLoss o); destruct (Order.TakeProfit o); cbn; repeat split; auto;
      intros p [= <-]; auto.
  - unfold plain_prices. destruct (positive (Order.StopLoss o)); destruct (positive (Order.Price o));
      destruct (positive _); repeat (cbn; case_match); cbn; repeat split; auto; by intros.
Qed.

(** *** The price of a buy order is the market's *)

Lemma buildLegOrder_instrument now g id side ty price trig role o :
  buildLegOrder now g id side ty price trig role = Some o ->
  o.(Order.Exchange) = g.(Group.Exchange) /\ o.(Order.StockCode) = g.(Group.StockCode) /\
  o.(Order.ProductType) = g.(Group.ProductType).
Proof. unfold buildLegOrder. intros H. split_matches. Qed.

(** When the last traded price is known, the limit price of a plain buy
    order without a trigger has no influence on what is sent: the request is a
    limit order half a percent above the last traded price.  The take-profit
    leg of a short position is such an order, so it is filled at once instead of
    waiting for its target. *)
Theorem short_target_leg_crosses_market (lk : Lookups) (now : Z) (slID tpID : uuid)
    (g g' : Group.t) (slOrder : option Order.t) (tp : Order.t) (ltp : f64)
    (Hshort : g.(Group.OrderSide) = "SELL") (Hplain : isBracket g.(Group.ProductType) = false)
    (Hprepared : placeOCOLegs_prepare now slID tpID g = PLegs g' slOrder (Some tp))
    (Hltp : resolveLTP lk (CleanExchangeName g.(Group.Exchange)) g.(Group.StockCode) = Some ltp)
    (Hpos : flt fzero ltp = true) :
  let req := convertToIndiraRequest lk tp in
  tp.(Order.Price) = Some (CalculateTPFromFill g g.(Group.EntryFillPrice)) /\
  req.(PlaceRequest.OrdAction) = "BUY" /\ req.(PlaceRequest.OrdType) = "Limit" /\
  req.(PlaceRequest.LimitPrice) =
    roundClamp lk (CleanExchangeName g.(Group.Exchange)) g.(Group.StockCode) (ltp * buffer)%f64.
Proof.
  pose proof (prepared_tp_leg _ _ _ _ _ _ _ Hprepared) as (_ & L & _).
  pose proof (prepare_cases now slID tpID g) as Hc. cbn zeta in Hc. rewrite Hprepared in Hc.
  destruct (CalculateSLFromFill _ _) as [t l]. destruct Hc as (_ & g1 & H1 & H2).
  apply prepare_sl_spec in H1. apply prepare_tp_spec in H2 as (_ & -> & Ho).
  apply buildLegOrder_instrument in Ho as (He & Hs & Hp).
  assert (Hg : g1.(Group.ProductType) = g.(Group.ProductType) /\
    g1.(Group.Exchange) = g.(Group.Exchange) /\ g1.(Group.StockCode) = g.(Group.StockCode)).
  { destruct slOrder; [destruct H1 as (_ & -> & _)|destruct H1 as (_ & ->)]; done. }
  destruct Hg as (Hp' & He' & Hs'). cbn in He, Hs, Hp. rewrite He' in He. rewrite Hs' in Hs.
  rewrite Hp' in Hp. clear H1 Hprepared He' Hs' Hp'.
  destruct L as (Hside & _ & Hprice & Htrig & _).
  unfold ExitSide in Hside. rewrite Hshort in Hside. change (("SELL" =?s "BUY")) with false in Hside.
  cbn zeta. split; [done|]. unfold convertToIndiraRequest, symbol_of.
  cbn [sbExchange sbToken sbInstrument]. rewrite Hp, Hplain, He, Hs, Hltp, Hside. unfold plain_prices. rewrite Htrig, Hside.
  cbn -[roundClamp CleanExchangeName]. by rewrite Hpos.
Qed.

(** A short position of ten shares sold at 100, with a target of 4%. *)
Definition sample_short : Group.t := sample_long <| Group.OrderSide := "SELL" |>.

Definition sample_short_target : Order.t :=
  match placeOCOLegs_prepare 0 1 2 sample_short with
  | PLegs _ _ (Some tp) => tp
  | _ => Order.zero
  end.

(** The instrument trades at 99.50 with ticks of 0.05 in the range 80 to 120. *)
Definition sample_lookups : Lookups :=
  mkLookups (Some (fun _ _ => Some (dec 5 2))) (Some (fun _ _ => Some (of_Z 80, of_Z 120)))
    (Some (fun _ _ => Some (dec 995 1))).

Lemma short_target_leg_crosses_market_witness :
  let req := convertToIndiraRequest sample_lookups sample_short_target in
  sample_short_target.(Order.Price) = Some (of_Z 96) /\
  req.(PlaceRequest.OrdAction) = "BUY" /\ req.(PlaceRequest.OrdType) = "Limit" /\
  req.(PlaceRequest.LimitPrice) = of_Z 100.
Proof.
  pose proof (short_target_leg_crosses_market sample_lookups 0 1 2 sample_short
    (match placeOCOLegs_prepare 0 1 2 sample_short with PLegs g _ _ => g | _ => sample_short end)
    (match placeOCOLegs_prepare 0 1 2 sample_short with PLegs _ sl _ => sl | _ => None end)
    sample_short_target (dec 995 1) eq_refl eq_refl ltac:(vm_compute; reflexivity) eq_refl
    ltac:(vm_compute; reflexivity)) as (H1 & H2 & H3 & H4).
  cbn zeta. rewrite H1, H2, H3, H4. vm_compute. by split_and!.
Defined.

Lemma request_within_circuit_witness :
  allowed (of_Z 80) (of_Z 120)
    (convertToIndiraRequest sample_lookups sample_short_target).(PlaceRequest.LimitPrice).
Proof.
  refine (proj1 (request_within_circuit sample_lookups sample_short_target (of_Z 80) (of_Z 120)
    _ _ _)); vm_compute; reflexivity.
Defined.
