(* ===== verification/Signals.v ===== *)
(** * Trade signals

    [trade-execution/internal/models/execution.go] and [multi_level.go]: what the
    rules engine sends and what the execution service is asked to protect. *)

From stdpp Require Import base strings list.
From Stdlib Require Import ZArith.
From S2P Require Import Prelude GoFloat GoStrings Orders OCOTypes.

Open Scope string_scope.
Open Scope go_scope.

(** [MultiLevelExitLevel]: percentages of the entry price and of the position. *)
Record MultiLevelExitLevel : Type := mkLevel {
  LevelNum : Z;
  PricePct : f64;
  QtyPct : f64
}.

Module TradeSignal.
Record t : Type := mk {
  OrderID : string;
  UserID : string;
  StrategyID : string;
  StrategyName : string;
  EventID : string;
  StockCode : Z;
  Symbol : string;
  Exchange : string;
  OrderType : string;
  Quantity : Z;
  Price : f64;
  StopLoss : f64;
  TakeProfit : f64;
  MatchScore : f64;
  ImpactScore : Z;
  Sentiment : string;
  NewsCategory : string;
  Timestamp : Z;
  BearerToken : string;
  AppId : string;
  Source : string;
  StopLossType : string;
  StopLossPct : f64;
  TakeProfitPct : f64;
  TrailingSLPct : f64;
  TakeProfitType : string;
  MultiLevelSL : list MultiLevelExitLevel;
  MultiLevelTP : list MultiLevelExitLevel;
  ProductType : string;
  TradingMode : string;
  CurrentPctChange : f64;
  MaxMonitorPrice : f64;
  AutoSquareOffTime : string
}.

#[global] Instance eta_signal : Eta t := fun s =>
  mk s.(OrderID) s.(UserID) s.(StrategyID) s.(StrategyName) s.(EventID) s.(StockCode) s.(Symbol)
     s.(Exchange) s.(OrderType) s.(Quantity) s.(Price) s.(StopLoss) s.(TakeProfit) s.(MatchScore)
     s.(ImpactScore) s.(Sentiment) s.(NewsCategory) s.(Timestamp) s.(BearerToken) s.(AppId)
     s.(Source) s.(StopLossType) s.(StopLossPct) s.(TakeProfitPct) s.(TrailingSLPct)
     s.(TakeProfitType) s.(MultiLevelSL) s.(MultiLevelTP) s.(ProductType) s.(TradingMode)
     s.(CurrentPctChange) s.(MaxMonitorPrice) s.(AutoSquareOffTime).
End TradeSignal.

(** The credentials an order carries, when all three parts are set. *)
Definition auth_of (o : Order.t) : option AuthContext :=
  match o.(Order.BearerToken), o.(Order.AppId), o.(Order.Source) with
  | Some b, Some a, Some s => Some (mkAuth o.(Order.UserID) a s b)
  | _, _, _ => None
  end.

(** [safePrice]. *)
Definition safePrice (p : option f64) : f64 := default fzero p.

(** What is left to do for an order after it was executed: the closures the
    signal processor hands to the price monitor, by what they captured. *)
Inductive AfterFill : Type :=
  | AfMultiLevel (signal : TradeSignal.t)
  | AfTrailing (signal : TradeSignal.t)
  | AfFixed (signal : TradeSignal.t).
