(* ===== verification/Executor.v ===== *)
(** * Executing orders

    [trade-execution/internal/executor]: the credentials cache, the executor of
    live orders with its retries, the executor of paper orders and the routing
    between them.  The broker is an interface; so is the clock ([now]) and the
    context ([cancelled n] says whether it ends while attempt [n] waits).  A
    goroutine that only writes the database and publishes is an entry of
    [background].  Metrics and logs are left out. *)

From stdpp Require Import base gmap strings list fin_maps.
From Stdlib Require Import ZArith Lia.
From S2P Require Import Prelude GoFloat FloatRound FloatOrder Price GoStrings Orders OrderRepo OrderQueries OCOTypes.
From S2P Require Import Broker Indira Signals.

Open Scope string_scope.
Open Scope list_scope.
Open Scope go_scope.

(** ** Credentials ([credentials_cache.go]) *)

(** [store] is the repository: the credentials of a user, or the error. *)
Record CredentialsCache : Type := mkCache {
  cache : gmap string AuthContext;
  store : string -> string + AuthContext
}.

Definition cache_Get (userID : string) (c : CredentialsCache) : CredentialsCache * (string + AuthContext) :=
  match c.(cache) !! userID with
  | Some a => (c, inr a)
  | None =>
      match c.(store) userID with
      | inl e => (c, inl e)
      | inr a => (mkCache (<[userID := a]> c.(cache)) c.(store), inr a)
      end
  end.

Definition cache_Invalidate (userID : string) (c : CredentialsCache) : CredentialsCache :=
  mkCache (delete userID c.(cache)) c.(store).

(** [Warm]: one [Get] per user, in the order the goroutines run. *)
Definition Warm (userIDs : list string) (c : CredentialsCache) : CredentialsCache :=
  foldl (fun c u => (cache_Get u c).1) c userIDs.

#[export] Instance cache_refresher : CredentialsRefresher CredentialsCache := {
  Invalidate := cache_Invalidate;
  Get := cache_Get
}.

(** ** The broker *)

(** An error of a placement: its text, whether it is a [BrokerBusinessError] and
    whether it is a timeout. *)
Record PlaceError : Type := mkPlaceError {
  errText : string;
  errBusiness : bool;
  errTimeout : bool
}.

(** [PlaceOrder] and [FindRecentOrder] of the execution client. *)
Class ExecutionBroker (B : Type) := {
  execPlace : Order.t -> AuthContext -> B -> B * (PlaceError + string);
  execBook : AuthContext -> B -> B * option (list BookEntry)
}.

Definition isTimeoutError (e : option PlaceError) : bool :=
  match e with Some e => e.(errTimeout) | None => false end.

Definition sessionExpired (e : option PlaceError) : bool :=
  match e with Some e => isSessionExpiredError e.(errText) | None => false end.

(** ** The state *)

(** A call of the broker with its answer. *)
Inductive Call : Type :=
  | CPlace (o : Order.t) (auth : AuthContext) (answer : PlaceError + string)
  | CFind (symbol side : string) (qty : Z) (found : option string).

Record ExecState (B : Type) : Type := mkExec {
  xbroker : B;
  xcreds : option CredentialsCache;
  xorders : OrdersTable;
  calls : list Call;
  background : list Order.t;         (** rows the background goroutines will write *)
  events : list (uuid * string);     (** execution events *)
  updates : list (uuid * string);    (** notifications published *)
  subscribed : list string;          (** users whose status subscription is asked for *)
  newOrders : list Order.t;          (** what was broadcast *)
  filled : list Order.t              (** calls of [OnPaperFilled] *)
}.

Arguments mkExec {B}.
Arguments xbroker {B}. Arguments xcreds {B}. Arguments xorders {B}. Arguments calls {B}.
Arguments background {B}. Arguments events {B}. Arguments updates {B}. Arguments subscribed {B}.
Arguments newOrders {B}. Arguments filled {B}.

#[export] Instance eta_exec {B} : Eta (ExecState B) := fun w =>
  mkExec w.(xbroker) w.(xcreds) w.(xorders) w.(calls) w.(background) w.(events) w.(updates)
    w.(subscribed) w.(newOrders) w.(filled).

Section Executor.

Context {B : Type} `{ExecutionBroker B}.

Abbreviation State := (ExecState B).

(** How the executor is set up: the number of retries and what is wired. *)
Record ExecConfig : Type := mkExecConfig {
  maxRetries : nat;
  hasStatusSvc : bool;
  hasBroadcaster : bool;
  hasKafka : bool
}.

Definition repo_update (now : Z) (o : Order.t) (w : State) : State * option string :=
  let '(t, e) := sqlUpdate now o w.(xorders) in (w <| xorders := t |>, e).

Definition record_event (id : uuid) (kind : string) (w : State) : State :=
  w <| events := w.(events) ++ [(id, kind)] |>.

Definition publishOrderUpdate (cfg : ExecConfig) (id : uuid) (kind : string) (w : State) : State :=
  if cfg.(hasKafka) then w <| updates := w.(updates) ++ [(id, kind)] |> else w.

(** [rejectOrder] and [failOrder]: the order, the state and the error. *)
Definition rejectOrder (cfg : ExecConfig) (now : Z) (o : Order.t) (reason : string) (w : State)
  : State * Order.t * option string :=
  let o := o <| Order.Status := StatusRejected |> <| Order.RejectionReason := Some reason |> in
  let '(w, _) := repo_update now o w in
  let w := record_event o.(Order.OrderID) "REJECTED" w in
  let w := publishOrderUpdate cfg o.(Order.OrderID) "ORDER_REJECTED" w in
  (w, o, Some ("order rejected: " ++ reason)%string).

Definition failOrder (cfg : ExecConfig) (now : Z) (o : Order.t) (msg : string) (w : State)
  : State * Order.t * option string :=
  let o := o <| Order.Status := StatusFailed |> <| Order.ErrorMessage := Some msg |> in
  let '(w, _) := repo_update now o w in
  let w := record_event o.(Order.OrderID) "FAILED" w in
  let w := publishOrderUpdate cfg o.(Order.OrderID) "ORDER_FAILED" w in
  (w, o, Some ("order failed: " ++ msg)%string).

(** What happens once the broker has the order: a square-off order is written
    before the return, another one by a goroutine. *)
Definition submit_effects (cfg : ExecConfig) (now : Z) (o : Order.t) (w : State) : State :=
  let w := if o.(Order.IsSquareOffOrder) then (repo_update now o w).1
           else w <| background := w.(background) ++ [o] |> in
  let w := record_event o.(Order.OrderID) "SUBMITTED" w in
  let w := publishOrderUpdate cfg o.(Order.OrderID) "ORDER_SUBMITTED" w in
  let w := if cfg.(hasStatusSvc) then w <| subscribed := w.(subscribed) ++ [o.(Order.UserID)] |>
           else w in
  if cfg.(hasBroadcaster) then w <| newOrders := w.(newOrders) ++ [o] |> else w.

Definition handleSuccessfulPlacement (cfg : ExecConfig) (now : Z) (o : Order.t) (brokerID : string)
    (w : State) : State * Order.t * option string :=
  let o := o <| Order.Status := StatusSubmitted |> <| Order.SubmittedAt := Some now |>
             <| Order.IndiraOrderID := Some brokerID |> in
  (submit_effects cfg now o w, o, None).

Definition cached_creds (userID : string) (w : State) : State * option (string + AuthContext) :=
  match w.(xcreds) with
  | None => (w, None)
  | Some c => let '(c, r) := cache_Get userID c in (w <| xcreds := Some c |>, Some r)
  end.

(** After an expired session: drop the cached credentials and load them again. *)
Definition reload_creds (userID : string) (auth : AuthContext) (w : State) : State * AuthContext :=
  match w.(xcreds) with
  | None => (w, auth)
  | Some c =>
      let '(c, r) := cache_Get userID (cache_Invalidate userID c) in
      let w := w <| xcreds := Some c |> in
      match r with
      | inl _ => (w, auth)
      | inr a => (w, if a.(BearerToken) =?s auth.(BearerToken) then auth else a)
      end
  end.

Definition place (o : Order.t) (auth : AuthContext) (w : State) : State * (PlaceError + string) :=
  let '(b, r) := execPlace o auth w.(xbroker) in
  (w <| xbroker := b |> <| calls := w.(calls) ++ [CPlace o auth r] |>, r).

Definition find_recent (o : Order.t) (auth : AuthContext) (w : State) : State * option string :=
  let '(b, book) := execBook auth w.(xbroker) in
  let r := FindRecentOrder o.(Order.Symbol) o.(Order.OrderSide) o.(Order.Quantity) book in
  (w <| xbroker := b |>
     <| calls := w.(calls) ++ [CFind o.(Order.Symbol) o.(Order.OrderSide) o.(Order.Quantity) r] |>, r).

Definition error_text (e : option PlaceError) : string :=
  match e with Some e => e.(errText) | None => "<nil>" end.

(** The loop of [ExecuteOrder] with [n] attempts left; [attempt] counts from 0
    and [lastErr] is the error of the one before. *)
Fixpoint placeAttempts (cfg : ExecConfig) (now : Z) (cancelled : nat -> bool) (n attempt : nat)
    (lastErr : option PlaceError) (auth : AuthContext) (o : Order.t) (w : State)
  : State * Order.t * option string :=
  match n with
  | O => failOrder cfg now o ("Max retries exceeded: " ++ error_text lastErr)%string w
  | S n =>
      if negb (Nat.eqb attempt 0) && cancelled attempt then (w, o, Some "context canceled")
      else
        let '(w, auth) := if sessionExpired lastErr then reload_creds o.(Order.UserID) auth w
                          else (w, auth) in
        let '(w, found) := if isTimeoutError lastErr then find_recent o auth w else (w, None) in
        match found with
        | Some id => handleSuccessfulPlacement cfg now o id w
        | None =>
            let '(w, r) := place o auth w in
            match r with
            | inr id => handleSuccessfulPlacement cfg now o id w
            | inl e =>
                if e.(errBusiness) then failOrder cfg now o e.(errText) w
                else placeAttempts cfg now cancelled n (S attempt) (Some e) auth
                       (o <| Order.RetryCount := int32 (o.(Order.RetryCount) + 1)%Z |>) w
            end
        end
  end.

(** The credentials of the order, else those of the cache. *)
Definition executionAuth (o : Order.t) (w : State) : State * (string + AuthContext) :=
  let own := if o.(Order.UserID) =?s "" then None else auth_of o in
  match own with
  | Some a => (w, inr a)
  | None =>
      match cached_creds o.(Order.UserID) w with
      | (w, None) => (w, inl "Missing Indira Securities authentication data and no credentials cache available")
      | (w, Some (inl e)) => (w, inl ("Missing Indira Securities authentication data: " ++ e)%string)
      | (w, Some (inr a)) => (w, inr a)
      end
  end.

(** ** Paper orders ([paper_executor.go]) *)

(** [retryDB] with three attempts: what the last attempt answered. *)
Fixpoint retryDB (n : nat) (f : OrdersTable -> OrdersTable * option string) (t : OrdersTable)
  : OrdersTable * option string :=
  match n with
  | O => (t, None)
  | S n =>
      match f t with
      | (t, None) => (t, None)
      | (t, Some e) => match n with O => (t, Some e) | _ => retryDB n f t end
      end
  end.

(** A price that was set for [signalPrice], moved to the price of the fill. *)
Definition rescale (signalPrice entryPrice : f64) (p : option f64) : option f64 :=
  match p with
  | Some x => if flt fzero x then Some (entryPrice * (x / signalPrice))%f64 else p
  | None => p
  end.

(** [ExecutePaperOrder]; [ltp] is the answer of the price lookup, [None] when it
    is not wired or fails, and [paperID] the fresh id. *)
Definition ExecutePaperOrder (cfg : ExecConfig) (now : Z) (ltp : option f64) (paperID : string)
    (o : Order.t) (w : State) : State * Order.t * option string :=
  let signalPrice := safePrice o.(Order.Price) in
  let entryPrice := match positive ltp with Some l => l | None => signalPrice end in
  let o := if flt fzero signalPrice && negb (feq entryPrice signalPrice) then
             o <| Order.StopLoss := rescale signalPrice entryPrice o.(Order.StopLoss) |>
               <| Order.TakeProfit := rescale signalPrice entryPrice o.(Order.TakeProfit) |>
           else o in
  let o := o <| Order.Status := StatusFilled |> <| Order.IsPaperTrade := true |>
             <| Order.TradingMode := "PAPER" |> <| Order.FilledQuantity := o.(Order.Quantity) |>
             <| Order.FilledPrice := Some entryPrice |> <| Order.SubmittedAt := Some now |>
             <| Order.ExecutedAt := Some now |> <| Order.IndiraOrderID := Some paperID |> in
  let w := w <| xorders := (retryDB 3 (sqlUpdate now o) w.(xorders)).1 |> in
  let w := record_event o.(Order.OrderID) "PAPER_FILLED" w in
  let w := publishOrderUpdate cfg o.(Order.OrderID) "ORDER_PAPER_FILLED" w in
  (w <| filled := w.(filled) ++ [o] |>, o, None).

(** ** Live orders ([executor.go]) *)

(** What an execution takes from outside. *)
Record ExecEnv : Type := mkExecEnv {
  xnow : Z;
  xcancelled : nat -> bool;
  xltp : option f64;
  xpaperID : string
}.

(** [OrderExecutor.ExecuteOrder]; it mutates the order it is given. *)
Definition ExecuteOrder (cfg : ExecConfig) (env : ExecEnv) (o : Order.t) (w : State)
  : State * Order.t * option string :=
  if negb o.(Order.RiskApproved) then rejectOrder cfg env.(xnow) o "Risk not approved" w
  else if o.(Order.IsPaperTrade) then ExecutePaperOrder cfg env.(xnow) env.(xltp) env.(xpaperID) o w
  else
    let o := o <| Order.Status := StatusPending |> in
    match executionAuth o w with
    | (w, inl msg) => failOrder cfg env.(xnow) o msg w
    | (w, inr auth) =>
        placeAttempts cfg env.(xnow) env.(xcancelled) (S cfg.(maxRetries)) 0 None auth o w
    end.

(** [RoutingExecutor.ExecuteOrder]: paper orders do not pass the risk flag of the
    live executor. *)
Definition RouteOrder (cfg : ExecConfig) (env : ExecEnv) (o : Order.t) (w : State)
  : State * Order.t * option string :=
  if o.(Order.IsPaperTrade) then ExecutePaperOrder cfg env.(xnow) env.(xltp) env.(xpaperID) o w
  else ExecuteOrder cfg env o w.

(** [OrderExecutor.CancelOrder]; [refused] is the broker's answer, which is only
    logged.  The last component tells whether the broker was asked. *)
Definition CancelOrderExec (now : Z) (reason : string) (o : Order.t) (w : State)
  : State * Order.t * option string * bool :=
  if IsTerminalStatus o.(Order.Status) then
    (w, o, Some ("order cannot be cancelled (status: " ++ o.(Order.Status) ++ ")")%string, false)
  else
    let asked := is_set o.(Order.IndiraOrderID) && is_set (auth_of o) in
    let o := o <| Order.Status := StatusCancelled |> <| Order.RejectionReason := Some reason |> in
    match repo_update now o w with
    | (w, Some e) => (w, o, Some ("failed to update cancelled order: " ++ e)%string, asked)
    | (w, None) => (record_event o.(Order.OrderID) "CANCELLED" w, o, None, asked)
    end.

(** The profit of leaving a position at [exitPrice]. *)
Definition paper_pnl (o : Order.t) (exitPrice : f64) : f64 :=
  let entryPrice := safePrice o.(Order.FilledPrice) in
  let qty := of_Z o.(Order.FilledQuantity) in
  if o.(Order.OrderSide) =?s "BUY" then ((exitPrice - entryPrice) * qty)%f64
  else ((entryPrice - exitPrice) * qty)%f64.

(** The order [createReverseExitOrder] inserts next to the entry. *)
Definition reverse_exit_order (at_ : Z) (newID : uuid) (paperID : string) (original : Order.t)
    (exitPrice : f64) : Order.t :=
  Order.zero
    <| Order.OrderID := newID |> <| Order.UserID := original.(Order.UserID) |>
    <| Order.StrategyID := original.(Order.StrategyID) |>
    <| Order.StrategyName := original.(Order.StrategyName) |>
    <| Order.StockCode := original.(Order.StockCode) |>
    <| Order.Exchange := original.(Order.Exchange) |> <| Order.Symbol := original.(Order.Symbol) |>
    <| Order.OrderType := OrderTypeMarket |>
    <| Order.OrderSide := if original.(Order.OrderSide) =?s "SELL" then "BUY" else "SELL" |>
    <| Order.Quantity := original.(Order.FilledQuantity) |>
    <| Order.Price := original.(Order.FilledPrice) |> <| Order.Validity := "IOC" |>
    <| Order.ProductType := original.(Order.ProductType) |> <| Order.Status := StatusFilled |>
    <| Order.IsPaperTrade := true |> <| Order.TradingMode := "PAPER" |>
    <| Order.FilledQuantity := original.(Order.FilledQuantity) |>
    <| Order.FilledPrice := Some exitPrice |> <| Order.IsSquareOffOrder := true |>
    <| Order.RiskApproved := true |> <| Order.IndiraOrderID := Some paperID |>
    <| Order.SubmittedAt := Some at_ |> <| Order.ExecutedAt := Some at_ |>
    <| Order.CreatedAt := at_ |> <| Order.UpdatedAt := at_ |>.

(** [ExitPaperPosition], the reverse order included. *)
Definition ExitPaperPosition (now : Z) (newID : uuid) (paperID : string) (exitPrice : f64)
    (reason : string) (o : Order.t) (w : State) : State * Order.t * option string :=
  let pnl := paper_pnl o exitPrice in
  let o := o <| Order.Status := StatusCancelled |> <| Order.PaperExitPrice := Some exitPrice |>
             <| Order.PaperPnL := Some pnl |>
             <| Order.RejectionReason := Some ("Paper exit: " ++ reason)%string |>
             <| Order.UpdatedAt := now |> in
  let '(t, e) := retryDB 3 (sqlUpdatePaperTradeExit now o.(Order.OrderID) exitPrice pnl) w.(xorders) in
  let w := w <| xorders := t |> in
  match e with
  | Some e => (w, o, Some ("failed to persist paper exit: " ++ e)%string)
  | None =>
      let w := record_event o.(Order.OrderID) "PAPER_EXITED" w in
      let rev := reverse_exit_order now newID paperID o exitPrice in
      (w <| xorders := (retryDB 3 (sqlCreate rev) w.(xorders)).1 |>, o, None)
  end.

(** ** What an execution does at the broker *)

(** The broker's order id a call brings back. *)
Definition accepted (c : Call) : list string :=
  match c with
  | CPlace _ _ (inr id) => [id]
  | CFind _ _ _ (Some id) => [id]
  | _ => []
  end.

Definition is_place (c : Call) : bool := match c with CPlace _ _ _ => true | CFind _ _ _ _ => false end.

Fixpoint placements (l : list Call) : nat :=
  match l with [] => O | c :: l => (if is_place c then S else id) (placements l) end.

(** A run of calls that is careful about duplicates: after a timeout nothing is
    placed before the order book was searched, and nothing follows an acceptance
    or a business rejection. *)
Fixpoint careful (last : option PlaceError) (l : list Call) : bool :=
  match l with
  | [] => true
  | CPlace _ _ r :: l =>
      negb (isTimeoutError last) &&
      match r with
      | inr _ => match l with [] => true | _ => false end
      | inl e => if e.(errBusiness) then match l with [] => true | _ => false end
                 else careful (Some e) l
      end
  | CFind _ _ _ found :: l =>
      isTimeoutError last &&
      match found with Some _ => match l with [] => true | _ => false end | None => careful None l end
  end.

(** What [handleSuccessfulPlacement] leaves behind. *)
Definition placed_as (now : Z) (id : string) (o' : Order.t) (w w' : State) : Prop :=
  o'.(Order.IndiraOrderID) = Some id /\ o'.(Order.Status) = StatusSubmitted /\
  if o'.(Order.IsSquareOffOrder) then w'.(xorders) = (sqlUpdate now o' w.(xorders)).1
  else w'.(xorders) = w.(xorders) /\ w'.(background) = w.(background) ++ [o'].

(** The outcome of an execution that made the calls [tr]. *)
Definition execution_outcome (now : Z) (tr : list Call) (w w' : State) (o' : Order.t)
    (r : option string) : Prop :=
  match r with
  | None => exists id, concat (map accepted tr) = [id] /\ placed_as now id o' w w'
  | Some _ => concat (map accepted tr) = []
  end.

Lemma repo_update_frame now o w :
  (repo_update now o w).1.(calls) = w.(calls) /\
  (repo_update now o w).1.(xorders) = (sqlUpdate now o w.(xorders)).1 /\
  (repo_update now o w).1.(background) = w.(background).
Proof. unfold repo_update. by destruct (sqlUpdate now o w.(xorders)) as [t e]. Qed.

Lemma publish_frame cfg id kind w :
  (publishOrderUpdate cfg id kind w).(calls) = w.(calls) /\
  (publishOrderUpdate cfg id kind w).(xorders) = w.(xorders) /\
  (publishOrderUpdate cfg id kind w).(background) = w.(background).
Proof. unfold publishOrderUpdate. by destruct (hasKafka cfg). Qed.

Lemma failOrder_spec cfg now o msg w w' o' r :
  failOrder cfg now o msg w = (w', o', r) -> w'.(calls) = w.(calls) /\ is_Some r.
Proof.
  unfold failOrder. intros E.
  destruct (repo_update_frame now (o <| Order.Status := StatusFailed |>
              <| Order.ErrorMessage := Some msg |>) w) as (Hc & _).
  destruct (repo_update _ _ w) as [w1 e]. injection E as <- <- <-. split; [|done].
  rewrite (proj1 (publish_frame _ _ _ _)). exact Hc.
Qed.

Lemma rejectOrder_spec cfg now o reason w w' o' r :
  rejectOrder cfg now o reason w = (w', o', r) -> w'.(calls) = w.(calls) /\ is_Some r.
Proof.
  unfold rejectOrder. intros E.
  destruct (repo_update_frame now (o <| Order.Status := StatusRejected |>
              <| Order.RejectionReason := Some reason |>) w) as (Hc & _).
  destruct (repo_update _ _ w) as [w1 e]. injection E as <- <- <-. split; [|done].
  rewrite (proj1 (publish_frame _ _ _ _)). exact Hc.
Qed.

Lemma submit_effects_frame cfg now o w :
  (submit_effects cfg now o w).(calls) = w.(calls) /\
  if o.(Order.IsSquareOffOrder)
  then (submit_effects cfg now o w).(xorders) = (sqlUpdate now o w.(xorders)).1
  else (submit_effects cfg now o w).(xorders) = w.(xorders) /\
       (submit_effects cfg now o w).(background) = w.(background) ++ [o].
Proof.
  destruct (repo_update_frame now o w) as (Hc & Ho & _). unfold submit_effects, publishOrderUpdate.
  by destruct (hasStatusSvc cfg), (hasBroadcaster cfg), (hasKafka cfg), (Order.IsSquareOffOrder o);
    cbn -[repo_update sqlUpdate]; rewrite ?Hc, ?Ho.
Qed.

Lemma handleSuccessful_spec cfg now o id w w' o' r :
  handleSuccessfulPlacement cfg now o id w = (w', o', r) ->
  w'.(calls) = w.(calls) /\ r = None /\ placed_as now id o' w w'.
Proof.
  unfold handleSuccessfulPlacement, placed_as. intros E.
  injection E as <- <- <-. destruct (submit_effects_frame cfg now
    (o <| Order.Status := StatusSubmitted |> <| Order.SubmittedAt := Some now |>
       <| Order.IndiraOrderID := Some id |>) w) as [Hc Hr]. by split_and!.
Qed.

Lemma reload_creds_frame uid auth w :
  (reload_creds uid auth w).1.(calls) = w.(calls) /\
  (reload_creds uid auth w).1.(xorders) = w.(xorders) /\
  (reload_creds uid auth w).1.(background) = w.(background).
Proof.
  unfold reload_creds. destruct (xcreds w) as [c|]; [|done].
  destruct (cache_Get _ _) as [c' [e|a]]; done.
Qed.

Lemma executionAuth_frame o w :
  (executionAuth o w).1.(calls) = w.(calls) /\
  (executionAuth o w).1.(xorders) = w.(xorders) /\
  (executionAuth o w).1.(background) = w.(background).
Proof.
  unfold executionAuth, cached_creds.
  destruct (if o.(Order.UserID) =?s "" then None else auth_of o); [done|].
  destruct (xcreds w) as [c|]; [|done]. by destruct (cache_Get o.(Order.UserID) c) as [c' [e|a]].
Qed.

(** The outcome and the calls do not depend on what the state held before. *)
Lemma placed_as_frame now id o' w1 w w' :
  w1.(xorders) = w.(xorders) -> w1.(background) = w.(background) ->
  placed_as now id o' w1 w' -> placed_as now id o' w w'.
Proof. unfold placed_as. by intros -> ->. Qed.

Lemma execution_outcome_frame now tr w1 w w' o' r :
  w1.(xorders) = w.(xorders) -> w1.(background) = w.(background) ->
  execution_outcome now tr w1 w' o' r -> execution_outcome now tr w w' o' r.
Proof.
  intros Ho Hb. destruct r; [done|]. intros (id & Ha & Hs). exists id. eauto using placed_as_frame.
Qed.

(** Putting one call that brought nothing before a run. *)
Lemma outcome_cons now c tr w w' o' r :
  accepted c = [] -> execution_outcome now tr w w' o' r ->
  execution_outcome now (c :: tr) w w' o' r.
Proof. intros Hc. unfold execution_outcome. cbn. by rewrite Hc. Qed.

Lemma placeAttempts_spec cfg now cancelled n : forall attempt lastErr auth o w w' o' r,
  placeAttempts cfg now cancelled n attempt lastErr auth o w = (w', o', r) ->
  exists tr, w'.(calls) = w.(calls) ++ tr /\ (placements tr <= n)%nat /\
    careful lastErr tr = true /\ execution_outcome now tr w w' o' r.
Proof.
  induction n as [|n IH]; intros attempt lastErr auth o w w' o' r; cbn [placeAttempts].
  { intros E. apply failOrder_spec in E as (Hc & [e ->]). exists []. by rewrite app_nil_r. }
  case_match; [intros [= <- <- <-]; exists []; rewrite app_nil_r; cbn; split_and!; (done || lia)|].
  destruct (if sessionExpired lastErr then reload_creds o.(Order.UserID) auth w else (w, auth))
    as [w1 auth1] eqn:Hre.
  assert (w1.(calls) = w.(calls) /\ w1.(xorders) = w.(xorders) /\ w1.(background) = w.(background))
    as (Rc & Ro & Rb).
  { pose proof (reload_creds_frame o.(Order.UserID) auth w) as F.
    destruct (sessionExpired lastErr); [by rewrite Hre in F|by simplify_eq]. }
  assert (Hplace : forall w2 last,
    w2.(xorders) = w.(xorders) -> w2.(background) = w.(background) -> isTimeoutError last = false ->
    (let '(w3, a) := place o auth1 w2 in
     match a with
     | inr id => handleSuccessfulPlacement cfg now o id w3
     | inl e => if e.(errBusiness) then failOrder cfg now o e.(errText) w3
                else placeAttempts cfg now cancelled n (S attempt) (Some e) auth1
                       (o <| Order.RetryCount := int32 (o.(Order.RetryCount) + 1)%Z |>) w3
     end) = (w', o', r) ->
    exists tr, w'.(calls) = w2.(calls) ++ tr /\ (placements tr <= S n)%nat /\
      careful last tr = true /\ execution_outcome now tr w w' o' r).
  { intros w2 last Ho Hb Hlast. unfold place.
    destruct (execPlace o auth1 (xbroker w2)) as [b [e|id]]; cbn -[handleSuccessfulPlacement failOrder].
    - destruct (errBusiness e) eqn:Hbus; intros E.
      + apply failOrder_spec in E as (Hc & [msg ->]). exists [CPlace o auth1 (inl e)].
        cbn in Hc |- *. rewrite Hlast, Hbus. split_and!; (done || lia).
      + apply IH in E as (tr & Hc & Hn & Hg & Hout). exists (CPlace o auth1 (inl e) :: tr).
        cbn in Hc |- *. rewrite Hlast, Hbus, Hc, <- app_assoc. split_and!; [done|lia|done|].
        apply outcome_cons; [done|]. revert Hout. by apply execution_outcome_frame.
    - intros E. apply handleSuccessful_spec in E as (Hc & -> & Hs). exists [CPlace o auth1 (inr id)].
      cbn in Hc |- *. rewrite Hlast. split_and!; [done|lia|done|]. exists id. split; [done|].
      revert Hs. by apply placed_as_frame. }
  destruct (isTimeoutError lastErr) eqn:Ht.
  - unfold find_recent. destruct (execBook auth1 (xbroker w1)) as [b book].
    destruct (FindRecentOrder _ _ _ book) as [id|]; intros E.
    + apply handleSuccessful_spec in E as (Hc & -> & Hs).
      exists [CFind o.(Order.Symbol) o.(Order.OrderSide) o.(Order.Quantity) (Some id)].
      cbn in Hc |- *. rewrite Ht, <- Rc. split_and!; [done|lia|done|]. exists id. split; [done|].
      revert Hs. by apply placed_as_frame.
    + apply (Hplace _ None) in E as (tr & Hc & Hn & Hg & Hout); [|done..].
      exists (CFind o.(Order.Symbol) o.(Order.OrderSide) o.(Order.Quantity) None :: tr).
      cbn in Hc |- *. rewrite Ht, Hc, <- app_assoc, <- Rc. split_and!; [done|lia|done|].
      by apply outcome_cons.
  - intros E. apply (Hplace _ lastErr) in E as (tr & Hc & Hn & Hg & Hout); [|done..].
    exists tr. by rewrite Hc, Rc.
Qed.

(** C7: executing a live order asks the broker for at most [maxRetries + 1]
    placements and never goes on after an acceptance or a business rejection,
    nor places again after a timeout before the order book was searched.  It
    returns without an error exactly when one call brought an order id, which
    is then the id of the order, SUBMITTED; the row of a square-off order is
    written before the return.  With an error, no call of the run was accepted. *)
Theorem live_execution_accepts_once (cfg : ExecConfig) (env : ExecEnv) (o o' : Order.t)
    (w w' : State) (r : option string) :
  o.(Order.IsPaperTrade) = false ->
  ExecuteOrder cfg env o w = (w', o', r) ->
  exists tr, w'.(calls) = w.(calls) ++ tr /\ (placements tr <= S cfg.(maxRetries))%nat /\
    careful None tr = true /\ execution_outcome env.(xnow) tr w w' o' r.
Proof.
  intros Hlive. unfold ExecuteOrder. rewrite Hlive.
  destruct (negb (Order.RiskApproved o)).
  { intros E. apply rejectOrder_spec in E as (Hc & [e ->]).
    exists []. rewrite app_nil_r. cbn. split_and!; (done || lia). }
  cbv zeta. set (o1 := o <| Order.Status := StatusPending |>).
  destruct (executionAuth_frame o1 w) as (Fc & Fo & Fb).
  destruct (executionAuth o1 w) as [w1 [msg|auth]]; cbn in Fc, Fo, Fb; intros E.
  - apply failOrder_spec in E as (Hc & [e ->]). exists [].
    rewrite app_nil_r, Hc. cbn. split_and!; (done || lia).
  - apply placeAttempts_spec in E as (tr & Hc & Hn & Hg & Hout). exists tr.
    rewrite Hc, Fc. split_and!; [done..|]. revert Hout. by apply execution_outcome_frame.
Qed.

(** ** What an execution leaves in the order and in the table *)

(** The parts of an order no executor writes. *)
Definition keeps_identity (o o' : Order.t) : Prop :=
  o'.(Order.OrderID) = o.(Order.OrderID) /\ o'.(Order.OrderSide) = o.(Order.OrderSide) /\
  o'.(Order.StrategyID) = o.(Order.StrategyID) /\ o'.(Order.StockCode) = o.(Order.StockCode) /\
  o'.(Order.Exchange) = o.(Order.Exchange).

Lemma failOrder_order cfg now o msg w w' o' r :
  failOrder cfg now o msg w = (w', o', r) ->
  o' = o <| Order.Status := StatusFailed |> <| Order.ErrorMessage := Some msg |> /\
  w'.(xorders) = (sqlUpdate now o' w.(xorders)).1.
Proof.
  unfold failOrder. intros E.
  destruct (repo_update_frame now (o <| Order.Status := StatusFailed |>
              <| Order.ErrorMessage := Some msg |>) w) as (_ & Ho & _).
  destruct (repo_update _ _ w) as [w1 e]. injection E as <- <- <-. split; [done|].
  rewrite (proj1 (proj2 (publish_frame _ _ _ _))). exact Ho.
Qed.

Lemma rejectOrder_order cfg now o reason w w' o' r :
  rejectOrder cfg now o reason w = (w', o', r) ->
  o' = o <| Order.Status := StatusRejected |> <| Order.RejectionReason := Some reason |> /\
  w'.(xorders) = (sqlUpdate now o' w.(xorders)).1.
Proof.
  unfold rejectOrder. intros E.
  destruct (repo_update_frame now (o <| Order.Status := StatusRejected |>
              <| Order.RejectionReason := Some reason |>) w) as (_ & Ho & _).
  destruct (repo_update _ _ w) as [w1 e]. injection E as <- <- <-. split; [done|].
  rewrite (proj1 (proj2 (publish_frame _ _ _ _))). exact Ho.
Qed.

(** The loop changes status, ids, times, messages and the retry count only; when
    it gives up, the last thing it writes is the failed row. *)
Lemma placeAttempts_order cfg now cancelled n : forall attempt lastErr auth o w w' o' r,
  placeAttempts cfg now cancelled n attempt lastErr auth o w = (w', o', r) ->
  keeps_identity o o' /\
  (is_Some r -> (forall k, cancelled k = false) ->
   o'.(Order.Status) = StatusFailed /\ w'.(xorders) = (sqlUpdate now o' w.(xorders)).1).
Proof.
  assert (Hfail : forall o w w' o' r msg, failOrder cfg now o msg w = (w', o', r) ->
    keeps_identity o o' /\ (is_Some r -> (forall k, cancelled k = false) ->
    o'.(Order.Status) = StatusFailed /\ w'.(xorders) = (sqlUpdate now o' w.(xorders)).1)).
  { intros o w w' o' r msg E. apply failOrder_order in E as [-> Hx]. by split. }
  assert (Hsucc : forall o w w' o' r id, handleSuccessfulPlacement cfg now o id w = (w', o', r) ->
    keeps_identity o o' /\ (is_Some r -> (forall k, cancelled k = false) ->
    o'.(Order.Status) = StatusFailed /\ w'.(xorders) = (sqlUpdate now o' w.(xorders)).1)).
  { intros o w w' o' r id E. injection E as _ <- <-. split; [done|]. by intros [? ?]. }
  induction n as [|n IH]; intros attempt lastErr auth o w w' o' r; cbn [placeAttempts]; [by apply Hfail|].
  destruct (negb (Nat.eqb attempt 0) && cancelled attempt) eqn:Hc.
  { intros [= <- <- <-]. split; [done|]. intros _ Hn. rewrite Hn in Hc. by rewrite andb_false_r in Hc. }
  destruct (if sessionExpired lastErr then reload_creds o.(Order.UserID) auth w else (w, auth))
    as [w1 auth1] eqn:Hre.
  assert (Ro : w1.(xorders) = w.(xorders)).
  { pose proof (reload_creds_frame o.(Order.UserID) auth w) as F.
    destruct (sessionExpired lastErr); [by rewrite Hre in F; apply F|by simplify_eq]. }
  destruct (if isTimeoutError lastErr then find_recent o auth1 w1 else (w1, None))
    as [w2 found] eqn:Hfind.
  assert (Fo : w2.(xorders) = w.(xorders)).
  { rewrite <- Ro. destruct (isTimeoutError lastErr); [|by simplify_eq]. unfold find_recent in Hfind.
    destruct (execBook auth1 _) as [b book]. by simplify_eq/=. }
  rewrite <- Fo. destruct found as [id|]; [by apply Hsucc|].
  unfold place. destruct (execPlace o auth1 _) as [b [e|id]]; [|intros E; by apply Hsucc in E].
  destruct (errBusiness e); intros E; [by apply Hfail in E|by apply IH in E].
Qed.

Lemma RouteOrder_identity cfg env o w w' o' r :
  RouteOrder cfg env o w = (w', o', r) -> keeps_identity o o'.
Proof.
  assert (Hp : ExecutePaperOrder cfg env.(xnow) env.(xltp) env.(xpaperID) o w = (w', o', r) ->
    keeps_identity o o').
  { unfold ExecutePaperOrder. intros E. injection E as _ <- _.
    by destruct (flt fzero (safePrice (Order.Price o)) && _). }
  unfold RouteOrder, ExecuteOrder. destruct (Order.IsPaperTrade o); [done|].
  destruct (negb (Order.RiskApproved o)); [by intros [-> _]%rejectOrder_order|]. cbv zeta.
  destruct (executionAuth _ w) as [w1 [msg|auth]]; [by intros [-> _]%failOrder_order|].
  intros E. by apply placeAttempts_order in E as [Hi _].
Qed.

(** An execution that fails leaves a terminal status in the row, when the
    context does not end and the write succeeds. *)
Lemma RouteOrder_failure cfg env o w w' o' e row :
  RouteOrder cfg env o w = (w', o', Some e) -> (forall k, env.(xcancelled) k = false) ->
  w.(xorders).(faults) = [] -> w.(xorders).(rows) !! o.(Order.OrderID) = Some row ->
  exists row', w'.(xorders).(faults) = [] /\ w'.(xorders).(rows) !! o.(Order.OrderID) = Some row' /\
    IsTerminalStatus row'.(Order.Status) = true.
Proof.
  intros E Hn Hfa Hrow.
  assert (Hgoal : forall o1, o1.(Order.OrderID) = o.(Order.OrderID) ->
    IsTerminalStatus o1.(Order.Status) = true ->
    w'.(xorders) = (sqlUpdate env.(xnow) o1 w.(xorders)).1 ->
    exists row', w'.(xorders).(faults) = [] /\ w'.(xorders).(rows) !! o.(Order.OrderID) = Some row' /\
      IsTerminalStatus row'.(Order.Status) = true).
  { intros o1 Hid Ht ->. unfold sqlUpdate, sqlUpdateRow, driver. rewrite Hfa, Hid, Hrow.
    cbn -[updated_row]. rewrite lookup_insert_eq. by eexists. }
  revert E. unfold RouteOrder, ExecuteOrder. destruct (Order.IsPaperTrade o); [done|].
  destruct (negb (Order.RiskApproved o)).
  { intros [-> Hx]%rejectOrder_order. by refine (Hgoal _ _ _ Hx). }
  cbv zeta. set (o1 := o <| Order.Status := StatusPending |>).
  destruct (executionAuth_frame o1 w) as (_ & Fo & _).
  destruct (executionAuth o1 w) as [w1 [msg|auth]]; cbn in Fo; rewrite <- Fo in Hgoal.
  - intros [-> Hx]%failOrder_order. by refine (Hgoal _ _ _ Hx).
  - intros E. apply placeAttempts_order in E as [Hi Hx]. destruct Hx as [Hst Hx]; [done|done|].
    eapply Hgoal; [apply Hi| |exact Hx]. by rewrite Hst.
Qed.

(** An order without what an execution may write into it. *)
Definition request_view (o : Order.t) : Order.t :=
  o <| Order.Status := "" |> <| Order.IndiraOrderID := None |> <| Order.SubmittedAt := None |>
    <| Order.ErrorMessage := None |> <| Order.RejectionReason := None |> <| Order.RetryCount := 0%Z |>.

Definition same_request (o o' : Order.t) : Prop := request_view o' = request_view o.

Definition places_like (o : Order.t) (c : Call) : Prop :=
  match c with CPlace o2 _ _ => same_request o o2 | CFind _ _ _ _ => True end.

Lemma places_like_trans o o1 l : same_request o o1 -> Forall (places_like o1) l -> Forall (places_like o) l.
Proof.
  intros Ho Hf. eapply Forall_impl; [exact Hf|]. intros [o2 a r|]; [|done]. unfold places_like, same_request in *. congruence.
Qed.

(** Every placement asks for the order that was given, and nothing else of it
    changes. *)
Lemma placeAttempts_request cfg now cancelled n : forall attempt lastErr auth o w w' o' r,
  placeAttempts cfg now cancelled n attempt lastErr auth o w = (w', o', r) ->
  same_request o o' /\ exists tr, w'.(calls) = w.(calls) ++ tr /\ Forall (places_like o) tr.
Proof.
  induction n as [|n IH]; intros attempt lastErr auth o w w' o' r; cbn [placeAttempts].
  { intros E. pose proof (failOrder_order _ _ _ _ _ _ _ _ E) as [-> _].
    apply failOrder_spec in E as [Hc _]. split; [done|]. exists []. by rewrite app_nil_r. }
  case_match; [intros [= <- <- <-]; split; [done|]; exists []; by rewrite app_nil_r|].
  destruct (if sessionExpired lastErr then reload_creds o.(Order.UserID) auth w else (w, auth))
    as [w1 auth1] eqn:Hre.
  assert (Rc : w1.(calls) = w.(calls)).
  { pose proof (reload_creds_frame o.(Order.UserID) auth w) as F.
    destruct (sessionExpired lastErr); [by rewrite Hre in F; apply F|by simplify_eq]. }
  destruct (if isTimeoutError lastErr then find_recent o auth1 w1 else (w1, None))
    as [w2 found] eqn:Hfind.
  assert (Fc : exists tr, w2.(calls) = w.(calls) ++ tr /\ Forall (places_like o) tr).
  { rewrite <- Rc. destruct (isTimeoutError lastErr);
      [|injection Hfind as <- _; exists []; by rewrite app_nil_r]. unfold find_recent in Hfind.
    destruct (execBook auth1 _) as [b book]. injection Hfind as <- _. cbn. eexists. split; [done|].
    by constructor. }
  destruct Fc as (tr0 & Fc & F0).
  destruct found as [id|].
  { intros E. pose proof (handleSuccessful_spec _ _ _ _ _ _ _ _ E) as [Hc _].
    injection E as _ <- _. split; [done|]. exists tr0. by rewrite Hc. }
  unfold place. destruct (execPlace o auth1 _) as [b [e|id]].
  2:{ intros E. pose proof (handleSuccessful_spec _ _ _ _ _ _ _ _ E) as [Hc _].
      injection E as _ <- _. split; [done|]. exists (tr0 ++ [CPlace o auth1 (inr id)]).
      cbn in Hc. rewrite Hc, Fc, app_assoc. split; [done|]. apply Forall_app. split; [done|]. by constructor. }
  destruct (errBusiness e); intros E.
  - pose proof (failOrder_order _ _ _ _ _ _ _ _ E) as [-> _]. apply failOrder_spec in E as [Hc _].
    split; [done|]. exists (tr0 ++ [CPlace o auth1 (inl e)]). cbn in Hc.
    rewrite Hc, Fc, app_assoc. split; [done|]. apply Forall_app. split; [done|]. by constructor.
  - apply IH in E as (Ho & tr & Hc & Hf). split; [exact Ho|].
    exists (tr0 ++ CPlace o auth1 (inl e) :: tr). cbn in Hc.
    rewrite Hc, Fc, <- !app_assoc. split; [done|]. apply Forall_app. split; [done|]. by constructor.
Qed.

Lemma ExecuteOrder_request cfg env o w w' o' r :
  o.(Order.IsPaperTrade) = false -> ExecuteOrder cfg env o w = (w', o', r) ->
  same_request o o' /\ exists tr, w'.(calls) = w.(calls) ++ tr /\ Forall (places_like o) tr.
Proof.
  intros Hlive. unfold ExecuteOrder. rewrite Hlive. destruct (negb (Order.RiskApproved o)).
  { intros E. pose proof (rejectOrder_order _ _ _ _ _ _ _ _ E) as [-> _].
    apply rejectOrder_spec in E as [Hc _]. split; [done|]. exists []. by rewrite app_nil_r. }
  cbv zeta. set (o1 := o <| Order.Status := StatusPending |>).
  destruct (executionAuth_frame o1 w) as (Fc & _).
  destruct (executionAuth o1 w) as [w1 [msg|auth]]; cbn in Fc; rewrite <- Fc; intros E.
  - pose proof (failOrder_order _ _ _ _ _ _ _ _ E) as [-> _]. apply failOrder_spec in E as [Hc _].
    split; [done|]. exists []. by rewrite app_nil_r.
  - by apply placeAttempts_request in E.
Qed.

(** What the updates of one order in the orders table keep, its execution keeps:
    they are updates of that order, and write its paper flag. *)
Definition row_key (o : Order.t) : bool * uuid := (o.(Order.IsPaperTrade), o.(Order.OrderID)).

Section Tables.

Context (Q : OrdersTable -> Prop) (k : bool * uuid)
  (HQ : forall now o t, row_key o = k -> Q t -> Q (sqlUpdate now o t).1).

Lemma retryDB_tables n now o t : row_key o = k -> Q t -> Q (retryDB n (sqlUpdate now o) t).1.
Proof.
  intros Hb. revert t. induction n as [|n IH]; intros t Ht; [done|]. cbn.
  pose proof (HQ now o t Hb Ht) as H1.
  destruct (sqlUpdate now o t) as [t1 [e|]]; [|done]. destruct n; [done|by apply IH].
Qed.

Lemma handleSuccessful_tables cfg now o id w :
  row_key o = k -> Q w.(xorders) -> Q (handleSuccessfulPlacement cfg now o id w).1.1.(xorders).
Proof.
  intros Hb Hw. unfold handleSuccessfulPlacement. cbn. match goal with |- context [submit_effects cfg now ?o1 w] => set (o1' := o1) end.
  destruct (submit_effects_frame cfg now o1' w) as [_ Hx].
  destruct (Order.IsSquareOffOrder o1'); [|destruct Hx as [Hx _]]; rewrite Hx; auto.
Qed.

Lemma failOrder_tables cfg now o msg w :
  row_key o = k -> Q w.(xorders) -> Q (failOrder cfg now o msg w).1.1.(xorders).
Proof.
  intros Hb Hw. destruct (failOrder cfg now o msg w) as [[w' o'] r] eqn:E.
  apply failOrder_order in E as [-> Hx]. cbn. rewrite Hx. auto.
Qed.

Lemma placeAttempts_tables cfg now cancelled n : forall attempt lastErr auth o w,
  row_key o = k ->
  Q w.(xorders) -> Q (placeAttempts cfg now cancelled n attempt lastErr auth o w).1.1.(xorders).
Proof.
  induction n as [|n IH]; intros attempt lastErr auth o w Hb Hw; cbn [placeAttempts];
    [by apply failOrder_tables|].
  case_match; [done|].
  destruct (if sessionExpired lastErr then reload_creds o.(Order.UserID) auth w else (w, auth))
    as [w1 auth1] eqn:Hre.
  assert (Q1 : Q w1.(xorders)).
  { pose proof (reload_creds_frame o.(Order.UserID) auth w) as F.
    destruct (sessionExpired lastErr); [rewrite Hre in F; cbn in F|by simplify_eq].
    by rewrite (proj1 (proj2 F)). }
  destruct (if isTimeoutError lastErr then find_recent o auth1 w1 else (w1, None))
    as [w2 found] eqn:Hfind.
  assert (Q2 : Q w2.(xorders)).
  { destruct (isTimeoutError lastErr); [|by simplify_eq]. unfold find_recent in Hfind.
    destruct (execBook auth1 _) as [b' book]. by injection Hfind as <- _. }
  destruct found as [id|]; [by apply handleSuccessful_tables|].
  unfold place. destruct (execPlace o auth1 _) as [b' [e|id]]; [|by apply handleSuccessful_tables].
  destruct (errBusiness e); [by apply failOrder_tables|by apply IH].
Qed.

Lemma ExecuteOrder_row cfg env o w :
  row_key o = k -> Q w.(xorders) -> Q (ExecuteOrder cfg env o w).1.1.(xorders).
Proof.
  intros Hb Hw. unfold ExecuteOrder. destruct (negb (Order.RiskApproved o)).
  { destruct (rejectOrder cfg env.(xnow) o _ w) as [[w' o'] r] eqn:E.
    apply rejectOrder_order in E as [-> Hx]. cbn. rewrite Hx. auto. }
  destruct (Order.IsPaperTrade o) eqn:Ep.
  { unfold ExecutePaperOrder. cbn -[retryDB].
    rewrite (proj1 (proj2 (publish_frame _ _ _ _))). apply retryDB_tables; [|done].
    rewrite <- Hb. unfold row_key. rewrite Ep. by destruct (flt fzero _ && _). }
  cbv zeta. set (o1 := o <| Order.Status := StatusPending |>).
  assert (Hb1 : row_key o1 = k) by exact Hb.
  destruct (executionAuth_frame o1 w) as (_ & Fo & _).
  destruct (executionAuth o1 w) as [w1 [msg|auth]]; cbn in Fo; rewrite <- Fo in Hw;
    [by apply failOrder_tables|by apply placeAttempts_tables].
Qed.

End Tables.

Lemma ExecuteOrder_tables (Q : OrdersTable -> Prop) (b : bool)
    (HQ : forall now o t, o.(Order.IsPaperTrade) = b -> Q t -> Q (sqlUpdate now o t).1) cfg env o w :
  o.(Order.IsPaperTrade) = b -> Q w.(xorders) -> Q (ExecuteOrder cfg env o w).1.1.(xorders).
Proof.
  intros Hb. apply (ExecuteOrder_row Q (row_key o)); [|done].
  intros now o2 t Hk. apply HQ. injection Hk as Hp _. by rewrite Hp.
Qed.

(** An execution touches no row but that of its order. *)
Lemma ExecuteOrder_other_rows cfg env o w i :
  i <> o.(Order.OrderID) ->
  (ExecuteOrder cfg env o w).1.1.(xorders).(rows) !! i = w.(xorders).(rows) !! i.
Proof.
  intros Hi. apply (ExecuteOrder_row (fun t => t.(rows) !! i = w.(xorders).(rows) !! i) (row_key o));
    [|done|done].
  intros now o2 t [= _ Hid] <-. unfold sqlUpdate.
  destruct (sqlUpdateRow_rows "failed to update order" o2.(Order.OrderID) (updated_row now o2) t) as [-> | ->];
    [done|]. apply lookup_alter_ne. congruence.
Qed.

(** What [live_execution_accepts_once] says of the number of acceptances. *)
Lemma ExecuteOrder_accepts cfg env o w w' o' r :
  o.(Order.IsPaperTrade) = false -> ExecuteOrder cfg env o w = (w', o', r) ->
  exists tr, w'.(calls) = w.(calls) ++ tr /\ Forall (places_like o) tr /\
    match r with None => exists id, concat (map accepted tr) = [id] | Some _ => concat (map accepted tr) = [] end.
Proof.
  intros Hlive E. destruct (ExecuteOrder_request _ _ _ _ _ _ _ Hlive E) as (_ & tr & Hc & Hf).
  exists tr. split; [done|]. split; [done|]. revert E. unfold ExecuteOrder. rewrite Hlive.
  destruct (negb (Order.RiskApproved o)).
  { intros E. apply rejectOrder_spec in E as (Hc' & [e ->]).
    rewrite Hc in Hc'. assert (tr = []) as -> by (by apply app_inv_head with w.(calls); rewrite app_nil_r). done. }
  cbv zeta. set (o1 := o <| Order.Status := StatusPending |>).
  destruct (executionAuth_frame o1 w) as (Fc & _ & _).
  destruct (executionAuth o1 w) as [w1 [msg|auth]]; cbn in Fc; intros E.
  - apply failOrder_spec in E as (Hc' & [e ->]). rewrite Hc, Fc in Hc'.
    assert (tr = []) as -> by (by apply app_inv_head with w.(calls); rewrite app_nil_r). done.
  - apply placeAttempts_spec in E as (tr' & Hc' & _ & _ & Hout).
    rewrite Hc, Fc in Hc'. apply app_inv_head in Hc' as <-. unfold execution_outcome in Hout.
    destruct r; [done|]. destruct Hout as (id & Ha & _). eauto.
Qed.

(** With credentials at hand the execution of an approved live order asks the
    broker to place it, with these credentials, before anything else. *)
Lemma ExecuteOrder_places cfg env o w w1 auth w' o' r :
  o.(Order.RiskApproved) = true -> o.(Order.IsPaperTrade) = false ->
  executionAuth (o <| Order.Status := StatusPending |>) w = (w1, inr auth) ->
  ExecuteOrder cfg env o w = (w', o', r) ->
  exists a tr, w'.(calls) = w.(calls) ++ CPlace (o <| Order.Status := StatusPending |>) auth a :: tr.
Proof.
  intros Hr Hp Ha. unfold ExecuteOrder. rewrite Hr, Hp. cbv zeta.
  set (x := o <| Order.Status := StatusPending |>) in *.
  destruct (executionAuth_frame x w) as (Fc & _). rewrite Ha in *. cbn in Fc. rewrite <- Fc.
  cbn [negb placeAttempts Nat.eqb andb]. unfold sessionExpired, isTimeoutError, place.
  destruct (execPlace x auth (xbroker w1)) as [b a]. intros E. exists a.
  set (w2 := w1 <| xbroker := b |> <| calls := w1.(calls) ++ [CPlace x auth a] |>) in *.
  assert (Hend : forall tr, w'.(calls) = w2.(calls) ++ tr -> exists tr, w'.(calls) = w1.(calls) ++ CPlace x auth a :: tr).
  { intros tr ->. exists tr. unfold w2. cbn. by rewrite <- app_assoc. }
  destruct a as [e|id].
  - destruct (errBusiness e); [apply failOrder_spec in E as [Hc _]; apply (Hend []); by rewrite app_nil_r|].
    apply placeAttempts_spec in E as (tr & Hc & _). by apply (Hend tr).
  - apply handleSuccessful_spec in E as [Hc _]. apply (Hend []). by rewrite app_nil_r.
Qed.

(** ** Paper fills *)

(** A leg that was below (above) the signal price is below (above) the fill. *)
Definition keeps_side (s l : f64) (p p' : option f64) : Prop :=
  match p, p' with
  | Some x, Some x' =>
      (fle x s = true -> fle x' l = true) /\ (fle s x = true -> fle l x' = true)
  | None, None => True
  | _, _ => False
  end.

Definition leg_price (p : option f64) : Prop := forall x, p = Some x -> fnonneg x = true.

Lemma rescale_keeps_side s l p :
  fpos s = true -> fpos l = true -> leg_price p -> keeps_side s l p (rescale s l p).
Proof.
  intros Hs Hl Hp. destruct p as [x|]; [|done]. specialize (Hp x eq_refl). cbn.
  pose proof (fdiv_self s Hs) as H1. pose proof (fpos_nonneg s Hs) as Hs'.
  destruct (flt fzero x) eqn:Hx; cbn.
  - split; intros Hle.
    + apply fmul_le_self; [done|by apply fdiv_nonneg|]. rewrite <- H1. by apply fdiv_mono.
    + apply fmul_ge_self; [done|by apply fdiv_nonneg|]. rewrite <- H1. by apply fdiv_mono.
  - destruct x as [sx|[]| |[] m e]; try done.
    split; intros Hle; [by apply fle_zero_nonneg, fpos_nonneg|].
    by destruct s as [| | |[] ms es].
Qed.

Lemma feq_keeps_side s l p : feq l s = true -> keeps_side s l p p.
Proof.
  intros [H1 H2]%feq_fle. destruct p as [x|]; [|done]. cbn. split; intros Hx; eauto with go.
Qed.

(** A paper order is filled in full at the market price (at the signal price
    when there is none), whatever the database does, and the levels of its exit
    legs move with the fill: a leg at or below the signal price is at or below
    the fill, a leg at or above it is at or above the fill, and an unset leg
    stays unset. *)
Theorem paper_legs_keep_side (cfg : ExecConfig) (now : Z) (ltp : option f64) (paperID : string)
    (o o' : Order.t) (w w' : State) (r : option string) (s : f64) :
  o.(Order.Price) = Some s -> fpos s = true ->
  (forall l, ltp = Some l -> fnonneg l = true /\ fle l max_price = true) ->
  leg_price o.(Order.StopLoss) -> leg_price o.(Order.TakeProfit) ->
  ExecutePaperOrder cfg now ltp paperID o w = (w', o', r) ->
  exists l, r = None /\ o'.(Order.FilledPrice) = Some l /\
    l = match positive ltp with Some l => l | None => s end /\
    o'.(Order.Status) = StatusFilled /\ o'.(Order.FilledQuantity) = o.(Order.Quantity) /\
    keeps_side s l o.(Order.StopLoss) o'.(Order.StopLoss) /\
    keeps_side s l o.(Order.TakeProfit) o'.(Order.TakeProfit).
Proof.
  intros Hprice Hs Hltp Hsl Htp. unfold ExecutePaperOrder. rewrite Hprice. change (safePrice (Some s)) with s.
  set (l := match positive ltp with Some l => l | None => s end).
  assert (Hl : fpos l = true).
  { unfold l, positive. destruct ltp as [x|]; [|done]. destruct (flt fzero x) eqn:Hx; [|done].
    destruct (Hltp x eq_refl) as [Hn Hm]. by destruct x as [|[]| |[] m e]. }
  assert (Hs0 : flt fzero s = true) by (by destruct s as [| | |[] ms es]).
  rewrite Hs0. intros E. exists l. clearbody l. destruct (feq l s) eqn:He; cbn in E.
  - injection E as _ <- <-. repeat split; try done; by apply feq_keeps_side.
  - injection E as _ <- <-. repeat split; try done; by apply rescale_keeps_side.
Qed.
End Executor.

(** ** Concrete runs *)

(** A broker that answers placements from a script, accepting when the script is
    over.  Every order that reaches it, answered or timed out, is in its book. *)
Record BookBroker : Type := mkBookBroker {
  answers : list (PlaceError + string);
  orderBook : list BookEntry
}.

Definition book_place (o : Order.t) (a : AuthContext) (b : BookBroker) : BookBroker * (PlaceError + string) :=
  let entry id := mkBook id (BuildSymbol (symbol_of o)) (MapOrderSide o.(Order.OrderSide))
                    o.(Order.Quantity) in
  match b.(answers) with
  | [] => (mkBookBroker [] (b.(orderBook) ++ [entry "B9"]), inr "B9")
  | inr id :: l => (mkBookBroker l (b.(orderBook) ++ [entry id]), inr id)
  | inl e :: l =>
      (mkBookBroker l (if e.(errTimeout) then b.(orderBook) ++ [entry "B1"] else b.(orderBook)), inl e)
  end.

#[export] Instance book_broker : ExecutionBroker BookBroker := {
  execPlace := book_place;
  execBook := fun _ b => (b, Some b.(orderBook))
}.

Definition net_error : PlaceError := mkPlaceError "connection refused" false false.
Definition time_out : PlaceError := mkPlaceError "context deadline exceeded" false true.

Definition sample_entry : Order.t :=
  Order.zero <| Order.OrderID := 7%N |> <| Order.UserID := "U1" |> <| Order.Symbol := "TCS" |>
    <| Order.StockCode := 11536%Z |> <| Order.Exchange := "NSE" |> <| Order.OrderSide := "BUY" |>
    <| Order.OrderType := "LIMIT" |> <| Order.Quantity := 10%Z |> <| Order.Price := Some (of_Z 100) |>
    <| Order.StopLoss := Some (of_Z 99) |> <| Order.TakeProfit := Some (of_Z 102) |>
    <| Order.RiskApproved := true |> <| Order.BearerToken := Some "t" |>
    <| Order.AppId := Some "a" |> <| Order.Source := Some "WEB" |>.

Definition sample_exec (script : list (PlaceError + string)) : ExecState BookBroker :=
  mkExec (mkBookBroker script []) None (mkTable {[ 7%N := sample_entry ]} []) [] [] [] [] [] [] [].

Definition sample_cfg (n : nat) : ExecConfig := mkExecConfig n true true true.

Definition sample_env : ExecEnv := mkExecEnv 5 (fun _ => false) None "PAPER-1".

(** A timeout on a placement that did reach the broker: the next attempt finds
    the order in the book and does not place it again. *)
Definition found_run : ExecState BookBroker * Order.t * option string :=
  ExecuteOrder (sample_cfg 3) sample_env sample_entry (sample_exec [inl net_error; inl time_out]).

Lemma live_execution_accepts_once_witness :
  exists tr, calls found_run.1.1 = [] ++ tr /\ (placements tr <= 4)%nat /\ careful None tr = true /\
    execution_outcome 5 tr (sample_exec [inl net_error; inl time_out]) found_run.1.1 found_run.1.2
      found_run.2.
Proof.
  refine (live_execution_accepts_once (sample_cfg 3) sample_env sample_entry _
            (sample_exec [inl net_error; inl time_out]) _ _ eq_refl _).
  unfold found_run. by destruct (ExecuteOrder _ _ _ _) as [[w o] r].
Defined.

Example found_run_ends : found_run.2 = None /\ placements (calls found_run.1.1) = 2%nat.
Proof. vm_compute. split; reflexivity. Qed.

(** The book is not searched after the last attempt: an order that reached the
    broker before that attempt timed out ends FAILED while it is live there. *)
Definition lost_run : ExecState BookBroker * Order.t * option string :=
  ExecuteOrder (sample_cfg 1) sample_env sample_entry (sample_exec [inl net_error; inl time_out]).

Lemma last_timeout_fails_live_order :
  lost_run.1.2.(Order.Status) = StatusFailed /\ lost_run.1.2.(Order.IndiraOrderID) = None /\
  (exists e, lost_run.1.1.(xbroker).(orderBook) = [e] /\
     book_match "TCS" "BUY" 10 e = true) /\
  option_map Order.Status (lost_run.1.1.(xorders).(rows) !! 7%N) = Some StatusFailed.
Proof. vm_compute. split_and!; try reflexivity. eexists. split; reflexivity. Qed.

Definition sample_paper : Order.t := sample_entry <| Order.IsPaperTrade := true |>.

Lemma paper_legs_keep_side_witness :
  exists l, (None : option string) = None /\ Some (of_Z 101) = Some l /\
    l = match positive (Some (of_Z 101)) with Some l => l | None => of_Z 100 end /\
    StatusFilled = StatusFilled /\ 10%Z = 10%Z /\
    keeps_side (of_Z 100) l (Some (of_Z 99)) (Some (of_Z 101 * (of_Z 99 / of_Z 100))%f64) /\
    keeps_side (of_Z 100) l (Some (of_Z 102)) (Some (of_Z 101 * (of_Z 102 / of_Z 100))%f64).
Proof.
  refine (paper_legs_keep_side (sample_cfg 3) 5 (Some (of_Z 101)) "P1" sample_paper _
            (sample_exec []) _ None (of_Z 100) eq_refl _ _ _ _ eq_refl);
    try (intros l [= <-]; try split); vm_compute; reflexivity.
Defined.
