(* ===== verification/PriceMonitor.v ===== *)
(** * The price monitor

    [trade-execution/internal/scheduler/price_monitor.go]: orders that wait for
    a price.  The watch entries are pointers into a heap, since the index and
    the queued jobs share them; the index has 32 shards, each with a map by order
    id and one by stock key.  Everything behind a lock, every atomic operation on
    an entry and every call of a collaborator is one step ([Event]); the jobs of
    the channel and the goroutines are explicit, so that a run is any
    interleaving of them.  The repository and the executor are an interface
    ([MonitorDeps]).  The WebSocket client is always set, logging and the
    notifications to Kafka are left out. *)

From stdpp Require Import base gmap strings list fin_maps.
From Stdlib Require Import ZArith Lia Ascii.
From S2P Require Import Prelude GoFloat FloatOrder GoStrings Orders Indira Signals.

Open Scope string_scope.
Open Scope list_scope.
Open Scope go_scope.

(** ** Data *)

Definition maxTriggerAttempts : Z := 3.
Definition shardCount : nat := 32.
Definition evalCapacity : nat := 4096.

(** A pointer to a [watchEntry]. *)
Abbreviation ptr := nat.

Module WatchEntry.
Record t : Type := mk {
  order : Order.t;
  targetPrice : f64;
  maxPrice : f64;
  triggered : bool;
  triggerAttempts : Z;
  stockKey : string;
  onAfterFill : option AfterFill
}.

#[global] Instance eta_entry : Eta t := fun e =>
  mk e.(order) e.(targetPrice) e.(maxPrice) e.(triggered) e.(triggerAttempts) e.(stockKey)
     e.(onAfterFill).
End WatchEntry.

Record Shard : Type := mkShard {
  byOrder : gmap uuid ptr;
  byStock : gmap string (list ptr)
}.

(** The monitor: the heap of entries, the index and the calls made to the
    WebSocket client ([true] subscribes). *)
Record Monitor : Type := mkMonitor {
  heap : gmap ptr WatchEntry.t;
  nextPtr : ptr;
  shards : list Shard;
  wsCalls : list (bool * string)
}.

#[export] Instance eta_monitor : Eta Monitor := fun m =>
  mkMonitor m.(heap) m.(nextPtr) m.(shards) m.(wsCalls).

Definition NewPriceMonitor : Monitor := mkMonitor ∅ 0 (replicate shardCount (mkShard ∅ ∅)) [].

(** FNV-1a over the bytes of the key, modulo the number of shards. *)
Fixpoint fnv1a (h : Z) (key : string) : Z :=
  match key with
  | EmptyString => h
  | String c key =>
      fnv1a (Z.modulo (Z.lxor h (Z.of_nat (nat_of_ascii c)) * 16777619) (2 ^ 32)) key
  end.

Definition shardFor (key : string) : nat := Z.to_nat (Z.modulo (fnv1a 2166136261 key) 32).

Definition stockKey (exchange : string) (token : Z) : string :=
  (ToLower exchange ++ ":" ++ Itoa token)%string.

Definition key_of (o : Order.t) : string := stockKey o.(Order.Exchange) o.(Order.StockCode).

Definition ws_token (o : Order.t) : string := Itoa o.(Order.StockCode).

Definition stock_list (s : Shard) (key : string) : list ptr := default [] (s.(byStock) !! key).

(** ** The index *)

(** [Watch]: an order id already watched in the shard of its stock is skipped. *)
Definition Watch (o : Order.t) (target : f64) (after : option AfterFill) (m : Monitor) : Monitor :=
  let key := key_of o in
  match m.(shards) !! shardFor key with
  | None => m
  | Some s =>
      match s.(byOrder) !! o.(Order.OrderID) with
      | Some _ => m
      | None =>
          let p := m.(nextPtr) in
          let e := WatchEntry.mk o target (default fzero o.(Order.MaxMonitorPrice)) false 0 key after in
          let s' := mkShard (<[o.(Order.OrderID) := p]> s.(byOrder))
                      (<[key := stock_list s key ++ [p]]> s.(byStock)) in
          mkMonitor (<[p := e]> m.(heap)) (S p) (<[shardFor key := s']> m.(shards))
            (m.(wsCalls) ++ [(true, ws_token o)])
      end
  end.

(** The first element that satisfies [f] is removed. *)
Fixpoint remove_first {A} (f : A -> bool) (l : list A) : list A :=
  match l with
  | [] => []
  | a :: l => if f a then l else a :: remove_first f l
  end.

Definition has_id (h : gmap ptr WatchEntry.t) (id : uuid) (p : ptr) : bool :=
  match h !! p with
  | Some e => (e.(WatchEntry.order).(Order.OrderID) =? id)%N
  | None => false
  end.

(** Both maps of a shard without the order [id], whose entry is [e]. *)
Definition remove_entry (h : gmap ptr WatchEntry.t) (id : uuid) (e : WatchEntry.t) (s : Shard) : Shard :=
  let key := e.(WatchEntry.stockKey) in
  let l := remove_first (has_id h id) (stock_list s key) in
  mkShard (delete id s.(byOrder))
    (match l with [] => delete key s.(byStock) | _ => <[key := l]> s.(byStock) end).

(** The shard that watches an order, with the pointer. *)
Fixpoint find_shard (id : uuid) (l : list Shard) (i : nat) : option (nat * Shard * ptr) :=
  match l with
  | [] => None
  | s :: l => match s.(byOrder) !! id with
              | Some p => Some (i, s, p)
              | None => find_shard id l (S i)
              end
  end.

Definition Unwatch (id : uuid) (m : Monitor) : Monitor :=
  match find_shard id m.(shards) 0 with
  | None => m
  | Some (i, s, p) =>
      match m.(heap) !! p with
      | None => m
      | Some e =>
          m <| shards := <[i := remove_entry m.(heap) id e s]> m.(shards) |>
            <| wsCalls := m.(wsCalls) ++ [(false, ws_token e.(WatchEntry.order))] |>
      end
  end.

Definition of_strategy_entry (h : gmap ptr WatchEntry.t) (strategyID : string) (ip : uuid * ptr)
  : option (uuid * WatchEntry.t) :=
  match h !! ip.2 with
  | Some e => if e.(WatchEntry.order).(Order.StrategyID) =?s strategyID then Some (ip.1, e) else None
  | None => None
  end.

(** The entries of a strategy in a shard, in the order the map is walked. *)
Definition strategy_entries (h : gmap ptr WatchEntry.t) (strategyID : string) (s : Shard)
  : list (uuid * WatchEntry.t) := omap (of_strategy_entry h strategyID) (map_to_list s.(byOrder)).

(** [UnwatchByStrategy], with the number of orders removed. *)
Definition UnwatchByStrategy (strategyID : string) (m : Monitor) : Monitor * nat :=
  let gone s := strategy_entries m.(heap) strategyID s in
  let removed := concat (map gone m.(shards)) in
  (m <| shards := map (fun s => foldr (fun ie s => remove_entry m.(heap) ie.1 ie.2 s) s (gone s))
                    m.(shards) |>
     <| wsCalls := m.(wsCalls) ++ map (fun ie => (false, ws_token ie.2.(WatchEntry.order))) removed |>,
   length removed).

Definition WatchCount (m : Monitor) : nat :=
  foldr (fun s n => size s.(byOrder) + n)%nat 0%nat m.(shards).

(** [reloadFromDB] on the rows the query returned. *)
Definition reload_one (o : Order.t) (m : Monitor) : Monitor :=
  match o.(Order.Price) with None => m | Some p => Watch o p None m end.

Definition reloadFromDB (rows : string + list Order.t) (m : Monitor) : Monitor :=
  match rows with inl _ => m | inr l => foldl (fun m o => reload_one o m) m l end.

(** ** Snapshots *)

Record WatchSnapshot : Type := mkSnapshot {
  snapOrder : Order.t;        (** the identity, side, type, product and quantity *)
  snapTarget : f64;
  snapMax : f64;
  snapStopLoss : f64;
  snapTakeProfit : f64;
  snapTriggered : bool;
  snapAttempts : Z
}.

Definition snapshot_of (e : WatchEntry.t) : WatchSnapshot :=
  mkSnapshot e.(WatchEntry.order) e.(WatchEntry.targetPrice) e.(WatchEntry.maxPrice)
    (safePrice e.(WatchEntry.order).(Order.StopLoss)) (safePrice e.(WatchEntry.order).(Order.TakeProfit))
    e.(WatchEntry.triggered) e.(WatchEntry.triggerAttempts).

(** [GetWatchSnapshot]; the order inside a shard is unspecified. *)
Definition GetWatchSnapshot (userID : string) (m : Monitor) : list WatchSnapshot :=
  concat (map (fun s =>
    omap (fun ip => match m.(heap) !! ip.2 with
                    | Some e => if (userID =?s "") || (e.(WatchEntry.order).(Order.UserID) =?s userID)
                                then Some (snapshot_of e) else None
                    | None => None
                    end) (map_to_list s.(byOrder))) m.(shards)).

(** ** Prices *)

(** The condition of [evaluateEntry]: the target is reached ... *)
Definition conditionMet (e : WatchEntry.t) (ltp : f64) : bool :=
  if e.(WatchEntry.order).(Order.OrderSide) =?s "BUY" then fle e.(WatchEntry.targetPrice) ltp
  else fle ltp e.(WatchEntry.targetPrice).

(** ... and the bound is not passed. *)
Definition exceeded (e : WatchEntry.t) (ltp : f64) : bool :=
  flt fzero e.(WatchEntry.maxPrice) &&
  (if e.(WatchEntry.order).(Order.OrderSide) =?s "BUY" then flt e.(WatchEntry.maxPrice) ltp
   else flt ltp e.(WatchEntry.maxPrice)).

Definition fires (e : WatchEntry.t) (ltp : f64) : bool := conditionMet e ltp && negb (exceeded e ltp).

Definition is_triggered (m : Monitor) (p : ptr) : bool :=
  match m.(heap) !! p with Some e => e.(WatchEntry.triggered) | None => true end.

(** The non-blocking sends of a price to the entries of a stock that are not
    triggered yet. *)
Fixpoint fan_out_price (m : Monitor) (ltp : f64) (l : list ptr) (q : list (ptr * f64))
  : list (ptr * f64) :=
  match l with
  | [] => q
  | p :: l =>
      fan_out_price m ltp l
        (if is_triggered m p then q
         else if (length q <? evalCapacity)%nat then q ++ [(p, ltp)] else q)
  end.

Definition evaluateStock (key : string) (ltp : f64) (m : Monitor) (q : list (ptr * f64))
  : list (ptr * f64) :=
  match m.(shards) !! shardFor key with
  | None => q
  | Some s => fan_out_price m ltp (stock_list s key) q
  end.

Definition OnPriceUpdate (key : string) (ltp : f64) (m : Monitor) (q : list (ptr * f64))
  : list (ptr * f64) := if fle ltp fzero then q else evaluateStock key ltp m q.

(** The keys of all shards, each once. *)
Definition watched_keys (m : Monitor) : list string :=
  concat (map (fun s => (map_to_list s.(byStock)).*1) m.(shards)).

(** [checkPricesFallback]: [ws] is the cache of the WebSocket client when it is
    healthy, [redis] the answer to the batch query for some keys, [None] when it
    fails; the lists are in the order Go walks the maps. *)
Definition checkPricesFallback (ws : option (list (string * f64)))
    (redis : list string -> option (list (string * f64))) (m : Monitor) (q : list (ptr * f64))
  : list (ptr * f64) :=
  let keys := watched_keys m in
  let push l q := foldl (fun q kl => OnPriceUpdate kl.1 kl.2 m q) q l in
  match keys with
  | [] => q
  | _ =>
      let known := match ws with
                   | Some l => List.filter (fun kl => one_of kl.1 keys) l
                   | None => []
                   end in
      let missing := List.filter (fun k => negb (one_of k known.*1)) keys in
      let q := push known q in
      match missing with
      | [] => q
      | _ => match redis missing with Some l => push l q | None => q end
      end
  end.

(** ** The order that is sent *)

(** A leg that was set for the target price, moved to the limit price. *)
Definition rescale_leg (target limit tick : f64) (p : option f64) : option f64 :=
  match p with
  | Some x => if flt fzero x then Some (RoundToTickSize (limit * (x / target))%f64 tick) else p
  | None => None
  end.

(** The changes [triggerOrder] makes to the order; [tick] is the answer of the
    tick size lookup. *)
Definition prepare_trigger (tick : option f64) (e : WatchEntry.t) (ltp : f64) : Order.t :=
  let o := e.(WatchEntry.order) <| Order.OrderType := OrderTypeLimit |> in
  let o := if match e.(WatchEntry.onAfterFill) with Some _ => true | None => false end
              || (feq (safePrice o.(Order.StopLoss)) fzero && feq (safePrice o.(Order.TakeProfit)) fzero)
           then o <| Order.ProductType := "INTRADAY" |> else o in
  let tickSize := match positive tick with Some t => t | None => dec 5 2 end in
  let limit := RoundToTickSize (ltp * buffer)%f64 tickSize in
  let o := o <| Order.Price := Some limit |> in
  if flt fzero e.(WatchEntry.targetPrice) then
    o <| Order.StopLoss := rescale_leg e.(WatchEntry.targetPrice) limit tickSize o.(Order.StopLoss) |>
      <| Order.TakeProfit := rescale_leg e.(WatchEntry.targetPrice) limit tickSize o.(Order.TakeProfit) |>
  else o.

(** ** Collaborators *)

(** The executor and the repository over a state [W]; [None] is the nil error. *)
Class MonitorDeps (W : Type) := {
  executeFn : Order.t -> W -> W * Order.t * option string;
  repoGetByID : uuid -> W -> W * (string + Order.t);
  repoCancel : uuid -> W -> W;
  recordTrigger : uuid -> string -> W -> W;
  lookupTick : Order.t -> W -> option f64
}.

(** An executor leaves the identity, the side and the strategy of an order alone. *)
Definition same_identity (o o' : Order.t) : Prop :=
  o'.(Order.OrderID) = o.(Order.OrderID) /\ o'.(Order.OrderSide) = o.(Order.OrderSide) /\
  o'.(Order.StrategyID) = o.(Order.StrategyID) /\ o'.(Order.StockCode) = o.(Order.StockCode) /\
  o'.(Order.Exchange) = o.(Order.Exchange).

Class MonitorLaws (W : Type) `{MonitorDeps W} : Prop := {
  execute_identity o w w' o' r : executeFn o w = (w', o', r) -> same_identity o o'
}.

(** ** Runs *)

(** What is under way: a worker that took a job and saw the entry untriggered;
    the goroutine of a skipped entry, before and after its [Unwatch]; the
    goroutine of a triggered entry before its look at the database, before the
    executor is called and after it returned; a cancellation that has to write
    its row. *)
Inductive Task : Type :=
  | TDecide (p : ptr) (ltp : f64)
  | TSkip (p : ptr)
  | TSkipRow (id : uuid)
  | TCheck (p : ptr) (ltp : f64)
  | TExecute (p : ptr) (ltp : f64)
  | TSettle (p : ptr) (r : option string)
  | TCancelRow (id : uuid).

Record State (W : Type) : Type := mkState {
  mon : Monitor;
  evalCh : list (ptr * f64);
  tasks : list Task;
  world : W;
  executions : list (ptr * f64 * Order.t * option string);  (** calls of the executor *)
  afterFills : list (AfterFill * Order.t);                   (** calls of [onAfterFill] *)
  cancels : list uuid                                        (** [CancelWatch] that returned true *)
}.

Arguments mkState {W}. Arguments mon {W}. Arguments evalCh {W}. Arguments tasks {W}.
Arguments world {W}. Arguments executions {W}. Arguments afterFills {W}. Arguments cancels {W}.

#[export] Instance eta_state {W} : Eta (State W) := fun s =>
  mkState s.(mon) s.(evalCh) s.(tasks) s.(world) s.(executions) s.(afterFills) s.(cancels).

Definition set_entry {W} (p : ptr) (f : WatchEntry.t -> WatchEntry.t) (s : State W) : State W :=
  s <| mon := s.(mon) <| heap := alter f p s.(mon).(heap) |> |>.

Definition spawn {W} (t : Task) (s : State W) : State W := s <| tasks := s.(tasks) ++ [t] |>.

Definition unwatch {W} (id : uuid) (s : State W) : State W := s <| mon := Unwatch id s.(mon) |>.

Section Runs.

Context {W : Type} `{MonitorDeps W}.

Abbreviation St := (State W).

(** A worker that decided: skip, claim (the compare-and-swap) or nothing. *)
Definition decide_entry (p : ptr) (ltp : f64) (s : St) : St :=
  match s.(mon).(heap) !! p with
  | None => s
  | Some e =>
      if negb (conditionMet e ltp) then s
      else if exceeded e ltp then
        spawn (TSkip p) (set_entry p (fun e => e <| WatchEntry.triggered := true |>) s)
      else if e.(WatchEntry.triggered) then s
      else spawn (TCheck p ltp) (set_entry p (fun e => e <| WatchEntry.triggered := true |>) s)
  end.

(** [triggerOrder] up to the call of the executor. *)
Definition check_trigger (p : ptr) (ltp : f64) (s : St) : St :=
  match s.(mon).(heap) !! p with
  | None => s
  | Some e =>
      let id := e.(WatchEntry.order).(Order.OrderID) in
      let '(w, r) := repoGetByID id s.(world) in
      let s := s <| world := w |> in
      if match r with inr row => IsTerminalStatus row.(Order.Status) | inl _ => false end
      then unwatch id s
      else
        let o := prepare_trigger (lookupTick e.(WatchEntry.order) s.(world)) e ltp in
        let s := set_entry p (fun e => e <| WatchEntry.order := o |>) s in
        spawn (TExecute p ltp) (s <| world := recordTrigger id "PRICE_MONITOR_TRIGGERED" s.(world) |>)
  end.

Definition execute_trigger (p : ptr) (ltp : f64) (s : St) : St :=
  match s.(mon).(heap) !! p with
  | None => s
  | Some e =>
      let '(w, o, r) := executeFn e.(WatchEntry.order) s.(world) in
      let s := set_entry p (fun e => e <| WatchEntry.order := o |>) (s <| world := w |>) in
      spawn (TSettle p r) (s <| executions := s.(executions) ++ [(p, ltp, o, r)] |>)
  end.

(** After the executor: a failed attempt is counted and the entry given free
    again, or given up; a success removes the entry. *)
Definition settle_trigger (p : ptr) (r : option string) (s : St) : St :=
  match s.(mon).(heap) !! p with
  | None => s
  | Some e =>
      let id := e.(WatchEntry.order).(Order.OrderID) in
      match r with
      | Some _ =>
          let attempts := int32 (e.(WatchEntry.triggerAttempts) + 1)%Z in
          let s := set_entry p (fun e => e <| WatchEntry.triggerAttempts := attempts |>) s in
          if (maxTriggerAttempts <=? attempts)%Z then unwatch id s
          else set_entry p (fun e => e <| WatchEntry.triggered := false |>) s
      | None =>
          let s := unwatch id s in
          match e.(WatchEntry.onAfterFill) with
          | None => s
          | Some a => s <| afterFills := s.(afterFills) ++ [(a, e.(WatchEntry.order))] |>
          end
      end
  end.

Definition monitor_task (t : Task) (s : St) : St :=
  match t with
  | TDecide p ltp => decide_entry p ltp s
  | TSkip p =>
      match s.(mon).(heap) !! p with
      | None => s
      | Some e => let id := e.(WatchEntry.order).(Order.OrderID) in
                  spawn (TSkipRow id) (unwatch id s)
      end
  | TSkipRow id => s <| world := recordTrigger id "PRICE_EXCEEDED_MAX" (repoCancel id s.(world)) |>
  | TCheck p ltp => check_trigger p ltp s
  | TExecute p ltp => execute_trigger p ltp s
  | TSettle p r => settle_trigger p r s
  | TCancelRow id => s <| world := recordTrigger id "PRICE_WATCH_CANCELLED" (repoCancel id s.(world)) |>
  end.

(** [CancelWatch] up to the write of the row. *)
Definition CancelWatch (id : uuid) (userID : string) (s : St) : St :=
  match find_shard id s.(mon).(shards) 0 with
  | None => s
  | Some (_, _, p) =>
      match s.(mon).(heap) !! p with
      | None => s
      | Some e =>
          if e.(WatchEntry.order).(Order.UserID) =?s userID
          then spawn (TCancelRow id) (unwatch id (s <| cancels := s.(cancels) ++ [id] |>))
          else s
      end
  end.

Inductive Event : Type :=
  | EvWatch (o : Order.t) (target : f64) (after : option AfterFill)
  | EvReload (l : list Order.t)
  | EvUnwatch (id : uuid)
  | EvUnwatchByStrategy (strategyID : string)
  | EvCancelWatch (id : uuid) (userID : string)
  | EvPrice (key : string) (ltp : f64)
  | EvFallback (ws : option (list (string * f64))) (redis : list string -> option (list (string * f64)))
  | EvTake                              (** a worker receives a job *)
  | EvTask (i : nat)                    (** the [i]-th task runs its next step *)
  | EvWorld (w : W).                    (** something else changes the world *)

Definition step_event (s : St) (ev : Event) : St :=
  match ev with
  | EvWatch o target after => s <| mon := Watch o target after s.(mon) |>
  | EvReload l => s <| mon := reloadFromDB (inr l) s.(mon) |>
  | EvUnwatch id => unwatch id s
  | EvUnwatchByStrategy sid => s <| mon := (UnwatchByStrategy sid s.(mon)).1 |>
  | EvCancelWatch id userID => CancelWatch id userID s
  | EvPrice key ltp => s <| evalCh := OnPriceUpdate key ltp s.(mon) s.(evalCh) |>
  | EvFallback ws redis => s <| evalCh := checkPricesFallback ws redis s.(mon) s.(evalCh) |>
  | EvTake =>
      match s.(evalCh) with
      | [] => s
      | (p, ltp) :: q =>
          let s := s <| evalCh := q |> in
          if is_triggered s.(mon) p then s else spawn (TDecide p ltp) s
      end
  | EvTask i =>
      match s.(tasks) !! i with
      | None => s
      | Some t => monitor_task t (s <| tasks := delete i s.(tasks) |>)
      end
  | EvWorld w => s <| world := w |>
  end.

Definition start (w : W) : St := mkState NewPriceMonitor [] [] w [] [] [].

Definition runEvents (l : list Event) (s : St) : St := foldl step_event s l.

End Runs.
