(* ===== verification/PriceWatch.v ===== *)
(** * The index of the price monitor refines a map

    The two maps of the 32 shards of [PriceMonitor.v] agree in every reachable
    state, and together they behave like one finite map from order ids to watch
    entries: a watch inserts, an unwatch deletes, the count is the size, and a
    price of a stock reaches exactly the entries of that stock. *)

From stdpp Require Import base gmap strings list fin_maps fin_sets.
From Stdlib Require Import ZArith Lia.
From S2P Require Import Prelude GoFloat FloatOrder GoStrings Orders Indira Signals PriceMonitor.

Open Scope string_scope.
Open Scope list_scope.
Open Scope go_scope.

Abbreviation Heap := (gmap ptr WatchEntry.t).

Abbreviation id_of e := (e.(WatchEntry.order).(Order.OrderID)).

(** ** Removing the first match *)

Lemma remove_first_elem {A} (f : A -> bool) l p q :
  NoDup l -> p ∈ l -> (forall a, a ∈ l -> f a = true <-> a = p) ->
  q ∈ remove_first f l <-> q ∈ l /\ q <> p.
Proof.
  induction l as [|a l IH]; intros Hnd Hp Hf; [by apply elem_of_nil in Hp|].
  apply NoDup_cons in Hnd as [Ha Hnd]. cbn. destruct (f a) eqn:Hfa.
  - apply Hf in Hfa; [|by left]. subst a. rewrite elem_of_cons. split; [|by intros [[->|?] ?]].
    intros Hq. split; [by right|]. by intros ->.
  - assert (a <> p) by (intros ->; by rewrite (proj2 (Hf p ltac:(by left)) eq_refl) in Hfa).
    apply elem_of_cons in Hp as [->|Hp]; [done|].
    rewrite !elem_of_cons, IH by (auto; intros b Hb; apply Hf; by right).
    split; [intros [->|[? ?]]; auto|intros [[->|?] ?]; auto].
Qed.

Lemma remove_first_NoDup {A} (f : A -> bool) l : NoDup l -> NoDup (remove_first f l).
Proof.
  assert (Hsub : forall q k, q ∈ remove_first f k -> q ∈ k).
  { intros q k. induction k as [|b k IHk]; cbn; [done|]. destruct (f b); [by right|].
    rewrite !elem_of_cons. tauto. }
  induction l as [|a l IH]; intros Hnd; [done|]. apply NoDup_cons in Hnd as [Ha Hnd].
  cbn. destruct (f a); [done|]. apply NoDup_cons. split; [|auto]. intros Hin. eauto.
Qed.

(** ** The invariant *)

Section Index.

(** Each order id belongs to one stock. *)
Context (stock_of : uuid -> string).

(** The two maps of shard [i] agree. *)
Record shard_ok (h : Heap) (i : nat) (s : Shard) : Prop := {
  by_order_ok id p : s.(byOrder) !! id = Some p ->
    exists e, h !! p = Some e /\ id_of e = id /\ e.(WatchEntry.stockKey) = stock_of id /\
      shardFor (stock_of id) = i /\ p ∈ stock_list s (stock_of id);
  by_stock_ok k l : s.(byStock) !! k = Some l -> l <> [] /\ NoDup l;
  listed_ok k p : p ∈ stock_list s k ->
    exists e, h !! p = Some e /\ e.(WatchEntry.stockKey) = k /\ s.(byOrder) !! id_of e = Some p
}.

Record index_ok (m : Monitor) : Prop := {
  shards_32 : length m.(shards) = shardCount;
  heap_below p e : m.(heap) !! p = Some e -> (p < m.(nextPtr))%nat;
  shards_ok i s : m.(shards) !! i = Some s -> shard_ok m.(heap) i s
}.

Lemma stock_list_NoDup h i s k : shard_ok h i s -> NoDup (stock_list s k).
Proof.
  intros Hs. unfold stock_list. destruct (byStock s !! k) as [l|] eqn:E; [|constructor].
  by apply (by_stock_ok _ _ _ Hs k).
Qed.

(** The entries of the heap may change as long as they keep id and key. *)
Definition heap_grows (h h' : Heap) : Prop :=
  forall p e, h !! p = Some e ->
    exists e', h' !! p = Some e' /\ id_of e' = id_of e /\
      e'.(WatchEntry.stockKey) = e.(WatchEntry.stockKey).

Lemma shard_ok_grows h h' i s : heap_grows h h' -> shard_ok h i s -> shard_ok h' i s.
Proof.
  intros Hh [H1 H2 H3]. split; [| exact H2 |].
  - intros id p Hp. destruct (H1 id p Hp) as (e & He & Hid & Hk & Hi & Hin).
    destruct (Hh p e He) as (e' & He' & E1 & E2). exists e'. by rewrite E1, E2.
  - intros k p Hp. destruct (H3 k p Hp) as (e & He & Hk & Hb).
    destruct (Hh p e He) as (e' & He' & E1 & E2). exists e'. by rewrite E1, E2.
Qed.

Lemma empty_shard_ok h i : shard_ok h i (mkShard ∅ ∅).
Proof. split; cbn; [by intros ? ?|by intros ? ?|]. intros k p Hp. by apply elem_of_nil in Hp. Qed.

Lemma new_index_ok : index_ok NewPriceMonitor.
Proof.
  split; [done|by intros ? ?|]. intros i s Hs.
  apply lookup_replicate_1 in Hs as [-> _]. apply empty_shard_ok.
Qed.

(** The shard of a key exists. *)
Lemma shard_exists m key : index_ok m -> exists s, m.(shards) !! shardFor key = Some s.
Proof.
  intros Hm. apply lookup_lt_is_Some. rewrite (shards_32 _ Hm). unfold shardFor, shardCount.
  pose proof (Z.mod_pos_bound (fnv1a 2166136261 key) 32 ltac:(lia)). lia.
Qed.

(** *** Watching *)

Lemma watch_shard_ok h s o target after p :
  key_of o = stock_of o.(Order.OrderID) ->
  h !! p = None -> s.(byOrder) !! o.(Order.OrderID) = None ->
  shard_ok h (shardFor (key_of o)) s ->
  shard_ok (<[p := WatchEntry.mk o target (default fzero o.(Order.MaxMonitorPrice)) false 0 (key_of o) after]> h)
    (shardFor (key_of o))
    (mkShard (<[o.(Order.OrderID) := p]> s.(byOrder))
       (<[key_of o := stock_list s (key_of o) ++ [p]]> s.(byStock))).
Proof.
  intros Hkey Hp Hid [H1 H2 H3]. set (e := WatchEntry.mk o _ _ _ _ _ _).
  assert (Hfresh : forall k, p ∉ stock_list s k).
  { intros k Hin. destruct (H3 k p Hin) as (e' & He' & _). congruence. }
  assert (Hlist : forall k, stock_list (mkShard (<[o.(Order.OrderID) := p]> s.(byOrder))
       (<[key_of o := stock_list s (key_of o) ++ [p]]> s.(byStock))) k =
     if decide (k = key_of o) then stock_list s (key_of o) ++ [p] else stock_list s k).
  { intros k. unfold stock_list at 1. cbn. destruct (decide (k = key_of o)) as [->|Hne].
    - by rewrite lookup_insert_eq.
    - by rewrite lookup_insert_ne by done. }
  split.
  - intros id q. rewrite Hlist. cbn. destruct (decide (id = o.(Order.OrderID))) as [->|Hne].
    + rewrite lookup_insert_eq. intros [= <-]. exists e. rewrite lookup_insert_eq.
      rewrite <- Hkey, decide_True by done. repeat split. apply elem_of_app. right. by left.
    + rewrite lookup_insert_ne by done. intros Hq.
      destruct (H1 id q Hq) as (e' & He' & Hid' & Hk & Hi & Hin).
      assert (q <> p) by congruence. exists e'. rewrite lookup_insert_ne by done.
      repeat split; auto. destruct (decide _) as [E|]; [|done]. apply elem_of_app. left. by rewrite <- E.
  - cbn. intros k l. destruct (decide (k = key_of o)) as [->|Hne].
    + rewrite lookup_insert_eq. intros [= <-]. split; [by destruct (stock_list s (key_of o))|].
      apply NoDup_app. split; [|split; [|apply NoDup_singleton]].
      * unfold stock_list. destruct (byStock s !! key_of o) as [l|] eqn:E; [|constructor].
        by apply (H2 (key_of o)).
      * intros q Hq Hq'. apply list_elem_of_singleton in Hq' as ->. by apply (Hfresh (key_of o)).
    + rewrite lookup_insert_ne by done. apply H2.
  - intros k q. rewrite Hlist. cbn. destruct (decide (k = key_of o)) as [->|Hne].
    + intros [Hq|Hq%list_elem_of_singleton]%elem_of_app.
      * destruct (H3 _ q Hq) as (e' & He' & Hk & Hb). assert (q <> p) by congruence.
        exists e'. rewrite lookup_insert_ne by done. repeat split; auto.
        rewrite lookup_insert_ne; [done|]. intros E. rewrite <- E in Hb. congruence.
      * subst q. exists e. rewrite !lookup_insert_eq. done.
    + intros Hq. destruct (H3 _ q Hq) as (e' & He' & Hk & Hb). assert (q <> p) by congruence.
      exists e'. rewrite lookup_insert_ne by done. repeat split; auto.
      rewrite lookup_insert_ne; [done|]. intros E. rewrite <- E in Hb. congruence.
Qed.

Lemma heap_grows_insert (h : Heap) p e : h !! p = None -> heap_grows h (<[p := e]> h).
Proof. intros Hp q e' He'. assert (q <> p) by congruence. exists e'. by rewrite lookup_insert_ne. Qed.

Lemma watch_index_ok o target after m :
  key_of o = stock_of o.(Order.OrderID) -> index_ok m -> index_ok (Watch o target after m).
Proof.
  intros Hkey Hm. unfold Watch. destruct (shard_exists m (key_of o) Hm) as [s Hs]. rewrite Hs.
  destruct (byOrder s !! Order.OrderID o) as [q|] eqn:Hid; [done|].
  assert (Hp : m.(heap) !! m.(nextPtr) = None).
  { destruct (m.(heap) !! m.(nextPtr)) as [e|] eqn:E; [|done].
    pose proof (heap_below _ Hm _ _ E). lia. }
  destruct Hm as [H32 Hb Hsh]. split; cbn -[shardFor].
  - by rewrite length_insert.
  - intros p e. destruct (decide (p = m.(nextPtr))) as [->|Hne]; [lia|].
    rewrite lookup_insert_ne by done. intros He. pose proof (Hb p e He). lia.
  - intros i s' Hs'. destruct (decide (i = shardFor (key_of o))) as [->|Hne].
    + rewrite list_lookup_insert_eq in Hs' by (by eapply lookup_lt_Some). simplify_eq.
      apply watch_shard_ok; auto.
    + rewrite list_lookup_insert_ne in Hs' by done.
      eapply shard_ok_grows; [by apply heap_grows_insert|auto].
Qed.

(** *** Unwatching *)

Lemma remove_shard_ok h i s id p e :
  shard_ok h i s -> s.(byOrder) !! id = Some p -> h !! p = Some e ->
  shard_ok h i (remove_entry h id e s).
Proof.
  intros Hs Hid He. pose proof (stock_list_NoDup h i s e.(WatchEntry.stockKey) Hs) as Hnd.
  destruct Hs as [H1 H2 H3].
  destruct (H1 id p Hid) as (e' & He' & Eid & Hk & Hi & Hin). assert (e' = e) by congruence. subst e'.
  assert (Huniq : forall a, a ∈ stock_list s e.(WatchEntry.stockKey) -> has_id h id a = true <-> a = p).
  { intros a Ha. destruct (H3 _ a Ha) as (ea & Hea & _ & Hba). unfold has_id. rewrite Hea.
    split; [intros E%N.eqb_eq; congruence|]. intros ->. apply N.eqb_eq. congruence. }
  set (key := e.(WatchEntry.stockKey)) in *.
  assert (Hin' : p ∈ stock_list s key) by (by rewrite <- Hk in Hin).
  assert (Hlist : forall k, stock_list (remove_entry h id e s) k =
    if decide (k = key) then remove_first (has_id h id) (stock_list s key) else stock_list s k).
  { intros k. unfold remove_entry, stock_list at 1. fold key. cbn.
    destruct (remove_first _ _) as [|a l] eqn:Er; cbn; destruct (decide (k = key)) as [->|Hne].
    - by rewrite lookup_delete_eq.
    - by rewrite lookup_delete_ne.
    - by rewrite lookup_insert_eq.
    - by rewrite lookup_insert_ne. }
  assert (Hrem : forall k q, q ∈ stock_list (remove_entry h id e s) k <-> q ∈ stock_list s k /\ q <> p).
  { intros k q. rewrite Hlist. destruct (decide (k = key)) as [->|Hne].
    - by apply remove_first_elem.
    - split; [|tauto]. intros Hq. split; [done|]. intros ->.
      destruct (H3 k p Hq) as (ex & Hex & Hkx & _). apply Hne. unfold key. congruence. }
  split.
  - intros id' q. cbn. destruct (decide (id' = id)) as [->|Hne]; [by rewrite lookup_delete_eq|].
    rewrite lookup_delete_ne by done. intros Hq.
    destruct (H1 id' q Hq) as (e' & He'' & Eid' & Hk' & Hi' & Hin''). exists e'.
    repeat split; auto. apply Hrem. split; [done|]. intros ->. congruence.
  - intros k l Hl. assert (El : stock_list (remove_entry h id e s) k = l) by (unfold stock_list; by rewrite Hl).
    split.
    + intros ->. revert Hl. unfold remove_entry. fold key. cbn.
      destruct (remove_first _ _) as [|a l] eqn:Er; destruct (decide (k = key)) as [->|Hne].
      * by rewrite lookup_delete_eq.
      * rewrite lookup_delete_ne by done. intros Hl. by destruct (H2 _ _ Hl).
      * by rewrite lookup_insert_eq.
      * rewrite lookup_insert_ne by done. intros Hl. by destruct (H2 _ _ Hl).
    + rewrite <- El, Hlist. destruct (decide (k = key)) as [->|Hne]; [by apply remove_first_NoDup|].
      unfold stock_list. destruct (byStock s !! k) as [l'|] eqn:E; [|constructor]. by apply (H2 k).
  - intros k q [Hq Hne]%Hrem. destruct (H3 k q Hq) as (e' & He'' & Hk' & Hb). exists e'.
    repeat split; auto. cbn. rewrite lookup_delete_ne; [done|]. intros E. rewrite <- E in Hb. congruence.
Qed.

Lemma find_shard_some id l i j s p :
  find_shard id l i = Some (j, s, p) ->
  exists k, j = (i + k)%nat /\ l !! k = Some s /\ s.(byOrder) !! id = Some p.
Proof.
  revert i. induction l as [|a l IH]; intros i; cbn; [done|].
  destruct (byOrder a !! id) as [q|] eqn:E.
  - intros [= <- <- <-]. exists 0%nat. by rewrite Nat.add_0_r.
  - intros H. apply IH in H as (k & -> & Hk & Hp). exists (S k). by rewrite Nat.add_succ_r.
Qed.

Lemma unwatch_index_ok id m : index_ok m -> index_ok (Unwatch id m).
Proof.
  intros Hm. unfold Unwatch. destruct (find_shard id _ 0) as [[[i s] p]|] eqn:Hf; [|done].
  apply find_shard_some in Hf as (k & -> & Hs & Hp). rewrite Nat.add_0_l.
  destruct (m.(heap) !! p) as [e|] eqn:He; [|done].
  destruct Hm as [H32 Hb Hsh]. split; cbn -[remove_entry]; [by rewrite length_insert|done|].
  intros j s' Hs'. destruct (decide (j = k)) as [->|Hne].
  - rewrite list_lookup_insert_eq in Hs' by (by eapply lookup_lt_Some). simplify_eq.
    eapply remove_shard_ok; eauto.
  - rewrite list_lookup_insert_ne in Hs' by done. auto.
Qed.

Lemma strategy_entries_in h sid s id e :
  (id, e) ∈ strategy_entries h sid s ->
  exists p, s.(byOrder) !! id = Some p /\ h !! p = Some e /\
    e.(WatchEntry.order).(Order.StrategyID) = sid.
Proof.
  unfold strategy_entries. rewrite list_elem_of_omap. intros ([id' p] & Hin & Ho).
  apply elem_of_map_to_list in Hin. unfold of_strategy_entry in Ho. cbn in Ho.
  destruct (h !! p) as [e'|] eqn:E; [|done].
  destruct (String.eqb_spec (Order.StrategyID (WatchEntry.order e')) sid); [|done].
  simplify_eq. eauto.
Qed.

Lemma strategy_entries_NoDup h sid s : NoDup (strategy_entries h sid s).*1.
Proof.
  unfold strategy_entries. pose proof (NoDup_fst_map_to_list s.(byOrder)) as Hnd.
  induction (map_to_list s.(byOrder)) as [|[id p] l IH]; [constructor|].
  cbn in *. apply NoDup_cons in Hnd as [Hn Hnd]. specialize (IH Hnd).
  unfold of_strategy_entry at 1. cbn. destruct (h !! p) as [e|]; [|done].
  destruct (Order.StrategyID (WatchEntry.order e) =?s sid); [|done]. cbn.
  apply NoDup_cons. split; [|done].
  rewrite list_elem_of_fmap. intros ([id' e'] & E & Hin). cbn in E. subst id'.
  apply list_elem_of_omap in Hin as ([id2 p2] & Hin & Ho). unfold of_strategy_entry in Ho. cbn in Ho.
  apply Hn. apply list_elem_of_fmap. exists (id2, p2). split; [|done].
  destruct (h !! p2) as [e2|]; [|done].
  destruct (Order.StrategyID (WatchEntry.order e2) =?s sid); by inversion Ho.
Qed.

(** Removing distinct watched orders one after another. *)
Lemma remove_list_ok h i s (l : list (uuid * WatchEntry.t)) :
  shard_ok h i s -> NoDup l.*1 ->
  (forall id e, (id, e) ∈ l -> exists p, s.(byOrder) !! id = Some p /\ h !! p = Some e) ->
  let s' := foldr (fun ie s => remove_entry h ie.1 ie.2 s) s l in
  shard_ok h i s' /\ (size s'.(byOrder) + length l = size s.(byOrder))%nat /\
  forall id, s'.(byOrder) !! id = if decide (id ∈ l.*1) then None else s.(byOrder) !! id.
Proof.
  intros Hs Hnd Hl. induction l as [|[id e] l IH]; cbn -[remove_entry].
  { split_and!; [done|lia|]. intros id. by rewrite decide_False by apply not_elem_of_nil. }
  cbn in Hnd. apply NoDup_cons in Hnd as [Hn Hnd].
  destruct IH as (Hok & Hsz & Hlk); [done|intros; apply Hl; by right|]. cbv zeta in *.
  destruct (Hl id e ltac:(by left)) as (p & Hp & He).
  assert (Hp' : (foldr (fun ie s => remove_entry h ie.1 ie.2 s) s l).(byOrder) !! id = Some p)
    by (by rewrite Hlk, decide_False).
  split_and!.
  - by eapply remove_shard_ok.
  - cbn. rewrite map_size_delete_Some by (by eexists).
    assert (size (foldr (fun ie s => remove_entry h ie.1 ie.2 s) s l).(byOrder) <> 0)%nat.
    { intros E. apply map_size_empty_inv in E. by rewrite E in Hp'. }
    cbn in *. lia.
  - intros id'. cbn. destruct (decide (id' = id)) as [->|Hne].
    + rewrite lookup_delete_eq. by rewrite decide_True by (by left).
    + rewrite lookup_delete_ne by done. rewrite Hlk.
      destruct (decide (id' ∈ l.*1)) as [Hin|Hin].
      * by rewrite decide_True by (by right).
      * rewrite decide_False; [done|]. by intros [?|?]%elem_of_cons.
Qed.

Lemma strategy_remove_ok h i s sid :
  shard_ok h i s ->
  let gone := strategy_entries h sid s in
  let s' := foldr (fun ie s => remove_entry h ie.1 ie.2 s) s gone in
  shard_ok h i s' /\ (size s'.(byOrder) + length gone = size s.(byOrder))%nat /\
  forall id, s'.(byOrder) !! id = if decide (id ∈ gone.*1) then None else s.(byOrder) !! id.
Proof.
  intros Hs. apply remove_list_ok; [done|apply strategy_entries_NoDup|].
  intros id e (p & Hp & He & _)%strategy_entries_in. eauto.
Qed.

Lemma unwatch_strategy_index_ok sid m : index_ok m -> index_ok (UnwatchByStrategy sid m).1.
Proof.
  intros [H32 Hb Hsh]. split; cbn -[strategy_entries].
  - by rewrite length_map.
  - done.
  - intros i s' Hs'. rewrite list_lookup_fmap in Hs'. destruct (m.(shards) !! i) as [s|] eqn:Hs; [|done].
    injection Hs' as <-. by apply strategy_remove_ok, Hsh.
Qed.

Lemma heap_index_ok m h' :
  heap_grows m.(heap) h' -> (forall p e, h' !! p = Some e -> is_Some (m.(heap) !! p)) ->
  index_ok m -> index_ok (m <| heap := h' |>).
Proof.
  intros Hg Hd [H32 Hb Hsh]. split; cbn; [done| |].
  - intros p e He. destruct (Hd p e He) as [e' He']. eauto.
  - intros i s Hs. eapply shard_ok_grows; eauto.
Qed.

(** ** The map the index stands for *)

Definition abs (m : Monitor) : gmap uuid ptr :=
  foldr (fun s M => s.(byOrder) ∪ M) ∅ m.(shards).

Lemma abs_lookup id m : abs m !! id = (fun r => r.2) <$> find_shard id m.(shards) 0.
Proof.
  unfold abs. generalize 0%nat as i. induction m.(shards) as [|s l IH]; intros i; cbn; [done|].
  destruct (byOrder s !! id) as [p|] eqn:E; cbn.
  - by apply lookup_union_Some_l.
  - rewrite lookup_union_r by done. apply IH.
Qed.

(** The shard an order is watched in, if it is. *)
Definition home (m : Monitor) (id : uuid) : option Shard := m.(shards) !! shardFor (stock_of id).

Lemma find_shard_only id l i j :
  (forall k s p, l !! k = Some s -> s.(byOrder) !! id = Some p -> k = j) ->
  (fun r => r.2) <$> find_shard id l i = l !! j ≫= (fun s => s.(byOrder) !! id).
Proof.
  revert i j. induction l as [|s l IH]; intros i j Hj; cbn; [done|].
  destruct (byOrder s !! id) as [p|] eqn:E.
  - rewrite <- (Hj 0%nat s p eq_refl E). cbn. by rewrite E.
  - destruct j as [|j]; cbn.
    + rewrite E. destruct (find_shard id l (S i)) as [[[k t] q]|] eqn:Ef; [|done].
      apply find_shard_some in Ef as (k' & -> & Hk & Hq). by specialize (Hj (S k') t q Hk Hq).
    + apply IH. intros k t q Hk Hq. specialize (Hj (S k) t q Hk Hq). lia.
Qed.

Lemma abs_home id m : index_ok m -> abs m !! id = home m id ≫= (fun s => s.(byOrder) !! id).
Proof.
  intros Hm. rewrite abs_lookup. apply find_shard_only. intros k s p Hs Hp.
  by destruct (by_order_ok _ _ _ (shards_ok _ Hm k s Hs) id p Hp) as (e & _ & _ & _ & <- & _).
Qed.

(** The entries a price of [key] is offered to. *)
Definition watchers (m : Monitor) (key : string) : list ptr :=
  match m.(shards) !! shardFor key with Some s => stock_list s key | None => [] end.

Lemma watchers_NoDup m key : index_ok m -> NoDup (watchers m key).
Proof.
  intros Hm. unfold watchers. destruct (m.(shards) !! shardFor key) as [s|] eqn:Hs; [|constructor].
  eapply stock_list_NoDup, (shards_ok _ Hm), Hs.
Qed.

Lemma watchers_spec m key p :
  index_ok m ->
  p ∈ watchers m key <->
  exists id e, abs m !! id = Some p /\ m.(heap) !! p = Some e /\ e.(WatchEntry.stockKey) = key.
Proof.
  intros Hm. unfold watchers. destruct (shard_exists m key Hm) as [s Hs]. rewrite Hs.
  pose proof (shards_ok _ Hm _ _ Hs) as Hok. split.
  - intros Hin. destruct (listed_ok _ _ _ Hok key p Hin) as (e & He & Hk & Hb).
    exists (id_of e), e. split; [|done]. rewrite abs_home by done. unfold home.
    destruct (by_order_ok _ _ _ Hok _ _ Hb) as (e' & He' & _ & _ & -> & _). by rewrite Hs.
  - intros (id & e & Ha & He & Hk). rewrite abs_home in Ha by done. unfold home in Ha.
    destruct (m.(shards) !! shardFor (stock_of id)) as [t|] eqn:Ht; [|done]. cbn in Ha.
    destruct (by_order_ok _ _ _ (shards_ok _ Hm _ _ Ht) _ _ Ha) as (e' & He' & _ & Hk' & _ & Hin).
    assert (e' = e) by congruence. subst e'. rewrite <- Hk' in Ht, Hin. rewrite Hk in Ht, Hin.
    by simplify_eq.
Qed.

Lemma disjoint_size (l : list Shard) :
  (forall i j s t id p q, l !! i = Some s -> l !! j = Some t ->
     s.(byOrder) !! id = Some p -> t.(byOrder) !! id = Some q -> i = j) ->
  foldr (fun s n => size s.(byOrder) + n)%nat 0%nat l =
  size (foldr (fun s M => s.(byOrder) ∪ M) (∅ : gmap uuid ptr) l).
Proof.
  induction l as [|s l IH]; intros Hd; cbn; [done|].
  assert (Hdis : s.(byOrder) ##ₘ foldr (fun s M => s.(byOrder) ∪ M) (∅ : gmap uuid ptr) l).
  { assert (Hall : Forall (fun t => s.(byOrder) ##ₘ t.(byOrder)) l).
    { apply Forall_lookup. intros j t Ht. apply map_disjoint_spec. intros id p q Hp Hq.
      by specialize (Hd 0%nat (S j) s t id p q eq_refl Ht Hp Hq). }
    clear IH Hd. induction Hall as [|t l Ht _ IH]; cbn; [apply map_disjoint_empty_r|].
    by apply map_disjoint_union_r. }
  rewrite map_size_disj_union by done. f_equal. apply IH.
  intros i j t u id p q Ht Hu Hp Hq. specialize (Hd (S i) (S j) t u id p q Ht Hu Hp Hq). lia.
Qed.

Lemma count_abs m : index_ok m -> WatchCount m = size (abs m).
Proof.
  intros Hm. apply disjoint_size. intros i j s t id p q Hs Ht Hp Hq.
  destruct (by_order_ok _ _ _ (shards_ok _ Hm _ _ Hs) _ _ Hp) as (_ & _ & _ & _ & <- & _).
  by destruct (by_order_ok _ _ _ (shards_ok _ Hm _ _ Ht) _ _ Hq) as (_ & _ & _ & _ & <- & _).
Qed.

Lemma watch_abs o target after m :
  key_of o = stock_of o.(Order.OrderID) -> index_ok m ->
  abs (Watch o target after m) =
  match abs m !! o.(Order.OrderID) with
  | Some _ => abs m
  | None => <[o.(Order.OrderID) := m.(nextPtr)]> (abs m)
  end.
Proof.
  intros Hkey Hm. pose proof (watch_index_ok o target after m Hkey Hm) as Hm'.
  pose proof (abs_home o.(Order.OrderID) m Hm) as Ha. unfold home in Ha. rewrite <- Hkey in Ha.
  unfold Watch in *. destruct (m.(shards) !! shardFor (key_of o)) as [s|] eqn:Hs.
  2:{ rewrite Ha. cbn. by destruct (shard_exists m (key_of o) Hm) as [s Hs']; rewrite Hs' in Hs. }
  cbn in Ha. destruct (byOrder s !! Order.OrderID o) as [q|]; [by rewrite Ha|]. rewrite Ha.
  apply map_eq. intros id. rewrite abs_home by done. unfold home. cbn -[shardFor].
  destruct (decide (id = o.(Order.OrderID))) as [->|Hne].
  - rewrite <- Hkey, list_lookup_insert_eq by (by eapply lookup_lt_Some). cbn.
    by rewrite !lookup_insert_eq.
  - rewrite lookup_insert_ne by done. rewrite abs_home by done. unfold home.
    destruct (decide (shardFor (stock_of id) = shardFor (key_of o))) as [->|Hi].
    + rewrite list_lookup_insert_eq by (by eapply lookup_lt_Some). rewrite Hs. cbn.
      by rewrite lookup_insert_ne.
    + by rewrite list_lookup_insert_ne.
Qed.

Lemma unwatch_abs id m : index_ok m -> abs (Unwatch id m) = delete id (abs m).
Proof.
  intros Hm. pose proof (unwatch_index_ok id m Hm) as Hm'.
  pose proof (abs_lookup id m) as Ha. unfold Unwatch in *.
  destruct (find_shard id _ 0) as [[[i s] p]|] eqn:Hf; cbn in Ha.
  2:{ by rewrite delete_id. }
  apply find_shard_some in Hf as (k & -> & Hs & Hp). rewrite Nat.add_0_l in *.
  destruct (by_order_ok _ _ _ (shards_ok _ Hm _ _ Hs) _ _ Hp) as (e & He & _ & _ & Hi & _).
  rewrite He in *. apply map_eq. intros id'. rewrite abs_home by done. unfold home.
  cbn -[shardFor remove_entry]. destruct (decide (id' = id)) as [->|Hne].
  - rewrite Hi, list_lookup_insert_eq by (by eapply lookup_lt_Some). cbn.
    by rewrite !lookup_delete_eq.
  - rewrite lookup_delete_ne by done. rewrite abs_home by done. unfold home.
    destruct (decide (shardFor (stock_of id') = k)) as [E|E].
    + rewrite E, list_lookup_insert_eq by (by eapply lookup_lt_Some). rewrite Hs. cbn.
      by rewrite lookup_delete_ne.
    + by rewrite list_lookup_insert_ne.
Qed.

(** The strategy of an entry. *)
Definition strategy_at (h : Heap) (p : ptr) : option string :=
  (fun e => e.(WatchEntry.order).(Order.StrategyID)) <$> h !! p.

Lemma strategy_abs sid m :
  index_ok m ->
  abs (UnwatchByStrategy sid m).1 =
    filter (fun ip => strategy_at m.(heap) ip.2 <> Some sid) (abs m) /\
  (size (abs (UnwatchByStrategy sid m).1) + (UnwatchByStrategy sid m).2 = size (abs m))%nat.
Proof.
  intros Hm. pose proof (unwatch_strategy_index_ok sid m Hm) as Hm'. split.
  - apply map_eq. intros id. rewrite abs_home, map_lookup_filter, abs_home by done. unfold home.
    cbn -[strategy_entries shardFor]. rewrite list_lookup_fmap.
    destruct (m.(shards) !! shardFor (stock_of id)) as [s|] eqn:Hs; [|done]. cbn -[strategy_entries].
    pose proof (shards_ok _ Hm _ _ Hs) as Hok.
    rewrite (proj2 (proj2 (strategy_remove_ok _ _ _ sid Hok))).
    destruct (byOrder s !! id) as [p|] eqn:Hp; cbn; [|by case_decide].
    destruct (by_order_ok _ _ _ Hok _ _ Hp) as (e & He & _).
    assert (Hiff : id ∈ (strategy_entries m.(heap) sid s).*1 <-> strategy_at m.(heap) p = Some sid).
    { unfold strategy_at. rewrite He. cbn. rewrite list_elem_of_fmap. split.
      - intros ([id' e'] & -> & Hin). cbn in Hp.
        apply strategy_entries_in in Hin as (p' & Hp' & He' & Hst). simplify_eq. done.
      - intros [= Hst]. exists (id, e). split; [done|]. unfold strategy_entries.
        apply list_elem_of_omap. exists (id, p). rewrite elem_of_map_to_list. split; [done|].
        unfold of_strategy_entry. cbn. by rewrite He, Hst, String.eqb_refl. }
    destruct (decide (id ∈ _)) as [Hin|Hin].
    + rewrite option_guard_False; [done|]. intros Hn. by apply Hn, Hiff.
    + rewrite option_guard_True; [done|]. intros Hn. by apply Hin, Hiff.
  - rewrite <- !count_abs by done. unfold WatchCount. cbn -[strategy_entries].
    assert (Hall : Forall (fun s => exists i, shard_ok m.(heap) i s) m.(shards)).
    { apply Forall_lookup. intros i s Hs. exists i. by apply (shards_ok _ Hm). }
    clear Hm Hm'. induction Hall as [|s l [i Hs] _ IH]; cbn -[strategy_entries]; [done|].
    rewrite length_app. pose proof (proj1 (proj2 (strategy_remove_ok _ _ _ sid Hs))) as Hsz.
    cbv zeta in Hsz. lia.
Qed.

Lemma reload_index_ok l m :
  Forall (fun o => key_of o = stock_of o.(Order.OrderID)) l -> index_ok m ->
  index_ok (reloadFromDB (inr l) m).
Proof.
  intros Hl. revert m. induction Hl as [|o l Ho _ IH]; intros m Hm; [done|].
  cbn. apply IH. unfold reload_one. destruct (Order.Price o); [by apply watch_index_ok|done].
Qed.

(** *** Runs *)

Section Reachable.

Context {W : Type} `{MonitorLaws W}.

Definition wf_event (ev : Event (W := W)) : Prop :=
  match ev with
  | EvWatch o _ _ => key_of o = stock_of o.(Order.OrderID)
  | EvReload l => Forall (fun o => key_of o = stock_of o.(Order.OrderID)) l
  | _ => True
  end.

Lemma set_entry_index_ok p f (s : State W) e :
  s.(mon).(heap) !! p = Some e -> id_of (f e) = id_of e ->
  (f e).(WatchEntry.stockKey) = e.(WatchEntry.stockKey) ->
  index_ok s.(mon) -> index_ok (set_entry p f s).(mon).
Proof.
  intros He Hid Hk Hm. apply heap_index_ok; [| |done].
  - intros q e' He'. destruct (decide (q = p)) as [->|Hne].
    + rewrite lookup_alter_eq, He'. cbn. simplify_eq. eauto.
    + rewrite lookup_alter_ne by done. eauto.
  - intros q e' He'. destruct (decide (q = p)) as [->|Hne]; [eauto|].
    rewrite lookup_alter_ne in He' by done. eauto.
Qed.

Lemma prepare_identity tick e ltp : same_identity e.(WatchEntry.order) (prepare_trigger tick e ltp).
Proof. unfold prepare_trigger. cbv zeta. split_matches; repeat case_match; done. Qed.

Lemma decide_index_ok p ltp (s : State W) : index_ok s.(mon) -> index_ok (decide_entry p ltp s).(mon).
Proof.
  intros Hm. unfold decide_entry. destruct (s.(mon).(heap) !! p) as [e|] eqn:He; [|done].
  destruct (negb (conditionMet e ltp)); [done|].
  destruct (exceeded e ltp); [by eapply set_entry_index_ok|].
  destruct (WatchEntry.triggered e); [done|by eapply set_entry_index_ok].
Qed.

Lemma check_index_ok p ltp (s : State W) : index_ok s.(mon) -> index_ok (check_trigger p ltp s).(mon).
Proof.
  intros Hm. unfold check_trigger. destruct (s.(mon).(heap) !! p) as [e|] eqn:He; [|done]. cbv zeta.
  destruct (repoGetByID _ _) as [w r].
  destruct (match r with inr row => _ | inl _ => false end); [by apply unwatch_index_ok|].
  cbn -[prepare_trigger set_entry]. eapply set_entry_index_ok; [done| |done|done].
  apply prepare_identity.
Qed.

Lemma execute_index_ok p ltp (s : State W) : index_ok s.(mon) -> index_ok (execute_trigger p ltp s).(mon).
Proof.
  intros Hm. unfold execute_trigger. destruct (s.(mon).(heap) !! p) as [e|] eqn:He; [|done].
  destruct (executeFn _ _) as [[w o] r] eqn:Hx. cbv zeta. cbn -[set_entry].
  eapply set_entry_index_ok; [done| |done|done]. apply (execute_identity _ _ _ _ _ Hx).
Qed.

Lemma settle_index_ok p r (s : State W) : index_ok s.(mon) -> index_ok (settle_trigger p r s).(mon).
Proof.
  intros Hm. unfold settle_trigger. destruct (s.(mon).(heap) !! p) as [e|] eqn:He; [|done]. cbv zeta.
  destruct r as [err|].
  - set (s1 := set_entry p _ s).
    assert (H1 : index_ok s1.(mon)) by (by eapply set_entry_index_ok).
    case_match; [by apply unwatch_index_ok|].
    assert (He1 : exists e1, s1.(mon).(heap) !! p = Some e1).
    { unfold s1, set_entry. cbn. rewrite lookup_alter_eq, He. cbn. eauto. }
    destruct He1 as [e1 He1]. by eapply set_entry_index_ok.
  - destruct (WatchEntry.onAfterFill e); by apply unwatch_index_ok.
Qed.

Lemma step_index_ok ev (s : State W) : wf_event ev -> index_ok s.(mon) -> index_ok (step_event s ev).(mon).
Proof.
  intros Hwf Hm. destruct ev as [o t a|l|id|sid|id u|k x|ws rd| |i|w]; cbn in Hwf |- *; try done.
  - by apply watch_index_ok.
  - by apply reload_index_ok.
  - by apply unwatch_index_ok.
  - by apply unwatch_strategy_index_ok.
  - unfold CancelWatch. destruct (find_shard id _ 0) as [[[i sh] p]|]; [|done].
    destruct (s.(mon).(heap) !! p) as [e|]; [|done]. case_match; [by apply unwatch_index_ok|done].
  - destruct s.(evalCh) as [|[p ltp] q]; [done|]. cbn. by case_match.
  - destruct (s.(tasks) !! i) as [[p x|p|id|p x|p x|p r|id]|]; cbn; try done.
    + by apply decide_index_ok.
    + destruct (s.(mon).(heap) !! p) as [e|]; [by apply unwatch_index_ok|done].
    + by apply check_index_ok.
    + by apply execute_index_ok.
    + by apply settle_index_ok.
Qed.

Lemma run_index_ok l (s : State W) :
  Forall wf_event l -> index_ok s.(mon) -> index_ok (runEvents l s).(mon).
Proof.
  intros Hl. revert s. induction Hl as [|ev l Hev _ IH]; intros s Hm; [done|].
  cbn. by apply IH, step_index_ok.
Qed.

(** C8: whatever the interleaving of watches, prices, workers and goroutines, the
    32 shards stand for one finite map from order ids to entries: the watch
    count is its size; a price of a stock is offered once to exactly the
    entries of that stock; [Watch] inserts unless the id is there, [Unwatch]
    deletes, and [UnwatchByStrategy] removes exactly the entries of the strategy
    and returns their number. *)
Theorem index_refines_map (l : list Event) (w : W) :
  Forall wf_event l ->
  let m := (runEvents l (start w)).(mon) in
  WatchCount m = size (abs m) /\
  (forall key, NoDup (watchers m key) /\
     forall p, p ∈ watchers m key <->
       exists id e, abs m !! id = Some p /\ m.(heap) !! p = Some e /\ e.(WatchEntry.stockKey) = key) /\
  (forall o target after, key_of o = stock_of o.(Order.OrderID) ->
     abs (Watch o target after m) =
     match abs m !! o.(Order.OrderID) with
     | Some _ => abs m
     | None => <[o.(Order.OrderID) := m.(nextPtr)]> (abs m)
     end) /\
  (forall id, abs (Unwatch id m) = delete id (abs m)) /\
  (forall sid,
     abs (UnwatchByStrategy sid m).1 =
       filter (fun ip => strategy_at m.(heap) ip.2 <> Some sid) (abs m) /\
     (size (abs (UnwatchByStrategy sid m).1) + (UnwatchByStrategy sid m).2 = size (abs m))%nat).
Proof.
  intros Hl m. assert (Hm : index_ok m) by (apply run_index_ok; [done|apply new_index_ok]).
  split_and!; auto using count_abs, watch_abs, unwatch_abs, strategy_abs.
  intros key. split; [by apply watchers_NoDup|]. intros p. by apply watchers_spec.
Qed.
End Reachable.
End Index.

(** ** A concrete run *)

(** A world without a database, whose executor refuses. *)
#[local] Instance refusing_deps : MonitorDeps unit := {
  executeFn := fun o w => (w, o, Some "refused");
  repoGetByID := fun _ w => (w, inl "order not found");
  repoCancel := fun _ w => w;
  recordTrigger := fun _ _ w => w;
  lookupTick := fun _ _ => None
}.

#[local] Instance refusing_laws : MonitorLaws unit.
Proof. constructor. intros o w w' o' r [= _ <- _]. by repeat split. Qed.

Definition sample_watched (id : uuid) (strategy : string) : Order.t :=
  Order.zero <| Order.OrderID := id |> <| Order.StrategyID := strategy |> <| Order.StockCode := 11536%Z |>
    <| Order.Exchange := "NSE" |> <| Order.OrderSide := "BUY" |>.

Definition sample_events : list (Event (W := unit)) :=
  [EvWatch (sample_watched 7 "S1") (of_Z 100) None; EvWatch (sample_watched 8 "S2") (of_Z 100) None;
   EvPrice "nse:11536" (of_Z 101); EvTake; EvTask 0; EvTask 0; EvTask 0; EvTask 0].

Lemma index_refines_map_witness :
  let m := (runEvents sample_events (start tt)).(mon) in
  let stock_of := fun _ : uuid => "nse:11536" in
  WatchCount m = size (abs m) /\
  (forall key, NoDup (watchers m key) /\
     forall p, p ∈ watchers m key <->
       exists id e, abs m !! id = Some p /\ m.(heap) !! p = Some e /\ e.(WatchEntry.stockKey) = key) /\
  (forall o target after, key_of o = stock_of o.(Order.OrderID) ->
     abs (Watch o target after m) =
     match abs m !! o.(Order.OrderID) with
     | Some _ => abs m
     | None => <[o.(Order.OrderID) := m.(nextPtr)]> (abs m)
     end) /\
  (forall id, abs (Unwatch id m) = delete id (abs m)) /\
  (forall sid,
     abs (UnwatchByStrategy sid m).1 =
       filter (fun ip => strategy_at m.(heap) ip.2 <> Some sid) (abs m) /\
     (size (abs (UnwatchByStrategy sid m).1) + (UnwatchByStrategy sid m).2 = size (abs m))%nat).
Proof.
  apply (index_refines_map (fun _ => "nse:11536") sample_events tt).
  repeat (constructor; [first [exact I | vm_compute; reflexivity]|]). constructor.
Defined.
