(* ===== verification/PriceTrigger.v ===== *)
(** * Triggers of the price monitor

    How often and when the monitor of [PriceMonitor.v] calls the executor, over
    every interleaving, and what happens when its executor and repository are
    those of [Executor.v] and [OrderQueries.v]. *)

From stdpp Require Import base gmap strings list fin_maps sorting.
From Stdlib Require Import ZArith Lia.
From S2P Require Import Prelude GoFloat FloatOrder GoStrings Orders OrderRepo OrderQueries Indira Signals.
From S2P Require Import Executor PriceMonitor.

Open Scope string_scope.
Open Scope list_scope.
Open Scope go_scope.

(** ** Counting *)

Fixpoint countb {A} (f : A -> bool) (l : list A) : nat :=
  match l with [] => 0%nat | a :: l => ((if f a then 1 else 0) + countb f l)%nat end.

Lemma countb_app {A} (f : A -> bool) l k : countb f (l ++ k) = (countb f l + countb f k)%nat.
Proof. induction l as [|a l IH]; cbn; [done|]. rewrite IH. lia. Qed.

Lemma countb_delete {A} (f : A -> bool) l i a :
  l !! i = Some a -> countb f l = ((if f a then 1 else 0) + countb f (delete i l))%nat.
Proof.
  revert i. induction l as [|b l IH]; intros [|i]; try done; [by intros [= ->]|].
  change ((b :: l) !! S i) with (l !! i). change (delete (S i) (b :: l)) with (b :: delete i l).
  intros Hi. cbn. rewrite (IH _ Hi). lia.
Qed.

(** A task that will end in a decision about entry [p]: it holds the claim. *)
Definition claims (p : ptr) (t : Task) : bool :=
  match t with
  | TCheck q _ | TExecute q _ | TSettle q (Some _) => Nat.eqb q p
  | _ => false
  end.

Definition failed_settle (p : ptr) (t : Task) : bool :=
  match t with TSettle q (Some _) => Nat.eqb q p | _ => false end.

Definition won_settle (p : ptr) (t : Task) : bool :=
  match t with TSettle q None => Nat.eqb q p | _ => false end.

Lemma failed_le_claims p ts : (countb (failed_settle p) ts <= countb (claims p) ts)%nat.
Proof. induction ts as [|[] ts IH]; cbn; lia. Qed.

Abbreviation Execution := (ptr * f64 * Order.t * option string)%type.

Definition executed (p : ptr) (x : Execution) : bool := Nat.eqb x.1.1.1 p.
Definition won (p : ptr) (x : Execution) : bool :=
  Nat.eqb x.1.1.1 p && match x.2 with None => true | Some _ => false end.
Definition lost (p : ptr) (x : Execution) : bool :=
  Nat.eqb x.1.1.1 p && match x.2 with None => false | Some _ => true end.

(** The executions of [p] that follow a successful one. *)
Fixpoint after_win (p : ptr) (l : list Execution) : nat :=
  match l with
  | [] => 0%nat
  | x :: l => if won p x then countb (executed p) l else after_win p l
  end.

Lemma after_win_snoc p l x :
  countb (won p) l = 0%nat -> after_win p (l ++ [x]) = 0%nat.
Proof.
  induction l as [|y l IH]; cbn; [by destruct (won p x)|].
  destruct (won p y); [lia|]. cbn. exact IH.
Qed.

Lemma executed_split p l : countb (executed p) l = (countb (won p) l + countb (lost p) l)%nat.
Proof.
  induction l as [|x l IH]; cbn; [done|]. rewrite IH. unfold executed, won, lost.
  destruct (Nat.eqb x.1.1.1 p), x.2; cbn; lia.
Qed.

(** ** The invariant of one entry *)

(** The flag and the counter of an entry against the tasks and calls about it. *)
Record balanced (fl : bool) (a : Z) (claimed failing winning wins losses : nat) : Prop := {
  one_claim : (claimed + wins <= 1)%nat;
  free_flag : fl = false -> (claimed + wins = 0)%nat /\ (a < 3)%Z;
  attempts_range : (0 <= a <= 3)%Z;
  claim_attempts : (claimed + wins = 1)%nat -> (a < 3)%Z;
  losses_counted : Z.of_nat losses = (a + Z.of_nat failing)%Z;
  winning_won : (winning <= wins)%nat
}.

Section Discipline.

Context {W : Type} `{MonitorDeps W}.

(** [extra] is a task that was taken off the list and runs now. *)
Definition entry_inv (p : ptr) (extra : list Task) (s : State W) : Prop :=
  let ts := extra ++ s.(tasks) in
  after_win p s.(executions) = 0%nat /\
  match s.(mon).(heap) !! p with
  | Some e => balanced e.(WatchEntry.triggered) e.(WatchEntry.triggerAttempts)
                (countb (claims p) ts) (countb (failed_settle p) ts) (countb (won_settle p) ts)
                (countb (won p) s.(executions)) (countb (lost p) s.(executions))
  | None => countb (claims p) ts = 0%nat /\ countb (failed_settle p) ts = 0%nat /\
            countb (won_settle p) ts = 0%nat /\
            countb (won p) s.(executions) = 0%nat /\ countb (lost p) s.(executions) = 0%nat
  end.

Definition heap_fresh (m : Monitor) : Prop :=
  forall p e, m.(heap) !! p = Some e -> (p < m.(nextPtr))%nat.

Definition trigger_inv (extra : list Task) (s : State W) : Prop :=
  heap_fresh s.(mon) /\ forall p, entry_inv p extra s.

(** A new entry is untouched; the other operations of the index leave the heap
    alone. *)
Lemma watch_heap o target after m p :
  heap_fresh m ->
  heap_fresh (Watch o target after m) /\
  ((Watch o target after m).(heap) !! p = m.(heap) !! p \/
   m.(heap) !! p = None /\
   exists e, (Watch o target after m).(heap) !! p = Some e /\
     e.(WatchEntry.triggered) = false /\ e.(WatchEntry.triggerAttempts) = 0%Z).
Proof.
  intros Hm. unfold Watch. destruct (m.(shards) !! _) as [s|]; [|by auto].
  destruct (byOrder s !! _); [by auto|]. cbn. split.
  - intros q e. destruct (decide (q = m.(nextPtr))) as [->|Hne]; cbn; [lia|].
    rewrite lookup_insert_ne by done. intros He. pose proof (Hm q e He). lia.
  - destruct (decide (p = m.(nextPtr))) as [->|Hne].
    + right. split.
      * destruct (m.(heap) !! m.(nextPtr)) as [e|] eqn:E; [|done]. pose proof (Hm _ _ E). lia.
      * rewrite lookup_insert_eq. eauto.
    + left. by rewrite lookup_insert_ne.
Qed.

Lemma watch_inv extra o target after s :
  trigger_inv extra s -> trigger_inv extra (s <| mon := Watch o target after s.(mon) |>).
Proof.
  intros [Hf Hi]. split; [apply (watch_heap o target after s.(mon) 0%nat Hf)|].
  intros p. specialize (Hi p). unfold entry_inv in *. cbn.
  destruct (proj2 (watch_heap o target after s.(mon) p Hf)) as [-> | (Hn & e & -> & E1 & E2)]; [done|].
  rewrite Hn in Hi. destruct Hi as (Ha & -> & -> & -> & -> & ->). rewrite E1, E2.
  split; [done|]. by split; lia || intros; lia.
Qed.

Lemma reload_one_inv extra o s :
  trigger_inv extra s -> trigger_inv extra (s <| mon := reload_one o s.(mon) |>).
Proof.
  intros Hs. unfold reload_one. destruct (Order.Price o); [by apply watch_inv|by destruct s].
Qed.

Lemma reload_inv extra l s :
  trigger_inv extra s -> trigger_inv extra (s <| mon := reloadFromDB (inr l) s.(mon) |>).
Proof.
  unfold reloadFromDB. revert s. induction l as [|o l IH]; intros s Hs; [by destruct s|].
  exact (IH (s <| mon := reload_one o s.(mon) |>) (reload_one_inv extra o s Hs)).
Qed.

Lemma same_heap_inv extra s s' :
  s'.(mon).(heap) = s.(mon).(heap) -> s'.(mon).(nextPtr) = s.(mon).(nextPtr) ->
  s'.(tasks) = s.(tasks) -> s'.(executions) = s.(executions) ->
  trigger_inv extra s -> trigger_inv extra s'.
Proof. intros E1 E2 E3 E4. unfold trigger_inv, heap_fresh, entry_inv. by rewrite E1, E2, E3, E4. Qed.

Lemma unwatch_heap id m : (Unwatch id m).(heap) = m.(heap) /\ (Unwatch id m).(nextPtr) = m.(nextPtr).
Proof.
  unfold Unwatch. destruct (find_shard id _ 0) as [[[i s] p]|]; [|done].
  by destruct (m.(heap) !! p).
Qed.

Lemma unwatch_inv extra id (s : State W) : trigger_inv extra s -> trigger_inv extra (unwatch id s).
Proof. destruct (unwatch_heap id s.(mon)). by apply same_heap_inv. Qed.

(** Putting a task that claims nothing on the list, or taking one off. *)
Lemma idle_task_inv extra t s :
  (forall p, claims p t = false /\ failed_settle p t = false /\ won_settle p t = false) ->
  trigger_inv extra s -> trigger_inv extra (spawn t s).
Proof.
  intros Ht [Hf Hi]. split; [done|]. intros p. specialize (Hi p). unfold entry_inv in *. cbn.
  rewrite !app_assoc. destruct (Ht p) as (E1 & E2 & E3).
  repeat rewrite (countb_app _ (extra ++ s.(tasks))). cbn. rewrite E1, E2, E3, !Nat.add_0_r. exact Hi.
Qed.

Lemma drop_idle_inv extra t s :
  (forall p, claims p t = false /\ failed_settle p t = false /\ won_settle p t = false) ->
  trigger_inv (t :: extra) s -> trigger_inv extra s.
Proof.
  intros Ht [Hf Hi]. split; [done|]. intros p. specialize (Hi p). unfold entry_inv in *. cbn in Hi.
  destruct (Ht p) as (E1 & E2 & E3). by rewrite E1, E2, E3 in Hi.
Qed.

(** One step that touches entry [q] only: a new entry value, the running task
    replaced by others, calls logged. *)
Lemma entry_step_inv q e f new logged t (s s' : State W) :
  s.(mon).(heap) !! q = Some e ->
  s'.(mon).(heap) = alter f q s.(mon).(heap) -> s'.(mon).(nextPtr) = s.(mon).(nextPtr) ->
  s'.(tasks) = s.(tasks) ++ new -> s'.(executions) = s.(executions) ++ logged ->
  (forall p, p <> q ->
     countb (claims p) (t :: new) = 0%nat /\ countb (failed_settle p) (t :: new) = 0%nat /\
     countb (won_settle p) (t :: new) = 0%nat /\ countb (executed p) logged = 0%nat) ->
  entry_inv q [] s' -> trigger_inv [t] s -> trigger_inv [] s'.
Proof.
  intros He Hh Hn Ht Hx Hother Hq [Hf Hi]. split.
  { intros p e' Hp. rewrite Hn. rewrite Hh in Hp. destruct (decide (p = q)) as [->|Hne]; [eauto|].
    rewrite lookup_alter_ne in Hp by done. eauto. }
  intros p. destruct (decide (p = q)) as [->|Hne]; [done|].
  specialize (Hi p). destruct (Hother p Hne) as (E1 & E2 & E3 & E4).
  rewrite executed_split in E4. unfold entry_inv in *. rewrite Hh, lookup_alter_ne, Ht, Hx by done.
  cbn in *. rewrite !countb_app.
  assert (Hw : after_win p (s.(executions) ++ logged) = after_win p s.(executions)).
  { clear -E4. assert (El : countb (executed p) logged = 0%nat) by (rewrite executed_split; lia).
    induction s.(executions) as [|x l IH]; cbn.
    - induction logged as [|x l IH]; [done|]. cbn in *. destruct (won p x) eqn:E; [lia|]. apply IH; lia.
    - destruct (won p x); [rewrite countb_app; lia|done]. }
  rewrite Hw. destruct Hi as [Ha Hi]. split; [done|].
  replace (countb (won p) logged) with 0%nat by lia.
  replace (countb (lost p) logged) with 0%nat by lia.
  replace (countb (claims p) new) with 0%nat by lia.
  replace (countb (failed_settle p) new) with 0%nat by lia.
  replace (countb (won_settle p) new) with 0%nat by lia.
  destruct (claims p t); [lia|]. destruct (failed_settle p t); [lia|].
  destruct (won_settle p t); [lia|]. by rewrite !Nat.add_0_r.
Qed.

(** The counts of the other entries do not see a task or a call about [q]. *)
Ltac other_entry :=
  let p := fresh "p" in let Hp := fresh "Hp" in
  intros p Hp; cbn; unfold executed; cbn;
  rewrite ?(proj2 (Nat.eqb_neq _ _) (not_eq_sym Hp)); cbn; done.

(** The clauses of [balanced]; [B2] is the one about a free flag. *)
Ltac balance B2 :=
  cbn in *; split; try lia; try (intros; lia); let Hfl := fresh in intros Hfl; destruct (B2 Hfl); lia.

Lemma balanced_triggered fl a c f w k n : balanced fl a c f w k n -> balanced true a c f w k n.
Proof. by intros []. Qed.

Lemma decide_inv q ltp s :
  trigger_inv [TDecide q ltp] s -> trigger_inv [] (decide_entry q ltp s).
Proof.
  intros Hs. assert (Hdrop : trigger_inv [] s) by (by apply (drop_idle_inv [] (TDecide q ltp))).
  unfold decide_entry. destruct (s.(mon).(heap) !! q) as [e|] eqn:He; [|done].
  destruct (negb (conditionMet e ltp)); [done|].
  pose proof (proj2 Hs q) as Hq. unfold entry_inv in Hq. rewrite He in Hq. cbn in Hq.
  destruct Hq as [Ha Hb].
  destruct (exceeded e ltp).
  - eapply (entry_step_inv q e (fun e => e <| WatchEntry.triggered := true |>) [TSkip q] []);
      try done; [by rewrite app_nil_r|other_entry|].
    unfold entry_inv. cbn. rewrite lookup_alter_eq, He. cbn. rewrite !countb_app. cbn.
    rewrite !Nat.add_0_r. split; [done|]. by eapply balanced_triggered.
  - destruct (WatchEntry.triggered e) eqn:Ht; [done|].
    eapply (entry_step_inv q e (fun e => e <| WatchEntry.triggered := true |>) [TCheck q ltp] []);
      try done; [by rewrite app_nil_r|other_entry|].
    unfold entry_inv. cbn. rewrite lookup_alter_eq, He. cbn. rewrite !countb_app. cbn.
    rewrite !Nat.add_0_r, Nat.eqb_refl. split; [done|].
    destruct Hb as [B1 B2 B3 B4 B5 B6]. specialize (B2 eq_refl). split; lia || done.
Qed.

Lemma check_inv q ltp s : trigger_inv [TCheck q ltp] s -> trigger_inv [] (check_trigger q ltp s).
Proof.
  intros Hs. unfold check_trigger.
  pose proof (proj2 Hs q) as Hq. unfold entry_inv in Hq. cbn in Hq. rewrite Nat.eqb_refl in Hq.
  destruct (s.(mon).(heap) !! q) as [e|] eqn:He; [|lia]. destruct Hq as [Ha Hb]. cbv zeta.
  assert (Hid : trigger_inv [] (spawn (TExecute q ltp) s) /\ trigger_inv [] s).
  { split.
    - eapply (entry_step_inv q e (fun e => e) [TExecute q ltp] []); try done;
        [by rewrite alter_id|by rewrite app_nil_r|other_entry|].
      unfold entry_inv. cbn. rewrite He. cbn. rewrite !countb_app. cbn.
      rewrite Nat.eqb_refl. split; [done|]. destruct Hb as [B1 B2 B3 B4 B5 B6]. balance B2.
    - eapply (entry_step_inv q e (fun e => e) [] []); try done;
        [by rewrite alter_id|by rewrite app_nil_r|by rewrite app_nil_r|other_entry|].
      unfold entry_inv. cbn. rewrite He. split; [done|].
      destruct Hb as [B1 B2 B3 B4 B5 B6]. balance B2. }
  destruct Hid as [Hspawn Hdrop].
  destruct (repoGetByID _ _) as [w r].
  destruct (match r with inr row => _ | inl _ => false end).
  { apply unwatch_inv. revert Hdrop. by apply same_heap_inv. }
  set (o := prepare_trigger _ e ltp).
  eapply (entry_step_inv q e (fun e => e <| WatchEntry.order := o |>) [TExecute q ltp] []);
    try done; [by rewrite app_nil_r|other_entry|].
  unfold entry_inv in *. cbn. rewrite lookup_alter_eq, He. cbn.
  pose proof (proj2 Hspawn q) as Hsq. unfold entry_inv in Hsq. cbn in Hsq. by rewrite He in Hsq.
Qed.

Lemma execute_inv q ltp s : trigger_inv [TExecute q ltp] s -> trigger_inv [] (execute_trigger q ltp s).
Proof.
  intros Hs. unfold execute_trigger.
  pose proof (proj2 Hs q) as Hq. unfold entry_inv in Hq. cbn in Hq. rewrite Nat.eqb_refl in Hq.
  destruct (s.(mon).(heap) !! q) as [e|] eqn:He; [|lia]. destruct Hq as [Ha Hb].
  destruct (executeFn _ _) as [[w o] r].
  eapply (entry_step_inv q e (fun e => e <| WatchEntry.order := o |>) [TSettle q r] [(q, ltp, o, r)]);
    try done; [destruct r; other_entry|].
  destruct Hb as [B1 B2 B3 B4 B5 B6].
  unfold entry_inv. cbn. rewrite lookup_alter_eq, He. cbn. rewrite !countb_app. cbn.
  unfold won at 2, lost at 2. cbn. rewrite Nat.eqb_refl.
  split; [by apply after_win_snoc; lia|].
  destruct r as [err|]; cbn; rewrite ?Nat.eqb_refl; balance B2.
Qed.

Lemma int32_attempt a : (0 <= a <= 3)%Z -> int32 (a + 1) = (a + 1)%Z.
Proof. intros Ha. apply int32_id. unfold in_int32. lia. Qed.

Lemma settle_inv q r s : trigger_inv [TSettle q r] s -> trigger_inv [] (settle_trigger q r s).
Proof.
  intros Hs. unfold settle_trigger.
  pose proof (proj2 Hs q) as Hq. unfold entry_inv in Hq. cbn in Hq. rewrite Nat.eqb_refl in Hq.
  destruct (s.(mon).(heap) !! q) as [e|] eqn:He.
  2:{ destruct r; lia. }
  destruct Hq as [Ha [B1 B2 B3 B4 B5 B6]]. cbv zeta. destruct r as [err|].
  - rewrite int32_attempt by done. unfold maxTriggerAttempts.
    set (bump := fun e : WatchEntry.t =>
      e <| WatchEntry.triggerAttempts := (WatchEntry.triggerAttempts e + 1)%Z |>).
    destruct (Z.leb_spec 3 (WatchEntry.triggerAttempts e + 1)) as [Hge|Hlt].
    + apply unwatch_inv.
      eapply (entry_step_inv q e (fun e' => e' <| WatchEntry.triggerAttempts := (WatchEntry.triggerAttempts e + 1)%Z |>) [] []);
        try done; [by rewrite app_nil_r|by rewrite app_nil_r|other_entry|].
      unfold entry_inv. cbn. rewrite lookup_alter_eq, He. cbn. split; [done|].
      balance B2.
    + eapply (entry_step_inv q e (fun e' => e' <| WatchEntry.triggerAttempts := (WatchEntry.triggerAttempts e + 1)%Z |>
                <| WatchEntry.triggered := false |>) [] []);
        try done; [cbn; by rewrite alter_alter_eq|by rewrite app_nil_r|by rewrite app_nil_r|other_entry|].
      unfold entry_inv. cbn. rewrite alter_alter_eq, lookup_alter_eq, He. cbn. split; [done|].
      balance B2.
  - assert (Hdrop : trigger_inv [] s).
    { eapply (entry_step_inv q e (fun e => e) [] []); try done;
        [by rewrite alter_id|by rewrite app_nil_r|by rewrite app_nil_r|other_entry|].
      unfold entry_inv. cbn. rewrite He. split; [done|]. cbn in *. split; lia || done. }
    assert (Hu : trigger_inv [] (unwatch (e.(WatchEntry.order).(Order.OrderID)) s))
      by (by apply unwatch_inv).
    destruct (WatchEntry.onAfterFill e); [|done]. revert Hu. by apply same_heap_inv.
Qed.

Lemma skip_inv q s :
  trigger_inv [TSkip q] s -> trigger_inv [] (monitor_task (TSkip q) s).
Proof.
  intros Hs. apply (drop_idle_inv [] (TSkip q)) in Hs; [|done]. cbn.
  destruct (s.(mon).(heap) !! q) as [e|]; [|done]. apply idle_task_inv; [done|]. by apply unwatch_inv.
Qed.

Lemma task_inv t s : trigger_inv [t] s -> trigger_inv [] (monitor_task t s).
Proof.
  destruct t as [p x|p|id|p x|p x|p r|id].
  - apply decide_inv.
  - apply skip_inv.
  - intros Hs. apply (drop_idle_inv [] (TSkipRow id)) in Hs; [|done]. revert Hs. by apply same_heap_inv.
  - apply check_inv.
  - apply execute_inv.
  - apply settle_inv.
  - intros Hs. apply (drop_idle_inv [] (TCancelRow id)) in Hs; [|done]. revert Hs. by apply same_heap_inv.
Qed.

(** Taking the [i]-th task off the list. *)
Lemma take_task_inv i t s :
  s.(tasks) !! i = Some t -> trigger_inv [] s ->
  trigger_inv [t] (s <| tasks := delete i s.(tasks) |>).
Proof.
  intros Hi [Hf He]. split; [done|]. intros p. specialize (He p). unfold entry_inv in *. cbn in *.
  by rewrite !(countb_delete _ _ _ _ Hi) in He.
Qed.

Lemma step_inv ev s : trigger_inv [] s -> trigger_inv [] (step_event s ev).
Proof.
  intros Hs. destruct ev as [o t a|l|id|sid|id u|k x|ws rd| |i|w]; cbn -[monitor_task reloadFromDB];
    try (revert Hs; by apply same_heap_inv).
  - by apply watch_inv.
  - by apply reload_inv.
  - by apply unwatch_inv.
  - unfold CancelWatch. destruct (find_shard id _ 0) as [[[i sh] p]|]; [|done].
    destruct (s.(mon).(heap) !! p) as [e|]; [|done]. case_match; [|done].
    apply idle_task_inv; [done|]. apply unwatch_inv. revert Hs. by apply same_heap_inv.
  - destruct s.(evalCh) as [|[p x] q]; [done|].
    assert (Hq : trigger_inv [] (s <| evalCh := q |>)) by (revert Hs; by apply same_heap_inv).
    destruct (is_triggered _ p); [done|by apply idle_task_inv].
  - destruct (s.(tasks) !! i) as [t|] eqn:Ht; [|done]. by apply task_inv, take_task_inv.
Qed.

Lemma start_inv (w : W) : trigger_inv [] (start w).
Proof. split; [by intros ? ?|]. intros p. by repeat split. Qed.

Lemma run_inv l s : trigger_inv [] s -> trigger_inv [] (runEvents l s).
Proof. revert s. induction l as [|ev l IH]; intros s Hs; [done|]. cbn. by apply IH, step_inv. Qed.

(** C9: over every interleaving of prices, workers, goroutines, watches and
    cancellations, and whatever the database and the executor answer, a watched
    order is executed successfully at most once, and never again after a
    success; it is handed to the executor at most three times; at most one
    goroutine holds it at a time; and while its flag is clear nobody holds it and
    fewer than three attempts were made. *)
Theorem triggered_at_most_once (l : list Event) (w : W) (p : ptr) :
  let s := runEvents l (start w) in
  (countb (won p) s.(executions) <= 1)%nat /\ after_win p s.(executions) = 0%nat /\
  (countb (executed p) s.(executions) <= 3)%nat /\
  (countb (claims p) s.(tasks) + countb (won_settle p) s.(tasks) <= 1)%nat /\
  (forall e, s.(mon).(heap) !! p = Some e -> e.(WatchEntry.triggered) = false ->
     countb (claims p) s.(tasks) = 0%nat /\ countb (won p) s.(executions) = 0%nat /\
     (countb (executed p) s.(executions) < 3)%nat).
Proof.
  intros s. destruct (run_inv l (start w) (start_inv w)) as [_ Hi]. fold s in Hi.
  specialize (Hi p). unfold entry_inv in Hi. cbn in Hi. destruct Hi as [Ha Hi].
  pose proof (executed_split p s.(executions)). pose proof (failed_le_claims p s.(tasks)).
  destruct (s.(mon).(heap) !! p) as [e|]; [|by split_and!; try lia; intros].
  destruct Hi as [B1 B2 B3 B4 B5 B6]. split_and!; try done; try lia.
  intros e' [= <-] Hfl. destruct (B2 Hfl). lia.
Qed.

(** ** When an order is triggered *)

(** What never changes about an entry: its side, target and bound. *)
Definition window_grows (h h' : gmap ptr WatchEntry.t) : Prop :=
  forall p e, h !! p = Some e -> exists e', h' !! p = Some e' /\ forall ltp, fires e' ltp = fires e ltp.

(** [ltp] is a price at which entry [p] is to be executed. *)
Definition in_window (h : gmap ptr WatchEntry.t) (p : ptr) (ltp : f64) : Prop :=
  exists e, h !! p = Some e /\ fires e ltp = true.

Definition window_inv (s : State W) : Prop :=
  (forall p ltp, TCheck p ltp ∈ s.(tasks) \/ TExecute p ltp ∈ s.(tasks) -> in_window s.(mon).(heap) p ltp) /\
  (forall p ltp o r, (p, ltp, o, r) ∈ s.(executions) -> in_window s.(mon).(heap) p ltp).

Lemma in_window_grows h h' p ltp : window_grows h h' -> in_window h p ltp -> in_window h' p ltp.
Proof.
  intros Hg (e & He & Hf). destruct (Hg p e He) as (e' & He' & E). exists e'. by rewrite E.
Qed.

#[local] Instance window_grows_preorder : PreOrder window_grows.
Proof.
  split; [intros h p e He; eauto|]. intros h1 h2 h3 H1 H2 p e He.
  destruct (H1 p e He) as (e' & He' & E1). destruct (H2 p e' He') as (e'' & He'' & E2).
  exists e''. split; [done|]. intros ltp. by rewrite E2, E1.
Qed.

Lemma window_grows_alter h p e f :
  h !! p = Some e -> (forall ltp, fires (f e) ltp = fires e ltp) -> window_grows h (alter f p h).
Proof.
  intros He Hf q e' He'. destruct (decide (q = p)) as [->|Hne].
  - rewrite lookup_alter_eq, He'. cbn. simplify_eq. eauto.
  - rewrite lookup_alter_ne by done. eauto.
Qed.

Lemma window_step s s' :
  window_grows s.(mon).(heap) s'.(mon).(heap) ->
  (forall p ltp, TCheck p ltp ∈ s'.(tasks) \/ TExecute p ltp ∈ s'.(tasks) ->
     (TCheck p ltp ∈ s.(tasks) \/ TExecute p ltp ∈ s.(tasks)) \/ in_window s'.(mon).(heap) p ltp) ->
  (forall p ltp o r, (p, ltp, o, r) ∈ s'.(executions) ->
     (p, ltp, o, r) ∈ s.(executions) \/ in_window s'.(mon).(heap) p ltp) ->
  window_inv s -> window_inv s'.
Proof.
  intros Hg Ht Hx [H1 H2]. split.
  - intros p ltp Hin. destruct (Ht p ltp Hin) as [Hin'|]; [|done]. by eapply in_window_grows, H1.
  - intros p ltp o r Hin. destruct (Hx p ltp o r Hin) as [Hin'|]; [|done].
    eapply in_window_grows; [done|by eapply H2].
Qed.

Lemma window_frame s s' :
  s'.(mon).(heap) = s.(mon).(heap) -> s'.(tasks) = s.(tasks) -> s'.(executions) = s.(executions) ->
  window_inv s -> window_inv s'.
Proof. unfold window_inv. by intros -> -> ->. Qed.

Lemma window_unwatch id s : window_inv s -> window_inv (unwatch id s).
Proof. destruct (unwatch_heap id s.(mon)). by apply window_frame. Qed.

(** A step about entry [p]: its value changes, a task is added, calls are logged. *)
Lemma window_entry p e f new logged s s' :
  s.(mon).(heap) !! p = Some e -> s'.(mon).(heap) = alter f p s.(mon).(heap) ->
  (forall ltp, fires (f e) ltp = fires e ltp) ->
  s'.(tasks) = s.(tasks) ++ new -> s'.(executions) = s.(executions) ++ logged ->
  (forall q ltp, TCheck q ltp ∈ new \/ TExecute q ltp ∈ new -> q = p /\ fires e ltp = true) ->
  (forall q ltp o r, (q, ltp, o, r) ∈ logged -> q = p /\ fires e ltp = true) ->
  window_inv s -> window_inv s'.
Proof.
  intros He Hh Hf Ht Hx Hn Hl. assert (Hin : forall ltp, fires e ltp = true ->
    in_window s'.(mon).(heap) p ltp).
  { intros ltp Hfi. exists (f e). rewrite Hh, lookup_alter_eq, He. by rewrite Hf. }
  apply window_step.
  - rewrite Hh. by eapply window_grows_alter.
  - intros q ltp. rewrite Ht, !elem_of_app. intros [[?|H1]|[?|H1]]; auto;
      destruct (Hn q ltp) as [-> ?]; auto.
  - intros q ltp o r. rewrite Hx, elem_of_app. intros [?|H1]; auto.
    destruct (Hl q ltp o r H1) as [-> ?]; auto.
Qed.

Lemma fires_same_side o e ltp :
  o.(Order.OrderSide) = e.(WatchEntry.order).(Order.OrderSide) ->
  fires (e <| WatchEntry.order := o |>) ltp = fires e ltp.
Proof. intros E. unfold fires, conditionMet, exceeded. cbn. by rewrite E. Qed.

Lemma prepare_side tick e ltp :
  (prepare_trigger tick e ltp).(Order.OrderSide) = e.(WatchEntry.order).(Order.OrderSide).
Proof. unfold prepare_trigger. cbv zeta. repeat case_match; done. Qed.

Context {Laws : MonitorLaws W}.

Lemma task_window t s :
  (forall p ltp, t = TCheck p ltp \/ t = TExecute p ltp -> in_window s.(mon).(heap) p ltp) ->
  window_inv s -> window_inv (monitor_task t s).
Proof.
  intros Hw Hs. destruct t as [p x|p|id|p x|p x|p r|id]; cbn [monitor_task].
  - unfold decide_entry. destruct (s.(mon).(heap) !! p) as [e|] eqn:He; [|done].
    destruct (conditionMet e x) eqn:Hc; cbn [negb]; [|done]. destruct (exceeded e x) eqn:Hx.
    + eapply (window_entry p e _ [TSkip p] []); try done; [by rewrite app_nil_r| |by intros ? ? ? ? ?%elem_of_nil].
      intros q ltp [Hq|Hq]; by apply list_elem_of_singleton in Hq.
    + destruct (WatchEntry.triggered e); [done|].
      eapply (window_entry p e _ [TCheck p x] []); try done; [by rewrite app_nil_r| |by intros ? ? ? ? ?%elem_of_nil].
      intros q ltp [Hq|Hq]; apply list_elem_of_singleton in Hq; simplify_eq.
      split; [done|]. unfold fires. by rewrite Hc, Hx.
  - destruct (s.(mon).(heap) !! p) as [e|] eqn:He; [|done].
    eapply (window_entry p e (fun e => e) [TSkipRow _] []); try done; cbn.
    + rewrite (proj1 (unwatch_heap _ _)). by rewrite alter_id.
    + by rewrite app_nil_r.
    + intros q ltp [Hq|Hq]; by apply list_elem_of_singleton in Hq.
    + by intros ? ? ? ? ?%elem_of_nil.
  - revert Hs. by apply window_frame.
  - specialize (Hw p x (or_introl eq_refl)) as (e & He & Hf). unfold check_trigger. rewrite He. cbv zeta.
    destruct (repoGetByID _ _) as [w r]. destruct (match r with inr row => _ | inl _ => false end).
    { apply window_unwatch. revert Hs. by apply window_frame. }
    eapply (window_entry p e _ [TExecute p x] []); try done.
    + intros ltp. apply fires_same_side, prepare_side.
    + by rewrite app_nil_r.
    + intros q ltp [Hq|Hq]; apply list_elem_of_singleton in Hq; by simplify_eq.
    + by intros ? ? ? ? ?%elem_of_nil.
  - specialize (Hw p x (or_intror eq_refl)) as (e & He & Hf). unfold execute_trigger. rewrite He.
    destruct (executeFn _ _) as [[w o] r] eqn:Hx.
    eapply (window_entry p e _ [TSettle p r] [(p, x, o, r)]); try done.
    + intros ltp. apply fires_same_side. apply (execute_identity _ _ _ _ _ Hx).
    + intros q ltp [Hq|Hq]; by apply list_elem_of_singleton in Hq.
    + intros q ltp o' r' Hq. apply list_elem_of_singleton in Hq. by simplify_eq.
  - unfold settle_trigger. destruct (s.(mon).(heap) !! p) as [e|] eqn:He; [|done]. cbv zeta.
    destruct r as [err|].
    + case_match; [apply window_unwatch|].
      * eapply (window_entry p e _ [] []); try done; [by rewrite app_nil_r|by rewrite app_nil_r| |];
          [by intros ? ? [?%elem_of_nil|?%elem_of_nil]|by intros ? ? ? ? ?%elem_of_nil].
      * eapply (window_entry p e _ [] []); try done;
          [cbn; by rewrite alter_alter_eq| |by rewrite app_nil_r|by rewrite app_nil_r| |];
          [done|by intros ? ? [?%elem_of_nil|?%elem_of_nil]|by intros ? ? ? ? ?%elem_of_nil].
    + destruct (WatchEntry.onAfterFill e); [|by apply window_unwatch].
      apply (window_unwatch (e.(WatchEntry.order).(Order.OrderID))) in Hs. revert Hs. by apply window_frame.
  - revert Hs. by apply window_frame.
Qed.

Lemma watch_window o target after m : heap_fresh m -> window_grows m.(heap) (Watch o target after m).(heap).
Proof.
  intros Hm p e He. destruct (proj2 (watch_heap o target after m p Hm)) as [E|(E & _)]; [|congruence].
  exists e. by rewrite E.
Qed.

Lemma reload_window l m :
  heap_fresh m -> window_grows m.(heap) (reloadFromDB (inr l) m).(heap) /\ heap_fresh (reloadFromDB (inr l) m).
Proof.
  unfold reloadFromDB. revert m. induction l as [|o l IH]; intros m Hm; [by split|]. cbn [foldl].
  assert (H1 : window_grows m.(heap) (reload_one o m).(heap) /\ heap_fresh (reload_one o m)).
  { unfold reload_one. destruct (Order.Price o) as [x|]; [|by split].
    split; [by apply watch_window|]. by apply (watch_heap o x None m 0%nat). }
  destruct (IH _ (proj2 H1)) as [H2 H3]. split; [|done]. etrans; [apply H1|done].
Qed.

Lemma step_window ev s : heap_fresh s.(mon) -> window_inv s -> window_inv (step_event s ev).
Proof.
  intros Hf Hs. destruct ev as [o t a|l|id|sid|id u|k x|ws rd| |i|w]; cbn [step_event];
    try (revert Hs; by apply window_frame).
  - revert Hs. apply window_step; auto. by apply watch_window.
  - revert Hs. apply window_step; auto. by apply reload_window.
  - by apply window_unwatch.
  - unfold CancelWatch. destruct (find_shard id _ 0) as [[[j sh] p]|]; [|done].
    destruct (s.(mon).(heap) !! p) as [e|]; [|done]. case_match; [|done].
    revert Hs. apply window_step; cbn; rewrite ?(proj1 (unwatch_heap _ _)); [reflexivity| |auto].
    intros q ltp. rewrite !elem_of_app, !list_elem_of_singleton. intros [[?|?]|[?|?]]; auto; done.
  - destruct s.(evalCh) as [|[p x] q]; [done|].
    destruct (is_triggered _ p); [revert Hs; by apply window_frame|].
    revert Hs. apply window_step; cbn; [reflexivity| |auto].
    intros q' ltp. rewrite !elem_of_app, !list_elem_of_singleton. intros [[?|?]|[?|?]]; auto; done.
  - destruct (s.(tasks) !! i) as [t|] eqn:Ht; [|done]. apply task_window.
    + intros p ltp Hp. apply (proj1 Hs). apply list_elem_of_lookup_2 in Ht.
      destruct Hp as [->| ->]; auto.
    + revert Hs. apply window_step; cbn; [reflexivity| |auto].
      intros p ltp Hp. left. rewrite (delete_Permutation _ _ _ Ht), !elem_of_cons. tauto.
Qed.

(** Every order the monitor hands to the executor is handed over at a price
    that meets the target of its entry and does not pass its bound: at or above
    the target for a buy, at or below it for a sale, and within the bound when
    there is one. *)
Theorem executions_in_window (l : list Event) (w : W) (p : ptr) (ltp : f64) (o : Order.t)
    (r : option string) :
  let s := runEvents l (start w) in
  (p, ltp, o, r) ∈ s.(executions) ->
  exists e, s.(mon).(heap) !! p = Some e /\
    (if e.(WatchEntry.order).(Order.OrderSide) =?s "BUY"
     then fle e.(WatchEntry.targetPrice) ltp = true /\
          (flt fzero e.(WatchEntry.maxPrice) = true -> flt e.(WatchEntry.maxPrice) ltp = false)
     else fle ltp e.(WatchEntry.targetPrice) = true /\
          (flt fzero e.(WatchEntry.maxPrice) = true -> flt ltp e.(WatchEntry.maxPrice) = false)).
Proof.
  intros s Hin.
  assert (Hw : forall l s0, trigger_inv [] s0 -> window_inv s0 -> window_inv (runEvents l s0)).
  { clear - Laws. intros l. induction l as [|ev l IH]; intros s0 Ht Hs; [done|]. cbn.
    apply IH; [by apply step_inv|]. apply step_window; [apply Ht|done]. }
  destruct (Hw l (start w) (start_inv w)) as [_ Hx].
  { split; cbn; [by intros ? ? [?%elem_of_nil|?%elem_of_nil]|by intros ? ? ? ? ?%elem_of_nil]. }
  destruct (Hx p ltp o r Hin) as (e & He & Hf). exists e. split; [done|].
  unfold fires, conditionMet, exceeded in Hf. apply andb_prop in Hf as [Hc Hn].
  apply negb_true_iff in Hn. destruct (Order.OrderSide _ =?s "BUY"); split; try done;
    intros Hm; by rewrite Hm in Hn.
Qed.
End Discipline.

(** ** Cancelling a triggered order *)

Section Cancelling.

Context {W : Type} `{MonitorDeps W}.

(** Cancelling a watch does not stop an order that was triggered already.  A
    goroutine that has looked at the database executes its order although
    [CancelWatch] returned true in between and wrote CANCELLED to the row. *)
Theorem cancelled_watch_still_executes (s : State W) (i j : nat) (p : ptr) (sh : Shard) (ltp : f64)
    (e : WatchEntry.t) (id : uuid) (userID : string) :
  s.(tasks) !! i = Some (TExecute p ltp) ->
  find_shard id s.(mon).(shards) 0 = Some (j, sh, p) ->
  s.(mon).(heap) !! p = Some e -> e.(WatchEntry.order).(Order.UserID) = userID ->
  let s1 := runEvents [EvCancelWatch id userID; EvTask (length s.(tasks)); EvTask i] s in
  let w := recordTrigger id "PRICE_WATCH_CANCELLED" (repoCancel id s.(world)) in
  s1.(cancels) = s.(cancels) ++ [id] /\
  s1.(executions) = s.(executions) ++ [(p, ltp, (executeFn e.(WatchEntry.order) w).1.2,
                                        (executeFn e.(WatchEntry.order) w).2)].
Proof.
  intros Hi Hf He Hu s1 w.
  set (sc := CancelWatch id userID s).
  assert (Hsc : sc = spawn (TCancelRow id) (unwatch id (s <| cancels := s.(cancels) ++ [id] |>))).
  { unfold sc, CancelWatch. by rewrite Hf, He, Hu, String.eqb_refl. }
  set (sr := step_event sc (EvTask (length s.(tasks)))).
  assert (Hsr : sr.(tasks) = s.(tasks) /\ sr.(cancels) = s.(cancels) ++ [id] /\
    sr.(executions) = s.(executions) /\ sr.(world) = w /\ sr.(mon).(heap) !! p = Some e).
  { unfold sr. rewrite Hsc. cbn. rewrite list_lookup_middle by done. cbn.
    rewrite delete_middle, app_nil_r. repeat split. by rewrite (proj1 (unwatch_heap _ _)). }
  destruct Hsr as (Ht & Hc & Hx & Hw & Hh).
  assert (Hs1 : s1 = step_event sr (EvTask i)) by done. rewrite Hs1. clear Hs1.
  clearbody sr. cbn. rewrite Ht, Hi. cbn. unfold execute_trigger. cbn. rewrite Hh, Hw. destruct (executeFn _ w) as [[w2 o] r]. cbn.
  by rewrite Hc, Hx.
Qed.

End Cancelling.

(** ** The monitor with its executor and its repository *)

Section Composition.

Context {B : Type} `{ExecutionBroker B} (cfg : ExecConfig) (env : ExecEnv) (tick : Order.t -> option f64).

(** [RoutingExecutor] and the table of orders behind the monitor's interfaces. *)
#[local] Instance executor_deps : MonitorDeps (ExecState B) := {
  executeFn := RouteOrder cfg env;
  repoGetByID := fun id w =>
    let '(t, r) := sqlGetByID id w.(xorders) in (w <| xorders := t |>, r);
  repoCancel := fun id w =>
    w <| xorders := (sqlUpdateStatus env.(xnow) id StatusCancelled w.(xorders)).1 |>;
  recordTrigger := record_event;
  lookupTick := fun o _ => tick o
}.

#[local] Instance executor_laws : MonitorLaws (ExecState B).
Proof. constructor. intros o w w' o' r E. exact (RouteOrder_identity _ _ _ _ _ _ _ E). Qed.

(** The second and third attempts of a triggered order never take place.  When
    the executor fails (the context did not end, the row is there and the
    database answers), it has already marked the row FAILED or REJECTED; the
    monitor gives the entry free for another trigger, but that trigger finds a
    terminal row, executes nothing and takes the order off the watch list. *)
Theorem failed_trigger_is_not_retried (s : State (ExecState B)) (p : ptr) (e : WatchEntry.t)
    (ltp ltp' : f64) (row o' : Order.t) (w' : ExecState B) (err : string) :
  let id := e.(WatchEntry.order).(Order.OrderID) in
  (forall k, env.(xcancelled) k = false) ->
  s.(mon).(heap) !! p = Some e ->
  s.(world).(xorders).(faults) = [] -> s.(world).(xorders).(rows) !! id = Some row ->
  RouteOrder cfg env e.(WatchEntry.order) s.(world) = (w', o', Some err) ->
  (0 <= e.(WatchEntry.triggerAttempts) < 2)%Z ->
  let s1 := settle_trigger p (Some err) (execute_trigger p ltp s) in
  let s2 := check_trigger p ltp' s1 in
  is_triggered s1.(mon) p = false /\
  s2.(executions) = s1.(executions) /\ s2.(tasks) = s1.(tasks) /\
  s2.(mon) = Unwatch id s1.(mon).
Proof.
  intros id Hn He Hfa Hrow Hex Ha s1 s2.
  destruct (RouteOrder_failure _ _ _ _ _ _ _ _ Hex Hn Hfa Hrow) as (row' & Hfa' & Hrow' & Hterm).
  pose proof (RouteOrder_identity _ _ _ _ _ _ _ Hex) as (Hid & _).
  set (se := execute_trigger p ltp s).
  assert (Hse : se.(mon).(heap) !! p = Some (e <| WatchEntry.order := o' |>) /\ se.(world) = w').
  { unfold se, execute_trigger. rewrite He. cbn -[RouteOrder]. rewrite Hex. cbn.
    by rewrite lookup_alter_eq, He. }
  destruct Hse as [Hh Hw].
  set (e1 := e <| WatchEntry.order := o' |> <| WatchEntry.triggerAttempts := (WatchEntry.triggerAttempts e + 1)%Z |>
               <| WatchEntry.triggered := false |>).
  assert (Hs1 : s1.(mon).(heap) !! p = Some e1 /\ s1.(world) = w').
  { unfold s1. fold se. unfold settle_trigger. rewrite Hh. cbv zeta.
    change (WatchEntry.triggerAttempts (e <| WatchEntry.order := o' |>)) with (WatchEntry.triggerAttempts e).
    rewrite int32_attempt by lia. unfold maxTriggerAttempts.
    destruct (Z.leb_spec 3 (WatchEntry.triggerAttempts e + 1)); [lia|]. split; [|exact Hw].
    cbn -[se]. rewrite !lookup_alter_eq, Hh. done. }
  destruct Hs1 as [Hh1 Hw1].
  assert (Hdb : repoGetByID id w' = (w', inr row')).
  { fold id in Hrow'. cbn. unfold sqlGetByID, driver. rewrite Hfa', Hrow'. destruct w' as [b c [r f] ca ba ev up su no fi].
    cbn in *. by subst f. }
  assert (Hs2 : s2 = unwatch id (s1 <| world := w' |>)).
  { unfold s2, check_trigger. rewrite Hh1. cbv zeta.
    change (Order.OrderID (WatchEntry.order e1)) with (Order.OrderID o'). rewrite Hid. fold id.
    rewrite Hw1, Hdb, Hterm. done. }
  rewrite Hs2. split; [|by repeat split].
  unfold is_triggered. by rewrite Hh1.
Qed.

(** ** Orders restored after a restart *)

(** A restart loses the price bound and the exit plan of every waiting order:
    whatever was written to an empty table of orders, the entries that
    [reloadFromDB] registers have no upper bound and no [onAfterFill], so that
    no price is ever too far for them. *)
Theorem reload_forgets_bound (l : list (Z * Statement)) (flt : list bool) (p : ptr) (e : WatchEntry.t) :
  let t := runStatements l (mkTable ∅ flt) in
  (reloadFromDB (sqlGetPendingMonitorOrders t).2 NewPriceMonitor).(heap) !! p = Some e ->
  e.(WatchEntry.maxPrice) = fzero /\ e.(WatchEntry.onAfterFill) = None /\
  forall ltp, exceeded e ltp = false.
Proof.
  intros t He.
  assert (Ht : map_Forall (fun _ o => columns_unset o) t.(rows))
    by (apply columns_unset_statements, map_Forall_empty).
  assert (Hrows : forall rs, (sqlGetPendingMonitorOrders t).2 = inr rs -> Forall columns_unset rs).
  { unfold sqlGetPendingMonitorOrders, select_asc, driver. intros rs. destruct t as [r [|[] bs]]; try done;
      intros [= <-]; apply Forall_forall; intros o; rewrite (merge_sort_Permutation created_before);
      rewrite list_elem_of_In, filter_In, <- list_elem_of_In; unfold all_rows;
      intros [Ho _]; apply list_elem_of_fmap in Ho as ([id o'] & -> & Ho);
      apply elem_of_map_to_list in Ho; by apply (Ht id). }
  assert (Hinv : forall rs m, Forall columns_unset rs ->
    (forall q e, m.(heap) !! q = Some e -> e.(WatchEntry.maxPrice) = fzero /\ e.(WatchEntry.onAfterFill) = None) ->
    forall q e, (reloadFromDB (inr rs) m).(heap) !! q = Some e ->
      e.(WatchEntry.maxPrice) = fzero /\ e.(WatchEntry.onAfterFill) = None).
  { clear. intros rs m Hrs. revert m. unfold reloadFromDB.
    induction Hrs as [|o rs [_ Hmax] _ IH]; intros m Hm; [done|]. cbn [foldl]. apply IH.
    intros q e. unfold reload_one. destruct (Order.Price o) as [x|]; [|apply Hm].
    unfold Watch. destruct (m.(shards) !! _) as [s|]; [|apply Hm].
    destruct (byOrder s !! _); [apply Hm|]. cbn. destruct (decide (q = m.(nextPtr))) as [->|Hne].
    - rewrite lookup_insert_eq. intros [= <-]. cbn. by rewrite Hmax.
    - rewrite lookup_insert_ne by done. apply Hm. }
  destruct (sqlGetPendingMonitorOrders t).2 as [err|rs] eqn:Hq; [done|].
  destruct (Hinv rs NewPriceMonitor (Hrows rs eq_refl) ltac:(done) p e He) as [Hm Ha].
  split_and!; [done|done|]. intros ltp. unfold exceeded. by rewrite Hm.
Qed.

End Composition.

(** ** Concrete runs *)

Definition sample_wait : Order.t :=
  sample_entry <| Order.OrderType := OrderTypeStopLoss |> <| Order.ProductType := "BRACKET" |>
    <| Order.Status := StatusReceived |> <| Order.MaxMonitorPrice := Some (of_Z 103) |>.

Definition sample_key : string := "nse:11536".

#[local] Instance sample_deps : MonitorDeps (ExecState BookBroker) :=
  executor_deps (sample_cfg 0) sample_env (fun _ => None).

#[local] Instance sample_laws : MonitorLaws (ExecState BookBroker) :=
  executor_laws (sample_cfg 0) sample_env (fun _ => None).

Definition wait_world (script : list (PlaceError + string)) : ExecState BookBroker :=
  sample_exec script <| xorders := mkTable {[ 7%N := inserted_row sample_wait ]} [] |>.

(** A price reaches the target and the order is executed. *)
Definition fire_events : list (Event (W := ExecState BookBroker)) :=
  [EvWatch sample_wait (of_Z 100) None; EvPrice sample_key (of_Z 101); EvTake;
   EvTask 0; EvTask 0; EvTask 0].

Definition fire_run : State (ExecState BookBroker) :=
  runEvents fire_events (start (wait_world [])).

Definition fire_order : Order.t :=
  match fire_run.(executions) with (_, _, o, _) :: _ => o | [] => Order.zero end.

Example fire_run_executes :
  map (fun x => (x.1.1.1, x.2)) fire_run.(executions) = [(0%nat, None)] /\
  fire_order.(Order.Price) = Some (dec 1015 1) /\ fire_order.(Order.Status) = StatusSubmitted.
Proof. vm_compute. split_and!; reflexivity. Qed.

(** The same order after its look at the database. *)
Definition checked_run : State (ExecState BookBroker) :=
  runEvents (take 5 fire_events) (start (wait_world [])).

Definition checked_entry : WatchEntry.t :=
  match checked_run.(mon).(heap) !! 0%nat with
  | Some e => e
  | None => WatchEntry.mk sample_wait fzero fzero false 0 "" None
  end.

Definition checked_shard : Shard :=
  match find_shard 7 checked_run.(mon).(shards) 0 with
  | Some (_, s, _) => s
  | None => mkShard ∅ ∅
  end.

Lemma cancelled_watch_still_executes_witness :
  let s1 := runEvents
    [EvCancelWatch 7 "U1"; EvTask (length checked_run.(tasks)); EvTask 0] checked_run in
  let w := recordTrigger 7%N "PRICE_WATCH_CANCELLED" (repoCancel 7%N checked_run.(world)) in
  s1.(cancels) = checked_run.(cancels) ++ [7%N] /\
  s1.(executions) = checked_run.(executions) ++
    [(0%nat, of_Z 101, (executeFn checked_entry.(WatchEntry.order) w).1.2,
      (executeFn checked_entry.(WatchEntry.order) w).2)].
Proof.
  apply (cancelled_watch_still_executes checked_run 0 (shardFor sample_key) 0
    checked_shard (of_Z 101) checked_entry 7 "U1"); vm_compute; reflexivity.
Defined.

Lemma executions_in_window_witness :
  exists e, fire_run.(mon).(heap) !! 0%nat = Some e /\
    (if e.(WatchEntry.order).(Order.OrderSide) =?s "BUY"
     then fle e.(WatchEntry.targetPrice) (of_Z 101) = true /\
          (flt fzero e.(WatchEntry.maxPrice) = true -> flt e.(WatchEntry.maxPrice) (of_Z 101) = false)
     else fle (of_Z 101) e.(WatchEntry.targetPrice) = true /\
          (flt fzero e.(WatchEntry.maxPrice) = true -> flt (of_Z 101) e.(WatchEntry.maxPrice) = false)).
Proof.
  assert (Hx : fire_run.(executions) = [(0%nat, of_Z 101, fire_order, None)])
    by (vm_compute; reflexivity).
  refine (executions_in_window fire_events (wait_world []) 0 (of_Z 101) fire_order None _).
  fold fire_run. rewrite Hx. left.
Defined.

(** The broker rejects the order. *)
Definition refusal : PlaceError := mkPlaceError "RMS: margin shortfall" true false.

Definition refused_run : State (ExecState BookBroker) :=
  runEvents (take 5 fire_events) (start (wait_world [inl refusal])).

Definition refused_result : ExecState BookBroker * Order.t * option string :=
  RouteOrder (sample_cfg 0) sample_env checked_entry.(WatchEntry.order) refused_run.(world).

Definition refused_msg : string := match refused_result.2 with Some e => e | None => "" end.

Lemma failed_trigger_is_not_retried_witness :
  let s1 := settle_trigger 0 (Some refused_msg)
              (execute_trigger 0 (of_Z 101) refused_run) in
  let s2 := check_trigger 0 (of_Z 102) s1 in
  is_triggered s1.(mon) 0 = false /\ s2.(executions) = s1.(executions) /\
  s2.(tasks) = s1.(tasks) /\ s2.(mon) = Unwatch 7 s1.(mon).
Proof.
  apply (failed_trigger_is_not_retried (sample_cfg 0) sample_env (fun _ => None) refused_run 0
    checked_entry (of_Z 101) (of_Z 102) (inserted_row sample_wait) refused_result.1.2
    refused_result.1.1 refused_msg); try (vm_compute; reflexivity).
  split; vm_compute; [discriminate|reflexivity].
Defined.

(** A waiting order with a bound at 103, stored and read back. *)
Definition restart_log : list (Z * Statement) := [(0%Z, SCreate sample_wait)].

Definition restarted : Monitor :=
  reloadFromDB (sqlGetPendingMonitorOrders (runStatements restart_log (mkTable ∅ []))).2 NewPriceMonitor.

Definition restarted_entry : WatchEntry.t :=
  match restarted.(heap) !! 0%nat with Some e => e | None => checked_entry end.

Lemma reload_forgets_bound_witness :
  restarted_entry.(WatchEntry.maxPrice) = fzero /\ restarted_entry.(WatchEntry.onAfterFill) = None /\
  forall ltp, exceeded restarted_entry ltp = false.
Proof. apply (reload_forgets_bound restart_log [] 0 restarted_entry). vm_compute. reflexivity. Defined.

(** A sale is sent with a limit above the market too: the buffer that makes a
    buy cross the spread keeps a sale from filling. *)
Example sell_limit_above_market :
  let e := WatchEntry.mk (sample_wait <| Order.OrderSide := "SELL" |>) (of_Z 100) fzero true 0 "" None in
  (prepare_trigger None e (of_Z 100)).(Order.Price) = Some (dec 1005 1).
Proof. vm_compute. reflexivity. Qed.
