(* ===== verification/SignalProcessor.v ===== *)
(** * Processing trade signals

    [trade-execution/internal/executor/signal_processor.go]: what happens to a
    signal of the rules engine.  The order is stored once, then one of five
    routes takes it: the price monitor, the multi-level manager for paper orders
    with exits, the OCO manager for trailing stops, the multi-level manager, or
    the executor followed by an adoption into the OCO manager.  The executor, the
    price monitor and the tables are those of the other files; the two exit
    managers are interfaces.  The closures given to the price monitor are
    [AfterFill] values, run by [run_after_fill].  [uuid.Parse] is a parameter;
    the clock and what an execution takes from outside are arguments. *)

From stdpp Require Import base gmap strings list fin_maps fin_sets.
From Stdlib Require Import ZArith Lia.
From S2P Require Import Prelude GoFloat FloatOrder GoStrings Orders OrderRepo OrderQueries OCOTypes.
From S2P Require Import Broker OCOManager Indira Signals Executor PriceMonitor.

Open Scope string_scope.
Open Scope list_scope.
Open Scope go_scope.

(** ** The exit managers *)

(** The arguments of [AdoptOrder] and of [RegisterEntry]. *)
Record Adoption : Type := mkAdoption {
  adOrder : Order.t;
  adSLPct : f64;
  adTPPct : f64;
  adTrailing : bool;
  adTrailPct : f64;
  adAuth : option AuthContext
}.

Record Registration : Type := mkRegistration {
  regOrder : Order.t;
  regSLMode : string;
  regTPMode : string;
  regSLLevels : list MultiLevelExitLevel;
  regTPLevels : list MultiLevelExitLevel;
  regSLPct : f64;
  regTrailPct : f64;
  regAuth : option AuthContext
}.

Class OCOService (O : Type) := {
  createOCOEntry : EntryRequest -> O -> O * option string;
  adoptOrder : Adoption -> O -> O
}.

Class MLService (M : Type) := {
  registerEntry : Registration -> M -> M;
  onEntryFill : uuid -> f64 -> Z -> list MultiLevelExitLevel -> list MultiLevelExitLevel -> M -> M
}.

(** ** Converting *)

Definition stringPtr (s : string) : option string := if s =?s "" then None else Some s.

Definition float64Ptr (f : f64) : option f64 := if feq f fzero then None else Some f.

Definition is_bearish (s : string) : bool := (s =?s "BEARISH") || (s =?s "NEGATIVE").

Definition or_default (s d : string) : string := if s =?s "" then d else s.

(** [convertSignalToOrder]. *)
Definition convertSignalToOrder (parseUUID : string -> option uuid) (now : Z) (g : TradeSignal.t)
  : string + Order.t :=
  match parseUUID g.(TradeSignal.OrderID) with
  | None => inl "invalid order_id"
  | Some orderID =>
      let mode := or_default g.(TradeSignal.TradingMode) "PAPER" in
      inr (Order.zero
        <| Order.OrderID := orderID |> <| Order.UserID := g.(TradeSignal.UserID) |>
        <| Order.StrategyID := g.(TradeSignal.StrategyID) |>
        <| Order.StrategyName := g.(TradeSignal.StrategyName) |>
        <| Order.EventID := if g.(TradeSignal.EventID) =?s "" then 0%N
                            else default 0%N (parseUUID g.(TradeSignal.EventID)) |>
        <| Order.StockCode := g.(TradeSignal.StockCode) |>
        <| Order.Exchange := g.(TradeSignal.Exchange) |> <| Order.Symbol := g.(TradeSignal.Symbol) |>
        <| Order.OrderType := g.(TradeSignal.OrderType) |>
        <| Order.OrderSide := if is_bearish g.(TradeSignal.Sentiment) then "SELL" else "BUY" |>
        <| Order.Quantity := g.(TradeSignal.Quantity) |>
        <| Order.Price := Some g.(TradeSignal.Price) |>
        <| Order.StopLoss := Some g.(TradeSignal.StopLoss) |>
        <| Order.TakeProfit := Some g.(TradeSignal.TakeProfit) |> <| Order.Validity := "DAY" |>
        <| Order.ProductType := or_default g.(TradeSignal.ProductType) "INTRADAY" |>
        <| Order.Status := StatusReceived |> <| Order.RiskApproved := true |>
        <| Order.RiskScore := Some fzero |> <| Order.CreatedAt := now |> <| Order.UpdatedAt := now |>
        <| Order.BearerToken := stringPtr g.(TradeSignal.BearerToken) |>
        <| Order.AppId := stringPtr g.(TradeSignal.AppId) |>
        <| Order.Source := stringPtr g.(TradeSignal.Source) |>
        <| Order.StopLossType := Some (or_default g.(TradeSignal.StopLossType) "FIXED") |>
        <| Order.TrailingSLPct := float64Ptr g.(TradeSignal.TrailingSLPct) |>
        <| Order.IsPaperTrade := mode =?s "PAPER" |> <| Order.TradingMode := mode |>
        <| Order.CurrentPctChange := g.(TradeSignal.CurrentPctChange) |>
        <| Order.MaxMonitorPrice := float64Ptr g.(TradeSignal.MaxMonitorPrice) |>
        <| Order.AutoSquareOffTime := stringPtr g.(TradeSignal.AutoSquareOffTime) |>)
  end.

(** ** The processor *)

Record Processor (B O M : Type) : Type := mkProcessor {
  exec : ExecState B;
  priceMonitor : option Monitor;
  ocoManager : option O;
  mlManager : option M;
  squareOffs : SquareOffTable;
  halted : gset string;
  subscriptions : list string      (** users whose subscription a route asks for *)
}.

Arguments mkProcessor {B O M}. Arguments exec {B O M}. Arguments priceMonitor {B O M}.
Arguments ocoManager {B O M}. Arguments mlManager {B O M}. Arguments squareOffs {B O M}.
Arguments halted {B O M}. Arguments subscriptions {B O M}.

#[export] Instance eta_processor {B O M} : Eta (Processor B O M) := fun p =>
  mkProcessor p.(exec) p.(priceMonitor) p.(ocoManager) p.(mlManager) p.(squareOffs) p.(halted)
    p.(subscriptions).

Section Processing.

Context {B O M : Type} {EB : ExecutionBroker B} {OS : OCOService O} {MS : MLService M}.
Context (parseUUID : string -> option uuid) (cfg : ExecConfig).

Abbreviation P := (Processor B O M).

Definition HaltStrategy (strategyID : string) (p : P) : P :=
  p <| halted := {[strategyID]} ∪ p.(halted) |>.

(** [LoadHaltedFromSource]; the loader answers with ids or fails. *)
Definition LoadHaltedFromSource (ids : option (list string)) (p : P) : P * option nat :=
  match ids with
  | None => (p, None)
  | Some l =>
      (foldl (fun p id => if id =?s "" then p else p <| halted := {[id]} ∪ p.(halted) |>) p l,
       Some (length l))
  end.

Definition on_ml (f : M -> M) (p : P) : P := p <| mlManager := f <$> p.(mlManager) |>.

Definition adopt (a : Adoption) (p : P) : P := p <| ocoManager := adoptOrder a <$> p.(ocoManager) |>.

Definition run_exec (env : ExecEnv) (o : Order.t) (p : P) : P * Order.t * option string :=
  let '(w, o, r) := ExecuteOrder cfg env o p.(exec) in (p <| exec := w |>, o, r).

Definition subscribe (o : Order.t) (p : P) : P :=
  if cfg.(hasStatusSvc) then p <| subscriptions := p.(subscriptions) ++ [o.(Order.UserID)] |> else p.

(** The multi-level registration of a signal. *)
Definition registration (g : TradeSignal.t) (o : Order.t) : Registration :=
  mkRegistration o (or_default g.(TradeSignal.StopLossType) "FIXED")
    (or_default g.(TradeSignal.TakeProfitType) "FIXED")
    g.(TradeSignal.MultiLevelSL) g.(TradeSignal.MultiLevelTP)
    g.(TradeSignal.StopLossPct) g.(TradeSignal.TrailingSLPct) (auth_of o).

(** A fill that happened already is reported to the multi-level manager. *)
Definition report_fill (o : Order.t) (sl tp : list MultiLevelExitLevel) (p : P) : P :=
  match o.(Order.FilledPrice) with
  | Some price => if (0 <? o.(Order.FilledQuantity))%Z
                  then on_ml (onEntryFill o.(Order.OrderID) price o.(Order.FilledQuantity) sl tp) p
                  else p
  | None => p
  end.

(** The closures of the price monitor route, on the executed order. *)
Definition run_after_fill (a : AfterFill) (o : Order.t) (p : P) : P :=
  match a with
  | AfMultiLevel g =>
      let p := on_ml (registerEntry (registration g o)) p in
      if o.(Order.IsPaperTrade)
      then report_fill o g.(TradeSignal.MultiLevelSL) g.(TradeSignal.MultiLevelTP) p else p
  | AfTrailing g =>
      match o.(Order.IndiraOrderID) with
      | None => p
      | Some _ => adopt (mkAdoption o g.(TradeSignal.StopLossPct) g.(TradeSignal.TakeProfitPct) true
                           g.(TradeSignal.TrailingSLPct) (auth_of o)) p
      end
  | AfFixed g =>
      match o.(Order.IndiraOrderID) with
      | None => p
      | Some _ => adopt (mkAdoption o g.(TradeSignal.StopLossPct) g.(TradeSignal.TakeProfitPct) false
                           fzero (auth_of o)) p
      end
  end.

(** *** Routes *)

Definition has_exits (g : TradeSignal.t) : bool :=
  flt fzero g.(TradeSignal.StopLossPct) || flt fzero g.(TradeSignal.TakeProfitPct).

Definition single_level (pct : f64) : list MultiLevelExitLevel :=
  if flt fzero pct then [mkLevel 1 pct (of_Z 100)] else [].

Definition routeToPaperSLTP (env : ExecEnv) (g : TradeSignal.t) (o : Order.t) (p : P)
  : P * option string :=
  let slMode := if bool_decide (o.(Order.StopLossType) = Some "TRAILING") then "TRAILING" else "FIXED" in
  let sl := single_level g.(TradeSignal.StopLossPct) in
  let tp := single_level g.(TradeSignal.TakeProfitPct) in
  let p := on_ml (registerEntry (mkRegistration o slMode "FIXED" sl tp g.(TradeSignal.StopLossPct)
                                   g.(TradeSignal.TrailingSLPct) None)) p in
  match run_exec env o p with
  | (p, _, Some e) => (p, Some ("paper sl/tp entry order failed: " ++ e)%string)
  | (p, o, None) => (report_fill o sl tp p, None)
  end.

Definition strip_bracket (o : Order.t) : Order.t :=
  if isBracket o.(Order.ProductType) then o <| Order.ProductType := "INTRADAY" |> else o.

Definition routeToMultiLevel (env : ExecEnv) (g : TradeSignal.t) (o : Order.t) (p : P)
  : P * option string :=
  let o := strip_bracket o in
  let auth := auth_of o in
  let p := on_ml (registerEntry (registration g o)) p in
  match run_exec env o p with
  | (p, _, Some e) => (p, Some ("multi-level entry order execution failed: " ++ e)%string)
  | (p, o, None) =>
      let p := if o.(Order.IsPaperTrade)
               then report_fill o g.(TradeSignal.MultiLevelSL) g.(TradeSignal.MultiLevelTP) p else p in
      (if negb o.(Order.IsPaperTrade) && is_set auth then subscribe o p else p, None)
  end.

(** The arguments of [CreateOCOEntry]; it does not use the product type. *)
Definition oco_request (g : TradeSignal.t) (o : Order.t) (trigger : f64) (auth : AuthContext)
  : EntryRequest :=
  mkEntry o.(Order.UserID) o.(Order.StrategyID) o.(Order.EventID) o.(Order.StockCode)
    o.(Order.Exchange) o.(Order.Symbol) o.(Order.OrderSide) o.(Order.Quantity) trigger
    g.(TradeSignal.StopLossPct) g.(TradeSignal.TakeProfitPct) true (safePrice o.(Order.TrailingSLPct))
    (Some auth).

Definition routeToOCO (g : TradeSignal.t) (o : Order.t) (auth : AuthContext) (p : P)
  : P * option string :=
  let trigger := safePrice o.(Order.Price) in
  if fle trigger fzero then (p, Some "OCO order has no entry trigger price")
  else
    match p.(ocoManager) with
    | None => (p, Some "failed to create OCO entry")
    | Some oco =>
        let '(oco, r) := createOCOEntry (oco_request g o trigger auth) oco in
        let p := p <| ocoManager := Some oco |> in
        match r with
        | Some e => (p, Some ("failed to create OCO entry: " ++ e)%string)
        | None => (subscribe o p, None)
        end
    end.

Definition has_ml_sl (g : TradeSignal.t) : bool :=
  match g.(TradeSignal.MultiLevelSL) with [] => false | _ => g.(TradeSignal.StopLossType) =?s "MULTI_LEVEL" end.

Definition has_ml_tp (g : TradeSignal.t) : bool :=
  match g.(TradeSignal.MultiLevelTP) with [] => false | _ => g.(TradeSignal.TakeProfitType) =?s "MULTI_LEVEL" end.

Definition isMultiLevel (g : TradeSignal.t) (p : P) : bool :=
  (has_ml_sl g || has_ml_tp g) && is_set p.(mlManager).

Definition isTrailingSL (o : Order.t) : bool := bool_decide (o.(Order.StopLossType) = Some "TRAILING").

Definition isBelowMin (o : Order.t) : bool :=
  (o.(Order.OrderType) =?s OrderTypeStopLoss) && isBracket o.(Order.ProductType).

(** Credentials the signal did not carry are taken from the cache. *)
Definition backfill_auth (o : Order.t) (p : P) : P * Order.t :=
  if is_set (auth_of o) || o.(Order.IsPaperTrade) then (p, o)
  else
    match cached_creds o.(Order.UserID) p.(exec) with
    | (w, Some (inr a)) =>
        let p := p <| exec := w |> in
        if (a.(BearerToken) =?s "") || (a.(AppId) =?s "") || (a.(Source) =?s "") then (p, o)
        else (p, o <| Order.BearerToken := Some a.(BearerToken) |> <| Order.AppId := Some a.(AppId) |>
                   <| Order.Source := Some a.(Source) |>)
    | (w, _) => (p <| exec := w |>, o)
    end.

(** What the price monitor is asked to do after the fill. *)
Definition after_fill_of (g : TradeSignal.t) (o : Order.t) (p : P) : option AfterFill :=
  if isMultiLevel g p then Some (AfMultiLevel g)
  else if isTrailingSL o && negb o.(Order.IsPaperTrade) && is_set p.(ocoManager) && is_set (auth_of o)
  then Some (AfTrailing g)
  else if negb o.(Order.IsPaperTrade) && is_set p.(ocoManager) && is_set (auth_of o) && has_exits g
  then Some (AfFixed g)
  else None.

(** The last route: the plain order, adopted once the broker has it. *)
Definition routeToExecutor (env : ExecEnv) (g : TradeSignal.t) (o : Order.t) (p : P)
  : P * option string :=
  match run_exec env (strip_bracket o) p with
  | (p, _, Some e) => (p, Some ("order execution failed: " ++ e)%string)
  | (p, o, None) =>
      if has_exits g && negb o.(Order.IsPaperTrade) && is_set o.(Order.IndiraOrderID) then
        match auth_of o with
        | Some a => (adopt (mkAdoption o g.(TradeSignal.StopLossPct) g.(TradeSignal.TakeProfitPct)
                              (isTrailingSL o) (safePrice o.(Order.TrailingSLPct)) (Some a)) p, None)
        | None => (p, None)
        end
      else (p, None)
  end.

(** The routes, on an order that was stored and completed. *)
Definition route (env : ExecEnv) (g : TradeSignal.t) (o : Order.t) (p : P) : P * option string :=
  match p.(priceMonitor), isBelowMin o with
  | Some m, true =>
      let target := safePrice o.(Order.Price) in
      if fle target fzero then (p, Some "below_min order has no target price")
      else (p <| priceMonitor := Some (Watch o target (after_fill_of g o p) m) |>, None)
  | _, _ =>
      if o.(Order.IsPaperTrade) && has_exits g && negb (isMultiLevel g p) && is_set p.(mlManager)
      then routeToPaperSLTP env g o p
      else
        match auth_of o with
        | Some a =>
            if isTrailingSL o && is_set p.(ocoManager) && negb o.(Order.IsPaperTrade)
               && negb (isMultiLevel g p)
            then routeToOCO g o a p
            else if isMultiLevel g p then routeToMultiLevel env g o p else routeToExecutor env g o p
        | None => if isMultiLevel g p then routeToMultiLevel env g o p else routeToExecutor env g o p
        end
  end.

(** Storing the order: [None] when the signal was stored before. *)
Definition persist (o : Order.t) (p : P) : P * option (option string) :=
  let '(t, r) := sqlCreate o p.(exec).(xorders) in
  let p := p <| exec := p.(exec) <| xorders := t |> |> in
  match r with
  | Some e => if e =?s "duplicate order" then (p, None)
              else (p, Some (Some ("failed to persist order: " ++ e)%string))
  | None =>
      match o.(Order.AutoSquareOffTime) with
      | Some time => (p <| squareOffs := sqlUpsertUserSquareOffConfig o.(Order.UserID) time true p.(squareOffs) |>,
                      Some None)
      | None => (p, Some None)
      end
  end.

(** [ProcessTradeSignal]; the error it returns, [None] for success. *)
Definition ProcessTradeSignal (env : ExecEnv) (g : TradeSignal.t) (p : P) : P * option string :=
  match convertSignalToOrder parseUUID env.(xnow) g with
  | inl e => (p, Some ("failed to convert signal to order: " ++ e)%string)
  | inr o =>
      if bool_decide (o.(Order.StrategyID) ∈ p.(halted)) then (p, None)
      else
        match persist o p with
        | (p, None) => (p, None)
        | (p, Some (Some e)) => (p, Some e)
        | (p, Some None) => let '(p, o) := backfill_auth o p in route env g o p
        end
  end.


(** ** A signal is handled once *)

(** The row of [id] is stored and the database answers. *)
Definition stored (id : uuid) (t : OrdersTable) : Prop := t.(faults) = [] /\ is_Some (t.(rows) !! id).

Lemma stored_update id now o t : stored id t -> stored id (sqlUpdate now o t).1.
Proof.
  intros [Hf Hr]. unfold sqlUpdate, sqlUpdateRow, driver. rewrite Hf.
  destruct (t.(rows) !! o.(Order.OrderID)) as [row|] eqn:E; cbn -[updated_row]; [|by split].
  split; [done|]. apply lookup_insert_is_Some'. by right.
Qed.

Lemma on_ml_exec f (p : P) : (on_ml f p).(exec) = p.(exec) /\ (on_ml f p).(halted) = p.(halted).
Proof. done. Qed.

Lemma report_fill_frame o sl tp (p : P) :
  (report_fill o sl tp p).(exec) = p.(exec) /\ (report_fill o sl tp p).(halted) = p.(halted).
Proof. unfold report_fill. destruct (Order.FilledPrice o); [|done]. by case_match. Qed.

Lemma subscribe_frame o (p : P) :
  (subscribe o p).(exec) = p.(exec) /\ (subscribe o p).(halted) = p.(halted).
Proof. unfold subscribe. by destruct (hasStatusSvc cfg). Qed.

(** A property of the tables that updates keep, and the halted set, go through
    an execution and through every route. *)
Lemma run_exec_keeps (Q : OrdersTable -> Prop) env o (p : P) :
  (forall now o t, Q t -> Q (sqlUpdate now o t).1) -> Q p.(exec).(xorders) ->
  Q (run_exec env o p).1.1.(exec).(xorders) /\ (run_exec env o p).1.1.(halted) = p.(halted).
Proof.
  intros HQ Hp.
  pose proof (ExecuteOrder_tables Q _ (fun n o t _ => HQ n o t) cfg env o p.(exec) eq_refl Hp) as Hx. unfold run_exec.
  by destruct (ExecuteOrder cfg env o p.(exec)) as [[w o'] r].
Qed.

Lemma route_keeps (Q : OrdersTable -> Prop) env g o (p : P) :
  (forall now o t, Q t -> Q (sqlUpdate now o t).1) -> Q p.(exec).(xorders) ->
  Q (route env g o p).1.(exec).(xorders) /\ (route env g o p).1.(halted) = p.(halted).
Proof.
  intros HQ Hp.
  assert (Hml : Q (routeToMultiLevel env g o p).1.(exec).(xorders) /\
                (routeToMultiLevel env g o p).1.(halted) = p.(halted)).
  { unfold routeToMultiLevel. cbv zeta.
    destruct (run_exec_keeps Q env (strip_bracket o) (on_ml (registerEntry (registration g (strip_bracket o))) p)
                HQ Hp) as [H1 H2].
    destruct (run_exec _ _ _) as [[p1 o1] [e|]]; [done|]. cbn in H1, H2.
    destruct (negb _ && _), (Order.IsPaperTrade o1); cbn [fst];
      rewrite ?(proj1 (subscribe_frame _ _)), ?(proj2 (subscribe_frame _ _)),
        ?(proj1 (report_fill_frame _ _ _ _)), ?(proj2 (report_fill_frame _ _ _ _)); by split. }
  assert (Hx : Q (routeToExecutor env g o p).1.(exec).(xorders) /\
               (routeToExecutor env g o p).1.(halted) = p.(halted)).
  { unfold routeToExecutor. destruct (run_exec_keeps Q env (strip_bracket o) p HQ Hp) as [H1 H2].
    destruct (run_exec _ _ _) as [[p1 o1] [e|]]; [done|]. cbn in H1, H2.
    case_match; [|done]. by destruct (auth_of o1). }
  assert (Hp' : Q (routeToPaperSLTP env g o p).1.(exec).(xorders) /\
                (routeToPaperSLTP env g o p).1.(halted) = p.(halted)).
  { unfold routeToPaperSLTP. cbv zeta. match goal with |- context [run_exec env o ?p0] =>
      destruct (run_exec_keeps Q env o p0 HQ Hp) as [H1 H2] end.
    destruct (run_exec _ _ _) as [[p1 o1] [e|]]; [done|]. cbn in H1, H2. cbn [fst].
    by rewrite (proj1 (report_fill_frame _ _ _ _)), (proj2 (report_fill_frame _ _ _ _)). }
  assert (Ho : forall a, Q (routeToOCO g o a p).1.(exec).(xorders) /\
                (routeToOCO g o a p).1.(halted) = p.(halted)).
  { intros a. unfold routeToOCO. cbv zeta. case_match; [done|]. destruct p.(ocoManager) as [oc|]; [|done].
    destruct (createOCOEntry _ oc) as [oc' [e|]]; [done|]. cbn [fst].
    by rewrite (proj1 (subscribe_frame _ _)), (proj2 (subscribe_frame _ _)). }
  unfold route. destruct p.(priceMonitor) as [m|], (isBelowMin o); [by case_match| | |];
    (case_match; [done|]; destruct (auth_of o); repeat case_match; auto).
Qed.

Lemma backfill_frame o (p : P) :
  (backfill_auth o p).1.(exec).(xorders) = p.(exec).(xorders) /\
  (backfill_auth o p).1.(halted) = p.(halted).
Proof.
  unfold backfill_auth. case_match; [done|]. unfold cached_creds.
  destruct (xcreds _) as [c|]; [|done]. destruct (cache_Get _ c) as [c' [e|a]]; [done|]. by case_match.
Qed.

Lemma persist_frame o (p : P) :
  (persist o p).1.(halted) = p.(halted) /\
  (p.(exec).(xorders).(faults) = [] -> stored o.(Order.OrderID) (persist o p).1.(exec).(xorders)).
Proof.
  unfold persist, sqlCreate, driver, stored. split.
  - destruct p.(exec).(xorders).(faults) as [|[] bs]; cbn -[inserted_row]; [| done |];
      (destruct (_ !! _); [done|]); by destruct (Order.AutoSquareOffTime o).
  - intros Hf. rewrite Hf. destruct (_ !! _) as [row|] eqn:E; cbn -[inserted_row]; [by split; eauto|].
    destruct (Order.AutoSquareOffTime o); cbn -[inserted_row]; (split; [done|]);
      rewrite lookup_insert_eq; eauto.
Qed.

(** A stored order is not created again. *)
Lemma persist_stored o (p : P) : stored o.(Order.OrderID) p.(exec).(xorders) -> persist o p = (p, None).
Proof.
  intros [Hf [row Hr]]. unfold persist, sqlCreate, driver. rewrite Hf, Hr. cbn.
  destruct p as [[b c [r f] ca ba ev up su no fi] pm oc ml sq ha sb]. cbn in *. by subst f.
Qed.

(** A signal is routed at most once.  When the database answers, processing a
    signal a second time changes nothing and returns no error, whatever happened
    the first time, a failed execution included, and whatever the clock, the
    broker and the prices are by then. *)
Theorem signal_handled_once (env1 env2 : ExecEnv) (g : TradeSignal.t) (p : P) (id : uuid) :
  parseUUID g.(TradeSignal.OrderID) = Some id -> p.(exec).(xorders).(faults) = [] ->
  let p1 := (ProcessTradeSignal env1 g p).1 in
  ProcessTradeSignal env2 g p1 = (p1, None).
Proof.
  intros Hid Hf p1.
  assert (Hc : forall now, exists o, convertSignalToOrder parseUUID now g = inr o /\
    o.(Order.OrderID) = id /\ o.(Order.StrategyID) = g.(TradeSignal.StrategyID)).
  { intros now. unfold convertSignalToOrder. rewrite Hid. by eexists. }
  destruct (Hc env1.(xnow)) as (o1 & E1 & I1 & S1). destruct (Hc env2.(xnow)) as (o2 & E2 & I2 & S2).
  assert (Hp1 : g.(TradeSignal.StrategyID) ∈ p1.(halted) \/ stored id p1.(exec).(xorders)).
  { unfold p1, ProcessTradeSignal. rewrite E1, S1. case_bool_decide as Hh; [by left|]. right.
    destruct (persist_frame o1 p) as [_ Hs]. rewrite I1 in Hs. specialize (Hs Hf).
    destruct (persist o1 p) as [p2 [[e|]|]]; cbn in Hs |- *; [done| |done].
    destruct (backfill_frame o1 p2) as [Hb _]. destruct (backfill_auth o1 p2) as [p3 o3]. cbn in Hb |- *.
    apply (route_keeps (stored id)); [intros; by apply stored_update|by rewrite Hb]. }
  unfold ProcessTradeSignal. rewrite E2, S2. case_bool_decide as Hh; [done|].
  destruct Hp1 as [|Hs]; [done|]. by rewrite persist_stored by (by rewrite I2).
Qed.

(** ** Halted strategies *)

(** What can happen to a processor. *)
Inductive ProcessorOp : Type :=
  | OpSignal (env : ExecEnv) (g : TradeSignal.t)
  | OpHalt (strategyID : string)
  | OpLoad (ids : option (list string))
  | OpAfterFill (a : AfterFill) (o : Order.t).

Definition runProcessor (op : ProcessorOp) (p : P) : P :=
  match op with
  | OpSignal env g => (ProcessTradeSignal env g p).1
  | OpHalt s => HaltStrategy s p
  | OpLoad ids => (LoadHaltedFromSource ids p).1
  | OpAfterFill a o => run_after_fill a o p
  end.

Lemma signal_halted env g (p : P) : (ProcessTradeSignal env g p).1.(halted) = p.(halted).
Proof.
  unfold ProcessTradeSignal. destruct (convertSignalToOrder _ _ g) as [e|o]; [done|].
  case_bool_decide; [done|]. destruct (persist_frame o p) as [Hh _].
  destruct (persist o p) as [p2 [[e|]|]]; cbn in Hh |- *; [done| |done].
  destruct (backfill_frame o p2) as [_ Hb]. destruct (backfill_auth o p2) as [p3 o3]. cbn in Hb |- *.
  rewrite (proj2 (route_keeps (fun _ => True) env g o3 p3 (fun _ _ _ _ => I) I)). congruence.
Qed.

Lemma runProcessor_halted op s (p : P) : s ∈ p.(halted) -> s ∈ (runProcessor op p).(halted).
Proof.
  intros Hs. destruct op as [env g|s'|[l|]|a o]; cbn [runProcessor].
  - by rewrite signal_halted.
  - cbn. set_solver.
  - cbn. revert p Hs. induction l as [|id l IH]; intros p Hs; [done|]. cbn. apply IH.
    case_match; [done|]. cbn. set_solver.
  - done.
  - destruct a; cbn; repeat case_match; rewrite ?(proj2 (report_fill_frame _ _ _ _)); done.
Qed.

(** A halted strategy stays halted for the life of the process: after
    [HaltStrategy], whatever the processor does next, no operation lifts the
    halt, and every signal of the strategy is dropped without an order, also
    when the strategy was resumed in the meantime. *)
Theorem halt_is_permanent (ops : list ProcessorOp) (p : P) (s : string) (env : ExecEnv)
    (g : TradeSignal.t) :
  g.(TradeSignal.StrategyID) = s ->
  let p' := foldl (fun p op => runProcessor op p) (HaltStrategy s p) ops in
  s ∈ p'.(halted) /\ (ProcessTradeSignal env g p').1 = p'.
Proof.
  intros Hg p'.
  assert (Hh : s ∈ p'.(halted)).
  { unfold p'. assert (H0 : s ∈ (HaltStrategy s p).(halted)) by (cbn; set_solver).
    revert H0. generalize (HaltStrategy s p) as q. induction ops as [|op ops IH]; intros q Hq; [done|].
    cbn. by apply IH, runProcessor_halted. }
  split; [done|]. unfold ProcessTradeSignal, convertSignalToOrder.
  destruct (parseUUID g.(TradeSignal.OrderID)) as [id|]; [|done]. cbn -[persist].
  rewrite bool_decide_eq_true_2; [done|]. by rewrite Hg.
Qed.


(** ** What is sent for a plain entry *)

(** The request does not look at what an execution writes into the order. *)
Lemma request_same lk o o2 :
  same_request o o2 -> convertToIndiraRequest lk o2 = convertToIndiraRequest lk o.
Proof.
  intros Hs. change (convertToIndiraRequest lk (request_view o2) = convertToIndiraRequest lk (request_view o)).
  by rewrite Hs.
Qed.

(** Storing and completing an order calls no broker. *)
Lemma persist_calls o (p : P) : (persist o p).1.(exec).(calls) = p.(exec).(calls).
Proof.
  unfold persist. destruct (sqlCreate o _) as [t [e|]]; [by case_match|]. by destruct (Order.AutoSquareOffTime o).
Qed.

Lemma backfill_calls o (p : P) : (backfill_auth o p).1.(exec).(calls) = p.(exec).(calls).
Proof.
  unfold backfill_auth. case_match; [done|]. unfold cached_creds.
  destruct (xcreds _) as [c|]; [|done]. destruct (cache_Get _ c) as [c' [e|a]]; [done|]. by case_match.
Qed.

(** The completed order differs in its credentials only. *)
Lemma backfill_order o (p : P) :
  exists b a s, (backfill_auth o p).2 =
    o <| Order.BearerToken := b |> <| Order.AppId := a |> <| Order.Source := s |>.
Proof.
  assert (Hid : o = o <| Order.BearerToken := o.(Order.BearerToken) |> <| Order.AppId := o.(Order.AppId) |>
                      <| Order.Source := o.(Order.Source) |>) by (by destruct o).
  unfold backfill_auth. case_match; [by eexists _, _, _|]. unfold cached_creds.
  destruct (xcreds _) as [c|]; [|by eexists _, _, _].
  destruct (cache_Get _ c) as [c' [e|a]]; [by eexists _, _, _|].
  case_match; by eexists _, _, _.
Qed.

Lemma run_exec_calls env o (p : P) :
  o.(Order.IsPaperTrade) = false ->
  exists tr, (run_exec env o p).1.1.(exec).(calls) = p.(exec).(calls) ++ tr /\ Forall (places_like o) tr.
Proof.
  intros Hlive. unfold run_exec. destruct (ExecuteOrder cfg env o p.(exec)) as [[w o'] r] eqn:E.
  by apply ExecuteOrder_request in E as [_ Htr].
Qed.

Lemma routeToExecutor_calls env g o (p : P) :
  o.(Order.IsPaperTrade) = false ->
  exists tr, (routeToExecutor env g o p).1.(exec).(calls) = p.(exec).(calls) ++ tr /\
    Forall (places_like (strip_bracket o)) tr.
Proof.
  intros Hlive. unfold routeToExecutor.
  assert (Hs : (strip_bracket o).(Order.IsPaperTrade) = false)
    by (unfold strip_bracket; by destruct (isBracket _)).
  destruct (run_exec_calls env (strip_bracket o) p Hs) as (tr & Hc & Hf).
  destruct (run_exec _ _ _) as [[p1 o1] [e|]]; cbn in Hc; [by eexists|].
  case_match; [|by eexists]. destruct (auth_of o1); by eexists.
Qed.

Lemma route_plain env g o (p : P) :
  isBelowMin o = false -> o.(Order.IsPaperTrade) = false -> isTrailingSL o = false ->
  isMultiLevel g p = false -> route env g o p = routeToExecutor env g o p.
Proof.
  intros Hb Hl Ht Hm. unfold route. rewrite Hb, Hl, Ht, Hm. cbn.
  destruct p.(priceMonitor); by destruct (auth_of o).
Qed.

(** The request of a plain entry with a stop-loss. *)
Lemma plain_entry_request lk o sl :
  o.(Order.StopLoss) = Some sl -> flt fzero sl = true ->
  one_of o.(Order.OrderType) ["MARKET"; "LIMIT"] = true ->
  let req := convertToIndiraRequest lk (strip_bracket o) in
  req.(PlaceRequest.OrdType) = "SL" /\
  req.(PlaceRequest.TriggerPrice) =
    roundClamp lk (symbol_of o).(sbExchange) o.(Order.StockCode) sl.
Proof.
  intros Hsl Hpos Hty. unfold convertToIndiraRequest.
  assert (Hb : isBracket (strip_bracket o).(Order.ProductType) = false)
    by (unfold strip_bracket; by destruct (isBracket o.(Order.ProductType)) eqn:E).
  rewrite Hb.
  assert (Hf : (strip_bracket o).(Order.StopLoss) = Some sl /\ (strip_bracket o).(Order.OrderType) = o.(Order.OrderType)
    /\ symbol_of (strip_bracket o) = symbol_of o /\ (strip_bracket o).(Order.StockCode) = o.(Order.StockCode))
    by (unfold strip_bracket; by destruct (isBracket o.(Order.ProductType))).
  destruct Hf as (F1 & F2 & F3 & F4). rewrite F2, F3, F4. unfold plain_prices. rewrite F1. cbn [positive].
  rewrite Hpos. apply one_of_In in Hty.
  assert (Ht : (MapOrderType o.(Order.OrderType) =?s "SL-M") = false)
    by (by destruct Hty as [<-|[<-|[]]]).
  cbn -[roundClamp symbol_of MapOrderType]. rewrite Ht.
  destruct (Order.OrderSide (strip_bracket o) =?s "BUY");
    [destruct (resolveLTP _ _ _) as [l|]; cbn -[roundClamp symbol_of MapOrderType]; [destruct (flt fzero l)|]|];
    cbn -[roundClamp symbol_of MapOrderType];
    try (destruct (Order.Price (strip_bracket o)) as [x|]; cbn -[roundClamp symbol_of MapOrderType];
         [destruct (flt fzero x)|]); by cbn -[roundClamp symbol_of MapOrderType].
Qed.

(** A live entry with a fixed stop-loss is never sent as the market or limit
    order it is: every request made for it is a stop order that waits for its
    own stop-loss price, since the conversion takes a set stop-loss for the
    trigger of the order.  (The order is to be adopted by the OCO manager, which
    places the stop-loss itself once the entry has filled.) *)
Theorem stop_loss_becomes_entry_trigger (lk : Lookups) (env : ExecEnv) (g : TradeSignal.t) (p : P)
    (o : Order.t) :
  convertSignalToOrder parseUUID env.(xnow) g = inr o ->
  g.(TradeSignal.TradingMode) = "LIVE" -> one_of g.(TradeSignal.OrderType) ["MARKET"; "LIMIT"] = true ->
  g.(TradeSignal.StopLossType) = "FIXED" -> has_ml_tp g = false ->
  flt fzero g.(TradeSignal.StopLoss) = true ->
  let p1 := (ProcessTradeSignal env g p).1 in
  exists tr, p1.(exec).(calls) = p.(exec).(calls) ++ tr /\
    Forall (fun c => match c with
      | CPlace o2 _ _ =>
          let req := convertToIndiraRequest lk o2 in
          req.(PlaceRequest.OrdType) = "SL" /\
          req.(PlaceRequest.TriggerPrice) =
            roundClamp lk (symbol_of o).(sbExchange) g.(TradeSignal.StockCode) g.(TradeSignal.StopLoss)
      | CFind _ _ _ _ => True
      end) tr.
Proof.
  intros Hc Hmode Hty Hslt Htp Hsl p1.
  assert (Ho : o.(Order.StopLoss) = Some g.(TradeSignal.StopLoss) /\
    o.(Order.OrderType) = g.(TradeSignal.OrderType) /\ o.(Order.StockCode) = g.(TradeSignal.StockCode) /\
    o.(Order.StopLossType) = Some "FIXED" /\ o.(Order.IsPaperTrade) = false).
  { unfold convertSignalToOrder in Hc. destruct (parseUUID _) as [id|]; [|done].
    injection Hc as <-. rewrite Hslt, Hmode. done. }
  destruct Ho as (O1 & O2 & O3 & O4 & O5).
  unfold p1, ProcessTradeSignal. rewrite Hc.
  case_bool_decide; [exists []; by rewrite app_nil_r|].
  pose proof (persist_calls o p) as Hpc. destruct (persist o p) as [p2 [[e|]|]]; cbn in Hpc |- *;
    [exists []; by rewrite app_nil_r| |exists []; by rewrite app_nil_r].
  pose proof (backfill_calls o p2) as Hbc. destruct (backfill_order o p2) as (b & a & s & Hb).
  destruct (backfill_auth o p2) as [p3 o3]. cbn in Hbc, Hb |- *. subst o3.
  match goal with |- context [route env g ?o _] => set (o3 := o) end.
  assert (Hbm : isBelowMin o3 = false).
  { unfold isBelowMin. change (Order.OrderType o3) with (Order.OrderType o). rewrite O2.
    apply one_of_In in Hty. by destruct Hty as [<-|[<-|[]]]. }
  assert (Hml : isMultiLevel g p3 = false).
  { unfold isMultiLevel, has_ml_sl. rewrite Htp, Hslt. by destruct (TradeSignal.MultiLevelSL g). }
  rewrite route_plain; [|done|exact O5| |exact Hml].
  2:{ unfold isTrailingSL. change (Order.StopLossType o3) with (Order.StopLossType o). by rewrite O4. }
  destruct (routeToExecutor_calls env g o3 p3 O5) as (tr & Htr & Hf). exists tr. split; [congruence|].
  eapply Forall_impl; [exact Hf|]. intros [o2 au r|]; [|done]. cbn [places_like]. intros Hsame. cbv zeta.
  rewrite (request_same lk _ _ Hsame), <- O3.
  change (symbol_of o) with (symbol_of o3). change (Order.StockCode o) with (Order.StockCode o3).
  apply plain_entry_request; [exact O1|done|]. change (Order.OrderType o3) with (Order.OrderType o).
  by rewrite O2.
Qed.


(** ** Every live entry gets an exit plan *)










End Processing.

(** ** Concrete runs *)

(** Managers that accept everything and remember what they were given. *)
#[local] Instance oco_log : OCOService (list (EntryRequest + Adoption)) := {
  createOCOEntry := fun r l => (l ++ [inl r], None);
  adoptOrder := fun a l => l ++ [inr a]
}.

#[local] Instance ml_log : MLService (list Registration) := {
  registerEntry := fun r l => l ++ [r];
  onEntryFill := fun _ _ _ _ _ l => l
}.

Abbreviation SampleProcessor := (Processor BookBroker (list (EntryRequest + Adoption)) (list Registration)).

Definition sample_uuid (s : string) : option uuid := if s =?s "7" then Some 7%N else None.

Definition sample_signal : TradeSignal.t :=
  TradeSignal.mk "7" "U1" "S1" "News" "E1" 11536 "TCS" "NSE" "MARKET" 10 (of_Z 100) (of_Z 99) (of_Z 102)
    (of_Z 1) 5 "BULLISH" "" 0 "t" "a" "WEB" "FIXED" (of_Z 1) (of_Z 2) fzero "FIXED" [] [] "INTRADAY" "LIVE"
    fzero fzero "".

Definition sample_processor : SampleProcessor :=
  mkProcessor (sample_exec [] <| xorders := mkTable ∅ [] |>) (Some NewPriceMonitor) (Some []) (Some []) ∅ ∅ [].

Definition sample_conv : Order.t :=
  match convertSignalToOrder sample_uuid 5 sample_signal with inr o => o | inl _ => Order.zero end.

Definition processed : SampleProcessor :=
  (ProcessTradeSignal sample_uuid (sample_cfg 3) sample_env sample_signal sample_processor).1.

Lemma signal_handled_once_witness :
  ProcessTradeSignal sample_uuid (sample_cfg 3) sample_env sample_signal processed = (processed, None).
Proof.
  unfold processed. refine (signal_handled_once sample_uuid (sample_cfg 3) sample_env sample_env
    sample_signal sample_processor 7 _ _); vm_compute; reflexivity.
Defined.

Lemma halt_is_permanent_witness :
  let p' := foldl (fun p op => runProcessor sample_uuid (sample_cfg 3) op p) (HaltStrategy "S1" sample_processor)
              [OpLoad (Some []); OpSignal sample_env sample_signal] in
  "S1" ∈ p'.(halted) /\
  (ProcessTradeSignal sample_uuid (sample_cfg 3) sample_env sample_signal p').1 = p'.
Proof. apply (halt_is_permanent sample_uuid (sample_cfg 3)). reflexivity. Defined.

Lemma stop_loss_becomes_entry_trigger_witness :
  exists tr, processed.(exec).(calls) = sample_processor.(exec).(calls) ++ tr /\
    Forall (fun c => match c with
      | CPlace o2 _ _ =>
          let req := convertToIndiraRequest sample_lookups o2 in
          req.(PlaceRequest.OrdType) = "SL" /\
          req.(PlaceRequest.TriggerPrice) =
            roundClamp sample_lookups (symbol_of sample_conv).(sbExchange)
              sample_signal.(TradeSignal.StockCode) sample_signal.(TradeSignal.StopLoss)
      | CFind _ _ _ _ => True
      end) tr.
Proof.
  unfold processed. refine (stop_loss_becomes_entry_trigger sample_uuid (sample_cfg 3) sample_lookups
    sample_env sample_signal sample_processor sample_conv _ _ _ _ _ _); vm_compute; reflexivity.
Defined.

(** The order does reach the broker. *)
Example processed_places : length processed.(exec).(calls) = 1%nat.
Proof. vm_compute. reflexivity. Qed.

