(* ===== verification/SquareOff.v ===== *)
(** * The square-off at the end of the day

    [trade-execution/internal/scheduler/auto_square_off.go] and
    [position_check.go]: once a minute the scheduler closes the positions whose
    time has come, first those of users with a time of their own, then all paper
    positions at 15:00 and all live ones at the configured time; when it starts
    it catches up on the times that have passed.  The broker's position book and
    the paper side are parameters.  Every reading of the clock, and every fresh
    id, is numbered by [reads]; [env n] is what the execution that starts at
    reading [n] takes from outside, and [db_down n] tells whether the query of
    the users fails.  [exits] is a log, for the theorems, of the orders the
    scheduler stored and sent. *)

From stdpp Require Import base gmap strings list fin_maps sorting relations.
From Stdlib Require Import ZArith Lia.
From S2P Require Import Prelude GoFloat GoStrings GoTime Orders OrderRepo OrderQueries OCOTypes.
From S2P Require Import Broker Indira Signals Executor.

Open Scope string_scope.
Open Scope list_scope.
Open Scope go_scope.

(** ** The broker's positions ([position_check.go]) *)

(** Exchange, token and product. *)
Abbreviation posKey := (string * Z * string)%type.

(** What is read of a row of the broker's position book. *)
Record Position : Type := mkPosition {
  posType : string;
  posExc : string;
  posExcTkn : Z;
  posPrdType : string;
  NetQty : Z
}.

Definition normalizePrd (s : string) : string := ToUpper (MapProductType s).

Definition orderKey (o : Order.t) : posKey :=
  (ToUpper o.(Order.Exchange), o.(Order.StockCode), normalizePrd o.(Order.ProductType)).

Definition positionKey (p : Position) : posKey :=
  (ToUpper p.(posExc), p.(posExcTkn), normalizePrd p.(posPrdType)).

Abbreviation OpenPositions := (gmap posKey Z).

(** A snapshot that could not be fetched ([nil]) exits nothing. *)
Definition IsExited (snapshot : option OpenPositions) (o : Order.t) : bool :=
  match snapshot with
  | None => false
  | Some m => negb (is_set (m !! orderKey o))
  end.

Definition daily_open (p : Position) : bool :=
  ((p.(posType) =?s "") || (p.(posType) =?s "DAILY")) && negb (p.(NetQty) =? 0)%Z.

Definition open_positions (l : list Position) : OpenPositions :=
  foldl (fun m p => if daily_open p then <[positionKey p := p.(NetQty)]> m else m) ∅ l.

(** The broker's position book. *)
Class PositionLookup (B : Type) := {
  getPositions : AuthContext -> B -> B * (string + list Position)
}.

Section Fetch.

Context {B : Type} {PL : PositionLookup B}.

Definition FetchOpenPositions (userID : string) (w : ExecState B)
  : ExecState B * (string + OpenPositions) :=
  match w.(xcreds) with
  | None => (w, inl "position checker not configured")
  | Some _ =>
      if userID =?s "" then (w, inl "empty userID")
      else
        match cached_creds userID w with
        | (w, Some (inr auth)) =>
            let '(b, r) := getPositions auth w.(xbroker) in
            let w := w <| xbroker := b |> in
            match r with
            | inl e => (w, inl ("broker GetPositions: " ++ e)%string)
            | inr l => (w, inr (open_positions l))
            end
        | (w, Some (inl e)) => (w, inl ("fetch credentials: " ++ e)%string)
        | (w, None) => (w, inl "position checker not configured")
        end
  end.

End Fetch.

(** ** The scheduler ([auto_square_off.go]) *)

(** A date of a guard is the day it names; [""] is [None]. *)
Record AutoSquareOffScheduler : Type := mkScheduler {
  squareOffTime : string;
  paperSquareOffTime : string;
  lastExecuteDate : option Z;
  lastPaperExecuteDate : option Z;
  lastUserExecuteDates : gmap string Z
}.

#[export] Instance eta_scheduler : Eta AutoSquareOffScheduler := fun s =>
  mkScheduler s.(squareOffTime) s.(paperSquareOffTime) s.(lastExecuteDate) s.(lastPaperExecuteDate)
    s.(lastUserExecuteDates).

Definition NewAutoSquareOffScheduler (time : string) : AutoSquareOffScheduler :=
  mkScheduler (if time =?s "" then "15:05" else time) "15:00" None None ∅.

(** 15:30 in India. *)
Definition marketCloseMinutes : Z := 15 * 60 + 30.

(** [parseTime]: (-1, -1) when the text is no time. *)
Definition parseTime (s : string) : Z * Z :=
  match parseHHMM s with Some hm => hm | None => ((-1)%Z, (-1)%Z) end.

(** An exit the scheduler placed: in which pass, when the clock was last looked
    at, for which order, and the reverse order. *)
Record Exit : Type := mkExit {
  exPass : nat;
  exAt : Z;
  exOriginal : Order.t;
  exOrder : Order.t
}.

Record SquareOff (B P : Type) : Type := mkSquareOff {
  sched : AutoSquareOffScheduler;
  sexec : ExecState B;
  configs : SquareOffTable;
  spaper : P;
  reads : nat;
  passes : nat;
  exits : list Exit
}.

Arguments mkSquareOff {B P}. Arguments sched {B P}. Arguments sexec {B P}.
Arguments configs {B P}. Arguments spaper {B P}. Arguments reads {B P}. Arguments passes {B P}.
Arguments exits {B P}.

#[export] Instance eta_square_off {B P} : Eta (SquareOff B P) := fun s =>
  mkSquareOff s.(sched) s.(sexec) s.(configs) s.(spaper) s.(reads) s.(passes) s.(exits).

(** The reverse order; [at_] is its creation and [upd] its update time. *)
Definition reverse_order (orderID eventID : uuid) (at_ upd : Z) (original : Order.t) : Order.t :=
  Order.zero
    <| Order.OrderID := orderID |> <| Order.EventID := eventID |>
    <| Order.UserID := original.(Order.UserID) |>
    <| Order.StrategyID := original.(Order.StrategyID) |>
    <| Order.StrategyName := original.(Order.StrategyName) |>
    <| Order.StockCode := original.(Order.StockCode) |>
    <| Order.Exchange := original.(Order.Exchange) |> <| Order.Symbol := original.(Order.Symbol) |>
    <| Order.OrderType := OrderTypeMarket |>
    <| Order.OrderSide := if original.(Order.OrderSide) =?s "SELL" then "BUY" else "SELL" |>
    <| Order.Quantity := original.(Order.FilledQuantity) |> <| Order.Validity := "IOC" |>
    <| Order.ProductType := original.(Order.ProductType) |> <| Order.Status := StatusReceived |>
    <| Order.IsSquareOffOrder := true |> <| Order.IsPaperTrade := false |>
    <| Order.TradingMode := "LIVE" |> <| Order.RiskApproved := true |>
    <| Order.BearerToken := original.(Order.BearerToken) |>
    <| Order.AppId := original.(Order.AppId) |> <| Order.Source := original.(Order.Source) |>
    <| Order.CreatedAt := at_ |> <| Order.UpdatedAt := upd |>.

Section Scheduler.

Context {B P : Type} {EB : ExecutionBroker B} {PL : PositionLookup B}.
Context (clock : nat -> Z) (fresh : nat -> uuid) (env : nat -> ExecEnv) (db_down : nat -> bool).
Context (cfg : ExecConfig) (hasChecker : bool).
Context (paperSquareOff : option (P -> P)) (paperForceExitUser : option (string -> P -> P)).

Abbreviation S_ := (SquareOff B P).

Definition read_clock (s : S_) : Z * S_ := (clock s.(reads), s <| reads := S s.(reads) |>).

Definition on_orders (f : OrdersTable -> OrdersTable) (s : S_) : S_ :=
  s <| sexec := s.(sexec) <| xorders := f s.(sexec).(xorders) |> |>.

(** [createAndExecuteSquareOffOrder]. *)
Definition createAndExecuteSquareOffOrder (original : Order.t) (s : S_) : S_ * option string :=
  let n := s.(reads) in
  let '(now, s) := read_clock s in
  if (marketCloseMinutes <=? clock_minute now)%Z then
    (s, Some "market closed: refusing to place order to avoid AMO")
  else
    let '(at_, s) := read_clock s in
    let '(upd, s) := read_clock s in
    let o := reverse_order (fresh n) (fresh (S n)) at_ upd original in
    let '(t, e) := sqlCreate o s.(sexec).(xorders) in
    let s := on_orders (fun _ => t) s in
    match e with
    | Some e => (s, Some ("failed to save square-off order: " ++ e)%string)
    | None =>
        let '(w, _, r) := ExecuteOrder cfg (env n) o s.(sexec) in
        let s := s <| sexec := w |> <| exits := s.(exits) ++ [mkExit s.(passes) now original o] |> in
        (s, match r with
            | Some e => Some ("failed to execute square-off order: " ++ e)%string
            | None => None
            end)
    end.

(** One fetch per user that occurs; a user without a snapshot is not in the map. *)
Fixpoint fetch_snapshots (seen : list string) (l : list Order.t) (snaps : gmap string OpenPositions)
    (s : S_) : gmap string OpenPositions * S_ :=
  match l with
  | [] => (snaps, s)
  | o :: l =>
      if one_of o.(Order.UserID) seen then fetch_snapshots seen l snaps s
      else
        let '(w, r) := FetchOpenPositions o.(Order.UserID) s.(sexec) in
        let snaps := match r with inr m => <[o.(Order.UserID) := m]> snaps | inl _ => snaps end in
        fetch_snapshots (o.(Order.UserID) :: seen) l snaps (s <| sexec := w |>)
  end.

Definition snapshots (l : list Order.t) (s : S_) : gmap string OpenPositions * S_ :=
  if hasChecker then fetch_snapshots [] l ∅ s else (∅, s).

(** Something is filled and the broker does not show the position flat. *)
Definition to_close (snapshot : option OpenPositions) (o : Order.t) : bool :=
  negb (o.(Order.FilledQuantity) <=? 0)%Z && negb (IsExited snapshot o).

(** The user of the order asked for a time later than [currentTime]. *)
Definition later_custom_time (currentTime : string) (o : Order.t) : bool :=
  match o.(Order.AutoSquareOffTime) with
  | Some t => bool_decide (string_lt currentTime t)
  | None => false
  end.

Definition square_off_one (due : Order.t -> bool) (s : S_) (o : Order.t) : S_ :=
  if due o then (createAndExecuteSquareOffOrder o s).1 else s.

(** Which of the open orders the global pass closes. *)
Definition due_globally (currentTime : string) (snaps : gmap string OpenPositions) (o : Order.t) : bool :=
  negb (later_custom_time currentTime o) && to_close (snaps !! o.(Order.UserID)) o.

(** The orders of the query, the clock reading after it and the snapshots. *)
Definition squareOffAllPositions (s : S_) : S_ * option string :=
  let s := s <| passes := S s.(passes) |> in
  let '(dbnow, s) := read_clock s in
  let '(t, r) := sqlGetOpenOrders dbnow s.(sexec).(xorders) in
  let s := on_orders (fun _ => t) s in
  match r with
  | inl e => (s, Some ("failed to get open orders: " ++ e)%string)
  | inr [] => (s, None)
  | inr l =>
      let '(now, s) := read_clock s in
      let '(snaps, s) := snapshots l s in
      (foldl (square_off_one (due_globally (hhmm now) snaps)) s l, None)
  end.

Definition squareOffUserPositions (userID : string) (s : S_) : S_ * option string :=
  let s := s <| passes := S s.(passes) |> in
  let '(dbnow, s) := read_clock s in
  let '(t, r) := sqlGetOpenOrdersByUser dbnow userID s.(sexec).(xorders) in
  let s := on_orders (fun _ => t) s in
  match r with
  | inl e => (s, Some ("failed to get open orders for user: " ++ e)%string)
  | inr [] => (s, None)
  | inr l =>
      let '(w, snap) := if hasChecker then FetchOpenPositions userID s.(sexec)
                        else (s.(sexec), inl "") in
      let s := s <| sexec := w |> in
      let snap := match snap with inr m => Some m | inl _ => None end in
      (foldl (square_off_one (to_close snap)) s l, None)
  end.

Definition run_paper (s : S_) : S_ :=
  match paperSquareOff with Some f => s <| spaper := f s.(spaper) |> | None => s end.

(** The guarded square-off of one user, under the key [userID ++ suffix]. *)
Definition square_off_user (suffix : string) (today_ : Z) (s : S_) (userID : string) : S_ :=
  let guardKey := (userID ++ ":" ++ suffix)%string in
  if bool_decide (s.(sched).(lastUserExecuteDates) !! guardKey = Some today_) then s
  else
    let s := s <| sched := s.(sched) <| lastUserExecuteDates :=
                 <[guardKey := today_]> s.(sched).(lastUserExecuteDates) |> |> in
    let s := match paperForceExitUser with
             | Some f => s <| spaper := f userID s.(spaper) |>
             | None => s
             end in
    (squareOffUserPositions userID s).1.

Definition users_or_none (n : nat) (l : list string) : list string := if db_down n then [] else l.

Definition checkUserSquareOffs (s : S_) : S_ :=
  let n := s.(reads) in
  let '(now, s) := read_clock s in
  if weekend now then s
  else foldl (square_off_user (hhmm now) (today now)) s
         (users_or_none n (sqlUsersWithAutoSquareOffAtTime (hhmm now) s.(configs))).

(** The guard of [shouldSquareOff]. *)
Definition shouldSquareOff (s : S_) : bool * S_ :=
  let '(now, s) := read_clock s in
  let '(h, m) := parseTime s.(sched).(squareOffTime) in
  if weekend now || (h =? -1)%Z || (m =? -1)%Z then (false, s)
  else if negb (clock_minute now / 60 =? h)%Z || negb (clock_minute now mod 60 =? m)%Z then (false, s)
  else if bool_decide (s.(sched).(lastExecuteDate) = Some (today now)) then (false, s)
  else (true, s <| sched := s.(sched) <| lastExecuteDate := Some (today now) |> |>).

Definition shouldPaperSquareOff (s : S_) : bool * S_ :=
  let '(now, s) := read_clock s in
  let '(h, m) := parseTime s.(sched).(paperSquareOffTime) in
  if weekend now || (h =? -1)%Z || (m =? -1)%Z then (false, s)
  else if negb (clock_minute now / 60 =? h)%Z || negb (clock_minute now mod 60 =? m)%Z then (false, s)
  else if bool_decide (s.(sched).(lastPaperExecuteDate) = Some (today now)) then (false, s)
  else (true, s <| sched := s.(sched) <| lastPaperExecuteDate := Some (today now) |> |>).

(** One tick of the loop of [Start]. *)
Definition tick (s : S_) : S_ :=
  let s := checkUserSquareOffs s in
  let '(paper, s) := shouldPaperSquareOff s in
  let s := if paper then run_paper s else s in
  let '(live, s) := shouldSquareOff s in
  if live then (squareOffAllPositions s).1 else s.

(** [runStartupUserCatchUp]. *)
Definition runStartupUserCatchUp (n : nat) (now : Z) (s : S_) : S_ :=
  let users := users_or_none n (sqlUsersWithExpiredAutoSquareOff (hhmm now) s.(configs)) in
  if (marketCloseMinutes <=? clock_minute now)%Z then
    s <| sched := s.(sched) <| lastUserExecuteDates :=
       foldl (fun m u => <[(u ++ ":startup-catchup")%string := today now]> m)
         s.(sched).(lastUserExecuteDates) users |> |>
  else foldl (square_off_user "startup-catchup" (today now)) s users.

Definition catch_up_paper (now : Z) (s : S_) : S_ :=
  let '(h, m) := parseTime s.(sched).(paperSquareOffTime) in
  if negb (h =? -1)%Z && (h * 60 + m <? clock_minute now)%Z && is_set paperSquareOff
     && negb (bool_decide (s.(sched).(lastPaperExecuteDate) = Some (today now)))
  then run_paper (s <| sched := s.(sched) <| lastPaperExecuteDate := Some (today now) |> |>)
  else s.

Definition catch_up_live (now : Z) (s : S_) : S_ :=
  let '(h, m) := parseTime s.(sched).(squareOffTime) in
  if negb (h =? -1)%Z && (h * 60 + m <? clock_minute now)%Z
     && negb (bool_decide (s.(sched).(lastExecuteDate) = Some (today now)))
  then
    let s := s <| sched := s.(sched) <| lastExecuteDate := Some (today now) |> |> in
    if (clock_minute now <? marketCloseMinutes)%Z then (squareOffAllPositions s).1 else s
  else s.

Definition runStartupCatchUp (s : S_) : S_ :=
  let n := s.(reads) in
  let '(now, s) := read_clock s in
  if weekend now then s
  else runStartupUserCatchUp n now (catch_up_live now (catch_up_paper now s)).

(** What happens to the scheduler: the process starts (with new guards), a
    minute passes, and others write the tables. *)
Inductive sq_step (s : S_) : S_ -> Prop :=
  | SqStart (time : string) :
      sq_step s (runStartupCatchUp (s <| sched := NewAutoSquareOffScheduler time |>))
  | SqTick : sq_step s (tick s)
  | SqOther (now : Z) (st : Statement) :
      (forall o row, st = SUpdate o -> s.(sexec).(xorders).(rows) !! o.(Order.OrderID) = Some row ->
         o.(Order.IsPaperTrade) = row.(Order.IsPaperTrade)) ->
      sq_step s (on_orders (fun t => (runStatement now st t).1) s)
  | SqConfigs (t : SquareOffTable) : sq_step s (s <| configs := t |>).

(** *** What one exit does *)

Lemma select_asc_rows failure p t : (select_asc failure p t).1.(rows) = t.(rows).
Proof. unfold select_asc. by destruct t as [r [|[] bs]]. Qed.

Lemma select_asc_elem failure p t l o :
  (select_asc failure p t).2 = inr l -> o ∈ l <-> o ∈ all_rows t /\ p o = true.
Proof.
  unfold select_asc. destruct (driver t) as [[] t1] eqn:Hd; cbn; [done|]. intros [= <-].
  assert (Hr : all_rows t1 = all_rows t).
  { unfold all_rows, driver in *. destruct t as [r [|[] bs]]; cbn in Hd; try discriminate Hd;
      by injection Hd as <-. }
  rewrite (merge_sort_Permutation created_before), list_elem_of_In, filter_In, Hr.
  by rewrite list_elem_of_In.
Qed.

Lemma sqlCreate_failure o t t' e : sqlCreate o t = (t', Some e) -> t'.(rows) = t.(rows).
Proof.
  unfold sqlCreate. destruct t as [r [|[] bs]]; cbn -[inserted_row];
    try destruct (r !! o.(Order.OrderID)); by intros [= <- <-].
Qed.

Definition orders (s : S_) : OrdersTable := s.(sexec).(xorders).

Lemma create_cases original (s : S_) :
  let s' := (createAndExecuteSquareOffOrder original s).1 in
  let n := s.(reads) in
  let o := reverse_order (fresh n) (fresh (S n)) (clock (S n)) (clock (S (S n))) original in
  s'.(passes) = s.(passes) /\ (n < s'.(reads) <= S (S (S n)))%nat /\
  (s'.(exits) = s.(exits) /\ (orders s').(rows) = (orders s).(rows) /\
     ((marketCloseMinutes <= clock_minute (clock n))%Z \/ is_Some (sqlCreate o (orders s)).2)
   \/
   exists t, (clock_minute (clock n) < marketCloseMinutes)%Z /\ sqlCreate o (orders s) = (t, None) /\
     s'.(reads) = S (S (S n)) /\
     s'.(exits) = s.(exits) ++ [mkExit s.(passes) (clock n) original o] /\
     s'.(sexec) = (ExecuteOrder cfg (env n) o (s.(sexec) <| xorders := t |>)).1.1).
Proof.
  cbv zeta. unfold createAndExecuteSquareOffOrder, read_clock, orders. cbn -[sqlCreate ExecuteOrder reverse_order].
  destruct (Z.leb_spec marketCloseMinutes (clock_minute (clock s.(reads)))) as [Hl|Hl].
  { cbn. split_and!; [done|lia|lia|]. left. auto. }
  destruct (sqlCreate _ _) as [t [e|]] eqn:Hc.
  - cbn. split_and!; [done|lia|lia|]. left. split_and!; [done| |right; eauto].
    by eapply sqlCreate_failure.
  - destruct (ExecuteOrder cfg _ _ _) as [[w o'] r] eqn:Hx. cbn in Hx |- *.
    split_and!; [done|lia|lia|]. right. exists t. split_and!; [done|done|done|done|]. by rewrite Hx.
Qed.

(** A property of the table that survives insertions and the updates of live
    orders survives an exit. *)
Lemma create_tables (Q : OrdersTable -> Prop) original (s : S_) :
  (forall r f f', Q (mkTable r f) -> Q (mkTable r f')) ->
  (forall now o t, o.(Order.IsPaperTrade) = false -> Q t -> Q (sqlUpdate now o t).1) ->
  (forall o t, Q t -> Q (sqlCreate o t).1) ->
  Q (orders s) -> Q (orders (createAndExecuteSquareOffOrder original s).1).
Proof.
  intros Hf Hu Hc Hs.
  destruct (create_cases original s) as (_ & _ & [(_ & Hr & _)|(t & _ & Ht & _ & _ & Hx)]).
  - unfold orders in *. destruct (xorders (sexec (createAndExecuteSquareOffOrder original s).1)) as [r f].
    cbn in Hr. subst r. destruct (xorders (sexec s)) as [r f']. by apply (Hf _ f').
  - unfold orders in *. rewrite Hx. apply (ExecuteOrder_tables Q false Hu); [done|]. cbn.
    change t with (t, @None string).1. rewrite <- Ht. by apply Hc.
Qed.

Lemma fetch_frame userID (w : ExecState B) :
  (FetchOpenPositions userID w).1.(xorders) = w.(xorders).
Proof.
  unfold FetchOpenPositions, cached_creds. destruct (xcreds w) as [c|]; [|done].
  destruct (userID =?s ""); [done|].
  destruct (cache_Get userID c) as [c' [e|a]]; [done|].
  by destruct (getPositions a _) as [b [e|l]].
Qed.

Definition same_log (s s' : S_) : Prop :=
  orders s' = orders s /\ s'.(exits) = s.(exits) /\ s'.(passes) = s.(passes) /\ s'.(reads) = s.(reads).

Lemma same_log_trans s1 s2 s3 : same_log s1 s2 -> same_log s2 s3 -> same_log s1 s3.
Proof. intros (? & ? & ? & ?) (? & ? & ? & ?). unfold same_log. split_and!; congruence. Qed.

Lemma fetch_snapshots_frame l : forall seen snaps s,
  same_log s (fetch_snapshots seen l snaps s).2.
Proof.
  induction l as [|o l IH]; intros seen snaps s; cbn [fetch_snapshots]; [done|].
  destruct (one_of _ seen); [apply IH|].
  pose proof (fetch_frame o.(Order.UserID) s.(sexec)) as Hf.
  destruct (FetchOpenPositions _ _) as [w r]. cbn in Hf.
  eapply same_log_trans; [|apply IH]. by unfold same_log, orders.
Qed.

Lemma snapshots_frame l s : same_log s (snapshots l s).2.
Proof. unfold snapshots. destruct hasChecker; [apply fetch_snapshots_frame|done]. Qed.

(** *** A position is squared off in one pass *)

Definition position_of (o : Order.t) : string * string * string :=
  (o.(Order.UserID), o.(Order.Symbol), o.(Order.StrategyID)).

(** The table shows a square-off of the day [d] for the position [k]. *)
Definition marked (d : Z) (k : string * string * string) (t : OrdersTable) : Prop :=
  exists id sq, t.(rows) !! id = Some sq /\ position_of sq = k /\
    sq.(Order.IsSquareOffOrder) = true /\ sq.(Order.IsPaperTrade) = false /\
    today sq.(Order.CreatedAt) = d.

Lemma marked_faults d k r f f' : marked d k (mkTable r f) -> marked d k (mkTable r f').
Proof. done. Qed.

Lemma marked_insert d k o t : marked d k t -> marked d k (sqlCreate o t).1.
Proof.
  intros (id & sq & Hid & Hsq). destruct (sqlCreate_rows o t) as [Hr | [Hn Hr]];
    exists id, sq; rewrite Hr; [done|].
  destruct (decide (o.(Order.OrderID) = id)) as [E | Hne].
  { rewrite E in Hn. congruence. }
  by rewrite lookup_insert_ne by done.
Qed.

Lemma marked_row d k failure id f t :
  (forall row, t.(rows) !! id = Some row -> position_of (f row) = position_of row /\
     (f row).(Order.IsSquareOffOrder) = row.(Order.IsSquareOffOrder) /\
     (row.(Order.IsPaperTrade) = false -> (f row).(Order.IsPaperTrade) = false) /\
     (f row).(Order.CreatedAt) = row.(Order.CreatedAt)) ->
  marked d k t -> marked d k (sqlUpdateRow failure id f t).1.
Proof.
  intros Hf (i & sq & Hi & Hk & Hs & Hp & Hd).
  destruct (sqlUpdateRow_rows failure id f t) as [Hr | Hr]; unfold marked; rewrite Hr; [by exists i, sq|].
  destruct (decide (i = id)) as [-> | Hne].
  - destruct (Hf sq Hi) as (F1 & F2 & F3 & F4). exists id, (f sq).
    rewrite lookup_alter_eq, Hi. cbn. rewrite F1, F2, F4. split_and!; auto.
  - exists i, sq. by rewrite lookup_alter_ne by done.
Qed.

Lemma marked_where d k failure p f t :
  (forall row, position_of (f row) = position_of row /\
     (f row).(Order.IsSquareOffOrder) = row.(Order.IsSquareOffOrder) /\
     (f row).(Order.IsPaperTrade) = row.(Order.IsPaperTrade) /\
     (f row).(Order.CreatedAt) = row.(Order.CreatedAt)) ->
  marked d k t -> marked d k (sqlUpdateWhere failure p f t).1.
Proof.
  intros Hf (i & sq & Hi & Hk & Hs & Hp & Hd).
  destruct (sqlUpdateWhere_rows failure p f t) as [Hr | Hr]; unfold marked; rewrite Hr; [by exists i, sq|].
  exists i, (if p sq then f sq else sq). rewrite lookup_fmap, Hi. split; [done|].
  destruct (Hf sq) as (F1 & F2 & F3 & F4). destruct (p sq); [|done]. rewrite F1, F2, F3, F4. by split_and!.
Qed.

Lemma marked_update d k now o t :
  o.(Order.IsPaperTrade) = false -> marked d k t -> marked d k (sqlUpdate now o t).1.
Proof. intros Ho. apply marked_row. intros row _. by split_and!. Qed.

(** No statement takes a mark away, whoever executes it. *)
Lemma marked_statement d k now st t :
  (forall o row, st = SUpdate o -> t.(rows) !! o.(Order.OrderID) = Some row ->
     o.(Order.IsPaperTrade) = row.(Order.IsPaperTrade)) ->
  marked d k t -> marked d k (runStatement now st t).1.
Proof.
  intros Hst Ht. destruct st; cbn [runStatement];
    try (apply marked_where; [by intros row; split_and!|done]);
    try (apply marked_row; [intros row _; by split_and!|done]).
  - by apply marked_insert.
  - apply marked_row; [|done]. intros row Hrow. pose proof (Hst _ _ eq_refl Hrow) as Hp.
    split_and!; [done|done| |done]. cbn. congruence.
  - destruct (sqlUpdatePaperPositionFilledQty_rows now id qty t) as [Hr | (o & Ho & Hr)];
      unfold marked in *; rewrite Hr; [done|].
    destruct Ht as (i & sq & Hi & Hsq). destruct (decide (i = id)) as [-> | Hne].
    + simplify_eq. eexists id, _. by rewrite lookup_insert_eq.
    + exists i, sq. by rewrite lookup_insert_ne by done.
  - destruct (sqlCreatePaperPartialExit_rows o t) as [Hr | [Hn Hr]]; unfold marked in *; rewrite Hr;
      [done|]. destruct Ht as (i & sq & Hi & Hsq). exists i, sq.
    by rewrite lookup_insert_ne by congruence.
Qed.

(** A marked position is not among the open orders of the day. *)
Lemma marked_hides d now t o :
  today now = d -> marked d (position_of o) t -> squared_off now (all_rows t) o = true.
Proof.
  intros <- (id & sq & Hid & Hk & Hs & Hp & Hd). unfold squared_off. apply existsb_exists. exists sq.
  split; [apply list_elem_of_In, elem_all_rows; eauto|]. injection Hk as -> -> ->.
  unfold placed_today. by rewrite Hs, Hp, Hd, !String.eqb_refl, Z.eqb_refl.
Qed.

(** An exit sends the filled quantity to the other side, before the close. *)
Definition good_exit (e : Exit) : Prop :=
  (clock_minute e.(exAt) < marketCloseMinutes)%Z /\
  (0 < e.(exOriginal).(Order.FilledQuantity))%Z /\
  exists orderID eventID at_ upd, e.(exOrder) = reverse_order orderID eventID at_ upd e.(exOriginal).

Record log_inv (d : Z) (s : S_) : Prop := {
  log_marked e : e ∈ s.(exits) -> marked d (position_of e.(exOriginal)) (orders s);
  log_past e : e ∈ s.(exits) -> (e.(exPass) <= s.(passes))%nat;
  log_once e1 e2 : e1 ∈ s.(exits) -> e2 ∈ s.(exits) ->
    position_of e1.(exOriginal) = position_of e2.(exOriginal) -> e1.(exPass) = e2.(exPass);
  log_good e : e ∈ s.(exits) -> good_exit e
}.

(** During a pass over [l]: exits of these positions are exits of this pass. *)
Definition pass_inv (d : Z) (l : list Order.t) (s : S_) : Prop :=
  log_inv d s /\
  forall e o, e ∈ s.(exits) -> o ∈ l -> position_of e.(exOriginal) = position_of o ->
    e.(exPass) = s.(passes).

Lemma log_inv_frame d s s' :
  orders s' = orders s -> s'.(exits) = s.(exits) -> (s.(passes) <= s'.(passes))%nat ->
  log_inv d s -> log_inv d s'.
Proof.
  intros Ho He Hp [Hm Hl Hu Hg]. split; rewrite He; rewrite ?Ho; [done| |done|done].
  intros e Hin. specialize (Hl e Hin). lia.
Qed.

Section OneDay.

Context (d : Z) (Hday : forall n, today (clock n) = d).

Lemma pass_inv_create l o s :
  o ∈ l -> (0 < o.(Order.FilledQuantity))%Z -> pass_inv d l s ->
  pass_inv d l (createAndExecuteSquareOffOrder o s).1.
Proof.
  intros Ho Hq [[Hm Hl Hu Hg] Hl'].
  assert (Hkeep : forall k, marked d k (orders s) ->
    marked d k (orders (createAndExecuteSquareOffOrder o s).1)).
  { intros k. apply create_tables; [by intros|intros *; apply marked_update|intros *; apply marked_insert]. }
  destruct (create_cases o s) as (Hp & _ & [(He & _)|(t & Hc & Ht & _ & He & Hx)]).
  { split; [split|]; rewrite ?He, ?Hp; auto. }
  set (new := mkExit _ _ _ _) in He.
  assert (Hnew : marked d (position_of o) (orders (createAndExecuteSquareOffOrder o s).1)).
  { unfold orders. rewrite Hx. apply (ExecuteOrder_tables (marked d (position_of o)) false);
      [intros *; apply marked_update|done|]. cbn.
    apply sqlCreate_spec in Ht as [_ Hr]. eexists _, _. rewrite Hr, lookup_insert_eq.
    split; [done|]. split_and!; [done..|]. apply Hday. }
  assert (Hone : forall e, e ∈ s.(exits) -> position_of e.(exOriginal) = position_of o ->
    e.(exPass) = s.(passes)) by (intros e Hin; by apply (Hl' e o)).
  split; [split|]; rewrite ?He, ?Hp; cbv zeta.
  - intros e [Hin|Hin]%elem_of_app; [auto|]. by apply list_elem_of_singleton in Hin as ->.
  - intros e [Hin|Hin]%elem_of_app; [auto|]. by apply list_elem_of_singleton in Hin as ->.
  - intros e1 e2 [H1|H1]%elem_of_app [H2|H2]%elem_of_app; [by auto| | |];
      try apply list_elem_of_singleton in H1 as ->; try apply list_elem_of_singleton in H2 as ->;
      cbn; intros E; [by apply Hone|symmetry; by apply Hone|done].
  - intros e [Hin|Hin]%elem_of_app; [auto|]. apply list_elem_of_singleton in Hin as ->.
    split_and!; [done|done|]. subst new. eauto.
  - intros e o' [Hin|Hin]%elem_of_app; [eauto|]. by apply list_elem_of_singleton in Hin as ->.
Qed.

Lemma pass_inv_fold l due : forall l' s,
  (forall o, due o = true -> (0 < o.(Order.FilledQuantity))%Z) ->
  l' ⊆ l -> pass_inv d l s -> pass_inv d l (foldl (square_off_one due) s l').
Proof.
  induction l' as [|o l' IH]; intros s Hdue Hsub Hs; [done|]. cbn. apply IH; [done|set_solver|].
  unfold square_off_one. destruct (due o) eqn:E; [|done]. apply pass_inv_create; [set_solver|auto|done].
Qed.

(** At the start of a pass none of the open positions has an exit. *)
Lemma pass_inv_start l dbnow s s' :
  today dbnow = d -> log_inv d s ->
  (orders s').(rows) = (orders s).(rows) -> s'.(exits) = s.(exits) -> (s.(passes) <= s'.(passes))%nat ->
  (forall o, o ∈ l -> squared_off dbnow (all_rows (orders s)) o = false) ->
  pass_inv d l s'.
Proof.
  intros Hd Hs Ho He Hp Hopen.
  assert (Hr : forall k, marked d k (orders s') <-> marked d k (orders s)).
  { intros k. unfold marked. by rewrite Ho. }
  split.
  - destruct Hs as [Hm Hl Hu Hg]. split; rewrite He; [| |done|done].
    + intros e Hin. apply Hr. auto.
    + intros e Hin. specialize (Hl e Hin). lia.
  - intros e o Hin Hol E. rewrite He in Hin. exfalso.
    pose proof (log_marked d s Hs e Hin) as Hm. rewrite E in Hm.
    apply (marked_hides d dbnow) in Hm; [|done]. rewrite Hopen in Hm by done. done.
Qed.

Lemma query_keeps failure p s s' t r :
  select_asc failure p (orders s) = (t, r) -> (orders s').(rows) = t.(rows) ->
  s'.(exits) = s.(exits) -> (s.(passes) <= s'.(passes))%nat -> log_inv d s -> log_inv d s'.
Proof.
  intros Hq Ho He Hp [Hm Hl Hu Hg]. pose proof (select_asc_rows failure p (orders s)) as Hr.
  rewrite Hq in Hr. cbn in Hr. split; rewrite He; [| |done|done]; intros e Hin.
  - unfold marked. rewrite Ho, Hr. by apply Hm.
  - specialize (Hl e Hin). lia.
Qed.

Lemma query_start failure p n s s' t l :
  select_asc failure p (orders s) = (t, inr l) ->
  (forall o, p o = true -> squared_off (clock n) (all_rows (orders s)) o = false) ->
  (orders s').(rows) = t.(rows) -> s'.(exits) = s.(exits) -> (s.(passes) <= s'.(passes))%nat ->
  log_inv d s -> pass_inv d l s'.
Proof.
  intros Hq Hopen Ho He Hp Hs. pose proof (select_asc_rows failure p (orders s)) as Hr.
  pose proof (fun o => select_asc_elem failure p (orders s) l o) as Hl.
  rewrite Hq in Hr, Hl. cbn in Hr, Hl.
  apply (pass_inv_start l (clock n) s); [apply Hday|done|by rewrite Ho, Hr|done|done|].
  intros o [_ Hin]%Hl; auto.
Qed.

Lemma log_inv_all s : log_inv d s -> log_inv d (squareOffAllPositions s).1.
Proof.
  intros Hs. unfold squareOffAllPositions, read_clock, sqlGetOpenOrders. cbv zeta. cbn [reads].
  set (s1 := s <| passes := S s.(passes) |> <| reads := S s.(reads) |>).
  assert (H1 : log_inv d s1) by (eapply log_inv_frame; [..|exact Hs]; cbn; try done; lia).
  match goal with |- context [select_asc ?f ?p ?t0] =>
    destruct (select_asc f p t0) as [t [e|[|o l]]] eqn:Hq; change t0 with (orders s1) in Hq end; cbn [fst];
    try (eapply query_keeps; [exact Hq|done|done|cbn; lia|done]).
  match goal with |- context [snapshots (o :: l) ?x] => set (s2 := x) end.
  destruct (snapshots_frame (o :: l) s2) as (So & Se & Sp & _).
  destruct (snapshots (o :: l) s2) as [snaps s3]. cbn in So, Se, Sp.
  apply (pass_inv_fold (o :: l)); [|done|].
  - intros o' Hdue. unfold due_globally, to_close in Hdue. bool_to_prop. lia.
  - eapply query_start; [exact Hq| |by rewrite So|done|by rewrite Sp|done].
    intros o' Ho'. unfold open_row in Ho'. by bool_to_prop.
Qed.

Lemma log_inv_user u s : log_inv d s -> log_inv d (squareOffUserPositions u s).1.
Proof.
  intros Hs. unfold squareOffUserPositions, read_clock, sqlGetOpenOrdersByUser. cbv zeta. cbn [reads].
  set (s1 := s <| passes := S s.(passes) |> <| reads := S s.(reads) |>).
  assert (H1 : log_inv d s1) by (eapply log_inv_frame; [..|exact Hs]; cbn; try done; lia).
  match goal with |- context [select_asc ?f ?p ?t0] =>
    destruct (select_asc f p t0) as [t [e|[|o l]]] eqn:Hq; change t0 with (orders s1) in Hq end; cbn [fst];
    try (eapply query_keeps; [exact Hq|done|done|cbn; lia|done]).
  match goal with |- context [if hasChecker then FetchOpenPositions u ?x else _] =>
    pose proof (fetch_frame u x) as Hf; set (w1 := x) in * end.
  destruct (if hasChecker then _ else _) as [w snap] eqn:Hw.
  assert (Hx : w.(xorders) = w1.(xorders)).
  { destruct hasChecker; [by rewrite Hw in Hf|by injection Hw as <-]. }
  apply (pass_inv_fold (o :: l)); [|done|].
  - intros o' Hdue. unfold to_close in Hdue. bool_to_prop. lia.
  - eapply query_start; [exact Hq| |unfold orders; cbn; by rewrite Hx|done|done|done].
    intros o' Ho'. unfold open_row in Ho'. by bool_to_prop.
Qed.

(** *** The events *)

Lemma log_inv_sched f s : log_inv d s -> log_inv d (s <| sched := f |>).
Proof. by apply log_inv_frame. Qed.

Lemma log_inv_users suffix day l s : log_inv d s -> log_inv d (foldl (square_off_user suffix day) s l).
Proof.
  revert s. induction l as [|u l IH]; intros s Hs; [done|]. cbn. apply IH. unfold square_off_user.
  case_match; [done|]. apply log_inv_user. destruct paperForceExitUser; by eapply log_inv_frame; [..|exact Hs].
Qed.

Lemma log_inv_paper s : log_inv d s -> log_inv d (run_paper s).
Proof. unfold run_paper. destruct paperSquareOff; [by apply log_inv_frame|done]. Qed.

Lemma log_inv_clock s : log_inv d s -> log_inv d (read_clock s).2.
Proof. by apply log_inv_frame. Qed.

Lemma log_inv_shouldPaper s : log_inv d s -> log_inv d (shouldPaperSquareOff s).2.
Proof.
  intros Hs. unfold shouldPaperSquareOff, read_clock. destruct (parseTime _) as [h m].
  repeat case_match; by eapply log_inv_frame; [..|exact Hs].
Qed.

Lemma log_inv_should s : log_inv d s -> log_inv d (shouldSquareOff s).2.
Proof.
  intros Hs. unfold shouldSquareOff, read_clock. destruct (parseTime _) as [h m].
  repeat case_match; by eapply log_inv_frame; [..|exact Hs].
Qed.

Lemma log_inv_tick s : log_inv d s -> log_inv d (tick s).
Proof.
  intros Hs. unfold tick, checkUserSquareOffs, read_clock.
  match goal with |- context [shouldPaperSquareOff ?x] => set (s1 := x) end.
  assert (H1 : log_inv d s1).
  { subst s1. cbv zeta. case_match; [|apply log_inv_users]; by eapply log_inv_frame; [..|exact Hs]. }
  pose proof (log_inv_shouldPaper s1 H1) as H2. destruct (shouldPaperSquareOff s1) as [paper s2]. cbn in H2.
  cbv zeta. set (s3 := if paper then _ else _).
  assert (H3 : log_inv d s3) by (subst s3; destruct paper; [by apply log_inv_paper|done]).
  pose proof (log_inv_should s3 H3) as H4. destruct (shouldSquareOff s3) as [live s4]. cbn in H4.
  destruct live; [by apply log_inv_all|done].
Qed.

Lemma log_inv_startup s : log_inv d s -> log_inv d (runStartupCatchUp s).
Proof.
  intros Hs. unfold runStartupCatchUp, read_clock. cbv zeta.
  case_match; [by eapply log_inv_frame; [..|exact Hs]|].
  assert (Hp : log_inv d (catch_up_paper (clock s.(reads)) (s <| reads := S s.(reads) |>))).
  { unfold catch_up_paper. destruct (parseTime _) as [h m].
    case_match; [apply log_inv_paper|]; by eapply log_inv_frame; [..|exact Hs]. }
  set (s1 := catch_up_paper _ _) in *. clearbody s1.
  assert (Hl : log_inv d (catch_up_live (clock s.(reads)) s1)).
  { unfold catch_up_live. destruct (parseTime _) as [h m]. case_match; [|done]. cbv zeta.
    case_match; [apply log_inv_all|]; by eapply log_inv_frame; [..|exact Hp]. }
  set (s2 := catch_up_live _ _) in *. clearbody s2. unfold runStartupUserCatchUp. cbv zeta.
  case_match; [by eapply log_inv_frame; [..|exact Hl]|by apply log_inv_users].
Qed.

Lemma log_inv_step s s' : sq_step s s' -> log_inv d s -> log_inv d s'.
Proof.
  intros [time| |now st Hst|t] Hs.
  - by apply log_inv_startup, log_inv_sched.
  - by apply log_inv_tick.
  - destruct Hs as [Hm Hl Hu Hg]. split; [|done|done|done]. intros e Hin. cbn.
    by apply marked_statement, Hm.
  - by eapply log_inv_frame; [..|exact Hs].
Qed.

Lemma log_inv_run s s' : rtc sq_step s s' -> s.(exits) = [] -> log_inv d s'.
Proof.
  intros Hrun Hnone. assert (Hs : log_inv d s).
  { split; rewrite Hnone; [| | |]; intros *; try by intros ?%elem_of_nil. }
  clear Hnone. induction Hrun as [|a b c Hab Hbc IH]; [done|]. by apply IH, (log_inv_step a).
Qed.

(** A position that was squared off once is left alone for the rest of the day,
    by the scheduler of the process that did it and by those that start later:
    all the exits of one position belong to one pass over the open orders, over
    any sequence of ticks, restarts and writes by others. *)
Theorem squared_off_in_one_pass (s s' : S_) (e1 e2 : Exit)
    (Hrun : rtc sq_step s s') (Hnone : s.(exits) = [])
    (H1 : e1 ∈ s'.(exits)) (H2 : e2 ∈ s'.(exits))
    (Hsame : position_of e1.(exOriginal) = position_of e2.(exOriginal)) :
  e1.(exPass) = e2.(exPass).
Proof. eapply log_once; [eapply log_inv_run; [exact Hrun|exact Hnone]|done..]. Qed.

(** Every exit the scheduler sends reverses exactly the filled quantity of an
    order that has one, at the market, and no exit is sent at 15:30 or later,
    when it would wait for the next morning. *)
Theorem exits_reverse_fills_before_close (s s' : S_) (e : Exit)
    (Hrun : rtc sq_step s s') (Hnone : s.(exits) = []) (He : e ∈ s'.(exits)) :
  (clock_minute e.(exAt) < 15 * 60 + 30)%Z /\
  (0 < e.(exOrder).(Order.Quantity))%Z /\
  e.(exOrder).(Order.Quantity) = e.(exOriginal).(Order.FilledQuantity) /\
  e.(exOrder).(Order.OrderSide) <> e.(exOriginal).(Order.OrderSide) /\
  e.(exOrder).(Order.OrderType) = OrderTypeMarket /\
  orderKey e.(exOrder) = orderKey e.(exOriginal) /\
  position_of e.(exOrder) = position_of e.(exOriginal).
Proof.
  destruct (log_good d s' (log_inv_run _ _ Hrun Hnone) e He) as (Hc & Hq & id & ev & at_ & upd & ->).
  split_and!; [done|done|done| |done|done|done]. cbn.
  destruct (String.eqb_spec e.(exOriginal).(Order.OrderSide) "SELL") as [-> | Hn]; congruence.
Qed.

End OneDay.

(** *** Every open position is squared off *)

Section Complete.

Context (Hfresh : forall i j, fresh i = fresh j -> i = j).
Context (Hearly : forall n, (clock_minute (clock n) < marketCloseMinutes)%Z).







End Complete.

End Scheduler.

(** ** A concrete day *)

(** The broker's book shows whatever the broker was given as open. *)
#[export] Instance book_positions : PositionLookup BookBroker := {
  getPositions := fun _ b => (b, inr [mkPosition "DAILY" "NSE" 11536 "MIS" 10])
}.

(** 15:05 in India on 1 January 1970, a Thursday. *)
Definition sample_close : Z := (9 * 3600 + 35 * 60) * second.

Definition sample_clock (n : nat) : Z := sample_close.

Definition sample_fresh (n : nat) : uuid := (100 + N.of_nat n)%N.

(** Two fills of one position. *)
Definition sample_fill (id : uuid) (qty : Z) : Order.t :=
  sample_entry <| Order.OrderID := id |> <| Order.StrategyID := "S1" |>
    <| Order.Status := StatusFilled |> <| Order.ProductType := "INTRADAY" |>
    <| Order.FilledQuantity := qty |> <| Order.FilledPrice := Some (of_Z 100) |>.

Definition sample_day : SquareOff BookBroker unit :=
  mkSquareOff (NewAutoSquareOffScheduler "")
    (sample_exec [] <| xorders :=
       mkTable (<[1%N := sample_fill 1 10]> (<[2%N := sample_fill 2 5]> ∅)) [] |>)
    ∅ tt 0 0 [].

Abbreviation sample_tick :=
  (tick sample_clock sample_fresh (fun _ => sample_env) (fun _ => false) (sample_cfg 1) false None None).
Abbreviation sample_start :=
  (runStartupCatchUp sample_clock sample_fresh (fun _ => sample_env) (fun _ => false) (sample_cfg 1)
     false None None).

Definition after_tick : SquareOff BookBroker unit := sample_tick sample_day.

(** The process ends and another one starts. *)
Definition after_restart : SquareOff BookBroker unit :=
  sample_start (after_tick <| sched := NewAutoSquareOffScheduler "15:00" |>).

Lemma after_restart_run :
  rtc (sq_step sample_clock sample_fresh (fun _ => sample_env) (fun _ => false) (sample_cfg 1) false
         None None) sample_day after_restart.
Proof. eapply rtc_l; [apply SqTick|]. eapply rtc_l; [apply (SqStart _ _ _ _ _ _ _ _ _ "15:00")|done]. Qed.

Example after_restart_exits :
  map (fun e => (e.(exPass), e.(exOriginal).(Order.OrderID), e.(exOrder).(Order.OrderSide),
                 e.(exOrder).(Order.Quantity))) after_restart.(exits) =
  [(1%nat, 2%N, "SELL", 5%Z); (1%nat, 1%N, "SELL", 10%Z)] /\ after_restart.(passes) = 2%nat.
Proof. vm_compute. split; reflexivity. Qed.

Definition sample_exit (i : nat) : Exit :=
  nth i after_restart.(exits) (mkExit 0 0 Order.zero Order.zero).

Lemma sample_exit_in i : (i < 2)%nat -> sample_exit i ∈ after_restart.(exits).
Proof.
  intros Hi. assert (Hlen : length after_restart.(exits) = 2%nat) by (vm_compute; reflexivity).
  unfold sample_exit. revert Hlen. generalize (after_restart.(exits)). intros l Hlen.
  apply list_elem_of_In, nth_In. lia.
Qed.

Lemma squared_off_in_one_pass_witness : (sample_exit 0).(exPass) = (sample_exit 1).(exPass).
Proof.
  refine (squared_off_in_one_pass sample_clock sample_fresh (fun _ => sample_env) (fun _ => false)
    (sample_cfg 1) false None None 0 _ sample_day after_restart _ _ after_restart_run _ _ _ _);
    [intros n; vm_compute; reflexivity|vm_compute; reflexivity
    |apply sample_exit_in; lia|apply sample_exit_in; lia|vm_compute; reflexivity].
Defined.

Lemma exits_reverse_fills_before_close_witness :
  (clock_minute (sample_exit 0).(exAt) < 930)%Z /\ (0 < (sample_exit 0).(exOrder).(Order.Quantity))%Z.
Proof.
  destruct (exits_reverse_fills_before_close sample_clock sample_fresh (fun _ => sample_env)
    (fun _ => false) (sample_cfg 1) false None None 0 (fun n => eq_refl) sample_day after_restart
    (sample_exit 0) after_restart_run eq_refl (sample_exit_in 0 ltac:(lia))) as (Hc & Hq & _).
  split; [exact Hc|exact Hq].
Defined.

