(* ===== verification/StrategyEvents.v ===== *)
(** * Deactivating a strategy

    [trade-execution/internal/consumer/strategy_events_consumer.go]: what the
    events about strategies do to the execution service.  A paused or deleted
    strategy is halted and everything it has open is cancelled or closed.  The
    parts it works on are those of the other files; the multi-level manager, the
    paper monitor, the price client and the broker's position book are
    interfaces.  The clock is read once per event; [fresh] and [env] number the
    square-off orders of an event.  The cancellations and the square-offs that
    run concurrently touch different orders: they are taken in the order of the
    list.  [squareOffs] logs the reverse orders that were stored and sent. *)

From stdpp Require Import base gmap strings list fin_maps fin_sets sorting.
From Stdlib Require Import ZArith Lia.
From S2P Require Import Prelude GoFloat GoStrings GoTime Orders OrderRepo OrderQueries OCOTypes.
From S2P Require Import Broker Indira Signals Executor PriceMonitor PriceWatch SignalProcessor SquareOff.

Open Scope string_scope.
Open Scope list_scope.
Open Scope go_scope.

(** From 15:00 to 15:10 in India, both included, on weekdays. *)
Definition isEODSquareOffWindow (now : Z) : bool :=
  negb (weekend now) && (15 * 60 <=? clock_minute now)%Z && (clock_minute now <=? 15 * 60 + 10)%Z.

Definition configPaused := "CONFIG_PAUSED".
Definition configDeleted := "CONFIG_DELETED".
Definition configCreated := "CONFIG_CREATED".
Definition configUpdated := "CONFIG_UPDATED".

Record strategyEvent : Type := mkStrategyEvent {
  evType : string;
  evUserID : string;
  evStrategyID : string
}.

Class MLGroupCanceller (M : Type) := { CancelGroupsByStrategy : string -> string -> M -> M }.

Class PaperOrderPurger (Q : Type) := { RemoveOrdersByStrategy : string -> Q -> Q }.

Record StrategyEventsConsumer (B O M Q : Type) : Type := mkConsumer {
  proc : Processor B O M;
  paperMonitor : option Q;
  levels : LevelsTable;
  squareOffLog : list (Order.t * Order.t)
}.

Arguments mkConsumer {B O M Q}. Arguments proc {B O M Q}. Arguments paperMonitor {B O M Q}.
Arguments levels {B O M Q}. Arguments squareOffLog {B O M Q}.

#[export] Instance eta_consumer {B O M Q} : Eta (StrategyEventsConsumer B O M Q) := fun c =>
  mkConsumer c.(proc) c.(paperMonitor) c.(levels) c.(squareOffLog).

Section Consumer.

Context {B O M Q : Type} {EB : ExecutionBroker B} {PL : PositionLookup B}.
Context {ML : MLGroupCanceller M} {PP : PaperOrderPurger Q}.
Context (cfg : ExecConfig) (fresh : nat -> uuid) (env : nat -> ExecEnv).
Context (hasPositions : bool) (priceClient : option (string -> Z -> option f64)).

Abbreviation C := (StrategyEventsConsumer B O M Q).

Definition cexec (c : C) : ExecState B := c.(proc).(exec).
Definition corders (c : C) : OrdersTable := (cexec c).(xorders).

Definition on_exec (f : ExecState B -> ExecState B) (c : C) : C :=
  c <| proc := c.(proc) <| exec := f c.(proc).(exec) |> |>.

Definition set_orders (t : OrdersTable) : C -> C := on_exec (fun w => w <| xorders := t |>).

(** Orders the broker must be told about. *)
Definition at_broker (o : Order.t) : bool :=
  negb o.(Order.IsPaperTrade) && is_set o.(Order.IndiraOrderID) && negb (IsTerminalStatus o.(Order.Status)).

Definition cancel_at_broker (now : Z) (w : ExecState B) (o : Order.t) : ExecState B :=
  if at_broker o then (CancelOrderExec now "Strategy deactivated or deleted" o w).1.1.1 else w.

(** [squareOffLivePosition]; [k] numbers the order. *)
Definition squareOffLivePosition (now : Z) (k : nat) (original : Order.t) (c : C) : C * option string :=
  let o := reverse_order (fresh (2 * k)) (fresh (S (2 * k))) now now original in
  let '(t, e) := sqlCreate o (corders c) in
  let c := set_orders t c in
  match e with
  | Some e => (c, Some ("save square-off order: " ++ e)%string)
  | None =>
      let '(w, _, r) := ExecuteOrder cfg (env k) o (cexec c) in
      (on_exec (fun _ => w) c <| squareOffLog := c.(squareOffLog) ++ [(original, o)] |>,
       match r with Some e => Some ("execute square-off order: " ++ e)%string | None => None end)
  end.

Fixpoint square_off_list (now : Z) (k : nat) (l : list Order.t) (c : C) : C :=
  match l with
  | [] => c
  | o :: l => square_off_list now (S k) l (squareOffLivePosition now k o c).1
  end.

(** Step 1.5 outside the window. *)
Definition close_live_positions (now : Z) (ev : strategyEvent) (c : C) : C :=
  let '(t, r) := sqlGetExitableLiveOrdersByStrategy now ev.(evStrategyID) ev.(evUserID) (corders c) in
  let c := set_orders t c in
  match r with
  | inl _ | inr [] => c
  | inr l =>
      let '(w, snap) := if hasPositions then FetchOpenPositions ev.(evUserID) (cexec c)
                        else (cexec c, inl "") in
      let c := on_exec (fun _ => w) c in
      let snap := match snap with inr m => Some m | inl _ => None end in
      square_off_list now 0 (List.filter (to_close snap) l) c
  end.

(** Step 2: a filled paper order is exited at the last traded price. *)
Definition exit_at_ltp (now : Z) (ltp_of : string -> Z -> option f64) (t : OrdersTable) (o : Order.t)
  : OrdersTable :=
  if negb o.(Order.IsPaperTrade) || negb (is_set o.(Order.FilledPrice)) || (o.(Order.FilledQuantity) =? 0)%Z
  then t
  else
    match ltp_of o.(Order.Exchange) o.(Order.StockCode) with
    | None => t
    | Some ltp => (sqlUpdatePaperExitPrice now o.(Order.OrderID) ltp (paper_pnl o ltp) t).1
    end.

(** Both statements of [CancelAllOrdersByStrategy]. *)
Definition CancelAllOrdersByStrategy (now : Z) (strategyID userID : string) (c : C) : C * option string :=
  match sqlCancelOrdersOfStrategy now strategyID userID (corders c) with
  | (t, Some e) => (set_orders t c, Some e)
  | (t, None) =>
      let '(fails, t) := driver t in
      let c := set_orders t c in
      if fails then (c, Some "failed to cancel ml levels for strategy")
      else (c <| levels := sqlCancelLevelsOfStrategy strategyID userID t c.(levels) |>, None)
  end.

Definition stop_watching (strategyID : string) (c : C) : C :=
  c <| proc := c.(proc) <| priceMonitor := (fun m => (UnwatchByStrategy strategyID m).1) <$>
                                            c.(proc).(priceMonitor) |> |>
    <| paperMonitor := RemoveOrdersByStrategy strategyID <$> c.(paperMonitor) |>.

Definition cancel_groups (ev : strategyEvent) (c : C) : C :=
  c <| proc := c.(proc) <| mlManager :=
         CancelGroupsByStrategy ev.(evUserID) ev.(evStrategyID) <$> c.(proc).(mlManager) |> |>.

Definition record_paper_exits (now : Z) (l : list Order.t) (c : C) : C :=
  match priceClient with
  | Some ltp_of => set_orders (foldl (exit_at_ltp now ltp_of) (corders c) l) c
  | None => c
  end.

Definition closeStrategyPositions (now : Z) (ev : strategyEvent) (c : C) : C * option string :=
  let c := stop_watching ev.(evStrategyID) c in
  let '(t, r) := sqlGetActiveOrdersByStrategy ev.(evStrategyID) ev.(evUserID) (corders c) in
  let c := set_orders t c in
  match r with
  | inl e => (c, Some ("closeStrategyPositions: fetch orders: " ++ e)%string)
  | inr l =>
      let c := on_exec (fun w => foldl (cancel_at_broker now) w l) c in
      let c := cancel_groups ev c in
      let c := if isEODSquareOffWindow now then c else close_live_positions now ev c in
      let c := record_paper_exits now l c in
      match CancelAllOrdersByStrategy now ev.(evStrategyID) ev.(evUserID) c with
      | (c, Some e) => (c, Some ("closeStrategyPositions: bulk cancel: " ++ e)%string)
      | (c, None) => (c, None)
      end
  end.

Definition invalidate_credentials (userID : string) (c : C) : C :=
  on_exec (fun w => w <| xcreds := cache_Invalidate userID <$> w.(xcreds) |>) c.

(** [processMessage]; a message that does not decode is [None]. *)
Definition processMessage (now : Z) (msg : option strategyEvent) (c : C) : C * option string :=
  match msg with
  | None => (c, None)
  | Some ev =>
      if (ev.(evUserID) =?s "") || (ev.(evStrategyID) =?s "") then (c, None)
      else if (ev.(evType) =?s configPaused) || (ev.(evType) =?s configDeleted) then
        closeStrategyPositions now ev (c <| proc := HaltStrategy ev.(evStrategyID) c.(proc) |>)
      else if (ev.(evType) =?s configCreated) || (ev.(evType) =?s configUpdated) then
        (invalidate_credentials ev.(evUserID) c, None)
      else (c, None)
  end.

(** The loop of [Start] over the messages of the partition from [offset] on,
    each with the instant it is processed at; the second component is the offset
    the group would resume from after a restart. *)
Fixpoint consume (offset committed : nat) (l : list (Z * option strategyEvent)) (c : C) : C * nat :=
  match l with
  | [] => (c, committed)
  | (now, msg) :: l =>
      match processMessage now msg c with
      | (c, None) => consume (S offset) (S offset) l c
      | (c, Some _) => consume (S offset) committed l c
      end
  end.

(** ** What an event leaves behind *)

(** What the steps between the first and the last do not touch. *)
Definition same_frame (c c' : C) : Prop :=
  c'.(proc).(halted) = c.(proc).(halted) /\ c'.(proc).(priceMonitor) = c.(proc).(priceMonitor) /\
  c'.(levels) = c.(levels).

Lemma same_frame_trans c1 c2 c3 : same_frame c1 c2 -> same_frame c2 c3 -> same_frame c1 c3.
Proof. intros (? & ? & ?) (? & ? & ?). unfold same_frame. split_and!; congruence. Qed.

Lemma on_exec_frame f c : same_frame c (on_exec f c).
Proof. done. Qed.

Lemma squareOffLivePosition_frame now k o c : same_frame c (squareOffLivePosition now k o c).1.
Proof.
  unfold squareOffLivePosition. destruct (sqlCreate _ _) as [t [e|]]; [done|].
  by destruct (ExecuteOrder _ _ _ _) as [[w o'] r].
Qed.

Lemma square_off_list_frame now l : forall k c, same_frame c (square_off_list now k l c).
Proof.
  induction l as [|o l IH]; intros k c; [done|]. cbn.
  eapply same_frame_trans; [apply squareOffLivePosition_frame|apply IH].
Qed.

Lemma close_live_frame now ev c : same_frame c (close_live_positions now ev c).
Proof.
  unfold close_live_positions. destruct (sqlGetExitableLiveOrdersByStrategy _ _ _ _) as [t [e|[|o l]]];
    [done..|]. destruct (if hasPositions then _ else _) as [w snap].
  eapply same_frame_trans; [|apply square_off_list_frame]. done.
Qed.

Lemma record_paper_exits_frame now l c : same_frame c (record_paper_exits now l c).
Proof. unfold record_paper_exits. by destruct priceClient. Qed.

Lemma driver_rows t b t' : driver t = (b, t') -> t'.(rows) = t.(rows).
Proof. destruct t as [r [|b0 bs]]; by intros [= <- <-]. Qed.

Definition dead_row (o : Order.t) : Prop :=
  one_of o.(Order.Status) ["CANCELLED"; "REJECTED"; "A.REJECTED"] = true.

(** After the bulk update no order and no level of the strategy is active. *)
Lemma bulk_cancel_dead now sid uid c c' :
  CancelAllOrdersByStrategy now sid uid c = (c', None) ->
  (forall id o, (corders c').(rows) !! id = Some o -> of_strategy sid uid o = true -> dead_row o) /\
  (forall k r o, c'.(levels) !! k = Some r -> (corders c').(rows) !! k.1.1 = Some o ->
     of_strategy sid uid o = true -> one_of r.(MLRow.Status) [MLStatusPending; MLStatusActive] = false).
Proof.
  unfold CancelAllOrdersByStrategy, sqlCancelOrdersOfStrategy, sqlUpdateWhere.
  destruct (driver (corders c)) as [[] t]; [done|]. cbn -[one_of update_where cancelled_with_strategy].
  set (t1 := update_where _ _ t). destruct (driver t1) as [fails t2] eqn:Hd.
  assert (Hr : t2.(rows) = t1.(rows)).
  { by eapply driver_rows. }
  destruct fails; [done|]. intros [= <-]. unfold corders, cexec. cbn -[one_of]. rewrite Hr. split.
  - intros id o. subst t1. cbn -[one_of cancelled_with_strategy]. rewrite lookup_fmap_Some.
    intros (o0 & <- & _). unfold dead_row. destruct (of_strategy sid uid o0 && not_dead o0) eqn:E; [done|].
    intros Ho. rewrite Ho in E. cbn [andb] in E. unfold not_dead in E. by bool_to_prop.
  - intros k r o. unfold sqlCancelLevelsOfStrategy. rewrite map_lookup_imap, Hr.
    destruct (c.(levels) !! k) as [r0|]; cbn -[one_of]; [|done]. intros Hk Hrow Hof.
    rewrite Hrow, Hof in Hk. cbn -[one_of] in Hk.
    destruct (one_of (MLRow.Status r0) _) eqn:E; by injection Hk as <-.
Qed.

Lemma bulk_cancel_frame now sid uid c :
  (CancelAllOrdersByStrategy now sid uid c).1.(proc).(halted) = c.(proc).(halted) /\
  (CancelAllOrdersByStrategy now sid uid c).1.(proc).(priceMonitor) = c.(proc).(priceMonitor).
Proof.
  unfold CancelAllOrdersByStrategy. destruct (sqlCancelOrdersOfStrategy _ _ _ _) as [t [e|]]; [done|].
  by destruct (driver t) as [[] t'].
Qed.

Lemma close_spec now ev c c' :
  closeStrategyPositions now ev c = (c', None) ->
  c'.(proc).(halted) = c.(proc).(halted) /\
  c'.(proc).(priceMonitor) =
    ((fun m => (UnwatchByStrategy ev.(evStrategyID) m).1) <$> c.(proc).(priceMonitor)) /\
  (forall id o, (corders c').(rows) !! id = Some o ->
     of_strategy ev.(evStrategyID) ev.(evUserID) o = true -> dead_row o) /\
  (forall k r o, c'.(levels) !! k = Some r -> (corders c').(rows) !! k.1.1 = Some o ->
     of_strategy ev.(evStrategyID) ev.(evUserID) o = true ->
     one_of r.(MLRow.Status) [MLStatusPending; MLStatusActive] = false).
Proof.
  unfold closeStrategyPositions. cbv zeta.
  destruct (sqlGetActiveOrdersByStrategy _ _ _) as [t [e|l]]; [done|].
  match goal with |- context [record_paper_exits now l ?x] => set (c1 := x) end.
  assert (H1 : same_frame (stop_watching ev.(evStrategyID) c) c1).
  { subst c1. destruct (isEODSquareOffWindow now); [done|].
    eapply same_frame_trans; [|apply close_live_frame]. done. }
  pose proof (same_frame_trans _ _ _ H1 (record_paper_exits_frame now l c1)) as (Hh & Hp & _).
  destruct (CancelAllOrdersByStrategy _ _ _ _) as [c2 [e|]] eqn:Hc; [done|]. intros [= <-].
  pose proof (bulk_cancel_frame now ev.(evStrategyID) ev.(evUserID) (record_paper_exits now l c1)) as [Bh Bp].
  rewrite Hc in Bh, Bp. cbn in Bh, Bp. apply bulk_cancel_dead in Hc as [Hd Hl].
  split_and!; [by rewrite Bh, Hh|by rewrite Bp, Hp|done|done].
Qed.

Definition deactivates (ev : strategyEvent) : bool :=
  negb (ev.(evUserID) =?s "") && negb (ev.(evStrategyID) =?s "")
  && ((ev.(evType) =?s configPaused) || (ev.(evType) =?s configDeleted)).

Lemma processMessage_deactivates now ev c :
  deactivates ev = true ->
  processMessage now (Some ev) c =
    closeStrategyPositions now ev (c <| proc := HaltStrategy ev.(evStrategyID) c.(proc) |>).
Proof.
  unfold deactivates, processMessage. intros H. bool_to_prop.
  match goal with H : (_ || _) = true |- _ => rewrite H end.
  repeat match goal with H : ?x <> "" |- _ => apply String.eqb_neq in H; rewrite H end. done.
Qed.

(** C13: A deactivation that is processed without an error is final: the strategy is
    halted, no order and no exit level of it is active, and the price monitor
    watches none of its orders. *)
Theorem deactivation_is_final (stock_of : uuid -> string) (now : Z) (ev : strategyEvent) (c c' : C)
    (m : Monitor) (Hev : deactivates ev = true)
    (Hm : c.(proc).(priceMonitor) = Some m) (Hindex : index_ok stock_of m)
    (Hok : processMessage now (Some ev) c = (c', None)) :
  ev.(evStrategyID) ∈ c'.(proc).(halted) /\
  (forall id o, (corders c').(rows) !! id = Some o ->
     of_strategy ev.(evStrategyID) ev.(evUserID) o = true -> dead_row o) /\
  (forall k r o, c'.(levels) !! k = Some r -> (corders c').(rows) !! k.1.1 = Some o ->
     of_strategy ev.(evStrategyID) ev.(evUserID) o = true ->
     one_of r.(MLRow.Status) [MLStatusPending; MLStatusActive] = false) /\
  exists m', c'.(proc).(priceMonitor) = Some m' /\
    forall id p, abs m' !! id = Some p -> strategy_at m'.(heap) p <> Some ev.(evStrategyID).
Proof.
  rewrite processMessage_deactivates in Hok by done.
  apply close_spec in Hok as (Hh & Hp & Hd & Hl). split_and!; [rewrite Hh; cbn; set_solver|done|done|].
  exists (UnwatchByStrategy ev.(evStrategyID) m).1. split.
  { rewrite Hp. change ((c <| proc := HaltStrategy ev.(evStrategyID) c.(proc) |>).(proc).(priceMonitor))
      with c.(proc).(priceMonitor). by rewrite Hm. }
  intros id p Ha. rewrite (proj1 (strategy_abs stock_of ev.(evStrategyID) m Hindex)) in Ha.
  by apply map_lookup_filter_Some in Ha as [_ Hs].
Qed.

(** *** The window before the close *)

Lemma CancelOrderExec_tables now reason o (w : ExecState B) :
  let w' := (CancelOrderExec now reason o w).1.1.1 in
  w'.(calls) = w.(calls) /\
  (w'.(xorders) = w.(xorders) \/
   exists f, w'.(xorders) = (sqlUpdateRow "failed to update order" o.(Order.OrderID) f w.(xorders)).1).
Proof.
  cbv zeta. unfold CancelOrderExec. destruct (IsTerminalStatus _); [auto|].
  set (o' := o <| Order.Status := StatusCancelled |> <| Order.RejectionReason := Some reason |>).
  assert (Hid : o'.(Order.OrderID) = o.(Order.OrderID)) by done. clearbody o'.
  destruct (repo_update_frame now o' w) as (Fc & Fo & _).
  assert (Hx : exists f, (repo_update now o' w).1.(xorders) =
            (sqlUpdateRow "failed to update order" o.(Order.OrderID) f w.(xorders)).1).
  { exists (updated_row now o'). rewrite Fo. unfold sqlUpdate. by rewrite Hid. }
  destruct (repo_update now o' w) as [w1 [e|]]; cbn in *; auto.
Qed.

(** Neither the broker's cancellations of other orders nor the paper exits touch
    the row of a filled live order, and they place nothing. *)
Lemma cancel_fold_keeps now l id o : forall w : ExecState B,
  (forall o2, o2 ∈ l -> at_broker o2 = true -> o2.(Order.OrderID) <> id) ->
  w.(xorders).(rows) !! id = Some o ->
  (foldl (cancel_at_broker now) w l).(xorders).(rows) !! id = Some o /\
  (foldl (cancel_at_broker now) w l).(calls) = w.(calls).
Proof.
  induction l as [|o2 l IH]; intros w Hl Hrow; [done|]. cbn [foldl].
  assert (Hw : (cancel_at_broker now w o2).(xorders).(rows) !! id = Some o /\
               (cancel_at_broker now w o2).(calls) = w.(calls)).
  { unfold cancel_at_broker. destruct (at_broker o2) eqn:Hb; [|done].
    destruct (CancelOrderExec_tables now "Strategy deactivated or deleted" o2 w) as [Hc [-> | (f & ->)]];
      (split; [|exact Hc]); [done|].
    destruct (sqlUpdateRow_rows "failed to update order" o2.(Order.OrderID) f w.(xorders)) as [-> | ->]; [done|].
    rewrite lookup_alter_ne; [done|]. apply Hl; [by left|done]. }
  destruct Hw as [Hw Hc]. rewrite <- Hc. apply IH; [|done]. intros o3 H3. apply Hl. by right.
Qed.

Lemma paper_fold_keeps now ltp_of l id o : forall t,
  o.(Order.IsPaperTrade) = false -> t.(rows) !! id = Some o ->
  (foldl (exit_at_ltp now ltp_of) t l).(rows) !! id = Some o.
Proof.
  induction l as [|o2 l IH]; intros t Ho Hrow; [done|]. cbn. apply IH; [done|]. unfold exit_at_ltp.
  destruct (_ || _); [done|]. destruct (ltp_of _ _) as [ltp|]; [|done]. unfold sqlUpdatePaperExitPrice.
  match goal with |- context [sqlUpdateWhere ?a ?p ?f t] =>
    destruct (sqlUpdateWhere_rows a p f t) as [-> | ->] end; [done|].
  rewrite lookup_fmap, Hrow. cbn. rewrite Ho, andb_false_r. done.
Qed.

Lemma bulk_cancel_row now sid uid c c' id o :
  CancelAllOrdersByStrategy now sid uid c = (c', None) ->
  (corders c).(rows) !! id = Some o -> of_strategy sid uid o && not_dead o = true ->
  (corders c').(rows) !! id = Some (cancelled_with_strategy now o) /\
  (cexec c').(calls) = (cexec c).(calls).
Proof.
  unfold CancelAllOrdersByStrategy, sqlCancelOrdersOfStrategy, sqlUpdateWhere.
  destruct (driver (corders c)) as [[] t] eqn:Hd; [done|].
  assert (Hr : t.(rows) = (corders c).(rows)).
  { by eapply driver_rows. }
  cbn -[one_of update_where cancelled_with_strategy]. destruct (driver (update_where _ _ t)) as [fails t2] eqn:Hd2.
  assert (Hr2 : t2.(rows) = (update_where (fun o => of_strategy sid uid o && not_dead o)
                               (cancelled_with_strategy now) t).(rows)).
  { by eapply driver_rows. }
  destruct fails; [done|]. intros [= <-] Hrow Ho. unfold corders, cexec. cbn -[cancelled_with_strategy].
  rewrite Hr2. cbn -[cancelled_with_strategy]. rewrite lookup_fmap, Hr, Hrow. cbn -[cancelled_with_strategy].
  by rewrite Ho.
Qed.

(** A strategy that is deactivated between 15:00 and 15:10 leaves its filled live
    positions open at the broker: the consumer places no reverse order, since the
    square-off of 15:05 owns the positions, and then marks them CANCELLED, which
    takes them out of the query of that square-off. *)
Theorem eod_deactivation_strands_position (now : Z) (ev : strategyEvent) (c c' : C) (id : uuid)
    (o : Order.t) (Hwindow : isEODSquareOffWindow now = true) (Hev : deactivates ev = true)
    (Hkeys : forall k r, (corders c).(rows) !! k = Some r -> r.(Order.OrderID) = k)
    (Hrow : (corders c).(rows) !! id = Some o)
    (Hof : of_strategy ev.(evStrategyID) ev.(evUserID) o = true)
    (Hfilled : one_of o.(Order.Status) filled_set = true) (Hlive : o.(Order.IsPaperTrade) = false)
    (Hok : processMessage now (Some ev) c = (c', None)) :
  (cexec c').(calls) = (cexec c).(calls) /\
  exists o', (corders c').(rows) !! id = Some o' /\
    o'.(Order.FilledQuantity) = o.(Order.FilledQuantity) /\
    o'.(Order.LiveExitPrice) = o.(Order.LiveExitPrice) /\
    o'.(Order.Status) = StatusCancelled /\ (forall now' l, open_row now' l o' = false).
Proof.
  rewrite processMessage_deactivates in Hok by done. unfold closeStrategyPositions in Hok.
  rewrite Hwindow in Hok. cbv zeta in Hok.
  assert (Hdead : not_dead o = true).
  { unfold not_dead, filled_set in *. rewrite one_of_In in Hfilled.
    destruct Hfilled as [<- | [<- | [<- | []]]]; reflexivity. }
  assert (Hterm : IsTerminalStatus o.(Order.Status) = true).
  { rewrite one_of_In in Hfilled. destruct Hfilled as [<- | [<- | [<- | []]]]; reflexivity. }
  unfold sqlGetActiveOrdersByStrategy in Hok.
  match type of Hok with context [select_asc ?f ?p ?t0] =>
    pose proof (select_asc_rows f p t0) as Hr;
    pose proof (fun l o => select_asc_elem f p t0 l o) as Hl;
    destruct (select_asc f p t0) as [t [e|l]]; [done|]; change t0 with (corders c) in Hr, Hl end.
  cbn [fst snd] in Hr, Hl. specialize (fun o => Hl l o eq_refl).
  match type of Hok with context [record_paper_exits now l ?x] => set (c1 := x) in Hok end.
  assert (Hnot : forall o2, o2 ∈ l -> at_broker o2 = true -> o2.(Order.OrderID) <> id).
  { intros o2 H2 Hb E. apply Hl in H2 as [[k Hk]%elem_all_rows _]. apply Hkeys in Hk as Hk'.
    assert (o2 = o) as -> by congruence. unfold at_broker in Hb. rewrite Hterm in Hb.
    by rewrite andb_false_r in Hb. }
  destruct (cancel_fold_keeps now l id o (cexec c <| xorders := t |>) Hnot) as [H1 Hc1].
  { cbn. by rewrite Hr. }
  assert (H2 : (corders (record_paper_exits now l c1)).(rows) !! id = Some o /\
               (cexec (record_paper_exits now l c1)).(calls) = (cexec c).(calls)).
  { unfold record_paper_exits. destruct priceClient as [ltp_of|]; [|by split].
    split; [|exact Hc1]. unfold corders, cexec. cbn. apply paper_fold_keeps; [done|exact H1]. }
  destruct (CancelAllOrdersByStrategy _ _ _ _) as [c2 [e|]] eqn:Hc; [done|]. injection Hok as <-.
  destruct H2 as [H2 Hcalls].
  destruct (bulk_cancel_row _ _ _ _ _ id o Hc H2) as [Hfin Hcalls'].
  { by rewrite Hof, Hdead. }
  split; [by rewrite Hcalls', Hcalls|]. eexists. split; [exact Hfin|]. split_and!; [done|done|done|].
  intros now' l'. reflexivity.
Qed.

End Consumer.

(** ** Concrete events *)

#[export] Instance unit_canceller : MLGroupCanceller unit := { CancelGroupsByStrategy := fun _ _ u => u }.
#[export] Instance unit_purger : PaperOrderPurger unit := { RemoveOrdersByStrategy := fun _ u => u }.

Abbreviation SampleConsumer := (StrategyEventsConsumer BookBroker unit unit unit).

(** One filled live position of strategy S1 of user U1. *)
Definition sample_consumer : SampleConsumer :=
  mkConsumer (mkProcessor (sample_exec [] <| xorders := mkTable {[ 1%N := sample_fill 1 10 ]} [] |>)
                (Some NewPriceMonitor) None (Some tt) ∅ ∅ []) None ∅ [].

Definition sample_deletion : strategyEvent := mkStrategyEvent configDeleted "U1" "S1".

Definition after_deletion (now : Z) : SampleConsumer * option string :=
  processMessage (sample_cfg 1) sample_fresh (fun _ => sample_env) false None now (Some sample_deletion)
    sample_consumer.

(** 11:00 and 16:00 in India on 1 January 1970. *)
Definition sample_morning : Z := ((5 * 60 + 30) * 60) * second.
Definition sample_evening : Z := ((10 * 60 + 30) * 60) * second.

Lemma eod_deactivation_strands_position_witness :
  (cexec (after_deletion sample_close).1).(calls) = [] /\
  exists o', (corders (after_deletion sample_close).1).(rows) !! 1%N = Some o' /\
    o'.(Order.FilledQuantity) = 10%Z /\ o'.(Order.LiveExitPrice) = None /\
    o'.(Order.Status) = StatusCancelled /\ (forall now' l, open_row now' l o' = false).
Proof.
  refine (eod_deactivation_strands_position (sample_cfg 1) sample_fresh (fun _ => sample_env) false None
    sample_close sample_deletion sample_consumer (after_deletion sample_close).1 1%N (sample_fill 1 10)
    _ _ _ _ _ _ _ _);
    try (vm_compute; reflexivity).
  intros k r Hr. change (({[ 1%N := sample_fill 1 10 ]} : gmap uuid Order.t) !! k = Some r) in Hr.
  apply lookup_singleton_Some in Hr as [<- <-]. reflexivity.
Defined.

Lemma deactivation_is_final_witness :
  "S1" ∈ (after_deletion sample_morning).1.(proc).(halted) /\
  (forall id o, (corders (after_deletion sample_morning).1).(rows) !! id = Some o ->
     of_strategy "S1" "U1" o = true -> dead_row o).
Proof.
  destruct (deactivation_is_final (sample_cfg 1) sample_fresh (fun _ => sample_env) false None
    (fun _ => "") sample_morning sample_deletion sample_consumer (after_deletion sample_morning).1
    NewPriceMonitor ltac:(vm_compute; reflexivity) eq_refl (new_index_ok (fun _ => ""))
    ltac:(vm_compute; reflexivity)) as (H1 & H2 & _).
  split; [exact H1|exact H2].
Defined.

(** The square-off order a deletion sends is recorded as cancelled by the bulk
    update of the same event. *)
Lemma square_off_row_is_cancelled :
  placements (cexec (after_deletion sample_morning).1).(calls) = 1%nat /\
  option_map Order.Status ((corders (after_deletion sample_morning).1).(rows) !! 100%N) = Some StatusCancelled.
Proof. vm_compute. split; reflexivity. Qed.

(** After the close the consumer still sends the reverse order: it lacks the
    check of the scheduler. *)
Lemma late_deactivation_places_order :
  (marketCloseMinutes <= clock_minute sample_evening)%Z /\
  placements (cexec (after_deletion sample_evening).1).(calls) = 1%nat.
Proof. vm_compute. split; [discriminate|reflexivity]. Qed.

(** A message that failed is passed over by the commit of the next one. *)
Lemma failed_message_is_committed :
  (consume (sample_cfg 1) sample_fresh (fun _ => sample_env) false None 0 0
     [(0%Z, Some sample_deletion); (0%Z, None)]
     (sample_consumer <| proc := sample_consumer.(proc) <| exec :=
        sample_consumer.(proc).(exec) <| xorders := mkTable {[ 1%N := sample_fill 1 10 ]} [true] |> |> |>)).2
  = 2%nat.
Proof. vm_compute. reflexivity. Qed.
