(* ===== verification/MLTypes.v ===== *)
(** * Multi-level exits: data and quantities

    [trade-execution/internal/multilevel/types.go] and the functions of
    [manager.go] that split a position over its exit levels.  [roundNSE] is the
    function of [Price.v]; the package has a copy of it.  [sort.Slice] is the
    insertion sort it is for the short slices used here (below twelve). *)

From stdpp Require Import base gmap strings list.
From Stdlib Require Import ZArith Lia Bool.
From S2P Require Import Prelude GoFloat FloatRound FloatOrder Price FloatExact GoStrings Orders OCOTypes.
From S2P Require Import Broker Signals.

Open Scope string_scope.
Open Scope list_scope.
Open Scope go_scope.

(** ** Data *)

Inductive GroupState : Type := GroupStateActive | GroupStateCompleted | GroupStateCancelled.

Inductive LevelStatus : Type := LevelPending | LevelActive | LevelTriggered | LevelCancelled.

#[export] Instance group_state_eq : EqDecision GroupState.
Proof. solve_decision. Defined.

#[export] Instance level_status_eq : EqDecision LevelStatus.
Proof. solve_decision. Defined.

Definition SLModeFixed := "FIXED".
Definition SLModeTrailing := "TRAILING".
Definition SLModeMultiLevel := "MULTI_LEVEL".
Definition TPModeFixed := "FIXED".
Definition TPModeMultiLevel := "MULTI_LEVEL".

(** [ExitLevelState]. *)
Module Level.
Record t : Type := mk {
  LevelNum : Z;
  TriggerPrice : f64;
  ExitQty : Z;
  OriginalExitQty : Z;
  Status : LevelStatus;
  BrokerOrderID : string;
  ExitOrderID : uuid;
  TriggeredAt : option Z;
  ExitPrice : f64
}.
#[global] Instance eta_level : Eta t := fun l =>
  mk l.(LevelNum) l.(TriggerPrice) l.(ExitQty) l.(OriginalExitQty) l.(Status) l.(BrokerOrderID)
     l.(ExitOrderID) l.(TriggeredAt) l.(ExitPrice).
End Level.

(** [SLTPLevelConfig] has the fields of the signal's levels. *)
Abbreviation SLTPLevelConfig := MultiLevelExitLevel.

(** [Group] without its locks; the broker is the manager's. *)
Module MLGroup.
Record t : Type := mk {
  GroupID : uuid;
  EntryOrderID : uuid;
  UserID : string;
  Symbol : string;
  Exchange : string;
  StockCode : Z;
  OrderSide : string;
  ProductType : string;
  Validity : string;
  FillPrice : f64;
  TotalQty : Z;
  SLLevels : list Level.t;
  TPLevels : list Level.t;
  SLMode : string;
  FixedSLPct : f64;
  TrailingSLPct : f64;
  HighestPrice : f64;
  CurrentSLTrigger : f64;
  SingleSLBrokerID : string;
  SingleSLOrderID : uuid;
  TPMode : string;
  State : GroupState;
  RemainingQty : Z;
  TradingMode : string;
  Auth : option AuthContext;
  StrategyID : string;
  StrategyName : string;
  EventID : uuid;
  SLLevelConfigs : list SLTPLevelConfig;
  TPLevelConfigs : list SLTPLevelConfig;
  entryFilled : bool
}.
#[global] Instance eta_mlgroup : Eta t := fun g =>
  mk g.(GroupID) g.(EntryOrderID) g.(UserID) g.(Symbol) g.(Exchange) g.(StockCode) g.(OrderSide)
     g.(ProductType) g.(Validity) g.(FillPrice) g.(TotalQty) g.(SLLevels) g.(TPLevels) g.(SLMode)
     g.(FixedSLPct) g.(TrailingSLPct) g.(HighestPrice) g.(CurrentSLTrigger) g.(SingleSLBrokerID)
     g.(SingleSLOrderID) g.(TPMode) g.(State) g.(RemainingQty) g.(TradingMode) g.(Auth)
     g.(StrategyID) g.(StrategyName) g.(EventID) g.(SLLevelConfigs) g.(TPLevelConfigs)
     g.(entryFilled).
End MLGroup.

Definition AuthBearer (g : MLGroup.t) : string :=
  match g.(MLGroup.Auth) with Some a => a.(BearerToken) | None => "" end.
Definition AuthAppID (g : MLGroup.t) : string :=
  match g.(MLGroup.Auth) with Some a => a.(AppId) | None => "" end.
Definition AuthSource (g : MLGroup.t) : string :=
  match g.(MLGroup.Auth) with Some a => a.(Source) | None => "" end.

(** [tryMarkTriggered]: [None] when the level is not active. *)
Definition tryMarkTriggered (now : Z) (price : f64) (l : Level.t) : option Level.t :=
  match l.(Level.Status) with
  | LevelActive => Some (l <| Level.Status := LevelTriggered |> <| Level.TriggeredAt := Some now |>
                           <| Level.ExitPrice := price |>)
  | _ => None
  end.

Definition ml_is_buy (g : MLGroup.t) : bool := g.(MLGroup.OrderSide) =?s "BUY".

Definition MLExitSide (g : MLGroup.t) : string := if ml_is_buy g then "SELL" else "BUY".

Definition one : f64 := of_Z 1.

(** ** Prices *)

Definition CalcSLTriggerPrice (g : MLGroup.t) (pricePct : f64) : f64 :=
  if ml_is_buy g then roundNSE (g.(MLGroup.FillPrice) * (one - pricePct / of_Z 100))%f64
  else roundNSE (g.(MLGroup.FillPrice) * (one + pricePct / of_Z 100))%f64.

Definition CalcTPLimitPrice (g : MLGroup.t) (pricePct : f64) : f64 :=
  if ml_is_buy g then roundNSE (g.(MLGroup.FillPrice) * (one + pricePct / of_Z 100))%f64
  else roundNSE (g.(MLGroup.FillPrice) * (one - pricePct / of_Z 100))%f64.

Definition SLBreached (g : MLGroup.t) (triggerPrice ltp : f64) : bool :=
  if ml_is_buy g then fle ltp triggerPrice else fle triggerPrice ltp.

Definition TPReached (g : MLGroup.t) (limitPrice ltp : f64) : bool :=
  if ml_is_buy g then fle limitPrice ltp else fle ltp limitPrice.

(** The new trigger, [None] when the stop-loss stays. *)
Definition CalcTrailingSL (g : MLGroup.t) (currentLTP : f64) : option f64 :=
  if negb (g.(MLGroup.SLMode) =?s SLModeTrailing) || (g.(MLGroup.SingleSLBrokerID) =?s "") then None
  else
    let trail := g.(MLGroup.TrailingSLPct) in
    let cur := g.(MLGroup.CurrentSLTrigger) in
    let minPct := if fle trail fzero then dec 1 1 else trail in
    if ml_is_buy g then
      if fle currentLTP g.(MLGroup.HighestPrice) then None
      else
        let newTrigger := roundNSE (currentLTP * (one - trail / of_Z 100))%f64 in
        if flt fzero cur && fle newTrigger cur then None
        else if flt fzero cur && flt ((newTrigger - cur) / cur * of_Z 100)%f64 minPct then None
        else Some newTrigger
    else
      if fle g.(MLGroup.HighestPrice) fzero || fle g.(MLGroup.HighestPrice) currentLTP then None
      else
        let newTrigger := roundNSE (currentLTP * (one + trail / of_Z 100))%f64 in
        if flt fzero cur && fle cur newTrigger then None
        else if flt fzero cur && flt ((cur - newTrigger) / cur * of_Z 100)%f64 minPct then None
        else Some newTrigger.

(** ** Splitting a quantity *)

Section Sort.

Context {A : Type} (less : A -> A -> bool).

(** Move [x] left over the elements it is less than; the prefix is reversed. *)
Fixpoint sift (x : A) (rev_prefix : list A) : list A :=
  match rev_prefix with
  | [] => [x]
  | y :: l => if less x y then y :: sift x l else x :: y :: l
  end.

Definition insertion_sort (l : list A) : list A := rev (foldl (fun acc x => sift x acc) [] l).

End Sort.

(** The share of a level that is not the last, after [assigned] shares. *)
Definition initial_share (filledQty assigned : Z) (c : SLTPLevelConfig) : Z :=
  let q := f64_to_int32 (of_Z filledQty * QtyPct c / of_Z 100)%f64 in
  if (filledQty <? int32 (assigned + q))%Z
  then (if (int32 (filledQty - assigned) <? 0)%Z then 0%Z else int32 (filledQty - assigned))
  else q.

Fixpoint initial_qtys (filledQty assigned : Z) (l : list SLTPLevelConfig) : list Z :=
  match l with
  | [] => []
  | [_] => [int32 (filledQty - assigned)]
  | c :: l =>
      let q := initial_share filledQty assigned c in
      q :: initial_qtys filledQty (int32 (assigned + q)) l
  end.

Definition computeInitialExitQtys (configs : list SLTPLevelConfig) (filledQty : Z) : list Z :=
  if (filledQty <=? 0)%Z then replicate (length configs) 0%Z else initial_qtys filledQty 0 configs.

(** The share of a level: its rounded quantity, its fraction, whether it was
    rounded up. *)
Definition raw_share (totalPct : f64) (remainingQty : Z) (pct : f64) : Z * f64 * bool :=
  let raw := (of_Z remainingQty * pct / totalPct)%f64 in
  let fl := math_Floor raw in
  let frac := (raw - fl)%f64 in
  if fle half frac then (int32 (f64_to_int32 fl + 1), frac, true) else (f64_to_int32 fl, frac, false).

(** Add [d] to the quantities at these places. *)
Definition adjust (d : Z) (places : list nat) (l : list Z) : list Z :=
  foldl (fun l i => alter (fun q => int32 (q + d)) i l) l places.

(** The levels that were (not) rounded up, with their fractions. *)
Definition candidates (up : bool) (shares : list (Z * f64 * bool)) : list (nat * f64) :=
  omap (fun ish : nat * (Z * f64 * bool) => if Bool.eqb ish.2.2 up then Some (ish.1, ish.2.1.2) else None)
    (imap pair shares).

Definition sum_int32 (l : list Z) : Z := foldl (fun s q => int32 (s + q)) 0%Z l.

Definition computeRebalancedQtys (activePcts : list f64) (totalPct : f64) (remainingQty : Z) : list Z :=
  let shares := map (raw_share totalPct remainingQty) activePcts in
  let rounded := map (fun sh => sh.1.1) shares in
  let diff := int32 (remainingQty - sum_int32 rounded) in
  if (0 <? diff)%Z then
    adjust 1 (take (Z.to_nat diff)
      (map fst (insertion_sort (fun a b => flt b.2 a.2) (candidates false shares)))) rounded
  else if (diff <? 0)%Z then
    adjust (-1) (take (Z.to_nat (- diff))
      (map fst (insertion_sort (fun a b => flt a.2 b.2) (candidates true shares)))) rounded
  else rounded.

(** ** The shares of a position sum up to it *)

Fixpoint sumZ (l : list Z) : Z := match l with [] => 0%Z | x :: l => (x + sumZ l)%Z end.

Lemma sumZ_app l1 l2 : sumZ (l1 ++ l2) = (sumZ l1 + sumZ l2)%Z.
Proof. induction l1 as [|a l1 IH]; cbn; [done|]. rewrite IH. lia. Qed.

Lemma fmul_comm x y : fmul x y = fmul y x.
Proof.
  destruct x as [s1| s1| |s1 m1 e1], y as [s2| s2| |s2 m2 e2]; cbn -[SpecFloat.binary_round_aux];
    try reflexivity; rewrite (Bool.xorb_comm s1 s2); try reflexivity.
  by rewrite (Pos.mul_comm m1 m2), (Z.add_comm e1 e2).
Qed.

(** A percentage between 0 and 100. *)
Definition pct_ok (p : f64) : Prop := fnonneg p = true /\ fle p (of_Z 100) = true.

Lemma share_of_percent q p :
  (0 < q < 2 ^ 30)%Z -> pct_ok p -> (0 <= f64_to_int32 (of_Z q * p / of_Z 100)%f64 <= q)%Z.
Proof.
  intros Hq [Hn Hle].
  assert (Hm : fle (of_Z q * p)%f64 (of_Z (q * 100)) = true).
  { rewrite <- of_Z_mul by lia. apply fmul_mono_l; [done|by apply of_Z_nonneg|apply of_Z_fpos; lia|done]. }
  assert (Hmn : fnonneg (of_Z q * p)%f64 = true).
  { rewrite fmul_comm. apply fmul_nonneg; [done|apply of_Z_fpos; lia]. }
  assert (Hd : fle (of_Z q * p / of_Z 100)%f64 (of_Z (q * 100) / of_Z 100)%f64 = true).
  { apply fdiv_mono; [done|apply of_Z_nonneg; lia|by apply of_Z_fpos|done]. }
  pose proof (quotient_trunc (q * 100) 100 ltac:(lia) ltac:(unfold small_divisor; lia)) as Ht.
  rewrite Z.div_mul in Ht by lia.
  destruct (trunc_mono _ _ (fdiv_nonneg _ (of_Z 100) Hmn eq_refl)
              (fdiv_nonneg _ (of_Z 100) (of_Z_nonneg (q * 100) ltac:(lia)) eq_refl) Hd _ Ht)
    as (a & Ha & Hab).
  unfold f64_to_int32. rewrite Ha.
  rewrite (proj2 (Z.leb_le _ _)), (proj2 (Z.ltb_lt _ _)) by lia. cbn. lia.
Qed.

(** Loop of [computeInitialExitQtys]. *)
Lemma initial_qtys_spec q l : forall assigned,
  (0 < q < 2 ^ 30)%Z -> (0 <= assigned <= q)%Z -> Forall (fun c => pct_ok (QtyPct c)) l -> l <> [] ->
  length (initial_qtys q assigned l) = length l /\
  sumZ (initial_qtys q assigned l) = (q - assigned)%Z /\
  Forall (fun x => 0 <= x <= q)%Z (initial_qtys q assigned l).
Proof.
  induction l as [|c l IH]; intros assigned Hq Ha Hl Hne; [done|].
  inversion_clear Hl as [|? ? Hc Hrest]. destruct l as [|c' l].
  { cbn. rewrite int32_id by (unfold in_int32; lia). split_and!; [done|lia|repeat constructor; lia]. }
  assert (Hx : (0 <= initial_share q assigned c /\ assigned + initial_share q assigned c <= q)%Z).
  { pose proof (share_of_percent q (QtyPct c) Hq Hc) as Hs. unfold initial_share. cbv zeta.
    rewrite !int32_id by (unfold in_int32; lia).
    destruct (Z.ltb_spec q (assigned + f64_to_int32 (of_Z q * QtyPct c / of_Z 100)%f64)); [|lia].
    destruct (Z.ltb_spec (q - assigned) 0); lia. }
  change (initial_qtys q assigned (c :: c' :: l)) with
    (initial_share q assigned c :: initial_qtys q (int32 (assigned + initial_share q assigned c)) (c' :: l)).
  set (x := initial_share q assigned c) in *. clearbody x. rewrite int32_id by (unfold in_int32; lia).
  destruct (IH (assigned + x)%Z Hq ltac:(lia) Hrest ltac:(done)) as (H1 & H2 & H3).
  cbn -[initial_qtys] in *. split_and!; [by rewrite H1|lia|constructor; [lia|done]].
Qed.

(** When the entry fills, the quantities of the levels of one side sum up to the
    filled quantity exactly and none is negative, whatever the percentages are:
    the last level takes what rounding leaves. *)
Theorem initial_qtys_sum (configs : list SLTPLevelConfig) (filledQty : Z)
    (Hne : configs <> []) (Hq : (0 <= filledQty < 2 ^ 30)%Z)
    (Hpct : Forall (fun c => pct_ok (QtyPct c)) configs) :
  length (computeInitialExitQtys configs filledQty) = length configs /\
  sumZ (computeInitialExitQtys configs filledQty) = filledQty /\
  Forall (fun x => 0 <= x <= filledQty)%Z (computeInitialExitQtys configs filledQty).
Proof.
  unfold computeInitialExitQtys. destruct (Z.leb_spec filledQty 0).
  - replace filledQty with 0%Z by lia. split_and!; [by rewrite length_replicate| |].
    + by induction (length configs) as [|n IH].
    + apply Forall_replicate. lia.
  - destruct (initial_qtys_spec filledQty configs 0 ltac:(lia) ltac:(lia) Hpct Hne) as (H1 & H2 & H3).
    split_and!; [done|lia|done].
Qed.

(** *** Rebalancing *)

(** The exact share, rounded to the nearest integer, halves up. *)
Definition exact_share (T R p : Z) : Z :=
  if (T <=? 2 * ((R * p) mod T))%Z then (R * p / T + 1)%Z else (R * p / T)%Z.

Definition rounds_up (T R p : Z) : bool := (T <=? 2 * ((R * p) mod T))%Z.

Lemma floor_int32 x k :
  fpos x = true -> trunc x = Some k -> (0 <= k < 2 ^ 31)%Z -> f64_to_int32 (math_Floor x) = k.
Proof.
  intros Hx Ht Hk. unfold f64_to_int32. rewrite (floor_trunc x k) by (auto; lia).
  by rewrite (proj2 (Z.leb_le _ _)), (proj2 (Z.ltb_lt _ _)) by lia.
Qed.

Lemma share_exact T R p :
  small_divisor T -> (0 < R <= 2 ^ 30)%Z -> (0 < p <= T)%Z ->
  (raw_share (of_Z T) R (of_Z p)).1.1 = exact_share T R p /\
  (raw_share (of_Z T) R (of_Z p)).2 = rounds_up T R p.
Proof.
  intros HT HR Hp. unfold small_divisor in HT. unfold raw_share, exact_share, rounds_up.
  rewrite of_Z_mul by nia. set (a := (R * p)%Z).
  assert (Ha : (0 < a < 2 ^ 43)%Z) by (unfold a; nia).
  rewrite quotient_half by (done || unfold small_divisor; lia).
  assert (Hle : (0 <= a / T <= R)%Z).
  { split; [apply Z.div_pos; lia|]. apply Z.div_le_upper_bound; [lia|]. unfold a. nia. }
  assert (Hf : f64_to_int32 (math_Floor (of_Z a / of_Z T)%f64) = (a / T)%Z).
  { apply floor_int32; [|apply quotient_trunc; [done|unfold small_divisor; lia]|lia].
    by destruct (quotient_pos a T ltac:(lia) ltac:(lia)) as (m & e & -> & Hb). }
  destruct (T <=? 2 * (a mod T))%Z; cbn [fst snd]; rewrite Hf; [|done].
  split; [|done]. apply int32_id. unfold in_int32. lia.
Qed.

Lemma exact_share_bounds T R p :
  (0 < T)%Z -> (0 < R)%Z -> (0 < p <= T)%Z ->
  (0 <= exact_share T R p <= R)%Z /\ (rounds_up T R p = true -> 1 <= exact_share T R p)%Z /\
  (2 * (R * p - T * exact_share T R p) < (if rounds_up T R p then 0 else T) + 1)%Z /\
  (- (if rounds_up T R p then T else 0) <= 2 * (R * p - T * exact_share T R p))%Z.
Proof.
  intros HT HR Hp. unfold exact_share, rounds_up.
  pose proof (Z.div_mod (R * p) T ltac:(lia)) as Hd. pose proof (Z.mod_pos_bound (R * p) T HT) as Hm.
  set (k := (R * p / T)%Z) in *. set (r := ((R * p) mod T)%Z) in *.
  assert (0 <= k)%Z by (apply Z.div_pos; nia). assert (R * p <= R * T)%Z by nia.
  destruct (Z.leb_spec T (2 * r)); split_and!; try nia; done.
Qed.

(** The drift is at most half the number of levels rounded that way. *)
Lemma drift_bounds T R ps :
  (0 < T)%Z -> (0 < R)%Z -> Forall (fun p => 0 < p <= T)%Z ps ->
  let drift := (R * sumZ ps - T * sumZ (map (exact_share T R) ps))%Z in
  let ups := length (List.filter (rounds_up T R) ps) in
  (2 * drift <= T * (Z.of_nat (length ps) - Z.of_nat ups))%Z /\ (- (T * Z.of_nat ups) <= 2 * drift)%Z.
Proof.
  intros HT HR. induction ps as [|p ps IH]; intros Hps; cbn; [lia|].
  inversion_clear Hps as [|? ? Hp Hrest]. destruct (IH Hrest) as [H1 H2].
  destruct (exact_share_bounds T R p HT HR Hp) as (_ & _ & H3 & H4).
  destruct (rounds_up T R p); cbn [length] in *; lia.
Qed.

Lemma sift_perm {A} (less : A -> A -> bool) x l : sift less x l ≡ₚ x :: l.
Proof.
  induction l as [|y l IH]; cbn; [done|]. destruct (less x y); [|done].
  rewrite IH. apply Permutation_swap.
Qed.

Lemma insertion_sort_perm {A} (less : A -> A -> bool) l : insertion_sort less l ≡ₚ l.
Proof.
  unfold insertion_sort.
  enough (H : forall acc, foldl (fun acc x => sift less x acc) acc l ≡ₚ l ++ acc).
  { rewrite <- Permutation_rev, H. by rewrite app_nil_r. }
  induction l as [|a l IH]; intros acc; cbn; [done|]. rewrite IH, sift_perm. by rewrite <- Permutation_middle.
Qed.

Lemma sumZ_alter (f : Z -> Z) l i q : l !! i = Some q -> sumZ (alter f i l) = (sumZ l - q + f q)%Z.
Proof.
  revert i. induction l as [|x l IH]; intros [|i] H; try done; cbn in *; [injection H as ->; lia|].
  rewrite (IH i H). lia.
Qed.

Lemma adjust_spec d places : forall l,
  NoDup places -> (forall i, i ∈ places -> exists q, l !! i = Some q /\ in_int32 (q + d)) ->
  length (adjust d places l) = length l /\
  sumZ (adjust d places l) = (sumZ l + d * Z.of_nat (length places))%Z /\
  (forall i q', adjust d places l !! i = Some q' ->
     exists q, l !! i = Some q /\ (q' = q \/ i ∈ places /\ q' = (q + d)%Z)).
Proof.
  induction places as [|i places IH]; intros l Hnd Hl.
  { split_and!; [done|cbn; lia|]. intros j q' Hq. exists q'. auto. }
  apply NoDup_cons in Hnd as [Hi Hnd].
  destruct (Hl i ltac:(left)) as (q & Hq & Hr).
  destruct (IH (alter (fun q => int32 (q + d)) i l) Hnd) as (H1 & H2 & H3).
  { intros j Hj. destruct (Hl j ltac:(by right)) as (qj & Hqj & Hrj). exists qj.
    rewrite list_lookup_alter_ne by (by intros ->). done. }
  unfold adjust in *. cbn [foldl]. split_and!.
  - by rewrite H1, length_alter.
  - rewrite H2, (sumZ_alter _ _ _ _ Hq), int32_id by done. cbn [length]. lia.
  - intros j q' Hj. destruct (H3 j q' Hj) as (q0 & Hq0 & Hor).
    destruct (decide (j = i)) as [-> | Hne].
    + rewrite list_lookup_alter_eq, Hq in Hq0. cbn in Hq0. injection Hq0 as <-. exists q. split; [done|].
      rewrite int32_id in Hor by done. destruct Hor as [-> | [Hin _]]; [|done]. right. split; [left|done].
    + rewrite list_lookup_alter_ne in Hq0 by done. exists q0. split; [done|].
      destruct Hor as [-> | [Hin ->]]; [by left|]. right. split; [by right|done].
Qed.

Lemma sum_int32_sum l :
  Forall (fun q => 0 <= q)%Z l -> (sumZ l < 2 ^ 31)%Z -> sum_int32 l = sumZ l.
Proof.
  intros Hl Hs. unfold sum_int32.
  enough (H : forall acc, (0 <= acc)%Z -> (acc + sumZ l < 2 ^ 31)%Z ->
            foldl (fun s q => int32 (s + q)) acc l = (acc + sumZ l)%Z) by (rewrite H; lia).
  clear Hs. induction Hl as [|q l Hq Hl IH]; intros acc Ha Hs; cbn in *; [lia|].
  assert (0 <= sumZ l)%Z by (clear IH Hs; induction Hl; cbn; lia).
  rewrite int32_id by (unfold in_int32; lia). rewrite IH by lia. lia.
Qed.

(** The candidates are distinct places of the list, of the asked kind; there are
    as many as levels of that kind. *)
Lemma candidates_spec up (shares : list (Z * f64 * bool)) :
  NoDup (map fst (candidates up shares)) /\
  length (candidates up shares) = length (List.filter (fun sh => Bool.eqb sh.2 up) shares) /\
  (forall i, i ∈ map fst (candidates up shares) -> exists sh, shares !! i = Some sh /\ sh.2 = up).
Proof.
  unfold candidates.
  set (f := fun ish : nat * (Z * f64 * bool) => if Bool.eqb ish.2.2 up then Some (ish.1, ish.2.1.2) else None).
  assert (Hgen : forall k : nat, let c := omap f (imap (fun i sh => (k + i, sh)%nat) shares) in
    NoDup (map fst c) /\
    length c = length (List.filter (fun sh : Z * f64 * bool => Bool.eqb sh.2 up) shares) /\
    (forall i, i ∈ map fst c -> (k <= i)%nat /\ exists sh, shares !! (i - k)%nat = Some sh /\ sh.2 = up)).
  { induction shares as [|sh shares IH]; intros k; [split_and!; [constructor|done|by intros i ?%elem_of_nil]|].
    destruct (IH (S k)) as (H1 & H2 & H3). clear IH.
    assert (Hm : omap f (imap (fun i sh => ((k + i)%nat, sh)) (sh :: shares)) =
                 (if Bool.eqb sh.2 up then [(k, sh.1.2)] else []) ++
                 omap f (imap (fun i sh => ((S k + i)%nat, sh)) shares)).
    { rewrite imap_cons, Nat.add_0_r. cbn [omap list_omap]. unfold f at 1. cbn [snd fst].
      rewrite (imap_ext ((fun i sh => ((k + i)%nat, sh)) ∘ S) (fun i sh => ((S k + i)%nat, sh)) shares)
        by (intros i x _; cbn; by rewrite Nat.add_succ_r).
      by destruct (Bool.eqb sh.2 up). }
    cbv zeta in *. rewrite Hm. set (c := omap f (imap (fun i sh => ((S k + i)%nat, sh)) shares)) in *.
    assert (Hrest : forall i, i ∈ map fst c -> (k <= i)%nat /\
              exists s, (sh :: shares) !! (i - k)%nat = Some s /\ s.2 = up).
    { intros i Hi. destruct (H3 i Hi) as [Hk (s & Hs & Hu)]. split; [lia|]. exists s.
      replace (i - k)%nat with (S (i - S k)) by lia. done. }
    cbn [List.filter]. destruct (Bool.eqb sh.2 up) eqn:E; cbn [app map length]; [|by split_and!].
    apply Bool.eqb_prop in E. split_and!.
    - apply NoDup_cons. split; [|done]. intros Hin. destruct (H3 k Hin). lia.
    - by rewrite H2.
    - intros i. cbn [fst]. rewrite elem_of_cons. intros [-> | Hi]; [|auto]. split; [lia|].
      rewrite Nat.sub_diag. eauto. }
  destruct (Hgen 0%nat) as (H1 & H2 & H3). split_and!; [done|done|].
  intros i Hi. destruct (H3 i Hi) as [_ (sh & Hs & Hu)]. rewrite Nat.sub_0_r in Hs. eauto.
Qed.

(** Whole percentages, of which there are few enough. *)
Definition whole_pcts (ps : list Z) : Prop := Forall (fun p => 0 < p)%Z ps /\ (sumZ ps <= 512)%Z.

Lemma whole_pct_le ps : whole_pcts ps -> Forall (fun p => 0 < p <= sumZ ps)%Z ps.
Proof.
  intros [Hp _]. assert (H0 : forall l, Forall (fun p => 0 < p)%Z l -> (0 <= sumZ l)%Z).
  { induction 1; cbn; lia. }
  induction Hp as [|p ps H Hp IH]; [constructor|]. specialize (H0 ps Hp). cbn. constructor; [lia|].
  eapply Forall_impl; [exact IH|]. cbn. intros; lia.
Qed.

Lemma shares_exact ps T R :
  small_divisor T -> (0 < R <= 2 ^ 30)%Z -> Forall (fun p => 0 < p <= T)%Z ps ->
  map (fun sh => sh.1.1) (map (raw_share (of_Z T) R) (map of_Z ps)) = map (exact_share T R) ps /\
  map snd (map (raw_share (of_Z T) R) (map of_Z ps)) = map (rounds_up T R) ps.
Proof.
  intros HT HR Hp. induction Hp as [|p ps H Hp IH]; [done|]. destruct IH as [IH1 IH2].
  destruct (share_exact T R p HT HR H) as [E1 E2].
  cbn [map]. by rewrite E1, E2, IH1, IH2.
Qed.

Lemma filter_ups (shares : list (Z * f64 * bool)) T R ps :
  map snd shares = map (rounds_up T R) ps ->
  length (List.filter (fun sh => Bool.eqb sh.2 true) shares) = length (List.filter (rounds_up T R) ps) /\
  (length (List.filter (fun sh => Bool.eqb sh.2 false) shares) +
   length (List.filter (rounds_up T R) ps) = length ps)%nat.
Proof.
  revert ps. induction shares as [|sh shares IH]; intros [|p ps] H; try done.
  cbn in H. injection H as Hu H. destruct (IH ps H) as [H1 H2]. cbn. rewrite Hu.
  destruct (rounds_up T R p); cbn; lia.
Qed.

Lemma take_elem {A} n (l : list A) x : x ∈ take n l -> x ∈ l.
Proof. intros H. rewrite <- (take_drop n l), elem_of_app. by left. Qed.

Lemma adjusted_places {d : Z} {up : bool} {less : nat * f64 -> nat * f64 -> bool} {shares} {n : nat}
    {T R : Z} {ps : list Z} :
  map (fun sh : Z * f64 * bool => sh.1.1) shares = map (exact_share T R) ps ->
  map snd shares = map (rounds_up T R) ps ->
  Forall (fun p => 0 < p <= T)%Z ps -> (0 < T)%Z -> (0 < R <= 2 ^ 30)%Z ->
  d = (if up then -1 else 1)%Z ->
  (n <= length (List.filter (fun sh => Bool.eqb sh.2 up) shares))%nat ->
  let places := take n (map fst (insertion_sort less (candidates up shares))) in
  sumZ (adjust d places (map (exact_share T R) ps)) =
    (sumZ (map (exact_share T R) ps) + d * Z.of_nat n)%Z /\
  Forall (fun q => 0 <= q)%Z (adjust d places (map (exact_share T R) ps)) /\
  length (adjust d places (map (exact_share T R) ps)) = length ps.
Proof.
  intros Hq Hu Hp HT HR Hd Hn places.
  destruct (candidates_spec up shares) as (Hnd & Hlen & Hin).
  assert (Hperm : map fst (insertion_sort less (candidates up shares)) ≡ₚ map fst (candidates up shares)).
  { apply Permutation_map, insertion_sort_perm. }
  assert (Hndp : NoDup places).
  { rewrite <- Hperm, <- (take_drop n) in Hnd. by apply NoDup_app in Hnd as [H _]. }
  assert (Hlp : length places = n).
  { unfold places. rewrite length_take, Hperm, length_map, Hlen. lia. }
  assert (Hpl : forall i, i ∈ places -> exists p, ps !! i = Some p /\ rounds_up T R p = up).
  { intros i Hi. apply take_elem in Hi. rewrite Hperm in Hi. destruct (Hin i Hi) as (sh & Hs & Hup).
    assert (H2 : map snd shares !! i = Some up) by (rewrite list_lookup_fmap, Hs; cbn; by rewrite Hup).
    rewrite Hu, list_lookup_fmap in H2. destruct (ps !! i) as [p|]; [|done]. injection H2 as H2. eauto. }
  assert (Hval : forall i, i ∈ places -> exists q, map (exact_share T R) ps !! i = Some q /\
            in_int32 (q + d) /\ (0 <= q + d)%Z).
  { intros i Hi. destruct (Hpl i Hi) as (p & Hpi & Hup). exists (exact_share T R p).
    rewrite list_lookup_fmap, Hpi. split; [done|].
    pose proof (proj1 (Forall_lookup _ _) Hp i p Hpi) as Hpp. cbn in Hpp.
    destruct (exact_share_bounds T R p HT ltac:(lia) Hpp) as (Hb & Hb' & _).
    unfold in_int32. destruct up; [specialize (Hb' Hup)|]; subst d; lia. }
  destruct (adjust_spec d places (map (exact_share T R) ps) Hndp) as (A1 & A2 & A3).
  { intros i Hi. destruct (Hval i Hi) as (q & ? & ? & _). eauto. }
  rewrite A2, Hlp, A1, length_map. split_and!; [done| |done].
  apply Forall_lookup. intros i q' Hi. destruct (A3 i q' Hi) as (q & Hq0 & [-> | [Hpi ->]]).
  - rewrite list_lookup_fmap in Hq0. destruct (ps !! i) as [p|] eqn:E; [|done]. injection Hq0 as <-.
    pose proof (proj1 (Forall_lookup _ _) Hp i p E) as Hpp. cbn in Hpp.
    destruct (exact_share_bounds T R p HT ltac:(lia) Hpp) as (Hb & _). lia.
  - destruct (Hval i Hpi) as (q0 & Hq0' & _ & Hge). congruence.
Qed.

(** After a partial exit the remaining quantity is spread over the levels that
    are left without losing or inventing a share: whatever the rounding of the
    floating-point shares, their sum is the remaining quantity and none is
    negative. *)
Theorem rebalance_sum (ps : list Z) (remainingQty : Z)
    (Hne : ps <> []) (Hps : whole_pcts ps) (HR : (0 < remainingQty < 2 ^ 29)%Z) :
  let qtys := computeRebalancedQtys (map of_Z ps) (of_Z (sumZ ps)) remainingQty in
  length qtys = length ps /\ sumZ qtys = remainingQty /\ Forall (fun q => 0 <= q)%Z qtys.
Proof.
  set (T := sumZ ps). set (R := remainingQty) in *. pose proof (whole_pct_le ps Hps) as Hle. fold T in Hle.
  destruct Hps as [Hpos HT]. fold T in HT.
  assert (HT0 : (0 < T)%Z).
  { clearbody T. clear -Hle Hne. destruct ps as [|p ps]; [done|]. apply Forall_cons in Hle as [? _]. lia. }
  assert (Hsd : small_divisor T) by (unfold small_divisor; lia).
  destruct (shares_exact ps T R Hsd ltac:(lia) Hle) as [Eq Eu].
  destruct (drift_bounds T R ps HT0 ltac:(lia) Hle) as [D1 D2].
  assert (Hlen : (Z.of_nat (length ps) <= T)%Z).
  { unfold T. clear -Hpos. induction Hpos; cbn [length sumZ]; lia. }
  fold T in D1, D2. set (S := sumZ (map (exact_share T R) ps)) in *.
  destruct (filter_ups _ T R ps Eu) as [F1 F2].
  assert (Hdrift : (- Z.of_nat (length (List.filter (rounds_up T R) ps)) <= R - S <=
                    Z.of_nat (length ps) - Z.of_nat (length (List.filter (rounds_up T R) ps)))%Z) by nia.
  assert (Hnn : Forall (fun q => 0 <= q)%Z (map (exact_share T R) ps)).
  { apply Forall_map. eapply Forall_impl; [exact Hle|]. cbn. intros p Hp.
    destruct (exact_share_bounds T R p HT0 ltac:(lia) Hp) as (Hb & _). lia. }
  unfold computeRebalancedQtys. cbv zeta. rewrite Eq, sum_int32_sum by (done || fold S; lia). fold S.
  rewrite int32_id by (unfold in_int32; lia).
  destruct (Z.ltb_spec 0 (R - S)); [|destruct (Z.ltb_spec (R - S) 0)].
  - edestruct (@adjusted_places 1 false) with (n := Z.to_nat (R - S)) as (A1 & A2 & A3);
      [exact Eq|exact Eu|exact Hle|exact HT0|lia|done|lia|]. rewrite A1, A3. fold S. split_and!; [done|lia|exact A2].
  - edestruct (@adjusted_places (-1) true) with (n := Z.to_nat (- (R - S))) as (A1 & A2 & A3);
      [exact Eq|exact Eu|exact Hle|exact HT0|lia|done|lia|]. rewrite A1, A3. fold S. split_and!; [done|lia|exact A2].
  - rewrite length_map. fold S. split_and!; [done|lia|done].
Qed.

(** A third each of ten, after the fourth level of 25 fired. *)
Lemma rebalance_sum_witness :
  sumZ (computeRebalancedQtys (map of_Z [25; 25; 25]%Z) (of_Z 75) 10) = 10%Z /\
  computeRebalancedQtys (map of_Z [25; 25; 25]%Z) (of_Z 75) 10 = [4; 3; 3]%Z.
Proof.
  split; [|vm_compute; reflexivity].
  refine (proj1 (proj2 (rebalance_sum [25; 25; 25]%Z 10 _ _ _))); [discriminate| |lia].
  split; [repeat constructor; lia|vm_compute; discriminate].
Defined.

(** The regression the tests name: 25/25/50 of ten. *)
Lemma initial_qtys_sum_witness :
  sumZ (computeInitialExitQtys [mkLevel 1 one (of_Z 25); mkLevel 2 one (of_Z 25); mkLevel 3 one (of_Z 50)] 10)
  = 10%Z.
Proof.
  refine (proj1 (proj2 (initial_qtys_sum _ 10 _ _ _))); [discriminate|lia|].
  repeat constructor; vm_compute; reflexivity.
Defined.
