(* ===== verification/MLManager.v ===== *)
(** * Multi-level exits: the manager

    [trade-execution/internal/multilevel/manager.go] and [reload.go].  Groups are
    pointers into a heap, since the indexes, the subscription lists and the
    goroutines share them.  The 16 shards partition the stocks: they are one map
    [byStock].  A goroutine is an entry of [mtasks] that runs later, in any order;
    an evaluation, a callback and a task are one step each, except that what
    follows the placement of an order is a task of its own, so that events may
    arrive while the broker answers.  The broker and the price lookup are
    parameters; fresh ids are counted by [nextID]; [now] is the clock of the
    event.  Statements on exit levels ignore their errors, as the code does.
    [paperLog] records the calls of the paper hooks and the closed-position rows.
    [evaluating] is claimed while a [TEval] of the group is pending; logs are left
    out. *)

From stdpp Require Import base gmap strings list fin_maps sorting pretty.
From Stdlib Require Import ZArith Lia Ascii.
From S2P Require Import Prelude GoFloat Price GoStrings Orders OrderRepo OrderQueries OCOTypes.
From S2P Require Import Broker Signals MLTypes.

Open Scope string_scope.
Open Scope list_scope.
Open Scope go_scope.

Definition numShards : Z := 16.
Definition evalBufLen : Z := 8192.

(** ** The broker *)

Class MLBroker (B : Type) := {
  mlPlace : Order.t -> option AuthContext -> B -> B * option string;
  mlModify : Order.t -> option AuthContext -> B -> B * bool;
  mlCancel : string -> string -> string -> option AuthContext -> B -> B * bool
}.

(** A call with its answer: the order's id, or whether it succeeded. *)
Inductive BrokerCall : Type :=
  | BcPlace (o : Order.t) (answer : option string)
  | BcModify (o : Order.t) (ok : bool)
  | BcCancel (brokerID : string) (ok : bool).

Inductive Side : Type := SL | TP.

#[export] Instance side_eq : EqDecision Side.
Proof. solve_decision. Defined.

Definition exitType (d : Side) : string := match d with SL => MLExitTypeSL | TP => MLExitTypeTP end.

Definition other (d : Side) : Side := match d with SL => TP | TP => SL end.

(** ** State *)

Abbreviation gptr := nat.

(** Goroutines.  A level is its side and its place. *)
Inductive MTask : Type :=
  | TPersist (p : gptr)
  | TPlaceFixedSL (p : gptr) (qty : Z)
  | TPlaceTrailingSL (p : gptr)
  | TPlaceLevel (p : gptr) (d : Side) (i : nat)
  | TStoreSingle (p : gptr) (brokerID : string) (trigger : option f64)
  | TStoreLevel (p : gptr) (d : Side) (i : nat) (levelNum : Z) (brokerID : string)
  | TReplaceFixed (p : gptr) (remaining : Z)
  | TReplaceTrailing (p : gptr) (remaining : Z)
  | TModifyTrail (p : gptr) (orderID : uuid) (brokerID : string) (qty : Z) (trigger : f64)
  | TModifyLevel (p : gptr) (d : Side) (orderID : uuid) (brokerID : string) (qty : Z) (trigger : f64)
      (auth : option AuthContext)
  | TEval (p : gptr) (ltp : f64)
  | TMarketExit (p : gptr) (d : Side) (levelNum qty : Z) (price : f64)
  | TEntryFill (entryID : uuid) (price : f64) (qty : Z)
  | TLevelFilled (p : gptr) (d : Side) (levelNum : Z) (price : option f64)
  | TSingleFilled (p : gptr) (price : option f64) (qty : Z)
  | TCancelOrder (exchange brokerID symbol : string) (auth : option AuthContext).

(** What the paper side sees. *)
Inductive PaperEvent : Type :=
  | PePartialExit (p : gptr) (qty : Z) (price : f64) (reason : string) (levelNum : Z)
  | PeQtyUpdated (entryID : uuid) (remaining : Z)
  | PeLevelTriggered (entryID : uuid) (kind : string) (levelNum : Z) (price : f64) (remaining : Z)
  | PeSLMoved (entryID : uuid) (newSL : f64)
  | PeGroupCompleted (entryID : uuid) (pnl avgPrice : f64).

Record MLManager (B : Type) : Type := mkML {
  groups : gmap gptr MLGroup.t;
  nextGroup : gptr;
  nextID : N;
  groupsByEntry : gmap uuid gptr;
  singleSLIndex : gmap string gptr;
  mlLevelIndex : gmap string (gptr * Side * Z);
  byStock : gmap Z (list gptr);
  evalCh : list (gptr * f64);
  mtasks : list MTask;
  mbroker : B;
  mcalls : list BrokerCall;
  morders : OrdersTable;
  mlevels : LevelsTable;
  wsLog : list (bool * Z);
  paperLog : list PaperEvent
}.

Arguments mkML {B}. Arguments groups {B}. Arguments nextGroup {B}. Arguments nextID {B}.
Arguments groupsByEntry {B}. Arguments singleSLIndex {B}. Arguments mlLevelIndex {B}.
Arguments byStock {B}. Arguments evalCh {B}. Arguments mtasks {B}. Arguments mbroker {B}.
Arguments mcalls {B}. Arguments morders {B}. Arguments mlevels {B}. Arguments wsLog {B}.
Arguments paperLog {B}.

#[export] Instance eta_ml {B} : Eta (MLManager B) := fun m =>
  mkML m.(groups) m.(nextGroup) m.(nextID) m.(groupsByEntry) m.(singleSLIndex) m.(mlLevelIndex)
    m.(byStock) m.(evalCh) m.(mtasks) m.(mbroker) m.(mcalls) m.(morders) m.(mlevels) m.(wsLog)
    m.(paperLog).

Definition levels_of (d : Side) (g : MLGroup.t) : list Level.t :=
  match d with SL => g.(MLGroup.SLLevels) | TP => g.(MLGroup.TPLevels) end.

Definition configs_of (d : Side) (g : MLGroup.t) : list SLTPLevelConfig :=
  match d with SL => g.(MLGroup.SLLevelConfigs) | TP => g.(MLGroup.TPLevelConfigs) end.

Definition set_levels (d : Side) (l : list Level.t) (g : MLGroup.t) : MLGroup.t :=
  match d with SL => g <| MLGroup.SLLevels := l |> | TP => g <| MLGroup.TPLevels := l |> end.

Definition alter_level (d : Side) (i : nat) (f : Level.t -> Level.t) (g : MLGroup.t) : MLGroup.t :=
  set_levels d (alter f i (levels_of d g)) g.

Definition is_live (g : MLGroup.t) : bool := g.(MLGroup.TradingMode) =?s "LIVE".
Definition is_paper (g : MLGroup.t) : bool := g.(MLGroup.TradingMode) =?s "PAPER".
Definition is_active_group (g : MLGroup.t) : bool := bool_decide (g.(MLGroup.State) = GroupStateActive).
Definition is_active_level (l : Level.t) : bool := bool_decide (l.(Level.Status) = LevelActive).

(** *** Orders *)

(** The fields all orders of a group share. *)
Definition group_order (g : MLGroup.t) (id : uuid) (orderType : string) (qty : Z)
    (limit stop : option f64) : Order.t :=
  Order.zero
    <| Order.OrderID := id |> <| Order.UserID := g.(MLGroup.UserID) |>
    <| Order.StrategyID := g.(MLGroup.StrategyID) |> <| Order.StrategyName := g.(MLGroup.StrategyName) |>
    <| Order.EventID := g.(MLGroup.EventID) |> <| Order.StockCode := g.(MLGroup.StockCode) |>
    <| Order.Exchange := g.(MLGroup.Exchange) |> <| Order.Symbol := g.(MLGroup.Symbol) |>
    <| Order.OrderType := orderType |> <| Order.OrderSide := MLExitSide g |>
    <| Order.Quantity := qty |> <| Order.Price := limit |> <| Order.StopLoss := stop |>
    <| Order.BearerToken := Some (AuthBearer g) |> <| Order.AppId := Some (AuthAppID g) |>
    <| Order.Source := Some (AuthSource g) |>.

Definition new_order (g : MLGroup.t) (now : Z) (o : Order.t) : Order.t :=
  o <| Order.Status := StatusReceived |> <| Order.TradingMode := g.(MLGroup.TradingMode) |>
    <| Order.CreatedAt := now |> <| Order.UpdatedAt := now |>.

Definition buildExitOrder (g : MLGroup.t) (now : Z) (id : uuid) (qty : Z) (orderType : string)
    (limit stop : option f64) : Order.t :=
  new_order g now (group_order g id orderType qty limit stop)
    <| Order.Validity := "IOC" |> <| Order.ProductType := "INTRADAY" |>
    <| Order.IsPaperTrade := is_paper g |>.

Definition with_terms (g : MLGroup.t) (o : Order.t) : Order.t :=
  o <| Order.Validity := g.(MLGroup.Validity) |> <| Order.ProductType := g.(MLGroup.ProductType) |>.

(** [buildMultiSLOrder] and [buildMultiTPOrder]. *)
Definition buildLevelOrder (g : MLGroup.t) (now : Z) (d : Side) (l : Level.t) : Order.t :=
  new_order g now (with_terms g
    (match d with
     | SL => group_order g l.(Level.ExitOrderID) OrderTypeStopLossMarket l.(Level.ExitQty) None
               (Some l.(Level.TriggerPrice))
     | TP => group_order g l.(Level.ExitOrderID) OrderTypeLimit l.(Level.ExitQty)
               (Some l.(Level.TriggerPrice)) None
     end)).

(** What the manager sends to change an order. *)
Definition modify_order (g : MLGroup.t) (d : Side) (id : uuid) (brokerID : string) (qty : Z) (trigger : f64)
  : Order.t :=
  with_terms g
    (match d with
     | SL => group_order g id OrderTypeStopLossMarket qty None (Some trigger)
     | TP => group_order g id OrderTypeLimit qty (Some trigger) None
     end) <| Order.IndiraOrderID := Some brokerID |>.

Section Manager.

Context {B : Type} {MB : MLBroker B}.
Context (priceLookup : option (string -> Z -> option f64)) (uuid_string : uuid -> string).

Abbreviation M := (MLManager B).

Definition upd (p : gptr) (f : MLGroup.t -> MLGroup.t) (m : M) : M := m <| groups := alter f p m.(groups) |>.

Definition spawn_task (t : MTask) (m : M) : M := m <| mtasks := m.(mtasks) ++ [t] |>.

Definition spawn_all (l : list MTask) (m : M) : M := m <| mtasks := m.(mtasks) ++ l |>.

Definition new_id (m : M) : uuid * M := (m.(nextID), m <| nextID := N.succ m.(nextID) |>).

Definition log_paper (e : PaperEvent) (m : M) : M := m <| paperLog := m.(paperLog) ++ [e] |>.

Definition broker_place (o : Order.t) (auth : option AuthContext) (m : M) : option string * M :=
  let '(b, r) := mlPlace o auth m.(mbroker) in
  (r, m <| mbroker := b |> <| mcalls := m.(mcalls) ++ [BcPlace o r] |>).

Definition broker_modify (o : Order.t) (auth : option AuthContext) (m : M) : bool * M :=
  let '(b, r) := mlModify o auth m.(mbroker) in
  (r, m <| mbroker := b |> <| mcalls := m.(mcalls) ++ [BcModify o r] |>).

Definition broker_cancel (exchange brokerID symbol : string) (auth : option AuthContext) (m : M)
  : bool * M :=
  let '(b, r) := mlCancel exchange brokerID symbol auth m.(mbroker) in
  (r, m <| mbroker := b |> <| mcalls := m.(mcalls) ++ [BcCancel brokerID r] |>).

Definition set_level_status (now : Z) (entry : uuid) (kind : string) (levelNum : Z) (status : string)
    (price : f64) (m : M) : M :=
  m <| mlevels := sqlUpdateLevelStatus now (entry, kind, levelNum) status price m.(mlevels) |>.

Definition drop_single (brokerID : string) (m : M) : M :=
  m <| singleSLIndex := delete brokerID m.(singleSLIndex) |>.

Definition drop_level (brokerID : string) (m : M) : M :=
  m <| mlLevelIndex := delete brokerID m.(mlLevelIndex) |>.

(** *** Subscriptions *)

Definition subscribers (m : M) (stock : Z) : list gptr := default [] (m.(byStock) !! stock).

Definition subscribeGroup (p : gptr) (stock : Z) (m : M) : M :=
  let l := subscribers m stock ++ [p] in
  let m := m <| byStock := <[stock := l]> m.(byStock) |> in
  if Nat.eqb (length l) 1 then m <| wsLog := m.(wsLog) ++ [(true, stock)] |> else m.

Definition has_group_id (m : M) (id : uuid) (p : gptr) : bool :=
  match m.(groups) !! p with Some g => bool_decide (g.(MLGroup.GroupID) = id) | None => false end.

Fixpoint remove_one (f : gptr -> bool) (l : list gptr) : list gptr :=
  match l with [] => [] | q :: l => if f q then l else q :: remove_one f l end.

Definition unsubscribeGroup (g : MLGroup.t) (m : M) : M :=
  let stock := g.(MLGroup.StockCode) in
  let l := remove_one (has_group_id m g.(MLGroup.GroupID)) (subscribers m stock) in
  let m := match m.(byStock) !! stock with
           | Some _ => m <| byStock := <[stock := l]> m.(byStock) |>
           | None => m
           end in
  match l with [] => m <| wsLog := m.(wsLog) ++ [(false, stock)] |> | _ => m end.

(** [stockCodeFromKey]: the digits after the last colon, 0 when there are none. *)
Fixpoint after_last_colon (s : string) (acc : option string) : option string :=
  match s with
  | "" => acc
  | String c s' => after_last_colon s' (if Ascii.eqb c ":" then Some s' else acc)
  end.

Fixpoint decimal (s : string) (acc : Z) : Z :=
  match s with
  | "" => acc
  | String c s' =>
      let n := Z.of_N (N_of_ascii c) in
      if (n <? 48)%Z || (57 <? n)%Z then 0%Z else decimal s' (int64 (acc * 10 + (n - 48))%Z)
  end.

Definition stockCodeFromKey (key : string) : Z :=
  match after_last_colon key None with
  | None | Some "" => 0
  | Some s => decimal s 0
  end.

Definition finishGroup (p : gptr) (m : M) : M :=
  match m.(groups) !! p with
  | None => m
  | Some g =>
      let m := unsubscribeGroup g (m <| groupsByEntry := delete g.(MLGroup.EntryOrderID) m.(groupsByEntry) |>) in
      if g.(MLGroup.SingleSLBrokerID) =?s "" then m else drop_single g.(MLGroup.SingleSLBrokerID) m
  end.

(** *** Registration and fill *)

Definition RegisterEntry (entry : Order.t) (slMode tpMode : string)
    (slLevels tpLevels : list MultiLevelExitLevel) (fixedSLPct trailingSLPct : f64)
    (auth : option AuthContext) (m : M) : M :=
  let '(gid, m) := new_id m in
  let g := MLGroup.mk gid entry.(Order.OrderID) entry.(Order.UserID) entry.(Order.Symbol)
             entry.(Order.Exchange) entry.(Order.StockCode) entry.(Order.OrderSide)
             entry.(Order.ProductType) entry.(Order.Validity) fzero 0 [] []
             (if slMode =?s "" then SLModeFixed else slMode) fixedSLPct trailingSLPct fzero fzero "" 0%N
             (if tpMode =?s "" then TPModeFixed else tpMode) GroupStateActive 0
             entry.(Order.TradingMode) auth entry.(Order.StrategyID) entry.(Order.StrategyName)
             entry.(Order.EventID) slLevels tpLevels false in
  m <| groups := <[m.(nextGroup) := g]> m.(groups) |> <| nextGroup := S m.(nextGroup) |>
    <| groupsByEntry := <[entry.(Order.OrderID) := m.(nextGroup)]> m.(groupsByEntry) |>.

Definition by_level_num (a b : SLTPLevelConfig) : bool := (LevelNum a <? LevelNum b)%Z.

Fixpoint build_levels (calc : f64 -> f64) (id : N) (configs : list SLTPLevelConfig) (qtys : list Z)
  : list Level.t :=
  match configs, qtys with
  | c :: configs, q :: qtys =>
      Level.mk (LevelNum c) (calc (PricePct c)) q q LevelActive "" id None fzero
      :: build_levels calc (N.succ id) configs qtys
  | _, _ => []
  end.

Definition chosen_configs (given stored : list SLTPLevelConfig) : list SLTPLevelConfig :=
  insertion_sort by_level_num (match given with [] => stored | _ => given end).

(** The group once the entry is filled; ids from [id] on. *)
Definition filled_group (price : f64) (qty : Z) (sl tp : list MultiLevelExitLevel) (id : N)
    (g : MLGroup.t) : MLGroup.t :=
  let slc := chosen_configs sl g.(MLGroup.SLLevelConfigs) in
  let tpc := chosen_configs tp g.(MLGroup.TPLevelConfigs) in
  let g := g <| MLGroup.FillPrice := price |> <| MLGroup.TotalQty := qty |>
             <| MLGroup.RemainingQty := qty |> <| MLGroup.entryFilled := true |>
             <| MLGroup.HighestPrice := price |> <| MLGroup.SLLevelConfigs := slc |>
             <| MLGroup.TPLevelConfigs := tpc |> in
  g <| MLGroup.SLLevels := g.(MLGroup.SLLevels) ++
         build_levels (CalcSLTriggerPrice g) id slc (computeInitialExitQtys slc qty) |>
    <| MLGroup.TPLevels := g.(MLGroup.TPLevels) ++
         build_levels (CalcTPLimitPrice g) (id + N.of_nat (length slc))%N tpc
           (computeInitialExitQtys tpc qty) |>.

(** The goroutines a live fill starts. *)
Definition live_tasks (p : gptr) (qty : Z) (g : MLGroup.t) : list MTask :=
  if is_live g then
    (if g.(MLGroup.SLMode) =?s SLModeFixed then [TPlaceFixedSL p qty]
     else if g.(MLGroup.SLMode) =?s SLModeTrailing then [TPlaceTrailingSL p]
     else if g.(MLGroup.SLMode) =?s SLModeMultiLevel
     then map (TPlaceLevel p SL) (seq 0 (length g.(MLGroup.SLLevels)))
     else []) ++
    (if g.(MLGroup.TPMode) =?s TPModeMultiLevel
     then map (TPlaceLevel p TP) (seq 0 (length g.(MLGroup.TPLevels))) else [])
  else [].

Definition OnEntryFill (entryID : uuid) (price : f64) (qty : Z) (sl tp : list MultiLevelExitLevel) (m : M)
  : M :=
  match m.(groupsByEntry) !! entryID with
  | None => m
  | Some p =>
      match m.(groups) !! p with
      | None => m
      | Some g =>
          if g.(MLGroup.entryFilled) then m
          else
            let g := filled_group price qty sl tp m.(nextID) g in
            let m := upd p (fun _ => g) m
              <| nextID := (m.(nextID) + N.of_nat (length g.(MLGroup.SLLevels) +
                                                   length g.(MLGroup.TPLevels)))%N |> in
            subscribeGroup p g.(MLGroup.StockCode) (spawn_all (TPersist p :: live_tasks p qty g) m)
      end
  end.

Definition ml_isFilledStatus (s : string) : bool := one_of (ToUpper s) ["FILLED"; "EXECUTED"; "TRADED"].

(** The broker's report on an order. *)
Definition HandleBrokerUpdate (o : Order.t) (brokerStatus : string) (m : M) : M :=
  let filled := ml_isFilledStatus brokerStatus in
  let waiting :=
    match m.(groupsByEntry) !! o.(Order.OrderID) with
    | Some p => match m.(groups) !! p with Some g => negb g.(MLGroup.entryFilled) | None => false end
    | None => false
    end in
  match waiting && filled && (0 <? o.(Order.FilledQuantity))%Z, o.(Order.FilledPrice) with
  | true, Some price => spawn_task (TEntryFill o.(Order.OrderID) price o.(Order.FilledQuantity)) m
  | _, _ =>
      match filled, o.(Order.IndiraOrderID) with
      | true, Some id =>
          match m.(mlLevelIndex) !! id with
          | Some (p, d, n) => spawn_task (TLevelFilled p d n o.(Order.FilledPrice)) m
          | None =>
              match m.(singleSLIndex) !! id with
              | Some p => spawn_task (TSingleFilled p o.(Order.FilledPrice) o.(Order.FilledQuantity)) m
              | None => m
              end
          end
      | _, _ => m
      end
  end.

Definition IsKnownBrokerID (id : string) (m : M) : bool :=
  is_set (m.(singleSLIndex) !! id) || is_set (m.(mlLevelIndex) !! id).

(** [OnPriceUpdate]: a job for each active filled group of the stock, while the
    channel has room. *)
Definition wants_job (m : M) (p : gptr) : bool :=
  match m.(groups) !! p with Some g => is_active_group g && g.(MLGroup.entryFilled) | None => false end.

Definition push_job (ltp : f64) (m : M) (p : gptr) : M :=
  if wants_job m p && (Z.of_nat (length m.(evalCh)) <? evalBufLen)%Z
  then m <| evalCh := m.(evalCh) ++ [(p, ltp)] |> else m.

Definition OnPriceUpdate (key : string) (ltp : f64) (m : M) : M :=
  let stock := stockCodeFromKey key in
  if (stock <=? 0)%Z then m else foldl (push_job ltp) m (subscribers m stock).

(** *** Paper exits *)

Definition log_if (b : bool) (e : PaperEvent) (m : M) : M := if b then log_paper e m else m.

Definition profit (g : MLGroup.t) (exitPrice : f64) (qty : Z) : f64 :=
  if g.(MLGroup.OrderSide) =?s "BUY" then ((exitPrice - g.(MLGroup.FillPrice)) * of_Z qty)%f64
  else ((g.(MLGroup.FillPrice) - exitPrice) * of_Z qty)%f64.

Definition partial_exit_order (now : Z) (id : uuid) (g : MLGroup.t) (qty : Z) (exitPrice : f64)
    (reason : string) (levelNum : Z) : Order.t :=
  let paperID := ("PAPER-ML-" ++ Stdlib.Strings.String.substring 0 8 (uuid_string g.(MLGroup.EntryOrderID)) ++ "-L" ++
                  pretty levelNum ++ "-" ++ reason)%string in
  Order.zero
    <| Order.OrderID := id |> <| Order.UserID := g.(MLGroup.UserID) |>
    <| Order.StrategyID := g.(MLGroup.StrategyID) |> <| Order.StrategyName := g.(MLGroup.StrategyName) |>
    <| Order.StockCode := g.(MLGroup.StockCode) |> <| Order.Exchange := g.(MLGroup.Exchange) |>
    <| Order.Symbol := g.(MLGroup.Symbol) |> <| Order.OrderType := OrderTypeMarket |>
    <| Order.OrderSide := if g.(MLGroup.OrderSide) =?s "SELL" then "BUY" else "SELL" |>
    <| Order.Quantity := qty |> <| Order.Price := Some g.(MLGroup.FillPrice) |>
    <| Order.Validity := "IOC" |> <| Order.ProductType := g.(MLGroup.ProductType) |>
    <| Order.Status := StatusFilled |> <| Order.IsPaperTrade := true |>
    <| Order.TradingMode := "PAPER" |> <| Order.FilledQuantity := qty |>
    <| Order.FilledPrice := Some exitPrice |> <| Order.PaperExitPrice := Some exitPrice |>
    <| Order.PaperPnL := Some (profit g exitPrice qty) |> <| Order.IsSquareOffOrder := true |>
    <| Order.RiskApproved := true |> <| Order.IndiraOrderID := Some paperID |>
    <| Order.SubmittedAt := Some now |> <| Order.ExecutedAt := Some now |>
    <| Order.CreatedAt := now |> <| Order.UpdatedAt := now |>.

Definition recordPaperPartialExit (now : Z) (p : gptr) (g : MLGroup.t) (qty : Z) (exitPrice : f64)
    (reason : string) (levelNum : Z) (m : M) : M :=
  if (qty <=? 0)%Z then m
  else
    let '(id, m) := new_id m in
    log_paper (PePartialExit p qty exitPrice reason levelNum)
      (m <| morders :=
         (sqlCreatePaperPartialExit (partial_exit_order now id g qty exitPrice reason levelNum) m.(morders)).1 |>).

Definition UpdatePaperPositionFilledQty (now : Z) (entry : uuid) (qty : Z) (m : M) : M :=
  m <| morders := (sqlUpdatePaperPositionFilledQty now entry qty m.(morders)).1 |>.

(** *** Rebalancing *)

Definition level_pct (configs : list SLTPLevelConfig) (n : Z) : f64 :=
  match List.find (fun c => (LevelNum c =? n)%Z) configs with Some c => QtyPct c | None => fzero end.

(** The levels that take part. *)
Definition counted (configs : list SLTPLevelConfig) (l : Level.t) : bool :=
  is_active_level l && negb (fle (level_pct configs l.(Level.LevelNum)) fzero).

(** Give the counted levels their new quantities, in order; the second list holds
    the levels whose order at the broker has to change. *)
Fixpoint assign_qtys (counts : Level.t -> bool) (levels : list Level.t) (qtys : list Z)
  : list Level.t * list Level.t :=
  match levels, qtys with
  | l :: levels, q :: qtys' =>
      if counts l then
        let '(ls, ch) := assign_qtys counts levels qtys' in
        let l' := l <| Level.ExitQty := q |> in
        (l' :: ls, if (l.(Level.BrokerOrderID) =?s "") || (q =? l.(Level.ExitQty))%Z then ch else l' :: ch)
      else let '(ls, ch) := assign_qtys counts levels qtys in (l :: ls, ch)
  | levels, _ => (levels, [])
  end.

Definition rebalanced (configs : list SLTPLevelConfig) (levels : list Level.t) (remainingQty : Z)
  : list Level.t * list Level.t :=
  let pcts := map (fun l => level_pct configs l.(Level.LevelNum)) (List.filter (counted configs) levels) in
  let totalPct := foldl fadd fzero pcts in
  if (if pcts is [] then true else false) || fle totalPct fzero then (levels, [])
  else assign_qtys (counted configs) levels (computeRebalancedQtys pcts totalPct remainingQty).

Definition rebalanceAndModifyLevels (p : gptr) (d : Side) (remainingQty : Z) (auth : option AuthContext)
    (m : M) : M :=
  match m.(groups) !! p with
  | None => m
  | Some g =>
      let '(ls, changed) := rebalanced (configs_of d g) (levels_of d g) remainingQty in
      spawn_all (map (fun l => TModifyLevel p d l.(Level.ExitOrderID) l.(Level.BrokerOrderID)
                                 l.(Level.ExitQty) l.(Level.TriggerPrice) auth) changed)
        (upd p (set_levels d ls) m)
  end.

(** [computeNewSLAfterTP]. *)
Definition computeNewSLAfterTP (g : MLGroup.t) (triggered : Level.t) (exitPrice : f64) : f64 :=
  if (triggered.(Level.LevelNum) =? 1)%Z then g.(MLGroup.FillPrice)
  else match List.find (fun l => (l.(Level.LevelNum) =? int64 (triggered.(Level.LevelNum) - 1))%Z)
               g.(MLGroup.TPLevels) with
       | Some l => l.(Level.TriggerPrice)
       | None => exitPrice
       end.

Definition triggered_sum (acc : f64 * Z) (l : Level.t) : f64 * Z :=
  if bool_decide (l.(Level.Status) = LevelTriggered)
  then ((acc.1 + l.(Level.ExitPrice) * of_Z l.(Level.OriginalExitQty))%f64,
        int32 (acc.2 + l.(Level.OriginalExitQty)))
  else acc.

Definition finishGroupPaper (p : gptr) (lastExitPrice : f64) (m : M) : M :=
  let m := finishGroup p m in
  match m.(groups) !! p with
  | None => m
  | Some g =>
      let '(value, qty) := foldl triggered_sum (fzero, 0%Z) (g.(MLGroup.SLLevels) ++ g.(MLGroup.TPLevels)) in
      let avg := if (0 <? qty)%Z then (value / of_Z qty)%f64 else lastExitPrice in
      log_paper (PeGroupCompleted g.(MLGroup.EntryOrderID) (profit g avg g.(MLGroup.TotalQty)) avg) m
  end.

(** The position is smaller by [qty]; nothing left completes the group. *)
Definition decrement (qty : Z) (g : MLGroup.t) : MLGroup.t :=
  let r := int32 (g.(MLGroup.RemainingQty) - qty) in
  g <| MLGroup.RemainingQty := r |>
    <| MLGroup.State := if (r <=? 0)%Z then GroupStateCompleted else g.(MLGroup.State) |>.

Definition recordPaperExit (now : Z) (p : gptr) (d : Side) (level : Level.t) (qty : Z) (exitPrice : f64)
    (m : M) : M :=
  let m := upd p (decrement qty) m in
  match m.(groups) !! p with
  | None => m
  | Some g =>
      let remaining := g.(MLGroup.RemainingQty) in
      let entry := g.(MLGroup.EntryOrderID) in
      let n := level.(Level.LevelNum) in
      let m := set_level_status now entry (exitType d) n MLStatusTriggered exitPrice m in
      let m := recordPaperPartialExit now p g qty exitPrice (exitType d) n m in
      let m := UpdatePaperPositionFilledQty now entry remaining m in
      let m := log_paper (PeQtyUpdated entry remaining) m in
      let m := if (0 <? remaining)%Z then rebalanceAndModifyLevels p (other d) remaining None m else m in
      let m := log_paper (PeLevelTriggered entry (exitType d) n exitPrice remaining) m in
      let newSL := computeNewSLAfterTP g level exitPrice in
      let m := log_if (bool_decide (d = TP) && flt fzero newSL) (PeSLMoved entry newSL) m in
      if (remaining <=? 0)%Z then finishGroupPaper p exitPrice m else m
  end.

(** *** Evaluation *)

(** The first level that is active and hit, marked. *)
Fixpoint first_triggered (now : Z) (ltp : f64) (hit : f64 -> bool) (levels : list Level.t)
  : option (nat * Level.t) :=
  match levels with
  | [] => None
  | l :: levels =>
      match (if hit l.(Level.TriggerPrice) then tryMarkTriggered now ltp l else None) with
      | Some l' => Some (O, l')
      | None => match first_triggered now ltp hit levels with
                | Some (i, l') => Some (S i, l')
                | None => None
                end
      end
  end.

Definition evaluateTrailingSL (p : gptr) (g : MLGroup.t) (ltp : f64) (m : M) : M :=
  match CalcTrailingSL g ltp with
  | None => m
  | Some newTrigger =>
      spawn_task (TModifyTrail p g.(MLGroup.SingleSLOrderID) g.(MLGroup.SingleSLBrokerID)
                    g.(MLGroup.RemainingQty) newTrigger)
        (upd p (fun g => g <| MLGroup.HighestPrice := ltp |>) m)
  end.

(** Whether a level fired, and the state. *)
Definition evaluateSLLevels (now : Z) (p : gptr) (g : MLGroup.t) (ltp : f64) (m : M) : bool * M :=
  if (g.(MLGroup.SLMode) =?s SLModeTrailing) && negb (g.(MLGroup.SingleSLBrokerID) =?s "")
  then (false, evaluateTrailingSL p g ltp m)
  else if negb (g.(MLGroup.SLMode) =?s SLModeMultiLevel) || is_live g then (false, m)
  else match first_triggered now ltp (fun t => SLBreached g t ltp) g.(MLGroup.SLLevels) with
       | None => (false, m)
       | Some (i, l) => (true, recordPaperExit now p SL l l.(Level.ExitQty) ltp
                                 (upd p (alter_level SL i (fun _ => l)) m))
       end.

(** The live branch of [evaluateTPLevels]. *)
Definition liveTPExit (p : gptr) (l : Level.t) (ltp : f64) (m : M) : M :=
  let m := upd p (decrement l.(Level.ExitQty)) m in
  match m.(groups) !! p with
  | None => m
  | Some g =>
      let remaining := g.(MLGroup.RemainingQty) in
      let m := spawn_task (TMarketExit p TP l.(Level.LevelNum) l.(Level.ExitQty) ltp) m in
      let m := if g.(MLGroup.SingleSLBrokerID) =?s "" then m
               else if g.(MLGroup.SLMode) =?s SLModeFixed then spawn_task (TReplaceFixed p remaining) m
               else if g.(MLGroup.SLMode) =?s SLModeTrailing then spawn_task (TReplaceTrailing p remaining) m
               else m in
      if (remaining <=? 0)%Z then finishGroup p m else m
  end.

Definition evaluateTPLevels (now : Z) (p : gptr) (g : MLGroup.t) (ltp : f64) (m : M) : M :=
  if (g.(MLGroup.TPMode) =?s TPModeMultiLevel) && is_live g then m
  else match first_triggered now ltp (fun t => TPReached g t ltp) g.(MLGroup.TPLevels) with
       | None => m
       | Some (i, l) =>
           let m := upd p (alter_level TP i (fun _ => l)) m in
           if is_live g then liveTPExit p l ltp m
           else recordPaperExit now p TP l l.(Level.ExitQty) ltp m
       end.

Definition evaluate (now : Z) (p : gptr) (ltp : f64) (m : M) : M :=
  match m.(groups) !! p with
  | None => m
  | Some g =>
      let '(slFired, m) := evaluateSLLevels now p g ltp m in
      if slFired then m
      else match m.(groups) !! p with Some g => evaluateTPLevels now p g ltp m | None => m end
  end.

(** A worker takes the oldest job; the group must not be under evaluation. *)
Definition evaluates (p : gptr) (t : MTask) : bool :=
  match t with TEval q _ => Nat.eqb q p | _ => false end.

Definition tryClaimEvaluation (p : gptr) (m : M) : bool := negb (existsb (evaluates p) m.(mtasks)).

Definition runEvalJob (m : M) : M :=
  match m.(evalCh) with
  | [] => m
  | (p, ltp) :: jobs =>
      let m := m <| evalCh := jobs |> in
      match m.(groups) !! p with
      | Some g => if tryClaimEvaluation p m && is_active_group g then spawn_task (TEval p ltp) m else m
      | None => m
      end
  end.

(** *** Cancelling *)

(** The levels of one side that are active are cancelled; the orders of those
    that have one are taken out of the index and cancelled at the broker. *)
Definition cancel_level (l : Level.t) : Level.t :=
  if is_active_level l then l <| Level.Status := LevelCancelled |> else l.

Definition open_broker_ids (pending_too : bool) (levels : list Level.t) : list string :=
  List.filter (fun b => negb (b =?s "")) (map Level.BrokerOrderID
    (List.filter (fun l => is_active_level l ||
                   pending_too && bool_decide (l.(Level.Status) = LevelPending)) levels)).

Definition drop_and_cancel (g : MLGroup.t) (auth : option AuthContext) (m : M) (id : string) : M :=
  spawn_task (TCancelOrder g.(MLGroup.Exchange) id g.(MLGroup.Symbol) auth) (drop_level id m).

Definition cancelRemainingMLOrders (p : gptr) (d : Side) (auth : option AuthContext) (m : M) : M :=
  match m.(groups) !! p with
  | None => m
  | Some g => foldl (drop_and_cancel g auth) (upd p (set_levels d (map cancel_level (levels_of d g))) m)
                (open_broker_ids false (levels_of d g))
  end.

Definition cancelGroupInternal (p : gptr) (m : M) : M :=
  match m.(groups) !! p with
  | None => m
  | Some g =>
      if negb (is_active_group g) then m
      else
        let m := upd p (fun g => g <| MLGroup.State := GroupStateCancelled |>) m in
        let m := finishGroup p m in
        if is_live g && bool_decide (g.(MLGroup.Auth) <> None) then
          let m := if g.(MLGroup.SingleSLBrokerID) =?s "" then m
                   else spawn_task (TCancelOrder g.(MLGroup.Exchange) g.(MLGroup.SingleSLBrokerID)
                                      g.(MLGroup.Symbol) g.(MLGroup.Auth)) m in
          cancelRemainingMLOrders p TP g.(MLGroup.Auth) (cancelRemainingMLOrders p SL g.(MLGroup.Auth) m)
        else m
  end.

Definition CancelGroup (entryID : uuid) (m : M) : M :=
  match m.(groupsByEntry) !! entryID with Some p => cancelGroupInternal p m | None => m end.

(** [f] on the registered groups that satisfy [sel]. *)
Definition on_groups (sel : MLGroup.t -> bool) (f : gptr -> M -> M) (m : M) : M :=
  foldl (fun m kp => match m.(groups) !! kp.2 with Some g => if sel g then f kp.2 m else m | None => m end)
    m (map_to_list m.(groupsByEntry)).

Definition CancelGroupsBySymbol (userID symbol : string) : M -> M :=
  on_groups (fun g => (g.(MLGroup.UserID) =?s userID) && (ToUpper g.(MLGroup.Symbol) =?s ToUpper symbol)
                      && is_active_group g) cancelGroupInternal.

Definition cancelSLOrder (p : gptr) (m : M) : M :=
  match m.(groups) !! p with
  | None => m
  | Some g =>
      let m := upd p (fun g => g <| MLGroup.SingleSLBrokerID := "" |>) m in
      if (g.(MLGroup.SingleSLBrokerID) =?s "") || bool_decide (g.(MLGroup.Auth) = None) then m
      else (broker_cancel g.(MLGroup.Exchange) g.(MLGroup.SingleSLBrokerID) g.(MLGroup.Symbol)
              g.(MLGroup.Auth) m).2
  end.

Definition cancelTPOrder (now : Z) (p : gptr) (m : M) (il : nat * Level.t) : M :=
  match m.(groups) !! p with
  | None => m
  | Some g =>
      let '(i, l) := il in
      if negb (is_active_level l) || (l.(Level.BrokerOrderID) =?s "") || bool_decide (g.(MLGroup.Auth) = None)
      then m
      else
        let '(ok, m) := broker_cancel g.(MLGroup.Exchange) l.(Level.BrokerOrderID) g.(MLGroup.Symbol)
                          g.(MLGroup.Auth) m in
        if ok then
          set_level_status now g.(MLGroup.EntryOrderID) MLExitTypeTP l.(Level.LevelNum) MLStatusCancelled fzero
            (drop_level l.(Level.BrokerOrderID)
               (upd p (alter_level TP i (fun l => l <| Level.Status := LevelCancelled |>)) m))
        else m
  end.

(** What is left of a paper position is sold at [price]. *)
Definition exit_remaining (now : Z) (p : gptr) (g : MLGroup.t) (price : f64) (reason : string) (m : M) : M :=
  UpdatePaperPositionFilledQty now g.(MLGroup.EntryOrderID) 0
    (recordPaperPartialExit now p g g.(MLGroup.RemainingQty) price reason 0 m).

Definition forget_group (g : MLGroup.t) (m : M) : M :=
  unsubscribeGroup g (m <| groupsByEntry := delete g.(MLGroup.EntryOrderID) m.(groupsByEntry) |>).

Definition CancelGroupForExit (now : Z) (entryID : uuid) (exitPrice : f64) (reason : string) (m : M) : M :=
  match m.(groupsByEntry) !! entryID with
  | None => m
  | Some p =>
      match m.(groups) !! p with
      | None => m
      | Some g =>
          if negb (is_active_group g) then m
          else
            let m := upd p (fun g => g <| MLGroup.State := GroupStateCancelled |>) m in
            let m := foldl (cancelTPOrder now p) m (imap pair g.(MLGroup.TPLevels)) in
            let m := cancelSLOrder p m in
            let m := if is_paper g && (0 <? g.(MLGroup.RemainingQty))%Z && flt fzero exitPrice
                     then exit_remaining now p g exitPrice reason m else m in
            let m := forget_group g (m <| groupsByEntry := delete entryID m.(groupsByEntry) |>) in
            drop_single "" m
      end
  end.

Definition cancel_for_strategy (now : Z) (p : gptr) (m : M) : M :=
  match m.(groups) !! p with
  | None => m
  | Some g =>
      let m := upd p (fun g => g <| MLGroup.State := GroupStateCancelled |>) m in
      let ltp := match priceLookup with
                 | Some GetLTP => GetLTP g.(MLGroup.Exchange) g.(MLGroup.StockCode)
                 | None => None
                 end in
      let m := match ltp with
               | Some ltp => if is_paper g && (0 <? g.(MLGroup.RemainingQty))%Z && flt fzero ltp
                             then exit_remaining now p g ltp "STRATEGY_DEACTIVATED" m else m
               | None => m
               end in
      forget_group g m
  end.

Definition CancelGroupsByStrategy (now : Z) (userID strategyID : string) : M -> M :=
  on_groups (fun g => (g.(MLGroup.UserID) =?s userID) && (g.(MLGroup.StrategyID) =?s strategyID)
                      && is_active_group g) (cancel_for_strategy now).

(** *** Live fills *)

Definition onMultiLevelFilled (now : Z) (p : gptr) (d : Side) (levelNum : Z) (fillPrice : option f64) (m : M)
  : M :=
  let price := default fzero fillPrice in
  match m.(groups) !! p with
  | None => m
  | Some g =>
      match list_find (fun l => l.(Level.LevelNum) = levelNum) (levels_of d g) with
      | None => m
      | Some (i, l) =>
          match tryMarkTriggered now price l with
          | None => m
          | Some l' =>
              let m := upd p (decrement l.(Level.ExitQty) ∘ alter_level d i (fun _ => l')) m in
              let m := drop_level l.(Level.BrokerOrderID) m in
              let m := set_level_status now g.(MLGroup.EntryOrderID) (exitType d) levelNum
                         MLStatusTriggered price m in
              let remaining := int32 (g.(MLGroup.RemainingQty) - l.(Level.ExitQty)) in
              let auth := g.(MLGroup.Auth) in
              if (remaining <=? 0)%Z then
                let m := cancelRemainingMLOrders p (other d) auth (cancelRemainingMLOrders p d auth m) in
                let m := upd p (fun g => g <| MLGroup.SingleSLBrokerID := "" |>) m in
                let m := if g.(MLGroup.SingleSLBrokerID) =?s "" then m
                         else spawn_task (TCancelOrder g.(MLGroup.Exchange) g.(MLGroup.SingleSLBrokerID)
                                            g.(MLGroup.Symbol) auth)
                                (drop_single g.(MLGroup.SingleSLBrokerID) m) in
                finishGroup p m
              else
                rebalanceAndModifyLevels p (other d) remaining auth
                  (rebalanceAndModifyLevels p d remaining auth m)
          end
      end
  end.

Definition end_level (l : Level.t) : Level.t :=
  match l.(Level.Status) with
  | LevelActive | LevelPending => l <| Level.Status := LevelCancelled |>
  | _ => l
  end.

Definition onSingleSLFilled (now : Z) (p : gptr) (fillPrice : option f64) (filledQty : Z) (m : M) : M :=
  let price := default fzero fillPrice in
  match m.(groups) !! p with
  | None => m
  | Some g =>
      let entry := g.(MLGroup.EntryOrderID) in
      let tps := map end_level g.(MLGroup.TPLevels) in
      let m := upd p (fun g => decrement filledQty g <| MLGroup.TPLevels := tps |>) m in
      let m := if g.(MLGroup.TPMode) =?s TPModeMultiLevel
               then foldl (drop_and_cancel g g.(MLGroup.Auth)) m (open_broker_ids true g.(MLGroup.TPLevels))
               else m in
      let cancelled := List.filter (fun l => bool_decide (l.(Level.Status) = LevelCancelled)) tps in
      let m := foldl (fun m l => set_level_status now entry MLExitTypeTP l.(Level.LevelNum)
                                   MLStatusCancelled fzero m) m cancelled in
      let m := set_level_status now entry MLExitTypeSL 0 MLStatusTriggered price m in
      let remaining := int32 (g.(MLGroup.RemainingQty) - filledQty) in
      let m := if (remaining <=? 0)%Z then finishGroup p m else m in
      log_if (is_paper g) (PeLevelTriggered entry MLExitTypeSL 0 price remaining) m
  end.

(** *** The other goroutines *)

Definition level_row (d : Side) (g : MLGroup.t) (l : Level.t) (t : LevelsTable) : LevelsTable :=
  let '(pricePct, qtyPct) :=
    match List.find (fun c => (LevelNum c =? l.(Level.LevelNum))%Z) (configs_of d g) with
    | Some c => (PricePct c, QtyPct c)
    | None => (match d with SL => g.(MLGroup.FixedSLPct) | TP => fzero end, fzero)
    end in
  sqlUpsertLevel (g.(MLGroup.EntryOrderID), exitType d, l.(Level.LevelNum)) pricePct qtyPct
    (Some l.(Level.TriggerPrice)) (Some l.(Level.ExitQty)) MLStatusActive t.

Definition persistExitLevels (p : gptr) (m : M) : M :=
  match m.(groups) !! p with
  | None => m
  | Some g =>
      let t := foldl (fun t l => level_row SL g l t) m.(mlevels) g.(MLGroup.SLLevels) in
      m <| mlevels := foldl (fun t l => level_row TP g l t) t g.(MLGroup.TPLevels) |>
  end.

(** A stop-loss order for [qty] at [trigger]; its id is stored by a later step. *)
Definition placeSingleSL (now : Z) (p : gptr) (g : MLGroup.t) (qty : Z) (trigger : f64)
    (store_trigger : bool) (m : M) : M :=
  let '(id, m) := new_id m in
  let '(r, m) := broker_place (buildExitOrder g now id qty OrderTypeStopLossMarket None (Some trigger))
                   g.(MLGroup.Auth) m in
  match r with
  | Some brokerID => spawn_task (TStoreSingle p brokerID (if store_trigger then Some trigger else None)) m
  | None => m
  end.

Definition placeFixedSLOrder (now : Z) (p : gptr) (qty : Z) (m : M) : M :=
  match m.(groups) !! p with
  | None => m
  | Some g => placeSingleSL now p g qty (CalcSLTriggerPrice g g.(MLGroup.FixedSLPct)) false m
  end.

Definition placeLiveTrailingSL (now : Z) (p : gptr) (m : M) : M :=
  match m.(groups) !! p with
  | None => m
  | Some g => placeSingleSL now p g g.(MLGroup.RemainingQty)
                (CalcSLTriggerPrice g g.(MLGroup.FixedSLPct)) true m
  end.

Definition store_single (p : gptr) (brokerID : string) (trigger : option f64) (m : M) : M :=
  let '(id, m) := new_id m in
  upd p (fun g => g <| MLGroup.SingleSLBrokerID := brokerID |> <| MLGroup.SingleSLOrderID := id |>
                    <| MLGroup.CurrentSLTrigger := default g.(MLGroup.CurrentSLTrigger) trigger |>)
    (m <| singleSLIndex := <[brokerID := p]> m.(singleSLIndex) |>).

(** The cancellation may fail: the new order is placed all the same. *)
Definition replaceSL (now : Z) (p : gptr) (remainingQty : Z) (trigger : MLGroup.t -> f64)
    (store_trigger : bool) (m : M) : M :=
  match m.(groups) !! p with
  | None => m
  | Some g =>
      if (remainingQty <=? 0)%Z || (g.(MLGroup.SingleSLBrokerID) =?s "") then m
      else
        let old := g.(MLGroup.SingleSLBrokerID) in
        let '(_, m) := broker_cancel g.(MLGroup.Exchange) old g.(MLGroup.Symbol) g.(MLGroup.Auth)
                         (drop_single old m) in
        placeSingleSL now p g remainingQty (trigger g) store_trigger m
  end.

Definition replaceSLWithReducedQty (now : Z) (p : gptr) (remainingQty : Z) : M -> M :=
  replaceSL now p remainingQty (fun g => CalcSLTriggerPrice g g.(MLGroup.FixedSLPct)) false.

Definition replaceSLTrailing (now : Z) (p : gptr) (remainingQty : Z) : M -> M :=
  replaceSL now p remainingQty
    (fun g => if fle g.(MLGroup.CurrentSLTrigger) fzero then CalcSLTriggerPrice g g.(MLGroup.FixedSLPct)
              else g.(MLGroup.CurrentSLTrigger)) true.

(** The goroutine of one level of [placeMultiSLOrders] and [placeMultiTPOrders]. *)
Definition placeMultiLevelOrder (now : Z) (p : gptr) (d : Side) (i : nat) (m : M) : M :=
  match m.(groups) !! p with
  | None => m
  | Some g =>
      match levels_of d g !! i with
      | None => m
      | Some l =>
          let '(r, m) := broker_place (buildLevelOrder g now d l) g.(MLGroup.Auth) m in
          match r with
          | Some brokerID => spawn_task (TStoreLevel p d i l.(Level.LevelNum) brokerID) m
          | None => m
          end
      end
  end.

Definition store_level (p : gptr) (d : Side) (i : nat) (levelNum : Z) (brokerID : string) (m : M) : M :=
  upd p (alter_level d i (fun l => l <| Level.BrokerOrderID := brokerID |>)) m
    <| mlLevelIndex := <[brokerID := (p, d, levelNum)]> m.(mlLevelIndex) |>.

Definition modifyTrailing (p : gptr) (orderID : uuid) (brokerID : string) (qty : Z) (trigger : f64) (m : M) : M :=
  match m.(groups) !! p with
  | None => m
  | Some g =>
      let '(ok, m) := broker_modify (modify_order g SL orderID brokerID qty trigger) g.(MLGroup.Auth) m in
      if ok then upd p (fun g => g <| MLGroup.CurrentSLTrigger := trigger |>) m else m
  end.

Definition modifyLevelOrder (p : gptr) (d : Side) (orderID : uuid) (brokerID : string) (qty : Z)
    (trigger : f64) (auth : option AuthContext) (m : M) : M :=
  match m.(groups) !! p with
  | None => m
  | Some g => (broker_modify (modify_order g d orderID brokerID qty trigger) auth m).2
  end.

Definition placeExitOrderMarket (now : Z) (p : gptr) (d : Side) (levelNum qty : Z) (price : f64) (m : M) : M :=
  match m.(groups) !! p with
  | None => m
  | Some g =>
      let '(id, m) := new_id m in
      let '(r, m) := broker_place (buildExitOrder g now id qty OrderTypeMarket None None) g.(MLGroup.Auth) m in
      match r with
      | Some _ => set_level_status now g.(MLGroup.EntryOrderID) (exitType d) levelNum MLStatusTriggered price m
      | None => m
      end
  end.

Definition run_task (now : Z) (t : MTask) (m : M) : M :=
  match t with
  | TPersist p => persistExitLevels p m
  | TPlaceFixedSL p qty => placeFixedSLOrder now p qty m
  | TPlaceTrailingSL p => placeLiveTrailingSL now p m
  | TPlaceLevel p d i => placeMultiLevelOrder now p d i m
  | TStoreSingle p brokerID trigger => store_single p brokerID trigger m
  | TStoreLevel p d i n brokerID => store_level p d i n brokerID m
  | TReplaceFixed p r => replaceSLWithReducedQty now p r m
  | TReplaceTrailing p r => replaceSLTrailing now p r m
  | TModifyTrail p oid bid qty trigger => modifyTrailing p oid bid qty trigger m
  | TModifyLevel p d oid bid qty trigger auth => modifyLevelOrder p d oid bid qty trigger auth m
  | TEval p ltp => evaluate now p ltp m
  | TMarketExit p d n qty price => placeExitOrderMarket now p d n qty price m
  | TEntryFill id price qty => OnEntryFill id price qty [] [] m
  | TLevelFilled p d n price => onMultiLevelFilled now p d n price m
  | TSingleFilled p price qty => onSingleSLFilled now p price qty m
  | TCancelOrder exchange bid symbol auth => (broker_cancel exchange bid symbol auth m).2
  end.

(** *** Reload after a restart *)

Record ReloadStats : Type := mkReloadStats {
  EntriesScanned : Z;
  GroupsRestored : Z;
  GroupsSkipped : Z;
  LevelsRestored : Z;
  WarnSingleSLLost : Z
}.

Definition levelStateFromRecord (n : Z) (r : MLRow.t) : Level.t :=
  Level.mk n (default fzero r.(MLRow.TriggerPrice)) (default 0%Z r.(MLRow.ExitQty))
    (match r.(MLRow.OriginalExitQty) with Some q => q | None => default 0%Z r.(MLRow.ExitQty) end)
    (if r.(MLRow.Status) =?s MLStatusActive then LevelActive
     else if r.(MLRow.Status) =?s MLStatusTriggered then LevelTriggered
     else if r.(MLRow.Status) =?s MLStatusCancelled then LevelCancelled else LevelPending)
    (default "" r.(MLRow.BrokerOrderID)) (default 0%N r.(MLRow.ExitOrderID)) r.(MLRow.TriggeredAt)
    (default fzero r.(MLRow.ExitPrice)).

Definition side_of (kind : string) : option Side :=
  if kind =?s MLExitTypeSL then Some SL else if kind =?s MLExitTypeTP then Some TP else None.

Definition restore_level (g : MLGroup.t) (kr : LevelKey * MLRow.t) : MLGroup.t :=
  let '((_, kind, n), r) := kr in
  let l := levelStateFromRecord n r in
  let c := mkLevel n r.(MLRow.PricePct) r.(MLRow.QtyPct) in
  let g := match side_of kind with
           | Some SL => g <| MLGroup.SLLevels := g.(MLGroup.SLLevels) ++ [l] |>
                          <| MLGroup.SLLevelConfigs := g.(MLGroup.SLLevelConfigs) ++ [c] |>
           | Some TP => g <| MLGroup.TPLevels := g.(MLGroup.TPLevels) ++ [l] |>
                          <| MLGroup.TPLevelConfigs := g.(MLGroup.TPLevelConfigs) ++ [c] |>
           | None => g
           end in
  match r.(MLRow.ExitQty) with
  | Some q => if (r.(MLRow.Status) =?s MLStatusTriggered) && (q <=? g.(MLGroup.RemainingQty))%Z
              then g <| MLGroup.RemainingQty := int32 (g.(MLGroup.RemainingQty) - q) |> else g
  | None => g
  end.

Definition saw (d : Side) (rows : list (LevelKey * MLRow.t)) : bool :=
  existsb (fun kr => bool_decide (side_of kr.1.1.2 = Some d)) rows.

(** The group, and whether its single stop-loss is lost. *)
Definition restored_group (gid : uuid) (o : Order.t) (price : f64) (rows : list (LevelKey * MLRow.t))
  : MLGroup.t * bool :=
  let lost := negb (saw SL rows) && (o.(Order.TradingMode) =?s "LIVE") in
  let g := MLGroup.mk gid o.(Order.OrderID) o.(Order.UserID) o.(Order.Symbol) o.(Order.Exchange)
             o.(Order.StockCode) o.(Order.OrderSide) o.(Order.ProductType) o.(Order.Validity) price
             o.(Order.FilledQuantity) [] [] (if saw SL rows then SLModeMultiLevel else "") fzero fzero
             price fzero "" 0%N (if saw TP rows then TPModeMultiLevel else "") GroupStateActive
             o.(Order.FilledQuantity) o.(Order.TradingMode) None o.(Order.StrategyID)
             o.(Order.StrategyName) o.(Order.EventID) [] [] true in
  let g := foldl restore_level g rows in
  (if lost then g <| MLGroup.SLMode := SLModeFixed |> else g, lost).

(** [mlLevelRef.exitType] is the row's type; the types are "SL" and "TP". *)
Definition index_row (p : gptr) (m : M) (kr : LevelKey * MLRow.t) : M :=
  match kr.2.(MLRow.BrokerOrderID), side_of kr.1.1.2 with
  | Some id, Some d =>
      if id =?s "" then m else m <| mlLevelIndex := <[id := (p, d, kr.1.2)]> m.(mlLevelIndex) |>
  | _, _ => m
  end.

Definition skipped (s : ReloadStats) : ReloadStats :=
  mkReloadStats s.(EntriesScanned) s.(GroupsRestored) (s.(GroupsSkipped) + 1) s.(LevelsRestored)
    s.(WarnSingleSLLost).

Definition reload_entry (sm : ReloadStats * M) (o : Order.t) : ReloadStats * M :=
  let '(s, m) := sm in
  let rows := sqlGetLevels o.(Order.OrderID) m.(mlevels) in
  if bool_decide (m.(groupsByEntry) !! o.(Order.OrderID) <> None) || (if rows is [] then true else false)
     || (o.(Order.FilledQuantity) <=? 0)%Z
  then (skipped s, m)
  else
    match o.(Order.FilledPrice) with
    | None => (skipped s, m)
    | Some price =>
        let '(gid, m) := new_id m in
        let '(g, lost) := restored_group gid o price rows in
        let p := m.(nextGroup) in
        let m := foldl (index_row p)
                   (m <| groups := <[p := g]> m.(groups) |> <| nextGroup := S p |>) rows in
        let m := m <| groupsByEntry := <[o.(Order.OrderID) := p]> m.(groupsByEntry) |> in
        (mkReloadStats s.(EntriesScanned) (s.(GroupsRestored) + 1) s.(GroupsSkipped)
           (s.(LevelsRestored) + Z.of_nat (length rows))
           (if lost then s.(WarnSingleSLLost) + 1 else s.(WarnSingleSLLost)),
         subscribeGroup p g.(MLGroup.StockCode) m)
    end.

(** [levelsFail]: whether the query of the levels fails. *)
Definition Reload (levelsFail : bool) (m : M) : (string + ReloadStats) * M :=
  let '(t, r) := sqlGetActiveMLEntries m.(mlevels) m.(morders) in
  let m := m <| morders := t |> in
  match r with
  | inl e => (inl ("fetch active ML entries: " ++ e)%string, m)
  | inr [] => (inr (mkReloadStats 0 0 0 0 0), m)
  | inr entries =>
      if levelsFail then (inl "fetch ML levels batch", m)
      else
        let '(s, m) := foldl reload_entry (mkReloadStats (Z.of_nat (length entries)) 0 0 0 0, m) entries in
        (inr s, m)
  end.

(** The number of subscribed groups. *)
Definition GroupCount (m : M) : Z :=
  foldl (fun n kl => (n + Z.of_nat (length kl.2))%Z) 0%Z (map_to_list m.(byStock)).

(** *** Runs *)

Inductive MLEvent : Type :=
  | EvRegister (entry : Order.t) (slMode tpMode : string) (slLevels tpLevels : list MultiLevelExitLevel)
      (fixedSLPct trailingSLPct : f64) (auth : option AuthContext)
  | EvEntryFill (entryID : uuid) (price : f64) (qty : Z) (slLevels tpLevels : list MultiLevelExitLevel)
  | EvBrokerUpdate (o : Order.t) (brokerStatus : string)
  | EvPrice (key : string) (ltp : f64)
  | EvWorker
  | EvTask (i : nat)
  | EvCancelGroup (entryID : uuid)
  | EvCancelSymbol (userID symbol : string)
  | EvCancelForExit (entryID : uuid) (exitPrice : f64) (reason : string)
  | EvCancelStrategy (userID strategyID : string)
  | EvReload (levelsFail : bool).

Definition ml_step (now : Z) (e : MLEvent) (m : M) : M :=
  match e with
  | EvRegister entry sm tm sl tp f t auth => RegisterEntry entry sm tm sl tp f t auth m
  | EvEntryFill id price qty sl tp => OnEntryFill id price qty sl tp m
  | EvBrokerUpdate o s => HandleBrokerUpdate o s m
  | EvPrice key ltp => OnPriceUpdate key ltp m
  | EvWorker => runEvalJob m
  | EvTask i =>
      match m.(mtasks) !! i with
      | Some t => run_task now t (m <| mtasks := delete i m.(mtasks) |>)
      | None => m
      end
  | EvCancelGroup id => CancelGroup id m
  | EvCancelSymbol u s => CancelGroupsBySymbol u s m
  | EvCancelForExit id price reason => CancelGroupForExit now id price reason m
  | EvCancelStrategy u s => CancelGroupsByStrategy now u s m
  | EvReload f => (Reload f m).2
  end.

(** A run reads the clock once per event. *)
Definition ml_run (es : list (Z * MLEvent)) (m : M) : M := foldl (fun m te => ml_step te.1 te.2 m) m es.

(** [NewManager] over what the database and the broker hold. *)
Definition NewMLManager (nextID : N) (b : B) (orders : OrdersTable) (levels : LevelsTable) : M :=
  mkML ∅ 0 nextID ∅ ∅ ∅ ∅ [] [] b [] orders levels [] [].

End Manager.
