(* ===== verification/MLPosition.v ===== *)
(** * Multi-level exits: the levels of a paper position

    The quantities of the exit levels of one group through a fill, an exit and the
    rebalancing that follows: on each side that has levels, the active ones always
    add up to what is left of the position.  Percentages are whole numbers from 1
    to 100 and a side has at most five levels, which is the limit of user-config. *)

From stdpp Require Import base gmap strings list.
From Stdlib Require Import ZArith Lia Bool.
From S2P Require Import Prelude GoFloat FloatRound FloatOrder Price FloatExact GoStrings Orders OrderRepo.
From S2P Require Import OrderQueries OCOTypes Broker Signals MLTypes MLManager.

Open Scope string_scope.
Open Scope list_scope.
Open Scope go_scope.

Definition whole_pct (c : SLTPLevelConfig) : Prop := exists p, (1 <= p <= 100)%Z /\ QtyPct c = of_Z p.

Definition good_configs (l : list SLTPLevelConfig) : Prop :=
  (length l <= 5)%nat /\ NoDup (map LevelNum l) /\ Forall whole_pct l.

Definition active_qty (levels : list Level.t) : Z :=
  sumZ (map Level.ExitQty (List.filter is_active_level levels)).

#[global] Arguments active_qty : simpl never.

(** The levels of one side when [R] is left. *)
Record side_ok (configs : list SLTPLevelConfig) (R : Z) (levels : list Level.t) : Prop := {
  so_nums : levels <> [] -> map Level.LevelNum levels = map LevelNum configs;
  so_qty : levels <> [] -> (0 < R)%Z -> active_qty levels = R;
  so_nonneg : Forall (fun l => 0 <= l.(Level.ExitQty))%Z levels;
  so_paper : Forall (fun l => l.(Level.BrokerOrderID) = "") levels
}.

(** ** Helpers *)

Lemma good_configs_perm l l' : l ≡ₚ l' -> good_configs l -> good_configs l'.
Proof.
  intros Hp (H1 & H2 & H3). split_and!; by rewrite <- Hp.
Qed.

Lemma whole_pct_ok l : Forall whole_pct l -> Forall (fun c => pct_ok (QtyPct c)) l.
Proof.
  intros H. eapply Forall_impl; [exact H|]. intros c (p & Hp & ->). split; [apply of_Z_nonneg; lia|].
  apply of_Z_mono; lia.
Qed.

Lemma is_active_marked l s : s <> LevelActive -> is_active_level (l <| Level.Status := s |>) = false.
Proof. intros H. unfold is_active_level. by apply bool_decide_eq_false. Qed.

Lemma active_qty_cons l levels :
  active_qty (l :: levels) = ((if is_active_level l then l.(Level.ExitQty) else 0) + active_qty levels)%Z.
Proof. unfold active_qty. cbn [List.filter]. by destruct (is_active_level l). Qed.

Lemma active_qty_nonneg levels :
  Forall (fun l => 0 <= l.(Level.ExitQty))%Z levels -> (0 <= active_qty levels)%Z.
Proof.
  induction 1 as [|l levels H Hl IH]; [done|]. rewrite active_qty_cons. destruct (is_active_level l); lia.
Qed.

Lemma active_qty_leave levels i l l' :
  levels !! i = Some l -> is_active_level l = true -> is_active_level l' = false ->
  active_qty (alter (fun _ => l') i levels) = (active_qty levels - l.(Level.ExitQty))%Z.
Proof.
  revert i. induction levels as [|a levels IH]; intros [|i] Hi Ha Hn; try done; cbn in *.
  - injection Hi as ->. rewrite !active_qty_cons, Ha, Hn. lia.
  - rewrite !active_qty_cons, (IH i Hi Ha Hn). destruct (is_active_level a); lia.
Qed.

Lemma active_qty_member levels i l :
  Forall (fun l => 0 <= l.(Level.ExitQty))%Z levels -> levels !! i = Some l -> is_active_level l = true ->
  (0 <= l.(Level.ExitQty) <= active_qty levels)%Z.
Proof.
  intros Hn. revert i. induction Hn as [|a levels Ha Hn IH]; intros [|i] Hi Hl; try done; cbn in Hi.
  - injection Hi as ->. rewrite active_qty_cons, Hl. pose proof (active_qty_nonneg levels Hn). lia.
  - rewrite active_qty_cons. specialize (IH i Hi Hl). destruct (is_active_level a); lia.
Qed.

Lemma map_alter_same {A C} (f : A -> C) (l : list A) i x y :
  l !! i = Some x -> f y = f x -> map f (alter (fun _ => y) i l) = map f l.
Proof.
  revert i. induction l as [|a l IH]; intros [|i] Hi Hf; try done; cbn in *.
  - injection Hi as ->. by rewrite Hf.
  - by rewrite (IH i Hi Hf).
Qed.

Lemma Forall_alter_const {A} (P : A -> Prop) (l : list A) i y :
  Forall P l -> P y -> Forall P (alter (fun _ => y) i l).
Proof.
  intros Hl Hy. revert i. induction Hl as [|a l Ha Hl IH]; intros [|i]; cbn; try constructor; auto.
Qed.

Lemma first_triggered_spec now ltp hit levels i l' :
  first_triggered now ltp hit levels = Some (i, l') ->
  exists l, levels !! i = Some l /\ is_active_level l = true /\
    l' = l <| Level.Status := LevelTriggered |> <| Level.TriggeredAt := Some now |>
           <| Level.ExitPrice := ltp |>.
Proof.
  revert i. induction levels as [|l levels IH]; intros i H; [done|]. cbn in H.
  assert (Hskip : match first_triggered now ltp hit levels with
                  | Some (i, l') => Some (S i, l') | None => None end = Some (i, l') ->
    exists l0, (l :: levels) !! i = Some l0 /\ is_active_level l0 = true /\
      l' = l0 <| Level.Status := LevelTriggered |> <| Level.TriggeredAt := Some now |>
              <| Level.ExitPrice := ltp |>).
  { destruct (first_triggered now ltp hit levels) as [[j k]|]; [|done]. intros [= <- ->].
    destruct (IH j eq_refl) as (l0 & H1 & H2 & H3). exists l0. done. }
  destruct (hit l.(Level.TriggerPrice)); [|auto]. unfold tryMarkTriggered in H.
  destruct (Level.Status l) eqn:E; auto. injection H as <- <-. exists l. split_and!; [done| |done].
  unfold is_active_level. by rewrite E.
Qed.

(** ** The fill *)

Lemma build_levels_spec calc configs : forall id qtys,
  length qtys = length configs ->
  map Level.LevelNum (build_levels calc id configs qtys) = map LevelNum configs /\
  active_qty (build_levels calc id configs qtys) = sumZ qtys /\
  map Level.ExitQty (build_levels calc id configs qtys) = qtys /\
  Forall (fun l => l.(Level.BrokerOrderID) = "") (build_levels calc id configs qtys).
Proof.
  induction configs as [|c configs IH]; intros id [|q qtys] H; try done.
  cbn [build_levels map]. destruct (IH (N.succ id) qtys ltac:(cbn in H; lia)) as (H1 & H2 & H3 & H4).
  split_and!; [cbn; by rewrite H1|by rewrite active_qty_cons, H2|cbn; by rewrite H3|by constructor].
Qed.

Lemma computeInitialExitQtys_length configs q : length (computeInitialExitQtys configs q) = length configs.
Proof.
  unfold computeInitialExitQtys. destruct (q <=? 0)%Z; [apply length_replicate|].
  generalize 0%Z. induction configs as [|c configs IH]; intros a; [done|].
  destruct configs as [|c' configs]; [done|].
  change (initial_qtys q a (c :: c' :: configs)) with
    (initial_share q a c :: initial_qtys q (int32 (a + initial_share q a c)) (c' :: configs)).
  cbn [length]. by rewrite IH.
Qed.

Lemma filled_side_ok calc id configs q :
  good_configs configs -> (0 < q < 2 ^ 29)%Z ->
  side_ok configs q (build_levels calc id configs (computeInitialExitQtys configs q)).
Proof.
  intros (_ & _ & Hw) Hq.
  destruct (build_levels_spec calc configs id _ (computeInitialExitQtys_length configs q)) as (H1 & H2 & H3 & H4).
  destruct configs as [|c configs]; [by split|].
  destruct (initial_qtys_sum (c :: configs) q ltac:(done) ltac:(lia) (whole_pct_ok _ Hw)) as (_ & Hs & Hn).
  split; [done|by rewrite H2| |done].
  apply (Forall_map Level.ExitQty (fun q => 0 <= q)%Z). rewrite H3.
  eapply Forall_impl; [exact Hn|]. cbn. lia.
Qed.

(** ** Rebalancing *)

Lemma find_config configs c :
  NoDup (map LevelNum configs) -> c ∈ configs -> level_pct configs (LevelNum c) = QtyPct c.
Proof.
  intros Hnd Hin. unfold level_pct. induction configs as [|a configs IH]; [by apply elem_of_nil in Hin|].
  cbn in Hnd. apply NoDup_cons in Hnd as [Ha Hnd]. cbn [List.find].
  apply elem_of_cons in Hin as [<- | Hin]; [by rewrite Z.eqb_refl|].
  destruct (Z.eqb_spec (LevelNum a) (LevelNum c)) as [E|]; [|by apply IH].
  destruct Ha. rewrite E. apply list_elem_of_fmap. eauto.
Qed.

(** The percentage of each level, a whole number. *)
Lemma level_pcts_whole configs levels :
  good_configs configs -> map Level.LevelNum levels = map LevelNum configs ->
  Forall (fun l => exists p, (1 <= p <= 100)%Z /\ level_pct configs l.(Level.LevelNum) = of_Z p) levels.
Proof.
  intros (_ & Hnd & Hw) Hm. apply Forall_forall. intros l Hl.
  assert (Hin : l.(Level.LevelNum) ∈ map LevelNum configs) by (rewrite <- Hm; apply list_elem_of_fmap; eauto).
  apply list_elem_of_fmap in Hin as (c & Hc & Hin).
  destruct (proj1 (Forall_forall _ _) Hw c Hin) as (p & Hp & E). exists p. split; [done|].
  by rewrite Hc, find_config.
Qed.

Lemma fpos_not_le_zero x : fpos x = true -> fle x fzero = false.
Proof. by destruct x as [| | |[] m e]. Qed.

Lemma counted_active configs levels :
  good_configs configs -> map Level.LevelNum levels = map LevelNum configs ->
  Forall (fun l => counted configs l = is_active_level l) levels.
Proof.
  intros Hg Hm. eapply Forall_impl; [by apply level_pcts_whole|]. intros l (p & Hp & E). unfold counted.
  rewrite E, fpos_not_le_zero by (apply of_Z_fpos; lia). by rewrite andb_true_r.
Qed.

Lemma filter_ext_Forall {A} (f g : A -> bool) l :
  Forall (fun x => f x = g x) l -> List.filter f l = List.filter g l.
Proof. induction 1 as [|x l H Hl IH]; [done|]. cbn. by rewrite H, IH. Qed.

Lemma whole_sum (ps : list Z) : forall a,
  (0 <= a)%Z -> Forall (fun p => 1 <= p <= 100)%Z ps -> (a + 100 * Z.of_nat (length ps) < 2 ^ 53)%Z ->
  foldl fadd (of_Z a) (map of_Z ps) = of_Z (a + sumZ ps).
Proof.
  induction ps as [|p ps IH]; intros a Ha Hp Hs; cbn [map foldl sumZ length] in *; [by rewrite Z.add_0_r|].
  inversion_clear Hp as [|? ? H1 H2]. rewrite of_Z_add by lia. rewrite IH by (done || lia). f_equal. lia.
Qed.

Lemma assign_qtys_spec counts levels : forall qtys,
  Forall (fun l => counts l = is_active_level l) levels ->
  length qtys = length (List.filter is_active_level levels) ->
  Forall (fun q => 0 <= q)%Z qtys ->
  Forall (fun l => 0 <= l.(Level.ExitQty))%Z levels ->
  Forall (fun l => l.(Level.BrokerOrderID) = "") levels ->
  let r := assign_qtys counts levels qtys in
  r.2 = [] /\ map Level.LevelNum r.1 = map Level.LevelNum levels /\ active_qty r.1 = sumZ qtys /\
  Forall (fun l => 0 <= l.(Level.ExitQty))%Z r.1 /\ Forall (fun l => l.(Level.BrokerOrderID) = "") r.1.
Proof.
  induction levels as [|l levels IH]; intros qtys Hc Hlen Hq Hn Hb.
  { destruct qtys; [|done]. by split_and!; try constructor. }
  inversion_clear Hc as [|? ? Hc1 Hc2]. inversion_clear Hn as [|? ? Hn1 Hn2]. inversion_clear Hb as [|? ? Hb1 Hb2].
  cbn [List.filter] in Hlen. destruct (is_active_level l) eqn:E.
  - destruct qtys as [|q qtys]; [done|]. inversion_clear Hq as [|? ? Hq1 Hq2]. injection Hlen as Hlen.
    destruct (IH qtys Hc2 Hlen Hq2 Hn2 Hb2) as (H1 & H2 & H3 & H4 & H5). cbn [assign_qtys]. rewrite Hc1.
    destruct (assign_qtys counts levels qtys) as [ls ch]. cbn [fst snd] in *. rewrite Hb1. cbn [String.eqb orb].
    split_and!; [done|cbn; by rewrite H2| |by constructor|by constructor].
    rewrite active_qty_cons, H3. change (is_active_level (l <| Level.ExitQty := q |>)) with (is_active_level l).
    rewrite E. reflexivity.
  - destruct (IH qtys Hc2 Hlen Hq Hn2 Hb2) as (H1 & H2 & H3 & H4 & H5).
    destruct qtys as [|q qtys]; cbn [assign_qtys fst snd].
    + split_and!; [done|done| |by constructor|by constructor]. rewrite active_qty_cons, E.
      unfold active_qty. destruct (List.filter is_active_level levels); [done|]. cbn in Hlen. lia.
    + rewrite Hc1. destruct (assign_qtys counts levels (q :: qtys)) as [ls ch]. cbn [fst snd] in *.
      split_and!; [done|cbn; by rewrite H2| |by constructor|by constructor].
      by rewrite active_qty_cons, H3, E.
Qed.

Lemma rebalanced_side_ok configs levels R R' :
  good_configs configs -> side_ok configs R levels -> (0 < R < 2 ^ 29)%Z -> (0 < R' < 2 ^ 29)%Z ->
  side_ok configs R' (rebalanced configs levels R').1 /\ (rebalanced configs levels R').2 = [] /\
  ((rebalanced configs levels R').1 = [] <-> levels = []).
Proof.
  intros Hg [Hm Hs Hn Hb] HR HR'. destruct (decide (levels = [])) as [-> | Hne].
  { split_and!; [split; [done|done|constructor|constructor]|done|done]. }
  specialize (Hm Hne). specialize (Hs Hne ltac:(lia)). pose proof (counted_active configs levels Hg Hm) as Hc.
  unfold rebalanced. cbv zeta. rewrite (filter_ext_Forall _ _ _ Hc).
  assert (Hps : exists ps, Forall (fun p => 1 <= p <= 100)%Z ps /\
    length ps = length (List.filter is_active_level levels) /\
    map (fun l => level_pct configs l.(Level.LevelNum)) (List.filter is_active_level levels) = map of_Z ps).
  { pose proof (level_pcts_whole configs levels Hg Hm) as Hw. clear -Hw.
    induction Hw as [|l levels (p & Hp & E) Hw (ps & H1 & H2 & H3)]; [by exists []|].
    cbn [List.filter]. destruct (is_active_level l); [|by exists ps].
    exists (p :: ps). split_and!; [by constructor|cbn; by rewrite H2|cbn; by rewrite E, H3]. }
  destruct Hps as (ps & Hp1 & Hp2 & ->).
  assert (Hlen : (length ps <= 5)%nat).
  { rewrite Hp2. pose proof (List.filter_length_le is_active_level levels) as Hle.
    apply (f_equal length) in Hm. rewrite !length_map in Hm. destruct Hg as [? _]. lia. }
  assert (Hpsne : ps <> []).
  { intros ->. unfold active_qty in Hs. destruct (List.filter is_active_level levels); [|done]. cbn in Hs. lia. }
  assert (Hsum : (0 < sumZ ps <= 512)%Z).
  { assert (H : forall l, Forall (fun p => 1 <= p <= 100)%Z l -> (Z.of_nat (length l) <= sumZ l <= 100 * Z.of_nat (length l))%Z)
      by (induction 1; cbn [length sumZ]; lia).
    specialize (H ps Hp1). destruct ps; [done|]. cbn [length] in *. lia. }
  assert (Htot : foldl fadd fzero (map of_Z ps) = of_Z (sumZ ps)).
  { change fzero with (of_Z 0). rewrite whole_sum by (done || lia). by rewrite Z.add_0_l. }
  rewrite !Htot.
  rewrite fpos_not_le_zero by (apply of_Z_fpos; lia).
  destruct ps as [|p ps0]; [done|]. cbn [map orb]. change (of_Z p :: map of_Z ps0) with (map of_Z (p :: ps0)).
  destruct (rebalance_sum (p :: ps0) R' ltac:(done)) as (Q1 & Q2 & Q3); [|done|].
  { split; [|lia]. eapply Forall_impl; [exact Hp1|]. cbn. lia. }
  destruct (assign_qtys_spec (counted configs) levels _ Hc (eq_trans Q1 Hp2) Q3 Hn Hb) as (A1 & A2 & A3 & A4 & A5).
  split; [split; [intros _; congruence|intros _ _; by rewrite A3|done|done]|]. split; [done|].
  split; [|done]. intros E. rewrite E in A2. by destruct levels.
Qed.

(** ** Groups *)

(** A group that trades on paper: no order of it is ever at the broker. *)
Record group_ok (g : MLGroup.t) : Prop := {
  go_single : g.(MLGroup.SingleSLBrokerID) = "";
  go_configs : forall d, good_configs (configs_of d g);
  go_sides : forall d, side_ok (configs_of d g) g.(MLGroup.RemainingQty) (levels_of d g);
  go_range : (0 <= g.(MLGroup.RemainingQty) <= g.(MLGroup.TotalQty))%Z /\ (g.(MLGroup.TotalQty) < 2 ^ 29)%Z;
  go_unfilled : g.(MLGroup.entryFilled) = false ->
    g.(MLGroup.TotalQty) = 0%Z /\ forall d, levels_of d g = []
}.

Lemma side_ok_nil configs R : side_ok configs R [].
Proof. by split; try constructor. Qed.

Lemma chosen_configs_good given stored :
  good_configs given -> good_configs stored -> good_configs (chosen_configs given stored).
Proof.
  intros H1 H2. unfold chosen_configs.
  eapply good_configs_perm; [symmetry; apply insertion_sort_perm|]. by destruct given.
Qed.

Lemma filled_group_ok price qty sl tp id g :
  group_ok g -> g.(MLGroup.entryFilled) = false -> good_configs sl -> good_configs tp ->
  (0 < qty < 2 ^ 29)%Z -> group_ok (filled_group price qty sl tp id g).
Proof.
  intros [Hs Hc _ _ Hu] Hf Hsl Htp Hq. destruct (Hu Hf) as [_ Hl].
  pose proof (chosen_configs_good sl _ Hsl (Hc SL)) as G1. pose proof (chosen_configs_good tp _ Htp (Hc TP)) as G2.
  pose proof (Hl SL) as L1. pose proof (Hl TP) as L2. cbn in L1, L2.
  unfold filled_group. cbv zeta.
  split; [done| | |cbn; lia|done].
  - by intros [].
  - intros []; cbn -[computeInitialExitQtys chosen_configs]; rewrite ?L1, ?L2; cbn [app];
      by apply filled_side_ok.
Qed.

(** The group once its level [l'] at place [i] of side [d] fired. *)
Definition after_exit (d : Side) (i : nat) (l' : Level.t) (g : MLGroup.t) : MLGroup.t :=
  let g := decrement l'.(Level.ExitQty) (alter_level d i (fun _ => l') g) in
  if (0 <? g.(MLGroup.RemainingQty))%Z
  then set_levels (other d)
         (rebalanced (configs_of (other d) g) (levels_of (other d) g) g.(MLGroup.RemainingQty)).1 g
  else g.

Lemma levels_of_set d d' l g :
  levels_of d' (set_levels d l g) = if decide (d' = d) then l else levels_of d' g.
Proof. by destruct d, d'. Qed.

Lemma configs_of_set d d' l g : configs_of d' (set_levels d l g) = configs_of d' g.
Proof. by destruct d, d'. Qed.

Lemma fired_side_ok configs R levels now ltp hit i l' :
  side_ok configs R levels -> (0 < R)%Z -> first_triggered now ltp hit levels = Some (i, l') ->
  side_ok configs (R - l'.(Level.ExitQty)) (alter (fun _ => l') i levels) /\
  (0 <= l'.(Level.ExitQty) <= R)%Z.
Proof.
  intros [Hm Hs Hn Hb] HR Hf. destruct (first_triggered_spec _ _ _ _ _ _ Hf) as (l & Hi & Ha & ->). cbn.
  assert (Hne : levels <> []) by (intros ->; done).
  pose proof (active_qty_member levels i l Hn Hi Ha) as Hr. rewrite (Hs Hne HR) in Hr. split; [|done].
  pose proof (proj1 (Forall_lookup _ _) Hn i l Hi) as Hn1. pose proof (proj1 (Forall_lookup _ _) Hb i l Hi) as Hb1.
  split.
  - intros _. rewrite (map_alter_same _ _ _ _ _ Hi) by done. auto.
  - intros _ _. rewrite (active_qty_leave _ _ _ _ Hi Ha) by done. by rewrite (Hs Hne HR).
  - by apply Forall_alter_const.
  - by apply Forall_alter_const.
Qed.

Lemma side_ok_done configs R levels : side_ok configs R levels -> side_ok configs 0 levels.
Proof. intros [Hm _ Hn Hb]. split; [done|lia|done|done]. Qed.

Lemma after_exit_ok d i l' g now ltp hit :
  group_ok g -> (0 < g.(MLGroup.RemainingQty))%Z ->
  first_triggered now ltp hit (levels_of d g) = Some (i, l') ->
  let r := (g.(MLGroup.RemainingQty) - l'.(Level.ExitQty))%Z in
  group_ok (after_exit d i l' g) /\ (after_exit d i l' g).(MLGroup.RemainingQty) = r /\
  (0 <= l'.(Level.ExitQty))%Z /\ (0 <= r)%Z /\
  ((0 < r)%Z -> (rebalanced (configs_of (other d) g) (levels_of (other d) g) r).2 = []).
Proof.
  intros [Hs Hc Hsd Hr Hu] HR Hf r.
  destruct (fired_side_ok _ _ _ _ _ _ _ _ (Hsd d) HR Hf) as [Hd Hq].
  assert (Hint : int32 (g.(MLGroup.RemainingQty) - l'.(Level.ExitQty)) = r).
  { apply int32_id. unfold in_int32. lia. }
  assert (Hof : other d <> d) by (by destruct d).
  assert (Hrange : (0 <= r <= g.(MLGroup.TotalQty))%Z) by lia.
  assert (Hfill : g.(MLGroup.entryFilled) = true).
  { destruct (MLGroup.entryFilled g) eqn:E; [done|]. destruct (Hu eq_refl) as [E2 _]. lia. }
  set (g1 := decrement l'.(Level.ExitQty) (alter_level d i (fun _ => l') g)).
  assert (Hg1 : g1.(MLGroup.RemainingQty) = r).
  { unfold g1, decrement, alter_level. destruct d; cbn; exact Hint. }
  assert (Hl1 : forall d', levels_of d' g1 = if decide (d' = d) then alter (fun _ => l') i (levels_of d g)
                                            else levels_of d' g) by (intros d'; by destruct d, d').
  assert (Hc1 : forall d', configs_of d' g1 = configs_of d' g) by (intros d'; by destruct d, d').
  unfold after_exit. cbv zeta. fold g1. rewrite Hg1, Hc1, Hl1, decide_False by done.
  destruct (Z.ltb_spec 0 r) as [Hpos | Hz].
  - destruct (rebalanced_side_ok (configs_of (other d) g) (levels_of (other d) g) g.(MLGroup.RemainingQty) r
                (Hc _) (Hsd _) ltac:(lia) ltac:(lia)) as (Ho & Hno & _).
    split; [|split; [destruct d; cbn; exact Hint|split; [lia|split; [lia|done]]]].
    split.
    + destruct d; exact Hs.
    + intros d'. rewrite configs_of_set, Hc1. apply Hc.
    + intros d'. rewrite configs_of_set, levels_of_set, Hc1, Hl1.
      replace (MLGroup.RemainingQty (set_levels _ _ g1)) with r by (by destruct d).
      destruct (decide (d' = other d)) as [-> | Hd']; [done|].
      assert (d' = d) as -> by (by destruct d, d'). by rewrite decide_True.
    + destruct d; cbn; rewrite Hint; lia.
    + intros E. exfalso. destruct d; cbn in E; congruence.
  - assert (r = 0%Z) as Hr0 by lia. 
    split; [|split; [exact Hg1|split; [lia|split; [lia|lia]]]].
    split.
    + destruct d; exact Hs.
    + intros d'. rewrite Hc1. apply Hc.
    + intros d'. rewrite Hc1, Hl1, Hg1. destruct (decide (d' = d)) as [-> | Hd']; [done|].
      rewrite Hr0. eapply side_ok_done, Hsd.
    + destruct d; cbn; rewrite Hint; lia.
    + intros E. exfalso. destruct d; cbn in E; congruence.
Qed.
