(* ===== verification/MLInvariant.v ===== *)
(** * Multi-level exits: the invariant of the manager

    What holds between any two steps of the manager: everything that waits for the
    broker belongs to a live group, and of a group that trades on paper the exits
    of its levels and what is left add up to what was filled.  Most operations are
    frames: they leave the paper groups alone, or only end them. *)

From stdpp Require Import base gmap strings list fin_maps.
From Stdlib Require Import ZArith Lia Bool.
From S2P Require Import Prelude GoFloat FloatRound Price GoStrings Orders OrderRepo.
From S2P Require Import OrderQueries OCOTypes Broker Signals MLTypes MLManager MLPosition.

Open Scope string_scope.
Open Scope list_scope.
Open Scope go_scope.

(** ** What was sold *)

Definition level_exit (reason : string) : bool := one_of reason [MLExitTypeSL; MLExitTypeTP].

(** The quantity a group exits on paper: by its levels ([true]), or by a
    cancellation. *)
Definition exit_qty (by_level : bool) (p : gptr) (e : PaperEvent) : Z :=
  match e with
  | PePartialExit q n _ reason _ => if Nat.eqb q p && Bool.eqb (level_exit reason) by_level then n else 0
  | _ => 0
  end.

Definition exits (by_level : bool) (p : gptr) (l : list PaperEvent) : Z := sumZ (map (exit_qty by_level p) l).

#[global] Arguments exits : simpl never.
#[global] Arguments level_exit : simpl never.

Lemma exits_app b p l l' : exits b p (l ++ l') = (exits b p l + exits b p l')%Z.
Proof. unfold exits. by rewrite map_app, sumZ_app. Qed.

Definition has_eval (p : gptr) (l : list MTask) : bool := existsb (evaluates p) l.

#[global] Arguments has_eval : simpl never.

Section Invariant.

Context {B : Type} {MB : MLBroker B}.
Context (priceLookup : option (string -> Z -> option f64)) (uuid_string : uuid -> string).

Abbreviation M := (MLManager B).

Definition live_at (m : M) (p : gptr) : Prop := exists g, m.(groups) !! p = Some g /\ is_live g = true.

Definition task_ok (m : M) (t : MTask) : Prop :=
  match t with
  | TPersist _ | TEval _ _ | TCancelOrder _ _ _ _ => True
  | TEntryFill _ _ qty => (0 < qty < 2 ^ 29)%Z
  | TPlaceFixedSL p _ | TPlaceTrailingSL p | TPlaceLevel p _ _ | TStoreSingle p _ _
  | TStoreLevel p _ _ _ _ | TReplaceFixed p _ | TReplaceTrailing p _ | TModifyTrail p _ _ _ _
  | TModifyLevel p _ _ _ _ _ _ | TMarketExit p _ _ _ _ | TLevelFilled p _ _ _ | TSingleFilled p _ _ =>
      live_at m p
  end.

Record paper_ok (m : M) (p : gptr) (g : MLGroup.t) : Prop := {
  po_group : group_ok g;
  po_sold : exits true p m.(paperLog) = (g.(MLGroup.TotalQty) - g.(MLGroup.RemainingQty))%Z;
  po_active : g.(MLGroup.State) = GroupStateActive ->
    exits false p m.(paperLog) = 0%Z /\ (g.(MLGroup.entryFilled) = true -> (0 < g.(MLGroup.RemainingQty))%Z);
  po_eval : g.(MLGroup.entryFilled) = true -> has_eval p m.(mtasks) = true -> (0 < g.(MLGroup.RemainingQty))%Z
}.

Record Inv (m : M) : Prop := {
  inv_fresh : forall q, (m.(nextGroup) <= q)%nat -> m.(groups) !! q = None;
  inv_unsold : forall q b, m.(groups) !! q = None -> exits b q m.(paperLog) = 0%Z;
  inv_single : forall id p, m.(singleSLIndex) !! id = Some p -> live_at m p;
  inv_index : forall id p d n, m.(mlLevelIndex) !! id = Some (p, d, n) -> live_at m p;
  inv_tasks : Forall (task_ok m) m.(mtasks);
  inv_eval : forall p, (length (List.filter (evaluates p) m.(mtasks)) <= 1)%nat;
  inv_paper : forall p g, m.(groups) !! p = Some g -> is_live g = false -> paper_ok m p g
}.

(** ** Frames *)

(** A paper group is as it was, or it is not active and nothing else changed. *)
Definition group_frame (m m' : M) (q : gptr) : Prop :=
  match m.(groups) !! q with
  | None => m'.(groups) !! q = None /\ forall b, exits b q m'.(paperLog) = exits b q m.(paperLog)
  | Some g => exists g', m'.(groups) !! q = Some g' /\ g'.(MLGroup.TradingMode) = g.(MLGroup.TradingMode) /\
      (is_live g = false ->
        exits true q m'.(paperLog) = exits true q m.(paperLog) /\
        (g' = g /\ exits false q m'.(paperLog) = exits false q m.(paperLog) \/
         g' = g <| MLGroup.State := g'.(MLGroup.State) |> /\ g'.(MLGroup.State) <> GroupStateActive))
  end.

Record frame (m m' : M) : Prop := {
  fr_next : m'.(nextGroup) = m.(nextGroup);
  fr_groups : forall q, group_frame m m' q;
  fr_single : forall id p, m'.(singleSLIndex) !! id = Some p -> m.(singleSLIndex) !! id = Some p \/ live_at m p;
  fr_index : forall id p d n, m'.(mlLevelIndex) !! id = Some (p, d, n) ->
    m.(mlLevelIndex) !! id = Some (p, d, n) \/ live_at m p;
  fr_tasks : exists l, m'.(mtasks) = m.(mtasks) ++ l /\ Forall (task_ok m) l /\
    forall p, has_eval p l = false
}.

Lemma is_live_mode g g' : g'.(MLGroup.TradingMode) = g.(MLGroup.TradingMode) -> is_live g' = is_live g.
Proof. unfold is_live. by intros ->. Qed.

Lemma frame_live m m' p : frame m m' -> live_at m p -> live_at m' p.
Proof.
  intros Hf (g & Hg & Hl). pose proof (fr_groups _ _ Hf p) as H. unfold group_frame in H. rewrite Hg in H.
  destruct H as (g' & Hg' & Hm & _). exists g'. split; [done|]. by rewrite (is_live_mode _ _ Hm).
Qed.

Lemma frame_live_back m m' p : frame m m' -> live_at m' p -> live_at m p.
Proof.
  intros Hf (g' & Hg' & Hl). pose proof (fr_groups _ _ Hf p) as H. unfold group_frame in H.
  destruct (m.(groups) !! p) as [g|] eqn:E; [|destruct H; congruence].
  destruct H as (g2 & Hg2 & Hm & _). exists g. split; [done|].
  rewrite <- (is_live_mode _ _ Hm). congruence.
Qed.

Lemma task_ok_mono m m' t : (forall p, live_at m p -> live_at m' p) -> task_ok m t -> task_ok m' t.
Proof. intros H. destruct t; cbn; auto. Qed.

#[local] Instance frame_refl : Reflexive frame.
Proof.
  intros m. split; auto.
  - intros q. unfold group_frame. destruct (m.(groups) !! q) as [g|]; [|done]. exists g. auto 6.
  - exists []. by rewrite app_nil_r.
Qed.

Lemma has_eval_app p l l' : has_eval p (l ++ l') = has_eval p l || has_eval p l'.
Proof. unfold has_eval. apply existsb_app. Qed.

#[local] Instance frame_trans : Transitive frame.
Proof.
  intros m1 m2 m3 F1 F2. split.
  - rewrite (fr_next _ _ F2). apply F1.
  - intros q. pose proof (fr_groups _ _ F1 q) as H1. pose proof (fr_groups _ _ F2 q) as H2.
    unfold group_frame in *. destruct (m1.(groups) !! q) as [g1|] eqn:E1.
    + destruct H1 as (g2 & E2 & M2 & P2). rewrite E2 in H2. destruct H2 as (g3 & E3 & M3 & P3).
      exists g3. split; [done|]. split; [congruence|]. intros Hl. destruct (P2 Hl) as [T2 C2].
      destruct (P3 ltac:(by rewrite (is_live_mode _ _ M2))) as [T3 C3]. split; [congruence|].
      destruct C3 as [[-> S3] | [-> S3]]; destruct C2 as [[-> S2] | [-> S2]].
      * left. split; congruence.
      * right. done.
      * right. done.
      * right. done.
    + destruct H1 as [E2 P2]. rewrite E2 in H2. destruct H2 as [E3 P3]. split; [done|]. intros b. by rewrite P3.
  - intros id p H. destruct (fr_single _ _ F2 id p H) as [H'|H']; [|right; by eapply frame_live_back].
    by apply F1.
  - intros id p d n H. destruct (fr_index _ _ F2 id p d n H) as [H'|H']; [|right; by eapply frame_live_back].
    by apply F1.
  - destruct (fr_tasks _ _ F1) as (l1 & E1 & T1 & V1). destruct (fr_tasks _ _ F2) as (l2 & E2 & T2 & V2).
    exists (l1 ++ l2). split; [by rewrite E2, E1, app_assoc|]. split.
    + apply Forall_app. split; [done|]. eapply Forall_impl; [exact T2|]. intros t.
      apply task_ok_mono. intros p. by apply frame_live_back.
    + intros p. by rewrite has_eval_app, V1, V2.
Qed.

Lemma no_eval_filter p l : has_eval p l = false -> List.filter (evaluates p) l = [].
Proof.
  induction l as [|t l IH]; [done|]. unfold has_eval. cbn. intros [-> H]%orb_false_iff. auto.
Qed.

Lemma Inv_frame m m' : Inv m -> frame m m' -> Inv m'.
Proof.
  intros [I1 I2 I3 I4 I5 I6 I7] F. pose proof F as [F1 F2 F3 F4 (l & F5 & F6 & F7)].
  assert (Hup : forall p, live_at m p -> live_at m' p) by (intros p; by apply frame_live).
  split.
  - intros q Hq. rewrite F1 in Hq. specialize (F2 q). unfold group_frame in F2. rewrite (I1 q Hq) in F2. apply F2.
  - intros q b Hq. specialize (F2 q). unfold group_frame in F2. destruct (m.(groups) !! q) eqn:E.
    + destruct F2 as (g' & ? & _). congruence.
    + destruct F2 as [_ ->]. auto.
  - intros id p H. apply Hup. destruct (F3 id p H); eauto.
  - intros id p d n H. apply Hup. destruct (F4 id p d n H); eauto.
  - rewrite F5. apply Forall_app. split; (eapply Forall_impl; [eassumption|]); intros t; by apply task_ok_mono.
  - intros p. rewrite F5, List.filter_app, (no_eval_filter p l (F7 p)), app_nil_r. apply I6.
  - intros p g' Hg' Hl. specialize (F2 p). unfold group_frame in F2.
    destruct (m.(groups) !! p) as [g|] eqn:E; [|destruct F2; congruence].
    destruct F2 as (g2 & E2 & M2 & P2). assert (g2 = g') as -> by congruence.
    assert (Hlg : is_live g = false) by (by rewrite <- (is_live_mode _ _ M2)).
    destruct (P2 Hlg) as [T C]. destruct (I7 p g E Hlg) as [G S A V].
    assert (Hev : has_eval p m'.(mtasks) = has_eval p m.(mtasks)).
    { by rewrite F5, has_eval_app, F7, orb_false_r. }
    destruct C as [[-> C] | [-> C]].
    + split; [done|by rewrite T|by rewrite C|by rewrite Hev].
    + split.
      * destruct G. split; try done.
      * by rewrite T.
      * intros H. by destruct C.
      * rewrite Hev. exact V.
Qed.

(** *** Steps that leave the groups alone *)

Lemma frame_same m m' :
  m'.(nextGroup) = m.(nextGroup) -> m'.(groups) = m.(groups) -> m'.(mtasks) = m.(mtasks) ->
  (forall id p, m'.(singleSLIndex) !! id = Some p -> m.(singleSLIndex) !! id = Some p \/ live_at m p) ->
  (forall id r, m'.(mlLevelIndex) !! id = Some r -> m.(mlLevelIndex) !! id = Some r \/ live_at m r.1.1) ->
  (forall b q, exits b q m'.(paperLog) = exits b q m.(paperLog)) -> frame m m'.
Proof.
  intros H1 H2 H3 H4 H5 H6. split; auto.
  - intros q. unfold group_frame. rewrite H2. destruct (m.(groups) !! q) as [g|]; [exists g|]; auto 8.
  - exists []. by rewrite app_nil_r.
Qed.

Ltac same := apply frame_same; try reflexivity; try (intros; left; assumption).

Lemma frame_spawn m l :
  Forall (task_ok m) l -> (forall p, has_eval p l = false) -> frame m (spawn_all l m).
Proof.
  intros Hl He. split; auto.
  - intros q. unfold group_frame. cbn. destruct (m.(groups) !! q) as [g|]; [exists g|]; auto 8.
  - exists l. done.
Qed.

Lemma frame_spawn1 m t : task_ok m t -> (forall p, evaluates p t = false) -> frame m (spawn_task t m).
Proof.
  intros Ht He. apply (frame_spawn m [t]); [by repeat constructor|]. intros p. unfold has_eval. cbn. by rewrite He.
Qed.

Lemma delete_subset {A} (t : gmap string A) k id p : delete k t !! id = Some p -> t !! id = Some p.
Proof. rewrite lookup_delete_Some. by intros []. Qed.

Lemma frame_drop_single m id : frame m (drop_single id m).
Proof. same. intros k p H. left. exact (delete_subset _ _ _ _ H). Qed.

Lemma frame_drop_level m id : frame m (drop_level id m).
Proof. same. intros k r H. left. exact (delete_subset _ _ _ _ H). Qed.

Lemma frame_log m e : (forall b p, exit_qty b p e = 0%Z) -> frame m (log_paper e m).
Proof. intros H. same. intros b q. cbn. rewrite exits_app. unfold exits at 2. cbn. rewrite H. lia. Qed.

Lemma frame_unsubscribe m g : frame m (unsubscribeGroup g m).
Proof. unfold unsubscribeGroup. destruct (m.(byStock) !! _); cbn; case_match; same. Qed.

Lemma frame_subscribe m p s : frame m (subscribeGroup p s m).
Proof. unfold subscribeGroup. cbn. case_match; same. Qed.

Lemma frame_forget m g : frame m (forget_group g m).
Proof. unfold forget_group. etransitivity; [|apply frame_unsubscribe]. same. Qed.

Lemma frame_finish m p : frame m (finishGroup p m).
Proof.
  unfold finishGroup. destruct (m.(groups) !! p) as [g|]; [|done].
  assert (H : frame m (unsubscribeGroup g (m <| groupsByEntry := delete g.(MLGroup.EntryOrderID) m.(groupsByEntry) |>))).
  { etransitivity; [|apply frame_unsubscribe]. same. }
  case_match; [done|]. etransitivity; [exact H|apply frame_drop_single].
Qed.

Lemma frame_place m o a : frame m (broker_place o a m).2.
Proof. unfold broker_place. destruct (mlPlace o a m.(mbroker)). same. Qed.

Lemma frame_modify m o a : frame m (broker_modify o a m).2.
Proof. unfold broker_modify. destruct (mlModify o a m.(mbroker)). same. Qed.

Lemma frame_cancel m e i s a : frame m (broker_cancel e i s a m).2.
Proof. unfold broker_cancel. destruct (mlCancel e i s a m.(mbroker)). same. Qed.

Lemma frame_level_status m now e k n s x : frame m (set_level_status now e k n s x m).
Proof. same. Qed.

Lemma frame_filled_qty m now e q : frame m (UpdatePaperPositionFilledQty now e q m).
Proof. same. Qed.

(** A cancellation sells what is left of a group that is no longer active. *)
Lemma frame_sell_rest m now p g0 g qty price reason n :
  m.(groups) !! p = Some g -> g.(MLGroup.State) <> GroupStateActive -> level_exit reason = false ->
  frame m (recordPaperPartialExit uuid_string now p g0 qty price reason n m).
Proof.
  intros Hg Hst Hr. unfold recordPaperPartialExit. destruct (qty <=? 0)%Z; [done|].
  split; auto.
  - intros q. unfold group_frame. cbn.
    assert (Hx : forall b, exits b q (m.(paperLog) ++ [PePartialExit p qty price reason n]) =
              (exits b q m.(paperLog) + if Nat.eqb p q && negb b then qty else 0)%Z).
    { intros b. rewrite exits_app. unfold exits at 2. cbn. rewrite Hr. destruct b, (Nat.eqb p q); cbn; lia. }
    destruct (decide (p = q)) as [Hpq | Hne]; [subst q; rewrite Nat.eqb_refl in Hx|].
    + rewrite Hg. exists g. split; [done|]. split; [done|]. intros _. rewrite !Hx. cbn. split; [lia|].
      right. by destruct g.
    + assert (Hx' : forall b, exits b q (m.(paperLog) ++ [PePartialExit p qty price reason n]) = exits b q m.(paperLog)).
      { intros b. rewrite Hx, (proj2 (Nat.eqb_neq p q) Hne). cbn. lia. }
      destruct (m.(groups) !! q) as [g'|]; [|auto]. exists g'. rewrite !Hx'. auto 8.
  - exists []. by rewrite app_nil_r.
Qed.

(** *** Steps on one group *)

Lemma frame_upd m p f :
  (forall g, m.(groups) !! p = Some g ->
     (f g).(MLGroup.TradingMode) = g.(MLGroup.TradingMode) /\
     (is_live g = false ->
        f g = g \/ f g = g <| MLGroup.State := (f g).(MLGroup.State) |> /\ (f g).(MLGroup.State) <> GroupStateActive)) ->
  frame m (upd p f m).
Proof.
  intros Hf. split; auto.
  - intros q. unfold group_frame, upd. cbn. destruct (decide (q = p)) as [-> | Hne].
    + rewrite lookup_alter_eq. destruct (m.(groups) !! p) as [g|] eqn:E; cbn; [|auto].
      exists (f g). destruct (Hf g eq_refl) as [H1 H2]. split; [done|]. split; [done|]. intros Hl.
      split; [done|]. destruct (H2 Hl); auto.
    + rewrite lookup_alter_ne by done. destruct (m.(groups) !! q) as [g|]; [exists g|]; auto 8.
  - exists []. by rewrite app_nil_r.
Qed.

Lemma frame_upd_live m p f :
  live_at m p -> (forall g, (f g).(MLGroup.TradingMode) = g.(MLGroup.TradingMode)) -> frame m (upd p f m).
Proof. intros (g & Hg & Hl) Hf. apply frame_upd. intros g' Hg'. split; [done|]. congruence. Qed.

Lemma frame_upd_cancel m p : frame m (upd p (fun g => g <| MLGroup.State := GroupStateCancelled |>) m).
Proof. apply frame_upd. intros g _. split; [done|]. intros _. by right. Qed.

(** On paper there is no stop-loss at the broker to forget. *)
Lemma frame_upd_single m p :
  Inv m -> frame m (upd p (fun g => g <| MLGroup.SingleSLBrokerID := "" |>) m).
Proof.
  intros HI. apply frame_upd. intros g Hg. split; [done|]. intros Hl. left.
  destruct (inv_paper _ HI p g Hg Hl) as [[Hs _ _ _ _] _ _ _]. destruct g. cbn in *. by subst.
Qed.

(** *** Operations on live groups *)

Lemma frame_foldl {A} (f : M -> A -> M) l m :
  (forall m x, frame m (f m x)) -> frame m (foldl f m l).
Proof.
  intros Hf. revert m. induction l as [|x l IH]; intros m; [done|]. cbn. etransitivity; [apply Hf|apply IH].
Qed.

Lemma frame_drop_and_cancel g a m id : frame m (drop_and_cancel g a m id).
Proof.
  unfold drop_and_cancel. etransitivity; [apply frame_drop_level|]. by apply frame_spawn1.
Qed.

Lemma set_levels_mode d l g : (set_levels d l g).(MLGroup.TradingMode) = g.(MLGroup.TradingMode).
Proof. by destruct d. Qed.

Lemma alter_level_mode d i f g : (alter_level d i f g).(MLGroup.TradingMode) = g.(MLGroup.TradingMode).
Proof. by destruct d. Qed.

#[local] Hint Resolve set_levels_mode alter_level_mode : core.

Lemma frame_cancelRemaining m p d a : live_at m p -> frame m (cancelRemainingMLOrders p d a m).
Proof.
  intros Hp. unfold cancelRemainingMLOrders. destruct (m.(groups) !! p) as [g|]; [|done].
  etransitivity; [apply (frame_upd_live _ p (set_levels d (map cancel_level (levels_of d g)))); auto|].
  apply frame_foldl. intros. apply frame_drop_and_cancel.
Qed.

Lemma frame_rebalance m p d r a : live_at m p -> frame m (rebalanceAndModifyLevels p d r a m).
Proof.
  intros Hp. unfold rebalanceAndModifyLevels. destruct (m.(groups) !! p) as [g|]; [|done].
  destruct (rebalanced _ _ _) as [ls ch].
  assert (H : frame m (upd p (set_levels d ls) m)) by (apply frame_upd_live; auto).
  etransitivity; [exact H|]. apply frame_spawn.
  - apply Forall_map, Forall_true. intros l. cbn. by eapply frame_live.
  - intros q. by induction ch.
Qed.

Lemma frame_single_stop now m p g q t b : live_at m p -> frame m (placeSingleSL now p g q t b m).
Proof.
  intros Hp. unfold placeSingleSL. destruct (new_id m) as [id m1] eqn:E1.
  assert (F1 : frame m m1) by (injection E1 as <- <-; same).
  set (o := buildExitOrder _ _ _ _ _ _ _). pose proof (frame_place m1 o g.(MLGroup.Auth)) as F2.
  destruct (broker_place o g.(MLGroup.Auth) m1) as [r m2]. cbn in F2.
  destruct r; [|by etransitivity]. etransitivity; [exact F1|]. etransitivity; [exact F2|].
  apply frame_spawn1; [|done]. cbn. eapply frame_live; [exact F2|]. by eapply frame_live.
Qed.

Lemma frame_replace now m p r t b : live_at m p -> frame m (replaceSL now p r t b m).
Proof.
  intros Hp. unfold replaceSL. destruct (m.(groups) !! p) as [g|]; [|done].
  destruct (_ || _); [done|].
  pose proof (frame_drop_single m g.(MLGroup.SingleSLBrokerID)) as F1.
  pose proof (frame_cancel (drop_single g.(MLGroup.SingleSLBrokerID) m) g.(MLGroup.Exchange)
    g.(MLGroup.SingleSLBrokerID) g.(MLGroup.Symbol) g.(MLGroup.Auth)) as F2.
  destruct (broker_cancel _ _ _ _ _) as [ok m2]. cbn in F2.
  etransitivity; [exact F1|]. etransitivity; [exact F2|]. apply frame_single_stop.
  eapply frame_live; [exact F2|]. by eapply frame_live.
Qed.

Lemma live_group m p g : live_at m p -> m.(groups) !! p = Some g -> is_live g = true.
Proof. intros (g' & ? & ?) ?. congruence. Qed.

(** A fill of a level. *)
Lemma frame_levelFilled now m p d n x : live_at m p -> frame m (onMultiLevelFilled now p d n x m).
Proof.
  intros Hp. unfold onMultiLevelFilled. destruct (m.(groups) !! p) as [g|]; [|done].
  destruct (list_find _ _) as [[i l]|]; [|done]. destruct (tryMarkTriggered _ _ _) as [l'|]; [|done].
  cbv zeta. set (m1 := upd p (decrement l.(Level.ExitQty) ∘ alter_level d i (fun _ => l')) m).
  assert (F1 : frame m m1) by (apply frame_upd_live; [done|intros g'; by destruct d]).
  set (m3 := set_level_status _ _ _ _ _ _ _).
  assert (F3 : frame m m3).
  { etransitivity; [exact F1|]. etransitivity; [apply frame_drop_level|apply frame_level_status]. }
  clearbody m3. clear m1 F1. destruct (_ <=? 0)%Z.
  - set (m5 := cancelRemainingMLOrders p (other d) _ _).
    assert (F5 : frame m m5).
    { etransitivity; [exact F3|]. etransitivity; [apply (frame_cancelRemaining _ p d g.(MLGroup.Auth));
        by eapply frame_live|]. apply frame_cancelRemaining. eapply frame_live; [|eapply frame_live; eassumption].
      apply frame_cancelRemaining. by eapply frame_live. }
    clearbody m5. set (m6 := upd p _ m5).
    assert (F6 : frame m m6) by (etransitivity; [exact F5|apply frame_upd_live; [by eapply frame_live|done]]).
    clearbody m6. etransitivity; [exact F6|]. etransitivity; [|apply frame_finish].
    case_match; [done|]. etransitivity; [apply frame_drop_single|]. by apply frame_spawn1.
  - etransitivity; [exact F3|]. etransitivity; [apply (frame_rebalance _ p d (int32 (MLGroup.RemainingQty g -
      Level.ExitQty l)) g.(MLGroup.Auth)); by eapply frame_live|].
    apply frame_rebalance. eapply frame_live; [|eapply frame_live; eassumption].
    apply frame_rebalance. by eapply frame_live.
Qed.

Lemma frame_singleFilled now m p x q : live_at m p -> frame m (onSingleSLFilled now p x q m).
Proof.
  intros Hp. unfold onSingleSLFilled. destruct (m.(groups) !! p) as [g|]; [|done]. cbv zeta.
  match goal with |- context [upd p ?f m] => set (m1 := upd p f m) end.
  assert (F1 : frame m m1) by (by apply frame_upd_live).
  match goal with |- context [if ?b then ?t else m1] => set (m2 := if b then t else m1) end.
  assert (F2 : frame m m2).
  { etransitivity; [exact F1|]. unfold m2. case_match; [|done]. apply frame_foldl.
    intros. apply frame_drop_and_cancel. }
  clearbody m2. set (m3 := set_level_status _ _ _ _ _ _ _).
  assert (F3 : frame m m3).
  { etransitivity; [exact F2|]. etransitivity; [|apply frame_level_status].
    apply frame_foldl. intros. apply frame_level_status. }
  clearbody m3. match goal with |- context [if ?b then ?t else m3] => set (m4 := if b then t else m3) end.
  assert (F4 : frame m m4).
  { etransitivity; [exact F3|]. unfold m4. case_match; [apply frame_finish|done]. }
  clearbody m4. etransitivity; [exact F4|]. unfold log_if. case_match; [|done]. by apply frame_log.
Qed.

(** *** Cancelling *)

Lemma frame_foldl_inv {A} (f : M -> A -> M) l m :
  (forall m x, Inv m -> frame m (f m x)) -> Inv m -> frame m (foldl f m l).
Proof.
  intros Hf. revert m. induction l as [|x l IH]; intros m HI; [done|]. cbn.
  pose proof (Hf m x HI) as F. etransitivity; [exact F|]. apply IH. by eapply Inv_frame.
Qed.

Lemma frame_on_groups sel f m :
  (forall p g m, m.(groups) !! p = Some g -> sel g = true -> Inv m -> frame m (f p m)) -> Inv m ->
  frame m (on_groups sel f m).
Proof.
  intros Hf. unfold on_groups. apply frame_foldl_inv. intros m' [k p] HI. cbn.
  destruct (m'.(groups) !! p) as [g|] eqn:E; [|done]. destruct (sel g) eqn:Es; [|done]. by eapply Hf.
Qed.

Lemma frame_cancelGroup m p : frame m (cancelGroupInternal p m).
Proof.
  unfold cancelGroupInternal. destruct (m.(groups) !! p) as [g|] eqn:Hg; [|done].
  destruct (negb (is_active_group g)); [done|]. cbv zeta.
  match goal with |- context [finishGroup p ?x] => set (m1 := finishGroup p x) end.
  assert (F1 : frame m m1) by (etransitivity; [apply frame_upd_cancel|apply frame_finish]). clearbody m1.
  destruct (is_live g) eqn:El; [|done]. destruct (bool_decide _); [|done].
  assert (Hp : live_at m p) by (by exists g). cbn [andb].
  match goal with |- context [if _ =?s _ then m1 else ?t] => set (m2 := t) end.
  assert (F2 : frame m (if MLGroup.SingleSLBrokerID g =?s "" then m1 else m2)).
  { case_match; [done|]. etransitivity; [exact F1|]. by apply frame_spawn1. }
  etransitivity; [exact F2|].
  etransitivity; [apply (frame_cancelRemaining _ p SL g.(MLGroup.Auth)); by eapply frame_live|].
  apply frame_cancelRemaining. eapply frame_live; [|eapply frame_live; [exact F2|exact Hp]].
  apply frame_cancelRemaining. by eapply frame_live.
Qed.

Lemma frame_cancelTP_live now m p il : live_at m p -> frame m (cancelTPOrder now p m il).
Proof.
  intros Hp. unfold cancelTPOrder. destruct (m.(groups) !! p) as [g|]; [|done]. destruct il as [i l].
  destruct (_ || _); [done|].
  pose proof (frame_cancel m g.(MLGroup.Exchange) l.(Level.BrokerOrderID) g.(MLGroup.Symbol)
    g.(MLGroup.Auth)) as F1.
  destruct (broker_cancel _ _ _ _ _) as [ok m1]. cbn in F1. destruct ok; [|done].
  etransitivity; [exact F1|]. etransitivity; [|apply frame_level_status].
  etransitivity; [|apply frame_drop_level]. apply frame_upd_live; [by eapply frame_live|].
  intros g'. by rewrite alter_level_mode.
Qed.

Lemma frame_cancelTPs now m p g :
  Inv m -> m.(groups) !! p = Some g -> frame m (foldl (cancelTPOrder now p) m (imap pair g.(MLGroup.TPLevels))).
Proof.
  intros HI Hg. destruct (is_live g) eqn:El.
  - assert (Hp : live_at m p) by (by exists g). generalize (imap pair g.(MLGroup.TPLevels)). intros l. revert m Hp HI Hg.
    induction l as [|il l IH]; intros m Hp HI Hg; [done|]. cbn.
    pose proof (frame_cancelTP_live now m p il Hp) as F. etransitivity; [exact F|].
    enough (H : forall m, live_at m p -> frame m (foldl (cancelTPOrder now p) m l)) by (apply H; by eapply frame_live).
    clear. induction l as [|il l IH]; intros m Hp; [done|]. cbn.
    pose proof (frame_cancelTP_live now m p il Hp) as F. etransitivity; [exact F|]. apply IH. by eapply frame_live.
  - destruct (inv_paper _ HI p g Hg El) as [[_ _ Hsd _ _] _ _ _]. destruct (Hsd TP) as [_ _ _ Hb]. cbn in Hb.
    enough (H : forall l, Forall (fun il : nat * Level.t => il.2.(Level.BrokerOrderID) = "") l ->
              foldl (cancelTPOrder now p) m l = m).
    { rewrite H; [done|]. clear -Hb. apply Forall_lookup. intros i [j l] Hl.
      rewrite list_lookup_imap in Hl. destruct (MLGroup.TPLevels g !! i) eqn:E; [|done].
      injection Hl as <- <-. cbn. exact (proj1 (Forall_lookup _ _) Hb i _ E). }
    induction 1 as [|[i l] ls H Hls IH]; [done|]. cbn [foldl]. cbn in H.
    assert (cancelTPOrder now p m (i, l) = m) as ->; [|done].
    unfold cancelTPOrder. rewrite Hg, H. by rewrite orb_true_r.
Qed.

(** A paper group that a frame takes over from a group that is not active. *)
Lemma frame_inactive m m' p g :
  frame m m' -> m.(groups) !! p = Some g -> is_live g = false -> g.(MLGroup.State) <> GroupStateActive ->
  exists g', m'.(groups) !! p = Some g' /\ g'.(MLGroup.State) <> GroupStateActive.
Proof.
  intros F Hg Hl Hs. pose proof (fr_groups _ _ F p) as H. unfold group_frame in H. rewrite Hg in H.
  destruct H as (g' & Hg' & _ & H). exists g'. split; [done|]. destruct (H Hl) as [_ [[-> _] | [_ ?]]]; done.
Qed.

Lemma paper_not_live g : is_paper g = true -> is_live g = false.
Proof. unfold is_paper, is_live. intros H%String.eqb_eq. by rewrite H. Qed.

Lemma frame_exit_remaining now m m' p g price reason :
  m.(groups) !! p = Some g -> frame (upd p (fun g => g <| MLGroup.State := GroupStateCancelled |>) m) m' ->
  is_paper g = true -> level_exit reason = false ->
  frame m' (exit_remaining uuid_string now p g price reason m').
Proof.
  intros Hg F Hp Hr. unfold exit_remaining. etransitivity; [|apply frame_filled_qty].
  destruct (frame_inactive _ _ p (g <| MLGroup.State := GroupStateCancelled |>) F) as (g' & Hg' & Hs).
  - cbn. rewrite lookup_alter_eq, Hg. done.
  - by apply paper_not_live.
  - done.
  - by eapply frame_sell_rest.
Qed.

Lemma frame_cancelForExit now m id price reason :
  Inv m -> level_exit reason = false -> frame m (CancelGroupForExit uuid_string now id price reason m).
Proof.
  intros HI Hr. unfold CancelGroupForExit. destruct (m.(groupsByEntry) !! id) as [p|]; [|done].
  destruct (m.(groups) !! p) as [g|] eqn:Hg; [|done]. destruct (negb (is_active_group g)); [done|]. cbv zeta.
  set (m1 := upd p (fun g => g <| MLGroup.State := GroupStateCancelled |>) m).
  pose proof (frame_upd_cancel m p : frame m m1) as F1. pose proof (Inv_frame _ _ HI F1) as I1.
  assert (Hg1 : m1.(groups) !! p = Some (g <| MLGroup.State := GroupStateCancelled |>)).
  { cbn. by rewrite lookup_alter_eq, Hg. }
  pose proof (frame_cancelTPs now m1 p _ I1 Hg1) as F2. cbn [MLGroup.TPLevels] in F2.
  set (m2 := foldl (cancelTPOrder now p) m1 (imap pair g.(MLGroup.TPLevels))) in *.
  pose proof (Inv_frame _ _ I1 F2) as I2.
  assert (F3 : frame m2 (cancelSLOrder p m2)).
  { unfold cancelSLOrder. destruct (m2.(groups) !! p) as [g2|]; [|done]. cbv zeta.
    case_match; [by apply frame_upd_single|]. etransitivity; [by apply frame_upd_single|apply frame_cancel]. }
  set (m3 := cancelSLOrder p m2) in *. clearbody m3.
  assert (F13 : frame m1 m3) by (by etransitivity).
  match goal with |- context [if ?b then ?t else m3] => set (m4 := if b then t else m3) end.
  assert (F4 : frame m3 m4).
  { unfold m4. case_match; [|done]. apply (frame_exit_remaining now m m3 p g); auto.
    by repeat match goal with H : _ && _ = true |- _ => apply andb_true_iff in H as [H ?] end. }
  etransitivity; [exact F1|]. etransitivity; [exact F13|]. etransitivity; [exact F4|].
  etransitivity; [|apply frame_drop_single]. etransitivity; [|apply frame_forget]. same.
Qed.

Lemma frame_cancel_for_strategy now p g m :
  m.(groups) !! p = Some g -> frame m (cancel_for_strategy priceLookup uuid_string now p m).
Proof.
  intros Hg. unfold cancel_for_strategy. rewrite Hg. cbv zeta.
  match goal with |- context [forget_group g ?x] => set (m2 := x) end.
  etransitivity; [|apply frame_forget]. etransitivity; [apply (frame_upd_cancel m p)|].
  unfold m2. destruct (match priceLookup with Some _ => _ | None => _ end) as [ltp|]; [|done].
  case_match; [|done]. apply (frame_exit_remaining now m _ p g); [done|reflexivity| |reflexivity].
  by repeat match goal with H : _ && _ = true |- _ => apply andb_true_iff in H as [H ?] end.
Qed.

(** *** The other events *)

Lemma frame_brokerUpdate m o s :
  Inv m -> (o.(Order.FilledQuantity) < 2 ^ 29)%Z -> frame m (HandleBrokerUpdate o s m).
Proof.
  intros HI Hq. unfold HandleBrokerUpdate. cbv zeta.
  assert (H2 : frame m (match ml_isFilledStatus s, o.(Order.IndiraOrderID) with
      | true, Some id =>
          match m.(mlLevelIndex) !! id with
          | Some (p, d, n) => spawn_task (TLevelFilled p d n o.(Order.FilledPrice)) m
          | None =>
              match m.(singleSLIndex) !! id with
              | Some p => spawn_task (TSingleFilled p o.(Order.FilledPrice) o.(Order.FilledQuantity)) m
              | None => m
              end
          end
      | _, _ => m
      end)).
  { destruct (ml_isFilledStatus s); [|done]. destruct (Order.IndiraOrderID o) as [id|]; [|done].
    destruct (m.(mlLevelIndex) !! id) as [[[p d] n]|] eqn:E.
    - apply frame_spawn1; [|done]. by eapply (inv_index _ HI).
    - destruct (m.(singleSLIndex) !! id) as [p|] eqn:E2; [|done]. apply frame_spawn1; [|done].
      by eapply (inv_single _ HI). }
  destruct (_ && _ && _) eqn:E; [|exact H2]. destruct (Order.FilledPrice o); [|exact H2].
  apply frame_spawn1; [|done]. cbn. apply andb_true_iff in E as [_ E%Z.ltb_lt]. lia.
Qed.

Lemma frame_price m key ltp : frame m (OnPriceUpdate key ltp m).
Proof.
  unfold OnPriceUpdate. cbv zeta. destruct (_ <=? 0)%Z; [done|]. apply frame_foldl. intros m' p. unfold push_job.
  case_match; [|done]. same.
Qed.

Lemma filter_delete_le {A} (f : A -> bool) (l : list A) i :
  (length (List.filter f (delete i l)) <= length (List.filter f l))%nat.
Proof.
  revert i. induction l as [|t l IH]; intros [|i]; try done.
  - change (delete 0%nat (t :: l)) with l. cbn. destruct (f t); cbn; lia.
  - change (delete (S i) (t :: l)) with (t :: delete i l). specialize (IH i). cbn. destruct (f t); cbn; lia.
Qed.

Lemma in_delete {A} (l : list A) i x : In x (delete i l) -> In x l.
Proof.
  revert i. induction l as [|t l IH]; intros [|i]; [done|done|by right|].
  intros [-> | H]; [by left|right]. by eapply IH.
Qed.

Lemma Inv_tasks_delete m i : Inv m -> Inv (m <| mtasks := delete i m.(mtasks) |>).
Proof.
  intros [I1 I2 I3 I4 I5 I6 I7]. split; try done.
  - by apply Forall_delete.
  - intros p. cbn. etransitivity; [apply filter_delete_le|apply (I6 p)].
  - intros p g Hg Hl. destruct (I7 p g Hg Hl) as [P1 P2 P3 P4]. split; try done. intros Hf He. apply P4; [done|].
    apply existsb_exists in He as (t & Ht & Hv). apply existsb_exists. exists t. split; [|done].
    exact (in_delete _ _ _ Ht).
Qed.

Lemma Inv_worker m : Inv m -> Inv (runEvalJob m).
Proof.
  intros HI. unfold runEvalJob. destruct m.(evalCh) as [|[p ltp] jobs]; [done|]. cbv zeta.
  set (m1 := m <| evalCh := jobs |>).
  assert (I1 : Inv m1) by (eapply Inv_frame; [exact HI|same]). clearbody m1. clear HI m.
  destruct (m1.(groups) !! p) as [g|] eqn:Hg; [|done]. destruct (tryClaimEvaluation p m1) eqn:Ec; [|done].
  destruct (is_active_group g) eqn:Ea; [|done]. cbn [andb]. unfold tryClaimEvaluation in Ec.
  apply negb_true_iff in Ec. destruct I1 as [I1 I2 I3 I4 I5 I6 I7]. split; try done.
  - cbn. apply Forall_app. split; [done|]. by repeat constructor.
  - intros q. cbn. rewrite List.filter_app, length_app. cbn. destruct (Nat.eqb_spec p q) as [Hpq | Hne]; cbn.
    + subst q. rewrite (no_eval_filter p _ Ec). cbn. lia.
    + specialize (I6 q). lia.
  - intros q g' Hg' Hl. destruct (I7 q g' Hg' Hl) as [P1 P2 P3 P4]. split; try done. intros Hf He.
    cbn in He. rewrite has_eval_app in He. apply orb_true_iff in He as [He | He]; [by apply P4|].
    unfold has_eval in He. cbn in He. rewrite orb_false_r in He. apply Nat.eqb_eq in He as ->.
    apply P3; [|done]. assert (g' = g) as -> by (cbn in Hg'; congruence). by apply bool_decide_eq_true in Ea.
Qed.

Lemma Inv_register m entry sm tm sl tp f t a :
  Inv m -> good_configs sl -> good_configs tp -> Inv (RegisterEntry entry sm tm sl tp f t a m).
Proof.
  intros [I1 I2 I3 I4 I5 I6 I7] Hsl Htp. unfold RegisterEntry. cbn.
  match goal with |- context [<[nextGroup m := ?x]> (groups m)] => set (g := x) end.
  assert (Hlive : forall (m' : M) p, m'.(groups) = <[m.(nextGroup) := g]> m.(groups) -> live_at m p -> live_at m' p).
  { intros m' p Hm' Hp. destruct Hp as (g' & Hg' & Hl). exists g'. split; [|done]. rewrite Hm', lookup_insert_ne; [done|].
    intros Hpn. by rewrite I1 in Hg' by lia. }
  split.
  - cbn. intros q Hq. rewrite lookup_insert_ne by lia. apply I1. lia.
  - cbn. intros q b. rewrite lookup_insert_None. intros [H _]. auto.
  - cbn. intros id p H. eapply Hlive; [reflexivity|eauto].
  - cbn. intros id p d n H. eapply Hlive; [reflexivity|eauto].
  - cbn. eapply Forall_impl; [exact I5|]. intros x. apply task_ok_mono. intros p. by apply Hlive.
  - exact I6.
  - cbn. intros p g'. rewrite lookup_insert_Some. intros [[<- <-] | [Hne Hg']] Hl; [|].
    + assert (Hz : forall b, exits b m.(nextGroup) m.(paperLog) = 0%Z) by (intros b; apply I2, I1; lia).
      split; [|exact (Hz true)|intros _; split; [exact (Hz false)|done]|done].
      split; [done|by intros []|intros []; apply side_ok_nil|done|]. intros _. split; [done|by intros []].
    + by destruct (I7 p g' Hg' Hl) as [P1 P2 P3 P4].
Qed.

Lemma Inv_paper_update m m' p g g' :
  Inv m -> m.(groups) !! p = Some g -> is_live g = false ->
  g'.(MLGroup.TradingMode) = g.(MLGroup.TradingMode) ->
  m'.(nextGroup) = m.(nextGroup) -> m'.(groups) = <[p := g']> m.(groups) ->
  (forall id q, m'.(singleSLIndex) !! id = Some q -> m.(singleSLIndex) !! id = Some q) ->
  (forall id r, m'.(mlLevelIndex) !! id = Some r -> m.(mlLevelIndex) !! id = Some r) ->
  (exists l, m'.(mtasks) = m.(mtasks) ++ l /\ Forall (task_ok m) l /\ forall q, has_eval q l = false) ->
  (forall b q, q <> p -> exits b q m'.(paperLog) = exits b q m.(paperLog)) ->
  paper_ok m' p g' -> Inv m'.
Proof.
  intros [I1 I2 I3 I4 I5 I6 I7] Hg Hl Hm Hn HG Hs Hi (l & Ht & Hok & Hev) He Hp.
  assert (Hup : forall q, live_at m q -> live_at m' q).
  { intros q (h & Hh & Hlh). exists h. split; [|done]. rewrite HG, lookup_insert_ne; [done|]. intros ->. congruence. }
  split.
  - intros q Hq. rewrite Hn in Hq. specialize (I1 q Hq). rewrite HG, lookup_insert_ne; [done|]. intros ->. congruence.
  - intros q b. rewrite HG, lookup_insert_None. intros [H H']. rewrite He by congruence. auto.
  - eauto.
  - intros id q d n H. apply Hup. eapply (I4 id). by apply Hi.
  - rewrite Ht. apply Forall_app. split; (eapply Forall_impl; [eassumption|]); intros x; by apply task_ok_mono.
  - intros q. by rewrite Ht, List.filter_app, (no_eval_filter q l (Hev q)), app_nil_r.
  - intros q h. rewrite HG, lookup_insert_Some. intros [[<- <-] | [Hne Hh]] Hlh; [done|].
    destruct (I7 q h Hh Hlh) as [P1 P2 P3 P4]. split; try done.
    + by rewrite He.
    + by rewrite He.
    + by rewrite Ht, has_eval_app, Hev, orb_false_r.
Qed.

Lemma live_tasks_ok m p qty g : live_at m p -> Forall (task_ok m) (live_tasks p qty g).
Proof.
  intros Hp. unfold live_tasks. destruct (is_live g); [|constructor]. apply Forall_app. split.
  - repeat case_match; repeat constructor; try done. apply Forall_map, Forall_true. done.
  - case_match; [|constructor]. apply Forall_map, Forall_true. done.
Qed.

Lemma live_tasks_no_eval p qty g q : has_eval q (live_tasks p qty g) = false.
Proof.
  assert (H : forall d l, has_eval q (map (TPlaceLevel p d) l) = false) by (intros d l; by induction l).
  unfold live_tasks. destruct (is_live g); [|done]. rewrite has_eval_app.
  repeat case_match; by rewrite ?H.
Qed.

Lemma filled_group_mode price qty sl tp id g :
  (filled_group price qty sl tp id g).(MLGroup.TradingMode) = g.(MLGroup.TradingMode).
Proof. done. Qed.

Lemma Inv_fill m id price qty sl tp :
  Inv m -> good_configs sl -> good_configs tp -> (0 < qty < 2 ^ 29)%Z ->
  Inv (OnEntryFill id price qty sl tp m).
Proof.
  intros HI Hsl Htp Hq. unfold OnEntryFill. destruct (m.(groupsByEntry) !! id) as [p|]; [|done].
  destruct (m.(groups) !! p) as [g|] eqn:Hg; [|done]. destruct (MLGroup.entryFilled g) eqn:Ef; [done|].
  cbv zeta. set (g' := filled_group price qty sl tp m.(nextID) g).
  eapply Inv_frame; [|apply frame_subscribe].
  match goal with |- context [spawn_all _ ?x] => set (m1 := x) end.
  destruct (is_live g) eqn:El.
  - assert (Hp : live_at m p) by (by exists g).
    assert (F1 : frame m m1).
    { transitivity (upd p (fun _ => g') m); [|same].
      apply frame_upd. intros h Hh. assert (h = g) as -> by congruence. by rewrite El. }
    eapply Inv_frame; [exact HI|]. etransitivity; [exact F1|]. apply frame_spawn.
    + constructor; [done|]. apply live_tasks_ok. by eapply frame_live.
    + intros q. apply (live_tasks_no_eval p qty g').
  - destruct (inv_paper _ HI p g Hg El) as [P1 P2 P3 P4].
    assert (Hz : MLGroup.TotalQty g = 0%Z) by (by apply (go_unfilled g P1)).
    pose proof (go_range g P1) as [Hr _]. rewrite Hz in *.
    assert (Hlt : live_tasks p qty g' = []) by (unfold live_tasks; by rewrite (is_live_mode g g'), El).
    assert (Hg' : group_ok g') by (by apply filled_group_ok).
    eapply (Inv_paper_update m _ p g g'); try done.
    + cbn. apply map_eq. intros q. destruct (decide (q = p)) as [-> | Hne].
      * by rewrite lookup_alter_eq, lookup_insert_eq, Hg.
      * by rewrite lookup_alter_ne, lookup_insert_ne.
    + exists [TPersist p]. split; [cbn -[live_tasks]; by rewrite Hlt|]. split; [by repeat constructor|done].
    + split; [done| | |].
      * change (exits true p (paperLog m) = (qty - qty)%Z). rewrite P2. lia.
      * intros Ha. split; [by apply P3|]. intros _. change (0 < qty)%Z. lia.
      * intros _ _. change (0 < qty)%Z. lia.
Qed.

(** *** A paper exit *)

Record effect (G : gmap gptr MLGroup.t) (x : bool -> gptr -> Z) (m m' : M) : Prop := {
  ef_next : m'.(nextGroup) = m.(nextGroup);
  ef_groups : m'.(groups) = G;
  ef_tasks : m'.(mtasks) = m.(mtasks);
  ef_single : forall id q, m'.(singleSLIndex) !! id = Some q -> m.(singleSLIndex) !! id = Some q;
  ef_index : forall id r, m'.(mlLevelIndex) !! id = Some r -> m.(mlLevelIndex) !! id = Some r;
  ef_exits : forall b q, exits b q m'.(paperLog) = (exits b q m.(paperLog) + x b q)%Z
}.

Abbreviation quiet m m' := (effect (groups m) (fun _ _ => 0%Z) m m').

Lemma effect_trans G G' x x' m1 m2 m3 :
  effect G x m1 m2 -> effect G' x' m2 m3 -> effect G' (fun b q => x b q + x' b q)%Z m1 m3.
Proof.
  intros [A1 A2 A3 A4 A5 A6] [B1 B2 B3 B4 B5 B6]. split; try congruence; eauto.
  intros b q. rewrite B6, A6. lia.
Qed.

Lemma effect_quiet G x m1 m2 m3 : effect G x m1 m2 -> quiet m2 m3 -> effect G x m1 m3.
Proof.
  intros [A1 A2 A3 A4 A5 A6] [B1 B2 B3 B4 B5 B6]. split; try congruence; eauto.
  intros b q. rewrite B6, A6. lia.
Qed.

Ltac quiet_step := split; try reflexivity; auto; intros; symmetry; apply Z.add_0_r.

Lemma quiet_refl m : quiet m m.
Proof. quiet_step. Qed.

Lemma quiet_log m e : (forall b q, exit_qty b q e = 0%Z) -> quiet m (log_paper e m).
Proof.
  intros H. split; try reflexivity; auto. intros b q. cbn. rewrite exits_app. unfold exits at 2. cbn. rewrite H. lia.
Qed.

Lemma quiet_finish m p : quiet m (finishGroup p m).
Proof.
  unfold finishGroup. destruct (m.(groups) !! p) as [g|]; [|apply quiet_refl].
  set (m1 := m <| groupsByEntry := _ |>).
  assert (Q : quiet m (unsubscribeGroup g m1)).
  { unfold unsubscribeGroup, m1. destruct (byStock _ !! _); cbn; case_match; quiet_step. }
  case_match; [done|]. eapply effect_quiet; [exact Q|]. split; try reflexivity; auto.
  - intros id q H'. exact (delete_subset _ _ _ _ H').
  - intros; symmetry; apply Z.add_0_r.
Qed.

Lemma quiet_finishPaper m p x : quiet m (finishGroupPaper p x m).
Proof.
  unfold finishGroupPaper. cbv zeta. pose proof (quiet_finish m p) as Q.
  destruct (groups (finishGroup p m) !! p) as [g|]; [|done]. destruct (foldl _ _ _) as [v q].
  eapply effect_quiet; [exact Q|]. by apply quiet_log.
Qed.

Lemma effect_partial_exit now m p g qty price d n :
  (0 <= qty)%Z ->
  effect m.(groups) (fun b q => if b && Nat.eqb p q then qty else 0%Z) m
    (recordPaperPartialExit uuid_string now p g qty price (exitType d) n m).
Proof.
  intros Hq. unfold recordPaperPartialExit. destruct (Z.leb_spec qty 0).
  - split; try reflexivity; auto. intros b q. destruct (b && _); lia.
  - split; try reflexivity; auto. intros b q. cbn. rewrite exits_app. unfold exits at 2. cbn.
    replace (level_exit (exitType d)) with true by (by destruct d). destruct b, (Nat.eqb p q); cbn; lia.
Qed.

(** What [recordPaperExit] leaves of the group. *)
Definition exited (d : Side) (qty : Z) (g : MLGroup.t) : MLGroup.t :=
  let g := decrement qty g in
  if (0 <? g.(MLGroup.RemainingQty))%Z
  then set_levels (other d)
         (rebalanced (configs_of (other d) g) (levels_of (other d) g) g.(MLGroup.RemainingQty)).1 g
  else g.

Lemma effect_rebalance m p d g r :
  m.(groups) !! p = Some g -> (rebalanced (configs_of d g) (levels_of d g) r).2 = [] ->
  effect (<[p := set_levels d (rebalanced (configs_of d g) (levels_of d g) r).1 g]> m.(groups)) (fun _ _ => 0%Z)
    m (rebalanceAndModifyLevels p d r None m).
Proof.
  intros Hg Hno. unfold rebalanceAndModifyLevels. rewrite Hg.
  destruct (rebalanced _ _ _) as [ls ch]. cbn [fst snd] in *. subst ch. cbn [map].
  split; try reflexivity; auto.
  - cbn. apply map_eq. intros q. destruct (decide (q = p)) as [-> | Hne].
    + by rewrite lookup_alter_eq, lookup_insert_eq, Hg.
    + by rewrite lookup_alter_ne, lookup_insert_ne.
  - cbn. apply app_nil_r.
  - intros. symmetry. apply Z.add_0_r.
Qed.

Lemma effect_recordPaperExit now m p d l qty price g :
  m.(groups) !! p = Some g -> (0 <= qty)%Z ->
  (forall r, r = (decrement qty g).(MLGroup.RemainingQty) -> (0 < r)%Z ->
     (rebalanced (configs_of (other d) g) (levels_of (other d) g) r).2 = []) ->
  effect (<[p := exited d qty g]> m.(groups)) (fun b q => if b && Nat.eqb p q then qty else 0%Z) m
    (recordPaperExit uuid_string now p d l qty price m).
Proof.
  intros Hg Hq Hno. unfold recordPaperExit. cbv zeta. set (g1 := decrement qty g).
  set (m1 := upd p (decrement qty) m).
  assert (G1 : m1.(groups) = <[p := g1]> m.(groups)).
  { cbn. apply map_eq. intros q. destruct (decide (q = p)) as [-> | Hne].
    - by rewrite lookup_alter_eq, lookup_insert_eq, Hg.
    - by rewrite lookup_alter_ne, lookup_insert_ne. }
  rewrite G1, lookup_insert_eq. set (r := g1.(MLGroup.RemainingQty)).
  set (m2 := set_level_status _ _ _ _ _ _ m1).
  pose proof (effect_partial_exit now m2 p g1 qty price d l.(Level.LevelNum) Hq) as E3.
  set (m3 := recordPaperPartialExit _ _ _ _ _ _ _ _ m2) in *.
  set (m5 := log_paper _ (UpdatePaperPositionFilledQty now _ r m3)).
  assert (E5 : effect (<[p := g1]> m.(groups)) (fun b q => if b && Nat.eqb p q then qty else 0%Z) m m5).
  { assert (Q5 : quiet (UpdatePaperPositionFilledQty now g1.(MLGroup.EntryOrderID) r m3) m5) by (by apply quiet_log).
    destruct E3 as [A1 A2 A3 A4 A5 A6]. destruct Q5 as [B1 B2 B3 B4 B5 B6]. split.
    - exact (eq_trans B1 A1).
    - rewrite <- G1. exact (eq_trans B2 A2).
    - exact (eq_trans B3 A3).
    - intros id q H. apply (A4 id q), (B4 id q), H.
    - intros id q H. apply (A5 id q), (B5 id q), H.
    - intros b q. rewrite (B6 b q). change (paperLog (UpdatePaperPositionFilledQty now _ r m3)) with (paperLog m3).
      rewrite A6. change (paperLog m2) with (paperLog m). lia. }
  clearbody m5. clear E3 m3 m2.
  match goal with |- context [if (0 <? r)%Z then ?t else m5] => set (m6 := if (0 <? r)%Z then t else m5) end.
  assert (E6 : effect (<[p := exited d qty g]> m.(groups)) (fun b q => if b && Nat.eqb p q then qty else 0%Z) m m6).
  { unfold exited. cbv zeta. fold g1. fold r. unfold m6. destruct (Z.ltb_spec 0 r) as [Hr | Hr]; [|done].
    assert (Hg5 : m5.(groups) !! p = Some g1) by (rewrite (ef_groups _ _ _ _ E5); by rewrite lookup_insert_eq).
    assert (Hc : configs_of (other d) g1 = configs_of (other d) g) by (by destruct d).
    assert (Hl : levels_of (other d) g1 = levels_of (other d) g) by (by destruct d).
    pose proof (effect_rebalance m5 p (other d) g1 r Hg5 ltac:(rewrite Hc, Hl; by apply Hno)) as E.
    destruct E5 as [A1 A2 A3 A4 A5 A6]. destruct E as [B1 B2 B3 B4 B5 B6]. split; auto; try congruence.
    - by rewrite B2, A2, insert_insert_eq.
    - intros b q. rewrite B6, A6. lia. }
  clearbody m6. clear E5 m5.
  match goal with |- context [log_if ?c ?e ?x] => set (m8 := log_if c e x) end.
  assert (E8 : effect (<[p := exited d qty g]> m.(groups)) (fun b q => if b && Nat.eqb p q then qty else 0%Z) m m8).
  { unfold m8, log_if. case_match.
    - eapply effect_quiet; [|by apply quiet_log]. eapply effect_quiet; [exact E6|by apply quiet_log].
    - eapply effect_quiet; [exact E6|by apply quiet_log]. }
  clearbody m8. case_match; [|done]. eapply effect_quiet; [exact E8|apply quiet_finishPaper].
Qed.

Lemma exited_after_exit d i l g : exited d l.(Level.ExitQty) (alter_level d i (fun _ => l) g) = after_exit d i l g.
Proof. done. Qed.

Lemma after_exit_frame d i l g :
  (after_exit d i l g).(MLGroup.TotalQty) = g.(MLGroup.TotalQty) /\
  (after_exit d i l g).(MLGroup.TradingMode) = g.(MLGroup.TradingMode) /\
  (after_exit d i l g).(MLGroup.State) =
    (if (int32 (g.(MLGroup.RemainingQty) - l.(Level.ExitQty)) <=? 0)%Z then GroupStateCompleted
     else g.(MLGroup.State)).
Proof.
  unfold after_exit. cbv zeta. case_match; destruct d; done.
Qed.

Lemma Inv_fire now m p d g i l ltp hit :
  Inv m -> m.(groups) !! p = Some g -> is_live g = false -> (0 < g.(MLGroup.RemainingQty))%Z ->
  has_eval p m.(mtasks) = false -> first_triggered now ltp hit (levels_of d g) = Some (i, l) ->
  Inv (recordPaperExit uuid_string now p d l l.(Level.ExitQty) ltp (upd p (alter_level d i (fun _ => l)) m)).
Proof.
  intros HI Hg El HR Hev Hf. destruct (inv_paper _ HI p g Hg El) as [P1 P2 P3 P4].
  destruct (after_exit_ok d i l g now ltp hit P1 HR Hf) as (A1 & A2 & A3 & A4 & A5).
  destruct (after_exit_frame d i l g) as (T1 & T2 & T3).
  set (m1 := upd p (alter_level d i (fun _ => l)) m).
  assert (G1 : m1.(groups) = <[p := alter_level d i (fun _ => l) g]> m.(groups)).
  { cbn. apply map_eq. intros q. destruct (decide (q = p)) as [-> | Hne].
    - by rewrite lookup_alter_eq, lookup_insert_eq, Hg.
    - by rewrite lookup_alter_ne, lookup_insert_ne. }
  assert (Hint : int32 (g.(MLGroup.RemainingQty) - l.(Level.ExitQty)) = (g.(MLGroup.RemainingQty) - l.(Level.ExitQty))%Z).
  { apply int32_id. pose proof (go_range g P1). unfold in_int32. lia. }
  destruct (effect_recordPaperExit now m1 p d l l.(Level.ExitQty) ltp (alter_level d i (fun _ => l) g))
    as [B1 B2 B3 B4 B5 B6]; [by rewrite G1, lookup_insert_eq|done| |].
  { intros r Hr Hpos.
    replace (configs_of (other d) (alter_level d i (fun _ => l) g)) with (configs_of (other d) g) by (by destruct d).
    replace (levels_of (other d) (alter_level d i (fun _ => l) g)) with (levels_of (other d) g) by (by destruct d).
    assert (r = (g.(MLGroup.RemainingQty) - l.(Level.ExitQty))%Z) as ->; [|by apply A5].
    rewrite Hr, <- Hint. by destruct d. }
  rewrite exited_after_exit, G1, insert_insert_eq in B2.
  eapply (Inv_paper_update m _ p g (after_exit d i l g)); try done.
  - exists []. rewrite app_nil_r. split; [exact B3|]. split; [constructor|done].
  - intros b q Hne. rewrite B6. change (paperLog m1) with (paperLog m).
    destruct (Nat.eqb_spec p q); [congruence|]. rewrite andb_false_r. lia.
  - split; [done| | |].
    + rewrite B6. change (paperLog m1) with (paperLog m). rewrite P2, A2, T1, Nat.eqb_refl. cbn. lia.
    + rewrite T3. rewrite Hint. destruct (Z.leb_spec (g.(MLGroup.RemainingQty) - l.(Level.ExitQty)) 0); [done|].
      intros Hs. split; [|rewrite A2; lia]. rewrite B6. change (paperLog m1) with (paperLog m).
      rewrite (proj1 (P3 Hs)). done.
    + intros _ Hv. rewrite B3 in Hv. change (mtasks m1) with (mtasks m) in Hv. congruence.
Qed.

Lemma frame_trailing m p g ltp : live_at m p -> frame m (evaluateTrailingSL p g ltp m).
Proof.
  intros Hp. unfold evaluateTrailingSL. destruct (CalcTrailingSL g ltp); [|done].
  assert (F : frame m (upd p (fun g => g <| MLGroup.HighestPrice := ltp |>) m)) by (by apply frame_upd_live).
  etransitivity; [exact F|]. apply frame_spawn1; [|done]. by eapply frame_live.
Qed.

Lemma frame_liveTP m p l ltp : live_at m p -> frame m (liveTPExit p l ltp m).
Proof.
  intros Hp. unfold liveTPExit. cbv zeta. set (m1 := upd p _ m).
  assert (F1 : frame m m1) by (by apply frame_upd_live).
  destruct (m1.(groups) !! p) as [g|]; [|done]. set (m2 := spawn_task _ m1).
  assert (F2 : frame m m2).
  { etransitivity; [exact F1|]. apply frame_spawn1; [|done]. by eapply frame_live. }
  clearbody m2. clear F1 m1. set (r := MLGroup.RemainingQty g).
  match goal with |- context [if ?b then m2 else ?t] => set (m3 := if b then m2 else t) end.
  assert (F3 : frame m m3).
  { etransitivity; [exact F2|]. assert (Hp2 : live_at m2 p) by (by eapply frame_live). unfold m3.
    repeat case_match; try done; by apply frame_spawn1. }
  clearbody m3. case_match; [|done]. etransitivity; [exact F3|apply frame_finish].
Qed.

Lemma Inv_evaluate now p ltp m :
  Inv m -> has_eval p m.(mtasks) = false ->
  (forall g, m.(groups) !! p = Some g -> is_live g = false -> g.(MLGroup.entryFilled) = true ->
     (0 < g.(MLGroup.RemainingQty))%Z) ->
  Inv (evaluate uuid_string now p ltp m).
Proof.
  intros HI Hev HR. unfold evaluate. destruct (m.(groups) !! p) as [g|] eqn:Hg; [|done].
  destruct (is_live g) eqn:El.
  - assert (Hp : live_at m p) by (by exists g). eapply Inv_frame; [exact HI|].
    unfold evaluateSLLevels. rewrite El, orb_true_r.
    assert (Htp : forall m, live_at m p -> frame m
      (match m.(groups) !! p with Some g => evaluateTPLevels uuid_string now p g ltp m | None => m end)).
    { clear. intros m Hp. destruct (m.(groups) !! p) as [g|] eqn:Hg; [|done]. unfold evaluateTPLevels.
      assert (El : is_live g = true) by (by eapply live_group). rewrite El. destruct (_ && _); [done|].
      destruct (first_triggered _ _ _ _) as [[i l]|]; [|done].
      assert (F : frame m (upd p (alter_level TP i (fun _ => l)) m)).
      { apply frame_upd_live; [done|]. intros g'. apply alter_level_mode. }
      etransitivity; [exact F|]. apply frame_liveTP. by eapply frame_live. }
    destruct ((MLGroup.SLMode g =?s SLModeTrailing) && _); [|by apply Htp].
    pose proof (frame_trailing m p g ltp Hp) as F. etransitivity; [exact F|]. apply Htp. by eapply frame_live.
  - pose proof (po_group _ _ _ (inv_paper _ HI p g Hg El)) as P1.
    assert (Hpos : forall d i l hit, first_triggered now ltp hit (levels_of d g) = Some (i, l) ->
              (0 < g.(MLGroup.RemainingQty))%Z).
    { intros d i l hit Hf. apply HR; [done|done|]. destruct (MLGroup.entryFilled g) eqn:Ef; [done|].
      destruct (go_unfilled g P1 Ef) as [_ Hn]. rewrite Hn in Hf. done. }
    unfold evaluateSLLevels. rewrite (go_single g P1), andb_false_r, El, orb_false_r.
    assert (Htp : Inv (evaluateTPLevels uuid_string now p g ltp m)).
    { unfold evaluateTPLevels. rewrite El, andb_false_r.
      destruct (first_triggered _ _ _ _) as [[i l]|] eqn:Ef; [|done]. cbv zeta.
      apply (Inv_fire now m p TP g i l ltp (fun t => TPReached g t ltp)); auto. exact (Hpos TP i l _ Ef). }
    destruct (negb (MLGroup.SLMode g =?s SLModeMultiLevel)); [by rewrite Hg|].
    destruct (first_triggered _ _ _ g.(MLGroup.SLLevels)) as [[i l]|] eqn:Ef; [|by rewrite Hg].
    apply (Inv_fire now m p SL g i l ltp (fun t => SLBreached g t ltp)); auto. exact (Hpos SL i l _ Ef).
Qed.

(** ** Every step *)

Lemma frame_store_single m p id t : live_at m p -> frame m (store_single p id t m).
Proof.
  intros Hp. unfold store_single. cbn.
  match goal with |- frame m (upd p ?f ?x) => set (m1 := x); set (h := f) end.
  assert (F1 : frame m m1).
  { same. intros k q H. cbn in H. apply lookup_insert_Some in H as [[_ <-] | [_ H]]; auto. }
  etransitivity; [exact F1|]. apply frame_upd_live; [by eapply frame_live|done].
Qed.

Lemma frame_store_level m p d i n id : live_at m p -> frame m (store_level p d i n id m).
Proof.
  intros Hp. unfold store_level.
  assert (F1 : frame m (upd p (alter_level d i (fun l => l <| Level.BrokerOrderID := id |>)) m)).
  { apply frame_upd_live; [done|]. intros g. apply alter_level_mode. }
  etransitivity; [exact F1|]. same. intros k r H. cbn in H. apply lookup_insert_Some in H as [[_ <-] | [_ H]]; [|auto].
  right. by eapply frame_live.
Qed.

Lemma frame_placeLevel now m p d i : live_at m p -> frame m (placeMultiLevelOrder now p d i m).
Proof.
  intros Hp. unfold placeMultiLevelOrder. destruct (m.(groups) !! p) as [g|]; [|done].
  destruct (levels_of d g !! i) as [l|]; [|done].
  pose proof (frame_place m (buildLevelOrder g now d l) g.(MLGroup.Auth)) as F.
  destruct (broker_place _ _ _) as [r m1]. cbn in F. destruct r; [|done].
  etransitivity; [exact F|]. apply frame_spawn1; [|done]. by eapply frame_live.
Qed.

Lemma frame_modifyTrailing m p o id q t : live_at m p -> frame m (modifyTrailing p o id q t m).
Proof.
  intros Hp. unfold modifyTrailing. destruct (m.(groups) !! p) as [g|]; [|done].
  pose proof (frame_modify m (modify_order g SL o id q t) g.(MLGroup.Auth)) as F.
  destruct (broker_modify _ _ _) as [ok m1]. cbn in F. destruct ok; [|done].
  etransitivity; [exact F|]. apply frame_upd_live; [by eapply frame_live|done].
Qed.

Lemma frame_marketExit now m p d n q x : frame m (placeExitOrderMarket now p d n q x m).
Proof.
  unfold placeExitOrderMarket. destruct (m.(groups) !! p) as [g|]; [|done].
  destruct (new_id m) as [id m1] eqn:E1. assert (F1 : frame m m1) by (injection E1 as <- <-; same).
  set (o := buildExitOrder _ _ _ _ _ _ _). pose proof (frame_place m1 o g.(MLGroup.Auth)) as F2.
  destruct (broker_place o g.(MLGroup.Auth) m1) as [r m2]. cbn in F2.
  destruct r; [|by etransitivity]. etransitivity; [exact F1|]. etransitivity; [exact F2|]. apply frame_level_status.
Qed.

Lemma frame_persist m p : frame m (persistExitLevels p m).
Proof. unfold persistExitLevels. destruct (m.(groups) !! p); [same|done]. Qed.

(** All goroutines but evaluations and fills. *)
Definition is_frame_task (t : MTask) : bool :=
  match t with TEval _ _ | TEntryFill _ _ _ => false | _ => true end.

Lemma frame_task now t m :
  is_frame_task t = true -> task_ok m t -> frame m (run_task uuid_string now t m).
Proof.
  intros Ht Hok. destruct t; try done; cbn in Hok; cbn [run_task].
  - apply frame_persist.
  - unfold placeFixedSLOrder. destruct (m.(groups) !! p); [by apply frame_single_stop|done].
  - unfold placeLiveTrailingSL. destruct (m.(groups) !! p); [by apply frame_single_stop|done].
  - by apply frame_placeLevel.
  - by apply frame_store_single.
  - by apply frame_store_level.
  - by apply frame_replace.
  - by apply frame_replace.
  - by apply frame_modifyTrailing.
  - unfold modifyLevelOrder. destruct (m.(groups) !! p); [apply frame_modify|done].
  - apply frame_marketExit.
  - by apply frame_levelFilled.
  - by apply frame_singleFilled.
  - apply frame_cancel.
Qed.

(** What the other services hand over: levels that user-config accepts with whole
    percentages, quantities below 2^29, a reason of a cancellation that is not the
    name of an exit type. *)
Definition good_event (e : MLEvent) : Prop :=
  match e with
  | EvRegister _ _ _ sl tp _ _ _ => good_configs sl /\ good_configs tp
  | EvEntryFill _ _ qty sl tp => (0 < qty < 2 ^ 29)%Z /\ good_configs sl /\ good_configs tp
  | EvBrokerUpdate o _ => (o.(Order.FilledQuantity) < 2 ^ 29)%Z
  | EvCancelForExit _ _ reason => level_exit reason = false
  | EvReload _ => False
  | _ => True
  end.

Lemma good_configs_nil : good_configs [].
Proof. split_and!; [cbn; lia|constructor|constructor]. Qed.

Lemma Inv_task now m i t :
  Inv m -> m.(mtasks) !! i = Some t ->
  Inv (run_task uuid_string now t (m <| mtasks := delete i m.(mtasks) |>)).
Proof.
  intros HI Hi. pose proof (Inv_tasks_delete m i HI) as H1. set (m1 := m <| mtasks := _ |>) in *.
  assert (Hok : task_ok m1 t).
  { apply (task_ok_mono m m1); [done|]. exact (proj1 (Forall_lookup _ _) (inv_tasks _ HI) i t Hi). }
  destruct (is_frame_task t) eqn:Ef; [eapply Inv_frame; [exact H1|by apply frame_task]|].
  destruct t as [| | | | | | | | | |p ltp| |id price qty| | |]; try done; cbn [run_task].
  - assert (Hev : has_eval p m1.(mtasks) = false).
    { pose proof (inv_eval _ HI p) as Hc. change (mtasks m1) with (delete i (mtasks m)).
      clear -Hi Hc. revert i Hi. induction (mtasks m) as [|t l IH]; intros [|i] Hi; try done.
      - injection Hi as ->. change (delete 0%nat (TEval p ltp :: l)) with l. cbn in Hc. rewrite Nat.eqb_refl in Hc.
        cbn in Hc. destruct (has_eval p l) eqn:E; [|done]. unfold has_eval in E.
        apply existsb_exists in E as (t & Ht & Hv). exfalso.
        assert (H : In t (List.filter (evaluates p) l)) by (by apply filter_In).
        destruct (List.filter (evaluates p) l); [done|]. cbn in Hc. lia.
      - change (delete (S i) (t :: l)) with (t :: delete i l). unfold has_eval. cbn in Hi |- *.
        cbn [List.filter] in Hc. destruct (evaluates p t) eqn:E.
        + exfalso. assert (H : In (TEval p ltp) (List.filter (evaluates p) l)).
          { apply filter_In. split; [by eapply list_elem_of_In, list_elem_of_lookup_2|apply Nat.eqb_refl]. }
          destruct (List.filter (evaluates p) l); [done|]. cbn in Hc. lia.
        + exact (IH Hc i Hi). }
    apply Inv_evaluate; [done|done|]. intros g Hg El Hf.
    apply (po_eval _ _ _ (inv_paper _ HI p g Hg El) Hf). unfold has_eval. apply existsb_exists.
    exists (TEval p ltp). split; [by eapply list_elem_of_In, list_elem_of_lookup_2|apply Nat.eqb_refl].
  - apply Inv_fill; auto using good_configs_nil.
Qed.

Lemma Inv_step now e m : Inv m -> good_event e -> Inv (ml_step priceLookup uuid_string now e m).
Proof.
  intros HI He. destruct e as [entry sm tm sl tp f t a|id price qty sl tp|o s|key ltp| |i|id|u s|id price reason|u s|f];
    cbn [ml_step]; cbn in He.
  - destruct He. by apply Inv_register.
  - destruct He as (? & ? & ?). by apply Inv_fill.
  - eapply Inv_frame; [exact HI|by apply frame_brokerUpdate].
  - eapply Inv_frame; [exact HI|apply frame_price].
  - by apply Inv_worker.
  - destruct (m.(mtasks) !! i) as [t|] eqn:E; [|done]. by apply Inv_task.
  - eapply Inv_frame; [exact HI|]. unfold CancelGroup. destruct (_ !! _); [apply frame_cancelGroup|done].
  - eapply Inv_frame; [exact HI|]. apply frame_on_groups; [|done]. intros. apply frame_cancelGroup.
  - eapply Inv_frame; [exact HI|]. by apply frame_cancelForExit.
  - eapply Inv_frame; [exact HI|]. apply frame_on_groups; [|done]. intros. by eapply frame_cancel_for_strategy.
  - done.
Qed.

Lemma Inv_init id b orders levels : Inv (NewMLManager id b orders levels).
Proof.
  split; cbn; intros; try (rewrite lookup_empty in *; done); try reflexivity; try lia. constructor.
Qed.

Lemma Inv_run es m :
  Inv m -> Forall (fun te => good_event te.2) es -> Inv (ml_run priceLookup uuid_string es m).
Proof.
  intros HI He. revert m HI. induction He as [|[now e] es He Hes IH]; intros m HI; [done|].
  cbn. apply IH. by apply Inv_step.
Qed.

End Invariant.
