(* ===== verification/MLProperties.v ===== *)
(** * Multi-level exits: properties

    The position of a paper group, and what happens to live orders when a strategy
    is stopped, a level fills, a cancellation races an evaluation or the service
    restarts. *)

From stdpp Require Import base gmap strings list fin_maps sorting pretty.
From Stdlib Require Import ZArith Lia Bool.
From S2P Require Import Prelude GoFloat Price GoStrings Orders OrderRepo OrderQueries OCOTypes.
From S2P Require Import Broker Signals MLTypes MLManager MLPosition MLInvariant.

Open Scope string_scope.
Open Scope list_scope.
Open Scope go_scope.

Section Properties.

Context {B : Type} {MB : MLBroker B}.
Context (priceLookup : option (string -> Z -> option f64)) (uuid_string : uuid -> string).

Abbreviation M := (MLManager B).

(** C14: Whatever the order of ticks, goroutines, broker reports and cancellations, of
    the position of a paper group nothing is lost and nothing is sold twice by its
    levels: what they exited and what is left add up to what was filled, what is
    left is never negative, and while something is left the active levels of each
    side that has levels cover exactly that.  Before a cancellation no other exit
    is recorded. *)
Theorem paper_position_conserved id b orders levels (es : list (Z * MLEvent))
    (Hes : Forall (fun te => good_event te.2) es) :
  let m := ml_run priceLookup uuid_string es (NewMLManager id b orders levels : M) in
  forall p g, m.(groups) !! p = Some g -> is_live g = false ->
    (0 <= g.(MLGroup.RemainingQty) <= g.(MLGroup.TotalQty))%Z /\
    (exits true p m.(paperLog) + g.(MLGroup.RemainingQty) = g.(MLGroup.TotalQty))%Z /\
    (g.(MLGroup.State) = GroupStateActive -> exits false p m.(paperLog) = 0%Z) /\
    (forall d, levels_of d g <> [] -> (0 < g.(MLGroup.RemainingQty))%Z ->
       active_qty (levels_of d g) = g.(MLGroup.RemainingQty)).
Proof.
  intros m p g Hg Hl.
  assert (HI : Inv m) by (apply Inv_run; [apply Inv_init|done]).
  destruct (inv_paper _ HI p g Hg Hl) as [P1 P2 P3 P4]. pose proof (go_range g P1) as [Hr _].
  split; [done|]. split; [lia|]. split; [by intros H; apply P3|].
  intros d Hne Hpos. by apply (so_qty _ _ _ (go_sides g P1 d)).
Qed.

(** *** Restart *)

Definition no_ids (t : LevelsTable) : Prop := forall k r, t !! k = Some r -> r.(MLRow.BrokerOrderID) = None.

Definition keeps_no_ids (m m' : M) : Prop := no_ids m.(mlevels) -> no_ids m'.(mlevels).

#[local] Instance keeps_refl : Reflexive keeps_no_ids.
Proof. by intros m H. Qed.

#[local] Instance keeps_trans : Transitive keeps_no_ids.
Proof. intros m1 m2 m3 H1 H2 H. by apply H2, H1. Qed.

Lemma keeps_same m m' : m'.(mlevels) = m.(mlevels) -> keeps_no_ids m m'.
Proof. intros H. unfold keeps_no_ids. by rewrite H. Qed.

Lemma no_ids_upsert k pp qp t q s l : no_ids l -> no_ids (sqlUpsertLevel k pp qp t q s l).
Proof.
  intros H k' r. unfold sqlUpsertLevel. destruct (l !! k) as [r0|] eqn:E; rewrite lookup_insert_Some;
    intros [[<- <-] | [_ Hr]].
  - exact (H k r0 E).
  - exact (H k' r Hr).
  - reflexivity.
  - exact (H k' r Hr).
Qed.

Lemma keeps_status now e k n s x m : keeps_no_ids m (set_level_status now e k n s x m).
Proof.
  intros H k' r. cbn. unfold sqlUpdateLevelStatus. rewrite lookup_alter_Some.
  intros [(_ & r0 & Hr & ->) | [_ Hr]]; [exact (H _ r0 Hr)|exact (H _ r Hr)].
Qed.

Lemma keeps_foldl {A} (f : M -> A -> M) l m :
  (forall m x, keeps_no_ids m (f m x)) -> keeps_no_ids m (foldl f m l).
Proof.
  intros Hf. revert m. induction l as [|x l IH]; intros m; [done|]. cbn. etransitivity; [apply Hf|apply IH].
Qed.

Ltac levels_same := apply keeps_same; reflexivity.

Lemma keeps_finish m p : keeps_no_ids m (finishGroup p m).
Proof.
  unfold finishGroup, unsubscribeGroup. destruct (m.(groups) !! p) as [g|]; [|done]. cbn.
  destruct (m.(byStock) !! _); cbn; repeat case_match; levels_same.
Qed.

Lemma keeps_forget m g : keeps_no_ids m (forget_group g m).
Proof.
  unfold forget_group, unsubscribeGroup. cbn. destruct (m.(byStock) !! _); cbn; repeat case_match; levels_same.
Qed.

Lemma keeps_cancelRemaining m p d a : keeps_no_ids m (cancelRemainingMLOrders p d a m).
Proof.
  unfold cancelRemainingMLOrders. destruct (m.(groups) !! p) as [g|]; [|done].
  etransitivity; [|apply keeps_foldl; intros; levels_same]. levels_same.
Qed.

Lemma keeps_rebalance m p d r a : keeps_no_ids m (rebalanceAndModifyLevels p d r a m).
Proof.
  unfold rebalanceAndModifyLevels. destruct (m.(groups) !! p) as [g|]; [|done].
  destruct (rebalanced _ _ _). levels_same.
Qed.

Lemma keeps_partial m now p g q x r n : keeps_no_ids m (recordPaperPartialExit uuid_string now p g q x r n m).
Proof. unfold recordPaperPartialExit. case_match; levels_same. Qed.

Lemma keeps_paperExit m now p d l q x : keeps_no_ids m (recordPaperExit uuid_string now p d l q x m).
Proof.
  unfold recordPaperExit. cbv zeta. set (m1 := upd p (decrement q) m).
  assert (K1 : keeps_no_ids m m1) by levels_same. destruct (m1.(groups) !! p) as [g|]; [|done].
  set (m2 := set_level_status _ _ _ _ _ _ m1).
  assert (K2 : keeps_no_ids m m2) by (etransitivity; [exact K1|apply keeps_status]).
  set (m3 := recordPaperPartialExit _ _ _ _ _ _ _ _ m2).
  assert (K3 : keeps_no_ids m m3) by (etransitivity; [exact K2|apply keeps_partial]).
  clearbody m3. set (m5 := log_paper _ (UpdatePaperPositionFilledQty now _ _ m3)). assert (K5 : keeps_no_ids m m5) by (etransitivity; [exact K3|levels_same]).
  clearbody m5. match goal with |- context [if ?b then ?t else m5] => set (m6 := if b then t else m5) end.
  assert (K6 : keeps_no_ids m m6).
  { etransitivity; [exact K5|]. unfold m6. case_match; [apply keeps_rebalance|done]. }
  clearbody m6. match goal with |- context [log_if ?c ?e ?x] => set (m8 := log_if c e x) end.
  assert (K8 : keeps_no_ids m m8).
  { etransitivity; [exact K6|]. unfold m8, log_if. case_match; levels_same. }
  clearbody m8. case_match; [|done]. etransitivity; [exact K8|]. unfold finishGroupPaper. cbv zeta.
  etransitivity; [apply keeps_finish|]. destruct (groups (finishGroup p m8) !! p); [|done].
  destruct (foldl _ _ _). levels_same.
Qed.

Lemma keeps_evaluate now p x m : keeps_no_ids m (evaluate uuid_string now p x m).
Proof.
  unfold evaluate. destruct (m.(groups) !! p) as [g|]; [|done].
  assert (Htp : forall m, keeps_no_ids m
    (match m.(groups) !! p with Some g => evaluateTPLevels uuid_string now p g x m | None => m end)).
  { clear. intros m. destruct (m.(groups) !! p) as [g|]; [|done]. unfold evaluateTPLevels.
    destruct (_ && _); [done|]. destruct (first_triggered _ _ _ _) as [[i l]|]; [|done]. cbv zeta.
    set (m1 := upd p (alter_level TP i (fun _ => l)) m). assert (K1 : keeps_no_ids m m1) by levels_same.
    destruct (is_live g); [|etransitivity; [exact K1|apply keeps_paperExit]].
    etransitivity; [exact K1|]. unfold liveTPExit. cbv zeta. case_match; [|levels_same].
    match goal with |- context [finishGroup p ?x] => set (m3 := x) end.
    assert (K3 : keeps_no_ids m1 m3) by (unfold m3; repeat case_match; levels_same).
    case_match; [|done]. etransitivity; [exact K3|apply keeps_finish]. }
  unfold evaluateSLLevels. destruct ((MLGroup.SLMode g =?s SLModeTrailing) && _).
  - set (m1 := evaluateTrailingSL p g x m). assert (K1 : keeps_no_ids m m1).
    { unfold m1, evaluateTrailingSL. case_match; levels_same. }
    clearbody m1. etransitivity; [exact K1|apply Htp].
  - destruct (_ || _); [apply Htp|]. destruct (first_triggered _ _ _ _) as [[i l]|]; [|apply Htp].
    etransitivity; [|apply keeps_paperExit]. levels_same.
Qed.

Lemma keeps_single_stop now m p g q t b : keeps_no_ids m (placeSingleSL now p g q t b m).
Proof.
  unfold placeSingleSL, broker_place. cbn. destruct (mlPlace _ _ _) as [b' [id|]]; levels_same.
Qed.

Lemma keeps_replace now m p r t b : keeps_no_ids m (replaceSL now p r t b m).
Proof.
  unfold replaceSL. destruct (m.(groups) !! p) as [g|]; [|done]. destruct (_ || _); [done|].
  unfold broker_cancel. cbn. destruct (mlCancel _ _ _ _ _) as [b' ok].
  etransitivity; [|apply keeps_single_stop]. levels_same.
Qed.

Lemma keeps_levelFilled now m p d n x : keeps_no_ids m (onMultiLevelFilled now p d n x m).
Proof.
  unfold onMultiLevelFilled. destruct (m.(groups) !! p) as [g|]; [|done].
  destruct (list_find _ _) as [[i l]|]; [|done]. destruct (tryMarkTriggered _ _ _) as [l'|]; [|done].
  cbv zeta. set (m3 := set_level_status _ _ _ _ _ _ _).
  assert (K3 : keeps_no_ids m m3) by (etransitivity; [|apply keeps_status]; levels_same).
  clearbody m3. case_match.
  - etransitivity; [exact K3|]. etransitivity; [apply (keeps_cancelRemaining _ p d g.(MLGroup.Auth))|].
    etransitivity; [apply (keeps_cancelRemaining _ p (other d) g.(MLGroup.Auth))|].
    etransitivity; [|apply keeps_finish]. case_match; levels_same.
  - etransitivity; [exact K3|]. etransitivity; apply keeps_rebalance.
Qed.

Lemma keeps_singleFilled now m p x q : keeps_no_ids m (onSingleSLFilled now p x q m).
Proof.
  unfold onSingleSLFilled. destruct (m.(groups) !! p) as [g|]; [|done]. cbv zeta.
  set (m3 := set_level_status _ _ _ _ _ _ _).
  assert (K3 : keeps_no_ids m m3).
  { etransitivity; [|apply keeps_status]. etransitivity; [|apply keeps_foldl; intros; apply keeps_status].
    case_match; [|levels_same]. etransitivity; [|apply keeps_foldl; intros; levels_same]. levels_same. }
  clearbody m3. etransitivity; [exact K3|].
  match goal with |- context [log_if ?c ?e ?x] => transitivity x end.
  - case_match; [apply keeps_finish|done].
  - unfold log_if. destruct (is_paper g); [levels_same|done].
Qed.

Lemma keeps_persist m p : keeps_no_ids m (persistExitLevels p m).
Proof.
  unfold persistExitLevels. destruct (m.(groups) !! p) as [g|]; [|done]. intros H. cbn.
  assert (Hf : forall d l t, no_ids t -> no_ids (foldl (fun t x => level_row d g x t) t l)).
  { intros d l. induction l as [|x l IH]; intros t Ht; [done|]. cbn. apply IH. unfold level_row.
    destruct (match List.find _ _ with Some _ => _ | None => _ end). by apply no_ids_upsert. }
  auto.
Qed.

Lemma keeps_task now t m : keeps_no_ids m (run_task uuid_string now t m).
Proof.
  destruct t; cbn [run_task].
  - apply keeps_persist.
  - unfold placeFixedSLOrder. case_match; [apply keeps_single_stop|done].
  - unfold placeLiveTrailingSL. case_match; [apply keeps_single_stop|done].
  - unfold placeMultiLevelOrder, broker_place. repeat case_match; simplify_eq; levels_same.
  - levels_same.
  - levels_same.
  - apply keeps_replace.
  - apply keeps_replace.
  - unfold modifyTrailing, broker_modify. repeat case_match; simplify_eq; levels_same.
  - unfold modifyLevelOrder, broker_modify. repeat case_match; simplify_eq; levels_same.
  - apply keeps_evaluate.
  - unfold placeExitOrderMarket, broker_place. cbn. destruct (m.(groups) !! p); [|done].
    destruct (mlPlace _ _ _) as [b' [id|]]; [|levels_same]. etransitivity; [|apply keeps_status]. levels_same.
  - unfold OnEntryFill, subscribeGroup. repeat case_match; levels_same.
  - apply keeps_levelFilled.
  - apply keeps_singleFilled.
  - unfold broker_cancel. repeat case_match; simplify_eq; levels_same.
Qed.

Lemma keeps_cancelGroup m p : keeps_no_ids m (cancelGroupInternal p m).
Proof.
  unfold cancelGroupInternal. destruct (m.(groups) !! p) as [g|]; [|done]. case_match; [done|]. cbv zeta.
  set (m1 := finishGroup p _).
  assert (K1 : keeps_no_ids m m1) by (etransitivity; [|apply keeps_finish]; levels_same). clearbody m1.
  destruct (_ && _); [|done]. etransitivity; [exact K1|]. etransitivity; [|apply keeps_cancelRemaining].
  etransitivity; [|apply keeps_cancelRemaining]. case_match; levels_same.
Qed.

Lemma keeps_on_groups sel f m : (forall p m, keeps_no_ids m (f p m)) -> keeps_no_ids m (on_groups sel f m).
Proof. intros Hf. apply keeps_foldl. intros m' x. repeat case_match; done. Qed.

Lemma keeps_exit_remaining m now p g x r : keeps_no_ids m (exit_remaining uuid_string now p g x r m).
Proof. unfold exit_remaining. etransitivity; [apply keeps_partial|levels_same]. Qed.

Lemma keeps_cancelForExit now m id x r : keeps_no_ids m (CancelGroupForExit uuid_string now id x r m).
Proof.
  unfold CancelGroupForExit. destruct (m.(groupsByEntry) !! id) as [p|]; [|done].
  destruct (m.(groups) !! p) as [g|]; [|done]. case_match; [done|]. cbv zeta.
  set (m2 := foldl _ _ _). assert (K2 : keeps_no_ids m m2).
  { transitivity (upd p (fun g => g <| MLGroup.State := GroupStateCancelled |>) m); [levels_same|].
    apply keeps_foldl. intros m' [i l]. unfold cancelTPOrder, broker_cancel.
    destruct (m'.(groups) !! p); [|done]. case_match; [done|]. destruct (mlCancel _ _ _ _ _) as [b' []]; [|levels_same].
    etransitivity; [|apply keeps_status]. levels_same. }
  clearbody m2. set (m3 := cancelSLOrder p m2). assert (K3 : keeps_no_ids m m3).
  { etransitivity; [exact K2|]. unfold m3, cancelSLOrder, broker_cancel. repeat case_match; simplify_eq; levels_same. }
  clearbody m3. etransitivity; [exact K3|].
  match goal with |- context [if ?b then ?t else m3] => set (m4 := if b then t else m3) end.
  assert (K4 : keeps_no_ids m3 m4) by (unfold m4; case_match; [apply keeps_exit_remaining|done]).
  clearbody m4. etransitivity; [exact K4|].
  match goal with |- context [forget_group g ?x] => transitivity (forget_group g x); [|levels_same] end.
  etransitivity; [|apply keeps_forget]. levels_same.
Qed.

Lemma keeps_cancel_for_strategy now p m : keeps_no_ids m (cancel_for_strategy priceLookup uuid_string now p m).
Proof.
  unfold cancel_for_strategy. destruct (m.(groups) !! p) as [g|]; [|done]. cbv zeta.
  etransitivity; [|apply keeps_forget].
  destruct (match priceLookup with Some _ => _ | None => _ end) as [ltp|]; [|levels_same].
  case_match; [|levels_same]. etransitivity; [|apply keeps_exit_remaining]. levels_same.
Qed.

Lemma keeps_reload f m : keeps_no_ids m (Reload f m).2.
Proof.
  unfold Reload. destruct (sqlGetActiveMLEntries _ _) as [t r]. destruct r as [e|[|o l]]; [levels_same|levels_same|].
  destruct f; [levels_same|].
  assert (H : forall l s m, keeps_no_ids m (foldl reload_entry (s, m) l).2).
  { clear. induction l as [|o l IH]; intros s m; [done|]. cbn [foldl].
    assert (K : keeps_no_ids m (reload_entry (s, m) o).2).
    { unfold reload_entry. cbv zeta. destruct (_ || _); [done|]. destruct (Order.FilledPrice o) as [x|]; [|done].
      unfold new_id. cbv iota beta.
      match goal with |- context [restored_group ?a ?b ?c ?d] => destruct (restored_group a b c d) as [g lost] end.
      cbn [snd].
      etransitivity; [|unfold subscribeGroup; cbn; case_match; levels_same].
      match goal with |- context [foldl (index_row ?p) ?x ?r] => transitivity (foldl (index_row p) x r); [|levels_same] end.
      etransitivity; [|apply keeps_foldl; intros; unfold index_row; repeat case_match; levels_same]. levels_same. }
    destruct (reload_entry (s, m) o) as [s' m']. etransitivity; [exact K|apply IH]. }
  specialize (H (o :: l) (mkReloadStats (Z.of_nat (length (o :: l))) 0 0 0 0) (m <| morders := t |>)).
  destruct (foldl reload_entry _ _). etransitivity; [|exact H]. levels_same.
Qed.

Lemma keeps_step now e m : keeps_no_ids m (ml_step priceLookup uuid_string now e m).
Proof.
  destruct e; cbn [ml_step].
  - unfold RegisterEntry. levels_same.
  - unfold OnEntryFill, subscribeGroup. repeat case_match; levels_same.
  - unfold HandleBrokerUpdate. cbv zeta. repeat case_match; levels_same.
  - unfold OnPriceUpdate. cbv zeta. case_match; [done|]. apply keeps_foldl. intros.
    unfold push_job. case_match; levels_same.
  - unfold runEvalJob. repeat case_match; levels_same.
  - destruct (m.(mtasks) !! i) as [t|]; [|done]. etransitivity; [|apply keeps_task]. levels_same.
  - unfold CancelGroup. case_match; [apply keeps_cancelGroup|done].
  - apply keeps_on_groups. intros. apply keeps_cancelGroup.
  - apply keeps_cancelForExit.
  - apply keeps_on_groups. intros. apply keeps_cancel_for_strategy.
  - apply keeps_reload.
Qed.

Lemma keeps_run es m : keeps_no_ids m (ml_run priceLookup uuid_string es m).
Proof. apply keeps_foldl. intros. apply keeps_step. Qed.

(** Nothing routes to a group: the indexes are empty, the entries are filled. *)
Record routeless (m : M) : Prop := {
  rl_single : m.(singleSLIndex) = ∅;
  rl_index : m.(mlLevelIndex) = ∅;
  rl_filled : forall id p, m.(groupsByEntry) !! id = Some p ->
    (p < m.(nextGroup))%nat /\ exists g, m.(groups) !! p = Some g /\ g.(MLGroup.entryFilled) = true
}.

Lemma routeless_update m o s : routeless m -> HandleBrokerUpdate o s m = m.
Proof.
  intros [Hs Hi Hf]. unfold HandleBrokerUpdate. cbv zeta. rewrite Hs, Hi.
  assert (Hw : match m.(groupsByEntry) !! o.(Order.OrderID) with
               | Some p => match m.(groups) !! p with
                           | Some g => negb g.(MLGroup.entryFilled) | None => false end
               | None => false
               end = false).
  { destruct (m.(groupsByEntry) !! o.(Order.OrderID)) as [p|] eqn:E; [|done].
    destruct (Hf _ p E) as (_ & g & -> & ->). done. }
  rewrite Hw. cbn [andb]. destruct (ml_isFilledStatus s); [|done].
  destruct (Order.IndiraOrderID o) as [k|]; [|done]. by rewrite !lookup_empty.
Qed.

Lemma restore_filled rows g : (foldl restore_level g rows).(MLGroup.entryFilled) = g.(MLGroup.entryFilled).
Proof.
  revert g. induction rows as [|[[[e k] n] r] rows IH]; intros g; [done|]. cbn [foldl]. rewrite IH.
  unfold restore_level. cbv zeta. destruct (side_of k) as [[]|]; repeat case_match; done.
Qed.

Lemma restored_filled gid o x rows : (restored_group gid o x rows).1.(MLGroup.entryFilled) = true.
Proof. unfold restored_group. cbv zeta. cbn [fst]. case_match; cbn; by rewrite restore_filled. Qed.

Lemma index_rows_none rows p (m : M) :
  Forall (fun kr : LevelKey * MLRow.t => kr.2.(MLRow.BrokerOrderID) = None) rows -> foldl (index_row p) m rows = m.
Proof.
  intros H. revert m. induction H as [|kr rows H Hr IH]; intros m; [done|]. cbn [foldl].
  assert (index_row p m kr = m) as -> by (unfold index_row; by rewrite H). apply IH.
Qed.

Lemma get_levels_no_ids id t :
  no_ids t -> Forall (fun kr : LevelKey * MLRow.t => kr.2.(MLRow.BrokerOrderID) = None) (sqlGetLevels id t).
Proof.
  intros H. unfold sqlGetLevels. apply Forall_forall. intros [k r]. rewrite merge_sort_Permutation.
  rewrite list_elem_of_In, filter_In, <- list_elem_of_In, elem_of_map_to_list. intros [Hk _]. by eapply H.
Qed.

Lemma routeless_entry s m o :
  no_ids m.(mlevels) -> routeless m -> routeless (reload_entry (s, m) o).2.
Proof.
  intros Hn [Hs Hi Hf]. unfold reload_entry. cbv zeta. destruct (_ || _); [done|].
  destruct (Order.FilledPrice o) as [x|]; [|done]. unfold new_id. cbv iota beta.
  pose proof (restored_filled m.(nextID) o x (sqlGetLevels o.(Order.OrderID) m.(mlevels))) as Hfilled.
  destruct (restored_group _ _ _ _) as [g lost]. cbn [snd fst] in *.
  rewrite index_rows_none by (by apply get_levels_no_ids).
  assert (R : routeless (m <| nextID := N.succ m.(nextID) |>
              <| groups := <[m.(nextGroup) := g]> m.(groups) |> <| nextGroup := S m.(nextGroup) |>
              <| groupsByEntry := <[o.(Order.OrderID) := m.(nextGroup)]> m.(groupsByEntry) |>)).
  { split; [done|done|]. cbn. intros id p. rewrite lookup_insert_Some. intros [[<- <-] | [_ Hp]].
    - split; [lia|]. exists g. by rewrite lookup_insert_eq.
    - destruct (Hf id p Hp) as (Hlt & g' & Hg' & ?). split; [lia|]. exists g'. by rewrite lookup_insert_ne by lia. }
  unfold subscribeGroup. cbv zeta. case_match; destruct R; by split.
Qed.

Lemma reload_entry_levels s (m : M) o : (reload_entry (s, m) o).2.(mlevels) = m.(mlevels).
Proof.
  assert (H : forall p rows (m : M), (foldl (index_row p) m rows).(mlevels) = m.(mlevels)).
  { intros p rows. induction rows as [|kr rows IH]; intros m'; [done|]. cbn [foldl]. rewrite IH.
    unfold index_row. repeat case_match; done. }
  unfold reload_entry. cbv zeta. destruct (_ || _); [done|]. destruct (Order.FilledPrice o); [|done].
  unfold new_id. cbv iota beta. destruct (restored_group _ _ _ _) as [g lost]. cbn [snd].
  unfold subscribeGroup. cbv zeta. case_match; cbn; by rewrite H.
Qed.

(** A restart cuts the live exit orders off: the ids the broker gave to the orders
    of the levels are kept in memory only, so whatever happened before, after
    [Reload] no report of the broker on any order changes anything; the position of
    the group stays as it was loaded and its other orders stay at the exchange. *)
Theorem restart_forgets_exit_orders id b orders levels es (Hids : no_ids levels) :
  let t := (ml_run priceLookup uuid_string es (NewMLManager id b orders levels : M)).(mlevels) in
  forall id' b' orders' f o s,
    let m := (Reload f (NewMLManager id' b' orders' t : M)).2 in HandleBrokerUpdate o s m = m.
Proof.
  intros t id' b' orders' f o s m. apply routeless_update.
  assert (Ht : no_ids t) by (by apply keeps_run). clearbody t. unfold m. clear m.
  set (m0 := NewMLManager id' b' orders' t : M).
  assert (R0 : routeless m0) by (by split).
  unfold Reload. destruct (sqlGetActiveMLEntries _ _) as [t1 r].
  assert (R1 : routeless (m0 <| morders := t1 |>)) by (destruct R0; by split).
  destruct r as [e|[|o1 l]]; [done|done|]. destruct f; [done|].
  assert (H : forall l s (m : M), no_ids m.(mlevels) -> routeless m -> routeless (foldl reload_entry (s, m) l).2).
  { clear. induction l as [|o l IH]; intros s m Hn HR; [done|]. cbn [foldl].
    pose proof (routeless_entry s m o Hn HR) as K. pose proof (reload_entry_levels s m o) as L.
    destruct (reload_entry (s, m) o) as [s' m']. cbn [snd] in K, L. apply IH; [by rewrite L|done]. }
  specialize (H (o1 :: l) (mkReloadStats (Z.of_nat (length (o1 :: l))) 0 0 0 0) (m0 <| morders := t1 |>) Ht R1).
  by destruct (foldl reload_entry _ _).
Qed.

(** *** Stopping a strategy *)

(** What [cancel_for_strategy] leaves of the groups. *)
Definition only_cancelled (m m' : M) : Prop :=
  m'.(mcalls) = m.(mcalls) /\ m'.(mtasks) = m.(mtasks) /\
  forall p g, m.(groups) !! p = Some g -> exists g', m'.(groups) !! p = Some g' /\
    (g' = g \/ g' = g <| MLGroup.State := GroupStateCancelled |>).

#[local] Instance only_cancelled_refl : Reflexive only_cancelled.
Proof. intros m. split_and!; try done. eauto. Qed.

#[local] Instance only_cancelled_trans : Transitive only_cancelled.
Proof.
  intros m1 m2 m3 (A1 & A2 & A3) (B1 & B2 & B3). split_and!; [congruence|congruence|].
  intros p g Hg. destruct (A3 p g Hg) as (g2 & Hg2 & H2). destruct (B3 p g2 Hg2) as (g3 & Hg3 & H3).
  exists g3. split; [done|]. destruct H2 as [-> | ->]; destruct H3 as [-> | ->]; auto.
Qed.

Lemma forget_same (m : M) g :
  mcalls (forget_group g m) = mcalls m /\ mtasks (forget_group g m) = mtasks m /\
  groups (forget_group g m) = groups m.
Proof.
  unfold forget_group, unsubscribeGroup. cbn. destruct (m.(byStock) !! _); cbn; by case_match.
Qed.

Lemma exit_remaining_same (m : M) now p g x r :
  let m' := exit_remaining uuid_string now p g x r m in
  mcalls m' = mcalls m /\ mtasks m' = mtasks m /\ groups m' = groups m.
Proof. unfold exit_remaining, recordPaperPartialExit. cbn. by case_match. Qed.

Lemma cancel_for_strategy_spec now p (m : M) :
  let m' := cancel_for_strategy priceLookup uuid_string now p m in
  mcalls m' = mcalls m /\ mtasks m' = mtasks m /\
  groups m' = alter (fun g => g <| MLGroup.State := GroupStateCancelled |>) p m.(groups).
Proof.
  cbv zeta. unfold cancel_for_strategy. destruct (m.(groups) !! p) as [g|] eqn:Hg.
  2: { split; [done|]. split; [done|]. apply map_eq. intros q. destruct (decide (q = p)) as [-> | Hne];
       [by rewrite lookup_alter_eq, Hg|by rewrite lookup_alter_ne]. }
  cbv zeta. match goal with |- context [forget_group g ?x] => set (m2 := x) end.
  destruct (forget_same m2 g) as (F1 & F2 & F3). rewrite F1, F2, F3. unfold m2. clear F1 F2 F3 m2.
  destruct (match priceLookup with Some _ => _ | None => _ end) as [ltp|]; [|done].
  case_match; [|done]. destruct (exit_remaining_same (upd p (fun g => g <| MLGroup.State := GroupStateCancelled |>) m)
    now p g ltp "STRATEGY_DEACTIVATED") as (F1 & F2 & F3). by rewrite F1, F2, F3.
Qed.

Lemma only_cancelled_step now p (m : M) : only_cancelled m (cancel_for_strategy priceLookup uuid_string now p m).
Proof.
  destruct (cancel_for_strategy_spec now p m) as (F1 & F2 & F3). split_and!; [done|done|].
  intros q g Hg. rewrite F3. destruct (decide (q = p)) as [-> | Hne].
  - rewrite lookup_alter_eq, Hg. cbn. eauto.
  - rewrite lookup_alter_ne by done. eauto.
Qed.

(** Stopping a strategy cancels its multi-level groups in memory only: no order is
    cancelled at the broker and no goroutine is started that would, although each
    group keeps the ids of its orders; a live stop-loss stays at the exchange,
    where nothing manages it any more. *)
Theorem strategy_stop_leaves_broker_orders now userID strategyID (m : M) :
  let m' := CancelGroupsByStrategy priceLookup uuid_string now userID strategyID m in
  m'.(mcalls) = m.(mcalls) /\ m'.(mtasks) = m.(mtasks) /\
  forall id p g, m.(groupsByEntry) !! id = Some p -> m.(groups) !! p = Some g ->
    g.(MLGroup.UserID) = userID -> g.(MLGroup.StrategyID) = strategyID ->
    g.(MLGroup.State) = GroupStateActive ->
    m'.(groups) !! p = Some (g <| MLGroup.State := GroupStateCancelled |>).
Proof.
  unfold CancelGroupsByStrategy, on_groups. cbv zeta.
  set (sel := fun g : MLGroup.t => (g.(MLGroup.UserID) =?s userID) && (g.(MLGroup.StrategyID) =?s strategyID)
                                   && is_active_group g).
  set (f := fun (m : M) (kp : uuid * gptr) =>
    match m.(groups) !! kp.2 with
    | Some g => if sel g then cancel_for_strategy priceLookup uuid_string now kp.2 m else m
    | None => m
    end).
  assert (Hstep : forall m kp, only_cancelled m (f m kp)).
  { intros m' kp. unfold f. repeat case_match; try done. apply only_cancelled_step. }
  assert (Hall : forall l m, only_cancelled m (foldl f m l)).
  { induction l as [|kp l IH]; intros m'; [done|]. cbn. etransitivity; [apply Hstep|apply IH]. }
  destruct (Hall (map_to_list m.(groupsByEntry)) m) as (A1 & A2 & _). split; [done|]. split; [done|].
  intros id p g Hid Hg Hu Hs Ha. apply elem_of_map_to_list in Hid.
  assert (Hsel : sel g = true).
  { unfold sel, is_active_group. by rewrite Hu, Hs, Ha, !String.eqb_refl. }
  generalize dependent m. intros m A1 A2. clear A1 A2. generalize (map_to_list m.(groupsByEntry)).
  intros l Hin. revert m. induction l as [|kp l IH]; [by apply elem_of_nil in Hin|]. intros m Hg. cbn [foldl].
  assert (Hdone : forall m, m.(groups) !! p = Some (g <| MLGroup.State := GroupStateCancelled |>) ->
            groups (foldl f m l) !! p = Some (g <| MLGroup.State := GroupStateCancelled |>)).
  { clear -Hall. intros m Hm. destruct (Hall l m) as (_ & _ & H). destruct (H p _ Hm) as (g' & -> & [-> | ->]); done. }
  destruct (decide (kp.2 = p)) as [Hp | Hp].
  - apply Hdone. unfold f. rewrite Hp, Hg; fold (sel g); rewrite Hsel.
    destruct (cancel_for_strategy_spec now p m) as (_ & _ & ->). by rewrite lookup_alter_eq, Hg.
  - apply elem_of_cons in Hin as [<- | Hin]; [done|]. apply IH; [done|].
    unfold f. destruct (groups m !! kp.2); [|done]. case_match; [|done].
    destruct (cancel_for_strategy_spec now kp.2 m) as (_ & _ & ->). by rewrite lookup_alter_ne.
Qed.

(** *** A fill of one level *)

Definition level_modification (t : MTask) : bool :=
  match t with TModifyLevel _ _ _ _ _ _ _ => true | _ => false end.

Lemma rebalance_tasks p d r a (m : M) : exists l,
  mtasks (rebalanceAndModifyLevels p d r a m) = mtasks m ++ l /\ Forall (fun t => level_modification t = true) l /\
  mcalls (rebalanceAndModifyLevels p d r a m) = mcalls m /\
  forall g, groups m !! p = Some g -> exists ls, groups (rebalanceAndModifyLevels p d r a m) !! p = Some (set_levels d ls g).
Proof.
  unfold rebalanceAndModifyLevels. destruct (groups m !! p) as [g|] eqn:Hg.
  2: { exists []. rewrite app_nil_r. split_and!; done. }
  destruct (rebalanced _ _ _) as [ls ch]. eexists. split; [reflexivity|]. split; [by apply Forall_map, Forall_true|].
  split; [done|]. intros g' [= <-]. exists ls. cbn. by rewrite lookup_alter_eq, Hg.
Qed.

(** When one level of a live group fills and part of the position is left, the
    only orders that are changed are those of other levels: the single stop-loss
    of a group with a fixed or trailing stop stays at the broker as it is, for the
    quantity before the fill. *)
Theorem level_fill_keeps_single_stop now p d n x (m : M) g i l
    (Hg : m.(groups) !! p = Some g)
    (Hl : list_find (fun l => l.(Level.LevelNum) = n) (levels_of d g) = Some (i, l))
    (Ha : l.(Level.Status) = LevelActive)
    (Hr : (0 < int32 (g.(MLGroup.RemainingQty) - l.(Level.ExitQty)))%Z) :
  let m' := onMultiLevelFilled now p d n x m in
  m'.(mcalls) = m.(mcalls) /\
  (exists ts, m'.(mtasks) = m.(mtasks) ++ ts /\ Forall (fun t => level_modification t = true) ts) /\
  exists g', m'.(groups) !! p = Some g' /\
    g'.(MLGroup.SingleSLBrokerID) = g.(MLGroup.SingleSLBrokerID) /\
    g'.(MLGroup.RemainingQty) = int32 (g.(MLGroup.RemainingQty) - l.(Level.ExitQty)).
Proof.
  cbv zeta. unfold onMultiLevelFilled. rewrite Hg, Hl. unfold tryMarkTriggered. rewrite Ha. cbv zeta.
  rewrite (proj2 (Z.leb_gt _ _) Hr). set (r := int32 _) in *.
  match goal with |- context [rebalanceAndModifyLevels p d r _ ?y] => set (m1 := y) end.
  assert (G1 : exists g1, m1.(groups) !! p = Some g1 /\
    g1.(MLGroup.SingleSLBrokerID) = g.(MLGroup.SingleSLBrokerID) /\ g1.(MLGroup.RemainingQty) = r).
  { eexists. split; [unfold m1; cbn; by rewrite lookup_alter_eq, Hg|]. by destruct d. }
  destruct G1 as (g1 & G1 & S1 & R1).
  destruct (rebalance_tasks p d r g.(MLGroup.Auth) m1) as (t1 & T1 & M1 & C1 & H1).
  set (m2 := rebalanceAndModifyLevels p d r g.(MLGroup.Auth) m1) in *. destruct (H1 g1 G1) as (ls1 & G2).
  destruct (rebalance_tasks p (other d) r g.(MLGroup.Auth) m2) as (t2 & T2 & M2 & C2 & H2).
  destruct (H2 _ G2) as (ls2 & G3).
  split; [by rewrite C2, C1|]. split.
  - exists (t1 ++ t2). rewrite T2, T1, app_assoc. split; [done|]. by apply Forall_app.
  - eexists. split; [exact G3|]. by destruct d.
Qed.

(** *** A stop-loss that could not be cancelled *)

(** The new stop-loss is placed also when the broker refuses to cancel the old one,
    which is forgotten before it is asked: both are live at the exchange, and a
    fill of the old one reaches nothing. *)
Lemma refused_cancel_leaves_two_stops now p r t b (m : M) g b1 b2 id
    (Hg : m.(groups) !! p = Some g) (Hr : (0 < r)%Z) (Hold : g.(MLGroup.SingleSLBrokerID) <> "")
    (Hc : mlCancel g.(MLGroup.Exchange) g.(MLGroup.SingleSLBrokerID) g.(MLGroup.Symbol) g.(MLGroup.Auth)
            m.(mbroker) = (b1, false))
    (Hp : forall o, mlPlace o g.(MLGroup.Auth) b1 = (b2, Some id)) :
  let m' := replaceSL now p r t b m in
  m'.(singleSLIndex) !! g.(MLGroup.SingleSLBrokerID) = None /\
  exists o, o.(Order.OrderType) = OrderTypeStopLossMarket /\ o.(Order.Quantity) = r /\
    m'.(mcalls) = m.(mcalls) ++ [BcCancel g.(MLGroup.SingleSLBrokerID) false; BcPlace o (Some id)].
Proof.
  cbv zeta. unfold replaceSL. rewrite Hg, (proj2 (Z.leb_gt _ _) Hr), (proj2 (String.eqb_neq _ _) Hold). cbn [orb].
  unfold broker_cancel. cbn. rewrite Hc. unfold placeSingleSL, broker_place. cbn. rewrite Hp. cbn.
  split; [apply lookup_delete_eq|].
  exists (buildExitOrder g now m.(nextID) r OrderTypeStopLossMarket None (Some (t g))).
  split; [reflexivity|]. split; [reflexivity|]. by rewrite <- app_assoc.
Qed.

End Properties.

(** ** Concrete runs *)

(** A broker that numbers the orders. *)
#[local] Instance numbering_broker : MLBroker N := {|
  mlPlace := fun _ _ n => (N.succ n, Some (pretty n));
  mlModify := fun _ _ n => (n, true);
  mlCancel := fun _ _ _ _ n => (n, true)
|}.

Definition no_string : uuid -> string := fun _ => "".

Definition halves : list MultiLevelExitLevel := [mkLevel 1 (of_Z 1) (of_Z 50); mkLevel 2 (of_Z 2) (of_Z 50)].

Definition example_entry (mode : string) : Order.t :=
  Order.zero <| Order.OrderID := 7%N |> <| Order.StockCode := 5%Z |> <| Order.OrderSide := "BUY" |>
    <| Order.TradingMode := mode |> <| Order.StrategyID := "s" |> <| Order.UserID := "u" |>.

(** Ten shares bought at 100; a tick at 101 is evaluated. *)
Definition bought (mode slMode tpMode : string) : list (Z * MLEvent) :=
  [(1%Z, EvRegister (example_entry mode) slMode tpMode halves halves fzero fzero None);
   (2%Z, EvEntryFill 7%N (of_Z 100) 10 [] [])].

Definition tick_at (ltp : Z) : list (Z * MLEvent) := [(3%Z, EvPrice "nse:5" (of_Z ltp)); (4%Z, EvWorker)].

Definition fresh_manager : MLManager N := NewMLManager 100%N 0%N (mkTable ∅ []) ∅.

Definition paper_run : list (Z * MLEvent) := bought "PAPER" "MULTI_LEVEL" "MULTI_LEVEL" ++ tick_at 101.

Definition run_example (es : list (Z * MLEvent)) : MLManager N := ml_run None no_string es fresh_manager.

Lemma halves_good : good_configs halves.
Proof.
  split_and!; [cbn; lia|apply NoDup_cons; split; [by rewrite list_elem_of_singleton|apply NoDup_singleton]|].
  repeat constructor; exists 50%Z; (split; [lia|reflexivity]).
Qed.

Ltac good_events :=
  repeat (apply Forall_cons; split;
    [first [exact I | exact (conj halves_good halves_good) | reflexivity
           | split; [cbn; lia|exact (conj good_configs_nil good_configs_nil)]]|]);
  apply Forall_nil_2.

Definition half_sold : MLManager N := run_example (paper_run ++ [(5%Z, EvTask 1)]).

Lemma paper_run_good : Forall (fun te => good_event te.2) (paper_run ++ [(5%Z, EvTask 1)]).
Proof.
  good_events.
Qed.

(** The first take-profit fired: five are sold, five are left, for which the two
    stop-losses stand with two and three. *)
Lemma paper_position_conserved_witness :
  (MLGroup.RemainingQty <$> half_sold.(groups) !! 0%nat) = Some 5%Z /\
  forall g, half_sold.(groups) !! 0%nat = Some g ->
    (exits true 0 half_sold.(paperLog) + g.(MLGroup.RemainingQty) = g.(MLGroup.TotalQty))%Z /\
    active_qty g.(MLGroup.SLLevels) = 5%Z.
Proof.
  split; [vm_compute; reflexivity|]. intros g Hg.
  assert (Hl : (is_live <$> half_sold.(groups) !! 0%nat) = Some false) by (vm_compute; reflexivity).
  assert (Hr : (MLGroup.RemainingQty <$> half_sold.(groups) !! 0%nat) = Some 5%Z) by (vm_compute; reflexivity).
  assert (Hs : (length ∘ MLGroup.SLLevels <$> half_sold.(groups) !! 0%nat) = Some 2%nat) by (vm_compute; reflexivity).
  rewrite Hg in Hl, Hr, Hs. injection Hl as Hl. injection Hr as Hr. injection Hs as Hs.
  unfold half_sold, run_example, fresh_manager in Hg |- *.
  destruct (paper_position_conserved None no_string 100%N 0%N (mkTable ∅ []) ∅ _ paper_run_good 0%nat g Hg Hl)
    as (_ & H2 & _ & H4). split; [exact H2|].
  clear Hg H2. rewrite <- Hr. apply (H4 SL); [|rewrite Hr; reflexivity].
  intros E. unfold compose in Hs. cbn [levels_of] in E. rewrite E in Hs. discriminate Hs.
Defined.

(** The check of the group's state and the exits of an evaluation are two critical
    sections: a forced exit between them sells the whole position, and the level
    sells its share once more. *)
Theorem forced_exit_races_evaluation :
  exists es, Forall (fun te => good_event te.2) es /\
    let m := run_example es in
    exists g, m.(groups) !! 0%nat = Some g /\
      (exits true 0 m.(paperLog) + exits false 0 m.(paperLog) = g.(MLGroup.TotalQty) + 5)%Z.
Proof.
  exists (paper_run ++ [(5%Z, EvCancelForExit 7%N (of_Z 101) "FORCE_EXIT"); (6%Z, EvTask 1)]). split.
  - good_events.
  - vm_compute. eexists. split; reflexivity.
Qed.

(** A live position with a fixed stop-loss and two take-profits at the broker. *)
Definition live_run : list (Z * MLEvent) :=
  bought "LIVE" "FIXED" "MULTI_LEVEL" ++ map (fun i => (5%Z, EvTask i)) [0; 0; 0; 0; 0; 0; 0]%nat.

Definition live_position : MLManager N := run_example live_run.

(** Five of ten are sold by the first take-profit; the stop-loss of ten stays. *)
Lemma level_fill_keeps_single_stop_witness :
  In 10%Z (omap (fun c => match c with BcPlace o _ => Some o.(Order.Quantity) | _ => None end) live_position.(mcalls)) /\
  let m := onMultiLevelFilled 6 0 TP 1 (Some (of_Z 101)) live_position in
  m.(mcalls) = live_position.(mcalls) /\ (MLGroup.RemainingQty <$> m.(groups) !! 0%nat) = Some 5%Z /\
  (MLGroup.SingleSLBrokerID <$> m.(groups) !! 0%nat) = Some "0".
Proof.
  split; [vm_compute; auto|].
  destruct (live_position.(groups) !! 0%nat) as [g|] eqn:Hg; [|vm_compute in Hg; discriminate].
  assert (Hs : (MLGroup.SingleSLBrokerID <$> live_position.(groups) !! 0%nat) = Some "0") by (vm_compute; reflexivity).
  assert (Hf : (list_find (fun l => l.(Level.LevelNum) = 1%Z) ∘ levels_of TP <$> live_position.(groups) !! 0%nat) =
               Some (head (imap pair (default [] (MLGroup.TPLevels <$> live_position.(groups) !! 0%nat)))))
    by (vm_compute; reflexivity).
  assert (Hq : (MLGroup.RemainingQty <$> live_position.(groups) !! 0%nat) = Some 10%Z) by (vm_compute; reflexivity).
  assert (Hl : (fun il : nat * Level.t => (il.2.(Level.ExitQty), il.2.(Level.Status))) <$>
               head (imap pair (default [] (MLGroup.TPLevels <$> live_position.(groups) !! 0%nat))) =
               Some (5%Z, LevelActive)) by (vm_compute; reflexivity).
  rewrite Hg in Hs, Hf, Hq, Hl. cbn -[list_find levels_of imap] in Hs, Hf, Hq, Hl.
  injection Hs as Hs. injection Hf as Hf. injection Hq as Hq.
  destruct (head (imap pair (MLGroup.TPLevels g))) as [[i l]|]; [|discriminate]. cbn in Hl. injection Hl as He Ha.
  destruct (level_fill_keeps_single_stop 6 0 TP 1 (Some (of_Z 101)) live_position g i l Hg Hf Ha) as (H1 & _ & g' & Hg' & H3 & H4).
  { rewrite He, Hq. reflexivity. }
  split; [exact H1|]. rewrite Hg'. cbn. rewrite H3, H4, Hs, He, Hq. split; reflexivity.
Defined.

(** The same position after a restart: the group is restored, and the report that
    the first take-profit was executed changes nothing. *)
Definition filled_entry : Order.t :=
  example_entry "LIVE" <| Order.Status := "FILLED" |> <| Order.FilledQuantity := 10%Z |>
    <| Order.FilledPrice := Some (of_Z 100) |>.

Definition reloaded : (string + ReloadStats) * MLManager N :=
  Reload false (NewMLManager 200%N 9%N (mkTable {[7%N := filled_entry]} []) live_position.(mlevels)).

Definition tp_report : Order.t := Order.zero <| Order.IndiraOrderID := Some "1" |>.

Lemma restart_forgets_exit_orders_witness :
  length (HandleBrokerUpdate tp_report "EXECUTED" live_position).(mtasks) = S (length live_position.(mtasks)) /\
  reloaded.1 = inr (mkReloadStats 1 1 0 4 0) /\ HandleBrokerUpdate tp_report "EXECUTED" reloaded.2 = reloaded.2.
Proof.
  split; [vm_compute; reflexivity|]. split; [vm_compute; reflexivity|].
  assert (Hn : no_ids ∅) by (intros k r H; rewrite lookup_empty in H; discriminate).
  unfold reloaded, live_position, run_example, fresh_manager.
  exact (restart_forgets_exit_orders None no_string 100%N 0%N (mkTable ∅ []) ∅ live_run Hn 200%N 9%N
           (mkTable {[7%N := filled_entry]} []) false tp_report "EXECUTED").
Defined.
