(* ===== verification/UCModels.v ===== *)
(** * The user configuration service: rows, requests and validation

    [user-config/internal/models/strategy.go], the validation of requests
    ([internal/service/strategy_service.go]), and the tables of the service's
    database ([migrations/]).  A JSON value is the record it encodes: what the
    outbox stores is decoded from it by [decode_full] and [decode_thin].  A time
    is a number of nanoseconds; [json.Marshal] fails exactly on NaN and the
    infinities. *)

From stdpp Require Import base gmap strings list sorting.
From Stdlib Require Import ZArith Lia Bool SpecFloat.
From S2P Require Import Prelude GoFloat GoStrings RuleModels ConfigStore ConfigSync.

Open Scope string_scope.
Open Scope list_scope.
Open Scope Z_scope.

(** ** Models ([models/strategy.go]) *)

Definition TradingModePaper := "PAPER".
Definition TradingModeLive := "LIVE".
Definition UCSLModeTrailing := "TRAILING".
Definition UCSLModeMultiLevel := "MULTI_LEVEL".
Definition UCTPModeFixed := "FIXED".
Definition UCTPModeMultiLevel := "MULTI_LEVEL".
Definition MaxMultiLevelExits : Z := 5.

Module UCondition.
Record t := mk {
  ConditionID : uuid;
  StrategyID : uuid;
  MatchAllNews : bool;
  ImpactScoreMin : Z;
  ImpactScoreMax : Z;
  Sentiments : list string;
  Categories : list string;
  MinMarketCap : option f64;
  MaxMarketCap : option f64;
  MarketCapTypes : list string;
  MinPriceChangePct : option f64;
  MaxPriceChangePct : option f64;
  Exchanges : list string;
  CreatedAt : Z
}.
#[global] Instance eta_ucondition : Eta t := fun c =>
  mk c.(ConditionID) c.(StrategyID) c.(MatchAllNews) c.(ImpactScoreMin) c.(ImpactScoreMax)
     c.(Sentiments) c.(Categories) c.(MinMarketCap) c.(MaxMarketCap) c.(MarketCapTypes)
     c.(MinPriceChangePct) c.(MaxPriceChangePct) c.(Exchanges) c.(CreatedAt).
End UCondition.

(** [MultiLevelExitLevel]. *)
Record UCLevel := MkUCLevel { uc_LevelNum : Z; uc_PricePct : f64; uc_QtyPct : f64 }.

Module UTradeConfig.
Record t := mk {
  TradeConfigID : uuid;
  StrategyID : uuid;
  OrderType : string;
  ProductType : string;
  Validity : string;
  Quantity : Z;
  Exchange : string;
  OrderSide : string;
  MaxPositionSize : option f64;
  LimitPrice : option f64;
  StopLossPct : option f64;
  TakeProfitPct : option f64;
  TrailingSLPct : option f64;
  StopLossType : string;
  TakeProfitType : string;
  MultiLevelSL : list UCLevel;
  MultiLevelTP : list UCLevel;
  TradeWindowStart : string;
  TradeWindowEnd : string;
  CreatedAt : Z
}.
#[global] Instance eta_utradeconfig : Eta t := fun c =>
  mk c.(TradeConfigID) c.(StrategyID) c.(OrderType) c.(ProductType) c.(Validity) c.(Quantity)
     c.(Exchange) c.(OrderSide) c.(MaxPositionSize) c.(LimitPrice) c.(StopLossPct)
     c.(TakeProfitPct) c.(TrailingSLPct) c.(StopLossType) c.(TakeProfitType) c.(MultiLevelSL)
     c.(MultiLevelTP) c.(TradeWindowStart) c.(TradeWindowEnd) c.(CreatedAt).
End UTradeConfig.

Module URiskLimits.
Record t := mk {
  RiskLimitID : uuid;
  StrategyID : uuid;
  MaxDailyTrades : option Z;
  MaxPerTradeRisk : option f64;
  MaxPortfolioExposurePct : option f64;
  MaxLossPerDay : option f64;
  EnableRiskChecks : bool;
  EnableAutoSquareOff : bool;
  AutoSquareOffTime : string;
  MaxAmountPerStock : option f64;
  MaxTradesPerStrategy : option Z;
  CreatedAt : Z
}.
#[global] Instance eta_urisklimits : Eta t := fun c =>
  mk c.(RiskLimitID) c.(StrategyID) c.(MaxDailyTrades) c.(MaxPerTradeRisk)
     c.(MaxPortfolioExposurePct) c.(MaxLossPerDay) c.(EnableRiskChecks) c.(EnableAutoSquareOff)
     c.(AutoSquareOffTime) c.(MaxAmountPerStock) c.(MaxTradesPerStrategy) c.(CreatedAt).
End URiskLimits.

(** [Strategy]; a row of the table [strategies] is one without its three parts. *)
Module UStrategy.
Record t := mk {
  StrategyID : uuid;
  UserID : string;
  StrategyName : string;
  Description : string;
  Active : bool;
  TradingMode : string;
  Version : Z;
  CreatedAt : Z;
  UpdatedAt : Z;
  DeletedAt : option Z;
  Conditions : option UCondition.t;
  TradeConfig : option UTradeConfig.t;
  RiskLimits : option URiskLimits.t
}.
#[global] Instance eta_ustrategy : Eta t := fun c =>
  mk c.(StrategyID) c.(UserID) c.(StrategyName) c.(Description) c.(Active) c.(TradingMode)
     c.(Version) c.(CreatedAt) c.(UpdatedAt) c.(DeletedAt) c.(Conditions) c.(TradeConfig)
     c.(RiskLimits).
End UStrategy.

Module IndiraAuthContext.
Record t := mk { UserID : string; AppID : string; Source : string; BearerToken : string }.
End IndiraAuthContext.

Module CreateStrategyRequest.
Record t := mk {
  UserID : string;
  StrategyName : string;
  Description : string;
  Conditions : option UCondition.t;
  TradeConfig : option UTradeConfig.t;
  RiskLimits : option URiskLimits.t;
  ActivateImmediately : bool;
  TradingMode : string;
  IndiraAuth : option IndiraAuthContext.t
}.
#[global] Instance eta_createreq : Eta t := fun c =>
  mk c.(UserID) c.(StrategyName) c.(Description) c.(Conditions) c.(TradeConfig) c.(RiskLimits)
     c.(ActivateImmediately) c.(TradingMode) c.(IndiraAuth).
End CreateStrategyRequest.

Module UpdateStrategyRequest.
Record t := mk {
  StrategyID : uuid;
  UserID : string;
  StrategyName : option string;
  Description : option string;
  Conditions : option UCondition.t;
  TradeConfig : option UTradeConfig.t;
  RiskLimits : option URiskLimits.t;
  TradingMode : option string;
  Version : Z;
  IndiraAuth : option IndiraAuthContext.t
}.
End UpdateStrategyRequest.

(** ** JSON *)

Definition f64_json (x : f64) : bool :=
  match x with S754_zero _ | S754_finite _ _ _ => true | _ => false end.

Definition opt_json (o : option f64) : bool := from_option f64_json true o.

Definition level_json (l : UCLevel) : bool := f64_json l.(uc_PricePct) && f64_json l.(uc_QtyPct).

Definition condition_json (c : UCondition.t) : bool :=
  opt_json c.(UCondition.MinMarketCap) && opt_json c.(UCondition.MaxMarketCap)
  && opt_json c.(UCondition.MinPriceChangePct) && opt_json c.(UCondition.MaxPriceChangePct).

Definition trade_json (c : UTradeConfig.t) : bool :=
  opt_json c.(UTradeConfig.MaxPositionSize) && opt_json c.(UTradeConfig.LimitPrice)
  && opt_json c.(UTradeConfig.StopLossPct) && opt_json c.(UTradeConfig.TakeProfitPct)
  && opt_json c.(UTradeConfig.TrailingSLPct)
  && forallb level_json c.(UTradeConfig.MultiLevelSL)
  && forallb level_json c.(UTradeConfig.MultiLevelTP).

Definition limits_json (c : URiskLimits.t) : bool :=
  opt_json c.(URiskLimits.MaxPerTradeRisk) && opt_json c.(URiskLimits.MaxPortfolioExposurePct)
  && opt_json c.(URiskLimits.MaxLossPerDay) && opt_json c.(URiskLimits.MaxAmountPerStock).

(** Does [json.Marshal] accept the strategy? *)
Definition strategy_json (s : UStrategy.t) : bool :=
  from_option condition_json true s.(UStrategy.Conditions)
  && from_option trade_json true s.(UStrategy.TradeConfig)
  && from_option limits_json true s.(UStrategy.RiskLimits).

(** The payload of an outbox row.  [PayloadBad] is text that is not the JSON
    object expected. *)
Inductive Payload : Type :=
  | PayloadEmpty
  | PayloadBad
  | PayloadFull (s : UStrategy.t)
  | PayloadThin (strategy_id user_id : string) (version : Z).

(** [ExecutionOutbox]. *)
Module Outbox.
Record t := mk {
  ID : Z;
  AggregateID : uuid;
  EventType : string;
  Payload : Payload;
  CreatedAt : Z;
  Processed : bool
}.
#[global] Instance eta_outbox : Eta t := fun c =>
  mk c.(ID) c.(AggregateID) c.(EventType) c.(Payload) c.(CreatedAt) c.(Processed).
End Outbox.

(** ** Validation ([service/strategy_service.go]) *)

Inductive ValidationError : Type :=
  | ErrRequired (field : string)
  | ErrTradingMode (mode : string)
  | ErrImpactMin | ErrImpactMax | ErrImpactOrder
  | ErrQuantityPositive | ErrQuantityNegative
  | ErrOrderSide | ErrStopLossNegative | ErrTakeProfitNegative
  | ErrLevelsEmpty (field : string)
  | ErrLevelsUnexpected (field type : string)
  | ErrTrailingAndLevels
  | ErrTooManyLevels (field : string)
  | ErrLevelNum (field : string) (index : Z)
  | ErrPriceNotPositive (field : string) (level : Z)
  | ErrPriceNotIncreasing (field : string) (level : Z)
  | ErrQtyNotPositive (field : string) (level : Z)
  | ErrQtySum (field : string).

(** The loop of [validateLevels] from index [i]: the sum of the quantities. *)
Fixpoint level_loop (field : string) (i : Z) (totalQty prev : f64) (levels : list UCLevel)
    : ValidationError + f64 :=
  match levels with
  | [] => inr totalQty
  | l :: rest =>
    if negb (l.(uc_LevelNum) =? i + 1) then inl (ErrLevelNum field i)
    else if fle l.(uc_PricePct) fzero then inl (ErrPriceNotPositive field l.(uc_LevelNum))
    else if fle l.(uc_PricePct) prev then inl (ErrPriceNotIncreasing field l.(uc_LevelNum))
    else if fle l.(uc_QtyPct) fzero then inl (ErrQtyNotPositive field l.(uc_LevelNum))
    else level_loop field (i + 1) (fadd totalQty l.(uc_QtyPct)) l.(uc_PricePct) rest
  end.

Definition validateLevels (field : string) (levels : list UCLevel) : option ValidationError :=
  if MaxMultiLevelExits <? Z.of_nat (length levels) then Some (ErrTooManyLevels field)
  else
    match level_loop field 0 fzero fzero levels with
    | inl e => Some e
    | inr totalQty =>
      if flt totalQty (dec 9999 2) || flt (dec 10001 2) totalQty then Some (ErrQtySum field)
      else None
    end.

(** One side of [validateMultiLevelConfig]. *)
Definition validate_side (field type : string) (levels : list UCLevel) : option ValidationError :=
  if String.eqb type UCSLModeMultiLevel then
    if bool_decide (levels = []) then Some (ErrLevelsEmpty field) else validateLevels field levels
  else if negb (bool_decide (levels = [])) then Some (ErrLevelsUnexpected field type)
  else None.

Definition or_else {E : Type} (a : option E) (b : option E) : option E :=
  match a with Some e => Some e | None => b end.

Definition validateMultiLevelConfig (tc : option UTradeConfig.t) : option ValidationError :=
  match tc with
  | None => None
  | Some tc =>
    let tpType := if String.eqb tc.(UTradeConfig.TakeProfitType) "" then UCTPModeFixed
                  else tc.(UTradeConfig.TakeProfitType) in
    or_else (validate_side "multi_level_sl" tc.(UTradeConfig.StopLossType)
               tc.(UTradeConfig.MultiLevelSL))
      (or_else (validate_side "multi_level_tp" tpType tc.(UTradeConfig.MultiLevelTP))
         (if String.eqb tc.(UTradeConfig.StopLossType) UCSLModeTrailing
             && negb (bool_decide (tc.(UTradeConfig.MultiLevelSL) = []))
          then Some ErrTrailingAndLevels else None))
  end.

Definition check (b : bool) (e : ValidationError) : option ValidationError :=
  if b then Some e else None.

(** The first failed check. *)
Definition first_error (l : list (option ValidationError)) : option ValidationError :=
  foldr or_else None l.

Definition mode_unknown (mode : string) : bool :=
  negb (String.eqb mode TradingModePaper) && negb (String.eqb mode TradingModeLive).

Definition validate_impact (c : UCondition.t) : list (option ValidationError) :=
  let lo := c.(UCondition.ImpactScoreMin) in
  let hi := c.(UCondition.ImpactScoreMax) in
  [check ((lo <? 0) || (10 <? lo)) ErrImpactMin;
   check ((hi <? 0) || (10 <? hi)) ErrImpactMax;
   check (hi <? lo) ErrImpactOrder].

Definition amount_based (limits : option URiskLimits.t) : bool :=
  match limits with
  | Some r => from_option (flt fzero) false r.(URiskLimits.MaxAmountPerStock)
  | None => false
  end.

Definition negative (o : option f64) : bool := from_option (fun x => flt x fzero) false o.

Definition validate_quantity (amountBased : bool) (q : Z) : list (option ValidationError) :=
  [check (negb amountBased && (q <=? 0)) ErrQuantityPositive;
   check (amountBased && (q <? 0)) ErrQuantityNegative].

Definition validate_exits (tc : UTradeConfig.t) : list (option ValidationError) :=
  [check (negative tc.(UTradeConfig.StopLossPct)) ErrStopLossNegative;
   check (negative tc.(UTradeConfig.TakeProfitPct)) ErrTakeProfitNegative;
   validateMultiLevelConfig (Some tc)].

(** [validateCreateRequest]: the request with its trading mode filled in, and
    the first failed check. *)
Definition validateCreateRequest (req : CreateStrategyRequest.t)
    : CreateStrategyRequest.t * option ValidationError :=
  let given := req.(CreateStrategyRequest.TradingMode) in
  let mode := if String.eqb given "" then TradingModePaper else given in
  let early := first_error
    [check (String.eqb req.(CreateStrategyRequest.UserID) "") (ErrRequired "user_id");
     check (String.eqb req.(CreateStrategyRequest.StrategyName) "") (ErrRequired "strategy_name")]
  in
  match early, req.(CreateStrategyRequest.Conditions), req.(CreateStrategyRequest.TradeConfig),
        req.(CreateStrategyRequest.RiskLimits) with
  | Some e, _, _, _ => (req, Some e)
  | None, None, _, _ => (req, Some (ErrRequired "conditions"))
  | None, Some _, None, _ => (req, Some (ErrRequired "trade_config"))
  | None, Some _, Some _, None => (req, Some (ErrRequired "risk_limits"))
  | None, Some c, Some tc, Some rl =>
    ((req <| CreateStrategyRequest.TradingMode := mode |>)%go,
     first_error
       (check (mode_unknown mode) (ErrTradingMode mode) :: validate_impact c
        ++ validate_quantity (amount_based (Some rl)) tc.(UTradeConfig.Quantity)
        ++ [check (String.eqb tc.(UTradeConfig.OrderType) "") (ErrRequired "order_type");
            check (String.eqb tc.(UTradeConfig.Exchange) "") (ErrRequired "exchange");
            check (negb (one_of tc.(UTradeConfig.OrderSide) ["BUY"; "SELL"])) ErrOrderSide]
        ++ validate_exits tc))
  end.

Definition validateUpdateRequest (req : UpdateStrategyRequest.t) : option ValidationError :=
  first_error
    ([check (req.(UpdateStrategyRequest.StrategyID) =? 0)%N (ErrRequired "strategy_id");
      check (String.eqb req.(UpdateStrategyRequest.UserID) "") (ErrRequired "user_id");
      check (req.(UpdateStrategyRequest.Version) <? 1) (ErrRequired "version")]
     ++ from_option validate_impact [] req.(UpdateStrategyRequest.Conditions)
     ++ from_option (fun tc =>
          validate_quantity (amount_based req.(UpdateStrategyRequest.RiskLimits))
            tc.(UTradeConfig.Quantity) ++ validate_exits tc) []
          req.(UpdateStrategyRequest.TradeConfig)
     ++ [from_option (fun m => check (mode_unknown m) (ErrTradingMode m)) None
           req.(UpdateStrategyRequest.TradingMode)]).
