(* ===== verification/UCRepo.v ===== *)
(** * The strategy repository

    [user-config/internal/repository/strategy_repository.go].  A transaction
    runs its statements on a copy of the tables; it is committed as a whole or
    leaves the tables unchanged.  [Io] says, per statement of a call, whether the
    database executed it: a failure stands for a lost connection, a timeout, a
    value too long for its column.  As in PostgreSQL a failed statement aborts
    its transaction: every later statement and the commit fail.  A commit whose
    answer is lost may or may not have been applied.  [CURRENT_TIMESTAMP] is the
    start of the transaction. *)

From stdpp Require Import base gmap strings list sorting.
From Stdlib Require Import ZArith Lia Bool.
From S2P Require Import Prelude GoFloat GoStrings RuleModels ConfigStore ConfigSync UCModels.

Open Scope string_scope.
Open Scope list_scope.
Open Scope Z_scope.

(** ** Tables *)

Module DB.
Record t := mk {
  strategies : gmap uuid UStrategy.t;
  strategy_conditions : gmap uuid UCondition.t;
  trade_configs : gmap uuid UTradeConfig.t;
  risk_limits : gmap uuid URiskLimits.t;
  execution_outbox : list Outbox.t;
  outbox_seq : Z
}.
#[global] Instance eta_db : Eta t := fun d =>
  mk d.(strategies) d.(strategy_conditions) d.(trade_configs) d.(risk_limits)
     d.(execution_outbox) d.(outbox_seq).
Definition empty : t := mk ∅ ∅ ∅ ∅ [] 0.
End DB.

Inductive SqlError : Type := SqlNoRows | Sql23505 | SqlFailed.

Inductive RepoError : Type :=
  | ErrBegin
  | ErrCommit
  | ErrStatement (what : string)
  | ErrNotFound
  | ErrVersionMismatch
  | ErrNameExists
  | ErrMarshal (what : string).

(** What the database does during one call. *)
Module Io.
Record t := mk { Now : Z; Ok : nat -> bool; CommitApplied : bool }.
End Io.

(** ** Transactions *)

Record TxState := MkTx { tx_stmt : nat; tx_aborted : bool; tx_db : DB.t }.

Definition TX (A : Type) : Type := TxState -> (RepoError + A) * TxState.

#[export] Instance tx_ret : MRet TX := fun A a t => (inr a, t).

#[export] Instance tx_bind : MBind TX := fun A B k m t =>
  match m t with
  | (inl e, t') => (inl e, t')
  | (inr a, t') => k a t'
  end.

Definition raise {A : Type} (e : RepoError) : TX A := fun t => (inl e, t).

(** One statement; the result is the [err] the code looks at. *)
Definition statement {A : Type} (io : Io.t) (f : DB.t -> SqlError + (A * DB.t))
    : TX (SqlError + A) := fun t =>
  let n := S t.(tx_stmt) in
  if t.(tx_aborted) || negb (io.(Io.Ok) t.(tx_stmt)) then
    (inr (inl SqlFailed), MkTx n true t.(tx_db))
  else
    match f t.(tx_db) with
    | inl SqlNoRows => (inr (inl SqlNoRows), MkTx n t.(tx_aborted) t.(tx_db))
    | inl e => (inr (inl e), MkTx n true t.(tx_db))
    | inr (a, db) => (inr (inr a), MkTx n t.(tx_aborted) db)
    end.

(** [if err != nil] with the error the code returns for it. *)
Definition or_raise {A : Type} (f : SqlError -> RepoError) (r : SqlError + A) : TX A :=
  match r with inl e => raise (f e) | inr a => mret a end.

Definition exec {A : Type} (io : Io.t) (what : string) (f : DB.t -> SqlError + (A * DB.t)) : TX A :=
  statement io f ≫= or_raise (fun _ => ErrStatement what).

(** [BeginTxx], the body, [Commit] or the deferred [Rollback]. *)
Definition transaction {A : Type} (io : Io.t) (body : TX A) (db : DB.t) : (RepoError + A) * DB.t :=
  if negb (io.(Io.Ok) 0%nat) then (inl ErrBegin, db)
  else
    match body (MkTx 1 false db) with
    | (inl e, _) => (inl e, db)
    | (inr a, t) =>
      if t.(tx_aborted) then (inl ErrCommit, db)
      else if io.(Io.Ok) t.(tx_stmt) then (inr a, t.(tx_db))
      else (inl ErrCommit, if io.(Io.CommitApplied) then t.(tx_db) else db)
    end.

(** ** Statements *)

Definition max_int32 : Z := 2 ^ 31 - 1.

Definition rows (db : DB.t) : list UStrategy.t := (map_to_list db.(DB.strategies)).*2.

Definition not_deleted (s : UStrategy.t) : bool := bool_decide (s.(UStrategy.DeletedAt) = None).

(** The index [uq_strategies_user_name] has an entry of another strategy. *)
Definition name_taken (db : DB.t) (id : uuid) (user name : string) : bool :=
  existsb (fun s => not_deleted s && String.eqb s.(UStrategy.UserID) user
                    && String.eqb s.(UStrategy.StrategyName) name
                    && negb (s.(UStrategy.StrategyID) =? id)%N) (rows db).

(** The row of a strategy: the parts are in tables of their own. *)
Definition row_of (s : UStrategy.t) : UStrategy.t :=
  (s <| UStrategy.Conditions := None |> <| UStrategy.TradeConfig := None |>
     <| UStrategy.RiskLimits := None |>)%go.

Definition sql_insert_strategy (s : UStrategy.t) (db : DB.t) : SqlError + (unit * DB.t) :=
  if mode_unknown s.(UStrategy.TradingMode) then inl SqlFailed
  else if bool_decide (is_Some (db.(DB.strategies) !! s.(UStrategy.StrategyID)))
       || name_taken db s.(UStrategy.StrategyID) s.(UStrategy.UserID) s.(UStrategy.StrategyName)
  then inl Sql23505
  else inr (tt, (db <| DB.strategies :=
                   <[s.(UStrategy.StrategyID) := row_of s]> db.(DB.strategies) |>)%go).

Definition sql_insert_outbox (now : Z) (id : uuid) (type : string) (p : Payload) (db : DB.t)
    : SqlError + (unit * DB.t) :=
  let seq := db.(DB.outbox_seq) + 1 in
  inr (tt, (db <| DB.execution_outbox :=
                 db.(DB.execution_outbox) ++ [Outbox.mk seq id type p now false] |>
               <| DB.outbox_seq := seq |>)%go).

(** An insertion into a table whose [strategy_id] is unique. *)
Definition sql_insert_part {P : Type} (get : DB.t -> gmap uuid P)
    (put : gmap uuid P -> DB.t -> DB.t) (id : uuid) (p : P) (db : DB.t)
    : SqlError + (unit * DB.t) :=
  match get db !! id with
  | Some _ => inl Sql23505
  | None => inr (tt, put (<[id := p]> (get db)) db)
  end.

Definition put_conditions (m : gmap uuid UCondition.t) (db : DB.t) : DB.t :=
  (db <| DB.strategy_conditions := m |>)%go.
Definition put_trade (m : gmap uuid UTradeConfig.t) (db : DB.t) : DB.t :=
  (db <| DB.trade_configs := m |>)%go.
Definition put_limits (m : gmap uuid URiskLimits.t) (db : DB.t) : DB.t :=
  (db <| DB.risk_limits := m |>)%go.

Definition sql_select {P : Type} (get : DB.t -> gmap uuid P) (id : uuid) (db : DB.t)
    : SqlError + (P * DB.t) :=
  match get db !! id with Some p => inr (p, db) | None => inl SqlNoRows end.

(** [UPDATE strategies SET ... WHERE ... RETURNING ...] for one row. *)
Definition sql_update_row (id : uuid) (where_ : UStrategy.t -> bool)
    (change : UStrategy.t -> UStrategy.t) (db : DB.t) : SqlError + (UStrategy.t * DB.t) :=
  match db.(DB.strategies) !! id with
  | None => inl SqlNoRows
  | Some s =>
    if negb (where_ s) then inl SqlNoRows
    else if max_int32 <=? s.(UStrategy.Version) then inl SqlFailed
    else
      let s := change s in
      if mode_unknown s.(UStrategy.TradingMode) then inl SqlFailed
      else if not_deleted s
              && name_taken db id s.(UStrategy.UserID) s.(UStrategy.StrategyName)
      then inl Sql23505
      else inr (s, (db <| DB.strategies := <[id := s]> db.(DB.strategies) |>)%go)
  end.

(** [version = version + 1, updated_at = CURRENT_TIMESTAMP]. *)
Definition bump (now : Z) (s : UStrategy.t) : UStrategy.t :=
  (s <| UStrategy.Version := s.(UStrategy.Version) + 1 |> <| UStrategy.UpdatedAt := now |>)%go.

(** [marshalMultiLevel] fails on NaN and the infinities. *)
Definition marshalMultiLevel (what : string) (levels : list UCLevel) : TX unit :=
  if forallb level_json levels then mret tt else raise (ErrMarshal what).

Section Repository.

(** How PostgreSQL keeps a value in a column [NUMERIC(20, 4)]; [None] when it is
    out of range. *)
Context (numeric_20_4 : f64 -> option f64) (uuid_string : uuid -> string).

(** A limit as its row has it. *)
Definition stored_limits (rl : URiskLimits.t) : option URiskLimits.t :=
  match rl.(URiskLimits.MaxAmountPerStock) with
  | None => Some rl
  | Some x =>
    (fun y => (rl <| URiskLimits.MaxAmountPerStock := Some y |>)%go) <$> numeric_20_4 x
  end.

Definition sql_insert_limits (id : uuid) (rl : URiskLimits.t) (db : DB.t)
    : SqlError + (unit * DB.t) :=
  match stored_limits rl with
  | None => inl SqlFailed
  | Some rl => sql_insert_part DB.risk_limits put_limits id rl db
  end.

(** The columns a trade configuration is stored in: not the position size. *)
Definition stored_trade (tc : UTradeConfig.t) : UTradeConfig.t :=
  (tc <| UTradeConfig.MaxPositionSize := None |>)%go.

(** ** [Create] *)

Definition insert_conditions (io : Io.t) (condID : uuid) (c : option UCondition.t)
    (s : UStrategy.t) : TX UStrategy.t :=
  match c with
  | None => mret s
  | Some c =>
    let c := (c <| UCondition.ConditionID := condID |>
                <| UCondition.StrategyID := s.(UStrategy.StrategyID) |>
                <| UCondition.CreatedAt := io.(Io.Now) |>)%go in
    exec io "failed to insert conditions"
      (sql_insert_part DB.strategy_conditions put_conditions s.(UStrategy.StrategyID) c) ;;
    mret (s <| UStrategy.Conditions := Some c |>)%go
  end.

Definition insert_trade (io : Io.t) (tcID : uuid) (tc : option UTradeConfig.t)
    (s : UStrategy.t) : TX UStrategy.t :=
  match tc with
  | None => mret s
  | Some tc =>
    marshalMultiLevel "multi_level_sl" tc.(UTradeConfig.MultiLevelSL) ;;
    marshalMultiLevel "multi_level_tp" tc.(UTradeConfig.MultiLevelTP) ;;
    let tc := (tc <| UTradeConfig.TradeConfigID := tcID |>
                  <| UTradeConfig.StrategyID := s.(UStrategy.StrategyID) |>
                  <| UTradeConfig.CreatedAt := io.(Io.Now) |>)%go in
    exec io "failed to insert trade config"
      (sql_insert_part DB.trade_configs put_trade s.(UStrategy.StrategyID) (stored_trade tc)) ;;
    mret (s <| UStrategy.TradeConfig := Some tc |>)%go
  end.

Definition insert_limits (io : Io.t) (rlID : uuid) (rl : option URiskLimits.t)
    (s : UStrategy.t) : TX UStrategy.t :=
  match rl with
  | None => mret s
  | Some rl =>
    let rl := (rl <| URiskLimits.RiskLimitID := rlID |>
                  <| URiskLimits.StrategyID := s.(UStrategy.StrategyID) |>
                  <| URiskLimits.CreatedAt := io.(Io.Now) |>)%go in
    exec io "failed to insert risk limits" (sql_insert_limits s.(UStrategy.StrategyID) rl) ;;
    mret (s <| UStrategy.RiskLimits := Some rl |>)%go
  end.

Definition insert_error (e : SqlError) : RepoError :=
  match e with Sql23505 => ErrNameExists | _ => ErrStatement "failed to insert strategy" end.

(** The row of a request; the identifiers are what [uuid.New] returned. *)
Definition new_strategy (io : Io.t) (newID : uuid) (req : CreateStrategyRequest.t) : UStrategy.t :=
  UStrategy.mk newID req.(CreateStrategyRequest.UserID) req.(CreateStrategyRequest.StrategyName)
    req.(CreateStrategyRequest.Description) req.(CreateStrategyRequest.ActivateImmediately)
    req.(CreateStrategyRequest.TradingMode) 1 io.(Io.Now) io.(Io.Now) None None None None.

Definition Create (io : Io.t) (newID condID tcID rlID : uuid) (req : CreateStrategyRequest.t)
    : DB.t -> (RepoError + UStrategy.t) * DB.t :=
  transaction io (
    let s := new_strategy io newID req in
    (statement io (sql_insert_strategy s) ≫= or_raise insert_error) ;;
    s ← insert_conditions io condID req.(CreateStrategyRequest.Conditions) s;
    s ← insert_trade io tcID req.(CreateStrategyRequest.TradeConfig) s;
    s ← insert_limits io rlID req.(CreateStrategyRequest.RiskLimits) s;
    if strategy_json s then
      exec io "failed to insert into execution outbox"
        (sql_insert_outbox io.(Io.Now) newID "STRATEGY_CREATED" (PayloadFull s)) ;;
      mret s
    else raise (ErrMarshal "strategy")).

(** ** [Update] *)

Definition coalesce {A : Type} (new : option A) (old : A) : A := default old new.

(** The optimistic lock. *)
Definition update_where (req : UpdateStrategyRequest.t) (s : UStrategy.t) : bool :=
  String.eqb s.(UStrategy.UserID) req.(UpdateStrategyRequest.UserID)
  && (s.(UStrategy.Version) =? req.(UpdateStrategyRequest.Version)) && not_deleted s.

Definition update_set (now : Z) (req : UpdateStrategyRequest.t) (s : UStrategy.t) : UStrategy.t :=
  bump now (s
    <| UStrategy.StrategyName := coalesce req.(UpdateStrategyRequest.StrategyName) s.(UStrategy.StrategyName) |>
    <| UStrategy.Description := coalesce req.(UpdateStrategyRequest.Description) s.(UStrategy.Description) |>
    <| UStrategy.TradingMode := coalesce req.(UpdateStrategyRequest.TradingMode) s.(UStrategy.TradingMode) |>)%go.

Definition update_error (e : SqlError) : RepoError :=
  match e with
  | SqlNoRows => ErrVersionMismatch
  | Sql23505 => ErrNameExists
  | SqlFailed => ErrStatement "failed to update strategy"
  end.

(** The columns an update of the conditions writes. *)
Definition set_conditions (new old : UCondition.t) : UCondition.t :=
  (new <| UCondition.ConditionID := old.(UCondition.ConditionID) |>
       <| UCondition.StrategyID := old.(UCondition.StrategyID) |>
       <| UCondition.CreatedAt := old.(UCondition.CreatedAt) |>)%go.

Definition set_trade (new old : UTradeConfig.t) : UTradeConfig.t :=
  (stored_trade new
       <| UTradeConfig.TradeConfigID := old.(UTradeConfig.TradeConfigID) |>
       <| UTradeConfig.StrategyID := old.(UTradeConfig.StrategyID) |>
       <| UTradeConfig.CreatedAt := old.(UTradeConfig.CreatedAt) |>)%go.

Definition set_limits (new old : URiskLimits.t) : URiskLimits.t :=
  (new <| URiskLimits.RiskLimitID := old.(URiskLimits.RiskLimitID) |>
       <| URiskLimits.StrategyID := old.(URiskLimits.StrategyID) |>
       <| URiskLimits.CreatedAt := old.(URiskLimits.CreatedAt) |>)%go.

Definition sql_update_part {P : Type} (get : DB.t -> gmap uuid P)
    (put : gmap uuid P -> DB.t -> DB.t) (id : uuid) (change : P -> P) (db : DB.t)
    : SqlError + (unit * DB.t) := inr (tt, put (alter change id (get db)) db).

Definition update_conditions (io : Io.t) (id : uuid) (c : option UCondition.t) : TX unit :=
  match c with
  | None => mret tt
  | Some c => exec io "failed to update conditions"
      (sql_update_part DB.strategy_conditions put_conditions id (set_conditions c))
  end.

Definition update_trade (io : Io.t) (id : uuid) (tc : option UTradeConfig.t) : TX unit :=
  match tc with
  | None => mret tt
  | Some tc =>
    marshalMultiLevel "multi_level_sl" tc.(UTradeConfig.MultiLevelSL) ;;
    marshalMultiLevel "multi_level_tp" tc.(UTradeConfig.MultiLevelTP) ;;
    exec io "failed to update trade config"
      (sql_update_part DB.trade_configs put_trade id (set_trade tc))
  end.

Definition sql_update_limits (id : uuid) (rl : URiskLimits.t) (db : DB.t) : SqlError + (unit * DB.t) :=
  match stored_limits rl with
  | None => inl SqlFailed
  | Some rl => sql_update_part DB.risk_limits put_limits id (set_limits rl) db
  end.

Definition update_limits (io : Io.t) (id : uuid) (rl : option URiskLimits.t) : TX unit :=
  match rl with
  | None => mret tt
  | Some rl => exec io "failed to update risk limits" (sql_update_limits id rl)
  end.

(** A select whose error is ignored. *)
Definition peek {P : Type} (io : Io.t) (get : DB.t -> gmap uuid P) (id : uuid) : TX (option P) :=
  r ← statement io (sql_select get id);
  mret (match r with inr p => Some p | inl _ => None end).

(** The select of a trade configuration leaves the levels out; a second one of
    the two JSON columns adds them. *)
Definition without_levels (tc : UTradeConfig.t) : UTradeConfig.t :=
  (tc <| UTradeConfig.MultiLevelSL := [] |> <| UTradeConfig.MultiLevelTP := [] |>)%go.

Definition with_levels (levels : option UTradeConfig.t) (tc : UTradeConfig.t) : UTradeConfig.t :=
  match levels with
  | None => tc
  | Some l => (tc <| UTradeConfig.MultiLevelSL := l.(UTradeConfig.MultiLevelSL) |>
                  <| UTradeConfig.MultiLevelTP := l.(UTradeConfig.MultiLevelTP) |>)%go
  end.

Definition peek_trade (io : Io.t) (id : uuid) : TX (option UTradeConfig.t) :=
  tc ← peek io DB.trade_configs id;
  match tc with
  | None => mret None
  | Some tc =>
    levels ← peek io DB.trade_configs id;
    mret (Some (with_levels levels (without_levels tc)))
  end.

Definition Update (io : Io.t) (req : UpdateStrategyRequest.t)
    : DB.t -> (RepoError + UStrategy.t) * DB.t :=
  let id := req.(UpdateStrategyRequest.StrategyID) in
  transaction io (
    s ← (statement io (sql_update_row id (update_where req) (update_set io.(Io.Now) req))
         ≫= or_raise update_error);
    update_conditions io id req.(UpdateStrategyRequest.Conditions) ;;
    update_trade io id req.(UpdateStrategyRequest.TradeConfig) ;;
    update_limits io id req.(UpdateStrategyRequest.RiskLimits) ;;
    c ← peek io DB.strategy_conditions id;
    tc ← peek_trade io id;
    rl ← peek io DB.risk_limits id;
    let s := (s <| UStrategy.Conditions := c |> <| UStrategy.TradeConfig := tc |>
                <| UStrategy.RiskLimits := rl |>)%go in
    (if strategy_json s then
       exec io "failed to insert into execution outbox"
         (sql_insert_outbox io.(Io.Now) id "STRATEGY_UPDATED" (PayloadFull s))
     else mret tt) ;;
    mret s).

(** ** [Delete], [Activate], [Deactivate] *)

Definition thin_payload (s : UStrategy.t) : Payload :=
  PayloadThin (uuid_string s.(UStrategy.StrategyID)) s.(UStrategy.UserID) s.(UStrategy.Version).

(** The transaction the three share: one row, one outbox entry. *)
Definition change_row (io : Io.t) (id : uuid) (where_ : UStrategy.t -> bool)
    (change : UStrategy.t -> UStrategy.t) (err : SqlError -> RepoError) (type : string)
    : DB.t -> (RepoError + unit) * DB.t :=
  transaction io (
    s ← (statement io (sql_update_row id where_ change) ≫= or_raise err);
    exec io "failed to outbox" (sql_insert_outbox io.(Io.Now) id type (thin_payload s))).

Definition delete_set (now : Z) (s : UStrategy.t) : UStrategy.t :=
  bump now (s <| UStrategy.DeletedAt := Some now |> <| UStrategy.Active := false |>)%go.

(** The statement does not ask whether the strategy was deleted before. *)
Definition Delete (io : Io.t) (id : uuid) (user : string) : DB.t -> (RepoError + unit) * DB.t :=
  change_row io id (fun s => String.eqb s.(UStrategy.UserID) user) (delete_set io.(Io.Now))
    (fun e => match e with SqlNoRows => ErrNotFound
                         | _ => ErrStatement "failed to delete strategy" end)
    "STRATEGY_DELETED".

Definition owned (user : string) (s : UStrategy.t) : bool :=
  String.eqb s.(UStrategy.UserID) user && not_deleted s.

Definition set_active (now : Z) (b : bool) (s : UStrategy.t) : UStrategy.t :=
  bump now (s <| UStrategy.Active := b |>)%go.

Definition Activate (io : Io.t) (id : uuid) (user : string) : DB.t -> (RepoError + unit) * DB.t :=
  change_row io id (owned user) (set_active io.(Io.Now) true)
    (fun _ => ErrStatement "failed to activate strategy") "STRATEGY_ACTIVATED".

Definition Deactivate (io : Io.t) (id : uuid) (user : string) : DB.t -> (RepoError + unit) * DB.t :=
  change_row io id (owned user) (set_active io.(Io.Now) false)
    (fun _ => ErrStatement "failed to deactivate strategy") "STRATEGY_DEACTIVATED".

(** ** The bulk deactivations *)

Definition live (s : UStrategy.t) : bool := s.(UStrategy.Active) && not_deleted s.

(** [UPDATE ... WHERE ... RETURNING strategy_id, user_id, version]; the order of
    the returned rows is the one of [map_to_list]. *)
Definition sql_deactivate (now : Z) (where_ : UStrategy.t -> bool) (db : DB.t)
    : SqlError + (list UStrategy.t * DB.t) :=
  let hit s := live s && where_ s in
  let chosen := List.filter hit (rows db) in
  if existsb (fun s => max_int32 <=? s.(UStrategy.Version)) chosen then inl SqlFailed
  else
    inr (map (set_active now false) chosen,
         (db <| DB.strategies :=
            (fun s => if hit s then set_active now false s else s) <$> db.(DB.strategies) |>)%go).

(** One entry per row. *)
Definition outbox_rows (io : Io.t) (l : list UStrategy.t) : TX unit :=
  foldr (fun s k =>
    exec io "failed to insert outbox entry"
      (sql_insert_outbox io.(Io.Now) s.(UStrategy.StrategyID) "STRATEGY_DEACTIVATED"
         (thin_payload s)) ;; k) (mret tt) l.

Definition deactivate_all (io : Io.t) (where_ : DB.t -> UStrategy.t -> bool) (db : DB.t)
    : (RepoError + Z) * DB.t :=
  transaction io (
    l ← exec io "failed to bulk-deactivate strategies"
          (fun db => sql_deactivate io.(Io.Now) (where_ db) db);
    outbox_rows io l ;;
    mret (Z.of_nat (length l))) db.

Definition DeactivateAllActive (io : Io.t) : DB.t -> (RepoError + Z) * DB.t :=
  deactivate_all io (fun _ _ => true).

Definition DeactivateAllActiveByMode (io : Io.t) (tradingMode : string)
    : DB.t -> (RepoError + Z) * DB.t :=
  deactivate_all io (fun _ s => String.eqb s.(UStrategy.TradingMode) tradingMode).

(** The join with [risk_limits]. *)
Definition squares_off_at (time : string) (db : DB.t) (s : UStrategy.t) : bool :=
  match db.(DB.risk_limits) !! s.(UStrategy.StrategyID) with
  | Some rl => rl.(URiskLimits.EnableAutoSquareOff)
               && String.eqb rl.(URiskLimits.AutoSquareOffTime) time
  | None => false
  end.

Definition DeactivateActiveByAutoSquareOffTime (io : Io.t) (squareOffTime : string)
    : DB.t -> (RepoError + Z) * DB.t :=
  deactivate_all io (squares_off_at squareOffTime).

(** ** Reads

    Each statement stands on its own. *)

Inductive Read (P : Type) : Type := Found (p : P) | NoRow | ReadFailed.
#[global] Arguments Found {P}.
#[global] Arguments NoRow {P}.
#[global] Arguments ReadFailed {P}.

Definition read {P : Type} (ok : bool) (o : option P) : Read P :=
  if ok then match o with Some p => Found p | None => NoRow end else ReadFailed.

(** [loadMultiLevelConfig]: its failure is ignored. *)
Definition loadMultiLevelConfig (ok : bool) (db : DB.t) (tc : UTradeConfig.t) : UTradeConfig.t :=
  with_levels (if ok then db.(DB.trade_configs) !! tc.(UTradeConfig.StrategyID) else None)
    (without_levels tc).

Definition GetByID (io : Io.t) (id : uuid) (user : string) (db : DB.t) : RepoError + UStrategy.t :=
  let ok := io.(Io.Ok) in
  let row := match db.(DB.strategies) !! id with
             | Some s => if owned user s then Some s else None
             | None => None
             end in
  match read (ok 0%nat) row with
  | NoRow => inl ErrNotFound
  | ReadFailed => inl (ErrStatement "failed to get strategy")
  | Found s =>
    match read (ok 1%nat) (db.(DB.strategy_conditions) !! id) with
    | ReadFailed => inl (ErrStatement "failed to get conditions")
    | c =>
      match read (ok 2%nat) (db.(DB.trade_configs) !! id) with
      | ReadFailed => inl (ErrStatement "failed to get trade config")
      | tc =>
        match read (ok 4%nat) (db.(DB.risk_limits) !! id) with
        | ReadFailed => inl (ErrStatement "failed to get risk limits")
        | rl =>
          let opt {P} (r : Read P) : option P := match r with Found p => Some p | _ => None end in
          inr (s <| UStrategy.Conditions := opt c |>
                 <| UStrategy.TradeConfig := loadMultiLevelConfig (ok 3%nat) db <$> opt tc |>
                 <| UStrategy.RiskLimits := opt rl |>)%go
        end
      end
    end
  end.

(** The parts of a listed strategy; a failed select leaves the part out. *)
Definition attach (ok : uuid -> nat -> bool) (db : DB.t) (s : UStrategy.t) : UStrategy.t :=
  let id := s.(UStrategy.StrategyID) in
  let part {P} (n : nat) (m : gmap uuid P) : option P := if ok id n then m !! id else None in
  (s <| UStrategy.Conditions := part 1%nat db.(DB.strategy_conditions) |>
     <| UStrategy.TradeConfig :=
          loadMultiLevelConfig (ok id 3%nat) db <$> part 2%nat db.(DB.trade_configs) |>
     <| UStrategy.RiskLimits := part 4%nat db.(DB.risk_limits) |>)%go.

Definition newer_update (a b : UStrategy.t) : Prop := b.(UStrategy.UpdatedAt) <= a.(UStrategy.UpdatedAt).
Definition newer_creation (a b : UStrategy.t) : Prop := b.(UStrategy.CreatedAt) <= a.(UStrategy.CreatedAt).

#[local] Instance newer_update_dec : RelDecision newer_update.
Proof. intros a b. unfold newer_update. apply _. Defined.

#[local] Instance newer_creation_dec : RelDecision newer_creation.
Proof. intros a b. unfold newer_creation. apply _. Defined.

Definition window {A : Type} (limit offset : Z) (l : list A) : list A :=
  take (Z.to_nat limit) (drop (Z.to_nat offset) l).

(** [ListAllActive]: one select per part for the whole page; the select of the
    trade configurations has the levels with it. *)
Definition ListAllActive (io : Io.t) (limit offset : Z) (db : DB.t) : RepoError + list UStrategy.t :=
  let limit := if limit <=? 0 then 500 else limit in
  let offset := if offset <? 0 then 0 else offset in
  let ok _ n := match n with 3%nat => true | _ => io.(Io.Ok) n end in
  if negb (io.(Io.Ok) 0%nat) then inl (ErrStatement "failed to list active strategies")
  else inr (map (attach ok db)
              (window limit offset (merge_sort newer_update (List.filter live (rows db))))).

Definition listed (userID : string) (activeOnly includeDeleted : bool) (s : UStrategy.t) : bool :=
  String.eqb s.(UStrategy.UserID) userID && (includeDeleted || not_deleted s)
  && (negb activeOnly || s.(UStrategy.Active)).

(** [ListByUserID]; [parts] says which selects of the parts succeed.  A negative
    limit or offset is an error of PostgreSQL. *)
Definition ListByUserID (io : Io.t) (parts : uuid -> nat -> bool) (userID : string)
    (activeOnly includeDeleted : bool) (limit offset : Z) (db : DB.t)
    : RepoError + (list UStrategy.t * Z) :=
  let found := List.filter (listed userID activeOnly includeDeleted) (rows db) in
  if negb (io.(Io.Ok) 0%nat) then inl (ErrStatement "failed to count strategies")
  else if negb (io.(Io.Ok) 1%nat) || (limit <? 0) || (offset <? 0)
  then inl (ErrStatement "failed to list strategies")
  else inr (map (attach parts db) (window limit offset (merge_sort newer_creation found)),
            Z.of_nat (length found)).

(** [GetByIDs]; the order of the rows is the one of [map_to_list]. *)
Definition GetByIDs (io : Io.t) (parts : uuid -> nat -> bool) (ids : list uuid) (db : DB.t)
    : RepoError + list UStrategy.t :=
  if bool_decide (ids = []) then inr []
  else if negb (io.(Io.Ok) 0%nat) then inl (ErrStatement "failed to get strategies")
  else inr (map (attach parts db)
              (List.filter (fun s => bool_decide (s.(UStrategy.StrategyID) ∈ ids) && not_deleted s)
                 (rows db))).

(** ** The outbox *)

Definition older (a b : Outbox.t) : Prop := a.(Outbox.CreatedAt) <= b.(Outbox.CreatedAt).

#[local] Instance older_dec : RelDecision older.
Proof. intros a b. unfold older. apply _. Defined.

Definition pending (db : DB.t) : list Outbox.t :=
  merge_sort older (List.filter (fun o => negb o.(Outbox.Processed)) db.(DB.execution_outbox)).

Definition ListPendingOutboxEvents (ok : bool) (limit : nat) (db : DB.t)
    : RepoError + list Outbox.t :=
  if ok then inr (take limit (pending db)) else inl (ErrStatement "failed to fetch pending outbox events").

Definition mark (ids : list Z) (o : Outbox.t) : Outbox.t :=
  if bool_decide (o.(Outbox.ID) ∈ ids) then (o <| Outbox.Processed := true |>)%go else o.

Definition MarkOutboxEventsProcessed (ok : bool) (ids : list Z) (db : DB.t) : option RepoError * DB.t :=
  if bool_decide (ids = []) then (None, db)
  else if ok then
    (None, (db <| DB.execution_outbox := map (mark ids) db.(DB.execution_outbox) |>)%go)
  else (Some (ErrStatement "failed to mark events as processed"), db).
End Repository.
