(* ===== verification/UCWorker.v ===== *)
(** * From the outbox to Kafka, and the end of the day

    The mapping of a strategy to the event contract
    ([user-config/internal/events/mapper.go]), the outbox worker
    ([internal/worker/outbox_worker.go]) and the deactivation at the market's
    close ([internal/scheduler/eod_deactivation.go]).  The contract of the
    publisher and of the rules engine have the same JSON names, so the events are
    those of [ConfigSync].  What Kafka, the clock and the database do is the
    argument [WorkerEnv], by outbox id. *)

From stdpp Require Import base gmap strings list sorting.
From Stdlib Require Import ZArith Lia Bool.
From S2P Require Import Prelude GoFloat GoStrings GoTime RuleModels ConfigStore ConfigSync UCModels UCRepo.

Open Scope string_scope.
Open Scope list_scope.
Open Scope Z_scope.

(** ** The mapping ([events/mapper.go]) *)

Definition valueOrZeroFloat64 (v : option f64) : f64 := default fzero v.

Definition valueOrZeroInt32 (v : option Z) : Z := default 0 v.

Definition toMultiLevelPayload (levels : list UCLevel) : list MultiLevelExitLevelPayload :=
  map (fun l => MkLevelPayload l.(uc_LevelNum) l.(uc_PricePct) l.(uc_QtyPct)) levels.

Definition zero_conditions_payload : ConditionsPayload.t :=
  ConditionsPayload.mk false 0 0 [] [] [] fzero fzero fzero fzero [] 0.

Definition zero_trade_payload : TradeConfigPayload.t :=
  TradeConfigPayload.mk "" "" "" 0 "" "" fzero fzero fzero fzero "" "" [] [] "" "" 0.

Definition zero_limits_payload : RiskLimitsPayload.t :=
  RiskLimitsPayload.mk 0 fzero fzero fzero false false "" fzero 0 0.

Definition conditions_payload (c : UCondition.t) : ConditionsPayload.t :=
  ConditionsPayload.mk c.(UCondition.MatchAllNews) c.(UCondition.ImpactScoreMin)
    c.(UCondition.ImpactScoreMax) c.(UCondition.Sentiments) c.(UCondition.Categories)
    c.(UCondition.MarketCapTypes) (valueOrZeroFloat64 c.(UCondition.MinMarketCap))
    (valueOrZeroFloat64 c.(UCondition.MaxMarketCap))
    (valueOrZeroFloat64 c.(UCondition.MinPriceChangePct))
    (valueOrZeroFloat64 c.(UCondition.MaxPriceChangePct)) c.(UCondition.Exchanges)
    c.(UCondition.CreatedAt).

Definition trade_payload (c : UTradeConfig.t) : TradeConfigPayload.t :=
  TradeConfigPayload.mk c.(UTradeConfig.OrderType) c.(UTradeConfig.ProductType)
    c.(UTradeConfig.Validity) c.(UTradeConfig.Quantity) c.(UTradeConfig.Exchange)
    c.(UTradeConfig.OrderSide) (valueOrZeroFloat64 c.(UTradeConfig.LimitPrice))
    (valueOrZeroFloat64 c.(UTradeConfig.StopLossPct))
    (valueOrZeroFloat64 c.(UTradeConfig.TakeProfitPct))
    (valueOrZeroFloat64 c.(UTradeConfig.TrailingSLPct)) c.(UTradeConfig.StopLossType)
    c.(UTradeConfig.TakeProfitType) (toMultiLevelPayload c.(UTradeConfig.MultiLevelSL))
    (toMultiLevelPayload c.(UTradeConfig.MultiLevelTP)) c.(UTradeConfig.TradeWindowStart)
    c.(UTradeConfig.TradeWindowEnd) c.(UTradeConfig.CreatedAt).

Definition limits_payload (c : URiskLimits.t) : RiskLimitsPayload.t :=
  RiskLimitsPayload.mk (valueOrZeroInt32 c.(URiskLimits.MaxDailyTrades))
    (valueOrZeroFloat64 c.(URiskLimits.MaxPerTradeRisk))
    (valueOrZeroFloat64 c.(URiskLimits.MaxPortfolioExposurePct))
    (valueOrZeroFloat64 c.(URiskLimits.MaxLossPerDay)) c.(URiskLimits.EnableRiskChecks)
    c.(URiskLimits.EnableAutoSquareOff) c.(URiskLimits.AutoSquareOffTime)
    (valueOrZeroFloat64 c.(URiskLimits.MaxAmountPerStock))
    (valueOrZeroInt32 c.(URiskLimits.MaxTradesPerStrategy)) c.(URiskLimits.CreatedAt).

(** [uint64(s.Version)] of an [int32]. *)
Definition to_uint64 (z : Z) : Z := z mod 2 ^ 64.

Inductive KafkaResult : Type :=
  | KafkaAcked       (** written, no error *)
  | KafkaFailed      (** an error, nothing written *)
  | KafkaUnknown.    (** an error, e.g. the timeout of five seconds, but written *)

Inductive WorkerError : Type :=
  | ErrFetchEvents
  | ErrUnmarshalPayload (id : Z)
  | ErrInvalidStrategyID (id : Z)
  | ErrFetchStrategy (id : Z) (e : RepoError)
  | ErrMarshalEvent (id : Z)
  | ErrPublish (id : Z)
  | ErrMark.

Module WorkerEnv.
Record t := mk {
  ListOk : bool;
  MarkOk : bool;
  EventNow : Z -> Z;
  EventIo : Z -> Io.t;
  Write : Z -> KafkaResult
}.
End WorkerEnv.

Module Thin.
Record t := mk { StrategyID : string; UserID : string; Version : Z }.
End Thin.

(** Does [json.Marshal] accept the event? *)
Definition payload_json (p : StrategyPayload.t) : bool :=
  let c := p.(StrategyPayload.Conditions) in
  let tc := p.(StrategyPayload.TradeConfig) in
  let rl := p.(StrategyPayload.RiskLimits) in
  let level l := f64_json l.(p_PricePct) && f64_json l.(p_QtyPct) in
  forallb f64_json
    [c.(ConditionsPayload.MinMarketCap); c.(ConditionsPayload.MaxMarketCap);
     c.(ConditionsPayload.MinPriceChangePct); c.(ConditionsPayload.MaxPriceChangePct);
     tc.(TradeConfigPayload.LimitPrice); tc.(TradeConfigPayload.StopLossPct);
     tc.(TradeConfigPayload.TakeProfitPct); tc.(TradeConfigPayload.TrailingSLPct);
     rl.(RiskLimitsPayload.MaxPerTradeRisk); rl.(RiskLimitsPayload.MaxPortfolioExposurePct);
     rl.(RiskLimitsPayload.MaxLossPerDay); rl.(RiskLimitsPayload.MaxAmountPerStock)]
  && forallb level tc.(TradeConfigPayload.MultiLevelSL)
  && forallb level tc.(TradeConfigPayload.MultiLevelTP).

Definition event_json (e : ConfigEvent.t) : bool :=
  from_option payload_json true e.(ConfigEvent.Config).

Section Worker.

Context (uuid_string : uuid -> string) (uuid_parse : string -> option uuid).

Definition toPayload (s : UStrategy.t) : StrategyPayload.t :=
  StrategyPayload.mk (uuid_string s.(UStrategy.StrategyID)) s.(UStrategy.UserID)
    s.(UStrategy.StrategyName) s.(UStrategy.Active) s.(UStrategy.TradingMode)
    (from_option conditions_payload zero_conditions_payload s.(UStrategy.Conditions))
    (from_option trade_payload zero_trade_payload s.(UStrategy.TradeConfig))
    (from_option limits_payload zero_limits_payload s.(UStrategy.RiskLimits))
    (to_uint64 s.(UStrategy.Version)) s.(UStrategy.CreatedAt) s.(UStrategy.UpdatedAt).

Definition ToFullConfigEvent (eventType : string) (now : Z) (s : UStrategy.t) : ConfigEvent.t :=
  ConfigEvent.mk eventType s.(UStrategy.UserID) (uuid_string s.(UStrategy.StrategyID))
    (to_uint64 s.(UStrategy.Version)) now (Some (toPayload s)).

Definition ToThinConfigEvent (eventType : string) (now : Z) (userID strategyID : string)
    (version : Z) : ConfigEvent.t :=
  ConfigEvent.mk eventType userID strategyID version now None.

(** ** Decoding a payload

    Go leaves the fields a JSON object does not have at zero. *)

Definition decode_full (p : Payload) : option UStrategy.t :=
  match p with
  | PayloadFull s => Some s
  | PayloadThin id user v =>
      (fun id => UStrategy.mk id user "" "" false "" v zero_time zero_time None None None None)
      <$> uuid_parse id
  | PayloadEmpty | PayloadBad => None
  end.

(** The version of the thin record is unsigned. *)
Definition decode_thin (p : Payload) : option Thin.t :=
  match p with
  | PayloadThin id user v => if v <? 0 then None else Some (Thin.mk id user v)
  | PayloadFull s =>
      if s.(UStrategy.Version) <? 0 then None
      else Some (Thin.mk (uuid_string s.(UStrategy.StrategyID)) s.(UStrategy.UserID)
                   s.(UStrategy.Version))
  | PayloadEmpty | PayloadBad => None
  end.

(** ** One event *)

(** What the translation of a row comes to: an error, a row that is marked
    processed without an event, or an event. *)
Inductive Translated : Type :=
  | TError (e : WorkerError)
  | TSkip
  | TEvent (e : ConfigEvent.t).

Definition full_event (o : Outbox.t) (type : string) (now : Z) : Translated :=
  match decode_full o.(Outbox.Payload) with
  | None => TError (ErrUnmarshalPayload o.(Outbox.ID))
  | Some s =>
    if String.eqb s.(UStrategy.UserID) ""
       || String.eqb (uuid_string s.(UStrategy.StrategyID)) "" then TSkip
    else TEvent (ToFullConfigEvent type now s)
  end.

Definition thin_event (o : Outbox.t) (k : Thin.t -> Translated) : Translated :=
  match decode_thin o.(Outbox.Payload) with
  | None => TError (ErrUnmarshalPayload o.(Outbox.ID))
  | Some thin =>
    if String.eqb thin.(Thin.UserID) "" || String.eqb thin.(Thin.StrategyID) "" then TSkip
    else k thin
  end.

Definition activation_event (io : Io.t) (now : Z) (db : DB.t) (id : Z) (thin : Thin.t) : Translated :=
  match uuid_parse thin.(Thin.StrategyID) with
  | None => TError (ErrInvalidStrategyID id)
  | Some strategyUUID =>
    match GetByID io strategyUUID thin.(Thin.UserID) db with
    | inl e => TError (ErrFetchStrategy id e)
    | inr s => TEvent (ToFullConfigEvent ConfigUpdated now s)
    end
  end.

Definition translate (env : WorkerEnv.t) (db : DB.t) (o : Outbox.t) : Translated :=
  let id := o.(Outbox.ID) in
  let now := env.(WorkerEnv.EventNow) id in
  match o.(Outbox.Payload) with
  | PayloadEmpty => TSkip
  | _ =>
    if String.eqb o.(Outbox.EventType) "STRATEGY_CREATED" then full_event o ConfigCreated now
    else if String.eqb o.(Outbox.EventType) "STRATEGY_UPDATED" then full_event o ConfigUpdated now
    else if String.eqb o.(Outbox.EventType) "STRATEGY_DELETED" then
      thin_event o (fun t => TEvent
        (ToThinConfigEvent ConfigDeleted now t.(Thin.UserID) t.(Thin.StrategyID) t.(Thin.Version)))
    else if String.eqb o.(Outbox.EventType) "STRATEGY_ACTIVATED" then
      thin_event o (activation_event (env.(WorkerEnv.EventIo) id) now db id)
    else if String.eqb o.(Outbox.EventType) "STRATEGY_DEACTIVATED" then
      thin_event o (fun t => TEvent
        (ToThinConfigEvent ConfigPaused now t.(Thin.UserID) t.(Thin.StrategyID) t.(Thin.Version)))
    else TSkip
  end.

(** [processOneOutboxEvent]: the messages written, and the error.  Without an
    error the row is to be marked. *)
Definition processOneOutboxEvent (env : WorkerEnv.t) (db : DB.t) (o : Outbox.t)
    : list ConfigEvent.t * option WorkerError :=
  let id := o.(Outbox.ID) in
  match translate env db o with
  | TError e => ([], Some e)
  | TSkip => ([], None)
  | TEvent e =>
    if String.eqb e.(ConfigEvent.UserID) "" then ([], None)
    else if negb (event_json e) then ([], Some (ErrMarshalEvent id))
    else
      match env.(WorkerEnv.Write) id with
      | KafkaAcked => ([e], None)
      | KafkaFailed => ([], Some (ErrPublish id))
      | KafkaUnknown => ([e], Some (ErrPublish id))
      end
  end.

(** The loop of [processOutbox]: the ids to mark, the messages and the error
    that ended it.  [seen] is the database when the event of an id is looked at. *)
Fixpoint process_events (env : WorkerEnv.t) (seen : Z -> DB.t) (events : list Outbox.t)
    : list Z * list ConfigEvent.t * option WorkerError :=
  match events with
  | [] => ([], [], None)
  | o :: rest =>
    match processOneOutboxEvent env (seen o.(Outbox.ID)) o with
    | (msgs, Some e) => ([], msgs, Some e)
    | (msgs, None) =>
      let '(ids, more, err) := process_events env seen rest in
      (o.(Outbox.ID) :: ids, msgs ++ more, err)
    end
  end.

Definition batch_size : nat := 50.

(** [processOutbox] as one step with respect to the writers of the database. *)
Definition processOutbox (env : WorkerEnv.t) (db : DB.t)
    : DB.t * list ConfigEvent.t * option WorkerError :=
  match ListPendingOutboxEvents env.(WorkerEnv.ListOk) batch_size db with
  | inl _ => (db, [], Some ErrFetchEvents)
  | inr events =>
    let '(ids, msgs, err) := process_events env (fun _ => db) events in
    match MarkOutboxEventsProcessed env.(WorkerEnv.MarkOk) ids db with
    | (Some _, db) => (db, msgs, Some ErrMark)
    | (None, db) => (db, msgs, err)
    end
  end.

(** ** The end of the day *)

Definition paperDeactivation : Z := 15 * 60.
Definition liveDeactivation : Z := 15 * 60 + 5.

(** The two dates of [Start], as day numbers. *)
Record EODState := MkEOD { lastPaperFiredDate : option Z; lastLiveFiredDate : option Z }.

(** What the database does during the three calls of a tick. *)
Record EODIo := MkEODIo { io_custom : Io.t; io_paper : Io.t; io_live : Io.t }.

Definition deactivateByMode (io : Io.t) (mode : string) (db : DB.t) : DB.t :=
  (DeactivateAllActiveByMode uuid_string io mode db).2.

Definition deactivateAtCustomSquareOffTime (io : Io.t) (time : string) (db : DB.t) : DB.t :=
  (DeactivateActiveByAutoSquareOffTime uuid_string io time db).2.

(** One tick of [EODDeactivationScheduler.Start]. *)
Definition eod_tick (ios : EODIo) (now : Z) (w : EODState * DB.t) : EODState * DB.t :=
  let '(st, db) := w in
  if weekend now then (st, db)
  else
    let day := today now in
    let db := deactivateAtCustomSquareOffTime (io_custom ios) (hhmm now) db in
    let '(st, db) :=
      if (clock_minute now =? paperDeactivation)
         && negb (bool_decide (st.(lastPaperFiredDate) = Some day))
      then (MkEOD (Some day) st.(lastLiveFiredDate), deactivateByMode (io_paper ios) "PAPER" db)
      else (st, db) in
    if (clock_minute now =? liveDeactivation)
       && negb (bool_decide (st.(lastLiveFiredDate) = Some day))
    then (MkEOD st.(lastPaperFiredDate) (Some day), deactivateByMode (io_live ios) "LIVE" db)
    else (st, db).
End Worker.
