(* ===== verification/UCService.v ===== *)
(** * The service and its gRPC server

    [user-config/internal/service/strategy_service.go] and
    [internal/server/{grpc_server,converters}.go].  A value of an enumeration of
    the protocol buffers is given by its name.  The state is the database and
    whatever the repository of the broker credentials keeps, which is an
    interface here as in the code.  The message of an error is the error itself. *)

From stdpp Require Import base gmap strings list.
From Stdlib Require Import ZArith Lia Bool.
From S2P Require Import Prelude GoFloat GoStrings RuleModels ConfigStore ConfigSync UCModels UCRepo UCWorker.

Open Scope string_scope.
Open Scope list_scope.
Open Scope Z_scope.

(** ** Enumerations ([converters.go] and the end of [grpc_server.go]) *)

Definition stringToOrderType (s : string) : string :=
  let s := ToUpper s in
  if String.eqb s "MARKET" then "ORDER_TYPE_MARKET"
  else if String.eqb s "LIMIT" then "ORDER_TYPE_LIMIT"
  else if String.eqb s "STOP_LOSS" then "ORDER_TYPE_STOP_LOSS"
  else if String.eqb s "STOP_LOSS_MARKET" then "ORDER_TYPE_STOP_LOSS_MARKET"
  else "ORDER_TYPE_UNSPECIFIED".

Definition stringToExchange (s : string) : string :=
  let s := ToUpper s in
  if String.eqb s "NSE" then "EXCHANGE_NSE"
  else if String.eqb s "BSE" then "EXCHANGE_BSE" else "EXCHANGE_UNSPECIFIED".

Definition stringToOrderSide (s : string) : string :=
  let s := ToUpper s in
  if String.eqb s "BUY" then "ORDER_SIDE_BUY"
  else if String.eqb s "SELL" then "ORDER_SIDE_SELL" else "ORDER_SIDE_UNSPECIFIED".

Definition stringToProductType (s : string) : string :=
  let s := ToUpper s in
  if one_of s ["INTRADAY"; "MIS"] then "PRODUCT_TYPE_INTRADAY"
  else if one_of s ["DELIVERY"; "CNC"] then "PRODUCT_TYPE_DELIVERY"
  else if String.eqb s "CASH" then "PRODUCT_TYPE_CASH"
  else if one_of s ["BRACKET"; "BRACKET_ORDER"; "BO"] then "PRODUCT_TYPE_BRACKET"
  else "PRODUCT_TYPE_UNSPECIFIED".

Definition stringToStopLossType (s : string) : string :=
  let s := ToUpper s in
  if String.eqb s "FIXED" then "FIXED"
  else if String.eqb s "TRAILING" then "TRAILING"
  else if String.eqb s "MULTI_LEVEL" then "MULTI_LEVEL" else "STOP_LOSS_TYPE_UNSPECIFIED".

Definition stringToTakeProfitType (s : string) : string :=
  if String.eqb (ToUpper s) "MULTI_LEVEL" then "TAKE_PROFIT_MULTI_LEVEL" else "TAKE_PROFIT_FIXED".

Definition stringToPositionSizing (s : string) : string :=
  let s := ToUpper s in
  if String.eqb s "FIXED" then "POSITION_SIZING_FIXED"
  else if String.eqb s "PERCENTAGE" then "POSITION_SIZING_PERCENTAGE"
  else if String.eqb s "RISK_BASED" then "POSITION_SIZING_RISK_BASED"
  else "POSITION_SIZING_UNSPECIFIED".

Definition protoTradingModeToModel (mode : string) : string :=
  if String.eqb mode "PAPER" then TradingModePaper
  else if String.eqb mode "LIVE" then TradingModeLive else TradingModePaper.

Definition modelTradingModeToProto (mode : string) : string :=
  if String.eqb mode TradingModePaper then "PAPER"
  else if String.eqb mode TradingModeLive then "LIVE" else "PAPER".

Definition orderTypeToString (ot : string) : string :=
  if String.eqb ot "ORDER_TYPE_MARKET" then "MARKET"
  else if String.eqb ot "ORDER_TYPE_LIMIT" then "LIMIT"
  else if String.eqb ot "ORDER_TYPE_STOP_LOSS" then "STOP_LOSS"
  else if String.eqb ot "ORDER_TYPE_STOP_LOSS_MARKET" then "STOP_LOSS_MKT" else "MARKET".

Definition exchangeToString (ex : string) : string :=
  if String.eqb ex "EXCHANGE_NSE" then "NSE"
  else if String.eqb ex "EXCHANGE_BSE" then "BSE" else "NSE".

Definition orderSideToString (os : string) : string :=
  if String.eqb os "ORDER_SIDE_BUY" then "BUY"
  else if String.eqb os "ORDER_SIDE_SELL" then "SELL" else "BUY".

Definition productTypeToString (pt : string) : string :=
  if String.eqb pt "PRODUCT_TYPE_INTRADAY" then "INTRADAY"
  else if String.eqb pt "PRODUCT_TYPE_DELIVERY" then "DELIVERY"
  else if String.eqb pt "PRODUCT_TYPE_CASH" then "CASH"
  else if String.eqb pt "PRODUCT_TYPE_BRACKET" then "BRACKET" else "INTRADAY".

Definition stopLossTypeToString (slt : string) : string :=
  if String.eqb slt "FIXED" then "FIXED"
  else if String.eqb slt "TRAILING" then "TRAILING"
  else if String.eqb slt "MULTI_LEVEL" then "MULTI_LEVEL" else "FIXED".

Definition takeProfitTypeToString (tpt : string) : string :=
  if String.eqb tpt "TAKE_PROFIT_MULTI_LEVEL" then "MULTI_LEVEL" else "FIXED".

Definition positionSizingToString (ps : string) : string :=
  if String.eqb ps "POSITION_SIZING_FIXED" then "FIXED"
  else if String.eqb ps "POSITION_SIZING_PERCENTAGE" then "PERCENTAGE"
  else if String.eqb ps "POSITION_SIZING_RISK_BASED" then "RISK_BASED" else "FIXED".

Definition sentimentToString (s : string) : string :=
  if String.eqb s "SENTIMENT_POSITIVE" then "POSITIVE"
  else if String.eqb s "SENTIMENT_NEUTRAL" then "NEUTRAL"
  else if String.eqb s "SENTIMENT_NEGATIVE" then "NEGATIVE" else "POSITIVE".

Definition stringToSentiment (s : string) : string :=
  if String.eqb s "POSITIVE" then "SENTIMENT_POSITIVE"
  else if String.eqb s "NEUTRAL" then "SENTIMENT_NEUTRAL"
  else if String.eqb s "NEGATIVE" then "SENTIMENT_NEGATIVE" else "SENTIMENT_POSITIVE".

(** ** From the protocol buffers to the model

    The identifiers and times of the parts are zero until the repository sets
    them. *)

Definition protoConditionsToModel (p : ProtoConditions.t) : UCondition.t :=
  UCondition.mk 0%N 0%N p.(ProtoConditions.MatchAllNews) p.(ProtoConditions.ImpactScoreMin)
    p.(ProtoConditions.ImpactScoreMax) (map sentimentToString p.(ProtoConditions.Sentiments))
    p.(ProtoConditions.Categories) (fst <$> p.(ProtoConditions.MarketCapRange))
    (snd <$> p.(ProtoConditions.MarketCapRange)) p.(ProtoConditions.MarketCapTypes)
    (fst <$> p.(ProtoConditions.PctChangeRange)) (snd <$> p.(ProtoConditions.PctChangeRange))
    (map exchangeToString p.(ProtoConditions.Exchanges)) zero_time.

Definition protoMultiLevelToModel (levels : list MultiLevelExitLevel) : list UCLevel :=
  map (fun l => MkUCLevel l.(LevelNum) l.(PricePct) l.(QtyPct)) levels.

Definition protoTradeConfigToModel (p : ProtoTradeConfig.t) : UTradeConfig.t :=
  UTradeConfig.mk 0%N 0%N (orderTypeToString p.(ProtoTradeConfig.OrderType))
    (productTypeToString p.(ProtoTradeConfig.ProductType)) p.(ProtoTradeConfig.Validity)
    p.(ProtoTradeConfig.Quantity) (exchangeToString p.(ProtoTradeConfig.Exchange))
    (orderSideToString p.(ProtoTradeConfig.OrderSide)) None
    (Some p.(ProtoTradeConfig.LimitPrice)) (Some p.(ProtoTradeConfig.StopLossPct))
    (Some p.(ProtoTradeConfig.TakeProfitPct)) (Some p.(ProtoTradeConfig.TrailingSlPct))
    (stopLossTypeToString p.(ProtoTradeConfig.StopLossType))
    (takeProfitTypeToString p.(ProtoTradeConfig.TakeProfitType))
    (protoMultiLevelToModel p.(ProtoTradeConfig.MultiLevelSl))
    (protoMultiLevelToModel p.(ProtoTradeConfig.MultiLevelTp))
    p.(ProtoTradeConfig.TradeWindowStart) p.(ProtoTradeConfig.TradeWindowEnd) zero_time.

Definition protoRiskLimitsToModel (p : ProtoRiskLimits.t) : URiskLimits.t :=
  URiskLimits.mk 0%N 0%N (Some p.(ProtoRiskLimits.MaxDailyTrades))
    (Some p.(ProtoRiskLimits.MaxPerTradeRisk)) (Some p.(ProtoRiskLimits.MaxPortfolioExposurePct))
    (Some p.(ProtoRiskLimits.MaxLossPerDay)) p.(ProtoRiskLimits.EnableRiskChecks)
    p.(ProtoRiskLimits.EnableAutoSquareOff) p.(ProtoRiskLimits.AutoSquareOffTime)
    (if flt fzero p.(ProtoRiskLimits.MaxAmountPerStock)
     then Some p.(ProtoRiskLimits.MaxAmountPerStock) else None)
    (if 0 <? p.(ProtoRiskLimits.MaxTradesPerStrategy)
     then Some p.(ProtoRiskLimits.MaxTradesPerStrategy) else None) zero_time.

(** ** From the model to the protocol buffers *)

Definition both {A : Type} (a b : option A) : option (A * A) :=
  match a, b with Some x, Some y => Some (x, y) | _, _ => None end.

Definition modelConditionsToProto (m : UCondition.t) : ProtoConditions.t :=
  ProtoConditions.mk m.(UCondition.MatchAllNews) m.(UCondition.ImpactScoreMin)
    m.(UCondition.ImpactScoreMax) (map stringToSentiment m.(UCondition.Sentiments))
    m.(UCondition.Categories) (both m.(UCondition.MinMarketCap) m.(UCondition.MaxMarketCap))
    m.(UCondition.MarketCapTypes)
    (both m.(UCondition.MinPriceChangePct) m.(UCondition.MaxPriceChangePct))
    (map stringToExchange m.(UCondition.Exchanges)).

Definition modelMultiLevelToProto (levels : list UCLevel) : list MultiLevelExitLevel :=
  map (fun l => MkLevel (int32 l.(uc_LevelNum)) l.(uc_PricePct) l.(uc_QtyPct)) levels.

Definition modelTradeConfigToProto (m : UTradeConfig.t) : ProtoTradeConfig.t :=
  ProtoTradeConfig.mk (stringToOrderType m.(UTradeConfig.OrderType))
    (stringToProductType m.(UTradeConfig.ProductType)) m.(UTradeConfig.Validity)
    m.(UTradeConfig.Quantity) (stringToExchange m.(UTradeConfig.Exchange))
    (stringToOrderSide m.(UTradeConfig.OrderSide))
    (valueOrZeroFloat64 m.(UTradeConfig.StopLossPct))
    (valueOrZeroFloat64 m.(UTradeConfig.TakeProfitPct))
    (if String.eqb m.(UTradeConfig.StopLossType) "" then "STOP_LOSS_TYPE_UNSPECIFIED"
     else stringToStopLossType m.(UTradeConfig.StopLossType))
    (valueOrZeroFloat64 m.(UTradeConfig.TrailingSLPct))
    (valueOrZeroFloat64 m.(UTradeConfig.LimitPrice))
    (if String.eqb m.(UTradeConfig.TakeProfitType) "" then "TAKE_PROFIT_TYPE_UNSPECIFIED"
     else stringToTakeProfitType m.(UTradeConfig.TakeProfitType))
    (modelMultiLevelToProto m.(UTradeConfig.MultiLevelSL))
    (modelMultiLevelToProto m.(UTradeConfig.MultiLevelTP))
    m.(UTradeConfig.TradeWindowStart) m.(UTradeConfig.TradeWindowEnd).

Definition modelRiskLimitsToProto (m : URiskLimits.t) : ProtoRiskLimits.t :=
  ProtoRiskLimits.mk (valueOrZeroInt32 m.(URiskLimits.MaxDailyTrades))
    (valueOrZeroFloat64 m.(URiskLimits.MaxPerTradeRisk))
    (valueOrZeroFloat64 m.(URiskLimits.MaxPortfolioExposurePct))
    (valueOrZeroFloat64 m.(URiskLimits.MaxLossPerDay)) m.(URiskLimits.EnableRiskChecks)
    m.(URiskLimits.EnableAutoSquareOff) m.(URiskLimits.AutoSquareOffTime)
    "POSITION_SIZING_UNSPECIFIED" (valueOrZeroFloat64 m.(URiskLimits.MaxAmountPerStock))
    (valueOrZeroInt32 m.(URiskLimits.MaxTradesPerStrategy)).

(** [time.Time.Unix]. *)
Definition unix (t : Z) : Z * Z := (t / 10 ^ 9, 0).

(** [pb.Strategy] with the two fields the rules engine does not read. *)
Record FullProto := MkFullProto {
  fp_strategy : ProtoStrategy.t;
  fp_Description : string;
  fp_DeletedAt : option (Z * Z)
}.

(** ** The service *)

Inductive CredsError := ErrCredsMissing | ErrEncryption | ErrCredsStore.

(** The interface [CredentialsRepository] over a state [C]. *)
Record CredentialsRepository (C : Type) := MkCreds {
  StoreIndiraCredentials : string -> string -> string -> string -> string -> C -> C * option CredsError
}.
Arguments StoreIndiraCredentials {C}.

Inductive ServiceError : Type :=
  | SValidation (e : ValidationError)
  | SRepo (e : RepoError)
  | SBearerRequired
  | SCreds (e : CredsError).

(** The answer to a request: a value, or a code with the error behind it. *)
Inductive Response (A : Type) : Type :=
  | RespOk (a : A)
  | RespErr (code : string) (e : option ServiceError).
Arguments RespOk {A}. Arguments RespErr {A}.

Section Service.

Context (numeric_20_4 : f64 -> option f64) (uuid_string : uuid -> string)
  (uuid_parse : string -> option uuid) {C : Type} (credsRepo : CredentialsRepository C).

(** The two stores: the service's database and the credentials. *)
Definition Store : Type := DB.t * C.

(** The best-effort write of credentials after a request succeeded. *)
Definition refresh_credentials (user : string) (auth : option IndiraAuthContext.t) (c : C) : C :=
  match auth with
  | Some a =>
    if String.eqb a.(IndiraAuthContext.BearerToken) "" then c
    else (credsRepo.(StoreIndiraCredentials) user a.(IndiraAuthContext.UserID)
            a.(IndiraAuthContext.AppID) a.(IndiraAuthContext.Source)
            a.(IndiraAuthContext.BearerToken) c).1
  | None => c
  end.

Definition CreateStrategy (io : Io.t) (newID condID tcID rlID : uuid)
    (req : CreateStrategyRequest.t) (w : Store) : (ServiceError + UStrategy.t) * Store :=
  match validateCreateRequest req with
  | (_, Some e) => (inl (SValidation e), w)
  | (req, None) =>
    match Create numeric_20_4 io newID condID tcID rlID req w.1 with
    | (inl e, db) => (inl (SRepo e), (db, w.2))
    | (inr s, db) =>
      (inr s, (db, refresh_credentials req.(CreateStrategyRequest.UserID)
                     req.(CreateStrategyRequest.IndiraAuth) w.2))
    end
  end.

Definition lift_read {A : Type} (r : RepoError + A) : ServiceError + A :=
  match r with inl e => inl (SRepo e) | inr a => inr a end.

Definition GetStrategy (io : Io.t) (id : uuid) (user : string) (w : Store)
    : ServiceError + UStrategy.t := lift_read (GetByID io id user w.1).

Definition ListUserStrategies (io : Io.t) (parts : uuid -> nat -> bool) (userID : string)
    (activeOnly includeDeleted : bool) (limit offset : Z) (w : Store)
    : ServiceError + (list UStrategy.t * Z) :=
  let limit := if (limit <=? 0) || (100 <? limit) then 20 else limit in
  let offset := if offset <? 0 then 0 else offset in
  lift_read (ListByUserID io parts userID activeOnly includeDeleted limit offset w.1).

Definition UpdateStrategy (io : Io.t) (req : UpdateStrategyRequest.t) (w : Store)
    : (ServiceError + UStrategy.t) * Store :=
  match validateUpdateRequest req with
  | Some e => (inl (SValidation e), w)
  | None =>
    match Update numeric_20_4 io req w.1 with
    | (inl e, db) => (inl (SRepo e), (db, w.2))
    | (inr s, db) =>
      (inr s, (db, refresh_credentials req.(UpdateStrategyRequest.UserID)
                     req.(UpdateStrategyRequest.IndiraAuth) w.2))
    end
  end.

Definition DeleteStrategy (io : Io.t) (id : uuid) (user : string) (w : Store)
    : (ServiceError + unit) * Store :=
  let '(r, db) := Delete uuid_string io id user w.1 in (lift_read r, (db, w.2)).

(** The write, and the read of what it left. *)
Definition ActivateStrategy (io io' : Io.t) (id : uuid) (user : string)
    (auth : option IndiraAuthContext.t) (w : Store) : (ServiceError + UStrategy.t) * Store :=
  match Activate uuid_string io id user w.1 with
  | (inl e, db) => (inl (SRepo e), (db, w.2))
  | (inr _, db) => (lift_read (GetByID io' id user db), (db, refresh_credentials user auth w.2))
  end.

Definition UpdateCredentials (user : string) (auth : option IndiraAuthContext.t) (w : Store)
    : option ServiceError * Store :=
  match auth with
  | Some a =>
    if String.eqb a.(IndiraAuthContext.BearerToken) "" then (Some SBearerRequired, w)
    else
      let '(c, e) := credsRepo.(StoreIndiraCredentials) user a.(IndiraAuthContext.UserID)
        a.(IndiraAuthContext.AppID) a.(IndiraAuthContext.Source)
        a.(IndiraAuthContext.BearerToken) w.2 in
      (SCreds <$> e, (w.1, c))
  | None => (Some SBearerRequired, w)
  end.

Definition DeactivateStrategy (io io' : Io.t) (id : uuid) (user : string) (w : Store)
    : (ServiceError + UStrategy.t) * Store :=
  match Deactivate uuid_string io id user w.1 with
  | (inl e, db) => (inl (SRepo e), (db, w.2))
  | (inr _, db) => (lift_read (GetByID io' id user db), (db, w.2))
  end.

Definition GetStrategiesByIDs (io : Io.t) (parts : uuid -> nat -> bool) (ids : list uuid)
    (w : Store) : ServiceError + list UStrategy.t := lift_read (GetByIDs io parts ids w.1).

Definition ListAllActiveStrategies (io : Io.t) (limit offset : Z) (w : Store)
    : ServiceError + list UStrategy.t := lift_read (UCRepo.ListAllActive io limit offset w.1).

Definition DeactivateAllActiveStrategiesByMode (io : Io.t) (mode : string) (w : Store)
    : (ServiceError + Z) * Store :=
  let '(r, db) := DeactivateAllActiveByMode uuid_string io mode w.1 in (lift_read r, (db, w.2)).

Definition DeactivateStrategiesAtAutoSquareOffTime (io : Io.t) (time : string) (w : Store)
    : (ServiceError + Z) * Store :=
  let '(r, db) := DeactivateActiveByAutoSquareOffTime uuid_string io time w.1 in
  (lift_read r, (db, w.2)).

(** ** The server *)

Definition modelStrategyToProto (m : UStrategy.t) : FullProto :=
  MkFullProto
    (ProtoStrategy.mk (uuid_string m.(UStrategy.StrategyID)) m.(UStrategy.UserID)
       m.(UStrategy.StrategyName) m.(UStrategy.Active)
       (modelTradingModeToProto m.(UStrategy.TradingMode))
       (modelConditionsToProto <$> m.(UStrategy.Conditions))
       (modelTradeConfigToProto <$> m.(UStrategy.TradeConfig))
       (modelRiskLimitsToProto <$> m.(UStrategy.RiskLimits))
       m.(UStrategy.Version) (Some (unix m.(UStrategy.CreatedAt)))
       (Some (unix m.(UStrategy.UpdatedAt))))
    m.(UStrategy.Description) (unix <$> m.(UStrategy.DeletedAt)).

(** [pb.CreateStrategyRequest]. *)
Record ProtoCreate := MkProtoCreate {
  pc_UserId : string;
  pc_StrategyName : string;
  pc_Description : string;
  pc_Conditions : option ProtoConditions.t;
  pc_TradeConfig : option ProtoTradeConfig.t;
  pc_RiskLimits : option ProtoRiskLimits.t;
  pc_ActivateImmediately : bool;
  pc_TradingMode : string;
  pc_IndiraAuth : option IndiraAuthContext.t
}.

(** [pb.UpdateStrategyRequest]. *)
Record ProtoUpdate := MkProtoUpdate {
  pu_StrategyId : string;
  pu_UserId : string;
  pu_StrategyName : option string;
  pu_Description : option string;
  pu_Conditions : option ProtoConditions.t;
  pu_TradeConfig : option ProtoTradeConfig.t;
  pu_RiskLimits : option ProtoRiskLimits.t;
  pu_TradingMode : option string;
  pu_Version : Z;
  pu_IndiraAuth : option IndiraAuthContext.t
}.

Definition create_request (p : ProtoCreate) : CreateStrategyRequest.t :=
  CreateStrategyRequest.mk p.(pc_UserId) p.(pc_StrategyName) p.(pc_Description)
    (protoConditionsToModel <$> p.(pc_Conditions)) (protoTradeConfigToModel <$> p.(pc_TradeConfig))
    (protoRiskLimitsToModel <$> p.(pc_RiskLimits)) p.(pc_ActivateImmediately)
    (protoTradingModeToModel p.(pc_TradingMode)) p.(pc_IndiraAuth).

Definition update_request (id : uuid) (p : ProtoUpdate) : UpdateStrategyRequest.t :=
  UpdateStrategyRequest.mk id p.(pu_UserId) p.(pu_StrategyName) p.(pu_Description)
    (protoConditionsToModel <$> p.(pu_Conditions)) (protoTradeConfigToModel <$> p.(pu_TradeConfig))
    (protoRiskLimitsToModel <$> p.(pu_RiskLimits)) (protoTradingModeToModel <$> p.(pu_TradingMode))
    p.(pu_Version) p.(pu_IndiraAuth).

(** The answer of a call that ends with a strategy. *)
Definition answer (code : string) (r : (ServiceError + UStrategy.t) * Store)
    : Response FullProto * Store :=
  (match r.1 with
   | inl e => RespErr code (Some e)
   | inr s => RespOk (modelStrategyToProto s)
   end, r.2).

Definition with_id {A : Type} (text : string) (w : Store) (k : uuid -> Response A * Store)
    : Response A * Store :=
  match uuid_parse text with
  | None => (RespErr "INVALID_STRATEGY_ID" None, w)
  | Some id => k id
  end.

Definition serve_CreateStrategy (io : Io.t) (newID condID tcID rlID : uuid) (p : ProtoCreate)
    (w : Store) : Response FullProto * Store :=
  answer "CREATION_FAILED" (CreateStrategy io newID condID tcID rlID (create_request p) w).

Definition serve_UpdateStrategy (io : Io.t) (p : ProtoUpdate) (w : Store)
    : Response FullProto * Store :=
  with_id p.(pu_StrategyId) w (fun id =>
    answer "UPDATE_FAILED" (UpdateStrategy io (update_request id p) w)).

Definition serve_DeleteStrategy (io : Io.t) (text user : string) (w : Store)
    : Response string * Store :=
  with_id text w (fun id =>
    let '(r, w) := DeleteStrategy io id user w in
    (match r with
     | inl e => RespErr "DELETION_FAILED" (Some e)
     | inr _ => RespOk "Strategy deleted successfully"
     end, w)).

Definition serve_GetStrategy (io : Io.t) (text user : string) (w : Store)
    : Response FullProto * Store :=
  with_id text w (fun id => answer "NOT_FOUND" (GetStrategy io id user w, w)).

Definition serve_ActivateStrategy (io io' : Io.t) (text user : string) (w : Store)
    : Response FullProto * Store :=
  with_id text w (fun id => answer "ACTIVATION_FAILED" (ActivateStrategy io io' id user None w)).

Definition serve_DeactivateStrategy (io io' : Io.t) (text user : string) (w : Store)
    : Response FullProto * Store :=
  with_id text w (fun id => answer "DEACTIVATION_FAILED" (DeactivateStrategy io io' id user w)).

Definition serve_UpdateUserCredentials (user : string) (auth : option IndiraAuthContext.t)
    (w : Store) : Response unit * Store :=
  let missing := match auth with
                 | Some a => String.eqb a.(IndiraAuthContext.BearerToken) ""
                 | None => true
                 end in
  if String.eqb user "" || missing then (RespErr "INVALID_REQUEST" None, w)
  else
    let '(e, w) := UpdateCredentials user auth w in
    (match e with Some e => RespErr "UPDATE_FAILED" (Some e) | None => RespOk tt end, w).

(** [common.PaginationResponse]. *)
Record Pagination := MkPagination {
  pg_Page : Z; pg_PageSize : Z; pg_TotalItems : Z; pg_TotalPages : Z;
  pg_HasNext : bool; pg_HasPrevious : bool
}.

Definition serve_ListUserStrategies (io : Io.t) (parts : uuid -> nat -> bool) (userID : string)
    (activeOnly includeDeleted : bool) (page pageSize : Z) (w : Store)
    : Response (list FullProto * Pagination) :=
  let page := if page <? 1 then 1 else page in
  let pageSize := if (pageSize <? 1) || (100 <? pageSize) then 20 else pageSize in
  let offset := (page - 1) * pageSize in
  match ListUserStrategies io parts userID activeOnly includeDeleted pageSize offset w with
  | inl e => RespErr "LIST_FAILED" (Some e)
  | inr (l, total) =>
    let totalPages := int32 (Z.quot (total + pageSize - 1) pageSize) in
    RespOk (map modelStrategyToProto l,
            MkPagination (int32 page) (int32 pageSize) total totalPages
              (page <? totalPages) (1 <? page))
  end.

(** The identifiers of a request, or the index of the first that is none. *)
Fixpoint parse_ids (i : nat) (l : list string) : nat + list uuid :=
  match l with
  | [] => inr []
  | s :: rest =>
    match uuid_parse s with
    | None => inl i
    | Some id =>
      match parse_ids (S i) rest with inl j => inl j | inr ids => inr (id :: ids) end
    end
  end.

Definition serve_GetStrategiesByIDs (io : Io.t) (parts : uuid -> nat -> bool) (texts : list string)
    (w : Store) : Response (list FullProto) :=
  match parse_ids 0 texts with
  | inl _ => RespErr "INVALID_STRATEGY_ID" None
  | inr ids =>
    match GetStrategiesByIDs io parts ids w with
    | inl e => RespErr "FETCH_FAILED" (Some e)
    | inr l => RespOk (map modelStrategyToProto l)
    end
  end.

(** [GetAllActiveStrategies] with the repository behind it. *)
Definition serve_GetAllActiveStrategies (io : Io.t) (pageSize : Z) (token : string) (w : Store)
    : Response (list FullProto * string) :=
  let pageSize := if pageSize <=? 0 then 500 else pageSize in
  let pageSize := if 2000 <? pageSize then 2000 else pageSize in
  let offset :=
    if String.eqb token "" then Some 0
    else match Atoi token with
         | Some o => if o <? 0 then None else Some o
         | None => None
         end in
  match offset with
  | None => RespErr "INVALID_PAGE_TOKEN" None
  | Some offset =>
    match ListAllActiveStrategies io pageSize offset w with
    | inl e => RespErr "LIST_FAILED" (Some e)
    | inr l =>
      RespOk (map modelStrategyToProto l,
              if Z.of_nat (length l) =? pageSize then Itoa (int64 (offset + pageSize)) else "")
    end
  end.
End Service.
