(* ===== verification/UCTx.v ===== *)
(** * Transactions of the strategy repository

    Inversion rules of the transaction monad of [UCRepo] and, with them, what
    each write of the repository leaves in the tables when it is committed. *)

From stdpp Require Import base tactics gmap strings list sorting.
From Stdlib Require Import ZArith Lia Bool.
From S2P Require Import Prelude GoFloat GoStrings RuleModels ConfigStore ConfigSync UCModels UCRepo.

Open Scope string_scope.
Open Scope list_scope.
Open Scope Z_scope.

(** ** The monad *)

Lemma tx_bind_inr {A B} (m : TX A) (k : A -> TX B) t b t' :
  (m ≫= k) t = (inr b, t') -> exists a t1, m t = (inr a, t1) /\ k a t1 = (inr b, t').
Proof. unfold mbind, tx_bind. destruct (m t) as [[e|a] t1]; [done|eauto]. Qed.

(** A statement whose error is not ignored ran in a transaction that is not
    aborted and leaves it so. *)
Lemma statement_inr {A} io (f : DB.t -> SqlError + (A * DB.t)) g t a t' :
  (statement io f ≫= or_raise g) t = (inr a, t') ->
  f t.(tx_db) = inr (a, t'.(tx_db)) /\ t.(tx_aborted) = false /\ t'.(tx_aborted) = false.
Proof.
  intros H. apply tx_bind_inr in H as (r & t1 & H1 & H2). unfold statement in H1.
  destruct (tx_aborted t) eqn:Ha; cbn [orb] in H1; [by injection H1 as <- <-|].
  destruct (negb _); [by injection H1 as <- <-|].
  destruct (f (tx_db t)) as [[]|[a0 db1]]; injection H1 as <- <-; try discriminate H2.
  injection H2 as <- <-. done.
Qed.

Lemma exec_inr {A} io what (f : DB.t -> SqlError + (A * DB.t)) t a t' :
  exec io what f t = (inr a, t') ->
  f t.(tx_db) = inr (a, t'.(tx_db)) /\ t.(tx_aborted) = false /\ t'.(tx_aborted) = false.
Proof. apply statement_inr. Qed.

Lemma marshal_inr what l t (u : unit) t' :
  marshalMultiLevel what l t = (inr u, t') -> t' = t /\ forallb level_json l = true.
Proof. unfold marshalMultiLevel. destruct (forallb _ _); [by intros [= <- <-]|done]. Qed.

(** A select whose error is ignored tells the truth unless it aborts. *)
Lemma peek_inr {P} io (get : DB.t -> gmap uuid P) id t o t' :
  peek io get id t = (inr o, t') ->
  t'.(tx_db) = t.(tx_db) /\
  (t'.(tx_aborted) = false -> t.(tx_aborted) = false /\ o = get t.(tx_db) !! id).
Proof.
  unfold peek. intros H. apply tx_bind_inr in H as (r & t1 & H1 & H2). injection H2 as <- <-.
  unfold statement, sql_select in H1. destruct (tx_aborted t) eqn:Ha; cbn [orb] in H1.
  { injection H1 as <- <-. done. }
  destruct (negb _); [by injection H1 as <- <-|].
  destruct (get (tx_db t) !! id) eqn:E; injection H1 as <- <-; done.
Qed.

Lemma with_levels_self tc : with_levels (Some tc) (without_levels tc) = tc.
Proof. by destruct tc. Qed.

Lemma peek_trade_inr io id t o t' :
  peek_trade io id t = (inr o, t') ->
  t'.(tx_db) = t.(tx_db) /\
  (t'.(tx_aborted) = false -> t.(tx_aborted) = false /\ o = t.(tx_db).(DB.trade_configs) !! id).
Proof.
  unfold peek_trade. intros H. apply tx_bind_inr in H as (tc & t1 & H1 & H2).
  apply peek_inr in H1 as [E1 K1]. destruct tc as [tc|]; cycle 1.
  { injection H2 as <- <-. auto. }
  apply tx_bind_inr in H2 as (lv & t2 & H2 & H3). injection H3 as <- <-.
  apply peek_inr in H2 as [E2 K2]. split; [congruence|]. intros Ha.
  destruct (K2 Ha) as [Ha1 ->]. destruct (K1 Ha1) as [Ha0 Htc]. split; [done|].
  by rewrite E1, <- Htc, with_levels_self.
Qed.

(** A transaction leaves the tables alone or leaves those of its body. *)
Lemma transaction_inv {A} io (m : TX A) db r db' :
  transaction io m db = (r, db') ->
  (db' = db /\ exists e, r = inl e) \/
  exists a t, m (MkTx 1 false db) = (inr a, t) /\ t.(tx_aborted) = false /\ db' = t.(tx_db) /\
              (r = inr a \/ r = inl ErrCommit).
Proof.
  unfold transaction. destruct (negb _); [intros [= <- <-]; eauto|].
  destruct (m _) as [[e|a] t] eqn:Hm; [intros [= <- <-]; eauto|].
  destruct (tx_aborted t) eqn:Ha; [intros [= <- <-]; eauto|].
  destruct (Io.Ok io _); [|destruct (Io.CommitApplied io)]; intros [= <- <-]; eauto 9.
Qed.

(** A failed call changed nothing, unless the answer to its commit was lost. *)
Lemma transaction_atomic {A} io (m : TX A) db e db' :
  transaction io m db = (inl e, db') -> db' = db \/ e = ErrCommit.
Proof.
  intros H. apply transaction_inv in H as [[-> _]|(a & t & _ & _ & _ & [H|[= ->]])]; auto. done.
Qed.

(** ** The outbox *)

Definition append_event (now : Z) (id : uuid) (type : string) (p : Payload) (db : DB.t) : DB.t :=
  (db <| DB.execution_outbox :=
       db.(DB.execution_outbox) ++ [Outbox.mk (db.(DB.outbox_seq) + 1) id type p now false] |>
      <| DB.outbox_seq := db.(DB.outbox_seq) + 1 |>)%go.

Lemma sql_insert_outbox_eq now id type p db :
  sql_insert_outbox now id type p db = inr (tt, append_event now id type p db).
Proof. done. Qed.

Lemma exec_outbox_inr io what now id type p t u t' :
  exec io what (sql_insert_outbox now id type p) t = (inr u, t') ->
  t'.(tx_db) = append_event now id type p t.(tx_db).
Proof. intros H. apply exec_inr in H as (H & _ & _). by injection H as _ <-. Qed.

(** ** One row *)

Definition put_row (s : UStrategy.t) (db : DB.t) : DB.t :=
  (db <| DB.strategies := <[s.(UStrategy.StrategyID) := s]> db.(DB.strategies) |>)%go.

Lemma sql_update_row_inr id where_ change db s' db' :
  sql_update_row id where_ change db = inr (s', db') ->
  exists s, db.(DB.strategies) !! id = Some s /\ where_ s = true /\
    s.(UStrategy.Version) < max_int32 /\ s' = change s /\
    mode_unknown s'.(UStrategy.TradingMode) = false /\
    (not_deleted s' = true ->
       name_taken db id s'.(UStrategy.UserID) s'.(UStrategy.StrategyName) = false) /\
    db' = (db <| DB.strategies := <[id := s']> db.(DB.strategies) |>)%go.
Proof.
  unfold sql_update_row. destruct (_ !! id) as [s|]; [|done].
  destruct (where_ s) eqn:Hw; [|done]. cbn [negb].
  destruct (max_int32 <=? _) eqn:Hv; [done|].
  destruct (mode_unknown _) eqn:Hm; [done|].
  destruct (not_deleted (change s) && _) eqn:Hn; [done|]. intros [= <- <-].
  exists s. split_and!; try done; [lia|]. intros Hnd. rewrite Hnd in Hn. exact Hn.
Qed.

Lemma change_row_inv us io id where_ change err type db r db' :
  change_row us io id where_ change err type db = (r, db') ->
  (db' = db /\ exists e, r = inl e) \/
  exists s s' db1, sql_update_row id where_ change db = inr (s', db1) /\
    db.(DB.strategies) !! id = Some s /\ where_ s = true /\ s' = change s /\
    db' = append_event io.(Io.Now) id type (thin_payload us s') db1 /\
    (r = inr tt \/ r = inl ErrCommit).
Proof.
  intros H. apply transaction_inv in H as [H|([] & t & H & _ & -> & Hr)]; [by left|right].
  apply tx_bind_inr in H as (s' & t1 & H1 & H2).
  apply statement_inr in H1 as (H1 & _ & _). apply exec_outbox_inr in H2. cbn [tx_db] in H1.
  pose proof (sql_update_row_inr _ _ _ _ _ _ H1) as (s & Hs & Hw & _ & He & _).
  exists s, s', t1.(tx_db). split_and!; auto.
Qed.

(** ** The bulk deactivation *)

Definition deactivated_rows (now : Z) (hit : UStrategy.t -> bool) (db : DB.t) : DB.t :=
  (db <| DB.strategies :=
     (fun s => if hit s then set_active now false s else s) <$> db.(DB.strategies) |>)%go.

Definition append_paused (us : uuid -> string) (now : Z) (l : list UStrategy.t) (db : DB.t) : DB.t :=
  foldl (fun db s => append_event now s.(UStrategy.StrategyID) "STRATEGY_DEACTIVATED"
                       (thin_payload us s) db) db l.

Lemma outbox_rows_inr us io l t u t' :
  outbox_rows us io l t = (inr u, t') -> t'.(tx_db) = append_paused us io.(Io.Now) l t.(tx_db).
Proof.
  revert t. induction l as [|s l IH]; intros t; cbn.
  - by intros [= _ <-].
  - intros H. apply tx_bind_inr in H as (v & t1 & H1 & H2).
    apply exec_outbox_inr in H1. apply IH in H2. by rewrite H2, H1.
Qed.

Lemma deactivate_all_inv us io where_ db r db' (hit := fun s => live s && where_ db s) :
  deactivate_all us io where_ db = (r, db') ->
  (db' = db /\ exists e, r = inl e) \/
  (Forall (fun s => s.(UStrategy.Version) < max_int32) (List.filter hit (rows db)) /\
   db' = append_paused us io.(Io.Now)
           (map (set_active io.(Io.Now) false) (List.filter hit (rows db)))
           (deactivated_rows io.(Io.Now) hit db) /\
   (r = inr (Z.of_nat (length (List.filter hit (rows db)))) \/ r = inl ErrCommit)).
Proof.
  intros H. apply transaction_inv in H as [H|(n & t & H & _ & -> & Hr)]; [by left|right].
  apply tx_bind_inr in H as (l & t1 & H1 & H2). apply tx_bind_inr in H2 as (u & t2 & H2 & H3).
  injection H3 as <- <-. apply outbox_rows_inr in H2.
  apply exec_inr in H1 as (H1 & _ & _). cbn [tx_db] in H1. unfold sql_deactivate in H1.
  fold hit in H1. destruct (existsb _ _) eqn:Hx; [done|]. injection H1 as <- Hdb.
  rewrite H2, <- Hdb. rewrite length_map in Hr. split_and!; [|done|done].
  apply Forall_forall. intros s Hs. destruct (Z.lt_ge_cases (UStrategy.Version s) max_int32); [done|].
  exfalso. assert (Ht : existsb (fun s => max_int32 <=? UStrategy.Version s)
    (List.filter hit (rows db)) = true); [|by rewrite Hx in Ht].
  apply existsb_exists. exists s. split; [by apply list_elem_of_In|lia].
Qed.

(** ** A new strategy *)

Definition put_opt {P : Type} (id : uuid) (o : option P) (m : gmap uuid P) : gmap uuid P :=
  match o with Some p => <[id := p]> m | None => m end.

Section Writes.

Context (numeric_20_4 : f64 -> option f64).

(** The tables with a strategy and its parts. *)
Definition created (s : UStrategy.t) (db : DB.t) : DB.t :=
  let id := s.(UStrategy.StrategyID) in
  (db <| DB.strategies := <[id := row_of s]> db.(DB.strategies) |>
      <| DB.strategy_conditions := put_opt id s.(UStrategy.Conditions) db.(DB.strategy_conditions) |>
      <| DB.trade_configs :=
           put_opt id (stored_trade <$> s.(UStrategy.TradeConfig)) db.(DB.trade_configs) |>
      <| DB.risk_limits :=
           put_opt id (s.(UStrategy.RiskLimits) ≫= stored_limits numeric_20_4) db.(DB.risk_limits) |>)%go.

(** The parts of a request as the code completes them. *)
Definition full_conditions (now : Z) (id condID : uuid) (c : UCondition.t) : UCondition.t :=
  (c <| UCondition.ConditionID := condID |> <| UCondition.StrategyID := id |>
     <| UCondition.CreatedAt := now |>)%go.
Definition full_trade (now : Z) (id tcID : uuid) (c : UTradeConfig.t) : UTradeConfig.t :=
  (c <| UTradeConfig.TradeConfigID := tcID |> <| UTradeConfig.StrategyID := id |>
     <| UTradeConfig.CreatedAt := now |>)%go.
Definition full_limits (now : Z) (id rlID : uuid) (c : URiskLimits.t) : URiskLimits.t :=
  (c <| URiskLimits.RiskLimitID := rlID |> <| URiskLimits.StrategyID := id |>
     <| URiskLimits.CreatedAt := now |>)%go.

Definition full_strategy (io : Io.t) (newID condID tcID rlID : uuid)
    (req : CreateStrategyRequest.t) : UStrategy.t :=
  let now := io.(Io.Now) in
  (new_strategy io newID req
    <| UStrategy.Conditions := full_conditions now newID condID <$> req.(CreateStrategyRequest.Conditions) |>
    <| UStrategy.TradeConfig := full_trade now newID tcID <$> req.(CreateStrategyRequest.TradeConfig) |>
    <| UStrategy.RiskLimits := full_limits now newID rlID <$> req.(CreateStrategyRequest.RiskLimits) |>)%go.

Lemma insert_part_inr {P} (get : DB.t -> gmap uuid P) put id p db u db' :
  sql_insert_part get put id p db = inr (u, db') -> get db !! id = None /\ db' = put (<[id := p]> (get db)) db.
Proof. unfold sql_insert_part. destruct (get db !! id); [done|]. by intros [= _ <-]. Qed.

Lemma insert_conditions_inr io condID c s t s' t' :
  insert_conditions io condID c s t = (inr s', t') ->
  let c' := full_conditions io.(Io.Now) s.(UStrategy.StrategyID) condID <$> c in
  (c' = None /\ s' = s \/ s' = (s <| UStrategy.Conditions := c' |>)%go) /\
  t'.(tx_db) = put_conditions (put_opt s.(UStrategy.StrategyID) c'
                                 t.(tx_db).(DB.strategy_conditions)) t.(tx_db).
Proof.
  destruct c as [c|]; cbn.
  - intros H. apply tx_bind_inr in H as (u & t1 & H1 & H2). injection H2 as <- <-.
    apply exec_inr in H1 as (H1 & _ & _). apply insert_part_inr in H1 as [_ ->]. auto.
  - intros [= <- <-]. split; [auto|]. by destruct t as [? ? []].
Qed.

Lemma insert_trade_inr io tcID c s t s' t' :
  insert_trade io tcID c s t = (inr s', t') ->
  let c' := full_trade io.(Io.Now) s.(UStrategy.StrategyID) tcID <$> c in
  (c' = None /\ s' = s \/ s' = (s <| UStrategy.TradeConfig := c' |>)%go) /\
  t'.(tx_db) = put_trade (put_opt s.(UStrategy.StrategyID) (stored_trade <$> c')
                                 t.(tx_db).(DB.trade_configs)) t.(tx_db).
Proof.
  destruct c as [c|]; cbn.
  - intros H. apply tx_bind_inr in H as (u0 & t0 & H0 & H). apply marshal_inr in H0 as [-> _].
    apply tx_bind_inr in H as (u1 & t1 & H1 & H). apply marshal_inr in H1 as [-> _].
    apply tx_bind_inr in H as (u & t2 & H2 & H3). injection H3 as <- <-.
    apply exec_inr in H2 as (H2 & _ & _). apply insert_part_inr in H2 as [_ ->]. auto.
  - intros [= <- <-]. split; [auto|]. by destruct t as [? ? []].
Qed.

Lemma insert_limits_inr io rlID c s t s' t' :
  insert_limits numeric_20_4 io rlID c s t = (inr s', t') ->
  let c' := full_limits io.(Io.Now) s.(UStrategy.StrategyID) rlID <$> c in
  (c' = None /\ s' = s \/ s' = (s <| UStrategy.RiskLimits := c' |>)%go) /\
  t'.(tx_db) = put_limits (put_opt s.(UStrategy.StrategyID) (c' ≫= stored_limits numeric_20_4)
                                 t.(tx_db).(DB.risk_limits)) t.(tx_db).
Proof.
  destruct c as [c|]; cbn [fmap option_fmap option_map mbind option_bind insert_limits].
  - intros H. apply tx_bind_inr in H as (u & t1 & H1 & H2). injection H2 as <- <-.
    apply exec_inr in H1 as (H1 & _ & _). unfold sql_insert_limits in H1. unfold full_limits.
    destruct (stored_limits _ _) as [rl|]; [|done].
    apply insert_part_inr in H1 as [_ ->]. auto.
  - intros [= <- <-]. split; [auto|]. by destruct t as [? ? []].
Qed.

Lemma Create_inv io newID condID tcID rlID req db r db'
    (s := full_strategy io newID condID tcID rlID req) :
  Create numeric_20_4 io newID condID tcID rlID req db = (r, db') ->
  (db' = db /\ exists e, r = inl e) \/
  (db.(DB.strategies) !! newID = None /\ strategy_json s = true /\
   mode_unknown req.(CreateStrategyRequest.TradingMode) = false /\
   name_taken db newID req.(CreateStrategyRequest.UserID) req.(CreateStrategyRequest.StrategyName) = false /\
   db' = append_event io.(Io.Now) newID "STRATEGY_CREATED" (PayloadFull s) (created s db) /\
   (r = inr s \/ r = inl ErrCommit)).
Proof.
  intros H. apply transaction_inv in H as [H|(s1 & t & H & _ & -> & Hr)]; [by left|right].
  apply tx_bind_inr in H as (u0 & t0 & H0 & H). apply statement_inr in H0 as (H0 & _ & _).
  apply tx_bind_inr in H as (s2 & t2 & H2 & H). apply insert_conditions_inr in H2 as [Hs2 Ht2].
  apply tx_bind_inr in H as (s3 & t3 & H3 & H). apply insert_trade_inr in H3 as [Hs3 Ht3].
  apply tx_bind_inr in H as (s4 & t4 & H4 & H). apply insert_limits_inr in H4 as [Hs4 Ht4].
  assert (Hs : s4 = s).
  { unfold s, full_strategy. destruct Hs2 as [[E2 ->]| ->], Hs3 as [[E3 ->]| ->], Hs4 as [[E4 ->]| ->];
    cbn in *; repeat match goal with E : _ = None |- _ => rewrite E; clear E end; done. }
  assert (Hid2 : s2.(UStrategy.StrategyID) = newID) by (by destruct Hs2 as [[_ ->]| ->]).
  assert (Hid3 : s3.(UStrategy.StrategyID) = newID) by (destruct Hs3 as [[_ ->]| ->]; exact Hid2).
  subst s4. destruct (strategy_json s) eqn:Hj; [|done].
  apply tx_bind_inr in H as (u & t5 & H5 & H). apply exec_outbox_inr in H5. injection H as <- <-.
  unfold sql_insert_strategy in H0. cbn [tx_db] in H0.
  destruct (mode_unknown _) eqn:Hm; [done|]. destruct (bool_decide _) eqn:Hk; [done|].
  destruct (name_taken _ _ _ _) eqn:Hn; [done|]. injection H0 as _ Hdb.
  split_and!; try done; [|].
  - apply bool_decide_eq_false, eq_None_not_Some in Hk. exact Hk.
  - rewrite H5, Ht4, Ht3, Ht2, Hid3, Hid2. rewrite <- Hdb. f_equal.
Qed.

(** ** An update *)

Definition alter_opt {P Q : Type} (f : Q -> P -> P) (o : option Q) (id : uuid) (m : gmap uuid P)
    : gmap uuid P := match o with Some q => alter (f q) id m | None => m end.

Definition updated_tables (s : UStrategy.t) (req : UpdateStrategyRequest.t) (db : DB.t) : DB.t :=
  let id := req.(UpdateStrategyRequest.StrategyID) in
  (db <| DB.strategies := <[id := s]> db.(DB.strategies) |>
      <| DB.strategy_conditions :=
           alter_opt set_conditions req.(UpdateStrategyRequest.Conditions) id db.(DB.strategy_conditions) |>
      <| DB.trade_configs :=
           alter_opt set_trade req.(UpdateStrategyRequest.TradeConfig) id db.(DB.trade_configs) |>
      <| DB.risk_limits :=
           alter_opt set_limits (req.(UpdateStrategyRequest.RiskLimits) ≫= stored_limits numeric_20_4)
             id db.(DB.risk_limits) |>)%go.

(** A row with its parts. *)
Definition assembled (db : DB.t) (s : UStrategy.t) : UStrategy.t :=
  let id := s.(UStrategy.StrategyID) in
  (s <| UStrategy.Conditions := db.(DB.strategy_conditions) !! id |>
     <| UStrategy.TradeConfig := db.(DB.trade_configs) !! id |>
     <| UStrategy.RiskLimits := db.(DB.risk_limits) !! id |>)%go.

Lemma update_conditions_inr io id c t u t' :
  update_conditions io id c t = (inr u, t') ->
  t'.(tx_db) = put_conditions (alter_opt set_conditions c id t.(tx_db).(DB.strategy_conditions)) t.(tx_db).
Proof.
  destruct c as [c|]; cbn; [|intros [= _ <-]; by destruct t as [? ? []]].
  intros H. apply exec_inr in H as (H & _ & _). by injection H as _ <-.
Qed.

Lemma update_trade_inr io id c t u t' :
  update_trade io id c t = (inr u, t') ->
  t'.(tx_db) = put_trade (alter_opt set_trade c id t.(tx_db).(DB.trade_configs)) t.(tx_db).
Proof.
  destruct c as [c|]; cbn; [|intros [= _ <-]; by destruct t as [? ? []]].
  intros H. apply tx_bind_inr in H as (u0 & t0 & H0 & H). apply marshal_inr in H0 as [-> _].
  apply tx_bind_inr in H as (u1 & t1 & H1 & H). apply marshal_inr in H1 as [-> _].
  apply exec_inr in H as (H & _ & _). by injection H as _ <-.
Qed.

Lemma update_limits_inr io id c t u t' :
  update_limits numeric_20_4 io id c t = (inr u, t') ->
  t'.(tx_db) = put_limits (alter_opt set_limits (c ≫= stored_limits numeric_20_4) id
                             t.(tx_db).(DB.risk_limits)) t.(tx_db).
Proof.
  destruct c as [c|]; cbn [update_limits mbind option_bind]; [|intros [= _ <-]; by destruct t as [? ? []]].
  intros H. apply exec_inr in H as (H & _ & _). unfold sql_update_limits in H.
  destruct (stored_limits _ _); [|done]. by injection H as _ <-.
Qed.

Lemma Update_inv io req db r db' (id := req.(UpdateStrategyRequest.StrategyID)) :
  Update numeric_20_4 io req db = (r, db') ->
  (db' = db /\ exists e, r = inl e) \/
  exists s0, db.(DB.strategies) !! id = Some s0 /\ update_where req s0 = true /\
    s0.(UStrategy.Version) < max_int32 /\
    let s1 := update_set io.(Io.Now) req s0 in
    let db1 := updated_tables s1 req db in
    let s := (s1 <| UStrategy.Conditions := db1.(DB.strategy_conditions) !! id |>
                 <| UStrategy.TradeConfig := db1.(DB.trade_configs) !! id |>
                 <| UStrategy.RiskLimits := db1.(DB.risk_limits) !! id |>)%go in
    mode_unknown s1.(UStrategy.TradingMode) = false /\
    name_taken db id s1.(UStrategy.UserID) s1.(UStrategy.StrategyName) = false /\
    db' = (if strategy_json s then
             append_event io.(Io.Now) id "STRATEGY_UPDATED" (PayloadFull s) db1 else db1) /\
    (r = inr s \/ r = inl ErrCommit).
Proof.
  intros H. apply transaction_inv in H as [H|(s & t & H & Ha & -> & Hr)]; [by left|right].
  fold id in H. apply tx_bind_inr in H as (s1 & t1 & H1 & H).
  apply statement_inr in H1 as (H1 & _ & _).
  apply sql_update_row_inr in H1 as (s0 & Hs0 & Hw & Hv & -> & Hm & Hn & Hdb1).
  apply tx_bind_inr in H as (u2 & t2 & H2 & H). apply update_conditions_inr in H2.
  apply tx_bind_inr in H as (u3 & t3 & H3 & H). apply update_trade_inr in H3.
  apply tx_bind_inr in H as (u4 & t4 & H4 & H). apply update_limits_inr in H4.
  apply tx_bind_inr in H as (c & t5 & H5 & H). apply peek_inr in H5 as [E5 K5].
  apply tx_bind_inr in H as (tc & t6 & H6 & H). apply peek_trade_inr in H6 as [E6 K6].
  apply tx_bind_inr in H as (rl & t7 & H7 & H). apply peek_inr in H7 as [E7 K7].
  assert (Hdb : t7.(tx_db) = updated_tables (update_set io.(Io.Now) req s0) req db).
  { rewrite E7, E6, E5, H4, H3, H2, Hdb1. done. }
  apply tx_bind_inr in H as (u8 & t8 & H8 & H). injection H as <- <-.
  set (s := (_ <| UStrategy.RiskLimits := rl |>)%go) in *.
  assert (H7a : t7.(tx_aborted) = false).
  { destruct (strategy_json s); [by apply exec_inr in H8 as (_ & ? & _)|by injection H8 as _ <-]. }
  destruct (K7 H7a) as [H6a Hrl], (K6 ltac:(done)) as [H5a Htc], (K5 ltac:(done)) as [_ Hc].
  rewrite <- E6, <- E7, Hdb in Hrl || rewrite <- E7, Hdb in Hrl.
  rewrite <- E6, <- E7, Hdb in Htc || rewrite <- E5, <- E6, <- E7, Hdb in Htc.
  rewrite <- E5, <- E6, <- E7, Hdb in Hc || idtac.
  exists s0. cbn zeta. rewrite <- Hc, <- Htc, <- Hrl. fold s. split_and!; try done.
  - apply Hn. clear -Hw. unfold update_where in Hw. by apply andb_prop in Hw as [_ ?].
  - destruct (strategy_json s); [|by injection H8 as _ <-].
    apply exec_outbox_inr in H8. by rewrite H8, Hdb.
Qed.
End Writes.
