(* ===== verification/UCInvariant.v ===== *)
(** * The tables of the strategy service stay consistent

    A run of the service is a list of calls of the repository and of rounds of
    the outbox worker.  The invariant [db_ok] relates rows and outbox: the
    versions of a strategy's events increase, none exceeds the version of its
    row, and an event says what its row says. *)

From stdpp Require Import base tactics gmap strings list sorting.
From Stdlib Require Import ZArith Lia Bool.
From S2P Require Import Prelude GoFloat GoStrings RuleModels ConfigStore ConfigSync UCModels UCRepo.
From S2P Require Import UCWorker UCTx.

Open Scope string_scope.
Open Scope list_scope.
Open Scope Z_scope.

(** ** Runs *)

Inductive UCOp : Type :=
  | OCreate (io : Io.t) (newID condID tcID rlID : uuid) (req : CreateStrategyRequest.t)
  | OUpdate (io : Io.t) (req : UpdateStrategyRequest.t)
  | ODelete (io : Io.t) (id : uuid) (user : string)
  | OActivate (io : Io.t) (id : uuid) (user : string)
  | ODeactivate (io : Io.t) (id : uuid) (user : string)
  | ODeactivateAll (io : Io.t)
  | ODeactivateMode (io : Io.t) (mode : string)
  | ODeactivateAt (io : Io.t) (time : string)
  | OWorker (env : WorkerEnv.t).

(** The database and everything written to the topic so far. *)
Definition UCState : Type := DB.t * list ConfigEvent.t.

Section Runs.

Context (numeric_20_4 : f64 -> option f64) (uuid_string : uuid -> string)
  (uuid_parse : string -> option uuid).

Definition uc_step (op : UCOp) (w : UCState) : UCState :=
  let '(db, topic) := w in
  match op with
  | OCreate io a b c d req => ((Create numeric_20_4 io a b c d req db).2, topic)
  | OUpdate io req => ((Update numeric_20_4 io req db).2, topic)
  | ODelete io id user => ((Delete uuid_string io id user db).2, topic)
  | OActivate io id user => ((Activate uuid_string io id user db).2, topic)
  | ODeactivate io id user => ((Deactivate uuid_string io id user db).2, topic)
  | ODeactivateAll io => ((DeactivateAllActive uuid_string io db).2, topic)
  | ODeactivateMode io mode => ((DeactivateAllActiveByMode uuid_string io mode db).2, topic)
  | ODeactivateAt io time =>
      ((DeactivateActiveByAutoSquareOffTime uuid_string io time db).2, topic)
  | OWorker env =>
      let '(db, msgs, _) := processOutbox uuid_string uuid_parse env db in (db, topic ++ msgs)
  end.

Definition uc_run (ops : list UCOp) (w : UCState) : UCState :=
  foldl (fun w op => uc_step op w) w ops.

(** ** The invariant *)

(** The version in the payload of an event. *)
Definition event_version (o : Outbox.t) : Z :=
  match o.(Outbox.Payload) with
  | PayloadFull s => s.(UStrategy.Version)
  | PayloadThin _ _ v => v
  | PayloadEmpty | PayloadBad => 0
  end.

Definition full_types : list string := ["STRATEGY_CREATED"; "STRATEGY_UPDATED"].
Definition thin_types : list string :=
  ["STRATEGY_DELETED"; "STRATEGY_ACTIVATED"; "STRATEGY_DEACTIVATED"].
Definition upsert_types : list string := full_types ++ ["STRATEGY_ACTIVATED"].

(** The payload of an event names the strategy and its owner. *)
Definition payload_ok (s : UStrategy.t) (o : Outbox.t) : Prop :=
  (one_of o.(Outbox.EventType) full_types = true /\ exists s', o.(Outbox.Payload) = PayloadFull s' /\
     s'.(UStrategy.StrategyID) = s.(UStrategy.StrategyID) /\
     s'.(UStrategy.UserID) = s.(UStrategy.UserID) /\ strategy_json s' = true) \/
  (one_of o.(Outbox.EventType) thin_types = true /\ exists v,
     o.(Outbox.Payload) = PayloadThin (uuid_string s.(UStrategy.StrategyID)) s.(UStrategy.UserID) v).

Record event_ok (s : UStrategy.t) (o : Outbox.t) : Prop := {
  eo_version : 1 <= event_version o <= s.(UStrategy.Version);
  eo_payload : payload_ok s o;
  eo_kind : event_version o = s.(UStrategy.Version) -> s.(UStrategy.Active) = true ->
            one_of o.(Outbox.EventType) upsert_types = true;
  eo_deleted : o.(Outbox.EventType) = "STRATEGY_DELETED" -> s.(UStrategy.DeletedAt) <> None
}.

Record row_ok (id : uuid) (s : UStrategy.t) : Prop := {
  ro_id : s.(UStrategy.StrategyID) = id;
  ro_version : 1 <= s.(UStrategy.Version) <= max_int32;
  ro_deleted : s.(UStrategy.DeletedAt) <> None -> s.(UStrategy.Active) = false
}.

Definition later_version (o1 o2 : Outbox.t) : Prop :=
  o1.(Outbox.AggregateID) = o2.(Outbox.AggregateID) -> event_version o1 < event_version o2.

Definition names_ok (m : gmap uuid UStrategy.t) : Prop :=
  forall id1 id2 s1 s2, m !! id1 = Some s1 -> m !! id2 = Some s2 ->
    not_deleted s1 = true -> not_deleted s2 = true ->
    s1.(UStrategy.UserID) = s2.(UStrategy.UserID) ->
    s1.(UStrategy.StrategyName) = s2.(UStrategy.StrategyName) -> id1 = id2.

Record db_ok (db : DB.t) : Prop := {
  ok_rows : forall id s, db.(DB.strategies) !! id = Some s -> row_ok id s;
  ok_names : names_ok db.(DB.strategies);
  ok_events : Forall (fun o => exists s, db.(DB.strategies) !! o.(Outbox.AggregateID) = Some s /\
                                         event_ok s o) db.(DB.execution_outbox);
  ok_order : StronglySorted later_version db.(DB.execution_outbox);
  ok_ids : StronglySorted (fun a b => a.(Outbox.ID) < b.(Outbox.ID)) db.(DB.execution_outbox);
  ok_seq : Forall (fun o => o.(Outbox.ID) <= db.(DB.outbox_seq)) db.(DB.execution_outbox)
}.

Lemma db_ok_empty : db_ok DB.empty.
Proof. split; cbn; try constructor; done. Qed.

(** ** Rows change *)

Record row_next (s s' : UStrategy.t) : Prop := {
  rn_id : s'.(UStrategy.StrategyID) = s.(UStrategy.StrategyID);
  rn_user : s'.(UStrategy.UserID) = s.(UStrategy.UserID);
  rn_version : s'.(UStrategy.Version) = s.(UStrategy.Version) + 1;
  rn_max : s.(UStrategy.Version) < max_int32;
  rn_deleted : s'.(UStrategy.DeletedAt) <> None -> s'.(UStrategy.Active) = false;
  rn_stays : s.(UStrategy.DeletedAt) <> None -> s'.(UStrategy.DeletedAt) <> None
}.

Definition row_step (m m' : gmap uuid UStrategy.t) : Prop := forall id,
  m' !! id = m !! id \/
  (exists s s', m !! id = Some s /\ m' !! id = Some s' /\ row_next s s') \/
  (m !! id = None /\ exists s', m' !! id = Some s' /\ row_ok id s').

Lemma event_ok_next s s' o : row_next s s' -> event_ok s o -> event_ok s' o.
Proof.
  intros [H1 H2 H3 _ _ H6] [He1 He2 _ He4]. split; [lia| |lia|auto].
  unfold payload_ok in *. by rewrite H1, H2.
Qed.

(** Rows change, the outbox does not. *)
Lemma db_ok_rows db db' :
  db_ok db -> row_step db.(DB.strategies) db'.(DB.strategies) -> names_ok db'.(DB.strategies) ->
  db'.(DB.execution_outbox) = db.(DB.execution_outbox) -> db'.(DB.outbox_seq) = db.(DB.outbox_seq) ->
  db_ok db'.
Proof.
  intros [R N E O I S] Hs Hn Ho Hq. split; rewrite ?Ho, ?Hq; try done.
  - intros id s Hid. destruct (Hs id) as [Heq|[(s0 & s' & H0 & H' & Hx)|(_ & s' & H' & Hx)]].
    + apply R. by rewrite <- Heq.
    + assert (s' = s) as -> by congruence. pose proof (R _ _ H0) as [Hr Hv _]. destruct Hx.
      split; [congruence|lia|done].
    + by assert (s' = s) as -> by congruence.
  - eapply Forall_impl; [exact E|]. cbn. intros o (s & Hid & Hev).
    destruct (Hs (Outbox.AggregateID o)) as [Heq|[(s0 & s' & H0 & H' & Hx)|(H0 & _)]].
    + exists s. by rewrite Heq.
    + exists s'. split; [done|]. assert (s0 = s) as -> by congruence. by eapply event_ok_next.
    + congruence.
Qed.

(** The events of a strategy are older than its row. *)
Definition unannounced (db : DB.t) (id : uuid) (v : Z) : Prop :=
  Forall (fun o => o.(Outbox.AggregateID) = id -> event_version o < v) db.(DB.execution_outbox).

Lemma unannounced_next db id s v :
  db_ok db -> db.(DB.strategies) !! id = Some s -> s.(UStrategy.Version) < v -> unannounced db id v.
Proof.
  intros Hok Hid Hv. eapply Forall_impl; [exact (ok_events _ Hok)|]. cbn.
  intros o (s' & Hs' & [He _ _ _]) <-. assert (s' = s) as -> by congruence. lia.
Qed.

Lemma unannounced_new db id v : db_ok db -> db.(DB.strategies) !! id = None -> unannounced db id v.
Proof.
  intros Hok Hid. eapply Forall_impl; [exact (ok_events _ Hok)|]. cbn.
  intros o (s' & Hs' & _) <-. congruence.
Qed.

Lemma db_ok_append now id type p db s :
  db_ok db -> db.(DB.strategies) !! id = Some s ->
  event_ok s (Outbox.mk (db.(DB.outbox_seq) + 1) id type p now false) ->
  unannounced db id (event_version (Outbox.mk (db.(DB.outbox_seq) + 1) id type p now false)) ->
  db_ok (append_event now id type p db).
Proof.
  intros [R N E O I S] Hid Hev Hun. split; cbn; try done.
  - apply Forall_app. split; [done|]. constructor; [|done]. by exists s.
  - apply sorted_app; [done|by repeat constructor|]. intros a b Ha Hb%list_elem_of_singleton.
    subst b. intros Heq. cbn in Heq. unfold unannounced in Hun. rewrite Forall_forall in Hun. auto.
  - apply sorted_app; [done|by repeat constructor|]. intros a b Ha Hb%list_elem_of_singleton.
    subst b. cbn. rewrite Forall_forall in S. specialize (S a Ha). lia.
  - apply Forall_app. split; [|constructor; cbn; [lia|done]].
    eapply Forall_impl; [exact S|]. cbn. lia.
Qed.

(** ** Names *)

Lemma elem_of_rows db s : s ∈ rows db <-> exists id, db.(DB.strategies) !! id = Some s.
Proof.
  unfold rows. rewrite list_elem_of_fmap. split.
  - intros ([id s'] & -> & H%elem_of_map_to_list). eauto.
  - intros [id H]. exists (id, s). split; [done|]. by apply elem_of_map_to_list.
Qed.

Lemma name_taken_false db id user name :
  (forall i s, db.(DB.strategies) !! i = Some s -> s.(UStrategy.StrategyID) = i) ->
  name_taken db id user name = false ->
  forall i s, db.(DB.strategies) !! i = Some s -> not_deleted s = true ->
    s.(UStrategy.UserID) = user -> s.(UStrategy.StrategyName) = name -> i = id.
Proof.
  intros Hid Hn i s Hs Hd Hu Hm. destruct (decide (i = id)) as [|Hne]; [done|]. exfalso.
  assert (Ht : name_taken db id user name = true); [|congruence].
  apply existsb_exists. exists s. split; [apply list_elem_of_In, elem_of_rows; eauto|].
  rewrite Hd, Hu, Hm, (Hid _ _ Hs), !String.eqb_refl. cbn. apply negb_true_iff, N.eqb_neq. done.
Qed.

Lemma names_ok_insert db id s :
  db_ok db ->
  (not_deleted s = true -> name_taken db id s.(UStrategy.UserID) s.(UStrategy.StrategyName) = false) ->
  names_ok (<[id := s]> db.(DB.strategies)).
Proof.
  intros Hok Hn id1 id2 s1 s2 H1 H2 D1 D2 Hu Hm.
  pose proof (fun i s H => ro_id _ _ (ok_rows _ Hok i s H)) as Hids.
  apply lookup_insert_Some in H1 as [[<- <-]|[Hne1 H1]], H2 as [[<- <-]|[Hne2 H2]].
  - done.
  - symmetry. eapply name_taken_false; eauto.
  - eapply name_taken_false; eauto.
  - eapply (ok_names _ Hok); eauto.
Qed.

Lemma row_step_insert m id s s' :
  m !! id = Some s -> row_next s s' -> row_step m (<[id := s']> m).
Proof.
  intros Hs Hn i. destruct (decide (i = id)) as [->|Hne].
  - right. left. exists s, s'. by rewrite lookup_insert_eq.
  - left. by rewrite lookup_insert_ne.
Qed.

(** ** One row and its event *)

Lemma one_row_ok now db db1 id s s' type p :
  db_ok db -> db.(DB.strategies) !! id = Some s -> row_next s s' ->
  db1.(DB.strategies) = <[id := s']> db.(DB.strategies) ->
  db1.(DB.execution_outbox) = db.(DB.execution_outbox) ->
  db1.(DB.outbox_seq) = db.(DB.outbox_seq) ->
  (not_deleted s' = true -> name_taken db id s'.(UStrategy.UserID) s'.(UStrategy.StrategyName) = false) ->
  (forall n, let o := Outbox.mk n id type p now false in
     event_version o = s'.(UStrategy.Version) /\ payload_ok s' o /\
     (s'.(UStrategy.Active) = true -> one_of type upsert_types = true) /\
     (type = "STRATEGY_DELETED" -> s'.(UStrategy.DeletedAt) <> None)) ->
  db_ok db1 /\ db_ok (append_event now id type p db1).
Proof.
  intros Hok Hs Hn E1 E2 E3 Hnm Hev.
  assert (Hok1 : db_ok db1).
  { eapply db_ok_rows; eauto; rewrite E1; [by eapply row_step_insert|by apply names_ok_insert]. }
  split; [done|]. destruct (Hev (db1.(DB.outbox_seq) + 1)) as (Hv & Hp & Hk & Hd).
  eapply db_ok_append; [done|by rewrite E1, lookup_insert_eq| |].
  - split; [|done|auto|auto]. rewrite Hv. pose proof (ro_version _ _ (ok_rows _ Hok _ _ Hs)). destruct Hn; lia.
  - rewrite Hv. unfold unannounced. rewrite E2. eapply unannounced_next; [done..|]. destruct Hn; lia.
Qed.

Lemma change_row_ok io id where_ change err type db :
  db_ok db -> one_of type thin_types = true ->
  (forall s, row_ok id s -> where_ s = true -> s.(UStrategy.Version) < max_int32 -> row_next s (change s)) ->
  (forall s, (change s).(UStrategy.Active) = true -> one_of type upsert_types = true) ->
  (forall s, type = "STRATEGY_DELETED" -> (change s).(UStrategy.DeletedAt) <> None) ->
  db_ok (change_row uuid_string io id where_ change err type db).2.
Proof.
  intros Hok Hty Hch Hact Hdel. destruct (change_row _ _ _ _ _ _ _ _) as [r db'] eqn:E.
  apply change_row_inv in E as [[-> _]|(s & s' & db1 & H1 & Hs & Hw & -> & -> & _)]; [done|].
  apply sql_update_row_inr in H1 as (s0 & Hs0 & _ & Hv & _ & _ & Hn & ->).
  assert (s0 = s) as -> by congruence. cbn [snd].
  pose proof (Hch s (ok_rows _ Hok _ _ Hs) Hw Hv) as Hnext.
  eapply (one_row_ok io.(Io.Now) db _ id s (change s)); try done.
  intros n. split_and!; [done| |by apply Hact|by apply Hdel]. right. eauto.
Qed.

(** ** The calls *)

Lemma bump_next now s t :
  t.(UStrategy.StrategyID) = s.(UStrategy.StrategyID) -> t.(UStrategy.UserID) = s.(UStrategy.UserID) ->
  t.(UStrategy.Version) = s.(UStrategy.Version) -> s.(UStrategy.Version) < max_int32 ->
  (t.(UStrategy.DeletedAt) <> None -> t.(UStrategy.Active) = false) ->
  (s.(UStrategy.DeletedAt) <> None -> t.(UStrategy.DeletedAt) <> None) -> row_next s (bump now t).
Proof. intros. split; cbn; try done. lia. Qed.

Lemma not_deleted_None s : not_deleted s = true -> s.(UStrategy.DeletedAt) = None.
Proof. apply bool_decide_eq_true. Qed.

Lemma owned_not_deleted user s : owned user s = true -> s.(UStrategy.DeletedAt) = None.
Proof. intros [_ H]%andb_prop. by apply not_deleted_None. Qed.

Lemma set_active_next now b user s :
  owned user s = true -> s.(UStrategy.Version) < max_int32 -> row_next s (set_active now b s).
Proof. intros H Hv. apply bump_next; cbn; try done. by rewrite (owned_not_deleted _ _ H). Qed.

Lemma Delete_ok io id user db : db_ok db -> db_ok (Delete uuid_string io id user db).2.
Proof. intros Hok. apply change_row_ok; try done. Qed.

Lemma Activate_ok io id user db : db_ok db -> db_ok (Activate uuid_string io id user db).2.
Proof.
  intros Hok. apply change_row_ok; try done. intros s _ Hw Hv. by eapply set_active_next.
Qed.

Lemma Deactivate_ok io id user db : db_ok db -> db_ok (Deactivate uuid_string io id user db).2.
Proof.
  intros Hok. by apply change_row_ok.
Qed.

Lemma update_set_next now req s :
  update_where req s = true -> s.(UStrategy.Version) < max_int32 -> row_next s (update_set now req s).
Proof.
  intros [_ Hd]%andb_prop Hv. apply bump_next; cbn; try done.
  by rewrite (not_deleted_None _ Hd).
Qed.

Lemma Update_ok io req db : db_ok db -> db_ok (Update numeric_20_4 io req db).2.
Proof.
  intros Hok. destruct (Update _ _ _ _) as [r db'] eqn:E.
  apply Update_inv in E as [[-> _]|(s0 & Hs0 & Hw & Hv & _ & Hn & -> & _)]; [done|]. cbn [snd].
  set (id := UpdateStrategyRequest.StrategyID req) in *.
  set (s1 := update_set _ _ _) in *. set (s := (s1 <| _ := _ |> <| _ := _ |> <| _ := _ |>)%go).
  assert (K : strategy_json s = true ->
    db_ok (updated_tables numeric_20_4 s1 req db) /\
    db_ok (append_event io.(Io.Now) id "STRATEGY_UPDATED" (PayloadFull s)
             (updated_tables numeric_20_4 s1 req db))).
  { intros Hj. eapply (one_row_ok _ db _ id s0 s1); try done.
    - by apply update_set_next.
    - intros n. split_and!; [done| |done|done]. left. split; [done|]. exists s. split_and!; done. }
  destruct (strategy_json s) eqn:Hj; [by apply K|].
  eapply db_ok_rows; [exact Hok| | |done|done].
  - cbn. eapply row_step_insert; [done|]. by apply update_set_next.
  - apply names_ok_insert; [done|]. by intros _.
Qed.

Lemma Create_ok io newID condID tcID rlID req db :
  db_ok db -> db_ok (Create numeric_20_4 io newID condID tcID rlID req db).2.
Proof.
  intros Hok. destruct (Create _ _ _ _ _ _ _ _) as [r db'] eqn:E.
  apply Create_inv in E as [[-> _]|(Hno & Hj & _ & Hn & -> & _)]; [done|]. cbn [snd].
  set (s := full_strategy io newID condID tcID rlID req) in *.
  assert (Hok1 : db_ok (created numeric_20_4 s db)).
  { eapply db_ok_rows; [exact Hok| | |done|done].
    - intros i. destruct (decide (i = newID)) as [->|Hne]; cbn; [|left; by rewrite lookup_insert_ne].
      right. right. split; [done|]. exists (row_of s). rewrite lookup_insert_eq.
      split; [done|]. split; cbn; done.
    - apply names_ok_insert; [done|]. by intros _. }
  eapply db_ok_append; [done|by cbn; rewrite lookup_insert_eq| |].
  - split; cbn; [lia| |done|done]. left. split; [done|]. exists s. done.
  - apply (unannounced_new db); done.
Qed.

(** ** The bulk deactivations *)

Lemma rows_lookup db s :
  db_ok db -> s ∈ rows db -> db.(DB.strategies) !! s.(UStrategy.StrategyID) = Some s.
Proof.
  intros Hok [id Hid]%elem_of_rows. by rewrite (ro_id _ _ (ok_rows _ Hok _ _ Hid)).
Qed.

Lemma rows_ids_NoDup db : db_ok db -> NoDup (map UStrategy.StrategyID (rows db)).
Proof.
  intros Hok. unfold rows. rewrite <- list_fmap_compose.
  rewrite (list_fmap_ext _ fst); [apply NoDup_fst_map_to_list|].
  intros i [id s] Hi%list_elem_of_lookup_2%elem_of_map_to_list. cbn.
  by rewrite (ro_id _ _ (ok_rows _ Hok _ _ Hi)).
Qed.

Lemma map_filter_NoDup {A B} (f : A -> B) (p : A -> bool) l :
  NoDup (map f l) -> NoDup (map f (List.filter p l)).
Proof.
  induction l as [|a l IH]; cbn; [done|]. intros [Ha Hl]%NoDup_cons.
  destruct (p a); [|auto]. cbn. apply NoDup_cons. split; [|auto].
  rewrite list_elem_of_fmap in Ha |- *. intros (b & Hb & Hin). apply Ha. exists b. split; [done|].
  apply list_elem_of_In in Hin. apply filter_In in Hin as [Hin _]. by apply list_elem_of_In.
Qed.

Lemma append_paused_ok now l db :
  db_ok db -> NoDup (map UStrategy.StrategyID l) ->
  Forall (fun s => db.(DB.strategies) !! s.(UStrategy.StrategyID) = Some s /\
                   s.(UStrategy.Active) = false /\
                   unannounced db s.(UStrategy.StrategyID) s.(UStrategy.Version)) l ->
  db_ok (append_paused uuid_string now l db).
Proof.
  revert db. induction l as [|s l IH]; intros db Hok Hnd Hl; [done|]. cbn.
  apply NoDup_cons in Hnd as [Hni Hnd]. apply Forall_cons in Hl as [(Hs & Ha & Hu) Hl].
  apply IH; [|done|].
  - eapply db_ok_append; [done|done| |exact Hu]. pose proof (ro_version _ _ (ok_rows _ Hok _ _ Hs)).
    split; cbn; [lia| |congruence|done]. right. split; [done|]. by eexists.
  - apply Forall_forall. intros s' Hs'. rewrite Forall_forall in Hl.
    destruct (Hl s' Hs') as (H1 & H2 & H3). split_and!; [done..|].
    apply Forall_app. split; [done|]. constructor; [|done]. cbn. intros Heq. exfalso. apply Hni.
    rewrite Heq. by apply list_elem_of_fmap_2.
Qed.

Lemma deactivated_ok now hit db :
  db_ok db -> (forall s, hit s = true -> live s = true) ->
  Forall (fun s => s.(UStrategy.Version) < max_int32) (List.filter hit (rows db)) ->
  db_ok (deactivated_rows now hit db).
Proof.
  intros Hok Hlive Hmax.
  assert (Hkey : forall id s, db.(DB.strategies) !! id = Some s -> hit s = true ->
    row_next s (set_active now false s)).
  { intros id s Hs Hh. specialize (Hlive s Hh). apply andb_prop in Hlive as [_ Hd].
    apply bump_next; cbn; try done. rewrite Forall_forall in Hmax. apply Hmax.
    apply list_elem_of_In, filter_In. split; [|done].
    apply list_elem_of_In, elem_of_rows. eauto. }
  eapply db_ok_rows; [exact Hok| | |done|done]; cbn.
  - intros id. rewrite lookup_fmap. destruct (_ !! id) as [s|] eqn:Hs; cbn; [|by left].
    destruct (hit s) eqn:Hh; [|by left]. right. left. exists s. eexists. split_and!; [done..|].
    by eapply Hkey.
  - intros id1 id2 s1 s2. rewrite !lookup_fmap. intros H1 H2 D1 D2 Hu Hm.
    apply fmap_Some in H1 as (t1 & H1 & ->), H2 as (t2 & H2 & ->).
    apply (ok_names _ Hok id1 id2 t1 t2 H1 H2); destruct (hit t1), (hit t2); done.
Qed.

Lemma deactivate_all_ok io where_ db :
  db_ok db -> db_ok (deactivate_all uuid_string io where_ db).2.
Proof.
  intros Hok. destruct (deactivate_all _ _ _ _) as [r db'] eqn:E.
  apply deactivate_all_inv in E as [[-> _]|(Hmax & -> & _)]; [done|]. cbn [snd].
  set (hit := fun s => live s && where_ db s) in *. set (now := io.(Io.Now)).
  assert (Hlive : forall s, hit s = true -> live s = true) by (by intros s [? _]%andb_prop).
  assert (Hin : forall s, s ∈ List.filter hit (rows db) ->
    db.(DB.strategies) !! s.(UStrategy.StrategyID) = Some s /\ hit s = true).
  { intros s Hs. apply list_elem_of_In, filter_In in Hs as [Hs Hh].
    apply list_elem_of_In in Hs. split; [by apply rows_lookup|done]. }
  apply append_paused_ok.
  - by apply deactivated_ok.
  - rewrite map_map. cbn. apply map_filter_NoDup. by apply rows_ids_NoDup.
  - apply Forall_forall. intros s' (s & -> & Hs)%list_elem_of_fmap. destruct (Hin s Hs) as [Hk Hh].
    split_and!; [|done|].
    + cbn. rewrite lookup_fmap, Hk. cbn. by rewrite Hh.
    + cbn. eapply (unannounced_next db); [done..|]. lia.
Qed.

(** ** Marking events *)

Lemma sorted_map {A} (R : relation A) (f : A -> A) l :
  (forall a b, R a b -> R (f a) (f b)) -> StronglySorted R l -> StronglySorted R (map f l).
Proof.
  intros Hf Hl. induction Hl as [|a l Hl IH Ha]; cbn; constructor; [done|].
  apply Forall_fmap. eapply Forall_impl; [exact Ha|]. cbn. auto.
Qed.

Lemma mark_same ids o :
  (mark ids o).(Outbox.ID) = o.(Outbox.ID) /\
  (mark ids o).(Outbox.AggregateID) = o.(Outbox.AggregateID) /\
  (mark ids o).(Outbox.EventType) = o.(Outbox.EventType) /\
  (mark ids o).(Outbox.Payload) = o.(Outbox.Payload) /\
  (mark ids o).(Outbox.CreatedAt) = o.(Outbox.CreatedAt) /\
  event_version (mark ids o) = event_version o.
Proof. unfold mark. by destruct (bool_decide _). Qed.

Lemma mark_event_ok ids s o : event_ok s o -> event_ok s (mark ids o).
Proof.
  destruct (mark_same ids o) as (_ & _ & Ht & Hp & _ & Hv).
  intros [H1 H2 H3 H4]. split; [by rewrite Hv| |by rewrite Hv, Ht|by rewrite Ht].
  unfold payload_ok. by rewrite Ht, Hp.
Qed.

Definition with_outbox (l : list Outbox.t) (db : DB.t) : DB.t := (db <| DB.execution_outbox := l |>)%go.

Lemma marked_ok ids db : db_ok db -> db_ok (with_outbox (map (mark ids) db.(DB.execution_outbox)) db).
Proof.
  intros [R N E O I S]. split; cbn; try done.
  - apply Forall_fmap. eapply Forall_impl; [exact E|]. cbn. intros o (s & Hs & Ho). exists s.
    destruct (mark_same ids o) as (_ & -> & _). split; [done|]. by apply mark_event_ok.
  - eapply sorted_map; [|exact O]. intros a b H. unfold later_version.
    destruct (mark_same ids a) as (_ & -> & _ & _ & _ & ->).
    destruct (mark_same ids b) as (_ & -> & _ & _ & _ & ->). exact H.
  - eapply sorted_map; [|exact I]. intros a b. cbn.
    destruct (mark_same ids a) as (-> & _), (mark_same ids b) as (-> & _). done.
  - apply Forall_fmap. eapply Forall_impl; [exact S|]. cbn. intros o.
    by destruct (mark_same ids o) as (-> & _).
Qed.

(** A round of the worker only marks events. *)
Lemma worker_db env db :
  exists ids, (processOutbox uuid_string uuid_parse env db).1.1 =
    with_outbox (map (mark ids) db.(DB.execution_outbox)) db.
Proof.
  assert (Hnil : with_outbox (map (mark []) db.(DB.execution_outbox)) db = db).
  { unfold with_outbox. rewrite (map_ext _ id), map_id; [by destruct db|].
    intros o. unfold mark. by rewrite bool_decide_eq_false_2 by set_solver. }
  unfold processOutbox. destruct (ListPendingOutboxEvents _ _ _) as [e|l]; [by exists []|].
  destruct (process_events _ _ _ _ _) as [[ids msgs] err]. unfold MarkOutboxEventsProcessed.
  destruct (bool_decide _); [by exists []|]. destruct (WorkerEnv.MarkOk env); [by exists ids|by exists []].
Qed.

Lemma uc_step_ok op w : db_ok w.1 -> db_ok (uc_step op w).1.
Proof.
  destruct w as [db topic]. intros Hok. cbn in Hok. destruct op; cbn.
  - by apply Create_ok.
  - by apply Update_ok.
  - by apply Delete_ok.
  - by apply Activate_ok.
  - by apply Deactivate_ok.
  - by apply deactivate_all_ok.
  - by apply deactivate_all_ok.
  - by apply deactivate_all_ok.
  - destruct (worker_db env db) as [ids Hids].
    destruct (processOutbox _ _ _ _) as [[db' msgs] err]. cbn in Hids |- *. rewrite Hids.
    by apply marked_ok.
Qed.

Lemma uc_run_ok ops w : db_ok w.1 -> db_ok (uc_run ops w).1.
Proof.
  revert w. induction ops as [|op ops IH]; intros w Hok; [done|]. cbn. apply IH. by apply uc_step_ok.
Qed.
End Runs.
