(* ===== verification/UCEffects.v ===== *)
(** * Every change of a row is announced

    What a call adds to the outbox: each row that changed has a new, pending
    event with the version the row now has.  The exception is an update that
    leaves a number in the row that JSON cannot carry; [op_json] excludes it. *)

From stdpp Require Import base tactics gmap strings list sorting.
From Stdlib Require Import ZArith Lia Bool.
From S2P Require Import Prelude GoFloat GoStrings RuleModels ConfigStore ConfigSync UCModels UCRepo.
From S2P Require Import UCWorker UCTx UCInvariant.

Open Scope string_scope.
Open Scope list_scope.
Open Scope Z_scope.

Definition announces (id : uuid) (s : UStrategy.t) (o : Outbox.t) : Prop :=
  o.(Outbox.Processed) = false /\ o.(Outbox.AggregateID) = id /\
  event_version o = s.(UStrategy.Version).

(** A call changes rows and appends events. *)
Record grows (db db' : DB.t) : Prop := {
  gr_rows : row_step db.(DB.strategies) db'.(DB.strategies);
  gr_outbox : exists new, db'.(DB.execution_outbox) = db.(DB.execution_outbox) ++ new /\
    forall id, db'.(DB.strategies) !! id = db.(DB.strategies) !! id \/
      exists s' o, db'.(DB.strategies) !! id = Some s' /\ o ∈ new /\ announces id s' o
}.

Lemma grows_refl db : grows db db.
Proof. split; [by left|]. exists []. rewrite app_nil_r. split; [done|]. by left. Qed.

(** The parts of all strategies can be written as JSON. *)
Record parts_json (db : DB.t) : Prop := {
  pj_conditions : forall id c, db.(DB.strategy_conditions) !! id = Some c -> condition_json c = true;
  pj_trade : forall id c, db.(DB.trade_configs) !! id = Some c -> trade_json c = true;
  pj_limits : forall id c, db.(DB.risk_limits) !! id = Some c -> limits_json c = true
}.

Definition update_json (req : UpdateStrategyRequest.t) : bool :=
  from_option condition_json true req.(UpdateStrategyRequest.Conditions)
  && from_option trade_json true req.(UpdateStrategyRequest.TradeConfig)
  && from_option limits_json true req.(UpdateStrategyRequest.RiskLimits).

Definition op_json (op : UCOp) : bool :=
  match op with OUpdate _ req => update_json req | _ => true end.

(** What the column keeps of a number is a number. *)
Definition numeric_ok (numeric_20_4 : f64 -> option f64) : Prop :=
  forall x y, f64_json x = true -> numeric_20_4 x = Some y -> f64_json y = true.

Section Effects.

Context (numeric_20_4 : f64 -> option f64) (uuid_string : uuid -> string)
  (uuid_parse : string -> option uuid).

Lemma grows_one now db db1 id s s' type p :
  db.(DB.strategies) !! id = Some s -> row_next s s' ->
  db1.(DB.strategies) = <[id := s']> db.(DB.strategies) ->
  db1.(DB.execution_outbox) = db.(DB.execution_outbox) ->
  (forall n, event_version (Outbox.mk n id type p now false) = s'.(UStrategy.Version)) ->
  grows db (append_event now id type p db1).
Proof.
  intros Hs Hn E1 E2 Hv. split; cbn; rewrite E1; [by eapply row_step_insert|].
  rewrite E2. eexists. split; [done|]. intros i. destruct (decide (i = id)) as [->|Hne].
  - right. eexists s', _. rewrite lookup_insert_eq. split; [done|]. split; [by apply list_elem_of_singleton|].
    split; [done|]. split; [done|]. apply Hv.
  - left. by rewrite lookup_insert_ne.
Qed.

Lemma change_row_grows io id where_ change err type db :
  db_ok uuid_string db ->
  (forall s, row_ok id s -> where_ s = true -> s.(UStrategy.Version) < max_int32 -> row_next s (change s)) ->
  grows db (change_row uuid_string io id where_ change err type db).2.
Proof.
  intros Hok Hch. destruct (change_row _ _ _ _ _ _ _ _) as [r db'] eqn:E.
  apply change_row_inv in E as [[-> _]|(s & s' & db1 & H1 & Hs & Hw & -> & -> & _)]; [apply grows_refl|].
  apply sql_update_row_inr in H1 as (s0 & Hs0 & _ & Hv & _ & _ & _ & ->).
  assert (s0 = s) as -> by congruence. cbn [snd]. eapply (grows_one _ db _ id s (change s)); try done.
  apply Hch; [by apply (ok_rows _ _ Hok)|done|done].
Qed.

Lemma append_paused_rows now l db :
  (append_paused uuid_string now l db).(DB.strategies) = db.(DB.strategies).
Proof. revert db. induction l as [|s l IH]; intros db; [done|]. etrans; [exact (IH _)|done]. Qed.

Lemma append_paused_outbox now l db :
  exists new, (append_paused uuid_string now l db).(DB.execution_outbox) = db.(DB.execution_outbox) ++ new /\
    forall s, s ∈ l -> exists o, o ∈ new /\ announces s.(UStrategy.StrategyID) s o.
Proof.
  revert db. induction l as [|s l IH]; intros db.
  - exists []. cbn. rewrite app_nil_r. split; [done|]. by intros s ?%not_elem_of_nil.
  - destruct (IH (append_event now s.(UStrategy.StrategyID) "STRATEGY_DEACTIVATED"
      (thin_payload uuid_string s) db)) as (new & Hn & Hall).
    change (append_paused uuid_string now (s :: l) db) with (append_paused uuid_string now l
      (append_event now s.(UStrategy.StrategyID) "STRATEGY_DEACTIVATED" (thin_payload uuid_string s) db)).
    rewrite Hn. cbn. rewrite <- app_assoc. eexists. split; [done|].
    intros s' [->|Hs']%elem_of_cons.
    + eexists. split; [by left|]. done.
    + destruct (Hall s' Hs') as (o & Ho & Ha). exists o. split; [|done]. by right.
Qed.

Lemma deactivate_all_grows io where_ db :
  db_ok uuid_string db -> grows db (deactivate_all uuid_string io where_ db).2.
Proof.
  intros Hok. destruct (deactivate_all _ _ _ _) as [r db'] eqn:E.
  apply deactivate_all_inv in E as [[-> _]|(Hmax & -> & _)]; [apply grows_refl|]. cbn [snd].
  set (hit := fun s => live s && where_ db s) in *. set (now := io.(Io.Now)).
  destruct (append_paused_outbox now (map (set_active now false) (List.filter hit (rows db)))
    (deactivated_rows now hit db)) as (new & Hnew & Hall).
  assert (Hin : forall id s, db.(DB.strategies) !! id = Some s -> hit s = true -> s ∈ List.filter hit (rows db)).
  { intros id s Hs Hh. apply list_elem_of_In, filter_In. split; [|done].
    apply list_elem_of_In, elem_of_rows. eauto. }
  split.
  - rewrite append_paused_rows. intros id. cbn. rewrite lookup_fmap.
    destruct (_ !! id) as [s|] eqn:Hs; cbn; [|by left]. destruct (hit s) eqn:Hh; [|by left].
    right. left. exists s. eexists. split_and!; [done..|].
    apply andb_prop in Hh as Hh'. destruct Hh' as [[_ Hd]%andb_prop _].
    apply bump_next; cbn; try done.
    rewrite Forall_forall in Hmax. apply Hmax. eauto.
  - exists new. split; [by rewrite Hnew|]. rewrite append_paused_rows. intros id. cbn.
    rewrite lookup_fmap. destruct (_ !! id) as [s|] eqn:Hs; cbn; [|by left].
    destruct (hit s) eqn:Hh; [|by left]. right.
    destruct (Hall (set_active now false s)) as (o & Ho & Ha).
    { apply list_elem_of_fmap_2. eauto. }
    exists (set_active now false s), o. split_and!; [done..|].
    cbn in Ha. by rewrite (ro_id _ _ (ok_rows _ _ Hok _ _ Hs)) in Ha.
Qed.

Lemma Create_grows io newID condID tcID rlID req db :
  grows db (Create numeric_20_4 io newID condID tcID rlID req db).2.
Proof.
  destruct (Create _ _ _ _ _ _ _ _) as [r db'] eqn:E.
  apply Create_inv in E as [[-> _]|(Hno & Hj & _ & Hn & -> & _)]; [apply grows_refl|]. cbn [snd].
  set (s := full_strategy io newID condID tcID rlID req) in *. split; cbn.
  - intros i. destruct (decide (i = newID)) as [->|Hne]; [|left; by rewrite lookup_insert_ne].
    right. right. split; [done|]. exists (row_of s). rewrite lookup_insert_eq. split; [done|].
    by split.
  - eexists. split; [done|]. intros i.
    destruct (decide (i = newID)) as [->|Hne]; [|left; by rewrite lookup_insert_ne].
    right. exists (row_of s). eexists. rewrite lookup_insert_eq.
    split; [done|]. split; [by apply list_elem_of_singleton|done].
Qed.

(** ** JSON *)

Lemma stored_limits_json rl rl' :
  numeric_ok numeric_20_4 -> stored_limits numeric_20_4 rl = Some rl' ->
  limits_json rl = true -> limits_json rl' = true.
Proof.
  intros Hn H Hj. unfold stored_limits in H. destruct (URiskLimits.MaxAmountPerStock rl) as [x|] eqn:Hx.
  - apply fmap_Some in H as (y & Hy & ->). destruct rl; cbn in *; subst. unfold limits_json in *.
    cbn in *. apply andb_prop in Hj as [Hj Hjx]. apply andb_true_intro. split; [done|]. by eapply Hn.
  - by injection H as <-.
Qed.

Lemma put_opt_Some {P} id (o : option P) m i p :
  put_opt id o m !! i = Some p -> o = Some p \/ m !! i = Some p.
Proof.
  destruct o as [q|]; cbn; [|by right].
  intros [[_ ->]|[_ H]]%lookup_insert_Some; [by left|by right].
Qed.

Lemma alter_opt_Some {P Q} (f : Q -> P -> P) o id (m : gmap uuid P) i p :
  alter_opt f o id m !! i = Some p ->
  m !! i = Some p \/ exists q p0, o = Some q /\ m !! i = Some p0 /\ p = f q p0.
Proof.
  destruct o as [q|]; cbn; [|by left]. intros H.
  destruct (decide (id = i)) as [->|Hne].
  - rewrite lookup_alter_eq in H. apply fmap_Some in H as (p0 & H0 & ->). right. eauto.
  - rewrite lookup_alter_ne in H by done. by left.
Qed.

Lemma stored_trade_json tc : trade_json tc = true -> trade_json (stored_trade tc) = true.
Proof. unfold trade_json. cbn. destruct (opt_json _); [done|]. by rewrite !andb_false_l. Qed.

Lemma created_json s db :
  numeric_ok numeric_20_4 -> parts_json db -> strategy_json s = true ->
  parts_json (created numeric_20_4 s db).
Proof.
  intros Hnum [P1 P2 P3] [[Hc Ht]%andb_prop Hl]%andb_prop. split; cbn; intros id c H;
    apply put_opt_Some in H as [H|H]; eauto.
  - by rewrite H in Hc.
  - apply fmap_Some in H as (tc & H & ->). rewrite H in Ht. by apply stored_trade_json.
  - apply bind_Some in H as (rl & H & Hs). rewrite H in Hl. by eapply stored_limits_json.
Qed.

Lemma updated_json s req db :
  numeric_ok numeric_20_4 -> parts_json db -> update_json req = true ->
  parts_json (updated_tables numeric_20_4 s req db).
Proof.
  intros Hnum [P1 P2 P3] [[Hc Ht]%andb_prop Hl]%andb_prop. split; cbn; intros id c H;
    apply alter_opt_Some in H as [H|(q & p0 & H & H0 & ->)]; eauto.
  - by rewrite H in Hc.
  - rewrite H in Ht. by apply (stored_trade_json q) in Ht.
  - apply bind_Some in H as (rl & H & Hs). rewrite H in Hl.
    eapply (stored_limits_json rl q) in Hl; done.
Qed.

Lemma row_next_update now req s :
  update_where req s = true -> s.(UStrategy.Version) < max_int32 -> row_next s (update_set now req s).
Proof. apply update_set_next. Qed.

Lemma from_lookup_json {P} (f : P -> bool) (m : gmap uuid P) id :
  (forall i c, m !! i = Some c -> f c = true) -> from_option f true (m !! id) = true.
Proof. intros H. destruct (m !! id) eqn:E; [by eapply H|done]. Qed.

Lemma assembled_json db (s : UStrategy.t) id :
  parts_json db ->
  strategy_json (s <| UStrategy.Conditions := db.(DB.strategy_conditions) !! id |>
                   <| UStrategy.TradeConfig := db.(DB.trade_configs) !! id |>
                   <| UStrategy.RiskLimits := db.(DB.risk_limits) !! id |>)%go = true.
Proof.
  intros [P1 P2 P3]. unfold strategy_json. cbn.
  by rewrite !from_lookup_json by done.
Qed.

Lemma Update_grows io req db :
  numeric_ok numeric_20_4 -> parts_json db -> update_json req = true ->
  grows db (Update numeric_20_4 io req db).2.
Proof.
  intros Hnum Hp Hj. destruct (Update _ _ _ _) as [r db'] eqn:E.
  apply Update_inv in E as [[-> _]|(s0 & Hs0 & Hw & Hv & _ & Hn & -> & _)]; [apply grows_refl|].
  cbn [snd]. rewrite assembled_json by (by apply updated_json).
  eapply (grows_one _ db _ _ s0); [done|by apply update_set_next|done..].
Qed.

(** ** A call *)

Lemma parts_append now id type p db : parts_json db -> parts_json (append_event now id type p db).
Proof. intros [P1 P2 P3]. by split. Qed.

Lemma parts_append_paused now l db : parts_json db -> parts_json (append_paused uuid_string now l db).
Proof.
  revert db. induction l as [|s l IH]; intros db Hp; [done|]. apply IH. by apply parts_append.
Qed.

Lemma change_row_parts io id where_ change err type db :
  parts_json db -> parts_json (change_row uuid_string io id where_ change err type db).2.
Proof.
  intros Hp. destruct (change_row _ _ _ _ _ _ _ _) as [r db'] eqn:E.
  apply change_row_inv in E as [[-> _]|(s & s' & db1 & H1 & _ & _ & _ & -> & _)]; [done|].
  apply sql_update_row_inr in H1 as (? & _ & _ & _ & _ & _ & _ & ->). apply parts_append.
  destruct Hp. by split.
Qed.

Lemma deactivate_all_parts io where_ db :
  parts_json db -> parts_json (deactivate_all uuid_string io where_ db).2.
Proof.
  intros Hp. destruct (deactivate_all _ _ _ _) as [r db'] eqn:E.
  apply deactivate_all_inv in E as [[-> _]|(_ & -> & _)]; [done|].
  apply parts_append_paused. destruct Hp. by split.
Qed.

Definition is_worker (op : UCOp) : bool := match op with OWorker _ => true | _ => false end.

Lemma uc_step_grows op w :
  numeric_ok numeric_20_4 -> db_ok uuid_string w.1 -> parts_json w.1 -> op_json op = true ->
  is_worker op = false ->
  grows w.1 (uc_step numeric_20_4 uuid_string uuid_parse op w).1 /\
  (uc_step numeric_20_4 uuid_string uuid_parse op w).2 = w.2.
Proof.
  destruct w as [db topic]. intros Hnum Hok Hp Hj Hw. cbn in Hok, Hp. destruct op; try done; (split; [|done]);
    cbn [uc_step fst].
  - apply Create_grows.
  - by apply Update_grows.
  - apply change_row_grows; [done|]. intros s _ _ Hv. by split.
  - apply change_row_grows; [done|]. intros s _ H Hv. by eapply set_active_next.
  - apply change_row_grows; [done|]. intros s _ H Hv. by eapply set_active_next.
  - by apply deactivate_all_grows.
  - by apply deactivate_all_grows.
  - by apply deactivate_all_grows.
Qed.

Lemma uc_step_parts op w :
  numeric_ok numeric_20_4 -> parts_json w.1 -> op_json op = true ->
  parts_json (uc_step numeric_20_4 uuid_string uuid_parse op w).1.
Proof.
  destruct w as [db topic]. intros Hnum Hp Hj. cbn in Hp. destruct op; cbn [uc_step fst].
  - destruct (Create _ _ _ _ _ _ _ _) as [r db'] eqn:E.
    apply Create_inv in E as [[-> _]|(_ & Hjs & _ & _ & -> & _)]; [done|].
    apply parts_append. by apply created_json.
  - destruct (Update _ _ _ _) as [r db'] eqn:E.
    apply Update_inv in E as [[-> _]|(s0 & _ & _ & _ & _ & _ & -> & _)]; [done|]. cbn [snd].
    destruct (strategy_json _); [apply parts_append|]; by apply updated_json.
  - by apply change_row_parts.
  - by apply change_row_parts.
  - by apply change_row_parts.
  - by apply deactivate_all_parts.
  - by apply deactivate_all_parts.
  - by apply deactivate_all_parts.
  - destruct (worker_db uuid_string uuid_parse env db) as [ids Hids].
    destruct (processOutbox _ _ _ _) as [[db' msgs] err]. cbn in Hids |- *. rewrite Hids.
    destruct Hp. by split.
Qed.
End Effects.
