(* ===== verification/UCEngine.v ===== *)
(** * From a row to the rules engine

    The composition of the strategy service, the outbox worker, the topic, the
    consumer of the rules engine and its configuration store.  One strategy of
    the store is the state machine of [ConfigStore.spec_step]; [consume_key] is
    what a message does to it. *)

From stdpp Require Import base tactics gmap strings list sorting.
From Stdlib Require Import ZArith Lia Bool.
From S2P Require Import Prelude GoFloat GoStrings RuleModels ConfigStore ConfigSync UCModels UCRepo.
From S2P Require Import UCWorker UCTx UCInvariant UCEffects.

Open Scope string_scope.
Open Scope list_scope.
Open Scope Z_scope.

(** ** One message and one strategy *)

Definition key_stale (k : KeyState) (v : Z) : bool :=
  match k.(entry) with Some (_, st) => v <=? st.(Strategy.Version) | None => false end.

Definition consume_key (u s : string) (ev : ConfigEvent.t) (k : KeyState) : KeyState :=
  let u' := ev.(ConfigEvent.UserID) in
  let s' := ev.(ConfigEvent.StrategyID) in
  let v := ev.(ConfigEvent.Version) in
  if one_of ev.(ConfigEvent.Type_) [ConfigCreated; ConfigUpdated] then
    match ToModelStrategy ev.(ConfigEvent.Config) with
    | None => k
    | Some m =>
      if String.eqb u' u && String.eqb s' s && key_stale k v then k
      else spec_step u s (OpUpsert (Some (m <| Strategy.Version := v |> <| Strategy.Active := true |>)%go)) k
    end
  else if String.eqb ev.(ConfigEvent.Type_) ConfigPaused then spec_step u s (OpPause u' s' v) k
  else if String.eqb ev.(ConfigEvent.Type_) ConfigResumed then spec_step u s (OpResume u' s' v) k
  else if String.eqb ev.(ConfigEvent.Type_) ConfigDeleted then spec_step u s (OpRemove u' s' v) k
  else k.

(** The payload of a message is about the strategy of the message. *)
Definition wf_event (ev : ConfigEvent.t) : Prop :=
  no_bar ev.(ConfigEvent.UserID) = true /\
  forall p, ev.(ConfigEvent.Config) = Some p ->
    p.(StrategyPayload.UserID) = ev.(ConfigEvent.UserID) /\
    p.(StrategyPayload.StrategyID) = ev.(ConfigEvent.StrategyID).

Lemma ToModelStrategy_ids p m :
  ToModelStrategy (Some p) = Some m ->
  m.(Strategy.UserID) = p.(StrategyPayload.UserID) /\
  m.(Strategy.StrategyID) = p.(StrategyPayload.StrategyID).
Proof. unfold ToModelStrategy. destruct (_ || _); [done|]. by intros [= <-]. Qed.

Lemma ToModelStrategy_total p :
  p.(StrategyPayload.UserID) <> "" -> p.(StrategyPayload.StrategyID) <> "" ->
  exists m, ToModelStrategy (Some p) = Some m.
Proof.
  intros Hu Hs. unfold ToModelStrategy. apply String.eqb_neq in Hu, Hs. rewrite Hu, Hs. eauto.
Qed.

Lemma GetStrategy_sim u s w k : sim u s w k -> GetStrategy w u s = snd <$> k.(entry).
Proof. intros [<- _]. done. Qed.

Lemma consume_store now ev c :
  (consumeMessage now (Some ev) c).(ConfigConsumer.configStore) =
  let w := c.(ConfigConsumer.configStore) in
  let u := ev.(ConfigEvent.UserID) in
  let s := ev.(ConfigEvent.StrategyID) in
  let v := ev.(ConfigEvent.Version) in
  let stale := match GetStrategy w u s with Some st => v <=? st.(Strategy.Version) | None => false end in
  if one_of ev.(ConfigEvent.Type_) [ConfigCreated; ConfigUpdated] then
    match ToModelStrategy ev.(ConfigEvent.Config) with
    | None => w
    | Some m => if stale then w else
        runOp now (OpUpsert (Some (m <| Strategy.Version := v |> <| Strategy.Active := true |>)%go)) w
    end
  else if String.eqb ev.(ConfigEvent.Type_) ConfigPaused then runOp now (OpPause u s v) w
  else if String.eqb ev.(ConfigEvent.Type_) ConfigResumed then runOp now (OpResume u s v) w
  else if String.eqb ev.(ConfigEvent.Type_) ConfigDeleted then runOp now (OpRemove u s v) w
  else w.
Proof.
  unfold consumeMessage, apply_store. cbn zeta.
  destruct (one_of _ _).
  - destruct (ConfigEvent.Config ev) as [p|]; [|done].
    destruct (GetStrategy _ _ _) as [st|]; [destruct (_ <=? _); [by destruct (ToModelStrategy _)|]|];
      (destruct (ToModelStrategy (Some p)) as [m|]; [|done]; cbn [runOp];
       by destruct (Upsert _ _ _) as [w' []]).
  - cbn [runOp]. destruct (String.eqb _ _); [by destruct (Pause _ _ _ _ _) as [w' []]|].
    destruct (String.eqb _ _); [by destruct (Resume _ _ _ _ _) as [w' []]|].
    destruct (String.eqb _ _); [by destruct (Remove _ _ _ _ _) as [w' []]|done].
Qed.

Lemma upsert_other_key u s st k :
  (u, s) <> (st.(Strategy.UserID), st.(Strategy.StrategyID)) -> spec_step u s (OpUpsert (Some st)) k = k.
Proof. intros Hne. unfold spec_step. by rewrite fresh_other. Qed.

Lemma consume_sim now ev c u s k :
  no_bar u = true -> wf_event ev -> store_ok c.(ConfigConsumer.configStore) ->
  sim u s c.(ConfigConsumer.configStore) k ->
  store_ok (consumeMessage now (Some ev) c).(ConfigConsumer.configStore) /\
  sim u s (consumeMessage now (Some ev) c).(ConfigConsumer.configStore) (consume_key u s ev k).
Proof.
  intros Hu (Hb & Hwf) Hok Hsim. rewrite consume_store. unfold consume_key. cbn zeta.
  destruct (one_of _ _).
  - destruct (ConfigEvent.Config ev) as [p|]; [|done].
    destruct (Hwf p eq_refl) as [Hpu Hps].
    destruct (ToModelStrategy (Some p)) as [m|] eqn:Hm; [|done].
    apply ToModelStrategy_ids in Hm as [Hmu Hms].
    set (m' := (m <| _ := _ |> <| Strategy.Active := true |>)%go).
    assert (Hup : forall k, sim u s c.(ConfigConsumer.configStore) k ->
      store_ok (runOp now (OpUpsert (Some m')) c.(ConfigConsumer.configStore)) /\
      sim u s (runOp now (OpUpsert (Some m')) c.(ConfigConsumer.configStore))
        (spec_step u s (OpUpsert (Some m')) k)).
    { intros k0 Hk0. split; [by apply runOp_ok|]. apply runOp_sim; try done. cbn. by rewrite Hmu, Hpu. }
    destruct (decide ((ConfigEvent.UserID ev, ConfigEvent.StrategyID ev) = (u, s))) as [Heq|Hne].
    + injection Heq as -> ->. rewrite !String.eqb_refl. cbn [andb].
      rewrite (GetStrategy_sim _ _ _ _ Hsim). unfold key_stale.
      destruct k.(entry) as [[b st]|]; cbn [fmap option_fmap option_map snd]; [|by apply Hup].
      destruct (_ <=? _); [done|by apply Hup].
    + rewrite upsert_other_key by (cbn; rewrite Hmu, Hms, Hpu, Hps; congruence).
      assert (Hsame : (if String.eqb (ConfigEvent.UserID ev) u && String.eqb (ConfigEvent.StrategyID ev) s
        && key_stale k (ConfigEvent.Version ev) then k else k) = k) by (by destruct (_ && _)).
      rewrite Hsame. destruct (Hup k Hsim) as [H1 H2].
      rewrite upsert_other_key in H2 by (cbn; rewrite Hmu, Hms, Hpu, Hps; congruence).
      destruct (GetStrategy _ _ _) as [st|]; [destruct (_ <=? _)|]; done.
  - destruct (String.eqb _ _); [split; [by apply runOp_ok|by apply runOp_sim]|].
    destruct (String.eqb _ _); [split; [by apply runOp_ok|by apply runOp_sim]|].
    destruct (String.eqb _ _); [split; [by apply runOp_ok|by apply runOp_sim]|done].
Qed.

(** The rules engine at work on a topic; a message comes with the time it is
    handled. *)
Definition consume_all (l : list (Z * ConfigEvent.t)) (c : ConfigConsumer.t) : ConfigConsumer.t :=
  foldl (fun c '(now, ev) => consumeMessage now (Some ev) c) c l.

Lemma consume_all_sim l c u s k :
  no_bar u = true -> Forall wf_event (map snd l) -> store_ok c.(ConfigConsumer.configStore) ->
  sim u s c.(ConfigConsumer.configStore) k ->
  sim u s (consume_all l c).(ConfigConsumer.configStore)
    (foldl (fun k ev => consume_key u s ev k) k (map snd l)).
Proof.
  intros Hu. revert c k. induction l as [|[now ev] l IH]; intros c k Hwf Hok Hsim; [done|].
  cbn in Hwf. apply Forall_cons in Hwf as [Hev Hwf]. cbn.
  destruct (consume_sim now ev c u s k Hu Hev Hok Hsim). by apply IH.
Qed.

(** ** What the worker publishes *)

Section EndToEnd.

Context (numeric_20_4 : f64 -> option f64) (uuid_string : uuid -> string)
  (uuid_parse : string -> option uuid).

(** The text of an identifier is not empty and parses to the identifier. *)
Definition uuid_laws : Prop :=
  forall id, uuid_string id <> "" /\ uuid_parse (uuid_string id) = Some id.

Context (Huuid : uuid_laws).

Lemma uuid_string_inj a b : uuid_string a = uuid_string b -> a = b.
Proof.
  intros H. pose proof (proj2 (Huuid a)) as Ha. rewrite H, (proj2 (Huuid b)) in Ha. congruence.
Qed.

(** [ev] is what the worker writes for [o] when the row is [s]. *)
Record published (s : UStrategy.t) (o : Outbox.t) (ev : ConfigEvent.t) : Prop := {
  pu_user : ev.(ConfigEvent.UserID) = s.(UStrategy.UserID);
  pu_id : ev.(ConfigEvent.StrategyID) = uuid_string s.(UStrategy.StrategyID);
  pu_payload : forall p, ev.(ConfigEvent.Config) = Some p ->
    p.(StrategyPayload.UserID) = ev.(ConfigEvent.UserID) /\
    p.(StrategyPayload.StrategyID) = ev.(ConfigEvent.StrategyID);
  pu_kind :
    (one_of ev.(ConfigEvent.Type_) [ConfigCreated; ConfigUpdated] = true /\
     is_Some ev.(ConfigEvent.Config) /\
     (ev.(ConfigEvent.Version) = event_version o \/ ev.(ConfigEvent.Version) = s.(UStrategy.Version))) \/
    (ev.(ConfigEvent.Type_) = ConfigPaused /\ o.(Outbox.EventType) = "STRATEGY_DEACTIVATED" /\
     ev.(ConfigEvent.Version) = event_version o) \/
    (ev.(ConfigEvent.Type_) = ConfigDeleted /\ o.(Outbox.EventType) = "STRATEGY_DELETED" /\
     ev.(ConfigEvent.Version) = event_version o)
}.

Lemma to_uint64_id v : 1 <= v <= max_int32 -> to_uint64 v = v.
Proof. unfold to_uint64, max_int32. intros H. apply Z.mod_small. lia. Qed.

Lemma GetByID_row io id user db s' :
  GetByID io id user db = inr s' ->
  exists s, db.(DB.strategies) !! id = Some s /\ owned user s = true /\
    s'.(UStrategy.StrategyID) = s.(UStrategy.StrategyID) /\ s'.(UStrategy.UserID) = s.(UStrategy.UserID) /\
    s'.(UStrategy.Version) = s.(UStrategy.Version).
Proof.
  unfold GetByID. destruct (_ !! id) as [s|]; cbn; [|by destruct (Io.Ok io 0)].
  destruct (owned user s) eqn:Ho; [|by destruct (Io.Ok io 0)].
  destruct (Io.Ok io 0); cbn; [|done].
  destruct (read _ _); try done; destruct (read _ _); try done; destruct (read _ _); try done;
    intros [= <-]; eauto 10.
Qed.

Lemma full_published type now s s' o :
  s'.(UStrategy.StrategyID) = s.(UStrategy.StrategyID) -> s'.(UStrategy.UserID) = s.(UStrategy.UserID) ->
  1 <= s'.(UStrategy.Version) <= max_int32 -> one_of type [ConfigCreated; ConfigUpdated] = true ->
  s'.(UStrategy.Version) = event_version o \/ s'.(UStrategy.Version) = s.(UStrategy.Version) ->
  published s o (ToFullConfigEvent uuid_string type now s').
Proof.
  intros H1 H2 H3 H4 H5. split; cbn; [done|by rewrite H1| |].
  - by intros p [= <-].
  - left. rewrite to_uint64_id by done. split; [done|]. split; [by eexists|done].
Qed.

Lemma one_of_cases x l : one_of x l = true -> x ∈ l.
Proof. intros H%one_of_In. by apply list_elem_of_In. Qed.

(** An event of the outbox is published as what it is about, or fails; it is
    only skipped when its owner has no name. *)
Lemma translate_spec env db o s :
  db_ok uuid_string db -> o ∈ db.(DB.execution_outbox) ->
  db.(DB.strategies) !! o.(Outbox.AggregateID) = Some s ->
  match translate uuid_string uuid_parse env db o with
  | TEvent ev => published s o ev
  | TSkip => s.(UStrategy.UserID) = ""
  | TError _ => o.(Outbox.EventType) = "STRATEGY_ACTIVATED"
  end.
Proof.
  intros Hok Ho Hs. pose proof (ok_events _ _ Hok) as He. rewrite Forall_forall in He.
  destruct (He o Ho) as (s0 & Hs0 & [Hv Hp _ _]). assert (s0 = s) as -> by congruence.
  pose proof (ok_rows _ _ Hok _ _ Hs) as [Hid Hmax _].
  unfold translate. destruct Hp as [(Ht & s' & Hp & Hi & Hu & Hj)|(Ht & v & Hp)];
    rewrite Hp; unfold event_version in Hv; rewrite Hp in Hv.
  - apply one_of_cases in Ht.
    assert (Hf : forall ty, one_of ty [ConfigCreated; ConfigUpdated] = true ->
      match full_event uuid_string uuid_parse o ty (WorkerEnv.EventNow env (Outbox.ID o)) with
      | TEvent ev => published s o ev | TSkip => s.(UStrategy.UserID) = "" | TError _ => False end).
    { intros ty Hty. unfold full_event. rewrite Hp. cbn. rewrite Hi, Hu.
      destruct (String.eqb_spec (UStrategy.UserID s) "") as [->|Hne]; cbn; [done|].
      rewrite (proj2 (String.eqb_neq _ _) (proj1 (Huuid _))).
      apply full_published; try done; [lia|]. left. unfold event_version. by rewrite Hp. }
    unfold full_types in Ht. repeat (apply elem_of_cons in Ht as [Ht|Ht]); [| |by apply not_elem_of_nil in Ht];
      rewrite Ht; cbn [String.eqb Ascii.eqb Bool.eqb]; [specialize (Hf ConfigCreated eq_refl)|specialize (Hf ConfigUpdated eq_refl)];
      by destruct (full_event _ _ _ _ _).
  - apply one_of_cases in Ht.
    assert (Hthin : forall k, match thin_event uuid_string o k with
      | TError e => k (Thin.mk (uuid_string s.(UStrategy.StrategyID)) s.(UStrategy.UserID) v) = TError e
      | TSkip => s.(UStrategy.UserID) = "" \/ k (Thin.mk (uuid_string s.(UStrategy.StrategyID)) s.(UStrategy.UserID) v) = TSkip
      | TEvent ev => k (Thin.mk (uuid_string s.(UStrategy.StrategyID)) s.(UStrategy.UserID) v) = TEvent ev end).
    { intros k. unfold thin_event. rewrite Hp. cbn. rewrite (proj2 (Z.ltb_ge v 0)) by lia. cbn.
      destruct (String.eqb_spec (UStrategy.UserID s) "") as [->|Hne]; cbn; [by left|].
      rewrite (proj2 (String.eqb_neq _ _) (proj1 (Huuid _))).
      destruct (k _); auto. }
    unfold thin_types in Ht. repeat (apply elem_of_cons in Ht as [Ht|Ht]); [| | |by apply not_elem_of_nil in Ht];
      rewrite Ht; cbn [String.eqb Ascii.eqb Bool.eqb]; match goal with |- context [thin_event _ _ ?k] =>
        specialize (Hthin k); destruct (thin_event _ _ k) as [e| |ev] end; try done;
      try (destruct Hthin as [?|Hthin]; [done|]); try done.
    + injection Hthin as <-. split; cbn; try done. right. right. split; [done|]. split; [done|].
      unfold event_version. by rewrite Hp.
    + exfalso. revert Hthin. unfold activation_event. cbn. rewrite (proj2 (Huuid _)).
      by destruct (GetByID _ _ _ _).
    + revert Hthin. unfold activation_event. cbn. rewrite (proj2 (Huuid _)).
      destruct (GetByID _ _ _ _) as [e|s'] eqn:Hg; [done|]. intros [= <-].
      apply GetByID_row in Hg as (s1 & Hs1 & _ & E1 & E2 & E3).
      rewrite Hid in Hs1. assert (s1 = s) as -> by congruence.
      apply full_published; try done; [by rewrite E3|by right].
    + injection Hthin as <-. split; cbn; try done. right. left. split; [done|]. split; [done|].
      unfold event_version. by rewrite Hp.
Qed.

(** ** What the engine knows of a row *)

Record engine_ok (s : UStrategy.t) (k : KeyState) : Prop := {
  en_tomb : s.(UStrategy.DeletedAt) = None -> k.(tomb) = None;
  en_ver : forall v, k.(ver) = Some v -> v <= s.(UStrategy.Version);
  en_entry : forall b st, k.(entry) = Some (b, st) -> exists v, k.(ver) = Some v /\ st.(Strategy.Version) <= v;
  en_act : s.(UStrategy.Active) = true -> k.(ver) = Some s.(UStrategy.Version) ->
    exists st, k.(entry) = Some (true, st) /\ st.(Strategy.Version) = s.(UStrategy.Version)
}.

Definition up_to_date (s : UStrategy.t) (k : KeyState) : Prop :=
  k.(ver) = Some s.(UStrategy.Version).

Lemma at_most_true v o : at_most v o = true -> exists x, o = Some x /\ v <= x.
Proof. destruct o as [x|]; cbn; [|done]. intros H. exists x. split; [done|lia]. Qed.

Lemma at_most_false v o x : at_most v o = false -> o = Some x -> x < v.
Proof. intros H ->. cbn in H. lia. Qed.

(** The state after a message that upserts version [v]. *)
Lemma upsert_cases u s v st k (m := (st <| Strategy.Version := v |> <| Strategy.Active := true |>)%go) :
  spec_step u s (OpUpsert (Some m)) k = k \/
  spec_step u s (OpUpsert (Some m)) k = MkKey (Some (true, m)) k.(tomb) (Some v) /\ at_most v k.(ver) = false.
Proof.
  unfold spec_step. cbn [m set Strategy.Version Strategy.Active Strategy.UserID Strategy.StrategyID].
  destruct (fresh _ _ _ _ _ _); cbn [andb]; [|by left].
  destruct (at_most v k.(ver)) eqn:Ha; cbn [negb]; [by left|by right].
Qed.

Lemma upsert_applies u s v st k (m := (st <| Strategy.Version := v |> <| Strategy.Active := true |>)%go) :
  st.(Strategy.UserID) = u -> st.(Strategy.StrategyID) = s -> u <> "" -> s <> "" -> k.(tomb) = None ->
  at_most v k.(ver) = false ->
  spec_step u s (OpUpsert (Some m)) k = MkKey (Some (true, m)) k.(tomb) (Some v).
Proof.
  intros Hu Hs Hu0 Hs0 Ht Ha. unfold spec_step.
  cbn [m set Strategy.Version Strategy.Active Strategy.UserID Strategy.StrategyID].
  rewrite Hu, Hs, fresh_same, Ht, Ha. cbn [at_most negb andb].
  by rewrite (proj2 (String.eqb_neq _ _) Hu0), (proj2 (String.eqb_neq _ _) Hs0).
Qed.

Lemma upsert_engine_ok s k v (m : Strategy.t) :
  engine_ok s k -> v <= s.(UStrategy.Version) -> m.(Strategy.Version) = v ->
  engine_ok s (MkKey (Some (true, m)) k.(tomb) (Some v)).
Proof.
  intros [E1 E2 E3 E4] Hv Hm. split; cbn; [done| | |].
  - intros x [= <-]. done.
  - intros b st [= <- <-]. exists v. split; [done|lia].
  - intros _ [= <-]. by exists m.
Qed.

Section Publish.
Context (s : UStrategy.t) (o : Outbox.t) (ev : ConfigEvent.t) (k : KeyState).
Context (Hrow : row_ok s.(UStrategy.StrategyID) s) (Hev : event_ok uuid_string s o)
  (Hpub : published s o ev) (Hk : engine_ok s k).

Let k' := consume_key s.(UStrategy.UserID) (uuid_string s.(UStrategy.StrategyID)) ev k.

Lemma event_bound : ev.(ConfigEvent.Version) <= s.(UStrategy.Version).
Proof.
  pose proof (eo_version _ _ _ Hev).
  destruct (pu_kind _ _ _ Hpub) as [(_ & _ & [->| ->])|[(_ & _ & ->)|(_ & _ & ->)]]; lia.
Qed.

Lemma active_not_deleted : s.(UStrategy.Active) = true -> s.(UStrategy.DeletedAt) = None.
Proof.
  intros Ha. destruct (UStrategy.DeletedAt s) eqn:Hd; [|done].
  pose proof (ro_deleted _ _ Hrow) as H. rewrite Hd, Ha in H. by discriminate H.
Qed.

(** Nothing the worker publishes breaks what the engine knows; a row that is
    up to date stays so, and the event with the version of an active row brings
    it up to date. *)
Lemma publish_step :
  engine_ok s k' /\
  (s.(UStrategy.Active) = true -> up_to_date s k -> up_to_date s k') /\
  (s.(UStrategy.Active) = true -> s.(UStrategy.UserID) <> "" ->
     event_version o = s.(UStrategy.Version) -> up_to_date s k').
Proof.
  pose proof event_bound as Hb. pose proof Hk as [E1 E2 E3 E4].
  unfold k', consume_key. destruct (pu_kind _ _ _ Hpub) as [(Ht & [p Hp] & Hvs)|[(Ht & Ho & Hv)|(Ht & Ho & Hv)]].
  - rewrite Ht, Hp. destruct (pu_payload _ _ _ Hpub p Hp) as [Hpu Hpi].
    rewrite (pu_user _ _ _ Hpub), (pu_id _ _ _ Hpub), !String.eqb_refl in *. cbn [andb].
    set (v := ConfigEvent.Version ev) in *.
    assert (Hfin : event_version o = s.(UStrategy.Version) -> v = s.(UStrategy.Version)) by (destruct Hvs; lia).
    destruct (ToModelStrategy (Some p)) as [m|] eqn:Hm; cycle 1.
    { split; [done|]. split; [done|]. intros _ Hu _. exfalso.
      destruct (ToModelStrategy_total p) as [m Hm']; [by rewrite Hpu|rewrite Hpi; apply Huuid|congruence]. }
    apply ToModelStrategy_ids in Hm as [Hmu Hmi]. rewrite Hpu in Hmu. rewrite Hpi in Hmi.
    destruct (key_stale k v) eqn:Hst.
    { split; [done|]. split; [done|]. intros _ _ Hov. unfold key_stale in Hst.
      destruct (entry k) as [[b st]|] eqn:He; [|done]. destruct (E3 b st eq_refl) as (x & Hx & Hxv).
      unfold up_to_date. rewrite Hx. f_equal. pose proof (E2 x Hx). specialize (Hfin Hov). lia. }
    split; [|split].
    + destruct (upsert_cases s.(UStrategy.UserID) (uuid_string s.(UStrategy.StrategyID)) v m k) as [->|[-> _]];
        [done|by apply upsert_engine_ok].
    + intros _ Hup. destruct (upsert_cases s.(UStrategy.UserID) (uuid_string s.(UStrategy.StrategyID)) v m k)
        as [->|[-> Ha]]; [done|]. apply (at_most_false _ _ _ Ha) in Hup. lia.
    + intros Hact Hu Hov. specialize (Hfin Hov).
      destruct (at_most v k.(ver)) eqn:Ha.
      * apply at_most_true in Ha as (x & Hx & Hle). pose proof (E2 x Hx).
        assert (k.(ver) = Some s.(UStrategy.Version)) by (rewrite Hx; f_equal; lia).
        destruct (upsert_cases s.(UStrategy.UserID) (uuid_string s.(UStrategy.StrategyID)) v m k) as [->|[-> Ha']];
          [done|]. unfold up_to_date. cbn. by f_equal.
      * rewrite upsert_applies; [unfold up_to_date; cbn; by f_equal|done|done|done|apply Huuid| |done].
        apply E1. by apply active_not_deleted.
  - rewrite Ht. cbn [one_of existsb String.eqb Ascii.eqb Bool.eqb ConfigCreated ConfigUpdated ConfigPaused orb].
    rewrite (pu_user _ _ _ Hpub), (pu_id _ _ _ Hpub), Hv in *.
    assert (Hne : s.(UStrategy.Active) = true -> event_version o < s.(UStrategy.Version)).
    { intros Ha. destruct (Z.eq_dec (event_version o) s.(UStrategy.Version)) as [Heq|]; [|lia].
      pose proof (eo_kind _ _ _ Hev Heq Ha) as Hc. by rewrite Ho in Hc. }
    unfold spec_step. destruct (entry k) as [[[] st]|] eqn:He;
      try (split; [done|]; split; [done|]; intros Ha _ Hov; specialize (Hne Ha); lia).
    destruct (_ && _) eqn:Hc; [|split; [done|]; split; [done|]; intros Ha _ Hov; specialize (Hne Ha); lia].
    apply andb_prop in Hc as [_ Hc]. apply negb_true_iff in Hc. split; [|split].
    + destruct (E3 true st eq_refl) as (x & Hx & Hxv). pose proof (at_most_false _ _ _ Hc Hx).
      split; cbn; [done| | |].
      * intros y [= <-]. done.
      * intros b st' [= <- <-]. eexists. split; [done|]. lia.
      * intros Ha [= Hc']. specialize (Hne Ha). lia.
    + intros Ha Hup. pose proof (at_most_false _ _ _ Hc Hup). specialize (Hne Ha). lia.
    + intros Ha _ Hov. specialize (Hne Ha). lia.
  - pose proof (eo_deleted _ _ _ Hev Ho) as Hd. pose proof (ro_deleted _ _ Hrow Hd) as Hna.
    rewrite Ht. cbn [one_of existsb String.eqb Ascii.eqb Bool.eqb ConfigCreated ConfigUpdated ConfigPaused
      ConfigDeleted ConfigResumed orb].
    rewrite (pu_user _ _ _ Hpub), (pu_id _ _ _ Hpub), Hv in *. split; [|split; congruence].
    unfold spec_step. destruct (fresh _ _ _ _ _ _); [|done]. split; cbn; [done| |done|congruence].
    intros x [= <-]. done.
Qed.
End Publish.
End EndToEnd.
