(* ===== verification/UCEndToEnd.v ===== *)
(** * Active strategies reach the rules engine

    The run of the whole chain: calls of the repository and rounds of the outbox
    worker in any order, then the consumer of the rules engine on the topic. *)

From stdpp Require Import base tactics gmap strings list sorting.
From Stdlib Require Import ZArith Lia Bool.
From S2P Require Import Prelude GoFloat GoStrings RuleModels ConfigStore ConfigSync UCModels UCRepo.
From S2P Require Import UCWorker UCTx UCInvariant UCEffects UCEngine.

Open Scope string_scope.
Open Scope list_scope.
Open Scope Z_scope.

Definition unknown : KeyState := MkKey None None None.

(** What a strategy of the engine is after a topic. *)
Definition after (u s : string) (topic : list ConfigEvent.t) (k : KeyState) : KeyState :=
  foldl (fun k ev => consume_key u s ev k) k topic.

Lemma after_app u s t1 t2 k : after u s (t1 ++ t2) k = after u s t2 (after u s t1 k).
Proof. apply foldl_app. Qed.

Lemma engine_ok_unknown s : engine_ok s unknown.
Proof. by split. Qed.

(** A message about another strategy. *)
Lemma consume_other u s ev k :
  (forall p, ev.(ConfigEvent.Config) = Some p ->
    p.(StrategyPayload.UserID) = ev.(ConfigEvent.UserID) /\
    p.(StrategyPayload.StrategyID) = ev.(ConfigEvent.StrategyID)) ->
  ev.(ConfigEvent.StrategyID) <> s -> consume_key u s ev k = k.
Proof.
  intros Hp Hne. unfold consume_key.
  assert (Hpair : forall u', (u, s) <> (u', ev.(ConfigEvent.StrategyID))) by congruence.
  destruct (one_of _ _).
  - destruct (ConfigEvent.Config ev) as [p|]; [|done]. destruct (Hp p eq_refl) as [Hu Hs].
    destruct (ToModelStrategy _) as [m|] eqn:Hm; [|done].
    apply ToModelStrategy_ids in Hm as [Hmu Hms].
    destruct (_ && _); [done|]. apply upsert_other_key. cbn. rewrite Hms, Hs. apply Hpair.
  - unfold spec_step. rewrite !fresh_other by done. cbn.
    destruct (String.eqb _ _); [by destruct (entry k) as [[[] ?]|]|].
    destruct (String.eqb _ _); [by destruct (entry k) as [[[] ?]|]|]. by destruct (String.eqb _ _).
Qed.

Section Chain.

Context (numeric_20_4 : f64 -> option f64) (uuid_string : uuid -> string)
  (uuid_parse : string -> option uuid).
Context (Huuid : uuid_laws uuid_string uuid_parse) (Hnumeric : numeric_ok numeric_20_4).

Lemma outbox_id_inj db o1 o2 :
  db_ok uuid_string db -> o1 ∈ db.(DB.execution_outbox) -> o2 ∈ db.(DB.execution_outbox) ->
  o1.(Outbox.ID) = o2.(Outbox.ID) -> o1 = o2.
Proof.
  intros Hok. pose proof (ok_ids _ _ Hok) as Hs. revert Hs.
  generalize (DB.execution_outbox db) as l. intros l Hs.
  induction Hs as [|a l Hs IH Ha]; [by intros ?%not_elem_of_nil|].
  rewrite Forall_forall in Ha.
  intros [-> | H1]%elem_of_cons [-> | H2]%elem_of_cons Heq; try done.
  - specialize (Ha _ H2). cbn in Ha. lia.
  - specialize (Ha _ H1). cbn in Ha. lia.
  - auto.
Qed.

Lemma outbox_row db o :
  db_ok uuid_string db -> o ∈ db.(DB.execution_outbox) ->
  exists s, db.(DB.strategies) !! o.(Outbox.AggregateID) = Some s /\ event_ok uuid_string s o /\
    row_ok o.(Outbox.AggregateID) s.
Proof.
  intros Hok Ho. pose proof (ok_events _ _ Hok) as He. rewrite Forall_forall in He.
  destruct (He o Ho) as (s & Hs & Hev). exists s. split_and!; [done..|]. by eapply ok_rows.
Qed.

(** One event: nothing is written, or one message about its row. *)
Lemma processOne_spec env db o s m e :
  db_ok uuid_string db -> o ∈ db.(DB.execution_outbox) ->
  db.(DB.strategies) !! o.(Outbox.AggregateID) = Some s ->
  processOneOutboxEvent uuid_string uuid_parse env db o = (m, e) ->
  (m = [] /\ (e = None -> s.(UStrategy.UserID) = "")) \/
  exists ev, m = [ev] /\ published uuid_string s o ev.
Proof.
  intros Hok Ho Hs H. pose proof (translate_spec _ _ Huuid env db o s Hok Ho Hs) as Ht.
  unfold processOneOutboxEvent in H. destruct (translate _ _ _ _ _) as [er| |ev].
  - injection H as <- <-. by left.
  - injection H as <- <-. by left.
  - destruct (String.eqb_spec (ConfigEvent.UserID ev) "") as [Hu|Hu].
    { injection H as <- <-. left. split; [done|]. intros _. by rewrite <- (pu_user _ _ _ _ Ht). }
    destruct (negb _); [injection H as <- <-; by left|].
    destruct (WorkerEnv.Write env _); injection H as <- <-; [right; eauto|by left|right; eauto].
Qed.

(** The round of the worker, seen from one row. *)
Lemma process_round env db id s events : forall k ids msgs err,
  db_ok uuid_string db -> db.(DB.strategies) !! id = Some s ->
  (forall o, o ∈ events -> o ∈ db.(DB.execution_outbox)) -> engine_ok s k ->
  process_events uuid_string uuid_parse env (fun _ => db) events = (ids, msgs, err) ->
  let k' := after s.(UStrategy.UserID) (uuid_string id) msgs k in
  engine_ok s k' /\
  (s.(UStrategy.Active) = true -> up_to_date s k -> up_to_date s k') /\
  (s.(UStrategy.Active) = true -> s.(UStrategy.UserID) <> "" ->
     forall o, o ∈ events -> o.(Outbox.ID) ∈ ids -> o.(Outbox.AggregateID) = id ->
       event_version o = s.(UStrategy.Version) -> up_to_date s k').
Proof.
  induction events as [|o events IH]; intros k ids msgs err Hok Hs Hin Hk H.
  { injection H as <- <- <-. cbn. split; [done|]. split; [done|]. by intros _ _ o ?%not_elem_of_nil. }
  cbn in H. destruct (processOneOutboxEvent _ _ _ _ _) as [m e] eqn:Hone.
  assert (Ho : o ∈ db.(DB.execution_outbox)) by (apply Hin; by left).
  destruct (outbox_row _ _ Hok Ho) as (so & Hso & Hev & Hrow).
  pose proof (processOne_spec _ _ _ _ _ _ Hok Ho Hso Hone) as Hm.
  set (k1 := after s.(UStrategy.UserID) (uuid_string id) m k).
  assert (Hstep : engine_ok s k1 /\ (s.(UStrategy.Active) = true -> up_to_date s k -> up_to_date s k1) /\
    (s.(UStrategy.Active) = true -> s.(UStrategy.UserID) <> "" -> e = None ->
       o.(Outbox.AggregateID) = id -> event_version o = s.(UStrategy.Version) -> up_to_date s k1)).
  { unfold k1. destruct (decide (o.(Outbox.AggregateID) = id)) as [Heq|Hne].
    - rewrite Heq in Hso. assert (so = s) as -> by congruence. rewrite Heq in Hrow.
      pose proof (ro_id _ _ Hrow) as Hid. destruct Hm as [[-> Hskip]|(ev & -> & Hpub)].
      + cbn. split; [done|]. split; [done|]. intros _ Hu He _ _. by specialize (Hskip He).
      + cbn. rewrite <- Hid in Hrow |- *.
        destruct (publish_step _ _ Huuid s o ev k Hrow Hev Hpub Hk) as (H1 & H2 & H3).
        split; [done|]. split; [done|]. auto.
    - assert (Hsame : after (UStrategy.UserID s) (uuid_string id) m k = k).
      { destruct Hm as [[-> _]|(ev & -> & Hpub)]; [done|]. cbn. apply consume_other.
        - exact (pu_payload _ _ _ _ Hpub).
        - rewrite (pu_id _ _ _ _ Hpub), (ro_id _ _ Hrow). intros Hc.
          by apply (uuid_string_inj _ _ Huuid) in Hc. }
      rewrite Hsame. split; [done|]. split; [done|]. done. }
  destruct Hstep as (S1 & S2 & S3). destruct e as [e|].
  - injection H as <- <- <-. split; [done|]. split; [done|]. by intros _ _ o' _ ?%not_elem_of_nil.
  - destruct (process_events _ _ _ _ events) as [[ids' more] err'] eqn:Hrest. injection H as <- <- <-.
    destruct (IH k1 ids' more err' Hok Hs) as (I1 & I2 & I3); [by intros o' Ho'; apply Hin; right|done..|].
    rewrite after_app. fold k1. split; [done|]. split; [auto|].
    intros Ha Hu o' Ho' Hid' Hagg Hv.
    assert (Hcase : o' = o \/ (o' ∈ events /\ o'.(Outbox.ID) ∈ ids')).
    { apply elem_of_cons in Ho' as [-> | Ho']; [by left|].
      apply elem_of_cons in Hid' as [Hid' | Hid']; [|by right]. left.
      eapply outbox_id_inj; eauto. apply Hin. by right. }
    destruct Hcase as [-> | [Ho1 Ho2]]; [auto|]. by eapply I3.
Qed.

Lemma after_other u id msgs k :
  (forall ev, ev ∈ msgs -> exists s o, s.(UStrategy.StrategyID) <> id /\ published uuid_string s o ev) ->
  after u (uuid_string id) msgs k = k.
Proof.
  revert k. induction msgs as [|ev msgs IH]; intros k Hall; [done|]. cbn.
  destruct (Hall ev ltac:(by left)) as (s & o & Hne & Hpub).
  rewrite consume_other; [apply IH; intros; apply Hall; by right|exact (pu_payload _ _ _ _ Hpub)|].
  rewrite (pu_id _ _ _ _ Hpub). intros Hc. by apply (uuid_string_inj _ _ Huuid) in Hc.
Qed.

(** Every message of a round is about a row. *)
Lemma round_messages env db events : forall ids msgs err,
  db_ok uuid_string db -> (forall o, o ∈ events -> o ∈ db.(DB.execution_outbox)) ->
  process_events uuid_string uuid_parse env (fun _ => db) events = (ids, msgs, err) ->
  (forall ev, ev ∈ msgs -> exists s o, db.(DB.strategies) !! s.(UStrategy.StrategyID) = Some s /\
     published uuid_string s o ev) /\
  (forall i, i ∈ ids -> exists o, o ∈ events /\ o.(Outbox.ID) = i).
Proof.
  induction events as [|o events IH]; intros ids msgs err Hok Hin H.
  { injection H as <- <- <-. split; by intros ? ?%not_elem_of_nil. }
  cbn in H. destruct (processOneOutboxEvent _ _ _ _ _) as [m e] eqn:Hone.
  assert (Ho : o ∈ db.(DB.execution_outbox)) by (apply Hin; by left).
  destruct (outbox_row _ _ Hok Ho) as (so & Hso & Hev & Hrow).
  pose proof (processOne_spec _ _ _ _ _ _ Hok Ho Hso Hone) as Hm.
  assert (Hm' : forall ev, ev ∈ m -> exists s o, db.(DB.strategies) !! s.(UStrategy.StrategyID) = Some s /\
     published uuid_string s o ev).
  { destruct Hm as [[-> _]|(ev & -> & Hpub)]; [by intros ? ?%not_elem_of_nil|].
    intros ev' ->%list_elem_of_singleton. exists so, o. by rewrite (ro_id _ _ Hrow). }
  destruct e as [e|].
  - injection H as <- <- <-. split; [done|]. by intros ? ?%not_elem_of_nil.
  - destruct (process_events _ _ _ _ events) as [[ids' more] err'] eqn:Hrest. injection H as <- <- <-.
    destruct (IH ids' more err' Hok) as (I1 & I2); [by intros o' Ho'; apply Hin; right|done|]. split.
    + intros ev [Hev' | Hev']%elem_of_app; auto.
    + intros i [-> | Hi]%elem_of_cons; [exists o; split; [by left|done]|].
      destruct (I2 i Hi) as (o' & Ho' & <-). exists o'. split; [by right|done].
Qed.

(** What a round of the worker comes to. *)
Lemma worker_round env db :
  exists events ids msgs err ids', (forall o, o ∈ events -> o ∈ db.(DB.execution_outbox)) /\
    process_events uuid_string uuid_parse env (fun _ => db) events = (ids, msgs, err) /\
    (ids' = [] \/ ids' = ids) /\
    (processOutbox uuid_string uuid_parse env db).1 =
      (with_outbox (map (mark ids') db.(DB.execution_outbox)) db, msgs).
Proof.
  assert (Hnil : with_outbox (map (mark []) db.(DB.execution_outbox)) db = db).
  { unfold with_outbox. rewrite (map_ext _ id), map_id; [by destruct db|].
    intros o. unfold mark. by rewrite bool_decide_eq_false_2 by set_solver. }
  unfold processOutbox, ListPendingOutboxEvents. destruct (WorkerEnv.ListOk env); cycle 1.
  { exists [], [], [], None, []. split; [by intros ? ?%not_elem_of_nil|]. rewrite Hnil. auto. }
  set (events := take batch_size (pending db)).
  assert (Hin : forall o, o ∈ events -> o ∈ db.(DB.execution_outbox)).
  { intros o Ho. unfold events, pending in Ho. apply elem_of_take in Ho as (i & Hi & _).
    apply list_elem_of_lookup_2 in Hi. rewrite merge_sort_Permutation in Hi.
    apply list_elem_of_In, filter_In in Hi as [Hi _]. by apply list_elem_of_In. }
  destruct (process_events _ _ _ _ events) as [[ids msgs] err] eqn:Hp.
  unfold MarkOutboxEventsProcessed. destruct (bool_decide (ids = [])) eqn:Hi.
  - apply bool_decide_eq_true in Hi as ->. exists events, [], msgs, err, []. rewrite Hnil. auto.
  - destruct (WorkerEnv.MarkOk env).
    + exists events, ids, msgs, err, ids. auto.
    + exists events, ids, msgs, err, []. rewrite Hnil. auto.
Qed.

(** ** The invariant of the chain *)

Definition engine_state (id : uuid) (u : string) (topic : list ConfigEvent.t) : KeyState :=
  after u (uuid_string id) topic unknown.

(** The owner of the row is the owner in the message and in its payload. *)
Definition about (s : UStrategy.t) (ev : ConfigEvent.t) : Prop :=
  ev.(ConfigEvent.UserID) = s.(UStrategy.UserID) /\
  forall p, ev.(ConfigEvent.Config) = Some p ->
    p.(StrategyPayload.UserID) = ev.(ConfigEvent.UserID) /\
    p.(StrategyPayload.StrategyID) = ev.(ConfigEvent.StrategyID).

Record sys_ok (w : UCState) : Prop := {
  so_db : db_ok uuid_string w.1;
  so_json : parts_json w.1;
  so_none : forall id u, w.1.(DB.strategies) !! id = None -> engine_state id u w.2 = unknown;
  so_engine : forall id s, w.1.(DB.strategies) !! id = Some s ->
    engine_ok s (engine_state id s.(UStrategy.UserID) w.2);
  so_pending : forall id s, w.1.(DB.strategies) !! id = Some s ->
    s.(UStrategy.Active) = true -> s.(UStrategy.UserID) <> "" ->
    up_to_date s (engine_state id s.(UStrategy.UserID) w.2) \/
    exists o, o ∈ w.1.(DB.execution_outbox) /\ announces id s o;
  so_topic : Forall (fun ev => exists id s, w.1.(DB.strategies) !! id = Some s /\ about s ev) w.2
}.

Lemma sys_ok_empty : sys_ok (DB.empty, []).
Proof. split; cbn; try done. apply db_ok_empty. Qed.

Lemma engine_ok_next s s' k : row_next s s' -> engine_ok s k -> engine_ok s' k.
Proof.
  intros [H1 H2 H3 H4 H5 H6] [E1 E2 E3 E4]. split.
  - intros Hd. apply E1. destruct (UStrategy.DeletedAt s); [|done]. by destruct H6.
  - intros v Hv. specialize (E2 v Hv). lia.
  - done.
  - intros _ Hv. specialize (E2 _ Hv). lia.
Qed.

Lemma sys_ok_call op w :
  sys_ok w -> op_json op = true -> is_worker op = false ->
  sys_ok (uc_step numeric_20_4 uuid_string uuid_parse op w).
Proof.
  intros [D J N E P T] Hj Hw.
  destruct (uc_step_grows _ _ uuid_parse op w Hnumeric D J Hj Hw) as [[Hrows (new & Hout & Hann)] Htopic].
  set (w' := uc_step _ _ _ op w) in *.
  assert (Hdb : db_ok uuid_string w'.1) by (by apply uc_step_ok).
  split; rewrite ?Htopic; [done|by apply uc_step_parts| | | |].
  - intros id u Hid. apply N. destruct (Hrows id) as [Heq|[(s & s' & _ & Hs' & _)|[Hs _]]]; congruence.
  - intros id s' Hs'. destruct (Hrows id) as [Heq|[(s & s'' & Hs & Hs'' & Hn)|[Hs _]]].
    + apply E. congruence.
    + assert (s'' = s') as -> by congruence. rewrite (rn_user _ _ Hn). eapply engine_ok_next; eauto.
    + rewrite N by done. apply engine_ok_unknown.
  - intros id s' Hs' Ha Hu. rewrite Hout. destruct (Hann id) as [Heq|(s'' & o & Hs'' & Ho & Hao)].
    + destruct (P id s') as [Hup|(o & Ho & Hao)]; [congruence|done|done|by left|]. right. exists o.
      split; [|done]. apply elem_of_app. by left.
    + assert (s'' = s') as -> by congruence. right. exists o. split; [|done]. apply elem_of_app. by right.
  - eapply Forall_impl; [exact T|]. cbn. intros ev (id & s & Hs & Ha).
    destruct (Hrows id) as [Heq|[(s0 & s' & Hs0 & Hs' & Hn)|[Hs0 _]]]; [|clear Hann|congruence].
    + exists id, s. by rewrite Heq.
    + exists id, s'. split; [done|]. assert (s0 = s) as -> by congruence. unfold about.
      by rewrite (rn_user _ _ Hn).
Qed.

Lemma sys_ok_worker env w :
  sys_ok w -> sys_ok (uc_step numeric_20_4 uuid_string uuid_parse (OWorker env) w).
Proof.
  destruct w as [db topic]. intros [D J N E P T]. cbn [fst snd] in *.
  destruct (worker_round env db) as (events & ids & msgs & err & ids' & Hin & Hproc & Hids & Hout).
  cbn [uc_step]. destruct (processOutbox _ _ _ _) as [[db' msgs'] err'] eqn:Hpo.
  cbn in Hout. injection Hout as -> ->.
  destruct (round_messages _ _ _ _ _ _ D Hin Hproc) as [Hmsgs Hsub].
  split; cbn [fst snd with_outbox set DB.strategies DB.execution_outbox].
  - by apply marked_ok.
  - destruct J. by split.
  - intros id u Hid. unfold engine_state. rewrite after_app. fold (engine_state id u topic).
    rewrite N by done. apply after_other. intros ev Hev. destruct (Hmsgs ev Hev) as (s & o & Hs & Hp).
    exists s, o. split; [congruence|done].
  - intros id s Hs. unfold engine_state. rewrite after_app.
    by destruct (process_round env db id s events _ ids msgs err D Hs Hin (E id s Hs) Hproc).
  - intros id s Hs Ha Hu. unfold engine_state. rewrite after_app.
    destruct (process_round env db id s events _ ids msgs err D Hs Hin (E id s Hs) Hproc) as (_ & R2 & R3).
    destruct (P id s Hs Ha Hu) as [Hup|(o & Ho & Hpo' & Hagg & Hv)]; [left; by apply R2|].
    destruct (decide (o.(Outbox.ID) ∈ ids')) as [Hm|Hm].
    + left. destruct Hids as [-> | ->]; [by apply not_elem_of_nil in Hm|].
      destruct (Hsub _ Hm) as (o' & Ho' & Heq). apply (R3 Ha Hu o); try done.
      assert (o' = o) as <-; [|done]. eapply outbox_id_inj; eauto.
    + right. exists o. split; [|done]. apply list_elem_of_fmap. exists o. split; [|done].
      unfold mark. by rewrite bool_decide_eq_false_2.
  - apply Forall_app. split; [done|]. apply Forall_forall. intros ev Hev.
    destruct (Hmsgs ev Hev) as (s & o & Hs & Hp). exists s.(UStrategy.StrategyID), s. split; [done|].
    split; [exact (pu_user _ _ _ _ Hp)|exact (pu_payload _ _ _ _ Hp)].
Qed.

Lemma sys_ok_step op w :
  sys_ok w -> op_json op = true -> sys_ok (uc_step numeric_20_4 uuid_string uuid_parse op w).
Proof.
  intros Hw Hj. destruct (is_worker op) eqn:Hi; [|by apply sys_ok_call].
  destruct op; try done. by apply sys_ok_worker.
Qed.

Lemma sys_ok_run ops w :
  sys_ok w -> Forall (fun op => op_json op = true) ops ->
  sys_ok (uc_run numeric_20_4 uuid_string uuid_parse ops w).
Proof.
  intros Hw Hops. revert w Hw. induction Hops as [|op ops Hop _ IH]; intros w Hw; [done|].
  apply IH. by apply sys_ok_step.
Qed.

(** The engine on the whole topic, from the moment it starts with an empty
    store. *)
Lemma engine_after_topic w start consumed id s :
  sys_ok w -> map snd consumed = w.2 ->
  (forall i r, w.1.(DB.strategies) !! i = Some r -> no_bar r.(UStrategy.UserID) = true) ->
  w.1.(DB.strategies) !! id = Some s ->
  find_strategy (consume_all consumed (ConfigConsumer.mk (NewConfigStore start) 0 0 0))
    .(ConfigConsumer.configStore).(Writer.published) s.(UStrategy.UserID) (uuid_string id) =
  (engine_state id s.(UStrategy.UserID) w.2).(entry).
Proof.
  intros Hw Hc Hbar Hs.
  destruct (consume_all_sim consumed (ConfigConsumer.mk (NewConfigStore start) 0 0 0)
    s.(UStrategy.UserID) (uuid_string id) unknown) as [He _]; [by eapply Hbar| | |done|].
  - rewrite Hc. eapply Forall_impl; [exact (so_topic _ Hw)|]. cbn. intros ev (i & r & Hr & Hu & Hp).
    split; [|exact Hp]. rewrite Hu. by eapply Hbar.
  - apply NewConfigStore_ok.
  - rewrite Hc in He. exact He.
Qed.
End Chain.
