(* ===== verification/UCSamples.v ===== *)
(** * A small run of the strategy service

    Concrete parameters, a request and a run, at which the properties of the
    service are instantiated. *)

From stdpp Require Import base tactics gmap strings list sorting.
From Stdlib Require Import ZArith Lia Bool SpecFloat.
From S2P Require Import Prelude GoFloat GoStrings RuleModels ConfigStore ConfigSync UCModels UCRepo.
From S2P Require Import UCWorker UCInvariant UCEffects UCEngine.

Open Scope string_scope.
Open Scope list_scope.
Open Scope Z_scope.

(** Identifiers in unary. *)
Fixpoint sample_digits (n : nat) : string :=
  match n with O => "#" | S n => String.append "#" (sample_digits n) end.

Definition sample_text (id : uuid) : string := sample_digits (N.to_nat id).

Definition sample_parse (s : string) : option uuid :=
  match String.length s with O => None | S n => Some (N.of_nat n) end.

Lemma sample_digits_length n : String.length (sample_digits n) = S n.
Proof. induction n as [|n IH]; [done|]. exact (f_equal S IH). Qed.

Lemma sample_uuid_laws : uuid_laws sample_text sample_parse.
Proof.
  intros id. split.
  - unfold sample_text. by destruct (N.to_nat id).
  - unfold sample_parse, sample_text. by rewrite sample_digits_length, N2Nat.id.
Qed.

Lemma sample_numeric_ok : numeric_ok Some.
Proof. intros x y Hx [= <-]. exact Hx. Qed.

Definition sample_condition : UCondition.t :=
  UCondition.mk 0 0 true 3 9 ["POSITIVE"] [] None None [] None None ["NSE"] 0.

Definition sample_trade : UTradeConfig.t :=
  UTradeConfig.mk 0 0 "MARKET" "INTRADAY" "DAY" 10 "NSE" "BUY" None None (Some (of_Z 2))
    (Some (of_Z 4)) None "MULTI_LEVEL" "FIXED"
    [MkUCLevel 1 (of_Z 1) (of_Z 40); MkUCLevel 2 (of_Z 2) (of_Z 60)] [] "" "" 0.

Definition sample_limits : URiskLimits.t :=
  URiskLimits.mk 0 0 (Some 5) None None None true true "15:10" (Some (of_Z 5000)) None 0.

Definition sample_request (active : bool) : CreateStrategyRequest.t :=
  CreateStrategyRequest.mk "alice" "momentum" "" (Some sample_condition) (Some sample_trade)
    (Some sample_limits) active "PAPER" None.

(** A change of the description, made by someone who read version [v]. *)
Definition sample_update (v : Z) (text : string) : UpdateStrategyRequest.t :=
  UpdateStrategyRequest.mk 7 "alice" None (Some text) None None None None v None.

Definition sample_io (now : Z) : Io.t := Io.mk now (fun _ => true) true.

Definition sample_env : WorkerEnv.t :=
  WorkerEnv.mk true true (fun n => n) (fun _ => sample_io 0) (fun _ => KafkaAcked).

Definition sample_create (active : bool) : UCOp := OCreate (sample_io 1) 7 8 9 10 (sample_request active).

Definition sample_run (ops : list UCOp) : UCState :=
  uc_run Some sample_text sample_parse ops (DB.empty, []).

(** The row of the strategy of the sample. *)
Definition sample_row (w : UCState) : UStrategy.t :=
  default (new_strategy (sample_io 0) 0 (sample_request false)) (w.1.(DB.strategies) !! 7%N).
