(* ===== verification/UCProperties.v ===== *)
(** * Properties of the strategy service and of its way to the rules engine *)

From stdpp Require Import base tactics gmap strings list sorting.
From Stdlib Require Import ZArith Lia Bool.
From S2P Require Import Prelude GoFloat GoStrings GoTime RuleModels ConfigStore ConfigSync UCModels UCRepo.
From S2P Require Import UCWorker UCTx UCInvariant UCEffects UCEngine UCEndToEnd UCSamples.

Open Scope string_scope.
Open Scope list_scope.
Open Scope Z_scope.

(** ** Calls only add events *)

(** The start of the transaction of a call. *)
Definition op_now (op : UCOp) : Z :=
  match op with
  | OCreate io _ _ _ _ _ | OUpdate io _ | ODelete io _ _ | OActivate io _ _ | ODeactivate io _ _
  | ODeactivateAll io | ODeactivateMode io _ | ODeactivateAt io _ => io.(Io.Now)
  | OWorker _ => 0
  end.

Definition adds (now : Z) (db db' : DB.t) : Prop :=
  row_step db.(DB.strategies) db'.(DB.strategies) /\
  exists new, db'.(DB.execution_outbox) = db.(DB.execution_outbox) ++ new /\
              Forall (fun o => o.(Outbox.CreatedAt) = now) new.

Lemma adds_refl now db : adds now db db.
Proof. split; [by left|]. exists []. by rewrite app_nil_r. Qed.

Section Adds.

Context (numeric_20_4 : f64 -> option f64) (uuid_string : uuid -> string)
  (uuid_parse : string -> option uuid).

Lemma adds_one now id type p db db1 :
  row_step db.(DB.strategies) db1.(DB.strategies) ->
  db1.(DB.execution_outbox) = db.(DB.execution_outbox) ->
  adds now db (append_event now id type p db1).
Proof. intros Hr Ho. split; [done|]. cbn. rewrite Ho. eexists. split; [done|]. by repeat constructor. Qed.

Lemma append_paused_adds now l db db1 :
  adds now db db1 -> adds now db (append_paused uuid_string now l db1).
Proof.
  revert db1. induction l as [|s l IH]; intros db1 H; [done|]. apply IH.
  destruct H as [Hr (new & Hn & Hall)]. split; [done|]. cbn. rewrite Hn, <- app_assoc. eexists.
  split; [done|]. apply Forall_app. split; [done|]. by repeat constructor.
Qed.

Lemma change_row_adds io id where_ change err type db :
  db_ok uuid_string db ->
  (forall s, row_ok id s -> where_ s = true -> s.(UStrategy.Version) < max_int32 -> row_next s (change s)) ->
  adds io.(Io.Now) db (change_row uuid_string io id where_ change err type db).2.
Proof.
  intros Hok Hch. destruct (change_row _ _ _ _ _ _ _ _) as [r db'] eqn:E.
  apply change_row_inv in E as [[-> _]|(s & s' & db1 & H1 & Hs & Hw & -> & -> & _)]; [apply adds_refl|].
  apply sql_update_row_inr in H1 as (s0 & Hs0 & _ & Hv & _ & _ & _ & ->).
  assert (s0 = s) as -> by congruence. apply adds_one; [|done]. eapply row_step_insert; [done|].
  apply Hch; [by apply (ok_rows _ _ Hok)|done|done].
Qed.

Lemma deactivate_all_adds io where_ db :
  db_ok uuid_string db -> adds io.(Io.Now) db (deactivate_all uuid_string io where_ db).2.
Proof.
  intros Hok. pose proof (deactivate_all_grows uuid_string io where_ db Hok) as [Hrows _].
  destruct (deactivate_all _ _ _ _) as [r db'] eqn:E. cbn [snd] in *.
  apply deactivate_all_inv in E as [[-> _]|(Hmax & -> & _)]; [apply adds_refl|].
  apply append_paused_adds. rewrite append_paused_rows in Hrows. split; [done|].
  exists []. by rewrite app_nil_r.
Qed.

Lemma uc_step_adds op w :
  db_ok uuid_string w.1 -> is_worker op = false ->
  adds (op_now op) w.1 (uc_step numeric_20_4 uuid_string uuid_parse op w).1 /\
  (uc_step numeric_20_4 uuid_string uuid_parse op w).2 = w.2.
Proof.
  destruct w as [db topic]. intros Hok Hw. cbn in Hok. destruct op; try done; (split; [|done]);
    cbn [uc_step fst op_now].
  - pose proof (Create_grows numeric_20_4 io newID condID tcID rlID req db) as [Hrows _].
    destruct (Create _ _ _ _ _ _ _ _) as [r db'] eqn:E. cbn [snd] in *.
    apply Create_inv in E as [[-> _]|(_ & _ & _ & _ & -> & _)]; [apply adds_refl|]. by apply adds_one.
  - destruct (Update _ _ _ _) as [r db'] eqn:E.
    apply Update_inv in E as [[-> _]|(s0 & Hs0 & Hw' & Hv & _ & _ & -> & _)]; [apply adds_refl|].
    cbn [snd]. assert (Hr : row_step db.(DB.strategies)
      (updated_tables numeric_20_4 (update_set (Io.Now io) req s0) req db).(DB.strategies)).
    { cbn. eapply row_step_insert; [done|]. by apply update_set_next. }
    destruct (strategy_json _); [by apply adds_one|]. split; [done|]. exists []. by rewrite app_nil_r.
  - apply change_row_adds; [done|]. intros s _ _ Hv. by split.
  - apply change_row_adds; [done|]. intros s _ H Hv. by eapply set_active_next.
  - apply change_row_adds; [done|]. intros s _ H Hv. by eapply set_active_next.
  - by apply deactivate_all_adds.
  - by apply deactivate_all_adds.
  - by apply deactivate_all_adds.
Qed.

(** Rows never go back: neither in their version nor from being deleted. *)
Definition row_advances (m m' : gmap uuid UStrategy.t) : Prop := forall id s, m !! id = Some s ->
  exists s', m' !! id = Some s' /\ s.(UStrategy.Version) <= s'.(UStrategy.Version) /\
    s'.(UStrategy.UserID) = s.(UStrategy.UserID) /\
    (s.(UStrategy.DeletedAt) <> None -> s'.(UStrategy.DeletedAt) <> None).

#[export] Instance row_advances_preorder : PreOrder row_advances.
Proof.
  split.
  - intros m id s Hs. exists s. done.
  - intros m1 m2 m3 H1 H2 id s Hs. destruct (H1 id s Hs) as (s' & Hs' & ? & ? & ?).
    destruct (H2 id s' Hs') as (s'' & Hs'' & ? & ? & ?). exists s''. split_and!; [done|lia|congruence|auto].
Qed.

Lemma row_step_advances m m' : row_step m m' -> row_advances m m'.
Proof.
  intros H id s Hs. destruct (H id) as [Heq|[(s0 & s' & Hs0 & Hs' & Hn)|[Hs0 _]]]; [| |congruence].
  - exists s. rewrite Heq. done.
  - assert (s0 = s) as -> by congruence. exists s'. destruct Hn. split_and!; [done|lia|done|done].
Qed.

Lemma uc_step_advances op w :
  db_ok uuid_string w.1 ->
  row_advances w.1.(DB.strategies) (uc_step numeric_20_4 uuid_string uuid_parse op w).1.(DB.strategies).
Proof.
  intros Hok. destruct (is_worker op) eqn:Hw.
  - destruct op; try done. destruct w as [db topic]. cbn.
    destruct (worker_db uuid_string uuid_parse env db) as [ids Hids].
    destruct (processOutbox _ _ _ _) as [[db' msgs] err]. cbn in Hids |- *. by rewrite Hids.
  - apply row_step_advances. by apply uc_step_adds.
Qed.

Lemma uc_run_advances ops w :
  db_ok uuid_string w.1 ->
  row_advances w.1.(DB.strategies) (uc_run numeric_20_4 uuid_string uuid_parse ops w).1.(DB.strategies).
Proof.
  revert w. induction ops as [|op ops IH]; intros w Hok; [reflexivity|].
  etrans; [by apply (uc_step_advances op)|]. apply IH. by apply uc_step_ok.
Qed.
End Adds.

(** ** The outbox follows the rows *)

(** C16: in every reachable state the events of a strategy carry strictly
    increasing versions in the order they were written, none is newer than the
    row, an owner has no two undeleted strategies of one name, and, unless an
    update carried a number that JSON cannot, each row has an event with its
    current version. *)
Theorem outbox_follows_rows (numeric_20_4 : f64 -> option f64) (uuid_string : uuid -> string)
    (uuid_parse : string -> option uuid) (ops : list UCOp)
    (db := (uc_run numeric_20_4 uuid_string uuid_parse ops (DB.empty, [])).1) :
  StronglySorted (fun o1 o2 => o1.(Outbox.AggregateID) = o2.(Outbox.AggregateID) ->
    event_version o1 < event_version o2) db.(DB.execution_outbox) /\
  (forall o, o ∈ db.(DB.execution_outbox) -> exists s,
     db.(DB.strategies) !! o.(Outbox.AggregateID) = Some s /\
     1 <= event_version o <= s.(UStrategy.Version) /\ s.(UStrategy.Version) <= max_int32) /\
  (forall id1 id2 s1 s2, db.(DB.strategies) !! id1 = Some s1 -> db.(DB.strategies) !! id2 = Some s2 ->
     not_deleted s1 = true -> not_deleted s2 = true ->
     s1.(UStrategy.UserID) = s2.(UStrategy.UserID) ->
     s1.(UStrategy.StrategyName) = s2.(UStrategy.StrategyName) -> id1 = id2) /\
  (numeric_ok numeric_20_4 -> Forall (fun op => op_json op = true) ops ->
   forall id s, db.(DB.strategies) !! id = Some s -> exists o, o ∈ db.(DB.execution_outbox) /\
     o.(Outbox.AggregateID) = id /\ event_version o = s.(UStrategy.Version)).
Proof.
  assert (Hok : db_ok uuid_string db) by (apply uc_run_ok, db_ok_empty).
  split; [exact (ok_order _ _ Hok)|]. split; [|split; [exact (ok_names _ _ Hok)|]].
  - intros o Ho. destruct (outbox_row _ _ _ Hok Ho) as (s & Hs & Hev & Hrow). exists s.
    split; [done|]. pose proof (eo_version _ _ _ Hev). pose proof (ro_version _ _ Hrow). lia.
  - intros Hnum Hops.
    enough (H : forall w, db_ok uuid_string w.1 -> parts_json w.1 ->
      (forall id s, w.1.(DB.strategies) !! id = Some s -> exists o, o ∈ w.1.(DB.execution_outbox) /\
        o.(Outbox.AggregateID) = id /\ event_version o = s.(UStrategy.Version)) ->
      forall id s, (uc_run numeric_20_4 uuid_string uuid_parse ops w).1.(DB.strategies) !! id = Some s ->
        exists o, o ∈ (uc_run numeric_20_4 uuid_string uuid_parse ops w).1.(DB.execution_outbox) /\
        o.(Outbox.AggregateID) = id /\ event_version o = s.(UStrategy.Version)).
    { apply (H (DB.empty, [])); [apply db_ok_empty|by split|done]. }
    clear db Hok. induction Hops as [|op ops Hop _ IH]; intros w Hok Hp Hcov; [exact Hcov|].
    apply (IH (uc_step numeric_20_4 uuid_string uuid_parse op w)); [by apply uc_step_ok|by apply uc_step_parts|].
    intros id s. destruct (is_worker op) eqn:Hw.
    + destruct op; try done. destruct w as [db topic]. cbn.
      destruct (worker_db uuid_string uuid_parse env db) as [ids Hids].
      destruct (processOutbox _ _ _ _) as [[db' msgs] err]. cbn in Hids |- *. rewrite Hids. cbn.
      intros Hs. destruct (Hcov id s Hs) as (o & Ho & Ha & Hv). exists (mark ids o).
      destruct (mark_same ids o) as (_ & -> & _ & _ & _ & ->).
      split; [by apply list_elem_of_fmap_2|done].
    + destruct (uc_step_grows _ _ uuid_parse op w Hnum Hok Hp Hop Hw) as [[_ (new & -> & Hnew)] _].
      intros Hs. destruct (Hnew id) as [Heq|(s' & o & Hs' & Ho & _ & Ha & Hv)].
      * destruct (Hcov id s) as (o & Ho & Hrest); [congruence|]. exists o. split; [|done].
        apply elem_of_app. by left.
      * assert (s' = s) as -> by congruence. exists o. split; [|done]. apply elem_of_app. by right.
Qed.

(** ** No update is lost *)

(** C17: Two clients read a strategy at the same version.  Once the update of
    one has gone through, the update of the other fails and changes nothing,
    whatever happens in between. *)
Theorem update_lock_excludes (numeric_20_4 : f64 -> option f64) (uuid_string : uuid -> string)
    (uuid_parse : string -> option uuid) (before between : list UCOp) (io1 io2 : Io.t)
    (req1 req2 : UpdateStrategyRequest.t) (s1 : UStrategy.t) (db1 : DB.t)
    (w := uc_run numeric_20_4 uuid_string uuid_parse before (DB.empty, []))
    (Hfirst : Update numeric_20_4 io1 req1 w.1 = (inr s1, db1))
    (Hsame : req2.(UpdateStrategyRequest.StrategyID) = req1.(UpdateStrategyRequest.StrategyID))
    (Hversion : req2.(UpdateStrategyRequest.Version) = req1.(UpdateStrategyRequest.Version)) :
  let db2 := (uc_run numeric_20_4 uuid_string uuid_parse between (db1, w.2)).1 in
  exists e, Update numeric_20_4 io2 req2 db2 = (inl e, db2).
Proof.
  assert (Hok : db_ok uuid_string w.1) by (apply uc_run_ok, db_ok_empty).
  assert (Hok1 : db_ok uuid_string db1).
  { pose proof (Update_ok numeric_20_4 uuid_string io1 req1 w.1 Hok) as H. by rewrite Hfirst in H. }
  assert (Hrow : exists r, db1.(DB.strategies) !! req1.(UpdateStrategyRequest.StrategyID) = Some r /\
    r.(UStrategy.Version) = req1.(UpdateStrategyRequest.Version) + 1).
  { pose proof Hfirst as H. apply Update_inv in H as [[_ [e He]]|(s0 & Hs0 & Hw & Hv & _ & _ & -> & _)]; [done|].
    eexists. split.
    - destruct (strategy_json _); cbn; apply lookup_insert_eq.
    - cbn. apply andb_prop in Hw as [[_ Hv']%andb_prop _]. lia. }
  destruct Hrow as (r & Hr & Hrv). cbn zeta.
  set (db2 := (uc_run _ _ _ between _).1).
  destruct (uc_run_advances numeric_20_4 uuid_string uuid_parse between (db1, w.2) Hok1 _ _ Hr)
    as (r2 & Hr2 & Hle & _). fold db2 in Hr2.
  destruct (Update numeric_20_4 io2 req2 db2) as [res db3] eqn:E.
  apply Update_inv in E as [[-> [e ->]]|(s0 & Hs0 & Hw & _)]; [by exists e|]. exfalso.
  rewrite Hsame in Hs0. assert (s0 = r2) as -> by congruence.
  apply andb_prop in Hw as [[_ Hv]%andb_prop _]. lia.
Qed.

Definition first_update : (RepoError + UStrategy.t) * DB.t :=
  Update Some (sample_io 2) (sample_update 1 "first") (sample_run [sample_create true]).1.

(** A deactivation and a round of the worker lie between the two updates. *)
Lemma update_lock_excludes_witness :
  let db2 := (uc_run Some sample_text sample_parse
    [ODeactivate (sample_io 3) 7 "alice"; OWorker sample_env] (first_update.2, [])).1 in
  exists e, Update Some (sample_io 4) (sample_update 1 "second") db2 = (inl e, db2).
Proof.
  exact (update_lock_excludes Some sample_text sample_parse [sample_create true]
    [ODeactivate (sample_io 3) 7 "alice"; OWorker sample_env] (sample_io 2) (sample_io 4)
    (sample_update 1 "first") (sample_update 1 "second")
    (match first_update.1 with inr s => s | inl _ => sample_row (DB.empty, []) end) first_update.2
    ltac:(vm_compute; reflexivity) eq_refl eq_refl).
Defined.
