(* ===== verification/UCChain.v ===== *)
(** * When the rules engine and the strategy service agree

    The main theorem says that every active strategy is traded once the outbox
    and the topic are worked off.  The others are about what the asynchronous
    publication of activations adds: a deactivation that overtakes the
    publication of an activation is not seen by the rules engine, a deletion that
    overtakes it stops the publication of everything. *)

From stdpp Require Import base tactics gmap strings list sorting.
From Stdlib Require Import ZArith Lia Bool.
From S2P Require Import Prelude GoFloat GoStrings GoTime RuleModels ConfigStore ConfigSync UCModels UCRepo.
From S2P Require Import UCWorker UCTx UCInvariant UCEffects UCEngine UCEndToEnd UCProperties UCSamples.

Open Scope string_scope.
Open Scope list_scope.
Open Scope Z_scope.

(** Everything in the outbox is published. *)
Definition drained (db : DB.t) : Prop :=
  Forall (fun o => o.(Outbox.Processed) = true) db.(DB.execution_outbox).

(** The rules engine after the whole topic, from an empty store. *)
Definition engine (start : Z) (consumed : list (Z * ConfigEvent.t)) : Writer.t :=
  (consume_all consumed (ConfigConsumer.mk (NewConfigStore start) 0 0 0)).(ConfigConsumer.configStore).

(** No user id contains the separator of the keys of the rules engine. *)
Definition plain_users (db : DB.t) : Prop :=
  forall id s, db.(DB.strategies) !! id = Some s -> no_bar s.(UStrategy.UserID) = true.

Definition good_io (io : Io.t) : Prop := forall n, io.(Io.Ok) n = true.

(** A round of the worker in which nothing fails. *)
Record good_env (env : WorkerEnv.t) : Prop := {
  ge_list : env.(WorkerEnv.ListOk) = true;
  ge_mark : env.(WorkerEnv.MarkOk) = true;
  ge_io : forall i, good_io (env.(WorkerEnv.EventIo) i);
  ge_write : forall i, env.(WorkerEnv.Write) i = KafkaAcked
}.

(** C15: once the outbox is published and the topic consumed, every active
    strategy is active in the rules engine, at the version of its row: whatever
    was called in which order, and however often publishing failed, was retried
    or was repeated on the way. *)
Theorem active_rows_reach_engine (numeric_20_4 : f64 -> option f64) (uuid_string : uuid -> string)
    (uuid_parse : string -> option uuid) (Huuid : uuid_laws uuid_string uuid_parse)
    (Hnumeric : numeric_ok numeric_20_4) (ops : list UCOp)
    (Hjson : Forall (fun op => op_json op = true) ops)
    (w := uc_run numeric_20_4 uuid_string uuid_parse ops (DB.empty, []))
    (start : Z) (consumed : list (Z * ConfigEvent.t)) (id : uuid) (s : UStrategy.t)
    (Hdrained : drained w.1) (Hconsumed : map snd consumed = w.2) (Hplain : plain_users w.1)
    (Hs : w.1.(DB.strategies) !! id = Some s) (Hactive : s.(UStrategy.Active) = true)
    (Huser : s.(UStrategy.UserID) <> "") :
  exists st, find_strategy (engine start consumed).(Writer.published)
               s.(UStrategy.UserID) (uuid_string id) = Some (true, st) /\
             st.(Strategy.Version) = s.(UStrategy.Version).
Proof.
  assert (Hw : sys_ok uuid_string w).
  { unfold w. by apply sys_ok_run; [..|by apply sys_ok_empty|]. }
  unfold engine. rewrite (engine_after_topic uuid_string w start consumed id s Hw Hconsumed Hplain Hs).
  destruct (so_pending _ _ Hw id s Hs Hactive Huser) as [Hup|(o & Ho & Hp & _)].
  - exact (en_act _ _ (so_engine _ _ Hw id s Hs) Hactive Hup).
  - unfold drained in Hdrained. rewrite Forall_forall in Hdrained. by rewrite (Hdrained o Ho) in Hp.
Qed.

(** The strategy is created, updated, activated; the first attempt to publish
    fails. *)
Definition chain_ops : list UCOp :=
  [sample_create false;
   OWorker (WorkerEnv.mk true true (fun n => n) (fun _ => sample_io 0) (fun _ => KafkaFailed));
   OUpdate (sample_io 2) (sample_update 1 "tuned"); OActivate (sample_io 3) 7 "alice"; OWorker sample_env].

Definition chain_state : UCState := sample_run chain_ops.

Lemma active_rows_reach_engine_witness :
  exists st, find_strategy (engine 0 (map (pair 5) chain_state.2)).(Writer.published)
               (sample_row chain_state).(UStrategy.UserID) (sample_text 7) = Some (true, st) /\
             st.(Strategy.Version) = (sample_row chain_state).(UStrategy.Version).
Proof.
  apply (active_rows_reach_engine Some sample_text sample_parse sample_uuid_laws sample_numeric_ok chain_ops).
  - repeat constructor.
  - unfold drained. vm_compute. repeat constructor.
  - rewrite map_map. apply map_id.
  - intros id s Hs. destruct (decide (id = 7%N)) as [-> | Hne].
    + revert Hs. vm_compute. by intros [= <-].
    + exfalso. revert Hs. 
      assert (H : chain_state.1.(DB.strategies) = {[7%N := sample_row chain_state]}) by (vm_compute; reflexivity).
      unfold chain_state, sample_run in H. rewrite H. by rewrite lookup_singleton_ne.
  - vm_compute. reflexivity.
  - vm_compute. reflexivity.
  - vm_compute. discriminate.
Defined.

(** ** Calls that succeed *)

Lemma transaction_good {A} io (m : TX A) db a t :
  good_io io -> m (MkTx 1 false db) = (inr a, t) -> t.(tx_aborted) = false ->
  transaction io m db = (inr a, t.(tx_db)).
Proof. intros Hio Hm Ha. unfold transaction. by rewrite Hio, Hm, Ha, Hio. Qed.

Lemma tx_bind_good {A B} (m : TX A) (k : A -> TX B) t a t1 :
  m t = (inr a, t1) -> (m ≫= k) t = k a t1.
Proof. intros H. unfold mbind, tx_bind. by rewrite H. Qed.

Lemma statement_good {A} io (f : DB.t -> SqlError + (A * DB.t)) g db a db' n t :
  good_io io -> f db = inr (a, db') -> t = MkTx n false db ->
  (statement io f ≫= or_raise g) t = (inr a, MkTx (S n) false db').
Proof.
  intros Hio Hf ->. erewrite tx_bind_good; [|unfold statement; cbn [tx_aborted tx_stmt tx_db orb];
    rewrite Hio, Hf; reflexivity]. done.
Qed.

Lemma name_free db id s name :
  (forall i s, db.(DB.strategies) !! i = Some s -> s.(UStrategy.StrategyID) = i) ->
  names_ok db.(DB.strategies) -> db.(DB.strategies) !! id = Some s -> not_deleted s = true ->
  s.(UStrategy.StrategyName) = name -> name_taken db id s.(UStrategy.UserID) name = false.
Proof.
  intros Hid Hn Hs Hd <-. destruct (name_taken _ _ _ _) eqn:E; [|done]. exfalso.
  apply existsb_exists in E as (s' & Hin & Hc). apply list_elem_of_In, elem_of_rows in Hin as (i & Hi).
  apply andb_prop in Hc as [[[Hd' Hu]%andb_prop Hm]%andb_prop Hne].
  apply String.eqb_eq in Hu, Hm. apply negb_true_iff, N.eqb_neq in Hne. apply Hne.
  rewrite (Hid _ _ Hi). by apply (Hn i id s' s).
Qed.

Section Calls.

Context (numeric_20_4 : f64 -> option f64) (uuid_string : uuid -> string)
  (uuid_parse : string -> option uuid).

Definition with_row (id : uuid) (s : UStrategy.t) (db : DB.t) : DB.t :=
  (db <| DB.strategies := <[id := s]> db.(DB.strategies) |>)%go.

Definition write_row (now : Z) (id : uuid) (s : UStrategy.t) (type : string) (db : DB.t) : DB.t :=
  append_event now id type (thin_payload uuid_string s) (with_row id s db).

(** A change of the activity of an own strategy goes through. *)
Lemma set_active_good io id b err type db s :
  good_io io -> db_ok uuid_string db -> db.(DB.strategies) !! id = Some s -> not_deleted s = true ->
  mode_unknown s.(UStrategy.TradingMode) = false -> s.(UStrategy.Version) < max_int32 ->
  change_row uuid_string io id (owned s.(UStrategy.UserID)) (set_active io.(Io.Now) b) err type db =
  (inr tt, write_row io.(Io.Now) id (set_active io.(Io.Now) b s) type db).
Proof.
  intros Hio Hok Hs Hd Hm Hv.
  assert (Hfree : name_taken db id s.(UStrategy.UserID) s.(UStrategy.StrategyName) = false).
  { apply name_free; [|by eapply ok_names|done..]. intros i r Hr. exact (ro_id _ _ (ok_rows _ _ Hok i r Hr)). }
  assert (Hup : sql_update_row id (owned s.(UStrategy.UserID)) (set_active io.(Io.Now) b) db =
    inr (set_active io.(Io.Now) b s,
         (db <| DB.strategies := <[id := set_active io.(Io.Now) b s]> db.(DB.strategies) |>)%go)).
  { unfold sql_update_row. rewrite Hs. unfold owned. rewrite String.eqb_refl, Hd. cbn [andb negb].
    rewrite (proj2 (Z.leb_gt _ _)) by done. cbn [set_active bump set UStrategy.TradingMode UStrategy.UserID
      UStrategy.StrategyName]. rewrite Hm.
    rewrite Hfree.
    by rewrite andb_false_r. }
  unfold change_row.
  apply (transaction_good io _ db tt (MkTx 3 false (write_row io.(Io.Now) id (set_active io.(Io.Now) b s) type db)));
    [done| |done].
  rewrite (tx_bind_good _ _ _ _ _ (statement_good io _ _ _ _ _ 1 _ Hio Hup eq_refl)).
  exact (statement_good io _ _ _ _ _ 2 _ Hio (sql_insert_outbox_eq _ _ _ _ _) eq_refl).
Qed.

(** ** A round of the worker in which nothing fails *)

Lemma value_json o : opt_json o = true -> f64_json (valueOrZeroFloat64 o) = true.
Proof. by destruct o. Qed.

Lemma levels_payload_json l :
  forallb level_json l = true ->
  forallb (fun x => f64_json x.(p_PricePct) && f64_json x.(p_QtyPct)) (toMultiLevelPayload l) = true.
Proof.
  induction l as [|x l IH]; cbn; [done|]. intros [H1 H2]%andb_prop. unfold level_json in H1.
  rewrite H1. by apply IH.
Qed.

(** What can be written as JSON to the outbox can be written to the topic. *)
Lemma toPayload_json s : strategy_json s = true -> payload_json (toPayload uuid_string s) = true.
Proof.
  unfold strategy_json, payload_json, condition_json, trade_json, limits_json.
  intros H. bool_to_prop. destruct s as [? ? ? ? ? ? ? ? ? ? c tc rl]. cbn in *.
  destruct c, tc, rl; cbn in *; bool_to_prop; rewrite ?value_json by done;
    rewrite ?levels_payload_json by done; done.
Qed.

Lemma GetByID_json io id user db s' :
  parts_json db -> GetByID io id user db = inr s' -> strategy_json s' = true.
Proof.
  intros [J1 J2 J3] H. unfold GetByID in H.
  destruct (read (Io.Ok io 0) _) as [s| |]; try done.
  assert (Hc : forall P (f : P -> bool) (m : gmap uuid P) n, (forall i c, m !! i = Some c -> f c = true) ->
    from_option f true (match read (Io.Ok io n) (m !! id) with Found p => Some p | _ => None end) = true).
  { intros P f m n Hf. destruct (Io.Ok io n); cbn; [|done]. destruct (m !! id) eqn:E; cbn; [by eapply Hf|done]. }
  pose proof (Hc _ _ _ 1%nat J1) as C1. pose proof (Hc _ _ _ 4%nat J3) as C3.
  assert (C2 : from_option trade_json true (loadMultiLevelConfig (Io.Ok io 3) db <$>
    match read (Io.Ok io 2) (DB.trade_configs db !! id) with Found p => Some p | _ => None end) = true).
  { pose proof (Hc _ _ _ 2%nat J2) as C2. clear H C1 C3.
    destruct (read (Io.Ok io 2) _) as [tc| |]; cbn in *; try done.
    unfold loadMultiLevelConfig, with_levels.
    match goal with |- context [match ?x with Some _ => _ | None => _ end] => destruct x as [l|] eqn:Hl end; cbn.
    - assert (Hjl : trade_json l = true).
      { destruct (Io.Ok io 3); [|done]. by eapply J2. }
      unfold trade_json in *. cbn. bool_to_prop. by repeat (apply andb_true_intro; split).
    - unfold trade_json in *. cbn. bool_to_prop. by repeat (apply andb_true_intro; split). }
  destruct (read (Io.Ok io 1) _); try done; destruct (read (Io.Ok io 2) _); try done;
    destruct (read (Io.Ok io 4) _); try done; injection H as <-; unfold strategy_json; cbn in *;
    by rewrite ?C1, ?C2, ?C3.
Qed.

Lemma GetByID_good io id s db :
  good_io io -> db.(DB.strategies) !! id = Some s -> not_deleted s = true ->
  exists s', GetByID io id s.(UStrategy.UserID) db = inr s' /\
    s'.(UStrategy.StrategyID) = s.(UStrategy.StrategyID) /\ s'.(UStrategy.UserID) = s.(UStrategy.UserID) /\
    s'.(UStrategy.Version) = s.(UStrategy.Version).
Proof.
  intros Hio Hs Hd.
  assert (Hex : exists s', GetByID io id s.(UStrategy.UserID) db = inr s').
  { unfold GetByID. rewrite Hs. unfold owned. rewrite String.eqb_refl, Hd. cbn [andb]. rewrite !Hio.
    cbn [read]. destruct (DB.strategy_conditions db !! id), (DB.trade_configs db !! id),
      (DB.risk_limits db !! id); cbn; eauto. }
  destruct Hex as [s' Hs']. exists s'. split; [done|].
  apply GetByID_row in Hs' as (s0 & Hs0 & _ & E). by assert (s0 = s) as -> by congruence.
Qed.

Definition publishes (env : WorkerEnv.t) (db : DB.t) (o : Outbox.t) (ev : ConfigEvent.t) : Prop :=
  translate uuid_string uuid_parse env db o = TEvent ev /\
  ev.(ConfigEvent.UserID) <> "" /\ event_json ev = true.

Lemma process_events_good env db news evs :
  good_env env -> Forall2 (publishes env db) news evs ->
  process_events uuid_string uuid_parse env (fun _ => db) news = (map Outbox.ID news, evs, None).
Proof.
  intros Henv H. induction H as [|o ev news evs (Ht & Hu & Hj) _ IH]; [done|]. cbn [process_events].
  unfold processOneOutboxEvent. rewrite Ht, (proj2 (String.eqb_neq _ _) Hu), Hj, (ge_write _ Henv).
  cbn [negb]. by rewrite IH.
Qed.

Lemma worker_good env db news evs :
  good_env env -> pending db = news -> (length news <= 50)%nat -> Forall2 (publishes env db) news evs ->
  exists db', processOutbox uuid_string uuid_parse env db = (db', evs, None) /\
    db'.(DB.strategies) = db.(DB.strategies) /\ drained db'.
Proof.
  intros Henv Hp Hlen Hpub.
  assert (Hin : forall o, o ∈ db.(DB.execution_outbox) -> o.(Outbox.Processed) = false -> o ∈ news).
  { intros o Ho Hu. rewrite <- Hp. unfold pending. rewrite merge_sort_Permutation.
    apply list_elem_of_In, filter_In. split; [by apply list_elem_of_In|]. by rewrite Hu. }
  unfold processOutbox, ListPendingOutboxEvents. rewrite (ge_list _ Henv), Hp.
  rewrite take_ge by (unfold batch_size; lia). rewrite (process_events_good _ _ _ _ Henv Hpub).
  unfold MarkOutboxEventsProcessed. rewrite (ge_mark _ Henv).
  destruct (bool_decide (map Outbox.ID news = [])) eqn:Hnil.
  - exists db. split; [done|]. split; [done|]. apply bool_decide_eq_true in Hnil.
    destruct news; [|done]. apply Forall_forall. intros o Ho.
    destruct (Outbox.Processed o) eqn:Hu; [done|]. by apply (Hin o Ho), not_elem_of_nil in Hu.
  - eexists. split; [done|]. split; [done|]. apply Forall_fmap, Forall_forall. intros o Ho. cbn.
    unfold mark. destruct (bool_decide (Outbox.ID o ∈ _)) eqn:Hb; [done|].
    destruct (Outbox.Processed o) eqn:Hu; [done|].
    exfalso. apply bool_decide_eq_false in Hb. apply Hb. by apply list_elem_of_fmap_2, Hin.
Qed.

Lemma drained_pending db : drained db -> List.filter (fun o => negb o.(Outbox.Processed)) db.(DB.execution_outbox) = [].
Proof.
  unfold drained. generalize (DB.execution_outbox db) as l. induction l as [|o l IH]; [done|].
  intros [Ho Hl]%Forall_cons. cbn. rewrite Ho. by apply IH.
Qed.

Lemma pending_one db now id type p :
  drained db -> pending (append_event now id type p db) =
    [Outbox.mk (db.(DB.outbox_seq) + 1) id type p now false].
Proof. intros Hd. unfold pending. cbn. by rewrite List.filter_app, (drained_pending _ Hd). Qed.

Lemma pending_two db db1 now1 id1 type1 p1 now2 id2 type2 p2 :
  drained db -> db1.(DB.execution_outbox) = (append_event now1 id1 type1 p1 db).(DB.execution_outbox) ->
  now1 <= now2 ->
  pending (append_event now2 id2 type2 p2 db1) =
    [Outbox.mk (db.(DB.outbox_seq) + 1) id1 type1 p1 now1 false;
     Outbox.mk (db1.(DB.outbox_seq) + 1) id2 type2 p2 now2 false].
Proof.
  intros Hd Hdb Hnow. unfold pending. cbn. rewrite Hdb. cbn.
  rewrite !List.filter_app, (drained_pending _ Hd). cbn.
  unfold merge_sort, merge_sort_aux, merge_list_to_stack. cbn. unfold older_dec, older. cbn.
  rewrite decide_True by done. done.
Qed.
End Calls.
