(* ===== verification/UCPoison.v ===== *)
(** * What stops the publication, and what is never published

    The outbox worker stops at the first event it cannot translate and tries it
    again in its next round.  An activation is translated by reading the row, so
    an activation whose strategy was deleted meanwhile is never translated; and
    an update with a number that JSON cannot carry is committed without an
    event. *)

From stdpp Require Import base tactics gmap strings list sorting.
From Stdlib Require Import ZArith Lia Bool SpecFloat.
From S2P Require Import Prelude GoFloat GoStrings GoTime RuleModels ConfigStore ConfigSync UCModels UCRepo.
From S2P Require Import UCWorker UCTx UCInvariant UCEffects UCEngine UCEndToEnd UCProperties UCChain UCSamples.

Open Scope string_scope.
Open Scope list_scope.
Open Scope Z_scope.

(** The oldest pending event is the activation of a deleted strategy. *)
Record blocked (db : DB.t) (o : Outbox.t) : Prop := {
  bl_pending : o ∈ db.(DB.execution_outbox) /\ o.(Outbox.Processed) = false;
  bl_type : o.(Outbox.EventType) = "STRATEGY_ACTIVATED";
  bl_row : exists s, db.(DB.strategies) !! o.(Outbox.AggregateID) = Some s /\
    s.(UStrategy.DeletedAt) <> None /\ s.(UStrategy.UserID) <> "";
  bl_oldest : forall o', o' ∈ db.(DB.execution_outbox) -> o'.(Outbox.Processed) = false ->
    o' = o \/ o.(Outbox.CreatedAt) < o'.(Outbox.CreatedAt)
}.

#[local] Instance older_trans : Transitive older.
Proof. intros a b c. unfold older. lia. Qed.

#[local] Instance older_total : Total older.
Proof. intros a b. unfold older. lia. Qed.

Lemma pending_sorted db : StronglySorted older (pending db).
Proof. unfold pending. apply (StronglySorted_merge_sort older). Qed.

Lemma elem_of_pending db o :
  o ∈ pending db <-> o ∈ db.(DB.execution_outbox) /\ o.(Outbox.Processed) = false.
Proof.
  unfold pending. rewrite merge_sort_Permutation, list_elem_of_In, filter_In, <- list_elem_of_In.
  by rewrite negb_true_iff.
Qed.

Lemma blocked_head db o : blocked db o -> exists rest, pending db = o :: rest.
Proof.
  intros [Hin _ _ Hold]. apply elem_of_pending in Hin as Hp.
  pose proof (pending_sorted db) as Hs. destruct (pending db) as [|h rest] eqn:E.
  { by apply not_elem_of_nil in Hp. }
  assert (Hh : h ∈ pending db) by (rewrite E; by left). apply elem_of_pending in Hh as [Hh1 Hh2].
  destruct (Hold h Hh1 Hh2) as [-> | Hlt]; [eauto|]. exfalso.
  apply StronglySorted_inv in Hs as [_ Hall]. apply elem_of_cons in Hp as [-> | Hp]; [lia|].
  rewrite Forall_forall in Hall. specialize (Hall o Hp). unfold older in Hall. lia.
Qed.

Section Poison.

Context (numeric_20_4 : f64 -> option f64) (uuid_string : uuid -> string)
  (uuid_parse : string -> option uuid) (Huuid : uuid_laws uuid_string uuid_parse).

Lemma deleted_not_found io id user db s :
  db.(DB.strategies) !! id = Some s -> s.(UStrategy.DeletedAt) <> None ->
  exists e, GetByID io id user db = inl e.
Proof.
  intros Hs Hd. unfold GetByID. rewrite Hs.
  assert (Ho : owned user s = false).
  { unfold owned, not_deleted. by rewrite bool_decide_eq_false_2, andb_false_r. }
  rewrite Ho. destruct (Io.Ok io 0); cbn; eauto.
Qed.

Lemma blocked_error env db o :
  db_ok uuid_string db -> blocked db o ->
  exists e, processOneOutboxEvent uuid_string uuid_parse env db o = ([], Some e).
Proof.
  intros Hok [[Hin _] Ht (s & Hs & Hd & Hu) _].
  destruct (outbox_row _ _ _ Hok Hin) as (s' & Hs' & Hev & Hrow). assert (s' = s) as -> by congruence.
  destruct (eo_payload _ _ _ Hev) as [[Hf _]|[_ (v & Hp)]]; [by rewrite Ht in Hf|].
  pose proof (eo_version _ _ _ Hev) as Hv. unfold event_version in Hv. rewrite Hp in Hv.
  unfold processOneOutboxEvent, translate. rewrite Hp, Ht. cbn [String.eqb Ascii.eqb Bool.eqb].
  unfold thin_event. rewrite Hp. cbn [decode_thin]. rewrite (proj2 (Z.ltb_ge v 0)) by lia.
  cbn [Thin.UserID Thin.StrategyID]. rewrite (proj2 (String.eqb_neq _ _) Hu).
  rewrite (proj2 (String.eqb_neq _ _) (proj1 (Huuid _))). cbn [orb]. unfold activation_event.
  cbn [Thin.UserID Thin.StrategyID]. rewrite (proj2 (Huuid _)).
  rewrite (ro_id _ _ Hrow). destruct (deleted_not_found (WorkerEnv.EventIo env (Outbox.ID o))
    (Outbox.AggregateID o) (UStrategy.UserID s) db s Hs Hd) as [e ->]. eauto.
Qed.

Lemma blocked_worker env db o :
  db_ok uuid_string db -> blocked db o ->
  exists e, processOutbox uuid_string uuid_parse env db = (db, [], Some e).
Proof.
  intros Hok Hb. destruct (blocked_head _ _ Hb) as [rest Hrest].
  destruct (blocked_error env db o Hok Hb) as [e He].
  unfold processOutbox, ListPendingOutboxEvents. destruct (WorkerEnv.ListOk env); [|eauto].
  rewrite Hrest. cbn [batch_size take process_events]. rewrite He. cbn. eauto.
Qed.

Lemma blocked_call op w o :
  db_ok uuid_string w.1 -> blocked w.1 o -> is_worker op = false -> o.(Outbox.CreatedAt) < op_now op ->
  blocked (uc_step numeric_20_4 uuid_string uuid_parse op w).1 o.
Proof.
  intros Hok [[Hin Hp] Ht (s & Hs & Hd & Hu) Hold] Hw Hnow.
  destruct (uc_step_adds numeric_20_4 uuid_string uuid_parse op w Hok Hw) as [[Hrows (new & Hnew & Hall)] _].
  split; [|done| |].
  - split; [|done]. rewrite Hnew. apply elem_of_app. by left.
  - destruct (row_step_advances _ _ Hrows _ _ Hs) as (s' & Hs' & _ & Hu' & Hd'). exists s'.
    split_and!; [done|auto|congruence].
  - intros o' Ho' Hp'. rewrite Hnew in Ho'. apply elem_of_app in Ho' as [Ho'|Ho']; [auto|]. right.
    rewrite Forall_forall in Hall. by rewrite (Hall o' Ho').
Qed.
End Poison.

(** A strategy is deleted before its activation was published, and that
    activation is the oldest pending event.  From then on nothing is published,
    of any user: whatever is called afterwards and however often the worker
    runs, the topic stays as it is and the event stays pending. *)
Theorem deleted_activation_blocks_outbox (numeric_20_4 : f64 -> option f64)
    (uuid_string : uuid -> string) (uuid_parse : string -> option uuid)
    (Huuid : uuid_laws uuid_string uuid_parse) (before after : list UCOp) (o : Outbox.t)
    (w := uc_run numeric_20_4 uuid_string uuid_parse before (DB.empty, []))
    (w' := uc_run numeric_20_4 uuid_string uuid_parse after w)
    (Hblocked : blocked w.1 o)
    (Hlater : Forall (fun op => is_worker op = true \/ o.(Outbox.CreatedAt) < op_now op) after) :
  w'.2 = w.2 /\ o ∈ pending w'.1.
Proof.
  enough (H : forall w, db_ok uuid_string w.1 -> blocked w.1 o ->
    (uc_run numeric_20_4 uuid_string uuid_parse after w).2 = w.2 /\
    blocked (uc_run numeric_20_4 uuid_string uuid_parse after w).1 o).
  { destruct (H w) as [H1 H2]; [apply uc_run_ok, db_ok_empty|done|]. split; [exact H1|].
    apply elem_of_pending. exact (bl_pending _ _ H2). }
  clear w w' Hblocked. induction Hlater as [|op after Hop _ IH]; intros w Hok Hb; [done|].
  pose proof (uc_step_ok numeric_20_4 uuid_string uuid_parse op w Hok) as Hok'.
  destruct (IH _ Hok') as [I1 I2].
  - destruct (is_worker op) eqn:Hw; [|destruct Hop as [?|Hop]; [done|by apply blocked_call]].
    destruct op; try done. destruct w as [db topic]. cbn.
    destruct (blocked_worker uuid_string uuid_parse Huuid env db o Hok Hb) as [e ->]. exact Hb.
  - split; [|exact I2]. etrans; [exact I1|]. destruct (is_worker op) eqn:Hw.
    + destruct op; try done. destruct w as [db topic]. cbn.
      destruct (blocked_worker uuid_string uuid_parse Huuid env db o Hok Hb) as [e ->]. by rewrite app_nil_r.
    + by apply uc_step_adds.
Qed.

(** An update that leaves a number in the strategy that JSON cannot carry
    goes through, and no event is written for it. *)
Theorem unserialisable_update_is_silent (numeric_20_4 : f64 -> option f64) (io : Io.t)
    (req : UpdateStrategyRequest.t) (db db' : DB.t) (s : UStrategy.t)
    (Hupdate : Update numeric_20_4 io req db = (inr s, db')) (Hjson : strategy_json s = false) :
  db'.(DB.execution_outbox) = db.(DB.execution_outbox) /\
  exists r, db'.(DB.strategies) !! req.(UpdateStrategyRequest.StrategyID) = Some r /\
    r.(UStrategy.Version) = req.(UpdateStrategyRequest.Version) + 1.
Proof.
  apply Update_inv in Hupdate as [[_ [e He]]|(s0 & Hs0 & Hw & _ & _ & _ & Hdb & Hr)]; [done|].
  destruct Hr as [Hs|]; [|done]. injection Hs as Hs.
  destruct (strategy_json _) eqn:Hj in Hdb.
  { exfalso. assert (Hc : true = false); [|done]. rewrite <- Hj, <- Hjson, Hs. reflexivity. }
  subst db'. split; [done|].
  eexists. split; [apply lookup_insert_eq|]. cbn.
  apply andb_prop in Hw as [[_ Hv]%andb_prop _]. lia.
Qed.

(** A strategy is activated and deleted before the worker's next round. *)
Definition poison_ops : list UCOp :=
  [sample_create false; OWorker sample_env; OActivate (sample_io 10) 7 "alice"; ODelete (sample_io 20) 7 "alice"].

Definition poison_event : Outbox.t :=
  Outbox.mk 2 7 "STRATEGY_ACTIVATED" (PayloadThin (sample_text 7) "alice" 2) 10 false.

Lemma poison_blocked : blocked (sample_run poison_ops).1 poison_event.
Proof.
  assert (Hout : exists o1 o3, (sample_run poison_ops).1.(DB.execution_outbox) = [o1; poison_event; o3] /\
    o1.(Outbox.Processed) = true /\ o3.(Outbox.CreatedAt) = 20).
  { eexists _, _. vm_compute. split; [reflexivity|done]. }
  destruct Hout as (o1 & o3 & Hout & H1 & H3). split.
  - split; [|done]. rewrite Hout. right. by left.
  - done.
  - exists (sample_row (sample_run poison_ops)). split; [vm_compute; reflexivity|].
    split; vm_compute; discriminate.
  - intros o'. rewrite Hout, !elem_of_cons. intros [-> | [-> | [-> | []%not_elem_of_nil]]] Hp.
    + congruence.
    + by left.
    + right. by rewrite H3.
Qed.

(** Another user creates a strategy, and the worker runs. *)
Definition poison_after : list UCOp :=
  [OCreate (sample_io 30) 17 18 19 20 (sample_request true); OWorker sample_env; OWorker sample_env].

Lemma deleted_activation_blocks_outbox_witness :
  (uc_run Some sample_text sample_parse poison_after (sample_run poison_ops)).2 = (sample_run poison_ops).2 /\
  poison_event ∈ pending (uc_run Some sample_text sample_parse poison_after (sample_run poison_ops)).1.
Proof.
  apply (deleted_activation_blocks_outbox Some sample_text sample_parse sample_uuid_laws poison_ops
    poison_after poison_event poison_blocked).
  constructor; [right; reflexivity|]. constructor; [by left|]. constructor; [by left|constructor].
Defined.

(** The limit price NaN. *)
Definition nan_update : UpdateStrategyRequest.t :=
  UpdateStrategyRequest.mk 7 "alice" None None None
    (Some (sample_trade <| UTradeConfig.LimitPrice := Some S754_nan |>)%go) None None 1 None.

Definition nan_result : (RepoError + UStrategy.t) * DB.t :=
  Update Some (sample_io 2) nan_update (sample_run [sample_create true]).1.

Lemma unserialisable_update_is_silent_witness :
  nan_result.2.(DB.execution_outbox) = (sample_run [sample_create true]).1.(DB.execution_outbox) /\
  exists r, nan_result.2.(DB.strategies) !! 7%N = Some r /\ r.(UStrategy.Version) = 2.
Proof.
  apply (unserialisable_update_is_silent Some (sample_io 2) nan_update
    (sample_run [sample_create true]).1 nan_result.2
    (match nan_result.1 with inr s => s | inl _ => sample_row (DB.empty, []) end)).
  - vm_compute. reflexivity.
  - vm_compute. reflexivity.
Defined.
