(* ===== verification/UCRaces.v ===== *)
(** * Deactivations, activations and deletions on their way to the engine *)

From stdpp Require Import base tactics gmap strings list sorting.
From Stdlib Require Import ZArith Lia Bool.
From S2P Require Import Prelude GoFloat GoStrings GoTime RuleModels ConfigStore ConfigSync.
From S2P Require Import UCModels UCRepo UCWorker UCTx UCInvariant UCEffects UCEngine UCEndToEnd.
From S2P Require Import UCProperties UCChain UCSamples.

Open Scope string_scope.
Open Scope list_scope.
Open Scope Z_scope.

Section Races.

Context (numeric_20_4 : f64 -> option f64) (uuid_string : uuid -> string)
  (uuid_parse : string -> option uuid).

(** ** One message after a known state *)

Lemma engine_upsert s k ev p v :
  uuid_laws uuid_string uuid_parse -> engine_ok s k -> s.(UStrategy.DeletedAt) = None ->
  s.(UStrategy.UserID) <> "" -> s.(UStrategy.Version) < v ->
  one_of ev.(ConfigEvent.Type_) [ConfigCreated; ConfigUpdated] = true ->
  ev.(ConfigEvent.Config) = Some p -> p.(StrategyPayload.UserID) = s.(UStrategy.UserID) ->
  p.(StrategyPayload.StrategyID) = uuid_string s.(UStrategy.StrategyID) -> ev.(ConfigEvent.Version) = v ->
  exists st, consume_key s.(UStrategy.UserID) (uuid_string s.(UStrategy.StrategyID)) ev k =
    MkKey (Some (true, st)) None (Some v) /\ st.(Strategy.Version) = v.
Proof.
  intros Huuid [E1 E2 E3 _] Hd Hu Hv Ht Hp Hpu Hps Hev. unfold consume_key. rewrite Ht, Hp, Hev.
  destruct (ToModelStrategy_total p) as [m Hm]; [by rewrite Hpu|rewrite Hps; apply Huuid|].
  rewrite Hm. apply ToModelStrategy_ids in Hm as [Hmu Hms].
  assert (Hst : key_stale k v = false).
  { unfold key_stale. destruct (entry k) as [[b st]|] eqn:He; [|done].
    destruct (E3 b st eq_refl) as (x & Hx & Hle). pose proof (E2 x Hx). lia. }
  rewrite Hst, andb_false_r. rewrite upsert_applies; [|congruence|congruence|done|apply Huuid|auto|].
  - rewrite (E1 Hd). eexists. split; [done|]. done.
  - destruct (ver k) as [x|] eqn:Hx; [|done]. cbn. pose proof (E2 x eq_refl). lia.
Qed.

Lemma consume_pause u s ev k :
  ev.(ConfigEvent.Type_) = ConfigPaused -> ev.(ConfigEvent.UserID) = u -> ev.(ConfigEvent.StrategyID) = s ->
  consume_key u s ev k = spec_step u s (OpPause u s ev.(ConfigEvent.Version)) k.
Proof. intros Ht Hu Hs. unfold consume_key. by rewrite Ht, Hu, Hs. Qed.

(** ** What is pending after one or two writes *)

Definition event_of (db : DB.t) (now : Z) (id : uuid) (s : UStrategy.t) (type : string) : Outbox.t :=
  Outbox.mk (db.(DB.outbox_seq) + 1) id type (thin_payload uuid_string s) now false.

Lemma pending_write db now id s type :
  drained db -> pending (write_row uuid_string now id s type db) = [event_of db now id s type].
Proof.
  intros Hd. unfold write_row, event_of.
  exact (pending_one (with_row id s db) now id type (thin_payload uuid_string s) Hd).
Qed.

Lemma pending_writes db now1 now2 id s1 s2 type1 type2 (db1 := write_row uuid_string now1 id s1 type1 db) :
  drained db -> now1 <= now2 ->
  pending (write_row uuid_string now2 id s2 type2 db1) =
    [event_of db now1 id s1 type1; event_of db1 now2 id s2 type2].
Proof.
  intros Hd Hn. unfold write_row at 1.
  exact (pending_two db (with_row id s2 db1) now1 id type1
    (thin_payload uuid_string s1) now2 id type2 (thin_payload uuid_string s2) Hd eq_refl Hn).
Qed.

(** ** What is published of a change of activity *)

Lemma paused_published env db now id s n :
  uuid_laws uuid_string uuid_parse -> s.(UStrategy.UserID) <> "" -> 1 <= s.(UStrategy.Version) ->
  publishes uuid_string uuid_parse env db
    (Outbox.mk n id "STRATEGY_DEACTIVATED" (thin_payload uuid_string s) now false)
    (ToThinConfigEvent ConfigPaused (env.(WorkerEnv.EventNow) n) s.(UStrategy.UserID)
       (uuid_string s.(UStrategy.StrategyID)) s.(UStrategy.Version)).
Proof.
  intros Huuid Hu Hv. unfold publishes, translate, thin_event. cbn.
  rewrite (proj2 (Z.ltb_ge _ 0)) by lia. cbn. rewrite (proj2 (String.eqb_neq _ _) Hu).
  by rewrite (proj2 (String.eqb_neq _ _) (proj1 (Huuid _))).
Qed.

(** An activation is published with the version the row has by then. *)
Lemma activated_published env db now id s r n :
  uuid_laws uuid_string uuid_parse -> good_env env -> parts_json db ->
  db.(DB.strategies) !! id = Some r -> not_deleted r = true ->
  r.(UStrategy.UserID) = s.(UStrategy.UserID) -> r.(UStrategy.StrategyID) = id ->
  s.(UStrategy.StrategyID) = id -> s.(UStrategy.UserID) <> "" -> 1 <= s.(UStrategy.Version) ->
  1 <= r.(UStrategy.Version) <= max_int32 ->
  exists ev p, publishes uuid_string uuid_parse env db
      (Outbox.mk n id "STRATEGY_ACTIVATED" (thin_payload uuid_string s) now false) ev /\
    ev.(ConfigEvent.Type_) = ConfigUpdated /\ ev.(ConfigEvent.Config) = Some p /\
    p.(StrategyPayload.UserID) = s.(UStrategy.UserID) /\ p.(StrategyPayload.StrategyID) = uuid_string id /\
    ev.(ConfigEvent.Version) = r.(UStrategy.Version).
Proof.
  intros Huuid Henv Hj Hr Hd Hru Hri Hsi Hu Hv Hrv.
  destruct (GetByID_good (env.(WorkerEnv.EventIo) n) id r db (ge_io _ Henv n) Hr Hd) as (s' & Hs' & E1 & E2 & E3).
  exists (ToFullConfigEvent uuid_string ConfigUpdated (env.(WorkerEnv.EventNow) n) s'), (toPayload uuid_string s').
  cbn. rewrite to_uint64_id by (by rewrite E3). rewrite E1, E2, Hru, Hri, E3. split; [|done].
  unfold publishes, translate, thin_event. cbn.
  rewrite (proj2 (Z.ltb_ge _ 0)) by lia. cbn. rewrite (proj2 (String.eqb_neq _ _) Hu).
  rewrite (proj2 (String.eqb_neq _ _) (proj1 (Huuid _))). cbn. unfold activation_event. cbn.
  rewrite (proj2 (Huuid _)), Hsi, <- Hru, Hs'. split; [done|]. split; [cbn; by rewrite E2, Hru|].
  cbn. apply toPayload_json. by eapply GetByID_json.
Qed.
End Races.

Section Statements.

Context (numeric_20_4 : f64 -> option f64) (uuid_string : uuid -> string)
  (uuid_parse : string -> option uuid).

(** A reachable state in which everything is published, and an undeleted
    strategy of it with room for [n] more versions. *)
Record settled (ops : list UCOp) (w : UCState) (id : uuid) (s : UStrategy.t) (n : Z) : Prop := {
  se_run : w = uc_run numeric_20_4 uuid_string uuid_parse ops (DB.empty, []);
  se_json : Forall (fun op => op_json op = true) ops;
  se_drained : drained w.1;
  se_row : w.1.(DB.strategies) !! id = Some s;
  se_alive : s.(UStrategy.DeletedAt) = None;
  se_mode : mode_unknown s.(UStrategy.TradingMode) = false;
  se_user : s.(UStrategy.UserID) <> "";
  se_room : s.(UStrategy.Version) + n <= max_int32
}.

Context (Huuid : uuid_laws uuid_string uuid_parse) (Hnumeric : numeric_ok numeric_20_4).

Lemma settled_ok ops w id s n : settled ops w id s n -> sys_ok uuid_string w.
Proof.
  intros [-> Hj _ _ _ _ _ _]. apply sys_ok_run; [done|done|apply sys_ok_empty|done].
Qed.

Lemma settled_id ops w id s n : settled ops w id s n -> s.(UStrategy.StrategyID) = id.
Proof.
  intros H. pose proof (settled_ok _ _ _ _ _ H) as Hw.
  exact (ro_id _ _ (ok_rows _ _ (so_db _ _ Hw) _ _ (se_row _ _ _ _ _ H))).
Qed.

Lemma alive_not_deleted s : s.(UStrategy.DeletedAt) = None -> not_deleted s = true.
Proof. intros H. unfold not_deleted. by rewrite H. Qed.

Lemma write_row_lookup now id s type db :
  (write_row uuid_string now id s type db).(DB.strategies) !! id = Some s.
Proof. apply lookup_insert_eq. Qed.

(** A deactivation that is published before anything else happens to the
    strategy pauses it in the rules engine. *)
Theorem deactivation_reaches_engine (ops : list UCOp) (w : UCState) (id : uuid) (s : UStrategy.t)
    (Hw : settled ops w id s 1) (Hactive : s.(UStrategy.Active) = true)
    (io : Io.t) (env : WorkerEnv.t) (Hio : good_io io) (Henv : good_env env)
    (w' := uc_run numeric_20_4 uuid_string uuid_parse
             [ODeactivate io id s.(UStrategy.UserID); OWorker env] w)
    (start : Z) (consumed : list (Z * ConfigEvent.t)) (Hconsumed : map snd consumed = w'.2)
    (Hplain : plain_users w'.1) :
  exists s' st, w'.1.(DB.strategies) !! id = Some s' /\ s'.(UStrategy.Active) = false /\
    find_strategy (engine start consumed).(Writer.published) s.(UStrategy.UserID) (uuid_string id) =
    Some (false, st).
Proof.
  pose proof (settled_ok _ _ _ _ _ Hw) as Hok. pose proof (settled_id _ _ _ _ _ Hw) as Hid.
  destruct w as [db topic]. destruct Hw as [_ _ Hdr Hs Hd Hm Hu Hroom]. cbn [fst snd] in *.
  pose proof (ro_version _ _ (ok_rows _ _ (so_db _ _ Hok) _ _ Hs)) as Hv.
  assert (Hk0 : exists st, entry (engine_state uuid_string id s.(UStrategy.UserID) topic) = Some (true, st) /\
    up_to_date s (engine_state uuid_string id s.(UStrategy.UserID) topic)).
  { destruct (so_pending _ _ Hok id s Hs Hactive Hu) as [Hup|(o & Ho & Hp & _)].
    - destruct (en_act _ _ (so_engine _ _ Hok id s Hs) Hactive Hup) as (st & Hst & _). eauto.
    - unfold drained in Hdr. rewrite Forall_forall in Hdr. by rewrite (Hdr o Ho) in Hp. }
  destruct Hk0 as (st & Hst & Hup).
  set (s1 := set_active io.(Io.Now) false s).
  set (db1 := write_row uuid_string io.(Io.Now) id s1 "STRATEGY_DEACTIVATED" db).
  assert (Hstep : uc_step numeric_20_4 uuid_string uuid_parse (ODeactivate io id s.(UStrategy.UserID)) (db, topic)
    = (db1, topic)).
  { cbn. unfold Deactivate. rewrite (set_active_good uuid_string io id false) with (s := s); try done;
      [exact (so_db _ _ Hok)|by apply alive_not_deleted|lia]. }
  set (n := DB.outbox_seq db + 1).
  destruct (worker_good uuid_string uuid_parse env db1
    [event_of uuid_string db io.(Io.Now) id s1 "STRATEGY_DEACTIVATED"]
    [ToThinConfigEvent ConfigPaused (env.(WorkerEnv.EventNow) n) s.(UStrategy.UserID) (uuid_string id)
       (s.(UStrategy.Version) + 1)]) as (db2 & Hpo & Hrows & _).
  { done. }
  { by apply pending_write. }
  { cbn. lia. }
  { constructor; [|done]. rewrite <- Hid.
    exact (paused_published uuid_string uuid_parse env db1 io.(Io.Now) _ s1 n Huuid Hu ltac:(cbn; lia)). }
  assert (Hw' : w' = (db2, topic ++ [ToThinConfigEvent ConfigPaused (env.(WorkerEnv.EventNow) n)
    s.(UStrategy.UserID) (uuid_string id) (s.(UStrategy.Version) + 1)])).
  { unfold w', uc_run. cbn [foldl]. rewrite Hstep. cbn [uc_step]. by rewrite Hpo. }
  assert (Hok' : sys_ok uuid_string w').
  { apply sys_ok_run; [done|done|done|]. by repeat constructor. }
  assert (Hs' : w'.1.(DB.strategies) !! id = Some s1) by (rewrite Hw'; cbn; rewrite Hrows; apply write_row_lookup).
  exists s1, st. split; [done|]. split; [done|]. unfold engine.
  change s.(UStrategy.UserID) with s1.(UStrategy.UserID) at 1.
  rewrite (engine_after_topic uuid_string w' start consumed id s1 Hok' Hconsumed Hplain Hs').
  rewrite Hw'. cbn [snd]. unfold engine_state. rewrite after_app. cbn [after foldl].
  rewrite consume_pause by done. cbn [ToThinConfigEvent ConfigEvent.Version].
  fold (engine_state uuid_string id s1.(UStrategy.UserID) topic).
  change s1.(UStrategy.UserID) with s.(UStrategy.UserID). unfold spec_step. rewrite Hst, fresh_same.
  pose proof (en_tomb _ _ (so_engine _ _ Hok id s Hs) Hd) as Htomb. cbn [snd] in Htomb.
  unfold up_to_date in Hup. rewrite Htomb, Hup.
  cbn [at_most]. rewrite (proj2 (Z.leb_gt _ _)) by lia.
  by rewrite (proj2 (String.eqb_neq _ _) Hu), (proj2 (String.eqb_neq _ _) (proj1 (Huuid id))).
Qed.

(** A strategy is activated and deactivated again before the worker has
    published the activation.  The activation is then published with the row as
    it is, at the version of the deactivation, and the pause that follows is
    stale: the row is inactive, everything is published and consumed, and the
    rules engine trades the strategy. *)
Theorem quick_deactivation_ignored (ops : list UCOp) (w : UCState) (id : uuid) (s : UStrategy.t)
    (Hw : settled ops w id s 2) (io1 io2 : Io.t) (env : WorkerEnv.t) (Hio1 : good_io io1)
    (Hio2 : good_io io2) (Hnow : io1.(Io.Now) <= io2.(Io.Now)) (Henv : good_env env)
    (w' := uc_run numeric_20_4 uuid_string uuid_parse
             [OActivate io1 id s.(UStrategy.UserID); ODeactivate io2 id s.(UStrategy.UserID); OWorker env] w)
    (start : Z) (consumed : list (Z * ConfigEvent.t)) (Hconsumed : map snd consumed = w'.2)
    (Hplain : plain_users w'.1) :
  exists s' st, w'.1.(DB.strategies) !! id = Some s' /\ s'.(UStrategy.Active) = false /\
    drained w'.1 /\
    find_strategy (engine start consumed).(Writer.published) s.(UStrategy.UserID) (uuid_string id) =
    Some (true, st).
Proof.
  pose proof (settled_ok _ _ _ _ _ Hw) as Hok. pose proof (settled_id _ _ _ _ _ Hw) as Hid.
  destruct w as [db topic]. destruct Hw as [_ _ Hdr Hs Hd Hm Hu Hroom]. cbn [fst snd] in *.
  pose proof (ro_version _ _ (ok_rows _ _ (so_db _ _ Hok) _ _ Hs)) as Hv.
  set (s1 := set_active io1.(Io.Now) true s).
  set (db1 := write_row uuid_string io1.(Io.Now) id s1 "STRATEGY_ACTIVATED" db).
  assert (Hstep1 : uc_step numeric_20_4 uuid_string uuid_parse (OActivate io1 id s.(UStrategy.UserID)) (db, topic)
    = (db1, topic)).
  { cbn. unfold Activate. rewrite (set_active_good uuid_string io1 id true) with (s := s); try done;
      [exact (so_db _ _ Hok)|by apply alive_not_deleted|lia]. }
  assert (Hok1 : sys_ok uuid_string (db1, topic)) by (rewrite <- Hstep1; by apply sys_ok_step).
  set (s2 := set_active io2.(Io.Now) false s1).
  set (db2 := write_row uuid_string io2.(Io.Now) id s2 "STRATEGY_DEACTIVATED" db1).
  assert (Hstep2 : uc_step numeric_20_4 uuid_string uuid_parse (ODeactivate io2 id s.(UStrategy.UserID)) (db1, topic)
    = (db2, topic)).
  { cbn. unfold Deactivate. rewrite (set_active_good uuid_string io2 id false) with (s := s1); try done;
      [exact (so_db _ _ Hok1)|by apply write_row_lookup|by apply alive_not_deleted|cbn; lia]. }
  assert (Hok2 : sys_ok uuid_string (db2, topic)) by (rewrite <- Hstep2; by apply sys_ok_step).
  set (n1 := DB.outbox_seq db + 1). set (n2 := DB.outbox_seq db1 + 1).
  destruct (activated_published uuid_string uuid_parse env db2 io1.(Io.Now) id s1 s2 n1 Huuid Henv
    (so_json _ _ Hok2)) as (ev & p & Hev & Ht & Hp & Hpu & Hpi & Hvv);
    [apply write_row_lookup|by apply alive_not_deleted|done|done|done|done|cbn; lia|cbn; lia|].
  set (ev2 := ToThinConfigEvent ConfigPaused (env.(WorkerEnv.EventNow) n2) s.(UStrategy.UserID)
    (uuid_string id) (s.(UStrategy.Version) + 1 + 1)).
  destruct (worker_good uuid_string uuid_parse env db2
    [event_of uuid_string db io1.(Io.Now) id s1 "STRATEGY_ACTIVATED";
     event_of uuid_string db1 io2.(Io.Now) id s2 "STRATEGY_DEACTIVATED"] [ev; ev2])
    as (db3 & Hpo & Hrows & Hdr3).
  { done. }
  { by apply pending_writes. }
  { cbn. lia. }
  { constructor; [exact Hev|]. constructor; [|done]. unfold ev2. rewrite <- Hid.
    exact (paused_published uuid_string uuid_parse env db2 io2.(Io.Now) _ s2 n2 Huuid Hu ltac:(cbn; lia)). }
  assert (Hw' : w' = (db3, topic ++ [ev; ev2])).
  { unfold w', uc_run. cbn [foldl]. rewrite Hstep1, Hstep2. cbn [uc_step]. by rewrite Hpo. }
  assert (Hok' : sys_ok uuid_string w').
  { apply sys_ok_run; [done|done|done|]. by repeat constructor. }
  assert (Hs' : w'.1.(DB.strategies) !! id = Some s2) by (rewrite Hw'; cbn; rewrite Hrows; apply write_row_lookup).
  pose proof (so_engine _ _ Hok id s Hs) as He. cbn [snd] in He.
  set (k := engine_state uuid_string id s.(UStrategy.UserID) topic) in *.
  destruct (engine_upsert uuid_string uuid_parse s k ev p (s.(UStrategy.Version) + 1 + 1) Huuid He Hd Hu)
    as (st & Hk1 & Hst); [lia|by rewrite Ht|done|done|by rewrite Hid|by rewrite Hvv|].
  exists s2, st. split; [done|]. split; [done|]. split; [by rewrite Hw'|]. unfold engine.
  change s.(UStrategy.UserID) with s2.(UStrategy.UserID) at 1.
  rewrite (engine_after_topic uuid_string w' start consumed id s2 Hok' Hconsumed Hplain Hs').
  rewrite Hw'. cbn [snd]. unfold engine_state. rewrite after_app. cbn [after foldl].
  fold (engine_state uuid_string id s2.(UStrategy.UserID) topic).
  change s2.(UStrategy.UserID) with s.(UStrategy.UserID). fold k. rewrite <- Hid at 1 2. rewrite Hk1.
  rewrite consume_pause by (cbn; by rewrite ?Hid). cbn. rewrite fresh_same. cbn.
  rewrite (proj2 (Z.leb_le _ _)) by lia. by rewrite !andb_false_r.
Qed.
End Statements.

(** A strategy was created and its creation published. *)
Definition race_ops (active : bool) : list UCOp := [sample_create active; OWorker sample_env].

Definition race_state (active : bool) : UCState := sample_run (race_ops active).

Lemma race_settled active n :
  1 + n <= max_int32 ->
  settled Some sample_text sample_parse (race_ops active) (race_state active) 7 (sample_row (race_state active)) n.
Proof.
  intros Hn. split.
  - reflexivity.
  - repeat constructor.
  - unfold drained. destruct active; vm_compute; repeat constructor.
  - destruct active; vm_compute; reflexivity.
  - destruct active; vm_compute; reflexivity.
  - destruct active; vm_compute; reflexivity.
  - destruct active; vm_compute; discriminate.
  - replace (UStrategy.Version (sample_row (race_state active))) with 1
      by (destruct active; vm_compute; reflexivity). exact Hn.
Defined.

Lemma sample_good_io now : good_io (sample_io now).
Proof. done. Qed.

Lemma sample_good_env : good_env sample_env.
Proof. by split. Qed.

(** Only one strategy is in the tables. *)
Lemma one_row_plain (db : DB.t) s :
  db.(DB.strategies) = {[7%N := s]} -> no_bar s.(UStrategy.UserID) = true -> plain_users db.
Proof.
  intros H Hs id r. rewrite H. intros [_ <-]%lookup_singleton_Some. exact Hs.
Qed.

Definition deactivated_state : UCState :=
  uc_run Some sample_text sample_parse [ODeactivate (sample_io 3) 7 "alice"; OWorker sample_env]
    (race_state true).

Lemma deactivation_reaches_engine_witness :
  exists s' st, deactivated_state.1.(DB.strategies) !! 7%N = Some s' /\ s'.(UStrategy.Active) = false /\
    find_strategy (engine 0 (map (pair 5) deactivated_state.2)).(Writer.published) "alice" (sample_text 7) =
    Some (false, st).
Proof.
  apply (deactivation_reaches_engine Some sample_text sample_parse sample_uuid_laws sample_numeric_ok
    (race_ops true) (race_state true) 7 (sample_row (race_state true)) (race_settled true 1 ltac:(done))
    eq_refl (sample_io 3) sample_env (sample_good_io 3) sample_good_env 0 (map (pair 5) deactivated_state.2)).
  - rewrite map_map. apply map_id.
  - apply (one_row_plain _ (sample_row deactivated_state)); vm_compute; reflexivity.
Defined.

Definition raced_state : UCState :=
  uc_run Some sample_text sample_parse
    [OActivate (sample_io 3) 7 "alice"; ODeactivate (sample_io 4) 7 "alice"; OWorker sample_env]
    (race_state false).

Lemma quick_deactivation_ignored_witness :
  exists s' st, raced_state.1.(DB.strategies) !! 7%N = Some s' /\ s'.(UStrategy.Active) = false /\
    drained raced_state.1 /\
    find_strategy (engine 0 (map (pair 5) raced_state.2)).(Writer.published) "alice" (sample_text 7) =
    Some (true, st).
Proof.
  apply (quick_deactivation_ignored Some sample_text sample_parse sample_uuid_laws sample_numeric_ok
    (race_ops false) (race_state false) 7 (sample_row (race_state false)) (race_settled false 2 ltac:(done))
    (sample_io 3) (sample_io 4) sample_env (sample_good_io 3) (sample_good_io 4) ltac:(cbn; lia) sample_good_env
    0 (map (pair 5) raced_state.2)).
  - rewrite map_map. apply map_id.
  - apply (one_row_plain _ (sample_row raced_state)); vm_compute; reflexivity.
Defined.

(** ** What becomes of a strategy that is created inactive *)

Section Draft.

Context (uuid_string : uuid -> string) (uuid_parse : string -> option uuid)
  (Huuid : uuid_laws uuid_string uuid_parse).

(** A whole strategy makes its engine state active, whatever it says itself. *)
Lemma upsert_unknown u id ev p :
  one_of ev.(ConfigEvent.Type_) [ConfigCreated; ConfigUpdated] = true ->
  ev.(ConfigEvent.Config) = Some p -> u <> "" -> p.(StrategyPayload.UserID) = u ->
  p.(StrategyPayload.StrategyID) = uuid_string id ->
  exists st, entry (consume_key u (uuid_string id) ev unknown) = Some (true, st).
Proof.
  intros Ht Hp Hu Hpu Hpi. unfold consume_key. rewrite Ht, Hp.
  destruct (ToModelStrategy_total p) as [m Hm]; [by rewrite Hpu|rewrite Hpi; apply Huuid|].
  rewrite Hm. apply ToModelStrategy_ids in Hm as [Hmu Hmi].
  cbn [key_stale unknown entry]. rewrite !andb_false_r.
  rewrite upsert_applies; [by eexists|congruence|congruence|done|apply Huuid|done|done].
Qed.

(** The creation of a strategy is published as it was written. *)
Lemma creation_published env db now id s n :
  decode_full uuid_parse (PayloadFull s) = Some s -> s.(UStrategy.UserID) <> "" ->
  strategy_json s = true ->
  publishes uuid_string uuid_parse env db
    (Outbox.mk n id "STRATEGY_CREATED" (PayloadFull s) now false)
    (ToFullConfigEvent uuid_string ConfigCreated (env.(WorkerEnv.EventNow) n) s).
Proof.
  intros Hdec Hu Hj. unfold publishes, translate, full_event. cbn.
  rewrite (proj2 (String.eqb_neq _ _) Hu), (proj2 (String.eqb_neq _ _) (proj1 (Huuid _))).
  split; [done|]. split; [done|]. cbn. by apply toPayload_json.
Qed.
End Draft.

(** A strategy is created without being activated.  Once its creation is
    published and consumed the rules engine trades it, while its row says that
    it is inactive and nothing is left to publish: [CONFIG_CREATED] carries
    [active = false], and the consumer sets it to true. *)
Theorem inactive_creation_trades (numeric_20_4 : f64 -> option f64) (uuid_string : uuid -> string)
    (uuid_parse : string -> option uuid) (Huuid : uuid_laws uuid_string uuid_parse)
    (Hnumeric : numeric_ok numeric_20_4) (ops : list UCOp)
    (Hjson : Forall (fun op => op_json op = true) ops)
    (w := uc_run numeric_20_4 uuid_string uuid_parse ops (DB.empty, [])) (Hdrained : drained w.1)
    (io : Io.t) (newID condID tcID rlID : uuid) (req : CreateStrategyRequest.t) (s : UStrategy.t) (db1 : DB.t)
    (Hcreate : Create numeric_20_4 io newID condID tcID rlID req w.1 = (inr s, db1))
    (Hinactive : req.(CreateStrategyRequest.ActivateImmediately) = false)
    (Huser : req.(CreateStrategyRequest.UserID) <> "")
    (env : WorkerEnv.t) (Henv : good_env env)
    (w' := uc_run numeric_20_4 uuid_string uuid_parse [OWorker env] (db1, w.2))
    (start : Z) (consumed : list (Z * ConfigEvent.t)) (Hconsumed : map snd consumed = w'.2)
    (Hplain : plain_users w'.1) :
  exists r st, w'.1.(DB.strategies) !! newID = Some r /\ r.(UStrategy.Active) = false /\
    drained w'.1 /\
    find_strategy (engine start consumed).(Writer.published) s.(UStrategy.UserID) (uuid_string newID) =
    Some (true, st).
Proof.
  assert (Hw : sys_ok uuid_string w).
  { unfold w. by apply sys_ok_run; [..|by apply sys_ok_empty|]. }
  assert (Hw1 : sys_ok uuid_string (db1, w.2)).
  { pose proof (sys_ok_call numeric_20_4 uuid_string uuid_parse Hnumeric
      (OCreate io newID condID tcID rlID req) w Hw eq_refl eq_refl) as H.
    destruct w as [db topic]. cbn [uc_step fst snd] in *. by rewrite Hcreate in H. }
  apply Create_inv in Hcreate as [[_ [e He]]|(Hnew & Hj & _ & _ & Hdb & [Hs | ?])]; [done| |done].
  injection Hs as Hs. set (s0 := full_strategy io newID condID tcID rlID req) in *. subst s.
  set (ev := ToFullConfigEvent uuid_string ConfigCreated (env.(WorkerEnv.EventNow) (DB.outbox_seq w.1 + 1)) s0).
  destruct (worker_good uuid_string uuid_parse env db1
    [Outbox.mk (DB.outbox_seq w.1 + 1) newID "STRATEGY_CREATED" (PayloadFull s0) io.(Io.Now) false] [ev])
    as (db2 & Hpo & Hrows & Hdr).
  { done. }
  { rewrite Hdb. exact (pending_one (created numeric_20_4 s0 w.1) _ _ _ _ Hdrained). }
  { cbn. lia. }
  { constructor; [|done]. by apply creation_published. }
  assert (Hw' : w' = (db2, w.2 ++ [ev])).
  { unfold w', uc_run. cbn [foldl uc_step]. by rewrite Hpo. }
  assert (Hok' : sys_ok uuid_string w').
  { apply sys_ok_run; [done|done|done|]. by repeat constructor. }
  assert (Hr : w'.1.(DB.strategies) !! newID = Some (row_of s0)).
  { rewrite Hw'. cbn [fst]. rewrite Hrows, Hdb. apply lookup_insert_eq. }
  destruct (upsert_unknown uuid_string uuid_parse Huuid s0.(UStrategy.UserID) newID ev
    (toPayload uuid_string s0)) as [st Hst]; [done..|].
  exists (row_of s0), st. split; [done|]. split; [done|]. split; [by rewrite Hw'|]. unfold engine.
  change s0.(UStrategy.UserID) with (row_of s0).(UStrategy.UserID).
  rewrite (engine_after_topic uuid_string w' start consumed newID (row_of s0) Hok' Hconsumed Hplain Hr).
  rewrite Hw'. cbn [snd]. unfold engine_state. rewrite after_app.
  fold (engine_state uuid_string newID (UStrategy.UserID (row_of s0)) w.2).
  rewrite (so_none _ _ Hw newID _ Hnew). exact Hst.
Qed.

Definition draft_result : (RepoError + UStrategy.t) * DB.t :=
  Create Some (sample_io 1) 7 8 9 10 (sample_request false) DB.empty.

Definition draft_state : UCState :=
  uc_run Some sample_text sample_parse [OWorker sample_env] (draft_result.2, []).

Lemma inactive_creation_trades_witness :
  exists r st, draft_state.1.(DB.strategies) !! 7%N = Some r /\ r.(UStrategy.Active) = false /\
    drained draft_state.1 /\
    find_strategy (engine 0 (map (pair 5) draft_state.2)).(Writer.published) "alice" (sample_text 7) =
    Some (true, st).
Proof.
  assert (Hs : exists s, draft_result.1 = inr s /\ s.(UStrategy.UserID) = "alice").
  { eexists. vm_compute. split; reflexivity. }
  destruct Hs as (s & Hs & <-).
  apply (inactive_creation_trades Some sample_text sample_parse sample_uuid_laws sample_numeric_ok []
    (List.Forall_nil _) (List.Forall_nil _) (sample_io 1) 7 8 9 10 (sample_request false) s draft_result.2)
    with (env := sample_env) (consumed := map (pair 5) draft_state.2).
  - change (draft_result = (inr s, draft_result.2)). rewrite <- Hs. by destruct draft_result.
  - reflexivity.
  - discriminate.
  - exact sample_good_env.
  - rewrite map_map. apply map_id.
  - apply (one_row_plain _ (sample_row draft_state)); vm_compute; reflexivity.
Defined.
