(* ===== verification/UCServiceProps.v ===== *)
(** * Properties of requests, conversions and the end of the day *)

From stdpp Require Import base tactics gmap strings list sorting.
From Stdlib Require Import ZArith Lia Bool.
From S2P Require Import Prelude GoFloat GoStrings GoTime RuleModels ConfigStore ConfigSync UCModels UCRepo.
From S2P Require Import UCWorker UCService UCTx UCInvariant UCEffects UCEngine UCEndToEnd UCProperties UCChain UCSamples.
From S2P Require Signals MLTypes MLPosition.

Open Scope string_scope.
Open Scope list_scope.
Open Scope Z_scope.

(** ** What is created can be read *)

Lemma first_error_None l e : first_error l = None -> e ∈ l -> e = None.
Proof.
  induction l as [|a l IH]; cbn; [by intros _ ?%not_elem_of_nil|].
  destruct a; cbn; [done|]. intros H [-> | Hin]%elem_of_cons; auto.
Qed.

Lemma validateCreateRequest_parts req req' :
  validateCreateRequest req = (req', None) ->
  exists c tc rl, req'.(CreateStrategyRequest.Conditions) = Some c /\
    req'.(CreateStrategyRequest.TradeConfig) = Some tc /\ req'.(CreateStrategyRequest.RiskLimits) = Some rl /\
    req.(CreateStrategyRequest.TradeConfig) = Some tc /\ req.(CreateStrategyRequest.RiskLimits) = Some rl /\
    validateMultiLevelConfig (Some tc) = None.
Proof.
  unfold validateCreateRequest. destruct (first_error _) eqn:He; [done|].
  destruct (CreateStrategyRequest.Conditions req) as [c|] eqn:Hc; [|done].
  destruct (CreateStrategyRequest.TradeConfig req) as [tc|] eqn:Htc; [|done].
  destruct (CreateStrategyRequest.RiskLimits req) as [rl|] eqn:Hrl; [|done].
  intros Hpair. pose proof (f_equal snd Hpair) as Hv. apply (f_equal fst) in Hpair.
  cbn [fst snd] in Hv, Hpair. subst req'.
  exists c, tc, rl. cbn. rewrite Hc, Htc, Hrl. split_and!; try done.
  eapply first_error_None; [exact Hv|]. right. rewrite !elem_of_app. right. right. right.
  unfold validate_exits. right. right. by left.
Qed.

(** A strategy that was created over the service is what a read of it
    returns, as long as the amount per stock fits its column. *)
Theorem create_then_get (numeric_20_4 : f64 -> option f64) (uuid_string : uuid -> string) {C : Type}
    (credsRepo : CredentialsRepository C) (io io' : Io.t) (newID condID tcID rlID : uuid)
    (req : CreateStrategyRequest.t) (w w' : Store (C := C)) (s : UStrategy.t)
    (Hcreate : CreateStrategy numeric_20_4 credsRepo io newID condID tcID rlID req w = (inr s, w'))
    (Hsize : forall tc, req.(CreateStrategyRequest.TradeConfig) = Some tc ->
       tc.(UTradeConfig.MaxPositionSize) = None)
    (Hamount : forall rl x, req.(CreateStrategyRequest.RiskLimits) = Some rl ->
       rl.(URiskLimits.MaxAmountPerStock) = Some x -> numeric_20_4 x = Some x)
    (Hio : good_io io') :
  GetStrategy io' newID s.(UStrategy.UserID) w' = inr s /\ s.(UStrategy.Version) = 1 /\
  s.(UStrategy.Active) = req.(CreateStrategyRequest.ActivateImmediately).
Proof.
  unfold CreateStrategy in Hcreate. destruct (validateCreateRequest req) as [req' [e|]] eqn:Hv; [done|].
  destruct (validateCreateRequest_parts _ _ Hv) as (c & tc & rl & Hc & Htc & Hrl & Htc0 & Hrl0 & _).
  assert (Hact : req'.(CreateStrategyRequest.ActivateImmediately) = req.(CreateStrategyRequest.ActivateImmediately)).
  { revert Hv. unfold validateCreateRequest. repeat case_match; try done; by intros [= <- _]. }
  destruct (Create _ _ _ _ _ _ _ _) as [r db] eqn:Hcr.
  apply Create_inv in Hcr as [[-> [e ->]]|(_ & _ & _ & _ & Hdb & [-> | ->])]; [done| |done].
  injection Hcreate as <- <-. set (s := full_strategy io newID condID tcID rlID req').
  assert (Hsl : stored_limits numeric_20_4 (full_limits io.(Io.Now) newID rlID rl)
    = Some (full_limits io.(Io.Now) newID rlID rl)).
  { unfold stored_limits. cbn. destruct (URiskLimits.MaxAmountPerStock rl) as [x|] eqn:Hx; [|done].
    rewrite (Hamount rl x Hrl0 Hx). cbn. by rewrite <- Hx. }
  assert (Hst : stored_trade (full_trade io.(Io.Now) newID tcID tc) = full_trade io.(Io.Now) newID tcID tc).
  { unfold stored_trade, full_trade. cbn. by rewrite <- (Hsize tc Htc0). }
  assert (Hs : s = full_strategy io newID condID tcID rlID req') by done.
  split; [|split; [done|by cbn]]. unfold GetStrategy. cbn [fst]. fold s in Hdb.
  assert (L1 : db.(DB.strategies) !! newID = Some (row_of s)) by (rewrite Hdb; apply lookup_insert_eq).
  assert (L2 : db.(DB.strategy_conditions) !! newID = s.(UStrategy.Conditions)).
  { rewrite Hdb. cbn. rewrite Hc. apply lookup_insert_eq. }
  assert (L3 : db.(DB.trade_configs) !! newID = s.(UStrategy.TradeConfig)).
  { rewrite Hdb. cbn. rewrite Htc. cbn. rewrite Hst. apply lookup_insert_eq. }
  assert (L4 : db.(DB.risk_limits) !! newID = s.(UStrategy.RiskLimits)).
  { rewrite Hdb. cbn. rewrite Hrl. cbn. rewrite Hsl. apply lookup_insert_eq. }
  assert (L5 : forall t, s.(UStrategy.TradeConfig) = Some t -> loadMultiLevelConfig true db t = t).
  { intros t Ht. unfold loadMultiLevelConfig. assert (Hid : t.(UTradeConfig.StrategyID) = newID).
    { cbn in Ht. rewrite Htc in Ht. by injection Ht as <-. }
    rewrite Hid, L3, Ht. apply with_levels_self. }
  unfold GetByID. rewrite L1, L2, L3, L4, !Hio. unfold owned. cbn [row_of set UStrategy.UserID].
  rewrite String.eqb_refl. cbn [andb not_deleted]. clear Hdb L1 L2 L3 L4.
  assert (E : s.(UStrategy.Conditions) = Some (full_conditions io.(Io.Now) newID condID c) /\
    s.(UStrategy.TradeConfig) = Some (full_trade io.(Io.Now) newID tcID tc) /\
    s.(UStrategy.RiskLimits) = Some (full_limits io.(Io.Now) newID rlID rl)).
  { cbn. by rewrite Hc, Htc, Hrl. }
  destruct E as (E1 & E2 & E3). rewrite E1, E2, E3. cbn [read lift_read fmap option_fmap option_map].
  rewrite (L5 _ E2). cbn [lift_read read]. unfold lift_read. change (not_deleted (row_of s)) with true. cbn -[s]. rewrite <- E1, <- E2, <- E3. reflexivity.
Qed.

(** ** Multi-level exits *)

(** The levels of a request as the signal of an order carries them: through
    the payload of the event and the model of the rules engine. *)
Definition signal_levels (levels : list UCLevel) : list Signals.MultiLevelExitLevel :=
  map (fun l => Signals.mkLevel l.(LevelNum) l.(PricePct) l.(QtyPct))
    (toModelMultiLevel (toMultiLevelPayload levels)).

(** Each price is above the one before it. *)
Fixpoint ascending (prev : f64) (levels : list UCLevel) : Prop :=
  match levels with
  | [] => True
  | l :: rest => fle l.(uc_PricePct) prev = false /\ ascending l.(uc_PricePct) rest
  end.

(** What one side must be to be accepted in the mode of multiple levels; the
    comparisons are those of the floating-point numbers, the sum is taken in the
    order of the levels. *)
Record accepted_levels (levels : list UCLevel) : Prop := {
  al_count : (1 <= length levels <= 5)%nat;
  al_numbers : map uc_LevelNum levels = seqZ 1 (Z.of_nat (length levels));
  al_prices : ascending fzero levels;
  al_positive : Forall (fun l => fle l.(uc_PricePct) fzero = false /\ fle l.(uc_QtyPct) fzero = false) levels;
  al_sum : let sum := foldl (fun t l => fadd t l.(uc_QtyPct)) fzero levels in
           flt sum (dec 9999 2) = false /\ flt (dec 10001 2) sum = false
}.

Lemma level_loop_spec field levels : forall i total prev sum,
  level_loop field i total prev levels = inr sum <->
  map uc_LevelNum levels = seqZ (i + 1) (Z.of_nat (length levels)) /\ ascending prev levels /\
  Forall (fun l => fle l.(uc_PricePct) fzero = false /\ fle l.(uc_QtyPct) fzero = false) levels /\
  sum = foldl (fun t l => fadd t l.(uc_QtyPct)) total levels.
Proof.
  induction levels as [|l levels IH]; intros i total prev sum.
  - cbn. split; [by intros [= <-]|by intros (_ & _ & _ & ->)].
  - cbn [level_loop map length foldl ascending]. rewrite (seqZ_cons (i + 1)) by lia.
    replace (Z.pred (Z.of_nat (S (length levels)))) with (Z.of_nat (length levels)) by lia.
    replace (Z.succ (i + 1)) with (i + 1 + 1) by lia. rewrite Forall_cons. split.
    + intros H. destruct (negb _) eqn:Hn; [done|]. destruct (fle _ fzero) eqn:Hp; [done|].
      destruct (fle (uc_PricePct l) prev) eqn:Hpp; [done|]. destruct (fle (uc_QtyPct l) fzero) eqn:Hq; [done|].
      apply IH in H as (-> & H2 & H3 & H4). repeat split; try done. f_equal. lia.
    + intros ([= Hn Hm] & [Hpp Ha] & [[Hp Hq] HF] & ->). rewrite Hn, Z.eqb_refl, Hp, Hpp, Hq. cbn [negb].
      by apply IH.
Qed.

Lemma validateLevels_spec field levels :
  levels <> [] -> validateLevels field levels = None <-> accepted_levels levels.
Proof.
  intros Hne. assert (1 <= length levels)%nat by (destruct levels; [done|cbn; lia]).
  unfold validateLevels, MaxMultiLevelExits. split.
  - destruct (5 <? _) eqn:Hlen; [done|]. destruct (level_loop _ _ _ _ _) as [e|sum] eqn:Hl; [done|].
    apply level_loop_spec in Hl as (H1 & H2 & H3 & ->). destruct (_ || _) eqn:Hs; [done|]. intros _.
    apply orb_false_elim in Hs. split; try done. lia.
  - intros [L1 L2 L3 L4 [S1 S2]]. destruct (5 <? _) eqn:Hlen; [lia|].
    rewrite (proj2 (level_loop_spec field levels 0 fzero fzero _)) by (split_and!; [done..|reflexivity]).
    by rewrite S1, S2.
Qed.

Lemma validate_side_spec field type levels :
  validate_side field type levels = None <->
  if String.eqb type "MULTI_LEVEL" then accepted_levels levels else levels = [].
Proof.
  unfold validate_side. change UCSLModeMultiLevel with "MULTI_LEVEL". destruct (String.eqb type _).
  - case_bool_decide as Hl; [|by apply validateLevels_spec]. subst. split; [done|].
    intros [L _ _ _ _]. cbn in L. lia.
  - by case_bool_decide.
Qed.

Lemma signal_levels_nums levels : map Signals.LevelNum (signal_levels levels) = map uc_LevelNum levels.
Proof. induction levels as [|l levels IH]; [done|]. cbn. by f_equal. Qed.


(** Thirds are accepted. *)
Example thirds_are_accepted :
  validateMultiLevelConfig (Some (UTradeConfig.mk 0 0 "MARKET" "INTRADAY" "DAY" 10 "NSE" "BUY" None None
    (Some (of_Z 2)) (Some (of_Z 4)) None "MULTI_LEVEL" "FIXED"
    [MkUCLevel 1 (of_Z 1) (dec 3333 2); MkUCLevel 2 (of_Z 2) (dec 3333 2); MkUCLevel 3 (of_Z 3) (dec 3334 2)]
    [] "" "" 0)) = None.
Proof. vm_compute. reflexivity. Qed.

(** With whole percentages the accepted stop-loss levels are all that the
    multi-level manager's conservation of positions asks of its configuration. *)
Theorem validated_levels_protect (tc : UTradeConfig.t)
    (levels := tc.(UTradeConfig.MultiLevelSL)) :
  validateMultiLevelConfig (Some tc) = None -> tc.(UTradeConfig.StopLossType) = UCSLModeMultiLevel ->
  Forall MLPosition.whole_pct (signal_levels levels) -> MLPosition.good_configs (signal_levels levels).
Proof.
  intros Hv Ht Hw. unfold validateMultiLevelConfig in Hv. fold levels in Hv.
  destruct (validate_side "multi_level_sl" _ _) eqn:Hs; [done|]. clear Hv.
  apply validate_side_spec in Hs. rewrite Ht in Hs. cbn in Hs. destruct Hs as [H1 H2 _ _ _].
  split; [|split; [|done]].
  - unfold signal_levels, toModelMultiLevel, toMultiLevelPayload. rewrite !length_map. lia.
  - rewrite signal_levels_nums, H2. apply NoDup_seqZ.
Qed.

(** ** The protocol buffers *)

Record known_trade (p : ProtoTradeConfig.t) : Prop := {
  kt_order : one_of p.(ProtoTradeConfig.OrderType) ["ORDER_TYPE_MARKET"; "ORDER_TYPE_LIMIT"; "ORDER_TYPE_STOP_LOSS"] = true;
  kt_product : one_of p.(ProtoTradeConfig.ProductType)
    ["PRODUCT_TYPE_INTRADAY"; "PRODUCT_TYPE_DELIVERY"; "PRODUCT_TYPE_CASH"; "PRODUCT_TYPE_BRACKET"] = true;
  kt_exchange : one_of p.(ProtoTradeConfig.Exchange) ["EXCHANGE_NSE"; "EXCHANGE_BSE"] = true;
  kt_side : one_of p.(ProtoTradeConfig.OrderSide) ["ORDER_SIDE_BUY"; "ORDER_SIDE_SELL"] = true;
  kt_sl : one_of p.(ProtoTradeConfig.StopLossType) ["FIXED"; "TRAILING"; "MULTI_LEVEL"] = true;
  kt_tp : one_of p.(ProtoTradeConfig.TakeProfitType) ["TAKE_PROFIT_FIXED"; "TAKE_PROFIT_MULTI_LEVEL"] = true;
  kt_levels : Forall (fun l => in_int32 l.(LevelNum)) (p.(ProtoTradeConfig.MultiLevelSl) ++ p.(ProtoTradeConfig.MultiLevelTp))
}.

Definition known_conditions (p : ProtoConditions.t) : Prop :=
  Forall (fun s => one_of s ["SENTIMENT_POSITIVE"; "SENTIMENT_NEUTRAL"; "SENTIMENT_NEGATIVE"] = true)
    p.(ProtoConditions.Sentiments) /\
  Forall (fun s => one_of s ["EXCHANGE_NSE"; "EXCHANGE_BSE"] = true) p.(ProtoConditions.Exchanges).

Ltac enum_cases H :=
  cbn [one_of existsb] in H; repeat (apply orb_prop in H as [H|H]); try discriminate H;
  apply String.eqb_eq in H; rewrite ?H; reflexivity.

Lemma levels_roundtrip l :
  Forall (fun l => in_int32 l.(LevelNum)) l -> modelMultiLevelToProto (protoMultiLevelToModel l) = l.
Proof.
  induction 1 as [|[n x y] l H _ IH]; [done|]. cbn in *. rewrite int32_id by done. f_equal. exact IH.
Qed.

Lemma map_roundtrip {A} (P : A -> Prop) (f g : A -> A) l :
  (forall x, P x -> g (f x) = x) -> Forall P l -> map g (map f l) = l.
Proof. intros H. induction 1 as [|x l Hx _ IH]; [done|]. cbn. by rewrite H, IH. Qed.

(** What a client sends of the trade configuration and the conditions is
    what it reads back, for every value of the enumerations but one: an order
    type stop-loss-market is stored under a name that is not read back, and
    comes out unspecified. *)
Theorem proto_roundtrip (p : ProtoTradeConfig.t) (c : ProtoConditions.t) :
  (known_trade p -> modelTradeConfigToProto (protoTradeConfigToModel p) = p) /\
  (known_conditions c -> modelConditionsToProto (protoConditionsToModel c) = c) /\
  (p.(ProtoTradeConfig.OrderType) = "ORDER_TYPE_STOP_LOSS_MARKET" ->
   (modelTradeConfigToProto (protoTradeConfigToModel p)).(ProtoTradeConfig.OrderType)
   = "ORDER_TYPE_UNSPECIFIED").
Proof.
  split; [|split].
  - intros [H1 H2 H3 H4 H5 H6 H7]. apply Forall_app in H7 as [H7 H8]. destruct p; cbn in *.
    unfold modelTradeConfigToProto, protoTradeConfigToModel. cbn. rewrite !levels_roundtrip by done.
    f_equal; [enum_cases H1|enum_cases H2|enum_cases H3|enum_cases H4|enum_cases H5|enum_cases H6].
  - intros [H1 H2]. destruct c as [a b d e f mr mt pr g]; cbn in *.
    unfold modelConditionsToProto, protoConditionsToModel. cbn. f_equal.
    + eapply map_roundtrip; [|exact H1]. intros x Hx. cbn beta in Hx. enum_cases Hx.
    + by destruct mr as [[]|].
    + by destruct pr as [[]|].
    + eapply map_roundtrip; [|exact H2]. intros x Hx. cbn beta in Hx. enum_cases Hx.
  - intros H. cbn. by rewrite H.
Qed.

(** A service that keeps the bearer tokens in a list. *)
Definition sample_creds : CredentialsRepository (list string) :=
  MkCreds (list string) (fun _ _ _ _ bearer c => (bearer :: c, None)).

Definition created : (ServiceError + UStrategy.t) * Store (C := list string) :=
  CreateStrategy Some sample_creds (sample_io 1) 7 8 9 10 (sample_request true) (DB.empty, []).

Lemma create_then_get_witness :
  exists s, created.1 = inr s /\ GetStrategy (sample_io 2) 7 s.(UStrategy.UserID) created.2 = inr s /\
    s.(UStrategy.Version) = 1 /\ s.(UStrategy.Active) = true.
Proof.
  set (s := match created.1 with inr s => s | inl _ => sample_row (DB.empty, []) end).
  exists s. split; [vm_compute; reflexivity|].
  apply (create_then_get Some sample_text sample_creds (sample_io 1) (sample_io 2) 7 8 9 10
    (sample_request true) (DB.empty, []) created.2 s).
  - vm_compute. reflexivity.
  - intros tc [= <-]. reflexivity.
  - intros rl x _ _. reflexivity.
  - intros n. reflexivity.
Defined.
