(* ===== verification/UCEod.v ===== *)
(** * The deactivation at the market's close *)

From stdpp Require Import base tactics gmap strings list sorting.
From Stdlib Require Import ZArith Lia Bool.
From S2P Require Import Prelude GoFloat GoStrings GoTime RuleModels ConfigStore ConfigSync UCModels UCRepo.
From S2P Require Import UCWorker UCTx UCInvariant UCEffects UCEngine UCEndToEnd UCProperties UCChain UCSamples.

Open Scope string_scope.
Open Scope list_scope.
Open Scope Z_scope.

Section Eod.

Context (uuid_string : uuid -> string).

Lemma outbox_rows_good io l : forall n db, good_io io ->
  outbox_rows uuid_string io l (MkTx n false db) =
  (inr tt, MkTx (n + length l) false (append_paused uuid_string io.(Io.Now) l db)).
Proof.
  induction l as [|s l IH]; intros n db Hio; [by rewrite Nat.add_0_r|].
  cbn [outbox_rows foldr]. etrans; [apply tx_bind_good; exact (statement_good io _ _ _ _ _ _ _ Hio
    (sql_insert_outbox_eq _ _ _ _ _) eq_refl)|].
  etrans; [exact (IH (S n) _ Hio)|]. cbn [length]. by rewrite Nat.add_succ_r.
Qed.

(** A bulk deactivation of rows that have a version left goes through. *)
Lemma deactivate_all_good io where_ db (hit := fun s => live s && where_ db s) :
  good_io io -> Forall (fun s => s.(UStrategy.Version) < max_int32) (rows db) ->
  (deactivate_all uuid_string io where_ db).2.(DB.strategies) =
  (fun s => if hit s then set_active io.(Io.Now) false s else s) <$> db.(DB.strategies).
Proof.
  intros Hio Hmax. unfold deactivate_all.
  set (l := map (set_active io.(Io.Now) false) (List.filter hit (rows db))).
  assert (Hsql : sql_deactivate io.(Io.Now) (where_ db) db = inr (l, deactivated_rows io.(Io.Now) hit db)).
  { unfold sql_deactivate. fold hit. destruct (existsb _ _) eqn:Hx; [|done]. exfalso.
    apply existsb_exists in Hx as (s & Hs & Hv). apply filter_In in Hs as [Hs _].
    rewrite Forall_forall in Hmax. apply list_elem_of_In in Hs. specialize (Hmax s Hs). lia. }
  erewrite (transaction_good io _ db _ _ Hio); cycle 1.
  - etrans; [apply tx_bind_good; exact (statement_good io _ _ _ _ _ _ _ Hio Hsql eq_refl)|].
    etrans; [apply tx_bind_good; exact (outbox_rows_good io l _ _ Hio)|]. reflexivity.
  - done.
  - cbn [snd tx_db]. by rewrite append_paused_rows.
Qed.

(** Whatever the database did, a row is as it was or was deactivated. *)
Lemma deactivate_all_row io where_ db id s' :
  (deactivate_all uuid_string io where_ db).2.(DB.strategies) !! id = Some s' ->
  exists s, db.(DB.strategies) !! id = Some s /\
    (s' = s \/ (live s = true /\ where_ db s = true /\ s' = set_active io.(Io.Now) false s)).
Proof.
  destruct (deactivate_all _ _ _ _) as [r db'] eqn:E. cbn [snd].
  apply deactivate_all_inv in E as [[-> _]|(_ & -> & _)]; [eauto|].
  rewrite append_paused_rows. cbn. rewrite lookup_fmap. intros (s & Hs & ->)%fmap_Some.
  exists s. split; [done|]. destruct (live s && where_ db s) eqn:Hh; [|by left].
  apply andb_prop in Hh as [H1 H2]. by right.
Qed.

Lemma deactivate_all_kept io where_ db id s :
  db.(DB.strategies) !! id = Some s -> where_ db s = false ->
  (deactivate_all uuid_string io where_ db).2.(DB.strategies) !! id = Some s.
Proof.
  intros Hs Hw. destruct (deactivate_all _ _ _ _) as [r db'] eqn:E. cbn [snd].
  apply deactivate_all_inv in E as [[-> _]|(_ & -> & _)]; [done|].
  rewrite append_paused_rows. cbn. rewrite lookup_fmap, Hs. cbn. by rewrite Hw, andb_false_r.
Qed.

Lemma live_set_inactive now s : live (set_active now false s) = false.
Proof. done. Qed.

(** The first tick of a weekday at 15:00 leaves no paper strategy active,
    and it leaves every other strategy as it was unless its own square-off time
    has come. *)
Theorem eod_deactivates_paper (ios : EODIo) (now : Z) (st : EODState) (db : DB.t)
    (Hok : db_ok uuid_string db) (Hday : weekend now = false)
    (Hminute : clock_minute now = paperDeactivation)
    (Hfirst : st.(lastPaperFiredDate) <> Some (today now)) (Hio : good_io (io_paper ios))
    (Hroom : forall id s, db.(DB.strategies) !! id = Some s -> s.(UStrategy.Version) + 1 < max_int32) :
  let '(st', db') := eod_tick uuid_string ios now (st, db) in
  st'.(lastPaperFiredDate) = Some (today now) /\
  (forall id s', db'.(DB.strategies) !! id = Some s' -> s'.(UStrategy.TradingMode) = TradingModePaper ->
     live s' = false) /\
  (forall id s, db.(DB.strategies) !! id = Some s -> s.(UStrategy.TradingMode) <> TradingModePaper ->
     squares_off_at (hhmm now) db s = false -> db'.(DB.strategies) !! id = Some s).
Proof.
  unfold eod_tick. rewrite Hday, Hminute, Z.eqb_refl. rewrite bool_decide_eq_false_2 by done.
  cbn [negb andb paperDeactivation liveDeactivation Z.eqb Z.mul Z.add Pos.mul Pos.add Pos.eqb Pos.add_carry].
  unfold deactivateAtCustomSquareOffTime, deactivateByMode, DeactivateActiveByAutoSquareOffTime,
    DeactivateAllActiveByMode.
  set (db1 := (deactivate_all uuid_string (io_custom ios) (squares_off_at (hhmm now)) db).2).
  assert (Hmax : Forall (fun s => s.(UStrategy.Version) < max_int32) (rows db1)).
  { apply Forall_forall. intros s (id & Hs)%elem_of_rows.
    apply deactivate_all_row in Hs as (s0 & Hs0 & [-> | (_ & _ & ->)]); specialize (Hroom id s0 Hs0); cbn; lia. }
  split; [done|]. split.
  - intros id s'. rewrite (deactivate_all_good _ _ _ Hio Hmax), lookup_fmap.
    intros (s & Hs & ->)%fmap_Some Hm. destruct (live s) eqn:Hl; cbn in Hm |- *; [|by rewrite Hl].
    destruct (String.eqb_spec (UStrategy.TradingMode s) "PAPER") as [Heq|Hne]; cbn in Hm |- *; [done|].
    by rewrite Hm in Hne.
  - intros id s Hs Hm Hsq. apply deactivate_all_kept; [by apply deactivate_all_kept|].
    by apply String.eqb_neq.
Qed.

(** Outside the two minutes only the strategies whose own time has come
    change: a day whose ticks all miss 15:00 leaves its paper strategies
    active. *)
Lemma eod_other_minutes (ios : EODIo) (now : Z) (st : EODState) (db : DB.t) id s :
  clock_minute now <> paperDeactivation -> clock_minute now <> liveDeactivation ->
  db.(DB.strategies) !! id = Some s -> squares_off_at (hhmm now) db s = false ->
  (eod_tick uuid_string ios now (st, db)).2.(DB.strategies) !! id = Some s.
Proof.
  intros Hp Hl Hs Hsq. unfold eod_tick. destruct (weekend now); [done|].
  rewrite (proj2 (Z.eqb_neq _ _) Hp), (proj2 (Z.eqb_neq _ _) Hl). cbn [andb snd].
  by apply deactivate_all_kept.
Qed.
End Eod.

(** 2024-01-01 was a Monday. *)
Definition monday_three : Z := 1704101400 * 10 ^ 9.

Lemma eod_deactivates_paper_witness :
  let '(st', db') := eod_tick sample_text (MkEODIo (sample_io 9) (sample_io 9) (sample_io 9)) monday_three
    (MkEOD None None, (sample_run [sample_create true]).1) in
  st'.(lastPaperFiredDate) = Some (today monday_three) /\
  (forall id s', db'.(DB.strategies) !! id = Some s' -> s'.(UStrategy.TradingMode) = TradingModePaper ->
     live s' = false) /\
  (forall id s, (sample_run [sample_create true]).1.(DB.strategies) !! id = Some s ->
     s.(UStrategy.TradingMode) <> TradingModePaper ->
     squares_off_at (hhmm monday_three) (sample_run [sample_create true]).1 s = false ->
     db'.(DB.strategies) !! id = Some s).
Proof.
  apply (eod_deactivates_paper sample_text (MkEODIo (sample_io 9) (sample_io 9) (sample_io 9)) monday_three
    (MkEOD None None) (sample_run [sample_create true]).1).
  - apply uc_run_ok, db_ok_empty.
  - vm_compute. reflexivity.
  - vm_compute. reflexivity.
  - discriminate.
  - intros n. reflexivity.
  - intros id s.
    assert (H : (sample_run [sample_create true]).1.(DB.strategies) =
      {[7%N := sample_row (sample_run [sample_create true])]}) by (vm_compute; reflexivity).
    rewrite H. intros [_ <-]%lookup_singleton_Some. vm_compute. reflexivity.
Defined.
