(* ===== verification/PaperPrices.v ===== *)
(** * Prices of the paper side

    [trade-execution/internal/paper/redis_price_client.go] and
    [market_client.go].  Redis is the function from a key to the decoded tick
    under it at one moment, [None] when the key is missing, the call fails or
    the JSON does not decode; the message text of errors is left out.  The
    decoder of the feed reads the layout of [oco/trailing.go] and keeps the
    exchange; [processMessage] is the calls it makes.  The connection is
    network code: [connected] says whether there is one. *)

From stdpp Require Import base gmap strings list fin_maps.
From Stdlib Require Import ZArith NArith Ascii Lia.
From S2P Require Import Prelude GoFloat GoStrings GoTime Trailing.

Open Scope string_scope.
Open Scope list_scope.
Open Scope go_scope.

(** ** Redis *)

Module MarketTick.
Record t : Type := mk {
  Symbol : string;
  Token : string;
  Exchange : string;
  LTP : f64;
  Open : f64;
  High : f64;
  Low : f64;
  Close : f64;
  PrevClose : f64;
  Volume : Z;
  Timestamp : Z;
  TickSize : f64;
  DPRLower : f64;
  DPRUpper : f64
}.
End MarketTick.

Abbreviation RedisPrices := (string -> option MarketTick.t).

Definition market_key (exchange : string) (token : Z) : string :=
  ("market:" ++ ToLower exchange ++ ":" ++ Itoa token)%string.

(** A number that is positive, else the error. *)
Definition only_positive (x : f64) : option f64 := if fle x fzero then None else Some x.

(** [GetLTP]; [None] is the error. *)
Definition RedisGetLTP (redis : RedisPrices) (exchange : string) (token : Z) : option f64 :=
  tick ← redis (market_key exchange token); only_positive tick.(MarketTick.LTP).

(** Milliseconds when the number has 13 digits, else seconds. *)
Definition tick_time (timestamp : Z) : Z :=
  if (1000000000000 <? timestamp)%Z then (timestamp * 10 ^ 6)%Z else (timestamp * second)%Z.

Definition GetLTPFresh (redis : RedisPrices) (now : Z) (exchange : string) (token maxAge : Z) : option f64 :=
  tick ← redis (market_key exchange token);
  ltp ← only_positive tick.(MarketTick.LTP);
  if (0 <? tick.(MarketTick.Timestamp))%Z && (0 <? maxAge)%Z
     && (maxAge <? now - tick_time tick.(MarketTick.Timestamp))%Z then None
  else Some ltp.

(** [keys] are [exchange:token]; a later duplicate writes the same value. *)
Definition GetLTPs (redis : RedisPrices) (keys : list string) : gmap string f64 :=
  fold_left (fun m k =>
    match redis ("market:" ++ k)%string with
    | Some tick => if flt fzero tick.(MarketTick.LTP) then <[k := tick.(MarketTick.LTP)]> m else m
    | None => m
    end) keys ∅.

Definition GetTickSize (redis : RedisPrices) (exchange : string) (token : Z) : option f64 :=
  tick ← redis (market_key exchange token); only_positive tick.(MarketTick.TickSize).

Definition GetDPR (redis : RedisPrices) (exchange : string) (token : Z) : option (f64 * f64) :=
  tick ← redis (market_key exchange token);
  lower ← only_positive tick.(MarketTick.DPRLower);
  upper ← only_positive tick.(MarketTick.DPRUpper);
  Some (lower, upper).

(** ** The feed *)

Module Feed.

Record Tick : Type := mkTick {
  symbol : string;
  token : string;
  exchange : string;
  ltp : f64
}.

Definition exchange_name (code : ascii) : string :=
  match N_of_ascii code with
  | 0%N => "nse" | 1%N => "bse" | 2%N => "nfo" | 3%N => "mcx" | _ => "nse"
  end.

(** [decodeBinaryTick]: the outer [None] is a panic, the inner one [ok = false]. *)
Definition decodeBinaryTick (data : bytes) : option (option Tick) :=
  if bool_decide (length data < 10)%nat then Some None
  else
    tag ← index data 0;
    if negb (Ascii.eqb tag wsMsgMarketData) then Some None
    else
      t ← read_field data 9;
      match t with
      | None => Some None
      | Some (token, offset) =>
          s ← read_field data offset;
          match s with
          | None => Some None
          | Some (symbol, offset) =>
              if bool_decide (length data <= offset)%nat then Some None
              else
                code ← index data offset;
                let offset := S offset in
                if bool_decide (length data < offset + 4)%nat then Some None
                else
                  raw ← slice data offset (offset + 4);
                  bits ← le_uint32 raw;
                  let ltp := f32_bits_to_f64 bits in
                  Some (if flt fzero ltp then Some (mkTick symbol token (exchange_name code) ltp) else None)
          end
      end.

(** The market data of a JSON message; every other type is ignored. *)
Definition json_tick (envelope : list (string * json)) : option Tick :=
  match field "type" envelope with
  | JString ty =>
      if ty =?s "market_data" then
        let symbol := extractString envelope ["symbol"] in
        let ltp := match field "data" envelope with
                   | JObject nested => extractFloat nested ["ltp"; "last_traded_price"]
                   | _ => fzero
                   end in
        if negb (symbol =?s "") && flt fzero ltp
        then Some (mkTick symbol (extractString envelope ["token"])
                     (ToLower (extractString envelope ["exchange"])) ltp)
        else None
      else None
  | _ => None
  end.

(** The frames that are no prices. *)
Definition skipped (tag : ascii) : bool :=
  existsb (Ascii.eqb tag) (map ascii_of_N [2; 5; 10; 7; 8; 9; 3; 6; 4]%N).

(** The tick of a message, if it is one. *)
Definition message_tick (unmarshal : bytes -> option (list (string * json))) (msg : bytes)
  : option (option Tick) :=
  match msg with
  | [] => Some None
  | tag :: _ =>
      if Ascii.eqb tag wsMsgMarketData then decodeBinaryTick msg
      else if skipped tag then Some None
      else Some (envelope ← unmarshal msg; json_tick envelope)
  end.

Inductive Call : Type :=
  | Callback (symbol : string) (ltp : f64)
  | TickUpdate (exchange token : string) (ltp : f64)
  | TickWrite (t : Tick) (timestamp : Z).

(** The paper market client: what is wired and what is subscribed. *)
Record PaperMarketClient : Type := mkClient {
  has_callback : bool;
  has_tickUpdateCb : bool;
  has_tickCh : bool;
  subscribed : gset string;
  connected : bool;
  sent : list (list string)
}.

#[export] Instance eta_client : Eta PaperMarketClient := fun c =>
  mkClient c.(has_callback) c.(has_tickUpdateCb) c.(has_tickCh) c.(subscribed) c.(connected) c.(sent).

(** The calls for a tick; [room] says whether the channel takes one more. *)
Definition deliver (c : PaperMarketClient) (room : bool) (now : Z) (t : Tick) : list Call :=
  (if c.(has_callback) then [Callback t.(symbol) t.(ltp)] else []) ++
  (if c.(has_tickUpdateCb) && negb (t.(exchange) =?s "") && negb (t.(token) =?s "")
   then [TickUpdate t.(exchange) t.(token) t.(ltp)] else []) ++
  (if c.(has_tickCh) && room then [TickWrite t now] else []).

Definition processMessage (unmarshal : bytes -> option (list (string * json))) (room : bool) (now : Z)
    (msg : bytes) (c : PaperMarketClient) : option (list Call) :=
  t ← message_tick unmarshal msg;
  Some (match t with Some t => deliver c room now t | None => [] end).

(** [Subscribe]: what is new is recorded, and sent when there is a connection. *)
Definition Subscribe (tokens : list string) (c : PaperMarketClient) : PaperMarketClient :=
  let '(new, known) := new_tokens tokens c.(subscribed) in
  let c := c <| subscribed := known |> in
  match new with
  | [] => c
  | _ => if c.(connected) then c <| sent := c.(sent) ++ [new] |> else c
  end.

Definition Unsubscribe (tokens : list string) (c : PaperMarketClient) : PaperMarketClient :=
  c <| subscribed := c.(subscribed) ∖ list_to_set tokens |>.

(** [connect] up to its loop: everything subscribed is sent again. *)
Definition reconnect (c : PaperMarketClient) : PaperMarketClient :=
  let c := c <| connected := true |> in
  match elements c.(subscribed) with
  | [] => c
  | all => c <| sent := c.(sent) ++ [all] |>
  end.

Definition disconnect (c : PaperMarketClient) : PaperMarketClient := c <| connected := false |>.

(** ** Properties *)

(** A frame in the documented layout is the tick it was built from, whatever its
    exchange byte, if its price is positive, and no tick otherwise. *)
Theorem feed_decode_encode ts token symbol ex bits :
  length ts = 8%nat -> (String.length token < 256)%nat -> (String.length symbol < 256)%nat ->
  (0 <= bits < 2 ^ 32)%Z ->
  decodeBinaryTick (encodeTick ts token symbol ex bits) =
  Some (if flt fzero (f32_bits_to_f64 bits)
        then Some (mkTick symbol token (exchange_name ex) (f32_bits_to_f64 bits)) else None).
Proof.
  intros Hts H1 H2 Hb. destruct (encode_split ts token symbol ex bits Hts) as (_ & E2 & _ & L2 & L).
  destruct (read_frame ts token symbol ex bits Hts H1 H2) as [R1 R2].
  unfold decodeBinaryTick. rewrite bool_decide_false by (rewrite L; lia).
  change (index (encodeTick ts token symbol ex bits) 0) with (Some wsMsgMarketData).
  cbn [mbind option_bind]. rewrite Ascii.eqb_refl. cbn [negb]. rewrite R1. cbn [mbind option_bind].
  rewrite R2. cbn [mbind option_bind]. rewrite bool_decide_false by (rewrite L; lia).
  set (pre2 := (wsMsgMarketData :: ts) ++ put_field token) in *.
  assert (Hl : (9 + S (String.length token) + S (String.length symbol))%nat = length (pre2 ++ put_field symbol)).
  { rewrite length_app, L2, put_field_length. lia. }
  assert (E3 : encodeTick ts token symbol ex bits = (pre2 ++ put_field symbol) ++ ex :: put_uint32 bits).
  { by rewrite E2, <- app_assoc. }
  assert (Hi : index (encodeTick ts token symbol ex bits)
    (9 + S (String.length token) + S (String.length symbol)) = Some ex).
  { unfold index. by rewrite E3, Hl, list_lookup_middle. }
  rewrite Hi. cbn [mbind option_bind]. rewrite bool_decide_false by (rewrite L; lia).
  rewrite slice_some by (rewrite L; lia). cbn [mbind option_bind].
  replace (take _ (drop _ _)) with (put_uint32 bits); [by rewrite le_uint32_put|].
  rewrite E3, Hl. replace ((pre2 ++ put_field symbol) ++ ex :: put_uint32 bits)
    with (((pre2 ++ put_field symbol) ++ [ex]) ++ put_uint32 bits) by (by rewrite <- app_assoc).
  rewrite drop_app_length' by (rewrite (length_app (pre2 ++ put_field symbol) [ex]); cbn [length]; lia).
  rewrite firstn_all2; [done|]. rewrite put_uint32_length. lia.
Qed.

Lemma feed_decode_encode_witness :
  decodeBinaryTick (encodeTick (replicate 8 (ascii_of_N 7)) "11536" "TCS" (ascii_of_N 1) 1120403456) =
  Some (Some (mkTick "TCS" "11536" "bse" (of_Z 100))).
Proof.
  rewrite (feed_decode_encode (replicate 8 (ascii_of_N 7)) "11536" "TCS" (ascii_of_N 1) 1120403456);
    [vm_compute; reflexivity|reflexivity|cbn; lia|cbn; lia|lia].
Defined.

Lemma decoded_positive data t : decodeBinaryTick data = Some (Some t) -> flt fzero t.(ltp) = true.
Proof.
  unfold decodeBinaryTick. destruct (bool_decide _); [done|].
  destruct (index data 0) as [tag|]; [|done]. cbn [mbind option_bind]. destruct (negb _); [done|].
  destruct (read_field data 9) as [[[token o]|]|]; cbn [mbind option_bind]; [|done..].
  destruct (read_field data o) as [[[symbol o']|]|]; cbn [mbind option_bind]; [|done..].
  destruct (bool_decide _); [done|]. destruct (index data o') as [code|]; [|done]. cbn [mbind option_bind].
  destruct (bool_decide _); [done|]. destruct (slice _ _ _) as [raw|]; [|done]. cbn [mbind option_bind].
  destruct (le_uint32 raw) as [bits|]; [|done]. cbn [mbind option_bind].
  destruct (flt fzero (f32_bits_to_f64 bits)) eqn:E; [|done]. intros [= <-]. exact E.
Qed.

Lemma json_positive envelope t : json_tick envelope = Some t -> flt fzero t.(ltp) = true.
Proof.
  unfold json_tick. destruct (field "type" envelope) as [ty| | |]; [|done..].
  destruct (ty =?s "market_data"); [|done]. cbn zeta.
  destruct (negb _ && flt fzero _) eqn:E; [|done]. intros [= <-]. by apply andb_true_iff in E as [_ E].
Qed.

(** Whatever the message is, no price that is not positive reaches the stop-loss
    and take-profit checks, and no frame other than market data does. *)
Theorem only_positive_prices_delivered unmarshal room now msg c calls s x :
  processMessage unmarshal room now msg c = Some calls -> Callback s x ∈ calls -> flt fzero x = true.
Proof.
  unfold processMessage. intros H Hin.
  destruct (message_tick unmarshal msg) as [[t|]|] eqn:E; [|injection H as <-; by apply not_elem_of_nil in Hin|discriminate H].
  assert (Ht : flt fzero t.(ltp) = true).
  { unfold message_tick in E. destruct msg as [|tag msg]; [discriminate E|].
    destruct (Ascii.eqb tag wsMsgMarketData).
    - by apply (decoded_positive (tag :: msg)).
    - destruct (skipped tag); [discriminate E|]. injection E as E.
      destruct (unmarshal (tag :: msg)) as [envelope|]; [|discriminate E]. by apply (json_positive envelope). }
  injection H as <-. unfold deliver in Hin. rewrite !elem_of_app in Hin.
  destruct Hin as [Hin|[Hin|Hin]].
  - destruct (has_callback c); [apply list_elem_of_singleton in Hin as [= -> ->]; done|by apply not_elem_of_nil in Hin].
  - destruct (_ && _); [by apply list_elem_of_singleton in Hin|by apply not_elem_of_nil in Hin].
  - destruct (_ && _); [by apply list_elem_of_singleton in Hin|by apply not_elem_of_nil in Hin].
Qed.

End Feed.
