(* ===== verification/PaperMonitor.v ===== *)
(** * The paper trade monitor

    [trade-execution/internal/paper/monitor.go]: the stop-loss and take-profit
    engine of paper positions.  Cached orders are pointers into a heap, since the
    cache, the snapshots of the goroutines and the pending exits share them.  A
    goroutine is an entry of [ptasks]; one step of it is what it does between two
    points where another goroutine can change what it depends on: a price tick
    handles one order per step, and between its [Load] and its [Store] of
    [exiting] lies a step of its own.  [exitPosition] is one step.  [redis] is
    what Redis holds at the step, [None] when it is not configured; [now] the
    clock.  Maps are iterated in the order of [map_to_list].  The multi-level
    manager is an interface on its state and the shared table of orders.  The
    server for the frontend is set; logs are left out. *)

From stdpp Require Import base gmap strings list fin_maps.
From Stdlib Require Import ZArith Lia.
From S2P Require Import Prelude GoFloat GoStrings GoTime Orders OrderRepo OrderQueries.
From S2P Require Import Broker Indira Signals Executor SquareOff PaperPrices.

Open Scope string_scope.
Open Scope list_scope.
Open Scope go_scope.

Definition wssGracePeriod : Z := 5 * second.
Definition safety_max_age : Z := 120 * second.

Abbreviation optr := nat.
Abbreviation tid := nat.

Definition safeF (p : option f64) : f64 := default fzero p.

(** ** Data *)

Record SymbolMeta : Type := mkMeta { metaExchange : string; metaToken : Z }.

Module Trail.
Record t : Type := mk { bestPrice : f64; currentSL : f64; trailPct : f64 }.
End Trail.

(** A message for the frontend; the fields of other kinds are zero. *)
Module PaperUpdate.
Record t : Type := mk {
  Kind : string;
  OrderID : option uuid;
  UserID : string;
  Symbol : string;
  LTP : f64;
  LivePnL : f64;
  FinalPnL : f64;
  CurrentSL : f64;
  Reason : string;
  ExitPrice : f64;
  EntryPrice : f64;
  EntryTime : option Z;
  ExitTime : option Z;
  NewOrder : option Order.t
}.

Definition zero : t := mk "" None "" "" fzero fzero fzero fzero "" fzero fzero None None None.

#[global] Instance eta_update : Eta t := fun u =>
  mk u.(Kind) u.(OrderID) u.(UserID) u.(Symbol) u.(LTP) u.(LivePnL) u.(FinalPnL) u.(CurrentSL)
     u.(Reason) u.(ExitPrice) u.(EntryPrice) u.(EntryTime) u.(ExitTime) u.(NewOrder).
End PaperUpdate.

Inductive MarketCall : Type :=
  | McSubscribe (tokens : list string)
  | McUnsubscribe (tokens : list string).

(** A symbol of the cache with its orders, as a goroutine copied them. *)
Abbreviation Snap := (string * SymbolMeta * list optr)%type.

(** What follows a loop of exits once all of them are done. *)
Inductive After : Type :=
  | AfterForce (userID : string)
  | AfterCache (currentTime : string) (inCache : list uuid) (affected : list string)
  | AfterSweep (affected : list string).

Inductive PTask : Type :=
  | PExit (p : optr) (price : f64) (reason : string)
  | PTrailWrite (id : uuid) (newSL : f64)
  | PTick (symbol : string) (ltp : f64) (l : list optr)
  | PFire (symbol : string) (ltp : f64) (p : optr) (reason : string) (l : list optr)
  | PPnL (l : list Snap)
  | PSafety (l : list Snap)
  | PSafetyOrders (ltp : f64) (orders : list optr) (l : list Snap)
  | PForce (reason : string) (l : list optr) (spawned : list tid) (next : After).

(** The multi-level manager as the monitor calls it, on the shared table. *)
Class PaperMLCanceller (C : Type) := {
  mlcCancelGroup : Z -> uuid -> C * OrdersTable -> C * OrdersTable;
  mlcCancelGroupForExit : Z -> uuid -> f64 -> string -> C * OrdersTable -> C * OrdersTable
}.

Record PaperMonitor (B C : Type) : Type := mkPM {
  porders : gmap optr Order.t;
  pnext : optr;
  orderCache : gmap string (list optr);
  symbolMeta : gmap string SymbolMeta;
  tokenToSym : gmap string string;
  latestLTP : gmap string f64;
  wssLastSeen : gmap string Z;
  exiting : gset uuid;
  trailStates : gmap uuid Trail.t;
  mlCanceller : option C;
  pexec : ExecState B;
  pfresh : N;                        (** counts the ids [uuid.New] hands out *)
  marketCalls : list MarketCall;
  broadcasts : list (string * PaperUpdate.t);
  ptasks : gmap tid PTask;
  pnextTask : tid
}.

Arguments mkPM {B C}. Arguments porders {B C}. Arguments pnext {B C}. Arguments orderCache {B C}.
Arguments symbolMeta {B C}. Arguments tokenToSym {B C}. Arguments latestLTP {B C}.
Arguments wssLastSeen {B C}. Arguments exiting {B C}. Arguments trailStates {B C}.
Arguments mlCanceller {B C}. Arguments pexec {B C}. Arguments pfresh {B C}.
Arguments marketCalls {B C}. Arguments broadcasts {B C}. Arguments ptasks {B C}.
Arguments pnextTask {B C}.

#[export] Instance eta_pm {B C} : Eta (PaperMonitor B C) := fun m =>
  mkPM m.(porders) m.(pnext) m.(orderCache) m.(symbolMeta) m.(tokenToSym) m.(latestLTP)
    m.(wssLastSeen) m.(exiting) m.(trailStates) m.(mlCanceller) m.(pexec) m.(pfresh)
    m.(marketCalls) m.(broadcasts) m.(ptasks) m.(pnextTask).

(** ** Pure parts *)

(** [computePnL]. *)
Definition computePnL (o : Order.t) (ltp : f64) : f64 :=
  let entry := safeF o.(Order.FilledPrice) in
  let qty := of_Z o.(Order.FilledQuantity) in
  if o.(Order.OrderSide) =?s "BUY" then ((ltp - entry) * qty)%f64 else ((entry - ltp) * qty)%f64.

(** The distance of the stop in per cent of the best price; zero without them. *)
Definition sl_distance_pct (side : string) (best sl : f64) : f64 :=
  if flt fzero best && flt fzero sl then
    if side =?s "BUY" then ((best - sl) / best * of_Z 100)%f64
    else ((sl - best) / best * of_Z 100)%f64
  else fzero.

(** A tick moves the trail only to a new best price, and the stop only to the
    better side; the flag tells whether the stop moved. *)
Definition advance_trail (side : string) (ltp : f64) (ts : Trail.t) : Trail.t * bool :=
  let '(Trail.mk best sl pct) := ts in
  if (side =?s "BUY") && flt best ltp then
    let newSL := (ltp * (of_Z 1 - pct / of_Z 100))%f64 in
    if flt sl newSL then (Trail.mk ltp newSL pct, true) else (Trail.mk ltp sl pct, false)
  else if (side =?s "SELL") && flt ltp best then
    let newSL := (ltp * (of_Z 1 + pct / of_Z 100))%f64 in
    if flt newSL sl || feq sl fzero then (Trail.mk ltp newSL pct, true) else (Trail.mk ltp sl pct, false)
  else (ts, false).

Definition sl_hit (side : string) (sl ltp : f64) : bool :=
  flt fzero sl && ((side =?s "BUY") && fle ltp sl || (side =?s "SELL") && fle sl ltp).

Definition tp_hit (side : string) (tp ltp : f64) : bool :=
  flt fzero tp && ((side =?s "BUY") && fle tp ltp || (side =?s "SELL") && fle ltp tp).

(** The check of [OnPriceUpdate]: the stop-loss first. *)
Definition tick_reason (side : string) (sl tp ltp : f64) : option string :=
  if sl_hit side sl ltp then Some "STOP_LOSS"
  else if tp_hit side tp ltp then Some "TAKE_PROFIT" else None.

(** The check of [checkRedisSLTP]: the take-profit first. *)
Definition safety_reason (side : string) (sl tp ltp : f64) : option string :=
  if tp_hit side tp ltp then Some "TAKE_PROFIT"
  else if sl_hit side sl ltp then Some "STOP_LOSS" else None.

(** Not completely filled. *)
Definition no_fill (o : Order.t) : bool :=
  (o.(Order.FilledQuantity) =? 0)%Z || negb (is_set o.(Order.FilledPrice)).

(** The suffix of [s] of the length of [sfx]. *)
Definition ends_with (sfx s : string) : bool :=
  (String.length sfx <? String.length s)%nat
  && (Stdlib.Strings.String.substring (String.length s - String.length sfx) (String.length sfx) s =?s sfx).

Definition cut (sfx s : string) : string :=
  Stdlib.Strings.String.substring 0 (String.length s - String.length sfx) s.

Definition symbol_suffixes : list string :=
  [" (NSE)"; " (BSE)"; " (NFO)"; " (MCX)"; " (CDS)"; " (BFO)"; "-EQ"; "-BE"; "-SM"; "-BL"].

Definition normaliseSymbol (s : string) : string :=
  match List.find (fun sfx => ends_with sfx s) symbol_suffixes with
  | Some sfx => cut sfx s
  | None => s
  end.

Section Monitor.

Context {B C : Type} {ML : PaperMLCanceller C}.

Abbreviation M := (PaperMonitor B C).

(** ** Helpers on the state *)

Definition order_at (m : M) (p : optr) : Order.t := default Order.zero (m.(porders) !! p).

Definition has_id (m : M) (id : uuid) (p : optr) : bool := bool_decide ((order_at m p).(Order.OrderID) = id).

Definition is_exiting (m : M) (id : uuid) : bool := bool_decide (id ∈ m.(exiting)).

Definition cached (m : M) (sym : string) : list optr := default [] (m.(orderCache) !! sym).

Definition alloc (o : Order.t) (m : M) : M * optr :=
  (m <| porders := <[m.(pnext) := o]> m.(porders) |> <| pnext := S m.(pnext) |>, m.(pnext)).

Fixpoint alloc_all (l : list Order.t) (m : M) : M * list optr :=
  match l with
  | [] => (m, [])
  | o :: l => let '(m, p) := alloc o m in let '(m, ps) := alloc_all l m in (m, p :: ps)
  end.

Definition update_order (p : optr) (f : Order.t -> Order.t) (m : M) : M :=
  m <| porders := alter f p m.(porders) |>.

Definition spawn (t : PTask) (m : M) : M * tid :=
  (m <| ptasks := <[m.(pnextTask) := t]> m.(ptasks) |> <| pnextTask := S m.(pnextTask) |>, m.(pnextTask)).

Definition go (t : PTask) (m : M) : M := (spawn t m).1.

Definition broadcast (userID : string) (u : PaperUpdate.t) (m : M) : M :=
  m <| broadcasts := m.(broadcasts) ++ [(userID, u)] |>.

Definition subscribe (l : list string) (m : M) : M := m <| marketCalls := m.(marketCalls) ++ [McSubscribe l] |>.
Definition unsubscribe (l : list string) (m : M) : M :=
  m <| marketCalls := m.(marketCalls) ++ [McUnsubscribe l] |>.

Definition table (m : M) : OrdersTable := m.(pexec).(xorders).

Definition set_table (t : OrdersTable) (m : M) : M := m <| pexec := m.(pexec) <| xorders := t |> |>.

(** A statement whose result is ignored. *)
Definition statement (f : OrdersTable -> OrdersTable * option string) (m : M) : M :=
  set_table (f (table m)).1 m.

(** A query: on an error the caller goes its own way. *)
Definition query (f : OrdersTable -> OrdersTable * (string + list Order.t)) (m : M) : M * (string + list Order.t) :=
  let '(t, r) := f (table m) in (set_table t m, r).

Definition with_ml (f : C * OrdersTable -> C * OrdersTable) (m : M) : M :=
  match m.(mlCanceller) with
  | None => m
  | Some c => let '(c, t) := f (c, table m) in set_table t (m <| mlCanceller := Some c |>)
  end.

Definition fresh (m : M) : M * uuid := (m <| pfresh := (m.(pfresh) + 1)%N |>, m.(pfresh)).

(** The orders of a symbol without one of them. *)
Definition others (id : uuid) (m : M) (l : list optr) : list optr :=
  List.filter (fun p => negb (has_id m id p)) l.

(** A symbol without orders leaves the cache. *)
Definition set_cached (sym : string) (l : list optr) (m : M) : M :=
  match l with
  | [] => m <| orderCache := delete sym m.(orderCache) |> <| symbolMeta := delete sym m.(symbolMeta) |>
  | _ => m <| orderCache := <[sym := l]> m.(orderCache) |>
  end.

Definition forget_price (sym : string) (m : M) : M :=
  m <| latestLTP := delete sym m.(latestLTP) |> <| wssLastSeen := delete sym m.(wssLastSeen) |>.

Definition meta_of (m : M) (sym : string) : SymbolMeta := default (mkMeta "" 0) (m.(symbolMeta) !! sym).

Definition token_strings (meta : SymbolMeta) : list string :=
  if (0 <? meta.(metaToken))%Z then [Itoa meta.(metaToken)] else [].

(** ** Registering orders *)

Definition add_meta (o : Order.t) (m : M) : M :=
  let m := match m.(symbolMeta) !! o.(Order.Symbol) with
           | Some _ => m
           | None => m <| symbolMeta := <[o.(Order.Symbol) := mkMeta o.(Order.Exchange) o.(Order.StockCode)]> m.(symbolMeta) |>
           end in
  if (0 <? o.(Order.StockCode))%Z then
    m <| tokenToSym := <[Itoa o.(Order.StockCode) := o.(Order.Symbol)]> m.(tokenToSym) |>
  else m.

Definition cache_order (p : optr) (o : Order.t) (m : M) : M :=
  add_meta o (m <| orderCache := <[o.(Order.Symbol) := cached m o.(Order.Symbol) ++ [p]]> m.(orderCache) |>).

Definition start_trail (o : Order.t) (best : f64) (m : M) : M :=
  let sl := safeF o.(Order.StopLoss) in
  let pct := sl_distance_pct o.(Order.OrderSide) best sl in
  if flt fzero pct then
    m <| trailStates := <[o.(Order.OrderID) := Trail.mk best sl pct]> m.(trailStates) |>
  else m.

(** Whether the row of a restart has a trailing stop. *)
Definition is_trailing (o : Order.t) : bool :=
  bool_decide (o.(Order.StopLossType) = Some "TRAILING")
  || match o.(Order.TrailingSLPct) with Some p => flt fzero p | None => false end.

(** The best price a restart goes on from. *)
Definition restored_best (o : Order.t) : f64 :=
  let entry := safeF o.(Order.FilledPrice) in
  match o.(Order.HighestPrice) with
  | Some h => if flt entry h then h else entry
  | None => entry
  end.

Definition load_order (m : M) (o : Order.t) : M :=
  if existsb (has_id m o.(Order.OrderID)) (cached m o.(Order.Symbol)) then m
  else
    let '(m, p) := alloc o m in
    let m := cache_order p o m in
    if is_trailing o then start_trail o (restored_best o) m else m.

(** The symbols and tokens of the cache, each once. *)
Definition all_subscriptions (m : M) : list string :=
  remove_dups (List.concat (map (fun '(sym, meta) => sym :: token_strings meta) (map_to_list m.(symbolMeta)))).

(** [Initialize]; the tickers it starts are the events [EvPnL] and [EvSafety]. *)
Definition Initialize (m : M) : M * option string :=
  match query sqlGetAllActivePaperOrders m with
  | (m, inl e) => (m, Some ("paper monitor init: " ++ e)%string)
  | (m, inr l) =>
      let m := foldl load_order m l in
      (match all_subscriptions m with [] => m | subs => subscribe subs m end, None)
  end.

Definition AddOrder (o : Order.t) (m : M) : M :=
  let '(m, p) := alloc o m in
  let m := cache_order p o m in
  let m := if bool_decide (o.(Order.StopLossType) = Some "TRAILING")
           then start_trail o (safeF o.(Order.FilledPrice)) m else m in
  let m := subscribe (o.(Order.Symbol) :: token_strings (mkMeta "" o.(Order.StockCode))) m in
  broadcast o.(Order.UserID)
    (PaperUpdate.zero <| PaperUpdate.Kind := "new_order" |> <| PaperUpdate.UserID := o.(Order.UserID) |>
       <| PaperUpdate.NewOrder := Some o |>) m.

(** ** Removing orders *)

(** The clean-up after orders of a symbol were removed from the cache. *)
Definition cleanup_symbol (sym : string) (meta : SymbolMeta) (m : M) : M :=
  match cached m sym with
  | [] =>
      let m := unsubscribe (sym :: token_strings meta) m in
      let m := forget_price sym m in
      match token_strings meta with
      | [tok] => m <| tokenToSym := delete tok m.(tokenToSym) |>
      | _ => m
      end
  | _ => m
  end.

Definition forget_order (id : uuid) (m : M) : M :=
  m <| trailStates := delete id m.(trailStates) |> <| exiting := m.(exiting) ∖ {[id]} |>.

(** [RemoveOrder]: the search ends at the first symbol that has the order, or at
    the empty symbol, which equals the initial value of the variable. *)
Definition RemoveOrder (id : uuid) (m : M) : M :=
  match List.find (fun e => existsb (has_id m id) e.2 || (e.1 =?s "")) (map_to_list m.(orderCache)) with
  | None => m
  | Some (sym, l) =>
      let meta := meta_of m sym in
      let m := set_cached sym (others id m l) m in
      if sym =?s "" then m else forget_order id (cleanup_symbol sym meta m)
  end.

Definition of_strategy_ptr (m : M) (strategyID : string) (p : optr) : bool :=
  (order_at m p).(Order.StrategyID) =?s strategyID.

Definition purge_symbol (strategyID : string) (acc : M * list (uuid * string * SymbolMeta))
    (e : string * list optr) : M * list (uuid * string * SymbolMeta) :=
  let '(m, removed) := acc in
  let '(sym, l) := e in
  let gone := List.filter (of_strategy_ptr m strategyID) l in
  (set_cached sym (List.filter (fun p => negb (of_strategy_ptr m strategyID p)) l) m,
   removed ++ map (fun p => ((order_at m p).(Order.OrderID), sym, meta_of m sym)) gone).

Definition RemoveOrdersByStrategy (strategyID : string) (m : M) : M :=
  let '(m, removed) := foldl (purge_symbol strategyID) (m, []) (map_to_list m.(orderCache)) in
  foldl (fun m '(id, sym, meta) => forget_order id (cleanup_symbol sym meta m)) m removed.

(** The first pointer to the order in the cache. *)
Definition find_cached (id : uuid) (m : M) : option optr :=
  List.find (has_id m id) (List.concat (map_to_list m.(orderCache)).*2).

Definition UpdateCachedOrderQty (id : uuid) (remainingQty : Z) (m : M) : M :=
  match find_cached id m with
  | Some p => update_order p (fun o => o <| Order.FilledQuantity := remainingQty |>) m
  | None => m
  end.

Definition UpdateCachedOrderSL (id : uuid) (newSL : f64) (m : M) : M :=
  match find_cached id m with
  | Some p => update_order p (fun o => o <| Order.StopLoss := Some newSL |>) m
  | None => m
  end.

(** ** Prices *)

(** [advanceTrailingSL]: the stop in force and whether it moved.  The goroutine
    that stores it comes later. *)
Definition advanceTrailingSL (p : optr) (ltp : f64) (m : M) : M * f64 * bool :=
  let o := order_at m p in
  match m.(trailStates) !! o.(Order.OrderID) with
  | None => (m, safeF o.(Order.StopLoss), false)
  | Some ts =>
      let '(ts, moved) := advance_trail o.(Order.OrderSide) ltp ts in
      let m := m <| trailStates := <[o.(Order.OrderID) := ts]> m.(trailStates) |> in
      let m := if moved
               then go (PTrailWrite o.(Order.OrderID) ts.(Trail.currentSL))
                      (UpdateCachedOrderSL o.(Order.OrderID) ts.(Trail.currentSL) m)
               else m in
      (m, ts.(Trail.currentSL), moved)
  end.

Definition pnl_update (o : Order.t) (sym : string) (ltp sl : f64) : PaperUpdate.t :=
  PaperUpdate.zero <| PaperUpdate.Kind := "pnl_update" |> <| PaperUpdate.OrderID := Some o.(Order.OrderID) |>
    <| PaperUpdate.Symbol := sym |> <| PaperUpdate.LTP := ltp |>
    <| PaperUpdate.LivePnL := computePnL o ltp |> <| PaperUpdate.CurrentSL := sl |>.

Definition broadcast_pnl (p : optr) (sym : string) (ltp sl : f64) (m : M) : M :=
  broadcast (order_at m p).(Order.UserID) (pnl_update (order_at m p) sym ltp sl) m.

(** The name under which the cache has the symbol of a tick. *)
Definition canonical (sym : string) (m : M) : string :=
  match cached m sym with
  | _ :: _ => sym
  | [] => match m.(tokenToSym) !! sym with Some c => c | None => normaliseSymbol sym end
  end.

(** [OnPriceUpdate] up to its loop. *)
Definition OnPriceUpdate (now : Z) (sym : string) (ltp : f64) (m : M) : M :=
  let sym := canonical sym m in
  match cached m sym with
  | [] => m
  | l => go (PTick sym ltp l)
           (m <| wssLastSeen := <[sym := now]> m.(wssLastSeen) |>
              <| latestLTP := <[sym := ltp]> m.(latestLTP) |>)
  end.

(** One order of the loop: what is left to do, and the state. *)
Definition tick_order (sym : string) (ltp : f64) (p : optr) (l : list optr) (m : M) : M * PTask :=
  let o := order_at m p in
  if is_exiting m o.(Order.OrderID) || no_fill o then (m, PTick sym ltp l)
  else
    let '(m, sl, moved) := advanceTrailingSL p ltp m in
    match tick_reason o.(Order.OrderSide) sl (safeF o.(Order.TakeProfit)) ltp with
    | Some reason => (m, PFire sym ltp p reason l)
    | None => (broadcast_pnl p sym ltp (if moved then sl else fzero) m, PTick sym ltp l)
    end.

(** The [Store] and the goroutine of the exit. *)
Definition fire (sym : string) (ltp : f64) (p : optr) (reason : string) (m : M) : M :=
  let o := order_at m p in
  go (PExit p ltp reason)
    (broadcast_pnl p sym ltp fzero (m <| exiting := {[o.(Order.OrderID)]} ∪ m.(exiting) |>)).

(** The copies [tickRedisPnL] and [checkRedisSLTP] work on. *)
Definition snapshots (m : M) : list Snap :=
  map (fun '(sym, l) => (sym, meta_of m sym, l))
    (List.filter (fun e => match e.2 with [] => false | _ => true end) (map_to_list m.(orderCache))).

(** The feed sent a price within the grace period. *)
Definition wss_active (now : Z) (sym : string) (m : M) : bool :=
  match m.(wssLastSeen) !! sym with
  | Some seen => (now - seen <? wssGracePeriod)%Z
  | None => false
  end.

Definition tickRedisPnL (m : M) : M := go (PPnL (snapshots m)) m.
Definition checkRedisSLTP (m : M) : M := go (PSafety (snapshots m)) m.

Definition redis_ltp (redis : option RedisPrices) (meta : SymbolMeta) : option f64 :=
  r ← redis; positive (RedisGetLTP r meta.(metaExchange) meta.(metaToken)).

(** One symbol of the profit ticker: prices of Redis never exit. *)
Definition pnl_symbol (redis : option RedisPrices) (now : Z) (s : Snap) (m : M) : M :=
  let '(sym, meta, l) := s in
  if wss_active now sym m || (meta.(metaToken) =? 0)%Z then m
  else
    match redis_ltp redis meta with
    | None => m
    | Some ltp =>
        foldl (fun m p =>
          let o := order_at m p in
          if is_exiting m o.(Order.OrderID) || no_fill o then m else broadcast_pnl p sym ltp fzero m)
          (m <| latestLTP := <[sym := ltp]> m.(latestLTP) |>) l
    end.

(** The price the safety net acts on: a fresh one, where the feed is silent. *)
Definition safety_price (redis : option RedisPrices) (now : Z) (s : Snap) (m : M) : option f64 :=
  let '(sym, meta, _) := s in
  if (meta.(metaToken) =? 0)%Z || wss_active now sym m then None
  else r ← redis;
       positive (GetLTPFresh r now meta.(metaExchange) meta.(metaToken) safety_max_age).

(** [effectiveSL]. *)
Definition effectiveSL (m : M) (o : Order.t) : f64 :=
  match m.(trailStates) !! o.(Order.OrderID) with
  | Some ts => ts.(Trail.currentSL)
  | None => safeF o.(Order.StopLoss)
  end.

(** One order of the safety net; a take-profit exits at its own price. *)
Definition safety_order (ltp : f64) (p : optr) (m : M) : M :=
  let o := order_at m p in
  if is_exiting m o.(Order.OrderID) || no_fill o then m
  else
    let tp := safeF o.(Order.TakeProfit) in
    match safety_reason o.(Order.OrderSide) (effectiveSL m o) tp ltp with
    | None => m
    | Some reason =>
        go (PExit p (if reason =?s "TAKE_PROFIT" then tp else ltp) reason)
          (m <| exiting := {[o.(Order.OrderID)]} ∪ m.(exiting) |>)
    end.

(** ** Exits *)

(** [resolveExitPrice]: the last price, Redis, the stop-loss, the entry. *)
Definition resolveExitPrice (redis : option RedisPrices) (m : M) (o : Order.t) : f64 :=
  match positive (m.(latestLTP) !! o.(Order.Symbol)) with
  | Some x => x
  | None =>
      match redis_ltp redis (mkMeta o.(Order.Exchange) o.(Order.StockCode)) with
      | Some x => x
      | None =>
          if flt fzero (safeF o.(Order.StopLoss)) then safeF o.(Order.StopLoss)
          else safeF o.(Order.FilledPrice)
      end
  end.

(** The removal of the order from the cache, with the subscription when the exit
    went through. *)
Definition drop_exited (o : Order.t) (ok : bool) (m : M) : M :=
  let sym := o.(Order.Symbol) in
  let remaining := others o.(Order.OrderID) m (cached m sym) in
  let meta := meta_of m sym in
  let m := set_cached sym remaining m in
  match remaining with
  | [] => if ok then forget_price sym (unsubscribe (sym :: token_strings meta) m) else m
  | _ => m
  end.

Definition exit_update (now : Z) (o : Order.t) (price : f64) (reason : string) : PaperUpdate.t :=
  PaperUpdate.zero <| PaperUpdate.Kind := "position_exit" |> <| PaperUpdate.OrderID := Some o.(Order.OrderID) |>
    <| PaperUpdate.Symbol := o.(Order.Symbol) |> <| PaperUpdate.LTP := price |>
    <| PaperUpdate.FinalPnL := computePnL o price |> <| PaperUpdate.Reason := reason |>
    <| PaperUpdate.ExitPrice := price |> <| PaperUpdate.EntryPrice := safeF o.(Order.FilledPrice) |>
    <| PaperUpdate.EntryTime := o.(Order.ExecutedAt) |> <| PaperUpdate.ExitTime := Some now |>.

(** [exitPosition], the deferred [Delete] included; the executor changes the order
    it is given.  [paperID] prints the fresh id of the reverse order. *)
Definition exitPosition (paperID : uuid -> string) (now : Z) (p : optr) (price : f64) (reason : string)
    (m : M) : M :=
  let id := (order_at m p).(Order.OrderID) in
  let m := with_ml (mlcCancelGroup now id) m in
  let '(m, newID) := fresh m in
  let '(w, o, err) := ExitPaperPosition now newID (paperID newID) price reason (order_at m p) m.(pexec) in
  let m := update_order p (fun _ => o) (m <| pexec := w |>) in
  let m := drop_exited o (negb (is_set err)) m in
  let m := match err with
           | Some _ => m
           | None =>
               broadcast o.(Order.UserID) (exit_update now o price reason)
                 (m <| trailStates := delete id m.(trailStates) |>)
           end in
  m <| exiting := m.(exiting) ∖ {[id]} |>.

(** One order of a loop of exits. *)
Definition force_order (redis : option RedisPrices) (now : Z) (reason : string) (p : optr) (spawned : list tid)
    (m : M) : M * list tid :=
  let o := order_at m p in
  if is_exiting m o.(Order.OrderID) then (m, spawned)
  else
    let m := m <| exiting := {[o.(Order.OrderID)]} ∪ m.(exiting) |> in
    let price := resolveExitPrice redis m o in
    let m := with_ml (mlcCancelGroupForExit now o.(Order.OrderID) price reason) m in
    let '(m, n) := spawn (PExit p price reason) m in
    (m, spawned ++ [n]).

Definition force_done (userID : string) (m : M) : M :=
  broadcast userID (PaperUpdate.zero <| PaperUpdate.Kind := "force_exit_done" |>
                      <| PaperUpdate.UserID := userID |>) m.

(** A filled position that is not exited yet. *)
Definition open_position (o : Order.t) : bool :=
  (IsFilledStatus o.(Order.Status) || IsPartiallyFilledStatus o.(Order.Status))
  && is_set o.(Order.FilledPrice) && negb (is_set o.(Order.PaperExitPrice)).

(** [ForceExitAll] up to its loop. *)
Definition ForceExitAll (userID : string) (m : M) : M * option string :=
  match query (sqlGetFilledPaperOrdersByUser userID) m with
  | (m, inl e) => (m, Some ("force exit: failed to fetch positions: " ++ e)%string)
  | (m, inr all) =>
      let '(m, l) := alloc_all (List.filter open_position all) m in
      (go (PForce "FORCE_EXIT" l [] (AfterForce userID)) m, None)
  end.

Definition ForceExitByStrategy (userID strategyID : string) (m : M) : M * option string :=
  match query (sqlGetExitablePaperOrdersByStrategy strategyID userID) m with
  | (m, inl e) => (m, Some ("force exit strategy: failed to fetch positions: " ++ e)%string)
  | (m, inr all) =>
      let '(m, l) := alloc_all all m in (go (PForce "FORCE_EXIT" l [] (AfterForce userID)) m, None)
  end.

(** [SquareOffAll] up to the loop of its first pass: the cache. *)
Definition SquareOffAll (now : Z) (m : M) : M :=
  let currentTime := hhmm now in
  let l := List.filter (fun p => negb (later_custom_time currentTime (order_at m p)))
             (List.concat (map_to_list m.(orderCache)).*2) in
  let os := map (order_at m) l in
  go (PForce "SQUARE_OFF" l []
        (AfterCache currentTime (map Order.OrderID os) (remove_dups (map Order.UserID os)))) m.

(** Its second pass: what only the database knows. *)
Definition square_off_sweep (currentTime : string) (inCache : list uuid) (affected : list string) (m : M) : M :=
  match query sqlGetAllActivePaperOrders m with
  | (m, inl _) => foldl (fun m u => force_done u m) m affected
  | (m, inr all) =>
      let due := List.filter (fun o => negb (bool_decide (o.(Order.OrderID) ∈ inCache))
                                       && negb (later_custom_time currentTime o)) all in
      let '(m, l) := alloc_all due m in
      go (PForce "SQUARE_OFF" l [] (AfterSweep (remove_dups (affected ++ map Order.UserID due)))) m
  end.

Definition run_after (next : After) (m : M) : M :=
  match next with
  | AfterForce userID => force_done userID m
  | AfterCache currentTime inCache affected => square_off_sweep currentTime inCache affected m
  | AfterSweep affected => foldl (fun m u => force_done u m) m affected
  end.

(** [GetCurrentPnLSnapshot]. *)
Definition snapshot_price (redis : option RedisPrices) (m : M) (sym : string) : option f64 :=
  match positive (m.(latestLTP) !! sym) with
  | Some x => Some x
  | None => if (0 <? (meta_of m sym).(metaToken))%Z then redis_ltp redis (meta_of m sym) else None
  end.

Definition GetCurrentPnLSnapshot (redis : option RedisPrices) (userID : string) (m : M) : list PaperUpdate.t :=
  List.concat (map (fun '(sym, l) =>
    omap (fun p =>
      let o := order_at m p in
      if negb (o.(Order.UserID) =?s userID) then None
      else match snapshot_price redis m sym with
           | Some ltp =>
               if no_fill o then None
               else Some (pnl_update o sym ltp fzero <| PaperUpdate.UserID := userID |>)
           | None => None
           end) l) (map_to_list m.(orderCache))).

(** [uniqueTokens]. *)
Definition uniqueTokens (m : M) : list string :=
  List.concat (map (fun e => token_strings e.2) (map_to_list m.(symbolMeta))).

(** ** Goroutines *)

(** One step of the goroutine [n]: [None] when it is blocked or gone. *)
Definition run_task (paperID : uuid -> string) (redis : option RedisPrices) (now : Z) (n : tid) (m : M) : option M :=
  let finish m := m <| ptasks := delete n m.(ptasks) |> in
  let continue t m := m <| ptasks := <[n := t]> m.(ptasks) |> in
  match m.(ptasks) !! n with
  | None => None
  | Some (PExit p price reason) => Some (exitPosition paperID now p price reason (finish m))
  | Some (PTrailWrite id newSL) =>
      let m := statement (sqlUpdateTrailingSL now id newSL) (finish m) in
      Some (m <| pexec := record_event id "PAPER_TRAILING_SL_UPDATED" m.(pexec) |>)
  | Some (PTick sym ltp []) => Some (finish m)
  | Some (PTick sym ltp (p :: l)) => let '(m, t) := tick_order sym ltp p l m in Some (continue t m)
  | Some (PFire sym ltp p reason l) => Some (continue (PTick sym ltp l) (fire sym ltp p reason m))
  | Some (PPnL []) => Some (finish m)
  | Some (PPnL (s :: l)) => Some (continue (PPnL l) (pnl_symbol redis now s m))
  | Some (PSafety []) => Some (finish m)
  | Some (PSafety (s :: l)) =>
      Some (continue (match safety_price redis now s m with
                      | Some ltp => PSafetyOrders ltp s.2 l
                      | None => PSafety l
                      end) m)
  | Some (PSafetyOrders ltp [] l) => Some (continue (PSafety l) m)
  | Some (PSafetyOrders ltp (p :: ps) l) => Some (continue (PSafetyOrders ltp ps l) (safety_order ltp p m))
  | Some (PForce reason (p :: l) spawned next) =>
      let '(m, spawned) := force_order redis now reason p spawned m in
      Some (continue (PForce reason l spawned next) m)
  | Some (PForce reason [] spawned next) =>
      if bool_decide (Forall (fun k => m.(ptasks) !! k = None) spawned)
      then Some (run_after next (finish m)) else None
  end.

(** What the other components call. *)
Inductive PEvent : Type :=
  | EvAdd (o : Order.t)
  | EvInitialize
  | EvRemove (id : uuid)
  | EvRemoveStrategy (strategyID : string)
  | EvQty (id : uuid) (remainingQty : Z)
  | EvSL (id : uuid) (newSL : f64)
  | EvTick (sym : string) (ltp : f64)
  | EvPnL
  | EvSafety
  | EvForceAll (userID : string)
  | EvForceStrategy (userID strategyID : string)
  | EvSquareOff
  | EvRun (n : tid).

Definition pm_step (paperID : uuid -> string) (redis : option RedisPrices) (now : Z) (e : PEvent) (m : M) : M :=
  match e with
  | EvAdd o => AddOrder o m
  | EvInitialize => (Initialize m).1
  | EvRemove id => RemoveOrder id m
  | EvRemoveStrategy s => RemoveOrdersByStrategy s m
  | EvQty id q => UpdateCachedOrderQty id q m
  | EvSL id sl => UpdateCachedOrderSL id sl m
  | EvTick sym ltp => OnPriceUpdate now sym ltp m
  | EvPnL => tickRedisPnL m
  | EvSafety => checkRedisSLTP m
  | EvForceAll u => (ForceExitAll u m).1
  | EvForceStrategy u s => (ForceExitByStrategy u s m).1
  | EvSquareOff => SquareOffAll now m
  | EvRun n => default m (run_task paperID redis now n m)
  end.

(** A step of the environment: the clock, what Redis holds, the event. *)
Abbreviation Move := (Z * option RedisPrices * PEvent)%type.

Definition pm_run (paperID : uuid -> string) (l : list Move) (m : M) : M :=
  foldl (fun m '(now, redis, e) => pm_step paperID redis now e m) m l.

(** [NewPaperTradeMonitor] over an executor. *)
Definition NewPaperTradeMonitor (w : ExecState B) (ml : option C) (next : N) : M :=
  mkPM ∅ 0 ∅ ∅ ∅ ∅ ∅ ∅ ∅ ml w next [] [] ∅ 0.

End Monitor.
