(* ===== verification/PaperTrail.v ===== *)
(** * Trailing stops of paper positions

    The trailing stop of a position only moves towards the price while the monitor
    runs, and stops moving when it is started again. *)

From stdpp Require Import base tactics gmap strings list fin_maps.
From Stdlib Require Import ZArith Lia Bool SpecFloat.
From S2P Require Import Prelude GoFloat FloatRound FloatOrder FloatExact Price GoStrings Orders OrderRepo.
From S2P Require Import OrderQueries Executor PaperPrices PaperMonitor.

Open Scope string_scope.
Open Scope list_scope.
Open Scope go_scope.
Open Scope Z_scope.

(** ** Floats that are not positive *)

Definition not_pos (x : f64) : Prop := flt fzero x = false.

(** Zero of either sign, negative or no number. *)
Definition neg_or_zero (x : f64) : bool :=
  match x with
  | S754_zero _ | S754_nan | S754_infinity true | S754_finite true _ _ => true
  | _ => false
  end.

Lemma neg_not_pos x : neg_or_zero x = true -> not_pos x.
Proof. by destruct x as [[]|[]| |[] m e]. Qed.

Lemma round_aux_neg m e l : neg_or_zero (binary_round_aux prec emax true m e l) = true.
Proof.
  unfold binary_round_aux. destruct (shr_fexp _ _ _ _ _) as [mrs e1]. destruct (shr_fexp _ _ _ _ loc_Exact) as [mrs2 e2].
  destruct (shr_m mrs2) as [|p|p]; [done| |done]. by destruct (Zle_bool _ _).
Qed.

Lemma round_neg m e : neg_or_zero (binary_round prec emax true m e) = true.
Proof. unfold binary_round. destruct (shl_align _ _ _). apply round_aux_neg. Qed.

Lemma fmul_neg x m e : neg_or_zero x = true -> neg_or_zero (fmul x (S754_finite false m e)) = true.
Proof. destruct x as [[]|[]| |[] m' e']; try done. intros _. apply round_aux_neg. Qed.

Lemma fdiv_neg x m e : neg_or_zero x = true -> neg_or_zero (fdiv x (S754_finite false m e)) = true.
Proof.
  destruct x as [[]|[]| |[] m' e']; try done. intros _. cbn -[binary_round_aux SFdiv_core_binary].
  destruct (SFdiv_core_binary _ _ _ _ _ _) as [[q e1] l]. apply round_aux_neg.
Qed.

Lemma fsub_neg x y : fpos x = true -> fpos y = true -> fle x y = true -> neg_or_zero (fsub x y) = true.
Proof.
  destruct x as [| | |[] m1 e1], y as [| | |[] m2 e2]; try done. intros B1 B2 H.
  destruct (fsub_pos_spec m1 e1 m2 e2) as (ez & Ez & ->).
  pose proof (fle_vle m1 e1 m2 e2 B1 B2 H) as V. apply (vle_at ez) in V; [|lia..].
  rewrite !Z.mul_1_r in V.
  destruct (Z.pos m1 * 2 ^ (e1 - ez) - Z.pos m2 * 2 ^ (e2 - ez)) as [|d|d] eqn:E; [done|lia|]. apply round_neg.
Qed.

(** A stop at the entry or beyond has no distance to it. *)
Lemma no_distance entry sl :
  fpos entry = true -> fpos sl = true -> fle entry sl = true ->
  not_pos (sl_distance_pct "BUY" entry sl).
Proof.
  intros He Hs Hle. unfold sl_distance_pct. destruct (_ && _); [|done]. cbn [String.eqb Ascii.eqb Bool.eqb].
  apply neg_not_pos. destruct entry as [| | |[] m e]; try done.
  change (of_Z 100) with (S754_finite false 7036874417766400 (-46)). apply fmul_neg, fdiv_neg. by apply fsub_neg.
Qed.

(** ** A restart *)

Section Trails.

Context {B C : Type} {ML : PaperMLCanceller C}.

Abbreviation M := (PaperMonitor B C).

Lemma cache_order_fields p o (m : M) :
  (cache_order p o m).(trailStates) = m.(trailStates) /\ (cache_order p o m).(porders) = m.(porders) /\
  (cache_order p o m).(pnext) = m.(pnext) /\ (cache_order p o m).(ptasks) = m.(ptasks) /\
  (cache_order p o m).(orderCache) = <[o.(Order.Symbol) := cached m o.(Order.Symbol) ++ [p]]> m.(orderCache).
Proof.
  unfold cache_order, add_meta. destruct (0 <? Order.StockCode o); destruct (symbolMeta _ !! _); by repeat split.
Qed.

(** The best price of a position is not stored, and the distance of its trail is
    taken from the entry and the stop as they are at the start.  So once the stop
    of a long position has risen to the entry, a restart makes it a fixed stop:
    the position is watched, but no later price moves its stop. *)
Theorem restart_stops_trailing (m : M) (o : Order.t) (entry sl : f64) (p := m.(pnext))
    (m' := load_order m o)
    (Hside : o.(Order.OrderSide) = "BUY")
    (Hnew : existsb (has_id m o.(Order.OrderID)) (cached m o.(Order.Symbol)) = false)
    (Hnone : m.(trailStates) !! o.(Order.OrderID) = None)
    (Hentry : o.(Order.FilledPrice) = Some entry) (Hsl : o.(Order.StopLoss) = Some sl)
    (Hbest : o.(Order.HighestPrice) = None)
    (Hp : fpos entry = true) (Hs : fpos sl = true) (Hle : fle entry sl = true) :
  p ∈ cached m' o.(Order.Symbol) /\
  forall ltp, advanceTrailingSL p ltp m' = (m', sl, false).
Proof.
  assert (E : m' = cache_order p o (alloc o m).1).
  { unfold m', load_order. rewrite Hnew. cbn [alloc fst]. fold p.
    destruct (is_trailing o); [|done]. unfold start_trail, restored_best. rewrite Hentry, Hsl, Hbest, Hside.
    cbn [safeF default from_option id]. by rewrite (no_distance entry sl Hp Hs Hle). }
  split.
  - rewrite E. destruct (cache_order_fields p o (alloc o m).1) as (_ & _ & _ & _ & F). unfold cached at 1.
    rewrite F, lookup_insert_eq. cbn [default from_option Datatypes.id]. rewrite elem_of_app. right. by left.
  - intros ltp. unfold advanceTrailingSL.
    destruct (cache_order_fields p o (alloc o m).1) as (F1 & F2 & _). rewrite <- E in F1, F2.
    assert (Ho : order_at m' p = o).
    { unfold order_at. rewrite F2. cbn [alloc fst porders set]. unfold p. by rewrite lookup_insert_eq. }
    rewrite Ho, F1. cbn [alloc fst trailStates set]. rewrite Hnone.
    by rewrite Hsl.
Qed.

(** ** The stop only rises *)

(** The pointers a price tick may still handle. *)
Definition task_ptrs (t : PTask) : list optr :=
  match t with PTick _ _ l => l | PFire _ _ p _ l => p :: l | _ => [] end.

Definition watched (m : M) (p : optr) : Prop :=
  (exists sym, p ∈ cached m sym) \/ (exists k t, m.(ptasks) !! k = Some t /\ p ∈ task_ptrs t).

(** Every watched order of that id is a long position. *)
Definition long_only (id : uuid) (m : M) : Prop :=
  forall p, watched m p ->
    (p < m.(pnext))%nat /\
    ((order_at m p).(Order.OrderID) = id -> (order_at m p).(Order.OrderSide) = "BUY").

Definition same_or_less (x y : f64) : Prop := x = y \/ flt x y = true.

#[local] Instance same_or_less_preorder : PreOrder same_or_less.
Proof.
  split; [by left|]. intros x y z [-> | H1] [<- | H2]; [by left|by right..|right]. by apply (flt_trans x y z).
Qed.

Definition raised (a b : Trail.t) : Prop :=
  b.(Trail.trailPct) = a.(Trail.trailPct) /\ same_or_less a.(Trail.currentSL) b.(Trail.currentSL) /\
  same_or_less a.(Trail.bestPrice) b.(Trail.bestPrice).

(** The trail is gone, or it is the same one, not lower. *)
Definition ratchet (a b : option Trail.t) : Prop :=
  match a, b with
  | _, None => True
  | Some a, Some b => raised a b
  | None, Some _ => False
  end.

Lemma ratchet_refl a : ratchet a a.
Proof. destruct a; [|done]. by repeat split. Qed.

Lemma ratchet_trans a b c : ratchet a b -> ratchet b c -> ratchet a c.
Proof.
  destruct a as [a|], b as [b|], c as [c|]; try done. intros (P1 & S1 & B1) (P2 & S2 & B2).
  split; [congruence|]. split; etransitivity; eassumption.
Qed.

Lemma advance_long ltp ts : raised ts (advance_trail "BUY" ltp ts).1.
Proof.
  destruct ts as [best sl pct]. unfold advance_trail. cbn [String.eqb Ascii.eqb Bool.eqb andb].
  destruct (flt best ltp) eqn:E1; cbn [fst].
  - destruct (flt sl _) eqn:E2; cbn [fst].
    + split; [done|]. split; right; assumption.
    + split; [done|]. split; [by left|by right].
  - by repeat split; left.
Qed.

(** What a step that registers no order does, as seen by the trail of [id]. *)
Record calm (id : uuid) (m m' : M) : Prop := {
  calm_next : (m.(pnext) <= m'.(pnext))%nat;
  calm_order : forall p, (p < m.(pnext))%nat ->
    (order_at m' p).(Order.OrderID) = (order_at m p).(Order.OrderID) /\
    (order_at m' p).(Order.OrderSide) = (order_at m p).(Order.OrderSide);
  calm_watched : forall p, watched m' p -> watched m p;
  calm_trail : ratchet (m.(trailStates) !! id) (m'.(trailStates) !! id)
}.

#[local] Instance calm_preorder id : PreOrder (calm id).
Proof.
  split.
  - intros m. split; [done|done|done|apply ratchet_refl].
  - intros a b c [N1 O1 W1 T1] [N2 O2 W2 T2]. split.
    + lia.
    + intros p Hp. destruct (O1 p Hp) as [<- <-]. apply O2. lia.
    + intros p Hp. by apply W1, W2.
    + by apply (ratchet_trans _ (b.(trailStates) !! id)).
Qed.

Lemma long_calm id m m' : long_only id m -> calm id m m' -> long_only id m'.
Proof.
  intros H [N O W _] p Hp. destruct (H p (W p Hp)) as [H1 H2]. split; [lia|].
  destruct (O p H1) as [-> ->]. exact H2.
Qed.

(** A step that leaves orders, cache, goroutines and trails alone. *)
Lemma calm_fields id m m' :
  m'.(porders) = m.(porders) -> m'.(pnext) = m.(pnext) -> m'.(orderCache) = m.(orderCache) ->
  m'.(ptasks) = m.(ptasks) -> m'.(trailStates) = m.(trailStates) -> calm id m m'.
Proof.
  intros E1 E2 E3 E4 E5. split.
  - by rewrite E2.
  - intros p _. unfold order_at. by rewrite E1.
  - intros p. unfold watched, cached. by rewrite E3, E4.
  - rewrite E5. apply ratchet_refl.
Qed.

(** A smaller cache. *)
Lemma calm_set_cached id sym l (m0 m : M) :
  calm id m0 m -> (forall p, p ∈ l -> watched m0 p) -> calm id m0 (set_cached sym l m).
Proof.
  intros Hc H. split; [by destruct l; apply Hc|by destruct l; apply Hc| |by destruct l; apply Hc].
  intros p [[sym' Hp]|Hp]; [|apply (calm_watched _ _ _ Hc); right; by destruct l].
  unfold cached in Hp. destruct (decide (sym = sym')) as [<- | Hne].
  - destruct l; cbn [set_cached orderCache set] in Hp.
    + rewrite lookup_delete_eq in Hp. by apply not_elem_of_nil in Hp.
    + rewrite lookup_insert_eq in Hp. by apply H.
  - apply (calm_watched _ _ _ Hc). left. exists sym'. unfold cached.
    destruct l; cbn [set_cached orderCache set] in Hp; [rewrite lookup_delete_ne in Hp|rewrite lookup_insert_ne in Hp]; done.
Qed.

(** A goroutine that handles no new order. *)
Lemma calm_task id k t (m0 m : M) :
  calm id m0 m -> (forall p, p ∈ task_ptrs t -> watched m0 p) ->
  calm id m0 (m <| ptasks := <[k := t]> m.(ptasks) |>).
Proof.
  intros Hc H. split; [apply Hc|apply Hc| |apply Hc].
  intros p [Hp|(k' & t' & Hk & Hp)]; [apply (calm_watched _ _ _ Hc); by left|].
  cbn [ptasks set] in Hk. apply lookup_insert_Some in Hk as [[-> ->]|[_ Hk]]; [by apply H|].
  apply (calm_watched _ _ _ Hc). right. by exists k', t'.
Qed.

Lemma calm_go id t (m0 m : M) :
  calm id m0 m -> (forall p, p ∈ task_ptrs t -> watched m0 p) -> calm id m0 (go t m).
Proof. intros Hc H. etransitivity; [by apply (calm_task id m.(pnextTask) t m0 m)|]. by apply calm_fields. Qed.

Lemma calm_finish id k (m : M) : calm id m (m <| ptasks := delete k m.(ptasks) |>).
Proof.
  split; [done|done| |apply ratchet_refl]. intros p [Hp|(k' & t' & Hk & Hp)]; [by left|].
  cbn [ptasks set] in Hk. apply lookup_delete_Some in Hk as [_ Hk]. right. by exists k', t'.
Qed.

Lemma calm_update id p f (m : M) :
  (forall o, (f o).(Order.OrderID) = o.(Order.OrderID) /\ (f o).(Order.OrderSide) = o.(Order.OrderSide)) ->
  calm id m (update_order p f m).
Proof.
  intros H. split; [done| |done|apply ratchet_refl]. intros q _. unfold order_at, update_order.
  cbn [porders set]. destruct (decide (p = q)) as [<- | Hne]; [|by rewrite lookup_alter_ne].
  rewrite lookup_alter_eq. destruct (porders m !! p); [apply H|done].
Qed.

Lemma calm_delete_trail id i (m : M) : calm id m (m <| trailStates := delete i m.(trailStates) |>).
Proof.
  split; [done|done|done|]. cbn [trailStates set]. destruct (decide (i = id)) as [-> | Hne].
  - rewrite lookup_delete_eq. by destruct (_ !! _).
  - rewrite lookup_delete_ne by done. apply ratchet_refl.
Qed.

Lemma calm_foldl {A} id (f : M -> A -> M) (l : list A) (m : M) :
  (forall m x, calm id m (f m x)) -> calm id m (foldl f m l).
Proof. intros H. revert m. induction l as [|x l IH]; intros m; [done|]. etransitivity; [apply H|apply IH]. Qed.

Lemma calm_cleanup id sym meta (m : M) : calm id m (cleanup_symbol sym meta m).
Proof. unfold cleanup_symbol. repeat case_match; by apply calm_fields. Qed.

Lemma calm_forget id i (m : M) : calm id m (forget_order i m).
Proof. etransitivity; [apply (calm_delete_trail id i)|]. by apply calm_fields. Qed.

Lemma cached_watched (m : M) sym l p : (sym, l) ∈ map_to_list m.(orderCache) -> p ∈ l -> watched m p.
Proof.
  intros H Hp. apply elem_of_map_to_list in H. left. exists sym. unfold cached. by rewrite H.
Qed.

Lemma elem_of_filter_list {A} (f : A -> bool) (l : list A) x : x ∈ List.filter f l -> x ∈ l.
Proof. rewrite !list_elem_of_In, filter_In. by intros [H _]. Qed.

Lemma calm_RemoveOrder id i (m : M) : calm id m (RemoveOrder i m).
Proof.
  unfold RemoveOrder. destruct (List.find _ _) as [[sym l]|] eqn:E; [|done].
  apply find_some in E as [E _]. apply list_elem_of_In in E.
  assert (H : calm id m (set_cached sym (others i m l) m)).
  { apply calm_set_cached; [done|]. intros p Hp. apply elem_of_filter_list in Hp. by apply (cached_watched m sym l). }
  destruct (_ =?s _); [exact H|]. etransitivity; [exact H|].
  etransitivity; [apply calm_cleanup|apply calm_forget].
Qed.

Lemma calm_RemoveStrategy id s (m : M) : calm id m (RemoveOrdersByStrategy s m).
Proof.
  unfold RemoveOrdersByStrategy.
  assert (H : forall l (acc : M * list (uuid * string * SymbolMeta)),
    (forall e, e ∈ l -> e ∈ map_to_list m.(orderCache)) -> calm id m acc.1 ->
    calm id m (foldl (purge_symbol s) acc l).1).
  { induction l as [|[sym ps] l IH]; intros [m1 rs] Hl Hc; [done|]. apply IH; [set_solver|]. cbn.
    apply calm_set_cached; [done|]. intros p Hp. apply elem_of_filter_list in Hp.
    apply (cached_watched m sym ps); [apply Hl; by left|done]. }
  specialize (H (map_to_list m.(orderCache)) (m, []) (fun _ h => h) ltac:(done)).
  destruct (foldl (purge_symbol s) (m, []) _) as [m1 rs]. etransitivity; [exact H|].
  apply calm_foldl. intros m2 [[i sym] meta]. etransitivity; [apply calm_cleanup|apply calm_forget].
Qed.

Lemma calm_UpdateSL id i sl (m : M) : calm id m (UpdateCachedOrderSL i sl m).
Proof. unfold UpdateCachedOrderSL. destruct (find_cached i m); [|done]. by apply calm_update. Qed.

Lemma calm_UpdateQty id i q (m : M) : calm id m (UpdateCachedOrderQty i q m).
Proof. unfold UpdateCachedOrderQty. destruct (find_cached i m); [|done]. by apply calm_update. Qed.

Lemma calm_alloc id o (m : M) : calm id m (alloc o m).1.
Proof.
  split; [cbn; lia| |done|apply ratchet_refl]. intros p Hp. unfold order_at. cbn.
  rewrite lookup_insert_ne by lia. done.
Qed.

Lemma calm_alloc_all id l (m : M) : calm id m (alloc_all l m).1.
Proof.
  revert m. induction l as [|o l IH]; intros m; [done|]. cbn [alloc_all].
  pose proof (calm_alloc id o m) as H. destruct (alloc o m) as [m1 p].
  specialize (IH m1). destruct (alloc_all l m1) as [m2 ps]. by etransitivity.
Qed.

Lemma calm_query id f (m : M) : calm id m (query f m).1.
Proof. unfold query. destruct (f (table m)) as [t r]. by apply calm_fields. Qed.

Lemma calm_start_force id (m : M) l reason next :
  calm id m (let '(m, ps) := alloc_all l m in go (PForce reason ps [] next) m).
Proof.
  pose proof (calm_alloc_all id l m) as H. destruct (alloc_all l m) as [m2 ps].
  apply calm_go; [exact H|]. by intros p ?%not_elem_of_nil.
Qed.

Lemma calm_ForceExitAll id u (m : M) : calm id m (ForceExitAll u m).1.
Proof.
  unfold ForceExitAll. pose proof (calm_query id (sqlGetFilledPaperOrdersByUser u) m) as H.
  destruct (query _ m) as [m1 [e|all]]; [exact H|].
  etransitivity; [exact H|]. pose proof (calm_start_force id m1 (List.filter open_position all) "FORCE_EXIT" (AfterForce u)) as G.
  by destruct (alloc_all _ m1).
Qed.

Lemma calm_ForceExitByStrategy id u s (m : M) : calm id m (ForceExitByStrategy u s m).1.
Proof.
  unfold ForceExitByStrategy. pose proof (calm_query id (sqlGetExitablePaperOrdersByStrategy s u) m) as H.
  destruct (query _ m) as [m1 [e|all]]; [exact H|].
  etransitivity; [exact H|]. pose proof (calm_start_force id m1 all "FORCE_EXIT" (AfterForce u)) as G.
  by destruct (alloc_all _ m1).
Qed.

Lemma calm_after id next (m : M) : calm id m (run_after next m).
Proof.
  destruct next as [u|time l us|us]; cbn [run_after].
  - by apply calm_fields.
  - unfold square_off_sweep. pose proof (calm_query id sqlGetAllActivePaperOrders m) as H.
    destruct (query _ m) as [m1 [e|all]]; cbn [fst] in H.
    + etransitivity; [exact H|]. apply calm_foldl. intros m2 u. by apply calm_fields.
    + etransitivity; [exact H|]. apply calm_start_force.
  - apply calm_foldl. intros m2 u. by apply calm_fields.
Qed.

(** ** One step of a goroutine *)

Lemma calm_with_ml id f (m : M) : calm id m (with_ml f m).
Proof. unfold with_ml. destruct (mlCanceller m); [|done]. destruct (f _) as [c2 t2]. by apply calm_fields. Qed.

Lemma exit_keeps_order {E} now newID paperID price reason o (w : ExecState E) :
  let o' := (ExitPaperPosition now newID paperID price reason o w).1.2 in
  o'.(Order.OrderID) = o.(Order.OrderID) /\ o'.(Order.OrderSide) = o.(Order.OrderSide) /\
  o'.(Order.Symbol) = o.(Order.Symbol).
Proof. unfold ExitPaperPosition. destruct (retryDB _ _ _) as [t [e|]]; done. Qed.

Lemma calm_replace id p o (m : M) :
  o.(Order.OrderID) = (order_at m p).(Order.OrderID) -> o.(Order.OrderSide) = (order_at m p).(Order.OrderSide) ->
  calm id m (update_order p (fun _ => o) m).
Proof.
  intros H1 H2. split; [done| |done|apply ratchet_refl]. intros q _. unfold order_at, update_order in *.
  cbn [porders set]. destruct (decide (p = q)) as [<- | Hne]; [|by rewrite lookup_alter_ne].
  rewrite lookup_alter_eq. by destruct (porders m !! p).
Qed.

Lemma calm_drop_exited id o ok (m : M) : calm id m (drop_exited o ok m).
Proof.
  unfold drop_exited.
  assert (H : calm id m (set_cached (Order.Symbol o) (others (Order.OrderID o) m (cached m (Order.Symbol o))) m)).
  { apply calm_set_cached; [done|]. intros p Hp. apply elem_of_filter_list in Hp. left. by exists (Order.Symbol o). }
  destruct (others _ _ _); [|exact H]. destruct ok; [|exact H]. etransitivity; [exact H|]. by apply calm_fields.
Qed.

Lemma calm_exitPosition id paperID now p price reason (m : M) :
  calm id m (exitPosition paperID now p price reason m).
Proof.
  unfold exitPosition. set (i := Order.OrderID (order_at m p)).
  pose proof (calm_with_ml id (mlcCancelGroup now i) m) as H1. set (m1 := with_ml _ m) in *.
  cbn [fresh]. set (m2 := m1 <| pfresh := _ |>).
  assert (H2 : calm id m m2) by (etransitivity; [exact H1|by apply calm_fields]).
  pose proof (exit_keeps_order now (pfresh m1) (paperID (pfresh m1)) price reason (order_at m2 p) m2.(pexec)) as K.
  destruct (ExitPaperPosition _ _ _ _ _ _ _) as [[w o] err]. cbn [fst snd] in K. destruct K as (K1 & K2 & _).
  set (m3 := update_order p _ _).
  assert (H3 : calm id m m3).
  { transitivity m2; [exact H2|]. transitivity (m2 <| pexec := w |>); [by apply calm_fields|by apply calm_replace]. }
  pose proof (calm_drop_exited id o (negb (is_set err)) m3) as H4. set (m4 := drop_exited _ _ m3) in *.
  assert (H5 : calm id m m4) by (by etransitivity).
  transitivity m4; [exact H5|]. destruct err; [by apply calm_fields|].
  transitivity (m4 <| trailStates := delete i m4.(trailStates) |>); [apply calm_delete_trail|]. by apply calm_fields.
Qed.

Lemma calm_force_order id redis now reason p spawned (m : M) :
  calm id m (force_order redis now reason p spawned m).1.
Proof.
  unfold force_order. destruct (is_exiting _ _); [done|]. set (m1 := m <| exiting := _ |>).
  pose proof (calm_with_ml id (mlcCancelGroupForExit now (Order.OrderID (order_at m p)) (resolveExitPrice redis m1 (order_at m p)) reason) m1) as H.
  cbn [spawn fst]. etransitivity; [by apply (calm_fields id m m1)|]. etransitivity; [exact H|].
  set (m2 := with_ml _ m1) in *. apply (calm_go id _ m2 m2 (reflexivity _)). by intros q ?%not_elem_of_nil.
Qed.

Lemma calm_safety_order id ltp p (m : M) : calm id m (safety_order ltp p m).
Proof.
  unfold safety_order. destruct (_ || _); [done|]. destruct (safety_reason _ _ _ _); [|done].
  set (m1 := m <| exiting := _ |>). transitivity m1; [by apply calm_fields|].
  apply (calm_go id _ m1 m1 (reflexivity _)). by intros q ?%not_elem_of_nil.
Qed.

Lemma calm_pnl_symbol id redis now s (m : M) : calm id m (pnl_symbol redis now s m).
Proof.
  unfold pnl_symbol. destruct s as [[sym meta] l]. destruct (_ || _); [done|].
  destruct (redis_ltp _ _) as [x|]; [|done]. transitivity (m <| latestLTP := <[sym := x]> m.(latestLTP) |>); [|apply calm_foldl].
  - by apply calm_fields.
  - intros m1 p. destruct (_ || _); [done|]. by apply calm_fields.
Qed.

(** The one place where a trail moves. *)
Lemma calm_advance id p ltp (m : M) :
  (order_at m p).(Order.OrderID) <> id \/ (order_at m p).(Order.OrderSide) = "BUY" ->
  calm id m (advanceTrailingSL p ltp m).1.1.
Proof.
  intros Hp. unfold advanceTrailingSL. set (o := order_at m p) in *.
  destruct (trailStates m !! Order.OrderID o) as [ts|] eqn:E; [|done].
  destruct (advance_trail (Order.OrderSide o) ltp ts) as [ts' moved] eqn:Ea. cbn [fst].
  set (m1 := m <| trailStates := _ |>).
  assert (H1 : calm id m m1).
  { split; [done|done|done|]. unfold m1. cbn [trailStates set].
    destruct (decide (Order.OrderID o = id)) as [<- | Hne]; [|rewrite lookup_insert_ne by done; apply ratchet_refl].
    rewrite lookup_insert_eq, E. destruct Hp as [Hp|Hp]; [done|]. rewrite Hp in Ea.
    pose proof (advance_long ltp ts) as R. by rewrite Ea in R. }
  destruct moved; [|exact H1]. transitivity m1; [exact H1|].
  set (m2 := UpdateCachedOrderSL _ _ m1). transitivity m2; [apply calm_UpdateSL|].
  apply (calm_go id _ m2 m2 (reflexivity _)). by intros q ?%not_elem_of_nil.
Qed.

Lemma calm_tick_order id sym ltp p l (m : M) (r := tick_order sym ltp p l m) :
  (order_at m p).(Order.OrderID) <> id \/ (order_at m p).(Order.OrderSide) = "BUY" ->
  calm id m r.1 /\ (forall q, q ∈ task_ptrs r.2 -> q = p \/ q ∈ l).
Proof.
  intros Hp. unfold r, tick_order. destruct (_ || _); [by split; [|right]|].
  pose proof (calm_advance id p ltp m Hp) as H. destruct (advanceTrailingSL p ltp m) as [[m1 sl] moved].
  cbn [fst] in H. destruct (tick_reason _ _ _ _) as [reason|]; cbn [fst snd task_ptrs].
  - split; [exact H|]. intros q. by rewrite elem_of_cons.
  - split; [|by right]. transitivity m1; [exact H|]. by apply calm_fields.
Qed.

Lemma calm_run id paperID redis now n (m : M) :
  long_only id m -> calm id m (default m (run_task paperID redis now n m)).
Proof.
  intros Hl. unfold run_task. destruct (ptasks m !! n) as [t|] eqn:E; [|done].
  assert (Hw : forall p, p ∈ task_ptrs t -> watched m p) by (intros p Hp; right; by exists n, t).
  destruct t as [p price reason|i sl|sym ltp [|p l]|sym ltp p reason l|[|s l]|[|s l]|ltp [|p ps] l|reason [|p l] sp next];
    cbn [default from_option Datatypes.id].
  - etransitivity; [apply (calm_finish id n)|apply calm_exitPosition].
  - etransitivity; [apply (calm_finish id n)|]. by apply calm_fields.
  - apply calm_finish.
  - assert (Hp : watched m p) by (apply Hw; by left).
    assert (Hside : (order_at m p).(Order.OrderID) <> id \/ (order_at m p).(Order.OrderSide) = "BUY").
    { destruct (decide ((order_at m p).(Order.OrderID) = id)); [right|by left]. by apply (Hl p Hp). }
    destruct (calm_tick_order id sym ltp p l m Hside) as [H1 H2].
    destruct (tick_order sym ltp p l m) as [m1 t]. apply calm_task; [exact H1|].
    intros q Hq. destruct (H2 q Hq) as [-> | Hq']; [exact Hp|]. apply Hw. by right.
  - apply calm_task.
    + unfold fire. set (m1 := broadcast_pnl _ _ _ _ _). transitivity m1; [by apply calm_fields|].
      apply (calm_go id _ m1 m1 (reflexivity _)). by intros q ?%not_elem_of_nil.
    + intros q Hq. apply Hw. by right.
  - apply calm_finish.
  - apply calm_task; [apply calm_pnl_symbol|]. by intros q ?%not_elem_of_nil.
  - apply calm_finish.
  - apply calm_task; [done|]. intros q Hq. by destruct (safety_price _ _ _ _); apply not_elem_of_nil in Hq.
  - apply calm_task; [done|]. by intros q ?%not_elem_of_nil.
  - apply calm_task; [apply calm_safety_order|]. by intros q ?%not_elem_of_nil.
  - destruct (bool_decide _); [|done]. cbn [default from_option Datatypes.id].
    etransitivity; [apply (calm_finish id n)|apply calm_after].
  - pose proof (calm_force_order id redis now reason p sp m) as H.
    destruct (force_order redis now reason p sp m) as [m1 sp']. cbn [default from_option Datatypes.id].
    apply calm_task; [exact H|]. by intros q ?%not_elem_of_nil.
Qed.

(** Registering another order. *)
Lemma long_add id o (m : M) :
  o.(Order.OrderID) <> id -> long_only id m -> long_only id (AddOrder o m) /\
  (AddOrder o m).(trailStates) !! id = m.(trailStates) !! id.
Proof.
  intros Hne H. unfold AddOrder. cbn [alloc]. set (p := pnext m). set (m1 := m <| porders := _ |> <| pnext := _ |>).
  destruct (cache_order_fields p o m1) as (F1 & F2 & F3 & F4 & F5). set (m2 := cache_order p o m1) in *.
  set (m3 := if bool_decide _ then _ else _).
  assert (G : m3.(porders) = m2.(porders) /\ m3.(pnext) = m2.(pnext) /\ m3.(ptasks) = m2.(ptasks) /\
    m3.(orderCache) = m2.(orderCache) /\ m3.(trailStates) !! id = m2.(trailStates) !! id).
  { unfold m3, start_trail. destruct (bool_decide _); [|done]. destruct (flt _ _); [|done]. repeat split.
    cbn [trailStates set]. by rewrite lookup_insert_ne. }
  destruct G as (G1 & G2 & G3 & G4 & G5).
  split; [|change (trailStates m3 !! id = trailStates m !! id); by rewrite G5, F1].
  intros q Hq. assert (Hq' : watched m q \/ q = p).
  { destruct Hq as [[sym Hq]|(k & t & Hk & Hq)].
    - unfold cached in Hq. change (q ∈ default [] (m3.(orderCache) !! sym)) in Hq. rewrite G4, F5 in Hq.
      destruct (decide (o.(Order.Symbol) = sym)) as [<- | Hs].
      + rewrite lookup_insert_eq in Hq. cbn [default from_option Datatypes.id] in Hq.
        apply elem_of_app in Hq as [Hq|Hq]; [left; left; by exists o.(Order.Symbol)|right].
        by apply list_elem_of_singleton in Hq.
      + rewrite lookup_insert_ne in Hq by done. left. left. by exists sym.
    - change (m3.(ptasks) !! k = Some t) in Hk. rewrite G3, F4 in Hk. left. right. by exists k, t. }
  assert (Hord : forall r, order_at (broadcast o.(Order.UserID) (PaperUpdate.zero <| PaperUpdate.Kind := "new_order" |>
    <| PaperUpdate.UserID := o.(Order.UserID) |> <| PaperUpdate.NewOrder := Some o |>)
    (subscribe (o.(Order.Symbol) :: token_strings (mkMeta "" o.(Order.StockCode))) m3)) r =
    default Order.zero (<[p := o]> m.(porders) !! r)).
  { intros r. unfold order_at. change (porders _) with (porders m3) at 1. by rewrite G1, F2. }
  rewrite Hord. change (pnext _) with (pnext m3) at 1. rewrite G2, F3. change (pnext m1) with (S p).
  destruct Hq' as [Hw | ->].
  - destruct (H q Hw) as [H1 H2]. split; [lia|]. rewrite lookup_insert_ne by (unfold p; lia). exact H2.
  - split; [lia|]. rewrite lookup_insert_eq. by cbn.
Qed.

(** Neither the start of the monitor nor the registration of [id] itself. *)
Definition leaves (id : uuid) (e : PEvent) : bool :=
  match e with
  | EvInitialize => false
  | EvAdd o => negb (bool_decide (o.(Order.OrderID) = id))
  | _ => true
  end.

Lemma step_ratchet paperID redis now e id (m : M) (m' := pm_step paperID redis now e m) :
  leaves id e = true -> long_only id m ->
  long_only id m' /\ ratchet (m.(trailStates) !! id) (m'.(trailStates) !! id).
Proof.
  intros He Hl.
  assert (Hcalm : calm id m m' -> long_only id m' /\ ratchet (m.(trailStates) !! id) (m'.(trailStates) !! id)).
  { intros Hc. split; [by apply (long_calm id m)|apply Hc]. }
  unfold m' in *. destruct e as [o| |i|s|i q|i sl|sym ltp| | |u|u s| |n]; cbn [pm_step] in *.
  - apply negb_true_iff, bool_decide_eq_false_1 in He. destruct (long_add id o m He Hl) as [H1 H2].
    split; [exact H1|]. rewrite H2. apply ratchet_refl.
  - discriminate He.
  - apply Hcalm. apply calm_RemoveOrder.
  - apply Hcalm. apply calm_RemoveStrategy.
  - apply Hcalm. apply calm_UpdateQty.
  - apply Hcalm. apply calm_UpdateSL.
  - apply Hcalm. unfold OnPriceUpdate. destruct (cached m (canonical sym m)) as [|p l] eqn:E; [done|].
    apply calm_go; [by apply calm_fields|]. intros q Hq. left. exists (canonical sym m). by rewrite E.
  - apply Hcalm. apply (calm_go id _ m m (reflexivity _)). by intros q ?%not_elem_of_nil.
  - apply Hcalm. apply (calm_go id _ m m (reflexivity _)). by intros q ?%not_elem_of_nil.
  - apply Hcalm. apply calm_ForceExitAll.
  - apply Hcalm. apply calm_ForceExitByStrategy.
  - apply Hcalm. apply (calm_go id _ m m (reflexivity _)). by intros q ?%not_elem_of_nil.
  - apply Hcalm. by apply calm_run.
Qed.

Lemma run_ratchet paperID (moves : list (Z * option RedisPrices * PEvent)) id (m : M) :
  Forall (fun mv => leaves id mv.2 = true) moves -> long_only id m ->
  long_only id (pm_run paperID moves m) /\
  ratchet (m.(trailStates) !! id) ((pm_run paperID moves m).(trailStates) !! id).
Proof.
  intros Hmoves. revert m. induction Hmoves as [|[[now redis] e] moves He _ IH]; intros m Hlong.
  { split; [exact Hlong|apply ratchet_refl]. }
  cbn [pm_run foldl]. destruct (step_ratchet paperID redis now e id m He Hlong) as [H1 H2].
  destruct (IH _ H1) as [H3 H4]. split; [exact H3|]. by apply (ratchet_trans _ _ _ H2).
Qed.

(** The stop a tick of a long position with a trail is compared with. *)
Lemma advance_stop p ltp id ts (m : M) :
  (order_at m p).(Order.OrderID) = id -> (order_at m p).(Order.OrderSide) = "BUY" ->
  m.(trailStates) !! id = Some ts -> same_or_less ts.(Trail.currentSL) (advanceTrailingSL p ltp m).1.2.
Proof.
  intros Hid Hb Ht. unfold advanceTrailingSL. rewrite Hid, Ht, Hb.
  pose proof (advance_long ltp ts) as (_ & H & _). by destruct (advance_trail "BUY" ltp ts) as [ts' moved].
Qed.

(** C21: the trailing stop of a long paper position never falls while the monitor
    runs: whatever ticks arrive, whatever Redis holds, whatever stop is written into
    the cached order, and however the goroutines, exits, removals and the
    registrations of other orders interleave, the trail of the position is either
    gone or has the same distance and neither a lower stop nor a lower best price,
    and the stop that the next tick of the position is compared with is not below
    the one it started with. A position without a trail has the fixed stop of its
    order, of which this says nothing; the start of the monitor and a second
    registration of the same order, which make the trail anew, are excluded. *)
Theorem paper_trail_ratchets (paperID : uuid -> string) (moves : list (Z * option RedisPrices * PEvent))
    (id : uuid) (ts : Trail.t) (m : M) (m' := pm_run paperID moves m)
    (Hmoves : Forall (fun mv => leaves id mv.2 = true) moves) (Hlong : long_only id m)
    (Htrail : m.(trailStates) !! id = Some ts) :
  m'.(trailStates) !! id = None \/
  exists ts', m'.(trailStates) !! id = Some ts' /\ ts'.(Trail.trailPct) = ts.(Trail.trailPct) /\
    same_or_less ts.(Trail.currentSL) ts'.(Trail.currentSL) /\
    same_or_less ts.(Trail.bestPrice) ts'.(Trail.bestPrice) /\
    forall p ltp, watched m' p -> (order_at m' p).(Order.OrderID) = id ->
      same_or_less ts.(Trail.currentSL) (advanceTrailingSL p ltp m').1.2.
Proof.
  destruct (run_ratchet paperID moves id m Hmoves Hlong) as [Hl Hr]. fold m' in Hl, Hr.
  rewrite Htrail in Hr. destruct (trailStates m' !! id) as [ts'|] eqn:E; [right|by left].
  exists ts'. destruct Hr as (H1 & H2 & H3). do 4 (split; [done|]). intros p ltp Hw Hid.
  transitivity ts'.(Trail.currentSL); [exact H2|]. apply (advance_stop p ltp id); [done| |done].
  by apply (Hl p Hw).
Qed.

End Trails.

(** ** Instances *)

#[export] Instance no_canceller : PaperMLCanceller unit := {
  mlcCancelGroup _ _ s := s;
  mlcCancelGroupForExit _ _ _ _ s := s
}.

(** Ten shares at 100 with a stop at 95 that trails. *)
Definition trailing_order : Order.t :=
  Order.zero <| Order.OrderID := 7%N |> <| Order.UserID := "u" |> <| Order.Symbol := "TCS" |>
    <| Order.StockCode := 5%Z |> <| Order.Exchange := "NSE" |> <| Order.OrderSide := "BUY" |>
    <| Order.IsPaperTrade := true |> <| Order.Status := "FILLED" |> <| Order.Quantity := 10%Z |>
    <| Order.FilledQuantity := 10%Z |> <| Order.FilledPrice := Some (of_Z 100) |>
    <| Order.StopLoss := Some (of_Z 95) |> <| Order.StopLossType := Some "TRAILING" |>.

Definition no_orders : PaperMonitor unit unit :=
  NewPaperTradeMonitor (mkExec tt None (mkTable ∅ []) [] [] [] [] [] [] []) None 1000%N.

Definition trailing_monitor : PaperMonitor unit unit := AddOrder trailing_order no_orders.

(** The price rises to 110 and falls to 106. *)
Definition rise_and_fall : list (Z * option RedisPrices * PEvent) :=
  [(10%Z, None, EvTick "TCS" (of_Z 110)); (11%Z, None, EvRun 0); (12%Z, None, EvRun 1);
   (13%Z, None, EvTick "TCS" (of_Z 106)); (14%Z, None, EvRun 2); (15%Z, None, EvRun 0)].

Lemma trailing_long : long_only 7%N trailing_monitor.
Proof.
  intros p [[sym Hp]|(k & t & Hk & Hp)].
  - unfold cached in Hp. change (orderCache trailing_monitor) with (<[ "TCS" := [0%nat] ]> (∅ : gmap string (list optr))) in Hp.
    destruct (decide (sym = "TCS")) as [-> | Hne].
    + rewrite lookup_insert_eq in Hp. apply list_elem_of_singleton in Hp as ->. split; [apply Nat.ltb_lt; vm_compute; reflexivity|vm_compute; reflexivity].
    + rewrite lookup_insert_ne, lookup_empty in Hp by done. by apply not_elem_of_nil in Hp.
  - change (ptasks trailing_monitor) with (∅ : gmap tid PTask) in Hk. by rewrite lookup_empty in Hk.
Qed.

Lemma paper_trail_ratchets_witness :
  (Trail.currentSL <$> trailing_monitor.(trailStates) !! 7%N) = Some (of_Z 95) /\
  (Trail.currentSL <$> (pm_run (fun _ => "P") rise_and_fall trailing_monitor).(trailStates) !! 7%N)
    = Some (dec 1045 1) /\
  same_or_less (of_Z 95) (advanceTrailingSL 0 (of_Z 90) (pm_run (fun _ => "P") rise_and_fall trailing_monitor)).1.2.
Proof.
  split; [vm_compute; reflexivity|]. split; [vm_compute; reflexivity|].
  destruct (paper_trail_ratchets (fun _ => "P") rise_and_fall 7%N (Trail.mk (of_Z 100) (of_Z 95) (of_Z 5))
    trailing_monitor) as [H|(ts' & _ & _ & _ & _ & H)]; [by repeat constructor|exact trailing_long|vm_compute; reflexivity| |].
  - vm_compute in H. discriminate H.
  - apply H; [|vm_compute; reflexivity]. left. exists "TCS".
    assert (E : cached (pm_run (fun _ => "P") rise_and_fall trailing_monitor) "TCS" = [0%nat])
      by (vm_compute; reflexivity).
    rewrite E. by apply list_elem_of_singleton.
Defined.

(** The stop is now above the entry; the row keeps it, the best price is lost. *)
Definition stored_order : Order.t := trailing_order <| Order.StopLoss := Some (dec 1045 1) |>.

Lemma restart_stops_trailing_witness :
  advanceTrailingSL 0 (of_Z 200) (load_order no_orders stored_order) =
  (load_order no_orders stored_order, dec 1045 1, false).
Proof.
  apply (restart_stops_trailing no_orders stored_order (of_Z 100) (dec 1045 1));
    first [reflexivity|vm_compute; reflexivity].
Defined.
