(* ===== verification/PaperExits.v ===== *)
(** * Exits of paper positions

    What one exit writes, which exits a price tick starts, and how a position can
    be left twice. *)

From stdpp Require Import base tactics gmap strings list fin_maps.
From Stdlib Require Import ZArith Lia Bool.
From S2P Require Import Prelude GoFloat GoStrings GoTime Orders OrderRepo OrderQueries Executor.
From S2P Require Import PaperPrices PaperMonitor PaperTrail.

Open Scope string_scope.
Open Scope list_scope.
Open Scope go_scope.

(** ** What an exit writes *)

Lemma retry_exit now id price pnl rs :
  exists rs', retryDB 3 (sqlUpdatePaperTradeExit now id price pnl) (mkTable rs []) = (mkTable rs' [], None) /\
    (forall i, rs !! i = None -> rs' !! i = None) /\
    (forall i r, rs !! i = Some r -> r.(Order.OrderID) <> id \/ is_set r.(Order.PaperExitPrice) = true ->
       rs' !! i = Some r).
Proof.
  eexists. split; [reflexivity|]. split.
  - intros i Hi. rewrite lookup_fmap. cbn [rows]. by rewrite Hi.
  - intros i r Hi Hr. rewrite lookup_fmap. cbn [rows]. rewrite Hi. cbn.
    destruct Hr as [Hr|Hr]; [by rewrite bool_decide_eq_false_2|]. by rewrite Hr, andb_false_r.
Qed.

Lemma retry_create o rs :
  rs !! o.(Order.OrderID) = None ->
  (retryDB 3 (sqlCreate o) (mkTable rs [])).1 = mkTable (<[o.(Order.OrderID) := inserted_row o]> rs) [].
Proof. intros H. cbn [retryDB]. unfold sqlCreate. cbn [driver faults rows]. by rewrite H. Qed.

(** What the exit of the monitor adds. *)
Lemma exit_position_rows {B} (w : ExecState B) now newID paperID price reason o rs :
  w.(xorders) = mkTable rs [] -> rs !! newID = None ->
  exists w' o' rs' rv, ExitPaperPosition now newID paperID price reason o w = (w', o', None) /\
    w'.(xorders) = mkTable rs' [] /\ rs' !! newID = Some (inserted_row rv) /\
    (exists original, rv = reverse_exit_order now newID paperID original price /\
       original.(Order.UserID) = o.(Order.UserID) /\
       original.(Order.OrderSide) = o.(Order.OrderSide) /\ original.(Order.Symbol) = o.(Order.Symbol) /\
       original.(Order.FilledQuantity) = o.(Order.FilledQuantity)) /\
    forall i r, rs !! i = Some r -> r.(Order.OrderID) <> o.(Order.OrderID) \/ is_set r.(Order.PaperExitPrice) = true ->
      rs' !! i = Some r.
Proof.
  intros Hw Hnone. unfold ExitPaperPosition. cbv zeta.
  set (o1 := set Order.UpdatedAt _ _). change (Order.OrderID o1) with (Order.OrderID o). rewrite Hw.
  destruct (retry_exit now o.(Order.OrderID) price (paper_pnl o price) rs) as (rs1 & -> & H1 & H2).
  set (rv := reverse_exit_order now newID paperID o1 price).
  do 4 eexists. split; [reflexivity|].
  assert (E : (retryDB 3 (sqlCreate rv) (mkTable rs1 [])).1 = mkTable (<[newID := inserted_row rv]> rs1) [])
    by (apply (retry_create rv); by apply H1).
  split; [exact E|]. split; [apply lookup_insert_eq|]. split; [by exists o1|].
  intros i r Hi Hr. rewrite lookup_insert_ne by congruence. by apply H2.
Qed.

Lemma drop_exited_pexec {B C} (o : Order.t) ok (m : PaperMonitor B C) : (drop_exited o ok m).(pexec) = m.(pexec).
Proof.
  unfold drop_exited. destruct (others _ _ _) as [|x l]; [|done].
  destruct ok; done.
Qed.

Lemma exit_position_table {B C} {ML : PaperMLCanceller C} paperID now p price reason (m : PaperMonitor B C) :
  let m1 := with_ml (mlcCancelGroup now (order_at m p).(Order.OrderID)) m in
  table (exitPosition paperID now p price reason m) =
  (ExitPaperPosition now m1.(pfresh) (paperID m1.(pfresh)) price reason (order_at m1 p) m1.(pexec)).1.1.(xorders).
Proof.
  cbv zeta. unfold exitPosition. set (m1 := with_ml _ m). cbn [fresh].
  change (order_at (m1 <| pfresh := (m1.(pfresh) + 1)%N |>) p) with (order_at m1 p).
  change (pexec (m1 <| pfresh := (m1.(pfresh) + 1)%N |>)) with (pexec m1).
  destruct (ExitPaperPosition _ _ _ _ _ _ _) as [[w o] err]. unfold table.
  destruct err; cbn [is_set negb fst]; cbn [pexec set]; unfold broadcast; cbn [pexec set]; by rewrite drop_exited_pexec.
Qed.

Lemma with_ml_some {B C} (f : C * OrdersTable -> C * OrdersTable) (m : PaperMonitor B C) c c2 t2 :
  m.(mlCanceller) = Some c -> f (c, table m) = (c2, t2) ->
  with_ml f m = m <| mlCanceller := Some c2 |> <| pexec := m.(pexec) <| xorders := t2 |> |>.
Proof. intros Hc Hf. unfold with_ml. by rewrite Hc, Hf. Qed.

(** A record of [q] shares sold, or bought back, at [price]. *)
Definition exit_of (o : Order.t) (q : Z) (r : Order.t) : Prop :=
  r.(Order.IsSquareOffOrder) = true /\ r.(Order.IsPaperTrade) = true /\ r.(Order.Status) = StatusFilled /\
  r.(Order.UserID) = o.(Order.UserID) /\ r.(Order.Symbol) = o.(Order.Symbol) /\
  r.(Order.Quantity) = q.

(** ** A position left twice *)

Section Exits.

Context {B C : Type} {ML : PaperMLCanceller C}.
Context (paperID : uuid -> string).

Abbreviation M := (PaperMonitor B C).

(** The safety net works on a copy of the cache and asks Redis for the price of
    each symbol; an exit that is through in the meantime has left [exiting] again.
    The position is then exited once more: the guarded update of its row changes
    nothing, which is no error, and a second order of the reverse side is inserted
    for the whole quantity. *)
Theorem late_safety_net_exits_twice (redis redis' : option RedisPrices) (now now' : Z) (n : tid) (ltp : f64)
    (p : optr) (ps : list optr) (l : list Snap) (reason : string) (m : M) (row : Order.t)
    (o := order_at m p) (id := o.(Order.OrderID))
    (m' := pm_run paperID [(now, redis, EvRun n); (now', redis', EvRun m.(pnextTask))] m)
    (Htask : m.(ptasks) !! n = Some (PSafetyOrders ltp (p :: ps) l)) (Hn : n <> m.(pnextTask))
    (Hidle : is_exiting m id = false) (Hfill : no_fill o = false)
    (Hhit : safety_reason o.(Order.OrderSide) (effectiveSL m o) (safeF o.(Order.TakeProfit)) ltp = Some reason)
    (Hml : m.(mlCanceller) = None) (Hfaults : (table m).(faults) = [])
    (Hrow : (table m).(rows) !! id = Some row) (Hgone : is_set row.(Order.PaperExitPrice) = true)
    (Hfresh : (table m).(rows) !! m.(pfresh) = None) :
  (table m').(rows) !! id = Some row /\
  exists r, (table m').(rows) !! m.(pfresh) = Some r /\ exit_of o o.(Order.FilledQuantity) r /\
    r.(Order.OrderSide) = (if o.(Order.OrderSide) =?s "SELL" then "BUY" else "SELL").
Proof.
  set (k := m.(pnextTask)). set (price := if reason =?s "TAKE_PROFIT" then safeF o.(Order.TakeProfit) else ltp).
  set (m1 := m <| exiting := {[id]} ∪ m.(exiting) |>).
  set (m2 := m1 <| ptasks := <[n := PSafetyOrders ltp ps l]> (<[k := PExit p price reason]> m.(ptasks)) |>
                <| pnextTask := S k |>).
  assert (S1 : pm_step paperID redis now (EvRun n) m = m2).
  { cbn [pm_step]. unfold run_task. rewrite Htask. unfold safety_order. fold o. fold id.
    rewrite Hidle, Hfill. cbn [orb]. rewrite Hhit. reflexivity. }
  assert (Hk : ptasks m2 !! k = Some (PExit p price reason)).
  { unfold m2. cbn [ptasks set]. by rewrite lookup_insert_ne, lookup_insert_eq. }
  unfold m'. cbn [pm_run foldl]. rewrite S1. change (m.(pnextTask)) with k.
  cbn [pm_step]. unfold run_task. rewrite Hk. cbn [default from_option].
  unfold Datatypes.id. set (m3 := m2 <| ptasks := delete k m2.(ptasks) |>).
  rewrite exit_position_table. cbv zeta.
  assert (W : forall f, with_ml f m3 = m3).
  { intros f. unfold with_ml. change (mlCanceller m3) with (mlCanceller m). by rewrite Hml. }
  rewrite W. change (order_at m3 p) with o. change (pfresh m3) with (pfresh m).
  assert (Hx : (pexec m3).(xorders) = mkTable (table m).(rows) []).
  { change ((pexec m3).(xorders)) with (table m). clear -Hfaults. destruct (table m) as [r f]. cbn in Hfaults. by subst f. }
  destruct (exit_position_rows (pexec m3) now' m.(pfresh) (paperID m.(pfresh)) price reason o _ Hx Hfresh)
    as (w' & o' & rs' & rv & -> & Hw' & Hrv & (original & -> & U1 & U2 & U3 & U4) & Hkeep).
  cbn [fst]. rewrite Hw'. cbn [rows]. split; [apply Hkeep; [exact Hrow|by right]|].
  eexists. split; [exact Hrv|]. split; [by repeat split|]. cbn [inserted_row reverse_exit_order Order.OrderSide set].
  rewrite <- U2. reflexivity.
Qed.

(** ** The exits of a tick *)

(** The stop a tick is compared with. *)
Definition stop_after (m : M) (ltp : f64) (o : Order.t) : f64 :=
  match m.(trailStates) !! o.(Order.OrderID) with
  | Some ts => (advance_trail o.(Order.OrderSide) ltp ts).1.(Trail.currentSL)
  | None => safeF o.(Order.StopLoss)
  end.

(** Whether, and why, a tick exits the order. *)
Definition decision (m : M) (ltp : f64) (p : optr) : option string :=
  let o := order_at m p in
  if is_exiting m o.(Order.OrderID) || no_fill o then None
  else tick_reason o.(Order.OrderSide) (stop_after m ltp o) (safeF o.(Order.TakeProfit)) ltp.

(** The exits among goroutines. *)
Definition exits_in (l : list PTask) : list (optr * f64 * string) :=
  omap (fun t => match t with PExit p price reason => Some (p, price, reason) | _ => None end) l.

(** The goroutines started between two states, in order. *)
Definition spawned (m m' : M) : list PTask :=
  omap (fun j => m'.(ptasks) !! j) (seq m.(pnextTask) (m'.(pnextTask) - m.(pnextTask))).

(** [k] steps of the goroutine [n]. *)
Definition run_steps (redis : option RedisPrices) (now : Z) (n : tid) (k : nat) (m : M) : M :=
  Nat.iter k (fun m => default m (run_task paperID redis now n m)) m.

(** Only new goroutines and [n] itself. *)
Definition grows (n : tid) (m m' : M) : Prop :=
  (m.(pnextTask) <= m'.(pnextTask))%nat /\
  forall j, j <> n -> (j < m.(pnextTask))%nat -> m'.(ptasks) !! j = m.(ptasks) !! j.

Lemma tick_grows_refl n m : grows n m m.
Proof. by split. Qed.

Lemma tick_grows_trans n m1 m2 m3 : grows n m1 m2 -> grows n m2 m3 -> grows n m1 m3.
Proof.
  intros [L1 H1] [L2 H2]. split; [lia|]. intros j Hj Hlt. rewrite H2 by (done || lia). by apply H1.
Qed.

Lemma omap_ext_in {A D} (f g : A -> option D) (l : list A) : (forall x, x ∈ l -> f x = g x) -> omap f l = omap g l.
Proof.
  intros H. induction l as [|x l IH]; [done|]. cbn. rewrite (H x) by (by left).
  rewrite IH; [done|]. intros y Hy. apply H. by right.
Qed.

Lemma spawned_trans n m1 m2 m3 :
  (n < m1.(pnextTask))%nat -> grows n m1 m2 -> grows n m2 m3 -> spawned m1 m3 = spawned m1 m2 ++ spawned m2 m3.
Proof.
  intros Hn [L1 H1] [L2 H2]. unfold spawned.
  replace (pnextTask m3 - pnextTask m1)%nat
    with ((pnextTask m2 - pnextTask m1) + (pnextTask m3 - pnextTask m2))%nat by lia.
  rewrite seq_app, omap_app. f_equal.
  - apply omap_ext_in. intros j Hj. apply elem_of_seq in Hj. apply H2; lia.
  - f_equal. f_equal; lia.
Qed.

(** What the handling of one order leaves of the others. *)
Definition keeps_others (i : uuid) (m m' : M) : Prop :=
  (forall q, (order_at m q).(Order.OrderID) <> i -> order_at m' q = order_at m q) /\
  (forall j, j <> i -> m'.(trailStates) !! j = m.(trailStates) !! j).

(** The fields of the order the check reads after the trail has moved. *)
Definition same_position (o o' : Order.t) : Prop :=
  o'.(Order.OrderID) = o.(Order.OrderID) /\ o'.(Order.OrderSide) = o.(Order.OrderSide) /\
  o'.(Order.TakeProfit) = o.(Order.TakeProfit).

Lemma update_sl_spec i sl (m : M) (m' := UpdateCachedOrderSL i sl m) :
  m'.(ptasks) = m.(ptasks) /\ m'.(pnextTask) = m.(pnextTask) /\ m'.(exiting) = m.(exiting) /\
  keeps_others i m m' /\ forall q, same_position (order_at m q) (order_at m' q).
Proof.
  unfold m', UpdateCachedOrderSL. destruct (find_cached i m) as [q|] eqn:E.
  2:{ repeat split. }
  apply find_some in E as [_ E]. unfold has_id in E. apply bool_decide_eq_true_1 in E.
  repeat split; try done; unfold order_at, update_order in *; cbn [porders set]; intros;
    match goal with |- context [alter _ q _ !! ?r] =>
      destruct (decide (q = r)) as [<- | Hne];
      [rewrite lookup_alter_eq; by destruct (porders m !! q)|by rewrite lookup_alter_ne] end.
Qed.

(** The trail of one order. *)
Lemma advance_spec p ltp (m : M) (o := order_at m p) (r := advanceTrailingSL p ltp m) (m' := r.1.1) :
  r.1.2 = stop_after m ltp o /\ m'.(exiting) = m.(exiting) /\ keeps_others o.(Order.OrderID) m m' /\
  same_position o (order_at m' p) /\ exits_in (spawned m m') = [] /\ (forall n, (n < m.(pnextTask))%nat -> grows n m m') /\
  (forall n, (n < m.(pnextTask))%nat -> m'.(ptasks) !! n = m.(ptasks) !! n).
Proof.
  assert (Hs : spawned m m = []) by (unfold spawned; by rewrite Nat.sub_diag).
  unfold m', r, advanceTrailingSL, stop_after. fold o.
  destruct (trailStates m !! Order.OrderID o) as [ts|] eqn:E.
  2:{ cbn [fst snd]. rewrite Hs. by repeat split. }
  destruct (advance_trail (Order.OrderSide o) ltp ts) as [ts' moved] eqn:Ea. cbn [fst snd].
  set (m1 := m <| trailStates := _ |>).
  assert (K1 : keeps_others (Order.OrderID o) m m1).
  { split; [done|]. intros j Hj. unfold m1. cbn [trailStates set]. by rewrite lookup_insert_ne. }
  destruct moved.
  2:{ change (spawned m m1) with (spawned m m). rewrite Hs. split; [done|]. by repeat split; try apply K1. }
  destruct (update_sl_spec (Order.OrderID o) ts'.(Trail.currentSL) m1) as (U1 & U2 & U3 & [U4 U5] & U6).
  set (m2 := UpdateCachedOrderSL _ _ m1) in *. set (t := PTrailWrite _ _).
  assert (P1 : ptasks (go t m2) = <[pnextTask m := t]> (ptasks m)).
  { unfold go. cbn [spawn fst ptasks set]. by rewrite U1, U2. }
  assert (P2 : pnextTask (go t m2) = S (pnextTask m)) by (unfold go; cbn [spawn fst pnextTask set]; by rewrite U2).
  split; [done|]. split; [exact U3|]. split.
  { split; [intros q Hq; change (order_at m2 q = order_at m1 q); by apply U4|].
    intros j Hj. change (trailStates m2 !! j = trailStates m !! j). rewrite U5 by done. by apply K1. }
  split; [apply (U6 p)|]. split.
  { unfold spawned. rewrite P2, P1. replace (S (pnextTask m) - pnextTask m)%nat with 1%nat by lia.
    cbn [seq omap list_omap]. by rewrite lookup_insert_eq. }
  split.
  - intros n Hn. split; [rewrite P2; lia|]. intros j Hj Hlt. rewrite P1, lookup_insert_ne by lia. done.
  - intros n Hn. rewrite P1, lookup_insert_ne by lia. done.
Qed.
Lemma spawned_continue n t (m m0 : M) :
  (n < m.(pnextTask))%nat -> spawned m (m0 <| ptasks := <[n := t]> m0.(ptasks) |>) = spawned m m0.
Proof.
  intros Hn. unfold spawned. apply omap_ext_in. intros j Hj. apply elem_of_seq in Hj.
  cbn [ptasks set]. by rewrite lookup_insert_ne by lia.
Qed.

Lemma grows_continue n t (m m0 : M) : grows n m m0 -> grows n m (m0 <| ptasks := <[n := t]> m0.(ptasks) |>).
Proof.
  intros [L H]. split; [exact L|]. intros j Hj Hlt. cbn [ptasks set]. rewrite lookup_insert_ne by done. by apply H.
Qed.

Lemma exits_in_app l l' : exits_in (l ++ l') = exits_in l ++ exits_in l'.
Proof. apply omap_app. Qed.

(** The [Store] and the goroutine of an exit. *)
Lemma fire_spec sym ltp p reason (m : M) (m' := fire sym ltp p reason m) :
  m'.(exiting) = {[(order_at m p).(Order.OrderID)]} ∪ m.(exiting) /\ m'.(trailStates) = m.(trailStates) /\
  (forall q, order_at m' q = order_at m q) /\ spawned m m' = [PExit p ltp reason] /\
  (forall n, (n < m.(pnextTask))%nat -> grows n m m' /\ m'.(ptasks) !! n = m.(ptasks) !! n).
Proof.
  assert (P1 : ptasks m' = <[pnextTask m := PExit p ltp reason]> (ptasks m)) by done.
  assert (P2 : pnextTask m' = S (pnextTask m)) by done.
  repeat split; try done.
  - unfold spawned. rewrite P1, P2. replace (S (pnextTask m) - pnextTask m)%nat with 1%nat by lia.
    cbn [seq omap list_omap]. by rewrite lookup_insert_eq.
  - rewrite P2. lia.
  - intros j Hj Hlt. rewrite P1, lookup_insert_ne by lia. done.
  - rewrite P1, lookup_insert_ne by lia. done.
Qed.

(** One order of a tick, in one or two steps. *)
Lemma order_step redis now n sym ltp p l (m : M) (i := (order_at m p).(Order.OrderID)) :
  m.(ptasks) !! n = Some (PTick sym ltp (p :: l)) -> (n < m.(pnextTask))%nat ->
  exists k, (k <= 2)%nat /\ let m1 := run_steps redis now n k m in
    m1.(ptasks) !! n = Some (PTick sym ltp l) /\ grows n m m1 /\ keeps_others i m m1 /\
    exits_in (spawned m m1) = match decision m ltp p with Some r => [(p, ltp, r)] | None => [] end /\
    m1.(exiting) = match decision m ltp p with Some _ => {[i]} ∪ m.(exiting) | None => m.(exiting) end.
Proof.
  intros Ht Hn. set (o := order_at m p).
  assert (Hstep : run_steps redis now n 1 m =
    let '(m1, t) := tick_order sym ltp p l m in m1 <| ptasks := <[n := t]> m1.(ptasks) |>).
  { cbn [run_steps Nat.iter nat_rect]. unfold run_task. rewrite Ht. by destruct (tick_order sym ltp p l m). }
  assert (Hself : exits_in (spawned m m) = []) by (unfold spawned; by rewrite Nat.sub_diag).
  unfold tick_order in Hstep. unfold decision. change (Order.OrderID (order_at m p)) with i in Hstep |- *.
  fold o in Hstep |- *.
  destruct (is_exiting m i || no_fill o) eqn:Eskip.
  { exists 1%nat. split; [lia|]. rewrite Hstep. split; [apply lookup_insert_eq|].
    split; [apply grows_continue, tick_grows_refl|]. split; [done|]. by rewrite spawned_continue. }
  destruct (advance_spec p ltp m) as (A1 & A2 & A3 & A4 & A5 & A6 & A7).
  destruct (advanceTrailingSL p ltp m) as [[m0 sl] moved]. cbn [fst snd] in A1, A2, A3, A4, A5, A6, A7.
  change (Order.OrderID (order_at m p)) with i in A3. fold o in A1, A4. subst sl. specialize (A6 n Hn). specialize (A7 n Hn).
  destruct (tick_reason _ _ _ _) as [reason|].
  - set (m1 := m0 <| ptasks := <[n := PFire sym ltp p reason l]> m0.(ptasks) |>) in *.
    assert (Hn1 : (n < m1.(pnextTask))%nat) by (destruct A6 as [A6 _]; change (pnextTask m1) with (pnextTask m0); lia).
    destruct (fire_spec sym ltp p reason m1) as (F1 & F2 & F3 & F4 & F5). destruct (F5 n Hn1) as [F6 F7].
    set (m2 := fire sym ltp p reason m1) in *.
    assert (Hstep2 : run_steps redis now n 2 m = m2 <| ptasks := <[n := PTick sym ltp l]> m2.(ptasks) |>).
    { change (run_steps redis now n 2 m) with (default (run_steps redis now n 1 m) (run_task paperID redis now n (run_steps redis now n 1 m))).
      assert (Hp1 : ptasks m1 !! n = Some (PFire sym ltp p reason l)) by apply lookup_insert_eq.
      rewrite Hstep. unfold run_task. by rewrite Hp1. }
    assert (G1 : grows n m m1) by (by apply grows_continue).
    exists 2%nat. split; [lia|]. rewrite Hstep2. split; [apply lookup_insert_eq|].
    split; [apply grows_continue; by apply (tick_grows_trans n m m1 m2)|]. split.
    { destruct A3 as [A3 A3']. split.
      - intros q Hq. change (order_at m2 q = order_at m q). rewrite F3. change (order_at m1 q) with (order_at m0 q). by apply A3.
      - intros j Hj. change (trailStates m2 !! j = trailStates m !! j). rewrite F2. by apply A3'. }
    split.
    { rewrite spawned_continue by done. rewrite (spawned_trans n m m1 m2 Hn G1 F6), exits_in_app, F4.
      unfold m1. rewrite spawned_continue by done. by rewrite A5. }
    change (exiting m2 = {[i]} ∪ exiting m). rewrite F1. change (order_at m1 p) with (order_at m0 p).
    destruct A4 as (-> & _). change (exiting m1) with (exiting m0). by rewrite A2.
  - exists 1%nat. split; [lia|]. rewrite Hstep. split; [apply lookup_insert_eq|].
    split; [by apply grows_continue|]. split; [done|]. split; [|exact A2].
    rewrite spawned_continue by done. exact A5.
Qed.

(** The decision on an order depends on the order, its trail and its mark only. *)
Lemma decision_ext ltp q (m m1 : M) (i := (order_at m q).(Order.OrderID)) :
  order_at m1 q = order_at m q -> m1.(trailStates) !! i = m.(trailStates) !! i ->
  is_exiting m1 i = is_exiting m i -> decision m1 ltp q = decision m ltp q.
Proof.
  intros Ho Ht He. unfold decision, stop_after. rewrite Ho. fold i. by rewrite Ht, He.
Qed.

Lemma tick_loop (redis : option RedisPrices) (now : Z) (n : tid) (sym : string) (ltp : f64)
    (l : list optr) (m : M)
    (Htask : m.(ptasks) !! n = Some (PTick sym ltp l)) (Hn : (n < m.(pnextTask))%nat)
    (Hdistinct : NoDup (map (fun p => (order_at m p).(Order.OrderID)) l)) :
  exists k, (k <= 2 * length l + 1)%nat /\ let m' := run_steps redis now n k m in
    m'.(ptasks) !! n = None /\ grows n m m' /\
    exits_in (spawned m m') = omap (fun p => reason ← decision m ltp p; Some (p, ltp, reason)) l /\
    forall i, i ∈ m'.(exiting) <->
      i ∈ m.(exiting) \/ exists p, p ∈ l /\ (order_at m p).(Order.OrderID) = i /\ is_Some (decision m ltp p).
Proof.
  revert m Htask Hn Hdistinct. induction l as [|p l IH]; intros m Htask Hn Hdistinct.
  { exists 1%nat. split; [lia|]. cbn [run_steps Nat.iter nat_rect]. unfold run_task. rewrite Htask.
    split; [apply lookup_delete_eq|]. split.
    { split; [done|]. intros j Hj _. cbn [default from_option ptasks set]. unfold Datatypes.id.
      cbn [ptasks set]. by rewrite lookup_delete_ne by done. }
    split.
    - unfold spawned. cbn [default from_option pnextTask set]. unfold Datatypes.id. by rewrite Nat.sub_diag.
    - intros i. split; [by left|]. intros [H|(p & Hp & _)]; [exact H|by apply not_elem_of_nil in Hp]. }
  cbn [map] in Hdistinct. apply NoDup_cons in Hdistinct as [Hnot Hdistinct].
  destruct (order_step redis now n sym ltp p l m Htask Hn) as (k1 & Hk1 & H1 & G1 & [K1 K2] & X1 & E1).
  set (m1 := run_steps redis now n k1 m) in *. set (i0 := (order_at m p).(Order.OrderID)) in *.
  assert (Hne : forall q, q ∈ l -> (order_at m q).(Order.OrderID) <> i0).
  { intros q Hq E. apply Hnot. rewrite <- E. by apply (list_elem_of_fmap_2 (fun p => (order_at m p).(Order.OrderID))). }
  assert (Hex : forall i, i <> i0 -> is_exiting m1 i = is_exiting m i).
  { intros i Hi. unfold is_exiting. rewrite E1. destruct (decision m ltp p); [|done].
    apply bool_decide_ext. set_solver. }
  assert (Hd : forall q, q ∈ l -> decision m1 ltp q = decision m ltp q).
  { intros q Hq. pose proof (Hne q Hq). apply decision_ext; [by apply K1|by apply K2|by apply Hex]. }
  assert (Hmap : map (fun p => (order_at m1 p).(Order.OrderID)) l = map (fun p => (order_at m p).(Order.OrderID)) l).
  { apply map_ext_in. intros q Hq. apply list_elem_of_In in Hq. by rewrite K1 by (by apply Hne). }
  assert (Hn1 : (n < m1.(pnextTask))%nat) by (destruct G1; lia).
  destruct (IH m1 H1 Hn1 ltac:(by rewrite Hmap)) as (k2 & Hk2 & T2 & G2 & X2 & E2).
  exists (k2 + k1)%nat. split; [cbn [length]; lia|].
  assert (Hrun : run_steps redis now n (k2 + k1) m = run_steps redis now n k2 m1) by apply Nat.iter_add.
  rewrite Hrun. set (m2 := run_steps redis now n k2 m1) in *. split; [exact T2|].
  split; [by apply (tick_grows_trans n m m1 m2)|]. split.
  - rewrite (spawned_trans n m m1 m2 Hn G1 G2), exits_in_app, X1, X2.
    rewrite (omap_ext_in (fun q => reason ← decision m1 ltp q; Some (q, ltp, reason))
      (fun q => reason ← decision m ltp q; Some (q, ltp, reason)) l) by (intros q Hq; by rewrite Hd).
    cbn [omap list_omap]. by destruct (decision m ltp p).
  - intros i. rewrite E2, E1. split.
    + intros [H|(q & Hq & Hi & Hs)].
      * destruct (decision m ltp p) as [r|] eqn:Ed; [|by left]. apply elem_of_union in H as [H|H]; [|by left].
        apply elem_of_singleton in H as ->. right. exists p. split; [by left|]. by rewrite Ed.
      * right. exists q. rewrite K1 in Hi by (by apply Hne). rewrite Hd in Hs by done. split; [by right|done].
    + intros [H|(q & Hq & Hi & Hs)].
      * left. destruct (decision m ltp p); [|exact H]. set_solver.
      * apply elem_of_cons in Hq as [-> | Hq].
        -- left. destruct Hs as [r ->]. fold i0 in Hi. set_solver.
        -- right. exists q. rewrite K1 by (by apply Hne). rewrite Hd by done. done.
Qed.

(** C22: Undisturbed, the goroutine of a tick ends, and it has started the exits of
    exactly the orders whose stop or target the price has crossed and that were
    not being exited: each once, at the price of the tick, in the order of the
    cache, and with the stop as the tick itself moved it. *)
Theorem tick_exits_exactly (redis : option RedisPrices) (now : Z) (n : tid) (sym : string) (ltp : f64)
    (l : list optr) (m : M)
    (Htask : m.(ptasks) !! n = Some (PTick sym ltp l)) (Hn : (n < m.(pnextTask))%nat)
    (Hdistinct : NoDup (map (fun p => (order_at m p).(Order.OrderID)) l)) :
  exists k, (k <= 2 * length l + 1)%nat /\ let m' := run_steps redis now n k m in
    m'.(ptasks) !! n = None /\
    exits_in (spawned m m') = omap (fun p => reason ← decision m ltp p; Some (p, ltp, reason)) l /\
    forall i, i ∈ m'.(exiting) <->
      i ∈ m.(exiting) \/ exists p, p ∈ l /\ (order_at m p).(Order.OrderID) = i /\ is_Some (decision m ltp p).
Proof.
  destruct (tick_loop redis now n sym ltp l m Htask Hn Hdistinct) as (k & Hk & H1 & _ & H2 & H3).
  exists k. split; [exact Hk|]. split; [exact H1|]. split; [exact H2|exact H3].
Qed.

End Exits.

(** ** Instances *)

(** Ten shares at 100 with a fixed stop at 95. *)
Definition fixed_order : Order.t := trailing_order <| Order.StopLossType := Some "FIXED" |>.

Definition fixed_monitor : PaperMonitor unit unit :=
  AddOrder fixed_order
    (NewPaperTradeMonitor (mkExec tt None (mkTable {[7%N := fixed_order]} []) [] [] [] [] [] [] []) None 1000%N).

(** Redis has a price of 94 for the stock. *)
Definition redis_at_94 : RedisPrices := fun key =>
  if key =?s "market:nse:5"
  then Some (MarketTick.mk "TCS" "5" "NSE" (of_Z 94) fzero fzero fzero fzero fzero 0 0 fzero fzero fzero)
  else None.

Definition paper_id (i : uuid) : string := "PAPER-EXIT".

(** The safety net has asked for the price when the feed sends 94 as well, and
    the exit of the tick goes through. *)
Definition exited_by_tick : PaperMonitor unit unit :=
  pm_run paper_id
    [(10%Z, None, EvSafety); (11%Z, Some redis_at_94, EvRun 0); (12%Z, None, EvTick "TCS" (of_Z 94));
     (13%Z, None, EvRun 1); (14%Z, None, EvRun 1); (15%Z, None, EvRun 2)] fixed_monitor.

Lemma late_safety_net_exits_twice_witness :
  exists r, (table (pm_run paper_id [(16%Z, None, EvRun 0); (17%Z, None, EvRun 3)] exited_by_tick)).(rows) !! 1001%N = Some r /\
    exit_of fixed_order 10 r /\ r.(Order.OrderSide) = "SELL".
Proof.
  assert (Hrow : exists row, (table exited_by_tick).(rows) !! 7%N = Some row /\ is_set row.(Order.PaperExitPrice) = true).
  { eexists. split; vm_compute; reflexivity. }
  destruct Hrow as (row & Hrow & Hgone).
  destruct (late_safety_net_exits_twice paper_id None None 16 17 0%nat (of_Z 94) 0%nat [] [] "STOP_LOSS"
    exited_by_tick row) as (_ & r & Hr & He & Hs); try (vm_compute; reflexivity).
  - vm_compute. discriminate.
  - exact Hrow.
  - exact Hgone.
  - exists r. split; [exact Hr|]. split; [exact He|]. rewrite Hs. vm_compute. reflexivity.
Defined.

(** A second position of the same stock, sold short, with its target at 94. *)
Definition short_order : Order.t :=
  fixed_order <| Order.OrderID := 8%N |> <| Order.OrderSide := "SELL" |>
    <| Order.StopLoss := Some (of_Z 105) |> <| Order.TakeProfit := Some (of_Z 94) |>.

(** A third one far away from its stop. *)
Definition far_order : Order.t := fixed_order <| Order.OrderID := 9%N |> <| Order.StopLoss := Some (of_Z 90) |>.

Definition tick_of_three : PaperMonitor unit unit :=
  OnPriceUpdate 20 "TCS (NSE)" (of_Z 94) (AddOrder far_order (AddOrder short_order fixed_monitor)).

Lemma tick_exits_exactly_witness :
  exists k, exits_in (spawned tick_of_three (run_steps paper_id None 20 0 k tick_of_three)) =
    [(0%nat, of_Z 94, "STOP_LOSS"); (1%nat, of_Z 94, "TAKE_PROFIT")].
Proof.
  destruct (tick_exits_exactly paper_id None 20 0%nat "TCS" (of_Z 94) [0; 1; 2]%nat tick_of_three) as (k & _ & _ & H & _).
  - vm_compute. reflexivity.
  - apply Nat.ltb_lt. vm_compute. reflexivity.
  - apply (bool_decide_eq_true_1 (NoDup _)). vm_compute. reflexivity.
  - exists k. rewrite H. vm_compute. reflexivity.
Defined.
