(* ===== verification/PaperML.v ===== *)
(** * The paper monitor with the multi-level manager

    The manager is what the monitor calls to cancel groups, on the table of
    orders both share. *)

From stdpp Require Import base tactics gmap strings list fin_maps.
From Stdlib Require Import ZArith Lia Bool.
From S2P Require Import Prelude GoFloat GoStrings Orders OrderRepo OrderQueries Executor.
From S2P Require Import Signals MLTypes MLManager MLProperties PaperPrices PaperMonitor PaperExits.

Open Scope string_scope.
Open Scope list_scope.
Open Scope go_scope.

(** ** The manager as the monitor sees it *)

Section Forced.

Context {MBr : Type} {MB : MLBroker MBr}.
Context (uuid_string : uuid -> string).

Definition on_shared (f : MLManager MBr -> MLManager MBr) (s : MLManager MBr * OrdersTable)
  : MLManager MBr * OrdersTable :=
  let c := f (s.1 <| morders := s.2 |>) in (c, c.(morders)).

#[local] Instance manager_canceller : PaperMLCanceller (MLManager MBr) := {
  mlcCancelGroup _ id := on_shared (CancelGroup id);
  mlcCancelGroupForExit now id price reason := on_shared (CancelGroupForExit uuid_string now id price reason)
}.

(** ** A forced exit of a multi-level position *)

(** A group of a paper position: it never has orders at the broker. *)
Definition paper_group (g : MLGroup.t) (q : Z) : Prop :=
  g.(MLGroup.State) = GroupStateActive /\ g.(MLGroup.TradingMode) = "PAPER" /\
  g.(MLGroup.RemainingQty) = q /\ g.(MLGroup.SingleSLBrokerID) = "" /\
  Forall (fun l => l.(Level.BrokerOrderID) = "") g.(MLGroup.TPLevels).

Lemma cancel_levels_nothing now p g (l : list (nat * Level.t)) (c : MLManager MBr) :
  c.(groups) !! p = Some g -> Forall (fun il => il.2.(Level.BrokerOrderID) = "") l ->
  foldl (cancelTPOrder now p) c l = c.
Proof.
  intros Hg Hl. induction Hl as [|[i lv] l Hlv _ IH]; [done|]. cbn [foldl].
  assert (E : cancelTPOrder now p c (i, lv) = c).
  { unfold cancelTPOrder. rewrite Hg. cbn in Hlv. rewrite Hlv. by rewrite String.eqb_refl, orb_true_r. }
  by rewrite E.
Qed.

Lemma unsubscribe_orders g (c : MLManager MBr) :
  (unsubscribeGroup g c).(morders) = c.(morders).
Proof. unfold unsubscribeGroup. destruct (_ !! _); by destruct (remove_one _ _). Qed.

Lemma Forall_imap_pair (P : Level.t -> Prop) (l : list Level.t) :
  Forall P l -> Forall (fun il : nat * Level.t => P il.2) (imap pair l).
Proof.
  intros H. apply Forall_lookup. intros i [k lv] Hi. apply list_lookup_imap_Some in Hi as (y & Hy & [= -> ->]).
  cbn. by apply (Forall_lookup_1 _ _ _ _ H Hy).
Qed.

Lemma unsubscribe_entries g (c : MLManager MBr) :
  (unsubscribeGroup g c).(groupsByEntry) = c.(groupsByEntry).
Proof.
  unfold unsubscribeGroup. destruct (byStock c !! _); by destruct (remove_one _ _).
Qed.

(** What [CancelGroupForExit] leaves in the table. *)
Lemma cancel_for_exit_orders now id gp g q price reason (c : MLManager MBr) (t : OrdersTable) :
  c.(groupsByEntry) !! id = Some gp -> c.(groups) !! gp = Some g -> paper_group g q ->
  (0 < q)%Z -> flt fzero price = true -> g.(MLGroup.EntryOrderID) = id ->
  (mlcCancelGroupForExit now id price reason (c, t)).2 =
  (sqlUpdatePaperPositionFilledQty now id 0
     (sqlCreatePaperPartialExit (partial_exit_order uuid_string now c.(nextID) g q price reason 0) t).1).1.
Proof.
  intros Hid Hg (Hst & Hmode & Hq & Hsl & Hl) Hpos Hprice He.
  cbn [mlcCancelGroupForExit manager_canceller on_shared fst snd].
  set (c0 := c <| morders := t |>). unfold CancelGroupForExit.
  change (groupsByEntry c0) with (groupsByEntry c). change (groups c0) with (groups c).
  rewrite Hid, Hg. unfold is_active_group at 1. rewrite Hst, bool_decide_eq_true_2 by done. cbn [negb].
  set (g1 := g <| MLGroup.State := GroupStateCancelled |>).
  set (c1 := upd gp _ c0).
  assert (Hg1 : groups c1 !! gp = Some g1).
  { unfold c1, upd. cbn [groups set]. change (groups c0) with (groups c). by rewrite lookup_alter_eq, Hg. }
  rewrite (cancel_levels_nothing now gp g1 _ c1 Hg1) by exact (Forall_imap_pair _ _ Hl).
  unfold cancelSLOrder. rewrite Hg1. change (MLGroup.SingleSLBrokerID g1) with (MLGroup.SingleSLBrokerID g).
  rewrite Hsl. cbn [String.eqb orb]. unfold is_paper. rewrite Hmode, Hq, Hprice.
  rewrite (proj2 (Z.ltb_lt 0 q) Hpos). cbn [String.eqb Ascii.eqb Bool.eqb andb].
  unfold exit_remaining, recordPaperPartialExit, drop_single. rewrite Hq.
  rewrite (proj2 (Z.leb_gt q 0) Hpos). rewrite He. cbn [new_id log_paper]. unfold forget_group.
  cbn [morders set]. by rewrite unsubscribe_orders.
Qed.

Lemma cancel_for_exit_forgets now id price reason (c : MLManager MBr) (t : OrdersTable) gp g :
  c.(groupsByEntry) !! id = Some gp -> c.(groups) !! gp = Some g -> g.(MLGroup.State) = GroupStateActive ->
  (mlcCancelGroupForExit now id price reason (c, t)).1.(groupsByEntry) !! id = None.
Proof.
  intros Hid Hg Hst. cbn [mlcCancelGroupForExit manager_canceller on_shared fst snd].
  set (c0 := c <| morders := t |>). unfold CancelGroupForExit.
  change (groupsByEntry c0) with (groupsByEntry c). change (groups c0) with (groups c).
  rewrite Hid, Hg. unfold is_active_group. rewrite Hst, bool_decide_eq_true_2 by done. cbn [negb].
  unfold drop_single. cbn [groupsByEntry set]. unfold forget_group.
  rewrite unsubscribe_entries. cbn [groupsByEntry set].
  destruct (decide (MLGroup.EntryOrderID g = id)) as [-> | Hne]; [apply lookup_delete_eq|].
  rewrite lookup_delete_ne by done. apply lookup_delete_eq.
Qed.

(** What the table of orders looks like after the exit of the manager. *)
Lemma table_after_partial now id (e : Order.t) (t : OrdersTable) :
  t.(faults) = [] -> is_Some (t.(rows) !! id) -> t.(rows) !! e.(Order.OrderID) = None ->
  let t' := (sqlUpdatePaperPositionFilledQty now id 0 (sqlCreatePaperPartialExit e t).1).1 in
  t'.(faults) = [] /\ t'.(rows) !! e.(Order.OrderID) = Some (partial_exit_row e) /\
  forall i, i <> id -> i <> e.(Order.OrderID) -> t'.(rows) !! i = t.(rows) !! i.
Proof.
  intros Hf [row Hrow] Hnone. destruct t as [r f]. cbn in Hf, Hrow, Hnone. subst f.
  assert (Hne : id <> e.(Order.OrderID)) by congruence.
  assert (E : (sqlCreatePaperPartialExit e (mkTable r [])).1 =
    mkTable (<[e.(Order.OrderID) := partial_exit_row e]> r) []).
  { unfold sqlCreatePaperPartialExit. cbn. by rewrite Hnone. }
  rewrite E. unfold sqlUpdatePaperPositionFilledQty. cbn [driver faults rows].
  rewrite lookup_insert_ne, Hrow by done.
  destruct (_ && _); cbn [fst faults rows]; (split; [done|split]).
  - by rewrite lookup_insert_ne, lookup_insert_eq.
  - intros i Hi Hi'. by rewrite !lookup_insert_ne.
  - by rewrite lookup_insert_eq.
  - intros i Hi Hi'. by rewrite lookup_insert_ne.
Qed.

Lemma cancel_group_gone now id (c : MLManager MBr) (t : OrdersTable) :
  c.(groupsByEntry) !! id = None -> (mlcCancelGroup now id (c, t)).2 = t.
Proof.
  intros H. cbn [mlcCancelGroup manager_canceller on_shared fst snd]. unfold CancelGroup.
  cbn [groupsByEntry set]. by rewrite H.
Qed.

(** A forced exit of a multi-level paper position sells it twice: the manager
    records an exit of all that remains, and the exit that follows, which knows
    the quantity from before, records another one.  Both are filled square-off
    orders of the whole position. *)
Theorem forced_exit_sold_twice {B : Type} (paperID : uuid -> string) (redis : option RedisPrices)
    (now now' : Z) (n : tid) (reason : string) (p : optr) (l : list optr) (spawned : list tid) (next : After)
    (m : PaperMonitor B (MLManager MBr)) (c : MLManager MBr) (gp : gptr) (g : MLGroup.t)
    (o := order_at m p) (id := o.(Order.OrderID)) (q := o.(Order.FilledQuantity)) (t := table m)
    (m' := pm_run paperID [(now, redis, EvRun n); (now', redis, EvRun m.(pnextTask))] m)
    (Htask : m.(ptasks) !! n = Some (PForce reason (p :: l) spawned next)) (Hn : n <> m.(pnextTask))
    (Hidle : is_exiting m id = false) (Hq : (0 < q)%Z)
    (Hprice : flt fzero (resolveExitPrice redis m o) = true)
    (Hml : m.(mlCanceller) = Some c) (Hgroup : c.(groupsByEntry) !! id = Some gp)
    (Hg : c.(groups) !! gp = Some g) (Hpaper : paper_group g q)
    (Hentry : g.(MLGroup.EntryOrderID) = id) (Huser : g.(MLGroup.UserID) = o.(Order.UserID))
    (Hsym : g.(MLGroup.Symbol) = o.(Order.Symbol))
    (Hfaults : t.(faults) = []) (Hrow : exists row, t.(rows) !! id = Some row)
    (Hfresh : t.(rows) !! m.(pfresh) = None) (Hfresh' : t.(rows) !! c.(nextID) = None)
    (Hdiff : m.(pfresh) <> c.(nextID)) :
  exists i1 i2 r1 r2, i1 <> i2 /\ (table m').(rows) !! i1 = Some r1 /\ (table m').(rows) !! i2 = Some r2 /\
    exit_of o q r1 /\ exit_of o q r2.
Proof.
  set (price := resolveExitPrice redis m o).
  set (m1 := m <| exiting := {[id]} ∪ m.(exiting) |>).
  set (c' := (mlcCancelGroupForExit now id price reason (c, t)).1).
  set (t' := (mlcCancelGroupForExit now id price reason (c, t)).2).
  set (k := m.(pnextTask)).
  set (e := partial_exit_order uuid_string now c.(nextID) g q price reason 0).
  pose proof (cancel_for_exit_orders now id gp g q price reason c t Hgroup Hg Hpaper Hq Hprice Hentry) as Ht'.
  fold t' e in Ht'.
  pose proof (cancel_for_exit_forgets now id price reason c t gp g Hgroup Hg (proj1 Hpaper)) as Hc'. fold c' in Hc'.
  destruct (table_after_partial now id e t Hfaults Hrow Hfresh') as (F1 & F2 & F3). rewrite <- Ht' in F1, F2, F3.
  (* the step of the loop *)
  set (m2 := m1 <| mlCanceller := Some c' |> <| pexec := m1.(pexec) <| xorders := t' |> |>).
  assert (S1 : pm_step paperID redis now (EvRun n) m =
    m2 <| ptasks := <[n := PForce reason l (spawned ++ [k]) next]> (<[k := PExit p price reason]> m.(ptasks)) |>
       <| pnextTask := S k |>).
  { cbn [pm_step]. unfold run_task. rewrite Htask. unfold force_order.
    fold o. fold id. rewrite Hidle. fold m1. change (resolveExitPrice redis m1 o) with price.
    unfold with_ml. change (mlCanceller m1) with (mlCanceller m). rewrite Hml. change (table m1) with t.
    destruct (mlcCancelGroupForExit now id price reason (c, t)) as [c2 t2] eqn:E.
    unfold c', t' in m2. reflexivity. }
  unfold m'. cbn [pm_run foldl]. rewrite S1.
  (* the exit *)
  set (m3 := m2 <| ptasks := _ |> <| pnextTask := S k |>).
  assert (Hk : ptasks m3 !! k = Some (PExit p price reason)).
  { unfold m3. cbn [ptasks set]. by rewrite lookup_insert_ne, lookup_insert_eq. }
  assert (S2 : pm_step paperID redis now' (EvRun k) m3 =
    exitPosition paperID now' p price reason (m3 <| ptasks := delete k m3.(ptasks) |>)).
  { cbn [pm_step]. unfold run_task. by rewrite Hk. }
  change (m.(pnextTask)) with k. rewrite S2, exit_position_table. cbv zeta.
  set (m4 := m3 <| ptasks := delete k m3.(ptasks) |>).
  pose proof (cancel_group_gone now' id c' t' Hc') as G.
  destruct (mlcCancelGroup now' id (c', t')) as [c2 t2] eqn:EG. cbn in G. subst t2.
  change (order_at m4 p).(Order.OrderID) with id.
  rewrite (with_ml_some (mlcCancelGroup now' id) m4 c' c2 t' eq_refl EG).
  set (m5 := m4 <| mlCanceller := _ |> <| pexec := _ |>).
  change (order_at m5 p) with o. change (pfresh m5) with (pfresh m).
  assert (Hx : (pexec m5).(xorders) = mkTable t'.(rows) []).
  { change ((pexec m5).(xorders)) with t'. clear -F1. destruct t' as [r f]. cbn in F1. by subst f. }
  destruct Hrow as [row Hrow].
  assert (Hnone : t'.(rows) !! m.(pfresh) = None).
  { rewrite F3; [done|congruence|]. exact Hdiff. }
  destruct (exit_position_rows (pexec m5) now' m.(pfresh) (paperID m.(pfresh)) price reason o _ Hx Hnone)
    as (w' & o' & rs' & rv & -> & Hw' & Hrv & (original & -> & U1 & U4 & U2 & U3) & Hkeep).
  cbn [fst]. rewrite Hw'. cbn [rows].
  exists c.(nextID), m.(pfresh), (partial_exit_row e), (inserted_row (reverse_exit_order now' m.(pfresh) (paperID m.(pfresh)) original price)).
  split; [congruence|]. split.
  { apply Hkeep; [exact F2|left]. change (Order.OrderID (partial_exit_row e)) with c.(nextID). fold id. congruence. }
  split; [exact Hrv|]. split; [by repeat split|]. by repeat split.
Qed.
End Forced.

(** ** Instances *)

(** Ten shares bought on paper at 100, with two levels on either side. *)
Definition ml_entry : Order.t :=
  Order.zero <| Order.OrderID := 7%N |> <| Order.UserID := "u" |> <| Order.Symbol := "TCS" |>
    <| Order.StockCode := 5%Z |> <| Order.OrderSide := "BUY" |> <| Order.TradingMode := "PAPER" |>
    <| Order.IsPaperTrade := true |> <| Order.Status := "FILLED" |> <| Order.Quantity := 10%Z |>
    <| Order.FilledQuantity := 10%Z |> <| Order.FilledPrice := Some (of_Z 100) |>.

#[local] Existing Instance MLProperties.numbering_broker.

Definition ml_holder : MLManager N :=
  ml_run None no_string
    [(1%Z, EvRegister ml_entry "MULTI_LEVEL" "MULTI_LEVEL" halves halves fzero fzero None);
     (2%Z, EvEntryFill 7%N (of_Z 100) 10 [] [])] fresh_manager.

Definition ml_exec : ExecState unit :=
  mkExec tt None (mkTable {[ 7%N := ml_entry ]} []) [] [] [] [] [] [] [].

(** The user asked to leave all positions. *)
Definition forced_monitor : PaperMonitor unit (MLManager N) :=
  (ForceExitAll "u" (NewPaperTradeMonitor ml_exec (Some ml_holder) 1000%N)).1.

Definition paper_name (id : uuid) : string := "PAPER-EXIT".

Definition forced_result : PaperMonitor unit (MLManager N) :=
  pm_run (ML := manager_canceller no_string) paper_name [(10%Z, None, EvRun 0); (11%Z, None, EvRun 1)] forced_monitor.

Lemma forced_exit_sold_twice_witness :
  exists i1 i2 r1 r2, i1 <> i2 /\ (table forced_result).(rows) !! i1 = Some r1 /\
    (table forced_result).(rows) !! i2 = Some r2 /\ exit_of ml_entry 10 r1 /\ exit_of ml_entry 10 r2.
Proof.
  assert (Hc : exists c, mlCanceller forced_monitor = Some c /\
    exists g, c.(groups) !! 0%nat = Some g /\ c.(groupsByEntry) !! 7%N = Some 0%nat /\ paper_group g 10 /\
      g.(MLGroup.EntryOrderID) = 7%N /\ g.(MLGroup.UserID) = "u" /\ g.(MLGroup.Symbol) = "TCS" /\
      c.(nextID) <> 1000%N /\ c.(nextID) <> 7%N).
  { eexists. split; [reflexivity|]. eexists. split; [vm_compute; reflexivity|].
    split; [vm_compute; reflexivity|]. split.
    - repeat split; repeat constructor.
    - repeat split; vm_compute; discriminate. }
  destruct Hc as (c & Hc & g & Hg & Hid & Hp & E1 & E2 & E3 & E4 & E5).
  assert (Hrows : (table forced_monitor).(rows) = {[7%N := ml_entry]}) by (vm_compute; reflexivity).
  assert (Ho : order_at forced_monitor 0%nat = ml_entry) by (vm_compute; reflexivity).
  pose proof (forced_exit_sold_twice no_string paper_name None 10 11 0%nat "FORCE_EXIT" 0%nat [] []
    (AfterForce "u") forced_monitor c 0%nat g) as T.
  cbv zeta in T. rewrite Ho in T. apply T; clear T.
  - vm_compute. reflexivity.
  - vm_compute. discriminate.
  - vm_compute. reflexivity.
  - reflexivity.
  - vm_compute. reflexivity.
  - exact Hc.
  - exact Hid.
  - exact Hg.
  - exact Hp.
  - exact E1.
  - exact E2.
  - exact E3.
  - vm_compute. reflexivity.
  - rewrite Hrows. by exists ml_entry.
  - rewrite Hrows. vm_compute. reflexivity.
  - rewrite Hrows. by apply lookup_singleton_ne.
  - change (pfresh forced_monitor) with 1000%N. congruence.
Defined.
