(* ===== verification/TableFacts.v ===== *)
(** * Facts about the orders table

    What the components that answer requests share: statements on a table without
    driver failures, the rows a query answers, and the invariant that every row
    is stored under its id. *)

From stdpp Require Import base gmap strings list fin_maps sorting.
From Stdlib Require Import ZArith Lia.
From S2P Require Import Prelude GoStrings Orders OrderRepo OrderQueries.

Open Scope string_scope.
Open Scope list_scope.
Open Scope go_scope.

(** Every row is stored under its [order_id]. *)
Definition keyed (t : OrdersTable) : Prop := map_Forall (fun id o => o.(Order.OrderID) = id) t.(rows).

Definition no_faults (t : OrdersTable) : Prop := t.(faults) = [].

Lemma update_row_no_faults failure id f t : no_faults t -> no_faults (sqlUpdateRow failure id f t).1.
Proof. unfold no_faults, sqlUpdateRow, driver. destruct t as [r fs]. cbn. intros ->. cbn. by destruct (r !! id). Qed.

Lemma update_where_no_faults failure p f t :
  no_faults t ->
  sqlUpdateWhere failure p f t = (update_where p f t, None) /\ no_faults (update_where p f t).
Proof. unfold no_faults, sqlUpdateWhere, driver. destruct t as [r fs]. cbn. by intros ->. Qed.

Lemma create_no_faults o t : no_faults t -> no_faults (sqlCreate o t).1.
Proof.
  unfold no_faults, sqlCreate, driver. destruct t as [r fs]. cbn -[inserted_row]. intros ->. cbn -[inserted_row].
  by destruct (r !! _).
Qed.

Lemma select_desc_rows failure p t : (select_desc failure p t).1.(rows) = t.(rows).
Proof. unfold select_desc, driver. destruct t as [r [|[] fs]]; done. Qed.

Lemma select_recent_rows failure p t : (select_recent failure p t).1.(rows) = t.(rows).
Proof. unfold select_recent, driver. destruct t as [r [|[] fs]]; done. Qed.

Lemma select_desc_faultless failure p t :
  no_faults t -> select_desc failure p t = (t, inr (merge_sort created_after (List.filter p (all_rows t)))).
Proof. unfold no_faults, select_desc, driver. destruct t as [r fs]. cbn. by intros ->. Qed.

Lemma select_desc_elem failure p t l o :
  (select_desc failure p t).2 = inr l -> o ∈ l <-> p o = true /\ exists id, t.(rows) !! id = Some o.
Proof.
  unfold select_desc. destruct (driver t) as [[] t1] eqn:Hd; [done|]. intros [= <-].
  rewrite (merge_sort_Permutation created_after), list_elem_of_In, filter_In, <- list_elem_of_In, elem_all_rows.
  assert (t1.(rows) = t.(rows)) as ->; [|tauto].
  unfold driver in Hd. destruct t as [r [|b fs]]; by simplify_eq/=.
Qed.

(** The rows a query answers have different ids. *)
Lemma select_desc_NoDup failure p t l :
  keyed t -> (select_desc failure p t).2 = inr l -> NoDup (Order.OrderID <$> l).
Proof.
  intros Hk. unfold select_desc. destruct (driver t) as [[] t1] eqn:Hd; [done|]. intros [= <-].
  assert (Hr : t1.(rows) = t.(rows)).
  { unfold driver in Hd. destruct t as [r [|b fs]]; by simplify_eq/=. }
  rewrite (merge_sort_Permutation created_after). unfold all_rows. rewrite Hr.
  assert (Hall : NoDup (Order.OrderID <$> (map_to_list t.(rows)).*2)).
  { replace (Order.OrderID <$> (map_to_list t.(rows)).*2) with (map_to_list t.(rows)).*1;
      [apply NoDup_fst_map_to_list|].
    rewrite <- list_fmap_compose. apply list_fmap_ext. intros i [id row] Hi. cbn. symmetry.
    apply (Hk id row). apply elem_of_map_to_list. by eapply list_elem_of_lookup_2. }
  revert Hall. generalize (map_to_list t.(rows)).*2. intros rs.
  induction rs as [|x rs IH]; cbn; [done|]. intros [Hx Hrs]%NoDup_cons.
  destruct (p x); cbn; [|by apply IH]. apply NoDup_cons. split; [|by apply IH].
  intros Hin. apply Hx. apply list_elem_of_fmap in Hin as (y & -> & Hy).
  apply list_elem_of_fmap. exists y. split; [done|].
  by apply list_elem_of_In, filter_In, proj1, list_elem_of_In in Hy.
Qed.

(** *** Keys *)

Lemma keyed_row failure id f t :
  (forall o, (f o).(Order.OrderID) = o.(Order.OrderID)) -> keyed t -> keyed (sqlUpdateRow failure id f t).1.
Proof.
  intros Hf Ht. unfold keyed. destruct (sqlUpdateRow_rows failure id f t) as [-> | ->]; [done|].
  intros i o. rewrite lookup_alter_Some. intros [(-> & r & Hr & ->) | [_ Ho]]; [|by apply (Ht i o)].
  rewrite Hf. by apply (Ht i r).
Qed.

Lemma keyed_where failure p f t :
  (forall o, (f o).(Order.OrderID) = o.(Order.OrderID)) -> keyed t -> keyed (sqlUpdateWhere failure p f t).1.
Proof.
  intros Hf Ht. unfold keyed. destruct (sqlUpdateWhere_rows failure p f t) as [-> | ->]; [done|].
  intros i o. rewrite lookup_fmap_Some. intros (r & <- & Hr). cbn. rewrite <- (Ht i r Hr).
  by destruct (p r).
Qed.

Lemma keyed_create o t : keyed t -> keyed (sqlCreate o t).1.
Proof.
  intros Ht. unfold keyed. destruct (sqlCreate_rows o t) as [-> | [_ ->]]; [done|].
  by apply map_Forall_insert_2.
Qed.
