(* ===== verification/LiveExit.v ===== *)
(** * Forced exits of live positions

    [trade-execution/internal/paper/ws_server.go]: the handlers
    [handleForceExitAllLive] and [handleForceExitStrategyLive] with the placer of
    exit orders and the canceller of live orders that [trade-execution/cmd/main.go]
    wires into the server.  A handler is a function of the state it shares with
    the executor; the cancellations it starts in goroutines run in the order of
    the rows.  The OCO manager is an interface with the laws the theorems use.
    Logs, metrics and the encoding of the answers are left out. *)

From stdpp Require Import base gmap strings list fin_maps sorting.
From Stdlib Require Import ZArith Lia.
From S2P Require Import Prelude GoFloat FloatRound FloatOrder Price GoStrings Orders OrderRepo.
From S2P Require Import OrderQueries OCOTypes Broker Indira Signals Executor PaperPrices.
From S2P Require Import PaperMonitor TableFacts.

Open Scope string_scope.
Open Scope list_scope.
Open Scope go_scope.

(** ** Requests, answers and messages *)

(** The body of a request; the first handler does not read the strategy. *)
Record ExitRequest : Type := mkExitRequest {
  reqUserID : string;
  reqStrategyID : string;
  reqBearer : string;
  reqApp : string;
  reqSource : string
}.

Inductive Reply : Type :=
  | HttpError (status : Z) (message : string)
  | ExitsPlaced (n : nat).

Module LiveUpdate.

(** [LiveOrderUpdate], the fields these handlers and the executor fill. *)
Record t : Type := mk {
  Type_ : string;
  UserID : string;
  Orders : list Order.t;
  Order_ : option Order.t
}.

End LiveUpdate.

(** ** The OCO manager as the server sees it *)

(** A position that was closed: its rows are CANCELLED and have an exit price. *)
Definition exited_row (o : Order.t) : Prop :=
  o.(Order.Status) = StatusCancelled /\ is_set o.(Order.LiveExitPrice) = true.

Definition exited (id : uuid) (t : OrdersTable) : Prop :=
  exists o, t.(rows) !! id = Some o /\ exited_row o.

Class OCOCanceller (O B : Type) := {
  CancelAllGroups : string -> O * ExecState B -> O * ExecState B;
  CancelStrategyGroups : string -> string -> O * ExecState B -> O * ExecState B
}.

(** What the handlers rely on: it has calls of its own to the broker, and in the
    table it cancels orders. *)
Class OCOCancellerLaws (O B : Type) `{OCOCanceller O B} := {
  cancel_all_calls : forall u s, (CancelAllGroups u s).2.(calls) = s.2.(calls);
  cancel_strategy_calls : forall u g s, (CancelStrategyGroups u g s).2.(calls) = s.2.(calls);
  cancel_all_exited : forall u s id, exited id s.2.(xorders) -> exited id (CancelAllGroups u s).2.(xorders);
  cancel_strategy_exited : forall u g s id,
    exited id s.2.(xorders) -> exited id (CancelStrategyGroups u g s).2.(xorders);
  cancel_all_keyed : forall u s, keyed s.2.(xorders) -> keyed (CancelAllGroups u s).2.(xorders);
  cancel_strategy_keyed : forall u g s, keyed s.2.(xorders) -> keyed (CancelStrategyGroups u g s).2.(xorders)
}.

(** ** The server *)

(** [lasked] are the orders the broker was asked to cancel, [lsent] the messages
    for the clients of a user, [lfresh] the next unused id. *)
Record LiveServer (O B : Type) : Type := mkServer {
  lexec : ExecState B;
  loco : option O;
  lfresh : N;
  lasked : list uuid;
  lsent : list (string * LiveUpdate.t)
}.

Arguments mkServer {O B}. Arguments lexec {O B}. Arguments loco {O B}. Arguments lfresh {O B}.
Arguments lasked {O B}. Arguments lsent {O B}.

#[export] Instance eta_server {O B} : Eta (LiveServer O B) := fun s =>
  mkServer s.(lexec) s.(loco) s.(lfresh) s.(lasked) s.(lsent).

Definition CancelReason := "Force exit by user".

(** The limit of an exit: one per cent through the market. *)
Definition calcExitLimitPrice (o : Order.t) (ltp : f64) : f64 :=
  if o.(Order.OrderSide) =?s "BUY" then (ltp * dec 99 2)%f64 else (ltp * dec 101 2)%f64.

Definition reverse_side (side : string) : string := if side =?s "SELL" then "BUY" else "SELL".

(** The order the placer of [main.go] creates for the position [o]. *)
Definition live_exit_order (now : Z) (id : uuid) (o : Order.t) (limit : f64) (req : ExitRequest) : Order.t :=
  Order.zero
    <| Order.OrderID := id |> <| Order.UserID := o.(Order.UserID) |>
    <| Order.StrategyID := o.(Order.StrategyID) |> <| Order.StrategyName := o.(Order.StrategyName) |>
    <| Order.StockCode := o.(Order.StockCode) |> <| Order.Exchange := o.(Order.Exchange) |>
    <| Order.Symbol := o.(Order.Symbol) |> <| Order.OrderType := OrderTypeLimit |>
    <| Order.OrderSide := reverse_side o.(Order.OrderSide) |>
    <| Order.Quantity := o.(Order.FilledQuantity) |> <| Order.Price := Some limit |>
    <| Order.Validity := "IOC" |> <| Order.ProductType := o.(Order.ProductType) |>
    <| Order.Status := StatusReceived |> <| Order.BearerToken := Some req.(reqBearer) |>
    <| Order.AppId := Some req.(reqApp) |> <| Order.Source := Some req.(reqSource) |>
    <| Order.RiskApproved := true |> <| Order.IsSquareOffOrder := true |>
    <| Order.TradingMode := "LIVE" |> <| Order.CreatedAt := now |> <| Order.UpdatedAt := now |>.

(** The profit recorded with the exit. *)
Definition live_pnl (o : Order.t) (exitPrice : f64) : f64 :=
  let qty := of_Z o.(Order.FilledQuantity) in
  if o.(Order.OrderSide) =?s "BUY" then ((exitPrice - safeF o.(Order.FilledPrice)) * qty)%f64
  else ((safeF o.(Order.FilledPrice) - exitPrice) * qty)%f64.

(** What is wired, and what a request takes from outside: the clock, the run of
    the executor for an exit order, and the price lookup of the monitor. *)
Record ExitEnv : Type := mkExitEnv {
  enow : Z;
  eexec : uuid -> ExecEnv;
  eresolve : option (Order.t -> f64)
}.

Record ExitConfig : Type := mkExitConfig {
  executor : ExecConfig;
  placerSet : bool;
  cancellerSet : bool
}.

(** The lookup of a wired monitor. *)
Definition monitor_prices {B C : Type} (redis : option RedisPrices) (m : option (PaperMonitor B C))
  : option (Order.t -> f64) := resolveExitPrice redis <$> m.

Section Server.

Context {C B : Type} `{ExecutionBroker B} `{OCOCanceller C B}.

Abbreviation LS := (LiveServer C B).

Definition live_table (s : LS) : OrdersTable := s.(lexec).(xorders).

Definition set_live_table (t : OrdersTable) (s : LS) : LS := s <| lexec := s.(lexec) <| xorders := t |> |>.

Definition live_query {A} (f : OrdersTable -> OrdersTable * A) (s : LS) : LS * A :=
  let '(t, r) := f (live_table s) in (set_live_table t s, r).

Definition BroadcastLive (userID : string) (u : LiveUpdate.t) (s : LS) : LS :=
  s <| lsent := s.(lsent) ++ [(userID, u)] |>.

(** The placer of [main.go]: insert the exit order and execute it. *)
Definition placeExitOrder (cfg : ExitConfig) (env : ExitEnv) (req : ExitRequest) (o : Order.t) (limit : f64)
    (s : LS) : LS * option string :=
  let id := s.(lfresh) in
  let s := s <| lfresh := (id + 1)%N |> in
  let x := live_exit_order env.(enow) id o limit req in
  match sqlCreate x (live_table s) with
  | (t, Some e) => (set_live_table t s, Some ("failed to create exit order: " ++ e)%string)
  | (t, None) =>
      let '(w, _, e) := ExecuteOrder cfg.(executor) (env.(eexec) id) x (set_live_table t s).(lexec) in
      (s <| lexec := w |>, e)
  end.

Definition exit_price (env : ExitEnv) (o : Order.t) : f64 :=
  default (safeF o.(Order.FilledPrice)) (positive ((fun f => f o) <$> env.(eresolve))).

(** [UpdateLiveTradeExit]; its error is only logged. *)
Definition record_exit (env : ExitEnv) (o : Order.t) (s : LS) : LS :=
  let price := exit_price env o in
  (live_query (sqlUpdateLiveTradeExit env.(enow) o.(Order.OrderID) price (live_pnl o price)) s).1.

Definition place_exit (cfg : ExitConfig) (env : ExitEnv) (req : ExitRequest) (o : Order.t)
    (acc : LS * nat) : LS * nat :=
  let '(s, e) := placeExitOrder cfg env req o (calcExitLimitPrice o (exit_price env o)) acc.1 in
  (s, if is_set e then acc.2 else S acc.2).

(** One turn of the loop of [handleForceExitAllLive]. *)
Definition exit_one (cfg : ExitConfig) (env : ExitEnv) (req : ExitRequest) (acc : LS * nat) (o : Order.t)
  : LS * nat :=
  let acc := (record_exit env o acc.1, acc.2) in
  if cfg.(placerSet) && negb (req.(reqBearer) =?s "") then place_exit cfg env req o acc else acc.

(** The orders [handleForceExitAllLive] cancels at the broker. *)
Definition live_at_broker (o : Order.t) : bool :=
  negb o.(Order.IsSquareOffOrder) && negb (IsTerminalStatus o.(Order.Status))
  && negb (IsFilledStatus o.(Order.Status) && (o.(Order.Quantity) <=? o.(Order.FilledQuantity))%Z)
  && is_set o.(Order.IndiraOrderID).

Definition cancel_live (env : ExitEnv) (s : LS) (o : Order.t) : LS :=
  let '(w, _, _, asked) := CancelOrderExec env.(enow) CancelReason o s.(lexec) in
  let s := s <| lexec := w |> in
  if asked then s <| lasked := s.(lasked) ++ [o.(Order.OrderID)] |> else s.

Definition cancel_live_orders (cfg : ExitConfig) (env : ExitEnv) (userID : string) (s : LS) : LS :=
  if cfg.(cancellerSet) then
    match live_query (sqlGetLiveOrdersByUser env.(enow) userID) s with
    | (s, inl _) => s
    | (s, inr l) => foldl (cancel_live env) s (List.filter live_at_broker l)
    end
  else s.

Definition with_oco (f : C * ExecState B -> C * ExecState B) (s : LS) : LS :=
  match s.(loco) with
  | None => s
  | Some c => let '(c, w) := f (c, s.(lexec)) in s <| loco := Some c |> <| lexec := w |>
  end.

(** The two messages that end both handlers. *)
Definition announce (env : ExitEnv) (userID : string) (s : LS) : LS :=
  let s := BroadcastLive userID (LiveUpdate.mk "force_exit_done" userID [] None) s in
  match live_query (sqlGetClosedLiveOrdersByUser env.(enow) userID) s with
  | (s, inl _) => s
  | (s, inr l) => BroadcastLive userID (LiveUpdate.mk "closed_orders" userID l None) s
  end.

Definition handleForceExitAllLive (cfg : ExitConfig) (env : ExitEnv) (body : option ExitRequest) (s : LS)
  : LS * Reply :=
  match body with
  | None => (s, HttpError 400 "user_id is required")
  | Some req =>
      let user := req.(reqUserID) in
      if user =?s "" then (s, HttpError 400 "user_id is required")
      else
        match live_query (sqlGetExitableLiveOrdersByUser env.(enow) user) s with
        | (s, inl e) => (s, HttpError 500 ("failed to fetch live orders: " ++ e))
        | (s, inr l) =>
            let '(s, n) := foldl (exit_one cfg env req) (s, 0%nat) l in
            let s := with_oco (CancelAllGroups user) s in
            let s := cancel_live_orders cfg env user s in
            let s := (live_query (sqlCancelAllLiveOrdersByUser env.(enow) user) s).1 in
            (announce env user s, ExitsPlaced n)
        end
  end.

Definition handleForceExitStrategyLive (cfg : ExitConfig) (env : ExitEnv) (body : option ExitRequest) (s : LS)
  : LS * Reply :=
  match body with
  | None => (s, HttpError 400 "user_id and strategy_id are required")
  | Some req =>
      let user := req.(reqUserID) in
      if (user =?s "") || (req.(reqStrategyID) =?s "")
      then (s, HttpError 400 "user_id and strategy_id are required")
      else if req.(reqBearer) =?s "" then (s, HttpError 401 "bearer_token is required for placing exit orders")
      else if negb cfg.(placerSet) then (s, HttpError 503 "exit order placer not configured")
      else
        match live_query (sqlGetExitableLiveOrdersByStrategy env.(enow) req.(reqStrategyID) user) s with
        | (s, inl e) => (s, HttpError 500 ("failed to fetch strategy orders: " ++ e))
        | (s, inr l) =>
            let '(s, n) :=
              foldl (fun acc o => place_exit cfg env req o (record_exit env o acc.1, acc.2)) (s, 0%nat) l in
            let s := with_oco (CancelStrategyGroups user req.(reqStrategyID)) s in
            (announce env user s, ExitsPlaced n)
        end
  end.

End Server.

(** ** What a forced exit of live positions does

    Every order a handler of [LiveExit] sends is the reverse of one position with
    its filled quantity at a limit through the market, and a position is exited at
    most once by a request.  A position whose exit order failed is written off all
    the same, and what is left of its entry stays live at the broker. *)

(** ** Statements on the table *)

(** *** Exited rows *)

Lemma exited_row_kept failure id f t i :
  (i = id -> forall o, exited_row o -> exited_row (f o)) -> exited i t -> exited i (sqlUpdateRow failure id f t).1.
Proof.
  intros Hf (o & Ho & He). unfold exited. destruct (sqlUpdateRow_rows failure id f t) as [-> | ->]; [eauto|].
  destruct (decide (i = id)) as [-> | Hne].
  - rewrite lookup_alter_eq, Ho. eexists. split; [done|]. by apply Hf.
  - rewrite lookup_alter_ne by done. eauto.
Qed.

Lemma exited_where_kept failure p f t i :
  (forall o, exited_row o -> p o = true -> exited_row (f o)) ->
  exited i t -> exited i (sqlUpdateWhere failure p f t).1.
Proof.
  intros Hf (o & Ho & He). unfold exited. destruct (sqlUpdateWhere_rows failure p f t) as [-> | ->]; [eauto|].
  rewrite lookup_fmap, Ho. cbn. eexists. split; [done|]. destruct (p o) eqn:E; [|done]. by apply Hf.
Qed.

Lemma exited_create o t i : exited i t -> exited i (sqlCreate o t).1.
Proof.
  intros (r & Hr & He). unfold exited. destruct (sqlCreate_rows o t) as [-> | [Hn ->]]; [eauto|].
  rewrite lookup_insert_ne by congruence. eauto.
Qed.

(** An exit price, once there, stays: no statement writes it again. *)
Definition has_live_exit (id : uuid) (t : OrdersTable) : Prop :=
  exists o, t.(rows) !! id = Some o /\ is_set o.(Order.LiveExitPrice) = true.

Lemma live_exit_row failure id f t i :
  (forall o, (f o).(Order.LiveExitPrice) = o.(Order.LiveExitPrice)) ->
  has_live_exit i t -> has_live_exit i (sqlUpdateRow failure id f t).1.
Proof.
  intros Hf (o & Ho & He). unfold has_live_exit. destruct (sqlUpdateRow_rows failure id f t) as [-> | ->]; [eauto|].
  destruct (decide (i = id)) as [-> | Hne].
  - rewrite lookup_alter_eq, Ho. eexists. split; [done|]. by rewrite Hf.
  - rewrite lookup_alter_ne by done. eauto.
Qed.

Lemma live_exit_where failure p f t i :
  (forall o, is_set o.(Order.LiveExitPrice) = true -> is_set (f o).(Order.LiveExitPrice) = true) ->
  has_live_exit i t -> has_live_exit i (sqlUpdateWhere failure p f t).1.
Proof.
  intros Hf (o & Ho & He). unfold has_live_exit.
  destruct (sqlUpdateWhere_rows failure p f t) as [-> | ->]; [eauto|].
  rewrite lookup_fmap, Ho. cbn. eexists. split; [done|]. destruct (p o); auto.
Qed.

Lemma live_exit_insert id (o : Order.t) t i :
  t.(rows) !! id = None -> has_live_exit i t ->
  exists r, (<[id := o]> t.(rows)) !! i = Some r /\ is_set r.(Order.LiveExitPrice) = true.
Proof. intros Hn (r & Hr & He). exists r. by rewrite lookup_insert_ne by congruence. Qed.

Lemma statement_keeps_live_exit now s t i : has_live_exit i t -> has_live_exit i (runStatement now s t).1.
Proof.
  intros Ht. destruct s as [x|x|x g r|x st|x p pnl|x p pnl|x p pnl|x qty|x sl|u|s u|x]; cbn [runStatement];
    try (apply live_exit_row; [by intros ?|done]); try (apply live_exit_where; [by intros ? ?|done]).
  - unfold has_live_exit. destruct (sqlCreate_rows x t) as [-> | [Hn ->]]; [done|by apply live_exit_insert].
  - unfold has_live_exit. destruct (sqlUpdatePaperPositionFilledQty_rows now x qty t) as [-> | (y & Hy & ->)];
      [done|]. destruct Ht as (o & Ho & He). destruct (decide (i = x)) as [-> | Hne].
    + rewrite lookup_insert_eq. simplify_eq. eauto.
    + rewrite lookup_insert_ne by done. eauto.
  - unfold has_live_exit. destruct (sqlCreatePaperPartialExit_rows x t) as [-> | [Hn ->]];
      [done|by apply live_exit_insert].
Qed.

Lemma statements_keep_live_exit l t i : has_live_exit i t -> has_live_exit i (runStatements l t).
Proof.
  revert t. induction l as [|[now s] l IH]; intros t Ht; [done|]. cbn. apply IH.
  by apply statement_keeps_live_exit.
Qed.

Lemma exited_has_live_exit i t : exited i t -> has_live_exit i t.
Proof. intros (o & Ho & _ & He). by exists o. Qed.

(** The statement that records an exit. *)
Lemma trade_exit_exits now o p pnl t :
  no_faults t -> t.(rows) !! o.(Order.OrderID) = Some o -> is_set o.(Order.LiveExitPrice) = false ->
  exited o.(Order.OrderID) (sqlUpdateLiveTradeExit now o.(Order.OrderID) p pnl t).1.
Proof.
  intros Hf Ho He. unfold sqlUpdateLiveTradeExit.
  match goal with |- context [sqlUpdateWhere ?x ?q ?g t] => destruct (update_where_no_faults x q g t Hf) as [-> _] end.
  unfold exited, update_where. cbn [fst rows]. rewrite lookup_fmap, Ho. cbn [fmap option_fmap option_map].
  rewrite bool_decide_true by done. rewrite He. cbn [negb andb]. eexists. by split.
Qed.

Lemma trade_exit_keeps now id p pnl t i :
  exited i t -> exited i (sqlUpdateLiveTradeExit now id p pnl t).1.
Proof. apply exited_where_kept. by intros o [_ _] _. Qed.

Lemma trade_exit_other now id p pnl t i o :
  keyed t -> i <> id -> t.(rows) !! i = Some o -> (sqlUpdateLiveTradeExit now id p pnl t).1.(rows) !! i = Some o.
Proof.
  intros Hk Hi Ho. unfold sqlUpdateLiveTradeExit.
  match goal with |- context [sqlUpdateWhere ?x ?q ?g t] => destruct (sqlUpdateWhere_rows x q g t) as [-> | ->] end;
    [done|]. rewrite lookup_fmap, Ho. cbn. rewrite bool_decide_false; [done|]. by rewrite (Hk i o Ho).
Qed.

(** ** One turn of the loop *)

Section Turns.

Context {C B : Type} `{ExecutionBroker B} `{OCOCanceller C B}.

Implicit Types (s : LiveServer C B) (acc : LiveServer C B * nat).

Lemma set_live_table_table t s : live_table (set_live_table t s) = t.
Proof. done. Qed.

Lemma live_query_table {A} (f : OrdersTable -> OrdersTable * A) s :
  live_table (live_query f s).1 = (f (live_table s)).1.
Proof. unfold live_query. by destruct (f (live_table s)). Qed.

Lemma live_query_frame {A} (f : OrdersTable -> OrdersTable * A) s :
  (live_query f s).1.(lexec).(calls) = s.(lexec).(calls) /\ (live_query f s).1.(lasked) = s.(lasked).
Proof. unfold live_query. by destruct (f (live_table s)). Qed.

(** What inserting the exit order and the updates of its row keep. *)
Lemma placeExit_tables (Q : OrdersTable -> Prop) cfg env req o limit s :
  (forall x t, Q t -> Q (sqlCreate x t).1) -> (forall now x t, Q t -> Q (sqlUpdate now x t).1) ->
  Q (live_table s) -> Q (live_table (placeExitOrder cfg env req o limit s).1).
Proof.
  intros Hc Hu Hs. unfold placeExitOrder. cbv zeta.
  set (x := live_exit_order _ _ _ _ _).
  change (live_table (s <| lfresh := (lfresh s + 1)%N |>)) with (live_table s).
  specialize (Hc x (live_table s) Hs). destruct (sqlCreate x (live_table s)) as [t [e|]]; [done|].
  match goal with |- context [ExecuteOrder ?a ?b x ?w] =>
    pose proof (ExecuteOrder_tables Q false (fun n o2 t2 _ => Hu n o2 t2) a b x w eq_refl Hc) as Hx;
    destruct (ExecuteOrder a b x w) as [[w' o'] r] end.
  done.
Qed.

(** A row that is there already is left alone. *)
Lemma placeExit_row cfg env req o limit s i row :
  (live_table s).(rows) !! i = Some row ->
  (live_table (placeExitOrder cfg env req o limit s).1).(rows) !! i = Some row.
Proof.
  intros Hi. unfold placeExitOrder. cbv zeta.
  set (x := live_exit_order _ _ _ _ _).
  change (live_table (s <| lfresh := (lfresh s + 1)%N |>)) with (live_table s).
  pose proof (sqlCreate_rows x (live_table s)) as Hrows.
  destruct (sqlCreate x (live_table s)) as [t [e|]] eqn:Hcr.
  { cbn [fst] in *. rewrite set_live_table_table. destruct Hrows as [-> | [Hn Hr]]; [done|].
    rewrite Hr, lookup_insert_ne by congruence. done. }
  apply sqlCreate_spec in Hcr as [Hn Hr].
  assert (Hne : i <> x.(Order.OrderID)) by congruence.
  match goal with |- context [ExecuteOrder ?a ?b x ?w] =>
    pose proof (ExecuteOrder_other_rows a b x w i Hne) as Hx;
    destruct (ExecuteOrder a b x w) as [[w' o'] r] end.
  cbn [fst] in *. unfold live_table in *. cbn. rewrite Hx. cbn. by rewrite Hr, lookup_insert_ne by done.
Qed.

Lemma exit_one_cases cfg env req acc o :
  (exit_one cfg env req acc o).1 = record_exit env o acc.1 \/
  (exit_one cfg env req acc o).1 =
    (placeExitOrder cfg env req o (calcExitLimitPrice o (exit_price env o)) (record_exit env o acc.1)).1.
Proof.
  unfold exit_one, place_exit. destruct (_ && _); [right|by left].
  cbn [fst snd]. by destruct (placeExitOrder _ _ _ _ _ _).
Qed.

(** The table is free of faults and keyed. *)
Definition sound (t : OrdersTable) : Prop := no_faults t /\ keyed t.

Lemma exit_one_sound cfg env req acc o :
  sound (live_table acc.1) -> sound (live_table (exit_one cfg env req acc o).1).
Proof.
  intros [Hf Hk].
  assert (Hrec : sound (live_table (record_exit env o acc.1))).
  { unfold record_exit. cbv zeta. rewrite live_query_table. split.
    - unfold sqlUpdateLiveTradeExit.
      match goal with |- context [sqlUpdateWhere ?x ?q ?g ?t] =>
        destruct (update_where_no_faults x q g t Hf) as [-> Hg] end. exact Hg.
    - by apply keyed_where. }
  destruct (exit_one_cases cfg env req acc o) as [-> | ->]; [done|].
  apply placeExit_tables; [|intros now|done].
  - intros x t [Hft Hkt]. split; [by apply create_no_faults|by apply keyed_create].
  - intros x t [Hft Hkt]. split; [by apply update_row_no_faults|by apply keyed_row].
Qed.

(** A position before its turn is as it was read, afterwards it is exited. *)
Definition due (o : Order.t) (t : OrdersTable) : Prop :=
  t.(rows) !! o.(Order.OrderID) = Some o \/ exited o.(Order.OrderID) t.

Lemma exited_placed cfg env req o limit s i :
  exited i (live_table s) -> exited i (live_table (placeExitOrder cfg env req o limit s).1).
Proof. intros (r & Hr & He). exists r. split; [by apply placeExit_row|done]. Qed.

Lemma exit_one_exited cfg env req acc o i :
  exited i (live_table acc.1) -> exited i (live_table (exit_one cfg env req acc o).1).
Proof.
  intros He.
  assert (exited i (live_table (record_exit env o acc.1))).
  { unfold record_exit. cbv zeta. rewrite live_query_table. by apply trade_exit_keeps. }
  destruct (exit_one_cases cfg env req acc o) as [-> | ->]; [done|by apply exited_placed].
Qed.

Lemma exit_one_turn cfg env req acc o :
  sound (live_table acc.1) -> is_set o.(Order.LiveExitPrice) = false -> due o (live_table acc.1) ->
  exited o.(Order.OrderID) (live_table (exit_one cfg env req acc o).1).
Proof.
  intros [Hf Hk] He [Hrow | Hx]; [|by apply exit_one_exited].
  assert (exited o.(Order.OrderID) (live_table (record_exit env o acc.1))).
  { unfold record_exit. cbv zeta. rewrite live_query_table. by apply trade_exit_exits. }
  destruct (exit_one_cases cfg env req acc o) as [-> | ->]; [done|by apply exited_placed].
Qed.

Lemma exit_one_other cfg env req acc o o2 :
  sound (live_table acc.1) -> is_set o.(Order.LiveExitPrice) = false -> due o (live_table acc.1) ->
  due o (live_table (exit_one cfg env req acc o2).1).
Proof.
  intros [Hf Hk] He [Hrow | Hx]; [|right; by apply exit_one_exited].
  destruct (decide (o.(Order.OrderID) = o2.(Order.OrderID))) as [Heq | Hne].
  - right. assert (exited o.(Order.OrderID) (live_table (record_exit env o2 acc.1))).
    { unfold record_exit. cbv zeta. rewrite live_query_table, <- Heq. by apply trade_exit_exits. }
    destruct (exit_one_cases cfg env req acc o2) as [-> | ->]; [done|by apply exited_placed].
  - left. assert (Hr : (live_table (record_exit env o2 acc.1)).(rows) !! o.(Order.OrderID) = Some o).
    { unfold record_exit. cbv zeta. rewrite live_query_table. by apply trade_exit_other. }
    destruct (exit_one_cases cfg env req acc o2) as [-> | ->]; [done|by apply placeExit_row].
Qed.

Lemma loop_keeps_exited cfg env req l acc i :
  exited i (live_table acc.1) -> exited i (live_table (foldl (exit_one cfg env req) acc l).1).
Proof. revert acc. induction l as [|o l IH]; intros acc He; [done|]. cbn. apply IH. by apply exit_one_exited. Qed.

(** The loop exits every row it was given. *)
Lemma exit_loop_exits cfg env req l acc o :
  sound (live_table acc.1) -> is_set o.(Order.LiveExitPrice) = false -> due o (live_table acc.1) ->
  (o ∈ l -> exited o.(Order.OrderID) (live_table (foldl (exit_one cfg env req) acc l).1)) /\
  sound (live_table (foldl (exit_one cfg env req) acc l).1).
Proof.
  revert acc. induction l as [|o2 l IH]; intros acc Hs He Hd; [by split; [intros ?%not_elem_of_nil|]|].
  cbn [foldl]. destruct (IH (exit_one cfg env req acc o2)) as [H1 H2];
    [by apply exit_one_sound|done|by apply exit_one_other|]. split; [|done].
  intros [-> | Hin]%elem_of_cons; [|by apply H1].
  apply (loop_keeps_exited cfg env req l). by apply exit_one_turn.
Qed.

(** ** The rest of the handlers *)

Lemma with_oco_exited `{!OCOCancellerLaws C B} f s i :
  (forall x, exited i x.2.(xorders) -> exited i (f x).2.(xorders)) ->
  exited i (live_table s) -> exited i (live_table (with_oco f s)).
Proof.
  intros Hf He. unfold with_oco. destruct (loco s) as [c|]; [|done].
  specialize (Hf (c, s.(lexec)) He). by destruct (f (c, s.(lexec))).
Qed.

Lemma with_oco_frame f s :
  (forall x, (f x).2.(calls) = x.2.(calls)) ->
  (with_oco f s).(lexec).(calls) = s.(lexec).(calls) /\ (with_oco f s).(lasked) = s.(lasked).
Proof.
  intros Hf. unfold with_oco. destruct (loco s) as [c|]; [|done].
  specialize (Hf (c, s.(lexec))). by destruct (f (c, s.(lexec))).
Qed.

Lemma cancel_live_spec env s o :
  (cancel_live env s o).(lexec).(calls) = s.(lexec).(calls) /\
  (forall i, exited i (live_table s) -> exited i (live_table (cancel_live env s o))) /\
  (forall i, i ∈ (cancel_live env s o).(lasked) -> i ∈ s.(lasked) \/ i = o.(Order.OrderID)).
Proof.
  unfold cancel_live, CancelOrderExec. destruct (IsTerminalStatus o.(Order.Status)); [by eauto|]. cbv zeta.
  set (o1 := o <| Order.Status := StatusCancelled |> <| Order.RejectionReason := Some CancelReason |>).
  destruct (repo_update_frame env.(enow) o1 s.(lexec)) as (Fc & Fo & _).
  assert (Hx : forall i, exited i (live_table s) -> exited i (repo_update env.(enow) o1 s.(lexec)).1.(xorders)).
  { intros i He. rewrite Fo. unfold sqlUpdate. apply exited_row_kept; [|exact He]. by intros _ r [_ Hr]. }
  destruct (repo_update _ o1 _) as [w [e|]]; cbn [fst] in *;
    destruct (_ && _); cbn; (split_and!; [done|exact Hx|]);
    intros i Hi; rewrite ?elem_of_app, ?list_elem_of_singleton in Hi; auto.
Qed.

Lemma cancel_loop_spec env l s :
  (foldl (cancel_live env) s l).(lexec).(calls) = s.(lexec).(calls) /\
  (forall i, exited i (live_table s) -> exited i (live_table (foldl (cancel_live env) s l))) /\
  (forall i, i ∈ (foldl (cancel_live env) s l).(lasked) -> i ∈ s.(lasked) \/ i ∈ Order.OrderID <$> l).
Proof.
  revert s. induction l as [|o l IH]; intros s; [cbn; by auto|].
  destruct (cancel_live_spec env s o) as (C1 & E1 & A1), (IH (cancel_live env s o)) as (C2 & E2 & A2).
  cbn [foldl]. split_and!; [congruence|auto|]. intros i Hi. cbn [fmap list_fmap]. rewrite elem_of_cons.
  destruct (A2 i Hi) as [Hs|]; [|by auto]. destruct (A1 i Hs) as [|]; by auto.
Qed.

(** The query of the orders to cancel does not answer an exited row. *)
Lemma cancel_live_orders_spec cfg env user s i :
  keyed (live_table s) -> exited i (live_table s) ->
  (cancel_live_orders cfg env user s).(lexec).(calls) = s.(lexec).(calls) /\
  exited i (live_table (cancel_live_orders cfg env user s)) /\
  (i ∈ (cancel_live_orders cfg env user s).(lasked) -> i ∈ s.(lasked)).
Proof.
  intros Hk He. unfold cancel_live_orders. destruct (cancellerSet cfg); [|done].
  unfold live_query. destruct (sqlGetLiveOrdersByUser env.(enow) user (live_table s)) as [t [e|l]] eqn:Hq.
  { unfold live_table in *. cbn. split_and!; [done| |done].
    destruct He as (r & Hr & Hx). exists r. split; [|done].
    pose proof (select_desc_rows "failed to get user live orders"
      (fun o => (o.(Order.UserID) =?s user) && negb o.(Order.IsPaperTrade)
              && one_of o.(Order.Status) (filled_set ++ in_flight_set) && placed_today env.(enow) o)
      (xorders (lexec s))) as Hrows.
    unfold sqlGetLiveOrdersByUser in Hq. rewrite Hq in Hrows. cbn in Hrows. by rewrite Hrows. }
  unfold sqlGetLiveOrdersByUser in Hq.
  match type of Hq with select_desc ?f ?p _ = _ =>
    pose proof (select_desc_rows f p (live_table s)) as Hrows;
    pose proof (fun o => select_desc_elem f p (live_table s) l o) as Hel end.
  rewrite Hq in Hrows, Hel. cbn [fst snd] in Hrows, Hel.
  destruct (cancel_loop_spec env (List.filter live_at_broker l) (set_live_table t s)) as (Hc & Hx & Ha).
  rewrite Hc. split; [done|]. split.
  { apply Hx. rewrite set_live_table_table. destruct He as (r & Hr & Hx'). exists r. by rewrite Hrows. }
  intros Hi. destruct (Ha i Hi) as [Hs | (o & -> & Ho)%list_elem_of_fmap]; [exact Hs|exfalso].
  apply list_elem_of_In, filter_In, proj1, list_elem_of_In in Ho.
  apply Hel in Ho as [Hp (id & Hid)]; [|done]. pose proof (Hk id o Hid) as Hkey. cbn in Hkey.
  destruct He as (r & Hr & Hst & _). rewrite Hkey, Hid in Hr. injection Hr as <-.
  rewrite Hst in Hp. bool_to_prop. done.
Qed.

Lemma announce_spec env user s :
  (announce env user s).(lexec).(calls) = s.(lexec).(calls) /\
  (announce env user s).(lasked) = s.(lasked) /\
  (live_table (announce env user s)).(rows) = (live_table s).(rows).
Proof.
  unfold announce, live_query. cbv zeta.
  change (live_table (BroadcastLive user _ s)) with (live_table s).
  match goal with |- context [sqlGetClosedLiveOrdersByUser ?n user ?t] =>
    pose proof (select_recent_rows "failed to get closed live orders"
      (fun o => (o.(Order.UserID) =?s user) && negb o.(Order.IsPaperTrade)
              && (is_set o.(Order.LiveExitPrice)
                  || one_of o.(Order.Status) ["CANCELLED"; "REJECTED"; "FAILED"])
              && placed_today n o) t) as Hrows;
    change (select_recent _ _ t) with (sqlGetClosedLiveOrdersByUser n user t) in Hrows;
    destruct (sqlGetClosedLiveOrdersByUser n user t) as [t' [e|l]] end; done.
Qed.

Lemma exit_one_lasked cfg env req acc o : (exit_one cfg env req acc o).1.(lasked) = acc.1.(lasked).
Proof.
  assert (Hr : (record_exit env o acc.1).(lasked) = acc.1.(lasked)).
  { unfold record_exit. cbv zeta. apply live_query_frame. }
  destruct (exit_one_cases cfg env req acc o) as [-> | ->]; [done|]. rewrite <- Hr.
  unfold placeExitOrder. cbv zeta. destruct (sqlCreate _ _) as [t [e|]]; [done|].
  by destruct (ExecuteOrder _ _ _ _) as [[w o'] r].
Qed.

Lemma exit_loop_frame cfg env req l acc : (foldl (exit_one cfg env req) acc l).1.(lasked) = acc.1.(lasked).
Proof. revert acc. induction l as [|o l IH]; intros acc; [done|]. cbn. by rewrite IH, exit_one_lasked. Qed.

Definition exitable_of (now : Z) (user : string) (o : Order.t) : Prop :=
  o.(Order.UserID) = user /\ exitable_live_row now o = true /\ (0 < o.(Order.FilledQuantity))%Z.

Lemma query_sound f p s : sound (live_table s) ->
  live_query (select_desc f p) s =
    (s, inr (merge_sort created_after (List.filter p (all_rows (live_table s))))).
Proof.
  intros [Hf _]. unfold live_query. rewrite select_desc_faultless by done.
  by destruct s as [[]].
Qed.

(** *** What is sent to the broker *)

(** The order [x] leaves the position [o]: the other side, all that was filled,
    the same instrument, a square-off order, and a limit one per cent below the
    exit price of what is sold, one per cent above that of what is bought back. *)
Definition exit_of_position (env : ExitEnv) (o x : Order.t) : Prop :=
  x.(Order.OrderSide) = (if o.(Order.OrderSide) =?s "SELL" then "BUY" else "SELL") /\
  x.(Order.Quantity) = o.(Order.FilledQuantity) /\ x.(Order.StockCode) = o.(Order.StockCode) /\
  x.(Order.IsSquareOffOrder) = true /\ x.(Order.OrderType) = OrderTypeLimit /\
  x.(Order.Price) = Some (if o.(Order.OrderSide) =?s "BUY" then (exit_price env o * dec 99 2)%f64
                          else (exit_price env o * dec 101 2)%f64).

(** The calls of the exit of one position: placements of such an order, and at
    most one of the calls brought the id of an order. *)
Definition exit_calls (env : ExitEnv) (o : Order.t) (tr : list Call) : Prop :=
  (forall x auth r, CPlace x auth r ∈ tr -> exit_of_position env o x) /\
  (length (concat (map accepted tr)) <= 1)%nat.

Lemma exit_calls_nil env o : exit_calls env o [].
Proof. split; [by intros x0 a r ?%not_elem_of_nil|cbn; lia]. Qed.

Lemma exit_order_of_position env id o req x :
  same_request (live_exit_order env.(enow) id o (calcExitLimitPrice o (exit_price env o)) req) x ->
  exit_of_position env o x.
Proof.
  intros Hx. unfold same_request, request_view in Hx.
  pose proof (f_equal Order.OrderSide Hx) as E1. pose proof (f_equal Order.Quantity Hx) as E2.
  pose proof (f_equal Order.StockCode Hx) as E3. pose proof (f_equal Order.IsSquareOffOrder Hx) as E4.
  pose proof (f_equal Order.OrderType Hx) as E5. pose proof (f_equal Order.Price Hx) as E6.
  cbn in E1, E2, E3, E4, E5, E6. split_and!; [done..|]. rewrite E6. unfold calcExitLimitPrice.
  by destruct (_ =?s "BUY").
Qed.

Lemma placeExit_calls cfg env req o s s' e :
  placeExitOrder cfg env req o (calcExitLimitPrice o (exit_price env o)) s = (s', e) ->
  exists tr, s'.(lexec).(calls) = s.(lexec).(calls) ++ tr /\ exit_calls env o tr /\
    length (concat (map accepted tr)) = (if is_set e then 0 else 1)%nat.
Proof.
  unfold placeExitOrder. cbv zeta. set (x := live_exit_order _ _ _ _ _).
  destruct (sqlCreate x _) as [t [e1|]].
  { intros [= <- <-]. exists []. cbn. rewrite app_nil_r. eauto using exit_calls_nil. }
  match goal with |- context [ExecuteOrder ?a ?b x ?w] =>
    destruct (ExecuteOrder a b x w) as [[w' o'] r] eqn:Hrun end.
  intros [= <- <-]. destruct (ExecuteOrder_accepts _ _ x _ _ _ _ eq_refl Hrun) as (tr & Hc & Hf & Ha).
  exists tr. split; [exact Hc|]. split.
  - split.
    + intros x0 a r0 Hin. rewrite Forall_forall in Hf. specialize (Hf _ Hin). cbn in Hf.
      by apply (exit_order_of_position env (lfresh s) o req).
    + destruct r as [msg|]; [rewrite Ha; cbn; lia|]. destruct Ha as [id ->]. cbn. lia.
  - destruct r; [by rewrite Ha|]. by destruct Ha as [id ->].
Qed.

Lemma record_exit_calls env o s : (record_exit env o s).(lexec).(calls) = s.(lexec).(calls).
Proof. unfold record_exit. cbv zeta. apply live_query_frame. Qed.

Lemma update_row_absent failure id f t i :
  t.(rows) !! i = None -> (sqlUpdateRow failure id f t).1.(rows) !! i = None.
Proof.
  intros Hi. destruct (sqlUpdateRow_rows failure id f t) as [-> | ->]; [done|].
  by rewrite lookup_alter_None.
Qed.

(** The database answers, and the next id is not in the table. *)
Definition ready s : Prop :=
  no_faults (live_table s) /\ forall i, (s.(lfresh) <= i)%N -> (live_table s).(rows) !! i = None.

Lemma placeExit_ready cfg env req o limit s :
  ready s -> o.(Order.UserID) <> "" ->
  ready (placeExitOrder cfg env req o limit s).1 /\
  exists x auth a tr, (placeExitOrder cfg env req o limit s).1.(lexec).(calls) = s.(lexec).(calls) ++ CPlace x auth a :: tr.
Proof.
  intros [Hf Hn] Hu. unfold placeExitOrder. cbv zeta. set (x := live_exit_order _ _ _ _ _).
  change (live_table (s <| lfresh := (lfresh s + 1)%N |>)) with (live_table s).
  pose proof (create_no_faults x (live_table s) Hf) as Hcf.
  assert (Hc : (sqlCreate x (live_table s)).2 = None).
  { unfold sqlCreate, driver. unfold no_faults in Hf. destruct (live_table s) as [r fs] eqn:Et. cbn in Hf. subst fs.
    cbn -[inserted_row]. change (Order.OrderID x) with (lfresh s). specialize (Hn (lfresh s)). cbn in Hn.
    by rewrite Hn by lia. }
  destruct (sqlCreate x (live_table s)) as [t e] eqn:Hcr. cbn in Hc, Hcf. subst e.
  apply sqlCreate_spec in Hcr as [_ Hr].
  match goal with |- context [ExecuteOrder ?a ?b x ?w] =>
    pose proof (ExecuteOrder_tables (fun t => no_faults t /\ forall i, (lfresh s + 1 <= i)%N -> t.(rows) !! i = None)
      false (fun n o2 t2 _ H => conj (update_row_no_faults _ _ _ _ (proj1 H)) (fun i Hi =>
        update_row_absent _ _ _ _ i (proj2 H i Hi))) a b x w eq_refl) as Hx;
    pose proof (ExecuteOrder_places a b x w) as Hp; destruct (ExecuteOrder a b x w) as [[w' o'] r] end.
  cbn [fst snd] in *. split.
  - apply Hx. split; [exact Hcf|]. intros i Hi. cbn. rewrite Hr.
    rewrite lookup_insert_ne by (change (Order.OrderID x) with (lfresh s); lia). apply Hn. lia.
  - assert (Hauth : executionAuth (x <| Order.Status := StatusPending |>) (set_live_table t
        (s <| lfresh := (lfresh s + 1)%N |>)).(lexec) = ((set_live_table t
        (s <| lfresh := (lfresh s + 1)%N |>)).(lexec), inr (mkAuth o.(Order.UserID) req.(reqApp) req.(reqSource) req.(reqBearer)))).
    { apply String.eqb_neq in Hu. unfold executionAuth. cbn. by rewrite Hu. }
    destruct (Hp _ _ w' o' r eq_refl eq_refl Hauth eq_refl) as (a & tr & Hcalls). cbn. eauto.
Qed.

Lemma record_exit_ready env o s : ready s -> ready (record_exit env o s).
Proof.
  intros [Hf Hn]. unfold ready, record_exit. cbv zeta.
  rewrite live_query_table. split.
  - unfold sqlUpdateLiveTradeExit.
    match goal with |- context [sqlUpdateWhere ?x ?q ?g ?t] =>
      destruct (update_where_no_faults x q g t Hf) as [-> Hg] end. exact Hg.
  - unfold live_query. destruct (sqlUpdateLiveTradeExit _ _ _ _ (live_table s)) as [t e] eqn:E. cbn.
    intros i Hi. unfold sqlUpdateLiveTradeExit in E. specialize (Hn i Hi).
    match type of E with sqlUpdateWhere ?x ?q ?g ?t0 = _ =>
      pose proof (sqlUpdateWhere_rows x q g t0) as Hrows end. rewrite E in Hrows. cbn in Hrows.
    destruct Hrows as [-> | ->]; [done|]. by rewrite lookup_fmap, Hn.
Qed.

(** The number of positions with an accepted order. *)
Definition accepted_exits (trs : list (list Call)) : nat := length (concat (map accepted (concat trs))).

Lemma accepted_exits_cons tr trs :
  accepted_exits (tr :: trs) = (length (concat (map accepted tr)) + accepted_exits trs)%nat.
Proof. unfold accepted_exits. cbn. by rewrite map_app, concat_app, length_app. Qed.

Lemma exit_one_calls cfg env req acc o :
  exists tr, (exit_one cfg env req acc o).1.(lexec).(calls) = acc.1.(lexec).(calls) ++ tr /\
    exit_calls env o tr /\ (exit_one cfg env req acc o).2 = (acc.2 + length (concat (map accepted tr)))%nat.
Proof.
  unfold exit_one, place_exit. cbn [fst snd]. destruct (_ && _).
  - destruct (placeExitOrder _ _ _ _ _ _) as [s' e] eqn:Hp.
    destruct (placeExit_calls _ _ _ _ _ _ _ Hp) as (tr & Hc & Hx & Hl). exists tr. cbn [fst snd].
    rewrite Hc, record_exit_calls, Hl. do 2 (split; [done|]). destruct (is_set e); lia.
  - exists []. cbn [fst snd]. rewrite record_exit_calls, app_nil_r. split; [done|].
    split; [apply exit_calls_nil|cbn; lia].
Qed.

(** The exit of a position places an order when it can. *)
Definition can_place (cfg : ExitConfig) (req : ExitRequest) : bool :=
  cfg.(placerSet) && negb (req.(reqBearer) =?s "").

Lemma exit_one_places cfg env req acc o tr :
  can_place cfg req = true -> ready acc.1 -> o.(Order.UserID) <> "" ->
  (exit_one cfg env req acc o).1.(lexec).(calls) = acc.1.(lexec).(calls) ++ tr ->
  ready (exit_one cfg env req acc o).1 /\ (1 <= placements tr)%nat.
Proof.
  intros Hcan Hr Hu. unfold can_place in Hcan. unfold exit_one, place_exit. cbv zeta. rewrite Hcan. cbn [fst snd].
  destruct (placeExit_ready cfg env req o (calcExitLimitPrice o (exit_price env o))
    (record_exit env o acc.1) (record_exit_ready env o _ Hr) Hu) as (H1 & x & a & b & tr' & H2).
  rewrite record_exit_calls in H2. destruct (placeExitOrder _ _ _ _ _ _) as [s' e]. cbn [fst] in *.
  rewrite H2. intros <-%app_inv_head. split; [done|]. cbn. lia.
Qed.

Lemma exit_loop_calls cfg env req l acc :
  exists trs,
    (foldl (exit_one cfg env req) acc l).1.(lexec).(calls) = acc.1.(lexec).(calls) ++ concat trs /\
    Forall2 (exit_calls env) l trs /\
    (foldl (exit_one cfg env req) acc l).2 = (acc.2 + accepted_exits trs)%nat /\
    (can_place cfg req = true -> ready acc.1 -> Forall (fun o => o.(Order.UserID) <> "") l ->
     Forall (fun tr => 1 <= placements tr)%nat trs).
Proof.
  revert acc. induction l as [|o l IH]; intros acc.
  { exists []. cbn. rewrite app_nil_r. split_and!; [done|constructor|unfold accepted_exits; cbn; lia|by constructor]. }
  cbn [foldl]. destruct (IH (exit_one cfg env req acc o)) as (trs & Hc & Hf & Hn & Hall).
  rewrite Hc, Hn. clear Hc Hn. destruct (exit_one_calls cfg env req acc o) as (tr & Hc & Hx & Hn).
  rewrite Hc, Hn. exists (tr :: trs). cbn [concat].
  rewrite app_assoc, accepted_exits_cons. split_and!; [done|by constructor|lia|].
  intros Hcan Hr [Hu Hl]%Forall_cons_1.
  destruct (exit_one_places cfg env req acc o tr Hcan Hr Hu Hc) as [Hr' Hp]. constructor; auto.
Qed.

(** The strategy handler's loop is the same loop: it has checked before that
    orders can be placed. *)
Lemma strategy_loop cfg env req l acc :
  cfg.(placerSet) = true -> req.(reqBearer) <> "" ->
  foldl (fun acc o => place_exit cfg env req o (record_exit env o acc.1, acc.2)) acc l =
  foldl (exit_one cfg env req) acc l.
Proof.
  intros Hp Ht. revert acc. induction l as [|o l IH]; intros acc; [done|]. cbn [foldl]. rewrite IH.
  f_equal. unfold exit_one. apply String.eqb_neq in Ht. by rewrite Hp, Ht.
Qed.

Lemma cancel_live_orders_calls cfg env user s :
  (cancel_live_orders cfg env user s).(lexec).(calls) = s.(lexec).(calls).
Proof.
  unfold cancel_live_orders. destruct (cancellerSet cfg); [|done].
  pose proof (proj1 (live_query_frame (sqlGetLiveOrdersByUser env.(enow) user) s)) as Hq.
  destruct (live_query _ s) as [s1 [e|l]]; cbn in Hq; [done|].
  by rewrite (proj1 (cancel_loop_spec env (List.filter live_at_broker l) s1)).
Qed.

(** What the query of the positions to exit answers. *)
Lemma exitable_query failure p s s0 l :
  keyed (live_table s) -> live_query (select_desc failure p) s = (s0, inr l) ->
  s0.(lexec).(calls) = s.(lexec).(calls) /\ (ready s -> ready s0) /\
  (forall o, o ∈ l <-> (exists id, (live_table s).(rows) !! id = Some o) /\ p o = true) /\
  NoDup (Order.OrderID <$> l).
Proof.
  intros Hk Hq. pose proof (proj1 (live_query_frame (select_desc failure p) s)) as Hc. rewrite Hq in Hc.
  pose proof (live_query_table (select_desc failure p) s) as Ht. rewrite Hq in Ht. cbn [fst] in Hc, Ht.
  pose proof (select_desc_rows failure p (live_table s)) as Hrows. rewrite <- Ht in Hrows.
  assert (Hfresh : s0.(lfresh) = s.(lfresh) /\ (select_desc failure p (live_table s)).2 = inr l).
  { unfold live_query in Hq. destruct (select_desc _ _ _) as [t r]. by injection Hq as <- ->. }
  destruct Hfresh as [Hfr Hsel]. split_and!; [done| | |].
  - intros [Hf Hn]. split; [|by rewrite Hfr, Hrows].
    rewrite Ht. rewrite select_desc_faultless; done.
  - intros o. rewrite (select_desc_elem _ _ _ _ _ Hsel). tauto.
  - by apply (select_desc_NoDup _ _ _ _ Hk Hsel).
Qed.

(** C23: A forced exit of all live positions of a user, or of those of one strategy,
    that answers with a count has gone through exactly the rows of the table that
    could be exited (for all positions those with a filled quantity, for a strategy
    those of the strategy), each once, and has sent to the broker nothing but
    their exits, one position after the other: every placement for a position is an
    order on the other side for its filled quantity, with a limit exactly one per
    cent below (selling) or above (buying back) its exit price, and at most one of
    them is accepted; the reply counts the positions with an accepted exit order.
    When the placer is wired, the request has a token, the database answers and
    fresh ids are fresh, an exit order is placed for every one of the positions. *)
Theorem forced_exit_sends_exits `{!OCOCancellerLaws C B} (cfg : ExitConfig) (env : ExitEnv) (req : ExitRequest)
    (all : bool) (s s' : LiveServer C B) (n : nat)
    (Hk : keyed (live_table s))
    (Hrun : (if all then handleForceExitAllLive cfg env (Some req) s
             else handleForceExitStrategyLive cfg env (Some req) s) = (s', ExitsPlaced n)) :
  exists positions trs,
    (forall o, o ∈ positions <-> (exists id, (live_table s).(rows) !! id = Some o) /\
       o.(Order.UserID) = req.(reqUserID) /\ exitable_live_row env.(enow) o = true /\
       if all then (0 < o.(Order.FilledQuantity))%Z else o.(Order.StrategyID) = req.(reqStrategyID)) /\
    NoDup (Order.OrderID <$> positions) /\
    s'.(lexec).(calls) = s.(lexec).(calls) ++ concat trs /\
    Forall2 (exit_calls env) positions trs /\ n = accepted_exits trs /\
    (cfg.(placerSet) = true -> req.(reqBearer) <> "" -> ready s ->
     Forall (fun tr => 1 <= placements tr)%nat trs).
Proof.
  assert (Hcan : cfg.(placerSet) = true -> req.(reqBearer) <> "" -> can_place cfg req = true).
  { intros H1 H2%String.eqb_neq. unfold can_place. by rewrite H1, H2. }
  destruct all; revert Hrun.
  - unfold handleForceExitAllLive. destruct (reqUserID req =?s "") eqn:Hu; [done|]. apply String.eqb_neq in Hu.
    destruct (live_query _ s) as [s0 [e|l]] eqn:Hsel; [done|]. apply exitable_query in Hsel as (Hq & Hr & Hel & Hnd); [|done].
    destruct (exit_loop_calls cfg env req l (s0, 0%nat)) as (trs & Hc & Hf & Hn & Hall).
    destruct (foldl _ _ l) as [s1 n1]. cbn [fst snd] in *.
    match goal with |- (announce env ?u (live_query ?f ?s3).1, _) = _ -> _ =>
      intros [= <- <-]; pose proof (proj1 (live_query_frame f s3)) as H4 end.
    exists l, trs. rewrite (proj1 (announce_spec _ _ _)), H4, cancel_live_orders_calls.
    rewrite (proj1 (with_oco_frame _ _ (cancel_all_calls _))), Hc, Hq.
    assert (Hiff : forall o, o ∈ l <-> (exists id, (live_table s).(rows) !! id = Some o) /\
       o.(Order.UserID) = req.(reqUserID) /\ exitable_live_row env.(enow) o = true /\ (0 < o.(Order.FilledQuantity))%Z).
    { intros o. rewrite Hel, !andb_true_iff, String.eqb_eq, Z.ltb_lt. tauto. }
    split_and!; [exact Hiff|done|done|done|lia|]. intros H1 H2 H3. apply Hall; auto.
    apply Forall_forall. intros o (_ & -> & _)%Hiff. done.
  - unfold handleForceExitStrategyLive. destruct (_ || _) eqn:Hor; [done|].
    apply orb_false_elim in Hor as [Hu _]. apply String.eqb_neq in Hu.
    destruct (reqBearer req =?s "") eqn:Ht; [done|]. apply String.eqb_neq in Ht.
    destruct (placerSet cfg) eqn:Hps; [|done]. cbn [negb].
    destruct (live_query _ s) as [s0 [e|l]] eqn:Hsel; [done|]. apply exitable_query in Hsel as (Hq & Hr & Hel & Hnd); [|done].
    rewrite strategy_loop by done.
    destruct (exit_loop_calls cfg env req l (s0, 0%nat)) as (trs & Hc & Hf & Hn & Hall).
    destruct (foldl _ _ l) as [s1 n1]. cbn [fst snd] in *. intros [= <- <-].
    exists l, trs. rewrite (proj1 (announce_spec _ _ _)).
    rewrite (proj1 (with_oco_frame _ _ (cancel_strategy_calls _ _))), Hc, Hq.
    assert (Hiff : forall o, o ∈ l <-> (exists id, (live_table s).(rows) !! id = Some o) /\
       o.(Order.UserID) = req.(reqUserID) /\ exitable_live_row env.(enow) o = true /\
       o.(Order.StrategyID) = req.(reqStrategyID)).
    { intros o. rewrite Hel. unfold of_strategy. rewrite !andb_true_iff, !String.eqb_eq. tauto. }
    split_and!; [exact Hiff|done|done|done|lia|]. intros H1 H2 H3. apply Hall; auto.
    apply Forall_forall. intros o (_ & -> & _)%Hiff. done.
Qed.

(** When a user forces the exit of all live positions, every position that
    could be exited is written off: whatever the broker answers to its exit
    order, and also when no order was sent because the request had no token, its
    row becomes CANCELLED with an exit price.  From then on no statement
    makes it exitable again, so a repeated request does not exit it, and the
    broker is not asked to cancel its entry, although an entry that was only
    partly filled is still live there. *)
Theorem forced_exit_writes_off `{!OCOCancellerLaws C B} (cfg : ExitConfig) (env : ExitEnv) (req : ExitRequest)
    (s : LiveServer C B) (o : Order.t)
    (Hs : sound (live_table s)) (Huser : req.(reqUserID) <> "")
    (Hrow : (live_table s).(rows) !! o.(Order.OrderID) = Some o)
    (Hexit : exitable_of env.(enow) req.(reqUserID) o) :
  let s' := (handleForceExitAllLive cfg env (Some req) s).1 in
  exited o.(Order.OrderID) (live_table s') /\
  (o.(Order.OrderID) ∈ s'.(lasked) -> o.(Order.OrderID) ∈ s.(lasked)) /\
  forall later now row, (runStatements later (live_table s')).(rows) !! o.(Order.OrderID) = Some row ->
    exitable_live_row now row = false.
Proof.
  destruct Hexit as (Hu & Hlive & Hqty). intros s'.
  cut (exited o.(Order.OrderID) (live_table s') /\
       (o.(Order.OrderID) ∈ s'.(lasked) -> o.(Order.OrderID) ∈ s.(lasked))).
  { intros [He Ha]. split_and!; [done|done|]. intros later now row Hrow'.
    destruct (statements_keep_live_exit later _ _ (exited_has_live_exit _ _ He)) as (r & Hr & Hset).
    simplify_eq. unfold exitable_live_row. rewrite Hset. cbn. by rewrite andb_false_r. }
  assert (He0 : is_set o.(Order.LiveExitPrice) = false).
  { unfold exitable_live_row in Hlive. bool_to_prop. done. }
  subst s'. unfold handleForceExitAllLive. apply String.eqb_neq in Huser. rewrite Huser.
  unfold sqlGetExitableLiveOrdersByUser. rewrite query_sound by done.
  match goal with |- context [merge_sort created_after ?l0] => set (l := merge_sort created_after l0) end.
  assert (Hin : o ∈ l).
  { unfold l. rewrite (merge_sort_Permutation created_after), list_elem_of_In, filter_In, <- list_elem_of_In.
    rewrite elem_all_rows, Hu, String.eqb_refl, Hlive. cbn. split; [by eexists|by apply Z.ltb_lt]. }
  destruct (exit_loop_exits cfg env req l (s, 0%nat) o Hs He0 (or_introl Hrow)) as [Hx [_ Hk1]].
  specialize (Hx Hin). pose proof (exit_loop_frame cfg env req l (s, 0%nat)) as Hl.
  destruct (foldl (exit_one cfg env req) (s, 0%nat) l) as [s1 n]. cbn [fst] in *.
  set (s2 := with_oco _ s1).
  assert (Hx2 : exited o.(Order.OrderID) (live_table s2)).
  { apply with_oco_exited; [|done]. intros x. apply cancel_all_exited. }
  assert (Hk2 : keyed (live_table s2)).
  { unfold s2, with_oco. destruct (loco s1) as [c|]; [|done].
    pose proof (cancel_all_keyed (reqUserID req) (c, s1.(lexec)) Hk1) as Hk2.
    by destruct (CancelAllGroups _ _). }
  destruct (with_oco_frame (CancelAllGroups (reqUserID req)) s1 (cancel_all_calls _)) as [_ Hl2].
  destruct (cancel_live_orders_spec cfg env req.(reqUserID) s2 _ Hk2 Hx2) as (_ & Hx3 & Ha3).
  set (s3 := cancel_live_orders _ _ _ s2) in *.
  set (s4 := (live_query _ s3).1).
  assert (Hx4 : exited o.(Order.OrderID) (live_table s4)).
  { unfold s4. rewrite live_query_table. apply exited_where_kept; [|done]. by intros r [_ Hr] _. }
  destruct (announce_spec env req.(reqUserID) s4) as (_ & Hl5 & Hr5). cbn [fst]. split.
  - unfold exited. by rewrite Hr5.
  - rewrite Hl5. unfold s4. rewrite (proj2 (live_query_frame _ s3)). intros Hi%Ha3.
    fold s2 in Hl2. by rewrite Hl2, Hl in Hi.
Qed.

End Turns.
