(* ===== verification/LiveOCO.v ===== *)
(** * The OCO manager behind the forced exits

    The interface [LiveExit.OCOCanceller] for the manager of [OCOManager]: a
    cancellation marks the groups and starts their goroutines, so it returns at
    once and leaves the shared table alone.  With it, concrete runs of the
    handlers. *)

From stdpp Require Import base gmap strings list fin_maps fin_sets sorting.
From Stdlib Require Import ZArith Lia.
From S2P Require Import Prelude GoFloat FloatRound FloatOrder Price GoStrings Orders OrderRepo OrderQueries OCOTypes.
From S2P Require Import Broker OCOHandlers OCOManager OCOInvariants Indira Signals Executor PaperPrices PaperMonitor TableFacts LiveExit.

Open Scope string_scope.
Open Scope list_scope.
Open Scope go_scope.

Section Canceller.

Context {Bo Co D B : Type} `{BrokerClient Bo} `{CredentialsRefresher Co} `{OrderRepository D}.

Abbreviation W := (World Bo Co D).

(** [m] returns and leaves the groups where they are. *)
Definition returns (m : Go W unit) : Prop :=
  forall w, exists w', m w = Some (tt, w') /\ dom w'.(heap) = dom w.(heap).

Lemma returns_modify (f : W -> W) : (forall w, dom (f w).(heap) = dom w.(heap)) -> returns (modify f).
Proof. intros Hf w. exists (f w). by split. Qed.

Lemma returns_bind (m k : Go W unit) : returns m -> returns k -> returns (m ;; k).
Proof.
  intros Hm Hk w. destruct (Hm w) as (w1 & E1 & D1), (Hk w1) as (w2 & E2 & D2).
  exists w2. split; [|congruence]. unfold mbind, go_bind. by rewrite E1.
Qed.

Lemma returns_ret : returns (mret tt).
Proof. intros w. by exists w. Qed.

Lemma returns_cancel_effects gid (g : Group.t) : returns (applyEffects gid (cancel_effects g ++ [EScheduleCleanup])).
Proof.
  unfold applyEffects, cancel_effects.
  repeat match goal with |- context [if ?b then _ else _] => destruct b end; cbn;
    repeat (apply returns_bind; [by apply returns_modify|]); apply returns_ret.
Qed.

Lemma CancelGroup_returns now gid (w : W) :
  gid ∈ dom w.(heap) ->
  exists w' r, CancelGroup now gid w = Some (r, w') /\ dom w'.(heap) = dom w.(heap).
Proof.
  intros Hd. apply elem_of_dom in Hd as [g Hg]. unfold CancelGroup, gets. unfold mbind, go_bind. cbn.
  destruct (bool_decide (gid ∈ groups w)); cbn; [|by eauto].
  unfold getGroup. rewrite Hg. destruct (IsTerminal _); [by eauto|].
  unfold setGroup, modify.
  match goal with |- context [applyEffects gid _ ?x] =>
    destruct (returns_cancel_effects gid g x) as (w2 & E2 & D2) end.
  unfold mbind, go_bind. cbn. rewrite E2. eexists _, _. split; [done|]. rewrite D2. cbn.
  rewrite dom_insert_L. apply elem_of_dom_2 in Hg. set_solver.
Qed.

(** Cancelling groups does not panic: every selected group is in the heap. *)
Lemma cancelSelected_returns now p (w : W) : exists w', cancelSelected now p w = Some (tt, w').
Proof.
  unfold cancelSelected, gets. unfold mbind at 1, go_bind at 1. cbn.
  assert (Hsel : forall gid, gid ∈ selectGroups p w -> gid ∈ dom w.(heap)).
  { intros gid Hg. apply list_elem_of_In, filter_In in Hg as [_ Hg]. apply elem_of_dom.
    destruct (heap w !! gid); [by eexists|done]. }
  revert Hsel. generalize (selectGroups p w). intros l. revert w.
  induction l as [|gid l IH]; intros w Hsel; cbn; [by eauto|].
  destruct (CancelGroup_returns now gid w) as (w1 & r & E1 & D1); [by apply Hsel; left|].
  unfold mbind, go_bind. rewrite E1. cbn. apply IH. intros i Hi. rewrite D1. apply Hsel. by right.
Qed.

(** What the manager makes of its state; [None] would be a panic. *)
Definition manager_cancels (f : Go W unit) (x : W * ExecState B) : W * ExecState B :=
  match f x.1 with Some (_, w) => (w, x.2) | None => x end.

#[export] Instance oco_manager_canceller (now : Z) : OCOCanceller W B := {
  CancelAllGroups := fun u => manager_cancels (CancelAllGroupsByUser now u);
  CancelStrategyGroups := fun u g => manager_cancels (CancelGroupsByStrategy now u g)
}.

Lemma manager_cancels_shared f x : (manager_cancels f x).2 = x.2.
Proof. unfold manager_cancels. by destruct (f x.1) as [[? ?]|]. Qed.

#[export] Instance oco_manager_laws (now : Z) : @OCOCancellerLaws W B (oco_manager_canceller now).
Proof. split; intros; cbn; by rewrite manager_cancels_shared. Qed.

End Canceller.

(** ** Concrete runs *)

(** Four of ten shares of an entry are filled; the rest is live at the broker. *)
Definition partial_entry : Order.t :=
  sample_entry <| Order.Status := "PARTIALLY_FILLED" |> <| Order.IndiraOrderID := Some "B7" |>
    <| Order.FilledQuantity := 4%Z |> <| Order.FilledPrice := Some (of_Z 100) |>.

(** The group of the user is live, and the broker refuses the next order. *)
Definition live_start (answers : list (PlaceError + string)) : LiveServer DemoWorld BookBroker :=
  mkServer (mkExec (mkBookBroker answers []) None (mkTable {[ 7%N := partial_entry ]} []) [] [] [] [] [] [] [])
    (Some demo_active) 100 [] [].

Definition exit_env : ExitEnv := mkExitEnv 5 (fun _ => sample_env) (Some (fun _ => of_Z 104)).
Definition exit_cfg : ExitConfig := mkExitConfig (sample_cfg 1) true true.
Definition exit_request (token : string) : ExitRequest := mkExitRequest "U1" "" token "a" "WEB".

Definition refusal : PlaceError := mkPlaceError "insufficient margin" true false.

Definition force_all (token : string) (s : LiveServer DemoWorld BookBroker) : LiveServer DemoWorld BookBroker * Reply :=
  handleForceExitAllLive (H0 := oco_manager_canceller 5) exit_cfg exit_env (Some (exit_request token)) s.

(** The refused exit is counted as not placed, the row is closed; a second request
    finds nothing to exit although the broker accepts now, and the six shares
    that are still ordered there stay. *)
Example refused_exit_is_lost :
  let s1 := force_all "t" (live_start [inl refusal]) in
  let s2 := force_all "t" s1.1 in
  s1.2 = ExitsPlaced 0 /\ s2.2 = ExitsPlaced 0 /\ placements s2.1.(lexec).(calls) = 1%nat /\
  s2.1.(lasked) = [] /\
  option_map (fun o => (o.(Order.Status), o.(Order.LiveExitPrice))) ((live_table s2.1).(rows) !! 7%N)
    = Some ("CANCELLED", Some (of_Z 104)).
Proof. vm_compute. split_and!; reflexivity. Qed.

(** Without a token nothing is sent, and the position is closed all the same. *)
Example exit_without_token :
  let s1 := force_all "" (live_start []) in
  s1.2 = ExitsPlaced 0 /\ s1.1.(lexec).(calls) = [] /\
  option_map Order.Status ((live_table s1.1).(rows) !! 7%N) = Some "CANCELLED".
Proof. vm_compute. split_and!; reflexivity. Qed.

(** An accepted exit: four shares are sold at one per cent below 104. *)
Example exit_accepted :
  let s1 := force_all "t" (live_start []) in
  s1.2 = ExitsPlaced 1 /\
  map (fun c => match c with
                | CPlace x _ _ => (x.(Order.OrderSide), x.(Order.Quantity), x.(Order.Price))
                | _ => ("", 0%Z, None)
                end) s1.1.(lexec).(calls) = [("SELL", 4%Z, Some (of_Z 104 * dec 99 2)%f64)].
Proof. vm_compute. split; reflexivity. Qed.

Lemma live_start_keyed answers : keyed (live_table (live_start answers)).
Proof. apply map_Forall_singleton. reflexivity. Qed.

Lemma forced_exit_writes_off_witness :
  let s' := (force_all "t" (live_start [inl refusal])).1 in
  exited 7%N (live_table s') /\ (7%N ∈ s'.(lasked) -> 7%N ∈ (live_start [inl refusal]).(lasked)) /\
  forall later now row, (runStatements later (live_table s')).(rows) !! 7%N = Some row ->
    exitable_live_row now row = false.
Proof.
  refine (forced_exit_writes_off (H0 := oco_manager_canceller 5) exit_cfg exit_env (exit_request "t")
            (live_start [inl refusal]) partial_entry _ _ _ _).
  - split; [reflexivity|apply live_start_keyed].
  - discriminate.
  - reflexivity.
  - split; [reflexivity|]. split; [vm_compute; reflexivity|reflexivity].
Defined.

Lemma forced_exit_sends_exits_witness :
  exists positions trs, partial_entry ∈ positions /\
    (force_all "t" (live_start [])).1.(lexec).(calls) = (live_start []).(lexec).(calls) ++ concat trs /\
    Forall2 (exit_calls exit_env) positions trs /\ 1%nat = accepted_exits trs /\
    Forall (fun tr => 1 <= placements tr)%nat trs.
Proof.
  destruct (forced_exit_sends_exits (H0 := oco_manager_canceller 5) exit_cfg exit_env (exit_request "t") true
              (live_start []) (force_all "t" (live_start [])).1 1%nat (live_start_keyed []))
    as (positions & trs & H1 & H2 & H3 & H4 & H5 & H6); [vm_compute; reflexivity|].
  exists positions, trs. split_and!; [|exact H3|exact H4|exact H5|].
  - apply H1. split; [by exists 7%N|]. split; [reflexivity|]. split; [vm_compute; reflexivity|reflexivity].
  - apply H6; [reflexivity|discriminate|]. split; [reflexivity|]. intros i Hi.
    apply lookup_singleton_ne. cbn in Hi. lia.
Defined.
