(* ===== verification/OrderServer.v ===== *)
(** * The gRPC server of the trade execution

    [trade-execution/internal/server/grpc_server.go]: the handlers over the
    repository and the executor, and the conversion of orders.  A handler answers,
    fails with a status, or panics; the server installs no interceptor that
    recovers, so a panic ends the process.  [uuid.Parse] and the text of an id
    are parameters, an enum value is its name without the prefix. *)

From stdpp Require Import base gmap strings list fin_maps sorting.
From Stdlib Require Import ZArith Lia.
From S2P Require Import Prelude GoFloat GoStrings GoTime Orders OrderRepo OrderQueries OCOTypes Broker Indira Signals Executor TableFacts.

Open Scope string_scope.
Open Scope list_scope.
Open Scope go_scope.

(** ** Messages *)

Module ProtoOrder.

Record t : Type := mk {
  OrderId : string;
  UserId : string;
  StrategyId : string;
  EventId : string;
  StockCode : Z;
  Exchange : string;
  Symbol : string;
  OrderType : string;
  OrderSide : string;
  Quantity : Z;
  Price : f64;
  Validity : string;
  Status : string;
  FilledQuantity : Z;
  FilledPrice : f64;
  IndiraOrderId : string;
  Commission : f64;
  TotalCost : f64;
  CreatedAt : Z * Z;
  UpdatedAt : Z * Z
}.

End ProtoOrder.

Definition convertExchange (exchange : string) : string :=
  if exchange =?s "NSE" then "NSE" else if exchange =?s "BSE" then "BSE" else "UNSPECIFIED".

Definition convertOrderType (orderType : string) : string :=
  if orderType =?s OrderTypeMarket then "MARKET"
  else if orderType =?s OrderTypeLimit then "LIMIT"
  else if orderType =?s OrderTypeStopLoss then "STOP_LOSS" else "UNSPECIFIED".

Definition convertOrderSide (side : string) : string :=
  if side =?s "BUY" then "BUY" else if side =?s "SELL" then "SELL" else "UNSPECIFIED".

Definition convertOrderStatus (status : string) : string :=
  if status =?s StatusReceived then "RECEIVED"
  else if status =?s StatusPending then "PENDING"
  else if status =?s StatusSubmitted then "SUBMITTED"
  else if status =?s StatusPartiallyFilled then "PARTIAL_FILLED"
  else if status =?s StatusFilled then "FILLED"
  else if status =?s StatusRejected then "REJECTED"
  else if status =?s StatusCancelled then "CANCELLED"
  else if status =?s StatusFailed then "FAILED" else "UNSPECIFIED".

(** Seconds and nanoseconds of an instant. *)
Definition proto_time (t : Z) : Z * Z := (t / second, t mod second)%Z.

Definition or_zero (p : option f64) : f64 := default fzero p.

Definition convertToProtoOrder (uuid_text : uuid -> string) (o : Order.t) : ProtoOrder.t :=
  ProtoOrder.mk (uuid_text o.(Order.OrderID)) o.(Order.UserID) o.(Order.StrategyID)
    (uuid_text o.(Order.EventID)) o.(Order.StockCode) (convertExchange o.(Order.Exchange)) o.(Order.Symbol)
    (convertOrderType o.(Order.OrderType)) (convertOrderSide o.(Order.OrderSide)) o.(Order.Quantity)
    (or_zero o.(Order.Price)) o.(Order.Validity) (convertOrderStatus o.(Order.Status))
    o.(Order.FilledQuantity) (or_zero o.(Order.FilledPrice)) (default "" o.(Order.IndiraOrderID))
    (or_zero o.(Order.Commission)) (or_zero o.(Order.TotalCost)) (proto_time o.(Order.CreatedAt))
    (proto_time o.(Order.UpdatedAt)).

(** What a call ends in. *)
Inductive Rpc (A : Type) : Type :=
  | RpcPanic
  | RpcStatus (code message : string)
  | RpcAnswer (a : A).

Arguments RpcPanic {A}. Arguments RpcStatus {A}. Arguments RpcAnswer {A}.

(** The answer about one order: its success, the order, the message or error. *)
Record OrderAnswer : Type := mkOrderAnswer {
  success : bool;
  answered : option ProtoOrder.t;
  message : string
}.

(** The answer with a page of orders: page, page size and the total. *)
Record OrdersAnswer : Type := mkOrdersAnswer {
  listOk : bool;
  listed : list ProtoOrder.t;
  listPage : option (Z * Z * Z)
}.

(** [ModifyOrderRequest]. *)
Record ModifyRequest : Type := mkModify {
  modOrderID : string;
  modUserID : string;
  NewQuantity : option Z;
  NewPrice : option f64;
  NewValidity : option string;
  NewTriggerPrice : option f64
}.

Section Server.

Context {B : Type} `{ExecutionBroker B}
  (parse_uuid : string -> option uuid) (uuid_text : uuid -> string).

Abbreviation State := (ExecState B).

Definition get_order (id : uuid) (w : State) : State * (string + Order.t) :=
  let '(t, r) := sqlGetByID id w.(xorders) in (w <| xorders := t |>, r).

(** The id of a request, or the status that refuses it. *)
Definition request_id (text : string) : (string * string) + uuid :=
  if text =?s "" then inl ("INVALID_ARGUMENT", "order_id is required")
  else match parse_uuid text with
       | None => inl ("INVALID_ARGUMENT", "invalid order_id format")
       | Some id => inr id
       end.

Definition with_order_id {A} (text : string) (w : State) (k : uuid -> Rpc A * State) : Rpc A * State :=
  match request_id text with
  | inl (code, msg) => (RpcStatus code msg, w)
  | inr id => k id
  end.

Definition denied {A} : Rpc A := RpcStatus "PERMISSION_DENIED" "access denied".

Definition GetOrderStatus (orderID userID : string) (w : State) : Rpc OrderAnswer * State :=
  with_order_id orderID w (fun id =>
    match get_order id w with
    | (w, inl _) => (RpcAnswer (mkOrderAnswer false None "Order not found"), w)
    | (w, inr o) =>
        if negb (userID =?s "") && negb (o.(Order.UserID) =?s userID) then (denied, w)
        else (RpcAnswer (mkOrderAnswer true (Some (convertToProtoOrder uuid_text o)) ""), w)
    end).

(** Page and page size as the request asks for them. *)
Definition page_of (p : Z * Z) : Z * Z :=
  let '(page, size) := p in
  ((if page <? 1 then 1 else page), (if (size <? 1) || (100 <? size) then 20 else size))%Z.

(** [GetUserOrders] and [GetOrderHistory], which ignore the filter; a request
    without pagination dereferences the nil pointer. *)
Definition list_orders (userID : string) (pagination : option (Z * Z)) (w : State) : Rpc OrdersAnswer * State :=
  if userID =?s "" then (RpcStatus "INVALID_ARGUMENT" "user_id is required", w)
  else
    match pagination with
    | None => (RpcPanic, w)
    | Some p =>
        let '(page, size) := page_of p in
        let '(t, r) := sqlGetUserOrders userID (Z.to_nat size) (Z.to_nat ((page - 1) * size)) w.(xorders) in
        let w := w <| xorders := t |> in
        match r with
        | inl _ => (RpcAnswer (mkOrdersAnswer false [] None), w)
        | inr l =>
            (RpcAnswer (mkOrdersAnswer true (map (convertToProtoOrder uuid_text) l)
                          (Some (page, size, Z.of_nat (length l)))), w)
        end
    end.

Definition GetUserOrders := list_orders.
Definition GetOrderHistory := list_orders.

(** After the cancellation the order is read again; a failed read leaves a nil
    pointer, which the conversion dereferences. *)
Definition CancelOrder (now : Z) (orderID userID reason : string) (w : State) : Rpc OrderAnswer * State :=
  with_order_id orderID w (fun id =>
    match get_order id w with
    | (w, inl _) => (RpcAnswer (mkOrderAnswer false None "Order not found"), w)
    | (w, inr o) =>
        if negb (o.(Order.UserID) =?s userID) then (denied, w)
        else
          let reason := if reason =?s "" then "User requested cancellation" else reason in
          match CancelOrderExec now reason o w with
          | (w, _, Some e, _) => (RpcAnswer (mkOrderAnswer false None e), w)
          | (w, _, None, _) =>
              match get_order id w with
              | (w, inl _) => (RpcPanic, w)
              | (w, inr o) =>
                  (RpcAnswer (mkOrderAnswer true (Some (convertToProtoOrder uuid_text o))
                                "Order cancelled successfully"), w)
              end
          end
    end).

Definition apply_changes (now : Z) (req : ModifyRequest) (o : Order.t) : Order.t :=
  let o := match req.(NewQuantity) with Some q => o <| Order.Quantity := q |> | None => o end in
  let o := match req.(NewPrice) with Some p => o <| Order.Price := Some p |> | None => o end in
  let o := match req.(NewValidity) with Some v => o <| Order.Validity := v |> | None => o end in
  let o := match req.(NewTriggerPrice) with Some p => o <| Order.TargetPrice := Some p |> | None => o end in
  o <| Order.UpdatedAt := now |>.

Definition ModifyOrder (now : Z) (req : ModifyRequest) (w : State) : Rpc OrderAnswer * State :=
  let fail w msg := (RpcAnswer (mkOrderAnswer false None msg), w) in
  if req.(modOrderID) =?s "" then (RpcStatus "INVALID_ARGUMENT" "order_id is required", w)
  else if req.(modUserID) =?s "" then (RpcStatus "INVALID_ARGUMENT" "user_id is required", w)
  else
    with_order_id req.(modOrderID) w (fun id =>
      match get_order id w with
      | (w, inl _) => fail w "order not found"
      | (w, inr o) =>
          if negb (o.(Order.UserID) =?s req.(modUserID)) then (denied, w)
          else if IsTerminalStatus o.(Order.Status) then
            fail w ("order is in terminal state " ++ o.(Order.Status) ++ " and cannot be modified")%string
          else if negb o.(Order.IsPaperTrade) then
            fail w "live order modification requires broker API integration — not yet implemented"
          else if match req.(NewQuantity) with Some q => (q <=? 0)%Z | None => false end then
            fail w "new_quantity must be > 0"
          else
            let o := apply_changes now req o in
            match sqlUpdate now o w.(xorders) with
            | (t, Some _) => fail (w <| xorders := t |>) "failed to update order"
            | (t, None) =>
                (RpcAnswer (mkOrderAnswer true (Some (convertToProtoOrder uuid_text o))
                              "paper order modified successfully"), w <| xorders := t |>)
            end
      end).

(** ** Requests of one client *)

Inductive OrderRequest : Type :=
  | ReqStatus (orderID userID : string)
  | ReqList (userID : string) (pagination : option (Z * Z))
  | ReqCancel (orderID userID reason : string)
  | ReqModify (m : ModifyRequest).

(** The table after a request. *)
Definition serve_order (now : Z) (r : OrderRequest) (w : State) : State :=
  match r with
  | ReqStatus o u => (GetOrderStatus o u w).2
  | ReqList u p => (list_orders u p w).2
  | ReqCancel o u reason => (CancelOrder now o u reason w).2
  | ReqModify m => (ModifyOrder now m w).2
  end.

Definition requester (r : OrderRequest) : string :=
  match r with
  | ReqStatus _ u | ReqList u _ | ReqCancel _ u _ => u
  | ReqModify m => m.(modUserID)
  end.

(** ** Lemmas *)

Lemma get_order_rows id w w' r :
  get_order id w = (w', r) ->
  w'.(xorders).(rows) = w.(xorders).(rows) /\
  (forall o, r = inr o -> w.(xorders).(rows) !! id = Some o).
Proof.
  unfold get_order, sqlGetByID, driver. destruct w as [b c [rs [|[] fs]] ? ? ? ? ? ? ?]; cbn;
    try (destruct (rs !! id) eqn:E); intros [= <- <-]; cbn; split; intros; by simplify_eq.
Qed.

(** The rows of a table that the request may not touch. *)
Definition foreign_kept (user : string) (w w' : State) : Prop :=
  forall i o, w.(xorders).(rows) !! i = Some o -> o.(Order.UserID) <> user ->
    w'.(xorders).(rows) !! i = Some o.

Lemma foreign_kept_same user w w' :
  w'.(xorders).(rows) = w.(xorders).(rows) -> foreign_kept user w w'.
Proof. intros E i o Hi _. by rewrite E. Qed.

(** An update of an order of the user leaves the rows of the others. *)
Lemma foreign_kept_update user now o id t row :
  t.(rows) !! id = Some row -> row.(Order.UserID) = user -> row.(Order.OrderID) = id ->
  o.(Order.OrderID) = row.(Order.OrderID) ->
  forall i o2, t.(rows) !! i = Some o2 -> o2.(Order.UserID) <> user ->
    (sqlUpdate now o t).1.(rows) !! i = Some o2.
Proof.
  intros Hr Hu Hid Ho i o2 Hi Hne. unfold sqlUpdate. rewrite Ho, Hid.
  destruct (sqlUpdateRow_rows "failed to update order" id (updated_row now o) t) as [-> | ->]; [done|].
  rewrite lookup_alter_ne; [done|]. intros ->. congruence.
Qed.

Lemma CancelOrderExec_rows now reason o (w w' : State) o' e asked :
  CancelOrderExec now reason o w = (w', o', e, asked) ->
  w'.(xorders).(rows) = w.(xorders).(rows) \/
  exists o2, o2.(Order.OrderID) = o.(Order.OrderID) /\ w'.(xorders) = (sqlUpdate now o2 w.(xorders)).1.
Proof.
  unfold CancelOrderExec. destruct (IsTerminalStatus _); [intros [= <- _ _ _]; by left|]. cbv zeta.
  set (o2 := o <| Order.Status := StatusCancelled |> <| Order.RejectionReason := Some reason |>).
  destruct (repo_update_frame now o2 w) as (_ & Fo & _).
  destruct (repo_update now o2 w) as [w1 [e1|]]; cbn [fst] in Fo; intros [= <- _ _ _]; right;
    exists o2; by rewrite <- Fo.
Qed.

(** A handler reads the order, then at most updates its row. *)
Lemma serve_order_kept now r w :
  keyed w.(xorders) ->
  keyed (serve_order now r w).(xorders) /\ foreign_kept (requester r) w (serve_order now r w).
Proof.
  intros Hk.
  assert (Hsame : forall w' : State, w'.(xorders).(rows) = w.(xorders).(rows) ->
    keyed w'.(xorders) /\ foreign_kept (requester r) w w').
  { intros w' E. split; [unfold keyed; by rewrite E|by apply foreign_kept_same]. }
  assert (Hupd : forall (w' : State) t id o row, t.(rows) = w.(xorders).(rows) -> w.(xorders).(rows) !! id = Some row ->
    row.(Order.UserID) = requester r -> o.(Order.OrderID) = row.(Order.OrderID) ->
    w'.(xorders).(rows) = (sqlUpdate now o t).1.(rows) ->
    keyed w'.(xorders) /\ foreign_kept (requester r) w w').
  { intros w' t id o row Et Hr Hu Ho E.
    assert (Hkt : keyed t) by (unfold keyed; by rewrite Et). split.
    - unfold keyed. rewrite E. by apply keyed_row.
    - intros i o2 Hi Hne. rewrite E. rewrite <- Et in Hi, Hr.
      refine (foreign_kept_update (requester r) now o id t row Hr Hu _ Ho i o2 Hi Hne). by apply (Hkt id). }
  destruct r as [oid u|u p|oid u reason|m]; cbn [serve_order requester] in *.
  - unfold GetOrderStatus, with_order_id. destruct (request_id oid) as [[c msg]|id]; [by apply Hsame|].
    destruct (get_order id w) as [w1 r1] eqn:Hg. apply get_order_rows in Hg as [Hr _].
    destruct r1 as [e|o]; [by apply Hsame|]. destruct (_ && _); by apply Hsame.
  - unfold list_orders. destruct (u =?s ""); [by apply Hsame|]. destruct p as [p|]; [|by apply Hsame].
    destruct (page_of p) as [page size]. unfold sqlGetUserOrders.
    match goal with |- context [select_desc ?f ?q ?t] =>
      pose proof (select_desc_rows f q t) as Hrows; destruct (select_desc f q t) as [t1 [e|l]] end;
      apply Hsame; exact Hrows.
  - unfold CancelOrder, with_order_id. destruct (request_id oid) as [[c msg]|id]; [by apply Hsame|].
    destruct (get_order id w) as [w1 r1] eqn:Hg. apply get_order_rows in Hg as [Hr Ho].
    destruct r1 as [e|o]; [by apply Hsame|]. specialize (Ho o eq_refl).
    destruct (negb (o.(Order.UserID) =?s u)) eqn:Hu; [by apply Hsame|]. bool_to_prop. cbv zeta.
    destruct (CancelOrderExec now _ o w1) as [[[w2 o2] e2] asked] eqn:Hc.
    assert (Hk2 : forall w3 : State, w3.(xorders).(rows) = w2.(xorders).(rows) ->
      keyed w3.(xorders) /\ foreign_kept u w w3).
    { intros w3 E3. apply CancelOrderExec_rows in Hc as [Hc | (o3 & Hid & Hc)].
      - apply Hsame. congruence.
      - apply (Hupd w3 w1.(xorders) id o3 o); [done..|]. by rewrite E3, Hc. }
    destruct e2 as [e2|]; [by apply Hk2|]. destruct (get_order id w2) as [w3 r3] eqn:Hg3.
    apply get_order_rows in Hg3 as [Hr3 _]. destruct r3; by apply Hk2.
  - unfold ModifyOrder, with_order_id. destruct (modOrderID m =?s ""); [by apply Hsame|].
    destruct (modUserID m =?s ""); [by apply Hsame|].
    destruct (request_id _) as [[c msg]|id]; [by apply Hsame|].
    destruct (get_order id w) as [w1 r1] eqn:Hg. apply get_order_rows in Hg as [Hr Ho].
    destruct r1 as [e|o]; [by apply Hsame|]. specialize (Ho o eq_refl).
    destruct (negb (o.(Order.UserID) =?s _)) eqn:Hu; [by apply Hsame|]. bool_to_prop.
    destruct (IsTerminalStatus _); [by apply Hsame|]. destruct (negb _); [by apply Hsame|].
    match goal with |- context [if ?b then _ else _] => destruct b end; [by apply Hsame|]. cbv zeta.
    assert (Hid : (apply_changes now m o).(Order.OrderID) = o.(Order.OrderID)).
    { unfold apply_changes. by destruct (NewQuantity m), (NewPrice m), (NewValidity m), (NewTriggerPrice m). }
    pose proof (fun w' => Hupd w' w1.(xorders) id (apply_changes now m o) o Hr Ho Hu Hid) as Hm.
    destruct (sqlUpdate now (apply_changes now m o) w1.(xorders)) as [t [e|]]; by apply Hm.
Qed.

(** Whatever sequence of requests one user sends, the orders of every other
    user keep their rows as they are: a cancellation or modification only ever
    touches an order of the user the request names. *)
Theorem order_server_isolates (l : list (Z * OrderRequest)) (user : string) (w : State)
    (Hk : keyed w.(xorders)) (Huser : Forall (fun r => requester r.2 = user) l) :
  foreign_kept user w (foldl (fun w r => serve_order r.1 r.2 w) w l).
Proof.
  revert w Hk. induction Huser as [|[now r] l Hr _ IH]; intros w Hk; cbn; [by intros i o|].
  destruct (serve_order_kept now r w Hk) as [Hk1 Hf]. cbn in Hr. rewrite Hr in Hf.
  intros i o Hi Hne. apply IH; [done| |done]. by apply Hf.
Qed.

(** A successful [ModifyOrder] answers with the order as the request wants
    it, but none of this is stored: the row keeps its quantity, price, validity
    and trigger price, and the next [GetOrderStatus] of the user, when the
    database answers, shows the old ones. *)
Theorem modification_is_not_stored (now : Z) (req : ModifyRequest) (w w' : State) (id : uuid)
    (row : Order.t) (a : OrderAnswer)
    (Hid : parse_uuid req.(modOrderID) = Some id) (Hrow : w.(xorders).(rows) !! id = Some row)
    (Hkey : row.(Order.OrderID) = id)
    (Hrun : ModifyOrder now req w = (RpcAnswer a, w')) (Hok : a.(success) = true) :
  (exists p, a.(answered) = Some p /\
     p.(ProtoOrder.Quantity) = default row.(Order.Quantity) req.(NewQuantity) /\
     p.(ProtoOrder.Price) = or_zero (match req.(NewPrice) with Some x => Some x | None => row.(Order.Price) end) /\
     p.(ProtoOrder.Validity) = default row.(Order.Validity) req.(NewValidity)) /\
  (exists row', w'.(xorders).(rows) !! id = Some row' /\
     row'.(Order.Quantity) = row.(Order.Quantity) /\ row'.(Order.Price) = row.(Order.Price) /\
     row'.(Order.Validity) = row.(Order.Validity) /\ row'.(Order.TargetPrice) = row.(Order.TargetPrice)) /\
  (w'.(xorders).(faults) = [] ->
   exists b p, (GetOrderStatus req.(modOrderID) req.(modUserID) w').1 = RpcAnswer b /\
     b.(answered) = Some p /\ p.(ProtoOrder.Quantity) = row.(Order.Quantity) /\
     p.(ProtoOrder.Price) = or_zero row.(Order.Price) /\ p.(ProtoOrder.Validity) = row.(Order.Validity)).
Proof.
  unfold ModifyOrder, with_order_id, request_id in Hrun.
  destruct (modOrderID req =?s "") eqn:Hne; [done|]. destruct (modUserID req =?s ""); [done|].
  rewrite Hid in Hrun. destruct (get_order id w) as [w1 r1] eqn:Hg.
  apply get_order_rows in Hg as [Hr Ho]. destruct r1 as [e|o]; [by simplify_eq/=|].
  specialize (Ho o eq_refl). rewrite Hrow in Ho. injection Ho as <-.
  destruct (negb (row.(Order.UserID) =?s _)) eqn:Hu; [done|].
  destruct (IsTerminalStatus _); [by simplify_eq/=|]. destruct (negb row.(Order.IsPaperTrade)); [by simplify_eq/=|].
  match goal with H : context [if ?b then _ else _] |- _ => destruct b end; [by simplify_eq/=|].
  set (o2 := apply_changes now req row) in *.
  destruct (sqlUpdate now o2 w1.(xorders)) as [t [e|]] eqn:Hupd; [by simplify_eq/=|].
  apply sqlUpdateRow_spec in Hupd as (row1 & Hrow1 & Ht).
  assert (Hid2 : o2.(Order.OrderID) = id).
  { unfold o2, apply_changes. by destruct (NewQuantity req), (NewPrice req), (NewValidity req), (NewTriggerPrice req). }
  rewrite Hid2, Hr, Hrow in Hrow1. injection Hrow1 as <-. rewrite Hid2 in Ht.
  injection Hrun as <- <-. cbn -[convertToProtoOrder updated_row sqlGetByID].
  assert (Hlook : t.(rows) !! id = Some (updated_row now o2 row)) by (rewrite Ht; apply lookup_insert_eq).
  split; [|split].
  - eexists. split; [done|]. unfold o2, apply_changes.
    by destruct (NewQuantity req), (NewPrice req), (NewValidity req), (NewTriggerPrice req).
  - eexists. split; [exact Hlook|]. by split_and!.
  - intros Hf. unfold GetOrderStatus, with_order_id, request_id. rewrite Hne, Hid.
    unfold get_order, sqlGetByID, driver. cbn [xorders]. cbn in Hf. cbn -[convertToProtoOrder updated_row].
    rewrite Hf. cbn -[convertToProtoOrder updated_row]. rewrite Hlook.
    change (Order.UserID (updated_row now o2 row)) with (Order.UserID row).
    rewrite Hu, andb_false_r. cbn -[convertToProtoOrder updated_row]. eexists _, _. split; [done|]. by split_and!.
Qed.

End Server.

(** ** Concrete runs *)

Definition parse_sample (s : string) : option uuid := if s =?s "seven" then Some 7%N else None.
Definition text_sample (id : uuid) : string := "seven".

Definition paper_waiting : Order.t := sample_paper <| Order.Status := "PENDING" |>.

Definition order_start (faults : list bool) : ExecState BookBroker :=
  mkExec (mkBookBroker [] []) None (mkTable {[ 7%N := paper_waiting ]} faults) [] [] [] [] [] [] [].

Definition modify_to_25 : ModifyRequest := mkModify "seven" "U1" (Some 25%Z) None None None.

(** The answer has 25 shares, the row ten. *)
Example modify_answers_25 :
  let r := ModifyOrder parse_sample text_sample 9 modify_to_25 (order_start []) in
  match r.1 with RpcAnswer a => option_map ProtoOrder.Quantity a.(answered) | _ => None end = Some 25%Z /\
  option_map Order.Quantity (r.2.(xorders).(rows) !! 7%N) = Some 10%Z.
Proof. vm_compute. split; reflexivity. Qed.

(** A request for the orders of a user that leaves out the pagination ends the
    process, and so does a cancellation whose second read fails. *)
Example no_pagination_panics :
  (GetUserOrders text_sample "U1" None (order_start [])).1 = RpcPanic.
Proof. reflexivity. Qed.

Example reload_failure_panics :
  let r := CancelOrder parse_sample text_sample 9 "seven" "U1" "" (order_start [false; false; true]) in
  r.1 = RpcPanic /\ option_map Order.Status (r.2.(xorders).(rows) !! 7%N) = Some StatusCancelled.
Proof. vm_compute. split; reflexivity. Qed.

Lemma order_server_isolates_witness :
  foreign_kept "U2" (order_start [])
    (foldl (fun w r => serve_order parse_sample text_sample r.1 r.2 w) (order_start [])
       [(8%Z, ReqCancel "seven" "U2" ""); (9%Z, ReqModify (mkModify "seven" "U2" (Some 1%Z) None None None))]).
Proof.
  refine (order_server_isolates parse_sample text_sample _ "U2" (order_start []) _ _).
  - apply map_Forall_singleton. reflexivity.
  - by repeat constructor.
Defined.

Lemma modification_is_not_stored_witness :
  let r := ModifyOrder parse_sample text_sample 9 modify_to_25 (order_start []) in
  exists row', r.2.(xorders).(rows) !! 7%N = Some row' /\ row'.(Order.Quantity) = 10%Z.
Proof.
  destruct (ModifyOrder parse_sample text_sample 9 modify_to_25 (order_start [])) as [r w'] eqn:E.
  assert (Hr : exists a, r = RpcAnswer a /\ a.(success) = true).
  { apply (f_equal fst) in E. cbn [fst] in E. rewrite <- E. eexists. split; vm_compute; reflexivity. }
  destruct Hr as (a & -> & Ha).
  destruct (modification_is_not_stored parse_sample text_sample 9 modify_to_25 (order_start []) w' 7%N
              paper_waiting a eq_refl eq_refl eq_refl E Ha) as (_ & (row' & Hrow & Hq & _) & _).
  exists row'. split; [exact Hrow|]. by rewrite Hq.
Defined.
