(* ===== verification/GatewayHttp.v ===== *)
(** * The gateway: requests and middleware

    [api/gateway/internal/middleware] and [internal/router]: the rate limiter,
    CORS, authentication, and the chain the router makes of them.  Headers that
    do not exist read as the empty string, as in Go.  The clock of the limiter and
    the answer of the external authentication service are arguments.  What only
    logs or adds constant headers is left out. *)

From stdpp Require Import base gmap strings list.
From Stdlib Require Import ZArith Lia Ascii Floats.SpecFloat.
From S2P Require Import Prelude GoFloat FloatOrder GoStrings GoTime.

Open Scope string_scope.
Open Scope list_scope.
Open Scope go_scope.

(** ** Requests *)

Record HttpRequest : Type := mkHttp {
  httpMethod : string;
  httpPath : string;
  header : string -> string;
  query : string -> string;
  remoteIP : string
}.

(** What is answered: an error, or that the next handler runs with something. *)
Inductive Passed (A : Type) : Type :=
  | Refused (status : Z) (message : string)
  | Next (a : A).

Arguments Refused {A}. Arguments Next {A}.

(** ** The rate limiter ([ratelimit.go]) *)

Record Bucket : Type := mkBucket { tokens : f64; lastSeen : Z }.

Record RateLimiter : Type := mkLimiter {
  buckets : gmap string Bucket;
  rate : f64;
  burst : f64
}.

Definition NewRateLimiter (rate burst : f64) : RateLimiter := mkLimiter ∅ rate burst.

(** [Duration.Seconds]. *)
Definition duration_seconds (d : Z) : f64 :=
  (of_Z (Z.quot d second) + of_Z (Z.rem d second) / of_Z second)%f64.

Definition refill (rl : RateLimiter) (now : Z) (b : Bucket) : f64 :=
  let t := (b.(tokens) + duration_seconds (now - b.(lastSeen)) * rl.(rate))%f64 in
  if flt rl.(burst) t then rl.(burst) else t.

Definition allow (now : Z) (ip : string) (rl : RateLimiter) : RateLimiter * bool :=
  let b := default (mkBucket rl.(burst) now) (rl.(buckets) !! ip) in
  let t := refill rl now b in
  let store t := mkLimiter (<[ip := mkBucket t now]> rl.(buckets)) rl.(rate) rl.(burst) in
  if flt t (of_Z 1) then (store t, false) else (store (t - of_Z 1)%f64, true).

(** One tick of [purge]. *)
Definition purge (now : Z) (rl : RateLimiter) : RateLimiter :=
  mkLimiter (filter (fun kb => (now - 120 * second <= kb.2.(lastSeen))%Z) rl.(buckets)) rl.(rate) rl.(burst).

(** Up to the first comma. *)
Fixpoint before_comma (s : string) : string :=
  match s with
  | EmptyString => ""
  | String c r => if Ascii.eqb c ","%char then "" else String c (before_comma r)
  end.

(** [clientIP]; [remoteIP] is the remote address without its port. *)
Definition clientIP (r : HttpRequest) : string :=
  let fwd := r.(header) "X-Forwarded-For" in
  if fwd =?s "" then r.(remoteIP) else before_comma fwd.

Definition limit (now : Z) (r : HttpRequest) (rl : RateLimiter) : RateLimiter * Passed unit :=
  let '(rl, ok) := allow now (clientIP r) rl in
  (rl, if ok then Next tt else Refused 429 "rate limit exceeded").

(** Requests at given instants, and which of them pass. *)
Fixpoint limit_all (l : list (Z * HttpRequest)) (rl : RateLimiter) : RateLimiter * list bool :=
  match l with
  | [] => (rl, [])
  | (now, r) :: l =>
      let '(rl, ok) := allow now (clientIP r) rl in
      let '(rl, oks) := limit_all l rl in (rl, ok :: oks)
  end.

(** ** CORS ([cors.go]) *)

(** [strings.TrimSuffix(s, "/")]. *)
Fixpoint trim_slash (s : string) : string :=
  match s with
  | EmptyString => ""
  | String c EmptyString => if Ascii.eqb c "/"%char then "" else s
  | String c r => String c (trim_slash r)
  end.

(** The loop over the configured origins; the empty string is none. *)
Fixpoint allowedOrigin (origins : list string) (origin : string) : string :=
  match origins with
  | [] => ""
  | o :: l =>
      if o =?s "*" then (if origin =?s "" then "*" else origin)
      else if trim_slash o =?s trim_slash origin then origin
      else if has_prefix (trim_slash o) (trim_slash origin) then origin
      else allowedOrigin l origin
  end.

(** The headers of the answer that depend on the origin: the origin that is
    allowed, with credentials, and whether the next handler runs. *)
Definition cors (origins : list string) (r : HttpRequest) : option string * Passed unit :=
  let allowed := allowedOrigin origins (r.(header) "Origin") in
  let headers := if allowed =?s "" then None else Some allowed in
  (headers,
   if r.(httpMethod) =?s "OPTIONS" then
     (if allowed =?s "" then Refused 403 "" else Refused 200 "")
   else Next tt).

(** ** Authentication ([auth.go]) *)

Record AuthClaims : Type := mkClaims { UCC : string; claimTime : Z; CallbackURL : string }.

Definition publicPaths : list string := ["/api/v1/health"].

Definition extractBearerToken (r : HttpRequest) : string :=
  let auth := r.(header) "Authorization" in
  if has_prefix "Bearer " auth then TrimPrefix auth "Bearer "
  else if r.(header) "token" =?s "" then r.(query) "token" else r.(header) "token".

(** [verify] is the external service: the code and claims of its answer for a
    token, user and application, or nothing when it cannot be reached. *)
Definition authenticate (verify : string -> string -> string -> option (string * AuthClaims))
    (r : HttpRequest) : Passed (option AuthClaims) :=
  if r.(httpMethod) =?s "OPTIONS" then Next None
  else if one_of r.(httpPath) publicPaths then Next None
  else
    let token := extractBearerToken r in
    let userID := r.(header) "userId" in
    let appID := r.(header) "appId" in
    if (token =?s "") || (userID =?s "") || (appID =?s "")
    then Refused 401 "Missing required auth credentials: Authorization (Bearer token), userId, appId"
    else
      match verify token userID appID with
      | None => Refused 503 "Authentication service unavailable, try again shortly"
      | Some (code, claims) =>
          if code =?s "200" then Next (Some claims) else Refused 401 "Invalid or expired token"
      end.

(** The chain of [NewRouter] up to the handler of a route under [/api/v1]. *)
Definition gate (verify : string -> string -> string -> option (string * AuthClaims)) (origins : list string)
    (now : Z) (r : HttpRequest) (rl : RateLimiter) : RateLimiter * Passed (option AuthClaims) :=
  match limit now r rl with
  | (rl, Refused s m) => (rl, Refused s m)
  | (rl, Next _) =>
      match (cors origins r).2 with
      | Refused s m => (rl, Refused s m)
      | Next _ => (rl, authenticate verify r)
      end
  end.

(** The limiter of the router: 100 requests per second, 200 at once. *)
Definition router_limiter : RateLimiter := NewRateLimiter (of_Z 100) (of_Z 200).

(** ** The rate limiter at one instant *)

Definition at_limit (n : nat) (now : Z) : Bucket := mkBucket (of_Z (Z.of_nat n)) now.

(** Equality of floats that are numbers, decided by their bits. *)
Definition same_bits (x y : f64) : bool :=
  match x, y with
  | S754_zero a, S754_zero b => Bool.eqb a b
  | S754_finite a m e, S754_finite b n f => Bool.eqb a b && Pos.eqb m n && Z.eqb e f
  | _, _ => false
  end.

Lemma same_bits_eq x y : same_bits x y = true -> x = y.
Proof.
  destruct x as [[]| | |[] m e], y as [[]| | |[] n f]; cbn; try done;
    intros [?%Pos.eqb_eq ?%Z.eqb_eq]%andb_true_iff; by subst.
Qed.

Lemma refill_numbers :
  forallb (fun n => same_bits (of_Z (Z.of_nat n) + duration_seconds 0 * of_Z 100)%f64 (of_Z (Z.of_nat n)))
    (seq 0 201) = true.
Proof. vm_compute. reflexivity. Qed.

Lemma spend_numbers :
  forallb (fun n => same_bits (of_Z (Z.of_nat (S n)) - of_Z 1)%f64 (of_Z (Z.of_nat n))) (seq 0 200) = true.
Proof. vm_compute. reflexivity. Qed.

Lemma below_numbers :
  forallb (fun n => negb (flt (of_Z 200) (of_Z (Z.of_nat n)))
    && Bool.eqb (flt (of_Z (Z.of_nat n)) (of_Z 1)) (Nat.eqb n 0)) (seq 0 201) = true.
Proof. vm_compute. reflexivity. Qed.

Lemma forallb_seq (p : nat -> bool) k n : forallb p (seq 0 k) = true -> (n < k)%nat -> p n = true.
Proof. intros H Hn. rewrite forallb_forall in H. apply H, in_seq. lia. Qed.

(** A client with [n] requests left at this instant. *)
Definition has_left (ip : string) (n : nat) (now : Z) (rl : RateLimiter) : Prop :=
  rl.(rate) = of_Z 100 /\ rl.(burst) = of_Z 200 /\
  default (at_limit 200 now) (rl.(buckets) !! ip) = at_limit n now.

Lemma allow_spends ip n now rl :
  (n <= 200)%nat -> has_left ip n now rl ->
  (allow now ip rl).2 = negb (Nat.eqb n 0) /\ has_left ip (Nat.pred n) now (allow now ip rl).1.
Proof.
  intros Hn (Hr & Hb & Hl). unfold allow. rewrite Hb, Hr.
  change (mkBucket (of_Z 200) now) with (at_limit 200 now). rewrite Hl.
  assert (Ht : refill rl now (at_limit n now) = of_Z (Z.of_nat n)).
  { unfold refill. rewrite Hr, Hb. cbn [tokens lastSeen at_limit]. rewrite Z.sub_diag.
    rewrite (same_bits_eq _ _ (forallb_seq _ 201 n refill_numbers ltac:(lia))).
    pose proof (forallb_seq _ 201 n below_numbers ltac:(lia)) as [H1 _]%andb_true_iff.
    apply negb_true_iff in H1. by rewrite H1. }
  rewrite Ht. pose proof (forallb_seq _ 201 n below_numbers ltac:(lia)) as [_ H2]%andb_true_iff.
  apply Bool.eqb_prop in H2. rewrite H2. destruct n as [|n]; cbn [Nat.eqb negb Nat.pred fst snd].
  - split; [done|]. split_and!; [done..|]. cbn. by rewrite lookup_insert_eq.
  - split; [done|]. split_and!; [done..|]. cbn [buckets]. rewrite lookup_insert_eq.
    unfold at_limit. cbn. f_equal. apply same_bits_eq, (forallb_seq _ 200 n spend_numbers). lia.
Qed.

(** The limiter of the router lets through exactly the first 200 of any
    number of requests that come at one instant under one client address, and
    refuses the others; but the address is the first entry of [X-Forwarded-For],
    which the client writes, so a client that writes a new one into each request
    is never refused. *)
Theorem limiter_counts_addresses (now : Z) (reqs : list HttpRequest) :
  (forall ip, Forall (fun r => clientIP r = ip) reqs ->
     (limit_all ((fun r => (now, r)) <$> reqs) router_limiter).2
     = ((fun i => Nat.ltb i 200) <$> seq 0 (length reqs))) /\
  (NoDup (clientIP <$> reqs) ->
     (limit_all ((fun r => (now, r)) <$> reqs) router_limiter).2 = ((fun _ => true) <$> reqs)).
Proof.
  split.
  - intros ip Hip.
    assert (G : forall n k rl, (n <= 200)%nat -> has_left ip n now rl -> n = (200 - k)%nat ->
      (limit_all ((fun r => (now, r)) <$> reqs) rl).2 = ((fun i => Nat.ltb i 200) <$> seq k (length reqs))).
    { induction Hip as [|r reqs Hr _ IH]; intros n k rl Hn Hl Hk; [done|]. cbn.
      destruct (allow_spends ip n now rl Hn Hl) as [H1 H2]. rewrite Hr.
      destruct (allow now ip rl) as [rl1 ok]. cbn [fst snd] in H1, H2.
      assert (Hp : (Nat.pred n <= 200)%nat /\ Nat.pred n = (200 - S k)%nat) by lia.
      specialize (IH (Nat.pred n) (S k) rl1 (proj1 Hp) H2 (proj2 Hp)).
      destruct (limit_all _ rl1) as [rl2 oks]. cbn [snd] in *. rewrite IH. f_equal. rewrite H1.
      destruct (Nat.eqb_spec n 0), (Nat.leb_spec k 199); first [done|exfalso; lia]. }
    apply (G 200%nat 0%nat); [lia|by split_and!|done].
  - assert (G : forall rl, rl.(rate) = of_Z 100 -> rl.(burst) = of_Z 200 ->
      (forall r, r ∈ reqs -> rl.(buckets) !! clientIP r = None) -> NoDup (clientIP <$> reqs) ->
      (limit_all ((fun r => (now, r)) <$> reqs) rl).2 = ((fun _ => true) <$> reqs));
      [|intros Hnd; apply G; done].
    induction reqs as [|r reqs IH]; intros rl Hr Hb Hn Hnd; [done|]. cbn in *.
    apply NoDup_cons in Hnd as [Hnew Hnd].
    assert (Hl : has_left (clientIP r) 200 now rl).
    { split_and!; [done..|]. by rewrite (Hn r) by left. }
    destruct (allow_spends (clientIP r) 200 now rl ltac:(lia) Hl) as [H1 (H2 & H3 & _)].
    assert (Hother : forall r', r' ∈ reqs -> (allow now (clientIP r) rl).1.(buckets) !! clientIP r' = None).
    { intros r' Hin. unfold allow. assert (clientIP r <> clientIP r').
      { intros E. apply Hnew, list_elem_of_fmap. eauto. }
      destruct (flt _ _); cbn [fst buckets]; rewrite lookup_insert_ne by done; apply Hn; by right. }
    destruct (allow now (clientIP r) rl) as [rl1 ok]. cbn [fst snd] in *.
    specialize (IH rl1 H2 H3 Hother Hnd). destruct (limit_all _ rl1) as [rl2 oks]. cbn in *. by rewrite H1, IH.
Qed.

(** ** CORS *)

(** The origins a configuration lets in. *)
Definition origin_matches (o origin : string) : bool :=
  (o =?s "*") || has_prefix (trim_slash o) (trim_slash origin).

Lemma has_prefix_refl s : has_prefix s s = true.
Proof. induction s as [|c s IH]; cbn; [done|]. by rewrite Ascii.eqb_refl, IH. Qed.

Lemma has_prefix_app p s : has_prefix p (p ++ s)%string = true.
Proof.
  induction p as [|c p IH]; [by destruct s|]. change (String c p ++ s)%string with (String c (p ++ s)).
  cbn. by rewrite Ascii.eqb_refl, IH.
Qed.

Lemma trim_slash_app p s : s <> "" -> trim_slash (p ++ s)%string = (p ++ trim_slash s)%string.
Proof.
  intros Hs. induction p as [|c p IH]; [done|]. change (String c p ++ s)%string with (String c (p ++ s)).
  change (String c p ++ trim_slash s)%string with (String c (p ++ trim_slash s)). rewrite <- IH.
  destruct p as [|d p]; [by destruct s|done].
Qed.

(** The middleware answers an origin with itself and with credentials
    allowed exactly when one of the configured origins, without a final slash, is
    a prefix of it; so every extension of a configured origin is let in,
    [https://app.example.com.attacker.net] for [https://app.example.com]. *)
Theorem cors_allows_prefixes (origins : list string) (r : HttpRequest) (origin : string)
    (Horigin : r.(header) "Origin" = origin) (Hne : origin <> "") :
  ((cors origins r).1 = Some origin <-> exists o, o ∈ origins /\ origin_matches o origin = true) /\
  (forall o suffix, o ∈ origins -> suffix <> "" -> origin = (trim_slash o ++ suffix)%string ->
     (cors origins r).1 = Some origin).
Proof.
  assert (Ho : allowedOrigin origins origin =
    if existsb (fun o => origin_matches o origin) origins then origin else "").
  { induction origins as [|o l IH]; [done|]. cbn [allowedOrigin existsb]. unfold origin_matches at 1.
    apply String.eqb_neq in Hne. rewrite Hne. destruct (o =?s "*"); [done|]. cbn [orb].
    destruct (trim_slash o =?s trim_slash origin) eqn:E.
    - apply String.eqb_eq in E. by rewrite E, has_prefix_refl.
    - destruct (has_prefix (trim_slash o) (trim_slash origin)); [done|exact IH]. }
  assert (Hiff : (cors origins r).1 = Some origin <-> exists o, o ∈ origins /\ origin_matches o origin = true).
  { unfold cors. rewrite Horigin, Ho. cbn [fst]. apply String.eqb_neq in Hne.
    destruct (existsb _ origins) eqn:E.
    - rewrite Hne. split; [intros _|done]. apply existsb_exists in E as (o & Hin & Hm).
      exists o. by rewrite list_elem_of_In.
    - cbn. split; [done|]. intros (o & Hin & Hm).
      assert (existsb (fun o => origin_matches o origin) origins = true) as E2; [|congruence].
      apply existsb_exists. exists o. by rewrite <- list_elem_of_In. }
  split; [exact Hiff|]. intros o suffix Hin Hne' Hs. apply Hiff. exists o. split; [done|].
  unfold origin_matches. apply orb_true_iff. right. rewrite Hs, trim_slash_app by done. apply has_prefix_app.
Qed.

(** ** At concrete requests *)

Definition sample_from (address origin : string) : HttpRequest :=
  mkHttp "GET" "/api/v1/health"
    (fun h => if h =?s "X-Forwarded-For" then address else if h =?s "Origin" then origin else "")
    (fun _ => "") "10.0.0.1".

Lemma limiter_counts_addresses_witness :
  (limit_all ((fun r => (0, r)) <$> repeat (sample_from "1.2.3.4, 10.0.0.2" "") 202) router_limiter).2
    = repeat true 200 ++ [false; false] /\
  (limit_all ((fun r => (0, r)) <$> [sample_from "1" ""; sample_from "2" ""]) router_limiter).2 = [true; true].
Proof.
  split.
  - rewrite (proj1 (limiter_counts_addresses 0 (repeat (sample_from "1.2.3.4, 10.0.0.2" "") 202)) "1.2.3.4").
    + vm_compute. reflexivity.
    + repeat (constructor; [vm_compute; reflexivity|]). constructor.
  - apply (proj2 (limiter_counts_addresses 0 [sample_from "1" ""; sample_from "2" ""])).
    apply (bool_decide_unpack _). vm_compute. exact I.
Defined.

Lemma cors_allows_prefixes_witness :
  (cors ["https://app.example.com/"] (sample_from "" "https://app.example.com.attacker.net")).1
  = Some "https://app.example.com.attacker.net".
Proof.
  apply (proj2 (cors_allows_prefixes ["https://app.example.com/"]
    (sample_from "" "https://app.example.com.attacker.net") "https://app.example.com.attacker.net"
    eq_refl ltac:(discriminate)) "https://app.example.com/" ".attacker.net").
  - by left.
  - discriminate.
  - reflexivity.
Defined.
