(* ===== verification/Gateway.v ===== *)
(** * The gateway: handlers

    [api/gateway/internal/handlers]: the conversions of [converters.go], the
    strategy handlers of [user_config_handler.go] composed with the server of the
    user-config service, and the proxies of [paper_trading_handler.go].  [up n]
    tells whether the [n]-th call of the service comes through; the identifiers
    and clocks of the service are in [Env].  A body that is no JSON is [None], the
    path variables are arguments.  The encoding of answers is left out. *)

From stdpp Require Import base gmap strings list tactics.
From Stdlib Require Import ZArith Lia Bool.
From S2P Require Import Prelude GoFloat GoStrings GoTime RuleModels ConfigStore ConfigSync.
From S2P Require Import UCModels UCRepo UCWorker UCService UCTx GatewayHttp UCInvariant UCChain.
From S2P Require Import UCSamples UCServiceProps.

Open Scope string_scope.
Open Scope list_scope.
Open Scope Z_scope.

(** ** Bodies ([dto/strategy.go]) *)

Module DtoConditions.
Record t := mk {
  MatchAllNews : bool;
  ImpactScoreMin : Z;
  ImpactScoreMax : Z;
  Sentiments : list string;
  Categories : list string;
  MarketCapTypes : list string;
  MinMarketCap : f64;
  MaxMarketCap : f64;
  MinPriceChangePct : f64;
  MaxPriceChangePct : f64;
  Exchanges : list string
}.
End DtoConditions.

Record DtoLevel := MkDtoLevel { dl_LevelNum : Z; dl_PricePct : f64; dl_QtyPct : f64 }.

Module DtoTradeConfig.
Record t := mk {
  OrderType : string;
  ProductType : string;
  Validity : string;
  Quantity : Z;
  Exchange : string;
  OrderSide : string;
  StopLossPct : f64;
  TakeProfitPct : f64;
  TrailingSLPct : f64;
  StopLossType : string;
  TakeProfitType : string;
  MultiLevelSL : list DtoLevel;
  MultiLevelTP : list DtoLevel;
  TradeWindowStart : string;
  TradeWindowEnd : string
}.
End DtoTradeConfig.

(** [dto.RiskLimits] has the fields of the message, the sizing as text. *)
Module DtoRiskLimits.
Record t := mk {
  MaxDailyTrades : Z;
  MaxPerTradeRisk : f64;
  MaxPortfolioExposurePct : f64;
  MaxLossPerDay : f64;
  EnableRiskChecks : bool;
  EnableAutoSquareOff : bool;
  AutoSquareOffTime : string;
  PositionSizing : string;
  MaxAmountPerStock : f64;
  MaxTradesPerStrategy : Z
}.
End DtoRiskLimits.

Record DtoCreate := MkDtoCreate {
  dc_UserID : string;
  dc_StrategyName : string;
  dc_Description : string;
  dc_Conditions : option DtoConditions.t;
  dc_TradeConfig : option DtoTradeConfig.t;
  dc_RiskLimits : option DtoRiskLimits.t;
  dc_ActivateImmediately : bool;
  dc_TradingMode : string
}.

Record DtoUpdate := MkDtoUpdate {
  du_UserID : string;
  du_StrategyName : option string;
  du_Description : option string;
  du_Conditions : option DtoConditions.t;
  du_TradeConfig : option DtoTradeConfig.t;
  du_RiskLimits : option DtoRiskLimits.t;
  du_TradingMode : option string;
  du_Version : Z
}.

(** ** Conversions ([converters.go]) *)

Definition mapTradingMode (mode : string) : string :=
  let s := ToUpper mode in
  if String.eqb s "PAPER" then "PAPER" else if String.eqb s "LIVE" then "LIVE" else "TRADING_MODE_UNSPECIFIED".

Definition mapOrderType (orderType : string) : string :=
  let s := ToUpper orderType in
  if one_of s ["MARKET"; "LIMIT"; "STOP_LOSS"; "STOP_LOSS_MARKET"] then ("ORDER_TYPE_" ++ s)%string
  else "ORDER_TYPE_UNSPECIFIED".

Definition mapProductType (productType : string) : string :=
  let s := ToUpper productType in
  if one_of s ["INTRADAY"; "MIS"] then "PRODUCT_TYPE_INTRADAY"
  else if one_of s ["DELIVERY"; "CNC"] then "PRODUCT_TYPE_DELIVERY"
  else if String.eqb s "CASH" then "PRODUCT_TYPE_CASH"
  else if one_of s ["BRACKET"; "BRACKET_ORDER"; "BO"] then "PRODUCT_TYPE_BRACKET"
  else "PRODUCT_TYPE_UNSPECIFIED".

Definition mapExchange (exchange : string) : string :=
  let s := ToUpper exchange in
  if one_of s ["NSE"; "BSE"] then ("EXCHANGE_" ++ s)%string else "EXCHANGE_UNSPECIFIED".

Definition mapOrderSide (side : string) : string :=
  let s := ToUpper side in
  if one_of s ["BUY"; "SELL"] then ("ORDER_SIDE_" ++ s)%string else "ORDER_SIDE_UNSPECIFIED".

Definition mapStopLossType (slType : string) : string :=
  let s := ToUpper slType in
  if one_of s ["FIXED"; "TRAILING"; "MULTI_LEVEL"] then s else "STOP_LOSS_TYPE_UNSPECIFIED".

Definition mapTakeProfitType (tpType : string) : string :=
  if String.eqb (ToUpper tpType) "MULTI_LEVEL" then "TAKE_PROFIT_MULTI_LEVEL" else "TAKE_PROFIT_FIXED".

Definition mapSentiment (sentiment : string) : string :=
  let s := ToUpper sentiment in
  if one_of s ["POSITIVE"; "NEGATIVE"; "NEUTRAL"] then ("SENTIMENT_" ++ s)%string else "SENTIMENT_UNSPECIFIED".

Definition mapPositionSizing (sizing : string) : string :=
  let s := ToUpper sizing in
  if one_of s ["FIXED"; "PERCENTAGE"; "RISK_BASED"] then ("POSITION_SIZING_" ++ s)%string
  else "POSITION_SIZING_UNSPECIFIED".

Definition dtoMultiLevelToProto (levels : list DtoLevel) : list MultiLevelExitLevel :=
  map (fun l => MkLevel (int32 l.(dl_LevelNum)) l.(dl_PricePct) l.(dl_QtyPct)) levels.

Definition dtoConditionsToProto (c : DtoConditions.t) : ProtoConditions.t :=
  ProtoConditions.mk c.(DtoConditions.MatchAllNews) c.(DtoConditions.ImpactScoreMin)
    c.(DtoConditions.ImpactScoreMax) (map mapSentiment c.(DtoConditions.Sentiments))
    c.(DtoConditions.Categories) (Some (c.(DtoConditions.MinMarketCap), c.(DtoConditions.MaxMarketCap)))
    c.(DtoConditions.MarketCapTypes)
    (Some (c.(DtoConditions.MinPriceChangePct), c.(DtoConditions.MaxPriceChangePct)))
    (map mapExchange c.(DtoConditions.Exchanges)).

(** The body has no limit price. *)
Definition dtoTradeConfigToProto (tc : DtoTradeConfig.t) : ProtoTradeConfig.t :=
  ProtoTradeConfig.mk (mapOrderType tc.(DtoTradeConfig.OrderType))
    (mapProductType tc.(DtoTradeConfig.ProductType)) tc.(DtoTradeConfig.Validity)
    tc.(DtoTradeConfig.Quantity) (mapExchange tc.(DtoTradeConfig.Exchange))
    (mapOrderSide tc.(DtoTradeConfig.OrderSide)) tc.(DtoTradeConfig.StopLossPct)
    tc.(DtoTradeConfig.TakeProfitPct) (mapStopLossType tc.(DtoTradeConfig.StopLossType))
    tc.(DtoTradeConfig.TrailingSLPct) fzero (mapTakeProfitType tc.(DtoTradeConfig.TakeProfitType))
    (dtoMultiLevelToProto tc.(DtoTradeConfig.MultiLevelSL))
    (dtoMultiLevelToProto tc.(DtoTradeConfig.MultiLevelTP))
    tc.(DtoTradeConfig.TradeWindowStart) tc.(DtoTradeConfig.TradeWindowEnd).

Definition dtoRiskLimitsToProto (rl : DtoRiskLimits.t) : ProtoRiskLimits.t :=
  ProtoRiskLimits.mk rl.(DtoRiskLimits.MaxDailyTrades) rl.(DtoRiskLimits.MaxPerTradeRisk)
    rl.(DtoRiskLimits.MaxPortfolioExposurePct) rl.(DtoRiskLimits.MaxLossPerDay)
    rl.(DtoRiskLimits.EnableRiskChecks) rl.(DtoRiskLimits.EnableAutoSquareOff)
    rl.(DtoRiskLimits.AutoSquareOffTime) (mapPositionSizing rl.(DtoRiskLimits.PositionSizing))
    rl.(DtoRiskLimits.MaxAmountPerStock) rl.(DtoRiskLimits.MaxTradesPerStrategy).

Definition dtoUpdateStrategyToProto (strategyID : string) (d : DtoUpdate) : ProtoUpdate :=
  MkProtoUpdate strategyID d.(du_UserID) d.(du_StrategyName) d.(du_Description)
    (dtoConditionsToProto <$> d.(du_Conditions)) (dtoTradeConfigToProto <$> d.(du_TradeConfig))
    (dtoRiskLimitsToProto <$> d.(du_RiskLimits)) (mapTradingMode <$> d.(du_TradingMode)) d.(du_Version) None.

(** ** Answers *)

(** The message of an error: the gateway's own, or the one of the service. *)
Inductive Failure : Type :=
  | Said (text : string)
  | Upstream (code : string) (e : option ServiceError).

Inductive Answer (A : Type) : Type :=
  | Error (status : Z) (f : Failure)
  | Ok (status : Z) (a : A).
Arguments Error {A}. Arguments Ok {A}.

Definition mapErrorCodeToHTTPStatus (code : string) : Z :=
  if String.eqb code "NOT_FOUND" then 404
  else if one_of code ["INVALID_ARGUMENT"; "VALIDATION_FAILED"] then 400
  else if String.eqb code "UNAUTHENTICATED" then 401
  else if String.eqb code "PERMISSION_DENIED" then 403
  else if String.eqb code "ALREADY_EXISTS" then 409 else 500.

Record Env := MkEnv {
  up : nat -> bool;
  gio : Io.t;
  gio' : Io.t;
  gid : uuid;
  gcond : uuid;
  gtrade : uuid;
  glimits : uuid
}.

(** ** The strategy handlers *)

(** The token of the [Authorization] header. *)
Definition bearer (r : HttpRequest) : string := TrimPrefix (r.(header) "Authorization") "Bearer ".

(** The owner a body may name: none, or the one of the header. *)
Definition owner_mismatch (r : HttpRequest) (bodyUser : string) : bool :=
  negb (String.eqb bodyUser "") && negb (String.eqb bodyUser (r.(header) "userId")).

Definition caps_swapped (c : option DtoConditions.t) : bool :=
  match c with
  | Some c => flt c.(DtoConditions.MaxMarketCap) c.(DtoConditions.MinMarketCap)
              && flt fzero c.(DtoConditions.MaxMarketCap)
  | None => false
  end.

Definition header_auth (r : HttpRequest) : IndiraAuthContext.t :=
  IndiraAuthContext.mk (r.(header) "userId") (r.(header) "appId") (r.(header) "source") (bearer r).

(** The checks of [CreateStrategy] and the request it sends. *)
Definition create_proto (r : HttpRequest) (body : option DtoCreate) : (Z * string) + ProtoCreate :=
  match body with
  | None => inl (400, "Invalid request body")
  | Some d =>
    let user := r.(header) "userId" in
    if String.eqb (bearer r) "" || String.eqb (r.(header) "appId") "" || String.eqb (r.(header) "source") ""
       || String.eqb user ""
    then inl (401, "Missing authentication headers: Authorization, appId, source, and userId are required")
    else if owner_mismatch r d.(dc_UserID) then inl (403, "User ID mismatch between header and body")
    else if String.eqb d.(dc_StrategyName) "" then inl (400, "Strategy name is required")
    else if caps_swapped d.(dc_Conditions)
    then inl (400, "Min Market Cap cannot be greater than Max Market Cap")
    else inr (MkProtoCreate user d.(dc_StrategyName) d.(dc_Description)
                (dtoConditionsToProto <$> d.(dc_Conditions)) (dtoTradeConfigToProto <$> d.(dc_TradeConfig))
                (dtoRiskLimitsToProto <$> d.(dc_RiskLimits)) d.(dc_ActivateImmediately)
                (mapTradingMode d.(dc_TradingMode)) (Some (header_auth r)))
  end.

Definition update_proto (r : HttpRequest) (strategyID : string) (body : option DtoUpdate)
    : (Z * string) + ProtoUpdate :=
  match body with
  | None => inl (400, "Invalid request body")
  | Some d =>
    let user := r.(header) "userId" in
    if String.eqb user "" then inl (401, "userId header is required")
    else if owner_mismatch r d.(du_UserID) then inl (403, "User ID mismatch between header and body")
    else inr (dtoUpdateStrategyToProto strategyID
                (MkDtoUpdate user d.(du_StrategyName) d.(du_Description) d.(du_Conditions)
                   d.(du_TradeConfig) d.(du_RiskLimits) d.(du_TradingMode) d.(du_Version)))
  end.

(** The user of a body that may leave it out. *)
Definition body_user (r : HttpRequest) (bodyUser : string) : string :=
  if String.eqb bodyUser "" then r.(header) "userId" else bodyUser.

(** [strconv.Atoi] of a parameter, cut to 32 bits, else the default. *)
Definition page_param (dflt : Z) (s : string) : Z :=
  if String.eqb s "" then dflt else match Atoi s with Some n => int32 n | None => dflt end.

Section Handlers.

Context (numeric_20_4 : f64 -> option f64) (uuid_string : uuid -> string)
  (uuid_parse : string -> option uuid) {C : Type} (credsRepo : CredentialsRepository C).

Abbreviation St := (Store (C := C)).

(** The end of a handler: the transport failed, the service refused, or not. *)
Definition reply {A : Type} (reached : bool) (failed : string) (ok : Z) (status : string -> Z)
    (call : Response A * St) (w : St) : Answer A * St :=
  if reached then
    (match call.1 with
     | RespErr code e => Error (status code) (Upstream code e)
     | RespOk a => Ok ok a
     end, call.2)
  else (Error 500 (Said failed), w).

Definition CreateStrategy (env : Env) (r : HttpRequest) (body : option DtoCreate) (w : St)
    : Answer FullProto * St :=
  match create_proto r body with
  | inl (status, msg) => (Error status (Said msg), w)
  | inr p =>
    reply (env.(up) 0%nat) "Failed to create strategy" 201 (fun _ => 400)
      (serve_CreateStrategy numeric_20_4 uuid_string credsRepo env.(gio) env.(gid) env.(gcond)
         env.(gtrade) env.(glimits) p w) w
  end.

Definition UpdateStrategy (env : Env) (r : HttpRequest) (strategyID : string) (body : option DtoUpdate)
    (w : St) : Answer FullProto * St :=
  match update_proto r strategyID body with
  | inl (status, msg) => (Error status (Said msg), w)
  | inr p =>
    reply (env.(up) 0%nat) "Failed to update strategy" 200 (fun _ => 400)
      (serve_UpdateStrategy numeric_20_4 uuid_string uuid_parse credsRepo env.(gio) p w) w
  end.

(** The user of these two is the parameter of the query. *)
Definition DeleteStrategy (env : Env) (r : HttpRequest) (strategyID : string) (w : St) : Answer string * St :=
  let user := r.(query) "user_id" in
  if String.eqb user "" then (Error 400 (Said "user_id query parameter is required"), w)
  else reply (env.(up) 0%nat) "Failed to delete strategy" 200 mapErrorCodeToHTTPStatus
         (serve_DeleteStrategy uuid_string uuid_parse env.(gio) strategyID user w) w.

Definition GetStrategy (env : Env) (r : HttpRequest) (strategyID : string) (w : St) : Answer FullProto * St :=
  let user := r.(query) "user_id" in
  if String.eqb user "" then (Error 400 (Said "user_id query parameter is required"), w)
  else reply (env.(up) 0%nat) "Failed to get strategy" 200 mapErrorCodeToHTTPStatus
         (serve_GetStrategy uuid_string uuid_parse env.(gio) strategyID user w) w.

Definition ListUserStrategies (env : Env) (parts : uuid -> nat -> bool) (r : HttpRequest) (user : string)
    (w : St) : Answer (list FullProto * Pagination) * St :=
  reply (env.(up) 0%nat) "Failed to list strategies" 200 (fun _ => 400)
    (serve_ListUserStrategies uuid_string env.(gio) parts user
       (String.eqb (r.(query) "active_only") "true") (String.eqb (r.(query) "include_deleted") "true")
       (page_param 1 (r.(query) "page")) (page_param 10 (r.(query) "page_size")) w, w) w.

(** The credentials of the headers are written for the user of the body first. *)
Definition ActivateStrategy (env : Env) (r : HttpRequest) (strategyID : string) (body : option string)
    (w : St) : Answer FullProto * St :=
  match body with
  | None => (Error 400 (Said "Invalid request body"), w)
  | Some named =>
    let user := body_user r named in
    if String.eqb user "" then (Error 400 (Said "user_id is required (in body or userId header)"), w)
    else
      let complete := negb (String.eqb (bearer r) "") && negb (String.eqb (r.(header) "appId") "")
        && negb (String.eqb (r.(header) "source") "") && negb (String.eqb (r.(header) "userId") "") in
      let w := if complete && env.(up) 0%nat
               then (serve_UpdateUserCredentials credsRepo user (Some (header_auth r)) w).2 else w in
      reply (env.(up) 1%nat) "Failed to activate strategy" 200 (fun _ => 400)
        (serve_ActivateStrategy uuid_string uuid_parse credsRepo env.(gio) env.(gio') strategyID user w) w
  end.

Definition DeactivateStrategy (env : Env) (r : HttpRequest) (strategyID : string) (body : option string)
    (w : St) : Answer FullProto * St :=
  match body with
  | None => (Error 400 (Said "Invalid request body"), w)
  | Some named =>
    let user := body_user r named in
    if String.eqb user "" then (Error 400 (Said "user_id is required (in body or userId header)"), w)
    else reply (env.(up) 0%nat) "Failed to deactivate strategy" 200 (fun _ => 400)
           (serve_DeactivateStrategy uuid_string uuid_parse env.(gio) env.(gio') strategyID user w) w
  end.

End Handlers.

(** ** The proxies to the trade execution ([paper_trading_handler.go]) *)

(** A request to the trade execution: the target as it is written, the headers
    that go with it, and the fields of the body. *)
Record ProxyRequest : Type := mkProxy {
  proxyMethod : string;
  proxyTarget : string;
  proxyHeaders : list (string * string);
  proxyBody : option (list (string * string))
}.

(** The user of the query, else of the header. *)
Definition query_user (r : HttpRequest) : string :=
  let u := r.(query) "user_id" in if String.eqb u "" then r.(header) "userId" else u.

(** The pages that only read; the user goes into the target unescaped. *)
Definition proxy_get (path more : string) (r : HttpRequest) : Passed ProxyRequest :=
  let user := query_user r in
  if String.eqb user "" then Refused 400 "user_id is required"
  else Next (mkProxy "GET" (path ++ "?user_id=" ++ user ++ more)%string [] None).

Definition GetPaperPositions := proxy_get "/ws/paper-trades/positions" "".
Definition GetLiveOrders := proxy_get "/ws/live-orders" "".
Definition GetClosedPaperOrders := proxy_get "/ws/paper-trades/closed-orders" "".
Definition GetClosedLiveOrders := proxy_get "/ws/live-orders/closed-orders" "".
Definition GetPriceWatches := proxy_get "/ws/live-orders/price-watches" "".
Definition GetAutoSquareOffConfig := proxy_get "/ws/auto-square-off/config" "".

Definition GetDashboardStats (r : HttpRequest) : Passed ProxyRequest :=
  let mode := r.(query) "mode" in
  proxy_get "/ws/dashboard-stats" ("&mode=" ++ (if String.eqb mode "" then "paper" else mode))%string r.

(** The headers that are passed on when they are set. *)
Definition forwarded (r : HttpRequest) : list (string * string) :=
  List.filter (fun h => negb (String.eqb h.2 ""))
    (map (fun h => (h, r.(header) h)) ["Authorization"; "appId"; "appid"; "userId"; "source"]).

Definition with_headers (method path : string) (r : HttpRequest) : Passed ProxyRequest :=
  let user := query_user r in
  if String.eqb user "" then Refused 400 "user_id is required"
  else Next (mkProxy method (path ++ "?user_id=" ++ user)%string (forwarded r) None).

Definition GetIndiraPositions := with_headers "GET" "/ws/live-orders/indira-positions".
Definition SubscribeBrokerWS := with_headers "POST" "/ws/live-orders/subscribe-broker-ws".

(** What acts is for the user of the header; [body] are the fields of a body. *)
Definition proxy_post (path : string) (fields : string -> list (string * string)) (r : HttpRequest)
    : Passed ProxyRequest :=
  let user := r.(header) "userId" in
  if String.eqb user "" then Refused 401 "userId header is required"
  else Next (mkProxy "POST" path [] (Some (fields user))).

(** The token of a forced exit: the header without the prefix, when something
    follows the prefix. *)
Definition exit_token (r : HttpRequest) : string :=
  let a := r.(header) "Authorization" in
  if Nat.ltb 7 (String.length a) && has_prefix "Bearer " a then TrimPrefix a "Bearer " else a.

Definition exit_source (r : HttpRequest) : string :=
  let s := r.(header) "source" in if String.eqb s "" then "WEB" else s.

Definition exit_fields (r : HttpRequest) : list (string * string) :=
  [("bearer_token", exit_token r); ("app_id", r.(header) "appId"); ("source", exit_source r)].

Definition ForceExitAll := proxy_post "/ws/paper-trades/force-exit-all" (fun u => [("user_id", u)]).

Definition ForceExitAllLive (r : HttpRequest) : Passed ProxyRequest :=
  proxy_post "/ws/live-orders/force-exit-all" (fun u => ("user_id", u) :: exit_fields r) r.

(** [None] for a body that is no JSON or names no strategy. *)
Definition with_strategy (body : option string) (r : HttpRequest) (k : string -> Passed ProxyRequest)
    : Passed ProxyRequest :=
  if String.eqb (r.(header) "userId") "" then Refused 401 "userId header is required"
  else match body with
       | Some s => if String.eqb s "" then Refused 400 "strategy_id is required in request body" else k s
       | None => Refused 400 "strategy_id is required in request body"
       end.

Definition ForceExitStrategy (body : option string) (r : HttpRequest) : Passed ProxyRequest :=
  with_strategy body r (fun s =>
    proxy_post "/ws/paper-trades/force-exit-strategy" (fun u => [("user_id", u); ("strategy_id", s)]) r).

Definition ForceExitStrategyLive (body : option string) (r : HttpRequest) : Passed ProxyRequest :=
  with_strategy body r (fun s =>
    proxy_post "/ws/live-orders/force-exit-strategy"
      (fun u => ("user_id", u) :: ("strategy_id", s) :: exit_fields r) r).

(** A body that is decoded into a map of the fields: [NullBody] leaves the map
    nil. *)
Inductive ClientBody : Type :=
  | NoObject
  | NullBody
  | Fields (l : list (string * string)).

(** The body of the client with its user replaced; [None] is the panic of the
    write to a nil map. *)
Definition enrich_body (path : string) (body : ClientBody) (r : HttpRequest) : option (Passed ProxyRequest) :=
  if String.eqb (r.(header) "userId") "" then Some (Refused 401 "userId header is required")
  else match body with
       | NoObject => Some (Refused 400 "invalid JSON body")
       | NullBody => None
       | Fields l =>
         Some (proxy_post path
                 (fun u => ("user_id", u) :: List.filter (fun f => negb (String.eqb f.1 "user_id")) l) r)
       end.

Definition CancelPriceWatch := enrich_body "/ws/live-orders/cancel-price-watch".
Definition SetAutoSquareOffConfig := enrich_body "/ws/auto-square-off/config".

(** [GetPaperWSInfo]: the address with its scheme replaced. *)
Definition GetPaperWSInfo (base : string) : string :=
  ((if Nat.ltb 5 (String.length base) && has_prefix "https" base then "wss" ++ TrimPrefix base "https"
    else if Nat.ltb 4 (String.length base) && has_prefix "http" base then "ws" ++ TrimPrefix base "http"
    else base) ++ "/ws/paper-trades")%string.

(** ** The gateway: whom a request acts for

    What a request of a client changes in the store of the strategy service.  The
    calls of the gateway that write are a type of their own, so that a sequence of
    requests is a list; the main theorem says whose rows such a list leaves alone,
    the other that the user a call names need not be the one who was
    authenticated. *)

(** ** Requests that write *)

Inductive GatewayCall : Type :=
  | GCreate (body : option DtoCreate)
  | GUpdate (strategyID : string) (body : option DtoUpdate)
  | GDelete (strategyID : string)
  | GActivate (strategyID : string) (body : option string)
  | GDeactivate (strategyID : string) (body : option string).

(** The user a call acts for: the one of the headers when a strategy is created
    or edited, the one the query or the body names otherwise. *)
Definition named_user (r : HttpRequest) (c : GatewayCall) : string :=
  match c with
  | GCreate _ | GUpdate _ _ => r.(header) "userId"
  | GDelete _ => r.(query) "user_id"
  | GActivate _ body | GDeactivate _ body => body_user r (default "" body)
  end.

Section Calls.

Context (numeric_20_4 : f64 -> option f64) (uuid_string : uuid -> string)
  (uuid_parse : string -> option uuid) {C : Type} (credsRepo : CredentialsRepository C).

Abbreviation St := (Store (C := C)).

Definition run_call (env : Gateway.Env) (r : HttpRequest) (c : GatewayCall) (w : St) : St :=
  match c with
  | GCreate body => (Gateway.CreateStrategy numeric_20_4 uuid_string credsRepo env r body w).2
  | GUpdate id body => (Gateway.UpdateStrategy numeric_20_4 uuid_string uuid_parse credsRepo env r id body w).2
  | GDelete id => (Gateway.DeleteStrategy uuid_string uuid_parse env r id w).2
  | GActivate id body => (Gateway.ActivateStrategy uuid_string uuid_parse credsRepo env r id body w).2
  | GDeactivate id body => (Gateway.DeactivateStrategy uuid_string uuid_parse env r id body w).2
  end.

Definition run_calls (l : list (Gateway.Env * HttpRequest * GatewayCall)) (w : St) : St :=
  foldl (fun w c => run_call c.1.1 c.1.2 c.2 w) w l.

(** ** Rows that are left alone *)

(** The row of a strategy and its three parts. *)
Definition whole_row (db : DB.t) (id : uuid) :=
  (db.(DB.strategies) !! id, db.(DB.strategy_conditions) !! id, db.(DB.trade_configs) !! id,
   db.(DB.risk_limits) !! id).

(** Every strategy of [u] is what it was. *)
Definition keeps (u : string) (db db' : DB.t) : Prop :=
  forall id s, db.(DB.strategies) !! id = Some s -> s.(UStrategy.UserID) = u ->
    whole_row db' id = whole_row db id.

Lemma keeps_refl u db : keeps u db db.
Proof. by intros id s. Qed.

Lemma keeps_trans u db1 db2 db3 : keeps u db1 db2 -> keeps u db2 db3 -> keeps u db1 db3.
Proof.
  intros H1 H2 id s Hs Hu. pose proof (H1 id s Hs Hu) as E. rewrite <- E. apply (H2 id s); [|done].
  apply (f_equal (fun x => x.1.1.1)) in E. cbn in E. by rewrite E.
Qed.

Lemma whole_row_event now id type p db i : whole_row (append_event now id type p db) i = whole_row db i.
Proof. done. Qed.

(** A change of one row of another user, or of the parts of another row. *)
Lemma keeps_other u db db' id :
  (forall s, db.(DB.strategies) !! id = Some s -> s.(UStrategy.UserID) <> u) ->
  (forall i, i <> id -> whole_row db' i = whole_row db i) -> keeps u db db'.
Proof.
  intros Hid Hother i s Hs Hu. apply Hother. intros ->. by apply (Hid s).
Qed.

Lemma change_row_keeps u io id user where_ change err type db :
  (forall s, where_ s = true -> s.(UStrategy.UserID) = user) -> user <> u ->
  keeps u db (change_row uuid_string io id where_ change err type db).2.
Proof.
  intros Hw Hne. destruct (change_row _ _ _ _ _ _ _ _) as [x db'] eqn:H. cbn [snd].
  apply change_row_inv in H as [[-> _]|(s & s' & db1 & H1 & Hs & Hws & _ & -> & _)]; [apply keeps_refl|].
  apply sql_update_row_inr in H1 as (s2 & _ & _ & _ & _ & _ & _ & ->).
  apply (keeps_other u db _ id).
  - intros s0 Hs0. rewrite Hs in Hs0. injection Hs0 as <-. by rewrite (Hw s Hws).
  - intros i Hi. rewrite whole_row_event. unfold whole_row. cbn. by rewrite lookup_insert_ne.
Qed.

Lemma owned_user user s : owned user s = true -> s.(UStrategy.UserID) = user.
Proof. intros [H _]%andb_prop. by apply String.eqb_eq. Qed.

Lemma alter_opt_ne {P Q} (f : Q -> P -> P) o id i (m : gmap uuid P) : i <> id -> alter_opt f o id m !! i = m !! i.
Proof. intros Hi. destruct o; cbn; [|done]. by rewrite lookup_alter_ne. Qed.

Lemma put_opt_ne {P} (id i : uuid) (o : option P) (m : gmap uuid P) : i <> id -> put_opt id o m !! i = m !! i.
Proof. intros Hi. destruct o; cbn; [|done]. by rewrite lookup_insert_ne. Qed.

Lemma Create_keeps u io newID condID tcID rlID req db :
  keeps u db (Create numeric_20_4 io newID condID tcID rlID req db).2.
Proof.
  destruct (Create _ _ _ _ _ _ _ _) as [x db'] eqn:H. cbn [snd].
  apply Create_inv in H as [[-> _]|(Hnew & _ & _ & _ & -> & _)]; [apply keeps_refl|].
  apply (keeps_other u db _ newID); [intros s; by rewrite Hnew|].
  intros i Hi. rewrite whole_row_event. unfold whole_row, created. cbn.
  by rewrite lookup_insert_ne, !put_opt_ne.
Qed.

Lemma Update_keeps u io req db :
  req.(UpdateStrategyRequest.UserID) <> u -> keeps u db (Update numeric_20_4 io req db).2.
Proof.
  intros Hne. destruct (Update _ _ _ _) as [x db'] eqn:H. cbn [snd].
  apply Update_inv in H as [[-> _]|(s0 & Hs0 & Hw & _ & _ & _ & -> & _)]; [apply keeps_refl|].
  apply (keeps_other u db _ req.(UpdateStrategyRequest.StrategyID)).
  - intros s. rewrite Hs0. intros [= <-]. unfold update_where in Hw.
    apply andb_prop in Hw as [[Hw _]%andb_prop _]. apply String.eqb_eq in Hw. by rewrite Hw.
  - intros i Hi. assert (E : forall db1 : DB.t,
      whole_row db1 i = whole_row db i -> forall b now id type p,
      whole_row (if b : bool then append_event now id type p db1 else db1) i = whole_row db i).
    { intros db1 E [] now id type p; [by rewrite whole_row_event|done]. }
    apply E. unfold whole_row, updated_tables. cbn. by rewrite lookup_insert_ne, !alter_opt_ne.
Qed.

(** ** Whose rows the calls touch *)

Lemma with_id_keeps {A} u text (w : St) (k : uuid -> Response A * St) :
  (forall id, keeps u w.1 (k id).2.1) -> keeps u w.1 (with_id uuid_parse text w k).2.1.
Proof. intros Hk. unfold with_id. destruct (uuid_parse text); [done|apply keeps_refl]. Qed.

Lemma reply_keeps {A} u reached failed ok status (call : Response A * St) (w : St) :
  keeps u w.1 call.2.1 -> keeps u w.1 (reply reached failed ok status call w).2.1.
Proof. intros Hc. destruct reached; [done|apply keeps_refl]. Qed.

Lemma serve_create_keeps u io newID condID tcID rlID p (w : St) :
  keeps u w.1 (serve_CreateStrategy numeric_20_4 uuid_string credsRepo io newID condID tcID rlID p w).2.1.
Proof.
  unfold serve_CreateStrategy, answer, UCService.CreateStrategy. cbn [snd].
  destruct (validateCreateRequest _) as [req [e|]]; [apply keeps_refl|].
  pose proof (Create_keeps u io newID condID tcID rlID req w.1) as H.
  destruct (Create _ _ _ _ _ _ _ _) as [[e|s] db]; exact H.
Qed.

Lemma serve_update_keeps u io p (w : St) :
  p.(pu_UserId) <> u ->
  keeps u w.1 (serve_UpdateStrategy numeric_20_4 uuid_string uuid_parse credsRepo io p w).2.1.
Proof.
  intros Hne. apply with_id_keeps. intros id. unfold answer, UCService.UpdateStrategy. cbn [snd].
  destruct (validateUpdateRequest _); [apply keeps_refl|].
  pose proof (Update_keeps u io (update_request id p) w.1 Hne) as H.
  destruct (Update _ _ _ _) as [[e|s] db]; exact H.
Qed.

Lemma serve_delete_keeps u io text user (w : St) :
  user <> u -> keeps u w.1 (serve_DeleteStrategy uuid_string uuid_parse io text user w).2.1.
Proof.
  intros Hne. apply with_id_keeps. intros id. unfold UCService.DeleteStrategy.
  assert (H : keeps u w.1 (Delete uuid_string io id user w.1).2).
  { eapply change_row_keeps; [|exact Hne]. intros s. apply String.eqb_eq. }
  destruct (Delete _ _ _ _ _) as [[e|x] db]; exact H.
Qed.

Lemma serve_activate_keeps u io io' text user (w : St) :
  user <> u -> keeps u w.1 (serve_ActivateStrategy uuid_string uuid_parse credsRepo io io' text user w).2.1.
Proof.
  intros Hne. apply with_id_keeps. intros id. unfold answer, UCService.ActivateStrategy. cbn [snd].
  assert (H : keeps u w.1 (Activate uuid_string io id user w.1).2).
  { eapply change_row_keeps; [|exact Hne]. apply owned_user. }
  destruct (Activate _ _ _ _ _) as [[e|x] db]; exact H.
Qed.

Lemma serve_deactivate_keeps u io io' text user (w : St) :
  user <> u -> keeps u w.1 (serve_DeactivateStrategy uuid_string uuid_parse io io' text user w).2.1.
Proof.
  intros Hne. apply with_id_keeps. intros id. unfold answer, UCService.DeactivateStrategy. cbn [snd].
  assert (H : keeps u w.1 (Deactivate uuid_string io id user w.1).2).
  { eapply change_row_keeps; [|exact Hne]. apply owned_user. }
  destruct (Deactivate _ _ _ _ _) as [[e|x] db]; exact H.
Qed.

Lemma serve_creds_db user auth (w : St) : (serve_UpdateUserCredentials credsRepo user auth w).2.1 = w.1.
Proof.
  unfold serve_UpdateUserCredentials, UpdateCredentials. destruct (_ || _); [done|].
  destruct auth as [a|]; [|done]. destruct (String.eqb _ _); [done|].
  by destruct (StoreIndiraCredentials _ _ _ _ _ _ _).
Qed.

Lemma update_proto_user r id body p : update_proto r id body = inr p -> p.(pu_UserId) = r.(header) "userId".
Proof.
  unfold update_proto. destruct body as [d|]; [|done]. destruct (String.eqb _ _); [done|].
  destruct (owner_mismatch _ _); [done|]. by intros [= <-].
Qed.

Lemma run_call_keeps u env r c (w : St) : named_user r c <> u -> keeps u w.1 (run_call env r c w).1.
Proof.
  destruct c as [body|id body|id|id body|id body]; cbn [named_user run_call]; intros Hne.
  - unfold Gateway.CreateStrategy. destruct (create_proto r body) as [[s m]|p]; [apply keeps_refl|].
    apply reply_keeps, serve_create_keeps.
  - unfold Gateway.UpdateStrategy. destruct (update_proto r id body) as [[s m]|p] eqn:E; [apply keeps_refl|].
    apply reply_keeps, serve_update_keeps. by rewrite (update_proto_user _ _ _ _ E).
  - unfold Gateway.DeleteStrategy. destruct (String.eqb _ _); [apply keeps_refl|].
    by apply reply_keeps, serve_delete_keeps.
  - unfold Gateway.ActivateStrategy. destruct body as [named|]; [|apply keeps_refl].
    cbn [default] in Hne. destruct (String.eqb _ _); [apply keeps_refl|].
    set (w1 := if _ && _ then _ else w). assert (E : w1.1 = w.1).
    { unfold w1. destruct (_ && _); [apply serve_creds_db|done]. }
    rewrite <- E. by apply reply_keeps, serve_activate_keeps.
  - unfold Gateway.DeactivateStrategy. destruct body as [named|]; [|apply keeps_refl].
    cbn [default] in Hne. destruct (String.eqb _ _); [apply keeps_refl|].
    by apply reply_keeps, serve_deactivate_keeps.
Qed.

End Calls.

(** C24: Whatever the clients send, and whichever calls and statements fail: the
    strategies of a user, with their conditions, trade configuration and risk
    limits, are changed only by a request that names that user, in the [userId]
    header when strategies are created or edited, in the query or the body when
    they are deleted, activated or deactivated. *)
Theorem requests_keep_other_users (numeric_20_4 : f64 -> option f64) (uuid_string : uuid -> string)
    (uuid_parse : string -> option uuid) {C : Type} (credsRepo : CredentialsRepository C) (u : string)
    (l : list (Gateway.Env * HttpRequest * GatewayCall)) (w : Store (C := C))
    (Hl : Forall (fun c => named_user c.1.2 c.2 <> u) l) :
  keeps u w.1 (run_calls numeric_20_4 uuid_string uuid_parse credsRepo l w).1.
Proof.
  revert w. induction Hl as [|c l Hc _ IH]; intros w; [apply keeps_refl|].
  eapply keeps_trans; [|apply IH]. by apply run_call_keeps.
Qed.

(** ** A user who is not authenticated as the owner *)

Lemma delete_good uuid_string io id db s :
  good_io io -> db.(DB.strategies) !! id = Some s ->
  mode_unknown s.(UStrategy.TradingMode) = false -> s.(UStrategy.Version) < max_int32 ->
  Delete uuid_string io id s.(UStrategy.UserID) db =
  (inr tt, write_row uuid_string io.(Io.Now) id (delete_set io.(Io.Now) s) "STRATEGY_DELETED" db).
Proof.
  intros Hio Hs Hm Hv.
  assert (Hup : sql_update_row id (fun r => String.eqb r.(UStrategy.UserID) s.(UStrategy.UserID))
      (delete_set io.(Io.Now)) db = inr (delete_set io.(Io.Now) s, with_row id (delete_set io.(Io.Now) s) db)).
  { unfold sql_update_row. rewrite Hs, String.eqb_refl. cbn [negb].
    rewrite (proj2 (Z.leb_gt _ _)) by done. cbn [delete_set bump set UStrategy.TradingMode].
    by rewrite Hm. }
  unfold Delete, change_row.
  apply (transaction_good io _ db tt
    (MkTx 3 false (write_row uuid_string io.(Io.Now) id (delete_set io.(Io.Now) s) "STRATEGY_DELETED" db)));
    [done| |done].
  rewrite (tx_bind_good _ _ _ _ _ (statement_good io _ _ _ _ _ 1 _ Hio Hup eq_refl)).
  exact (statement_good io _ _ _ _ _ 2 _ Hio (sql_insert_outbox_eq _ _ _ _ _) eq_refl).
Qed.

(** What the activation of a strategy does to the credentials. *)
Lemma activate_creds (uuid_string : uuid -> string) (uuid_parse : string -> option uuid) {C : Type}
    (credsRepo : CredentialsRepository C) (env : Gateway.Env) (r : HttpRequest) (text user : string)
    (w : Store (C := C)) :
  user <> "" -> env.(up) 0%nat = true -> bearer r <> "" ->
  r.(header) "appId" <> "" /\ r.(header) "userId" <> "" -> r.(header) "source" <> "" ->
  (Gateway.ActivateStrategy uuid_string uuid_parse credsRepo env r text (Some user) w).2.2 =
  (credsRepo.(StoreIndiraCredentials) user (r.(header) "userId") (r.(header) "appId")
     (r.(header) "source") (bearer r) w.2).1.
Proof.
  intros Hu Hup Hb [Ha Hh] Hs. apply String.eqb_neq in Hu, Hb, Ha, Hh, Hs.
  unfold Gateway.ActivateStrategy, body_user. rewrite Hu, Hu, Hb, Ha, Hs, Hh, Hup. cbn [negb andb].
  assert (Hc : forall w1 : Store, (reply (env.(up) 1%nat) "Failed to activate strategy" 200 (fun _ => 400)
    (serve_ActivateStrategy uuid_string uuid_parse credsRepo env.(gio) env.(gio') text user w1) w1).2.2 = w1.2).
  { intros w1. unfold reply. destruct (up env 1); [|done]. unfold serve_ActivateStrategy, with_id.
    destruct (uuid_parse text); [|done]. unfold answer, UCService.ActivateStrategy. cbn [snd].
    by destruct (Activate _ _ _ _ _) as [[]]. }
  rewrite Hc. unfold serve_UpdateUserCredentials, UpdateCredentials, header_auth.
  cbn [IndiraAuthContext.BearerToken IndiraAuthContext.UserID IndiraAuthContext.AppID
       IndiraAuthContext.Source]. rewrite Hu, Hb. cbn [orb]. by destruct (StoreIndiraCredentials _ _ _ _ _ _ _).
Qed.

(** A client that is authenticated as one user acts for another: the deletion
    takes its user from the query, and deletes the strategy of that user; the
    activation takes it from the body, and stores the credentials of the caller as
    those of the user the body names, also when the activation is refused. *)
Theorem stranger_acts_for_owner (uuid_string : uuid -> string) (uuid_parse : string -> option uuid)
    {C : Type} (credsRepo : CredentialsRepository C)
    (verify : string -> string -> string -> option (string * AuthClaims)) (env : Gateway.Env)
    (r : HttpRequest) (claims : AuthClaims) (text : string) (id : uuid) (s : UStrategy.t)
    (w : Store (C := C))
    (Hauth : authenticate verify r = Next (Some claims))
    (Hother : r.(header) "userId" <> s.(UStrategy.UserID)) (Howner : s.(UStrategy.UserID) <> "")
    (Hup : env.(up) 0%nat = true) (Hio : good_io env.(gio)) (Hid : uuid_parse text = Some id)
    (Hs : w.1.(DB.strategies) !! id = Some s)
    (Hmode : mode_unknown s.(UStrategy.TradingMode) = false) (Hv : s.(UStrategy.Version) < max_int32) :
  (r.(query) "user_id" = s.(UStrategy.UserID) ->
     Gateway.DeleteStrategy uuid_string uuid_parse env r text w =
     (Ok 200 "Strategy deleted successfully",
      (write_row uuid_string env.(gio).(Io.Now) id (delete_set env.(gio).(Io.Now) s) "STRATEGY_DELETED" w.1,
       w.2))) /\
  (bearer r <> "" -> r.(header) "source" <> "" ->
     (Gateway.ActivateStrategy uuid_string uuid_parse credsRepo env r text (Some s.(UStrategy.UserID)) w).2.2 =
     (credsRepo.(StoreIndiraCredentials) s.(UStrategy.UserID) (r.(header) "userId") (r.(header) "appId")
        (r.(header) "source") (bearer r) w.2).1).
Proof.
  split.
  - intros Hq. unfold Gateway.DeleteStrategy. rewrite Hq. apply String.eqb_neq in Howner. rewrite Howner.
    unfold reply. rewrite Hup. unfold serve_DeleteStrategy, with_id. rewrite Hid.
    unfold UCService.DeleteStrategy. by rewrite (delete_good _ _ _ _ _ Hio Hs Hmode Hv).
  - intros Hb Hsrc. apply activate_creds; [done..| |done].
    unfold authenticate in Hauth. do 2 (destruct (_ : bool); [done|]).
    destruct (r.(header) "appId" =? "")%string eqn:Ha, (r.(header) "userId" =? "")%string eqn:Hu;
      rewrite ?orb_true_r in Hauth; try done. by split; apply String.eqb_neq.
Qed.

(** ** At concrete requests *)

(** Headers and parameters given as lists. *)
Definition sample_http (headers params : list (string * string)) : HttpRequest :=
  let get l k := default "" (snd <$> List.find (fun h => String.eqb h.1 k) l) in
  mkHttp "POST" "/api/v1/strategies" (get headers) (get params) "10.0.0.1".

(** Mallory's credentials, alice's name. *)
Definition mallory : HttpRequest :=
  sample_http [("Authorization", "Bearer token"); ("userId", "mallory"); ("appId", "app"); ("source", "WEB")]
    [("user_id", "alice")].

Definition sample_gateway : Gateway.Env :=
  Gateway.MkEnv (fun _ => true) (sample_io 2) (sample_io 3) 20 21 22 23.

Definition with_alice : Store (C := list string) := created.2.

Lemma stranger_acts_for_owner_witness :
  (Gateway.DeleteStrategy sample_text sample_parse sample_gateway mallory (sample_text 7) with_alice).1 =
    Ok 200 "Strategy deleted successfully" /\
  (Gateway.ActivateStrategy sample_text sample_parse sample_creds sample_gateway mallory (sample_text 7)
     (Some "alice") with_alice).2.2 = ["token"].
Proof.
  set (s := default (sample_row (DB.empty, [])) (with_alice.1.(DB.strategies) !! 7%N)).
  destruct (stranger_acts_for_owner sample_text sample_parse sample_creds
    (fun _ _ _ => Some ("200", mkClaims "mallory" 0 "")) sample_gateway mallory
    (mkClaims "mallory" 0 "") (sample_text 7) 7 s with_alice) as [H1 H2].
  - reflexivity.
  - vm_compute. discriminate.
  - vm_compute. discriminate.
  - reflexivity.
  - intros n. reflexivity.
  - reflexivity.
  - vm_compute. reflexivity.
  - vm_compute. reflexivity.
  - vm_compute. reflexivity.
  - split.
    + rewrite H1; [reflexivity|]. vm_compute. reflexivity.
    + change "alice" with s.(UStrategy.UserID). rewrite H2; [vm_compute; reflexivity|discriminate|discriminate].
Defined.

Lemma requests_keep_other_users_witness :
  keeps "alice" with_alice.1
    (run_calls Some sample_text sample_parse sample_creds
       [(sample_gateway, sample_http [("userId", "mallory")] [], GUpdate (sample_text 7) (Some
           (MkDtoUpdate "" (Some "mine") None None None None None 1)));
        (sample_gateway, sample_http [] [("user_id", "bob")], GDelete (sample_text 7))] with_alice).1.
Proof.
  apply (requests_keep_other_users Some sample_text sample_parse sample_creds "alice").
  repeat constructor; vm_compute; discriminate.
Defined.

(** The editing of a strategy by another user is refused. *)
Example stranger_cannot_edit :
  (run_call Some sample_text sample_parse sample_creds sample_gateway mallory
     (GUpdate (sample_text 7) (Some (MkDtoUpdate "" (Some "mine") None None None None None 1))) with_alice).1
  = with_alice.1.
Proof. vm_compute. reflexivity. Qed.
