(* ===== verification/GoParse.v ===== *)
(** * Numbers and times in text

    [strconv.ParseFloat], [fmt.Sprintf("%.2f", x)],
    [time.ParseInLocation] for the two layouts of the broker, and the printing of
    dates.  [ParseFloat] is
    given for decimal text, infinities and NaN; the hexadecimal spellings and
    the underscores of Go literals, which are no JSON numbers, are rejected. *)

From stdpp Require Import base strings list option.
From Stdlib Require Import Ascii NArith ZArith Lia SpecFloat.
From S2P Require Import Prelude GoFloat FloatRound GoStrings GoTime.

Open Scope string_scope.
Open Scope Z_scope.

(** ** [strconv.ParseFloat] *)

(** [m * 10^e] for a positive [m], correctly rounded. *)
Definition magnitude (m e : Z) : f64 :=
  if 0 <=? e then of_Z (m * 10 ^ e)
  else
    let '(mz, ez, lz) := SFdiv_core_binary prec emax m 0 (10 ^ (- e)) 0 in
    binary_round_aux prec emax false mz ez lz.

(** [None] when it overflows ([ErrRange]). *)
Definition decimal_to_f64 (neg : bool) (m e : Z) : option f64 :=
  if m =? 0 then Some (S754_zero neg)
  else
    match magnitude m e with
    | S754_infinity _ | S754_nan => None
    | x => Some (if neg then SFopp x else x)
    end.

(** The value of a run of digits; an exponent stops growing at 10000. *)
Definition digit_value (c : ascii) : Z := Z.of_N (N_of_ascii c) - 48.

Fixpoint digits_from (acc : Z) (s : string) : Z :=
  match s with "" => acc | String c s' => digits_from (acc * 10 + digit_value c) s' end.

Definition digits_value (s : string) : Z := digits_from 0 s.

Fixpoint capped_from (acc : Z) (s : string) : Z :=
  match s with
  | "" => acc
  | String c s' => capped_from (if acc <? 10000 then acc * 10 + digit_value c else acc) s'
  end.

Definition capped_value (s : string) : Z := capped_from 0 s.

(** The exponent at the end: [None] when the text is not an exponent. *)
Definition parse_exponent (s : string) : option Z :=
  match s with
  | "" => Some 0
  | String c s' =>
    if Ascii.eqb (lower_ascii c) "e" then
      let '(neg, s') := match s' with
                        | String "-" t => (true, t) | String "+" t => (false, t) | _ => (false, s') end in
      let '(d, rest) := scan_digits s' in
      if String.eqb d "" || negb (String.eqb rest "") then None
      else Some (if neg then - capped_value d else capped_value d)
    else None
  end.

Definition parse_decimal (neg : bool) (s : string) : option f64 :=
  let '(whole, rest) := scan_digits s in
  let '(frac, rest) := match rest with String "." t => scan_digits t | _ => ("", rest) end in
  if String.eqb whole "" && String.eqb frac "" then None
  else
    e ← parse_exponent rest;
    decimal_to_f64 neg (digits_value (String.append whole frac)) (e - Z.of_nat (String.length frac)).

Definition ParseFloat (s : string) : option f64 :=
  let '(neg, signed, t) := match s with
                           | String "-" t => (true, true, t)
                           | String "+" t => (false, true, t)
                           | _ => (false, false, s) end in
  let l := ToLower t in
  if String.eqb l "inf" || String.eqb l "infinity" then Some (S754_infinity neg)
  else if String.eqb l "nan" then (if signed then None else Some S754_nan)
  else parse_decimal neg t.

(** ** [fmt.Sprintf("%.2f", x)] *)

(** The nearest multiple of a hundredth, ties to even. *)
Definition hundredths (m : positive) (e : Z) : Z :=
  if 0 <=? e then Z.pos m * 2 ^ e * 100
  else
    let d := 2 ^ (- e) in
    let q := Z.pos m * 100 / d in
    let r := Z.pos m * 100 mod d in
    if (d <? 2 * r) || ((2 * r =? d) && Z.odd q) then q + 1 else q.

Definition sprintf_2f (x : f64) : string :=
  let render (neg : bool) (n : Z) :=
    String.append (if neg then "-" else "")
      (String.append (Itoa (n / 100)) (String.append "." (two_digits (n mod 100)))) in
  match x with
  | S754_zero s => render s 0
  | S754_finite s m e => render s (hundredths m e)
  | S754_infinity s => if s then "-Inf" else "+Inf"
  | S754_nan => "NaN"
  end.

(** ** Calendar *)

(** The number of the day of a date of the Gregorian calendar; 1970-01-01 is
    0. *)
Definition civil_day (y m d : Z) : Z :=
  let y' := if m <=? 2 then y - 1 else y in
  let era := y' / 400 in
  let yoe := y' - era * 400 in
  let doy := (153 * (m + (if 2 <? m then -3 else 9)) + 2) / 5 + d - 1 in
  era * 146097 + (yoe * 365 + yoe / 4 - yoe / 100 + doy) - 719468.

Definition leap (y : Z) : bool := (y mod 4 =? 0) && (negb (y mod 100 =? 0) || (y mod 400 =? 0)).

Definition days_in (m y : Z) : Z :=
  if m =? 2 then (if leap y then 29 else 28)
  else if (m =? 4) || (m =? 6) || (m =? 9) || (m =? 11) then 30 else 31.

(** The instant of a local time. *)
Definition date_in (offset y m d h mi s ns : Z) : Z :=
  (civil_day y m d * 86400 + h * 3600 + mi * 60 + s - offset) * second + ns.

(** ** [time.ParseInLocation] with the layouts [02-Jan-2006 15:04:05] and
    [02-Jan-2006 15.04.05] *)

Definition digit (c : ascii) : option Z :=
  let n := N_of_ascii c in
  if (48 <=? n)%N && (n <=? 57)%N then Some (Z.of_N n - 48) else None.

(** [getnum]: two digits, or one when [fixed] does not ask for two. *)
Definition getnum (fixed : bool) (s : string) : option (Z * string) :=
  match s with
  | "" => None
  | String a s1 =>
    x ← digit a;
    match s1 with
    | String b s2 =>
      match digit b with
      | Some y => Some (10 * x + y, s2)
      | None => if fixed then None else Some (x, s1)
      end
    | "" => if fixed then None else Some (x, s1)
    end
  end.

Definition skip_char (c : ascii) (s : string) : option string :=
  match s with String a t => if Ascii.eqb a c then Some t else None | "" => None end.

(** A space of the layout: at least one in the text, or its end. *)
Fixpoint cut_spaces (s : string) : string :=
  match s with String " " t => cut_spaces t | _ => s end.

Definition skip_space (s : string) : option string :=
  match s with "" => Some "" | String " " _ => Some (cut_spaces s) | _ => None end.

Definition shortMonthNames : list string :=
  ["jan"; "feb"; "mar"; "apr"; "may"; "jun"; "jul"; "aug"; "sep"; "oct"; "nov"; "dec"].

Definition parse_month (s : string) : option (Z * string) :=
  match s with
  | String a (String b (String c t)) =>
    let name := ToLower (String a (String b (String c ""))) in
    (fun '(i, _) => (Z.of_nat i + 1, t)) <$> list_find (fun n => n = name) shortMonthNames
  | _ => None
  end.

Definition parse_year (s : string) : option (Z * string) :=
  match s with
  | String a (String b (String c (String d t))) =>
    w ← digit a; x ← digit b; y ← digit c; z ← digit d;
    Some (w * 1000 + x * 100 + y * 10 + z, t)
  | _ => None
  end.

(** A fraction of a second is accepted although the layout has none. *)
Definition parse_fraction (s : string) : Z * string :=
  match s with
  | String p t =>
    let '(d, rest) := scan_digits t in
    if (Ascii.eqb p "." || Ascii.eqb p ",") && negb (String.eqb d "") then
      let d := Stdlib.Strings.String.substring 0 9 d in
      (digits_value d * 10 ^ (9 - Z.of_nat (String.length d)), rest)
    else (0, s)
  | "" => (0, s)
  end.

Definition parse_layout (sep : ascii) (offset : Z) (s : string) : option Z :=
  '(d, s) ← getnum true s; s ← skip_char "-" s;
  '(m, s) ← parse_month s; s ← skip_char "-" s;
  '(y, s) ← parse_year s; s ← skip_space s;
  '(h, s) ← getnum false s; s ← skip_char sep s;
  '(mi, s) ← getnum true s; s ← skip_char sep s;
  '(sec, s) ← getnum true s;
  let '(ns, s) := parse_fraction s in
  if (h <? 24) && (mi <? 60) && (sec <? 60) && String.eqb s "" && (1 <=? d) && (d <=? days_in m y)
  then Some (date_in offset y m d h mi sec ns) else None.

Example parse_price : ParseFloat "2475.55" = Some (dec 247555 2).
Proof. vm_compute. reflexivity. Qed.

Example print_price : sprintf_2f (dec 247555 2) = "2475.55".
Proof. vm_compute. reflexivity. Qed.

Example parse_stamp :
  parse_layout ":" ist_offset "15-May-2026 12:31:29" = Some (1778828489 * second) /\
  parse_layout "." ist_offset "15-May-2026 12.31.29" = Some (1778828489 * second) /\
  parse_layout ":" ist_offset "31-Feb-2026 12:31:29" = None.
Proof. vm_compute. auto. Qed.

(** ** What is parsed is a float64 *)

Lemma magnitude_nonneg m e : 0 < m -> fnonneg (magnitude m e) = true.
Proof.
  intros Hm. unfold magnitude. destruct (0 <=? e) eqn:He; [apply of_Z_nonneg; nia|].
  pose proof (Z.pow_pos_nonneg 10 (- e) ltac:(lia) ltac:(lia)) as Hp.
  destruct m as [|m|m]; [lia| |lia]. destruct (10 ^ (- e)) as [|q|q]; [lia| |lia].
  change (fnonneg (fdiv (S754_finite false m 0) (S754_finite false q 0)) = true).
  destruct (fdiv_pos_spec m 0 q 0) as (n & k & Hn & _ & _ & T & ->).
  apply round_nonneg; [done|done|by apply new_location_represents|done].
Qed.

Lemma decimal_valid neg m e x :
  0 <= m -> decimal_to_f64 neg m e = Some x -> flt fzero x = true -> fnonneg x = true.
Proof.
  intros Hm. unfold decimal_to_f64. destruct (Z.eqb_spec m 0) as [|Hne]; [intros [= <-]; done|].
  pose proof (magnitude_nonneg m e ltac:(lia)) as Hn. destruct (magnitude m e) as [s|s| |[] m1 e1]; try done.
  - by destruct neg; intros [= <-].
  - destruct neg; intros [= <-]; [done|]. intros _. exact Hn.
Qed.

Lemma scan_digits_nonneg s acc : 0 <= acc -> 0 <= digits_from acc (scan_digits s).1.
Proof.
  revert acc. induction s as [|c s IH]; intros acc Ha; [done|]. cbn [scan_digits].
  destruct (_ && _) eqn:Hc; [|done]. destruct (scan_digits s) as [d rest]. cbn in *.
  apply IH. apply andb_prop in Hc as [Hc%N.leb_le _]. unfold digit_value. lia.
Qed.

Lemma digits_from_app s t acc : digits_from acc (String.append s t) = digits_from (digits_from acc s) t.
Proof. revert acc. induction s as [|c s IH]; intros acc; [done|]. apply IH. Qed.

Lemma parse_decimal_valid neg s x :
  parse_decimal neg s = Some x -> flt fzero x = true -> fnonneg x = true.
Proof.
  unfold parse_decimal. destruct (scan_digits s) as [whole rest] eqn:Hw.
  destruct (match rest with String "." t => scan_digits t | _ => ("", rest) end) as [frac rest'] eqn:Hf.
  destruct (_ && _); [done|]. destruct (parse_exponent _) as [e|]; [|done]. cbn [mbind option_bind].
  apply decimal_valid. unfold digits_value. rewrite digits_from_app.
  pose proof (scan_digits_nonneg s 0 ltac:(lia)) as H1. rewrite Hw in H1. cbn [fst] in H1.
  assert (Hfrac : frac = "" \/ exists t, frac = (scan_digits t).1).
  { destruct rest as [|c t]; [left; congruence|].
    destruct c as [[] [] [] [] [] [] [] []]; try (left; congruence). right. exists t. by rewrite Hf. }
  destruct Hfrac as [-> | [t ->]]; [exact H1|by apply scan_digits_nonneg].
Qed.

(** A positive number that was parsed is in canonical form. *)
Lemma ParseFloat_valid s x : ParseFloat s = Some x -> flt fzero x = true -> fnonneg x = true.
Proof.
  unfold ParseFloat.
  destruct (match s with String "-" t => _ | String "+" t => _ | _ => _ end) as [[neg signed] t].
  destruct (_ || _); [intros [= <-]; by destruct neg|].
  destruct (String.eqb _ _); [destruct signed; [done|by intros [= <-]]|]. apply parse_decimal_valid.
Qed.

(** ** Dates as text

    The civil date of a day number, the inverse of [GoParse.civil_day], and
    [time.Format(time.RFC3339)] in the time zone of the exchange. *)

Open Scope list_scope.

(** Year, month and day of a day number. *)
Definition civil_of_day (n : Z) : Z * Z * Z :=
  let z := n + 719468 in
  let era := z / 146097 in
  let doe := z mod 146097 in
  let yoe := (doe - doe / 1460 + doe / 36524 - doe / 146096) / 365 in
  let doy := doe - (365 * yoe + yoe / 4 - yoe / 100) in
  let mp := (5 * doy + 2) / 153 in
  let m := if mp <? 10 then mp + 3 else mp - 9 in
  (yoe + era * 400 + (if m <=? 2 then 1 else 0), m, doy - (153 * mp + 2) / 5 + 1).

(** A number with at least [w] digits. *)
Fixpoint padded (w : nat) (n : Z) : string :=
  match w with
  | O => if 0 <? n then Itoa n else ""
  | S w => (padded w (n / 10) ++ Itoa (n mod 10))%string
  end.

(** [t.In(timezone.IST).Format(time.RFC3339)]. *)
Definition fmtIST (t : Z) : string :=
  let s := local_seconds ist_offset t in
  let '(y, m, d) := civil_of_day (s / 86400) in
  let r := s mod 86400 in
  (padded 4 y ++ "-" ++ padded 2 m ++ "-" ++ padded 2 d ++ "T"
   ++ padded 2 (r / 3600) ++ ":" ++ padded 2 (r / 60 mod 60) ++ ":" ++ padded 2 (r mod 60) ++ "+05:30")%string.

Example fmt_stamp : fmtIST (1778828489 * second + 17) = "2026-05-15T12:31:29+05:30".
Proof. vm_compute. reflexivity. Qed.

(** The two calendars agree, around the ends of months, years and centuries. *)
Definition date_ok (n : Z) : bool :=
  let '(y, m, d) := civil_of_day n in
  (civil_day y m d =? n) && (1 <=? m) && (m <=? 12) && (1 <=? d) && (d <=? days_in m y).

Example calendars_agree :
  forallb date_ok (flat_map (fun k => (fun i => 10957 + 365 * Z.of_nat k + Z.of_nat i) <$> seq 0 62) (seq 0 8)) = true /\
  civil_of_day 0 = (1970, 1, 1) /\ civil_of_day 11016 = (2000, 2, 29) /\ civil_of_day (-1) = (1969, 12, 31).
Proof. vm_compute. auto. Qed.
