(* ===== verification/StatusService.v ===== *)
(** * Order status updates of the broker

    [trade-execution/internal/statusservice/service.go]: a message of the
    broker's stream becomes an update of the order's row, notifications, and
    calls of the two exit managers.  The calls and goroutines it starts are the
    [Effect]s.  A message is the decoded [WSOrderStatus] without the fields that
    nothing reads; [Raw] is the text stored for audits.  The messages of one
    broker order are handled one after the other (the mutex of [lockOrder]);
    [pause] is what others write to the table during the wait of half a second,
    [meanwhile] what they write between the read and the update of the row.
    Metrics and logs are left out. *)

From stdpp Require Import base gmap strings list sorting.
From Stdlib Require Import ZArith Lia Ascii.
From S2P Require Import Prelude GoFloat GoStrings GoTime GoParse Orders OrderRepo OCOTypes OrderQueries ConfigSync.

Open Scope string_scope.
Open Scope list_scope.
Open Scope Z_scope.
Open Scope go_scope.

(** [WSOrderStatus]. *)
Module WS.
Record t := mk {
  UniqueCode : string;
  OrderNumber : string;
  OrderStatus : string;
  UCC : string;
  Symbol : string;
  BuySell : string;
  TradedQTY : string;
  TradedPrice : string;
  OrderPrice : string;
  TriggerPrice : f64;
  DecimalLocator : string;
  PendingQty : string;
  OrderOriginalQty : Z;
  Reason : string;
  Product : string;
  OrderValidity : string;
  OrderEntryTime : string;
  OrderTimeStamp : string;
  LastModifiedTimeStamp : string;
  Raw : string
}.
#[global] Instance eta_ws : Eta t := fun s =>
  mk s.(UniqueCode) s.(OrderNumber) s.(OrderStatus) s.(UCC) s.(Symbol) s.(BuySell) s.(TradedQTY)
     s.(TradedPrice) s.(OrderPrice) s.(TriggerPrice) s.(DecimalLocator) s.(PendingQty)
     s.(OrderOriginalQty) s.(Reason) s.(Product) s.(OrderValidity) s.(OrderEntryTime)
     s.(OrderTimeStamp) s.(LastModifiedTimeStamp) s.(Raw).
End WS.

(** [strings.ToUpper(strings.TrimSpace(...))]. *)
Definition clean (s : string) : string := ToUpper (TrimSpace s).

Definition broker_status (ws : WS.t) : string := clean ws.(WS.OrderStatus).

Definition is_fill (status : string) : bool := one_of status ["EXECUTED"; "TRADED"].

(** The id the row is looked up by; empty when the message is dropped. *)
Definition ws_id (ws : WS.t) : string :=
  if ws.(WS.UniqueCode) =?s "" then ws.(WS.OrderNumber) else ws.(WS.UniqueCode).

Definition flexToInt (s : string) : Z := default 0 (Atoi s).

Definition decimalLocator (dl : string) : f64 :=
  if dl =?s "" then of_Z 1
  else match ParseFloat dl with
       | Some v => if flt fzero v then v else of_Z 1
       | None => of_Z 1
       end.

Definition parseBrokerTime (s : string) : Z :=
  if s =?s "" then zero_time
  else match parse_layout ":" ist_offset s with
       | Some t => t
       | None => default zero_time (parse_layout "." ist_offset s)
       end.

(** A positive number, or [None]. *)
Definition positive_price (s : string) : option f64 :=
  match ParseFloat s with
  | Some p => if flt fzero p then Some p else None
  | None => None
  end.

(** ** The order after a message *)

(** Cumulative quantity and the price of this trade: the running average. *)
Definition update_fill (newCumQty : Z) (thisTradePrice : f64) (o : Order.t) : Order.t :=
  let prevQty := o.(Order.FilledQuantity) in
  if newCumQty <? 0 then o
  else if prevQty <? newCumQty then
    let newAvg :=
      if fle thisTradePrice fzero then default fzero o.(Order.FilledPrice)
      else if prevQty <=? 0 then thisTradePrice
      else
        let prevAvg := default fzero o.(Order.FilledPrice) in
        ((prevAvg * of_Z prevQty + thisTradePrice * of_Z (int64 (newCumQty - prevQty))) / of_Z newCumQty)%f64 in
    let o := o <| Order.FilledQuantity := int32 newCumQty |> in
    if flt fzero newAvg then o <| Order.FilledPrice := Some newAvg |> else o
  else if (newCumQty =? prevQty) && flt fzero thisTradePrice && bool_decide (o.(Order.FilledPrice) = None)
  then o <| Order.FilledPrice := Some thisTradePrice |>
  else o.

Definition set_broker_data (ws : WS.t) (o : Order.t) : Order.t :=
  let o := o <| Order.BrokerWSData := Some ws.(WS.Raw) |>
             <| Order.BrokerStatus := Some ws.(WS.OrderStatus) |> in
  let o := if (ws.(WS.OrderNumber) =?s "") || (ws.(WS.OrderNumber) =?s "0") then o
           else o <| Order.ExchangeOrderNumber := Some ws.(WS.OrderNumber) |> in
  o <| Order.Status := broker_status ws |>.

Definition set_order_price (ws : WS.t) (o : Order.t) : Order.t :=
  match positive_price ws.(WS.OrderPrice) with
  | None => o
  | Some p =>
    let o := o <| Order.Price := Some p |> in
    if bool_decide (o.(Order.FilledPrice) = None) && is_fill (broker_status ws)
    then o <| Order.FilledPrice := Some p |> else o
  end.

Definition set_executed_at (ws : WS.t) (o : Order.t) : Order.t :=
  if is_fill (broker_status ws) then
    let t1 := parseBrokerTime ws.(WS.OrderEntryTime) in
    let t2 := parseBrokerTime ws.(WS.OrderTimeStamp) in
    if negb (t1 =? zero_time) then o <| Order.ExecutedAt := Some t1 |>
    else if negb (t2 =? zero_time) then o <| Order.ExecutedAt := Some t2 |>
    else o
  else o.

Definition set_trigger (ws : WS.t) (o : Order.t) : Order.t :=
  if flt fzero ws.(WS.TriggerPrice)
  then o <| Order.StopLoss := Some (ws.(WS.TriggerPrice) / decimalLocator ws.(WS.DecimalLocator))%f64 |>
  else o.

Definition set_reason (ws : WS.t) (o : Order.t) : Order.t :=
  if ws.(WS.Reason) =?s "" then o else o <| Order.RejectionReason := Some ws.(WS.Reason) |>.

Definition traded_qty (ws : WS.t) : Z := default (-1) (Atoi ws.(WS.TradedQTY)).

Definition apply_status (ws : WS.t) (o : Order.t) : Order.t :=
  set_reason ws (set_trigger ws (set_executed_at ws (set_order_price ws
    (update_fill (traded_qty ws) (default fzero (positive_price ws.(WS.TradedPrice)))
       (set_broker_data ws o))))).

(** ** The notification ([publishNotification]) *)

Record ExecutionDetails := MkDetails {
  ed_ExecutedAt : Z;
  ed_ExecutedPrice : string;
  ed_BrokerRef : string;
  ed_TradedQty : Z;
  ed_PendingQty : Z;
  ed_OriginalQty : Z;
  ed_ExchangeOrderNo : string;
  ed_OrderEntryTime : string;
  ed_LastModifiedAt : string;
  ed_Product : string;
  ed_OrderValidity : string;
  ed_Reason : string;
  ed_TriggerPrice : string
}.

Module OrderUpdate.
Record t := mk {
  UpdateID : string;
  OrderID : uuid;
  UserID : string;
  CreatedAt : Z;
  ExpiresAt : Z;
  Status : string;
  Stock : string;
  Action : string;
  Quantity : Z;
  Exchange : string;
  OrderType : string;
  Price : string;
  UpdateType : string;
  Priority : string;
  Title : string;
  Message : string;
  DetailedMessage : string;
  StatusEmoji : string;
  StatusColor : string;
  Details : ExecutionDetails
}.
End OrderUpdate.

Definition rupees (x : f64) : string := "₹" +:+ sprintf_2f x.

Definition concat (l : list string) : string := foldr String.append "" l.

(** The headline of a kind of update. *)
Record Headline := MkHeadline {
  h_type : string; h_priority : string; h_title : string; h_message : string;
  h_detail : string; h_emoji : string; h_color : string
}.

(** [%d] given a [FlexInt], a string type, prints the complaint of [fmt]. *)
Definition bad_verb (s : string) : string := concat ["%!d(indira.FlexInt="; s; ")"].

Definition headline (o : Order.t) (ws : WS.t) (tradedQty : Z) (tradedPrice brokerRef : string) : Headline :=
  let status := broker_status ws in
  let stock := o.(Order.Symbol) in
  if is_fill status then
    MkHeadline "EXECUTION_SUCCESS" "HIGH" "Order Executed ✓"
      (concat ["Your "; stock; " order was executed"])
      (if tradedPrice =?s "" then ""
       else concat ["Filled "; Itoa tradedQty; "/"; Itoa ws.(WS.OrderOriginalQty); " share(s) of "; stock;
                    " at "; tradedPrice; " on "; o.(Order.Exchange); " | Broker ref: "; brokerRef;
                    " | Entry: "; ws.(WS.OrderEntryTime)])
      "✅" "#00C851"
  else if one_of status ["PARTIALLY TRADED"; "PARTIALLY EXECUTED"] then
    MkHeadline "PARTIAL_FILL" "MEDIUM" "Order Partially Filled"
      (concat [Itoa tradedQty; " of "; Itoa ws.(WS.OrderOriginalQty); " shares filled for "; stock])
      (concat ["Partially filled "; Itoa tradedQty; "/"; Itoa ws.(WS.OrderOriginalQty); " at "; tradedPrice;
               " | Pending qty: "; bad_verb ws.(WS.PendingQty); " | Broker ref: "; brokerRef])
      "🔶" "#FFBB33"
  else if one_of status ["REJECTED"; "A.REJECTED"] then
    MkHeadline "ORDER_REJECTED" "HIGH" "Order Rejected ✗"
      (concat ["Your "; stock; " order was rejected"])
      (concat ["Rejected by broker: "; ws.(WS.Reason); " | Ref: "; brokerRef]) "❌" "#FF4444"
  else if status =?s "CANCELLED" then
    MkHeadline "ORDER_CANCELLED" "MEDIUM" "Order Cancelled"
      (concat ["Your "; stock; " order was cancelled"])
      (concat ["Cancelled: "; ws.(WS.Reason); " | Ref: "; brokerRef]) "⚠️" "#FFBB33"
  else if status =?s "PENDING" then
    MkHeadline "ORDER_PENDING" "LOW" "Order Pending"
      (concat ["Your "; stock; " order is pending"])
      (concat ["Pending | Ref: "; brokerRef; " | Entry: "; ws.(WS.OrderEntryTime)]) "⏳" "#33B5E5"
  else
    MkHeadline "ORDER_STATUS_UPDATE" "LOW" (concat ["Order "; status])
      (concat ["Your "; stock; " order status: "; status]) "" "ℹ️" "#33B5E5".

(** One reading of the clock, [now]; [fresh] is the new id. *)
Definition publishNotification (now : Z) (fresh : string) (o : Order.t) (ws : WS.t) : OrderUpdate.t :=
  let dl := decimalLocator ws.(WS.DecimalLocator) in
  let tradedQty := flexToInt ws.(WS.TradedQTY) in
  let tradedPrice :=
    if (ws.(WS.TradedPrice) =?s "") || (ws.(WS.TradedPrice) =?s "0") then ""
    else from_option rupees "" (positive_price ws.(WS.TradedPrice)) in
  let trigger := if flt fzero ws.(WS.TriggerPrice) then rupees (ws.(WS.TriggerPrice) / dl)%f64 else "" in
  let ref := ws_id ws in
  let h := headline o ws tradedQty tradedPrice ref in
  let entry := parseBrokerTime ws.(WS.OrderEntryTime) in
  let executedAt := if is_fill (broker_status ws) && negb (tradedPrice =?s "") && negb (entry =? zero_time)
                    then entry else now in
  OrderUpdate.mk fresh o.(Order.OrderID) o.(Order.UserID) now (now + 3600 * second) o.(Order.Status)
    o.(Order.Symbol) o.(Order.OrderSide) o.(Order.Quantity) o.(Order.Exchange) o.(Order.OrderType)
    (from_option rupees "MARKET" o.(Order.Price)) h.(h_type) h.(h_priority) h.(h_title) h.(h_message)
    h.(h_detail) h.(h_emoji) h.(h_color)
    (MkDetails executedAt tradedPrice ref tradedQty (flexToInt ws.(WS.PendingQty)) ws.(WS.OrderOriginalQty)
       ws.(WS.OrderNumber) ws.(WS.OrderEntryTime) ws.(WS.LastModifiedTimeStamp) ws.(WS.Product)
       ws.(WS.OrderValidity) ws.(WS.Reason) trigger).

(** ** Handling a message *)

Inductive Effect : Type :=
  | ERecordEvent (orderID : uuid) (previousStatus : string) (ws : WS.t)
  | EBroadcast (o : Order.t)
  | EOrderFilled (userID : string) (auth : AuthContext)
  | EOCOUpdate (o : Order.t) (status : string)
  | EMLUpdate (o : Order.t) (status : string)
  | ENotify (u : OrderUpdate.t)
  | EOCOCancelSymbol (userID symbol : string)
  | EMLCancelSymbol (userID symbol : string).

(** Which collaborators are wired, and what the managers know. *)
Record Hooks := MkHooks {
  oco : option (string -> bool);  (** [ocoHandler], by its [IsKnownBrokerID] *)
  ml : option (string -> bool);
  broadcasts : bool;
  pushes_positions : bool;
  publishes : bool
}.

Definition wired {A} (o : option A) (e : Effect) : list Effect :=
  match o with Some _ => [e] | None => [] end.

Definition known (o : option (string -> bool)) (id : string) : bool :=
  match o with Some f => f id | None => false end.

Definition handleManualExitDetection (h : Hooks) (ws : WS.t) : list Effect :=
  if ws.(WS.UCC) =?s "" then []
  else wired h.(oco) (EOCOCancelSymbol ws.(WS.UCC) ws.(WS.Symbol))
       ++ wired h.(ml) (EMLCancelSymbol ws.(WS.UCC) ws.(WS.Symbol)).

(** What follows a successful update of the row. *)
Definition after_update (h : Hooks) (auths : gmap string AuthContext) (now : Z) (fresh : string)
    (ws : WS.t) (o : Order.t) : list Effect :=
  let status := broker_status ws in
  (if h.(broadcasts) then [EBroadcast o] else [])
  ++ (if is_fill status && h.(pushes_positions) then
        match auths !! o.(Order.UserID) with Some a => [EOrderFilled o.(Order.UserID) a] | None => [] end
      else [])
  ++ wired h.(oco) (EOCOUpdate o status) ++ wired h.(ml) (EMLUpdate o status)
  ++ (if h.(publishes) then [ENotify (publishNotification now fresh o ws)] else []).

(** The rest of the handler once the row was read. *)
Definition process (h : Hooks) (auths : gmap string AuthContext) (now : Z) (fresh : string)
    (meanwhile : OrdersTable -> OrdersTable) (ws : WS.t) (o : Order.t) (t : OrdersTable)
    : OrdersTable * list Effect :=
  let o' := apply_status ws o in
  let event := ERecordEvent o.(Order.OrderID) o.(Order.Status) ws in
  match sqlUpdate now o' (meanwhile t) with
  | (t, Some _) => (t, [event])
  | (t, None) => (t, event :: after_update h auths now fresh ws o')
  end.

Definition handleStatusUpdate (h : Hooks) (auths : gmap string AuthContext) (now : Z) (fresh : string)
    (pause meanwhile : OrdersTable -> OrdersTable) (ws : WS.t) (t : OrdersTable)
    : OrdersTable * list Effect :=
  let id := ws_id ws in
  if (id =?s "") || (id =?s "0") then (t, [])
  else
    match sqlGetByIndiraOrderID id t with
    | (t, inr o) => process h auths now fresh meanwhile ws o t
    | (t, inl _) =>
      match sqlGetByIndiraOrderID id (pause t) with
      | (t, inr o) => process h auths now fresh meanwhile ws o t
      | (t, inl _) =>
        (t, if known h.(oco) id || known h.(ml) id then []
            else if is_fill (broker_status ws) && negb (ws.(WS.Symbol) =?s "")
                    && (is_set h.(oco) || is_set h.(ml))
            then handleManualExitDetection h ws else [])
      end
    end.

(** The result of [ReconcileOrderFromBrokerBook]: was the snapshot applied? *)
Definition ReconcileOrderFromBrokerBook (h : Hooks) (auths : gmap string AuthContext) (now : Z)
    (fresh : string) (pause meanwhile : OrdersTable -> OrdersTable) (dbOrder : Order.t) (snapshot : WS.t)
    (t : OrdersTable) : bool * (OrdersTable * list Effect) :=
  let broker := broker_status snapshot in
  if (broker =?s "") || (broker =?s clean dbOrder.(Order.Status)) then (false, (t, []))
  else (true, handleStatusUpdate h auths now fresh pause meanwhile snapshot t).

(** ** Subscriptions *)

Record Subscriptions := MkSubs {
  subscriberAuths : gmap string AuthContext;
  wsClient : bool;           (** is there a shared connection? *)
  processors : nat;          (** goroutines of [processUpdates] *)
  processorRunning : bool
}.

Inductive SubError : Type := ErrConnect | ErrSubscribe.

(** [connects] and [subscribes] are the answers of the broker. *)
Definition StartSubscription (connects subscribes : bool) (userID : string) (auth : AuthContext)
    (s : Subscriptions) : Subscriptions * option SubError :=
  let auths := <[userID := auth]> s.(subscriberAuths) in
  if negb s.(wsClient) && negb connects then
    (MkSubs (delete userID auths) false s.(processors) s.(processorRunning), Some ErrConnect)
  else if negb s.(processorRunning) then
    (MkSubs auths true (S s.(processors)) true, None)
  else (MkSubs auths true s.(processors) true, if subscribes then None else Some ErrSubscribe).

Definition StopSubscription (userID : string) (s : Subscriptions) : Subscriptions :=
  MkSubs (delete userID s.(subscriberAuths)) s.(wsClient) s.(processors) s.(processorRunning).

(** The end of a processor. *)
Definition processor_exits (s : Subscriptions) : Subscriptions :=
  MkSubs s.(subscriberAuths) s.(wsClient) (pred s.(processors)) false.

Definition ResumeUserSubscription (userID : string) (auth : AuthContext) (s : Subscriptions)
    : Subscriptions * list AuthContext :=
  (MkSubs (<[userID := auth]> s.(subscriberAuths)) s.(wsClient) s.(processors) s.(processorRunning),
   if s.(wsClient) then [auth] else []).

(** [refreshAuthFromDB] with what the credentials repository answered. *)
Definition refreshAuthFromDB (userID : string) (answer : string + AuthContext) (s : Subscriptions)
    : Subscriptions * (string + AuthContext) :=
  match answer with
  | inl e => (s, inl e)
  | inr a => (MkSubs (<[userID := a]> s.(subscriberAuths)) s.(wsClient) s.(processors)
                s.(processorRunning), inr a)
  end.

(** Whom [resubscribeAll] subscribes, and whom an expired token concerns. *)
Definition resubscribeAll (s : Subscriptions) : list (string * AuthContext) :=
  map_to_list s.(subscriberAuths).

Definition OnTokenExpired (s : Subscriptions) : list string := (resubscribeAll s).*1.
