(* ===== verification/StatusProps.v ===== *)
(** * What the messages of one order make of its row

    A row that exactly one broker id leads to, and the messages of that id one
    after the other: the quantity, the average price and the status of the
    row. *)

From stdpp Require Import base tactics gmap strings list sorting.
From Stdlib Require Import ZArith Lia Bool SpecFloat.
From S2P Require Import Prelude GoFloat FloatRound FloatOrder FloatExact Price GoStrings GoTime.
From S2P Require Import GoParse Orders OrderRepo OCOTypes OrderQueries ConfigSync StatusService.

Open Scope string_scope.
Open Scope list_scope.
Open Scope Z_scope.
Open Scope go_scope.

(** The row of [oid] is what the broker id [id] leads to. *)
Record tracked (id : string) (oid : uuid) (row : Order.t) (t : OrdersTable) : Prop := {
  tr_faults : t.(faults) = [];
  tr_row : t.(rows) !! oid = Some row;
  tr_oid : row.(Order.OrderID) = oid;
  tr_id : row.(Order.IndiraOrderID) = Some id;
  tr_only : forall i r, t.(rows) !! i = Some r -> has_broker_id id r = true -> i = oid
}.

Lemma has_own_id id r : r.(Order.IndiraOrderID) = Some id -> has_broker_id id r = true.
Proof. intros H. unfold has_broker_id. rewrite H. by rewrite bool_decide_eq_true_2. Qed.

Lemma find_only id oid row t :
  t.(rows) !! oid = Some row -> has_broker_id id row = true ->
  (forall i r, t.(rows) !! i = Some r -> has_broker_id id r = true -> i = oid) -> t.(faults) = [] ->
  sqlGetByIndiraOrderID id t = (t, inr row).
Proof.
  intros Hr Hid Ho Hf. unfold sqlGetByIndiraOrderID, driver. rewrite Hf.
  destruct (List.find _ _) as [o|] eqn:E.
  - apply find_some in E as [Hin Hb]. apply list_elem_of_In, list_elem_of_fmap in Hin as ([i o'] & -> & Hin).
    apply elem_of_map_to_list in Hin. cbn in *. rewrite (Ho i o' Hin Hb) in Hin. by simplify_eq.
  - exfalso. apply (find_none _ _) with (x := row) in E; [congruence|].
    apply list_elem_of_In, list_elem_of_fmap. exists (oid, row). split; [done|].
    by apply elem_of_map_to_list.
Qed.

Lemma tracked_find id oid row t : tracked id oid row t -> sqlGetByIndiraOrderID id t = (t, inr row).
Proof. intros [H1 H2 H3 H4 H5]. eapply find_only; eauto using has_own_id. Qed.

(** ** The fields of the order after a message *)

Lemma update_fill_frame q p o :
  (update_fill q p o).(Order.OrderID) = o.(Order.OrderID) /\
  (update_fill q p o).(Order.IndiraOrderID) = o.(Order.IndiraOrderID) /\
  (update_fill q p o).(Order.Status) = o.(Order.Status) /\
  (update_fill q p o).(Order.UserID) = o.(Order.UserID).
Proof. unfold update_fill. cbn zeta. by repeat case_match. Qed.

Lemma update_fill_qty q p o :
  (update_fill q p o).(Order.FilledQuantity) =
  if (0 <=? q) && (o.(Order.FilledQuantity) <? q) then int32 q else o.(Order.FilledQuantity).
Proof.
  unfold update_fill. cbn zeta. destruct (Z.ltb_spec q 0), (Z.leb_spec 0 q); try lia; [done|]. cbn [andb].
  by repeat case_match.
Qed.

(** What the setters other than [update_fill] leave alone. *)
Definition same_order (o o' : Order.t) : Prop :=
  o'.(Order.OrderID) = o.(Order.OrderID) /\ o'.(Order.IndiraOrderID) = o.(Order.IndiraOrderID) /\
  o'.(Order.Status) = o.(Order.Status) /\ o'.(Order.FilledQuantity) = o.(Order.FilledQuantity).

Lemma setters_frame ws o : same_order o (set_reason ws (set_trigger ws (set_executed_at ws (set_order_price ws o)))).
Proof.
  unfold same_order, set_reason, set_trigger, set_executed_at, set_order_price. cbn zeta. by repeat case_match.
Qed.

Lemma late_setters ws o (o' := set_reason ws (set_trigger ws (set_executed_at ws o))) :
  o'.(Order.FilledQuantity) = o.(Order.FilledQuantity) /\ o'.(Order.FilledPrice) = o.(Order.FilledPrice).
Proof. unfold o', set_reason, set_trigger, set_executed_at. cbn zeta. by repeat case_match. Qed.

Lemma setters_price ws o p :
  o.(Order.FilledPrice) = Some p ->
  (set_reason ws (set_trigger ws (set_executed_at ws (set_order_price ws o)))).(Order.FilledPrice) = Some p.
Proof.
  intros Hp. assert (Ho : (set_order_price ws o).(Order.FilledPrice) = Some p).
  { unfold set_order_price. destruct (positive_price _); [|done]. cbn zeta.
    rewrite bool_decide_eq_false_2 by (cbn; congruence). exact Hp. }
  by destruct (late_setters ws (set_order_price ws o)) as [_ ->].
Qed.

Lemma broker_data_frame ws o :
  (set_broker_data ws o).(Order.OrderID) = o.(Order.OrderID) /\
  (set_broker_data ws o).(Order.IndiraOrderID) = o.(Order.IndiraOrderID) /\
  (set_broker_data ws o).(Order.FilledQuantity) = o.(Order.FilledQuantity) /\
  (set_broker_data ws o).(Order.FilledPrice) = o.(Order.FilledPrice) /\
  (set_broker_data ws o).(Order.Status) = broker_status ws.
Proof. unfold set_broker_data. cbn zeta. by repeat case_match. Qed.

Lemma apply_status_frame ws o :
  (apply_status ws o).(Order.OrderID) = o.(Order.OrderID) /\
  (apply_status ws o).(Order.IndiraOrderID) = o.(Order.IndiraOrderID) /\
  (apply_status ws o).(Order.Status) = broker_status ws /\
  (apply_status ws o).(Order.FilledQuantity) =
    if (0 <=? traded_qty ws) && (o.(Order.FilledQuantity) <? traded_qty ws) then int32 (traded_qty ws)
    else o.(Order.FilledQuantity).
Proof.
  unfold apply_status. destruct (setters_frame ws (update_fill (traded_qty ws)
    (default fzero (positive_price ws.(WS.TradedPrice))) (set_broker_data ws o))) as (-> & -> & -> & ->).
  rewrite update_fill_qty. destruct (update_fill_frame (traded_qty ws)
    (default fzero (positive_price ws.(WS.TradedPrice))) (set_broker_data ws o)) as (-> & -> & -> & _).
  by destruct (broker_data_frame ws o) as (-> & -> & -> & _ & ->).
Qed.

(** ** One message *)

Section Messages.

Context (h : Hooks) (auths : gmap string AuthContext).

Definition row_after (now : Z) (ws : WS.t) (row : Order.t) : Order.t :=
  updated_row now (apply_status ws row) row.

Definition put_row (oid : uuid) (row : Order.t) (t : OrdersTable) : OrdersTable :=
  mkTable (<[oid := row]> t.(rows)) t.(faults).

Lemma sqlUpdate_ok now o oid row t :
  t.(faults) = [] -> t.(rows) !! oid = Some row -> o.(Order.OrderID) = oid ->
  sqlUpdate now o t = (put_row oid (updated_row now o row) t, None).
Proof. intros Hf Hr Ho. unfold sqlUpdate, sqlUpdateRow, driver. by rewrite Hf, Ho, Hr. Qed.

Lemma tracked_message now fresh pause id oid row ws t :
  tracked id oid row t -> ws_id ws = id -> id <> "" -> id <> "0" ->
  handleStatusUpdate h auths now fresh pause (fun t => t) ws t =
    (put_row oid (row_after now ws row) t,
     ERecordEvent row.(Order.OrderID) row.(Order.Status) ws
     :: after_update h auths now fresh ws (apply_status ws row)) /\
  tracked id oid (row_after now ws row) (put_row oid (row_after now ws row) t).
Proof.
  intros Ht Hid H1 H2. unfold handleStatusUpdate. rewrite Hid.
  rewrite (proj2 (String.eqb_neq _ _) H1), (proj2 (String.eqb_neq _ _) H2). cbn [orb].
  rewrite (tracked_find _ _ _ _ Ht). destruct Ht as [Hf Hr Ho Hi Hn]. unfold process.
  rewrite (sqlUpdate_ok now (apply_status ws row) oid row t Hf Hr)
    by (destruct (apply_status_frame ws row) as (-> & _); exact Ho).
  split; [done|]. split; cbn.
  - done.
  - by rewrite lookup_insert_eq.
  - exact Ho.
  - destruct (apply_status_frame ws row) as (_ & -> & _). exact Hi.
  - intros i r. destruct (decide (i = oid)) as [->|Hne]; [done|].
    rewrite lookup_insert_ne by done. apply Hn.
Qed.

(** Messages one after the other, each at its time. *)
Definition handle_all (l : list (Z * WS.t)) (t : OrdersTable) : OrdersTable :=
  foldl (fun t '(now, ws) => (handleStatusUpdate h auths now "" (fun t => t) (fun t => t) ws t).1) t l.

Definition row_after_all (l : list (Z * WS.t)) (row : Order.t) : Order.t :=
  foldl (fun row '(now, ws) => row_after now ws row) row l.

Lemma handle_all_row l : forall id oid row t,
  tracked id oid row t -> id <> "" -> id <> "0" -> Forall (fun x => ws_id x.2 = id) l ->
  tracked id oid (row_after_all l row) (handle_all l t).
Proof.
  induction l as [|[now ws] l IH]; intros id oid row t Ht H1 H2 Hall; [done|].
  apply Forall_cons in Hall as [Hid Hall]. cbn.
  destruct (tracked_message now "" (fun t => t) id oid row ws t Ht Hid H1 H2) as [E Ht'].
  unfold handle_all. cbn [foldl]. rewrite E. cbn [fst]. by apply IH.
Qed.
End Messages.

Lemma row_after_fields now ws row :
  (row_after now ws row).(Order.Status) = broker_status ws /\
  (row_after now ws row).(Order.FilledQuantity) =
    (if (0 <=? traded_qty ws) && (row.(Order.FilledQuantity) <? traded_qty ws) then int32 (traded_qty ws)
     else row.(Order.FilledQuantity)) /\
  (row_after now ws row).(Order.FilledPrice) = (apply_status ws row).(Order.FilledPrice).
Proof. cbn. destruct (apply_status_frame ws row) as (_ & _ & -> & ->). done. Qed.

(** The quantity after some messages. *)
Lemma quantity_after_all l : forall row,
  0 <= row.(Order.FilledQuantity) -> Forall (fun x => in_int32 (traded_qty x.2)) l ->
  (row_after_all l row).(Order.FilledQuantity) =
  foldr Z.max row.(Order.FilledQuantity) (map (fun x => traded_qty x.2) l).
Proof.
  assert (Hf : forall l a b, foldr Z.max (Z.max a b) l = Z.max a (foldr Z.max b l)).
  { intros l' a b. induction l' as [|x l' IH]; cbn; [done|]. rewrite IH. lia. }
  induction l as [|[now ws] l IH]; intros row Hq Hall; [done|].
  apply Forall_cons in Hall as [Hw Hall]. cbn in Hw. cbn [row_after_all foldl].
  destruct (row_after_fields now ws row) as (_ & Hrow & _).
  assert (Hmax : (row_after now ws row).(Order.FilledQuantity)
    = Z.max (traded_qty ws) row.(Order.FilledQuantity)).
  { rewrite Hrow, int32_id by done. destruct (Z.leb_spec 0 (traded_qty ws)); cbn [andb]; [|lia].
    destruct (Z.ltb_spec row.(Order.FilledQuantity) (traded_qty ws)); lia. }
  fold (row_after_all l (row_after now ws row)). rewrite IH by (done || lia). rewrite Hmax. cbn. apply Hf.
Qed.

Lemma status_after_all l now ws row :
  (row_after_all (l ++ [(now, ws)]) row).(Order.Status) = broker_status ws.
Proof.
  unfold row_after_all. rewrite foldl_app. cbn [foldl]. by destruct (row_after_fields now ws
    (foldl (fun row '(now, ws) => row_after now ws row) row l)) as (-> & _).
Qed.

(** ** The average price *)

Lemma between_fpos lo hi x :
  0 < lo -> 0 < hi < 2 ^ 53 -> fnonneg x = true -> fle (of_Z lo) x = true -> fle x (of_Z hi) = true ->
  fpos x = true.
Proof.
  intros Hlo Hhi Hx H1 H2. destruct (of_Z_exact hi Hhi) as (m & e & _ & _ & _ & He). rewrite He in H2.
  destruct x as [s|[]| |[] mx ex]; try done.
  assert (Hlo' : fle (of_Z 1) (S754_zero s) = true)
    by (eapply fle_trans; [|exact H1]; apply of_Z_mono; lia). by destruct s.
Qed.

Lemma fadd_comm x y : fpos x = true -> fpos y = true -> fadd x y = fadd y x.
Proof.
  destruct x as [?|?| |[] m1 e1], y as [?|?| |[] m2 e2]; try done. intros _ _.
  unfold fadd, SFadd. rewrite Z.min_comm. f_equal. cbn [cond_Zopp]. by rewrite Z.add_comm.
Qed.

Section Average.

Context (lo hi q d : Z) (Hlo : 0 < lo) (Hhi : lo <= hi) (Hq : 0 < q) (Hd : 0 < d)
  (Hmax : hi * (q + d) < 2 ^ 53).

Definition within (x : f64) : Prop :=
  fnonneg x = true /\ fle (of_Z lo) x = true /\ fle x (of_Z hi) = true.

Lemma product_between n x :
  0 < n <= q + d -> within x ->
  fle (of_Z (lo * n)) (fmul x (of_Z n)) = true /\ fle (fmul x (of_Z n)) (of_Z (hi * n)) = true /\
  fpos (fmul x (of_Z n)) = true.
Proof.
  intros Hn (H1 & H2 & H3). assert (Hb : hi * n < 2 ^ 53) by nia. assert (lo * n < 2 ^ 53) by nia.
  pose proof (of_Z_fpos n ltac:(nia)) as Hc.
  rewrite <- (of_Z_mul lo n), <- (of_Z_mul hi n) by lia.
  assert (L : fle (fmul (of_Z lo) (of_Z n)) (fmul x (of_Z n)) = true)
    by (apply fmul_mono; [apply of_Z_nonneg; lia|done|done|done]).
  assert (U : fle (fmul x (of_Z n)) (fmul (of_Z hi) (of_Z n)) = true)
    by (apply fmul_mono; [done|apply of_Z_nonneg; lia|done|done]).
  split; [done|]. split; [done|].
  rewrite (of_Z_mul lo n) in L by lia. rewrite (of_Z_mul hi n) in U by lia.
  apply (between_fpos (lo * n) (hi * n)); [nia|nia|by apply fmul_nonneg|done|done].
Qed.

(** The weighted average of two prices between two whole amounts. *)
Lemma average_within a p :
  within a -> within p ->
  within (fdiv (fadd (fmul a (of_Z q)) (fmul p (of_Z d))) (of_Z (q + d))).
Proof.
  intros Ha Hp. destruct (product_between q a ltac:(lia) Ha) as (A1 & A2 & A3).
  destruct (product_between d p ltac:(lia) Hp) as (P1 & P2 & P3).
  set (x := fmul a (of_Z q)) in *. set (y := fmul p (of_Z d)) in *.
  assert (lo * (q + d) < 2 ^ 53) by nia.
  pose proof (of_Z_fpos (lo * q) ltac:(nia)) as F1. pose proof (of_Z_fpos (hi * q) ltac:(nia)) as F2.
  pose proof (of_Z_fpos (lo * d) ltac:(nia)) as F3. pose proof (of_Z_fpos (hi * d) ltac:(nia)) as F4.
  assert (L : fle (of_Z (lo * (q + d))) (fadd x y) = true).
  { rewrite Z.mul_add_distr_l, <- of_Z_add by nia.
    eapply fle_trans; [exact (fadd_mono _ _ _ (fpos_nonneg _ F1) (fpos_nonneg _ A3) F3 A1)|].
    rewrite !(fadd_comm x) by done. by apply fadd_mono; auto using fpos_nonneg. }
  assert (U : fle (fadd x y) (of_Z (hi * (q + d))) = true).
  { rewrite Z.mul_add_distr_l, <- of_Z_add by nia.
    eapply fle_trans; [exact (fadd_mono _ _ _ (fpos_nonneg _ A3) (fpos_nonneg _ F2) P3 A2)|].
    rewrite !(fadd_comm (of_Z (hi * q))) by done. by apply fadd_mono; auto using fpos_nonneg. }
  pose proof (of_Z_fpos (q + d) ltac:(nia)) as Fn.
  pose proof (fadd_nonneg x y (fpos_nonneg _ A3) P3) as Hxy.
  assert (Nl : fnonneg (of_Z (lo * (q + d))) = true) by (apply of_Z_nonneg; nia).
  assert (Nh : fnonneg (of_Z (hi * (q + d))) = true) by (apply of_Z_nonneg; nia).
  split; [by apply fdiv_nonneg|]. split.
  - eapply fle_trans; [|exact (fdiv_mono _ _ _ Nl Hxy Fn L)].
    assert (E : of_Z lo = dyadic lo 0) by (destruct lo; [lia|done|lia]). rewrite E.
    apply dyadic_le_quotient; nia.
  - eapply fle_trans; [exact (fdiv_mono _ _ _ Hxy Nh Fn U)|].
    assert (E : of_Z hi = dyadic hi 0) by (destruct hi; [lia|done|lia]). rewrite E.
    apply quotient_le_dyadic; nia.
Qed.
End Average.

(** ** Properties of the order status service *)

(** ** Quantity and status *)

(** C19: In whatever order the messages about an order are handled, its filled
    quantity is the largest one the broker reported: late messages do no harm to
    it.  Its status, however, is the one of the message handled last. *)
Theorem fills_in_any_order (h : Hooks) (auths : gmap string AuthContext) (id : string) (oid : uuid)
    (row : Order.t) (t : OrdersTable) (l : list (Z * WS.t)) (Hrow : tracked id oid row t)
    (Hid : id <> "" /\ id <> "0") (Hqty : 0 <= row.(Order.FilledQuantity))
    (Hl : Forall (fun x => ws_id x.2 = id /\ in_int32 (traded_qty x.2)) l) :
  exists r, (handle_all h auths l t).(rows) !! oid = Some r /\
    r.(Order.FilledQuantity) = foldr Z.max row.(Order.FilledQuantity) (map (fun x => traded_qty x.2) l) /\
    (forall now ws, last l = Some (now, ws) -> r.(Order.Status) = broker_status ws).
Proof.
  exists (row_after_all l row). split; [|split].
  - eapply tr_row, (handle_all_row h auths l id); [done|apply Hid|apply Hid|].
    eapply Forall_impl; [exact Hl|]. by intros x [? _].
  - apply quantity_after_all; [done|]. eapply Forall_impl; [exact Hl|]. by intros x [_ ?].
  - intros now ws Hlast. apply last_Some in Hlast as [l' ->]. apply status_after_all.
Qed.

(** A message that was overtaken, with a smaller quantity than the row has,
    leaves quantity and price of the row alone, but its status becomes the status
    of the order, and the exit managers are told of it: an executed order is
    pending again. *)
Theorem overtaken_message_resets_status (h : Hooks) (auths : gmap string AuthContext) (now : Z)
    (fresh id : string) (pause : OrdersTable -> OrdersTable) (oid : uuid) (row : Order.t) (t : OrdersTable)
    (ws : WS.t) (price : f64) (Hrow : tracked id oid row t) (Hid : ws_id ws = id /\ id <> "" /\ id <> "0")
    (Hprice : row.(Order.FilledPrice) = Some price) (Hstale : traded_qty ws < row.(Order.FilledQuantity)) :
  let '(t', effects) := handleStatusUpdate h auths now fresh pause (fun t => t) ws t in
  exists r, t'.(rows) !! oid = Some r /\
    r.(Order.FilledQuantity) = row.(Order.FilledQuantity) /\ r.(Order.FilledPrice) = Some price /\
    r.(Order.Status) = broker_status ws /\
    (is_Some h.(oco) -> EOCOUpdate (apply_status ws row) (broker_status ws) ∈ effects) /\
    (is_Some h.(ml) -> EMLUpdate (apply_status ws row) (broker_status ws) ∈ effects).
Proof.
  destruct Hid as (Hid & H1 & H2).
  destruct (tracked_message h auths now fresh pause id oid row ws t Hrow Hid H1 H2) as [-> Ht].
  exists (row_after now ws row). split; [exact (tr_row _ _ _ _ Ht)|].
  destruct (row_after_fields now ws row) as (Es & Eq & Ep). split; [|split; [|split; [exact Es|]]].
  - rewrite Eq, (proj2 (Z.ltb_ge _ _)) by lia. by rewrite andb_false_r.
  - rewrite Ep. unfold apply_status.
    set (o := set_broker_data ws row).
    assert (Ho : o.(Order.FilledPrice) = Some price /\ o.(Order.FilledQuantity) = row.(Order.FilledQuantity)).
    { unfold o. destruct (broker_data_frame ws row) as (_ & _ & -> & -> & _). done. }
    assert (Hfill : update_fill (traded_qty ws) (default fzero (positive_price (WS.TradedPrice ws))) o = o).
    { unfold update_fill. cbn zeta. destruct (Z.ltb_spec (traded_qty ws) 0); [done|].
      destruct Ho as [Hp Hq]. rewrite Hq, (proj2 (Z.ltb_ge _ _)), (proj2 (Z.eqb_neq _ _)) by lia. done. }
    rewrite Hfill. apply setters_price, Ho.
  - split; intros [f Hf]; right; unfold after_update; rewrite Hf, !elem_of_app; cbn [wired];
      set_solver.
Qed.

(** ** Two ids of one order *)

(** The lock of an order is by the id in the message.  A message with the
    broker's id and one with the exchange's number, which the code uses when the
    former is missing, run at the same time on the same row: the one that reads
    first and writes last undoes the other. *)
Theorem two_ids_lose_a_fill (h : Hooks) (auths : gmap string AuthContext) (now1 now2 : Z)
    (fresh id : string) (pause : OrdersTable -> OrdersTable) (oid : uuid) (row : Order.t) (t : OrdersTable)
    (slow quick : WS.t) (Hrow : tracked id oid row t)
    (Hslow : ws_id slow = id /\ id <> "" /\ id <> "0")
    (Hquick : quick.(WS.UniqueCode) = "" /\ quick.(WS.OrderNumber) <> "" /\ quick.(WS.OrderNumber) <> "0")
    (Hexchange : row.(Order.ExchangeOrderNumber) = Some quick.(WS.OrderNumber))
    (Honly : forall i r, t.(rows) !! i = Some r -> has_broker_id quick.(WS.OrderNumber) r = true -> i = oid)
    (Hpart : 0 <= row.(Order.FilledQuantity) < traded_qty slow)
    (Hmore : traded_qty slow < traded_qty quick) (Hmax : in_int32 (traded_qty quick))
    (between := fun t => (handleStatusUpdate h auths now1 fresh pause (fun t => t) quick t).1) :
  (exists r, (between t).(rows) !! oid = Some r /\ r.(Order.FilledQuantity) = traded_qty quick) /\
  (exists r, (handleStatusUpdate h auths now2 fresh pause between slow t).1.(rows) !! oid = Some r /\
     r.(Order.FilledQuantity) = traded_qty slow).
Proof.
  destruct Hslow as (Hid & H1 & H2). destruct Hquick as (Hu & H3 & H4).
  assert (Hq : between t = put_row oid (row_after now1 quick row) t).
  { unfold between, handleStatusUpdate. unfold ws_id. rewrite Hu. cbn [String.eqb].
    rewrite (proj2 (String.eqb_neq _ _) H3), (proj2 (String.eqb_neq _ _) H4). cbn [orb].
    rewrite (find_only _ oid row t (tr_row _ _ _ _ Hrow)); [| |exact Honly|exact (tr_faults _ _ _ _ Hrow)].
    - unfold process. rewrite (sqlUpdate_ok now1 (apply_status quick row) oid row t
        (tr_faults _ _ _ _ Hrow) (tr_row _ _ _ _ Hrow)); [done|].
      destruct (apply_status_frame quick row) as (-> & _). exact (tr_oid _ _ _ _ Hrow).
    - unfold has_broker_id. rewrite Hexchange. rewrite (bool_decide_eq_true_2 (Some _ = Some _)) by done.
      by rewrite orb_true_r. }
  rewrite Hq. split.
  - eexists. split; [apply lookup_insert_eq|]. destruct (row_after_fields now1 quick row) as (_ & -> & _).
    rewrite (proj2 (Z.leb_le _ _)), (proj2 (Z.ltb_lt _ _)) by lia. cbn [andb]. by rewrite int32_id.
  - unfold handleStatusUpdate. rewrite Hid.
    rewrite (proj2 (String.eqb_neq _ _) H1), (proj2 (String.eqb_neq _ _) H2). cbn [orb].
    rewrite (tracked_find _ _ _ _ Hrow). unfold process. rewrite Hq.
    rewrite (sqlUpdate_ok now2 (apply_status slow row) oid (row_after now1 quick row));
      [|exact (tr_faults _ _ _ _ Hrow)|apply lookup_insert_eq|].
    + eexists. split; [apply lookup_insert_eq|]. cbn.
      destruct (apply_status_frame slow row) as (_ & _ & _ & ->).
      rewrite (proj2 (Z.leb_le _ _)), (proj2 (Z.ltb_lt _ _)) by lia. cbn [andb].
      apply int32_id. unfold in_int32 in *. lia.
    + destruct (apply_status_frame slow row) as (-> & _). exact (tr_oid _ _ _ _ Hrow).
Qed.

(** ** The average price *)

(** A message with a usable price, of a known range, for at most [Q] shares. *)
Definition priced (id : string) (lo hi Q : Z) (ws : WS.t) : Prop :=
  ws_id ws = id /\ 0 <= traded_qty ws <= Q /\
  (exists p, positive_price ws.(WS.TradedPrice) = Some p /\ fle (of_Z lo) p = true /\ fle p (of_Z hi) = true) /\
  (forall p, positive_price ws.(WS.OrderPrice) = Some p -> fle (of_Z lo) p = true /\ fle p (of_Z hi) = true).

Lemma positive_price_valid s p : positive_price s = Some p -> fnonneg p = true /\ flt fzero p = true.
Proof.
  unfold positive_price. destruct (ParseFloat s) as [x|] eqn:E; [|done].
  destruct (flt fzero x) eqn:Hx; [|done]. intros [= <-]. split; [by eapply ParseFloat_valid|done].
Qed.

Definition fill_ok (lo hi Q : Z) (o : Order.t) : Prop :=
  0 <= o.(Order.FilledQuantity) <= Q /\
  (0 < o.(Order.FilledQuantity) -> is_Some o.(Order.FilledPrice)) /\
  (forall p, o.(Order.FilledPrice) = Some p -> within lo hi p).

Lemma within_positive lo hi x : 0 < lo -> within lo hi x -> flt fzero x = true.
Proof.
  intros Hlo (_ & H & _). eapply flt_fle_trans; [|exact H].
  eapply flt_fle_trans; [|apply of_Z_mono with (a := 1); lia]. reflexivity.
Qed.

Lemma update_fill_ok lo hi Q q p o :
  0 < lo -> lo <= hi -> hi * Q < 2 ^ 53 -> Q < 2 ^ 31 -> 0 <= q <= Q -> within lo hi p -> fill_ok lo hi Q o ->
  fill_ok lo hi Q (update_fill q p o).
Proof.
  intros Hlo Hhi Hm HQ Hq Hp (F1 & F2 & F3). pose proof (within_positive lo hi p Hlo Hp) as Hpos.
  unfold update_fill. cbn zeta. rewrite (proj2 (Z.ltb_ge q 0)) by lia.
  destruct (Z.ltb_spec o.(Order.FilledQuantity) q) as [Hlt|Hge].
  - rewrite (flt_not_fle _ _ Hpos).
    assert (Havg : within lo hi (if (o.(Order.FilledQuantity) <=? 0)%Z then p else
      (default fzero o.(Order.FilledPrice) * of_Z o.(Order.FilledQuantity)
       + p * of_Z (int64 (q - o.(Order.FilledQuantity))%Z)) / of_Z q)%f64).
    { destruct (Z.leb_spec o.(Order.FilledQuantity) 0); [done|].
      destruct (F2 ltac:(lia)) as [a Ha]. rewrite Ha. cbn [default].
      rewrite int64_id by (unfold in_int64; lia).
      replace q with (o.(Order.FilledQuantity) + (q - o.(Order.FilledQuantity))) at 2 by lia.
      apply average_within; [lia|lia|lia|lia|nia|by apply F3|done]. }
    rewrite (within_positive _ _ _ Hlo Havg). split; cbn; rewrite int32_id by (unfold in_int32; lia); [lia|].
    split; [by eexists|]. intros x [= <-]. exact Havg.
  - destruct (_ && _) eqn:Hc; [|done]. split; cbn; [lia|]. split; [by eexists|]. by intros x [= <-].
Qed.

Lemma apply_status_ok id lo hi Q now ws row :
  0 < lo -> lo <= hi -> hi * Q < 2 ^ 53 -> Q < 2 ^ 31 -> priced id lo hi Q ws -> fill_ok lo hi Q row ->
  fill_ok lo hi Q (row_after now ws row).
Proof.
  intros Hlo Hhi Hm HQ (_ & Hq & (p & Hp & P1 & P2) & Ho) Hf.
  assert (Hw : within lo hi p) by (split; [apply (positive_price_valid _ _ Hp)|done]).
  set (o := set_broker_data ws row).
  assert (Hfo : fill_ok lo hi Q o).
  { unfold o, fill_ok. destruct (broker_data_frame ws row) as (_ & _ & -> & -> & _). exact Hf. }
  pose proof (update_fill_ok lo hi Q (traded_qty ws) p o Hlo Hhi Hm HQ Hq Hw Hfo) as Hu.
  change (fill_ok lo hi Q (apply_status ws row)). unfold apply_status. rewrite Hp. fold o.
  change (default fzero (Some p)) with p. set (u := update_fill (traded_qty ws) p o) in *. unfold fill_ok.
  assert (Hx : fill_ok lo hi Q (set_order_price ws u)).
  { unfold set_order_price. destruct (positive_price (WS.OrderPrice ws)) as [x|] eqn:Hx; [|done].
    destruct Hu as (U1 & U2 & U3). cbn zeta. destruct (_ && _); [|done].
    split; [done|]. split; [by eexists|]. cbn. intros y [= <-].
    destruct (Ho x eq_refl). split; [apply (positive_price_valid _ _ Hx)|done]. }
  destruct (late_setters ws (set_order_price ws u)) as [-> ->]. exact Hx.
Qed.

(** The trades of an order that was not filled before are between two whole
    amounts of rupees: in whatever order their messages are handled, and with
    every rounding of the running average, the average price of the order is
    between them too. *)
Theorem average_price_bounded (h : Hooks) (auths : gmap string AuthContext) (id : string) (oid : uuid)
    (row : Order.t) (t : OrdersTable) (l : list (Z * WS.t)) (lo hi Q : Z) (Hrow : tracked id oid row t)
    (Hid : id <> "" /\ id <> "0") (Hqty : row.(Order.FilledQuantity) = 0)
    (Hprice : row.(Order.FilledPrice) = None) (Hrange : 0 < lo <= hi)
    (Hsize : hi * Q < 2 ^ 53 /\ 0 <= Q < 2 ^ 31) (Hl : Forall (fun x => priced id lo hi Q x.2) l) :
  exists r, (handle_all h auths l t).(rows) !! oid = Some r /\
    r.(Order.FilledQuantity) = foldr Z.max 0 (map (fun x => traded_qty x.2) l) /\
    (0 < r.(Order.FilledQuantity) -> exists p, r.(Order.FilledPrice) = Some p /\
       fle (of_Z lo) p = true /\ fle p (of_Z hi) = true).
Proof.
  exists (row_after_all l row).
  assert (Ht : tracked id oid (row_after_all l row) (handle_all h auths l t)).
  { apply handle_all_row; [done|apply Hid|apply Hid|]. eapply Forall_impl; [exact Hl|]. by intros x (? & _). }
  split; [exact (tr_row _ _ _ _ Ht)|]. split.
  - rewrite quantity_after_all, Hqty; [done|lia|]. eapply Forall_impl; [exact Hl|].
    intros x (_ & Hq & _). unfold in_int32. lia.
  - assert (Hok : fill_ok lo hi Q (row_after_all l row)).
    { assert (Hinit : fill_ok lo hi Q row) by (split; [lia|]; split; [lia|]; by rewrite Hprice).
      clear Ht Hrow Hqty Hprice. revert row Hinit. induction Hl as [|[now ws] l Hw _ IH]; intros row Hinit; [done|].
      apply IH. eapply apply_status_ok; [lia|lia|lia|lia|exact Hw|exact Hinit]. }
    destruct Hok as (_ & H2 & H3). intros Hq. destruct (H2 Hq) as [p Hp]. exists p.
    split; [done|]. apply (H3 p Hp).
Qed.

(** ** Reconciliation *)

Lemma upper_not_space c : is_space (upper_ascii c) = is_space c.
Proof. by destruct c as [[] [] [] [] [] [] [] []]. Qed.

Lemma upper_ascii_idem c : upper_ascii (upper_ascii c) = upper_ascii c.
Proof. by destruct c as [[] [] [] [] [] [] [] []]. Qed.

Lemma ToUpper_idem s : ToUpper (ToUpper s) = ToUpper s.
Proof. induction s as [|c s IH]; [done|]. exact (f_equal2 String (upper_ascii_idem c) IH). Qed.

Lemma trim_right_upper s : trim_right (ToUpper s) = ToUpper (trim_right s).
Proof.
  induction s as [|c s IH]; [done|].
  change (ToUpper (String c s)) with (String (upper_ascii c) (ToUpper s)). cbn [trim_right].
  rewrite IH, upper_not_space. destruct (is_space c); cbn [andb]; [|done]. by destruct (trim_right s).
Qed.

Lemma trim_left_upper s : trim_left (ToUpper s) = ToUpper (trim_left s).
Proof.
  induction s as [|c s IH]; [done|].
  change (ToUpper (String c s)) with (String (upper_ascii c) (ToUpper s)). cbn [trim_left].
  rewrite upper_not_space, IH. by destruct (is_space c).
Qed.

Lemma trim_right_idem s : trim_right (trim_right s) = trim_right s.
Proof.
  induction s as [|c s IH]; [done|]. cbn. destruct (is_space c && String.eqb (trim_right s) "") eqn:E; [done|].
  cbn. rewrite IH, E. done.
Qed.

(** What is left of a trimmed text starts with no space. *)
Lemma trim_left_trimmed s : trim_left (TrimSpace s) = TrimSpace s.
Proof.
  unfold TrimSpace. induction s as [|c s IH]; [done|]. cbn. destruct (is_space c) eqn:Hc; [exact IH|].
  cbn. by rewrite Hc; cbn; rewrite Hc.
Qed.

Lemma clean_idem s : clean (clean s) = clean s.
Proof.
  unfold clean. unfold TrimSpace at 1. rewrite trim_left_upper, trim_left_trimmed, trim_right_upper.
  unfold TrimSpace. by rewrite trim_right_idem, ToUpper_idem.
Qed.

(** Reconciling an order with a snapshot of the broker makes the row agree
    with the broker; doing it again changes nothing. *)
Theorem reconcile_idempotent (h : Hooks) (auths : gmap string AuthContext) (now now' : Z) (fresh id : string)
    (pause : OrdersTable -> OrdersTable) (oid : uuid) (row : Order.t) (t : OrdersTable) (snapshot : WS.t)
    (reconcile := fun now o t =>
       ReconcileOrderFromBrokerBook h auths now fresh pause (fun t => t) o snapshot t)
    (Hrow : tracked id oid row t) (Hid : ws_id snapshot = id /\ id <> "" /\ id <> "0")
    (Hstatus : broker_status snapshot <> "") :
  let '(changed, (t', _)) := reconcile now row t in
  changed = negb (String.eqb (broker_status snapshot) (clean row.(Order.Status))) /\
  exists row', t'.(rows) !! oid = Some row' /\
    clean row'.(Order.Status) = broker_status snapshot /\
    reconcile now' row' t' = (false, (t', [])).
Proof.
  unfold reconcile, ReconcileOrderFromBrokerBook. rewrite (proj2 (String.eqb_neq _ _) Hstatus). cbn [orb].
  destruct Hid as (Hid & H1 & H2).
  destruct (String.eqb_spec (broker_status snapshot) (clean row.(Order.Status))) as [Heq|Hne].
  - split; [done|]. exists row. split; [exact (tr_row _ _ _ _ Hrow)|]. split; [done|].
    by rewrite Heq, String.eqb_refl.
  - destruct (tracked_message h auths now fresh pause id oid row snapshot t Hrow Hid H1 H2) as [-> Ht].
    split; [done|]. exists (row_after now snapshot row). split; [exact (tr_row _ _ _ _ Ht)|].
    destruct (row_after_fields now snapshot row) as (-> & _). unfold broker_status.
    rewrite !clean_idem, String.eqb_refl. done.
Qed.

(** ** Orders of the user's own *)

(** The fill of an order that is not in the table makes both managers cancel
    the exits of the symbol, whichever side it was on: a purchase the user makes
    elsewhere takes the stop-loss away from the shares bought before. *)
Theorem foreign_fill_cancels_exits (h : Hooks) (auths : gmap string AuthContext) (now : Z) (fresh : string)
    (pause meanwhile : OrdersTable -> OrdersTable) (t : OrdersTable) (ws : WS.t) (side : string)
    (Hid : ws_id ws <> "" /\ ws_id ws <> "0") (Hok : t.(faults) = [] /\ (pause t).(faults) = [])
    (Habsent : forall t', t' = t \/ t' = pause t -> forall i r, t'.(rows) !! i = Some r ->
       has_broker_id (ws_id ws) r = false)
    (Hunknown : known h.(oco) (ws_id ws) = false /\ known h.(ml) (ws_id ws) = false)
    (Hfill : is_fill (broker_status ws) = true) (Hsymbol : ws.(WS.Symbol) <> "")
    (Huser : ws.(WS.UCC) <> "") :
  handleStatusUpdate h auths now fresh pause meanwhile (ws <| WS.BuySell := side |>) t =
  (pause t, wired h.(oco) (EOCOCancelSymbol ws.(WS.UCC) ws.(WS.Symbol))
            ++ wired h.(ml) (EMLCancelSymbol ws.(WS.UCC) ws.(WS.Symbol))).
Proof.
  destruct Hid as [H1 H2]. destruct Hok as [F1 F2]. destruct Hunknown as [U1 U2].
  assert (Hnone : forall t', t'.(faults) = [] -> (t' = t \/ t' = pause t) ->
    sqlGetByIndiraOrderID (ws_id ws) t' = (t', inl "order not found with indira_order_id")).
  { intros t' Hf Ht. unfold sqlGetByIndiraOrderID, driver. rewrite Hf.
    destruct (List.find _ _) as [o|] eqn:E; [|done]. exfalso.
    apply find_some in E as [Hin Hb]. apply list_elem_of_In, list_elem_of_fmap in Hin as ([i o'] & -> & Hin).
    apply elem_of_map_to_list in Hin. cbn in *. by rewrite (Habsent t' Ht i o' Hin) in Hb. }
  unfold handleStatusUpdate. change (ws_id (ws <| WS.BuySell := side |>)) with (ws_id ws).
  rewrite (proj2 (String.eqb_neq _ _) H1), (proj2 (String.eqb_neq _ _) H2). cbn [orb].
  rewrite (Hnone t F1 (or_introl eq_refl)), (Hnone (pause t) F2 (or_intror eq_refl)), U1, U2. cbn [orb].
  change (broker_status (ws <| WS.BuySell := side |>)) with (broker_status ws). rewrite Hfill.
  change ((ws <| WS.BuySell := side |>).(WS.Symbol)) with ws.(WS.Symbol).
  rewrite (proj2 (String.eqb_neq _ _) Hsymbol). cbn [andb negb].
  unfold handleManualExitDetection. cbn [set WS.UCC WS.Symbol].
  rewrite (proj2 (String.eqb_neq _ _) Huser).
  by destruct (oco h), (ml h).
Qed.

(** ** Subscriptions *)

Inductive SubOp : Type :=
  | SubStart (connects subscribes : bool) (userID : string) (auth : AuthContext)
  | SubStop (userID : string)
  | SubResume (userID : string) (auth : AuthContext)
  | SubRefresh (userID : string) (answer : string + AuthContext)
  | SubExit.

Definition sub_step (s : Subscriptions) (op : SubOp) : Subscriptions :=
  match op with
  | SubStart c b u a => (StartSubscription c b u a s).1
  | SubStop u => StopSubscription u s
  | SubResume u a => (ResumeUserSubscription u a s).1
  | SubRefresh u a => (refreshAuthFromDB u a s).1
  | SubExit => if processorRunning s then processor_exits s else s
  end.

(** However users come and go and connections fail, at most one goroutine
    reads the shared stream, it runs only once there is a connection, and a user
    whose start found no connection is not subscribed. *)
Theorem one_processor (ops : list SubOp) (s := foldl sub_step (MkSubs ∅ false 0 false) ops) :
  processors s = (if processorRunning s then 1 else 0)%nat /\
  (processorRunning s = true -> wsClient s = true) /\
  (forall b u a, wsClient s = false -> subscriberAuths (StartSubscription false b u a s).1 !! u = None).
Proof.
  assert (H : processors s = (if processorRunning s then 1 else 0)%nat /\
              (processorRunning s = true -> wsClient s = true)).
  { unfold s. clear s. assert (H0 : forall s0 : Subscriptions,
      processors s0 = (if processorRunning s0 then 1 else 0)%nat /\
      (processorRunning s0 = true -> wsClient s0 = true) ->
      processors (foldl sub_step s0 ops) = (if processorRunning (foldl sub_step s0 ops) then 1 else 0)%nat /\
      (processorRunning (foldl sub_step s0 ops) = true -> wsClient (foldl sub_step s0 ops) = true)).
    { induction ops as [|op ops IH]; intros s0 Hs0; [done|]. apply IH.
      destruct s0 as [m w n r]. destruct Hs0 as [Hn Hw]. cbn in Hn, Hw. subst n.
      destruct op as [c b u a|u|u a|u [e|a]|], w, r; cbn in *; try done; try specialize (Hw eq_refl); try done;
        by destruct c. }
    by apply H0. }
  destruct H as [H1 H2]. split; [done|]. split; [done|].
  intros b u a Hw. unfold StartSubscription. rewrite Hw. cbn. apply lookup_delete_eq.
Qed.

(** ** Instances *)

Definition sample_hooks : Hooks :=
  MkHooks (Some (fun _ => false)) (Some (fun _ => false)) true true true.

Definition status_row : Order.t :=
  (Order.zero <| Order.OrderID := 1%N |> <| Order.UserID := "u" |> <| Order.Symbol := "INFY" |>
     <| Order.OrderSide := "BUY" |> <| Order.Quantity := 100 |> <| Order.Status := "PENDING" |>
     <| Order.IndiraOrderID := Some "NZ1" |> <| Order.ExchangeOrderNumber := Some "9001" |>).

Definition status_table (row : Order.t) : OrdersTable := mkTable {[1%N := row]} [].

Definition filled_row : Order.t :=
  status_row <| Order.Status := "EXECUTED" |> <| Order.FilledQuantity := 100 |>
    <| Order.FilledPrice := Some (dec 15050 2) |>.

(** A message about the order: status, cumulative quantity and price. *)
Definition message (code number status qty price : string) : WS.t :=
  WS.mk code number status "u" "INFY" "1" qty price "0" fzero "100" "0" 100 "" "INTRADAY" "DAY" "" "" "" "{}".

Lemma only_row row i r : (status_table row).(rows) !! i = Some r -> 1%N = i /\ row = r.
Proof. cbn [status_table rows]. by rewrite lookup_singleton_Some. Qed.

Lemma status_tracked row :
  row.(Order.OrderID) = 1%N -> row.(Order.IndiraOrderID) = Some "NZ1" -> tracked "NZ1" 1%N row (status_table row).
Proof.
  intros Ho Hi. split; [done|apply lookup_insert_eq|done|done|].
  intros i r Hr _. by apply only_row in Hr as [<- _].
Qed.

(** The second fill is handled before the first. *)
Definition late_messages : list (Z * WS.t) :=
  [(1, message "NZ1" "9001" "EXECUTED" "100" "150.50"); (2, message "NZ1" "9001" "PARTIALLY TRADED" "40" "150.25")].

Lemma fills_in_any_order_witness :
  exists r, (handle_all sample_hooks ∅ late_messages (status_table status_row)).(rows) !! 1%N = Some r /\
    r.(Order.FilledQuantity) = 100 /\ r.(Order.Status) = "PARTIALLY TRADED".
Proof.
  destruct (fills_in_any_order sample_hooks ∅ "NZ1" 1%N status_row (status_table status_row) late_messages)
    as (r & H1 & H2 & H3).
  - by apply status_tracked.
  - done.
  - done.
  - repeat constructor; vm_compute; congruence.
  - exists r. split; [exact H1|]. split; [exact H2|]. exact (H3 _ _ eq_refl).
Defined.

Lemma overtaken_message_resets_status_witness :
  let '(t', effects) := handleStatusUpdate sample_hooks ∅ 5 "f" (fun t => t) (fun t => t)
    (message "NZ1" "9001" "PENDING" "0" "0") (status_table filled_row) in
  exists r, t'.(rows) !! 1%N = Some r /\ r.(Order.FilledQuantity) = 100 /\ r.(Order.Status) = "PENDING" /\
    EOCOUpdate (apply_status (message "NZ1" "9001" "PENDING" "0" "0") filled_row) "PENDING" ∈ effects.
Proof.
  pose proof (overtaken_message_resets_status sample_hooks ∅ 5 "f" "NZ1" (fun t => t) 1%N filled_row
    (status_table filled_row) (message "NZ1" "9001" "PENDING" "0" "0") (dec 15050 2)
    (status_tracked filled_row eq_refl eq_refl) ltac:(done) eq_refl ltac:(reflexivity)) as H.
  destruct (handleStatusUpdate _ _ _ _ _ _ _ _) as [t' effects]. destruct H as (r & H1 & H2 & _ & H4 & H5 & _).
  exists r. split; [exact H1|]. split; [exact H2|]. split; [exact H4|]. apply H5. by eexists.
Defined.

Lemma two_ids_lose_a_fill_witness :
  exists r, (handleStatusUpdate sample_hooks ∅ 6 "f" (fun t => t)
    (fun t => (handleStatusUpdate sample_hooks ∅ 5 "f" (fun t => t) (fun t => t)
                 (message "" "9001" "EXECUTED" "100" "150.50") t).1)
    (message "NZ1" "9001" "PARTIALLY TRADED" "40" "150.25") (status_table status_row)).1.(rows) !! 1%N = Some r /\
    r.(Order.FilledQuantity) = 40.
Proof.
  destruct (two_ids_lose_a_fill sample_hooks ∅ 5 6 "f" "NZ1" (fun t => t) 1%N status_row
    (status_table status_row) (message "NZ1" "9001" "PARTIALLY TRADED" "40" "150.25")
    (message "" "9001" "EXECUTED" "100" "150.50")) as [_ H].
  - by apply status_tracked.
  - done.
  - done.
  - done.
  - intros i r Hr _. by apply only_row in Hr as [<- _].
  - vm_compute. split; congruence.
  - vm_compute. reflexivity.
  - vm_compute. split; congruence.
  - exact H.
Defined.

Lemma late_priced : Forall (fun x => priced "NZ1" 150 151 100 x.2) late_messages.
Proof.
  assert (H : forall status qty price p n, Atoi qty = Some n -> 0 <= n <= 100 ->
    positive_price price = Some p -> fle (of_Z 150) p = true -> fle p (of_Z 151) = true ->
    priced "NZ1" 150 151 100 (message "NZ1" "9001" status qty price)).
  { intros status qty price p n Hq Hn Hp H1 H2. split; [done|]. unfold traded_qty. cbn [message WS.TradedQTY
      WS.TradedPrice WS.OrderPrice]. rewrite Hq. split; [exact Hn|]. split; [by exists p|].
    intros x Hx. vm_compute in Hx. discriminate Hx. }
  constructor; [|constructor; [|constructor]].
  - apply (H _ _ _ (dec 15050 2) 100); vm_compute; done.
  - apply (H _ _ _ (dec 15025 2) 40); vm_compute; done.
Qed.

Lemma average_price_bounded_witness :
  exists r, (handle_all sample_hooks ∅ late_messages (status_table status_row)).(rows) !! 1%N = Some r /\
    exists p, r.(Order.FilledPrice) = Some p /\ fle (of_Z 150) p = true /\ fle p (of_Z 151) = true.
Proof.
  destruct (average_price_bounded sample_hooks ∅ "NZ1" 1%N status_row (status_table status_row) late_messages
    150 151 100) as (r & H1 & H2 & H3).
  - by apply status_tracked.
  - done.
  - done.
  - done.
  - lia.
  - lia.
  - exact late_priced.
  - exists r. split; [exact H1|]. apply H3. rewrite H2. vm_compute. reflexivity.
Defined.

Definition cancel_message : WS.t := message "NZ1" "9001" " Cancelled" "" "".

Lemma reconcile_idempotent_witness :
  let '(changed, (t', _)) := ReconcileOrderFromBrokerBook sample_hooks ∅ 5 "f" (fun t => t) (fun t => t)
    status_row cancel_message (status_table status_row) in
  changed = true /\
  exists row', t'.(rows) !! 1%N = Some row' /\ clean row'.(Order.Status) = broker_status cancel_message /\
    ReconcileOrderFromBrokerBook sample_hooks ∅ 6 "f" (fun t => t) (fun t => t)
      row' cancel_message t' = (false, (t', [])).
Proof.
  pose proof (reconcile_idempotent sample_hooks ∅ 5 6 "f" "NZ1" (fun t => t) 1%N status_row (status_table status_row)
    cancel_message (status_tracked status_row eq_refl eq_refl)) as H. cbn beta zeta in H.
  destruct (ReconcileOrderFromBrokerBook sample_hooks ∅ 5 _ _ _ _ _ _) as [c [t' e]].
  destruct H as [-> H]; [done|done|]. split; [vm_compute; reflexivity|exact H].
Defined.

(** The order has another broker id than the fill. *)
Lemma foreign_fill_cancels_exits_witness :
  handleStatusUpdate sample_hooks ∅ 5 "f" (fun t => t) (fun t => t)
    (message "OTHER" "0" "EXECUTED" "10" "150.00" <| WS.BuySell := "1" |>) (status_table filled_row) =
  (status_table filled_row, [EOCOCancelSymbol "u" "INFY"; EMLCancelSymbol "u" "INFY"]).
Proof.
  apply (foreign_fill_cancels_exits sample_hooks ∅ 5 "f" (fun t => t) (fun t => t) (status_table filled_row)
    (message "OTHER" "0" "EXECUTED" "10" "150.00") "1"); try done.
  intros t' [-> | ->] i r Hr; apply only_row in Hr as [_ <-]; reflexivity.
Defined.

(** A quantity without a price counts as bought for nothing: after fifty
    shares whose message had no price and fifty at 200, the average is 100. *)
Example priceless_fill_halves_average :
  let o := update_fill 50 fzero status_row in
  o.(Order.FilledQuantity) = 50 /\ o.(Order.FilledPrice) = None /\
  (update_fill 100 (of_Z 200) o).(Order.FilledPrice) = Some (of_Z 100).
Proof. vm_compute. auto. Qed.
