(* ===== verification/Risk.v ===== *)
(** * Risk management

    [risk-management/internal]: the checks before a trade
    ([checker/pre_trade.go]), what they read and write in Redis
    ([repository/redis_repository.go]) and the service ([server/grpc_server.go]).
    Redis is one map from keys to values with an optional time of expiry; a key
    of another type is an error, and [Calls] says which calls fail.  How Redis and
    its client print a number ([print_float]) and match a pattern of keys
    ([glob]), and [INCRBYFLOAT] ([incr]), are parameters.  Amounts are
    float64, an instant is in nanoseconds. *)

From stdpp Require Import base gmap strings list tactics.
From Stdlib Require Import ZArith Lia Bool SpecFloat DecimalString.
From S2P Require Import Prelude GoFloat GoStrings GoTime GoParse.

Open Scope string_scope.
Open Scope list_scope.
Open Scope Z_scope.

(** ** Redis *)

Inductive RVal : Type :=
  | RStr (s : string)
  | RZset (m : gmap string Z)
  | RHash (m : gmap string string).

Abbreviation Redis := (gmap string (RVal * option Z)).

(** The value of a key that has not expired. *)
Definition rget (now : Z) (key : string) (r : Redis) : option RVal :=
  match r !! key with
  | Some (v, None) => Some v
  | Some (v, Some e) => if now <? e then Some v else None
  | None => None
  end.

Definition concat_key (l : list string) : string := foldr String.append "" l.

Definition trades_key (user : string) : string := concat_key ["user:"; user; ":trades:daily"].
Definition loss_key (user : string) : string := concat_key ["user:"; user; ":loss:daily"].
Definition balance_key (user : string) : string := concat_key ["user:"; user; ":balance"].
Definition profile_key (user : string) : string := concat_key ["user:"; user; ":risk_profile"].
Definition position_key (user : string) (stock : Z) : string :=
  concat_key ["user:"; user; ":positions:"; Itoa stock].
Definition positions_pattern (user : string) : string := concat_key ["user:"; user; ":positions:*"].
Definition fingerprint_key (user fp : string) : string :=
  concat_key ["user:"; user; ":orders:fingerprint:"; fp].

(** The start of the day in UTC, in seconds. *)
Definition utc_day_start (now : Z) : Z := now / second / 86400 * 86400.

(** ** The repository *)

Section Repository.

Context (print_float : f64 -> string) (glob : string -> string -> bool)
  (incr : string -> f64 -> option string).

Definition zset_of (now : Z) (key : string) (r : Redis) : option (gmap string Z) :=
  match rget now key r with None => Some ∅ | Some (RZset m) => Some m | Some _ => None end.

Definition IncrementDailyTradeCount (ok : bool) (now : Z) (user orderID : string) (r : Redis)
    : bool * Redis :=
  match zset_of now (trades_key user) r with
  | Some m => if ok then (true, <[trades_key user := (RZset (<[orderID := now / second]> m), None)]> r)
              else (false, r)
  | None => (false, r)
  end.

Definition GetTodayTradeCount (ok : bool) (now : Z) (user : string) (r : Redis) : option Z :=
  if ok then
    (fun m : gmap string Z =>
       Z.of_nat (length (List.filter (fun s => utc_day_start now <=? s) (map_to_list m).*2)))
    <$> zset_of now (trades_key user) r
  else None.

(** A number kept as text: absent is zero; [None] is an error. *)
Definition get_float (ok : bool) (now : Z) (key : string) (r : Redis) : option f64 :=
  if ok then
    match rget now key r with
    | None => Some fzero
    | Some (RStr s) => ParseFloat s
    | Some _ => None
    end
  else None.

Definition AddDailyLoss (ok : bool) (now : Z) (user : string) (loss : f64) (r : Redis) : bool * Redis :=
  let key := loss_key user in
  let old := match rget now key r with None => Some "0" | Some (RStr s) => Some s | Some _ => None end in
  match old with
  | Some s =>
    match incr s loss with
    | Some s' => if ok then (true, <[key := (RStr s', None)]> r) else (false, r)
    | None => (false, r)
    end
  | None => (false, r)
  end.

Definition GetDailyLoss (ok : bool) (now : Z) (user : string) (r : Redis) : option f64 :=
  get_float ok now (loss_key user) r.

Definition GetUserBalance (ok : bool) (now : Z) (user : string) (r : Redis) : option f64 :=
  get_float ok now (balance_key user) r.

(** The caller ignores the error, the profile is then empty. *)
Definition GetRiskProfile (ok : bool) (now : Z) (user : string) (r : Redis) : string :=
  if ok then match rget now (profile_key user) r with Some (RStr s) => s | _ => "" end else "".

Definition SetPosition (ok : bool) (now : Z) (user : string) (stock quantity : Z) (avg : f64) (r : Redis)
    : Redis :=
  let key := position_key user stock in
  let old := match rget now key r with None => Some ∅ | Some (RHash m) => Some m | Some _ => None end in
  match old with
  | Some m =>
    if ok then
      <[key := (RHash (<["quantity" := Itoa quantity]> (<["avg_price" := print_float avg]>
                        (<["last_update" := Itoa (now / second)]> m))), None)]> r
    else r
  | None => r
  end.

Definition GetPositionHash (ok : bool) (now : Z) (user : string) (stock : Z) (r : Redis)
    : option (gmap string string) :=
  if ok then
    match rget now (position_key user stock) r with
    | None => Some ∅
    | Some (RHash m) => Some m
    | Some _ => None
    end
  else None.

(** The keys of the positions; the code only counts them. *)
Definition GetUserPositionsKeys (ok : bool) (now : Z) (user : string) (r : Redis) : list string :=
  if ok then
    List.filter (fun k => glob (positions_pattern user) k && bool_decide (is_Some (rget now k r)))
      (map_to_list r).*1
  else [].

Definition AddDuplicateOrder (ok : bool) (now : Z) (user fp : string) (windowSec : Z) (r : Redis) : Redis :=
  if ok then <[fingerprint_key user fp := (RStr "", Some (now + windowSec * second))]> r else r.

Definition CheckDuplicateOrder (ok : bool) (now : Z) (user fp : string) (r : Redis) : option bool :=
  if ok then Some (bool_decide (is_Some (rget now (fingerprint_key user fp) r))) else None.

Definition ResetDailyCounters (ok : bool) (user : string) (r : Redis) : bool * Redis :=
  if ok then (true, delete (trades_key user) (delete (loss_key user) r)) else (false, r).

(** ** The checks *)

Record Request := MkRequest {
  UserId : string;
  StockCode : Z;
  OrderSide : Z;
  Quantity : Z;
  Price : f64;
  StopLoss : f64;
  MaxDailyTrades : Z;
  MaxLossPerDay : f64;
  MaxPositionSize : f64;
  MaxPerTradeRisk : f64
}.

(** The limits of a request; the other fields are copied. *)
Record Limits := MkLimits {
  l_MaxDailyTrades : Z; l_MaxLossPerDay : f64; l_MaxPositionSize : f64; l_MaxPerTradeRisk : f64
}.

Definition applyProfileAdjustments (profile : string) (req : Request) : Limits :=
  let prof := ToLower (TrimSpace profile) in
  let scale (c : f64) :=
    MkLimits (f64_to_int32 (of_Z req.(MaxDailyTrades) * c)%f64) req.(MaxLossPerDay)
      (req.(MaxPositionSize) * c)%f64 (req.(MaxPerTradeRisk) * c)%f64 in
  if String.eqb prof "conservative" then scale (dec 5 1)
  else if String.eqb prof "aggressive" then scale (dec 15 1)
  else MkLimits req.(MaxDailyTrades) req.(MaxLossPerDay) req.(MaxPositionSize) req.(MaxPerTradeRisk).

Definition fingerprintOrder (req : Request) : string :=
  concat_key [Itoa req.(StockCode); ":"; Itoa req.(OrderSide); ":"; Itoa req.(Quantity)].

Inductive ViolationType : Type :=
  | DAILY_TRADE_LIMIT | DAILY_LOSS_LIMIT | POSITION_SIZE_LIMIT | PER_TRADE_RISK_LIMIT
  | DUPLICATE_ORDER | INSUFFICIENT_MARGIN | CIRCUIT_BREAKER | CONCENTRATION_LIMIT.

Definition score (v : ViolationType) : f64 :=
  match v with
  | DAILY_TRADE_LIMIT | PER_TRADE_RISK_LIMIT => of_Z 15
  | DAILY_LOSS_LIMIT | INSUFFICIENT_MARGIN => of_Z 20
  | POSITION_SIZE_LIMIT | DUPLICATE_ORDER | CONCENTRATION_LIMIT => of_Z 10
  | CIRCUIT_BREAKER => of_Z 25
  end.

Definition suggestion (v : ViolationType) : string :=
  match v with
  | DAILY_TRADE_LIMIT => "Reduce trading frequency or review daily trade limit in user settings"
  | DAILY_LOSS_LIMIT => "Stop trading for today; consider adjusting strategy risk"
  | POSITION_SIZE_LIMIT => "Lower order quantity or split orders"
  | PER_TRADE_RISK_LIMIT => "Increase stop loss distance or reduce quantity"
  | DUPLICATE_ORDER => "Wait and retry or cancel duplicate order"
  | INSUFFICIENT_MARGIN => "Deposit more funds or reduce order size"
  | CIRCUIT_BREAKER => "Trading halted due to circuit breaker"
  | CONCENTRATION_LIMIT => "Reduce concentration by trading other instruments or reducing size"
  end.

Definition generateSuggestions (l : list ViolationType) : list string := map suggestion l.

(** A violation: its current value and its limit, zero where the code sets none. *)
Record Violation := MkViolation { v_type : ViolationType; v_current : f64; v_limit : f64 }.

Record Response := MkResponse {
  approved : bool; violations : list Violation; riskScore : f64; suggestions : list string
}.

(** Which calls of Redis succeed. *)
Record Calls := MkCalls {
  c_profile : bool; c_count : bool; c_loss : bool; c_dup : bool; c_balance : bool; c_keys : bool;
  c_hash : nat -> bool; c_add : bool
}.

(** The value of a position in per cent of [total]; the hash of stock 0 is read
    whatever the key is. *)
Definition scan_position (calls : Calls) (now : Z) (user : string) (total : f64) (r : Redis) (i : nat)
    : option f64 :=
  match GetPositionHash (c_hash calls i) now user 0 r with
  | None => None
  | Some h =>
    let qty := match h !! "quantity" with
               | Some s => match scan_int s with Some (z, _) => z | None => 0 end
               | None => 0
               end in
    let avg := default fzero (h !! "avg_price" ≫= ParseFloat) in
    if flt fzero total then Some ((of_Z qty * avg) / total * of_Z 100)%f64 else None
  end.

Definition largest_position (calls : Calls) (now : Z) (user : string) (total : f64) (r : Redis) : f64 :=
  foldl (fun best i => match scan_position calls now user total r i with
                       | Some pct => if flt best pct then pct else best
                       | None => best
                       end) fzero (seq 0 (length (GetUserPositionsKeys (c_keys calls) now user r))).

Definition when (b : bool) (v : Violation) : list Violation := if b then [v] else [].

Definition position_value (req : Request) : f64 := (of_Z req.(Quantity) * req.(Price))%f64.

Definition potential_loss (req : Request) : f64 :=
  (of_Z req.(Quantity) * (req.(Price) - req.(StopLoss)))%f64.

Definition new_position_pct (value total : f64) : f64 := (value / (total + value) * of_Z 100)%f64.

(** The eight checks, in order. *)
Definition check_violations (calls : Calls) (now : Z) (req : Request) (r : Redis) : list Violation :=
  let user := req.(UserId) in
  let limits := applyProfileAdjustments (GetRiskProfile (c_profile calls) now user r) req in
  let dailyLoss := GetDailyLoss (c_loss calls) now user r in
  let value := position_value req in
  let balance := GetUserBalance (c_balance calls) now user r in
  let total := default fzero balance in
  let newPct := new_position_pct value total in
  (match GetTodayTradeCount (c_count calls) now user r with
   | Some n => when (l_MaxDailyTrades limits <=? n)
                 (MkViolation DAILY_TRADE_LIMIT (of_Z n) (of_Z (l_MaxDailyTrades limits)))
   | None => []
   end)
  ++ (match dailyLoss with
      | Some x => when (flt (l_MaxLossPerDay limits) x) (MkViolation DAILY_LOSS_LIMIT x (l_MaxLossPerDay limits))
      | None => []
      end)
  ++ when (flt (l_MaxPositionSize limits) value)
       (MkViolation POSITION_SIZE_LIMIT value (l_MaxPositionSize limits))
  ++ when (flt (l_MaxPerTradeRisk limits) (potential_loss req))
       (MkViolation PER_TRADE_RISK_LIMIT (potential_loss req) (l_MaxPerTradeRisk limits))
  ++ when (default false (CheckDuplicateOrder (c_dup calls) now user (fingerprintOrder req) r))
       (MkViolation DUPLICATE_ORDER fzero fzero)
  ++ (match balance with
      | Some b => when (flt b value) (MkViolation INSUFFICIENT_MARGIN b value)
      | None => []
      end)
  ++ when (flt fzero total && flt (of_Z 5) (default fzero dailyLoss / total * of_Z 100)%f64)
       (MkViolation CIRCUIT_BREAKER fzero fzero)
  ++ when (flt (of_Z 20) newPct || flt (of_Z 20) (largest_position calls now user total r))
       (MkViolation CONCENTRATION_LIMIT newPct (of_Z 20)).

Definition duplicate_window : Z := 30.

Definition CheckPreTrade (calls : Calls) (now : Z) (req : Request) (r : Redis) : Response * Redis :=
  let l := check_violations calls now req r in
  let ok := bool_decide (l = []) in
  (MkResponse ok l (foldl (fun s v => fadd s (score (v_type v))) fzero l)
     (generateSuggestions (map v_type l)),
   if ok then AddDuplicateOrder (c_add calls) now req.(UserId) (fingerprintOrder req) duplicate_window r
   else r).

(** ** The service *)

Definition UpdatePostTradeMetrics (ok1 ok2 : bool) (now : Z) (user orderID : string) (stock filled : Z)
    (price : f64) (r : Redis) : bool * Redis :=
  match IncrementDailyTradeCount ok1 now user orderID r with
  | (false, r) => (false, r)
  | (true, r) => (true, SetPosition ok2 now user stock filled price r)
  end.

(** Success and the number of users reset. *)
Definition serve_ResetDailyCounters (ok : bool) (user : string) (r : Redis) : (bool * Z) * Redis :=
  if String.eqb user "" then ((false, 0), r)
  else match ResetDailyCounters ok user r with
       | (false, r) => ((false, 0), r)
       | (true, r) => ((true, 1), r)
       end.

(** What a client can ask for. *)
Inductive RiskCall : Type :=
  | CallCheck (calls : Calls) (now : Z) (req : Request)
  | CallPostTrade (ok1 ok2 : bool) (now : Z) (user orderID : string) (stock filled : Z) (price : f64)
  | CallReset (ok : bool) (user : string)
  | CallOther.   (** [GetRiskMetrics], [SetRiskLimits] and [HealthCheck], which are placeholders *)

Definition risk_step (r : Redis) (c : RiskCall) : Redis :=
  match c with
  | CallCheck calls now req => (CheckPreTrade calls now req r).2
  | CallPostTrade ok1 ok2 now user id stock filled price =>
      (UpdatePostTradeMetrics ok1 ok2 now user id stock filled price r).2
  | CallReset ok user => (serve_ResetDailyCounters ok user r).2
  | CallOther => r
  end.

Definition risk_run (l : list RiskCall) (r : Redis) : Redis := foldl risk_step r l.
End Repository.

(** ** Properties of the risk management *)

(** ** Keys *)

(** The keys that are deleted end in a letter, the others in a digit. *)
Fixpoint ends_in_y (s : string) : bool :=
  match s with
  | "" => false
  | String c "" => String.eqb (String c "") "y"
  | String _ s' => ends_in_y s'
  end.

Lemma ends_app s t : t <> "" -> ends_in_y (String.append s t) = ends_in_y t.
Proof.
  intros Ht. induction s as [|c s IH]; [done|].
  change (String.append (String c s) t) with (String c (String.append s t)).
  rewrite <- IH. destruct (String.append s t) eqn:E; [|done]. exfalso.
  apply Ht. destruct s; [exact E|discriminate E].
Qed.

Lemma digits_no_y d : ends_in_y (NilEmpty.string_of_uint d) = false.
Proof.
  induction d as [|d IH|d IH|d IH|d IH|d IH|d IH|d IH|d IH|d IH|d IH]; [done|..];
    cbn; destruct (NilEmpty.string_of_uint d); done.
Qed.

Lemma Itoa_digits z : Itoa z <> "" /\ ends_in_y (Itoa z) = false.
Proof.
  unfold Itoa. assert (H : forall d, NilZero.string_of_uint d <> "" /\ ends_in_y (NilZero.string_of_uint d) = false).
  { intros d. split; [by destruct d|]. destruct d; [done|..]; apply digits_no_y. }
  destruct (Z.to_int z) as [d|d]; [apply H|]. destruct (H d) as [H1 H2]. split; [done|].
  cbn. by destruct (NilZero.string_of_uint d).
Qed.

Lemma concat_last l s : s <> "" -> ends_in_y (concat_key (l ++ [s])) = ends_in_y s.
Proof.
  intros Hs. unfold concat_key. rewrite foldr_app. cbn [foldr].
  assert (Ha : String.append s "" = s).
  { clear. induction s as [|c s IH]; [done|]. exact (f_equal (String c) IH). }
  rewrite Ha. induction l as [|x l IH]; [done|]. cbn. rewrite ends_app; [exact IH|].
  clear IH. destruct l as [|y l]; [done|]. cbn. intros E.
  assert (forall m, foldr String.append s m <> "").
  { clear -Hs. intros m. induction m as [|z m IH]; [done|]. cbn. by destruct z. }
  by apply (H (y :: l)).
Qed.

Lemma fingerprint_no_y user req : ends_in_y (fingerprint_key user (fingerprintOrder req)) = false.
Proof.
  destruct (Itoa_digits (Quantity req)) as [H1 H2].
  assert (Hf : fingerprintOrder req <> "" /\ ends_in_y (fingerprintOrder req) = false).
  { unfold fingerprintOrder.
    change [_; _; _; _; _] with ([Itoa (StockCode req); ":"; Itoa (OrderSide req); ":"] ++ [Itoa (Quantity req)]).
    split; [|by rewrite concat_last]. unfold concat_key. cbn. destruct (Itoa_digits (StockCode req)) as [H3 _].
    by destruct (Itoa (StockCode req)). }
  unfold fingerprint_key. change [_; _; _; _] with (["user:"; user; ":orders:fingerprint:"] ++ [fingerprintOrder req]).
  by rewrite concat_last by apply Hf; apply Hf.
Qed.

Lemma position_no_y user stock : ends_in_y (position_key user stock) = false.
Proof.
  destruct (Itoa_digits stock) as [H1 H2]. unfold position_key.
  change [_; _; _; _] with (["user:"; user; ":positions:"] ++ [Itoa stock]). by rewrite concat_last.
Qed.

Lemma loss_y user : ends_in_y (loss_key user) = true.
Proof. unfold loss_key. change [_; _; _] with (["user:"; user] ++ [":loss:daily"]). by rewrite concat_last. Qed.

Lemma trades_y user : ends_in_y (trades_key user) = true.
Proof. unfold trades_key. change [_; _; _] with (["user:"; user] ++ [":trades:daily"]). by rewrite concat_last. Qed.

(** Drops the prefix [n] characters before the end. *)
Lemma append_suffix a b (s t : string) :
  String.append a s = String.append b t -> String.length s = String.length t -> s = t.
Proof.
  assert (Happ : forall x y, String.length (String.append x y) = (String.length x + String.length y)%nat).
  { intros x y. induction x as [|c x IH]; [done|]. exact (f_equal S IH). }
  intros H Hl. pose proof (f_equal String.length H) as Hn. rewrite !Happ in Hn.
  assert (Hab : String.length a = String.length b) by lia. clear Hn Hl. revert b H Hab.
  induction a as [|c a IH]; intros [|d b] H Hab; [exact H|discriminate Hab..|].
  injection H as _ H. injection Hab as Hab. by apply (IH b).
Qed.

Lemma trades_loss u v : trades_key u <> loss_key v.
Proof.
  unfold trades_key, loss_key, concat_key. cbn. intros [= H].
  assert (Hr : forall w x y : string, String.append w (String.append x y) = String.append (String.append w x) y).
  { intros w x y. induction w as [|c w IH]; [done|]. exact (f_equal (String c) IH). }
  change (String.append u (String.append ":t" "rades:daily") = String.append v ":loss:daily") in H.
  rewrite Hr in H. apply append_suffix in H; [discriminate H|done].
Qed.

#[local] Arguments loss_key : simpl never.
#[local] Arguments trades_key : simpl never.
#[local] Arguments position_key : simpl never.
#[local] Arguments fingerprint_key : simpl never.
#[local] Arguments fingerprintOrder : simpl never.

Section Runs.

Context (print_float : f64 -> string) (glob : string -> string -> bool).

Abbreviation risk_step := (risk_step print_float glob).
Abbreviation risk_run := (risk_run print_float glob).
Abbreviation check_violations := (check_violations glob).

(** ** Losses and holdings never count *)

Lemma elem_of_when (v x : Violation) (b : bool) : v ∈ when b x <-> b = true /\ v = x.
Proof. unfold when. destruct b; [rewrite list_elem_of_singleton|rewrite elem_of_nil]; naive_solver. Qed.

(** What a call does to a key of losses or a position. *)
Lemma loss_kept r c user : r !! loss_key user = None -> risk_step r c !! loss_key user = None.
Proof.
  intros H. destruct c as [calls now req|ok1 ok2 now u id stock filled price|ok u|]; cbn; [| | |done].
  - destruct (bool_decide _); [|done]. unfold AddDuplicateOrder. destruct (c_add calls); [|done].
    rewrite lookup_insert_ne; [done|]. intros E. pose proof (loss_y user) as Hy. rewrite <- E in Hy.
    by rewrite fingerprint_no_y in Hy.
  - unfold UpdatePostTradeMetrics, IncrementDailyTradeCount.
    destruct (zset_of _ _ _) as [m|]; [|done]. destruct ok1; [|done]. cbn.
    set (r1 := <[trades_key u := _]> r).
    assert (H1 : r1 !! loss_key user = None).
    { unfold r1. rewrite lookup_insert_ne; [done|]. apply trades_loss. }
    unfold SetPosition. destruct (match rget now (position_key u stock) r1 with None => _ | Some _ => _ end);
      [|done]. destruct ok2; [|done]. rewrite lookup_insert_ne; [done|]. intros E.
    pose proof (loss_y user) as Hy. rewrite <- E in Hy. by rewrite position_no_y in Hy.
  - unfold serve_ResetDailyCounters. destruct (String.eqb u ""); [done|]. destruct ok; [|done]. cbn.
    destruct (decide (trades_key u = loss_key user)) as [E|Hne]; [by apply trades_loss in E|].
    rewrite lookup_delete_ne by done. destruct (decide (loss_key u = loss_key user)) as [-> | Hne'];
      [apply lookup_delete_eq|by rewrite lookup_delete_ne].
Qed.

Lemma loss_kept_run l r user : r !! loss_key user = None -> risk_run l r !! loss_key user = None.
Proof. revert r. induction l as [|c l IH]; intros r H; [done|]. apply IH. by apply loss_kept. Qed.

(** Without a position of stock 0 every position is worth nothing. *)
Lemma no_position_largest calls now user total r :
  rget now (position_key user 0) r = None -> largest_position glob calls now user total r = fzero.
Proof.
  intros H. unfold largest_position. generalize (seq 0 (length (GetUserPositionsKeys glob (c_keys calls) now user r))).
  intros l. assert (Hs : forall i pct, scan_position calls now user total r i = Some pct -> flt fzero pct = false).
  { intros i pct. unfold scan_position, GetPositionHash. destruct (c_hash calls i); [|done]. rewrite H.
    rewrite !lookup_empty. cbn [mbind option_bind default from_option].
    destruct (flt fzero total) eqn:Ht; [|done]. intros [= <-].
    by destruct total as [?|[]|?|[] ? ?]. }
  induction l as [|i l IH]; [done|]. cbn [foldl].
  destruct (scan_position _ _ _ _ _ i) as [pct|] eqn:E; [|exact IH]. by rewrite (Hs i pct E).
Qed.

(** C20: Nothing the service is asked for ever records a loss, and positions are
    looked up under stock 0.  So from a Redis without losses and without a
    position of stock 0, and whatever trades are reported, no check ever finds
    the daily loss exceeded or the circuit breaker triggered, and what the user
    already holds does not count for the concentration limit. *)
Theorem losses_and_holdings_never_count (l : list RiskCall) (r : Redis) (calls : Calls) (now : Z)
    (req : Request) (after := risk_run l r) (total := default fzero (GetUserBalance (c_balance calls) now (UserId req) after))
    (Hloss : r !! loss_key (UserId req) = None)
    (Hposition : after !! position_key (UserId req) 0 = None)
    (Hlimit : fle fzero (MaxLossPerDay req) = true) (v : Violation)
    (Hv : v ∈ check_violations calls now req after) :
  v_type v <> DAILY_LOSS_LIMIT /\ v_type v <> CIRCUIT_BREAKER /\
  (v_type v = CONCENTRATION_LIMIT -> flt (of_Z 20) (new_position_pct (position_value req) total) = true).
Proof.
  assert (Hl : after !! loss_key (UserId req) = None) by (by apply loss_kept_run).
  assert (Hd : GetDailyLoss (c_loss calls) now (UserId req) after = if c_loss calls then Some fzero else None).
  { unfold GetDailyLoss, get_float, rget. by rewrite Hl. }
  assert (Hlim : forall p, l_MaxLossPerDay (applyProfileAdjustments p req) = MaxLossPerDay req).
  { intros p. unfold applyProfileAdjustments. cbn zeta. by repeat case_match. }
  assert (Hzero : flt (MaxLossPerDay req) fzero = false).
  { destruct (MaxLossPerDay req) as [?|[]|?|[] ? ?]; done. }
  unfold check_violations in Hv. rewrite Hd, Hlim in Hv.
  rewrite no_position_largest in Hv by (unfold rget; by rewrite Hposition).
  assert (Hcb : forall x, flt fzero x = true -> flt (of_Z 5) (fmul (fdiv fzero x) (of_Z 100)) = false).
  { intros x. by destruct x as [?|[]|?|[] ? ?]. }
  fold total in Hv. rewrite !elem_of_app in Hv.
  destruct Hv as [Hv|[Hv|[Hv|[Hv|[Hv|[Hv|[Hv|Hv]]]]]]].
  - destruct (GetTodayTradeCount _ _ _ _); [|by apply elem_of_nil in Hv]. by apply elem_of_when in Hv as [_ ->].
  - destruct (c_loss calls); [apply elem_of_when in Hv as [Hv _]; congruence|by apply elem_of_nil in Hv].
  - by apply elem_of_when in Hv as [_ ->].
  - by apply elem_of_when in Hv as [_ ->].
  - by apply elem_of_when in Hv as [_ ->].
  - destruct (GetUserBalance _ _ _ _); [|by apply elem_of_nil in Hv]. by apply elem_of_when in Hv as [_ ->].
  - exfalso. apply elem_of_when in Hv as [Hv _]. apply andb_true_iff in Hv as [Ht Hv].
    assert (Hx : default fzero (if c_loss calls then Some fzero else None) = fzero) by (by destruct (c_loss calls)).
    rewrite Hx in Hv. by rewrite (Hcb total Ht) in Hv.
  - apply elem_of_when in Hv as [Hv ->]. apply orb_true_iff in Hv as [Hv|Hv]; [|by vm_compute in Hv].
    split; [done|]. split; [done|]. intros _. exact Hv.
Qed.

(** ** Duplicates *)

(** The fingerprint of an approved order until it expires. *)
Definition guarded (k : string) (until : Z) (r : Redis) : Prop :=
  exists e, r !! k = Some (RStr "", Some e) /\ until <= e.

Definition call_time (c : RiskCall) : option Z :=
  match c with
  | CallCheck _ now _ => Some now
  | CallPostTrade _ _ now _ _ _ _ _ => Some now
  | _ => None
  end.

Lemma guarded_step k start until r c :
  ends_in_y k = false -> until = start + duplicate_window * second -> guarded k until r ->
  (forall now, call_time c = Some now -> start <= now < until) -> guarded k until (risk_step r c).
Proof.
  intros Hk Hu (e & He & Hle) Ht.
  assert (Hlive : forall now, call_time c = Some now -> rget now k r = Some (RStr "")).
  { intros now Hn. unfold rget. rewrite He. specialize (Ht now Hn). by rewrite (proj2 (Z.ltb_lt _ _)) by lia. }
  destruct c as [calls now req|ok1 ok2 now u id stock filled price|ok u|]; cbn; [| | |by exists e].
  - destruct (bool_decide _); [|by exists e]. unfold AddDuplicateOrder. destruct (c_add calls); [|by exists e].
    destruct (decide (fingerprint_key (UserId req) (fingerprintOrder req) = k)) as [-> | Hne].
    + eexists. split; [apply lookup_insert_eq|]. specialize (Ht now eq_refl). lia.
    + exists e. by rewrite lookup_insert_ne.
  - specialize (Hlive now eq_refl). unfold UpdatePostTradeMetrics, IncrementDailyTradeCount.
    destruct (zset_of _ _ _) as [m|]; [|by exists e]. destruct ok1; [|by exists e]. cbn.
    assert (Hne : trades_key u <> k) by (intros <-; by rewrite trades_y in Hk).
    set (r1 := <[trades_key u := _]> r). assert (H1 : r1 !! k = r !! k) by (by apply lookup_insert_ne).
    unfold SetPosition. destruct (decide (position_key u stock = k)) as [-> | Hne'].
    + assert (Hr1 : rget now k r1 = rget now k r) by (unfold rget; by rewrite H1).
      rewrite Hr1, Hlive. exists e. by rewrite H1.
    + destruct (match rget now (position_key u stock) r1 with None => _ | Some _ => _ end);
        [|exists e; by rewrite H1]. destruct ok2; [|exists e; by rewrite H1].
      exists e. by rewrite lookup_insert_ne, H1.
  - unfold serve_ResetDailyCounters. destruct (String.eqb u ""); [by exists e|].
    destruct ok; [|by exists e]. cbn. exists e.
    rewrite lookup_delete_ne by (intros <-; by rewrite trades_y in Hk).
    rewrite lookup_delete_ne by (intros <-; by rewrite loss_y in Hk). done.
Qed.

Lemma guarded_run k start until l r :
  ends_in_y k = false -> until = start + duplicate_window * second ->
  Forall (fun c => forall now, call_time c = Some now -> start <= now < until) l ->
  guarded k until r -> guarded k until (risk_run l r).
Proof.
  intros Hk Hu Hl. revert r. induction Hl as [|c l Hc _ IH]; intros r G; [done|].
  apply IH. by apply (guarded_step k start until r c Hk Hu G Hc).
Qed.

(** An order like one that was approved, for the same user, is refused as a
    duplicate for half a minute, whatever the service is asked for in between. *)
Theorem duplicate_refused (calls1 calls2 : Calls) (t1 t2 : Z) (req1 req2 : Request) (r : Redis)
    (between : list RiskCall)
    (Happroved : approved (CheckPreTrade glob calls1 t1 req1 r).1 = true) (Hadd : c_add calls1 = true)
    (Hsame : UserId req2 = UserId req1 /\ fingerprintOrder req2 = fingerprintOrder req1)
    (Hdup : c_dup calls2 = true) (Htime : t1 <= t2 < t1 + 30 * second)
    (Hbetween : Forall (fun c => forall now, call_time c = Some now -> t1 <= now < t1 + 30 * second) between)
    (answer := (CheckPreTrade glob calls2 t2 req2 (risk_run between (CheckPreTrade glob calls1 t1 req1 r).2)).1) :
  approved answer = false /\ DUPLICATE_ORDER ∈ map v_type (violations answer).
Proof.
  set (k := fingerprint_key (UserId req1) (fingerprintOrder req1)).
  pose proof (fingerprint_no_y (UserId req1) req1) as Hk. fold k in Hk.
  set (r1 := (CheckPreTrade glob calls1 t1 req1 r).2).
  assert (G1 : guarded k (t1 + 30 * second) r1).
  { unfold r1, CheckPreTrade. cbn [snd]. cbn in Happroved. rewrite Happroved. unfold AddDuplicateOrder.
    rewrite Hadd. eexists. split; [apply lookup_insert_eq|done]. }
  assert (G2 : guarded k (t1 + 30 * second) (risk_run between r1)).
  { by apply (guarded_run k t1 _ between r1 Hk eq_refl Hbetween). }
  destruct G2 as (e & He & Hle).
  assert (Hin : DUPLICATE_ORDER ∈ map v_type (check_violations calls2 t2 req2 (risk_run between r1))).
  { apply list_elem_of_fmap. exists (MkViolation DUPLICATE_ORDER fzero fzero). split; [done|].
    unfold check_violations, CheckDuplicateOrder. destruct Hsame as [-> Hf]. rewrite Hf, Hdup. fold k.
    assert (Hg : rget t2 k (risk_run between r1) = Some (RStr "")).
    { unfold rget. rewrite He. by rewrite (proj2 (Z.ltb_lt _ _)) by lia. }
    rewrite Hg, bool_decide_eq_true_2 by done. cbn [default from_option id when]. rewrite !elem_of_app.
    right. right. right. right. left. by left. }
  split; [|exact Hin].
  apply (bool_decide_eq_false_2 (_ = [])). intros E. unfold r1 in Hin. rewrite E in Hin.
  by apply not_elem_of_nil in Hin.
Qed.
End Runs.

(** ** Instances *)

Definition all_ok : Calls := MkCalls true true true true true true (fun _ => true) true.

Definition risk_request (stock qty : Z) : Request :=
  MkRequest "u" stock 1 qty (of_Z 100) (of_Z 98) 10 (of_Z 5000) (of_Z 50000) (of_Z 2000).

(** A balance of 100000 rupees. *)
Definition funded : Redis := {[balance_key "u" := (RStr "100000", None)]}.

(** Two purchases and their fills; the second one would make the share of the
    stock 40 per cent if holdings counted. *)
Definition two_trades : list RiskCall :=
  [CallCheck all_ok (100 * second) (risk_request 2475 200);
   CallPostTrade true true (101 * second) "u" "o1" 2475 200 (of_Z 100)].

Definition too_much : list Violation :=
  Risk.check_violations (fun _ _ => true) all_ok (200 * second) (risk_request 2475 2000)
    (Risk.risk_run sprintf_2f (fun _ _ => true) two_trades funded).

Lemma losses_and_holdings_never_count_witness :
  map v_type too_much = [POSITION_SIZE_LIMIT; PER_TRADE_RISK_LIMIT; INSUFFICIENT_MARGIN; CONCENTRATION_LIMIT] /\
  flt (of_Z 20) (new_position_pct (position_value (risk_request 2475 2000)) (of_Z 100000)) = true.
Proof.
  split; [vm_compute; reflexivity|].
  pose proof (losses_and_holdings_never_count sprintf_2f (fun _ _ => true) two_trades funded all_ok
    (200 * second) (risk_request 2475 2000) ltac:(vm_compute; reflexivity) ltac:(vm_compute; reflexivity)
    ltac:(vm_compute; reflexivity)
    (MkViolation CONCENTRATION_LIMIT
       (new_position_pct (position_value (risk_request 2475 2000)) (of_Z 100000)) (of_Z 20))) as H.
  apply H; [|reflexivity]. apply (list_elem_of_lookup_2 _ 3). vm_compute. reflexivity.
Defined.

Lemma duplicate_refused_witness :
  approved (CheckPreTrade (fun _ _ => true) all_ok (129 * second) (risk_request 2475 200)
    (Risk.risk_run sprintf_2f (fun _ _ => true) [CallPostTrade true true (101 * second) "u" "o1" 2475 200 (of_Z 100);
       CallReset true "u"]
       (CheckPreTrade (fun _ _ => true) all_ok (100 * second) (risk_request 2475 200) funded).2)).1 = false.
Proof.
  destruct (duplicate_refused sprintf_2f (fun _ _ => true) all_ok all_ok (100 * second) (129 * second)
    (risk_request 2475 200) (risk_request 2475 200) funded
    [CallPostTrade true true (101 * second) "u" "o1" 2475 200 (of_Z 100); CallReset true "u"]) as [H _].
  - vm_compute. reflexivity.
  - reflexivity.
  - done.
  - reflexivity.
  - unfold second. lia.
  - apply Forall_cons_2; [|apply Forall_singleton]; cbn; intros now [= <-]; unfold second; lia.
  - exact H.
Defined.

(** A short sale with its stop above the price has a negative potential loss:
    whatever it could lose, the limit per trade is not exceeded. *)
Example short_sale_risk_unlimited :
  let req := MkRequest "u" 2475 2 1000 (of_Z 100) (of_Z 150) 10 (of_Z 5000) (of_Z 500000) (of_Z 10) in
  flt (MaxPerTradeRisk req) (potential_loss req) = false.
Proof. vm_compute. reflexivity. Qed.
