(* ===== verification/Positions.v ===== *)
(** * Live positions: attribution to strategies

    [paper/ws_server.go], from [entryTimeFromWSData] to [enrichPositions]: the
    shares of the strategies in the positions of a broker account, and the split
    of a position among them; [PushPositions] and [handleIndiraPositions] compose
    this with the queries of the repository.

    The order in which Go ranges over its two maps is an argument: [iter] lists the
    shares, [scan i] the symbols for the [i]-th position.  [ws_fields] is the
    decoding of the stored JSON into its two time stamps, [uuid_text] the text of
    an identifier. *)

From stdpp Require Import base tactics gmap strings list sorting pretty.
From Stdlib Require Import ZArith Lia Ascii Floats.SpecFloat.
From S2P Require Import Prelude GoFloat FloatOrder GoStrings GoTime GoParse Orders.
From S2P Require Import OrderRepo OrderQueries TableFacts GatewayHttp MLTypes FloatRound.
From S2P Require Import FloatExact.

Open Scope string_scope.
Open Scope list_scope.
Open Scope go_scope.

(** ** Data *)

Module BrokerPosition.

Record t : Type := mk {
  Symbol : string;
  Exchange : string;
  ProductType : string;
  NetQty : Z;
  BuyQty : Z;
  SellQty : Z;
  BuyAvgPrice : f64;
  SellAvgPrice : f64;
  CurrentPrice : f64;
  PnL : f64;
  PnLPercentage : f64;
  ExcTkn : Z
}.

End BrokerPosition.

(** [EnrichedAlgoPosition]: the position of the broker, whose quantities and
    profit may be a part of it, and the fields of the strategy. *)
Module AlgoPosition.

Record t : Type := mk {
  broker : BrokerPosition.t;
  OrderID : string;
  StrategyID : string;
  StrategyName : string;
  OrderSide : string;
  FilledPrice : f64;
  FilledQty : Z;
  TradingMode : string;
  Status : string;
  ExecutedAt : string
}.

#[global] Instance eta_position : Eta t := fun p =>
  mk p.(broker) p.(OrderID) p.(StrategyID) p.(StrategyName) p.(OrderSide) p.(FilledPrice)
     p.(FilledQty) p.(TradingMode) p.(Status) p.(ExecutedAt).

End AlgoPosition.

Module Share.

Record t : Type := mk {
  StrategyID : string;
  StrategyName : string;
  TradingMode : string;
  EntryQty : Z;
  EntryOrderID : string;
  EntryTime : string;
  OrderSide : string
}.

#[global] Instance eta_share : Eta t := fun s =>
  mk s.(StrategyID) s.(StrategyName) s.(TradingMode) s.(EntryQty) s.(EntryOrderID) s.(EntryTime)
     s.(OrderSide).

End Share.

(** ** Symbols *)

Definition HasSuffix (s suffix : string) : bool :=
  let n := String.length suffix in
  Nat.leb n (String.length s) && (Stdlib.Strings.String.substring (String.length s - n) n s =?s suffix).

Definition knownSymbolSeriesSuffixes : list string :=
  ["-EQ"; "-BE"; "-BZ"; "-BL"; "-IL"; "-SM"; "-ST"; "-IT"; "_EQ"; "_BE"; "_BZ"].

Fixpoint strip_series (suffixes : list string) (s : string) : string :=
  match suffixes with
  | [] => s
  | x :: l =>
      if HasSuffix s x && Nat.ltb (String.length x) (String.length s)
      then Stdlib.Strings.String.substring 0 (String.length s - String.length x) s
      else strip_series l s
  end.

Definition normalizeSymbol (s : string) : string :=
  strip_series knownSymbolSeriesSuffixes (ToUpper (TrimSpace s)).

Definition pickEntrySide (bp : BrokerPosition.t) (orderSide : string) : f64 * Z :=
  let side := ToUpper (TrimSpace orderSide) in
  let sold := (bp.(BrokerPosition.SellAvgPrice), bp.(BrokerPosition.SellQty)) in
  let bought := (bp.(BrokerPosition.BuyAvgPrice), bp.(BrokerPosition.BuyQty)) in
  if side =?s "" then (if (bp.(BrokerPosition.NetQty) <? 0)%Z then sold else bought)
  else if side =?s "SELL" then sold else bought.

(** The zero [time.Time]. *)
Definition go_zero_time : Z := date_in 0 1 1 1 0 0 0 0.

Section Attribution.

Context (ws_fields : string -> option (string * string)) (uuid_text : uuid -> string)
  (iter : list (string * string * Share.t) -> list (string * string * Share.t))
  (scan : nat -> list string -> list string).

(** ** The time of an entry *)

Definition parse_stamp_text (s : string) : option Z :=
  match parse_layout ":" ist_offset s with
  | Some t => Some t
  | None => parse_layout "." ist_offset s
  end.

Definition entryTimeFromWSData (data : string) : Z :=
  if data =?s "" then go_zero_time
  else match ws_fields data with
       | None => go_zero_time
       | Some (entry, stamp) => default go_zero_time (head (omap parse_stamp_text [entry; stamp]))
       end.

Definition entry_time (o : Order.t) : string :=
  let t := default go_zero_time (entryTimeFromWSData <$> o.(Order.BrokerWSData)) in
  if (t =? go_zero_time)%Z then default "" (fmtIST <$> o.(Order.ExecutedAt)) else fmtIST t.

(** ** Shares *)

(** The first name an order gives a strategy. *)
Definition strategyNameLookup (orders : list Order.t) (id : string) : string :=
  default "" (head (List.filter (fun n => negb (n =?s ""))
    (Order.StrategyName <$> List.filter (fun o => (o.(Order.StrategyID) =?s id) && negb (id =?s "")) orders))).

(** The orders that are no entry of an open position. *)
Definition not_an_entry (o : Order.t) : bool :=
  o.(Order.IsSquareOffOrder)
  || (match o.(Order.OCORole) with Some r => one_of r ["SL_LEG"; "TP_LEG"] | None => false end)
  || (one_of o.(Order.Status) ["CANCELLED"; "REJECTED"] && (o.(Order.FilledQuantity) =? 0)%Z)
  || is_set o.(Order.LiveExitPrice).

Definition strategy_key (id : string) : string := if id =?s "" then "__manual__" else id.

Definition share_key (o : Order.t) : string * string :=
  (normalizeSymbol o.(Order.Symbol), strategy_key o.(Order.StrategyID)).

Abbreviation Shares := (gmap (string * string) Share.t).

(** One turn of the first loop; [seen] are the orders counted so far. *)
Definition count_order (names : string -> string) (acc : Shares * list string) (o : Order.t)
    : Shares * list string :=
  let '(shares, seen) := acc in
  let oid := uuid_text o.(Order.OrderID) in
  if not_an_entry o || one_of oid seen then acc
  else
    let name := if o.(Order.StrategyName) =?s "" then names o.(Order.StrategyID) else o.(Order.StrategyName) in
    let s := default (Share.mk o.(Order.StrategyID) name o.(Order.TradingMode) 0 "" "" o.(Order.OrderSide))
               (shares !! share_key o) in
    let s := if s.(Share.StrategyName) =?s "" then s <| Share.StrategyName := name |> else s in
    let s := s <| Share.EntryQty := int64 (s.(Share.EntryQty) + o.(Order.FilledQuantity)) |> in
    let time := entry_time o in
    let s := if (s.(Share.EntryOrderID) =?s "")
                || negb (time =?s "") && String.ltb time s.(Share.EntryTime)
             then s <| Share.EntryOrderID := oid |> <| Share.EntryTime := time |> else s in
    (<[share_key o := s]> shares, oid :: seen).

Definition shares_of (orders : list Order.t) : Shares :=
  (foldl (count_order (strategyNameLookup orders)) (∅, []) orders).1.

(** ** Positions *)

Definition symbol_shares (l : list (string * string * Share.t)) (sym : string) : list Share.t :=
  snd <$> List.filter (fun kv => kv.1.1 =?s sym) l.

Definition symbols (l : list (string * string * Share.t)) : list string :=
  remove_dups ((fun kv => kv.1.1) <$> l).

(** The fallback: one symbol is a prefix of the other, at most four longer. *)
Definition near_symbol (a b : string) : bool :=
  let '(n, m) := (String.length a, String.length b) in
  Nat.leb (n - m) 4 && Nat.leb (m - n) 4 && (has_prefix b a || has_prefix a b).

Definition owners (l : list (string * string * Share.t)) (i : nat) (bp : BrokerPosition.t) : list Share.t :=
  let sym := normalizeSymbol bp.(BrokerPosition.Symbol) in
  match symbol_shares l sym with
  | [] => match List.find (near_symbol sym) (scan i (symbols l)) with
          | Some s => symbol_shares l s
          | None => []
          end
  | ss => ss
  end.

(** No trade of today. *)
Definition inactive (bp : BrokerPosition.t) : bool :=
  (bp.(BrokerPosition.NetQty) =? 0)%Z
  && ((bp.(BrokerPosition.BuyQty) =? 0)%Z || (bp.(BrokerPosition.SellQty) =? 0)%Z).

Definition broker_direct (bp : BrokerPosition.t) : AlgoPosition.t :=
  AlgoPosition.mk bp "" "" "" "" fzero 0 "" "" "".

(** The row of one strategy; [bp] has the quantities of its part. *)
Definition strategy_row (bp : BrokerPosition.t) (s : Share.t) (price : f64) (qty : Z) : AlgoPosition.t :=
  AlgoPosition.mk bp s.(Share.EntryOrderID) s.(Share.StrategyID) s.(Share.StrategyName) s.(Share.OrderSide)
    price (int32 qty) s.(Share.TradingMode) "FILLED" s.(Share.EntryTime).

Definition with_part (bp : BrokerPosition.t) (net buy sell : Z) (pnl : f64) : BrokerPosition.t :=
  BrokerPosition.mk bp.(BrokerPosition.Symbol) bp.(BrokerPosition.Exchange) bp.(BrokerPosition.ProductType)
    net buy sell bp.(BrokerPosition.BuyAvgPrice) bp.(BrokerPosition.SellAvgPrice)
    bp.(BrokerPosition.CurrentPrice) pnl bp.(BrokerPosition.PnLPercentage) bp.(BrokerPosition.ExcTkn).

Definition ratio (s : Share.t) (total : Z) : f64 := (of_Z s.(Share.EntryQty) / of_Z total)%f64.

(** [int(math.Round(float64(qty) * ratio))]. *)
Definition part (qty : Z) (r : f64) : Z := f64_to_int64 (math_Round (of_Z qty * r)%f64).

Definition split_row (bp : BrokerPosition.t) (total : Z) (s : Share.t) (net buy sell : Z) : AlgoPosition.t :=
  let b := with_part bp net buy sell (bp.(BrokerPosition.PnL) * ratio s total)%f64 in
  if (s.(Share.OrderSide) =?s "SELL")
     || (s.(Share.OrderSide) =?s "") && (bp.(BrokerPosition.NetQty) <? 0)%Z
  then strategy_row b s bp.(BrokerPosition.SellAvgPrice) sell
  else strategy_row b s bp.(BrokerPosition.BuyAvgPrice) buy.

(** The loop over the strategies of a position, with what was assigned. *)
Fixpoint split_rows (bp : BrokerPosition.t) (total net buy sell : Z) (l : list Share.t) : list AlgoPosition.t :=
  match l with
  | [] => []
  | [s] => [split_row bp total s (int64 (bp.(BrokerPosition.NetQty) - net))
              (int64 (bp.(BrokerPosition.BuyQty) - buy)) (int64 (bp.(BrokerPosition.SellQty) - sell))]
  | s :: l =>
      let r := ratio s total in
      let n := part bp.(BrokerPosition.NetQty) r in
      let b := part bp.(BrokerPosition.BuyQty) r in
      let c := part bp.(BrokerPosition.SellQty) r in
      split_row bp total s n b c :: split_rows bp total (int64 (net + n)) (int64 (buy + b)) (int64 (sell + c)) l
  end.

Definition total_entry (l : list Share.t) : Z :=
  let t := foldl (fun t s => int64 (t + s.(Share.EntryQty))) 0%Z l in if (t =? 0)%Z then 1%Z else t.

Definition position_rows (bp : BrokerPosition.t) (ss : list Share.t) : list AlgoPosition.t :=
  match ss with
  | [] => [broker_direct bp]
  | [s] => let '(price, qty) := pickEntrySide bp s.(Share.OrderSide) in [strategy_row bp s price qty]
  | _ => split_rows bp (total_entry ss) 0 0 0 ss
  end.

Fixpoint enrich_from (l : list (string * string * Share.t)) (i : nat) (bps : list BrokerPosition.t)
    : list AlgoPosition.t :=
  match bps with
  | [] => []
  | bp :: bps =>
      (if inactive bp then [] else position_rows bp (owners l i bp)) ++ enrich_from l (S i) bps
  end.

Definition enrichPositions (bps : list BrokerPosition.t) (orders : list Order.t) : list AlgoPosition.t :=
  enrich_from (iter (map_to_list (shares_of orders))) 0 bps.

(** ** The handlers *)

(** [GetStrategyNamesByIDs]: the newest name of each strategy. *)
Definition sqlGetStrategyNamesByIDs (ids : list string) (t : OrdersTable)
    : OrdersTable * (string + gmap string string) :=
  match select_desc "failed to get strategy names"
          (fun o => one_of o.(Order.StrategyID) ids && negb (o.(Order.StrategyName) =?s "")) t with
  | (t, inl e) => (t, inl e)
  | (t, inr l) =>
      (t, inr (list_to_map ((fun o => (o.(Order.StrategyID), o.(Order.StrategyName))) <$> l)))
  end.

Definition nameless (p : AlgoPosition.t) : bool :=
  negb (p.(AlgoPosition.StrategyID) =?s "") && (p.(AlgoPosition.StrategyName) =?s "").

(** The names that are missing, from older orders. *)
Definition backfill_names (l : list AlgoPosition.t) (t : OrdersTable) : OrdersTable * list AlgoPosition.t :=
  match AlgoPosition.StrategyID <$> List.filter nameless l with
  | [] => (t, l)
  | ids =>
      match sqlGetStrategyNamesByIDs ids t with
      | (t, inl _) => (t, l)
      | (t, inr names) =>
          (t, (fun p => if nameless p then
                          match names !! p.(AlgoPosition.StrategyID) with
                          | Some n => p <| AlgoPosition.StrategyName := n |>
                          | None => p
                          end
                        else p) <$> l)
      end
  end.

(** Positions of an account, by the credentials of a request. *)
Definition PositionsFetcher : Type := string -> string -> string -> string -> string + list BrokerPosition.t.

(** What the socket of the user is sent. *)
Definition PushPositions (fetch : option PositionsFetcher) (now : Z) (userID bearer app source : string)
    (t : OrdersTable) : OrdersTable * option (list AlgoPosition.t) :=
  match fetch with
  | None => (t, None)
  | Some f =>
      match f bearer app userID source with
      | inl _ => (t, None)
      | inr bps =>
          match sqlGetOpenLivePositionAttributionOrders now userID t with
          | (t, inl _) => (t, None)
          | (t, inr orders) => let '(t, l) := backfill_names (enrichPositions bps orders) t in (t, Some l)
          end
      end
  end.

Inductive PositionsReply : Type :=
  | PositionsError (status : Z) (message : string)
  | PositionsOk (positions : list AlgoPosition.t) (total_broker : nat).

Definition or_else (a b : string) : string := if a =?s "" then b else a.

Definition handleIndiraPositions (fetch : option PositionsFetcher) (now : Z) (r : HttpRequest)
    (t : OrdersTable) : OrdersTable * PositionsReply :=
  if negb (r.(httpMethod) =?s "GET") then (t, PositionsError 405 "method not allowed")
  else match fetch with
  | None => (t, PositionsError 503 "positions fetcher not configured")
  | Some f =>
      let user := or_else (r.(query) "user_id") (r.(header) "userId") in
      let bearer := TrimPrefix (r.(header) "Authorization") "Bearer " in
      let app := or_else (r.(header) "appId") (r.(header) "appid") in
      let source := or_else (r.(header) "source") "WEB" in
      if user =?s "" then (t, PositionsError 400 "user_id is required")
      else if bearer =?s "" then (t, PositionsError 401 "Authorization header required")
      else match f bearer app user source with
      | inl e => (t, PositionsError 502 ("failed to fetch broker positions: " ++ e)%string)
      | inr bps =>
          match sqlGetOpenLivePositionAttributionOrders now user t with
          | (t, inl _) => (t, PositionsError 500 "failed to fetch algo orders")
          | (t, inr orders) =>
              let '(t, l) := backfill_names (enrichPositions bps orders) t in
              (t, PositionsOk l (length bps))
          end
      end
  end.

End Attribution.

(** ** Cached credentials *)

Definition BrokerAuth : Type := gmap string (string * string * string).

Definition StoreAuth (userID bearer app source : string) (m : BrokerAuth) : BrokerAuth :=
  if bearer =?s "" then m else <[userID := (bearer, app, source)]> m.

Definition GetAuth (userID : string) (m : BrokerAuth) : option (string * string * string) := m !! userID.

(** ** What the attribution of positions keeps

    The rows of a position add up to the position, one for each strategy that
    holds a share; and a share counts the fills of the open entries. *)

Open Scope Z_scope.

(** ** Parts *)

Lemma round_bounds x q :
  fnonneg x = true -> 0 < q < 2 ^ 52 -> fle x (of_Z q) = true -> 0 <= f64_to_int64 (math_Round x) <= q.
Proof.
  intros Hx Hq Hle. destruct x as [s|s| |[] m e]; try done.
  - change (0 <= 0 <= q). lia.
  - exfalso. destruct s; [done|]. destruct (of_Z_exact q ltac:(lia)) as (m2 & e2 & _ & _ & _ & E).
    rewrite E in Hle. done.
  - destruct (Z.leb_spec 0 e) as [He|He].
    { cbn [math_Round]. rewrite (proj2 (Z.leb_le 0 e)) by done.
      destruct (f64_to_int64_mono _ _ q Hx (of_Z_nonneg q ltac:(lia)) Hle (trunc_of_Z q ltac:(lia)) ltac:(lia)). lia. }
    destruct (of_Z_exact q ltac:(lia)) as (m2 & e2 & He2 & Hm2 & Hb2 & E). rewrite E in Hle.
    pose proof (fle_vle _ _ _ _ Hx Hb2 Hle) as Hv. set (B := Z.min e e2).
    apply (vle_at B) in Hv; [|lia..]. rewrite !Z.mul_1_r, Hm2 in Hv.
    assert (Hm : Z.pos m <= q * 2 ^ (- e)).
    { apply (Z.mul_le_mono_pos_r _ _ (2 ^ (e - B))); [apply Z.pow_pos_nonneg; lia|].
      etransitivity; [exact Hv|]. rewrite <- !Z.mul_assoc, <- !Z.pow_add_r by lia.
      apply Z.eq_le_incl. f_equal. f_equal. lia. }
    cbn [math_Round]. rewrite (proj2 (Z.leb_gt 0 e)) by done.
    assert (Hp : 0 < 2 ^ (- e)) by (apply Z.pow_pos_nonneg; lia).
    set (n := _ / _). assert (Hn : 0 <= n <= q).
    { unfold n. replace (1 - e) with (Z.succ (- e)) by lia. rewrite Z.pow_succ_r by lia. split.
      - apply Z.div_pos; lia.
      - apply Z.lt_succ_r, Z.div_lt_upper_bound; [lia|]. nia. }
    destruct (Z.eqb_spec n 0); [change (0 <= 0 <= q); lia|]. unfold f64_to_int64. rewrite trunc_of_Z by lia.
    rewrite (proj2 (Z.leb_le _ _)), (proj2 (Z.ltb_lt _ _)) by lia. cbn. lia.
Qed.

Lemma part_bounds q a total :
  0 <= q < 2 ^ 52 -> 0 <= a <= total -> 0 < total < 2 ^ 53 ->
  0 <= part q (fdiv (of_Z a) (of_Z total)) <= q.
Proof.
  intros Hq Ha Ht. pose proof (of_Z_fpos total ltac:(lia)) as Hp.
  pose proof (of_Z_nonneg a ltac:(lia)) as Hna.
  pose proof (fdiv_nonneg (of_Z a) (of_Z total) Hna Hp) as Hr.
  set (r := fdiv (of_Z a) (of_Z total)) in *.
  assert (H1 : fle r (of_Z 1) = true).
  { rewrite <- (fdiv_self (of_Z total) Hp). apply fdiv_mono; [done|by apply fpos_nonneg|done|].
    apply of_Z_mono. lia. }
  unfold part. destruct (Z.eq_dec q 0) as [->|Hq0].
  - destruct r as [[]|[]| |[] m e]; done.
  - assert (Hqp : fpos (of_Z q) = true) by (apply of_Z_fpos; lia).
    apply round_bounds; [|lia|by apply fmul_le_self].
    rewrite MLTypes.fmul_comm. by apply fmul_nonneg.
Qed.

Close Scope Z_scope.

(** ** Sums that wrap *)

Lemma int64_add_r a b : int64 (a + int64 b) = int64 (a + b).
Proof.
  unfold int64, wrap_signed. f_equal.
  replace (a + ((b + 2 ^ (64 - 1)) mod 2 ^ 64 - 2 ^ (64 - 1)) + 2 ^ (64 - 1))%Z
    with (a + (b + 2 ^ (64 - 1)) mod 2 ^ 64)%Z by lia.
  rewrite Zplus_mod_idemp_r. f_equal. lia.
Qed.

Lemma int64_add_l a b : int64 (int64 a + b) = int64 (a + b).
Proof. by rewrite Z.add_comm, int64_add_r, Z.add_comm. Qed.

Definition sum_of {A} (f : A -> Z) (l : list A) : Z := foldr (fun a s => f a + s)%Z 0%Z l.

Lemma sum_of_app {A} (f : A -> Z) l1 l2 : sum_of f (l1 ++ l2) = (sum_of f l1 + sum_of f l2)%Z.
Proof. unfold sum_of. induction l1 as [|a l1 IH]; [done|]. cbn. rewrite IH. lia. Qed.

Definition net_of (p : AlgoPosition.t) : Z := p.(AlgoPosition.broker).(BrokerPosition.NetQty).
Definition buy_of (p : AlgoPosition.t) : Z := p.(AlgoPosition.broker).(BrokerPosition.BuyQty).
Definition sell_of (p : AlgoPosition.t) : Z := p.(AlgoPosition.broker).(BrokerPosition.SellQty).

(** A split, whatever the rounding of the parts. *)
Lemma split_rows_sum bp total l net buy sell :
  l <> [] ->
  let rows := split_rows bp total net buy sell l in
  int64 (sum_of net_of rows + net) = int64 bp.(BrokerPosition.NetQty) /\
  int64 (sum_of buy_of rows + buy) = int64 bp.(BrokerPosition.BuyQty) /\
  int64 (sum_of sell_of rows + sell) = int64 bp.(BrokerPosition.SellQty).
Proof.
  assert (Hr : forall s a b c, net_of (split_row bp total s a b c) = a /\
    buy_of (split_row bp total s a b c) = b /\ sell_of (split_row bp total s a b c) = c).
  { intros s a b c. unfold split_row. by destruct (_ || _). }
  revert net buy sell. induction l as [|s l IH]; intros net buy sell Hl; [done|]. destruct l as [|s' l].
  - cbn [split_rows sum_of foldr]. destruct (Hr s (int64 (bp.(BrokerPosition.NetQty) - net))
      (int64 (bp.(BrokerPosition.BuyQty) - buy)) (int64 (bp.(BrokerPosition.SellQty) - sell))) as (-> & -> & ->).
    rewrite !Z.add_0_r, !int64_add_l, !Z.sub_add. done.
  - change (split_rows bp total net buy sell (s :: s' :: l)) with
      (let r := ratio s total in
       let n := part bp.(BrokerPosition.NetQty) r in let b := part bp.(BrokerPosition.BuyQty) r in
       let c := part bp.(BrokerPosition.SellQty) r in
       split_row bp total s n b c
         :: split_rows bp total (int64 (net + n)) (int64 (buy + b)) (int64 (sell + c)) (s' :: l)).
    cbv zeta. set (n := part _ _). set (b := part (BrokerPosition.BuyQty bp) _).
    set (c := part (BrokerPosition.SellQty bp) _).
    destruct (IH (int64 (net + n)) (int64 (buy + b)) (int64 (sell + c)) ltac:(done)) as (I1 & I2 & I3).
    rewrite int64_add_r in I1, I2, I3. cbn [sum_of foldr]. destruct (Hr s n b c) as (-> & -> & ->).
    rewrite <- I1, <- I2, <- I3. split_and!; f_equal; unfold sum_of; lia.
Qed.

Lemma split_rows_strategies bp total l net buy sell :
  AlgoPosition.StrategyID <$> split_rows bp total net buy sell l = Share.StrategyID <$> l.
Proof.
  revert net buy sell. induction l as [|s l IH]; intros net buy sell; [done|].
  assert (Hr : forall a b c, AlgoPosition.StrategyID (split_row bp total s a b c) = s.(Share.StrategyID)).
  { intros a b c. unfold split_row. by destruct (_ || _). }
  destruct l as [|s' l]; cbn [split_rows fmap list_fmap]; rewrite Hr; [done|]. f_equal. apply IH.
Qed.

Lemma position_rows_spec bp ss (rows := position_rows bp ss)
    (Hn : in_int64 bp.(BrokerPosition.NetQty)) (Hb : in_int64 bp.(BrokerPosition.BuyQty))
    (Hs : in_int64 bp.(BrokerPosition.SellQty)) :
  int64 (sum_of net_of rows) = bp.(BrokerPosition.NetQty) /\
  int64 (sum_of buy_of rows) = bp.(BrokerPosition.BuyQty) /\
  int64 (sum_of sell_of rows) = bp.(BrokerPosition.SellQty) /\
  AlgoPosition.StrategyID <$> rows = (match ss with [] => [""] | _ => Share.StrategyID <$> ss end).
Proof.
  unfold rows. destruct ss as [|s [|s' l]].
  - cbn. rewrite !Z.add_0_r, !int64_id by done. done.
  - cbn. destruct (pickEntrySide bp _) as [price qty]. cbn. rewrite !Z.add_0_r, !int64_id by done. done.
  - unfold position_rows. destruct (split_rows_sum bp (total_entry (s :: s' :: l)) (s :: s' :: l) 0 0 0
      ltac:(done)) as (I1 & I2 & I3). rewrite Z.add_0_r in I1, I2, I3.
    rewrite I1, I2, I3, !int64_id by done. split_and!; [done..|]. apply split_rows_strategies.
Qed.

(** ** Shares *)

Section Shares.

Context (ws_fields : string -> option (string * string)) (uuid_text : uuid -> string)
  `{!Inj (=) (=) uuid_text}.

Abbreviation count := (count_order ws_fields uuid_text).

(** The fills of the open entries with a key. *)
Definition fills (key : string * string) (orders : list Order.t) : Z :=
  sum_of Order.FilledQuantity
    (List.filter (fun o => negb (not_an_entry o) && bool_decide (share_key o = key)) orders).

Definition has_entry (key : string * string) (orders : list Order.t) : bool :=
  existsb (fun o => negb (not_an_entry o) && bool_decide (share_key o = key)) orders.

(** The share of a key after the orders [done]. *)
Definition share_ok (orders : list Order.t) (key : string * string) (o : option Share.t) : Prop :=
  match o with
  | Some s => has_entry key orders = true /\ s.(Share.EntryQty) = int64 (fills key orders) /\
              strategy_key s.(Share.StrategyID) = key.2
  | None => has_entry key orders = false
  end.

Lemma fills_app key l1 l2 : fills key (l1 ++ l2) = (fills key l1 + fills key l2)%Z.
Proof.
  unfold fills. rewrite List.filter_app. apply sum_of_app.
Qed.

Lemma has_entry_app key l1 l2 : has_entry key (l1 ++ l2) = has_entry key l1 || has_entry key l2.
Proof. apply existsb_app. Qed.

Lemma count_share names shares seen done_ o :
  one_of (uuid_text o.(Order.OrderID)) seen = false ->
  (forall key, share_ok done_ key (shares !! key)) ->
  forall key, share_ok (done_ ++ [o]) key ((count names (shares, seen) o).1 !! key).
Proof.
  intros Hseen Hs key. unfold count_order. rewrite Hseen, orb_false_r.
  assert (Hskip : negb (not_an_entry o) && bool_decide (share_key o = key) = false ->
    share_ok (done_ ++ [o]) key (shares !! key)).
  { intros H. specialize (Hs key). unfold share_ok in *.
    assert (E1 : has_entry key (done_ ++ [o]) = has_entry key done_).
    { rewrite has_entry_app. unfold has_entry at 2. cbn [existsb]. by rewrite H, !orb_false_r. }
    assert (E2 : fills key (done_ ++ [o]) = fills key done_).
    { rewrite fills_app. unfold fills at 2. cbn [List.filter]. rewrite H. apply Z.add_0_r. }
    by rewrite E1, E2. }
  destruct (not_an_entry o) eqn:Hne; [by apply Hskip|]. cbn [fst].
  destruct (decide (share_key o = key)) as [<-|Hk];
    [|rewrite lookup_insert_ne by done; apply Hskip; by rewrite bool_decide_false].
  rewrite lookup_insert_eq. specialize (Hs (share_key o)). unfold share_ok in *.
  rewrite has_entry_app, fills_app. unfold fills at 2, has_entry at 2. cbn.
  rewrite Hne, bool_decide_true by done. cbn. rewrite orb_true_r, Z.add_0_r. split; [done|].
  set (s0 := default _ _).
  assert (H0 : s0.(Share.EntryQty) = int64 (fills (share_key o) done_) /\
               strategy_key s0.(Share.StrategyID) = (share_key o).2).
  { unfold s0. destruct (shares !! share_key o) as [s|]; cbn [default]; [by destruct Hs as (_ & ? & ?)|].
    split; [|done]. cbn. unfold fills. replace (List.filter _ done_) with (@nil Order.t); [done|].
    clear -Hs. unfold has_entry in Hs. induction done_ as [|x l IH]; [done|]. cbn in *.
    apply orb_false_iff in Hs as [-> Hs]. by apply IH. }
  destruct H0 as [H1 H2]. clearbody s0.
  set (s1 := if s0.(Share.StrategyName) =?s "" then _ else s0).
  assert (E1 : s1.(Share.EntryQty) = s0.(Share.EntryQty) /\ s1.(Share.StrategyID) = s0.(Share.StrategyID))
    by (unfold s1; by destruct (_ =?s _)).
  destruct E1 as [E1 E2]. clearbody s1.
  destruct ((_ =?s "") || _); cbn; rewrite E1, E2, H1, int64_add_l; done.
Qed.

Lemma count_loop names orders : forall shares seen before,
  NoDup (Order.OrderID <$> orders) ->
  (forall o, o ∈ orders -> one_of (uuid_text o.(Order.OrderID)) seen = false) ->
  (forall key, share_ok before key (shares !! key)) ->
  forall key, share_ok (before ++ orders) key ((foldl (count names) (shares, seen) orders).1 !! key).
Proof.
  induction orders as [|o orders IH]; intros shares seen before Hnd Hseen Hs; [by rewrite app_nil_r|].
  cbn [fmap list_fmap] in Hnd. apply NoDup_cons in Hnd as [Hnew Hnd]. cbn [foldl].
  pose proof (count_share names shares seen before o (Hseen o ltac:(by left)) Hs) as H.
  assert (Hseen' : forall x, x ∈ orders ->
    one_of (uuid_text x.(Order.OrderID)) (count names (shares, seen) o).2 = false).
  { intros x Hx. pose proof (Hseen x ltac:(by right)) as Hx0. unfold count_order.
    destruct (not_an_entry o || _); [done|]. cbn [snd]. unfold one_of in *. cbn. rewrite Hx0, orb_false_r.
    apply String.eqb_neq. intros E%(inj uuid_text). apply Hnew, list_elem_of_fmap. by exists x. }
  destruct (count names (shares, seen) o) as [shares' seen']. cbn [fst snd] in *.
  replace (before ++ o :: orders) with ((before ++ [o]) ++ orders) by (by rewrite <- app_assoc).
  by apply IH.
Qed.

Lemma shares_of_spec orders key :
  NoDup (Order.OrderID <$> orders) -> share_ok orders key (shares_of ws_fields uuid_text orders !! key).
Proof.
  intros Hnd. unfold shares_of. apply (count_loop _ orders ∅ [] []); [done|done|].
  intros k. by rewrite lookup_empty.
Qed.

End Shares.

(** ** Properties *)

Definition in_range (bp : BrokerPosition.t) : Prop :=
  in_int64 bp.(BrokerPosition.NetQty) /\ in_int64 bp.(BrokerPosition.BuyQty) /\
  in_int64 bp.(BrokerPosition.SellQty).

Lemma symbol_keys (l : list (string * string * Share.t)) sym :
  (forall kv, kv ∈ l -> strategy_key kv.2.(Share.StrategyID) = kv.1.2) -> NoDup (fst <$> l) ->
  NoDup ((fun s => strategy_key s.(Share.StrategyID)) <$> symbol_shares l sym) /\
  forall k, k ∈ (fun s => strategy_key s.(Share.StrategyID)) <$> symbol_shares l sym <->
            (sym, k) ∈ (fst <$> l).
Proof.
  unfold symbol_shares. induction l as [|[[y k] s] l IH]; intros Hl Hnd.
  - split; [constructor|]. intros k. by rewrite !elem_of_nil.
  - cbn [fmap list_fmap] in Hnd. apply NoDup_cons in Hnd as [Hnew Hnd].
    destruct IH as [IH1 IH2]; [intros kv Hkv; apply Hl; by right|done|].
    pose proof (Hl (y, k, s) ltac:(by left)) as Hk. cbn [fst snd] in *. cbn [List.filter fst].
    destruct (String.eqb_spec y sym) as [->|Hy].
    + cbn [fmap list_fmap fst snd]. rewrite Hk. split.
      * apply NoDup_cons. split; [|done]. by rewrite IH2.
      * intros k'. rewrite !elem_of_cons, IH2. split; (intros [E|E]; [left|by right]); congruence.
    + split; [done|]. intros k'. rewrite IH2. cbn [fmap list_fmap fst]. rewrite elem_of_cons.
      split; [by right|]. intros [E|E]; congruence.
Qed.

Section Rows.

Context (ws_fields : string -> option (string * string)) (uuid_text : uuid -> string)
  `{!Inj (=) (=) uuid_text}
  (iter : list (string * string * Share.t) -> list (string * string * Share.t))
  (scan : nat -> list string -> list string) (Hiter : forall l, iter l ≡ₚ l)
  (orders : list Order.t) (Hids : NoDup (Order.OrderID <$> orders)).

Definition listed : list (string * string * Share.t) :=
  iter (map_to_list (shares_of ws_fields uuid_text orders)).

Lemma listed_elem kv : kv ∈ listed <-> shares_of ws_fields uuid_text orders !! kv.1 = Some kv.2.
Proof. unfold listed. rewrite Hiter. destruct kv. apply elem_of_map_to_list. Qed.

Lemma listed_keys kv : kv ∈ listed -> strategy_key kv.2.(Share.StrategyID) = kv.1.2.
Proof.
  rewrite listed_elem. intros H. pose proof (shares_of_spec ws_fields uuid_text orders kv.1 Hids) as Hs.
  rewrite H in Hs. apply Hs.
Qed.

Lemma listed_NoDup : NoDup (fst <$> listed).
Proof. unfold listed. rewrite (fmap_Permutation fst _ _ (Hiter _)). apply NoDup_fst_map_to_list. Qed.

Lemma listed_has key : key ∈ (fst <$> listed) <-> has_entry key orders = true.
Proof.
  pose proof (shares_of_spec ws_fields uuid_text orders key Hids) as Hs. rewrite list_elem_of_fmap. split.
  - intros (kv & -> & H). apply listed_elem in H. rewrite H in Hs. apply Hs.
  - intros H. destruct (shares_of ws_fields uuid_text orders !! key) as [s|] eqn:E;
      [|cbn in Hs; congruence]. exists (key, s). split; [done|]. by apply listed_elem.
Qed.

Lemma owners_NoDup i bp :
  NoDup ((fun s => strategy_key s.(Share.StrategyID)) <$> owners scan listed i bp).
Proof.
  assert (G : forall sym, NoDup ((fun s => strategy_key s.(Share.StrategyID)) <$> symbol_shares listed sym))
    by (intros sym; apply symbol_keys; [apply listed_keys|apply listed_NoDup]).
  unfold owners. destruct (symbol_shares listed _) as [|s l] eqn:E.
  - destruct (List.find _ _); [apply G|constructor].
  - rewrite <- E. apply G.
Qed.

(** What the rows of one position are. *)
Definition rows_ok (bp : BrokerPosition.t) (rows : list AlgoPosition.t) : Prop :=
  (inactive bp = true -> rows = []) /\
  (inactive bp = false ->
     int64 (sum_of net_of rows) = bp.(BrokerPosition.NetQty) /\
     int64 (sum_of buy_of rows) = bp.(BrokerPosition.BuyQty) /\
     int64 (sum_of sell_of rows) = bp.(BrokerPosition.SellQty) /\
     NoDup (AlgoPosition.StrategyID <$> rows) /\
     forall sym, sym = normalizeSymbol bp.(BrokerPosition.Symbol) ->
       (exists o, o ∈ orders /\ not_an_entry o = false /\ normalizeSymbol o.(Order.Symbol) = sym) ->
       forall k, k ∈ (fun p => strategy_key p.(AlgoPosition.StrategyID)) <$> rows <->
         exists o, o ∈ orders /\ not_an_entry o = false /\ share_key o = (sym, k)).

Lemma has_entry_iff key :
  has_entry key orders = true <-> exists o, o ∈ orders /\ not_an_entry o = false /\ share_key o = key.
Proof.
  unfold has_entry. rewrite existsb_exists. split; intros (o & Hin & H).
  - apply andb_prop in H as [H1%negb_true_iff H2%bool_decide_eq_true]. exists o.
    by rewrite list_elem_of_In.
  - exists o. rewrite <- list_elem_of_In. destruct H as [-> <-]. by rewrite bool_decide_true.
Qed.

Lemma rows_of_position i bp :
  in_range bp -> rows_ok bp (if inactive bp then [] else position_rows bp (owners scan listed i bp)).
Proof.
  intros (Hn & Hb & Hs). unfold rows_ok. destruct (inactive bp); [done|]. split; [done|]. intros _.
  destruct (position_rows_spec bp (owners scan listed i bp) Hn Hb Hs) as (-> & -> & -> & Hrows).
  do 3 (split; [done|]). pose proof (owners_NoDup i bp) as Hnd. split.
  - rewrite Hrows. destruct (owners scan listed i bp) as [|s l]; [apply NoDup_singleton|].
    rewrite (list_fmap_compose Share.StrategyID strategy_key) in Hnd. by apply NoDup_fmap_1 in Hnd.
  - intros sym -> Hex k. set (sym := normalizeSymbol _) in *.
    assert (Hk : (fun p => strategy_key p.(AlgoPosition.StrategyID)) <$>
        position_rows bp (owners scan listed i bp) =
      strategy_key <$> (AlgoPosition.StrategyID <$> position_rows bp (owners scan listed i bp)))
      by apply (list_fmap_compose AlgoPosition.StrategyID strategy_key).
    destruct (symbol_keys listed sym listed_keys listed_NoDup) as [_ Hsym].
    assert (Hown : owners scan listed i bp = symbol_shares listed sym /\ symbol_shares listed sym <> []).
    { assert (Hx : symbol_shares listed sym <> []).
      { destruct Hex as (o & Hin & Hne & Ho). intros Hnil.
        assert (Hkey : share_key o = (sym, (share_key o).2)) by (unfold share_key; by rewrite Ho).
        assert (Hl : (sym, (share_key o).2) ∈ (fst <$> listed))
          by (apply listed_has, has_entry_iff; by exists o).
        apply Hsym in Hl. rewrite Hnil in Hl. by apply not_elem_of_nil in Hl. }
      split; [|done]. unfold owners. fold sym. by destruct (symbol_shares listed sym). }
    destruct Hown as [Hown Hne]. rewrite Hk, Hrows, Hown.
    replace (match symbol_shares listed sym with [] => [""] | _ => Share.StrategyID <$> symbol_shares listed sym end)
      with (Share.StrategyID <$> symbol_shares listed sym) by (by destruct (symbol_shares listed sym)).
    rewrite <- (list_fmap_compose Share.StrategyID strategy_key), <- has_entry_iff, <- listed_has.
    apply Hsym.
Qed.

End Rows.

(** C25: What a user is shown of a broker account adds up to it: the rows of each
    position have the net, bought and sold quantities of the position as their
    sums, whichever way the parts were rounded and the maps were ranged over; a
    strategy has one row at most, and when open entries have the symbol of the
    position, the rows are those of exactly the strategies of these entries. *)
Theorem positions_add_up (ws_fields : string -> option (string * string)) (uuid_text : uuid -> string)
    (Hinj : Inj (=) (=) uuid_text)
    (iter : list (string * string * Share.t) -> list (string * string * Share.t))
    (scan : nat -> list string -> list string) (bps : list BrokerPosition.t) (orders : list Order.t)
    (Hiter : forall l, iter l ≡ₚ l) (Hids : NoDup (Order.OrderID <$> orders))
    (Hrange : Forall in_range bps) :
  exists groups, enrichPositions ws_fields uuid_text iter scan bps orders = concat groups /\
    Forall2 (rows_ok orders) bps groups.
Proof.
  unfold enrichPositions. generalize 0%nat. induction Hrange as [|bp bps Hbp _ IH]; intros i.
  - exists []. by split.
  - destruct (IH (S i)) as (groups & E & H). cbn [enrich_from]. rewrite E.
    eexists (_ :: groups). split; [reflexivity|]. constructor; [|done].
    by apply (rows_of_position ws_fields uuid_text iter scan Hiter orders Hids i bp).
Qed.

(** Of two strategies that hold a position each is given a part of what was
    bought and sold between nothing and all of it.  With more strategies this
    fails, see [four_strategies_negative]. *)
Theorem two_way_split_in_range (bp : BrokerPosition.t) (s1 s2 : Share.t)
    (Hbuy : (0 <= bp.(BrokerPosition.BuyQty) < 2 ^ 52)%Z) (Hsell : (0 <= bp.(BrokerPosition.SellQty) < 2 ^ 52)%Z)
    (H1 : (0 <= s1.(Share.EntryQty) < 2 ^ 51)%Z) (H2 : (0 <= s2.(Share.EntryQty) < 2 ^ 51)%Z) :
  Forall (fun p => 0 <= buy_of p <= bp.(BrokerPosition.BuyQty) /\
                   0 <= sell_of p <= bp.(BrokerPosition.SellQty))%Z (position_rows bp [s1; s2]).
Proof.
  assert (Ht : exists t, total_entry [s1; s2] = t /\ (s1.(Share.EntryQty) <= t /\ 0 < t < 2 ^ 53)%Z).
  { eexists. split; [reflexivity|]. unfold total_entry. cbn [foldl].
    rewrite Z.add_0_l, (int64_id s1.(Share.EntryQty)) by (unfold in_int64; lia).
    rewrite int64_id by (unfold in_int64; lia). destruct (Z.eqb_spec (s1.(Share.EntryQty) + s2.(Share.EntryQty)) 0); lia. }
  destruct Ht as (t & Ht & Ha & Hb). cbn [position_rows split_rows]. rewrite Ht.
  assert (Hr : forall s a b c, buy_of (split_row bp t s a b c) = b /\ sell_of (split_row bp t s a b c) = c)
    by (intros s a b c; unfold split_row; by destruct (_ || _)).
  pose proof (part_bounds bp.(BrokerPosition.BuyQty) _ t Hbuy (conj (proj1 H1) Ha) Hb) as Pb.
  pose proof (part_bounds bp.(BrokerPosition.SellQty) _ t Hsell (conj (proj1 H1) Ha) Hb) as Ps.
  fold (ratio s1 t) in Pb, Ps. constructor; [|constructor; [|constructor]].
  - destruct (Hr s1 (part bp.(BrokerPosition.NetQty) (ratio s1 t)) (part bp.(BrokerPosition.BuyQty) (ratio s1 t))
      (part bp.(BrokerPosition.SellQty) (ratio s1 t))) as [-> ->]. by split.
  - rewrite !Z.add_0_l. match goal with |- (_ <= buy_of (split_row _ _ _ ?a ?b ?c) <= _)%Z /\ _ =>
      destruct (Hr s2 a b c) as [-> ->] end.
    set (pb := part _ (ratio s1 t)) in *. set (ps := part (BrokerPosition.SellQty bp) _) in *.
    rewrite (int64_id pb), (int64_id ps) by (unfold in_int64; lia).
    rewrite !int64_id by (unfold in_int64; lia). lia.
Qed.

(** ** At concrete positions *)

Definition sample_entry (id : uuid) (strategy symbol : string) (qty : Z) : Order.t :=
  Order.zero <| Order.OrderID := id |> <| Order.StrategyID := strategy |>
    <| Order.StrategyName := strategy |> <| Order.Symbol := symbol |> <| Order.OrderSide := "BUY" |>
    <| Order.Status := "FILLED" |> <| Order.FilledQuantity := qty |>.

Definition sample_bought (symbol : string) (qty : Z) : BrokerPosition.t :=
  BrokerPosition.mk symbol "NSE" "INTRADAY" qty qty 0 (of_Z 100) fzero (of_Z 101) (of_Z qty) fzero 1.

Definition sample_enrich (bps : list BrokerPosition.t) (orders : list Order.t) : list AlgoPosition.t :=
  enrichPositions (fun _ => None) (pretty : uuid -> string) (fun l => l) (fun _ l => l) bps orders.

Definition shown (p : AlgoPosition.t) : string * Z := (p.(AlgoPosition.StrategyID), buy_of p).

Lemma positions_add_up_witness :
  let bps := [sample_bought "INFY-EQ" 10; sample_bought "TCS" 4] in
  let orders := [sample_entry 1 "a" "INFY" 3; sample_entry 2 "b" "infy" 6; sample_entry 3 "b" "INFY-BE" 1] in
  shown <$> sample_enrich bps orders = [("a", 3%Z); ("b", 7%Z); ("", 4%Z)] /\
  exists groups, sample_enrich bps orders = concat groups /\ Forall2 (rows_ok orders) bps groups.
Proof.
  intros bps orders. split; [vm_compute; reflexivity|].
  apply (positions_add_up (fun _ => None) pretty _ (fun l => l) (fun _ l => l) bps orders); [done| |].
  - apply (bool_decide_unpack _). vm_compute. exact I.
  - repeat constructor; vm_compute; discriminate.
Defined.

Lemma two_way_split_in_range_witness :
  let s := Share.mk "a" "a" "LIVE" 3 "1" "" "BUY" in
  Forall (fun p => 0 <= buy_of p <= 10 /\ 0 <= sell_of p <= 0)%Z (position_rows (sample_bought "INFY" 10) [s; s]).
Proof. intros s. apply (two_way_split_in_range (sample_bought "INFY" 10) s s); cbn; lia. Defined.

(** Four strategies with equal entries share two stocks as 1, 1, 1 and -1. *)
Example four_strategies_negative :
  shown <$> sample_enrich [sample_bought "INFY" 2]
    [sample_entry 1 "a" "INFY" 1; sample_entry 2 "b" "INFY" 1; sample_entry 3 "c" "INFY" 1; sample_entry 4 "d" "INFY" 1]
  = [("c", 1%Z); ("a", 1%Z); ("b", 1%Z); ("d", (-1)%Z)].
Proof. vm_compute. reflexivity. Qed.

(** A position the user holds by hand is shown as the one of a strategy that
    trades another stock whose symbol is a prefix. *)
Example manual_position_attributed :
  shown <$> sample_enrich [sample_bought "HDFCBANK" 5] [sample_entry 1 "a" "HDFC" 1] = [("a", 5%Z)].
Proof. vm_compute. reflexivity. Qed.

(** An order without a time that is seen first stays the entry of its share,
    whenever the others were filled. *)
Example untimed_entry_stays :
  let timed := sample_entry 2 "a" "INFY" 1 <| Order.ExecutedAt := Some 0%Z |> in
  (fun p => (p.(AlgoPosition.OrderID), p.(AlgoPosition.ExecutedAt))) <$>
    sample_enrich [sample_bought "INFY" 2] [sample_entry 1 "a" "INFY" 1; timed] = [("1", "")] /\
  (fun p => (p.(AlgoPosition.OrderID), p.(AlgoPosition.ExecutedAt))) <$>
    sample_enrich [sample_bought "INFY" 2] [timed; sample_entry 1 "a" "INFY" 1]
  = [("2", "1970-01-01T05:30:00+05:30")].
Proof. vm_compute. auto. Qed.
