(* ===== verification/Credentials.v ===== *)
(** * Base64 and the credentials of the users

    First the encoding: [base64.StdEncoding] of Go's standard library: the encoding with padding, and
    [DecodeString], which skips line ends and does not look at the bits that are
    left over.  A string is the sequence of its bytes. *)

From stdpp Require Import base tactics option strings list gmap.
From Stdlib Require Import NArith Lia Ascii ZArith.
From S2P Require Import Prelude GoFloat GoStrings Orders OrderRepo OCOTypes Broker Signals Executor.
From S2P Require Import SignalProcessor SquareOff StrategyEvents UCModels UCRepo.
From S2P Require Import UCWorker UCService UCSamples UCServiceProps GatewayHttp Gateway.

Open Scope string_scope.
Open Scope list_scope.
Open Scope N_scope.

Definition b64_char (n : N) : ascii :=
  ascii_of_N (if n <? 26 then 65 + n else if n <? 52 then 71 + n else if n <? 62 then n - 4
              else if n =? 62 then 43 else 47).

Definition b64_value (c : ascii) : option N :=
  let n := N_of_ascii c in
  if (65 <=? n) && (n <=? 90) then Some (n - 65)
  else if (97 <=? n) && (n <=? 122) then Some (n - 71)
  else if (48 <=? n) && (n <=? 57) then Some (n + 4)
  else if n =? 43 then Some 62 else if n =? 47 then Some 63 else None.

(** The four digits of three bytes. *)
Definition digit1 (a : N) : ascii := b64_char (a / 4).
Definition digit2 (a b : N) : ascii := b64_char (a mod 4 * 16 + b / 16).
Definition digit3 (b c : N) : ascii := b64_char (b mod 16 * 4 + c / 64).
Definition digit4 (c : N) : ascii := b64_char (c mod 64).

Fixpoint EncodeToString (s : string) : string :=
  match s with
  | "" => ""
  | String a "" =>
      let a := N_of_ascii a in String (digit1 a) (String (digit2 a 0) "==")
  | String a (String b "") =>
      let a := N_of_ascii a in let b := N_of_ascii b in
      String (digit1 a) (String (digit2 a b) (String (digit3 b 0) "="))
  | String a (String b (String c s)) =>
      let a := N_of_ascii a in let b := N_of_ascii b in let c := N_of_ascii c in
      String (digit1 a) (String (digit2 a b) (String (digit3 b c) (String (digit4 c) (EncodeToString s))))
  end.

Definition byte1 (x y : N) : ascii := ascii_of_N (x * 4 + y / 16).
Definition byte2 (y z : N) : ascii := ascii_of_N (y mod 16 * 16 + z / 4).
Definition byte3 (z w : N) : ascii := ascii_of_N (z mod 4 * 64 + w).

Fixpoint decode_quanta (s : string) : option string :=
  match s with
  | "" => Some ""
  | String p (String q (String r (String t s))) =>
      x ← b64_value p; y ← b64_value q;
      if Ascii.eqb r "=" then
        (if Ascii.eqb t "=" && String.eqb s "" then Some (String (byte1 x y) "") else None)
      else
        z ← b64_value r;
        if Ascii.eqb t "=" then
          (if String.eqb s "" then Some (String (byte1 x y) (String (byte2 y z) "")) else None)
        else
          w ← b64_value t; s ← decode_quanta s;
          Some (String (byte1 x y) (String (byte2 y z) (String (byte3 z w) s)))
  | _ => None
  end.

Definition line_end (c : ascii) : bool := (N_of_ascii c =? 10) || (N_of_ascii c =? 13).

Fixpoint without_line_ends (s : string) : string :=
  match s with
  | "" => ""
  | String c s => if line_end c then without_line_ends s else String c (without_line_ends s)
  end.

Definition DecodeString (s : string) : option string := decode_quanta (without_line_ends s).

Example encode_text : EncodeToString "Man" = "TWFu" /\ EncodeToString "Ma" = "TWE=" /\ EncodeToString "M" = "TQ==".
Proof. vm_compute. auto. Qed.

Example decode_loose : DecodeString "TR==" = Some "M" /\ DecodeString "TQ=" = None /\ DecodeString "TQ==T" = None.
Proof. vm_compute. auto. Qed.

(** ** The round trip *)

(** A digit is read back, and is neither padding nor a line end. *)
Definition good_digit (n : N) : bool :=
  bool_decide (b64_value (b64_char n) = Some n) && negb (Ascii.eqb (b64_char n) "=")
  && negb (line_end (b64_char n)).

Lemma good_digits : forallb (fun k => good_digit (N.of_nat k)) (seq 0 64) = true.
Proof. vm_compute. reflexivity. Qed.

Lemma digit_ok n :
  n < 64 -> b64_value (b64_char n) = Some n /\ Ascii.eqb (b64_char n) "=" = false /\ line_end (b64_char n) = false.
Proof.
  intros Hn. pose proof good_digits as H. rewrite forallb_forall in H.
  specialize (H (N.to_nat n)). rewrite N2Nat.id in H.
  assert (Hin : In (N.to_nat n) (seq 0 64)) by (apply in_seq; lia).
  specialize (H Hin). unfold good_digit in H.
  apply andb_prop in H as [[H1%bool_decide_eq_true H2%negb_true_iff]%andb_prop H3%negb_true_iff]. auto.
Qed.

Lemma split_digit q x d : x < d -> (q * d + x) / d = q /\ (q * d + x) mod d = x.
Proof.
  intros Hx. assert (Hd : d <> 0) by lia. split.
  - rewrite N.div_add_l, N.div_small, N.add_0_r by done. done.
  - rewrite N.add_comm, N.Div0.mod_add. by apply N.mod_small.
Qed.

Lemma join_digit a d : d <> 0 -> a / d * d + a mod d = a.
Proof. intros Hd. rewrite N.mul_comm. symmetry. by apply N.div_mod. Qed.

Lemma digits_small a b c :
  a < 256 -> b < 256 -> c < 256 ->
  a / 4 < 64 /\ a mod 4 * 16 + b / 16 < 64 /\ b mod 16 * 4 + c / 64 < 64 /\ c mod 64 < 64 /\
  b / 16 < 16 /\ c / 64 < 4.
Proof.
  intros Ha Hb Hc.
  assert (a / 4 < 64) by (apply N.Div0.div_lt_upper_bound; lia).
  assert (b / 16 < 16) by (apply N.Div0.div_lt_upper_bound; lia).
  assert (c / 64 < 4) by (apply N.Div0.div_lt_upper_bound; lia).
  pose proof (N.mod_lt a 4 ltac:(done)). pose proof (N.mod_lt b 16 ltac:(done)).
  pose proof (N.mod_lt c 64 ltac:(done)). lia.
Qed.

Lemma bytes_back a b c :
  a < 256 -> b < 256 -> c < 256 ->
  a / 4 * 4 + (a mod 4 * 16 + b / 16) / 16 = a /\
  (a mod 4 * 16 + b / 16) mod 16 * 16 + (b mod 16 * 4 + c / 64) / 4 = b /\
  (b mod 16 * 4 + c / 64) mod 4 * 64 + c mod 64 = c.
Proof.
  intros Ha Hb Hc. destruct (digits_small a b c Ha Hb Hc) as (_ & _ & _ & _ & K1 & K2).
  destruct (split_digit (a mod 4) (b / 16) 16 K1) as [-> ->].
  destruct (split_digit (b mod 16) (c / 64) 4 K2) as [-> ->].
  rewrite !join_digit by done. done.
Qed.

Lemma bytes_of_digits (x y z : ascii) (a := N_of_ascii x) (b := N_of_ascii y) (c := N_of_ascii z) :
  byte1 (a / 4) (a mod 4 * 16 + b / 16) = x /\
  byte2 (a mod 4 * 16 + b / 16) (b mod 16 * 4 + c / 64) = y /\
  byte3 (b mod 16 * 4 + c / 64) (c mod 64) = z.
Proof.
  destruct (bytes_back a b c (N_ascii_bounded x) (N_ascii_bounded y) (N_ascii_bounded z)) as (E1 & E2 & E3).
  unfold byte1, byte2, byte3. rewrite E1, E2, E3. subst a b c. by rewrite !ascii_N_embedding.
Qed.

(** Three bytes at a time. *)
Lemma string_ind3 (P : string -> Prop) :
  P "" -> (forall a, P (String a "")) -> (forall a b, P (String a (String b ""))) ->
  (forall a b c s, P s -> P (String a (String b (String c s)))) -> forall s, P s.
Proof.
  intros H0 H1 H2 H3. fix IH 1. intros [|a [|b [|c s]]]; [exact H0|apply H1|apply H2|apply H3, IH].
Qed.

Lemma encode_no_line_ends s : without_line_ends (EncodeToString s) = EncodeToString s.
Proof.
  induction s as [|a|a b|a b c s IH] using string_ind3; [done|..];
    pose proof (N_ascii_bounded a) as Ha.
  - destruct (digits_small (N_of_ascii a) 0 0 Ha) as (K1 & K2 & _); [lia|lia|].
    cbn -[b64_char]. unfold digit1, digit2.
    rewrite (proj2 (proj2 (digit_ok _ K1))), (proj2 (proj2 (digit_ok _ K2))). done.
  - pose proof (N_ascii_bounded b) as Hb.
    destruct (digits_small (N_of_ascii a) (N_of_ascii b) 0 Ha Hb) as (K1 & K2 & K3 & _); [lia|].
    cbn -[b64_char]. unfold digit1, digit2, digit3.
    rewrite (proj2 (proj2 (digit_ok _ K1))), (proj2 (proj2 (digit_ok _ K2))), (proj2 (proj2 (digit_ok _ K3))). done.
  - pose proof (N_ascii_bounded b) as Hb. pose proof (N_ascii_bounded c) as Hc.
    destruct (digits_small _ _ _ Ha Hb Hc) as (K1 & K2 & K3 & K4 & _).
    cbn -[b64_char]. unfold digit1, digit2, digit3, digit4.
    rewrite (proj2 (proj2 (digit_ok _ K1))), (proj2 (proj2 (digit_ok _ K2))), (proj2 (proj2 (digit_ok _ K3))),
      (proj2 (proj2 (digit_ok _ K4))), IH. done.
Qed.

Lemma base64_round_trip s : DecodeString (EncodeToString s) = Some s.
Proof.
  unfold DecodeString. rewrite encode_no_line_ends.
  induction s as [|a|a b|a b c s IH] using string_ind3; [done|..];
    pose proof (N_ascii_bounded a) as Ha.
  - destruct (digits_small (N_of_ascii a) 0 0 Ha) as (K1 & K2 & _); [lia|lia|].
    cbn -[b64_char]. unfold digit1, digit2. rewrite (proj1 (digit_ok _ K1)), (proj1 (digit_ok _ K2)).
    cbn -[byte1]. exact (f_equal (fun x => Some (String x "")) (proj1 (bytes_of_digits a "000"%char "000"%char))).
  - pose proof (N_ascii_bounded b) as Hb.
    destruct (digits_small (N_of_ascii a) (N_of_ascii b) 0 Ha Hb) as (K1 & K2 & K3 & _); [lia|].
    destruct (digit_ok _ K3) as (D3 & P3 & _).
    cbn -[b64_char]. unfold digit1, digit2, digit3.
    rewrite (proj1 (digit_ok _ K1)), (proj1 (digit_ok _ K2)). cbn -[b64_char byte1 byte2].
    rewrite P3, D3. cbn -[byte1 byte2].
    destruct (bytes_of_digits a b "000"%char) as (E1 & E2 & _). rewrite E1.
    exact (f_equal (fun x => Some (String a (String x ""))) E2).
  - pose proof (N_ascii_bounded b) as Hb. pose proof (N_ascii_bounded c) as Hc.
    destruct (digits_small _ _ _ Ha Hb Hc) as (K1 & K2 & K3 & K4 & _).
    destruct (digit_ok _ K3) as (D3 & P3 & _), (digit_ok _ K4) as (D4 & P4 & _).
    cbn -[b64_char]. unfold digit1, digit2, digit3, digit4.
    rewrite (proj1 (digit_ok _ K1)), (proj1 (digit_ok _ K2)). cbn -[b64_char byte1 byte2 byte3].
    rewrite P3, D3. cbn -[b64_char byte1 byte2 byte3]. rewrite P4, D4. cbn -[byte1 byte2 byte3].
    rewrite IH. cbn -[byte1 byte2 byte3]. destruct (bytes_of_digits a b c) as (E1 & E2 & E3). by rewrite E1, E2, E3.
Qed.

(** ** Credentials of the users at the broker

    [pkg/crypto/crypto.go], the credentials repository of the user-config service,
    which writes the table [broker_accounts], and the one of the trade execution,
    which reads it; both are connected to the components that use them: the
    gateway's activation of a strategy on one side, the credentials cache of the
    executor on the other.

    AES-GCM is a parameter, [seal] and [open] of a key, a nonce and a text.  The
    randomness of the nonces is a list, the failures of statements another.  The
    lengths of columns are counted in bytes. *)

Open Scope go_scope.

(** ** [crypto.go] *)

Definition key_ok (key : string) : bool :=
  let n := String.length key in Nat.eqb n 32 || Nat.eqb n 16 || Nat.eqb n 24.

Definition NonceSize : nat := 12.

Inductive CryptoError : Type := ErrInvalidKeySize | ErrRandom.

Section Cipher.

Context (seal : string -> string -> string -> string) (open : string -> string -> string -> option string).

(** [nonce] is what the random generator gave, or its failure. *)
Definition Encrypt (nonce : option string) (plaintext key : string) : CryptoError + string :=
  if negb (key_ok key) then inl ErrInvalidKeySize
  else match nonce with
       | None => inl ErrRandom
       | Some n => inr (EncodeToString (n ++ seal key n plaintext)%string)
       end.

Definition take_bytes (n : nat) (s : string) : string := Stdlib.Strings.String.substring 0 n s.
Definition drop_bytes (n : nat) (s : string) : string :=
  Stdlib.Strings.String.substring n (String.length s - n) s.

(** Whatever cannot be decrypted is taken for a token that was stored as it is. *)
Definition Decrypt (cryptoText key : string) : CryptoError + string :=
  if cryptoText =?s "" then inr ""
  else if negb (key_ok key) then inl ErrInvalidKeySize
  else match DecodeString cryptoText with
       | None => inr cryptoText
       | Some b =>
           if Nat.ltb (String.length b) NonceSize then inr cryptoText
           else inr (default cryptoText (open key (take_bytes NonceSize b) (drop_bytes NonceSize b)))
       end.

(** ** The tables *)

Record Account : Type := mkAccount {
  broker_user_id : string;
  app_id : string;
  source : string;
  bearer_token : string
}.

(** [legacy] is the table [user_credentials], which the migrations do not create. *)
Record CredsDB : Type := mkCreds {
  accounts : gmap string Account;
  legacy : option (gmap string Account);
  nonces : list (option string);
  creds_faults : list bool
}.

#[global] Instance eta_creds : Eta CredsDB := fun d =>
  mkCreds d.(accounts) d.(legacy) d.(nonces) d.(creds_faults).

Definition next_nonce (d : CredsDB) : option string * CredsDB :=
  match d.(nonces) with
  | [] => (None, d)
  | n :: l => (n, d <| nonces := l |>)
  end.

Definition next_fault (d : CredsDB) : bool * CredsDB :=
  match d.(creds_faults) with
  | [] => (false, d)
  | b :: l => (b, d <| creds_faults := l |>)
  end.

(** [VARCHAR(n)]. *)
Definition fits (n : nat) (s : string) : bool := Nat.leb (String.length s) n.

(** The upsert both services send. *)
Definition sqlUpsertAccount (userID : string) (a : Account) (d : CredsDB) : CredsDB * bool :=
  let '(fails, d) := next_fault d in
  if fails || negb (fits 50 userID && fits 100 a.(broker_user_id) && fits 100 a.(app_id) && fits 20 a.(source))
  then (d, false)
  else (d <| accounts := <[userID := a]> d.(accounts) |>, true).

(** ** The repository of the user-config service *)

Definition StoreForUser (key userID indiraUserID appID src bearerToken : string) (d : CredsDB)
    : CredsDB * option CredsError :=
  if (userID =?s "") || (bearerToken =?s "") then (d, Some ErrCredsMissing)
  else
    let '(nonce, d') := if key_ok key then next_nonce d else (None, d) in
    match Encrypt nonce bearerToken key with
    | inl _ => (d', Some ErrEncryption)
    | inr token =>
        let '(d, ok) := sqlUpsertAccount userID (mkAccount indiraUserID appID src token) d' in
        (d, if ok then None else Some ErrCredsStore)
    end.

Definition execution_credentials (key : string) : CredentialsRepository CredsDB :=
  MkCreds CredsDB (StoreForUser key).

(** Without a database of the trade execution. *)
Definition NewNoopCredentialsRepository : CredentialsRepository CredsDB :=
  MkCreds CredsDB (fun _ _ _ _ _ d => (d, None)).

(** ** The repository of the trade execution *)

Definition StoreIndira (key userID brokerUserID appId src bearerToken : string) (d : CredsDB)
    : CredsDB * option string :=
  let '(nonce, d') := if key_ok key then next_nonce d else (None, d) in
  match Encrypt nonce bearerToken key with
  | inl _ => (d', Some "encryption failed")
  | inr token =>
      let '(d, ok) := sqlUpsertAccount userID (mkAccount brokerUserID appId src token) d' in
      (d, if ok then None else Some "statement failed")
  end.

Definition ErrCredentialsNotFound : string := "credentials not found".

Definition with_token (key : string) (a : Account) : string + AuthContext :=
  match Decrypt a.(bearer_token) key with
  | inl _ => inl "invalid encryption key size: must be 32 bytes for AES-256"
  | inr t => inr (mkAuth a.(broker_user_id) a.(app_id) a.(source) t)
  end.

Definition fromUserCredentials (key userID : string) (d : CredsDB) : string + AuthContext :=
  match d.(legacy) with
  | None => inl "relation user_credentials does not exist"
  | Some m => match m !! userID with
              | None => inl ErrCredentialsNotFound
              | Some a => with_token key a
              end
  end.

(** A read that does not fail. *)
Definition GetIndiraCredentials (key : string) (d : CredsDB) (userID : string) : string + AuthContext :=
  match d.(accounts) !! userID with
  | Some a => with_token key a
  | None => fromUserCredentials key userID d
  end.

(** ** The cache under interleaving

    A miss of [Get] loads without the lock and stores afterwards; in between the
    credentials may be stored anew and the cache invalidated. *)
Inductive CacheStep : Type :=
  | Load (userID : string)     (** a [Get] that missed, up to the answer of the database *)
  | Put (userID : string)      (** the rest of the oldest such [Get] of the user *)
  | Rotate (userID app src token : string)   (** [StoreForUser] for the user *)
  | Evict (userID : string).   (** [Invalidate] *)

Record CacheWorld : Type := mkWorld {
  cw_db : CredsDB;
  cw_cache : gmap string AuthContext;
  cw_loading : list (string * AuthContext)
}.

Fixpoint take_loaded (u : string) (l : list (string * AuthContext))
    : option AuthContext * list (string * AuthContext) :=
  match l with
  | [] => (None, [])
  | (v, a) :: l => if v =?s u then (Some a, l) else let '(r, l) := take_loaded u l in (r, (v, a) :: l)
  end.

Definition cache_step (ukey tkey : string) (s : CacheStep) (w : CacheWorld) : CacheWorld :=
  match s with
  | Load u =>
      match w.(cw_cache) !! u, GetIndiraCredentials tkey w.(cw_db) u with
      | None, inr a => mkWorld w.(cw_db) w.(cw_cache) (w.(cw_loading) ++ [(u, a)])
      | _, _ => w
      end
  | Put u =>
      match take_loaded u w.(cw_loading) with
      | (Some a, l) => mkWorld w.(cw_db) (<[u := a]> w.(cw_cache)) l
      | (None, _) => w
      end
  | Rotate u app src token => mkWorld (StoreForUser ukey u u app src token w.(cw_db)).1 w.(cw_cache) w.(cw_loading)
  | Evict u => mkWorld w.(cw_db) (delete u w.(cw_cache)) w.(cw_loading)
  end.

Definition cache_run (ukey tkey : string) : list CacheStep -> CacheWorld -> CacheWorld :=
  fold_left (fun w s => cache_step ukey tkey s w).

(** ** What is stored is read back *)

(** What the code relies on: a text is opened under its key and nonce. *)
Definition opens_sealed : Prop := forall k n p, open k n (seal k n p) = Some p.

Lemma substring_app_l s t : Stdlib.Strings.String.substring 0 (String.length s) (s ++ t)%string = s.
Proof.
  induction s as [|c s IH]; [by destruct t|]. change (String c s ++ t)%string with (String c (s ++ t)).
  cbn. by rewrite IH.
Qed.

Lemma substring_all t : Stdlib.Strings.String.substring 0 (String.length t) t = t.
Proof. induction t as [|c t IH]; [done|]. cbn. by rewrite IH. Qed.

Lemma substring_app_r s t :
  Stdlib.Strings.String.substring (String.length s) (String.length t) (s ++ t)%string = t.
Proof. induction s as [|c s IH]; [apply substring_all|]. exact IH. Qed.

Lemma length_append s t : String.length (s ++ t)%string = (String.length s + String.length t)%nat.
Proof. induction s as [|c s IH]; [done|]. exact (f_equal S IH). Qed.

Lemma sealed_bytes n c :
  String.length n = NonceSize ->
  String.length (n ++ c)%string = (NonceSize + String.length c)%nat /\
  take_bytes NonceSize (n ++ c)%string = n /\ drop_bytes NonceSize (n ++ c)%string = c.
Proof.
  intros Hn. rewrite length_append, Hn. split; [done|]. unfold take_bytes, drop_bytes. rewrite <- Hn at 1.
  split; [apply substring_app_l|]. rewrite length_append, Hn, Nat.add_comm, Nat.add_sub, <- Hn.
  apply substring_app_r.
Qed.

Lemma encode_nonempty s : s <> "" -> EncodeToString s <> "".
Proof. destruct s as [|a [|b [|c s]]]; done. Qed.

(** Decryption of a sealed text, under any key. *)
Lemma decrypt_sealed (key n c : string) :
  key_ok key = true -> String.length n = NonceSize ->
  Decrypt (EncodeToString (n ++ c)%string) key =
  inr (default (EncodeToString (n ++ c)%string) (open key n c)).
Proof.
  intros Hk Hn. unfold Decrypt. destruct (sealed_bytes n c Hn) as (Hl & Ht & Hd).
  assert (Hne : (n ++ c)%string <> "") by (destruct n; [discriminate Hn|done]).
  rewrite (proj2 (String.eqb_neq _ _) (encode_nonempty _ Hne)), Hk. cbn [negb].
  rewrite base64_round_trip, Hl. rewrite (proj2 (Nat.ltb_ge _ _)) by lia. by rewrite Ht, Hd.
Qed.

Lemma encrypt_decrypt n text key :
  opens_sealed -> key_ok key = true -> String.length n = NonceSize ->
  exists e, Encrypt (Some n) text key = inr e /\ Decrypt e key = inr text.
Proof.
  intros Ho Hk Hn. unfold Encrypt. rewrite Hk. eexists. split; [reflexivity|].
  rewrite decrypt_sealed by done. by rewrite Ho.
Qed.

(** A call of the user-config service that gets its nonce and its statement. *)
Definition good_store (userID broker app src bearer : string) (n : string) (d : CredsDB) : Prop :=
  userID <> "" /\ bearer <> "" /\ fits 50 userID = true /\ fits 100 broker = true /\ fits 100 app = true /\
  fits 20 src = true /\ head d.(nonces) = Some (Some n) /\ String.length n = NonceSize /\
  head d.(creds_faults) <> Some true.

Lemma store_good key userID broker app src bearer n d :
  key_ok key = true -> good_store userID broker app src bearer n d ->
  exists d', StoreForUser key userID broker app src bearer d = (d', None) /\
    d'.(accounts) !! userID =
      Some (mkAccount broker app src (EncodeToString (n ++ seal key n bearer)%string)).
Proof.
  intros Hk (Hu & Hb & H1 & H2 & H3 & H4 & Hn & _ & Hf). unfold StoreForUser.
  apply String.eqb_neq in Hu, Hb. rewrite Hu, Hb, Hk. cbn [orb].
  unfold next_nonce. destruct d.(nonces) as [|x l]; [done|]. injection Hn as ->.
  unfold Encrypt. rewrite Hk. cbn [negb]. unfold sqlUpsertAccount, next_fault.
  cbn [set creds_faults broker_user_id app_id source]. rewrite H1, H2, H3, H4. cbn [andb negb orb].
  destruct d.(creds_faults) as [|[] fl]; [|done|]; cbn; eexists; (split; [reflexivity|]);
    cbn; by rewrite lookup_insert_eq.
Qed.

End Cipher.

(** C26: The credentials that the activation of a strategy carries are those the next
    live order of the user is placed with: the gateway writes them, through the
    user-config service and encrypted, into the table that the trade execution
    reads, whatever becomes of the activation itself; once the consumer of the
    strategy events has processed the event that the strategy was created or
    updated, whatever the cache held before, the execution of an approved live order
    of the user that has no credentials of its own begins with the request to place
    it with exactly these credentials. The conditions: both services have the same
    valid key and the cipher opens what it seals; the write succeeds (a nonce, the
    lengths of the columns, the statement) and the table is not written again before
    the order; no load of the cache that read the old row is still under way
    ([late_load_stays_stale]; with another key, [wrong_key_is_silent]). *)
Theorem activation_reaches_orders (seal : string -> string -> string -> string)
    (open : string -> string -> string -> option string) (Hcipher : opens_sealed seal open)
    (uuid_string : uuid -> string) (uuid_parse : string -> option uuid) (key n : string)
    (env : Gateway.Env) (r : HttpRequest) (text user : string)
    (w : Store (C := CredsDB))
    {B O M Q : Type} `{ExecutionBroker B} `{PositionLookup B} `{MLGroupCanceller M} `{PaperOrderPurger Q}
    (cfg : ExecConfig) (fresh : nat -> uuid) (envs : nat -> ExecEnv) (positions : bool)
    (prices : option (string -> Z -> option f64)) (now : Z) (ev : strategyEvent)
    (c : StrategyEventsConsumer B O M Q) (cached : gmap string AuthContext) (xenv : ExecEnv) (o : Order.t)
    (Hkey : key_ok key = true) (Hup : env.(up) 0%nat = true) (Hhead : r.(header) "userId" <> "")
    (Happ : r.(header) "appId" <> "") (Hsrc : r.(header) "source" <> "")
    (Hgood : good_store user (r.(header) "userId") (r.(header) "appId") (r.(header) "source") (bearer r) n w.2)
    (Hevent : ev.(evUserID) = user /\ ev.(evStrategyID) <> "" /\ one_of ev.(evType) ["CONFIG_CREATED"; "CONFIG_UPDATED"] = true)
    (Horder : o.(Order.UserID) = user /\ o.(Order.RiskApproved) = true /\ o.(Order.IsPaperTrade) = false /\ auth_of o = None) :
  let w' := (Gateway.ActivateStrategy uuid_string uuid_parse (execution_credentials seal key) env r text
               (Some user) w).2 in
  (cexec c).(xcreds) = Some (mkCache cached (GetIndiraCredentials open key w'.2)) ->
  let c' := (processMessage cfg fresh envs positions prices now (Some ev) c).1 in
  exists answer later,
    (ExecuteOrder cfg xenv o (cexec c')).1.1.(calls) =
      (cexec c).(calls) ++ CPlace (o <| Order.Status := StatusPending |>)
        (mkAuth (r.(header) "userId") (r.(header) "appId") (r.(header) "source") (bearer r)) answer :: later.
Proof.
  intros w' Hcreds c'. destruct (store_good seal key _ _ _ _ _ n w.2 Hkey Hgood) as (d' & Hst & Hrow).
  destruct Hgood as (Hu & Hb & _ & _ & _ & _ & _ & Hn & _).
  assert (Hw : w'.2 = d').
  { unfold w'. rewrite activate_creds by (done || by split). cbn [execution_credentials StoreIndiraCredentials].
    by rewrite Hst. }
  rewrite Hw in Hcreds. clear Hw w'. destruct Hevent as (Heu & Hes & Het), Horder as (Hou & Hor & Hop & Hoa).
  set (ctx := mkAuth (header r "userId") (header r "appId") (header r "source") (bearer r)).
  assert (Hstore : GetIndiraCredentials open key d' user = inr ctx).
  { unfold GetIndiraCredentials. rewrite Hrow. unfold with_token.
    cbn [bearer_token broker_user_id app_id source]. rewrite decrypt_sealed by done. by rewrite Hcipher. }
  assert (Hc : c' = invalidate_credentials user c).
  { unfold c', processMessage. apply String.eqb_neq in Hu, Hes. rewrite Heu, Hu, Hes. cbn [orb].
    unfold one_of in Het. cbn [existsb] in Het. rewrite orb_false_r in Het.
    apply orb_prop in Het as [Het|Het]; apply String.eqb_eq in Het; rewrite Het; done. }
  destruct (ExecuteOrder cfg xenv o (cexec c')) as [[w2 o2] res] eqn:E.
  assert (Hauth : exists w1, executionAuth (o <| Order.Status := StatusPending |>) (cexec c') = (w1, inr ctx)).
  { unfold executionAuth. change (auth_of (o <| Order.Status := StatusPending |>)) with (auth_of o).
    rewrite Hoa. change (Order.UserID (o <| Order.Status := StatusPending |>)) with (Order.UserID o).
    rewrite Hou. unfold cached_creds. rewrite Hc. unfold invalidate_credentials, cexec, on_exec. cbn.
    unfold cexec in Hcreds. rewrite Hcreds. cbn. unfold cache_Get, cache_Invalidate. cbn [cache store].
    rewrite lookup_delete_eq, Hstore. destruct (_ =?s ""); eauto. }
  destruct Hauth as [w1 Hauth].
  destruct (ExecuteOrder_places _ _ _ _ _ _ _ _ _ Hor Hop Hauth E) as (a & tr & Hcalls).
  exists a, tr. cbn [fst]. rewrite Hcalls, Hc. done.
Qed.

(** When the two services have different keys, nothing fails: the reader takes
    the encrypted text for the token, and sends it to the broker. *)
Theorem wrong_key_is_silent (seal : string -> string -> string -> string)
    (open : string -> string -> string -> option string) (ukey tkey user broker app src token n : string)
    (d : CredsDB) (Hu : key_ok ukey = true) (Ht : key_ok tkey = true)
    (Hwrong : open tkey n (seal ukey n token) = None)
    (Hgood : good_store user broker app src token n d) :
  let '(d', e) := StoreForUser seal ukey user broker app src token d in
  e = None /\
  GetIndiraCredentials open tkey d' user =
    inr (mkAuth broker app src (EncodeToString (n ++ seal ukey n token)%string)).
Proof.
  destruct (store_good seal ukey _ _ _ _ _ n d Hu Hgood) as (d' & -> & Hrow). split; [done|].
  unfold GetIndiraCredentials. rewrite Hrow. unfold with_token. cbn [bearer_token broker_user_id app_id source].
  destruct Hgood as (_ & _ & _ & _ & _ & _ & _ & Hn & _). rewrite decrypt_sealed by done.
  by rewrite Hwrong.
Qed.

(** The cache can keep credentials that were replaced: an order that missed the
    cache has read the old row when the new one is written and the cache is
    invalidated; what it then stores is used for every later order of the user,
    although the table has the new credentials. *)
Theorem late_load_stays_stale (seal : string -> string -> string -> string)
    (open : string -> string -> string -> option string) (Hcipher : opens_sealed seal open)
    (key u appid src token n : string) (old : AuthContext) (w : CacheWorld)
    (Hkey : key_ok key = true) (Hmiss : w.(cw_cache) !! u = None) (Hidle : w.(cw_loading) = [])
    (Hold : GetIndiraCredentials open key w.(cw_db) u = inr old)
    (Hgood : good_store u u appid src token n w.(cw_db)) :
  let w' := cache_run seal open key key [Load u; Rotate u appid src token; Evict u; Put u] w in
  let c := mkCache w'.(cw_cache) (GetIndiraCredentials open key w'.(cw_db)) in
  (cache_Get u c).2 = inr old /\ c.(store) u = inr (mkAuth u appid src token).
Proof.
  destruct (store_good seal key u u appid src token n w.(cw_db) Hkey Hgood) as (d' & Hst & Hrow).
  destruct Hgood as (_ & _ & _ & _ & _ & _ & _ & Hn & _).
  cbn [cache_run fold_left cache_step]. rewrite Hmiss, Hold, Hidle. cbn [cw_db cw_cache cw_loading app].
  rewrite Hst. cbn [fst take_loaded]. rewrite String.eqb_refl. cbn [cw_cache cw_db].
  unfold cache_Get. cbn [cache store]. rewrite lookup_insert_eq. split; [done|].
  unfold GetIndiraCredentials. rewrite Hrow. unfold with_token. cbn [bearer_token broker_user_id app_id source].
  rewrite decrypt_sealed by done. by rewrite Hcipher.
Qed.

(** ** With a concrete cipher *)

(** A cipher that writes the key in front of the text. *)
Definition plain_seal (k n p : string) : string := (k ++ p)%string.

Fixpoint plain_open (k n c : string) : option string :=
  match k, c with
  | "", _ => Some c
  | String a k, String b c => if Ascii.eqb a b then plain_open k n c else None
  | _, "" => None
  end.

Lemma plain_cipher : opens_sealed plain_seal plain_open.
Proof.
  intros k n p. unfold plain_seal. induction k as [|a k IH]; [by destruct p|].
  change (String a k ++ p)%string with (String a (k ++ p)). cbn. by rewrite Ascii.eqb_refl.
Qed.

Definition sample_key : string := "0123456789abcdef".
Definition other_key : string := "fedcba9876543210".
Definition sample_nonce : string := "nonce-nonce!".
Definition sample_db : CredsDB := mkCreds ∅ None [Some sample_nonce; Some sample_nonce] [].

Lemma sample_store user broker app src bearer :
  user <> "" -> bearer <> "" -> fits 50 user = true -> fits 100 broker = true -> fits 100 app = true ->
  fits 20 src = true -> good_store user broker app src bearer sample_nonce sample_db.
Proof. intros. by split_and!. Qed.

(** A user whose old credentials are cached, and an order of his. *)
Definition alice_consumer : SampleConsumer :=
  on_exec (fun w => w <| xcreds := Some (mkCache {["alice" := mkAuth "a" "b" "c" "old"]}
    (GetIndiraCredentials plain_open sample_key
      (Gateway.ActivateStrategy sample_text sample_parse (execution_credentials plain_seal sample_key)
         sample_gateway mallory (sample_text 7) (Some "alice") (DB.empty, sample_db)).2.2)) |>) sample_consumer.

Definition alice_order : Order.t :=
  Order.zero <| Order.OrderID := 9%N |> <| Order.UserID := "alice" |> <| Order.RiskApproved := true |>.

Lemma activation_reaches_orders_witness :
  let c' := (processMessage (Executor.sample_cfg 1) N.of_nat (fun _ => Executor.sample_env) false None 5
               (Some (mkStrategyEvent "CONFIG_UPDATED" "alice" "s")) alice_consumer).1 in
  exists answer later,
    (ExecuteOrder (Executor.sample_cfg 1) Executor.sample_env alice_order (cexec c')).1.1.(calls) =
      [] ++ CPlace (alice_order <| Order.Status := StatusPending |>) (mkAuth "mallory" "app" "WEB" "token")
        answer :: later.
Proof.
  apply (activation_reaches_orders plain_seal plain_open plain_cipher sample_text sample_parse sample_key
    sample_nonce sample_gateway mallory (sample_text 7) "alice" (DB.empty, sample_db) (Executor.sample_cfg 1) N.of_nat
    (fun _ => Executor.sample_env) false None 5 (mkStrategyEvent "CONFIG_UPDATED" "alice" "s") alice_consumer
    {["alice" := mkAuth "a" "b" "c" "old"]} Executor.sample_env alice_order); try done.
Defined.

Lemma wrong_key_is_silent_witness :
  let '(d', e) := StoreForUser plain_seal sample_key "alice" "A1" "app" "WEB" "token" sample_db in
  e = None /\
  GetIndiraCredentials plain_open other_key d' "alice" =
    inr (mkAuth "A1" "app" "WEB" (EncodeToString (sample_nonce ++ plain_seal sample_key sample_nonce "token")%string)).
Proof. apply (wrong_key_is_silent plain_seal plain_open sample_key other_key); done. Defined.

Definition sample_world : CacheWorld :=
  mkWorld (sample_db <| accounts := {["alice" := mkAccount "alice" "app" "WEB" "old token"]} |>) ∅ [].

Lemma late_load_stays_stale_witness :
  let w' := cache_run plain_seal plain_open sample_key sample_key
              [Load "alice"; Rotate "alice" "app" "WEB" "new token"; Evict "alice"; Put "alice"] sample_world in
  (cache_Get "alice" (mkCache w'.(cw_cache) (GetIndiraCredentials plain_open sample_key w'.(cw_db)))).2
  = inr (mkAuth "alice" "app" "WEB" "old token").
Proof.
  apply (late_load_stays_stale plain_seal plain_open plain_cipher sample_key "alice" "app" "WEB" "new token"
    sample_nonce (mkAuth "alice" "app" "WEB" "old token") sample_world); try done.
Defined.

(** A token that reads as base64 of twelve bytes or more is still returned as it
    is when it does not open. *)
Example unencrypted_token : Decrypt plain_open "dG9rZW4tdG9rZW4tdG9rZW4=" sample_key = inr "dG9rZW4tdG9rZW4tdG9rZW4=".
Proof. vm_compute. reflexivity. Qed.
