(* ===== verification/Recovery.v ===== *)
(** * Wiring and recovery at the start of the trade execution

    [trade-execution/cmd/main.go]: the positions fetcher that turns the position
    book of the broker into [BrokerPosition]s, the subscriptions that are opened
    for users with live exposure, and the reconciliation of orders in flight with
    the order book.  What the broker answers are functions; the order in which Go
    ranges over the users is [iter]; an order is handled at [clock] of its id, and
    its notification has the id [fresh]. *)

From stdpp Require Import base tactics gmap strings list sorting.
From Stdlib Require Import ZArith Lia SpecFloat.
From S2P Require Import Prelude GoFloat GoStrings GoTime GoParse Orders OrderRepo.
From S2P Require Import OCOTypes OrderQueries StatusService StatusProps TableFacts Positions.
From S2P Require Import FloatOrder StatusProps.

Open Scope string_scope.
Open Scope list_scope.
Open Scope Z_scope.
Open Scope go_scope.

(** ** The positions fetcher *)

(** [indira.Position] with its symbol, without what nothing reads. *)
Module BookPosition.
Record t : Type := mk {
  Symbol : string;
  DispSym : string;
  BaseSym : string;
  Exc : string;
  ExcTkn : Z;
  PrdType : string;
  Type_ : string;
  NetQty : Z;
  BuyQty : Z;
  SellQty : Z;
  BuyAvgPrice : f64;
  SellAvgPrice : f64;
  LTP : f64;
  NetPnL : f64;
  PnLPerc : f64
}.
End BookPosition.

Import BookPosition.

Definition display_symbol (p : BookPosition.t) : string :=
  let sym := p.(DispSym) in
  let sym := if sym =?s "" then p.(BaseSym) else sym in
  if sym =?s "" then p.(Symbol) else sym.

Definition book_key (p : BookPosition.t) : string :=
  (display_symbol p ++ "|" ++ p.(Exc) ++ "|" ++ p.(PrdType))%string.

(** The profit, computed when the broker gives none. *)
Definition book_pnl (p : BookPosition.t) : f64 :=
  let pnl := p.(NetPnL) in
  if feq pnl fzero && (0 <? p.(BuyQty)) && (0 <? p.(SellQty)) then
    let tradedQty := if p.(BuyQty) <? p.(SellQty) then p.(BuyQty) else p.(SellQty) in
    ((p.(SellAvgPrice) - p.(BuyAvgPrice)) * of_Z tradedQty)%f64
  else if feq pnl fzero && negb (p.(NetQty) =? 0) && flt fzero p.(LTP) then
    if 0 <? p.(NetQty) then ((p.(LTP) - p.(BuyAvgPrice)) * of_Z p.(NetQty))%f64
    else ((p.(SellAvgPrice) - p.(LTP)) * of_Z (int64 (- p.(NetQty))))%f64
  else pnl.

Definition book_pnl_pct (p : BookPosition.t) : f64 :=
  let pnl := book_pnl p in
  if feq p.(PnLPerc) fzero && negb (feq pnl fzero) && flt fzero p.(BuyAvgPrice) then
    let tradedQty := if (0 <? p.(SellQty)) && (p.(SellQty) <? p.(BuyQty)) then p.(SellQty) else p.(BuyQty) in
    ((pnl / (p.(BuyAvgPrice) * of_Z tradedQty)) * of_Z 100)%f64
  else p.(PnLPerc).

Definition of_book (p : BookPosition.t) : BrokerPosition.t :=
  BrokerPosition.mk (display_symbol p) p.(Exc) p.(PrdType) p.(NetQty) p.(BuyQty) p.(SellQty)
    p.(BuyAvgPrice) p.(SellAvgPrice) p.(LTP) (book_pnl p) (book_pnl_pct p) p.(ExcTkn).

(** Only rows of the day, the first of each key. *)
Fixpoint daily_positions (seen : list string) (l : list BookPosition.t) : list BrokerPosition.t :=
  match l with
  | [] => []
  | p :: l =>
      if negb (p.(Type_) =?s "DAILY") then daily_positions seen l
      else if one_of (book_key p) seen then daily_positions seen l
      else of_book p :: daily_positions (book_key p :: seen) l
  end.

(** What [SetPositionsFetcher] is given. *)
Definition fetch_positions (GetPositions : AuthContext -> string + list BookPosition.t) : PositionsFetcher :=
  fun bearerToken appId userId source =>
    match GetPositions (mkAuth userId appId source bearerToken) with
    | inl e => inl e
    | inr positions => inr (daily_positions [] positions)
    end.

(** ** Opening the subscriptions again *)

(** One user: the credentials, the subscription, and the cache of the server.
    [connects] and [subscribes] are what the broker answers this user. *)
Definition warm_user (creds : string -> string + AuthContext) (connects subscribes : string -> bool)
    (w : Subscriptions * BrokerAuth) (userID : string) : Subscriptions * BrokerAuth :=
  match creds userID with
  | inl _ => w
  | inr auth =>
      match StartSubscription (connects userID) (subscribes userID) userID auth w.1 with
      | (s, Some _) => (s, w.2)
      | (s, None) => (s, StoreAuth userID auth.(BearerToken) auth.(AppId) auth.(Source) w.2)
      end
  end.

Definition prewarm (creds : string -> string + AuthContext) (connects subscribes : string -> bool) (now : Z)
    (t : OrdersTable) (w : Subscriptions * BrokerAuth) : OrdersTable * (Subscriptions * BrokerAuth) :=
  match sqlGetUsersWithLiveExposure now t with
  | (t, inl _) => (t, w)
  | (t, inr users) => (t, foldl (warm_user creds connects subscribes) w users)
  end.

(** ** Reconciliation *)

(** [indira.OrderBook], without what nothing reads. *)
Module BookOrder.
Record t : Type := mk {
  OrdId : string;
  Symbol : string;
  OrdAction : string;
  TradedQty : Z;
  LimitPrice : f64;
  TriggerPrice : f64;
  PrdType : string;
  Status : string
}.
End BookOrder.

(** [fmt.Sprintf("%f", x)]: six decimals, ties to even. *)
Definition millionths (m : positive) (e : Z) : Z :=
  if 0 <=? e then Z.pos m * 2 ^ e * 1000000
  else
    let d := 2 ^ (- e) in
    let q := Z.pos m * 1000000 / d in
    let r := Z.pos m * 1000000 mod d in
    if (d <? 2 * r) || ((2 * r =? d) && Z.odd q) then q + 1 else q.

Definition sprintf_f (x : f64) : string :=
  let render (neg : bool) (n : Z) :=
    ((if neg then "-" else "") ++ Itoa (n / 1000000) ++ "." ++ padded 6 (n mod 1000000))%string in
  match x with
  | S754_zero s => render s 0
  | S754_finite s m e => render s (millionths m e)
  | S754_infinity s => if s then "-Inf" else "+Inf"
  | S754_nan => "NaN"
  end.

Example print_prices : sprintf_f fzero = "0.000000" /\ sprintf_f (dec 247555 2) = "2475.550000".
Proof. split; vm_compute; reflexivity. Qed.

(** The message made of a row of the book; [raw] is its JSON. *)
Definition book_snapshot (raw : WS.t -> string) (id : string) (bk : BookOrder.t) : WS.t :=
  let ws := WS.mk id bk.(BookOrder.OrdId) bk.(BookOrder.Status) "" bk.(BookOrder.Symbol) bk.(BookOrder.OrdAction)
              (Itoa bk.(BookOrder.TradedQty)) "" (sprintf_f bk.(BookOrder.LimitPrice)) bk.(BookOrder.TriggerPrice)
              "" "" 0 "" bk.(BookOrder.PrdType) "" "" "" "" "" in
  ws <| WS.Raw := raw ws |>.

(** The last row of an id wins in the index. *)
Definition by_ord_id (id : string) (book : list BookOrder.t) : option BookOrder.t :=
  last (List.filter (fun b => b.(BookOrder.OrdId) =?s id) book).

Record RecoveryEnv : Type := mkRecovery {
  hooks : Hooks;
  auths_of : gmap string AuthContext;
  raw_json : WS.t -> string;
  clock : uuid -> Z;
  fresh : uuid -> string;
  others : uuid -> OrdersTable -> OrdersTable;  (** what others write in the half second *)
  credentials : string -> string + AuthContext;
  GetOrderBook : AuthContext -> string + list BookOrder.t;
  iter : list string -> list string
}.

Definition Reconciled : Type := OrdersTable * list Effect.

Definition reconcile_order (e : RecoveryEnv) (book : list BookOrder.t) (w : Reconciled) (o : Order.t) : Reconciled :=
  match o.(Order.IndiraOrderID) with
  | None => w
  | Some id =>
      if id =?s "" then w
      else match by_ord_id id book with
           | None => w
           | Some bk =>
               let oid := o.(Order.OrderID) in
               let '(_, (t, effects)) :=
                 ReconcileOrderFromBrokerBook e.(hooks) e.(auths_of) (e.(clock) oid) (e.(fresh) oid)
                   (e.(others) oid) (fun t => t) o (book_snapshot e.(raw_json) id bk) w.1 in
               (t, w.2 ++ effects)
           end
  end.

Definition reconcile_user (e : RecoveryEnv) (candidates : list Order.t) (w : Reconciled) (userID : string) : Reconciled :=
  match e.(credentials) userID with
  | inl _ => w
  | inr auth =>
      match e.(GetOrderBook) auth with
      | inl _ => w
      | inr book => foldl (reconcile_order e book) w (List.filter (fun o => o.(Order.UserID) =?s userID) candidates)
      end
  end.

Definition reconcile_all (e : RecoveryEnv) (now : Z) (t : OrdersTable) : Reconciled :=
  match sqlGetReconciliationCandidates now 24 30 t with
  | (t, inl _) => (t, [])
  | (t, inr candidates) =>
      foldl (reconcile_user e candidates) (t, []) (e.(iter) (remove_dups (Order.UserID <$> candidates)))
  end.

(** ** Properties of the recovery *)

(** ** One fold over the candidates *)

(** The exchange number after a message. *)
Lemma exchange_number_after ws o :
  (apply_status ws o).(Order.ExchangeOrderNumber) =
    if (ws.(WS.OrderNumber) =?s "") || (ws.(WS.OrderNumber) =?s "0") then o.(Order.ExchangeOrderNumber)
    else Some ws.(WS.OrderNumber).
Proof.
  assert (Hs : forall o, (set_reason ws (set_trigger ws (set_executed_at ws (set_order_price ws o)))).(Order.ExchangeOrderNumber)
                 = o.(Order.ExchangeOrderNumber)).
  { intros o'. unfold set_reason, set_trigger, set_executed_at, set_order_price. cbn zeta. by repeat case_match. }
  assert (Hu : forall q p o, (update_fill q p o).(Order.ExchangeOrderNumber) = o.(Order.ExchangeOrderNumber))
    by (intros q p o'; unfold update_fill; cbn zeta; by repeat case_match).
  unfold apply_status. rewrite Hs, Hu. unfold set_broker_data. cbn zeta. by case_match.
Qed.

Section Pass.

Context (e : RecoveryEnv).

(** The book row of an order, when everything it takes is there. *)
Definition book_answer (o : Order.t) : option BookOrder.t :=
  match e.(credentials) o.(Order.UserID), o.(Order.IndiraOrderID) with
  | inr auth, Some id =>
      if id =?s "" then None
      else match e.(GetOrderBook) auth with inr book => by_ord_id id book | inl _ => None end
  | _, _ => None
  end.

Definition row_snapshot (o : Order.t) (bk : BookOrder.t) : WS.t :=
  book_snapshot e.(raw_json) (default "" o.(Order.IndiraOrderID)) bk.

Definition step (w : Reconciled) (o : Order.t) : Reconciled :=
  match book_answer o with
  | None => w
  | Some bk =>
      let oid := o.(Order.OrderID) in
      let '(_, (t, effects)) :=
        ReconcileOrderFromBrokerBook e.(hooks) e.(auths_of) (e.(clock) oid) (e.(fresh) oid)
          (e.(others) oid) (fun t => t) o (row_snapshot o bk) w.1 in
      (t, w.2 ++ effects)
  end.

Lemma reconcile_user_steps candidates w u :
  reconcile_user e candidates w u =
  foldl step w (List.filter (fun o => o.(Order.UserID) =?s u) candidates).
Proof.
  assert (H : Forall (fun o => o.(Order.UserID) = u) (List.filter (fun o => o.(Order.UserID) =?s u) candidates)).
  { apply List.Forall_forall. intros o [_ Ho]%filter_In. by apply String.eqb_eq in Ho. }
  unfold reconcile_user. revert w H. generalize (List.filter (fun o => o.(Order.UserID) =?s u) candidates).
  induction l as [|o l IH]; intros w H; [by repeat case_match|].
  apply Forall_cons in H as [<- H].
  assert (Hs : step w o = match e.(credentials) o.(Order.UserID) with
    | inl _ => w
    | inr auth => match e.(GetOrderBook) auth with inl _ => w | inr book => reconcile_order e book w o end end).
  { unfold step, book_answer, reconcile_order, row_snapshot.
    destruct (e.(credentials) _); [done|]. destruct o.(Order.IndiraOrderID) as [id|]; [|by case_match].
    cbn [default]. destruct (id =?s ""); [by case_match|]. by destruct (e.(GetOrderBook) _). }
  cbn [foldl]. rewrite Hs, <- IH by done. destruct (e.(credentials) _); [done|]. by case_match.
Qed.

Lemma steps_of_users candidates us : forall w,
  foldl (reconcile_user e candidates) w us =
  foldl step w (us ≫= fun u => List.filter (fun o => o.(Order.UserID) =?s u) candidates).
Proof.
  induction us as [|u us IH]; intros w; [done|]. cbn [foldl].
  rewrite IH, reconcile_user_steps. change (mbind ?f (u :: us)) with (f u ++ mbind f us). by rewrite foldl_app.
Qed.

(** The candidates by user are the candidates, in another order. *)
Lemma by_user_elem candidates us o :
  us ≡ₚ remove_dups (Order.UserID <$> candidates) ->
  o ∈ (us ≫= fun u => List.filter (fun o => o.(Order.UserID) =?s u) candidates) <-> o ∈ candidates.
Proof.
  intros Hus. rewrite list_elem_of_bind. setoid_rewrite list_elem_of_In. setoid_rewrite filter_In. split.
  - by intros (u & [H _] & _).
  - intros H. exists o.(Order.UserID). rewrite String.eqb_refl. split; [done|].
    rewrite <- list_elem_of_In, Hus, elem_of_remove_dups, list_elem_of_fmap. exists o.
    by rewrite list_elem_of_In.
Qed.

Lemma by_user_NoDup candidates us :
  NoDup (Order.OrderID <$> candidates) -> NoDup us ->
  NoDup (Order.OrderID <$> (us ≫= fun u => List.filter (fun o => o.(Order.UserID) =?s u) candidates)).
Proof.
  intros Hc. induction 1 as [|u us Hu Hus IH]; [constructor|].
  change (mbind ?f (u :: us)) with (f u ++ mbind f us). rewrite fmap_app. apply NoDup_app.
  assert (Hinj : forall x y, x ∈ candidates -> y ∈ candidates -> x.(Order.OrderID) = y.(Order.OrderID) -> x = y).
  { intros x y [i Hi]%list_elem_of_lookup [j Hj]%list_elem_of_lookup He.
    assert (i = j); [|congruence]. apply (NoDup_lookup _ i j x.(Order.OrderID) Hc);
      rewrite list_lookup_fmap; [by rewrite Hi|rewrite Hj; by cbn; rewrite He]. }
  assert (Hf : forall v o, o ∈ List.filter (fun o => o.(Order.UserID) =?s v) candidates ->
                 o ∈ candidates /\ o.(Order.UserID) = v).
  { intros v o. rewrite list_elem_of_In, filter_In, <- list_elem_of_In, String.eqb_eq. done. }
  split; [|split; [|done]].
  - clear -Hc. induction candidates as [|x l IH]; [constructor|]. cbn in *.
    apply NoDup_cons in Hc as [Hx Hl]. destruct (_ =?s u); [|by apply IH]. cbn. apply NoDup_cons.
    split; [|by apply IH]. intros (y & E & Hy)%list_elem_of_fmap. apply Hx, list_elem_of_fmap.
    exists y. split; [done|]. by apply list_elem_of_In, filter_In, proj1, list_elem_of_In in Hy.
  - intros i (x & -> & Hx)%list_elem_of_fmap (y & E & Hy)%list_elem_of_fmap.
    apply list_elem_of_bind in Hy as (v & Hy & Hv). apply Hf in Hx as [Hx Ex]. apply Hf in Hy as [Hy Ey].
    assert (x = y) by by apply Hinj. subst. done.
Qed.

(** ** What becomes of a row *)

(** The candidates [l] are the rows of the table, and the broker id of each leads
    to it alone. *)
Record ready (t : OrdersTable) (l : list Order.t) : Prop := {
  rd_faults : t.(faults) = [];
  rd_nodup : NoDup (Order.OrderID <$> l);
  rd_row : forall o, o ∈ l -> t.(rows) !! o.(Order.OrderID) = Some o;
  rd_only : forall o id, o ∈ l -> o.(Order.IndiraOrderID) = Some id -> id <> "0" /\
    forall i r, t.(rows) !! i = Some r -> has_broker_id id r = true -> i = o.(Order.OrderID)
}.

(** Does the broker report a status other than the row's? *)
Definition differs (o : Order.t) (bk : BookOrder.t) : bool :=
  negb ((clean bk.(BookOrder.Status) =?s "")
        || (clean bk.(BookOrder.Status) =?s clean o.(Order.Status))).

Definition reconciled (o : Order.t) : Order.t :=
  match book_answer o with
  | Some bk => if differs o bk then row_after (e.(clock) o.(Order.OrderID)) (row_snapshot o bk) o else o
  | None => o
  end.

Lemma book_answer_id o bk : book_answer o = Some bk -> exists id, o.(Order.IndiraOrderID) = Some id /\ id <> "".
Proof.
  unfold book_answer. destruct (e.(credentials) _); [done|]. destruct o.(Order.IndiraOrderID) as [id|]; [|done].
  destruct (String.eqb_spec id ""); [done|]. intros _. by exists id.
Qed.

Lemma by_ord_id_own id book bk : by_ord_id id book = Some bk -> bk.(BookOrder.OrdId) = id.
Proof.
  intros H%last_Some_elem_of. by apply list_elem_of_In, filter_In, proj2, String.eqb_eq in H.
Qed.

Lemma book_answer_own o bk id :
  book_answer o = Some bk -> o.(Order.IndiraOrderID) = Some id -> bk.(BookOrder.OrdId) = id.
Proof.
  unfold book_answer. intros H Hid. rewrite Hid in H. destruct (e.(credentials) _); [done|].
  destruct (id =?s ""); [done|]. destruct (e.(GetOrderBook) _); [done|]. by apply by_ord_id_own in H.
Qed.

Lemma reconciled_fields o :
  (reconciled o).(Order.OrderID) = o.(Order.OrderID) /\
  (reconciled o).(Order.IndiraOrderID) = o.(Order.IndiraOrderID) /\
  (forall id, has_broker_id id (reconciled o) = true ->
     has_broker_id id o = true \/ o.(Order.IndiraOrderID) = Some id).
Proof.
  unfold reconciled. destruct (book_answer o) as [bk|] eqn:Ha; [|by eauto]. destruct (differs o bk); [|by eauto].
  destruct (book_answer_id o bk Ha) as (id & Hid & _). pose proof (book_answer_own o bk id Ha Hid) as Hown.
  pose proof (apply_status_frame (row_snapshot o bk) o) as (H1 & H2 & _).
  split; [done|]. split; [exact H2|]. intros id' H.
  assert (Hx : (apply_status (row_snapshot o bk) o).(Order.ExchangeOrderNumber) = o.(Order.ExchangeOrderNumber) \/
               (apply_status (row_snapshot o bk) o).(Order.ExchangeOrderNumber) = Some id).
  { rewrite exchange_number_after. destruct (_ || _); [by left|]. right. cbn. by rewrite Hown. }
  change (bool_decide ((apply_status (row_snapshot o bk) o).(Order.IndiraOrderID) = Some id')
    || bool_decide (o.(Order.OdinOrderID) = Some id')
    || bool_decide ((apply_status (row_snapshot o bk) o).(Order.ExchangeOrderNumber) = Some id') = true) in H.
  rewrite H2 in H. unfold has_broker_id.
  apply orb_true_iff in H as [H|H]; [apply orb_true_iff in H as [H|H]|].
  - right. by apply bool_decide_eq_true in H.
  - left. rewrite H. by rewrite orb_true_r.
  - destruct Hx as [E|E]; rewrite E in H.
    + left. rewrite H. by rewrite orb_true_r.
    + right. apply bool_decide_eq_true in H. congruence.
Qed.

Lemma step_row t fx o l :
  ready t (o :: l) ->
  (step (t, fx) o).1 = put_row o.(Order.OrderID) (reconciled o) t /\ ready (step (t, fx) o).1 l.
Proof.
  intros Hr. pose proof (rd_row _ _ Hr o ltac:(constructor)) as Hrow.
  assert (Hsame : put_row o.(Order.OrderID) o t = t).
  { unfold put_row. rewrite insert_id by done. by destruct t. }
  assert (Hput : (step (t, fx) o).1 = put_row o.(Order.OrderID) (reconciled o) t).
  { unfold step, reconciled. destruct (book_answer o) as [bk|] eqn:Ha; [|done].
    destruct (book_answer_id o bk Ha) as (id & Hid & Hne).
    unfold ReconcileOrderFromBrokerBook, differs. cbn [fst snd].
    change (broker_status (row_snapshot o bk)) with (clean bk.(BookOrder.Status)).
    destruct (_ || _); [done|]. cbn [negb].
    destruct (rd_only _ _ Hr o id ltac:(constructor) Hid) as [H0 Honly].
    assert (Ht : tracked id o.(Order.OrderID) o t) by (split; [apply Hr|done..]).
    destruct (tracked_message e.(hooks) e.(auths_of) (e.(clock) o.(Order.OrderID)) (e.(fresh) o.(Order.OrderID))
      (e.(others) o.(Order.OrderID)) id o.(Order.OrderID) o (row_snapshot o bk) t Ht) as [E _]; [|done..|].
    - unfold ws_id, row_snapshot, book_snapshot. cbn. rewrite Hid. cbn. by apply String.eqb_neq in Hne as ->.
    - by rewrite E. }
  split; [done|]. rewrite Hput. destruct Hr as [Hf Hn Hrows Honly]. apply NoDup_cons in Hn as [Hnin Hn].
  assert (Hne : forall o', o' ∈ l -> o'.(Order.OrderID) <> o.(Order.OrderID)).
  { intros o' H E. apply Hnin. rewrite <- E. by apply list_elem_of_fmap_2. }
  split; [done|done| |].
  - intros o' H. cbn. rewrite lookup_insert_ne by (symmetry; by apply Hne). apply Hrows. by constructor.
  - intros o' id H Hid. destruct (Honly o' id ltac:(by constructor) Hid) as [H0 Ho]. split; [done|].
    intros i r. cbn. destruct (decide (i = o.(Order.OrderID))) as [->|Hi].
    + rewrite lookup_insert_eq. intros [= <-] Hb. exfalso.
      apply reconciled_fields in Hb as [Hb|Hb].
      * apply (Hne o' H). symmetry. by apply (Ho _ o).
      * apply (Hne o' H). symmetry. apply (Ho _ o); [done|]. by apply has_own_id.
    + rewrite lookup_insert_ne by done. apply Ho.
Qed.

Lemma steps_rows l : forall t fx, ready t l ->
  (forall o, o ∈ l -> (foldl step (t, fx) l).1.(rows) !! o.(Order.OrderID) = Some (reconciled o)) /\
  (forall i, i ∉ (Order.OrderID <$> l) -> (foldl step (t, fx) l).1.(rows) !! i = t.(rows) !! i).
Proof.
  induction l as [|o l IH]; intros t fx Hr; [split; [by intros o ?%elem_of_nil|done]|].
  destruct (step_row t fx o l Hr) as [E Hr']. cbn [foldl]. destruct (step (t, fx) o) as [t' fx']. cbn [fst] in *.
  destruct (IH t' fx' Hr') as [Hin Hout]. pose proof (rd_nodup _ _ Hr) as [Ho _]%NoDup_cons.
  split.
  - intros o' [->|H]%elem_of_cons; [|by apply Hin]. rewrite Hout by done. rewrite E. apply lookup_insert_eq.
  - intros i [Hi Hl]%not_elem_of_cons. rewrite Hout by done. rewrite E. by apply lookup_insert_ne.
Qed.

End Pass.

(** The broker id of every candidate leads to its own row. *)
Definition lead_home (now : Z) (t : OrdersTable) : Prop :=
  map_Forall (fun i o => forall id, reconcile_row now 24 30 o = true -> o.(Order.IndiraOrderID) = Some id ->
    id <> "0" /\ forall j r, t.(rows) !! j = Some r -> has_broker_id id r = true -> j = i) t.(rows).

Lemma reconcile_all_rows (e : RecoveryEnv) (now : Z) (t : OrdersTable)
    (Hiter : forall l, e.(iter) l ≡ₚ l) (Hf : no_faults t) (Hk : keyed t) (Hids : lead_home now t) i :
  (reconcile_all e now t).1.(rows) !! i =
    (fun o => if reconcile_row now 24 30 o then reconciled e o else o) <$> t.(rows) !! i.
Proof.
  unfold reconcile_all, sqlGetReconciliationCandidates. rewrite select_desc_faultless by done.
  set (c := merge_sort _ _).
  assert (Hc : forall o, o ∈ c <-> reconcile_row now 24 30 o = true /\ exists id, t.(rows) !! id = Some o).
  { intros o. apply (select_desc_elem ""). by rewrite select_desc_faultless. }
  assert (Hn : NoDup (Order.OrderID <$> c)).
  { apply (select_desc_NoDup "" (reconcile_row now 24 30) t); [done|]. by rewrite select_desc_faultless. }
  rewrite steps_of_users. set (us := e.(iter) _).
  set (l := us ≫= _).
  assert (Hl : forall o, o ∈ l <-> o ∈ c) by (intros o; apply by_user_elem, Hiter).
  assert (Hr : ready t l).
  { split; [done| | |].
    - apply by_user_NoDup; [done|]. unfold us. rewrite Hiter. apply NoDup_remove_dups.
    - intros o [_ [id Ho]]%Hl%Hc. by rewrite (Hk id o Ho).
    - intros o id [Hrow [k Ho]]%Hl%Hc Hid. rewrite (Hk k o Ho). by apply (Hids k o Ho). }
  destruct (steps_rows e l t [] Hr) as [Hin Hout].
  destruct (t.(rows) !! i) as [o|] eqn:Ho; cbn.
  - destruct (reconcile_row now 24 30 o) eqn:Hrow.
    + rewrite <- (Hk i o Ho). apply Hin, Hl, Hc. eauto.
    + rewrite Hout, Ho; [done|]. intros (o' & -> & [H' [k Hk']]%Hl%Hc)%list_elem_of_fmap.
      rewrite (Hk k o' Hk') in Ho. congruence.
  - rewrite Hout; [done|]. intros (o' & -> & [H' [k Hk']]%Hl%Hc)%list_elem_of_fmap.
    rewrite (Hk k o' Hk') in Ho. congruence.
Qed.

Lemma candidate_id now o id :
  reconcile_row now 24 30 o = true -> o.(Order.IndiraOrderID) = Some id -> id <> "".
Proof. unfold reconcile_row. intros H Hid ->. rewrite Hid in H. cbn in H. by rewrite andb_false_r in H. Qed.

(** C27: After the reconciliation of the orders in flight, when no statement fails
    and no two rows have the same broker id, in whatever order the users are
    handled: an order that its user's order book lists with the status its row has
    already is exactly as it was, its filled quantity included; one that is listed
    with another status has that status and at least the quantity that the broker
    traded; every row that is not listed, or not in flight, or whose user has no
    credentials or no answer of the broker, is as it was; no row is lost or added.
    A listed status is not empty, a traded quantity has 32 bits, a stored quantity is
    not negative, and the broker id of an order in flight is not the text 0. *)
Theorem reconcile_agrees (e : RecoveryEnv) (now : Z) (t : OrdersTable)
    (Hiter : forall l, e.(iter) l ≡ₚ l) (Hf : no_faults t) (Hk : keyed t) (Hids : lead_home now t) :
  let t' := (reconcile_all e now t).1 in
  dom t'.(rows) = dom t.(rows) /\
  forall i o, t.(rows) !! i = Some o -> exists o', t'.(rows) !! i = Some o' /\
    (forall auth book id bk, reconcile_row now 24 30 o = true ->
       e.(credentials) o.(Order.UserID) = inr auth -> e.(GetOrderBook) auth = inr book ->
       o.(Order.IndiraOrderID) = Some id -> by_ord_id id book = Some bk ->
       clean bk.(BookOrder.Status) <> "" -> in_int32 bk.(BookOrder.TradedQty) ->
       if clean o.(Order.Status) =?s clean bk.(BookOrder.Status) then o' = o
       else clean o'.(Order.Status) = clean bk.(BookOrder.Status) /\
         (0 <= o.(Order.FilledQuantity) ->
          o'.(Order.FilledQuantity) = Z.max o.(Order.FilledQuantity) bk.(BookOrder.TradedQty))) /\
    (o' <> o -> reconcile_row now 24 30 o = true /\
       exists auth book id bk, e.(credentials) o.(Order.UserID) = inr auth /\ e.(GetOrderBook) auth = inr book /\
         o.(Order.IndiraOrderID) = Some id /\ bk ∈ book /\ bk.(BookOrder.OrdId) = id /\
         clean o.(Order.Status) <> clean bk.(BookOrder.Status)).
Proof.
  cbv zeta. pose proof (reconcile_all_rows e now t Hiter Hf Hk Hids) as H. split.
  { apply set_eq. intros i. rewrite !elem_of_dom, H. by destruct (t.(rows) !! i). }
  intros i o Ho. specialize (H i). rewrite Ho in H. cbn in H. eexists. split; [exact H|]. clear H. split.
  - intros auth book id bk Hrow Hcr Hbook Hid Hbk Hst Hq. rewrite Hrow.
    assert (Hne : id <> "") by by apply (candidate_id now o id).
    assert (Ha : book_answer e o = Some bk)
      by (unfold book_answer; rewrite Hcr, Hid, (proj2 (String.eqb_neq _ _) Hne), Hbook; exact Hbk).
    unfold reconciled. rewrite Ha. unfold differs. rewrite (proj2 (String.eqb_neq _ _) Hst). cbn [orb].
    rewrite (String.eqb_sym (clean bk.(BookOrder.Status))).
    destruct (String.eqb_spec (clean o.(Order.Status)) (clean bk.(BookOrder.Status))) as [Heq|Hneq]; cbn [negb];
      [done|].
    destruct (row_after_fields (e.(clock) o.(Order.OrderID)) (row_snapshot e o bk) o) as (-> & -> & _).
    split; [apply clean_idem|]. intros H0.
    assert (Ht : traded_qty (row_snapshot e o bk) = bk.(BookOrder.TradedQty)).
    { unfold traded_qty, row_snapshot, book_snapshot. cbn -[Atoi Itoa]. rewrite Atoi_Itoa; [done|].
      unfold in_int32, in_int64 in *. lia. }
    rewrite Ht. destruct (Z.leb_spec 0 bk.(BookOrder.TradedQty)); cbn [andb]; [|lia].
    destruct (Z.ltb_spec o.(Order.FilledQuantity) bk.(BookOrder.TradedQty)); [|lia]. rewrite int32_id by done. lia.
  - destruct (reconcile_row now 24 30 o) eqn:Hrow; [|done]. unfold reconciled.
    destruct (book_answer e o) as [bk|] eqn:Ha; [|done]. destruct (differs o bk) eqn:Hd; [|done]. intros _.
    split; [done|]. destruct (book_answer_id e o bk Ha) as (id & Hid & Hne).
    pose proof (book_answer_own e o bk id Ha Hid) as Hown. unfold book_answer in Ha. rewrite Hid in Ha.
    destruct (e.(credentials) _) as [|auth] eqn:Hcr; [done|]. destruct (id =?s ""); [done|].
    destruct (e.(GetOrderBook) auth) as [|book] eqn:Hbook; [done|].
    exists auth, book, id, bk. split_and!; try done.
    + apply last_Some_elem_of in Ha. by apply list_elem_of_In, filter_In, proj1, list_elem_of_In in Ha.
    + unfold differs in Hd. apply negb_true_iff, orb_false_iff, proj2, String.eqb_neq in Hd. congruence.
Qed.

(** ** Fills without a price *)

Lemma unpriced_fill ws o :
  positive_price ws.(WS.OrderPrice) = None -> positive_price ws.(WS.TradedPrice) = None ->
  o.(Order.FilledPrice) = None -> (apply_status ws o).(Order.FilledPrice) = None.
Proof.
  intros Hp Ht Ho. unfold apply_status. rewrite Ht. cbn [default].
  match goal with |- context [set_order_price ws ?x] => assert (E : set_order_price ws x = x)
    by (unfold set_order_price; by rewrite Hp); rewrite E; clear E;
    destruct (late_setters ws x) as [_ ->] end.
  destruct (broker_data_frame ws o) as (_ & _ & _ & Hb & _). rewrite Ho in Hb.
  unfold update_fill. rewrite Hb. change (fle fzero fzero) with true. change (flt fzero fzero) with false.
  cbn [default andb]. rewrite andb_false_r. cbn [andb]. cbv zeta. repeat case_match; done.
Qed.

(** The order book has no fill price, only the limit price, which is nothing for a
    market order: a market order that filled while the service was down is marked
    as executed with its quantity, but without a price, and an order without a
    price is not among those that a forced exit closes. *)
Theorem reconciled_market_fill_not_exited (e : RecoveryEnv) (now : Z) (t : OrdersTable)
    (i : uuid) (o : Order.t) (auth : AuthContext) (book : list BookOrder.t) (id : string) (bk : BookOrder.t)
    (Hiter : forall l, e.(iter) l ≡ₚ l) (Hf : no_faults t) (Hk : keyed t) (Hids : lead_home now t)
    (Ho : t.(rows) !! i = Some o) (Hrow : reconcile_row now 24 30 o = true)
    (Hcreds : e.(credentials) o.(Order.UserID) = inr auth) (Hbook : e.(GetOrderBook) auth = inr book)
    (Hid : o.(Order.IndiraOrderID) = Some id) (Hbk : by_ord_id id book = Some bk)
    (Hfill : is_fill (clean bk.(BookOrder.Status)) = true) (Hnew : is_fill (clean o.(Order.Status)) = false)
    (Hmarket : bk.(BookOrder.LimitPrice) = fzero) (Hprice : o.(Order.FilledPrice) = None) :
  exists o', (reconcile_all e now t).1.(rows) !! i = Some o' /\
    is_fill (clean o'.(Order.Status)) = true /\ o'.(Order.FilledPrice) = None /\
    forall now', exitable_live_row now' o' = false.
Proof.
  pose proof (reconcile_all_rows e now t Hiter Hf Hk Hids i) as H. rewrite Ho in H. cbn in H. rewrite Hrow in H.
  assert (Hne : id <> "") by by apply (candidate_id now o id).
  assert (Ha : book_answer e o = Some bk)
    by (unfold book_answer; rewrite Hcreds, Hid, (proj2 (String.eqb_neq _ _) Hne), Hbook; exact Hbk).
  assert (Hd : differs o bk = true).
  { unfold differs. apply negb_true_iff, orb_false_iff. rewrite !String.eqb_neq.
    split; intros E; rewrite E in Hfill; [done|congruence]. }
  unfold reconciled in H. rewrite Ha, Hd in H. set (ws := row_snapshot e o bk) in *.
  destruct (row_after_fields (e.(clock) o.(Order.OrderID)) ws o) as (Hs & _ & Hp).
  eexists. split; [exact H|]. rewrite Hs, Hp. split; [by unfold broker_status; rewrite clean_idem|].
  assert (Hn : (apply_status ws o).(Order.FilledPrice) = None).
  { apply unpriced_fill; [|vm_compute; reflexivity|done]. unfold ws, row_snapshot, book_snapshot.
    cbn -[positive_price sprintf_f]. rewrite Hmarket. vm_compute. reflexivity. }
  split; [exact Hn|]. intros now'. unfold exitable_live_row. rewrite Hp, Hn. cbn.
  by rewrite andb_false_r.
Qed.

(** ** Subscriptions *)

Section Warm.

Context (creds : string -> string + AuthContext) (connects subscribes : string -> bool).
Context (u : string) (a : AuthContext) (Hcreds : creds u = inr a).
Context (Hin : connects u = true) (Hsub : subscribes u = true) (Htoken : a.(BearerToken) <> "").

(** [u] is subscribed, and the server knows the credentials. *)
Definition warmed (w : Subscriptions * BrokerAuth) : Prop :=
  w.1.(subscriberAuths) !! u = Some a /\
  GetAuth u w.2 = Some (a.(BearerToken), a.(AppId), a.(Source)).

Lemma warm_user_own w : warmed (warm_user creds connects subscribes w u).
Proof.
  unfold warm_user, warmed, StartSubscription, StoreAuth, GetAuth. rewrite Hcreds, Hin, Hsub, andb_false_r.
  rewrite (proj2 (String.eqb_neq _ _) Htoken). destruct (negb _); cbn; split; apply lookup_insert_eq.
Qed.

Lemma warm_user_other w v : v <> u -> warmed w -> warmed (warm_user creds connects subscribes w v).
Proof.
  intros Hne [H1 H2]. unfold warm_user. destruct (creds v) as [|b]; [done|].
  assert (Hs : forall x, (<[v := x]> w.1.(subscriberAuths)) !! u = Some a) by (intros x; by rewrite lookup_insert_ne).
  assert (Hg : GetAuth u (StoreAuth v b.(BearerToken) b.(AppId) b.(Source) w.2)
                 = Some (a.(BearerToken), a.(AppId), a.(Source))).
  { unfold StoreAuth, GetAuth. destruct (_ =?s ""); [done|]. etrans; [by apply (lookup_insert_ne (M := gmap string))|exact H2]. }
  unfold StartSubscription. destruct (negb _ && _); cbn [fst snd].
  - split; [|done]. cbn. by rewrite lookup_delete_ne.
  - destruct (negb _); [by split; [apply Hs|]|]. by destruct (subscribes v); split; try apply Hs.
Qed.

Lemma warm_all us : forall w, u ∈ us \/ warmed w -> warmed (foldl (warm_user creds connects subscribes) w us).
Proof.
  induction us as [|v us IH]; intros w H; [destruct H as [H|H]; [by apply elem_of_nil in H|done]|].
  cbn [foldl]. apply IH. destruct (decide (v = u)) as [->|Hne]; [right; apply warm_user_own|].
  destruct H as [[->|H]%elem_of_cons|H]; [done|by left|right; by apply warm_user_other].
Qed.

End Warm.

(** After a restart every user with live exposure whose credentials can be read
    and whom the broker lets in is subscribed again with these credentials, and
    the server has them for pushing positions; what goes wrong for other users
    changes nothing of that. *)
Theorem prewarm_covers (creds : string -> string + AuthContext) (connects subscribes : string -> bool) (now : Z)
    (t : OrdersTable) (w : Subscriptions * BrokerAuth) (o : Order.t) (i : uuid) (a : AuthContext)
    (Hf : no_faults t) (Ho : t.(rows) !! i = Some o) (Hlive : live_exposure_row now o = true)
    (Hcreds : creds o.(Order.UserID) = inr a) (Hin : connects o.(Order.UserID) = true)
    (Hsub : subscribes o.(Order.UserID) = true) (Htoken : a.(BearerToken) <> "") :
  let w' := (prewarm creds connects subscribes now t w).2 in
  w'.1.(subscriberAuths) !! o.(Order.UserID) = Some a /\
  GetAuth o.(Order.UserID) w'.2 = Some (a.(BearerToken), a.(AppId), a.(Source)).
Proof.
  unfold prewarm, sqlGetUsersWithLiveExposure, select_users, driver. rewrite Hf. cbn [snd].
  apply warm_all; [done..|]. left. rewrite elem_of_remove_dups. apply list_elem_of_fmap. exists o.
  split; [done|]. apply list_elem_of_In, filter_In. split; [|done]. apply list_elem_of_In, list_elem_of_fmap.
  exists (i, o). split; [done|]. by apply elem_of_map_to_list.
Qed.

(** ** Instances *)

(** A market order that was pending at noon, when the service stopped. *)
Definition pending_row : Order.t :=
  status_row <| Order.OrderType := "MARKET" |> <| Order.CreatedAt := 1000 * second |>
    <| Order.UpdatedAt := 1000 * second |>.

Definition sample_book : list BookOrder.t :=
  [BookOrder.mk "NZ9" "TCS" "BUY" 5 (dec 300 0) fzero "INTRADAY" "Pending";
   BookOrder.mk "NZ1" "INFY" "BUY" 100 fzero fzero "INTRADAY" "Executed"].

Definition sample_recovery (book : list BookOrder.t) : RecoveryEnv := {|
  hooks := sample_hooks; auths_of := ∅; raw_json := fun _ => "{}"; clock := fun _ => 2000 * second;
  fresh := fun _ => "f"; others := fun _ t => t; credentials := fun u => inr (mkAuth u "app" "WEB" "token");
  GetOrderBook := fun _ => inr book; iter := fun l => l |}.

Lemma pending_home : lead_home (2000 * second) (status_table pending_row).
Proof.
  intros i o Ho id _ Hid. apply only_row in Ho as [<- <-]. injection Hid as <-. split; [done|].
  intros j r Hj _. by apply only_row in Hj as [<- _].
Qed.

Lemma pending_keyed : keyed (status_table pending_row).
Proof. intros i o Ho. by apply only_row in Ho as [<- <-]. Qed.

Lemma reconcile_agrees_witness :
  exists o', (reconcile_all (sample_recovery sample_book) (2000 * second) (status_table pending_row)).1.(rows) !! 1%N
    = Some o' /\ clean o'.(Order.Status) = "EXECUTED" /\ o'.(Order.FilledQuantity) = 100.
Proof.
  destruct (reconcile_agrees (sample_recovery sample_book) (2000 * second) (status_table pending_row)) as [_ H].
  - done.
  - done.
  - exact pending_keyed.
  - exact pending_home.
  - destruct (H 1%N pending_row (lookup_insert_eq _ _ _)) as (o' & Ho & Ha & _). exists o'. split; [exact Ho|].
    destruct (Ha (mkAuth "u" "app" "WEB" "token") sample_book "NZ1"
      (BookOrder.mk "NZ1" "INFY" "BUY" 100 fzero fzero "INTRADAY" "Executed")) as [Hs Hq]; try reflexivity.
    + vm_compute. congruence.
    + unfold in_int32. cbn. lia.
    + split; [exact Hs|]. apply Hq. vm_compute. congruence.
Defined.

Lemma reconciled_market_fill_not_exited_witness :
  exists o', (reconcile_all (sample_recovery sample_book) (2000 * second) (status_table pending_row)).1.(rows) !! 1%N
    = Some o' /\ is_fill (clean o'.(Order.Status)) = true /\ o'.(Order.FilledPrice) = None /\
    forall now', exitable_live_row now' o' = false.
Proof.
  apply (reconciled_market_fill_not_exited (sample_recovery sample_book) (2000 * second) (status_table pending_row)
    1%N pending_row (mkAuth "u" "app" "WEB" "token") sample_book "NZ1"
    (BookOrder.mk "NZ1" "INFY" "BUY" 100 fzero fzero "INTRADAY" "Executed")); try reflexivity.
  - exact pending_keyed.
  - exact pending_home.
Defined.

(** The fill of a limit order is given the limit price as its price. *)
Example limit_price_as_fill :
  (fun o => (o.(Order.Status), o.(Order.FilledPrice), o.(Order.ExchangeOrderNumber))) <$>
    (reconcile_all (sample_recovery [BookOrder.mk "NZ1" "INFY" "BUY" 100 (dec 15100 2) fzero "INTRADAY" "Traded"])
       (2000 * second) (status_table pending_row)).1.(rows) !! 1%N
  = Some ("TRADED", Some (dec 15100 2), Some "NZ1").
Proof. vm_compute. reflexivity. Qed.

(** What was traded of an order whose status is the same is not looked at. *)
Example partial_fill_missed :
  Order.FilledQuantity <$>
    (reconcile_all (sample_recovery [BookOrder.mk "NZ1" "INFY" "BUY" 40 fzero fzero "INTRADAY" "Pending"])
       (2000 * second) (status_table pending_row)).1.(rows) !! 1%N = Some 0.
Proof. vm_compute. reflexivity. Qed.

Lemma prewarm_covers_witness :
  let w' := (prewarm (fun u => inr (mkAuth u "app" "WEB" "token")) (fun u => u =?s "u") (fun _ => true)
               (2000 * second) (status_table pending_row) (MkSubs ∅ false 0 false, ∅)).2 in
  w'.1.(subscriberAuths) !! "u" = Some (mkAuth "u" "app" "WEB" "token") /\
  GetAuth "u" w'.2 = Some ("token", "app", "WEB").
Proof.
  apply (prewarm_covers (fun u => inr (mkAuth u "app" "WEB" "token")) (fun u => u =?s "u") (fun _ => true)
    (2000 * second) (status_table pending_row) (MkSubs ∅ false 0 false, ∅) pending_row 1%N
    (mkAuth "u" "app" "WEB" "token")); reflexivity || discriminate.
Defined.

(** A book row per period: the day's is kept, once, with its profit computed. *)
Example fetched_once :
  map (fun p => (p.(BrokerPosition.Symbol), p.(BrokerPosition.NetQty), sprintf_2f p.(BrokerPosition.PnL)))
    (daily_positions [] [BookPosition.mk "INFY-EQ" "INFY" "" "NSE" 1594 "INTRADAY" "EXPIRY" 10 10 0 (dec 1500 0) fzero
                           (dec 1510 0) fzero fzero;
                         BookPosition.mk "INFY-EQ" "INFY" "" "NSE" 1594 "INTRADAY" "DAILY" 10 10 0 (dec 1500 0) fzero
                           (dec 1510 0) fzero fzero])
  = [("INFY", 10, "100.00")].
Proof. vm_compute. reflexivity. Qed.
