(* ===== verification/BrokerSocket.v ===== *)
(** * The order-status socket of the broker

    [pkg/indira/websocket.go]: one connection at a time is current; every
    connection has a reader and a writer, and a monitor reconnects when the
    current one is lost, renews the order token, and follows a schedule of its own
    once the credentials have expired.

    A connection is a number.  A branch of the monitor's [select] is a step, with
    what the broker answers as its arguments and [during], what others do while
    the token is fetched without the lock; sending and receiving on connections,
    logs and the contents of messages other than those of [readPump] are left
    out.  The three callbacks are taken to be set, as the status service does. *)

From stdpp Require Import base tactics strings list.
From Stdlib Require Import ZArith Lia.
From S2P Require Import Prelude GoStrings GoTime OCOTypes StatusService.

Open Scope string_scope.
Open Scope list_scope.
Open Scope go_scope.

Module Monitor.
Record t : Type := mk {
  attempts : nat;       (** [tokenExpiredAttempts] *)
  timer : option Z;     (** what [tokenExpiredTimer] waits for *)
  current : nat;        (** [currentStopCh] *)
  running : bool
}.

#[global] Instance eta_monitor : Eta t := fun m => mk m.(attempts) m.(timer) m.(current) m.(running).
End Monitor.

Module Socket.
Record t : Type := mk {
  auth : AuthContext;
  OrderToken : string;
  conn : option nat;
  stopCh : option nat;
  IsActive : bool;
  isClosed : bool;
  next : nat;                 (** connections so far *)
  readers : list nat;         (** connections whose [readPump] runs *)
  writers : list nat;
  closed_stops : list nat;    (** stop channels that were closed *)
  closed_conns : list nat;    (** connections that were closed from this side *)
  pending : option AuthContext;   (** [resumeCh] *)
  monitors : list Monitor.t
}.

#[global] Instance eta_socket : Eta t := fun w =>
  mk w.(auth) w.(OrderToken) w.(conn) w.(stopCh) w.(IsActive) w.(isClosed) w.(next) w.(readers) w.(writers)
     w.(closed_stops) w.(closed_conns) w.(pending) w.(monitors).
End Socket.

Import Socket Monitor.

Definition NewWSClient (a : AuthContext) : Socket.t :=
  Socket.mk a "" None None false false 0 [] [] [] [] None [].

(** [tokenExpiredDelays]. *)
Definition tokenExpiredDelays : list Z := [30 * second; 300 * second; 600 * second]%Z.

(** The callbacks the monitor starts. *)
Inductive Note : Type := OnReconnected | OnTokenExpired (userID : string).

(** ** What others do *)

Inductive Other : Type :=
  | Close
  | ReaderEnds (k : nat)      (** reading fails on connection [k] *)
  | WriterEnds (k : nat)      (** writing fails, or the writer saw its stop channel *)
  | ResumeWithNewAuth (a : AuthContext).

Definition without (k : nat) (l : list nat) : list nat := List.filter (fun j => negb (Nat.eqb j k)) l.

Definition of_option {A} (o : option A) : list A := match o with Some a => [a] | None => [] end.

Definition other_step (w : Socket.t) (o : Other) : Socket.t :=
  match o with
  | Close =>
      if w.(isClosed) then w
      else w <| isClosed := true |> <| IsActive := false |>
             <| closed_stops := of_option w.(stopCh) ++ w.(closed_stops) |>
             <| closed_conns := of_option w.(conn) ++ w.(closed_conns) |>
  | ReaderEnds k =>
      let w := w <| readers := without k w.(readers) |> <| closed_conns := k :: w.(closed_conns) |> in
      if bool_decide (w.(conn) = Some k) then w <| IsActive := false |> else w
  | WriterEnds k => w <| writers := without k w.(writers) |> <| closed_conns := k :: w.(closed_conns) |>
  | ResumeWithNewAuth a => w <| pending := Some a |>
  end.

Definition others_do (l : list Other) (w : Socket.t) : Socket.t := foldl other_step w l.

(** ** Dialing *)

(** [dialLocked]; [dials] when both the dial and the first message succeed. *)
Definition dialLocked (dials : bool) (w : Socket.t) : Socket.t * option nat :=
  if dials then
    let n := w.(next) in
    (w <| conn := Some n |> <| stopCh := Some n |> <| IsActive := true |> <| next := S n |>
       <| readers := n :: w.(readers) |> <| writers := n :: w.(writers) |>, Some n)
  else (w, None).

Definition dialAndUpdate (token : string) (dials : bool) (w : Socket.t) : Socket.t * option nat :=
  if w.(isClosed) then (w, None) else dialLocked dials (w <| OrderToken := token |>).

(** [Connect]; the answers of [GetWebSocketToken] are an error text or a token. *)
Definition Connect (token : string + string) (dials : bool) (during : list Other) (w : Socket.t)
    : Socket.t * option string :=
  if w.(IsActive) || w.(isClosed) then (w, None)
  else
    let w := others_do during w in
    match token with
    | inl e => (w, Some e)
    | inr tok =>
        if w.(isClosed) then (w, Some "client has been permanently closed")
        else match dialLocked dials (w <| OrderToken := tok |>) with
             | (w, None) => (w, Some "websocket dial failed")
             | (w, Some n) => (w <| monitors := w.(monitors) ++ [Monitor.mk 0%nat None n true] |>, None)
             end
    end.

(** ** The monitor *)

(** [tryAuthRefresh], with what [OnAuthRefresh] answers. *)
Definition tryAuthRefresh (err : string) (answer : string + AuthContext) (w : Socket.t) : option Socket.t :=
  if negb (Contains err "HTTP error 401") then None
  else match answer with
       | inl _ => None
       | inr a => if a.(BearerToken) =?s w.(auth).(BearerToken) then None else Some (w <| auth := a |>)
       end.

Definition enterExpiredMode (user : string) (m : Monitor.t) : Monitor.t * list Note :=
  match tokenExpiredDelays !! m.(attempts) with
  | None => (m <| timer := None |>, [])
  | Some d =>
      (m <| timer := Some d |> <| attempts := S m.(attempts) |>,
       if Nat.eqb m.(attempts) 1 then [OnTokenExpired user] else [])
  end.

Definition expired (err : string) (w : Socket.t) (m : Monitor.t) : Socket.t * Monitor.t * list Note :=
  if Contains err "401" then let '(m, l) := enterExpiredMode w.(auth).(UserId) m in (w, m, l) else (w, m, []).

(** The dial at the end of a branch; [reset] when it leaves the expired mode. *)
Definition redial (tok : string) (dials reset : bool) (w : Socket.t) (m : Monitor.t)
    : Socket.t * Monitor.t * list Note :=
  match dialAndUpdate tok dials w with
  | (w, None) => (w, m, [])
  | (w, Some n) =>
      let m := m <| current := n |> in
      (w, if reset then m <| attempts := 0%nat |> else m, [OnReconnected])
  end.

(** The branches of the [select], with the answers they take: [token] is the
    first answer to [GetWebSocketToken], [again] the one after a refresh. *)
Inductive Branch : Type :=
  | Stopped
  | TokenRefresh (token : string + string) (refreshed : string + AuthContext) (again : string + string)
      (during : list Other)
  | Resumed (token : string + string) (dials : bool) (during : list Other)
  | ExpiredTimer (token : string + string) (dials : bool) (during : list Other)
  | NormalPoll (token : string + string) (refreshed : string + AuthContext) (again : string + string)
      (dials : bool) (during : list Other).

(** [None]: the branch cannot be chosen. *)
Definition branch (b : Branch) (w : Socket.t) (m : Monitor.t) : option (Socket.t * Monitor.t * list Note) :=
  match b with
  | Stopped =>
      if bool_decide (m.(current) ∈ w.(closed_stops)) then
        Some (if w.(isClosed) then (w, m <| running := false |>, [])
              else (w, m <| current := default m.(current) w.(stopCh) |>, []))
      else None
  | TokenRefresh token refreshed again during =>
      Some (if Nat.ltb 0 m.(attempts) then (w, m, [])
            else if w.(isClosed) then (w, m <| running := false |>, [])
            else
              let w := others_do during w in
              match token with
              | inr tok => (w <| OrderToken := tok |>, m, [])
              | inl e =>
                  match tryAuthRefresh e refreshed w with
                  | Some w =>
                      match again with
                      | inr tok => (w <| OrderToken := tok |>, m, [])
                      | inl e2 => expired e2 w m
                      end
                  | None => expired e w m
                  end
              end)
  | Resumed token dials during =>
      match w.(pending) with
      | None => None
      | Some a =>
          let w := others_do during (w <| pending := None |> <| auth := a |>) in
          let m := m <| attempts := 0%nat |> <| timer := None |> in
          Some (match token with
                | inl _ => let '(m, l) := enterExpiredMode w.(auth).(UserId) m in (w, m, l)
                | inr tok => redial tok dials false w m
                end)
      end
  | ExpiredTimer token dials during =>
      match m.(timer) with
      | None => None
      | Some _ =>
          let w := others_do during w in
          let m := m <| timer := None |> in
          Some (match token with
                | inl _ => let '(m, l) := enterExpiredMode w.(auth).(UserId) m in (w, m, l)
                | inr tok => redial tok dials true w m
                end)
      end
  | NormalPoll token refreshed again dials during =>
      if Nat.ltb 0 m.(attempts) then None
      else Some (if w.(isClosed) then (w, m <| running := false |>, [])
                 else if w.(IsActive) then (w, m, [])
                 else
                   let w := others_do during w in
                   match token with
                   | inr tok => redial tok dials true w m
                   | inl e =>
                       match tryAuthRefresh e refreshed w with
                       | Some w => match again with
                                   | inr tok => redial tok dials true w m
                                   | inl e2 => expired e2 w m
                                   end
                       | None => expired e w m
                       end
                   end)
  end.

(** ** The whole *)

Inductive Event : Type :=
  | EConnect (token : string + string) (dials : bool) (during : list Other)
  | EOther (o : Other)
  | EMonitor (i : nat) (b : Branch).

Definition step (w : Socket.t) (e : Event) : option (Socket.t * list Note) :=
  match e with
  | EConnect token dials during => Some ((Connect token dials during w).1, [])
  | EOther o => Some (other_step w o, [])
  | EMonitor i b =>
      m ← w.(monitors) !! i;
      if Monitor.running m then
        '(w', m', l) ← branch b w m;
        Some (w' <| monitors := <[i := m']> w'.(monitors) |>, l)
      else None
  end.

Fixpoint run (w : Socket.t) (es : list Event) : option (Socket.t * list Note) :=
  match es with
  | [] => Some (w, [])
  | e :: es =>
      '(w, l) ← step w e;
      '(w, l') ← run w es;
      Some (w, l ++ l')
  end.

(** ** Messages *)

(** [UnmarshalJSON] of a [FlexInt]: a number or a string. *)
Definition flex_unmarshal (s : string) : string :=
  let n := String.length s in
  if Nat.leb 2 n && bool_decide (String.get 0 s = Some (Ascii.ascii_of_nat 34))
     && bool_decide (String.get (n - 1) s = Some (Ascii.ascii_of_nat 34))
  then Stdlib.Strings.String.substring 1 (n - 2) s else s.

(** What [readPump] does with a message: [room] is what is left in [Updates]. *)
Definition deliver (room : nat) (ws : WS.t) : option WS.t :=
  if negb (ws.(WS.UniqueCode) =?s "") || negb (ws.(WS.OrderStatus) =?s "")
  then (if Nat.ltb 0 room then Some ws else None) else None.

(** [SendMessage]: the queue has 64 places. *)
Definition SendMessage (queued : nat) (w : Socket.t) : nat * option string :=
  if negb w.(IsActive) then (queued, Some "ws client is not active")
  else if Nat.ltb queued 64 then (S queued, None)
  else (queued, Some "ws send buffer full — dropping message").

(** [Subscribe]: the token of the user, then the request on the shared connection. *)
Definition Subscribe (token : string + string) (queued : nat) (w : Socket.t) : nat * option string :=
  match token with
  | inl e => (queued, Some e)
  | inr _ => SendMessage queued w
  end.

(** Does [Close] come back, that is, has everything it waits for ended? *)
Definition close_returns (w : Socket.t) : bool :=
  bool_decide (w.(readers) = []) && bool_decide (w.(writers) = [])
  && forallb (fun m => negb m.(running)) w.(monitors).

(** ** Properties of the order-status socket *)

Import Socket Monitor.


(** ** The invariant of a socket that was connected once *)

Definition below (n : nat) (l : list nat) : Prop := Forall (fun k => k < n)%nat l.

(** What holds of the connections, [c] being the one the monitor watches. *)
Record linked (w : Socket.t) (c : nat) : Prop := {
  lk_stop : w.(stopCh) = Some c;
  lk_conn : w.(conn) = Some c;
  lk_next : (c < w.(next))%nat;
  lk_closed : w.(closed_stops) = if w.(isClosed) then [c] else [];
  lk_active : w.(IsActive) = true -> w.(isClosed) = false /\ c ∈ w.(readers)
}.

(** What holds of the schedule. *)
Record scheduled (w : Socket.t) (m : Monitor.t) : Prop := {
  sc_attempts : (m.(attempts) <= 3)%nat;
  sc_timer : forall d, m.(timer) = Some d -> tokenExpiredDelays !! (m.(attempts) - 1)%nat = Some d /\ (0 < m.(attempts))%nat;
  sc_ended : m.(running) = false -> w.(isClosed) = true
}.

Definition sound (w : Socket.t) : Prop :=
  exists m, w.(monitors) = [m] /\ linked w m.(current) /\ scheduled w m.

Lemma without_elem j k l : j ∈ without k l <-> j ∈ l /\ j <> k.
Proof.
  unfold without. rewrite list_elem_of_In, filter_In, <- list_elem_of_In, negb_true_iff, Nat.eqb_neq. done.
Qed.

Lemma other_linked w c o : linked w c -> linked (other_step w o) c.
Proof.
  intros [H1 H2 H3 H4 H5]. destruct o as [|k|k|a]; cbn [other_step].
  - destruct w.(isClosed) eqn:Hc; [by split; rewrite ?Hc|].
    split; cbn; try done. by rewrite H1, H4.
  - cbn. rewrite H2. destruct (bool_decide_reflect (Some c = Some k)) as [E|E]; split; cbn; try done.
    intros Ha. destruct (H5 Ha) as [Hc Hr]. split; [done|]. apply without_elem. split; [done|congruence].
  - by split.
  - by split.
Qed.

Lemma others_linked l : forall w c, linked w c -> linked (others_do l w) c.
Proof. induction l as [|o l IH]; intros w c H; [done|]. cbn. by apply IH, other_linked. Qed.

Lemma other_closed w o : w.(isClosed) = true -> (other_step w o).(isClosed) = true.
Proof. intros H. destruct o; cbn; rewrite ?H; try done. by case_bool_decide. Qed.

Lemma others_closed l : forall w, w.(isClosed) = true -> (others_do l w).(isClosed) = true.
Proof. induction l as [|o l IH]; intros w H; [done|]. cbn. by apply IH, other_closed. Qed.

Lemma other_monitors w o : (other_step w o).(monitors) = w.(monitors).
Proof. destruct o; cbn; try case_bool_decide; try done. by destruct w.(isClosed). Qed.

Lemma others_monitors l : forall w, (others_do l w).(monitors) = w.(monitors).
Proof. induction l as [|o l IH]; intros w; [done|].
  change (others_do (o :: l) w) with (others_do l (other_step w o)). by rewrite IH, other_monitors. Qed.

(** The schedule does not depend on the connections. *)
Definition timely (m : Monitor.t) : Prop :=
  (m.(attempts) <= 3)%nat /\
  forall d, m.(timer) = Some d -> tokenExpiredDelays !! (m.(attempts) - 1)%nat = Some d /\ (0 < m.(attempts))%nat.

Lemma enter_timely user m :
  (m.(attempts) <= 3)%nat ->
  timely (enterExpiredMode user m).1 /\ (enterExpiredMode user m).1.(current) = m.(current) /\
  (enterExpiredMode user m).1.(running) = m.(running).
Proof.
  intros H. unfold enterExpiredMode. destruct (tokenExpiredDelays !! m.(attempts)) as [d|] eqn:E; cbn.
  - apply lookup_lt_Some in E as Hlt. cbn in Hlt. split; [|done]. split; cbn; [lia|].
    intros d' [= <-]. rewrite Nat.sub_0_r. split; [exact E|lia].
  - by split.
Qed.

Lemma expired_keeps e w m :
  timely m -> let '(w', m', _) := expired e w m in
  w' = w /\ timely m' /\ m'.(current) = m.(current) /\ m'.(running) = m.(running).
Proof.
  intros H. unfold expired. destruct (Contains e "401"); [|done].
  pose proof (enter_timely w.(auth).(UserId) m (proj1 H)) as Hm. by destruct (enterExpiredMode _ _).
Qed.

Lemma redial_keeps tok dials reset w m :
  linked w m.(current) -> timely m -> m.(timer) = None ->
  let '(w', m', _) := redial tok dials reset w m in
  linked w' m'.(current) /\ timely m' /\ w'.(isClosed) = w.(isClosed) /\ m'.(running) = m.(running) /\
  w'.(monitors) = w.(monitors).
Proof.
  intros Hl Ht Hn. unfold redial, dialAndUpdate. destruct w.(isClosed) eqn:Hc; [done|].
  destruct Hl as [H1 H2 H3 H4 H5]. rewrite Hc in H4. unfold dialLocked. destruct dials.
  - split; [|split; [|by destruct reset]].
    + destruct reset; (split; cbn; rewrite ?Hc; try done; [lia|]; intros _; split; [done|by constructor]).
    + destruct reset; [|exact Ht]. split; cbn; [lia|]. by rewrite Hn.
  - split; [|by cbn; rewrite Hc]. split; cbn; rewrite ?Hc; try done.
    intros Ha. split; [done|apply H5, Ha].
Qed.

Lemma linked_frame w w' c :
  w'.(stopCh) = w.(stopCh) -> w'.(conn) = w.(conn) -> w'.(next) = w.(next) ->
  w'.(closed_stops) = w.(closed_stops) -> w'.(isClosed) = w.(isClosed) -> w'.(IsActive) = w.(IsActive) ->
  w'.(readers) = w.(readers) -> linked w c -> linked w' c.
Proof. intros E1 E2 E3 E4 E5 E6 E7 [H1 H2 H3 H4 H5]. split; rewrite ?E1, ?E2, ?E3, ?E4, ?E5, ?E6, ?E7; done. Qed.

Lemma refreshed_keeps e answer w w' :
  tryAuthRefresh e answer w = Some w' ->
  (forall c, linked w c -> linked w' c) /\ w'.(isClosed) = w.(isClosed) /\ w'.(monitors) = w.(monitors).
Proof.
  unfold tryAuthRefresh. destruct (negb _); [done|]. destruct answer as [|a]; [done|].
  destruct (_ =?s _); [done|]. intros [= <-]. split; [|done]. intros c. by apply linked_frame.
Qed.

(** What every branch keeps, said of what it makes of socket and monitor. *)
Definition kept (w : Socket.t) (r : Socket.t * Monitor.t * list Note) : Prop :=
  let '(w', m', _) := r in
  linked w' m'.(current) /\ timely m' /\ w'.(monitors) = w.(monitors) /\
  (m'.(running) = false -> w'.(isClosed) = true) /\ (w.(isClosed) = true -> w'.(isClosed) = true).

Lemma kept_others during w r : kept (others_do during w) r -> kept w r.
Proof.
  destruct r as [[w' m'] l]. intros (H1 & H2 & H3 & H4 & H5). split; [done|]. split; [done|].
  rewrite H3, others_monitors. split; [done|]. split; [done|]. intros H. by apply H5, others_closed.
Qed.

Lemma kept_frame w0 w r :
  w.(monitors) = w0.(monitors) -> w.(isClosed) = w0.(isClosed) -> kept w r -> kept w0 r.
Proof. destruct r as [[w' m'] l]. unfold kept. by intros -> ->. Qed.

Lemma redial_kept tok dials reset w m :
  linked w m.(current) -> timely m -> m.(timer) = None -> m.(running) = true -> kept w (redial tok dials reset w m).
Proof.
  intros Hl Ht Hn Hr. pose proof (redial_keeps tok dials reset w m Hl Ht Hn) as H.
  destruct (redial tok dials reset w m) as [[w' m'] l]. destruct H as (H1 & H2 & H3 & H4 & H5).
  split; [done|]. split; [done|]. split; [done|]. rewrite H3, H4, Hr. done.
Qed.

Lemma expired_kept e w m :
  linked w m.(current) -> timely m -> m.(running) = true -> kept w (expired e w m).
Proof.
  intros Hl Ht Hr. pose proof (expired_keeps e w m Ht) as H. destruct (expired e w m) as [[w' m'] l].
  destruct H as (-> & H1 & H2 & H3). rewrite <- H2 in Hl. split; [done|]. split; [done|]. rewrite H3, Hr. done.
Qed.

Lemma enter_kept user w m :
  linked w m.(current) -> (m.(attempts) <= 3)%nat -> m.(running) = true ->
  kept w (let '(m, l) := enterExpiredMode user m in (w, m, l)).
Proof.
  intros Hl Ha Hr. destruct (enter_timely user m Ha) as (H1 & H2 & H3). destruct (enterExpiredMode user m) as [m' l].
  cbn [fst] in *. rewrite <- H2 in Hl. split; [done|]. split; [done|]. rewrite H3, Hr. done.
Qed.

Lemma same_kept w m : linked w m.(current) -> timely m -> m.(running) = true -> kept w (w, m, []).
Proof. intros Hl Ht Hr. split; [done|]. split; [done|]. by rewrite Hr. Qed.

Lemma ended_kept w m :
  linked w m.(current) -> timely m -> w.(isClosed) = true -> kept w (w, m <| running := false |>, []).
Proof. intros Hl Ht Hc. by split. Qed.

(** An idle monitor has no timer. *)
Lemma idle_timer m : timely m -> Nat.ltb 0 m.(attempts) = false -> m.(timer) = None.
Proof.
  intros [_ H] Ha%Nat.ltb_ge. destruct m.(timer) as [d|]; [|done]. destruct (H d eq_refl). lia.
Qed.

Lemma branch_kept b w m r :
  linked w m.(current) -> timely m -> m.(running) = true -> branch b w m = Some r -> kept w r.
Proof.
  intros Hl Ht Hr. destruct b as [|token refreshed again during|token dials during|token dials during
    |token refreshed again dials during]; cbn [branch].
  - case_bool_decide as H; [|done]. intros [= <-]. destruct w.(isClosed) eqn:Hc; [by apply ended_kept|].
    exfalso. destruct Hl as [_ _ _ H4 _]. rewrite H4, Hc in H. by apply elem_of_nil in H.
  - intros [= <-]. destruct (Nat.ltb 0 m.(attempts)); [by apply same_kept|].
    destruct w.(isClosed) eqn:Hc; [by apply ended_kept|]. apply (kept_others during).
    pose proof (others_linked during w _ Hl) as Hl'. set (w1 := others_do during w) in *.
    assert (Hs : forall tok w2, linked w2 m.(current) -> w2.(monitors) = w1.(monitors) ->
        w2.(isClosed) = w1.(isClosed) -> kept w1 (w2 <| OrderToken := tok |>, m, [])).
    { intros tok w2 H2 E1 E2. apply (kept_frame w1 (w2 <| OrderToken := tok |>)); [exact E1|exact E2|].
      apply same_kept; [by apply (linked_frame w2)|done..]. }
    destruct token as [e|tok]; [|by apply Hs].
    destruct (tryAuthRefresh e refreshed w1) as [w2|] eqn:E; [|by apply expired_kept].
    destruct (refreshed_keeps _ _ _ _ E) as (G1 & G2 & G3).
    destruct again as [e2|tok]; [|apply Hs; [by apply G1|done..]].
    apply (kept_frame w1 w2); [done..|]. apply expired_kept; [by apply G1|done..].
  - destruct w.(pending) as [a|]; [|done]. intros [= <-].
    set (w0 := w <| pending := None |> <| auth := a |>).
    apply (kept_frame w w0); [done..|]. apply (kept_others during).
    assert (Hl' : linked (others_do during w0) m.(current)) by (apply others_linked; by apply (linked_frame w)).
    destruct token as [e|tok].
    + set (m0 := m <| attempts := 0%nat |> <| timer := None |>).
      assert (Ha : (m0.(attempts) <= 3)%nat) by (cbn; lia).
      exact (enter_kept (others_do during w0).(auth).(UserId) (others_do during w0) m0 Hl' Ha Hr).
    + set (m0 := m <| attempts := 0%nat |> <| timer := None |>).
      assert (Ht0 : timely m0) by (split; [cbn; lia|done]).
      exact (redial_kept tok dials false (others_do during w0) m0 Hl' Ht0 eq_refl Hr).
  - destruct m.(timer); [|done]. intros [= <-]. apply (kept_others during).
    pose proof (others_linked during w _ Hl) as Hl'.
    destruct token as [e|tok].
    + set (m0 := m <| timer := None |>).
      exact (enter_kept (others_do during w).(auth).(UserId) (others_do during w) m0 Hl' (proj1 Ht) Hr).
    + set (m0 := m <| timer := None |>). assert (Ht0 : timely m0) by (split; [apply Ht|done]).
      exact (redial_kept tok dials true (others_do during w) m0 Hl' Ht0 eq_refl Hr).
  - destruct (Nat.ltb 0 m.(attempts)) eqn:Ha; [done|]. pose proof (idle_timer m Ht Ha) as Hn. intros [= <-].
    destruct w.(isClosed) eqn:Hc; [by apply ended_kept|]. destruct w.(IsActive); [by apply same_kept|].
    apply (kept_others during). pose proof (others_linked during w _ Hl) as Hl'.
    set (w1 := others_do during w) in *.
    destruct token as [e|tok]; [|by apply redial_kept].
    destruct (tryAuthRefresh e refreshed w1) as [w2|] eqn:E; [|by apply expired_kept].
    destruct (refreshed_keeps _ _ _ _ E) as (G1 & G2 & G3). apply (kept_frame w1 w2); [done..|].
    destruct again as [e2|tok]; [apply expired_kept|apply redial_kept]; try done; by apply G1.
Qed.

Definition no_connect (e : Event) : Prop := match e with EConnect _ _ _ => False | _ => True end.

Lemma step_sound w e w' l : sound w -> no_connect e -> step w e = Some (w', l) -> sound w'.
Proof.
  intros (m & Hm & Hl & Hs) He. destruct e as [token dials during|o|i b]; [done| |]; cbn [step].
  - intros [= <- <-]. exists m. rewrite other_monitors. split; [done|]. split; [by apply other_linked|].
    destruct Hs as [H1 H2 H3]. split; [done|done|]. intros Hr. by apply other_closed, H3.
  - rewrite Hm. destruct i as [|i]; [|done]. cbn. destruct m.(running) eqn:Hr; [|done].
    destruct (branch b w m) as [[[w1 m1] l1]|] eqn:Hb; [|done]. cbn. intros [= <- <-].
    destruct Hs as [H1 H2 _]. destruct (branch_kept b w m _ Hl (conj H1 H2) Hr Hb) as (G1 & [G2 G3] & G4 & G5 & _).
    exists m1. cbn. rewrite G4, Hm. split; [done|]. split; [by apply (linked_frame w1)|]. by split.
Qed.

Lemma run_sound es : forall w w' l, sound w -> Forall no_connect es -> run w es = Some (w', l) -> sound w'.
Proof.
  induction es as [|e es IH]; intros w w' l Hw He; cbn [run]; [by intros [= <- <-]|].
  apply Forall_cons in He as [He Hes]. destruct (step w e) as [[w1 l1]|] eqn:Hs; [|done]. cbn.
  destruct (run w1 es) as [[w2 l2]|] eqn:Hr; [|done]. cbn. intros [= <- <-].
  eapply IH; [|done|exact Hr]. by eapply step_sound.
Qed.

(** A socket as the status service has it: [Connect] has succeeded, once. *)
Definition connected (a : AuthContext) (token : string) : Socket.t :=
  (Connect (inr token) true [] (NewWSClient a)).1.

Lemma connected_sound a token : sound (connected a token).
Proof.
  exists (Monitor.mk 0%nat None 0%nat true). split; [done|]. split; split; cbn; try done; [lia| |lia].
  intros _. split; [done|]. by constructor.
Qed.

(** C29: Whatever happens to the socket, in whatever order: there is one monitor, it
    watches the connection that is current, an active socket is one whose current
    connection has its reader, at most three retries are scheduled, the delay of
    a retry is the one of its number, and the monitor ends only once the socket
    was closed. *)
Theorem socket_sound (a : AuthContext) (token : string) (es : list Event) (w : Socket.t) (l : list Note)
    (Hes : Forall no_connect es) (Hrun : run (connected a token) es = Some (w, l)) :
  exists m, w.(monitors) = [m] /\ w.(stopCh) = Some m.(current) /\ w.(conn) = Some m.(current) /\
    (w.(IsActive) = true -> w.(isClosed) = false /\ m.(current) ∈ w.(readers)) /\
    (m.(attempts) <= 3)%nat /\
    (forall d, m.(timer) = Some d -> exists k, m.(attempts) = S k /\ tokenExpiredDelays !! k = Some d) /\
    (m.(running) = false -> w.(isClosed) = true).
Proof.
  destruct (run_sound es _ _ _ (connected_sound a token) Hes Hrun) as (m & Hm & [H1 H2 _ _ H3] & [H4 H5 H6]).
  exists m. split; [done|]. split; [done|]. split; [done|]. split; [done|]. split; [done|]. split; [|done].
  intros d Hd. destruct (H5 d Hd) as [Hk Hp]. destruct m.(attempts) as [|k]; [lia|]. exists k.
  split; [done|]. cbn [Nat.sub] in Hk. by rewrite Nat.sub_0_r in Hk.
Qed.

(** ** Closing *)

Lemma other_next w o : (other_step w o).(next) = w.(next).
Proof. destruct o; cbn; try case_bool_decide; try done. by destruct w.(isClosed). Qed.

Lemma others_next l : forall w, (others_do l w).(next) = w.(next).
Proof.
  induction l as [|o l IH]; intros w; [done|].
  change (others_do (o :: l) w) with (others_do l (other_step w o)). by rewrite IH, other_next.
Qed.

Lemma redial_closed tok dials reset w m : w.(isClosed) = true -> redial tok dials reset w m = (w, m, []).
Proof. intros H. unfold redial, dialAndUpdate. by rewrite H. Qed.

Lemma expired_socket e w m : (expired e w m).1.1 = w.
Proof. unfold expired. destruct (Contains e "401"); [|done]. by destruct (enterExpiredMode _ _). Qed.

Lemma branch_closed b w m w' m' l :
  w.(isClosed) = true -> branch b w m = Some (w', m', l) -> w'.(next) = w.(next).
Proof.
  intros Hc. destruct b as [|token refreshed again during|token dials during|token dials during
    |token refreshed again dials during]; cbn [branch]; rewrite ?Hc.
  - case_bool_decide; [|done]. by intros [= <- <- <-].
  - destruct (Nat.ltb 0 m.(attempts)); by intros [= <- <- <-].
  - destruct w.(pending) as [a|]; [|done]. set (w0 := w <| pending := None |> <| auth := a |>).
    pose proof (others_closed during w0 Hc) as Hd. pose proof (others_next during w0) as Hn.
    destruct token as [e|tok].
    + destruct (enterExpiredMode _ _). by intros [= <- <- <-].
    + rewrite redial_closed by exact Hd. by intros [= <- <- <-].
  - destruct m.(timer); [|done].
    pose proof (others_closed during w Hc) as Hd. pose proof (others_next during w) as Hn.
    destruct token as [e|tok].
    + destruct (enterExpiredMode _ _). by intros [= <- <- <-].
    + rewrite redial_closed by exact Hd. by intros [= <- <- <-].
  - destruct (Nat.ltb 0 m.(attempts)); [done|]. by intros [= <- <- <-].
Qed.

(** Once the socket is closed it stays closed: no connection is opened any more,
    whatever answers arrive, and as long as the monitor runs it can see the stop
    channel, which ends it. *)
Theorem closed_socket_ends (a : AuthContext) (token : string) (es es' : list Event) (w w' : Socket.t)
    (l l' : list Note) (Hes : Forall no_connect es) (Hrun : run (connected a token) es = Some (w, l))
    (Hclosed : w.(isClosed) = true) (Hes' : Forall no_connect es') (Hrun' : run w es' = Some (w', l')) :
  w'.(isClosed) = true /\ w'.(IsActive) = false /\ w'.(next) = w.(next) /\
  forall m, w'.(monitors) = [m] -> m.(running) = true ->
    step w' (EMonitor 0 Stopped) = Some (w' <| monitors := [m <| running := false |>] |>, []).
Proof.
  assert (Hs : sound w) by exact (run_sound es _ _ _ (connected_sound a token) Hes Hrun). clear es l Hes Hrun.
  assert (H : sound w' /\ w'.(isClosed) = true /\ w'.(next) = w.(next)).
  { revert w l' Hclosed Hs Hrun'. induction es' as [|e es IH]; intros w l' Hc Hs; cbn [run]; [by intros [= <- <-]|].
    apply Forall_cons in Hes' as [He Hes]. destruct (step w e) as [[w1 l1]|] eqn:E; [|done]. cbn.
    destruct (run w1 es) as [[w2 l2]|] eqn:Hr; [|done]. cbn. intros [= <- <-].
    pose proof (step_sound w e w1 l1 Hs He E) as Hs1.
    assert (H : w1.(isClosed) = true /\ w1.(next) = w.(next)).
    { destruct e as [token' dials during|o|i b]; [done| |]; cbn [step] in E.
      - injection E as <- <-. split; [by apply other_closed|apply other_next].
      - destruct Hs as (m & Hm & Hl & [G1 G2 _]). rewrite Hm in E. destruct i as [|i]; [|done]. cbn in E.
        destruct m.(running) eqn:Hrm; [|done].
        destruct (branch b w m) as [[[w0 m0] l0]|] eqn:Hb; [|done]. cbn in E. injection E as <- <-.
        destruct (branch_kept b w m _ Hl (conj G1 G2) Hrm Hb) as (_ & _ & _ & _ & G5).
        split; [by apply G5|]. cbn. by eapply branch_closed. }
    destruct H as [Hc1 Hn1]. destruct (IH Hes w1 l2 Hc1 Hs1 Hr) as (Ha & Hb & Hd).
    split; [done|]. split; [done|]. congruence. }
  destruct H as ((m & Hm & [_ _ _ H4 H5] & _) & Hc & Hn). split; [done|]. split.
  { destruct w'.(IsActive); [|done]. destruct (H5 eq_refl). congruence. }
  split; [done|]. intros m' Hm' Hr. rewrite Hm in Hm'. injection Hm' as <-.
  assert (Hin : m.(current) ∈ w'.(closed_stops)) by (rewrite H4, Hc; by apply list_elem_of_singleton).
  cbn [step]. rewrite Hm. cbn [lookup list_lookup mbind option_bind]. rewrite Hr. cbn [branch].
  rewrite (bool_decide_eq_true_2 _ Hin), Hc. cbn. by rewrite Hm.
Qed.

(** ** Reconnecting *)

(** A connection that is lost is replaced at the next poll, when the token and the
    dial succeed: the socket is active on a new connection, and the users are
    subscribed again. *)
Theorem lost_connection_is_replaced (w : Socket.t) (m : Monitor.t) (k : nat) (token : string)
    (Hm : w.(monitors) = [m]) (Hk : w.(conn) = Some k) (Hopen : w.(isClosed) = false)
    (Hidle : m.(attempts) = 0%nat) (Hrun : m.(running) = true) :
  exists w', run w [EOther (ReaderEnds k); EMonitor 0 (NormalPoll (inr token) (inl "") (inr "") true [])]
               = Some (w', [OnReconnected]) /\
    w'.(IsActive) = true /\ w'.(conn) = Some w.(next) /\ w'.(OrderToken) = token /\
    w.(next) ∈ w'.(readers) /\ w.(next) ∈ w'.(writers).
Proof.
  destruct w as [a tok c s act cl n rs ws cs cc p ms], m as [at_ ti cu ru]. cbn in *. subst.
  rewrite bool_decide_eq_true_2 by done. eexists. split; [reflexivity|]. cbn.
  split_and!; try done; by left.
Qed.

(** With credentials that have expired and answers that all say so, the monitor
    waits thirty seconds, then five minutes, then ten; the users are told once,
    after the first retry; after the third there is no timer any more. *)
Theorem retry_schedule (w : Socket.t) (m : Monitor.t) (e1 e2 e3 e4 : string)
    (Hm : w.(monitors) = [m]) (Hopen : w.(isClosed) = false) (Hdown : w.(IsActive) = false)
    (Hidle : m.(attempts) = 0%nat) (Hrun : m.(running) = true) (He : Contains e1 "401" = true) :
  let state k t := w <| monitors := [m <| attempts := k |> <| timer := t |>] |> in
  let poll := EMonitor 0 (NormalPoll (inl e1) (inl "") (inl "") true []) in
  let retry e := EMonitor 0 (ExpiredTimer (inl e) true []) in
  run w [poll] = Some (state 1%nat (Some (30 * second)%Z), []) /\
  run w [poll; retry e2] = Some (state 2%nat (Some (300 * second)%Z), [OnTokenExpired w.(auth).(UserId)]) /\
  run w [poll; retry e2; retry e3] =
    Some (state 3%nat (Some (600 * second)%Z), [OnTokenExpired w.(auth).(UserId)]) /\
  run w [poll; retry e2; retry e3; retry e4] = Some (state 3%nat None, [OnTokenExpired w.(auth).(UserId)]).
Proof.
  destruct w as [a tok c s act cl n rs ws cs cc p ms], m as [at_ ti cu ru]. cbn in *. subst.
  assert (H : forall w, w.(auth) = a -> expired e1 w (Monitor.mk 0%nat ti cu true) =
    (w, Monitor.mk 1%nat (Some (30 * second)%Z) cu true, [])).
  { intros w Hw. unfold expired. by rewrite He. }
  unfold tryAuthRefresh. destruct (negb (Contains e1 "HTTP error 401")); cbn; rewrite !H by done; cbn; done.
Qed.

(** *** What suspends the socket *)

(** Nobody resumes, closes or connects. *)
Definition unattended (e : Event) : Prop :=
  match e with
  | EConnect _ _ _ | EOther Close | EOther (ResumeWithNewAuth _) => False
  | _ => True
  end.

(** Out of schedule: retries have begun and no timer runs. *)
Definition suspended (w : Socket.t) : Prop :=
  exists m, w.(monitors) = [m] /\ (0 < m.(attempts))%nat /\ m.(timer) = None /\ w.(pending) = None /\
    w.(closed_stops) = [] /\ w.(IsActive) = false.

Lemma suspended_step w e w' l :
  suspended w -> unattended e -> step w e = Some (w', l) ->
  suspended w' /\ l = [] /\ w'.(next) = w.(next).
Proof.
  intros (m & Hm & Ha & Ht & Hp & Hc & Hi) He. destruct e as [? ? ?|o|i b]; [done| |]; cbn [step].
  - intros [= <- <-]. split; [|by rewrite other_next]. exists m. rewrite other_monitors.
    split_and!; try done; destruct o as [|k|k|a]; cbn; try done; by case_bool_decide.
  - rewrite Hm. destruct i as [|i]; [|done]. cbn. destruct m.(running); [|done].
    assert (Hl : Nat.ltb 0 m.(attempts) = true) by by apply Nat.ltb_lt.
    destruct b; cbn [branch]; rewrite ?Hc, ?Hp, ?Ht, ?Hl.
    + by rewrite bool_decide_eq_false_2 by by apply not_elem_of_nil.
    + cbn. intros [= <- <-]. rewrite Hm. cbn. split; [|done]. by exists m.
    + done.
    + done.
    + done.
Qed.

Lemma suspended_run es : forall w w' l,
  suspended w -> Forall unattended es -> run w es = Some (w', l) ->
  suspended w' /\ l = [] /\ w'.(next) = w.(next).
Proof.
  induction es as [|e es IH]; intros w w' l Hw He; cbn [run]; [by intros [= <- <-]|].
  apply Forall_cons in He as [He Hes]. destruct (step w e) as [[w1 l1]|] eqn:E; [|done]. cbn.
  destruct (run w1 es) as [[w2 l2]|] eqn:Hr; [|done]. cbn. intros [= <- <-].
  destruct (suspended_step w e w1 l1 Hw He E) as (H1 & -> & H2).
  destruct (IH w1 w2 l2 H1 Hes Hr) as (H3 & -> & H4). by rewrite H4, H2.
Qed.

(** C28: A retry that gets a token but cannot dial suspends the socket for good: the
    timer is used up, the poll is switched off while the attempts are counted, and
    whatever happens next, short of new credentials from a user, no connection is
    opened and nobody is told, however many attempts were left. *)
Theorem failed_dial_suspends (a : AuthContext) (token tok : string) (before es : list Event)
    (w w1 w' : Socket.t) (l l1 l' : list Note)
    (Hbefore : Forall no_connect before) (Hrun : run (connected a token) before = Some (w, l))
    (Hopen : w.(isClosed) = false) (Hdown : w.(IsActive) = false) (Hpending : w.(pending) = None)
    (Hdial : step w (EMonitor 0 (ExpiredTimer (inr tok) false [])) = Some (w1, l1))
    (Hes : Forall unattended es) (Hrest : run w1 es = Some (w', l')) :
  w'.(IsActive) = false /\ w'.(next) = w.(next) /\ l1 = [] /\ l' = [].
Proof.
  destruct (run_sound before _ _ _ (connected_sound a token) Hbefore Hrun)
    as (m & Hm & [_ _ _ Hc _] & [_ Ht _]).
  rewrite Hopen in Hc. cbn [step] in Hdial. rewrite Hm in Hdial.
  cbn [lookup list_lookup mbind option_bind] in Hdial. destruct m.(running); [|done].
  cbn [branch] in Hdial. destruct m.(timer) as [d|]; [|done]. destruct (Ht d eq_refl) as [_ Hpos].
  cbn [others_do foldl] in Hdial. unfold redial, dialAndUpdate in Hdial. rewrite Hopen in Hdial.
  cbn in Hdial. injection Hdial as <- <-.
  assert (Hs : suspended (w <| OrderToken := tok |> <| monitors := <[0%nat := m <| timer := None |>]> w.(monitors) |>)).
  { exists (m <| timer := None |>). rewrite Hm. by split_and!. }
  destruct (suspended_run es _ w' l' Hs Hes Hrest) as ((m' & _ & _ & _ & _ & _ & Hi) & Hl & Hn). by split_and!.
Qed.

(** ** A resumption while the connection is alive *)

(** A user who hands over new credentials although the connection is alive makes
    the monitor open another one and forget the first, whose reader and writer go
    on: messages then arrive twice, and closing the socket neither closes the
    first connection nor its stop channel, so that it waits for the peer to end
    it. *)
Theorem resume_leaks_connection (w : Socket.t) (m : Monitor.t) (k : nat) (a : AuthContext) (token : string)
    (Hm : w.(monitors) = [m]) (Hl : linked w k) (Hcur : m.(current) = k) (Hrun : m.(running) = true)
    (Halive : w.(IsActive) = true) (Hpumps : k ∈ w.(writers)) (Hnot : k ∉ w.(closed_conns)) :
  exists w', run w [EOther (ResumeWithNewAuth a); EMonitor 0 (Resumed (inr token) true []); EOther Close]
               = Some (w', [OnReconnected]) /\
    k ∈ w'.(readers) /\ k ∈ w'.(writers) /\ w.(next) ∈ w'.(readers) /\
    k ∉ w'.(closed_conns) /\ k ∉ w'.(closed_stops) /\ close_returns w' = false.
Proof.
  destruct Hl as [H1 H2 H3 H4 H5]. destruct (H5 Halive) as [Hopen Hr]. rewrite Hopen in H4.
  destruct w as [b tok c s act cl n rs ws cs cc p ms], m as [at_ ti cu ru]. cbn in *. subst.
  eexists. split; [reflexivity|]. cbn. split_and!.
  - by right.
  - by right.
  - by left.
  - apply not_elem_of_cons. split; [lia|done].
  - apply not_elem_of_cons. split; [lia|]. by apply not_elem_of_nil.
  - reflexivity.
Qed.

(** ** Instances *)

Definition broker_auth : AuthContext := mkAuth "A1" "app" "WEB" "token".

(** Two connections, one of them lost, and the poll. *)
Definition sample_events : list Event :=
  [EMonitor 0 (NormalPoll (inl "") (inl "") (inl "") true []); EOther (ReaderEnds 0);
   EMonitor 0 (NormalPoll (inl "HTTP error 401: expired") (inl "") (inl "") true [])].

Definition retrying : Socket.t := from_option fst (connected broker_auth "t") (run (connected broker_auth "t") sample_events).

Lemma sample_run : run (connected broker_auth "t") sample_events = Some (retrying, []).
Proof. vm_compute. reflexivity. Qed.

Lemma sample_no_connect : Forall no_connect sample_events.
Proof. by repeat constructor. Qed.

Lemma socket_sound_witness : exists m, retrying.(monitors) = [m] /\ (m.(attempts) <= 3)%nat /\
  retrying.(conn) = Some m.(current).
Proof.
  destruct (socket_sound broker_auth "t" sample_events retrying [] sample_no_connect sample_run)
    as (m & H1 & _ & H2 & _ & H3 & _). exists m. by split_and!.
Defined.

Definition closed_socket : Socket.t := other_step retrying Close.

Lemma closed_run : run (connected broker_auth "t") (sample_events ++ [EOther Close]) = Some (closed_socket, []).
Proof. vm_compute. reflexivity. Qed.

Lemma closed_no_connect : Forall no_connect (sample_events ++ [EOther Close]).
Proof. by repeat constructor. Qed.

Definition resume_late : list Event := [EOther (ResumeWithNewAuth broker_auth); EMonitor 0 (Resumed (inr "t2") true [])].

Lemma closed_socket_ends_witness :
  exists w', run closed_socket resume_late = Some (w', []) /\ w'.(IsActive) = false /\ w'.(next) = closed_socket.(next).
Proof.
  eexists. assert (E : run closed_socket resume_late = Some (from_option fst closed_socket (run closed_socket resume_late), []))
    by (vm_compute; reflexivity).
  destruct (closed_socket_ends broker_auth "t" (sample_events ++ [EOther Close]) resume_late closed_socket _ [] []
    closed_no_connect closed_run eq_refl ltac:(by repeat constructor) E) as (_ & H1 & H2 & _).
  split; [exact E|]. by split.
Defined.

Lemma lost_connection_is_replaced_witness :
  exists w', run (connected broker_auth "t")
      [EOther (ReaderEnds 0); EMonitor 0 (NormalPoll (inr "t2") (inl "") (inr "") true [])]
      = Some (w', [OnReconnected]) /\ w'.(IsActive) = true /\ w'.(conn) = Some 1%nat.
Proof.
  destruct (lost_connection_is_replaced (connected broker_auth "t") (Monitor.mk 0%nat None 0%nat true) 0%nat "t2")
    as (w' & H1 & H2 & H3 & _); try reflexivity. exists w'. by split_and!.
Defined.

Lemma retry_schedule_witness :
  let w := other_step (connected broker_auth "t") (ReaderEnds 0) in
  run w [EMonitor 0 (NormalPoll (inl "HTTP error 401") (inl "") (inl "") true []);
         EMonitor 0 (ExpiredTimer (inl "x") true [])]
  = Some (w <| monitors := [Monitor.mk 2%nat (Some (300 * second)%Z) 0%nat true] |>, [OnTokenExpired "A1"]).
Proof.
  apply (retry_schedule (other_step (connected broker_auth "t") (ReaderEnds 0)) (Monitor.mk 0%nat None 0%nat true)
    "HTTP error 401" "x" "" ""); reflexivity.
Defined.

Definition undialed : Socket.t :=
  from_option fst retrying (step retrying (EMonitor 0 (ExpiredTimer (inr "t2") false []))).

Lemma undialed_step :
  step retrying (EMonitor 0 (ExpiredTimer (inr "t2") false [])) = Some (undialed, []) /\
  retrying.(isClosed) = false /\ retrying.(IsActive) = false /\ retrying.(pending) = None.
Proof. vm_compute. auto. Qed.

Lemma failed_dial_suspends_witness (w' := undialed) :
  run undialed [EMonitor 0 (TokenRefresh (inr "t3") (inl "") (inl "") [])] = Some (w', []) /\
  w'.(IsActive) = false /\ w'.(next) = retrying.(next).
Proof.
  assert (H : run undialed [EMonitor 0 (TokenRefresh (inr "t3") (inl "") (inl "") [])] = Some (w', []))
    by (vm_compute; reflexivity).
  destruct undialed_step as (H1 & H2 & H3 & H4).
  destruct (failed_dial_suspends broker_auth "t" "t2" sample_events
    [EMonitor 0 (TokenRefresh (inr "t3") (inl "") (inl "") [])] retrying undialed w' [] [] []
    sample_no_connect sample_run H2 H3 H4 H1 ltac:(by repeat constructor) H) as (H5 & H6 & _).
  split; [exact H|]. by split.
Defined.

Lemma resume_leaks_connection_witness :
  exists w', run (connected broker_auth "t")
      [EOther (ResumeWithNewAuth broker_auth); EMonitor 0 (Resumed (inr "t2") true []); EOther Close]
      = Some (w', [OnReconnected]) /\ close_returns w' = false.
Proof.
  destruct (resume_leaks_connection (connected broker_auth "t") (Monitor.mk 0%nat None 0%nat true) 0%nat broker_auth "t2")
    as (w' & H1 & H2); try reflexivity.
  - destruct (connected_sound broker_auth "t") as (m & Hm & H & _). by injection Hm as <-.
  - by left.
  - by apply not_elem_of_nil.
  - exists w'. split; [exact H1|apply H2].
Defined.

(** [Connect] on a socket whose connection was lost starts a second monitor. *)
Example second_connect_second_monitor :
  length (Connect (inr "t2") true [] (other_step (connected broker_auth "t") (ReaderEnds 0))).1.(monitors) = 2%nat.
Proof. reflexivity. Qed.

(** An error of the network during a retry counts as an expiry. *)
Example network_error_counts :
  (enterExpiredMode "u" (Monitor.mk 1%nat None 0%nat true)).1.(attempts) = 2%nat /\
  (branch (ExpiredTimer (inl "request failed: timeout") true []) (connected broker_auth "t")
     (Monitor.mk 1%nat (Some (30 * second)%Z) 0%nat true))
    = Some (connected broker_auth "t", Monitor.mk 2%nat (Some (300 * second)%Z) 0%nat true, [OnTokenExpired "A1"]).
Proof. split; vm_compute; reflexivity. Qed.

Example flexible_numbers : flex_unmarshal "12" = "12" /\ flex_unmarshal (String (Ascii.ascii_of_nat 34) ("12" ++ String (Ascii.ascii_of_nat 34) "")) = "12".
Proof. split; vm_compute; reflexivity. Qed.
