(* ===== verification/MarketFeed.v ===== *)
(** * The shared market feed

    [trade-execution/internal/marketws/client.go]: the client of the market data
    stream that the price monitor and the multi-level exits share.  A token is
    subscribed for as long as somebody counts on it.

    Every section under one of the locks is a step, and a call of [Subscribe] or
    [Unsubscribe] is the [Work] that is left of it.  Messages that cannot be
    written are lost; [fsent] lists the others with the connection they went to.
    The decoder is the one of the paper trades' client, which is the same code. *)

From stdpp Require Import base tactics gmap gmultiset strings list fin_sets.
From Stdlib Require Import ZArith Ascii Lia.
From S2P Require Import Prelude GoFloat GoStrings Trailing PaperPrices FloatOrder.

Open Scope string_scope.
Open Scope list_scope.
Open Scope go_scope.

(** ** Prices *)

(** The market data of a JSON message. *)
Definition json_feed_tick (envelope : list (string * json)) : option Feed.Tick :=
  match field "type" envelope with
  | JString ty =>
      if ty =?s "market_data" then
        let symbol := extractString envelope ["symbol"] in
        let ltp := match field "data" envelope with
                   | JObject nested => extractFloat nested ["ltp"]
                   | _ => fzero
                   end in
        if negb (symbol =?s "") && flt fzero ltp
        then Some (Feed.mkTick symbol (extractString envelope ["token"]) (extractString envelope ["exchange"]) ltp)
        else None
      else None
  | _ => None
  end.

(** The tick of a message; the outer [None] is a panic. *)
Definition feed_tick (unmarshal : bytes -> option (list (string * json))) (msg : bytes)
    : option (option Feed.Tick) :=
  match msg with
  | [] => Some None
  | tag :: _ =>
      if Ascii.eqb tag wsMsgMarketData then Feed.decodeBinaryTick msg
      else if (N_of_ascii tag <? 32)%N then Some None
      else Some (envelope ← unmarshal msg; json_feed_tick envelope)
  end.

Record FeedPrices : Type := mkPrices {
  feedCache : gmap string f64;       (** [ltpCache] *)
  symbolToKey : gmap string string
}.

Definition feed_key (exchange token : string) : string := (ToLower exchange ++ ":" ++ token)%string.

(** [updateCache]: the caches and the call of [onPriceUpdate]. *)
Definition updateCache (t : Feed.Tick) (p : FeedPrices) : FeedPrices * (string * f64) :=
  let key := feed_key t.(Feed.exchange) t.(Feed.token) in
  (mkPrices (<[key := t.(Feed.ltp)]> p.(feedCache))
     (if t.(Feed.symbol) =?s "" then p.(symbolToKey)
      else <[ToUpper t.(Feed.symbol) := key]> p.(symbolToKey)),
   (key, t.(Feed.ltp))).

Definition feed_message (unmarshal : bytes -> option (list (string * json))) (msg : bytes) (p : FeedPrices)
    : option (FeedPrices * list (string * f64)) :=
  t ← feed_tick unmarshal msg;
  Some (match t with
        | None => (p, [])
        | Some t => let '(p, call) := updateCache t p in (p, [call])
        end).

Definition feed_GetLTP (key : string) (p : FeedPrices) : f64 * bool :=
  match p.(feedCache) !! key with
  | Some ltp => (ltp, flt fzero ltp)
  | None => (fzero, false)
  end.

Definition feed_GetLTPs (keys : list string) (p : FeedPrices) : gmap string f64 :=
  list_to_map (omap (fun k => ltp ← p.(feedCache) !! k; if flt fzero ltp then Some (k, ltp) else None) keys).

(** ** Subscriptions *)

Inductive Frame : Type :=
  | Sub (tokens : list string)
  | Unsub (tokens : list string).

(** What is left of a call, or of a connect, after a section under a lock. *)
Inductive Work : Type :=
  | Add (tokens : list string)       (** [Subscribe]: record and send *)
  | Remove (tokens : list string)    (** [Unsubscribe]: forget *)
  | Tell (tokens : list string)      (** [Unsubscribe]: send *)
  | Resub (tokens : list string).    (** [connectAndConsume]: send everything *)

Record FeedClient : Type := mkFeed {
  refCount : gmap string Z;
  fsubscribed : gset string;
  fconn : option nat;
  connections : nat;
  fsent : list (nat * Frame);
  work : list Work
}.

#[export] Instance eta_feed : Eta FeedClient := fun c =>
  mkFeed c.(refCount) c.(fsubscribed) c.(fconn) c.(connections) c.(fsent) c.(work).

Definition NewFeed : FeedClient := mkFeed ∅ ∅ None 0 [] [].

(** The first section of [Subscribe]. *)
Fixpoint count_up (tokens : list string) (m : gmap string Z) : gmap string Z * list string :=
  match tokens with
  | [] => (m, [])
  | t :: tokens =>
      if t =?s "" then count_up tokens m
      else
        let n := (default 0 (m !! t) + 1)%Z in
        let '(m, new) := count_up tokens (<[t := n]> m) in
        (m, if (n =? 1)%Z then t :: new else new)
  end.

(** The first section of [Unsubscribe]. *)
Fixpoint count_down (tokens : list string) (m : gmap string Z) : gmap string Z * list string :=
  match tokens with
  | [] => (m, [])
  | t :: tokens =>
      if t =?s "" then count_down tokens m
      else
        let n := (default 0 (m !! t) - 1)%Z in
        let '(m, gone) := count_down tokens (if (n <=? 0)%Z then delete t m else <[t := n]> m) in
        (m, if (n <=? 0)%Z then t :: gone else gone)
  end.

(** A message on the current connection; [writes] when it can be written. *)
Definition send (writes : bool) (f : Frame) (c : FeedClient) : FeedClient :=
  match c.(fconn) with
  | Some n => if writes then c <| fsent := c.(fsent) ++ [(n, f)] |> else c
  | None => c
  end.

Inductive FeedStep : Type :=
  | CallSubscribe (tokens : list string)
  | CallUnsubscribe (tokens : list string)
  | Work_ (i : nat) (writes : bool)    (** the next section of the [i]-th unfinished call *)
  | Dial (order : list string -> list string)    (** the connection is there *)
  | Lost.                              (** and gone *)

Definition other_work {A} (i : nat) (l : list A) : list A := take i l ++ drop (S i) l.

(** What a unit of work does and what is left of it. *)
Definition work_step (writes : bool) (u : Work) (c : FeedClient) : FeedClient * list Work :=
  match u with
  | Add tokens => (send writes (Sub tokens) (c <| fsubscribed := c.(fsubscribed) ∪ list_to_set tokens |>), [])
  | Remove tokens =>
      let c' := c <| fsubscribed := c.(fsubscribed) ∖ list_to_set tokens |> in
      (c', match c.(fconn) with None => [] | Some _ => [Tell tokens] end)
  | Tell tokens => (send writes (Unsub tokens) c, [])
  | Resub tokens => (send writes (Sub tokens) c, [])
  end.

Definition pend (l : list string) (u : list string -> Work) (c : FeedClient) : FeedClient :=
  match l with [] => c | _ => c <| work := c.(work) ++ [u l] |> end.

Definition feed_step (c : FeedClient) (s : FeedStep) : FeedClient :=
  match s with
  | CallSubscribe tokens =>
      let '(m, new) := count_up tokens c.(refCount) in pend new Add (c <| refCount := m |>)
  | CallUnsubscribe tokens =>
      let '(m, gone) := count_down tokens c.(refCount) in pend gone Remove (c <| refCount := m |>)
  | Work_ i writes =>
      match c.(work) !! i with
      | None => c
      | Some u => let '(c', rest) := work_step writes u c in c' <| work := other_work i c.(work) ++ rest |>
      end
  | Dial order =>
      let c := c <| fconn := Some c.(connections) |> <| connections := S c.(connections) |> in
      pend (order (elements c.(fsubscribed))) Resub c
  | Lost => c <| fconn := None |>
  end.

Definition feed_run : FeedClient -> list FeedStep -> FeedClient := foldl feed_step.

(** What the server has: the subscriptions of the current connection. *)
Definition server_apply (n : nat) (s : gset string) (f : nat * Frame) : gset string :=
  if Nat.eqb f.1 n then
    match f.2 with
    | Sub l => s ∪ list_to_set l
    | Unsub l => s ∖ list_to_set l
    end
  else s.

Definition server_view (c : FeedClient) : gset string :=
  match c.(fconn) with
  | None => ∅
  | Some n => foldl (server_apply n) ∅ c.(fsent)
  end.

(** ** Calls that do not overlap *)

(** A call with all its sections; the second component says whether what they send
    can be written. *)
Definition undisturbed (s : FeedStep * bool) : list FeedStep := [s.1; Work_ 0 s.2; Work_ 0 s.2].

(** Whether everything since the connection was dialled has been written. *)
Definition written (ok : bool) (s : FeedStep * bool) : bool :=
  match s.1 with Dial _ => s.2 | _ => ok && s.2 end.

(** Who counts on what: a bag of tokens. *)
Definition bag_add (tokens : list string) (b : gmultiset string) : gmultiset string :=
  b ⊎ list_to_set_disj (List.filter (fun t => negb (t =?s "")) tokens).

Definition bag_remove (tokens : list string) (b : gmultiset string) : gmultiset string :=
  b ∖ list_to_set_disj (List.filter (fun t => negb (t =?s "")) tokens).

Definition bag_step (b : gmultiset string) (s : FeedStep) : gmultiset string :=
  match s with
  | CallSubscribe tokens => bag_add tokens b
  | CallUnsubscribe tokens => bag_remove tokens b
  | _ => b
  end.

(** ** Properties of the shared market feed *)

(** ** Counting *)

(** The counters are the multiplicities of the bag. *)
Definition counts (m : gmap string Z) (b : gmultiset string) : Prop :=
  forall t, m !! t = let k := multiplicity t b in if decide (k = 0%nat) then None else Some (Z.of_nat k).

Lemma counts_default m b t : counts m b -> default 0%Z (m !! t) = Z.of_nat (multiplicity t b).
Proof. intros H. rewrite (H t). cbn. by destruct (decide _) as [->|]. Qed.

Lemma bag_add_cons t l b : t <> "" -> bag_add (t :: l) b = bag_add l (b ⊎ {[+ t +]}).
Proof.
  intros H%String.eqb_neq. unfold bag_add. cbn [List.filter]. rewrite H. cbn [negb list_to_set_disj foldr].
  apply gmultiset_eq. intros s. rewrite !multiplicity_disj_union. lia.
Qed.

Lemma bag_remove_cons t l b : t <> "" -> bag_remove (t :: l) b = bag_remove l (b ∖ {[+ t +]}).
Proof.
  intros H%String.eqb_neq. unfold bag_remove. cbn [List.filter]. rewrite H. cbn [negb list_to_set_disj foldr].
  apply gmultiset_eq. intros s. rewrite !multiplicity_difference, multiplicity_disj_union. lia.
Qed.

Lemma bag_skip l b : bag_add ("" :: l) b = bag_add l b /\ bag_remove ("" :: l) b = bag_remove l b.
Proof. done. Qed.

Lemma counts_up m b t :
  counts m b -> counts (<[t := (default 0 (m !! t) + 1)%Z]> m) (b ⊎ {[+ t +]}).
Proof.
  intros H s. cbn. rewrite multiplicity_disj_union, multiplicity_singleton. destruct (decide (s = t)) as [->|Hne].
  - rewrite lookup_insert_eq, (counts_default m b) by done. destruct (decide _); [lia|]. f_equal. lia.
  - rewrite lookup_insert_ne by done. rewrite (H s). cbn. by rewrite Nat.add_0_r.
Qed.

Lemma counts_down m b t (n := (default 0 (m !! t) - 1)%Z) :
  counts m b -> counts (if (n <=? 0)%Z then delete t m else <[t := n]> m) (b ∖ {[+ t +]}).
Proof.
  intros H s. cbn. rewrite multiplicity_difference, multiplicity_singleton.
  unfold n. rewrite (counts_default m b) by done. destruct (decide (s = t)) as [->|Hne].
  - destruct (Z.leb_spec (Z.of_nat (multiplicity t b) - 1) 0).
    + rewrite lookup_delete_eq. destruct (decide _); [done|lia].
    + rewrite lookup_insert_eq. destruct (decide _); [lia|]. f_equal. lia.
  - rewrite Nat.sub_0_r. destruct (_ <=? 0)%Z.
    + rewrite lookup_delete_ne by done. apply H.
    + rewrite lookup_insert_ne by done. apply H.
Qed.

Lemma count_up_spec tokens : forall m b, counts m b ->
  let '(m', new) := count_up tokens m in
  counts m' (bag_add tokens b) /\ dom (bag_add tokens b) = dom b ∪ (list_to_set new : gset string).
Proof.
  induction tokens as [|t tokens IH]; intros m b H; cbn [count_up].
  - assert (E : b ⊎ ∅ = b) by multiset_solver. unfold bag_add. cbn. rewrite E. split; [done|]. set_solver.
  - destruct (String.eqb_spec t "") as [->|Hne]; [exact (IH m b H)|].
    pose proof (IH _ _ (counts_up m b t H)) as G. rewrite bag_add_cons by done.
    destruct (count_up tokens _) as [m' new]. destruct G as [G1 G2]. split; [exact G1|]. rewrite G2.
    rewrite (counts_default m b) by done. destruct (Z.eqb_spec (Z.of_nat (multiplicity t b) + 1) 1).
    + cbn. apply set_eq. intros s. rewrite !elem_of_union, !gmultiset_elem_of_dom. multiset_solver.
    + apply set_eq. intros s. rewrite !elem_of_union, !gmultiset_elem_of_dom.
      assert (t ∈ b) by (apply elem_of_multiplicity; lia). multiset_solver.
Qed.

Lemma count_down_spec tokens : forall m b, counts m b ->
  let '(m', gone) := count_down tokens m in
  counts m' (bag_remove tokens b) /\ dom (bag_remove tokens b) = dom b ∖ (list_to_set gone : gset string).
Proof.
  induction tokens as [|t tokens IH]; intros m b H; cbn [count_down].
  - assert (E : b ∖ ∅ = b) by multiset_solver. unfold bag_remove. cbn. rewrite E. split; [done|]. set_solver.
  - destruct (String.eqb_spec t "") as [->|Hne]; [exact (IH m b H)|].
    pose proof (IH _ _ (counts_down m b t H)) as G. rewrite bag_remove_cons by done. cbv zeta in G.
    destruct (count_down tokens _) as [m' gone]. destruct G as [G1 G2]. split; [exact G1|]. rewrite G2.
    rewrite (counts_default m b) by done.
    assert (Hs : forall s, s ∈ dom (b ∖ {[+ t +]}) <-> s ∈ dom b /\ (s = t -> 2 <= multiplicity t b)%nat).
    { intros s. rewrite !gmultiset_elem_of_dom, !elem_of_multiplicity, multiplicity_difference, multiplicity_singleton.
      destruct (decide (s = t)) as [->|].
      - split; [intros; split; [lia|intros; lia]|]. intros [_ H2]. specialize (H2 eq_refl). lia.
      - rewrite Nat.sub_0_r. naive_solver. }
    apply set_eq. intros s. rewrite !elem_of_difference, Hs.
    destruct (Z.leb_spec (Z.of_nat (multiplicity t b) - 1) 0).
    + cbn. rewrite not_elem_of_union, not_elem_of_singleton. split; [intros [[? Hx] ?]|intros [? [? ?]]].
      * split; [done|]. split; [|done]. intros ->. specialize (Hx eq_refl). lia.
      * split; [|done]. split; [done|]. by intros ->.
    + split; [naive_solver|]. intros [? ?]. split; [|done]. split; [done|]. intros ->. lia.
Qed.

(** ** The client and the bag *)

(** Between calls that do not overlap; the server follows when all was written. *)
Record follows (ok : bool) (c : FeedClient) (b : gmultiset string) : Prop := {
  fo_work : c.(work) = [];
  fo_counts : counts c.(refCount) b;
  fo_subscribed : c.(fsubscribed) = dom b;
  fo_frames : Forall (fun f => f.1 < c.(connections))%nat c.(fsent);
  fo_server : forall n, c.(fconn) = Some n -> (n < c.(connections))%nat /\ (ok = true -> server_view c = dom b)
}.

Definition orderly (s : FeedStep) : Prop :=
  match s with Dial order => forall l, order l ≡ₚ l | Work_ _ _ => False | _ => True end.

Lemma view_snoc n s l f : foldl (server_apply n) s (l ++ [f]) = server_apply n (foldl (server_apply n) s l) f.
Proof. by rewrite foldl_app. Qed.

(** The frames of earlier connections do not count. *)
Lemma view_new n s l : Forall (fun f => f.1 < n)%nat l -> foldl (server_apply n) s l = s.
Proof.
  intros H. revert s. induction H as [|f l Hf Hl IH]; intros s; [done|]. cbn. rewrite IH. unfold server_apply.
  destruct (Nat.eqb_spec f.1 n); [lia|done].
Qed.

Lemma two_works w (u v : Work) c1 c2 :
  work_step w u c1 = (c2, [v]) -> c1.(work) = [u] ->
  feed_run c1 [Work_ 0 w; Work_ 0 w] =
    ((work_step w v (c2 <| work := [v] |>)).1) <| work := (work_step w v (c2 <| work := [v] |>)).2 |>.
Proof.
  intros E Hw. unfold feed_run. cbn [foldl feed_step]. rewrite Hw. cbn [lookup list_lookup]. rewrite E. cbn.
  by destruct (work_step w v _).
Qed.

Lemma one_work w (u : Work) c1 c2 :
  work_step w u c1 = (c2, []) -> c1.(work) = [u] ->
  feed_run c1 [Work_ 0 w; Work_ 0 w] = c2 <| work := [] |>.
Proof.
  intros E Hw. unfold feed_run. cbn [foldl feed_step]. rewrite Hw. cbn [lookup list_lookup]. rewrite E. done.
Qed.

Lemma no_work w c1 : c1.(work) = [] -> feed_run c1 [Work_ 0 w; Work_ 0 w] = c1.
Proof. intros Hw. unfold feed_run. cbn [foldl feed_step]. rewrite Hw. cbn [lookup list_lookup]. by rewrite Hw. Qed.

Lemma follows_less ok ok' c b : follows ok c b -> (ok' = true -> ok = true) -> follows ok' c b.
Proof.
  intros [H1 H2 H3 H4 H5] Hok. split; try done. intros n Hn. destruct (H5 n Hn). split; auto.
Qed.

(** Changing the server's subscriptions and the client's the same way. *)
Lemma follows_send ok w c b b' f c1 :
  follows ok c b -> c1.(connections) = c.(connections) -> c1.(fsent) = c.(fsent) -> c1.(fconn) = c.(fconn) ->
  counts c1.(refCount) b' -> c1.(fsubscribed) = dom b' ->
  (forall n, server_apply n (dom b) (n, f) = dom b') ->
  follows (ok && w) ((send w f c1) <| work := [] |>) b'.
Proof.
  intros [H1 H2 H3 H4 H5] E1 E2 E3 Hm Hs Hf. unfold send. rewrite E3.
  destruct c.(fconn) as [n|] eqn:Hc; [destruct w|].
  - destruct (H5 n eq_refl) as [Hn Hv]. split; cbn; rewrite ?E1, ?E2; try done.
    + apply Forall_app. split; [done|]. by constructor.
    + rewrite E3. intros n' [= <-]. split; [done|]. rewrite andb_true_r. intros Hok. specialize (Hv Hok).
      unfold server_view in *. cbn [fconn fsent set].
      rewrite Hc in Hv. rewrite ?E3, ?E2, view_snoc, Hv. apply Hf.
  - destruct (H5 n eq_refl) as [Hn _]. split; cbn; rewrite ?E1, ?E2, ?E3; try done.
    intros n' [= <-]. by rewrite andb_false_r.
  - split; cbn; rewrite ?E1, ?E2, ?E3; done.
Qed.

Lemma follows_step ok c b s :
  follows ok c b -> orderly s.1 -> follows (written ok s) (feed_run c (undisturbed s)) (bag_step b s.1).
Proof.
  destruct s as [s w]. cbn [fst]. intros Hf Ho. pose proof Hf as [H1 H2 H3 H4 H5].
  unfold undisturbed. cbn [fst snd]. change (feed_run c [s; Work_ 0 w; Work_ 0 w])
    with (feed_run (feed_step c s) [Work_ 0 w; Work_ 0 w]).
  assert (Hless : forall c' b', follows ok c' b' -> follows (ok && w) c' b').
  { intros c' b' H. apply (follows_less ok); [exact H|]. by destruct ok. }
  destruct s as [tokens|tokens|i w'|order|]; unfold written; cbn [feed_step bag_step fst snd]; [| |done| |].
  - pose proof (count_up_spec tokens _ b H2) as G. destruct (count_up tokens c.(refCount)) as [m new].
    destruct G as [G1 G2]. destruct new as [|t new].
    + cbn [pend]. rewrite no_work by done. apply Hless. cbn in G2. rewrite (right_id_L ∅ (∪)) in G2.
      split; cbn; rewrite ?G2; done.
    + set (c1 := pend (t :: new) Add (c <| refCount := m |>)).
      rewrite (one_work w (Add (t :: new)) c1 _ eq_refl) by (cbn; by rewrite H1).
      apply (follows_send ok w c b); [done..|exact G1| |].
      * cbn. rewrite G2, H3. done.
      * intros n. unfold server_apply. cbn [fst snd]. by rewrite Nat.eqb_refl, G2.
  - pose proof (count_down_spec tokens _ b H2) as G. destruct (count_down tokens c.(refCount)) as [m gone].
    destruct G as [G1 G2]. destruct gone as [|t gone].
    + cbn [pend]. rewrite no_work by done. apply Hless. cbn in G2. rewrite difference_empty_L in G2.
      split; cbn; rewrite ?G2; done.
    + set (c1 := pend (t :: gone) Remove (c <| refCount := m |>)). destruct c.(fconn) as [n|] eqn:Hc.
      * assert (E : work_step w (Remove (t :: gone)) c1
          = (c1 <| fsubscribed := c1.(fsubscribed) ∖ list_to_set (t :: gone) |>, [Tell (t :: gone)]))
          by (cbn; by rewrite Hc).
        rewrite (two_works w _ _ _ _ E) by (cbn; by rewrite H1).
        apply (follows_send ok w c b); [done..|exact G1| |].
        -- cbn. rewrite G2, H3. done.
        -- intros k. unfold server_apply. cbn [fst snd]. by rewrite Nat.eqb_refl, G2.
      * assert (E : work_step w (Remove (t :: gone)) c1
          = (c1 <| fsubscribed := c1.(fsubscribed) ∖ list_to_set (t :: gone) |>, []))
          by (cbn; by rewrite Hc).
        rewrite (one_work w _ _ _ E) by (cbn; by rewrite H1).
        split; cbn; try done; [by rewrite G2, H3|]. intros n. by rewrite Hc.
  - set (c0 := c <| fconn := Some c.(connections) |> <| connections := S c.(connections) |>).
    assert (Hset : list_to_set (order (elements c.(fsubscribed))) = dom b).
    { apply set_eq. intros x. rewrite elem_of_list_to_set, (Ho _), elem_of_elements. by rewrite H3. }
    assert (Hold : Forall (fun f => f.1 < S c.(connections))%nat c.(fsent))
      by (eapply Forall_impl; [exact H4|]; cbn; lia).
    destruct (order (elements c0.(fsubscribed))) as [|t l] eqn:E; cbn [pend].
    + change c0.(fsubscribed) with c.(fsubscribed) in E. rewrite E in Hset. cbn in Hset.
      rewrite no_work by done. split; cbn; try done. intros n [= <-]. split; [lia|intros _].
      unfold server_view. cbn. rewrite view_new by done. exact Hset.
    + change c0.(fsubscribed) with c.(fsubscribed) in E. rewrite E in Hset.
      set (c1 := c0 <| work := c0.(work) ++ [Resub (t :: l)] |>).
      rewrite (one_work w (Resub (t :: l)) c1 _ eq_refl) by (cbn; by rewrite H1). destruct w.
      * split; cbn; try done.
        -- apply Forall_app. split; [done|]. constructor; [cbn; lia|done].
        -- intros n [= <-]. split; [lia|intros _]. unfold server_view. cbn. rewrite view_snoc, view_new by done.
           unfold server_apply. cbn [fst snd]. rewrite Nat.eqb_refl, Hset. by rewrite (left_id_L ∅ (∪)).
      * split; cbn; try done. intros n [= <-]. split; [lia|done].
  - rewrite no_work by done. apply Hless. by split.
Qed.

Lemma follows_start ok : follows ok NewFeed ∅.
Proof. split; try done. Qed.

Lemma follows_run ss : forall ok c b, follows ok c b -> Forall (fun s => orderly s.1) ss ->
  follows (foldl written ok ss) (feed_run c (concat (map undisturbed ss))) (foldl bag_step b (map fst ss)).
Proof.
  induction ss as [|s ss IH]; intros ok c b H Hs; [done|]. apply Forall_cons in Hs as [Hs Hss].
  cbn [map concat foldl]. unfold feed_run. rewrite foldl_app. apply IH; [|done]. by apply follows_step.
Qed.

(** C30: As long as the calls do not overlap, each with its two sections done before
    the next one begins, the client keeps a bag of tokens: however its users
    subscribe and unsubscribe, however often the connection is lost and dialled, and
    whether or not its frames can be written, a token's counter is how often it is in
    the bag, and what the client remembers for the next connection are exactly the
    tokens somebody counts on; what the server sends on the current connection are
    exactly these as well, if every frame since it was dialled could be written.
    Calls that overlap can lose a token ([crossing_calls_lose_feed]). *)
Theorem feed_refines_bag (ss : list (FeedStep * bool)) (Hss : Forall (fun s => orderly s.1) ss) :
  let c := feed_run NewFeed (concat (map undisturbed ss)) in
  let b := foldl bag_step ∅ (map fst ss) in
  c.(work) = [] /\
  (forall t, default 0%Z (c.(refCount) !! t) = Z.of_nat (multiplicity t b)) /\
  c.(fsubscribed) = dom b /\
  (is_Some c.(fconn) -> foldl written true ss = true -> server_view c = dom b).
Proof.
  destruct (follows_run ss true NewFeed ∅ (follows_start true) Hss) as [H1 H2 H3 _ H5]. cbv zeta.
  split; [done|]. split; [intros t; by apply counts_default|]. split; [done|]. intros [n Hn]. by apply (H5 n).
Qed.

(** When the last user of a token leaves while another one arrives, the sections of
    the two calls can cross: the counter says that the token is used, but it is not
    subscribed, neither here nor at the server, so its prices stop; and later
    users only count, without subscribing again. *)
Theorem crossing_calls_lose_feed (c : FeedClient) (b : gmultiset string) (t : string) (n : nat)
    (Hc : follows true c b) (Ht : t <> "") (Hone : multiplicity t b = 1%nat) (Hconn : c.(fconn) = Some n) :
  let c' := feed_run c [CallUnsubscribe [t]; CallSubscribe [t]; Work_ 1 true; Work_ 0 true; Work_ 0 true] in
  c'.(work) = [] /\ c'.(refCount) !! t = Some 1%Z /\ t ∉ c'.(fsubscribed) /\ t ∉ server_view c' /\
  (feed_step c' (CallSubscribe [t])).(work) = [] /\ t ∉ server_view (feed_step c' (CallSubscribe [t])).
Proof.
  destruct Hc as [H1 H2 H3 H4 H5]. destruct (H5 n Hconn) as [Hn _].
  assert (Hr : c.(refCount) !! t = Some 1%Z) by (rewrite (H2 t); cbn; by rewrite Hone).
  destruct c as [rc su fc cs se wk]. cbn in *. subst wk fc.
  apply String.eqb_neq in Ht. cbn [feed_run foldl feed_step count_up count_down]. rewrite Ht. cbn [refCount].
  rewrite Hr. change (default 0 (Some 1) - 1 <=? 0)%Z with true. cbn [pend app set refCount work].
  rewrite lookup_delete_eq. change (default 0 None + 1 =? 1)%Z with true. change (default 0 None + 1)%Z with 1%Z.
  cbn [pend app set refCount work lookup list_lookup work_step send fconn fsent fsubscribed other_work take drop].
  cbn. rewrite !lookup_insert_eq. change (default 0 (Some 1) + 1 =? 1)%Z with false. cbn [pend work].
  assert (Hv : t ∉ foldl (server_apply n) ∅ ((se ++ [(n, Sub [t])]) ++ [(n, Unsub [t])])).
  { rewrite view_snoc. unfold server_apply at 1. cbn [fst snd]. rewrite Nat.eqb_refl. set_solver. }
  split_and!; try done; set_solver.
Qed.

(** ** Prices *)

(** A frame of the feed with a positive price is the price of its token from then
    on, and only of it, and is passed on under the same key. *)
Theorem frame_sets_price (unmarshal : bytes -> option (list (string * json))) (ts : bytes)
    (token symbol : string) (ex : ascii) (bits : Z) (p : FeedPrices) (price := f32_bits_to_f64 bits)
    (key := feed_key (Feed.exchange_name ex) token)
    (Hts : length ts = 8%nat) (Ht : (String.length token < 256)%nat) (Hs : (String.length symbol < 256)%nat)
    (Hb : (0 <= bits < 2 ^ 32)%Z) (Hp : flt fzero price = true) :
  exists p', feed_message unmarshal (encodeTick ts token symbol ex bits) p = Some (p', [(key, price)]) /\
    feed_GetLTP key p' = (price, true) /\
    forall k, k <> key -> feed_GetLTP k p' = feed_GetLTP k p.
Proof.
  unfold feed_message.
  assert (E : feed_tick unmarshal (encodeTick ts token symbol ex bits) =
    Some (Some (Feed.mkTick symbol token (Feed.exchange_name ex) price))).
  { pose proof (Feed.feed_decode_encode ts token symbol ex bits Hts Ht Hs Hb) as H. fold price in H. rewrite Hp in H.
    rewrite <- H. reflexivity. }
  rewrite E. cbn. eexists. split; [reflexivity|]. unfold feed_GetLTP. cbn. split.
  - fold key. by rewrite lookup_insert_eq, Hp.
  - intros k Hk. by rewrite lookup_insert_ne.
Qed.

(** ** Instances *)

(** A frame that is lost before the connection is, and all written afterwards. *)
Definition sample_calls : list (FeedStep * bool) :=
  [(CallSubscribe ["11536"; ""; "2475"], true); (Dial (fun l => l), true); (CallSubscribe ["2475"], true);
   (CallUnsubscribe ["2475"; "9"], true); (CallSubscribe ["7"], false); (Lost, true);
   (CallUnsubscribe ["11536"; "7"], true); (Dial (fun l => l), true)].

Lemma sample_orderly : Forall (fun s => orderly s.1) sample_calls.
Proof. repeat first [apply Forall_nil_2 | apply Forall_cons_2]; try exact I; intros l; reflexivity. Qed.

Lemma sample_connected : is_Some (feed_run NewFeed (concat (map undisturbed sample_calls))).(fconn).
Proof. exists 1%nat. vm_compute. reflexivity. Qed.

Lemma feed_refines_bag_witness :
  server_view (feed_run NewFeed (concat (map undisturbed sample_calls))) = {["2475"]}.
Proof.
  destruct (feed_refines_bag sample_calls sample_orderly) as (_ & _ & _ & H).
  rewrite H by (exact sample_connected || reflexivity). vm_compute. reflexivity.
Defined.

Definition one_subscriber : list (FeedStep * bool) := [(CallSubscribe ["2475"], true); (Dial (fun l => l), true)].

Lemma crossing_calls_lose_feed_witness :
  let c' := feed_run (feed_run NewFeed (concat (map undisturbed one_subscriber)))
    [CallUnsubscribe ["2475"]; CallSubscribe ["2475"]; Work_ 1 true; Work_ 0 true; Work_ 0 true] in
  c'.(refCount) !! "2475" = Some 1%Z /\ "2475" ∉ server_view c'.
Proof.
  destruct (crossing_calls_lose_feed (feed_run NewFeed (concat (map undisturbed one_subscriber)))
    (foldl bag_step ∅ (map fst one_subscriber)) "2475" 0%nat) as (_ & H1 & _ & H2 & _).
  - apply (follows_run one_subscriber true); [apply follows_start|].
    repeat first [apply Forall_nil_2 | apply Forall_cons_2]; try exact I; intros l; reflexivity.
  - done.
  - vm_compute. reflexivity.
  - reflexivity.
  - by split.
Defined.

Lemma frame_sets_price_witness :
  exists p', feed_message (fun _ => None) (encodeTick (replicate 8 (ascii_of_N 7)) "11536" "TCS" (ascii_of_N 1) 1120403456)
      (mkPrices ∅ ∅) = Some (p', [("bse:11536", of_Z 100)]) /\ feed_GetLTP "bse:11536" p' = (of_Z 100, true).
Proof.
  destruct (frame_sets_price (fun _ => None) (replicate 8 (ascii_of_N 7)) "11536" "TCS" (ascii_of_N 1) 1120403456
    (mkPrices ∅ ∅)) as (p' & H1 & H2 & _); [done|cbn; lia|cbn; lia|lia|vm_compute; reflexivity|].
  exists p'. split; [exact H1|exact H2].
Defined.
