(* ===== verification/WSHub.v ===== *)
(** * The clients of the update streams

    [paper/ws_server.go]: the maps from a user to the connections of the user, one
    for the paper trades ([registerClient], [unregisterClient], [Broadcast]) and one
    for live orders ([registerLiveClient], [unregisterLiveClient],
    [BroadcastLiveOrder]); the code is the same.

    An operation on a [sync.Map] is a step; what is left of a call is a [Job], and
    jobs go on in any order.  The inner maps are objects of their own, since one can
    be dropped from the outer map while somebody still holds it.  A broadcast sends
    to the connections that were there when it looked; [ok] says which writes
    succeed. *)

From stdpp Require Import base tactics gmap strings list fin_sets.
From Stdlib Require Import ZArith Lia.
From S2P Require Import Prelude GoStrings.

Open Scope string_scope.
Open Scope list_scope.
Open Scope go_scope.

Abbreviation conn_id := N.

Section Hub.

Context {Msg : Type}.

Inductive Job : Type :=
  | JStore (m : nat) (c : conn_id)
  | JRemove (u : string) (m : nat) (c : conn_id)
  | JEmpty (u : string) (m : nat)
  | JDrop (u : string)
  | JSend (u : string) (l : list conn_id) (msg : Msg)
  | JUnregister (u : string) (c : conn_id).

Record Hub : Type := mkHub {
  clients : gmap string nat;
  conn_maps : gmap nat (gset conn_id);
  next_map : nat;
  delivered : list (conn_id * (string * Msg));
  jobs : list Job
}.

#[local] Instance eta_hub : Eta Hub := fun h =>
  mkHub h.(clients) h.(conn_maps) h.(next_map) h.(delivered) h.(jobs).

Definition NewHub : Hub := mkHub ∅ ∅ 0 [] [].

Definition conns_of (m : nat) (h : Hub) : gset conn_id := default ∅ (h.(conn_maps) !! m).

(** [LoadOrStore(userID, &sync.Map{})]. *)
Definition load_or_store (u : string) (h : Hub) : Hub * nat :=
  match h.(clients) !! u with
  | Some m => (h, m)
  | None =>
      let m := h.(next_map) in
      (h <| clients := <[u := m]> h.(clients) |> <| conn_maps := <[m := ∅]> h.(conn_maps) |>
         <| next_map := S m |>, m)
  end.

Inductive HubStep : Type :=
  | Register (u : string) (c : conn_id)
  | Unregister (u : string) (c : conn_id)
  | Broadcast (u : string) (msg : Msg)
  | Proceed (i : nat) (ok : conn_id -> bool).

Definition unregister (u : string) (c : conn_id) (h : Hub) : list Job :=
  match h.(clients) !! u with
  | None => []
  | Some m => [JRemove u m c]
  end.

Definition do_job (ok : conn_id -> bool) (j : Job) (h : Hub) : Hub * list Job :=
  match j with
  | JStore m c => (h <| conn_maps := <[m := {[c]} ∪ conns_of m h]> h.(conn_maps) |>, [])
  | JRemove u m c => (h <| conn_maps := <[m := conns_of m h ∖ {[c]}]> h.(conn_maps) |>, [JEmpty u m])
  | JEmpty u m => (h, if bool_decide (conns_of m h = ∅) then [JDrop u] else [])
  | JDrop u => (h <| clients := delete u h.(clients) |>, [])
  | JSend u l msg =>
      (h <| delivered := h.(delivered) ++ map (fun c => (c, (u, msg))) (List.filter ok l) |>,
       map (JUnregister u) (List.filter (fun c => negb (ok c)) l))
  | JUnregister u c => (h, unregister u c h)
  end.

Definition other_jobs (i : nat) (l : list Job) : list Job := take i l ++ drop (S i) l.

Definition hub_step (h : Hub) (s : HubStep) : Hub :=
  match s with
  | Register u c => let '(h, m) := load_or_store u h in h <| jobs := h.(jobs) ++ [JStore m c] |>
  | Unregister u c => h <| jobs := h.(jobs) ++ unregister u c h |>
  | Broadcast u msg =>
      match h.(clients) !! u with
      | None => h
      | Some m => h <| jobs := h.(jobs) ++ [JSend u (elements (conns_of m h)) msg] |>
      end
  | Proceed i ok =>
      match h.(jobs) !! i with
      | None => h
      | Some j => let '(h', js) := do_job ok j h in h' <| jobs := js ++ other_jobs i h.(jobs) |>
      end
  end.

Definition hub_run : Hub -> list HubStep -> Hub := foldl hub_step.

(** ** Nobody gets what is for others *)

(** [own] says for whom an inner map was made, [reg] what was registered. *)
Definition job_ok (own : nat -> string) (reg : string -> conn_id -> Prop) (n : nat) (j : Job) : Prop :=
  match j with
  | JStore m c => (m < n)%nat /\ reg (own m) c
  | JSend u l _ => Forall (reg u) l
  | _ => True
  end.

Record separate (own : nat -> string) (reg : string -> conn_id -> Prop) (h : Hub) : Prop := {
  se_clients : forall u m, h.(clients) !! u = Some m -> (m < h.(next_map))%nat /\ own m = u;
  se_conns : forall m c, c ∈ conns_of m h -> (m < h.(next_map))%nat /\ reg (own m) c;
  se_jobs : Forall (job_ok own reg h.(next_map)) h.(jobs);
  se_delivered : forall c u msg, (c, (u, msg)) ∈ h.(delivered) -> reg u c
}.

Lemma conns_insert m m' cs h h' :
  h'.(conn_maps) = <[m := cs]> h.(conn_maps) -> conns_of m' h' = if decide (m' = m) then cs else conns_of m' h.
Proof.
  intros E. unfold conns_of. rewrite E. destruct (decide (m' = m)) as [->|Hne].
  - by rewrite lookup_insert_eq.
  - by rewrite lookup_insert_ne.
Qed.

Lemma separate_weaken own reg reg' h :
  (forall u c, reg u c -> reg' u c) -> separate own reg h -> separate own reg' h.
Proof.
  intros Hr [H1 H2 H3 H4]. split.
  - done.
  - intros m c H. destruct (H2 m c H). eauto.
  - eapply Forall_impl; [exact H3|]. intros [m c|u m c|u m|u|u l msg|u c]; cbn; try done; [naive_solver|].
    intros H. eapply Forall_impl; [exact H|]. eauto.
  - eauto.
Qed.

Lemma separate_jobs own reg h js :
  separate own reg h -> Forall (job_ok own reg h.(next_map)) js -> separate own reg (h <| jobs := js |>).
Proof. intros [H1 H2 H3 H4] Hj. by split. Qed.

Lemma unregister_ok own reg n u c h : Forall (job_ok own reg n) (unregister u c h).
Proof. unfold unregister. destruct (h.(clients) !! u); repeat constructor. Qed.

Lemma do_job_separate own reg ok j h (r := do_job ok j h) :
  separate own reg h -> job_ok own reg h.(next_map) j ->
  separate own reg r.1 /\ Forall (job_ok own reg h.(next_map)) r.2 /\ r.1.(next_map) = h.(next_map).
Proof.
  intros [H1 H2 H3 H4] Hj. unfold r. destruct j as [m c|u m c|u m|u|u l msg|u c]; cbn [do_job fst snd].
  - split; [|done]. split; try done. intros m' c'.
    rewrite (conns_insert m m' ({[c]} ∪ conns_of m h) h) by done. destruct (decide (m' = m)) as [->|_]; [|apply H2].
    intros [->%elem_of_singleton|H]%elem_of_union; [done|by apply H2].
  - split; [|by repeat constructor]. split; try done. intros m' c'.
    rewrite (conns_insert m m' (conns_of m h ∖ {[c]}) h) by done. destruct (decide (m' = m)) as [->|_]; [|apply H2].
    intros [H _]%elem_of_difference. by apply H2.
  - split; [by split|]. split; [|done]. case_bool_decide; by repeat constructor.
  - split; [|by repeat constructor]. split; try done. intros u' m. cbn. rewrite lookup_delete_Some.
    intros [_ H]. by apply H1.
  - split.
    + split; try done. intros c u' msg'. cbn. intros [H|H]%elem_of_app; [by eapply H4|].
      apply list_elem_of_In, in_map_iff in H as (c0 & [= -> -> ->] & [H _]%filter_In).
      cbn in Hj. rewrite Forall_forall in Hj. by apply Hj, list_elem_of_In.
    + split; [|done]. apply Forall_forall. intros j H. apply list_elem_of_In, in_map_iff in H as (c & <- & _). done.
  - split; [by split|]. split; [apply unregister_ok|done].
Qed.

Lemma hub_step_separate own reg h s :
  separate own reg h ->
  exists own', separate own' (fun u c => reg u c \/ s = Register u c) (hub_step h s).
Proof.
  intros H. destruct s as [u c|u c|u msg|i ok]; cbn [hub_step].
  - unfold load_or_store. destruct (h.(clients) !! u) as [m|] eqn:Hu.
    + exists own. apply separate_jobs; [by eapply separate_weaken; [|exact H]; eauto|].
      apply Forall_app. split.
      * apply (separate_weaken own reg (fun v d => reg v d \/ Register u c = Register v d)) in H; [|by left].
        apply H.
      * constructor; [|done]. destruct (se_clients _ _ _ H u m Hu) as [Hm <-]. cbn. eauto.
    + set (n := h.(next_map)). exists (fun m => if Nat.eqb m n then u else own m).
      assert (Ho : forall m, (m < n)%nat -> (if Nat.eqb m n then u else own m) = own m).
      { intros m Hm. destruct (Nat.eqb_spec m n); [lia|done]. }
      destruct H as [H1 H2 H3 H4]. split; cbn.
      * intros u' m. destruct (decide (u' = u)) as [->|Hne].
        -- rewrite lookup_insert_eq. intros [= <-]. rewrite Nat.eqb_refl. split; [lia|done].
        -- rewrite lookup_insert_ne by done. intros Hm. destruct (H1 u' m Hm) as [Hlt <-]. rewrite Ho by done.
           split; [lia|done].
      * intros m c'. rewrite (conns_insert n m ∅ h) by done. destruct (decide (m = n)) as [->|_]; [set_solver|].
        intros Hc. destruct (H2 m c' Hc) as [Hlt Hr]. rewrite Ho by done. split; [lia|by left].
      * apply Forall_app. split.
        -- eapply Forall_impl; [exact H3|]. intros [m' c'|u' m' c'|u' m'|u'|u' l msg|u' c']; cbn; try done.
           ++ intros [Hlt Hr]. rewrite Ho by done. split; [lia|by left].
           ++ intros Hl. eapply Forall_impl; [exact Hl|]. cbn. eauto.
        -- constructor; [|done]. cbn. rewrite Nat.eqb_refl. split; [lia|by right].
      * intros c' u' msg Hd. left. by eapply H4.
  - exists own. apply (separate_weaken own reg (fun v d => reg v d \/ Unregister u c = Register v d)) in H; [|by left].
    apply separate_jobs; [done|]. apply Forall_app. split; [apply H|apply unregister_ok].
  - exists own. apply (separate_weaken own reg (fun v d => reg v d \/ Broadcast u msg = Register v d)) in H; [|by left].
    destruct (h.(clients) !! u) as [m|] eqn:Hu; [|done]. apply separate_jobs; [done|].
    apply Forall_app. split; [apply H|]. constructor; [|done]. cbn. apply Forall_forall. intros c Hc.
    apply elem_of_elements in Hc. destruct (se_clients _ _ _ H u m Hu) as [_ <-]. by apply (se_conns _ _ _ H).
  - exists own. apply (separate_weaken own reg (fun v d => reg v d \/ Proceed i ok = Register v d)) in H; [|by left].
    destruct (h.(jobs) !! i) as [j|] eqn:Hj; [|done].
    destruct (do_job_separate _ _ ok j h H) as (H1 & H2 & H3).
    { eapply Forall_lookup_1; [apply (se_jobs _ _ _ H)|exact Hj]. }
    destruct (do_job ok j h) as [h' js]. cbn [fst snd] in *. apply separate_jobs; [done|]. rewrite H3.
    apply Forall_app. split; [done|]. unfold other_jobs. apply Forall_app.
    split; [apply Forall_take, H|apply Forall_drop, H].
Qed.

Lemma hub_run_separate ss : forall own reg h, separate own reg h ->
  exists own', separate own' (fun u c => reg u c \/ Register u c ∈ ss) (hub_run h ss).
Proof.
  induction ss as [|s ss IH]; intros own reg h H.
  - exists own. eapply separate_weaken; [|exact H]. by left.
  - destruct (hub_step_separate own reg h s H) as [own1 H1]. destruct (IH own1 _ _ H1) as [own2 H2].
    exists own2. eapply separate_weaken; [|exact H2]. intros u c [[Hr| ->]|Hr]; [by left|right; by left|right; by right].
Qed.

(** ** Calls that do not overlap *)

Definition calmly (s : HubStep) : list HubStep := s :: replicate 3 (Proceed 0 (fun _ => true)).

(** The connections a broadcast finds. *)
Definition connected (u : string) (h : Hub) : gset conn_id :=
  match h.(clients) !! u with Some m => conns_of m h | None => ∅ end.

Definition registered_step (u : string) (S : gset conn_id) (s : HubStep) : gset conn_id :=
  match s with
  | Register v c => if v =?s u then {[c]} ∪ S else S
  | Unregister v c => if v =?s u then S ∖ {[c]} else S
  | _ => S
  end.

Definition registered (u : string) (ss : list HubStep) : gset conn_id := foldl (registered_step u) ∅ ss.

Definition no_proceed (s : HubStep) : Prop := match s with Proceed _ _ => False | _ => True end.

(** Nothing is under way, and no two users share an inner map. *)
Record calm (h : Hub) : Prop := {
  ca_jobs : h.(jobs) = [];
  ca_next : forall u m, h.(clients) !! u = Some m -> (m < h.(next_map))%nat;
  ca_own : forall u v m, h.(clients) !! u = Some m -> h.(clients) !! v = Some m -> u = v
}.

Lemma connected_insert cl ma nx de v m cs u :
  (forall u v m, cl !! u = Some m -> cl !! v = Some m -> u = v) -> cl !! v = Some m ->
  connected u (mkHub cl (<[m := cs]> ma) nx de []) =
    if v =?s u then cs else connected u (mkHub cl ma nx de []).
Proof.
  intros Hown Hv. unfold connected, conns_of. cbn. destruct (String.eqb_spec v u) as [->|Hne].
  - by rewrite Hv, lookup_insert_eq.
  - destruct (cl !! u) as [m'|] eqn:Hu; [|done]. rewrite lookup_insert_ne; [done|].
    intros <-. apply Hne. by eapply Hown.
Qed.

Lemma calm_register h v c : calm h ->
  calm (hub_run h (calmly (Register v c))) /\
  forall u, connected u (hub_run h (calmly (Register v c))) = registered_step u (connected u h) (Register v c).
Proof.
  intros [H1 H2 H3]. destruct h as [cl ma nx de jo]. cbn in H1, H2, H3. subst jo.
  unfold calmly, hub_run. cbn [replicate foldl hub_step]. unfold load_or_store. cbn [clients].
  destruct (cl !! v) as [m|] eqn:Hv; cbn.
  - split; [by split|]. intros u. rewrite (connected_insert _ _ _ _ v m) by done.
    destruct (String.eqb_spec v u) as [<-|]; [|done]. unfold connected. cbn. by rewrite Hv.
  - assert (Hnew : forall w m, <[v := nx]> cl !! w = Some m -> (m < S nx)%nat /\ (w <> v -> m < nx)%nat).
    { intros w m. destruct (decide (w = v)) as [->|Hne]; [rewrite lookup_insert_eq; intros [= <-]; split; [lia|done]|].
      rewrite lookup_insert_ne by done. intros Hw. specialize (H2 w m Hw). lia. }
    assert (Hown : forall u w m, <[v := nx]> cl !! u = Some m -> <[v := nx]> cl !! w = Some m -> u = w).
    { intros u w m Hu Hw. destruct (decide (u = v)) as [->|Nu], (decide (w = v)) as [->|Nw]; [done| | |].
      - rewrite lookup_insert_eq in Hu. injection Hu as <-. destruct (Hnew w nx Hw) as [_ Hlt]. specialize (Hlt Nw). lia.
      - rewrite lookup_insert_eq in Hw. injection Hw as <-. destruct (Hnew u nx Hu) as [_ Hlt]. specialize (Hlt Nu). lia.
      - rewrite lookup_insert_ne in Hu, Hw by done. by eapply H3. }
    split; [split; cbn; [done|intros; by eapply Hnew|exact Hown]|].
    intros u. rewrite (connected_insert _ _ _ _ v nx) by (done || apply lookup_insert_eq).
    unfold connected, conns_of. cbn. destruct (String.eqb_spec v u) as [<-|Hne].
    + by rewrite Hv, lookup_insert_eq.
    + rewrite lookup_insert_ne by done. destruct (cl !! u) as [m'|] eqn:Hu; [|done].
      specialize (H2 u m' Hu). by rewrite lookup_insert_ne by lia.
Qed.

Lemma calm_unregister h v c : calm h ->
  calm (hub_run h (calmly (Unregister v c))) /\
  forall u, connected u (hub_run h (calmly (Unregister v c))) = registered_step u (connected u h) (Unregister v c).
Proof.
  intros [H1 H2 H3]. destruct h as [cl ma nx de jo]. cbn in H1, H2, H3. subst jo.
  unfold calmly, hub_run. cbn [replicate foldl hub_step]. unfold unregister. cbn [clients].
  destruct (cl !! v) as [m|] eqn:Hv.
  - cbn -[conns_of]. set (cs := conns_of m (mkHub cl ma nx de [JRemove v m c]) ∖ {[c]}).
    assert (Hc : forall jo, conns_of m (mkHub cl (<[m := cs]> ma) nx de jo) = cs)
      by (intros jo; unfold conns_of; cbn; by rewrite lookup_insert_eq).
    rewrite Hc. assert (Hu : forall u, connected u (mkHub cl (<[m := cs]> ma) nx de []) =
      registered_step u (connected u (mkHub cl ma nx de [])) (Unregister v c)).
    { intros u. rewrite (connected_insert _ _ _ _ v m) by done. cbn. destruct (String.eqb_spec v u) as [<-|]; [|done].
      unfold connected. cbn. by rewrite Hv. }
    case_bool_decide as He; cbn; [|split; [by split|exact Hu]]. split.
    + split; cbn; [done| |].
      * intros u m'. rewrite lookup_delete_Some. intros [_ H]. by eapply H2.
      * intros u w m'. rewrite !lookup_delete_Some. intros [_ Hx] [_ Hw]. by eapply H3.
    + intros u. etrans; [|apply Hu]. unfold connected at 1. cbn. destruct (decide (u = v)) as [->|Hne].
      * rewrite lookup_delete_eq, (connected_insert _ _ _ _ v m), String.eqb_refl by done. done.
      * by rewrite lookup_delete_ne.
  - cbn. split; [by split|]. intros u. unfold connected. cbn. destruct (String.eqb_spec v u) as [<-|]; [|done].
    rewrite Hv. set_solver.
Qed.

Lemma filter_all {A} (l : list A) : List.filter (fun _ => true) l = l /\ List.filter (fun _ => false) l = [].
Proof. induction l as [|x l [IH1 IH2]]; [done|]. cbn. by rewrite IH1, IH2. Qed.

Lemma calm_broadcast h v msg : calm h ->
  hub_run h (calmly (Broadcast v msg)) =
    h <| delivered := h.(delivered) ++ map (fun c => (c, (v, msg))) (elements (connected v h)) |>.
Proof.
  intros [H1 _ _]. destruct h as [cl ma nx de jo]. cbn in H1. subst jo.
  unfold calmly, hub_run, connected. cbn [replicate foldl hub_step clients].
  destruct (cl !! v) as [m|] eqn:Hv; cbn -[elements].
  - destruct (filter_all (elements (conns_of m (mkHub cl ma nx de [])))) as [-> ->]. done.
  - by rewrite app_nil_r.
Qed.

Lemma calm_hub_run ss : forall h, calm h -> Forall no_proceed ss ->
  calm (hub_run h (concat (map calmly ss))) /\
  forall u, connected u (hub_run h (concat (map calmly ss))) = foldl (registered_step u) (connected u h) ss.
Proof.
  induction ss as [|s ss IH]; intros h Hc Hs; [done|]. apply Forall_cons in Hs as [Hs Hss].
  cbn [map concat foldl]. unfold hub_run. rewrite foldl_app. fold (hub_run h (calmly s)).
  assert (H : calm (hub_run h (calmly s)) /\
              forall u, connected u (hub_run h (calmly s)) = registered_step u (connected u h) s).
  { destruct s as [v c|v c|v msg|]; [by apply calm_register|by apply calm_unregister| |done].
    rewrite calm_broadcast by done. split; [|done]. destruct Hc. by split. }
  destruct H as [H1 H2]. destruct (IH _ H1 Hss) as [H3 H4]. split; [exact H3|]. intros u. by rewrite H4, H2.
Qed.

End Hub.
Arguments HubStep : clear implicits.
Arguments Hub : clear implicits.
#[export] Existing Instance eta_hub.

(** ** Properties *)

(** C31: However registrations, departures, failed writes and broadcasts interleave, a
    connection receives only what is for the user it was registered for. *)
Theorem updates_stay_with_their_user {Msg} (ss : list (HubStep Msg)) (c : conn_id) (u : string) (msg : Msg)
    (Hd : (c, (u, msg)) ∈ (hub_run NewHub ss).(delivered)) :
  Register u c ∈ ss.
Proof.
  destruct (hub_run_separate ss (fun _ => "") (fun _ _ => False) (NewHub (Msg := Msg))) as (own & H).
  - split.
    + intros v m H. cbn in H. by rewrite lookup_empty in H.
    + intros m d H. unfold conns_of in H. cbn in H. rewrite lookup_empty in H. by apply elem_of_empty in H.
    + constructor.
    + intros d v m H. by apply elem_of_nil in H.
  - by destruct (se_delivered _ _ _ H c u msg Hd).
Qed.

(** When calls do not overlap, a broadcast reaches every connection of the user
    that was registered and did not leave, each once, and no other. *)
Theorem broadcast_reaches_all {Msg} (ss : list (HubStep Msg)) (u : string) (msg : Msg)
    (Hss : Forall no_proceed ss) :
  let h := hub_run NewHub (concat (map calmly ss)) in
  (hub_run h (calmly (Broadcast u msg))).(delivered) =
    h.(delivered) ++ map (fun c => (c, (u, msg))) (elements (registered u ss)).
Proof.
  destruct (calm_hub_run ss (NewHub (Msg := Msg))) as [H1 H2]; [by split|done|]. cbv zeta.
  rewrite calm_broadcast by done. cbn [set delivered]. by rewrite H2.
Qed.

(** The first job goes on. *)
Lemma proceed_first {Msg} (h : Hub Msg) ok j js :
  h.(jobs) = j :: js ->
  hub_step h (Proceed 0 ok) = (do_job ok j h).1 <| jobs := (do_job ok j h).2 ++ js |>.
Proof. intros H. cbn [hub_step]. rewrite H. cbn [lookup list_lookup]. by destruct (do_job ok j h). Qed.

Lemma hub_run_cons {Msg} (h : Hub Msg) s ss : hub_run h (s :: ss) = hub_run (hub_step h s) ss.
Proof. done. Qed.

Lemma register_known {Msg} (h : Hub Msg) u m d :
  h.(clients) !! u = Some m -> hub_step h (Register u d) = h <| jobs := h.(jobs) ++ [JStore m d] |>.
Proof. intros H. cbn [hub_step]. unfold load_or_store. by rewrite H. Qed.

Lemma unregister_known {Msg} (h : Hub Msg) u m d :
  h.(clients) !! u = Some m -> hub_step h (Unregister u d) = h <| jobs := h.(jobs) ++ [JRemove u m d] |>.
Proof. intros H. cbn [hub_step]. unfold unregister. by rewrite H. Qed.

Lemma broadcasts_unknown {Msg} (h : Hub Msg) u (msgs : list Msg) :
  h.(clients) !! u = None -> hub_run h (map (Broadcast u) msgs) = h.
Proof.
  intros H. induction msgs as [|msg msgs IH]; [done|]. cbn [map]. rewrite hub_run_cons.
  replace (hub_step h (Broadcast u msg)) with h; [exact IH|]. cbn [hub_step]. by rewrite H.
Qed.

Lemma stored_there {Msg} (h : Hub Msg) m d cs ma :
  h.(conn_maps) = <[m := {[d]} ∪ cs]> ma -> d ∈ conns_of m h.
Proof. intros E. unfold conns_of. rewrite E, lookup_insert_eq. cbn. set_solver. Qed.

(** A client that connects while the last other client of the user leaves can be
    lost: it stores itself into a map that is then dropped, and no broadcast to the
    user reaches it, although its connection is open. *)
Theorem arriving_client_is_lost {Msg} (h : Hub Msg) (u : string) (m : nat) (c d : conn_id) (msgs : list Msg)
    (all := fun _ : conn_id => true) (Hcalm : calm h) (Hu : h.(clients) !! u = Some m)
    (Hlast : conns_of m h = {[c]}) :
  let h' := hub_run h
    [Unregister u c; Proceed 0 all; Proceed 0 all; Register u d; Proceed 0 all; Proceed 0 all] in
  h'.(jobs) = [] /\ d ∈ conns_of m h' /\ hub_run h' (map (Broadcast u) msgs) = h'.
Proof.
  destruct Hcalm as [Hj _ _]. destruct h as [cl ma nx de jo]. cbn in Hj, Hu. subst jo. cbv zeta.
  rewrite hub_run_cons, (unregister_known _ u m) by done. cbn [set jobs clients app].
  rewrite hub_run_cons, (proceed_first _ all (JRemove u m c) []) by done. cbn -[conns_of hub_step hub_run].
  rewrite hub_run_cons, (proceed_first _ all (JEmpty u m) []) by done. cbn -[conns_of hub_step hub_run].
  rewrite bool_decide_eq_true_2.
  2: { rewrite (conns_insert m m _ (mkHub cl ma nx de [])), decide_True by done.
       change (conns_of m _) with (conns_of m (mkHub cl ma nx de [])). rewrite Hlast. set_solver. }
  rewrite hub_run_cons, (register_known _ u m) by done. cbn -[conns_of hub_step hub_run].
  rewrite hub_run_cons, (proceed_first _ all (JDrop u) [JStore m d]) by done. cbn -[conns_of hub_step hub_run].
  rewrite hub_run_cons, (proceed_first _ all (JStore m d) []) by done. cbn -[conns_of hub_step hub_run].
  split; [done|]. split.
  - apply (stored_there _ m d (conns_of m (mkHub cl (<[m:=conns_of m (mkHub cl ma nx de []) ∖ {[c]}]> ma) nx de []))
      (<[m:=conns_of m (mkHub cl ma nx de []) ∖ {[c]}]> ma)). reflexivity.
  - apply broadcasts_unknown. apply lookup_delete_eq.
Qed.

(** ** Instances *)

Definition sample_hub_steps : list (HubStep string) :=
  [Register "u" 1%N; Register "v" 2%N; Proceed 1 (fun _ => true); Proceed 0 (fun _ => true);
   Broadcast "u" "fill"; Proceed 0 (fun _ => true)].

Lemma updates_stay_with_their_user_witness :
  (1%N, ("u", "fill")) ∈ (hub_run NewHub sample_hub_steps).(delivered) /\ Register "u" 1%N ∈ sample_hub_steps.
Proof.
  assert (H : (1%N, ("u", "fill")) ∈ (hub_run NewHub sample_hub_steps).(delivered))
    by (vm_compute; apply list_elem_of_singleton; reflexivity).
  split; [exact H|]. exact (updates_stay_with_their_user sample_hub_steps 1%N "u" "fill" H).
Defined.

Lemma broadcast_reaches_all_witness :
  let ss := [Register "u" 1%N; Register "u" 2%N; Unregister "u" 1%N; Register "v" 3%N] in
  (hub_run (hub_run NewHub (concat (map calmly ss))) (calmly (Broadcast "u" "fill"))).(delivered)
  = [(2%N, ("u", "fill"))].
Proof.
  cbv zeta. rewrite broadcast_reaches_all by (repeat constructor). vm_compute. reflexivity.
Defined.

Lemma arriving_client_is_lost_witness :
  let h := hub_run (NewHub (Msg := string)) (calmly (Register "u" 1%N)) in
  let all := fun _ : conn_id => true in
  let h' := hub_run h
    [Unregister "u" 1%N; Proceed 0 all; Proceed 0 all; Register "u" 2%N; Proceed 0 all; Proceed 0 all] in
  2%N ∈ conns_of 0%nat h' /\ hub_run h' (map (Broadcast "u") ["fill"]) = h'.
Proof.
  destruct (arriving_client_is_lost (hub_run (NewHub (Msg := string)) (calmly (Register "u" 1%N))) "u" 0%nat 1%N 2%N
    ["fill"]) as (_ & H1 & H2).
  - apply calm_register. by split.
  - reflexivity.
  - vm_compute. reflexivity.
  - split; [exact H1|exact H2].
Defined.
