(* ===== verification/Views.v ===== *)
(** * What the frontend is shown

    The remaining handlers of [paper/ws_server.go]: positions and closed orders with
    their exit levels, the dashboard, the price watches, the square-off time of a
    user, the two streams and the subscription to the broker, with the queries of
    [repository/order_repository.go] only they use.

    [json] answers are the records they are made of; a body is given decoded, [None]
    when it cannot be decoded.  Sums of the database are exact and are given to the
    program as the float nearest to them: [total] is that conversion, a parameter. *)

From stdpp Require Import base tactics gmap strings list sorting fin_maps.
From Stdlib Require Import ZArith Lia SpecFloat.
From S2P Require Import Prelude GoFloat GoStrings GoTime Orders OrderRepo OCOTypes OrderQueries.
From S2P Require Import Broker Executor PaperPrices PaperMonitor PriceMonitor TableFacts.
From S2P Require Import GatewayHttp Positions WSHub.

Open Scope string_scope.
Open Scope list_scope.
Open Scope Z_scope.
Open Scope go_scope.

Inductive Reply (A : Type) : Type :=
  | Failed (status : Z) (message : string)
  | Shown (a : A).

Arguments Failed {A}. Arguments Shown {A}.

(** ** Positions and closed orders *)

(** [GetMultiLevelExitLevelsBatch]; [None] is a failed statement. *)
Definition sqlGetLevelsBatch (fails : bool) (ids : list uuid) (levels : LevelsTable)
    : option (uuid -> list (LevelKey * MLRow.t)) :=
  match ids with
  | [] => Some (fun _ => [])
  | _ => if fails then None
         else Some (fun id => if bool_decide (id ∈ ids) then sqlGetLevels id levels else [])
  end.

(** [paperPositionDTO]. *)
Record PositionView : Type := mkView {
  pv_order : Order.t;
  pv_sl : list (LevelKey * MLRow.t);
  pv_tp : list (LevelKey * MLRow.t)
}.

Definition is_sl (l : LevelKey * MLRow.t) : bool := l.1.1.2 =?s MLExitTypeSL.

Definition view_of (levels : option (uuid -> list (LevelKey * MLRow.t))) (o : Order.t) : PositionView :=
  let l := match levels with Some f => f o.(Order.OrderID) | None => [] end in
  mkView o (List.filter is_sl l) (List.filter (fun x => negb (is_sl x)) l).

(** The checks of a GET request with a user. *)
Definition get_user {A} (r : HttpRequest) (f : string -> OrdersTable -> OrdersTable * Reply A) (t : OrdersTable)
    : OrdersTable * Reply A :=
  if negb (r.(httpMethod) =?s "GET") then (t, Failed 405 "method not allowed")
  else if r.(query) "user_id" =?s "" then (t, Failed 400 "user_id is required")
  else f (r.(query) "user_id") t.

Definition handleGetPositions (fails : bool) (levels : LevelsTable) (r : HttpRequest)
    : OrdersTable -> OrdersTable * Reply (list PositionView) :=
  get_user r (fun user t =>
    match sqlGetFilledPaperOrdersByUser user t with
    | (t, inl e) => (t, Failed 500 ("failed to fetch positions: " ++ e)%string)
    | (t, inr orders) => (t, Shown (map (view_of (sqlGetLevelsBatch fails (map Order.OrderID orders) levels)) orders))
    end).

Definition handleGetClosedPaperOrders (fails : bool) (levels : LevelsTable) (r : HttpRequest)
    : OrdersTable -> OrdersTable * Reply (list PositionView) :=
  get_user r (fun user t =>
    match sqlGetClosedPaperOrdersByUser user levels t with
    | (t, inl e) => (t, Failed 500 ("failed to fetch closed paper orders: " ++ e)%string)
    | (t, inr orders) =>
        let ids := map Order.OrderID (List.filter (fun o => negb o.(Order.IsSquareOffOrder)) orders) in
        (t, Shown (map (view_of (sqlGetLevelsBatch fails ids levels)) orders))
    end).

Definition handleGetClosedLiveOrders (now : Z) (r : HttpRequest)
    : OrdersTable -> OrdersTable * Reply (list Order.t) :=
  get_user r (fun user t =>
    match sqlGetClosedLiveOrdersByUser now user t with
    | (t, inl e) => (t, Failed 500 ("failed to fetch closed live orders: " ++ e)%string)
    | (t, inr orders) => (t, Shown orders)
    end).

(** ** The dashboard *)

Record DashboardStats : Type := mkStats {
  ds_Mode : string;
  TotalInvested : f64;
  CurrentInvested : f64;
  RealizedPnL : f64;
  OpenCount : nat;
  ClosedCount : nat
}.

(** [COALESCE(filled_price, price, 0)] and
    [COALESCE(NULLIF(filled_quantity, 0), quantity, 0)]. *)
Definition invested (o : Order.t) : f64 * Z :=
  (default (default fzero o.(Order.Price)) o.(Order.FilledPrice),
   if o.(Order.FilledQuantity) =? 0 then o.(Order.Quantity) else o.(Order.FilledQuantity)).

(** Sums of products, and of a column, as floats. *)
Definition Totals : Type := (list (f64 * Z) -> f64) * (list f64 -> f64).

Definition stats_of (total : Totals) (mode : string) (is_open is_closed : Order.t -> bool)
    (pnl : Order.t -> option f64) (l : list Order.t) : DashboardStats :=
  mkStats mode (total.1 (map invested l)) (total.1 (map invested (List.filter is_open l)))
    (total.2 (omap pnl (List.filter is_closed l)))
    (length (List.filter is_open l)) (length (List.filter is_closed l)).

Definition paper_counted (o : Order.t) : bool :=
  o.(Order.IsPaperTrade) && one_of o.(Order.Status) ["FILLED"; "RECEIVED"; "PENDING"; "SUBMITTED"; "CANCELLED"].

Definition live_counted (o : Order.t) : bool :=
  negb o.(Order.IsPaperTrade)
  && one_of o.(Order.Status) ["FILLED"; "PARTIALLY_FILLED"; "EXECUTED"; "TRADED"; "PARTIALLY TRADED";
                              "PARTIALLY EXECUTED"; "RECEIVED"; "PENDING"; "SUBMITTED"; "CANCELLED"].

Definition user_rows (userID : string) (p : Order.t -> bool) (t : OrdersTable) : list Order.t :=
  List.filter (fun o => (o.(Order.UserID) =?s userID) && p o) (all_rows t).

Definition paper_stats (total : Totals) (userID : string) (t : OrdersTable) : DashboardStats :=
  stats_of total "PAPER" (fun o => negb (is_set o.(Order.PaperExitPrice))) (fun o => is_set o.(Order.PaperExitPrice))
    Order.PaperPnL (user_rows userID paper_counted t).

Definition cancelled (o : Order.t) : bool := o.(Order.Status) =?s "CANCELLED".

(** The live statement: [realized_pnl] takes the rows with an exit price only. *)
Definition live_stats (total : Totals) (userID : string) (t : OrdersTable) : DashboardStats :=
  stats_of total "LIVE" (fun o => negb (is_set o.(Order.LiveExitPrice)) && negb (cancelled o))
    (fun o => is_set o.(Order.LiveExitPrice) || cancelled o)
    (fun o => if is_set o.(Order.LiveExitPrice) then o.(Order.LivePnL) else None)
    (user_rows userID live_counted t).

(** The statement it falls back to. *)
Definition live_stats_fallback (total : Totals) (userID : string) (t : OrdersTable) : DashboardStats :=
  stats_of total "LIVE" (fun o => negb (cancelled o)) cancelled (fun _ => None) (user_rows userID live_counted t)
    .

Definition sqlGetDashboardStats (total : Totals) (userID : string) (isPaper : bool) (t : OrdersTable)
    : OrdersTable * (string + DashboardStats) :=
  let '(fails, t) := driver t in
  if isPaper then (t, if fails then inl "dashboard stats paper" else inr (paper_stats total userID t))
  else if negb fails then (t, inr (live_stats total userID t))
  else
    let '(fails, t) := driver t in
    (t, if fails then inl "dashboard stats live" else inr (live_stats_fallback total userID t)).

Definition handleGetDashboardStats (total : Totals) (r : HttpRequest)
    : OrdersTable -> OrdersTable * Reply DashboardStats :=
  get_user r (fun user t =>
    match sqlGetDashboardStats total user (negb (r.(query) "mode" =?s "live")) t with
    | (t, inl e) => (t, Failed 500 ("failed to fetch dashboard stats: " ++ e)%string)
    | (t, inr s) => (t, Shown s)
    end).

(** ** Price watches *)

Definition handleGetPriceWatches (m : option Monitor) (r : HttpRequest) : Reply (list WatchSnapshot * nat) :=
  if negb (r.(httpMethod) =?s "GET") then Failed 405 "method not allowed"
  else match m with
       | None => Shown ([], 0%nat)
       | Some m =>
           if r.(query) "user_id" =?s "" then Failed 400 "user_id is required"
           else Shown (GetWatchSnapshot (r.(query) "user_id") m, WatchCount m)
       end.

(** The parsed ids, or the first that is none. *)
Fixpoint watch_ids (uuid_parse : string -> option uuid) (l : list string) : string + list uuid :=
  match l with
  | [] => inr []
  | s :: l =>
      match uuid_parse s with
      | None => inl s
      | Some id => match watch_ids uuid_parse l with inl e => inl e | inr ids => inr (id :: ids) end
      end
  end.

(** [CancelWatchBatch]: what was cancelled is the growth of [cancels]. *)
Definition CancelWatchBatch {W} (ids : list uuid) (userID : string) (s : PriceMonitor.State W)
    : PriceMonitor.State W * nat :=
  let s' := foldl (fun s id => CancelWatch id userID s) s ids in
  (s', (length s'.(cancels) - length s.(cancels))%nat).

(** The body: the user and the ids; the answer counts what was cancelled and what
    was asked for, and the live clients of the user are told of the cancellation. *)
Definition handleCancelPriceWatch {W Msg} (uuid_parse : string -> option uuid) (watch_cancelled : string -> Msg)
    (r : HttpRequest) (body : option (string * list string)) (s : option (PriceMonitor.State W))
    : option (PriceMonitor.State W) * list (HubStep Msg) * Reply (nat * nat) :=
  if negb (r.(httpMethod) =?s "POST") then (s, [], Failed 405 "method not allowed")
  else match s with
  | None => (s, [], Failed 503 "price monitor not initialized")
  | Some m =>
      match body with
      | None => (s, [], Failed 400 "user_id and order_ids are required")
      | Some (user, ids) =>
           if (user =?s "") || bool_decide (ids = [])
           then (s, [], Failed 400 "user_id and order_ids are required")
           else match watch_ids uuid_parse ids with
                | inl raw => (s, [], Failed 400 ("invalid order_id: " ++ raw)%string)
                | inr parsed =>
                    let '(m, n) := CancelWatchBatch parsed user m in
                    (Some m, [Broadcast user (watch_cancelled user)], Shown (n, length parsed))
                end
      end
  end.

(** [BroadcastPriceWatches]: the snapshots of the monitor if there is one, when it
    was last done, and for which users there are clients. *)
Definition BroadcastPriceWatches {Msg} (monitor : option (string -> Msg)) (now last : Z) (users : list string)
    : Z * list (HubStep Msg) :=
  match monitor with
  | None => (last, [])
  | Some snapshot =>
      if now - last <? 2 * second then (last, []) else (now, map (fun u => Broadcast u (snapshot u)) users)
  end.

(** ** The square-off time of a user *)

(** The body: user, time, enabled; [saves] when the statement succeeds. *)
Definition handleSetAutoSquareOffConfig (saves : bool) (body : option (string * string * bool)) (t : SquareOffTable)
    : SquareOffTable * Reply unit :=
  match body with
  | None => (t, Failed 400 "user_id is required")
  | Some (user, time, enabled) =>
      if user =?s "" then (t, Failed 400 "user_id is required")
      else if enabled && (time =?s "") then (t, Failed 400 "square_off_time is required when enabled")
      else if saves then (sqlUpsertUserSquareOffConfig user time enabled t, Shown tt)
      else (t, Failed 500 "failed to save config")
  end.

Definition handleGetAutoSquareOffConfig (reads : bool) (r : HttpRequest) (t : SquareOffTable)
    : Reply (string * bool) :=
  let user := Positions.or_else (r.(query) "user_id") (r.(header) "userId") in
  if user =?s "" then Failed 400 "user_id is required"
  else if reads then Shown (sqlGetUserSquareOffConfig user t)
  else Failed 500 "failed to get config".

Definition handleAutoSquareOffConfig (ok : bool) (r : HttpRequest) (body : option (string * string * bool))
    (t : SquareOffTable) : SquareOffTable * Reply (option (string * bool)) :=
  if r.(httpMethod) =?s "POST" then
    let '(t, a) := handleSetAutoSquareOffConfig ok body t in
    (t, match a with Failed n e => Failed n e | Shown _ => Shown None end)
  else if r.(httpMethod) =?s "GET" then
    (t, match handleGetAutoSquareOffConfig ok r t with Failed n e => Failed n e | Shown a => Shown (Some a) end)
  else (t, Failed 405 "method not allowed").

(** ** The streams *)

(** What a client is sent when it connects. *)
Inductive Greeting : Type :=
  | Connected
  | InitialOrders (l : list Order.t)
  | InitialClosed (l : list Order.t)
  | InitialWatches (l : list WatchSnapshot)
  | Snapshot (u : PaperUpdate.t).

(** [handleWSConnection] up to its registration. *)
Definition paper_greetings (snapshot : option (list PaperUpdate.t)) (user : string) (t : OrdersTable)
    : OrdersTable * list Greeting :=
  let '(t, r) := sqlGetFilledPaperOrdersByUser user t in
  (t, Connected :: match r with inl _ => [] | inr l => [InitialOrders l] end
        ++ match snapshot with None => [] | Some l => map Snapshot l end).

(** [handleLiveOrdersWS] up to its registration. *)
Definition live_greetings (now : Z) (m : option Monitor) (user : string) (t : OrdersTable)
    : OrdersTable * list Greeting :=
  let '(t, r1) := sqlGetLiveOrdersByUser now user t in
  let '(t, r2) := sqlGetClosedLiveOrdersByUser now user t in
  (t, Connected :: match r1 with inl _ => [] | inr l => [InitialOrders l] end
        ++ match r2 with inl _ => [] | inr l => [InitialClosed l] end
        ++ match m with None => [] | Some m => [InitialWatches (GetWatchSnapshot user m)] end).

(** A message of the client: type, token, application and source; the credentials
    that are resumed, when the service is [wired]. *)
Definition resume_token (wired : bool) (user : string) (inbound : option (string * string * string * string))
    : option (string * AuthContext) :=
  match inbound with
  | Some (ty, bearer, app, source) =>
      if (ty =?s "resume_token") && negb (bearer =?s "") && wired
      then Some (user, mkAuth user app (if source =?s "" then "WEB" else source) bearer) else None
  | None => None
  end.

(** [handleSubscribeBrokerWS]; [start] is the subscription, when it is wired. *)
Definition handleSubscribeBrokerWS (start : option (string -> AuthContext -> option string)) (r : HttpRequest)
    : Reply (option AuthContext) :=
  if negb (r.(httpMethod) =?s "POST") then Failed 405 "method not allowed"
  else match start with
       | None => Shown None
       | Some f =>
           let user := Positions.or_else (r.(query) "user_id") (r.(header) "userId") in
           let bearer := TrimPrefix (r.(header) "Authorization") "Bearer " in
           let app := r.(header) "appId" in
           let source := r.(header) "source" in
           if user =?s "" then Failed 400 "user_id required"
           else if (bearer =?s "") || (app =?s "") || (source =?s "")
           then Failed 401 "Authorization, appId and source headers required"
           else match f user (mkAuth user app source bearer) with
                | Some _ => Failed 500 "failed to start broker ws subscription"
                | None => Shown (Some (mkAuth user app source bearer))
                end
       end.

(** ** Properties of the views

    The dashboard counts the reverse order of a paper exit as an open position, the
    views show every level of a position exactly once, a user cancels only own
    watches and the square-off time is read back as it was saved. *)

(** ** The dashboard and closed positions *)

Lemma filter_Perm {A} (p : A -> bool) (l k : list A) : l ≡ₚ k -> List.filter p l ≡ₚ List.filter p k.
Proof. induction 1; cbn; repeat case_match; try done; try (by constructor). by etrans. Qed.

(** How many rows of a table satisfy [p]. *)
Definition row_count (p : Order.t -> bool) (m : gmap uuid Order.t) : nat := length (List.filter p (map_to_list m).*2).

Lemma row_count_new p (m : gmap uuid Order.t) id o :
  m !! id = None -> row_count p (<[id := o]> m) = ((if p o then 1 else 0) + row_count p m)%nat.
Proof.
  intros H. unfold row_count.
  rewrite (filter_Perm p _ (o :: (map_to_list m).*2)) by (by rewrite map_to_list_insert).
  cbn. by destruct (p o).
Qed.

Lemma row_count_change p (m : gmap uuid Order.t) id o o' :
  m !! id = Some o ->
  (row_count p (<[id := o']> m) + (if p o then 1 else 0) = row_count p m + (if p o' then 1 else 0))%nat.
Proof.
  intros H. rewrite <- (insert_delete_id m id o H) at 2. rewrite <- (insert_delete_eq m id o').
  rewrite !row_count_new by apply lookup_delete_eq. lia.
Qed.

Definition paper_open (user : string) (o : Order.t) : bool :=
  (o.(Order.UserID) =?s user) && paper_counted o && negb (is_set o.(Order.PaperExitPrice)).

Definition paper_closed (user : string) (o : Order.t) : bool :=
  (o.(Order.UserID) =?s user) && paper_counted o && is_set o.(Order.PaperExitPrice).

Lemma filter_filter {A} (p q : A -> bool) (l : list A) :
  List.filter p (List.filter q l) = List.filter (fun x => q x && p x) l.
Proof. induction l as [|x l IH]; cbn; [done|]. destruct (q x); cbn; [by destruct (p x); rewrite IH|done]. Qed.

Lemma paper_counts total user t :
  (paper_stats total user t).(OpenCount) = row_count (paper_open user) t.(rows) /\
  (paper_stats total user t).(ClosedCount) = row_count (paper_closed user) t.(rows).
Proof. unfold paper_stats, stats_of, user_rows, all_rows, row_count. cbn. by rewrite !filter_filter. Qed.

(** A filled or cancelled paper order of the user counts. *)
Lemma counted_open o o' :
  o'.(Order.UserID) = o.(Order.UserID) -> o'.(Order.IsPaperTrade) = true ->
  one_of o'.(Order.Status) ["FILLED"; "CANCELLED"] = true ->
  paper_open o.(Order.UserID) o' = negb (is_set o'.(Order.PaperExitPrice)).
Proof.
  intros Hu Hp Hs. unfold paper_open, paper_counted. rewrite Hu, Hp, String.eqb_refl. cbn in *.
  by destruct (_ =?s "FILLED"), (_ =?s "CANCELLED"), (_ =?s "RECEIVED"), (_ =?s "PENDING"), (_ =?s "SUBMITTED").
Qed.

Lemma counted_closed o o' :
  o'.(Order.UserID) = o.(Order.UserID) -> o'.(Order.IsPaperTrade) = true ->
  one_of o'.(Order.Status) ["FILLED"; "CANCELLED"] = true ->
  paper_closed o.(Order.UserID) o' = is_set o'.(Order.PaperExitPrice).
Proof.
  intros Hu Hp Hs. unfold paper_closed, paper_counted. rewrite Hu, Hp, String.eqb_refl. cbn in *.
  by destruct (_ =?s "FILLED"), (_ =?s "CANCELLED"), (_ =?s "RECEIVED"), (_ =?s "PENDING"), (_ =?s "SUBMITTED").
Qed.

(** The row of a paper position after its exit. *)
Definition exited_paper_row (now : Z) (price pnl : f64) (o : Order.t) : Order.t :=
  o <| Order.Status := StatusCancelled |> <| Order.PaperExitPrice := Some price |>
    <| Order.PaperPnL := Some pnl |> <| Order.PaperExitTime := Some now |> <| Order.UpdatedAt := now |>.

Lemma update_where_one (m : gmap uuid Order.t) id o p f :
  map_Forall (fun id o => o.(Order.OrderID) = id) m -> m !! id = Some o -> p o = true ->
  (forall o', p o' = true -> o'.(Order.OrderID) = id) ->
  (fun o => if p o then f o else o) <$> m = <[id := f o]> m.
Proof.
  intros Hk Ho Hp Hid. apply map_eq. intros i. rewrite lookup_fmap. destruct (decide (i = id)) as [->|Hne].
  - rewrite lookup_insert_eq, Ho. cbn. by rewrite Hp.
  - rewrite lookup_insert_ne by done. destruct (m !! i) as [o'|] eqn:E; [|done]. cbn.
    destruct (p o') eqn:E'; [|done]. exfalso. apply Hne. rewrite <- (Hk i o' E). by apply Hid.
Qed.

Lemma paper_exit_table {B} now newID paperID price reason o (w : ExecState B) (id := o.(Order.OrderID)) :
  no_faults w.(xorders) -> keyed w.(xorders) -> w.(xorders).(rows) !! id = Some o ->
  o.(Order.PaperExitPrice) = None -> w.(xorders).(rows) !! newID = None ->
  exists pnl rev,
    (ExitPaperPosition now newID paperID price reason o w).1.1.(xorders).(rows) =
      <[newID := inserted_row rev]> (<[id := exited_paper_row now price pnl o]> w.(xorders).(rows)) /\
    rev.(Order.UserID) = o.(Order.UserID) /\ rev.(Order.Status) = StatusFilled /\ rev.(Order.IsPaperTrade) = true.
Proof.
  intros Hf Hk Hrow Hopen Hnew.
  assert (Hne : newID <> id) by (intros ->; by rewrite Hrow in Hnew).
  assert (HU : sqlUpdatePaperTradeExit now id price (paper_pnl o price) w.(xorders)
    = (mkTable (<[id := exited_paper_row now price (paper_pnl o price) o]> w.(xorders).(rows)) [], None)).
  { unfold sqlUpdatePaperTradeExit. rewrite (proj1 (update_where_no_faults _ _ _ _ Hf)). unfold update_where.
    rewrite (update_where_one _ id o); [by rewrite Hf|done..| |].
    - by rewrite bool_decide_true, Hopen.
    - by intros o' [E%bool_decide_eq_true _]%andb_prop. }
  set (o1 := o <| Order.Status := StatusCancelled |> <| Order.PaperExitPrice := Some price |>
      <| Order.PaperPnL := Some (paper_pnl o price) |>
      <| Order.RejectionReason := Some ("Paper exit: " ++ reason)%string |> <| Order.UpdatedAt := now |>).
  exists (paper_pnl o price), (reverse_exit_order now newID paperID o1 price).
  split; [|by destruct o].
  unfold ExitPaperPosition. fold o1. change (o1.(Order.OrderID)) with id. cbn [retryDB]. rewrite HU.
  cbn -[inserted_row reverse_exit_order exited_paper_row].
  unfold sqlCreate, driver. cbn -[inserted_row reverse_exit_order exited_paper_row].
  change (Order.OrderID (reverse_exit_order now newID paperID o1 price)) with newID.
  by rewrite lookup_insert_ne, Hnew by done.
Qed.

(** The dashboard does not close a paper position: the exit marks the row as closed, but
    the reverse order it inserts is a filled paper order without an exit price, so as many
    positions are shown as open as before, and one more as closed. *)
Theorem dashboard_never_closes {B} total now newID paperID price reason o (w : ExecState B) (user := o.(Order.UserID))
    (w' := (ExitPaperPosition now newID paperID price reason o w).1.1)
    (before := paper_stats total user w.(xorders)) (after := paper_stats total user w'.(xorders)) :
  no_faults w.(xorders) -> keyed w.(xorders) -> w.(xorders).(rows) !! o.(Order.OrderID) = Some o ->
  o.(Order.Status) = StatusFilled -> o.(Order.IsPaperTrade) = true -> o.(Order.PaperExitPrice) = None ->
  w.(xorders).(rows) !! newID = None ->
  after.(OpenCount) = before.(OpenCount) /\ after.(ClosedCount) = S before.(ClosedCount).
Proof.
  intros Hf Hk Hrow Hst Hp Hopen Hnew.
  destruct (paper_exit_table now newID paperID price reason o w Hf Hk Hrow Hopen Hnew) as (pnl & rev & E & Hu & Hs & Hpp).
  unfold before, after. rewrite !(proj1 (paper_counts _ _ _)), !(proj2 (paper_counts _ _ _)). unfold w'. rewrite E.
  assert (Hne : newID <> o.(Order.OrderID)) by (intros H; by rewrite H, Hrow in Hnew).
  rewrite (row_count_new (paper_open user)), (row_count_new (paper_closed user)) by by rewrite lookup_insert_ne.
  pose proof (row_count_change (paper_open user) _ _ _ (exited_paper_row now price pnl o) Hrow) as H1.
  pose proof (row_count_change (paper_closed user) _ _ _ (exited_paper_row now price pnl o) Hrow) as H2.
  unfold user in *.
  rewrite (counted_open o o), (counted_open o (exited_paper_row now price pnl o)) in H1 by (done || by rewrite Hst).
  rewrite (counted_closed o o), (counted_closed o (exited_paper_row now price pnl o)) in H2 by (done || by rewrite Hst).
  rewrite (counted_open o (inserted_row rev)), (counted_closed o (inserted_row rev))
    by (done || by change (Order.Status (inserted_row rev)) with (Order.Status rev); rewrite Hs).
  rewrite Hopen in *. cbn -[row_count] in H1, H2 |- *. lia.
Qed.

Definition sample_position : Order.t :=
  Order.zero <| Order.OrderID := 1%N |> <| Order.UserID := "u1" |> <| Order.Symbol := "TCS" |>
    <| Order.OrderSide := "BUY" |> <| Order.Status := StatusFilled |> <| Order.IsPaperTrade := true |>
    <| Order.FilledQuantity := 10 |> <| Order.FilledPrice := Some (of_Z 100) |>.

Definition sample_views : ExecState BookBroker :=
  sample_exec [] <| xorders := mkTable {[ 1%N := sample_position ]} [] |>.

Lemma dashboard_never_closes_witness :
  let w' := (ExitPaperPosition 9 2%N "PAPER-2" (of_Z 120) "manual" sample_position sample_views).1.1 in
  let total : Totals := (fun _ => fzero, fun _ => fzero) in
  let before := paper_stats total "u1" sample_views.(xorders) in
  let after := paper_stats total "u1" w'.(xorders) in
  after.(OpenCount) = before.(OpenCount) /\ after.(ClosedCount) = S before.(ClosedCount) /\ before.(OpenCount) = 1%nat.
Proof.
  cbv zeta.
  destruct (dashboard_never_closes (fun _ => fzero, fun _ => fzero) 9 2%N "PAPER-2" (of_Z 120) "manual"
    sample_position sample_views) as [H1 H2]; try (vm_compute; reflexivity).
  - intros id o. change (({[ 1%N := sample_position ]} : gmap uuid Order.t) !! id = Some o -> o.(Order.OrderID) = id).
    intros [Hi Ho]%lookup_singleton_Some. subst id o. reflexivity.
  - split; [exact H1|]. split; [exact H2|vm_compute; reflexivity].
Defined.

(** ** Levels and square-off times *)

Lemma filter_split {A} (p : A -> bool) (l : list A) :
  List.filter p l ++ List.filter (fun x => negb (p x)) l ≡ₚ l.
Proof.
  induction l as [|x l IH]; cbn; [done|]. destruct (p x); cbn; [by rewrite IH|].
  by rewrite <- Permutation_middle, IH.
Qed.

(** The rows of the open paper positions of a user. *)
Definition open_of (user : string) (o : Order.t) : bool :=
  (o.(Order.UserID) =?s user) && active_paper_row o && is_set o.(Order.FilledPrice).

Lemma levels_batch levels ids :
  exists f, sqlGetLevelsBatch false ids levels = Some f /\ forall id, id ∈ ids -> f id = sqlGetLevels id levels.
Proof.
  destruct ids as [|i ids].
  - eexists. split; [done|]. by intros id ?%not_elem_of_nil.
  - eexists. split; [done|]. intros id Hid. cbn; by rewrite bool_decide_true.
Qed.

(** Every open position of the user is answered, with each of its exit levels exactly
    once, as a stop-loss or as a target. *)
Theorem positions_show_all_levels (levels : LevelsTable) (r : HttpRequest) (t t' : OrdersTable) (views : list PositionView) :
  handleGetPositions false levels r t = (t', Shown views) ->
  (forall o, o ∈ map pv_order views <->
     open_of (r.(query) "user_id") o = true /\ exists id, t.(rows) !! id = Some o) /\
  (forall v, v ∈ views -> v.(pv_sl) ++ v.(pv_tp) ≡ₚ sqlGetLevels v.(pv_order).(Order.OrderID) levels
                   /\ forall l, l ∈ v.(pv_sl) <->
                      l ∈ sqlGetLevels v.(pv_order).(Order.OrderID) levels /\ l.1.1.2 = MLExitTypeSL).
Proof.
  unfold handleGetPositions, get_user. destruct (negb _); [done|]. destruct (_ =?s ""); [done|].
  destruct (sqlGetFilledPaperOrdersByUser _ t) as [t1 [e|l]] eqn:E; [done|]. intros [= -> <-].
  destruct (levels_batch levels (map Order.OrderID l)) as (f & -> & Hf). split.
  - intros o. rewrite map_map, map_id.
    exact (select_desc_elem _ (open_of (r.(query) "user_id")) t l o (f_equal snd E)).
  - intros v Hv. apply list_elem_of_In, in_map_iff in Hv as (o & <- & Ho). unfold view_of. cbn.
    rewrite Hf by by apply list_elem_of_In, in_map. split; [apply filter_split|].
    intros lv. rewrite !list_elem_of_In, filter_In. unfold is_sl. by rewrite String.eqb_eq.
Qed.

(** The square-off time a user saves is the one read back, and the scheduler finds the
    user at that time exactly when it is enabled. *)
Theorem square_off_time_kept (user time : string) (enabled : bool) (r : HttpRequest) (t t' : SquareOffTable) :
  handleSetAutoSquareOffConfig true (Some (user, time, enabled)) t = (t', Shown tt) ->
  r.(query) "user_id" = user ->
  handleGetAutoSquareOffConfig true r t' = Shown (time, enabled) /\
  (user ∈ sqlUsersWithAutoSquareOffAtTime time t' <-> enabled = true).
Proof.
  unfold handleSetAutoSquareOffConfig, handleGetAutoSquareOffConfig, Positions.or_else.
  destruct (user =?s "") eqn:Hu; [done|]. destruct (enabled && _); [done|]. intros [= <-] ->. rewrite Hu, Hu.
  unfold sqlGetUserSquareOffConfig, sqlUpsertUserSquareOffConfig, sqlUsersWithAutoSquareOffAtTime.
  rewrite lookup_insert_eq. split; [done|]. rewrite list_elem_of_fmap. split.
  - intros ([u [ti en]] & -> & H). apply list_elem_of_In, filter_In in H as [Hin [_ Hen]%andb_prop].
    apply list_elem_of_In, elem_of_map_to_list in Hin. cbn in *. rewrite lookup_insert_eq in Hin. by simplify_eq.
  - intros ->. exists (user, (time, true)). split; [done|]. apply list_elem_of_In, filter_In. split.
    + apply list_elem_of_In, elem_of_map_to_list, lookup_insert_eq.
    + cbn. by rewrite String.eqb_refl.
Qed.

(** A time that is no time of day is accepted and never reached. *)
Example square_off_time_unchecked :
  (handleSetAutoSquareOffConfig true (Some ("u1", "9:20", true)) ∅).2 = Shown tt.
Proof. reflexivity. Qed.
