(* ===== verification/NewsEvent.v ===== *)
(** * News as the rules engine reads it

    [rules-engine/internal/models/mongodb_event.go]: a message of the news topic,
    decoded into [MongoDBEvent], and its conversion to a [MarketEvent].

    A message is given as the fields of its JSON object; [unmarshal_event] is
    [json.Unmarshal] into the struct, which finds fields whatever their case (of
    ASCII letters), takes the last of several, and fails when a [string] or a
    [map] is something else.  [print_float] is the [%v] of a float64. *)

From Stdlib Require Import Ascii NArith ZArith Lia SpecFloat.
From stdpp Require Import base gmap strings list.
From S2P Require Import Prelude GoFloat GoStrings GoTime GoParse RuleModels.

Open Scope string_scope.
Open Scope list_scope.
Open Scope Z_scope.

(** What a JSON value becomes in an [interface{}]. *)
Inductive value : Type :=
  | VNil
  | VBool (b : bool)
  | VFloat (x : f64)
  | VString (s : string)
  | VArray
  | VMap (fields : list (string * value)).

Abbreviation fields_t := (list (string * value)).

(** The entry of a map; the last one of several. *)
Definition entry (k : string) (m : fields_t) : option value :=
  match last (List.filter (fun p => String.eqb p.1 k) m) with Some (_, v) => Some v | None => None end.

(** ** [json.Unmarshal] *)

(** The values whose key is that of a field. *)
Definition values_of (k : string) (m : fields_t) : list value :=
  map snd (List.filter (fun p => EqualFold p.1 k) m).

(** An [interface{}] field. *)
Definition any_field (k : string) (m : fields_t) : value := default VNil (last (values_of k m)).

(** A [string] field: null leaves it as it is. *)
Definition string_field (k : string) (m : fields_t) : option string :=
  foldl (fun s v => match s, v with
                    | Some s, VNil => Some s
                    | Some _, VString s => Some s
                    | _, _ => None
                    end) (Some "") (values_of k m).

(** A map field: null makes it nil, and a second object is added to the first. *)
Definition map_field (k : string) (m : fields_t) : option (option fields_t) :=
  foldl (fun s v => match s, v with
                    | Some _, VNil => Some None
                    | Some s, VMap l => Some (Some (default [] s ++ l))
                    | _, _ => None
                    end) (Some None) (values_of k m).

Module MongoDBEvent.
Record t : Type := mk {
  ID : value;
  Stock : value;
  Code : value;
  NSECode : value;
  BSECode : value;
  Token : value;
  Symbol : string;
  Exchange : string;
  NewsID : string;
  NewsIDAlt : string;
  NewsLink : string;
  Impact : string;
  ImpactScore : value;
  ImpactScoreAlt : value;
  Sentiment : string;
  Category : string;
  ShortSummary : string;
  DtTm : value;
  DtTmAlt : value;
  Company : string;
  CompanyName : string;
  MCap : value;
  MCapType : string;
  SymbolMap : option fields_t;
  LastTraded : value;
  PctChange : value;
  DocumentDate : string;
  DocumentDateAlt : string;
  NewsFirst : value;
  NewsPctChange : value;
  PriceMap : option fields_t
}.
End MongoDBEvent.

Definition unmarshal_event (m : fields_t) : option MongoDBEvent.t :=
  symbol ← string_field "symbol" m;
  exchange ← string_field "exchange" m;
  news_id ← string_field "news_id" m;
  newsid ← string_field "newsid" m;
  link ← string_field "news link" m;
  impact ← string_field "impact" m;
  sentiment ← string_field "sentiment" m;
  category ← string_field "category" m;
  summary ← string_field "short summary" m;
  company ← string_field "company" m;
  company_name ← string_field "companyname" m;
  mcap_type ← string_field "mcaptype" m;
  symbol_map ← map_field "symbolmap" m;
  document_date ← string_field "document_date" m;
  documentdate ← string_field "documentdate" m;
  price_map ← map_field "pricemap" m;
  let any k := any_field k m in
  Some (MongoDBEvent.mk (any "_id") (any "stock") (any "code") (any "nsecode") (any "bsecode") (any "token")
    symbol exchange news_id newsid link impact (any "impact score") (any "impactscore") sentiment category summary
    (any "dt_tm") (any "dttm") company company_name (any "mcap") mcap_type symbol_map (any "LastTradedPrice")
    (any "pct_change") document_date documentdate (any "NewsFirstPrice") (any "news_pct_change") price_map).

(** ** [time.Parse] *)

(** The clock of a layout, with a fraction of a second. *)
Definition parse_clock (s : string) : option (Z * Z * Z * Z * string) :=
  '(h, s) ← getnum false s; s ← skip_char ":" s;
  '(mi, s) ← getnum true s; s ← skip_char ":" s;
  '(sec, s) ← getnum true s;
  let '(ns, s) := parse_fraction s in
  if (h <? 24) && (mi <? 60) && (sec <? 60) then Some (h, mi, sec, ns, s) else None.

Definition parse_date (s : string) : option (Z * Z * Z * string) :=
  '(y, s) ← parse_year s; s ← skip_char "-" s;
  '(m, s) ← getnum true s; s ← skip_char "-" s;
  '(d, s) ← getnum true s;
  if (1 <=? m) && (m <=? 12) && (1 <=? d) && (d <=? days_in m y) then Some (y, m, d, s) else None.

(** The zone [Z07:00]: its seconds. *)
Definition parse_zone (s : string) : option (Z * string) :=
  match s with
  | String "Z" s => Some (0, s)
  | String c s =>
      if Ascii.eqb c "+" || Ascii.eqb c "-" then
        '(h, s) ← getnum true s; s ← skip_char ":" s;
        '(mi, s) ← getnum true s;
        if (h <=? 24) && (mi <=? 60)
        then Some ((if Ascii.eqb c "-" then -1 else 1) * (h * 3600 + mi * 60), s) else None
      else None
  | "" => None
  end.

Definition the_end (s : string) : option unit := if String.eqb s "" then Some tt else None.

(** [time.RFC3339]. *)
Definition parse_rfc3339 (s : string) : option Z :=
  '(y, m, d, s) ← parse_date s; s ← skip_char "T" s;
  '(h, mi, sec, ns, s) ← parse_clock s;
  '(offset, s) ← parse_zone s;
  _ ← the_end s;
  Some (date_in offset y m d h mi sec ns).

(** ["2006-01-02 15:04:05"]. *)
Definition parse_datetime (s : string) : option Z :=
  '(y, m, d, s) ← parse_date s; s ← skip_space s;
  '(h, mi, sec, ns, s) ← parse_clock s;
  _ ← the_end s;
  Some (date_in 0 y m d h mi sec ns).

(** ["2006-01-02T15:04:05Z"]. *)
Definition parse_datetime_Z (s : string) : option Z :=
  '(y, m, d, s) ← parse_date s; s ← skip_char "T" s;
  '(h, mi, sec, ns, s) ← parse_clock s; s ← skip_char "Z" s;
  _ ← the_end s;
  Some (date_in 0 y m d h mi sec ns).

(** The zero [time.Time]. *)
Definition time_zero : Z := date_in 0 1 1 1 0 0 0 0.

(** ** Conversion *)

(** [toInt64], for what JSON gives. *)
Definition toInt64 (v : value) : Z :=
  match v with
  | VFloat x => f64_to_int64 x
  | VString s =>
      match Atoi s with
      | Some i => i
      | None => default 0 (f64_to_int64 <$> ParseFloat s)
      end
  | _ => 0
  end.

(** [toFloat64]. *)
Definition toFloat64 (v : value) : f64 :=
  match v with
  | VFloat x => x
  | VString s => default fzero (ParseFloat s)
  | _ => fzero
  end.

Definition firstNonEmpty (l : list string) : string := default "" (head (List.filter (fun s => negb (String.eqb s "")) l)).

Definition is_nil (v : value) : bool := match v with VNil => true | _ => false end.

Section Conversion.

Import MongoDBEvent.

Context (print_float : f64 -> string).

Definition extractEventID (m : t) : string :=
  if negb (String.eqb m.(NewsIDAlt) "") then m.(NewsIDAlt)
  else if negb (String.eqb m.(NewsID) "") then m.(NewsID)
  else match m.(ID) with
       | VString s => s
       | VMap l => match entry "$oid" l with Some (VString oid) => oid | _ => "" end
       | _ => ""
       end.

Definition extractTimestamp (now : Z) (m : t) : Z :=
  match (if is_nil m.(DtTm) then m.(DtTmAlt) else m.(DtTm)) with
  | VString s => default now (parse_rfc3339 s)
  | VMap l =>
      match entry "$date" l with
      | Some (VString s) => default now (parse_rfc3339 s)
      | _ => now
      end
  | _ => now
  end.

Definition extractStockSymbol (m : t) : string :=
  match m.(Stock) with
  | VString s => s
  | VFloat x => print_float x
  | _ => ""
  end.

(** [nse != nil && nse != ""]. *)
Definition listed (v : option value) : bool :=
  match v with
  | None | Some VNil => false
  | Some (VString s) => negb (String.eqb s "")
  | Some _ => true
  end.

Definition stock_exchange (m : t) : string :=
  if negb (String.eqb m.(Exchange) "") then m.(Exchange)
  else match m.(SymbolMap) with
       | Some l => if listed (entry "NSE" l) then "NSE" else "BSE"
       | None => "NSE"
       end.

Definition nse_code (m : t) : Z :=
  let c := toInt64 m.(Code) in if c =? 0 then toInt64 m.(NSECode) else c.

(** The last resort: the symbol map, then the stock. *)
Definition last_code (m : t) : Z :=
  let c := match m.(SymbolMap) with
           | Some l => default 0 (toInt64 <$> entry "BSE" l)
           | None => 0
           end in
  if c =? 0 then toInt64 m.(Stock) else c.

Definition stock_code (m : t) : Z :=
  let token := toInt64 m.(Token) in
  if negb (token =? 0) then token
  else
    let ex := stock_exchange m in
    let c := if one_of ex ["NSE"; "NSE_EQ"] then nse_code m
             else if one_of ex ["BSE"; "BSE_EQ"] then toInt64 m.(BSECode) else 0 in
    if c =? 0 then last_code m else c.

Definition mapStockData (m : t) : StockData.t :=
  StockData.mk (stock_code m) (nse_code m) (toInt64 m.(BSECode)) (stock_exchange m)
    (if negb (String.eqb m.(Symbol) "") then m.(Symbol) else extractStockSymbol m)
    m.(Company) m.(CompanyName) (toFloat64 m.(MCap)) m.(MCapType).

Definition document_time (s : string) : Z :=
  default time_zero (head (omap (fun parse => parse s) [parse_datetime; parse_rfc3339; parse_datetime_Z])).

Definition mapNewsData (m : t) : NewsData.t :=
  let date := if String.eqb m.(DocumentDate) "" then m.(DocumentDateAlt) else m.(DocumentDate) in
  NewsData.mk (firstNonEmpty [m.(NewsIDAlt); m.(NewsID)]) m.(NewsLink) m.(Category) m.(ShortSummary)
    (if String.eqb date "" then time_zero else document_time date).

Definition mapAnalysis (m : t) : Analysis.t :=
  Analysis.mk m.(Sentiment) m.(Impact)
    (int32 (toInt64 (if is_nil m.(ImpactScore) then m.(ImpactScoreAlt) else m.(ImpactScore)))).

Definition mapMarketData (m : t) : MarketData.t :=
  let price k := match m.(PriceMap) with
                 | Some l => default VNil (entry k l)
                 | None => VNil
                 end in
  MarketData.mk (toFloat64 m.(LastTraded)) (toFloat64 m.(PctChange)) (toFloat64 m.(NewsFirst))
    (toFloat64 m.(NewsPctChange)) (toFloat64 (price "Open")) (toFloat64 (price "High"))
    (toFloat64 (price "Low")) (toInt64 (price "Volume")) (toFloat64 (price "PrevClose")).

(** [None]: "failed to extract event ID". *)
Definition ToMarketEvent (now : Z) (m : t) : option MarketEvent.t :=
  let id := extractEventID m in
  if String.eqb id "" then None
  else Some (MarketEvent.mk id "news" (extractTimestamp now m) (mapStockData m) (mapNewsData m) (mapAnalysis m)
               (mapMarketData m)).

(** What the consumer makes of a message before it calls the handler: nothing when
    the message is committed without being handled. *)
Definition read_news (now : Z) (message : option fields_t) : option MarketEvent.t :=
  m ← message ≫= unmarshal_event;
  e ← ToMarketEvent now m;
  match validateEvent e with (e, None) => Some e | (_, Some _) => None end.

End Conversion.

Example parse_times :
  parse_rfc3339 "2026-05-15T12:31:29.250Z" = Some (1778848289250 * 10 ^ 6) /\
  parse_rfc3339 "2026-05-15T12:31:29+05:30" = Some (1778828489 * second) /\
  parse_rfc3339 "2026-02-29T12:31:29Z" = None /\
  parse_datetime "2026-05-15 12:31:29" = Some (1778848289 * second) /\
  parse_datetime_Z "2026-05-15T12:31:29Z" = parse_rfc3339 "2026-05-15T12:31:29Z".
Proof. vm_compute. auto. Qed.

Example mixed_case : string_field "newsid" [("newsID", VString "a"); ("newsid", VNil); ("x", VString "b")] = Some "a".
Proof. reflexivity. Qed.
