(* ===== verification/Ingestion.v ===== *)
(** * The ingestion of news

    [services/data-ingestion]: the watcher of the news collection
    ([watcher/mongo_watcher.go]), its filter ([validator.go]), the company data in
    Redis ([data/redis_manager.go]) and what is published for the rules engine.

    BSON values are those the driver decodes into an [interface{}].  What the
    driver writes as extended JSON is the interface [ExtJSON], with the documented
    behaviour the two services rely on as its laws.  The change stream, Redis and
    the collections are arguments or state; an event reads the clock once.

    A step of the watcher is one event of the stream up to the semaphore, a
    goroutine being started, a goroutine as a whole, or a cleanup. *)

From stdpp Require Import base tactics gmap strings list sorting.
From Stdlib Require Import Ascii ZArith Lia SpecFloat.
From S2P Require Import Prelude GoFloat FloatRound FloatOrder Price FloatExact GoStrings GoTime GoParse RuleModels NewsEvent.

Open Scope string_scope.
Open Scope list_scope.
Open Scope Z_scope.
Open Scope go_scope.

(** [BOther] carries what [%v] prints. *)
Inductive bson : Type :=
  | BNil
  | BString (s : string)
  | BDouble (x : f64)
  | BInt32 (n : Z)
  | BInt64 (n : Z)
  | BBool (b : bool)
  | BDate (ms : Z)
  | BObjectID (hex : string)
  | BOther (text : string).

Definition quote : string := String (ascii_of_nat 34) "".

Section Printing.

Context (print_float : f64 -> string).

(** [fmt.Sprintf("%v", v)]. *)
Definition sprintf_v (v : bson) : string :=
  match v with
  | BNil => "<nil>"
  | BString s => s
  | BDouble x => print_float x
  | BInt32 n | BInt64 n | BDate n => Itoa n
  | BBool b => if b then "true" else "false"
  | BObjectID hex => ("ObjectID(" ++ quote ++ hex ++ quote ++ ")")%string
  | BOther text => text
  end.

End Printing.

(** [GetString]. *)
Definition GetString (v : bson) : string := match v with BString s => s | _ => "" end.

(** [GetTime], in nanoseconds. *)
Definition GetTime (v : bson) : option Z := match v with BDate ms => Some (ms * 10 ^ 6) | _ => None end.

Module NewsDocument.
Record t : Type := mk {
  ID : bson;
  NewsID : bson;
  Stock : bson;
  Company : bson;
  DtTm : bson;
  ImpactScore : bson;
  Sentiment : bson;
  Category : bson;
  ShortSummary : bson;
  Source : bson;
  Duplicate : bson;
  DocumentDate : bson
}.
End NewsDocument.

Module NewsPayload.
Record t : Type := mk {
  Stock : bson;
  Company : bson;
  NewsID : bson;
  DtTm : bson;
  ImpactScore : bson;
  Sentiment : bson;
  Category : bson;
  BSECode : string;
  NSECode : option string;
  MCap : f64;
  MCapType : string;
  Exchange : string;
  DocumentDate : bson
}.
End NewsPayload.

Module Company.
Record t : Type := mk {
  ISIN : string;
  BSECode : string;
  NSECode : string;
  MCap : f64;
  MCapType : string;
  Exchange : string
}.
End Company.

(** ** The filter *)

Definition bnil (v : bson) : bool := match v with BNil => true | _ => false end.

(** The clock of an instant in UTC, read as a clock in IST. *)
Definition reread_in_IST (t : Z) : Z := t - ist_offset * second.

(** [ValidateNews]: the reason for which a document is left out. *)
Definition ValidateNews (now : Z) (doc : NewsDocument.t) : option string :=
  if bnil doc.(NewsDocument.DtTm) then Some "missing dt_tm field"
  else match GetTime doc.(NewsDocument.DtTm) with
  | None => Some "invalid dt_tm format"
  | Some t =>
      let newsTime := reread_in_IST t in
      if 24 * 3600 * second <? now - newsTime then Some "news too old"
      else if now + 600 * second <? newsTime then Some "news from future"
      else if (match doc.(NewsDocument.Duplicate) with BBool b => b | _ => false end) then Some "duplicate is true"
      else if GetString doc.(NewsDocument.Source) =?s "TelegramBrokerReport"
      then Some "source is TelegramBrokerReport"
      else if bnil doc.(NewsDocument.ImpactScore) then Some "impact score is null or missing"
      else if bnil doc.(NewsDocument.ShortSummary) then Some "short summary is null or missing"
      else if GetString doc.(NewsDocument.ShortSummary) =?s "" then Some "short summary is empty"
      else if bnil doc.(NewsDocument.Company) then Some "company field is null or missing"
      else if GetString doc.(NewsDocument.Company) =?s "" then Some "company ISIN is invalid"
      else None
  end.

(** ** Companies *)

(** A document of the company master. *)
Abbreviation bdoc := (gmap string bson).

Definition bfield (k : string) (d : bdoc) : bson := default BNil (d !! k).

(** The first of the fields that is there. *)
Definition code_field (d : bdoc) : bson :=
  default BNil (head (List.filter (fun v => negb (bnil v)) (map (fun k => bfield k d) ["code"; "Code"; "nsecode"]))).

Definition mcap_value (v : bson) : f64 :=
  match v with
  | BDouble x => x
  | BInt32 n | BInt64 n => of_Z n
  | _ => fzero
  end.

Definition is_active (v : bson) : bool := EqualFold (TrimSpace (GetString v)) "Active".

Definition company_exchange (d : bdoc) : option string :=
  if is_active (bfield "NSEStatus" d) then Some "NSE"
  else if is_active (bfield "BSEStatus" d) then Some "BSE" else None.

(** The details of a company; [None] when it is not active. *)
Definition company_of (print_float : f64 -> string) (isin : string) (d : bdoc) : option Company.t :=
  ex ← company_exchange d;
  let code := code_field d in
  Some (Company.mk isin (GetString (bfield "bsecode" d))
          (if bnil code then "" else TrimSpace (sprintf_v print_float code))
          (mcap_value (bfield "mcap" d)) (GetString (bfield "mcaptype" d)) ex).

(** [json.Marshal] of the details fails when a float is not finite. *)
Definition marshals (c : Company.t) : bool :=
  match c.(Company.MCap) with S754_nan | S754_infinity _ => false | _ => true end.

(** The keys of Redis with what they hold and when it expires. *)
Abbreviation Cache := (gmap string (Company.t * Z)).

Definition company_key (isin : string) : string := ("isin:" ++ isin)%string.

Definition cache_get (now : Z) (k : string) (r : Cache) : option Company.t :=
  '(c, until) ← r !! k; if now <? until then Some c else None.

Definition cache_set (now : Z) (c : Company.t) (r : Cache) : Cache :=
  <[company_key c.(Company.ISIN) := (c, now + 25 * 3600 * second)]> r.

Section Lookup.

Context (print_float : f64 -> string).

(** [fetchAndCacheCompanyDetails]: what [FindOne] answers, and whether Redis takes
    the key. *)
Definition fetchAndCacheCompanyDetails (now : Z) (found : option bdoc) (sets : bool) (isin : string) (r : Cache)
    : Cache * option Company.t :=
  match d ← found; company_of print_float isin d with
  | None => (r, None)
  | Some c => (if marshals c && sets then cache_set now c r else r, Some c)
  end.

(** [GetCompanyDetails]; [gets] when Redis answers. *)
Definition GetCompanyDetails (now : Z) (gets : bool) (found : option bdoc) (sets : bool) (isin : string) (r : Cache)
    : Cache * (string + option Company.t) :=
  if gets then
    match cache_get now (company_key isin) r with
    | Some c => (r, inr (Some c))
    | None => let '(r, c) := fetchAndCacheCompanyDetails now found sets isin r in (r, inr c)
    end
  else (r, inl "redis error").

(** [LoadCompanyMasterData]: the documents of the cursor, [None] when one cannot be
    decoded, with whether Redis takes the key. *)
Definition load_company (now : Z) (r : Cache) (d : option bdoc * bool) : Cache :=
  match d with
  | (None, _) => r
  | (Some d, sets) =>
      let isin := GetString (bfield "isin" d) in
      if isin =?s "" then r
      else match company_of print_float isin d with
           | None => r
           | Some c => if marshals c && sets then cache_set now c r else r
           end
  end.

Definition LoadCompanyMasterData (now : Z) (docs : option (list (option bdoc * bool))) (r : Cache) : Cache * option string :=
  match docs with
  | None => (r, Some "failed to query company master")
  | Some l => (foldl (load_company now) r l, None)
  end.

End Lookup.

(** The next time of the daily job. *)
Definition next_sync (offset now : Z) : Z :=
  let eight := (day_number offset now * 86400 + 8 * 3600 - offset) * second in
  if eight <? now then eight + 24 * 3600 * second else eight.

(** ** Publication *)

(** What is published of a document. *)
Definition payload_of (doc : NewsDocument.t) (c : Company.t) : NewsPayload.t :=
  NewsPayload.mk doc.(NewsDocument.Stock) doc.(NewsDocument.Company) doc.(NewsDocument.NewsID)
    doc.(NewsDocument.DtTm) doc.(NewsDocument.ImpactScore) doc.(NewsDocument.Sentiment)
    doc.(NewsDocument.Category) c.(Company.BSECode)
    (if c.(Company.NSECode) =?s "" then None else Some c.(Company.NSECode))
    c.(Company.MCap) c.(Company.MCapType) c.(Company.Exchange) doc.(NewsDocument.DocumentDate).

(** The driver encodes a struct without [bson] tags under the names of its fields in
    lower case, in their order. *)
Definition payload_fields (ext : bson -> value) (p : NewsPayload.t) : fields_t :=
  let text s := ext (BString s) in
  [("stock", ext p.(NewsPayload.Stock)); ("company", ext p.(NewsPayload.Company));
   ("newsid", ext p.(NewsPayload.NewsID)); ("dttm", ext p.(NewsPayload.DtTm));
   ("impactscore", ext p.(NewsPayload.ImpactScore)); ("sentiment", ext p.(NewsPayload.Sentiment));
   ("category", ext p.(NewsPayload.Category)); ("bsecode", text p.(NewsPayload.BSECode));
   ("nsecode", match p.(NewsPayload.NSECode) with Some s => text s | None => ext BNil end);
   ("mcap", ext (BDouble p.(NewsPayload.MCap))); ("mcaptype", text p.(NewsPayload.MCapType));
   ("exchange", text p.(NewsPayload.Exchange)); ("documentdate", ext p.(NewsPayload.DocumentDate))].

(** Extended JSON, relaxed, as JSON decodes it: [date_text] is how a date between
    1970 and 9999 is written. *)
Class ExtJSON : Type := {
  ext_json : bson -> value;
  marshal_payload : NewsPayload.t -> option fields_t;
  date_text : Z -> string;
  ext_nil : ext_json BNil = VNil;
  ext_string s : ext_json (BString s) = VString s;
  ext_int32 n : ext_json (BInt32 n) = VFloat (of_Z n);
  ext_double x : marshals (Company.mk "" "" "" x "" "") = true -> ext_json (BDouble x) = VFloat x;
  ext_date ms : 0 <= ms < 253402300800000 -> ext_json (BDate ms) = VMap [("$date", VString (date_text ms))];
  ext_struct p : marshals (Company.mk "" "" "" p.(NewsPayload.MCap) "" "") = true ->
    marshal_payload p = Some (payload_fields ext_json p)
}.

Section Watcher.

Context `{Hext : ExtJSON} (print_float : f64 -> string).

(** A document whose goroutine runs: its id, and when it was received. *)
Record Job : Type := mkJob { doc : NewsDocument.t; docID : string; receivedAt : Z }.

Record Watcher : Type := mkWatcher {
  processedIDs : gmap string Z;
  waiting : option Job;      (** what waits for the semaphore *)
  running : list Job;
  companies : Cache;
  published : list (Job * fields_t)
}.

#[local] Instance eta_watcher : Eta Watcher := fun w =>
  mkWatcher w.(processedIDs) w.(waiting) w.(running) w.(companies) w.(published).

Definition NewMongoWatcher (r : Cache) : Watcher := mkWatcher ∅ None [] r [].

Definition document_id (d : NewsDocument.t) : string :=
  if bnil d.(NewsDocument.ID) then "" else sprintf_v print_float d.(NewsDocument.ID).

Definition maxConcurrency : nat := 50.

(** What the outside answers to a goroutine. *)
Record Answers : Type := mkAnswers {
  an_now : Z;
  an_gets : bool;
  an_found : option bdoc;
  an_sets : bool;
  an_publishes : bool
}.

(** [enrichAndPublish]. *)
Definition enrichAndPublish (a : Answers) (j : Job) (w : Watcher) : Watcher :=
  let isin := GetString j.(doc).(NewsDocument.Company) in
  let '(r, c) := GetCompanyDetails print_float a.(an_now) a.(an_gets) a.(an_found) a.(an_sets) isin w.(companies) in
  let w := w <| companies := r |> in
  match c with
  | inr (Some c) =>
      match marshal_payload (payload_of j.(doc) c) with
      | Some m => if a.(an_publishes) then w <| published := w.(published) ++ [(j, m)] |> else w
      | None => w
      end
  | _ => w
  end.

Definition cleanupOldProcessedIDs (now : Z) (w : Watcher) : Watcher :=
  w <| processedIDs := filter (fun p => now - 3600 * second <= p.2) w.(processedIDs) |>.

(** An event of the stream; [None] when it cannot be decoded. *)
Definition receive (now : Z) (d : option NewsDocument.t) (w : Watcher) : Watcher :=
  match d with
  | None => w
  | Some d =>
      let id := document_id d in
      if negb (id =?s "") && bool_decide (is_Some (w.(processedIDs) !! id)) then w
      else
        let w := if id =?s "" then w else w <| processedIDs := <[id := now]> w.(processedIDs) |> in
        match ValidateNews now d with
        | Some _ => w
        | None => w <| waiting := Some (mkJob d id now) |>
        end
  end.

Inductive WatchStep : Type :=
  | Receive (now : Z) (d : option NewsDocument.t)
  | Acquire
  | Finish (i : nat) (a : Answers)
  | Cleanup (now : Z)
  | Sync (now : Z) (docs : option (list (option bdoc * bool))).

(** [None]: the step is not possible. *)
Definition watch_step (w : Watcher) (s : WatchStep) : option Watcher :=
  match s with
  | Receive now d => match w.(waiting) with None => Some (receive now d w) | Some _ => None end
  | Acquire =>
      match w.(waiting) with
      | Some j => if Nat.ltb (length w.(running)) maxConcurrency
                  then Some (w <| waiting := None |> <| running := w.(running) ++ [j] |>) else None
      | None => None
      end
  | Finish i a =>
      j ← w.(running) !! i;
      Some (enrichAndPublish a j (w <| running := take i w.(running) ++ drop (S i) w.(running) |>))
  | Cleanup now => Some (cleanupOldProcessedIDs now w)
  | Sync now docs => Some (w <| companies := (LoadCompanyMasterData print_float now docs w.(companies)).1 |>)
  end.

Fixpoint watch_run (w : Watcher) (l : list WatchStep) : option Watcher :=
  match l with
  | [] => Some w
  | s :: l => w ← watch_step w s; watch_run w l
  end.


(** ** Nothing is published twice within an hour *)

Definition hour : Z := 3600 * second.

Definition stamp (j : Job) : string * Z := (j.(docID), j.(receivedAt)).

(** Everything that was let through. *)
Definition let_through (w : Watcher) : list Job :=
  map fst w.(published) ++ w.(running) ++ match w.(waiting) with Some j => [j] | None => [] end.

(** Two receptions of one document are more than an hour apart. *)
Definition far (p q : string * Z) : Prop := p.1 = q.1 -> p.1 <> "" -> hour < Z.abs (p.2 - q.2).

Definition apart (l : list (string * Z)) : Prop := forall p q k, l ≡ₚ p :: q :: k -> far p q.

Lemma far_sym p q : far p q -> far q p.
Proof. unfold far. intros H E Hn. rewrite E in Hn. specialize (H (eq_sym E) Hn). lia. Qed.

Lemma apart_submseteq k l : apart l -> k ⊆+ l -> apart k.
Proof.
  intros Hl (r & E)%submseteq_Permutation p q k' Ek. apply (Hl p q (k' ++ r)). rewrite E, Ek. done.
Qed.

Lemma apart_cons p l : apart l -> Forall (far p) l -> apart (p :: l).
Proof.
  intros Hl Hp a b k E. rewrite Forall_forall in Hp.
  assert (Hin : p ∈ a :: b :: k) by (rewrite <- E; left).
  apply elem_of_cons in Hin as [<-|[<-|Hin]%elem_of_cons].
  - apply (inj (cons p)) in E. apply Hp. rewrite E. left.
  - rewrite (Permutation_swap p a k) in E. apply (inj (cons p)) in E. apply far_sym, Hp. rewrite E. left.
  - apply elem_of_Permutation in Hin as [k' Hk]. apply (Hl a b k').
    apply (inj (cons p)). rewrite E, Hk.
    trans (a :: p :: b :: k'); [by repeat constructor|apply perm_swap].
Qed.

Lemma pair_submseteq {A} (l : list A) i j p q :
  i <> j -> l !! i = Some p -> l !! j = Some q -> [p; q] ⊆+ l.
Proof.
  intros Hij Hp Hq. assert (Hd : delete i l !! (if decide (i < j)%nat then pred j else j) = Some q).
  { case_decide.
    - rewrite list_lookup_delete_ge by lia. by replace (S (pred j)) with j by lia.
    - rewrite list_lookup_delete_lt by lia. done. }
  rewrite (delete_Permutation l i p Hp). apply submseteq_skip, singleton_submseteq_l.
  by eapply list_elem_of_lookup_2.
Qed.

(** [clock] is the last reading. *)
Record watched (clock : Z) (w : Watcher) : Prop := {
  wa_apart : apart (map stamp (let_through w));
  wa_known : forall j, j ∈ let_through w -> j.(docID) <> "" ->
    (exists t, w.(processedIDs) !! j.(docID) = Some t /\ j.(receivedAt) <= t) \/ j.(receivedAt) + hour < clock
}.

Definition step_time (s : WatchStep) : option Z :=
  match s with Receive t _ | Cleanup t => Some t | _ => None end.

Lemma watched_weaken clock w w' :
  watched clock w -> w'.(processedIDs) = w.(processedIDs) -> let_through w' ⊆+ let_through w -> watched clock w'.
Proof.
  intros [H1 H2] Hp Hl. split.
  - eapply apart_submseteq; [exact H1|]. by apply fmap_submseteq.
  - intros j Hj. rewrite Hp. apply H2. by eapply elem_of_submseteq.
Qed.

Lemma enrich_through a j w :
  let_through (enrichAndPublish a j w) ⊆+ j :: let_through w /\
  (enrichAndPublish a j w).(processedIDs) = w.(processedIDs).
Proof.
  unfold enrichAndPublish. destruct (GetCompanyDetails _ _ _ _ _ _) as [r [e|[c|]]]; cbn.
  - split; [|done]. by apply submseteq_cons.
  - destruct (marshal_payload _) as [m|]; [destruct (an_publishes a)|]; cbn; (split; [|done]);
      [|by apply submseteq_cons..].
    unfold let_through. cbn. rewrite map_app. cbn. rewrite <- app_assoc. cbn. by rewrite <- Permutation_middle.
  - split; [|done]. by apply submseteq_cons.
Qed.

Lemma watched_receive clock now d w :
  clock <= now -> w.(waiting) = None -> watched clock w -> watched now (receive now d w).
Proof.
  intros Hc Hw [H1 H2]. destruct d as [d|]; cbn.
  2: { split; [done|]. intros j Hj Hn. destruct (H2 j Hj Hn) as [?|?]; [by left|right; lia]. }
  set (id := document_id d). destruct (id =?s "") eqn:Hid; cbn.
  - apply String.eqb_eq in Hid. destruct (ValidateNews now d) as [e|].
    + split; [done|]. intros j Hj Hn. destruct (H2 j Hj Hn) as [?|?]; [by left|right; lia].
    + assert (E : let_through (w <| waiting := Some (mkJob d id now) |>) ≡ₚ mkJob d id now :: let_through w).
      { unfold let_through. cbn. rewrite Hw, app_nil_r, app_assoc. by rewrite <- Permutation_cons_append. }
      split.
      * eapply apart_submseteq; [|by rewrite E]. cbn. apply apart_cons; [done|].
        apply Forall_forall. intros q _. unfold far. cbn. by rewrite Hid.
      * intros j. rewrite E. intros [->|Hj]%elem_of_cons Hn; [by cbn in Hn|].
        destruct (H2 j Hj Hn) as [?|?]; [by left|right; lia].
  - apply String.eqb_neq in Hid. case_bool_decide as Hk.
    { split; [done|]. intros j Hj Hn. destruct (H2 j Hj Hn) as [?|?]; [by left|right; lia]. }
    rewrite <- eq_None_not_Some in Hk.
    assert (Hold : forall j, j ∈ let_through w -> j.(docID) <> "" ->
      (exists t, <[id := now]> w.(processedIDs) !! j.(docID) = Some t /\ j.(receivedAt) <= t) \/
      j.(receivedAt) + hour < now).
    { intros j Hj Hn. destruct (H2 j Hj Hn) as [(t & Ht & Hle)|?]; [|right; lia]. left. exists t.
      split; [|done]. rewrite lookup_insert_ne; [done|]. intros E. congruence. }
    destruct (ValidateNews now d) as [e|]; [by split|].
    set (w' := w <| processedIDs := <[id := now]> w.(processedIDs) |> <| waiting := Some (mkJob d id now) |>).
    assert (E : let_through w' ≡ₚ mkJob d id now :: let_through w).
    { unfold let_through, w'. cbn. rewrite Hw, app_nil_r, app_assoc. by rewrite <- Permutation_cons_append. }
    change (watched now w'). split.
    + eapply apart_submseteq; [|by rewrite E]. cbn. apply apart_cons; [done|].
      apply Forall_forall. intros q Hq. apply list_elem_of_fmap in Hq as (j & -> & Hj). unfold far. cbn.
      intros Eid Hn. assert (Hn' : j.(docID) <> "") by congruence.
      destruct (H2 j Hj Hn') as [(t & Ht & _)|Ht].
      * assert (w.(processedIDs) !! id = Some t) by congruence. congruence.
      * unfold hour in *. lia.
    + intros j. rewrite E. intros [->|Hj]%elem_of_cons Hn; [|by apply Hold].
      left. exists now. cbn. by rewrite lookup_insert_eq.
Qed.

Lemma watched_cleanup clock now w :
  clock <= now -> watched clock w -> watched now (cleanupOldProcessedIDs now w).
Proof.
  intros Hc [H1 H2]. split; [done|]. intros j Hj Hn. cbn.
  destruct (H2 j Hj Hn) as [(t & Ht & Hle)|?]; [|right; lia].
  destruct (decide (now - 3600 * second <= t)) as [Hk|Hk].
  - left. exists t. split; [|done]. by apply map_lookup_filter_Some.
  - right. unfold hour. lia.
Qed.

Lemma watch_step_watched clock s w w' :
  (forall t, step_time s = Some t -> clock <= t) -> watched clock w -> watch_step w s = Some w' ->
  watched (default clock (step_time s)) w'.
Proof.
  intros Ht Hw. destruct s as [now d| |i a|now|now docs]; cbn in *.
  - destruct (w.(waiting)) eqn:E; [done|]. intros [= <-]. apply (watched_receive clock); auto.
  - destruct (w.(waiting)) as [j|] eqn:E; [|done]. case_match; [|done]. intros [= <-].
    eapply watched_weaken; [done|done|]. unfold let_through. cbn. by rewrite E, app_nil_r.
  - destruct (w.(running) !! i) as [j|] eqn:E; cbn; [|done]. intros [= <-].
    set (w0 := w <| running := take i w.(running) ++ drop (S i) w.(running) |>). destruct (enrich_through a j w0) as [H1 H2].
    refine (watched_weaken clock w (enrichAndPublish a j w0) Hw H2 _). etrans; [exact H1|]. unfold let_through, w0. cbn.
    rewrite <- (take_drop_middle _ _ _ E) at 3. rewrite <- !app_assoc. cbn.
    by rewrite !(Permutation_middle _ _ j).
  - intros [= <-]. apply (watched_cleanup clock); auto.
  - intros [= <-]. by eapply watched_weaken.
Qed.

Lemma watch_run_watched l : forall clock w w',
  StronglySorted Z.le (clock :: omap step_time l) -> watched clock w -> watch_run w l = Some w' ->
  exists clock', watched clock' w'.
Proof.
  induction l as [|s l IH]; intros clock w w' Hs Hw; cbn.
  - intros [= <-]. by exists clock.
  - destruct (watch_step w s) as [w1|] eqn:E; cbn; [|done]. intros Hr.
    apply StronglySorted_inv in Hs as [Hs Hle]. rewrite Forall_forall in Hle. cbn in Hs, Hle.
    refine (IH (default clock (step_time s)) w1 w' _ _ Hr).
    + destruct (step_time s) as [t|]; cbn; [done|]. constructor; [done|]. by apply Forall_forall.
    + apply (watch_step_watched clock s w); [|done|done]. intros t Et. apply Hle. rewrite Et. left.
Qed.

(** C33: Whatever the stream delivers again, and in whatever order the goroutines end: of two
    publications of one document, one was received more than an hour after the other. *)
Theorem published_once_an_hour (r : Cache) (l : list WatchStep) (w : Watcher) (i j : nat) (p q : Job * fields_t)
    (Hl : StronglySorted Z.le (omap step_time l)) (Hrun : watch_run (NewMongoWatcher r) l = Some w)
    (Hij : i <> j) (Hp : w.(published) !! i = Some p) (Hq : w.(published) !! j = Some q)
    (Hid : p.1.(docID) = q.1.(docID)) (Hnamed : p.1.(docID) <> "") :
  hour < Z.abs (p.1.(receivedAt) - q.1.(receivedAt)).
Proof.
  assert (Hex : exists c, Forall (Z.le c) (omap step_time l)).
  { destruct (omap step_time l) as [|c cs]; [by exists 0|]. apply StronglySorted_inv in Hl as [_ Hle].
    exists c. by constructor. }
  destruct Hex as [c Hc].
  destruct (watch_run_watched l c (NewMongoWatcher r) w) as (clock & [Ha _]); [by constructor| |done|].
  { split.
    - intros a b k E. by apply Permutation_nil_cons in E.
    - intros x Hx. by apply not_elem_of_nil in Hx. }
  assert (Hsub : [stamp p.1; stamp q.1] ⊆+ map stamp (let_through w)).
  { trans (map stamp (map fst w.(published))).
    - rewrite map_map. change [stamp p.1; stamp q.1] with (map (fun x => stamp x.1) [p; q]).
      apply fmap_submseteq. by apply (pair_submseteq _ i j).
    - apply fmap_submseteq. unfold let_through. apply submseteq_inserts_r. done. }
  exact (apart_submseteq _ _ Ha Hsub _ _ [] (reflexivity _) Hid Hnamed).
Qed.


(** ** From the collection to the rules engine *)

Lemma company_exchange_known isin cd c :
  company_of print_float isin cd = Some c -> c.(Company.Exchange) = "NSE" \/ c.(Company.Exchange) = "BSE".
Proof.
  unfold company_of, company_exchange. destruct (is_active _); [|destruct (is_active _)]; intros [= <-]; auto.
Qed.

Lemma judged_fresh now d ms (judged := reread_in_IST (ms * 10 ^ 6)) :
  d.(NewsDocument.DtTm) = BDate ms -> ValidateNews now d = None ->
  judged - 600 * second <= now /\ now <= judged + 24 * 3600 * second.
Proof.
  intros Ht. unfold ValidateNews. rewrite Ht. cbn [bnil GetTime]. fold judged.
  destruct (Z.ltb_spec (24 * 3600 * second) (now - judged)); [done|].
  destruct (Z.ltb_spec (now + 600 * second) judged); [done|]. lia.
Qed.

Lemma unmarshal_payload (stock dt score nse mcap : value) (company newsid sentiment category bse mcap_type ex : string) :
  unmarshal_event
    [("stock", stock); ("company", VString company); ("newsid", VString newsid); ("dttm", dt); ("impactscore", score);
     ("sentiment", VString sentiment); ("category", VString category); ("bsecode", VString bse); ("nsecode", nse);
     ("mcap", mcap); ("mcaptype", VString mcap_type); ("exchange", VString ex); ("documentdate", VNil)] =
  Some (MongoDBEvent.mk VNil stock VNil nse (VString bse) VNil "" ex "" newsid "" "" VNil score sentiment category ""
          VNil dt company "" mcap mcap_type None VNil VNil "" "" VNil VNil None).
Proof. vm_compute. reflexivity. Qed.

(** The code of the exchange a company trades on. *)
Definition exchange_code (c : Company.t) : string :=
  if c.(Company.Exchange) =?s "NSE" then c.(Company.NSECode) else c.(Company.BSECode).

(** What the rules engine makes of a message that was published for a document. *)
Lemma published_news_read (now now' : Z) (d : NewsDocument.t) (isin id sentiment category : string) (ms score code : Z)
    (cd : bdoc) (c : Company.t) (m : fields_t)
    (Hvalid : ValidateNews now d = None) (Hms : 0 <= ms < 253402300800000)
    (Hdate : parse_rfc3339 (date_text ms) = Some (ms * 10 ^ 6))
    (Hisin : d.(NewsDocument.Company) = BString isin) (Htime : d.(NewsDocument.DtTm) = BDate ms)
    (Hid : d.(NewsDocument.NewsID) = BString id) (Hnamed : id <> "")
    (Hscore : d.(NewsDocument.ImpactScore) = BInt32 score) (Hrange : 0 <= score <= 10)
    (Hsent : d.(NewsDocument.Sentiment) = BString sentiment) (Hcat : d.(NewsDocument.Category) = BString category)
    (Hdocdate : d.(NewsDocument.DocumentDate) = BNil)
    (Hc : company_of print_float isin cd = Some c) (Hfinite : marshals c = true)
    (Hcode : Atoi (exchange_code c) = Some code) (Hpos : 0 < code)
    (Hm : marshal_payload (payload_of d c) = Some m) :
  exists e judged, read_news print_float now' (Some m) = Some e /\
    e.(MarketEvent.EventID) = id /\ e.(MarketEvent.StockData).(StockData.ISIN) = isin /\
    e.(MarketEvent.StockData).(StockData.Exchange) = c.(Company.Exchange) /\
    e.(MarketEvent.StockData).(StockData.StockCode) = code /\
    e.(MarketEvent.StockData).(StockData.MCap) = c.(Company.MCap) /\
    e.(MarketEvent.Analysis).(Analysis.ImpactScore) = score /\
    e.(MarketEvent.Analysis).(Analysis.Sentiment) = sentiment /\
    e.(MarketEvent.NewsData).(NewsData.Category) = category /\
    judged - 600 * second <= now <= judged + 24 * 3600 * second /\
    e.(MarketEvent.Timestamp) = judged + ist_offset * second.
Proof.
  set (nse := if c.(Company.NSECode) =?s "" then VNil else VString c.(Company.NSECode)).
  set (ev := MongoDBEvent.mk VNil (ext_json d.(NewsDocument.Stock)) VNil nse (VString c.(Company.BSECode)) VNil ""
    c.(Company.Exchange) "" id "" "" VNil (VFloat (of_Z score)) sentiment category "" VNil
    (VMap [("$date", VString (date_text ms))]) isin "" (VFloat c.(Company.MCap)) c.(Company.MCapType) None VNil VNil
    "" "" VNil VNil None).
  assert (Hev : unmarshal_event m = Some ev).
  { rewrite ext_struct in Hm by exact Hfinite. injection Hm as <-. unfold payload_of, payload_fields. cbn -[unmarshal_event].
    rewrite Hisin, Htime, Hid, Hscore, Hsent, Hcat, Hdocdate, ext_date by done.
    rewrite !ext_string, ext_int32, ext_nil, ext_double by exact Hfinite.
    unfold ev, nse. destruct (c.(Company.NSECode) =?s ""); rewrite ?ext_string; apply unmarshal_payload. }
  assert (Hex : negb (c.(Company.Exchange) =?s "") = true)
    by (destruct (company_exchange_known _ _ _ Hc) as [-> | ->]; done).
  assert (Hstock : stock_code ev = code).
  { unfold stock_code, stock_exchange, nse_code, ev, nse, exchange_code in *. cbn -[toInt64 Atoi] in *. rewrite Hex.
    destruct (company_exchange_known _ _ _ Hc) as [E|E]; rewrite E in *; cbn -[toInt64 Atoi] in *;
      [destruct (c.(Company.NSECode) =?s "") eqn:En; [apply String.eqb_eq in En; by rewrite En in Hcode|]|];
      cbn -[Atoi]; rewrite Hcode; destruct (Z.eqb_spec code 0); (done || lia). }
  exists (MarketEvent.mk id "news" (ms * 10 ^ 6) (mapStockData print_float ev) (mapNewsData ev) (mapAnalysis ev)
            (mapMarketData ev)), (reread_in_IST (ms * 10 ^ 6)).
  assert (Hsc : int32 (f64_to_int64 (of_Z score)) = score).
  { unfold f64_to_int64. rewrite trunc_of_Z by lia.
    destruct (Z.leb_spec (- 2 ^ 63) score); [|lia]. destruct (Z.ltb_spec score (2 ^ 63)); [|lia].
    apply int32_id. unfold in_int32. lia. }
  assert (Hconv : ToMarketEvent print_float now' ev = Some (MarketEvent.mk id "news" (ms * 10 ^ 6)
    (mapStockData print_float ev) (mapNewsData ev) (mapAnalysis ev) (mapMarketData ev))).
  { unfold ToMarketEvent, extractEventID, extractTimestamp, ev. cbn -[parse_rfc3339 mapStockData mapNewsData mapAnalysis].
    apply String.eqb_neq in Hnamed. rewrite Hnamed. cbn -[parse_rfc3339 mapStockData mapNewsData mapAnalysis].
    by rewrite Hnamed, Hdate. }
  assert (Hscore' : (mapAnalysis ev).(Analysis.ImpactScore) = score) by exact Hsc.
  assert (Hcode' : (mapStockData print_float ev).(StockData.StockCode) = code) by exact Hstock.
  assert (Hex' : (mapStockData print_float ev).(StockData.Exchange) = c.(Company.Exchange))
    by (unfold mapStockData, stock_exchange, ev; cbn; by rewrite Hex).
  split_and!; try reflexivity; try assumption.
  - unfold read_news. cbn [mbind option_bind]. rewrite Hev. cbn [mbind option_bind]. rewrite Hconv.
    cbn [mbind option_bind]. revert Hscore' Hcode' Hex'. apply String.eqb_neq in Hnamed. apply negb_true_iff in Hex.
    generalize (mapAnalysis ev) (mapStockData print_float ev) (mapNewsData ev) (mapMarketData ev).
    intros an sd nd md Ea Es Eex. unfold validateEvent. cbn. rewrite Hnamed. cbn. rewrite Ea, Es, Eex, Hex.
    destruct (Z.leb_spec code 0); [lia|]. destruct (Z.ltb_spec score 0); [lia|].
    rewrite Z.gtb_ltb. destruct (Z.ltb_spec 10 score); [lia|]. done.
  - exact (proj1 (judged_fresh _ _ _ Htime Hvalid)).
  - exact (proj2 (judged_fresh _ _ _ Htime Hvalid)).
  - cbn. unfold reread_in_IST. lia.
Qed.

(** A new document that passes the filter goes through the watcher undisturbed. *)
Lemma watch_one now d w a c m isin :
  w.(waiting) = None -> (length w.(running) < 50)%nat ->
  (document_id d = "" \/ w.(processedIDs) !! document_id d = None) -> ValidateNews now d = None ->
  GetString d.(NewsDocument.Company) = isin ->
  (GetCompanyDetails print_float a.(an_now) a.(an_gets) a.(an_found) a.(an_sets) isin w.(companies)).2
    = inr (Some c) ->
  marshal_payload (payload_of d c) = Some m -> a.(an_publishes) = true ->
  exists w', watch_run w [Receive now (Some d); Acquire; Finish (length w.(running)) a] = Some w' /\
    w'.(published) = w.(published) ++ [(mkJob d (document_id d) now, m)].
Proof.
  destruct w as [ids wt rn cs pu]. cbn [waiting running processedIDs companies published].
  intros -> Hroom Hnew Hvalid Hisin Hcomp Hm Hpub. cbn [watch_run watch_step waiting mbind option_bind].
  unfold receive. rewrite Hvalid.
  assert (Hskip : negb (document_id d =?s "") && bool_decide (is_Some (ids !! document_id d)) = false).
  { destruct Hnew as [-> | ->]; [done|]. rewrite bool_decide_false by by intros [? [=]]. apply andb_false_r. }
  cbn [processedIDs]. rewrite Hskip. apply Nat.ltb_lt in Hroom.
  destruct (document_id d =?s ""); cbn [set waiting running processedIDs companies published mbind option_bind];
    unfold maxConcurrency; rewrite Hroom; cbn [set waiting running processedIDs companies published mbind option_bind];
    rewrite list_lookup_middle by done; cbn [mbind option_bind]; unfold enrichAndPublish;
    cbn [doc set waiting running processedIDs companies published]; rewrite Hisin;
    destruct (GetCompanyDetails _ _ _ _ _ _ _) as [r x]; cbn [snd] in Hcomp; subst x; rewrite Hm, Hpub;
    (eexists; split; [reflexivity|done]).
Qed.

(** C32: News reaches the rules engine: when the watcher, with room for another goroutine,
    receives a document that it has not processed in the last hour, that passes the
    filter and is well-formed as listed below, and the company master answers an active
    company with finite figures and a positive number for a code and the publication succeeds, then after its
    goroutine exactly one message more is published, and the rules engine reads it as a
    valid event with the document's id, company, exchange and code, score, sentiment and
    category; the timestamp of the event is five and a half hours later than the time
    the filter judged the document by, which was in the last 24 hours. Well-formed:
    the id is a nonempty string, the score a 32-bit integer from 0 to 10, sentiment and
    category strings, the time a date of the years that have four digits, and there is
    no document date; documents that are not are published and refused
    ([published_but_refused]). *)
Theorem news_reaches_engine (now now' : Z) (d : NewsDocument.t) (isin id sentiment category : string) (ms score code : Z)
    (cd : bdoc) (c : Company.t) (w : Watcher) (a : Answers)
    (Hidle : w.(waiting) = None) (Hroom : (length w.(running) < 50)%nat)
    (Hnew : document_id d = "" \/ w.(processedIDs) !! document_id d = None)
    (Hvalid : ValidateNews now d = None) (Hms : 0 <= ms < 253402300800000)
    (Hdate : parse_rfc3339 (date_text ms) = Some (ms * 10 ^ 6))
    (Hisin : d.(NewsDocument.Company) = BString isin) (Htime : d.(NewsDocument.DtTm) = BDate ms)
    (Hid : d.(NewsDocument.NewsID) = BString id) (Hnamed : id <> "")
    (Hscore : d.(NewsDocument.ImpactScore) = BInt32 score) (Hrange : 0 <= score <= 10)
    (Hsent : d.(NewsDocument.Sentiment) = BString sentiment) (Hcat : d.(NewsDocument.Category) = BString category)
    (Hdocdate : d.(NewsDocument.DocumentDate) = BNil)
    (Hmaster : company_of print_float isin cd = Some c) (Hfinite : marshals c = true)
    (Hanswer : (GetCompanyDetails print_float a.(an_now) a.(an_gets) a.(an_found) a.(an_sets) isin w.(companies)).2
               = inr (Some c))
    (Hcode : Atoi (exchange_code c) = Some code) (Hpos : 0 < code) (Hpublishes : a.(an_publishes) = true) :
  exists w' m e judged,
    watch_run w [Receive now (Some d); Acquire; Finish (length w.(running)) a] = Some w' /\
    w'.(published) = w.(published) ++ [(mkJob d (document_id d) now, m)] /\
    read_news print_float now' (Some m) = Some e /\
    e.(MarketEvent.EventID) = id /\ e.(MarketEvent.StockData).(StockData.ISIN) = isin /\
    e.(MarketEvent.StockData).(StockData.Exchange) = c.(Company.Exchange) /\
    e.(MarketEvent.StockData).(StockData.StockCode) = code /\
    e.(MarketEvent.StockData).(StockData.MCap) = c.(Company.MCap) /\
    e.(MarketEvent.Analysis).(Analysis.ImpactScore) = score /\
    e.(MarketEvent.Analysis).(Analysis.Sentiment) = sentiment /\
    e.(MarketEvent.NewsData).(NewsData.Category) = category /\
    judged - 600 * second <= now <= judged + 24 * 3600 * second /\
    e.(MarketEvent.Timestamp) = judged + ist_offset * second.
Proof.
  assert (Hm : marshal_payload (payload_of d c) = Some (payload_fields ext_json (payload_of d c)))
    by (apply ext_struct; exact Hfinite).
  destruct (published_news_read now now' d isin id sentiment category ms score code cd c _ Hvalid Hms Hdate
    Hisin Htime Hid Hnamed Hscore Hrange Hsent Hcat Hdocdate Hmaster Hfinite Hcode Hpos Hm) as (e & judged & He).
  destruct (watch_one now d w a c (payload_fields ext_json (payload_of d c)) isin) as (w' & Hw & Hp);
    [done..|by rewrite Hisin|done|done|done|].
  exists w', (payload_fields ext_json (payload_of d c)), e, judged. split; [exact Hw|]. split; [exact Hp|exact He].
Qed.

End Watcher.

(** ** A driver, and an hour of news *)

(** The date of extended JSON, with its milliseconds when there are any. *)
Definition iso_date (ms : Z) : string :=
  let s := ms / 1000 in
  let '(y, m, d) := civil_of_day (s / 86400) in
  let r := s mod 86400 in
  (padded 4 y ++ "-" ++ padded 2 m ++ "-" ++ padded 2 d ++ "T"
   ++ padded 2 (r / 3600) ++ ":" ++ padded 2 (r / 60 mod 60) ++ ":" ++ padded 2 (r mod 60)
   ++ (if (ms mod 1000 =? 0)%Z then "" else "." ++ padded 3 (ms mod 1000)) ++ "Z")%string.

Definition relaxed (v : bson) : value :=
  match v with
  | BNil => VNil
  | BString s => VString s
  | BDouble x => VFloat x
  | BInt32 n | BInt64 n => VFloat (of_Z n)
  | BBool b => VBool b
  | BDate ms => VMap [("$date", VString (iso_date ms))]
  | BObjectID hex => VMap [("$oid", VString hex)]
  | BOther _ => VArray
  end.

#[export] Instance relaxed_json : ExtJSON.
Proof.
  refine {| ext_json := relaxed; marshal_payload p := Some (payload_fields relaxed p); date_text := iso_date |};
    reflexivity.
Defined.

Definition no_print (x : f64) : string := "".

(** 2026-05-15, 12:31:29.250 of the clock. *)
Definition news_ms : Z := 1778848289250.
Definition news_now : Z := news_ms * 10 ^ 6 - ist_offset * second + 60 * second.

Definition sample_news : NewsDocument.t :=
  NewsDocument.mk (BObjectID "65a") (BString "n1") (BString "Reliance") (BString "INE002A01018") (BDate news_ms)
    (BInt32 7) (BString "Positive") (BString "Results") (BString "profit up") (BString "NSE") (BBool false) BNil.

Definition sample_master : bdoc :=
  <["isin" := BString "INE002A01018"]> (<["code" := BInt32 2885]> (<["bsecode" := BString "500325"]>
    (<["mcap" := BInt64 2000000]> (<["mcaptype" := BString "Large"]> (<["NSEStatus" := BString " active "]> ∅))))).

Definition sample_company : Company.t := Company.mk "INE002A01018" "500325" "2885" (of_Z 2000000) "Large" "NSE".

Definition answers (t : Z) (publishes : bool) : Answers := mkAnswers t true (Some sample_master) true publishes.

Lemma news_reaches_engine_witness :
  exists w' m e, watch_run no_print (NewMongoWatcher ∅)
      [Receive news_now (Some sample_news); Acquire; Finish 0 (answers news_now true)] = Some w' /\
    map snd w'.(published) = [m] /\ read_news no_print 0 (Some m) = Some e /\
    e.(MarketEvent.EventID) = "n1" /\ e.(MarketEvent.StockData).(StockData.StockCode) = 2885.
Proof.
  destruct (news_reaches_engine no_print news_now 0 sample_news "INE002A01018" "n1" "Positive" "Results" news_ms 7 2885
    sample_master sample_company (NewMongoWatcher ∅) (answers news_now true))
    as (w' & m & e & judged & H0 & H1 & H2 & H3 & _ & _ & H4 & _);
    [reflexivity|cbn; lia|by right|
     first [vm_compute; reflexivity|vm_compute; split; congruence|done]..|].
  exists w', m, e. split; [exact H0|]. split; [by rewrite H1|]. by split.
Defined.

(** The document is delivered, again within the hour, and once more after a cleanup. *)
Definition sample_hour : list WatchStep :=
  [Receive news_now (Some sample_news); Acquire; Receive (news_now + 5) (Some sample_news);
   Finish 0 (answers news_now true); Receive (news_now + 10) (Some sample_news);
   Cleanup (news_now + 2 * hour); Receive (news_now + 2 * hour + 5) (Some sample_news); Acquire;
   Finish 0 (answers news_now true)].

Definition published_stamps (o : option Watcher) : list (string * Z) :=
  match o with Some w => map (fun p => stamp p.1) w.(published) | None => [] end.

Lemma sample_hour_published :
  published_stamps (watch_run no_print (NewMongoWatcher ∅) sample_hour) =
    [(document_id no_print sample_news, news_now); (document_id no_print sample_news, news_now + 2 * hour + 5)].
Proof. vm_compute. reflexivity. Qed.

Lemma published_once_an_hour_witness :
  exists w p q, watch_run no_print (NewMongoWatcher ∅) sample_hour = Some w /\
    w.(published) !! 0%nat = Some p /\ w.(published) !! 1%nat = Some q /\
    hour < Z.abs (p.1.(receivedAt) - q.1.(receivedAt)).
Proof.
  pose proof sample_hour_published as Hp. unfold published_stamps in Hp.
  destruct (watch_run no_print (NewMongoWatcher ∅) sample_hour) as [w|] eqn:E; [|discriminate Hp].
  destruct w as [ids wt rn cs [|p [|q l]]]; try discriminate Hp. cbn in Hp. unfold stamp in Hp.
  injection Hp as Hp1 Hp2 Hq1 Hq2 _.
  exists (mkWatcher ids wt rn cs (p :: q :: l)), p, q. split; [reflexivity|]. split; [reflexivity|]. split; [reflexivity|].
  refine (published_once_an_hour no_print ∅ sample_hour _ 0 1 p q _ E _ eq_refl eq_refl _ _).
  - repeat constructor; unfold hour, second; lia.
  - lia.
  - by rewrite Hp1, Hq1.
  - rewrite Hp1. vm_compute. discriminate.
Defined.

(** A publication that fails is not tried again: the document is marked already. *)
Example failed_publication_is_lost :
  published_stamps (watch_run no_print (NewMongoWatcher ∅)
    [Receive news_now (Some sample_news); Acquire; Finish 0 (answers news_now false);
     Receive (news_now + 5) (Some sample_news)]) = [] /\
  watch_run no_print (NewMongoWatcher ∅)
    [Receive news_now (Some sample_news); Acquire; Finish 0 (answers news_now false);
     Receive (news_now + 5) (Some sample_news); Acquire] = None.
Proof. split; vm_compute; reflexivity. Qed.

(** A failure of the company master is taken for a company that does not exist. *)
Example master_failure_loses_news :
  published_stamps (watch_run no_print (NewMongoWatcher ∅)
    [Receive news_now (Some sample_news); Acquire; Finish 0 (mkAnswers news_now true None true true)]) = [].
Proof. vm_compute. reflexivity. Qed.

Definition with_news (id date : bson) : NewsDocument.t :=
  NewsDocument.mk (BObjectID "65a") id (BString "Reliance") (BString "INE002A01018") (BDate news_ms)
    (BInt32 7) (BString "Positive") (BString "Results") (BString "profit up") (BString "NSE") (BBool false) date.

(** What passes the filter and is published, but not accepted by the rules engine: news
    without an id, news whose id is a number, and news with a document date. *)
Example published_but_refused :
  Forall (fun d => ValidateNews news_now d = None /\
                   read_news no_print 0 (marshal_payload (payload_of d sample_company)) = None)
    [with_news BNil BNil; with_news (BInt32 5) BNil; with_news (BString "n1") (BDate news_ms)].
Proof. repeat constructor; vm_compute; reflexivity. Qed.
