(* ===== verification/SignalConsumer.v ===== *)
(** * The consumer of trade signals and its worker pool

    [trade-execution/internal/consumer/kafka_consumer.go] and
    [workerpool/pool.go], on one partition of the topic.  A message is its offset;
    what its processing comes to is an argument (the processor is in
    [SignalProcessor]).

    [commit o c] is the offset the group has after a commit of message [o] when it
    had [c]: a group resumes after the message that was committed, and a client may
    ignore a commit that is older than what it has sent ([commit_law]).
    Each channel operation and each processed message is a step. *)

From stdpp Require Import base tactics strings list.
From Stdlib Require Import ZArith Lia.
From S2P Require Import Prelude.

Open Scope list_scope.
Open Scope go_scope.

(** ** The pool *)

Record Pool (T : Type) : Type := mkPool {
  workers : nat;
  capacity : nat;
  tasks : list T;      (** the channel *)
  active : list T;
  pool_closed : bool
}.

Arguments mkPool {T}. Arguments workers {T}. Arguments capacity {T}. Arguments tasks {T}.
Arguments active {T}. Arguments pool_closed {T}.

#[export] Instance eta_pool {T} : Eta (Pool T) := fun p =>
  mkPool p.(workers) p.(capacity) p.(tasks) p.(active) p.(pool_closed).

(** [New]. *)
Definition NewPool {T} (workers queueSize : Z) : Pool T :=
  let w := if (workers <=? 0)%Z then 1%Z else workers in
  let q := if (queueSize <=? 0)%Z then (w * 4)%Z else queueSize in
  mkPool (Z.to_nat w) (Z.to_nat q) [] [] false.

(** A send on the channel: blocked, a panic, or the pool after it. *)
Inductive Sent (A : Type) : Type := Blocked | Panic | SentTo (a : A).

Arguments Blocked {A}. Arguments Panic {A}. Arguments SentTo {A}.

Definition pool_send {T} (t : T) (p : Pool T) : Sent (Pool T) :=
  if p.(pool_closed) then Panic
  else if Nat.ltb (length p.(tasks)) p.(capacity) then SentTo (p <| tasks := p.(tasks) ++ [t] |>)
  else Blocked.

(** [TrySubmit], when nobody closes the channel between its check and its send. *)
Definition TrySubmit {T} (t : T) (p : Pool T) : Pool T * bool :=
  if p.(pool_closed) then (p, false)
  else match pool_send t p with SentTo p => (p, true) | _ => (p, false) end.

(** A worker takes a task; the channel gives out what is left after it was closed. *)
Definition pool_take {T} (p : Pool T) : option (Pool T) :=
  match p.(tasks) with
  | [] => None
  | t :: l => if Nat.ltb (length p.(active)) p.(workers)
              then Some (p <| tasks := l |> <| active := p.(active) ++ [t] |>) else None
  end.

Definition pool_finish {T} (i : nat) (p : Pool T) : option (T * Pool T) :=
  t ← p.(active) !! i;
  Some (t, p <| active := take i p.(active) ++ drop (S i) p.(active) |>).

(** [Stop] returns when the workers have ended. *)
Definition stop_returns {T} (p : Pool T) : bool :=
  p.(pool_closed) && bool_decide (length p.(tasks) = 0%nat) && bool_decide (length p.(active) = 0%nat).

(** ** The consumer *)

Section Consumer.

Context (commit : nat -> nat -> nat).

Record Consumer : Type := mkConsumer {
  log_end : nat;             (** messages of the partition *)
  position : nat;            (** the next offset to fetch *)
  committed : nat;           (** the offset the group resumes at *)
  started_at : nat;
  submitting : option nat;   (** a [Submit] that has found the pool open *)
  cpool : Pool nat;
  cancelled : bool;          (** the context *)
  results : list (nat * bool);
  refused : list nat;        (** [Submit] answered false *)
  panicked : bool
}.

#[local] Instance eta_consumer : Eta Consumer := fun c =>
  mkConsumer c.(log_end) c.(position) c.(committed) c.(started_at) c.(submitting) c.(cpool) c.(cancelled)
    c.(results) c.(refused) c.(panicked).

(** [NewKafkaConsumer]. *)
Definition consumer_pool (w : Z) : Pool nat :=
  let w := if (w <=? 0)%Z then 100%Z else w in NewPool w (w * 16).

Definition NewKafkaConsumer (w : Z) (n offset : nat) : Consumer :=
  mkConsumer n offset offset offset None (consumer_pool w) false [] [] false.

Inductive ConsumerStep : Type :=
  | Produce
  | Fetch
  | Send
  | Take
  | Finish (i : nat) (ok commits : bool)
  | Cancel
  | StopPool
  | Restart.

Definition consumer_step (w : Z) (c : Consumer) (s : ConsumerStep) : option Consumer :=
  match s with
  | Produce => Some (c <| log_end := S c.(log_end) |>)
  | Restart => Some (NewKafkaConsumer w c.(log_end) c.(committed))
  | _ =>
    if c.(panicked) then None
    else match s with
    | Fetch =>
        if c.(cancelled) || bool_decide (is_Some c.(submitting)) || negb (Nat.ltb c.(position) c.(log_end)) then None
        else
          let o := c.(position) in
          let c := c <| position := S o |> in
          Some (if c.(cpool).(pool_closed) then c <| refused := c.(refused) ++ [o] |> else c <| submitting := Some o |>)
    | Send =>
        o ← c.(submitting);
        match pool_send o c.(cpool) with
        | Blocked => None
        | Panic => Some (c <| panicked := true |>)
        | SentTo p => Some (c <| submitting := None |> <| cpool := p |>)
        end
    | Take => p ← pool_take c.(cpool); Some (c <| cpool := p |>)
    | Finish i ok commits =>
        '(o, p) ← pool_finish i c.(cpool);
        let c := c <| cpool := p |> <| results := c.(results) ++ [(o, ok)] |> in
        Some (if ok && commits && negb c.(cancelled) then c <| committed := commit o c.(committed) |> else c)
    | Cancel => Some (c <| cancelled := true |>)
    | StopPool => Some (c <| cpool := c.(cpool) <| pool_closed := true |> |>)
    | _ => None
    end
  end.

Fixpoint consumer_run (w : Z) (c : Consumer) (l : list ConsumerStep) : option Consumer :=
  match l with
  | [] => Some c
  | s :: l => c ← consumer_step w c s; consumer_run w c l
  end.

(** ** Every message is somewhere *)

Definition held (c : Consumer) : list nat :=
  match c.(submitting) with Some o => [o] | None => [] end ++ c.(cpool).(tasks) ++ c.(cpool).(active).

Record accounted (w : Z) (c : Consumer) : Prop := {
  ac_workers : c.(cpool).(workers) = (consumer_pool w).(workers);
  ac_capacity : c.(cpool).(capacity) = (consumer_pool w).(capacity);
  ac_active : (length c.(cpool).(active) <= c.(cpool).(workers))%nat;
  ac_tasks : (length c.(cpool).(tasks) <= c.(cpool).(capacity))%nat;
  ac_position : (c.(started_at) <= c.(position))%nat;
  ac_all : seq c.(started_at) (c.(position) - c.(started_at)) ≡ₚ held c ++ map fst c.(results) ++ c.(refused)
}.

Lemma new_accounted w n o : accounted w (NewKafkaConsumer w n o).
Proof. split; cbn; try lia; try done. by rewrite Nat.sub_diag. Qed.

Lemma Forall_take_drop {A} (P : A -> Prop) l i : Forall P l -> Forall P (take i l ++ drop (S i) l).
Proof. intros H. apply Forall_app. split; [by apply Forall_take|by apply Forall_drop]. Qed.

Lemma take_drop_perm {A} (l : list A) i x : l !! i = Some x -> l ≡ₚ x :: take i l ++ drop (S i) l.
Proof. intros H. rewrite <- (take_drop_middle l i x H) at 1. by rewrite Permutation_middle. Qed.

Lemma fetched_more (a p : nat) : (a <= p)%nat -> seq a (S p - a) ≡ₚ p :: seq a (p - a).
Proof.
  intros H. rewrite Nat.sub_succ_l by done. rewrite seq_S. replace (a + (p - a))%nat with p by lia.
  by rewrite Permutation_app_comm.
Qed.

Lemma step_accounted w c s c' : accounted w c -> consumer_step w c s = Some c' -> accounted w c'.
Proof.
  intros [H1 H2 H3 H4 H5 H6]. unfold consumer_step.
  destruct s; try (intros [= <-]; first [apply new_accounted|by split]); (destruct c.(panicked); [by intros|]).
  5,6: intros [= <-]; by split.
  - destruct c.(cancelled); [done|]. case_bool_decide as Hs; [done|]. destruct (Nat.ltb _ _); [|done].
    assert (Hsub : c.(submitting) = None) by (destruct c.(submitting); [exfalso; eauto|done]).
    intros [= <-]. unfold held in H6. rewrite Hsub in H6. cbn in H6.
    pose proof (fetched_more _ _ H5) as Hmore. rewrite H6 in Hmore.
    destruct c.(cpool).(pool_closed) eqn:Hc; split; cbn -[seq Nat.sub]; try done; try lia; rewrite Hmore; unfold held; cbn.
    1: rewrite Hsub, !app_assoc. 1: cbn. 1: by rewrite Permutation_cons_append.
  - destruct c.(submitting) as [o|] eqn:Hs; cbn; [|done]. unfold pool_send.
    destruct c.(cpool).(pool_closed); [intros [= <-]; by split|].
    destruct (Nat.ltb_spec (length c.(cpool).(tasks)) c.(cpool).(capacity)); [|done]. intros [= <-].
    split; cbn; try done; [rewrite length_app; cbn; lia|].
    rewrite H6. unfold held. cbn. rewrite Hs. cbn. rewrite <- !app_assoc. cbn.
    apply Permutation_middle.
  - unfold pool_take. destruct c.(cpool).(tasks) as [|t l] eqn:Ht; [done|].
    destruct (Nat.ltb_spec (length c.(cpool).(active)) c.(cpool).(workers)); cbn; [|done]. intros [= <-].
    split; cbn in *; try done; [rewrite length_app; cbn; lia|lia|].
    rewrite H6. unfold held. cbn. rewrite Ht, <- !app_assoc. cbn. apply Permutation_app_head.
    rewrite !(app_assoc l). apply Permutation_middle.
  - unfold pool_finish. destruct (c.(cpool).(active) !! i) as [o|] eqn:Hi; cbn; [|done]. intros [= <-].
    set (p := c.(cpool) <| active := take i c.(cpool).(active) ++ drop (S i) c.(cpool).(active) |>).
    assert (H0 : forall k, accounted w (c <| cpool := p |> <| results := c.(results) ++ [(o, ok)] |> <| committed := k |>)).
    { intros k. split; cbn; try done.
      - pose proof (Permutation_length (take_drop_perm _ _ _ Hi)) as Hlen. cbn in Hlen. lia.
      - rewrite H6. unfold held. cbn. rewrite (take_drop_perm _ _ _ Hi) at 1. rewrite map_app. cbn.
        generalize (take i c.(cpool).(active) ++ drop (S i) c.(cpool).(active)). intros rest.
        rewrite <- !app_assoc. do 2 apply Permutation_app_head. cbn.
        rewrite !(app_assoc rest). apply Permutation_middle. }
    destruct (_ && _); [apply H0|exact (H0 c.(committed))].
Qed.


(** C34: In every reachable state no more signals are processed at a time than there are
    workers, no more wait than the queue holds, and every message fetched since the
    process started is in exactly one place: being submitted, queued, processed, or done,
    or refused because the pool was stopped. *)
Theorem signals_accounted_for (w : Z) (n offset : nat) (l : list ConsumerStep) (c : Consumer)
    (Hw : (0 < w)%Z) (Hrun : consumer_run w (NewKafkaConsumer w n offset) l = Some c) :
  (Z.of_nat (length c.(cpool).(active)) <= w)%Z /\ (Z.of_nat (length c.(cpool).(tasks)) <= w * 16)%Z /\
  seq c.(started_at) (c.(position) - c.(started_at)) ≡ₚ held c ++ map fst c.(results) ++ c.(refused).
Proof.
  assert (H : accounted w c).
  { revert Hrun. generalize (new_accounted w n offset). generalize (NewKafkaConsumer w n offset).
    induction l as [|s l IH]; intros c0 H; cbn; [by intros [= <-]|].
    destruct (consumer_step w c0 s) as [c1|] eqn:E; cbn; [|done]. apply IH. by eapply step_accounted. }
  destruct H as [H1 H2 H3 H4 _ H6]. rewrite H1 in H3. rewrite H2 in H4. unfold consumer_pool, NewPool in *.
  destruct (Z.leb_spec w 0); [lia|]. destruct (Z.leb_spec w 0) in *; [lia|].
  destruct (Z.leb_spec (w * 16) 0) in *; [lia|]. cbn in *. split; [lia|]. split; [lia|done].
Qed.

(** ** A commit covers what failed before it *)

(** The message [o] is over: what is held and what will be fetched comes after it,
    and it was not processed successfully. *)
Record over (o : nat) (c : Consumer) : Prop := {
  ov_committed : (o < c.(committed))%nat;
  ov_position : (o < c.(position))%nat;
  ov_held : Forall (fun x => o < x)%nat (held c);
  ov_results : Forall (fun r => r.1 = o -> r.2 = false) c.(results)
}.

Definition commit_law : Prop := forall o k, commit o k = S o \/ commit o k = k /\ (S o <= k)%nat.

Ltac all_below :=
  unfold held; cbn; repeat first [apply Forall_app_2 | apply Forall_cons_2 | apply Forall_nil_2]; done.

Lemma step_over w o c s c' : commit_law -> over o c -> consumer_step w c s = Some c' -> over o c'.
Proof.
  intros Hlaw [H1 H2 H3 H4]. unfold held in H3. apply Forall_app in H3 as [Ha Hb]. apply Forall_app in Hb as [Hb Hc].
  unfold consumer_step.
  destruct s.
  1,8: intros [= <-]; split; cbn; try done; all_below.
  all: destruct c.(panicked); [done|].
  5,6: intros [= <-]; split; cbn; try done; all_below.
  - destruct c.(cancelled); [done|]. case_bool_decide; [done|]. destruct (Nat.ltb _ _); [|done]. intros [= <-].
    destruct c.(cpool).(pool_closed); split; cbn; try done; try lia; all_below.
  - destruct c.(submitting) as [x|] eqn:Hs; cbn; [|done]. apply Forall_cons_1 in Ha as [Ha _]. unfold pool_send.
    destruct c.(cpool).(pool_closed); [intros [= <-]; split; cbn; try done|].
    { unfold held. cbn. rewrite Hs. apply Forall_cons_2; [done|]. by apply Forall_app_2. }
    destruct (Nat.ltb _ _); [|done]. intros [= <-].
    split; cbn; try done. all_below.
  - unfold pool_take. destruct c.(cpool).(tasks) as [|t l] eqn:Ht; [done|].
    destruct (Nat.ltb _ _); cbn; [|done]. intros [= <-]. apply Forall_cons_1 in Hb as [Ht' Hl].
    split; cbn; try done. all_below.
  - unfold pool_finish. destruct (c.(cpool).(active) !! i) as [x|] eqn:Hi; cbn; [|done]. intros [= <-].
    assert (Hx : (o < x)%nat) by (by eapply (Forall_lookup_1 (fun x => o < x)%nat)).
    set (p := c.(cpool) <| active := take i c.(cpool).(active) ++ drop (S i) c.(cpool).(active) |>).
    assert (H0 : forall k, (o < k)%nat ->
      over o (c <| cpool := p |> <| results := c.(results) ++ [(x, ok)] |> <| committed := k |>)).
    { intros k Hk. split; cbn; try done.
      - unfold held. cbn. apply Forall_app_2; [done|]. apply Forall_app_2; [done|]. by apply Forall_take_drop.
      - apply Forall_app_2; [done|]. apply Forall_cons_2; [cbn; lia|apply Forall_nil_2]. }
    destruct (_ && _); [|exact (H0 c.(committed) H1)]. apply H0.
    destruct (Hlaw x c.(committed)) as [-> | [-> _]]; lia.
Qed.

Lemma run_over w o l : commit_law -> forall c c', over o c -> consumer_run w c l = Some c' -> over o c'.
Proof.
  intros Hlaw. induction l as [|s l IH]; intros c c' H; cbn; [by intros [= <-]|].
  destruct (consumer_step w c s) as [c1|] eqn:E; cbn; [|done]. apply IH. by eapply step_over.
Qed.

Lemma run_accounted w l : forall c c', accounted w c -> consumer_run w c l = Some c' -> accounted w c'.
Proof.
  induction l as [|s l IH]; intros c c' H; cbn; [by intros [= <-]|].
  destruct (consumer_step w c s) as [c1|] eqn:E; cbn; [|done]. apply IH. by eapply step_accounted.
Qed.

(** What the accounting says of a message that is done and of one that is held. *)
Lemma accounted_once w c o x :
  accounted w c -> (o, false) ∈ c.(results) -> x ∈ held c ->
  (o, true) ∉ c.(results) /\ (x < c.(position))%nat.
Proof.
  intros [_ _ _ _ H5 H6] Ho Hx. split.
  - intros Ht. assert (Hn : NoDup (map fst c.(results))).
    { pose proof (NoDup_seq c.(started_at) (c.(position) - c.(started_at))) as Hn. rewrite H6 in Hn.
      apply NoDup_app in Hn as (_ & _ & Hn). by apply NoDup_app in Hn as (Hn & _ & _). }
    clear H5 H6 Hx. induction c.(results) as [|[y b] r IH]; [by apply not_elem_of_nil in Ho|].
    cbn in Hn. apply NoDup_cons in Hn as [Hy Hn].
    apply elem_of_cons in Ho as [[= -> <-]|Ho], Ht as [[=]|Ht]; simplify_eq.
    + apply Hy, list_elem_of_fmap. by exists (y, true).
    + apply Hy, list_elem_of_fmap. by exists (y, false).
    + auto.
  - assert (Hin : x ∈ seq c.(started_at) (c.(position) - c.(started_at))).
    { rewrite H6, elem_of_app. by left. }
    apply elem_of_seq in Hin. lia.
Qed.

(** C35: A signal that failed is not committed, which is to bring it back. But when
    every older signal of the partition is done (none is being submitted, queued or
    processed) and a later one is processed and committed, the group resumes behind
    both, and the failed signal is lost for good: whatever comes then, other commits,
    any number of restarts at any time, it is never fetched or processed again. An
    older signal that is still being processed can move the group back by its own
    commit, when the client lets an older commit through
    ([older_commit_brings_it_back]). *)
Theorem failed_signal_is_lost (w : Z) (n offset : nat) (before l : list ConsumerStep) (c c' : Consumer)
    (i o later : nat) (Hlaw : commit_law)
    (Hreach : consumer_run w (NewKafkaConsumer w n offset) before = Some c)
    (Hfailed : (o, false) ∈ c.(results)) (Holder : Forall (fun x => o < x)%nat (held c))
    (Hlater : c.(cpool).(active) !! i = Some later) (Hlive : c.(cancelled) = false)
    (Hrun : consumer_run w c (Finish i true true :: l) = Some c') :
  (o < c'.(committed))%nat /\ (o < c'.(position))%nat /\ (o ∉ held c') /\ ((o, true) ∉ c'.(results)).
Proof.
  pose proof (run_accounted w before _ _ (new_accounted w n offset) Hreach) as Hacc.
  assert (Hin : later ∈ held c).
  { unfold held. rewrite !elem_of_app. right. right. by eapply list_elem_of_lookup_2. }
  destruct (accounted_once w c o later Hacc Hfailed Hin) as [Hnot Hpos].
  assert (Horder : (o < later)%nat) by (rewrite Forall_forall in Holder; by apply Holder).
  assert (Hover : exists c1, consumer_step w c (Finish i true true) = Some c1 /\ over o c1).
  { cbn [consumer_step]. destruct c.(panicked) eqn:Hp; [by cbn in Hrun; rewrite Hp in Hrun|].
    unfold pool_finish. rewrite Hlater. cbn. rewrite Hlive. cbn.
    eexists. split; [reflexivity|]. split; cbn.
    - destruct (Hlaw later c.(committed)) as [-> | [-> ?]]; lia.
    - lia.
    - unfold held in Holder. apply Forall_app in Holder as [Ha Hb]. apply Forall_app in Hb as [Hb Hc].
      unfold held. cbn. apply Forall_app_2; [done|]. apply Forall_app_2; [done|]. by apply Forall_take_drop.
    - apply Forall_app_2; [|apply Forall_cons_2; [cbn; lia|apply Forall_nil_2]].
      apply Forall_forall. intros [x []] Hx; [|done]. cbn. intros ->. done. }
  destruct Hover as (c1 & E1 & Hover). cbn [consumer_run] in Hrun. rewrite E1 in Hrun. cbn [mbind option_bind] in Hrun.
  destruct (run_over w o l Hlaw _ _ Hover Hrun) as [H1 H2 H3 H4]. rewrite Forall_forall in H3.
  rewrite Forall_forall in H4. split; [done|]. split; [done|]. split.
  - intros Ho. specialize (H3 o Ho). lia.
  - intros Ho. by specialize (H4 _ Ho eq_refl).
Qed.

End Consumer.

(** ** A run *)

Definition latest (o k : nat) : nat := Nat.max (S o) k.

Lemma latest_law : commit_law latest.
Proof. intros o k. unfold latest. destruct (decide (S o <= k)%nat); [right|left]; lia. Qed.

(** Two signals are fetched; the first fails. *)
Definition two_signals : list ConsumerStep :=
  [Fetch; Send; Fetch; Send; Take; Take; Finish 0 false true].

Definition after_two : option Consumer := consumer_run latest 2 (NewKafkaConsumer 2 2 0) two_signals.

Lemma signals_accounted_for_witness :
  exists c, after_two = Some c /\ (Z.of_nat (length c.(cpool).(active)) <= 2)%Z /\
    seq 0 2 ≡ₚ held c ++ map fst c.(results) ++ c.(refused).
Proof.
  unfold after_two. destruct (consumer_run latest 2 (NewKafkaConsumer 2 2 0) two_signals) as [c|] eqn:E.
  - exists c. split; [reflexivity|].
    destruct (signals_accounted_for latest 2 2 0 two_signals c ltac:(lia) E) as (H1 & _ & H2). split; [exact H1|].
    assert (Hp : (c.(started_at), c.(position)) = (0, 2)%nat).
    { assert (Hr : (fun c => (c.(started_at), c.(position))) <$> consumer_run latest 2 (NewKafkaConsumer 2 2 0) two_signals
                   = Some (0, 2)%nat) by (vm_compute; reflexivity).
      rewrite E in Hr. by injection Hr as -> ->. }
    injection Hp as Hs Hp. rewrite Hs, Hp in H2. exact H2.
  - exfalso. assert (Hr : is_Some (consumer_run latest 2 (NewKafkaConsumer 2 2 0) two_signals)) by (vm_compute; eauto).
    rewrite E in Hr. by destruct Hr.
Defined.

Definition state_two : Consumer := default (NewKafkaConsumer 2 0 0) after_two.

Definition second_run : list ConsumerStep := [Finish 0 true true; Produce; Restart; Fetch].

Definition restarted : Consumer := default (NewKafkaConsumer 2 0 0) (consumer_run latest 2 state_two second_run).

Lemma failed_signal_is_lost_witness :
  consumer_run latest 2 (NewKafkaConsumer 2 2 0) two_signals = Some state_two /\
  consumer_run latest 2 state_two second_run = Some restarted /\
  (0%nat ∉ held restarted) /\ restarted.(submitting) = Some 2%nat.
Proof.
  assert (Hrun : consumer_run latest 2 state_two second_run = Some restarted) by (vm_compute; reflexivity).
  assert (Htwo : consumer_run latest 2 (NewKafkaConsumer 2 2 0) two_signals = Some state_two)
    by (vm_compute; reflexivity).
  split; [exact Htwo|]. split; [exact Hrun|]. split; [|vm_compute; reflexivity].
  refine (proj1 (proj2 (proj2 (failed_signal_is_lost latest 2 2 0 two_signals [Produce; Restart; Fetch] state_two restarted
    0 0 1 latest_law Htwo _ _ _ _ Hrun)))).
  - replace state_two.(results) with [(0%nat, false)] by (vm_compute; reflexivity). left.
  - replace (held state_two) with [1%nat] by (vm_compute; reflexivity). repeat constructor.
  - vm_compute. reflexivity.
  - vm_compute. reflexivity.
Defined.

(** With a client that passes on every commit: 1 fails, 2 is committed, and then 0,
    which was fetched before them, moves the group back, so that 1 comes again. *)
Example older_commit_brings_it_back :
  submitting <$> consumer_run (fun o _ => S o) 3 (NewKafkaConsumer 3 3 0)
    [Fetch; Send; Fetch; Send; Fetch; Send; Take; Take; Take; Finish 1 false true; Finish 1 true true;
     Finish 0 true true; Restart; Fetch] = Some (Some 1%nat).
Proof. reflexivity. Qed.

(** [Submit] looks whether the pool is closed before it sends: stopped in between, the
    send is a panic. *)
Example stop_while_submitting_panics :
  panicked <$> consumer_run latest 2 (NewKafkaConsumer 2 2 0) [Fetch; StopPool; Send] = Some true.
Proof. reflexivity. Qed.

(** What was queued at the shutdown is processed, but not committed: it comes again. *)
Example drained_signals_come_again :
  (fun c => (c.(results), c.(committed), stop_returns c.(cpool))) <$>
    consumer_run latest 2 (NewKafkaConsumer 2 1 0) [Fetch; Send; Cancel; StopPool; Take; Finish 0 true true]
  = Some ([(0%nat, true)], 0%nat, true).
Proof. reflexivity. Qed.

(** Signals that are fetched after the pool was stopped are dropped without a word. *)
Example fetched_after_stop_is_refused :
  refused <$> consumer_run latest 2 (NewKafkaConsumer 2 2 0) [StopPool; Fetch; Fetch] = Some [0%nat; 1%nat].
Proof. reflexivity. Qed.
